(* ===== verification/_CoqProject ===== *)
-Q . S2P
Prelude.v
Mem.v
CString.v
Printf.v
Malloc.v
Alloc.v
CodeMem.v
RunQueue.v
Sync.v
SyncInv.v
Portal.v
PortalInv.v
PortalCall.v
JString.v
Zip.v
BootFS.v
DZMemory.v
DZChunks.v
DZRanges.v
MemAccess.v
Revoke.v
Classes.v
Types.v
VMSupport.v
CodeFile.v
CodeFormat.v
CodeLoad.v
Linker.v
Linking.v
GCHeap.v
GCTheory.v
GCInv.v
GCScan.v
GCCollect.v
GCAlloc.v
Copy.v
CopyInv.v
CopyGraph.v
DomainClasses.v
DomClassInv.v
DomClassLoad.v
CodeLookup.v
CodeLookInv.v
Roots.v
RootsInv.v
RootsFound.v
Exceptions.v
Unwinding.v
Threads.v
ThreadsInv.v
Domains.v
DomainsInv.v
