(* ===== verification/Prelude.v ===== *)
(** * Verification library for the JX/jcore kernel

    jcore is the C core of the JX operating system: protection domains with
    their own heaps run compiled Java code and call each other through
    portals.  The development covers the configuration of settings.makefile
    with KERNEL, DEBUG and the magic words switched on: one CPU, round-robin
    scheduling in C, the [gc_new] collector, [zero_Memory_org] memory objects,
    [DIRECT_SEND_PORTAL], 32-bit array elements.

    ** Parts and files

    - Machine model.  [Prelude]: machine integers, the result type [res] with
      its errors ([EPanic]: [sys_panic]; [EAssert]: a failed [ASSERT];
      [EThrow]: a Java exception; [EFault]: an access the C program has no
      right to make; [EFuel]: the model's bound was too small) and its
      notation, loops, lists.  [Mem]: byte-addressed memory, little endian.
    - Boot and C library.  [CString] (string, memory and number routines of
      arch/minic.c), [Printf] (number printing and [vprintf]), [JString]
      (arrays and strings of Java seen from C, core/load.c).
    - Block allocator (core/malloc.c).  [Malloc]: the bitmap over 1024-byte
      blocks, [jxmalloc], [jxmalloc_align], [jxfree]; [Alloc]: the interface
      [Allocator] that its clients are verified against; [CodeMem]: the code
      memory of a domain and the [malloc_*] front ends.
    - Scheduler.  [RunQueue]: core/runq.c, core/runq_inline.c and the thread
      operations of core/thread.c that give up the CPU or wake a thread up.
    - Threads (core/thread.c).  [Threads]: creation, the end of a thread,
      search and names; [ThreadsInv]: the list of the threads of a domain, what
      a new thread finds and what an ended thread gives back.
    - Thread synchronisation.  [Sync]: Interface/zero_AtomicVariable.c,
      zero_CAS.c and the blocking operations of zero_CPUManager.c on top of
      the scheduler; a thread that gave up the CPU continues at its
      continuation.  [SyncInv]: the invariant of their interleavings.
    - Portals (core/portal.c).  [Portal]: services, the queue of waiting
      senders, [direct_send_portal], [receive_portalcall], reference counts;
      [PortalInv]: the protocol as a step relation and its invariant;
      [PortalCall]: one call from end to end.  A C function that gives up the
      CPU is cut there; [pc] is the place where its thread continues.
    - Parameter copying (core/portal.c).  [Copy]: [copy_reference] and the
      copy of each kind of object; [CopyInv]: its invariant; [CopyGraph]: the
      copied object graph.
    - Boot archive and file system.  [Zip] (core/zip.c), [BootFS]
      (core/memfs.c, core/libcache.c, Interface/zero_BootFS.c).
    - Memory objects (Interface/zero_Memory_org.c).  [DZMemory]: descriptors,
      proxies, split, join, revoke, reference counts; [DZChunks]: chains of
      descriptors and what they represent; [DZRanges]: correctness of the
      operations; [MemAccess]: the accessors and copies; [Revoke]: revocation
      and what the holder of a revoked object can still do.
    - Classes and run-time support.  [Classes]: libraries, class descriptors,
      lookup by name, the registry of array classes (core/load.c); [Types]:
      the type tests of core/vmsupport.c and core/load.c; [VMSupport]: array
      copies, checked stores, the 64-bit arithmetic called by compiled code.
    - Class loader (core/load.c).  [CodeFile]: the reader of a compiled
      library and the environment [LoaderEnv] it asks for memory and strings;
      [CodeFormat]: the file format as an abstract syntax with its encoder;
      [CodeLoad]: the round trip; [Linker]: method lookup, symbols, method
      tables, interfaces; [Linking]: what linking establishes.
    - Classes of a domain (core/load.c).  [DomainClasses]: [load], [loadLib],
      the copies of libraries, classes and array classes that a domain keeps,
      their static fields, lookup by name; [DomClassInv]: what a well-formed
      domain is; [DomClassLoad]: that loading establishes it.
    - Domains (core/domain.c).  [Domains]: the table of domains, allocation and
      search of descriptors, [createDomain]; [DomainsInv]: slots and numbers are
      not given twice, what a new domain has.
    - Code by address (core/domain.c, Memory/gc_thread.c).  [CodeLookup]: the
      method, line and stack map at an address, and where a thread must be
      before a collection; [CodeLookInv]: that the search is exact.
    - Exceptions (core/exception_handler.c).  [Exceptions]: creating an
      exception, the search of the stack, the exit of a service;
      [Unwinding]: where an exception ends up.
    - Copying collector (Memory/gc_new.c, gc_move.c, gc_move_common.c,
      gc_alloc.c and what they call).  [GCHeap]: the code; [GCTheory]: objects
      and the copy of one; [GCInv]: the invariant of a collection; [GCScan]:
      visiting and scanning; [GCCollect]: a whole collection; [GCAlloc]:
      allocation, registered objects, creation of the semispaces.
    - Roots (Memory/gc_impl.c, Memory/gc_stack.c).  [Roots]: the walks over
      stacks, static fields, services, registered objects, interrupt handlers
      and the domain descriptor; [RootsInv]: a collection that walks while it
      moves objects is a collection of the roots found before; [RootsFound]:
      which cells the walks find.

    Every operation is a function on an explicit state and returns [res];
    pointers are [Z] and [NULL] is 0.  Definitions keep the names of the C
    functions.  The components meet at interfaces: the allocator ([Allocator]),
    what exceptions ask of heaps, stacks and compiled code ([Runtime]), what the collector asks of memory objects and services ([GCServices]),
    what the portal asks of the copying of parameters ([Copying]) and the
    copying of services, classes and memory objects ([CopyServices]), what the
    loader asks of its surroundings ([LoaderEnv]).

    ** What the theorems show

    - The collector keeps exactly what the roots reach, preserves its shape,
      leaves a well-formed heap and frees the rest; allocation extends a
      well-formed heap by one object and collects at most once.  The walks
      over stacks and static fields visit exactly the references of the frames
      and classes, and may be interleaved with the moving of objects.
    - A portal call to an idle service delivers the arguments (references as
      copies), returns the result and leaves the service ready; every interleaving of portal
      operations keeps the queues FIFO and the protocol state consistent.
      A parameter arrives as a copy of the graph of objects it reaches, with
      its sharing and its cycles; an array of arrays arrives with references
      into the heap of the caller.
    - An exception continues at the first frame that handles it, at the caller
      of the service or nowhere; the caller of a service gets a copy of it.
    - A new domain gets a free slot, a number of its own, and its tables and
      name in a block of its own.
    - A new thread starts with a number and a stack of its own; a thread that
      ends gives back exactly what it had and runs no more.
    - The scheduler's linked queues refine two abstract FIFO queues; every
      runnable thread runs after a bounded number of yields.
    - No wake-up of an atomic variable is lost, in either of its modes, as long
      as the rules of [polite] are kept; an update wakes every waiter.
    - The block allocator hands out the first free run after its cursor and
      gets it back with [jxfree]; code memory never overlaps.
    - A chunk of memory is released exactly with its last reference; splitting
      and joining neither lose nor duplicate a byte; after a
      revocation every operation that tests for validity refuses every holder
      of an old range; accessors respect bounds; overlapping moves are correct.
    - A library file is read back as the classes that were encoded; a damaged
      one is rejected; linking resolves every symbol to its target and fills
      the method tables.  Classes are found by name; the type tests decide
      the subtype relation of the class hierarchy.  A domain that loads a
      library has well-formed copies of it and of all it needs, whose static
      fields are disjoint.
    - The archive reader returns exactly the entries of the archive; files are
      found and read byte by byte; strings compare as C says.

    Several theorems describe behaviour the code does not mean to have
    (allocation in tiny heaps, a removed sender that hides the next one,
    credentials that outlive a call, arrays of arrays in parameters, a thread
    that is listed twice at an atomic variable, the sign of 64-bit division, the
    static fields of a library loaded twice, a refused call that raises an old
    result, a slot of the domain table that is overlooked);
    the comment at the theorem says so.

    ** Bounds

    Fuel is used where C loops without a syntactic bound: walks along linked
    queues get one more than the number of threads or domains in the store
    (queues have no duplicates, see [queue_len]); string loops one more than
    the length of the string ([cstr]); archive walks the number of directory
    entries; walks along superclasses the number of classes; [check_assign]
    three times the height of the class and four; [loadLib] the height of the
    library among those it needs; the walk along the threads of a domain the
    number of threads; walks along a stack and the search for a handler the
    number of frames; a collection a bound that [gc_new_gc_correct]
    instantiates, a copied parameter the number of objects it reaches.  The theorems prove that the stated fuel gives a
    result.

    ** Limits of the model

    - Interrupts are disabled in all modelled operations, as in the code; the
      interleaving of threads is that of the scheduler operations.
    - [GCCollect] takes the roots as a list of cells, which [Roots] finds; the
      threads of the collected domain take part in no portal call, and in the
      portal model objects do not move.  A thread that must run on to the next
      stack map before a collection is outside the model.
    - The constructor of an exception is a function of the state that returns;
      entering a handler is a result of the model, not a jump.
    - Portals, synchronisation and threads each keep the fields of a thread
      control block that they use; the scheduler's fields are shared.
    - The theorem on copied parameters assumes that the copies fit into the
      free part of the receiver's heap, so that no collection interrupts the
      copying, and a stack deep enough for the recursion ([CHECK_STACK_SIZE]).
    - The theorems on synchronisation assume the rules of [polite]: values
      change with [atomicUpdateUnblock], nobody is woken behind the back of a
      variable, and a variable outside list mode has one waiter at a time.
    - The theorem on portal calls is for a sleeping receiver and no other
      runnable thread; the protocol theorem has every interleaving.
    - Domains are not terminated in [portal_step].
    - The addresses of the native methods that fill the method tables of the
      built-in classes, and the allocation of constant strings, are arguments
      of the linker.
    - Statistics, debug output and profiling are left out.

    ** Not modelled

    The execution of compiled code, context switches and the stubs around them
    (assembly); the first thread of a domain, which starts Java code; the
    termination of domains (it always panics in this configuration); stacks that grow (compiled out); the small portals of
    DomainZero (thin native methods over other components and devices);
    Java-level scheduling and SMP, the alternative collectors and memory
    objects (compiled out); hardware access, the monitor and the profiler,
    device emulation, checksums for the debug transmission, vendored LZO and
    the generated symbol table. *)

From stdpp Require Export base list gmap strings.
From Stdlib Require Export ZArith Lia.
#[local] Open Scope Z_scope.

(** ** Machine integers

    The kernel is compiled for i386: [u1_t]/[u2_t]/[u4_t]/[u8_t] are 8, 16, 32
    and 64 bit unsigned integers, [jbyte]/[jshort]/[jint]/[jlong] their signed
    two's complement counterparts (Headers/types.h).  A value of such a type is
    a [Z] in range; [uwrap w] and [swrap w] are the conversions C inserts. *)

Definition uwrap (w z : Z) : Z := z mod 2 ^ w.
Definition swrap (w z : Z) : Z := (z + 2 ^ (w - 1)) mod 2 ^ w - 2 ^ (w - 1).

Definition u8 (z : Z) : Z := uwrap 8 z.
Definition u16 (z : Z) : Z := uwrap 16 z.
Definition u32 (z : Z) : Z := uwrap 32 z.
Definition u64 (z : Z) : Z := uwrap 64 z.
Definition s8 (z : Z) : Z := swrap 8 z.
Definition s16 (z : Z) : Z := swrap 16 z.
Definition s32 (z : Z) : Z := swrap 32 z.
Definition s64 (z : Z) : Z := swrap 64 z.

Lemma uwrap_range w z : 0 <= w -> 0 <= uwrap w z < 2 ^ w.
Proof. intros. apply Z.mod_pos_bound. lia. Qed.

Lemma uwrap_small w z : 0 <= z < 2 ^ w -> uwrap w z = z.
Proof. apply Z.mod_small. Qed.

Lemma uwrap_add_idemp_l w a b : uwrap w (uwrap w a + b) = uwrap w (a + b).
Proof. unfold uwrap. apply Zplus_mod_idemp_l. Qed.

Lemma uwrap_congr w a b k : 0 <= w -> a = b + k * 2 ^ w -> uwrap w a = uwrap w b.
Proof. intros ? ->. unfold uwrap. apply Z_mod_plus_full. Qed.

Lemma swrap_range w z : 0 < w -> - 2 ^ (w - 1) <= swrap w z < 2 ^ (w - 1).
Proof.
  intros Hw. unfold swrap.
  pose proof (Z.mod_pos_bound (z + 2 ^ (w - 1)) (2 ^ w) ltac:(lia)).
  assert (2 ^ w = 2 * 2 ^ (w - 1)) by (rewrite <- Z.pow_succ_r by lia; f_equal; lia). lia.
Qed.

Lemma swrap_small w z : 0 < w -> - 2 ^ (w - 1) <= z < 2 ^ (w - 1) -> swrap w z = z.
Proof.
  intros Hw Hz. unfold swrap.
  assert (2 ^ w = 2 * 2 ^ (w - 1)) by (rewrite <- Z.pow_succ_r by lia; f_equal; lia).
  rewrite Z.mod_small by lia. lia.
Qed.

Lemma u8_range z : 0 <= u8 z < 256.
Proof. exact (uwrap_range 8 z ltac:(lia)). Qed.
Lemma u16_range z : 0 <= u16 z < 65536.
Proof. exact (uwrap_range 16 z ltac:(lia)). Qed.
Lemma u32_range z : 0 <= u32 z < 4294967296.
Proof. exact (uwrap_range 32 z ltac:(lia)). Qed.
Lemma u64_range z : 0 <= u64 z < 18446744073709551616.
Proof. exact (uwrap_range 64 z ltac:(lia)). Qed.
Lemma u8_small z : 0 <= z < 256 -> u8 z = z.
Proof. exact (uwrap_small 8 z). Qed.
Lemma u16_small z : 0 <= z < 65536 -> u16 z = z.
Proof. exact (uwrap_small 16 z). Qed.
Lemma u32_small z : 0 <= z < 4294967296 -> u32 z = z.
Proof. exact (uwrap_small 32 z). Qed.
Lemma u64_small z : 0 <= z < 18446744073709551616 -> u64 z = z.
Proof. exact (uwrap_small 64 z). Qed.
Lemma s8_range z : -128 <= s8 z < 128.
Proof. exact (swrap_range 8 z ltac:(lia)). Qed.
Lemma s32_range z : -2147483648 <= s32 z < 2147483648.
Proof. exact (swrap_range 32 z ltac:(lia)). Qed.
Lemma s8_small z : -128 <= z < 128 -> s8 z = z.
Proof. exact (swrap_small 8 z ltac:(lia)). Qed.
Lemma s32_small z : -2147483648 <= z < 2147483648 -> s32 z = z.
Proof. exact (swrap_small 32 z ltac:(lia)). Qed.

Create HintDb words.
Create Rewrite HintDb words.
#[export] Hint Resolve u8_range u16_range u32_range u64_range s8_range s32_range : words.
#[export] Hint Rewrite u8_small u16_small u32_small u64_small s8_small s32_small
  using lia : words.

(** [wsimpl] removes every wrap whose argument is provably in range. *)
Ltac wsimpl := autorewrite with words in *.

(** [zbool] decides a goal built from integer comparisons by cases. *)
Ltac zbool :=
  repeat match goal with
  | |- context [?a =? ?b] => destruct (Z.eqb_spec a b)
  | |- context [?a <=? ?b] => destruct (Z.leb_spec a b)
  | |- context [?a <? ?b] => destruct (Z.ltb_spec a b)
  end; simpl; try done; try lia.

(** ** Bits *)

Lemma testbit_1 n : Z.testbit 1 n = (n =? 0).
Proof. by destruct n. Qed.

Lemma testbit_shiftl_1 k j : 0 <= k -> 0 <= j -> Z.testbit (Z.shiftl 1 k) j = (j =? k).
Proof.
  intros. rewrite Z.shiftl_spec, testbit_1 by lia.
  destruct (Z.eqb_spec j k), (Z.eqb_spec (j - k) 0); lia.
Qed.

Lemma land_bit_nonzero x k : 0 <= k -> negb (Z.land x (Z.shiftl 1 k) =? 0) = Z.testbit x k.
Proof.
  intros Hk. destruct (Z.testbit x k) eqn:E.
  - apply negb_true_iff, Z.eqb_neq. intros H. apply (f_equal (fun z => Z.testbit z k)) in H.
    rewrite Z.land_spec, testbit_shiftl_1, E, Z.eqb_refl, Z.bits_0 in H by lia. done.
  - apply negb_false_iff, Z.eqb_eq. apply Z.bits_inj'. intros j Hj.
    rewrite Z.land_spec, testbit_shiftl_1, Z.bits_0 by lia.
    destruct (Z.eqb_spec j k) as [->|]. { by rewrite E. } by rewrite andb_false_r.
Qed.

Lemma testbit_uwrap w x j : 0 <= j < w -> Z.testbit (uwrap w x) j = Z.testbit x j.
Proof. intros. unfold uwrap. apply Z.mod_pow2_bits_low. lia. Qed.

Lemma log2_lt k v : 0 < k -> 0 <= v < 2 ^ k -> Z.log2 v < k.
Proof.
  intros Hk Hv. destruct (Z.eq_dec v 0) as [->|]; [done|]. by apply Z.log2_lt_pow2; lia.
Qed.

Lemma testbit_high k v j : 0 < k -> 0 <= v < 2 ^ k -> k <= j -> Z.testbit v j = false.
Proof.
  intros Hk Hv Hj. destruct (Z.eq_dec v 0) as [->|]; [apply Z.bits_0|].
  apply Z.bits_above_log2; [lia|]. pose proof (log2_lt k v Hk Hv). lia.
Qed.

Lemma lxor_range k a b : 0 < k -> 0 <= a < 2 ^ k -> 0 <= b < 2 ^ k -> 0 <= Z.lxor a b < 2 ^ k.
Proof.
  intros Hk Ha Hb. split; [apply Z.lxor_nonneg; lia|].
  destruct (Z.eq_dec (Z.lxor a b) 0) as [->|Hn]; [lia|]. apply Z.log2_lt_cancel. rewrite Z.log2_pow2 by lia.
  eapply Z.le_lt_trans; [apply Z.log2_lxor; lia|]. apply Z.max_lub_lt; by apply log2_lt.
Qed.

(** Masking with [~(2^k - 1)] rounds down to a multiple of [2^k]. *)
Lemma land_align k a :
  0 <= k -> 0 <= a < 4294967296 -> Z.land a (u32 (Z.lnot (2 ^ k - 1))) = a / 2 ^ k * 2 ^ k.
Proof.
  intros Hk Ha. replace (2 ^ k - 1) with (Z.ones k) by (rewrite Z.ones_equiv; lia).
  unfold u32, uwrap. rewrite <- Z.land_ones by lia.
  rewrite (Z.land_comm (Z.lnot _)), Z.land_assoc, Z.land_ones by lia.
  rewrite (Z.mod_small a) by (change (2 ^ 32) with 4294967296; lia).
  by rewrite <- Z.ldiff_land, Z.ldiff_ones_r, Z.shiftl_mul_pow2, Z.shiftr_div_pow2 by lia.
Qed.

(** The null pointer *)
Definition NULL : Z := 0.

(** ** Outcomes

    C code that can stop: [sys_panic] (does not return), a failed [ASSERT]
    (an [int $3] breakpoint in this configuration), [exceptionHandler]
    (unwinds to the Java caller), a page fault on a pointer that is [NULL] or
    leads to no object, and, in the model only, a loop that used up its fuel. *)

Inductive err :=
| EPanic (msg : string)
| EAssert (cond : string)
| EThrow (exn : string)
| EFault
| EFuel.

Inductive res (A : Type) :=
| Ok (a : A)
| Err (e : err).
Arguments Ok {A} a.
Arguments Err {A} e.

#[export] Instance err_eq_dec : EqDecision err.
Proof. solve_decision. Defined.

Definition rbind {A B} (m : res A) (k : A -> res B) : res B :=
  match m with Ok a => k a | Err e => Err e end.

Declare Scope res_scope.
Delimit Scope res_scope with res.
Notation "'let!' x := m 'in' k" := (rbind m (fun x => k))
  (at level 10, x name, m at level 100, k at level 200) : res_scope.
Notation "'let!' ' p := m 'in' k" := (rbind m (fun x => match x with p => k end))
  (at level 10, p pattern, m at level 100, k at level 200) : res_scope.
#[global] Open Scope res_scope.

Definition assert_ (cond : string) (b : bool) : res unit :=
  if b then Ok tt else Err (EAssert cond).

Definition is_ok {A} (r : res A) : bool := match r with Ok _ => true | Err _ => false end.

Lemma rbind_ok {A B} (m : res A) (k : A -> res B) b :
  rbind m k = Ok b <-> exists a, m = Ok a /\ k a = Ok b.
Proof. destruct m as [a|e]; simpl; split; [eauto|by intros (? & [= <-] & ?)|done|by intros (? & ? & ?)]. Qed.

Lemma rbind_assoc {A B C} (m : res A) (f : A -> res B) (g : B -> res C) :
  rbind (rbind m f) g = rbind m (fun a => rbind (f a) g).
Proof. by destruct m. Qed.

(** [res_inv H] takes apart a successful computation [H : ... = Ok _]. *)
Ltac res_inv H :=
  repeat match type of H with
  | rbind _ _ = Ok _ =>
      let a := fresh "r" in let E := fresh "E" in
      apply rbind_ok in H as (a & E & H)
  end.

(** ** Loops

    [loop fuel body s] runs [body] from [s]; [inl s'] goes round again and
    [inr a] leaves the loop (a [break], a [return] or a false condition). *)

Fixpoint loop {S A} (fuel : nat) (body : S -> res (S + A)) (s : S) : res A :=
  match fuel with
  | O => Err EFuel
  | Datatypes.S n =>
      match body s with
      | Ok (inl s') => loop n body s'
      | Ok (inr a) => Ok a
      | Err e => Err e
      end
  end.

(** [for_n n i body s]: [for (k = i; k < i + n; k++) body]. *)
Fixpoint for_n {S} (n : nat) (i : Z) (body : Z -> S -> res S) (s : S) : res S :=
  match n with
  | O => Ok s
  | Datatypes.S k => let! s' := body i s in for_n k (i + 1) body s'
  end.

Section LoopRules.
Context {S A : Type} (body : S -> res (S + A)) (I : S -> Prop) (m : S -> Z).

(** Total correctness: an invariant and a decreasing non-negative measure. *)
Lemma loop_total (Q : res A -> Prop) s fuel :
  (forall s, I s -> 0 <= m s) ->
  (forall s s', I s -> body s = Ok (inl s') -> I s' /\ m s' < m s) ->
  (forall s a, I s -> body s = Ok (inr a) -> Q (Ok a)) ->
  (forall s e, I s -> body s = Err e -> Q (Err e)) ->
  I s -> (Z.to_nat (m s) < fuel)%nat -> Q (loop fuel body s).
Proof.
  intros Hm Hstep Hexit Herr. revert s.
  induction fuel as [|n IH]; intros s Hs Hf; [lia|]. simpl.
  destruct (body s) as [[s'|a]|e] eqn:E.
  - destruct (Hstep _ _ Hs E) as [Hs' Hlt]. apply IH; [done|].
    pose proof (Hm _ Hs). pose proof (Hm _ Hs'). lia.
  - by eapply Hexit.
  - by eapply Herr.
Qed.

(** Partial correctness. *)
Lemma loop_partial (Q : A -> Prop) s fuel a :
  (forall s s', I s -> body s = Ok (inl s') -> I s') ->
  (forall s a, I s -> body s = Ok (inr a) -> Q a) ->
  I s -> loop fuel body s = Ok a -> Q a.
Proof.
  intros Hstep Hexit. revert s.
  induction fuel as [|n IH]; intros s Hs; simpl; [done|].
  destruct (body s) as [[s'|a']|e] eqn:E; intros; simplify_eq; eauto.
Qed.
End LoopRules.

(** More fuel never changes the outcome of a loop that ended. *)
Lemma loop_mono {S A} (body : S -> res (S + A)) fuel fuel' s :
  (fuel <= fuel')%nat -> loop fuel body s <> Err EFuel -> loop fuel' body s = loop fuel body s.
Proof.
  revert fuel' s. induction fuel as [|n IH]; intros [|n'] s Hle; simpl; try done; try lia.
  destruct (body s) as [[s'|a]|e]; intros; [apply IH; [lia|done]|done|done].
Qed.

(** An invariant of a loop that never leaves: it uses up any amount of fuel. *)
Lemma loop_diverges {S A} (body : S -> res (S + A)) (I : S -> Prop) fuel s :
  (forall s, I s -> exists s', body s = Ok (inl s') /\ I s') ->
  I s -> loop fuel body s = Err EFuel.
Proof.
  intros Hstep. revert s. induction fuel as [|n IH]; intros s Hs; [done|]. simpl.
  destruct (Hstep _ Hs) as (s' & -> & Hs'). by apply IH.
Qed.

Lemma for_n_total {S} (body : Z -> S -> res S) (I : Z -> S -> Prop) n i s :
  (forall k s, i <= k < i + Z.of_nat n -> I k s -> exists s', body k s = Ok s' /\ I (k + 1) s') ->
  I i s -> exists s', for_n n i body s = Ok s' /\ I (i + Z.of_nat n) s'.
Proof.
  revert i s. induction n as [|n IH]; intros i s Hstep Hi; simpl.
  - exists s. rewrite Z.add_0_r. done.
  - destruct (Hstep i s ltac:(lia) Hi) as (s' & -> & Hs'). simpl.
    destruct (IH (i + 1) s') as (s'' & E & H); [|done|].
    + intros k t Hk. apply Hstep. lia.
    + exists s''. split; [done|]. by replace (i + Z.of_nat (Datatypes.S n)) with (i + 1 + Z.of_nat n) by lia.
Qed.

(** A duplicate-free list of keys is no longer than the map. *)
Lemma nodup_keys_le {A} (m : gmap Z A) (l : list Z) :
  NoDup l -> (forall x, x ∈ l -> is_Some (m !! x)) -> (length l <= size m)%nat.
Proof.
  intros Hnd Hin. rewrite <- (size_list_to_set (C := gset Z) l Hnd), <- (size_dom (D := gset Z) m).
  apply subseteq_size. intros x Hx%elem_of_list_to_set. by apply elem_of_dom, Hin.
Qed.
