(* ===== verification/Mem.v ===== *)
(** * Byte-addressed memory

    The kernel runs with a flat address space; every component that reads or
    writes raw bytes (the block bitmap, strings, boot records, memory objects)
    shares this model.  A memory is a total function from addresses to byte
    values; loads truncate to the access width, so no well-formedness side
    condition is needed.  Multi-byte accesses are little endian. *)

From S2P Require Import Prelude.
From Stdlib Require Import Setoid Morphisms.
#[local] Open Scope Z_scope.

Definition memory : Type := Z -> Z.

(** the word in front of every object (Headers/core/object.h) *)
Definition MAGIC_OBJECT : Z := 0xbebeceee.

Definition upd (m : memory) (a v : Z) : memory := fun x => if x =? a then v else m x.

Definition load8 (m : memory) (a : Z) : Z := u8 (m a).
Definition load16 (m : memory) (a : Z) : Z := load8 m a + 256 * load8 m (a + 1).
Definition load32 (m : memory) (a : Z) : Z := load16 m a + 65536 * load16 m (a + 2).

Definition store8 (m : memory) (a v : Z) : memory := upd m a (u8 v).
Definition store16 (m : memory) (a v : Z) : memory := store8 (store8 m a v) (a + 1) (Z.shiftr v 8).
Definition store32 (m : memory) (a v : Z) : memory :=
  store16 (store16 m a v) (a + 2) (Z.shiftr v 16).

(** [bytes_at m a n]: the [n] bytes from address [a]. *)
Fixpoint bytes_at (m : memory) (a : Z) (n : nat) : list Z :=
  match n with
  | O => []
  | S k => load8 m a :: bytes_at m (a + 1) k
  end.

Fixpoint store_bytes (m : memory) (a : Z) (l : list Z) : memory :=
  match l with
  | [] => m
  | b :: l' => store_bytes (store8 m a b) (a + 1) l'
  end.

(** Two memories agree when every byte load does: the equality the model's
    clients can observe. *)
Definition mem_eq (m1 m2 : memory) : Prop := forall a, load8 m1 a = load8 m2 a.

#[export] Instance mem_equiv : Equiv memory := mem_eq.

#[export] Instance mem_eq_equivalence : Equivalence (≡@{memory}).
Proof.
  split; [by intros m a|by intros m1 m2 H a; rewrite (H a)|].
  intros m1 m2 m3 H1 H2 a. by rewrite (H1 a), (H2 a).
Qed.

Lemma load8_range m a : 0 <= load8 m a < 256.
Proof. apply u8_range. Qed.
#[export] Hint Resolve load8_range : words.

Lemma load8_store8 m a v : load8 (store8 m a v) a = u8 v.
Proof. unfold load8, store8, upd. rewrite Z.eqb_refl. apply u8_small, u8_range. Qed.

Lemma load8_store8_ne m a b v : a <> b -> load8 (store8 m a v) b = load8 m b.
Proof. intros. unfold load8, store8, upd. by rewrite (proj2 (Z.eqb_neq b a)) by lia. Qed.

Lemma load8_store8_if m a b v : load8 (store8 m a v) b = if decide (a = b) then u8 v else load8 m b.
Proof. case_decide as H; [subst; apply load8_store8|by apply load8_store8_ne]. Qed.

Create Rewrite HintDb mem.
#[export] Hint Rewrite load8_store8 : mem.
#[export] Hint Rewrite load8_store8_ne using lia : mem.

(** [mem_simpl] resolves loads over stores at syntactically comparable addresses. *)
Ltac mem_simpl := autorewrite with mem.

#[export] Instance store8_proper :
  Proper ((≡) ==> (=) ==> (=) ==> (≡)) (store8 : memory -> Z -> Z -> memory).
Proof. intros m1 m2 Hm a ? <- v ? <- b. rewrite !load8_store8_if. case_decide; [done|apply Hm]. Qed.

#[export] Instance load8_proper : Proper ((≡) ==> (=) ==> (=)) (load8 : memory -> Z -> Z).
Proof. intros m1 m2 Hm a ? <-. apply Hm. Qed.

#[export] Instance load16_proper : Proper ((≡) ==> (=) ==> (=)) (load16 : memory -> Z -> Z).
Proof. intros m1 m2 Hm a ? <-. unfold load16. by rewrite Hm. Qed.

#[export] Instance load32_proper : Proper ((≡) ==> (=) ==> (=)) (load32 : memory -> Z -> Z).
Proof. intros m1 m2 Hm a ? <-. unfold load32. by rewrite Hm. Qed.

Lemma load16_range m a : 0 <= load16 m a < 65536.
Proof. unfold load16. pose proof (load8_range m a). pose proof (load8_range m (a + 1)). lia. Qed.

Lemma load32_range m a : 0 <= load32 m a < 4294967296.
Proof. unfold load32. pose proof (load16_range m a). pose proof (load16_range m (a + 2)). lia. Qed.
#[export] Hint Resolve load16_range load32_range : words.

Lemma u16_split v : u8 v + 256 * u8 (Z.shiftr v 8) = u16 v.
Proof.
  rewrite Z.shiftr_div_pow2 by lia. unfold u8, u16, uwrap.
  change (2 ^ 8) with 256. change (2 ^ 16) with (256 * 256). rewrite Z.rem_mul_r by lia. lia.
Qed.

Lemma u32_split v : u16 v + 65536 * u16 (Z.shiftr v 16) = u32 v.
Proof.
  rewrite Z.shiftr_div_pow2 by lia. unfold u16, u32, uwrap.
  change (2 ^ 16) with 65536. change (2 ^ 32) with (65536 * 65536).
  rewrite Z.rem_mul_r by lia. lia.
Qed.

Lemma load16_store16 m a v : load16 (store16 m a v) a = u16 v.
Proof. unfold load16, store16. mem_simpl. apply u16_split. Qed.

Lemma load16_store16_ne m a b v :
  b + 2 <= a \/ a + 2 <= b -> load16 (store16 m a v) b = load16 m b.
Proof. intros [?|?]; unfold load16, store16; by mem_simpl. Qed.

Lemma load32_store32 m a v : load32 (store32 m a v) a = u32 v.
Proof.
  unfold load32, store32. rewrite load16_store16, load16_store16_ne by lia.
  rewrite load16_store16. apply u32_split.
Qed.

Lemma load8_store16_ne m a b v :
  b < a \/ a + 2 <= b -> load8 (store16 m a v) b = load8 m b.
Proof. intros [?|?]; unfold store16; by mem_simpl. Qed.

Lemma load8_store32_ne m a b v :
  b < a \/ a + 4 <= b -> load8 (store32 m a v) b = load8 m b.
Proof. intros [?|?]; unfold store32; rewrite !load8_store16_ne by lia; done. Qed.

Lemma load32_ext m m' a : (forall x, a <= x < a + 4 -> load8 m' x = load8 m x) -> load32 m' a = load32 m a.
Proof. intros H. unfold load32, load16. rewrite !H by lia. done. Qed.

Lemma load32_store32_ne m a b v : b + 4 <= a \/ a + 4 <= b -> load32 (store32 m a v) b = load32 m b.
Proof. intros. apply load32_ext. intros. apply load8_store32_ne. lia. Qed.

(** a word is zero when its bytes are *)
Lemma load32_zero m a : load32 m a = 0 -> forall x, a <= x < a + 4 -> load8 m x = 0.
Proof.
  intros H x Hx. unfold load32, load16 in H. pose proof (load8_range m a). pose proof (load8_range m (a + 1)).
  pose proof (load8_range m (a + 2)). pose proof (load8_range m (a + 2 + 1)).
  assert (x = a \/ x = a + 1 \/ x = a + 2 \/ x = a + 2 + 1) as [->|[->|[->| ->]]]; lia.
Qed.
Lemma load32_clear m a : (forall x, a <= x < a + 4 -> load8 m x = 0) -> load32 m a = 0.
Proof. intros H. unfold load32, load16. rewrite !H by lia. done. Qed.

Lemma length_bytes_at m a n : length (bytes_at m a n) = n.
Proof. revert a. induction n; intros; simpl; auto. Qed.

Lemma bytes_at_lookup m a n i :
  (i < n)%nat -> bytes_at m a n !! i = Some (load8 m (a + Z.of_nat i)).
Proof.
  revert a i. induction n as [|n IH]; intros a [|i] Hi; simpl; try lia.
  - by rewrite Z.add_0_r.
  - rewrite IH by lia. do 2 f_equal. lia.
Qed.

Lemma load8_store_bytes_out m a l b :
  b < a \/ a + Z.of_nat (length l) <= b -> load8 (store_bytes m a l) b = load8 m b.
Proof.
  revert m a. induction l as [|x l IH]; intros m a Hb; simpl in *; [done|].
  rewrite IH by lia. apply load8_store8_ne. lia.
Qed.

Lemma load8_store_bytes_in m a l i x :
  l !! i = Some x -> load8 (store_bytes m a l) (a + Z.of_nat i) = u8 x.
Proof.
  revert m a i. induction l as [|y l IH]; intros m a [|i] Hi; simplify_eq/=.
  - rewrite load8_store_bytes_out by lia. rewrite Z.add_0_r. apply load8_store8.
  - rewrite <- (IH (store8 m a y) (a + 1) i) by done. f_equal. lia.
Qed.

Lemma bytes_at_ext m1 m2 a n :
  (forall k, a <= k < a + Z.of_nat n -> load8 m1 k = load8 m2 k) -> bytes_at m1 a n = bytes_at m2 a n.
Proof.
  revert a. induction n as [|n IH]; intros a H; simpl; [done|].
  f_equal; [apply H; lia|apply IH; intros; apply H; lia].
Qed.

Lemma bytes_at_store_bytes m a l :
  Forall (fun x => 0 <= x < 256) l -> bytes_at (store_bytes m a l) a (length l) = l.
Proof.
  intros Hl. apply list_eq. intros i.
  destruct (l !! i) as [x|] eqn:E.
  - pose proof (lookup_lt_Some _ _ _ E). rewrite bytes_at_lookup by done.
    rewrite (load8_store_bytes_in _ _ _ _ _ E). f_equal. apply u8_small.
    rewrite Forall_lookup in Hl. eauto.
  - apply lookup_ge_None in E. apply lookup_ge_None. by rewrite length_bytes_at.
Qed.

(** [holds m a l]: the bytes [l] are stored from address [a]. *)
Definition holds (m : memory) (a : Z) (l : list Z) : Prop :=
  forall i x, l !! i = Some x -> load8 m (a + Z.of_nat i) = x.

Lemma holds_nil m a : holds m a [].
Proof. by intros i x. Qed.

Lemma holds_cons m a x l : holds m a (x :: l) <-> load8 m a = x /\ holds m (a + 1) l.
Proof.
  split.
  - intros H. split.
    + rewrite <- (H 0%nat x) by done. f_equal. lia.
    + intros i y Hy. rewrite <- (H (S i) y) by done. f_equal. lia.
  - intros [<- H] [|i] y; simpl; [intros [= <-]; f_equal; lia|]. intros Hy. rewrite <- (H i y Hy). f_equal. lia.
Qed.

Lemma holds_app m a l1 l2 :
  holds m a (l1 ++ l2) <-> holds m a l1 /\ holds m (a + Z.of_nat (length l1)) l2.
Proof.
  revert a. induction l1 as [|x l1 IH]; intros a; simpl.
  - rewrite Z.add_0_r. split; [by split; [apply holds_nil|]|by intros [_ ?]].
  - rewrite !holds_cons, IH. replace (a + 1 + Z.of_nat (length l1)) with (a + Z.of_nat (S (length l1))) by lia. tauto.
Qed.

Lemma holds_frame m m' a l :
  holds m a l -> (forall x, a <= x < a + Z.of_nat (length l) -> load8 m' x = load8 m x) -> holds m' a l.
Proof. intros H Hf i x Hx. rewrite Hf; [by apply H|]. pose proof (lookup_lt_Some _ _ _ Hx). lia. Qed.

Lemma holds_bytes_at m a n : holds m a (bytes_at m a n).
Proof.
  intros i x Hx. pose proof (lookup_lt_Some _ _ _ Hx) as Hi. rewrite length_bytes_at in Hi.
  rewrite bytes_at_lookup in Hx by done. by injection Hx.
Qed.

Lemma holds_store_bytes m a l : Forall (fun x => 0 <= x < 256) l -> holds (store_bytes m a l) a l.
Proof.
  intros Hl i x Hx. rewrite (load8_store_bytes_in _ _ _ _ _ Hx). apply u8_small.
  rewrite Forall_lookup in Hl. by eapply Hl.
Qed.

Lemma holds_inj m a l1 l2 : length l1 = length l2 -> holds m a l1 -> holds m a l2 -> l1 = l2.
Proof.
  intros Hlen H1 H2. apply list_eq_same_length with (length l1); [done|done|].
  intros i x y _ Hx Hy. by rewrite <- (H1 i x Hx), <- (H2 i y Hy).
Qed.
