(* ===== verification/CString.v ===== *)
(** * The kernel's C string and memory routines (arch/minic.c)

    The freestanding kernel brings its own libc: string functions, memory
    fills and copies, character tests and the number parsers [atol], [strtol]
    and [strtoul].  They run on the byte memory of [Mem]; a loop over a
    NUL-terminated string carries fuel, and [cstr m s l] (the string [l] is
    stored at [s]) says how much is enough: one more than its length. *)

From S2P Require Import Prelude Mem.
#[local] Open Scope Z_scope.

(** ** Strings *)

(** [while ( *string++);  return string - 1 - ret;] *)
Fixpoint strlen_loop (fuel : nat) (m : memory) (string ret : Z) : res Z :=
  match fuel with
  | O => Err EFuel
  | S k => if load8 m string =? 0 then Ok (string - ret) else strlen_loop k m (string + 1) ret
  end.
Definition strlen (fuel : nat) (m : memory) (string : Z) : res Z := strlen_loop fuel m string string.

(** [while (( *to++ = *from++) != 0);] *)
Fixpoint strcpy (fuel : nat) (m : memory) (to from : Z) : res memory :=
  match fuel with
  | O => Err EFuel
  | S k =>
      let c := load8 m from in
      let m' := store8 m to c in
      if c =? 0 then Ok m' else strcpy k m' (to + 1) (from + 1)
  end.

(** [while ( *s) s++;] then the copy loop of [strcpy]. *)
Definition strcat (fuel : nat) (m : memory) (s add : Z) : res memory :=
  let! n := strlen fuel m s in strcpy fuel m (s + n) add.

Fixpoint strcmp_loop (fuel : nat) (m : memory) (s1 s2 : Z) : res Z :=
  match fuel with
  | O => Err EFuel
  | S k =>
      if load8 m s1 =? load8 m s2 then
        if load8 m s1 =? 0 then Ok 0 else strcmp_loop k m (s1 + 1) (s2 + 1)
      else Ok (load8 m s1 - load8 m s2)
  end.
Definition strcmp (fuel : nat) (m : memory) (s1 s2 : Z) : res Z :=
  if s1 =? s2 then Ok 0 else strcmp_loop fuel m s1 s2.

(** [n] bounds the loop ([--n != 0]), so no fuel is needed. *)
Fixpoint strncmp (m : memory) (s1 s2 : Z) (n : nat) : Z :=
  match n with
  | O => 0
  | S k =>
      if negb (load8 m s1 =? load8 m s2) then load8 m s1 - load8 m s2
      else if load8 m s1 =? 0 then 0
      else strncmp m (s1 + 1) (s2 + 1) k
  end.

(** [char] is signed: [*s == c] compares the sign-extended byte with the
    [int] argument.  The null pointer is the result 0. *)
Fixpoint strchr (fuel : nat) (m : memory) (s c : Z) : res Z :=
  match fuel with
  | O => Err EFuel
  | S k =>
      if s8 (load8 m s) =? c then Ok s
      else if load8 m s =? 0 then Ok 0
      else strchr k m (s + 1) c
  end.

(** The padding loop [while (count > 0) { count--; *to++ = '\0'; }]. *)
Fixpoint zero_fill (m : memory) (to : Z) (count : nat) : memory :=
  match count with
  | O => m
  | S k => zero_fill (store8 m to 0) (to + 1) k
  end.

Fixpoint strncpy (m : memory) (to from : Z) (count : nat) : memory :=
  match count with
  | O => m
  | S k =>
      let c := load8 m from in
      let m' := store8 m to c in
      if c =? 0 then zero_fill m' (to + 1) k else strncpy m' (to + 1) (from + 1) k
  end.

(** ** Memory *)

Fixpoint memset_loop (m : memory) (to c : Z) (len : nat) : memory :=
  match len with
  | O => m
  | S k => memset_loop (store8 m to (Z.land c 255)) (to + 1) c k
  end.
Definition memset (m : memory) (tov c len : Z) : memory := memset_loop m tov c (Z.to_nat (u32 len)).

(** length in 16-bit words *)
Fixpoint memset16_loop (m : memory) (to c : Z) (len : nat) : memory :=
  match len with
  | O => m
  | S k => memset16_loop (store16 m to (Z.land c 65535)) (to + 2) c k
  end.
Definition memset16 (m : memory) (tov c len : Z) : memory :=
  memset16_loop m tov c (Z.to_nat (u32 len)).

Fixpoint memcpy_loop (m : memory) (to from : Z) (length : nat) : memory :=
  match length with
  | O => m
  | S k => memcpy_loop (store8 m to (load8 m from)) (to + 1) (from + 1) k
  end.
Definition memcpy (m : memory) (tov fromv length : Z) : memory :=
  memcpy_loop m tov fromv (Z.to_nat (u32 length)).

(** ** Characters and numbers *)

Definition isdigit (d : Z) : bool := (48 <=? d) && (d <=? 57).
Definition isspace (c : Z) : bool :=
  (c =? 32) || (c =? 12) || (c =? 10) || (c =? 13) || (c =? 9) || (c =? 11).
(** the macros of minic.c *)
Definition isascii (c : Z) : bool := Z.land c (Z.lnot 127) =? 0.
Definition isalpha (c : Z) : bool := ((65 <=? c) && (c <=? 90)) || ((97 <=? c) && (c <=? 122)).
Definition isupper (c : Z) : bool := (65 <=? c) && (c <=? 90).
Definition LONG_MIN : Z := -2147483648.
Definition LONG_MAX : Z := 2147483647.

(** [n = (n * 10) + *str - '0'] in 32-bit [long] arithmetic. *)
Fixpoint atol_loop (fuel : nat) (m : memory) (str n : Z) : res Z :=
  match fuel with
  | O => Err EFuel
  | S k =>
      let c := s8 (load8 m str) in
      if isdigit c then atol_loop k m (str + 1) (s32 (n * 10 + c - 48)) else Ok n
  end.
Definition atol (fuel : nat) (m : memory) (str : Z) : res Z := atol_loop fuel m str 0.

(** The digit loop of [strtol]: [c] has been read and [s] points behind it.
    Returns (acc, any, s) at the [break]. *)
Fixpoint strtol_digits (fuel : nat) (m : memory) (base cutoff cutlim : Z) (c s acc any : Z)
  : res (Z * Z * Z) :=
  match fuel with
  | O => Err EFuel
  | S k =>
      if negb (isascii c) then Ok (acc, any, s) else
      let digit :=
        if isdigit c then Some (u8 (c - 48))
        else if isalpha c then Some (u8 (c - (if isupper c then 65 - 10 else 97 - 10)))
        else None in
      match digit with
      | None => Ok (acc, any, s)
      | Some d =>
          if base <=? d then Ok (acc, any, s)
          else if (any <? 0) || (cutoff <? acc) || ((acc =? cutoff) && (cutlim <? d))
          then strtol_digits k m base cutoff cutlim (load8 m s) (s + 1) acc (-1)
          else strtol_digits k m base cutoff cutlim (load8 m s) (s + 1)
                 (u32 (u32 (acc * base) + d)) 1
      end
  end.

(** [do { c = *s++; } while (isspace(c));] returns (c, s). *)
Fixpoint skip_space (fuel : nat) (m : memory) (s : Z) : res (Z * Z) :=
  match fuel with
  | O => Err EFuel
  | S k => let c := load8 m s in
           if isspace c then skip_space k m (s + 1) else Ok (c, s + 1)
  end.

(** The value and the end pointer stored through [endptr]. *)
Definition strtol (fuel : nat) (m : memory) (nptr base0 : Z) : res (Z * Z) :=
  let! '(c, s) := skip_space fuel m nptr in
  let '(neg, c, s) :=
    if c =? 45 then (true, load8 m s, s + 1)
    else if c =? 43 then (false, load8 m s, s + 1)
    else (false, c, s) in
  let '(base, c, s) :=
    if ((base0 =? 0) || (base0 =? 16)) && (c =? 48)
       && ((load8 m s =? 120) || (load8 m s =? 88))
    then (16, load8 m (s + 1), s + 2) else (base0, c, s) in
  let base := if base =? 0 then (if c =? 48 then 8 else 10) else base in
  let limit := if neg : bool then u32 (- LONG_MIN) else LONG_MAX in
  let cutlim := limit mod base in
  let cutoff := limit / base in
  let! '(acc, any, s) := strtol_digits fuel m base cutoff cutlim c s 0 0 in
  let acc := if any <? 0 then (if neg then u32 LONG_MIN else LONG_MAX)
             else if neg then u32 (- acc) else acc in
  Ok (s32 acc, if any =? 0 then nptr else s - 1).

Fixpoint strtoul_digits (fuel : nat) (m : memory) (base p v : Z) : res (Z * Z) :=
  match fuel with
  | O => Err EFuel
  | S k =>
      let c := s8 (load8 m p) in
      if (48 <=? c) && (c <=? 57) && (c - 48 <? base)
      then strtoul_digits k m base (p + 1) (u32 (v * base + (c - 48)))
      else if (97 <=? c) && (c <=? 122) && (c - 97 + 10 <? base)
      then strtoul_digits k m base (p + 1) (u32 (v * base + (c - 97 + 10)))
      else if (65 <=? c) && (c <=? 90) && (c - 65 + 10 <? base)
      then strtoul_digits k m base (p + 1) (u32 (v * base + (c - 65 + 10)))
      else Ok (v, p)
  end.

(** [while (isspace( *p)) p++;] *)
Fixpoint strtoul_skip (fuel : nat) (m : memory) (p : Z) : res Z :=
  match fuel with
  | O => Err EFuel
  | S k => if isspace (s8 (load8 m p)) then strtoul_skip k m (p + 1) else Ok p
  end.

Definition strtoul (fuel : nat) (m : memory) (p0 base0 : Z) : res (Z * Z) :=
  let! p := strtoul_skip fuel m p0 in
  let '(base, p) :=
    if ((base0 =? 16) || (base0 =? 0)) && (load8 m p =? 48)
       && ((load8 m (p + 1) =? 120) || (load8 m (p + 1) =? 88))
    then (16, p + 2) else (base0, p) in
  let base := if base =? 0 then (if load8 m p =? 48 then 8 else 10) else base in
  strtoul_digits fuel m base p 0.

(** ** What the fills and copies leave in memory *)

Lemma memset_loop_load m to c len x :
  load8 (memset_loop m to c len) x =
  if (to <=? x) && (x <? to + Z.of_nat len) then u8 (Z.land c 255) else load8 m x.
Proof.
  revert m to. induction len as [|k IH]; intros m to; simpl.
  - zbool.
  - rewrite IH, load8_store8_if. case_decide as Heq; zbool.
Qed.

Lemma memset_load m to c len x :
  0 <= len < 4294967296 ->
  load8 (memset m to c len) x =
  if (to <=? x) && (x <? to + len) then u8 (Z.land c 255) else load8 m x.
Proof. intros. unfold memset. rewrite memset_loop_load, u32_small, Z2Nat.id by lia. done. Qed.

Lemma memcpy_loop_load m to from len x :
  to + Z.of_nat len <= from \/ from + Z.of_nat len <= to ->
  load8 (memcpy_loop m to from len) x =
  if (to <=? x) && (x <? to + Z.of_nat len) then load8 m (from + (x - to)) else load8 m x.
Proof.
  revert m to from. induction len as [|k IH]; intros m to from Hd; simpl.
  - zbool.
  - rewrite IH by lia.
    destruct (Z.leb_spec (to + 1) x), (Z.ltb_spec x (to + 1 + Z.of_nat k)),
      (Z.leb_spec to x), (Z.ltb_spec x (to + Z.of_nat (S k))); simpl; try lia;
      rewrite load8_store8_if; case_decide; try lia; try done;
      try subst x; rewrite ?u8_small by apply load8_range; f_equal; lia.
Qed.

(** a copy between disjoint ranges *)
Lemma memcpy_load m to from len x :
  0 <= len < 4294967296 -> to + len <= from \/ from + len <= to ->
  load8 (memcpy m to from len) x = if (to <=? x) && (x <? to + len) then load8 m (from + (x - to)) else load8 m x.
Proof.
  intros Hl Hd. unfold memcpy. rewrite u32_small by lia. rewrite memcpy_loop_load by lia. by rewrite Z2Nat.id by lia.
Qed.

Lemma memcpy_holds m to from len l :
  0 <= len < 4294967296 -> to + len <= from \/ from + len <= to -> Z.of_nat (length l) <= len ->
  holds m from l -> holds (memcpy m to from len) to l.
Proof.
  intros Hl Hd Hle H i x Hx. pose proof (lookup_lt_Some _ _ _ Hx). rewrite memcpy_load by done.
  destruct (Z.leb_spec to (to + Z.of_nat i)), (Z.ltb_spec (to + Z.of_nat i) (to + len)); simpl; try lia.
  rewrite <- (H i x Hx). f_equal. lia.
Qed.

(** ** C strings

    [cstr m s l]: at [s] stand the non-zero bytes [l] and a terminating NUL. *)

Definition nonzero_bytes (l : list Z) : Prop := Forall (fun c => 0 < c < 256) l.

Definition cstr (m : memory) (s : Z) (l : list Z) : Prop := holds m s (l ++ [0]) /\ nonzero_bytes l.

Lemma cstr_nil m s : cstr m s [] <-> load8 m s = 0.
Proof. unfold cstr. simpl. rewrite holds_cons. split; [tauto|]. intros. split; [split; [done|apply holds_nil]|constructor]. Qed.

Lemma cstr_cons m s c l : cstr m s (c :: l) <-> load8 m s = c /\ 0 < c < 256 /\ cstr m (s + 1) l.
Proof. unfold cstr, nonzero_bytes. simpl. rewrite holds_cons, Forall_cons. tauto. Qed.

Lemma cstr_frame m m' s l :
  cstr m s l -> (forall x, s <= x <= s + Z.of_nat (length l) -> load8 m' x = load8 m x) -> cstr m' s l.
Proof.
  intros [H Hl] Hf. split; [|done]. eapply holds_frame; [exact H|]. intros x Hx.
  rewrite length_app in Hx. simpl in Hx. apply Hf. lia.
Qed.

Lemma strlen_loop_cstr l : forall fuel m s r,
  cstr m s l -> (length l < fuel)%nat -> strlen_loop fuel m s r = Ok (s + Z.of_nat (length l) - r).
Proof.
  induction l as [|c l IH]; intros [|fuel] m s r H Hf; simpl in Hf; try lia; cbn [strlen_loop].
  - apply cstr_nil in H. rewrite H. simpl. f_equal. lia.
  - apply cstr_cons in H as (Hc & Hr & H). rewrite (proj2 (Z.eqb_neq _ _)) by lia.
    rewrite IH by (done || lia). f_equal. simpl length. lia.
Qed.

Lemma strlen_cstr fuel m s l :
  cstr m s l -> (length l < fuel)%nat -> strlen fuel m s = Ok (Z.of_nat (length l)).
Proof. intros H Hf. unfold strlen. rewrite (strlen_loop_cstr l) by done. f_equal. lia. Qed.

(** Lexicographic order of byte strings, the shorter one first. *)
Fixpoint lex_lt (l1 l2 : list Z) : bool :=
  match l1, l2 with
  | [], [] => false
  | [], _ :: _ => true
  | _ :: _, [] => false
  | x :: l1, y :: l2 => (x <? y) || ((x =? y) && lex_lt l1 l2)
  end.

Lemma strcmp_loop_cstr l1 : forall l2 fuel m s1 s2,
  cstr m s1 l1 -> cstr m s2 l2 -> (length l1 < fuel)%nat ->
  exists r, strcmp_loop fuel m s1 s2 = Ok r /\ (r = 0 <-> l1 = l2) /\ (r < 0 <-> lex_lt l1 l2 = true).
Proof.
  induction l1 as [|x l1 IH]; intros l2 [|fuel] m s1 s2 H1 H2 Hf; simpl in Hf; try lia;
    destruct l2 as [|y l2]; rewrite ?cstr_nil, ?cstr_cons in *; cbn [strcmp_loop].
  - rewrite H1, H2. exists 0. by split_and!.
  - destruct H2 as (H2 & Hy & _). rewrite H1, H2, (proj2 (Z.eqb_neq 0 y)) by lia. exists (0 - y). simpl.
    split_and!; try done; split; (done || lia).
  - destruct H1 as (H1 & Hx & _). rewrite H1, H2, (proj2 (Z.eqb_neq x 0)) by lia. exists (x - 0). simpl.
    split_and!; try done; split; (done || lia).
  - destruct H1 as (E1 & Hx & H1), H2 as (E2 & Hy & H2). rewrite E1, E2. simpl.
    destruct (Z.eqb_spec x y) as [->|Hne].
    + rewrite (proj2 (Z.eqb_neq y 0)) by lia. destruct (IH l2 fuel m (s1 + 1) (s2 + 1) H1 H2 ltac:(lia)) as (r & E & Hz & Hlt).
      exists r. split_and!; [done| |].
      * rewrite Hz. split; [by intros ->|by intros [= ->]].
      * rewrite Hlt, Z.ltb_irrefl. done.
    + exists (x - y). split_and!; [done|split; [lia|congruence]|].
      rewrite andb_false_l, orb_false_r, Z.ltb_lt. lia.
Qed.

Lemma strcmp_cstr fuel m s1 s2 l1 l2 :
  cstr m s1 l1 -> cstr m s2 l2 -> (length l1 < fuel)%nat ->
  exists r, strcmp fuel m s1 s2 = Ok r /\ (r = 0 <-> l1 = l2) /\ (r < 0 <-> lex_lt l1 l2 = true).
Proof.
  intros H1 H2 Hf. unfold strcmp. destruct (Z.eqb_spec s1 s2) as [->|]; [|by apply strcmp_loop_cstr].
  destruct (strcmp_loop_cstr l1 l2 fuel m s2 s2 H1 H2 Hf) as (r & E & Hz & Hlt).
  assert (Hr : forall f s, strcmp_loop f m s s = Ok r -> r = 0).
  { induction f as [|f IH]; intros s; cbn [strcmp_loop]; [done|]. rewrite Z.eqb_refl.
    destruct (load8 m s =? 0); [by intros [= <-]|apply IH]. }
  rewrite (Hr _ _ E) in *. by exists 0.
Qed.

Lemma strcpy_cstr l : forall fuel m to from,
  cstr m from l -> (length l < fuel)%nat ->
  to + Z.of_nat (length l) < from \/ from + Z.of_nat (length l) < to ->
  exists m', strcpy fuel m to from = Ok m' /\ cstr m' to l /\
    forall x, x < to \/ to + Z.of_nat (length l) < x -> load8 m' x = load8 m x.
Proof.
  induction l as [|c l IH]; intros [|fuel] m to from H Hf Hd; simpl in Hf; try lia; cbn [strcpy];
    rewrite ?cstr_nil, ?cstr_cons in H.
  - rewrite H. simpl. eexists. split; [done|]. rewrite cstr_nil. simpl in Hd. split; [by mem_simpl|].
    intros x Hx. simpl in Hx. by mem_simpl.
  - destruct H as (E & Hc & H). rewrite E, (proj2 (Z.eqb_neq c 0)) by lia. simpl length in Hd.
    destruct (IH fuel (store8 m to c) (to + 1) (from + 1)) as (m' & E' & H' & Hout); [|lia|lia|].
    { eapply cstr_frame; [exact H|]. intros x Hx. rewrite load8_store8_ne by lia. done. }
    exists m'. split_and!; [done| |].
    + rewrite cstr_cons. rewrite Hout by lia. mem_simpl. rewrite u8_small by lia. done.
    + intros x Hx. simpl length in Hx. rewrite Hout by lia. rewrite load8_store8_ne by lia. done.
Qed.

(** what [strncpy] leaves in the [count] bytes at [to] *)
Lemma zero_fill_load m to count x :
  load8 (zero_fill m to count) x = if (to <=? x) && (x <? to + Z.of_nat count) then 0 else load8 m x.
Proof.
  revert m to. induction count as [|k IH]; intros m to; simpl; [zbool|].
  rewrite IH, load8_store8_if. case_decide as Heq; zbool.
Qed.

Lemma strncpy_out m to from count x :
  x < to \/ to + Z.of_nat count <= x -> load8 (strncpy m to from count) x = load8 m x.
Proof.
  revert m to from. induction count as [|k IH]; intros m to from Hx; cbn [strncpy]; [done|].
  destruct (load8 m from =? 0).
  - rewrite zero_fill_load, load8_store8_ne by lia. zbool.
  - rewrite IH by lia. apply load8_store8_ne. lia.
Qed.

Lemma strncpy_holds l : forall m to from,
  holds m from l -> nonzero_bytes l ->
  to + Z.of_nat (length l) <= from \/ from + Z.of_nat (length l) <= to ->
  holds (strncpy m to from (length l)) to l.
Proof.
  induction l as [|c l IH]; intros m to from H Hl Hd; [apply holds_nil|].
  apply holds_cons in H as [E H]. apply Forall_cons in Hl as [Hc Hl]. cbn [strncpy length].
  simpl length in Hd. rewrite E, (proj2 (Z.eqb_neq c 0)) by lia. apply holds_cons. split.
  - rewrite strncpy_out by lia. mem_simpl. by apply u8_small; lia.
  - apply IH; [|done|lia]. eapply holds_frame; [exact H|]. intros x Hx. rewrite load8_store8_ne by lia. done.
Qed.

(** [strcmp] is the lexicographic comparison of unsigned bytes: zero exactly for
    equal strings, negative exactly when the first precedes the second; it reads
    no byte behind the shorter string's terminator. *)
Theorem strcmp_orders fuel m s1 s2 l1 l2 :
  cstr m s1 l1 -> cstr m s2 l2 -> (length l1 < fuel)%nat ->
  exists r, strcmp fuel m s1 s2 = Ok r /\ (r = 0 <-> l1 = l2) /\ (r < 0 <-> lex_lt l1 l2 = true).
Proof. apply strcmp_cstr. Qed.

(** [strcat] appends: with [l2] at [add] behind the string [l1] at [s], [s] is
    afterwards the concatenation, and no byte outside the old terminator and the
    appended part changes. *)
Theorem strcat_appends fuel m s add l1 l2 :
  cstr m s l1 -> cstr m add l2 -> (length l1 < fuel)%nat -> (length l2 < fuel)%nat ->
  add + Z.of_nat (length l2) < s \/ s + Z.of_nat (length l1) + Z.of_nat (length l2) < add ->
  exists m', strcat fuel m s add = Ok m' /\ cstr m' s (l1 ++ l2) /\
    forall x, x < s + Z.of_nat (length l1) \/ s + Z.of_nat (length (l1 ++ l2)) < x -> load8 m' x = load8 m x.
Proof.
  intros H1 H2 Hf1 Hf2 Hd. unfold strcat. rewrite (strlen_cstr fuel m s l1) by done. simpl.
  destruct (strcpy_cstr l2 fuel m (s + Z.of_nat (length l1)) add H2 Hf2) as (m' & E & H & Hout); [lia|].
  exists m'. rewrite length_app. split_and!; [done| |intros x Hx; apply Hout; lia].
  destruct H1 as [Hh Hn1], H as [Hh' Hn2]. split; [|by apply Forall_app].
  rewrite <- app_assoc. apply holds_app. split; [|done].
  apply holds_app in Hh as [Hh _]. eapply holds_frame; [exact Hh|]. intros x Hx. apply Hout. lia.
Qed.

Definition two_strings : memory := store_bytes (store_bytes (fun _ => 7) 100 [106; 120; 0]) 200 [106; 0].

Lemma strcmp_orders_witness : exists r, strcmp 5 two_strings 200 100 = Ok r /\ r < 0.
Proof.
  destruct (strcmp_orders 5 two_strings 200 100 [106] [106; 120]) as (r & E & _ & Hr).
  - split; [|by repeat constructor]. intros [|[|i]] x [= <-]; reflexivity.
  - split; [|by repeat constructor]. intros [|[|[|i]]] x [= <-]; reflexivity.
  - simpl. lia.
  - exists r. split; [done|]. by apply Hr.
Defined.

Lemma strcat_appends_witness : exists m', strcat 5 two_strings 100 200 = Ok m' /\ cstr m' 100 [106; 120; 106].
Proof.
  destruct (strcat_appends 5 two_strings 100 200 [106; 120] [106]) as (m' & E & H & _).
  - split; [|by repeat constructor]. intros [|[|[|i]]] x [= <-]; reflexivity.
  - split; [|by repeat constructor]. intros [|[|i]] x [= <-]; reflexivity.
  - simpl. lia.
  - simpl. lia.
  - simpl. lia.
  - by exists m'.
Defined.
