(* ===== verification/Printf.v ===== *)
(** * Number printing and formatted output (arch/minic.c, core/misc.c)

    [printnum], [printstr], [sprintnum] and [dtostr] share one digit loop over
    a 32-byte buffer; [vprintf] interprets a format string and sends characters
    to the console.  The model returns the characters sent, in order.  The
    variadic arguments are the list of 32-bit words the caller pushed; strings
    are pointers into the byte memory. *)

From S2P Require Import Prelude Mem CString.
#[local] Open Scope Z_scope.

(** [sizeof(long int) * 8]: enough for binary *)
Definition MAXBUF : Z := 32.

(** [static char digs[] = "0123456789abcdef"]; an index past the terminating
    NUL is outside the array. *)
Definition digs : list Z :=
  [48; 49; 50; 51; 52; 53; 54; 55; 56; 57; 97; 98; 99; 100; 101; 102; 0].
Definition dig (k : Z) : res Z :=
  match digs !! Z.to_nat k with Some c => Ok c | None => Err (EAssert "digs index") end.

(** [do { *p-- = digs[u % base]; u /= base; } while (u != 0);] with [p] the
    index into [buf]; the characters written so far, in buffer order.  A zero
    base is the processor's divide error. *)
Fixpoint build_digits (fuel : nat) (p u base : Z) (buf : list Z) : res (list Z) :=
  match fuel with
  | O => Err EFuel
  | S k =>
      if p <? 0 then Err (EAssert "buf underrun") else
      if u32 base =? 0 then Err (EThrow "divide error") else
      let! d := dig (u mod u32 base) in
      let u' := u / u32 base in
      if u' =? 0 then Ok (d :: buf) else build_digits k (p - 1) u' base (d :: buf)
  end.

Definition digit_fuel : nat := 33.
Definition number_digits (u base : Z) : res (list Z) :=
  build_digits digit_fuel (MAXBUF - 1) u base [].

(** characters passed to [putc] *)
Definition printnum (u base : Z) : res (list Z) := number_digits u base.

(** the three variants that store the digits and a NUL at a buffer *)
Definition printstr (m : memory) (str u base : Z) : res memory :=
  let! ds := number_digits u base in Ok (store_bytes m str (ds ++ [0])).
Definition sprintnum (m : memory) (s u base : Z) : res memory :=
  let! ds := number_digits u base in Ok (store_bytes m s (ds ++ [0])).
Definition dtostr (m : memory) (cbuf maxbuf u base : Z) : res memory :=
  let! ds := number_digits u base in Ok (store_bytes m cbuf (ds ++ [0])).

(** ** vprintf *)

(** The conversion specification between [%] and the conversion letter. *)
Record fspec := MkSpec {
  fs_length : Z;
  fs_prec : Z;
  fs_ladjust : bool;
  fs_padc : Z;
  fs_plus_sign : Z;
  fs_altfmt : bool;
}.

(** the flag loop: [# - + space] in any order; returns the new [fmt] *)
Fixpoint parse_flags (fuel : nat) (m : memory) (fmt : Z) (alt lad : bool) (plus : Z)
  : res (Z * bool * bool * Z) :=
  match fuel with
  | O => Err EFuel
  | S k =>
      let c := load8 m fmt in
      if c =? 35 then parse_flags k m (fmt + 1) true lad plus
      else if c =? 45 then parse_flags k m (fmt + 1) alt true plus
      else if c =? 43 then parse_flags k m (fmt + 1) alt lad 43
      else if c =? 32 then parse_flags k m (fmt + 1) alt lad (if plus =? 0 then 32 else plus)
      else Ok (fmt, alt, lad, plus)
  end.

(** [while (isdigit( *fmt)) x = 10 * x + Ctod( *fmt++);] *)
Fixpoint parse_num (fuel : nat) (m : memory) (fmt x : Z) : res (Z * Z) :=
  match fuel with
  | O => Err EFuel
  | S k =>
      let c := s8 (load8 m fmt) in
      if isdigit c then parse_num k m (fmt + 1) (s32 (10 * x + (c - 48))) else Ok (fmt, x)
  end.

(** [va_arg]: reading past the pushed arguments is undefined *)
Definition va_arg (args : list Z) : res (Z * list Z) :=
  match args with a :: r => Ok (a, r) | [] => Err (EAssert "va_arg") end.

(** Everything between [%] and the conversion letter. *)
Definition parse_spec (fuel : nat) (m : memory) (fmt : Z) (args : list Z)
  : res (fspec * Z * list Z) :=
  let! '(fmt, alt, lad, plus) := parse_flags fuel m fmt false false 0 in
  let '(padc, fmt) := if load8 m fmt =? 48 then (48, fmt + 1) else (32, fmt) in
  let! '(len, lad, fmt, args) :=
    (if isdigit (s8 (load8 m fmt)) then
       let! '(fmt, x) := parse_num fuel m fmt 0 in Ok (x, lad, fmt, args)
     else if load8 m fmt =? 42 then
       let! '(a, args) := va_arg args in
       let a := s32 a in
       if a <? 0 then Ok (s32 (- a), negb lad, fmt + 1, args) else Ok (a, lad, fmt + 1, args)
     else Ok (0, lad, fmt, args)) in
  let! '(pr, fmt, args) :=
    (if load8 m fmt =? 46 then
       if isdigit (s8 (load8 m (fmt + 1))) then
         let! '(fmt, x) := parse_num fuel m (fmt + 1) 0 in Ok (x, fmt, args)
       else if load8 m (fmt + 1) =? 42 then
         let! '(a, args) := va_arg args in Ok (s32 a, fmt + 2, args)
       else Ok (-1, fmt + 1, args)
     else Ok (-1, fmt, args)) in
  let fmt := if load8 m fmt =? 108 then fmt + 1 else fmt in
  Ok (MkSpec len pr lad padc plus alt, fmt, args).

Definition spaces (n : Z) : list Z := replicate (Z.to_nat n) 32.
Definition zeros (n : Z) : list Z := replicate (Z.to_nat n) 48.

(** [print_num]: digits, then the field arithmetic on [length] and [prec]. *)
Definition print_num (sp : fspec) (u base sign_char : Z) : res (list Z) :=
  let prefix :=
    if negb (u =? 0) && fs_altfmt sp then
      (if base =? 8 then [48] else if base =? 16 then [48; 120] else [])
    else [] in
  let! ds := number_digits u base in
  let nd := Z.of_nat (length ds) in
  let prec := fs_prec sp - nd in
  let len := fs_length sp - nd in
  let len := if sign_char =? 0 then len else len - 1 in
  let len := len - Z.of_nat (length prefix) in
  let len := if 0 <? prec then len - prec else len in
  let lead := (fs_padc sp =? 32) && negb (fs_ladjust sp) in
  let out1 := if lead then spaces len else [] in
  let len := if lead then Z.min len (-1) else len in
  let out2 := (if sign_char =? 0 then [] else [sign_char]) ++ prefix ++ zeros prec in
  let zpad := fs_padc sp =? 48 in
  let out3 := if zpad then zeros len else [] in
  let len := if zpad then Z.min len (-1) else len in
  let out4 := if fs_ladjust sp then spaces len else [] in
  Ok (out1 ++ out2 ++ out3 ++ ds ++ out4).

(** [print_signed] / [print_unsigned] and the fall into [print_num] *)
Definition print_signed (sp : fspec) (base : Z) (args : list Z) : res (list Z * list Z) :=
  let! '(a, args) := va_arg args in
  let n := s32 a in
  let! out := (if 0 <=? n then print_num sp (u32 n) base (fs_plus_sign sp)
               else print_num sp (u32 (- n)) base 45) in
  Ok (out, args).
Definition print_unsigned (sp : fspec) (base : Z) (args : list Z) : res (list Z * list Z) :=
  let! '(a, args) := va_arg args in
  let! out := print_num sp (u32 a) base 0 in
  Ok (out, args).

(** [%s]: the counting loop of the right-adjusted case *)
Fixpoint str_count (fuel : nat) (m : memory) (p n prec : Z) : res Z :=
  match fuel with
  | O => Err EFuel
  | S k => if negb (load8 m p =? 0) && (n <? prec) then str_count k m (p + 1) (n + 1) prec
           else Ok n
  end.

(** [while ( *p != '\0') { if (++n > prec) break; putc( *p++); }]: the
    characters and the final [n] *)
Fixpoint str_emit (fuel : nat) (m : memory) (p n prec : Z) : res (list Z * Z) :=
  match fuel with
  | O => Err EFuel
  | S k =>
      if load8 m p =? 0 then Ok ([], n)
      else if prec <? n + 1 then Ok ([], n + 1)
      else let! '(out, n') := str_emit k m (p + 1) (n + 1) prec in Ok (load8 m p :: out, n')
  end.

(** A null pointer prints as the empty string. *)
Definition print_str (fuel : nat) (m : memory) (sp : fspec) (p : Z) : res (list Z) :=
  let prec := if fs_prec sp =? -1 then 2147483647 else fs_prec sp in
  let count := if p =? 0 then Ok 0 else str_count fuel m p 0 prec in
  let emit := if p =? 0 then Ok ([], 0) else str_emit fuel m p 0 prec in
  let! out1 := (if (0 <? fs_length sp) && negb (fs_ladjust sp) then
                  let! n := count in Ok (spaces (fs_length sp - n))
                else Ok []) in
  let! '(out2, n) := emit in
  let out3 := if (n <? fs_length sp) && fs_ladjust sp then spaces (fs_length sp - n) else [] in
  Ok (out1 ++ out2 ++ out3).

(** [%b]: characters of a bit name, up to the next control character *)
Fixpoint bit_name (fuel : nat) (m : memory) (p : Z) : res (list Z * Z) :=
  match fuel with
  | O => Err EFuel
  | S k =>
      if 32 <? s8 (load8 m p) then
        let! '(out, p') := bit_name k m (p + 1) in Ok (load8 m p :: out, p')
      else Ok ([], p)
  end.

(** the loop over bit descriptions: [\<bit>name] or [\<hi>\<lo>name] *)
Fixpoint print_bits (fuel : nat) (m : memory) (u base p : Z) (any : bool) : res (list Z) :=
  match fuel with
  | O => Err EFuel
  | S k =>
      let i := s8 (load8 m p) in
      let p := p + 1 in
      let sep := [if any then 44 else 60] in
      if i =? 0 then Ok (if any then [62] else [])
      else if s8 (load8 m p) <=? 32 then
        let j := s8 (load8 m p) in
        let! '(name, p) := bit_name k m (p + 1) in
        let! num := printnum (Z.land (Z.shiftr u (j - 1)) (u32 (Z.shiftl 2 (i - j) - 1))) base in
        let! rest := print_bits k m u base p true in
        Ok (sep ++ name ++ num ++ rest)
      else
        let! '(name, p) := bit_name k m p in
        if negb (Z.land u (u32 (Z.shiftl 1 (i - 1))) =? 0) then
          let! rest := print_bits k m u base p true in Ok (sep ++ name ++ rest)
        else print_bits k m u base p any
  end.

Definition print_b (fuel : nat) (m : memory) (args : list Z) : res (list Z * list Z) :=
  let! '(u, args) := va_arg args in
  let! '(p, args) := va_arg args in
  let base := s8 (load8 m p) in
  let! num := printnum (u32 u) base in
  let! bits := (if u32 u =? 0 then Ok [] else print_bits fuel m (u32 u) base (p + 1) false) in
  Ok (num ++ bits, args).

(** The [switch] on the conversion letter; [None] is the end of the format
    ([case '\0'] steps back so that the outer loop sees the terminator). *)
Definition print_conv (fuel : nat) (m : memory) (sp : fspec) (c : Z) (args : list Z)
  : res (option (list Z * list Z)) :=
  let some r := (let! x := r in Ok (Some x)) in
  if (c =? 98) || (c =? 66) then some (print_b fuel m args)
  else if c =? 99 then
    let! '(a, args) := va_arg args in Ok (Some ([u8 a], args))
  else if c =? 115 then
    let! '(a, args) := va_arg args in
    let! out := print_str fuel m sp a in Ok (Some (out, args))
  else if (c =? 111) || (c =? 79) then some (print_unsigned sp 8 args)
  else if (c =? 100) || (c =? 105) || (c =? 68) then some (print_signed sp 10 args)
  else if (c =? 117) || (c =? 85) then some (print_unsigned sp 10 args)
  else if c =? 112 then
    let! '(out, args) := print_unsigned
      (MkSpec 8 (fs_prec sp) (fs_ladjust sp) 48 (fs_plus_sign sp) (fs_altfmt sp)) 16 args in
    Ok (Some ([48; 120] ++ out, args))
  else if (c =? 120) || (c =? 88) then some (print_unsigned sp 16 args)
  else if (c =? 122) || (c =? 90) then some (print_signed sp 16 args)
  else if (c =? 114) || (c =? 82) then some (print_signed sp 0 args)
  else if (c =? 110) || (c =? 78) then some (print_unsigned sp 0 args)
  else if c =? 0 then Ok None
  else Ok (Some ([c], args)).

Fixpoint vprintf_loop (fuel : nat) (m : memory) (fmt : Z) (args : list Z) : res (list Z) :=
  match fuel with
  | O => Err EFuel
  | S k =>
      let c := load8 m fmt in
      if c =? 0 then Ok []
      else if negb (c =? 37) then
        let! out := vprintf_loop k m (fmt + 1) args in Ok (c :: out)
      else
        let! '(sp, fmt, args) := parse_spec fuel m (fmt + 1) args in
        let! r := print_conv fuel m sp (load8 m fmt) args in
        match r with
        | None => Ok []
        | Some (out, args) =>
            let! rest := vprintf_loop k m (fmt + 1) args in Ok (out ++ rest)
        end
  end.

(** Nothing is printed without a debug port. *)
Definition vprintf (fuel : nat) (m : memory) (debug_port fmt : Z) (args : list Z)
  : res (list Z) :=
  if debug_port =? -1 then Ok [] else vprintf_loop fuel m fmt args.

(** The string constants of the examples. *)
Definition str_at (a : Z) (l : list Z) : memory := store_bytes (fun _ => 0) a (l ++ [0]).
Example ex_d : vprintf 20 (str_at 100 [37; 53; 100; 33]) 0 100 [u32 (-42)] = Ok [32; 32; 45; 52; 50; 33].
Proof. vm_compute. reflexivity. Qed.
Example ex_p : vprintf 20 (str_at 100 [37; 112]) 0 100 [48879] =
  Ok [48; 120; 48; 48; 48; 48; 98; 101; 101; 102].
Proof. vm_compute. reflexivity. Qed.
