(* ===== verification/Malloc.v ===== *)
(** * The block allocator (core/malloc.c)

    Physical memory between [jxmem_start] and [jxmem_end] is handed out in
    1024-byte blocks.  A bitmap, itself stored in the first blocks, has one bit
    per block; [current_block] is a rotating pointer where the search for free
    blocks starts.  The bitmap lives in the byte memory of the state, so what
    lies behind its end is whatever the machine has there. *)

From S2P Require Import Prelude Mem CString.
#[local] Open Scope Z_scope.

Definition BLOCKSIZE : Z := 1024.
Definition BLOCKADDR_N_NULLBITS : Z := 10.
(** [~(BLOCKSIZE-1)], an [int], converted to [u4_t] where it meets one *)
Definition BLOCKADDR_MASK : Z := u32 (Z.lnot (BLOCKSIZE - 1)).
Definition ALIGN_NEXT_BLOCK (a : Z) : Z := Z.land (u32 (a + (BLOCKSIZE - 1))) BLOCKADDR_MASK.
Definition ALIGN_PREV_BLOCK (a : Z) : Z := Z.land (u32 a) BLOCKADDR_MASK.

(** The file's static variables ([bitmap] is a pointer into [ram]). *)
Record malloc_state := MkMalloc {
  jxmem_start : Z;
  jxmem_end : Z;
  n_blocks : Z;
  n_free : Z;
  current_block : Z;
  bitmap : Z;
  bitmap_size : Z;
  bitmap_size_blocks : Z;
  inited : bool;
  ram : memory;
}.

Definition set_current_block (st : malloc_state) (b : Z) : malloc_state :=
  MkMalloc (jxmem_start st) (jxmem_end st) (n_blocks st) (n_free st) b
    (bitmap st) (bitmap_size st) (bitmap_size_blocks st) (inited st) (ram st).
Definition set_bits (st : malloc_state) (m : memory) (free : Z) : malloc_state :=
  MkMalloc (jxmem_start st) (jxmem_end st) (n_blocks st) free (current_block st)
    (bitmap st) (bitmap_size st) (bitmap_size_blocks st) (inited st) m.

(** [(jxmem_start + block * BLOCKSIZE)] *)
Definition GETADDR (st : malloc_state) (block : Z) : Z :=
  u32 (jxmem_start st + u32 (block * BLOCKSIZE)).

(** [bitmap[b >> 3] & 1 << (b & 0x7)] as a condition *)
Definition bit_set (st : malloc_state) (b : Z) : bool :=
  negb (Z.land (load8 (ram st) (bitmap st + Z.shiftr b 3)) (Z.shiftl 1 (Z.land b 7)) =? 0).

Definition markCurrentUsed (st : malloc_state) : malloc_state :=
  let pos := Z.shiftr (current_block st) 3 in
  let o := Z.land (current_block st) 7 in
  let a := bitmap st + pos in
  set_bits st (store8 (ram st) a (Z.lor (load8 (ram st) a) (Z.shiftl 1 o))) (u32 (n_free st - 1)).

(** [current_block++; current_block %= n_blocks;] *)
Definition advance (st : malloc_state) (k : Z) : malloc_state :=
  set_current_block st (u32 (current_block st + k) mod n_blocks st).

Fixpoint markUsed_loop (n : nat) (st : malloc_state) : malloc_state :=
  match n with
  | O => st
  | S k => markUsed_loop k (advance (markCurrentUsed st) 1)
  end.
(** returns the address of the first marked block *)
Definition markUsed (nblocks : Z) (st : malloc_state) : Z * malloc_state :=
  (GETADDR st (current_block st), markUsed_loop (Z.to_nat (u32 nblocks)) st).

(** CHECK_FREE is defined in this configuration. *)
Definition markUnused (blocknr : Z) (st : malloc_state) : res malloc_state :=
  let a := bitmap st + Z.shiftr blocknr 3 in
  let o := u8 (Z.shiftl 1 (u8 (Z.land blocknr 7))) in
  if Z.land (load8 (ram st) a) o =? 0 then Err (EPanic "freed block was not marked as used!")
  else
    let o := u8 (Z.lnot o) in
    Ok (set_bits st (store8 (ram st) a (Z.land (load8 (ram st) a) o)) (u32 (n_free st + 1))).

Definition nextFree_body (dont_cross_this_block : Z) (st : malloc_state)
  : res (malloc_state + malloc_state) :=
  if bit_set st (current_block st) then
    let st := advance st 1 in
    if current_block st =? dont_cross_this_block then Err (EPanic "Out of memory")
    else Ok (inl st)
  else Ok (inr st).
Definition nextFree (fuel : nat) (dont_cross_this_block : Z) (st : malloc_state)
  : res malloc_state :=
  loop fuel (nextFree_body dont_cross_this_block) st.

(** the index of the first used block among [n] from [b + i], if any *)
Fixpoint first_used (st : malloc_state) (b : Z) (n : nat) (i : Z) : option Z :=
  match n with
  | O => None
  | S k => if bit_set st (u32 (b + i)) then Some i else first_used st b k (i + 1)
  end.

Definition isFree (nblocks : Z) (st : malloc_state) : res (bool * malloc_state) :=
  if n_blocks st <? u32 (current_block st + nblocks) then
    if current_block st =? 0 then Err (EPanic "Out of memory")
    else Ok (false, set_current_block st 0)
  else
    match first_used st (current_block st) (Z.to_nat nblocks) 0 with
    | Some i => Ok (false, advance st (i + 1))
    | None => Ok (true, st)
    end.

(** The fuel of the inner search loop: it moves forward one block a round and
    stops after at most [n_blocks] rounds. *)
Definition search_fuel (st : malloc_state) : nat := S (Z.to_nat (n_blocks st)).

Definition alloc_body (start_block size_blk alignmask : Z) (st : malloc_state)
  : res (malloc_state + (Z * malloc_state)) :=
  let! '(free, st) := isFree size_blk st in
  if free then
    if Z.land (GETADDR st (current_block st)) alignmask =? 0
    then Ok (inr (markUsed size_blk st))
    else let! st := nextFree (search_fuel st) (current_block st) st in Ok (inl st)
  else if current_block st =? start_block then Err (EPanic "Out of memory")
  else let! st := nextFree (search_fuel st) (current_block st) st in Ok (inl st).

(** returns the address, which is also stored through [start] *)
Definition jxmalloc_internal (fuel : nat) (size_blk align : Z) (st : malloc_state)
  : res (Z * malloc_state) :=
  let start_block := current_block st in
  let alignmask := u32 (align - 1) in
  loop fuel (alloc_body start_block size_blk alignmask) st.

Definition jxmalloc (fuel : nat) (size : Z) (st : malloc_state) : res (Z * malloc_state) :=
  let size := ALIGN_NEXT_BLOCK size in
  let size_blk := Z.shiftr size BLOCKADDR_N_NULLBITS in
  jxmalloc_internal fuel size_blk 1 st.

Definition jxmalloc_align (fuel : nat) (size_blk align : Z) (st : malloc_state)
  : res (Z * malloc_state) :=
  jxmalloc_internal fuel size_blk align st.

(** [u4_t b = ((char * ) addr - jxmem_start) / BLOCKSIZE] divides a signed
    pointer difference. *)
Definition jxfree (addr size : Z) (st : malloc_state) : res malloc_state :=
  let b := u32 (Z.quot (s32 (addr - jxmem_start st)) BLOCKSIZE) in
  let nb := ALIGN_NEXT_BLOCK size / BLOCKSIZE in
  for_n (Z.to_nat nb) 0 (fun i st => markUnused (u32 (b + i)) st) st.

Definition jxmalloc_getTotalMemory (st : malloc_state) : Z :=
  u32 (jxmem_end st - jxmem_start st).
Definition jxmalloc_getTotalFreeMemory (st : malloc_state) : Z := u32 (n_free st * BLOCKSIZE).

(** ** Initialisation *)

(** The loop over the multiboot tags: the last memory-information tag (type 4)
    and the first two module tags (type 3). *)
Record boot_scan := MkScan {
  tag : Z; meminfo : Z; mod0 : Z; mod1 : Z; mods_count : Z;
}.
Definition next_tag (m : memory) (t : Z) : Z :=
  u32 (t + Z.land (u32 (load32 m (t + 4) + 7)) (u32 (Z.lnot 7))).
Definition scan_tags_body (m : memory) (s : boot_scan) : res (boot_scan + boot_scan) :=
  let t := tag s in
  if load32 m t =? 0 then Ok (inr s)
  else if load32 m t =? 4 then
    Ok (inl (MkScan (next_tag m t) t (mod0 s) (mod1 s) (mods_count s)))
  else if load32 m t =? 3 then
    Ok (inl (MkScan (next_tag m t) (meminfo s)
               (if mods_count s =? 0 then t else mod0 s)
               (if mods_count s =? 1 then t else mod1 s) (s32 (mods_count s + 1))))
  else Ok (inl (MkScan (next_tag m t) (meminfo s) (mod0 s) (mod1 s) (mods_count s))).

(** [boot_info] is the address of the boot record; [fuel] bounds its tags. *)
Definition jxmalloc_init (fuel : nat) (boot_info : Z) (st : malloc_state) : res malloc_state :=
  if inited st then Err (EPanic "jxmalloc already initialized!") else
  let m := ram st in
  let! s := loop fuel (scan_tags_body m) (MkScan (u32 (boot_info + 8)) 0 0 0 0) in
  if meminfo s =? 0 then Err (EPanic "No memory information tag found") else
  if 2 <? mods_count s then Err (EPanic "Max 2 modules expected") else
  let jxmem_end := ALIGN_PREV_BLOCK (1048576 + load32 m (meminfo s + 12) * 1024) in
  let! jxmem_start :=
    (if mods_count s =? 1 then Ok (ALIGN_NEXT_BLOCK (load32 m (mod0 s + 12) + 1))
     else if mods_count s =? 2 then Ok (ALIGN_NEXT_BLOCK (load32 m (mod1 s + 12) + 1))
     else Err (EPanic "max 2 modules expected")) in
  let n_blocks := u32 (s32 (jxmem_end - jxmem_start)) / BLOCKSIZE in
  let bitmap_size := Z.shiftr n_blocks 3 in
  let bitmap_size_blocks := ALIGN_NEXT_BLOCK bitmap_size / BLOCKSIZE in
  let m := memset m jxmem_start 0 bitmap_size in
  let '(_, st) := markUsed bitmap_size_blocks
    (MkMalloc jxmem_start jxmem_end n_blocks n_blocks 0 jxmem_start
       bitmap_size bitmap_size_blocks false m) in
  Ok (MkMalloc jxmem_start jxmem_end n_blocks (n_free st) (current_block st) jxmem_start
        bitmap_size bitmap_size_blocks true (ram st)).

(** ** Temporary memory *)

(** [TempMemory] as it lies in memory: size, free, start, border. *)
Definition sizeof_TempMemory : Z := 16.
Definition tm_size (m : memory) (t : Z) : Z := load32 m t.
Definition tm_free (m : memory) (t : Z) : Z := load32 m (t + 4).
Definition tm_start (m : memory) (t : Z) : Z := load32 m (t + 8).
Definition tm_border (m : memory) (t : Z) : Z := load32 m (t + 12).

Definition jxmalloc_tmp (fuel : nat) (size : Z) (st : malloc_state) : res (Z * malloc_state) :=
  let size := ALIGN_NEXT_BLOCK (u32 (size + sizeof_TempMemory)) in
  let! '(m, st) := jxmalloc fuel size st in
  let mem := store32 (ram st) m size in
  let mem := store32 mem (m + 8) m in
  let mem := store32 mem (m + 4) (m + sizeof_TempMemory) in
  let mem := store32 mem (m + 12) (m + size) in
  Ok (m, set_bits st mem (n_free st)).

Definition jxfree_tmp (m : Z) (st : malloc_state) : res malloc_state :=
  jxfree (tm_start (ram st) m) (tm_size (ram st) m) st.

(** ** Thread stacks *)

Definition malloc_threadstack (fuel : nat) (size align : Z) (st : malloc_state)
  : res (Z * malloc_state) :=
  if negb (size mod BLOCKSIZE =? 0) then Err (EPanic "stacksize must be multiple of blocksize")
  else
    let! '(m, st) := jxmalloc_align fuel (Z.shiftr size BLOCKADDR_N_NULLBITS) align st in
    let! _ := assert_ "((u4_t) m & (align - 1)) == 0" (Z.land m (u32 (align - 1)) =? 0) in
    Ok (m, st).

Definition free_threadstack (m size : Z) (st : malloc_state) : res malloc_state :=
  jxfree m size st.

(** ** Invariant *)

(** [count_free f n]: how many of the blocks [0 .. n-1] are free under [f]. *)
Fixpoint count_free (f : Z -> bool) (n : nat) : Z :=
  match n with
  | O => 0
  | S k => count_free f k + (if f (Z.of_nat k) then 0 else 1)
  end.

Record malloc_ok (st : malloc_state) : Prop := {
  ok_blocks : 0 < n_blocks st <= 4194304;
  ok_current : 0 <= current_block st < n_blocks st;
  ok_start : 0 <= jxmem_start st /\ jxmem_start st mod BLOCKSIZE = 0;
  ok_end : jxmem_start st + n_blocks st * BLOCKSIZE <= 4294967295;
  ok_free : n_free st = count_free (bit_set st) (Z.to_nat (n_blocks st));
}.

(** The parts of the state no operation changes after initialisation. *)
Definition geometry (st : malloc_state) : Z * Z * Z * Z * Z * Z * bool :=
  (jxmem_start st, jxmem_end st, n_blocks st, bitmap st, bitmap_size st, bitmap_size_blocks st,
   inited st).

(** [free_run st b n]: the blocks [b .. b+n-1] exist and are all free. *)
Definition free_run (st : malloc_state) (b n : Z) : Prop :=
  0 <= b /\ b + n <= n_blocks st /\ forall i, b <= i < b + n -> bit_set st i = false.

(** ** The bitmap *)

Lemma land_7 b : Z.land b 7 = b mod 8.
Proof. exact (Z.land_ones b 3 ltac:(lia)). Qed.

Lemma shiftr_3 b : Z.shiftr b 3 = b / 8.
Proof. exact (Z.shiftr_div_pow2 b 3 ltac:(lia)). Qed.


Lemma bit_set_spec st b :
  bit_set st b = Z.testbit (load8 (ram st) (bitmap st + b / 8)) (b mod 8).
Proof.
  unfold bit_set. rewrite land_7, shiftr_3. apply land_bit_nonzero. 
  apply Z.mod_pos_bound. lia.
Qed.


Lemma bit_set_store st b c v free :
  bit_set (set_bits st (store8 (ram st) (bitmap st + c / 8) v) free) b =
  if b / 8 =? c / 8 then Z.testbit v (b mod 8) else bit_set st b.
Proof.
  rewrite !bit_set_spec. simpl. pose proof (Z.mod_pos_bound b 8 ltac:(lia)).
  destruct (Z.eqb_spec (b / 8) (c / 8)) as [->|Hne].
  - rewrite load8_store8. apply testbit_uwrap. lia.
  - by rewrite load8_store8_ne by lia.
Qed.

Lemma eqb_div_mod b c : (b =? c) = (b / 8 =? c / 8) && (b mod 8 =? c mod 8).
Proof.
  pose proof (Z.div_mod b 8 ltac:(lia)). pose proof (Z.div_mod c 8 ltac:(lia)).
  destruct (Z.eqb_spec b c) as [->|Hne]; [by rewrite !Z.eqb_refl|].
  destruct (Z.eqb_spec (b / 8) (c / 8)) as [E|]; [|done]. simpl.
  symmetry. apply Z.eqb_neq. lia.
Qed.


Lemma markCurrentUsed_bits st b :
  bit_set (markCurrentUsed st) b = (b =? current_block st) || bit_set st b.
Proof.
  unfold markCurrentUsed. rewrite land_7, shiftr_3, bit_set_store.
  rewrite (eqb_div_mod b (current_block st)), (bit_set_spec st b).
  pose proof (Z.mod_pos_bound b 8 ltac:(lia)).
  pose proof (Z.mod_pos_bound (current_block st) 8 ltac:(lia)).
  destruct (Z.eqb_spec (b / 8) (current_block st / 8)) as [->|]; [|done]. simpl.
  rewrite Z.lor_spec, testbit_shiftl_1 by lia. apply orb_comm.
Qed.


Lemma markUnused_spec st b st' :
  markUnused b st = Ok st' ->
  bit_set st b = true /\
  (forall c, bit_set st' c = negb (c =? b) && bit_set st c) /\
  n_free st' = u32 (n_free st + 1) /\ geometry st' = geometry st /\
  current_block st' = current_block st.
Proof.
  unfold markUnused. intros H.
  pose proof (Z.mod_pos_bound b 8 ltac:(lia)).
  assert (Eo : u8 (Z.shiftl 1 (u8 (Z.land b 7))) = Z.shiftl 1 (b mod 8)).
  { rewrite land_7, (u8_small (b mod 8)) by lia.
    assert (Hb : b mod 8 ∈ [0;1;2;3;4;5;6;7]) by (rewrite !elem_of_cons; lia).
    repeat (apply elem_of_cons in Hb as [->|Hb]; [done|]). by apply elem_of_nil in Hb. }
  rewrite Eo, shiftr_3 in H.
  destruct (_ =? 0) eqn:E0; [done|]. apply (f_equal negb) in E0.
  rewrite land_bit_nonzero, <- bit_set_spec in E0 by lia. simplify_eq.
  split_and!; try done. intros c. rewrite bit_set_store, (bit_set_spec st c), (eqb_div_mod c b).
  pose proof (Z.mod_pos_bound c 8 ltac:(lia)).
  destruct (Z.eqb_spec (c / 8) (b / 8)) as [->|]; [|done]. simpl.
  rewrite Z.land_spec. unfold u8. rewrite testbit_uwrap, Z.lnot_spec, testbit_shiftl_1 by lia.
  apply andb_comm.
Qed.

(** ** Counting free blocks *)

Lemma count_free_ext f g n :
  (forall b, 0 <= b < Z.of_nat n -> f b = g b) -> count_free f n = count_free g n.
Proof.
  induction n as [|n IH]; intros H; simpl; [done|].
  rewrite IH by (intros; apply H; lia). by rewrite (H (Z.of_nat n)) by lia.
Qed.

Lemma count_free_range f n : 0 <= count_free f n <= Z.of_nat n.
Proof. induction n as [|n IH]; simpl; [lia|]. destruct (f _); lia. Qed.

(** Flipping one block changes the count by one. *)
Lemma count_free_flip f g n c :
  0 <= c < Z.of_nat n -> f c = false -> g c = true ->
  (forall b, b <> c -> g b = f b) -> count_free g n = count_free f n - 1.
Proof.
  intros Hc Hf Hg Hne. revert Hc. induction n as [|n IH]; intros Hc; [lia|]. simpl.
  destruct (decide (c = Z.of_nat n)) as [->|].
  - rewrite Hf, Hg. rewrite (count_free_ext g f n); [lia|]. intros; apply Hne; lia.
  - rewrite IH, Hne by lia. lia.
Qed.

(** Marking a run of free blocks. *)
Lemma markUsed_loop_spec n st :
  0 <= current_block st -> 0 < n_blocks st <= 4194304 ->
  current_block st + Z.of_nat n <= n_blocks st ->
  let st' := markUsed_loop n st in
  geometry st' = geometry st /\
  (forall b, bit_set st' b =
     ((current_block st <=? b) && (b <? current_block st + Z.of_nat n)) || bit_set st b) /\
  (current_block st < n_blocks st ->
   current_block st' = (current_block st + Z.of_nat n) mod n_blocks st).
Proof.
  revert st. induction n as [|n IH]; intros st H0 HN Hle; simpl.
  - split_and!; [done| |].
    + intros b. zbool.
    + intros. rewrite Z.mod_small; lia.
  - assert (Hbits : forall b, bit_set (advance (markCurrentUsed st) 1) b =
      (b =? current_block st) || bit_set st b) by (intros; apply markCurrentUsed_bits).
    destruct (decide (n = O)) as [->|Hn].
    + simpl. split_and!; [done| |].
      * intros b. rewrite Hbits. f_equal. zbool.
      * intros. rewrite u32_small by lia. done.
    + assert (Hcur : current_block (advance (markCurrentUsed st) 1) = current_block st + 1).
      { simpl. rewrite u32_small, Z.mod_small by lia. done. }
      destruct (IH (advance (markCurrentUsed st) 1)) as (Hg & Hb & Hc);
        rewrite ?Hcur; simpl; try lia.
      rewrite Hcur in *. simpl in Hc.
      split_and!; [done| |].
      * intros b. rewrite Hb, Hbits, orb_assoc. f_equal. zbool.
      * intros. rewrite Hc by lia. f_equal. lia.
Qed.

Lemma markUsed_loop_free n st :
  0 <= n_free st < 4294967296 -> n_free (markUsed_loop n st) = u32 (n_free st - Z.of_nat n).
Proof.
  revert st. induction n as [|n IH]; intros st H; simpl.
  - rewrite u32_small; lia.
  - rewrite IH by (simpl; apply u32_range). simpl. unfold u32, uwrap.
    rewrite Zminus_mod_idemp_l. f_equal. lia.
Qed.

Lemma count_free_run f n c N :
  0 <= c -> c + Z.of_nat n <= Z.of_nat N -> (forall i, c <= i < c + Z.of_nat n -> f i = false) ->
  count_free (fun b => ((c <=? b) && (b <? c + Z.of_nat n)) || f b) N = count_free f N - Z.of_nat n.
Proof.
  intros Hc. induction n as [|n IH]; intros Hle Hf.
  - rewrite (count_free_ext _ f); [lia|]. intros b _. zbool.
  - rewrite (count_free_flip (fun b => ((c <=? b) && (b <? c + Z.of_nat n)) || f b) _ N
      (c + Z.of_nat n)).
    + rewrite IH; [lia|lia|intros; apply Hf; lia].
    + lia.
    + rewrite Hf by lia. zbool.
    + zbool.
    + intros b Hb. f_equal. zbool.
Qed.

(** ** The search *)

(** cyclic distance from block [a] forward to block [b] *)
Definition dist (N a b : Z) : Z := (b - a) mod N.

Lemma dist_fwd N a b : 0 <= a < N -> 0 <= b < N -> dist N a b = if a <=? b then b - a else b - a + N.
Proof.
  intros. unfold dist. zbool.
  - apply Z.mod_small. lia.
  - symmetry. apply (Z.mod_unique_pos _ _ (-1)); lia.
Qed.

Lemma dist_advance N a b k :
  0 < N -> 0 <= k <= dist N a b -> dist N ((a + k) mod N) b = dist N a b - k.
Proof.
  intros HN Hk. unfold dist in *. rewrite Zminus_mod_idemp_r.
  pose proof (Z.mod_pos_bound (b - a) N HN). symmetry.
  apply (Z.mod_unique_pos _ _ ((b - a) / N)); [lia|].
  pose proof (Z.div_mod (b - a) N ltac:(lia)). lia.
Qed.

Lemma first_used_Some st b n i j :
  first_used st b n i = Some j ->
  i <= j < i + Z.of_nat n /\ bit_set st (u32 (b + j)) = true.
Proof.
  revert i. induction n as [|n IH]; intros i; simpl; [done|].
  destruct (bit_set st (u32 (b + i))) eqn:E; intros H; simplify_eq; [split; [lia|done]|].
  apply IH in H. split; [lia|tauto].
Qed.

Lemma first_used_None st b n i :
  first_used st b n i = None ->
  forall j, i <= j < i + Z.of_nat n -> bit_set st (u32 (b + j)) = false.
Proof.
  revert i. induction n as [|n IH]; intros i; simpl; [intros; lia|].
  destruct (bit_set st (u32 (b + i))) eqn:E; intros H j Hj; [done|].
  destruct (decide (j = i)) as [->|]; [done|]. apply (IH _ H). lia.
Qed.

Section Search.
Context (st : malloc_state) (n : Z).
Hypothesis Hn : 1 <= n < 4194304 * 512.
Hypothesis HN : 0 < n_blocks st <= 4194304.
Hypothesis Hcur : 0 <= current_block st < n_blocks st.

Local Abbreviation N := (n_blocks st).
Local Abbreviation cb := (current_block st).

Lemma isFree_true st' : isFree n st = Ok (true, st') -> st' = st /\ free_run st cb n.
Proof.
  unfold isFree. destruct (Z.ltb_spec N (u32 (cb + n))) as [|Hle]; [by case_match|].
  destruct (first_used _ _ _ _) as [i|] eqn:E; [done|]. intros [= <-].
  rewrite u32_small in Hle by lia.
  split_and!; [done|]. split_and!; [lia|lia|]. intros i Hi.
  pose proof (first_used_None _ _ _ _ E (i - cb) ltac:(lia)) as H.
  rewrite u32_small in H by lia. by replace (cb + (i - cb)) with i in H by lia.
Qed.

Lemma isFree_false st' : isFree n st = Ok (false, st') ->
  exists k, 0 < k /\ st' = set_current_block st ((cb + k) mod N) /\
    forall b, free_run st b n -> k <= dist N cb b.
Proof.
  unfold isFree. destruct (Z.ltb_spec N (u32 (cb + n))) as [Hlt|Hle].
  - destruct (Z.eqb_spec cb 0); [done|]. intros [= <-]. exists (N - cb).
    rewrite u32_small in Hlt by lia.
    split_and!; [lia| |].
    + f_equal. replace (cb + (N - cb)) with N by lia. symmetry. apply Z.mod_same. lia.
    + intros b (Hb & Hb' & _). rewrite dist_fwd by lia. zbool.
  - rewrite u32_small in Hle by lia.
    destruct (first_used _ _ _ _) as [i|] eqn:E; [|done]. intros [= <-].
    apply first_used_Some in E as [Hi Hused]. exists (i + 1). split_and!; [lia| |].
    + unfold advance. by rewrite u32_small by lia.
    + intros b (Hb & Hb' & Hfree). rewrite u32_small in Hused by lia.
      rewrite dist_fwd by lia. zbool.
      destruct (decide (cb + i < b)); [lia|].
      rewrite Hfree in Hused by lia. done.
Qed.

Lemma isFree_err e b : isFree n st = Err e -> ~ free_run st b n.
Proof.
  unfold isFree. destruct (Z.ltb_spec N (u32 (cb + n))) as [Hlt|]; [|by case_match].
  destruct (Z.eqb_spec cb 0); [|done]. intros _ (? & ? & _).
  rewrite u32_small in Hlt by lia. lia.
Qed.

Lemma dist_range b : 0 <= dist N cb b < N.
Proof. apply Z.mod_pos_bound. lia. Qed.

Lemma at_dist b : 0 <= b < N -> (cb + dist N cb b) mod N = b.
Proof.
  intros Hb. unfold dist. rewrite Zplus_mod_idemp_r.
  replace (cb + (b - cb)) with b by lia. apply Z.mod_small. lia.
Qed.

(** [ahead k]: no free block has been passed [k] steps after [cb]. *)
Definition ahead (k : Z) : Prop :=
  0 <= k /\ forall b, 0 <= b < N -> bit_set st b = false -> k <= dist N cb b.

Lemma ahead_step k : ahead k -> bit_set st ((cb + k) mod N) = true -> ahead (k + 1).
Proof.
  intros [Hk Hmin] Hused. split; [lia|]. intros b Hb Hf. specialize (Hmin b Hb Hf).
  destruct (decide (k = dist N cb b)) as [->|]; [|lia].
  by rewrite at_dist, Hf in Hused.
Qed.

Lemma advance_at k :
  advance (set_current_block st ((cb + k) mod N)) 1 = set_current_block st ((cb + (k + 1)) mod N).
Proof.
  unfold advance, set_current_block. simpl. f_equal.
  pose proof (Z.mod_pos_bound (cb + k) N ltac:(lia)).
  rewrite u32_small by lia. rewrite Zplus_mod_idemp_l. f_equal. lia.
Qed.

(** The rotating pointer is back at [cb] only after a full round. *)
Lemma round_trip k : 0 < k < N -> (cb + k) mod N <> cb.
Proof.
  intros Hk. destruct (decide (cb + k < N)); [rewrite Z.mod_small; lia|].
  rewrite <- (Z.mod_unique_pos (cb + k) N 1 (cb + k - N)); lia.
Qed.

(** Scanning over used blocks stops at the first free one. *)
Lemma nextFree_spec b :
  0 <= b < N -> bit_set st b = false ->
  exists k, ahead k /\ nextFree (search_fuel st) cb st = Ok (set_current_block st ((cb + k) mod N)).
Proof.
  intros Hb Hfree. pose proof (dist_range b) as Hdb.
  set (inv s := exists k, s = set_current_block st ((cb + k) mod N) /\ ahead k).
  apply (loop_total (nextFree_body cb) inv (fun s => dist N (current_block s) b)
    (fun r => exists k, ahead k /\ r = Ok (set_current_block st ((cb + k) mod N)))).
  - intros s _. apply Z.mod_pos_bound. lia.
  - intros s s' (k & -> & Hk) H. unfold nextFree_body in H. cbv zeta in H. rewrite advance_at in H.
    destruct (bit_set (set_current_block _ _) _) eqn:Hbit; [|done]. apply (ahead_step _ Hk) in Hbit as Hk1.
    case_match; [done|]. simplify_eq. split; [by exists (k + 1)|].
    destruct Hk as [? Hk], Hk1 as [? Hk1]. specialize (Hk1 b Hb Hfree). simpl.
    rewrite !dist_advance by lia. lia.
  - intros s s' (k & -> & Hk) H. unfold nextFree_body in H.
    destruct (bit_set (set_current_block _ _) _); [by case_match|]. simplify_eq. by exists k.
  - intros s e (k & -> & Hk) H. exfalso. unfold nextFree_body in H. cbv zeta in H. rewrite advance_at in H.
    destruct (bit_set (set_current_block _ _) _) eqn:Hbit; [|done]. apply (ahead_step _ Hk) in Hbit as [? Hk1].
    specialize (Hk1 b Hb Hfree). simpl in H.
    destruct (Z.eqb_spec ((cb + (k + 1)) mod N) cb) as [Heq|]; [|done].
    by apply round_trip in Heq; [|destruct Hk; lia].
  - exists 0. split; [|split; [lia|intros; apply dist_range]].
    rewrite Z.add_0_r, Z.mod_small by lia. by destruct st.
  - unfold search_fuel. lia.
Qed.
End Search.

(** ** Allocation *)

Lemma mod_add_mod a b N : (a mod N + b) mod N = (a + b) mod N.
Proof. apply Zplus_mod_idemp_l. Qed.

Lemma set_current_block_twice s a b :
  set_current_block (set_current_block s a) b = set_current_block s b.
Proof. done. Qed.

Section NextFit.
Context (st : malloc_state) (n b0 : Z).
Hypothesis Hok : malloc_ok st.
Hypothesis Hn : 1 <= n.
Hypothesis Hb0 : free_run st b0 n.

Local Abbreviation N := (n_blocks st).
Local Abbreviation c0 := (current_block st).
Local Abbreviation at_ k := (set_current_block st ((c0 + k) mod N)).

(** the search has not passed the start of any free run *)
Definition before_runs (k : Z) : Prop :=
  0 <= k /\ forall b, free_run st b n -> k <= dist N c0 b.

Lemma next_fit_step k : before_runs k ->
  (alloc_body c0 n 0 (at_ k) = Ok (inr (markUsed n (at_ k))) /\
     free_run st ((c0 + k) mod N) n) \/
  exists k', k < k' /\ before_runs k' /\ alloc_body c0 n 0 (at_ k) = Ok (inl (at_ k')).
Proof.
  intros [Hk Hbr]. destruct Hok as [HN Hc _ _ _]. pose proof Hb0 as (Hlo & Hhi & Hfree).
  assert (Hcur : 0 <= (c0 + k) mod N < N) by (apply Z.mod_pos_bound; lia).
  assert (Hdist : forall b k1, free_run st b n -> k1 <= dist N ((c0 + k) mod N) b -> k + k1 <= dist N c0 b).
  { intros b k1 Hb. specialize (Hbr b Hb). rewrite dist_advance by lia. lia. }
  unfold alloc_body. destruct (isFree n (at_ k)) as [[[] s']|e] eqn:E; simpl.
  - left. apply isFree_true in E as [-> Hrun]; simpl; try lia. by rewrite Z.land_0_r.
  - right. apply isFree_false in E as (k1 & Hk1 & -> & Hmin); simpl in *; try lia.
    rewrite mod_add_mod, <- Z.add_assoc, set_current_block_twice. simpl.
    assert (Hbr1 : before_runs (k + k1)) by (split; [lia|intros b Hb; auto]).
    destruct Hbr1 as [Hk' Hbr1]. specialize (Hbr1 _ Hb0) as Hd0.
    pose proof (Z.mod_pos_bound (b0 - c0) N ltac:(lia)) as Hdr.
    destruct (Z.eqb_spec ((c0 + (k + k1)) mod N) c0) as [Heq|_].
    { exfalso. revert Heq. apply round_trip; try lia. unfold dist in Hd0. lia. }
    destruct (nextFree_spec (at_ (k + k1)) ltac:(simpl; lia)
      ltac:(simpl; apply Z.mod_pos_bound; lia) b0) as (k2 & [Hk2 Hah] & Hnf); simpl in *.
    { lia. } { apply Hfree. lia. }
    rewrite Hnf. simpl. rewrite mod_add_mod, <- Z.add_assoc, set_current_block_twice.
    exists (k + k1 + k2). split_and!; [lia| |done]. split; [lia|]. intros b Hb.
    pose proof Hb as (? & ? & Hf). specialize (Hah b ltac:(lia) (Hf b ltac:(lia))).
    specialize (Hbr1 _ Hb). rewrite dist_advance in Hah by lia. lia.
  - exfalso. eapply isFree_err; [..|exact E|exact Hb0]; simpl; lia.
Qed.

Lemma next_fit fuel :
  (Z.to_nat N < fuel)%nat ->
  exists b, free_run st b n /\ (forall b', free_run st b' n -> dist N c0 b <= dist N c0 b') /\
    jxmalloc_internal fuel n 1 st = Ok (markUsed n (set_current_block st b)).
Proof.
  intros Hfuel. pose proof Hok as [HN Hc _ _ _]. pose proof Hb0 as (Hlo & Hhi & Hfree).
  assert (Hdr : forall b, 0 <= dist N c0 b < N) by (intros; apply Z.mod_pos_bound; lia).
  unfold jxmalloc_internal. change (u32 (1 - 1)) with 0.
  apply (loop_total (alloc_body c0 n 0) (fun s => exists k, s = at_ k /\ before_runs k)
    (fun s => dist N (current_block s) b0)
    (fun r => exists b, free_run st b n /\ (forall b', free_run st b' n -> dist N c0 b <= dist N c0 b') /\
      r = Ok (markUsed n (set_current_block st b)))).
  - intros s _. apply Z.mod_pos_bound. lia.
  - intros s s' (k & -> & Hk) H.
    destruct (next_fit_step k Hk) as [[E _]|(k' & Hlt & Hk' & E)]; rewrite E in H; [done|].
    simplify_eq. split; [by exists k'|]. destruct Hk as [? Hk], Hk' as [? Hk']. simpl.
    specialize (Hk _ Hb0). specialize (Hk' _ Hb0). rewrite !dist_advance by lia. lia.
  - intros s a (k & -> & Hk) H.
    destruct (next_fit_step k Hk) as [[E Hrun]|(k' & Hlt & Hk' & E)]; rewrite E in H; [|done].
    simplify_eq. exists ((c0 + k) mod N). split_and!; [done| |done].
    intros b' Hb'. destruct Hk as [? Hk]. specialize (Hk _ Hb') as Hkb. specialize (Hk _ Hrun).
    enough (dist N c0 ((c0 + k) mod N) = k) by lia.
    specialize (Hdr b'). unfold dist. rewrite Zminus_mod_idemp_l.
    replace (c0 + k - c0) with k by lia. apply Z.mod_small. lia.
  - intros s e (k & -> & Hk) H.
    destruct (next_fit_step k Hk) as [[E _]|(k' & _ & _ & E)]; by rewrite E in H.
  - exists 0. split; [|split; [lia|intros; apply Hdr]].
    rewrite Z.add_0_r, Z.mod_small by lia. by destruct st.
  - specialize (Hdr b0). lia.
Qed.
End NextFit.

Lemma GETADDR_exact st b :
  malloc_ok st -> 0 <= b <= n_blocks st -> GETADDR st b = jxmem_start st + b * BLOCKSIZE.
Proof.
  intros [HN _ Hs He _] Hb. unfold GETADDR, BLOCKSIZE in *.
  rewrite (u32_small (b * _)), u32_small by lia. done.
Qed.

(** What marking a free run does to the whole state. *)
Lemma markUsed_spec st n a st' :
  malloc_ok st -> 1 <= n -> free_run st (current_block st) n ->
  markUsed n st = (a, st') ->
  a = jxmem_start st + current_block st * BLOCKSIZE /\
  geometry st' = geometry st /\
  (forall c, bit_set st' c =
     ((current_block st <=? c) && (c <? current_block st + n)) || bit_set st c) /\
  n_free st' = n_free st - n /\ malloc_ok st'.
Proof.
  intros Hok Hn (Hlo & Hhi & Hfree) H. pose proof Hok as [HN Hc Hs He Hf].
  unfold markUsed in H. rewrite (u32_small n) in H by lia. simplify_eq.
  destruct (markUsed_loop_spec (Z.to_nat n) st) as (Hg & Hbits & Hcur); [lia..|].
  rewrite Z2Nat.id in * by lia. specialize (Hcur ltac:(lia)).
  pose proof (count_free_run (bit_set st) (Z.to_nat n) (current_block st) (Z.to_nat (n_blocks st))
    ltac:(lia) ltac:(lia) ltac:(intros; apply Hfree; lia)) as Hcnt.
  rewrite Z2Nat.id in Hcnt by lia.
  pose proof (count_free_range (bit_set st) (Z.to_nat (n_blocks st))).
  pose proof (count_free_range (bit_set (markUsed_loop (Z.to_nat n) st)) (Z.to_nat (n_blocks st))) as Hr'.
  rewrite (count_free_ext _ _ _ (fun b _ => Hbits b)), Hcnt in Hr'.
  assert (Hnf : n_free (markUsed_loop (Z.to_nat n) st) = n_free st - n).
  { rewrite markUsed_loop_free, Z2Nat.id by lia. apply u32_small. lia. }
  split_and!; [apply GETADDR_exact; [done|lia]|done|done|done|].
  unfold geometry in Hg. injection Hg as Hg1 Hg2 Hg3 Hg4 Hg5 Hg6 Hg7.
  constructor; rewrite ?Hg1, ?Hg2, ?Hg3; try done.
  - rewrite Hcur. apply Z.mod_pos_bound. lia.
  - rewrite Hnf, (count_free_ext _ _ _ (fun b _ => Hbits b)), Hcnt. lia.
Qed.

Lemma malloc_ok_move st c :
  malloc_ok st -> 0 <= c < n_blocks st -> malloc_ok (set_current_block st c).
Proof. intros [? ? ? ? ?] ?. by constructor. Qed.

Lemma advance_range st k : 0 < n_blocks st -> 0 <= current_block (advance st k) < n_blocks st.
Proof. intros. apply Z.mod_pos_bound. lia. Qed.

(** [moved st s]: [s] is [st] up to the rotating pointer. *)
Definition moved (st s : malloc_state) : Prop :=
  exists c, 0 <= c < n_blocks st /\ s = set_current_block st c.

Lemma moved_advance st s k : 0 < n_blocks st -> moved st s -> moved st (advance s k).
Proof.
  intros HN (c & Hc & ->). eexists. split; [|unfold advance; by rewrite set_current_block_twice].
  apply Z.mod_pos_bound. done.
Qed.

Lemma nextFree_moved st fuel d s s' :
  0 < n_blocks st -> moved st s -> nextFree fuel d s = Ok s' -> moved st s'.
Proof.
  intros HN Hs H. eapply (loop_partial _ (moved st)); [..|exact Hs|exact H];
    intros s1 s2 Hm; unfold nextFree_body; cbv zeta; repeat case_match; intros; simplify_eq; try done.
  by apply moved_advance.
Qed.

Lemma isFree_moved st n s f s' :
  0 < n_blocks st -> moved st s -> isFree n s = Ok (f, s') -> moved st s'.
Proof.
  intros HN Hs. unfold isFree. repeat case_match; intros; simplify_eq; try done.
  - destruct Hs as (c & Hc & ->). exists 0. split; [lia|by rewrite set_current_block_twice].
  - by apply moved_advance.
Qed.

(** A granted request: a free run, suitably aligned, and nothing else changed. *)
Lemma jxmalloc_internal_sound fuel n align st a st' :
  malloc_ok st -> 1 <= n < 2147483648 -> jxmalloc_internal fuel n align st = Ok (a, st') ->
  exists b, free_run st b n /\ a = jxmem_start st + b * BLOCKSIZE /\
    Z.land a (u32 (align - 1)) = 0 /\ geometry st' = geometry st /\
    (forall c, bit_set st' c = ((b <=? c) && (c <? b + n)) || bit_set st c) /\
    n_free st' = n_free st - n /\ malloc_ok st'.
Proof.
  intros Hok Hn H. pose proof Hok as [HN Hc _ _ _].
  revert H. unfold jxmalloc_internal.
  apply (loop_partial _ (moved st) (fun r => let '(a, st') := r in
    exists b, free_run st b n /\ a = jxmem_start st + b * BLOCKSIZE /\
    Z.land a (u32 (align - 1)) = 0 /\ geometry st' = geometry st /\
    (forall c, bit_set st' c = ((b <=? c) && (c <? b + n)) || bit_set st c) /\
    n_free st' = n_free st - n /\ malloc_ok st')).
  - intros s s' Hs H. unfold alloc_body in H. res_inv H. destruct r as [f s1].
    apply (isFree_moved st) in E; [|lia|done].
    destruct f; case_match; try done; res_inv H; simplify_eq; (eapply nextFree_moved; [|exact E|eassumption]; lia).
  - intros s [a' s'] (c & Hcr & ->) H. unfold alloc_body in H. res_inv H. destruct r as [f s1].
    destruct f; [|case_match; [done|by res_inv H]].
    apply isFree_true in E as [-> Hrun]; simpl in *; try lia.
    destruct (Z.eqb_spec (Z.land (GETADDR (set_current_block st c) c) (u32 (align - 1))) 0) as [Hal|];
      simpl in H; [|by res_inv H].
    injection H as H1 H2.
    assert (H : markUsed n (set_current_block st c) = (a', s')) by (by rewrite <- H1, <- H2).
    apply markUsed_spec in H as (-> & Hg & Hbits & Hnf & Hok'); [|by apply malloc_ok_move|lia|done].
    exists c. split_and!; try done. rewrite (GETADDR_exact (set_current_block st c) c) in Hal; [done| |simpl; lia].
    by apply malloc_ok_move.
  - exists (current_block st). split; [done|by destruct st].
Qed.

(** ** Sizes and blocks *)

Lemma block_mask a : 0 <= a < 4294967296 -> Z.land a BLOCKADDR_MASK = a / BLOCKSIZE * BLOCKSIZE.
Proof.
  exact (land_align 10 a ltac:(lia)).
Qed.

Lemma ALIGN_NEXT_BLOCK_spec a :
  0 <= a -> a + 1023 < 4294967296 -> ALIGN_NEXT_BLOCK a = (a + 1023) / BLOCKSIZE * BLOCKSIZE.
Proof.
  intros. unfold ALIGN_NEXT_BLOCK. change (BLOCKSIZE - 1) with 1023.
  rewrite u32_small by lia. apply block_mask. lia.
Qed.

(** blocks needed for [size] bytes *)
Definition blocks_of (size : Z) : Z := (size + 1023) / BLOCKSIZE.

Lemma ALIGN_NEXT_BLOCK_blocks a :
  0 <= a -> a + 1023 < 4294967296 -> ALIGN_NEXT_BLOCK a / BLOCKSIZE = blocks_of a.
Proof. intros. rewrite ALIGN_NEXT_BLOCK_spec by lia. apply Z.div_mul. done. Qed.

Lemma blocks_of_exact n : blocks_of (n * BLOCKSIZE) = n.
Proof. unfold blocks_of, BLOCKSIZE. symmetry. apply (Z.div_unique_pos _ _ _ 1023); lia. Qed.

Lemma blocks_of_pos a : 0 < a -> 1 <= blocks_of a.
Proof. intros. unfold blocks_of, BLOCKSIZE. apply Z.div_le_lower_bound; lia. Qed.

Lemma jxmalloc_blocks fuel size st :
  0 <= size -> size + 1023 < 4294967296 ->
  jxmalloc fuel size st = jxmalloc_internal fuel (blocks_of size) 1 st.
Proof.
  intros. unfold jxmalloc, BLOCKADDR_N_NULLBITS. rewrite Z.shiftr_div_pow2 by lia.
  change (2 ^ 10) with BLOCKSIZE. by rewrite ALIGN_NEXT_BLOCK_blocks by lia.
Qed.

(** ** Release *)

Lemma markUnused_ok b st :
  bit_set st b = true -> exists st', markUnused b st = Ok st'.
Proof.
  intros Hb. unfold markUnused. destruct (_ =? 0) eqn:E; [|eauto]. exfalso.
  pose proof (Z.mod_pos_bound b 8 ltac:(lia)).
  rewrite shiftr_3, land_7, (u8_small (b mod 8)) in E by lia.
  rewrite (u8_small (Z.shiftl 1 _)) in E; [|rewrite Z.shiftl_1_l; split; [lia|]; apply (Z.pow_lt_mono_r 2 (b mod 8) 8); lia].
  apply (f_equal negb) in E. rewrite land_bit_nonzero, <- bit_set_spec, Hb in E by lia. done.
Qed.

(** Releasing [nb] used blocks from [b]. *)
Lemma jxfree_spec st addr size b nb :
  malloc_ok st -> n_blocks st <= 2097152 ->
  addr = jxmem_start st + b * BLOCKSIZE -> nb = blocks_of size ->
  0 <= size -> size + 1023 < 4294967296 -> 0 <= b < n_blocks st -> b + nb <= n_blocks st ->
  (forall i, b <= i < b + nb -> bit_set st i = true) ->
  exists st', jxfree addr size st = Ok st' /\
    (forall c, bit_set st' c = negb ((b <=? c) && (c <? b + nb)) && bit_set st c) /\
    n_free st' = u32 (n_free st + nb) /\ geometry st' = geometry st /\
    current_block st' = current_block st.
Proof.
  intros Hok Hbig -> -> Hs0 Hs Hb Hle Hused. pose proof Hok as [HN Hc Hst He Hf].
  unfold jxfree. rewrite ALIGN_NEXT_BLOCK_blocks by lia.
  assert (0 <= blocks_of size) by (unfold blocks_of, BLOCKSIZE; apply Z.div_pos; lia).
  assert (Hstart : u32 (Z.quot (s32 (jxmem_start st + b * BLOCKSIZE - jxmem_start st)) BLOCKSIZE) = b).
  { replace (jxmem_start st + _ - _) with (b * BLOCKSIZE) by lia.
    unfold BLOCKSIZE in *. rewrite s32_small, Z.quot_mul, u32_small by lia. done. }
  rewrite Hstart.
  destruct (for_n_total (fun i st => markUnused (u32 (b + i)) st)
    (fun i s => (forall c, bit_set s c = negb ((b <=? c) && (c <? b + i)) && bit_set st c) /\
      n_free s = u32 (n_free st + i) /\ geometry s = geometry st /\ current_block s = current_block st)
    (Z.to_nat (blocks_of size)) 0 st) as (st' & E & HI).
  - intros k s Hk (Hbits & Hnf & Hg & Hcb). rewrite u32_small by lia.
    destruct (markUnused_ok (b + k) s) as [s' Es'].
    { rewrite Hbits, Hused by lia. zbool. }
    exists s'. split; [done|]. apply markUnused_spec in Es' as (_ & Hbits' & Hnf' & Hg' & Hcb').
    split_and!; [| |congruence|congruence].
    + intros c. rewrite Hbits', Hbits. destruct (bit_set st c); rewrite ?andb_false_r; [|done].
      rewrite !andb_true_r. zbool.
    + rewrite Hnf', Hnf. unfold u32. rewrite uwrap_add_idemp_l. f_equal. lia.
  - split_and!; try done.
    + intros c. zbool.
    + rewrite Z.add_0_r, u32_small; [done|].
      pose proof (count_free_range (bit_set st) (Z.to_nat (n_blocks st))). lia.
  - rewrite Z2Nat.id in HI by lia. simpl in HI. destruct HI as (? & ? & ? & ?).
    exists st'. split_and!; try done.
Qed.

(** Releasing keeps the invariant. *)
Lemma malloc_ok_release st st' b nb :
  malloc_ok st -> 0 <= b -> 0 <= nb -> b + nb <= n_blocks st ->
  (forall i, b <= i < b + nb -> bit_set st i = true) ->
  (forall c, bit_set st' c = negb ((b <=? c) && (c <? b + nb)) && bit_set st c) ->
  n_free st' = u32 (n_free st + nb) -> geometry st' = geometry st ->
  current_block st' = current_block st ->
  malloc_ok st' /\ n_free st' = n_free st + nb.
Proof.
  intros [HN Hc Hs He Hf] Hb Hnb Hle Hused Hbits Hnf Hg Hcb.
  unfold geometry in Hg. injection Hg as Hg1 Hg2 Hg3 Hg4 Hg5 Hg6 Hg7.
  pose proof (count_free_run (bit_set st') (Z.to_nat nb) b (Z.to_nat (n_blocks st))
    ltac:(lia) ltac:(lia)) as Hcnt. rewrite Z2Nat.id in Hcnt by lia.
  rewrite (count_free_ext _ (bit_set st)) in Hcnt.
  - pose proof (count_free_range (bit_set st') (Z.to_nat (n_blocks st))).
    rewrite <- Hf in Hcnt. specialize (Hcnt ltac:(intros i Hi; rewrite Hbits; zbool)).
    assert (n_free st' = n_free st + nb) by (rewrite Hnf; apply u32_small; lia).
    split; [|done]. constructor; rewrite ?Hg1, ?Hg2, ?Hg3, ?Hcb; try done. lia.
  - intros c _. rewrite Hbits. zbool. rewrite Hused by lia. done.
Qed.

(** The bitmap lies at [jxmem_start], in blocks that are marked used. *)
Definition bitmap_reserved (st : malloc_state) : Prop :=
  bitmap st = jxmem_start st /\
  forall b, 0 <= b < n_blocks st -> bit_set st (b / 8 / BLOCKSIZE) = true.

Lemma run_misses_bitmap st b n c :
  bitmap_reserved st -> free_run st b n -> 0 <= c < n_blocks st ->
  bitmap st + c / 8 < jxmem_start st + b * BLOCKSIZE \/
  jxmem_start st + b * BLOCKSIZE + n * BLOCKSIZE <= bitmap st + c / 8.
Proof.
  intros [-> Hres] (Hb & Hle & Hfree) Hc. specialize (Hres c Hc).
  destruct (decide (b <= c / 8 / BLOCKSIZE < b + n)) as [H|H].
  - by rewrite Hfree in Hres.
  - unfold BLOCKSIZE in *. pose proof (Z.div_mod (c / 8) 1024 ltac:(lia)).
    pose proof (Z.mod_pos_bound (c / 8) 1024 ltac:(lia)). lia.
Qed.

Lemma bitmap_reserved_grow st st' :
  bitmap_reserved st -> geometry st' = geometry st ->
  (forall c, bit_set st c = true -> bit_set st' c = true) -> bitmap_reserved st'.
Proof.
  intros [Hb Hres] Hg Hmono. unfold geometry in Hg. injection Hg as Hg1 Hg2 Hg3 Hg4 Hg5 Hg6 Hg7.
  split; [congruence|]. intros b Hb'. rewrite Hg3 in Hb'. auto.
Qed.

(** ** Properties *)

(** C21 A request that some run of free blocks can satisfy is granted, with any
    fuel above the number of blocks: [jxmalloc] returns the first free run in
    cyclic order from [current_block], so the search never reports "out of
    memory" too early and never loops; exactly that run becomes used. *)
Theorem jxmalloc_next_fit fuel size st b0 :
  malloc_ok st -> 0 < size -> size + 1023 < 4294967296 ->
  free_run st b0 (blocks_of size) -> (Z.to_nat (n_blocks st) < fuel)%nat ->
  exists b st', jxmalloc fuel size st = Ok (jxmem_start st + b * BLOCKSIZE, st') /\
    free_run st b (blocks_of size) /\
    (forall b', free_run st b' (blocks_of size) ->
       dist (n_blocks st) (current_block st) b <= dist (n_blocks st) (current_block st) b') /\
    (forall c, bit_set st' c = ((b <=? c) && (c <? b + blocks_of size)) || bit_set st c) /\
    n_free st' = n_free st - blocks_of size /\ malloc_ok st'.
Proof.
  intros Hok Hs0 Hs Hrun Hfuel. pose proof (blocks_of_pos size Hs0) as Hn.
  rewrite jxmalloc_blocks by lia.
  destruct (next_fit st (blocks_of size) b0 Hok Hn Hrun fuel Hfuel) as (b & Hb & Hmin & E).
  pose proof Hok as [HN _ _ _ _]. pose proof Hb as (? & ? & _).
  destruct (markUsed _ _) as [a st'] eqn:Em.
  apply markUsed_spec in Em as (-> & Hg & Hbits & Hnf & Hok'); try done.
  - exists b, st'. by split_and!.
  - apply malloc_ok_move; [done|lia].
Qed.

(** Safety of every grant, for any alignment: the blocks returned existed
    and were all free, the address meets the alignment mask, no byte of the
    allocation bitmap lies inside, no other block changed and the invariant
    holds again. *)
Theorem jxmalloc_align_sound fuel n align st a st' :
  malloc_ok st -> bitmap_reserved st -> 1 <= n < 2147483648 ->
  jxmalloc_align fuel n align st = Ok (a, st') ->
  exists b, free_run st b n /\ a = jxmem_start st + b * BLOCKSIZE /\
    Z.land a (u32 (align - 1)) = 0 /\
    (forall c, 0 <= c < n_blocks st -> ~ a <= bitmap st + c / 8 < a + n * BLOCKSIZE) /\
    (forall c, bit_set st' c = ((b <=? c) && (c <? b + n)) || bit_set st c) /\
    n_free st' = n_free st - n /\ malloc_ok st' /\ bitmap_reserved st'.
Proof.
  intros Hok Hres Hn H.
  apply jxmalloc_internal_sound in H as (b & Hrun & -> & Hal & Hg & Hbits & Hnf & Hok'); [|done..].
  exists b. split_and!; try done.
  - intros c Hc. destruct (run_misses_bitmap st b n c Hres Hrun Hc); lia.
  - apply (bitmap_reserved_grow st); [done|done|]. intros c Hc. rewrite Hbits, Hc. apply orb_true_r.
Qed.

(** C28 [jxfree] undoes [jxmalloc]: releasing the block just obtained, with the
    size it was requested with, never panics and gives back exactly the
    bitmap and the free count from before the request (the rotating pointer
    stays).  Block arithmetic in [jxfree] is signed, hence the 2 GB bound. *)
Theorem jxfree_jxmalloc fuel size st a st' :
  malloc_ok st -> n_blocks st <= 2097152 -> 0 < size -> size + 1023 < 4294967296 ->
  jxmalloc fuel size st = Ok (a, st') ->
  exists st'', jxfree a size st' = Ok st'' /\ malloc_ok st'' /\
    (forall c, bit_set st'' c = bit_set st c) /\ n_free st'' = n_free st /\
    geometry st'' = geometry st.
Proof.
  intros Hok Hbig Hs0 Hs H. rewrite jxmalloc_blocks in H by lia.
  pose proof (blocks_of_pos size Hs0) as Hn.
  assert (blocks_of size < 4194305) by (unfold blocks_of, BLOCKSIZE; apply Z.div_lt_upper_bound; lia).
  apply jxmalloc_internal_sound in H as (b & Hrun & -> & _ & Hg & Hbits & Hnf & Hok'); [|done|lia].
  pose proof Hrun as (Hb & Hle & Hfree).
  pose proof Hg as Hg'. unfold geometry in Hg'. injection Hg' as Hg1 Hg2 Hg3 Hg4 Hg5 Hg6 Hg7.
  assert (Hused : forall i, b <= i < b + blocks_of size -> bit_set st' i = true).
  { intros i Hi. rewrite Hbits. zbool. }
  destruct (jxfree_spec st' (jxmem_start st + b * BLOCKSIZE) size b (blocks_of size))
    as (st'' & E & Hbits'' & Hnf'' & Hg'' & Hcb''); rewrite ?Hg1, ?Hg3; try done; try lia.
  destruct (malloc_ok_release st' st'' b (blocks_of size)) as [Hok'' Hn'']; rewrite ?Hg3; try done; try lia.
  exists st''. split_and!; try done; [|lia|congruence].
  intros c. rewrite Hbits'', Hbits. zbool. rewrite Hfree by lia. done.
Qed.

(** A double free is detected: releasing a non-empty range whose first block
    is not marked used panics (CHECK_FREE). *)
Theorem jxfree_double_free st b size :
  malloc_ok st -> n_blocks st <= 2097152 -> 0 < size -> size + 1023 < 4294967296 ->
  0 <= b < n_blocks st -> bit_set st b = false ->
  jxfree (jxmem_start st + b * BLOCKSIZE) size st =
    Err (EPanic "freed block was not marked as used!").
Proof.
  intros Hok Hbig Hs0 Hs Hb Hfree. unfold jxfree. rewrite ALIGN_NEXT_BLOCK_blocks by lia.
  pose proof (blocks_of_pos size Hs0) as Hn.
  destruct (Z.to_nat (blocks_of size)) as [|k] eqn:Ek; [lia|]. simpl.
  replace (jxmem_start st + _ - _) with (b * BLOCKSIZE) by lia.
  unfold BLOCKSIZE in *. rewrite s32_small, Z.quot_mul by lia.
  rewrite (u32_small b), Z.add_0_r, (u32_small b) by lia.
  destruct (markUnused b st) as [st'|e] eqn:E.
  - apply markUnused_spec in E as [E _]. congruence.
  - unfold markUnused in E. by destruct (_ =? 0) in E; simplify_eq.
Qed.

(** An aligned request can spin for ever: when the run of free blocks at the
    rotating pointer is long enough but not aligned, [nextFree] has nothing to
    skip and the search makes no progress, whatever the fuel (and whatever
    aligned run exists further on). *)
Theorem jxmalloc_align_spins fuel n align st :
  malloc_ok st -> 1 <= n -> free_run st (current_block st) n ->
  Z.land (jxmem_start st + current_block st * BLOCKSIZE) (u32 (align - 1)) <> 0 ->
  jxmalloc_align fuel n align st = Err EFuel.
Proof.
  intros Hok Hn Hrun Hmis. pose proof Hok as [HN Hc _ _ _]. pose proof Hrun as (Hlo & Hhi & Hfree).
  apply (loop_diverges _ (fun s => s = st)); [|done]. intros s ->. exists st. split; [|done].
  unfold alloc_body.
  destruct (isFree n st) as [[[] s']|e] eqn:E.
  - apply isFree_true in E as [-> _]; try lia. simpl.
    rewrite GETADDR_exact by (try done; lia). apply Z.eqb_neq in Hmis. rewrite Hmis.
    unfold nextFree, search_fuel. simpl. unfold nextFree_body. by rewrite Hfree by lia.
  - apply isFree_false in E as (k & Hk & _ & Hd); try lia. specialize (Hd _ Hrun).
    unfold dist in Hd. rewrite Z.sub_diag, Z.mod_0_l in Hd by lia. lia.
  - exfalso. eapply isFree_err; [..|exact E|exact Hrun]; lia.
Qed.

Lemma ALIGN_NEXT_BLOCK_aligned a :
  ALIGN_NEXT_BLOCK a mod BLOCKSIZE = 0 /\ 0 <= ALIGN_NEXT_BLOCK a <= 4294966272.
Proof.
  unfold ALIGN_NEXT_BLOCK. pose proof (u32_range (a + (BLOCKSIZE - 1))).
  rewrite block_mask by lia. unfold BLOCKSIZE in *. rewrite Z.mod_mul by lia. split; [done|].
  generalize dependent (u32 (a + (1024 - 1))). intros z Hz.
  pose proof (Z.div_mod z 1024 ltac:(lia)). pose proof (Z.mod_pos_bound z 1024 ltac:(lia)).
  split; [lia|]. enough (z / 1024 < 4194304) by lia. apply Z.div_lt_upper_bound; lia.
Qed.

Lemma ALIGN_PREV_BLOCK_aligned a :
  ALIGN_PREV_BLOCK a mod BLOCKSIZE = 0 /\ 0 <= ALIGN_PREV_BLOCK a <= 4294966272.
Proof.
  unfold ALIGN_PREV_BLOCK. pose proof (u32_range a) as Hz. rewrite block_mask by lia.
  unfold BLOCKSIZE in *. rewrite Z.mod_mul by lia. split; [done|].
  generalize dependent (u32 a). intros z Hz.
  pose proof (Z.div_mod z 1024 ltac:(lia)). pose proof (Z.mod_pos_bound z 1024 ltac:(lia)).
  split; [lia|]. enough (z / 1024 < 4194304) by lia. apply Z.div_lt_upper_bound; lia.
Qed.

(** The state [jxmalloc_init] has built when it marks the bitmap's own blocks. *)
Definition fresh_state (m : memory) (start fin : Z) : malloc_state :=
  let n := (fin - start) / BLOCKSIZE in
  MkMalloc start fin n n 0 start (n / 8) (blocks_of (n / 8)) false (memset m start 0 (n / 8)).

Lemma jxmalloc_init_state fuel boot_info st st' :
  jxmalloc_init fuel boot_info st = Ok st' -> jxmem_start st' < jxmem_end st' ->
  jxmem_start st' mod BLOCKSIZE = 0 /\ jxmem_end st' mod BLOCKSIZE = 0 /\
  0 <= jxmem_start st' /\ jxmem_end st' <= 4294966272 /\
  let s := fresh_state (ram st) (jxmem_start st') (jxmem_end st') in
  let s' := markUsed_loop (Z.to_nat (bitmap_size_blocks s)) s in
  st' = MkMalloc (jxmem_start st') (jxmem_end st') (n_blocks s) (n_free s') (current_block s')
          (jxmem_start st') (bitmap_size s) (bitmap_size_blocks s) true (ram s').
Proof.
  unfold jxmalloc_init. destruct (inited st); [done|]. intros H Hlt. res_inv H. rename r into s.
  destruct (meminfo s =? 0); [done|]. destruct (2 <? mods_count s); [done|]. res_inv H.
  rename r into start.
  assert (Hst : start mod BLOCKSIZE = 0 /\ 0 <= start <= 4294966272).
  { repeat case_match; simplify_eq; apply ALIGN_NEXT_BLOCK_aligned. }
  pose proof (ALIGN_PREV_BLOCK_aligned (1048576 + load32 (ram st) (meminfo s + 12) * 1024)) as Hend.
  set (fin := ALIGN_PREV_BLOCK _) in *. clearbody fin. clear E E0.
  simpl in H. injection H as <-. simpl in Hlt |- *.
  assert (Hn : u32 (s32 (fin - start)) = fin - start).
  { unfold u32, s32, uwrap, swrap. rewrite Zminus_mod_idemp_l.
    replace (fin - start + 2 ^ (32 - 1) - 2 ^ (32 - 1)) with (fin - start) by lia.
    apply Z.mod_small. change (2 ^ 32) with 4294967296. lia. }
  rewrite Hn, !shiftr_3. clear Hn.
  assert (Hq : 0 <= (fin - start) / BLOCKSIZE < 4194304).
  { unfold BLOCKSIZE. split; [apply Z.div_pos; lia|apply Z.div_lt_upper_bound; lia]. }
  assert (Hs : 0 <= (fin - start) / BLOCKSIZE / 8 < 4194304).
  { split; [apply Z.div_pos; lia|apply Z.div_lt_upper_bound; lia]. }
  rewrite ALIGN_NEXT_BLOCK_blocks by lia.
  assert (Hb : 0 <= blocks_of ((fin - start) / BLOCKSIZE / 8) < 4194304).
  { unfold blocks_of, BLOCKSIZE in *. split; [apply Z.div_pos; lia|apply Z.div_lt_upper_bound; lia]. }
  rewrite (u32_small (blocks_of _)) by lia. unfold fresh_state. simpl. split_and!; try tauto; lia.
Qed.

Lemma fresh_state_bits m start fin b :
  0 <= (fin - start) / BLOCKSIZE < 4194304 -> 0 <= b ->
  bit_set (fresh_state m start fin) b =
  if b / 8 <? (fin - start) / BLOCKSIZE / 8 then false
  else Z.testbit (load8 m (start + b / 8)) (b mod 8).
Proof.
  intros HN Hb. rewrite bit_set_spec. simpl.
  assert (0 <= (fin - start) / BLOCKSIZE / 8 < 4194304).
  { split; [apply Z.div_pos; lia|apply Z.div_lt_upper_bound; lia]. }
  pose proof (Z.div_pos b 8 ltac:(lia) ltac:(lia)).
  rewrite memset_load by lia. zbool. apply Z.bits_0.
Qed.

Lemma count_free_all f n : (forall b, 0 <= b < Z.of_nat n -> f b = false) -> count_free f n = Z.of_nat n.
Proof.
  induction n as [|n IH]; intros H; [done|]. cbn [count_free].
  rewrite IH by (intros; apply H; lia). rewrite H by lia. lia.
Qed.

Lemma bitmap_blocks_le N : 0 < N -> 0 <= blocks_of (N / 8) <= N.
Proof.
  intros HN. pose proof (Z.div_pos N 8 ltac:(lia) ltac:(lia)).
  pose proof (Z.mul_div_le N 8 ltac:(lia)).
  unfold blocks_of, BLOCKSIZE. split; [apply Z.div_pos; lia|].
  destruct (decide (N / 8 = 0)) as [->|]; [change ((0 + 1023) / 1024) with 0; lia|].
  apply Z.div_le_upper_bound; lia.
Qed.

Lemma fresh_state_size m start fin :
  start mod BLOCKSIZE = 0 -> fin mod BLOCKSIZE = 0 -> 0 <= start < fin -> fin <= 4294966272 ->
  let s := fresh_state m start fin in
  n_blocks s * BLOCKSIZE = fin - start /\ 0 < n_blocks s < 4194304 /\
  0 <= bitmap_size_blocks s <= n_blocks s.
Proof.
  intros Hs Hf Hlt Hmax s. subst s. simpl.
  assert (Hd : (fin - start) mod BLOCKSIZE = 0) by (rewrite Zminus_mod, Hs, Hf; done).
  pose proof (Z.div_mod (fin - start) BLOCKSIZE ltac:(done)) as D. unfold BLOCKSIZE in *.
  split_and!; try lia; apply bitmap_blocks_le; lia.
Qed.

(** With a multiple of 8 blocks, all of them start out free. *)
Lemma fresh_state_ok m start fin :
  start mod BLOCKSIZE = 0 -> fin mod BLOCKSIZE = 0 -> 0 <= start < fin -> fin <= 4294966272 ->
  n_blocks (fresh_state m start fin) mod 8 = 0 ->
  let s := fresh_state m start fin in
  (forall b, 0 <= b < n_blocks s -> bit_set s b = false) /\ malloc_ok s /\ 1 <= bitmap_size_blocks s.
Proof.
  intros Hs Hf Hlt Hmax Hmod s.
  destruct (fresh_state_size m start fin Hs Hf Hlt Hmax) as (HN & HNr & _). fold s in Hmod, HN, HNr.
  assert (Hclear : forall b, 0 <= b < n_blocks s -> bit_set s b = false).
  { intros b Hb. subst s. rewrite fresh_state_bits by (simpl in *; lia). simpl in *. zbool.
    exfalso. pose proof (Z.div_mod ((fin - start) / BLOCKSIZE) 8 ltac:(lia)).
    enough (b / 8 < (fin - start) / BLOCKSIZE / 8) by lia. apply Z.div_lt_upper_bound; lia. }
  split_and!; [done| |].
  - constructor; simpl; [simpl in *; lia|simpl in *; lia|split; [lia|done]|simpl in *; lia|].
    change (n_blocks s = count_free (bit_set s) (Z.to_nat (n_blocks s))).
    rewrite count_free_all; [lia|]. intros. apply Hclear. lia.
  - change (1 <= blocks_of (n_blocks s / 8)). apply blocks_of_pos.
    pose proof (Z.div_mod (n_blocks s) 8 ltac:(lia)). lia.
Qed.

(** After [jxmalloc_init] the blocks holding the bitmap are marked used and
    every other block is marked free, provided its bit lies in the bytes that
    were cleared; the bits of the last [n_blocks mod 8] blocks keep whatever the
    memory held.  When the number of blocks is a multiple of 8, allocator
    invariant and reservation of the bitmap are established. *)
Theorem jxmalloc_init_bitmap fuel boot_info st st' :
  jxmalloc_init fuel boot_info st = Ok st' -> jxmem_start st' < jxmem_end st' ->
  (forall b, 0 <= b < n_blocks st' ->
     bit_set st' b = (b <? bitmap_size_blocks st') ||
       (if b / 8 <? bitmap_size st' then false
        else Z.testbit (load8 (ram st) (jxmem_start st' + b / 8)) (b mod 8))) /\
  (n_blocks st' mod 8 = 0 -> malloc_ok st' /\ bitmap_reserved st').
Proof.
  intros H Hlt. destruct (jxmalloc_init_state _ _ _ _ H Hlt) as (Ha & Hb & H0 & Hmax & E).
  destruct (fresh_state_size (ram st) _ _ Ha Hb ltac:(lia) Hmax) as (HNe & HN & Hbl).
  pose proof (fresh_state_ok (ram st) _ _ Ha Hb ltac:(lia) Hmax) as Hfresh.
  pose proof (fresh_state_bits (ram st) (jxmem_start st') (jxmem_end st')) as Hbits0.
  set (s := fresh_state _ _ _) in *. cbv zeta in *.
  change ((jxmem_end st' - jxmem_start st') / BLOCKSIZE) with (n_blocks s) in Hbits0.
  set (n := Z.to_nat (bitmap_size_blocks s)) in E.
  assert (Hc0 : current_block s = 0) by done.
  destruct (markUsed_loop_spec n s) as (Hg & Hbits & _); [lia..|]. rewrite Hc0 in Hbits.
  assert (Hsame : n_blocks st' = n_blocks s /\ bitmap_size_blocks st' = bitmap_size_blocks s /\
    bitmap_size st' = n_blocks s / 8 /\ jxmem_start st' = jxmem_start s /\
    bitmap st' = jxmem_start st' /\ current_block st' = current_block (markUsed_loop n s) /\
    n_free st' = n_free (markUsed_loop n s)) by (rewrite E; done).
  destruct Hsame as (En & Ebs & Esz & Est & Ebm & Ecb & Enf).
  injection Hg as Hg1 Hg2 Hg3 Hg4 Hg5 Hg6 Hg7.
  assert (Hrel : forall b, bit_set st' b = bit_set (markUsed_loop n s) b).
  { intros b. rewrite E, !bit_set_spec. simpl. by rewrite Hg4. }
  rewrite En, Ebs, Esz. split.
  - intros b Hb0. rewrite Hrel, Hbits, Hbits0 by lia. subst n.
    f_equal. rewrite Z2Nat.id by lia. zbool.
  - intros Hmod. destruct (Hfresh Hmod) as (Hclear & Hok & H1).
    destruct (markUsed_spec s (bitmap_size_blocks s) (GETADDR s 0) (markUsed_loop n s))
      as (_ & _ & _ & _ & Hok'); [done|done| | |].
    { rewrite Hc0. split_and!; [lia|lia|intros; apply Hclear; lia]. }
    { unfold markUsed. rewrite u32_small by lia. done. }
    destruct Hok' as [K1 K2 K3 K4 K5]. rewrite ?Hg1, ?Hg3 in *.
    split; [constructor; rewrite ?En, ?Ecb, ?Enf, ?Est; try done|].
    + rewrite K5. apply count_free_ext. intros; by rewrite Hrel.
    + split; [done|]. intros b Hb0. rewrite Hrel, Hbits. apply orb_true_iff. left.
      rewrite En in Hb0. subst n. rewrite Z2Nat.id by lia.
      pose proof (Z.div_pos b 8 ltac:(lia) ltac:(lia)).
      pose proof (Z.div_pos (b / 8) BLOCKSIZE ltac:(lia) ltac:(done)).
      enough (b / 8 / BLOCKSIZE < bitmap_size_blocks s) by zbool.
      pose proof (Z.div_mod (n_blocks s) 8 ltac:(lia)).
      assert (b / 8 < n_blocks s / 8) by (apply Z.div_lt_upper_bound; lia).
      change (bitmap_size_blocks s) with (blocks_of (n_blocks s / 8)).
      unfold blocks_of, BLOCKSIZE in *. apply Z.div_lt_upper_bound; [lia|].
      pose proof (Z.div_mod (n_blocks s / 8 + 1023) 1024 ltac:(lia)).
      pose proof (Z.mod_pos_bound (n_blocks s / 8 + 1023) 1024 ltac:(lia)). lia.
Qed.

(** *** Witnesses: 16 blocks at 1 MB, block 0 holds the bitmap. *)
Definition st16 : malloc_state :=
  MkMalloc 1048576 1064960 16 15 1 1048576 2 1 true (upd (fun _ => 0) 1048576 1).

Lemma st16_ok : malloc_ok st16.
Proof. by constructor; vm_compute. Qed.

Lemma st16_free b n : 1 <= b -> 0 <= n -> b + n <= 16 -> free_run st16 b n.
Proof.
  intros Hb Hn Hle. split_and!; [lia|simpl; lia|]. intros i Hi.
  assert (H : forall k, (k < 16)%nat -> k <> O -> bit_set st16 (Z.of_nat k) = false).
  { intros k Hk H0. do 16 (destruct k as [|k]; [done|]). lia. }
  rewrite <- (Z2Nat.id i) by lia. apply H; lia.
Qed.

Lemma st16_reserved : bitmap_reserved st16.
Proof.
  split; [done|]. intros b Hb. simpl in Hb.
  replace (b / 8 / BLOCKSIZE) with 0; [done|]. unfold BLOCKSIZE.
  rewrite Z.div_div by lia. symmetry. apply Z.div_small. lia.
Qed.

Lemma jxmalloc_next_fit_witness :
  exists b st', jxmalloc 17 2000 st16 = Ok (jxmem_start st16 + b * BLOCKSIZE, st') /\ malloc_ok st'.
Proof.
  destruct (jxmalloc_next_fit 17 2000 st16 4 st16_ok) as (b & st' & H & _ & _ & _ & _ & Hok);
    [lia|lia|apply st16_free; vm_compute; done|vm_compute; lia|]. by exists b, st'.
Defined.

Lemma jxmalloc_align_sound_witness :
  exists b st', jxmalloc_align 5 2 1024 st16 = Ok (jxmem_start st16 + b * BLOCKSIZE, st').
Proof.
  destruct (jxmalloc_align 5 2 1024 st16) as [[a st']|e] eqn:E; [|by vm_compute in E].
  destruct (jxmalloc_align_sound 5 2 1024 st16 a st' st16_ok st16_reserved ltac:(lia) E)
    as (b & _ & -> & _). by exists b, st'.
Defined.

Lemma jxfree_jxmalloc_witness :
  exists a st' st'', jxmalloc 17 3000 st16 = Ok (a, st') /\ jxfree a 3000 st' = Ok st'' /\
    n_free st'' = 15.
Proof.
  destruct (jxmalloc 17 3000 st16) as [[a st']|e] eqn:E; [|by vm_compute in E].
  destruct (jxfree_jxmalloc 17 3000 st16 a st' st16_ok ltac:(done) ltac:(lia) ltac:(lia) E)
    as (st'' & E' & _ & _ & Hn & _). by exists a, st', st''.
Defined.

Lemma jxfree_double_free_witness :
  jxfree (jxmem_start st16 + 3 * BLOCKSIZE) 100 st16 =
    Err (EPanic "freed block was not marked as used!").
Proof. apply (jxfree_double_free st16 3 100 st16_ok); [done|lia|lia|simpl; lia|done]. Defined.

Lemma jxmalloc_align_spins_witness : jxmalloc_align 1000 4 4096 st16 = Err EFuel.
Proof.
  apply (jxmalloc_align_spins 1000 4 4096 st16 st16_ok); [lia|apply st16_free; simpl; lia|done].
Defined.

(** A boot record with memory up to 1 MB + 9 KB and one module ending at 1 MB +
    1 KB: eight blocks. *)
Definition boot8 : memory :=
  let m := store32 (store32 (store32 (fun _ => 255) 4104 4) 4108 16) 4116 9 in
  let m := store32 (store32 (store32 m 4120 3) 4124 16) 4132 1049599 in
  store32 m 4136 0.
Definition st_boot : malloc_state := MkMalloc 0 0 0 0 0 0 0 0 false boot8.

Lemma jxmalloc_init_bitmap_witness :
  exists st', jxmalloc_init 5 4096 st_boot = Ok st' /\ n_blocks st' = 8 /\ malloc_ok st'.
Proof.
  destruct (jxmalloc_init 5 4096 st_boot) as [st'|e] eqn:E; [|by vm_compute in E].
  assert (Hf : jxmem_start st' = 1049600 /\ jxmem_end st' = 1057792 /\ n_blocks st' = 8).
  { pose proof (f_equal (fun r => match r with
      | Ok s => (jxmem_start s, jxmem_end s, n_blocks s) | Err _ => (0, 0, 0) end) E) as H.
    vm_compute in H.
    injection H; intros; split_and!; done. }
  destruct Hf as (Hs & He & Hn). exists st'. split_and!; [done|done|].
  apply (jxmalloc_init_bitmap 5 4096 st_boot st' E); [lia|by rewrite Hn].
Defined.
