(* ===== verification/Alloc.v ===== *)
(** * What the block allocator promises to its clients

    The components that obtain memory with [jxmalloc] and return it with
    [jxfree] (code memory, memory objects, the boot file system) are verified
    against this interface; [malloc_allocator] shows that core/malloc.c keeps
    the promise. *)

From S2P Require Import Prelude Mem CString Malloc.
#[local] Open Scope Z_scope.

(** An allocator over states [S].  [owned s x]: the byte at [x] is handed out or
    reserved; [grant s a size]: the block at [a] was obtained for [size] bytes
    and not released; a block spans [al_span size] bytes. *)
Class Allocator (S : Type) := {
  al_alloc : Z -> S -> res (Z * S);
  al_free : Z -> Z -> S -> res S;
  al_ok : S -> Prop;
  owned : S -> Z -> Prop;
  grant : S -> Z -> Z -> Prop;
  al_span : Z -> Z;
  al_span_le : forall size, 0 <= size -> size <= al_span size;
  grant_owned : forall s a size x, grant s a size -> a <= x < a + al_span size -> owned s x;
  al_alloc_spec : forall size s a s',
    al_ok s -> 0 < size -> size + 1023 < 4294967296 -> al_alloc size s = Ok (a, s') ->
    al_ok s' /\ 0 <= a /\ a + al_span size <= 2147483648 /\ grant s' a size /\
    (forall x, a <= x < a + al_span size -> ~ owned s x) /\
    (forall x, owned s' x <-> owned s x \/ a <= x < a + al_span size) /\
    (forall a2 n2, grant s a2 n2 -> grant s' a2 n2);
  al_free_spec : forall size s a,
    al_ok s -> 0 < size -> size + 1023 < 4294967296 -> grant s a size ->
    exists s', al_free a size s = Ok s' /\ al_ok s' /\
      (forall x, owned s' x <-> owned s x /\ ~ a <= x < a + al_span size) /\
      (forall a2 n2, grant s a2 n2 ->
         a2 + al_span n2 <= a \/ a + al_span size <= a2 -> grant s' a2 n2);
}.

(** Fuel that is always enough for the search loop. *)
Definition jxmalloc_ (size : Z) (st : malloc_state) : res (Z * malloc_state) :=
  jxmalloc (S (Z.to_nat (n_blocks st))) size st.

(** Memory below 2 GB, as the signed block arithmetic of [jxfree] needs. *)
Definition malloc_good (st : malloc_state) : Prop := malloc_ok st /\ jxmem_start st + n_blocks st * BLOCKSIZE <= 2147483648.

(** Addresses below the heap are never handed out. *)
Definition malloc_owned (st : malloc_state) (x : Z) : Prop :=
  x < jxmem_start st \/ bit_set st ((x - jxmem_start st) / BLOCKSIZE) = true.

Definition malloc_grant (st : malloc_state) (a size : Z) : Prop :=
  exists b, 0 <= b /\ a = jxmem_start st + b * BLOCKSIZE /\ 0 < size /\
    b + blocks_of size <= n_blocks st /\
    forall i, b <= i < b + blocks_of size -> bit_set st i = true.

Definition malloc_span (size : Z) : Z := blocks_of size * BLOCKSIZE.

Lemma malloc_span_bounds size : 0 <= size -> size <= malloc_span size <= size + 1023.
Proof.
  intros. unfold malloc_span, blocks_of, BLOCKSIZE.
  pose proof (Z.div_mod (size + 1023) 1024 ltac:(lia)).
  pose proof (Z.mod_pos_bound (size + 1023) 1024 ltac:(lia)). lia.
Qed.

Lemma block_of_byte start b n x :
  start + b * BLOCKSIZE <= x < start + (b + n) * BLOCKSIZE <->
  b <= (x - start) / BLOCKSIZE < b + n.
Proof.
  unfold BLOCKSIZE. split; intros H.
  - split; [apply Z.div_le_lower_bound|apply Z.div_lt_upper_bound]; lia.
  - pose proof (Z.div_mod (x - start) 1024 ltac:(lia)).
    pose proof (Z.mod_pos_bound (x - start) 1024 ltac:(lia)). lia.
Qed.

Lemma malloc_grant_owned s a size x :
  malloc_grant s a size -> a <= x < a + malloc_span size -> malloc_owned s x.
Proof.
  intros (b & Hb & -> & Hs & Hle & Hused) Hx. unfold malloc_span in Hx.
  right. apply Hused, block_of_byte. lia.
Qed.

Lemma malloc_alloc_spec size s a s' :
  malloc_good s -> 0 < size -> size + 1023 < 4294967296 -> jxmalloc_ size s = Ok (a, s') ->
  malloc_good s' /\ 0 <= a /\ a + malloc_span size <= 2147483648 /\ malloc_grant s' a size /\
  (forall x, a <= x < a + malloc_span size -> ~ malloc_owned s x) /\
  (forall x, malloc_owned s' x <-> malloc_owned s x \/ a <= x < a + malloc_span size) /\
  (forall a2 n2, malloc_grant s a2 n2 -> malloc_grant s' a2 n2).
Proof.
  intros [Hok Hbig] Hs0 Hs H. pose proof (malloc_span_bounds size ltac:(lia)).
  unfold malloc_span, jxmalloc_ in *. rewrite jxmalloc_blocks in H by lia.
  pose proof (blocks_of_pos size Hs0).
  apply jxmalloc_internal_sound in H as (b & (Hb & Hle & Hfree) & -> & _ & Hg & Hbits & _ & Hok');
    [|done|unfold BLOCKSIZE in *; lia].
  pose proof Hok as [_ _ [Hst _] Hend _]. injection Hg as Es _ En _ _ _ _.
  assert (0 <= b * BLOCKSIZE) by (unfold BLOCKSIZE; lia).
  split_and!; [split; [done|by rewrite Es, En]|lia|unfold BLOCKSIZE in *; lia| | | |].
  - exists b. rewrite Es, En. split_and!; try done. intros i Hi. rewrite Hbits. zbool.
  - intros x Hx [Ho|Ho]; [lia|]. rewrite Hfree in Ho; [done|]. apply block_of_byte. lia.
  - intros x. unfold malloc_owned. rewrite Es, Hbits.
    assert (Hx : jxmem_start s + b * BLOCKSIZE <= x < jxmem_start s + b * BLOCKSIZE + blocks_of size * BLOCKSIZE <->
      b <= (x - jxmem_start s) / BLOCKSIZE < b + blocks_of size) by (rewrite <- block_of_byte; lia).
    rewrite Hx, orb_true_iff, andb_true_iff, Z.leb_le, Z.ltb_lt.
    tauto.
  - intros a2 n2 (b2 & ? & -> & ? & ? & Hu). exists b2. rewrite Es, En. split_and!; try done.
    intros i Hi. rewrite Hbits, Hu by done. apply orb_true_r.
Qed.

Lemma malloc_free_spec size s a :
  malloc_good s -> 0 < size -> size + 1023 < 4294967296 -> malloc_grant s a size ->
  exists s', jxfree a size s = Ok s' /\ malloc_good s' /\
    (forall x, malloc_owned s' x <-> malloc_owned s x /\ ~ a <= x < a + malloc_span size) /\
    (forall a2 n2, malloc_grant s a2 n2 ->
       a2 + malloc_span n2 <= a \/ a + malloc_span size <= a2 -> malloc_grant s' a2 n2).
Proof.
  intros [Hok Hbig] Hs0 Hs (b & Hb & -> & _ & Hle & Hused). pose proof (blocks_of_pos size Hs0).
  unfold malloc_span.
  destruct (jxfree_spec s (jxmem_start s + b * BLOCKSIZE) size b (blocks_of size))
    as (s' & E & Hbits & Hnf & Hg & Hcb); try done; try lia.
  { destruct Hok as [_ _ [? _] _ _]. unfold BLOCKSIZE in *. lia. }
  destruct (malloc_ok_release s s' b (blocks_of size)) as [Hok' _]; try done; try lia.
  injection Hg as Es _ En _ _ _ _.
  exists s'. split_and!; [done|split; [done|by rewrite Es, En]| |].
  - intros x. unfold malloc_owned. rewrite Es, Hbits.
    assert (Hx : jxmem_start s + b * BLOCKSIZE <= x < jxmem_start s + b * BLOCKSIZE + blocks_of size * BLOCKSIZE <->
      b <= (x - jxmem_start s) / BLOCKSIZE < b + blocks_of size) by (rewrite <- block_of_byte; lia).
    assert (0 <= b * BLOCKSIZE) by (unfold BLOCKSIZE; lia). destruct (Z.lt_ge_cases x (jxmem_start s)) as [Hlt|Hge].
    { split; [intros _; split; [by left|lia]|by left]. }
    rewrite Hx, andb_true_iff, negb_true_iff, andb_false_iff, Z.leb_gt, Z.ltb_ge. clear - Hge. intuition lia.
  - intros a2 n2 (b2 & ? & -> & ? & ? & Hu) Hdis. exists b2. rewrite Es, En. split_and!; try done.
    intros i Hi. rewrite Hbits, Hu by done. unfold BLOCKSIZE in Hdis. zbool.
Qed.

#[export] Instance malloc_allocator : Allocator malloc_state := {
  al_alloc := jxmalloc_;
  al_free := jxfree;
  al_ok := malloc_good;
  owned := malloc_owned;
  grant := malloc_grant;
  al_span := malloc_span;
  al_span_le := fun size H => proj1 (malloc_span_bounds size H);
  grant_owned := malloc_grant_owned;
  al_alloc_spec := malloc_alloc_spec;
  al_free_spec := malloc_free_spec;
}.
