(* ===== verification/CodeMem.v ===== *)
(** * Per-domain code memory (core/malloc.c)

    Class descriptors, method tables, native code and all other load-time data
    of a domain come from its code memory: up to [CODE_FRAGMENTS] chunks of
    [code_bytes] bytes obtained from the block allocator, filled from the
    bottom and never released piecewise.  The [malloc_*] functions of this file
    differ only in how many bytes they ask for; the sizes of the C structures
    are parameters. *)

From S2P Require Import Prelude Mem CString Malloc Alloc.
#[local] Open Scope Z_scope.

Definition CODE_FRAGMENTS : Z := 128.

(** The code-memory fields of [DomainDesc]. *)
Record domain_code := MkCode {
  codeBorder : list Z;
  code : list Z;
  codeTop : list Z;
  cur_code : Z;
  code_bytes : Z;
}.

Section CodeMemory.
Context {S : Type} `{!Allocator S}.

(** chunk [c] becomes a fresh block of [chunksize] bytes, still empty *)
Definition new_chunk (d : domain_code) (c : Z) (chunksize : Z) (s : S) : res (domain_code * S) :=
  let! '(a, s) := al_alloc chunksize s in
  let i := Z.to_nat c in
  Ok (MkCode (<[i := u32 (a + chunksize)]> (codeBorder d)) (<[i := a]> (code d))
        (<[i := a]> (codeTop d)) c (code_bytes d), s).

Definition top_of (d : domain_code) (c : Z) : Z := codeTop d !!! Z.to_nat c.
Definition border_of (d : domain_code) (c : Z) : Z := codeBorder d !!! Z.to_nat c.
Definition set_top (d : domain_code) (c a : Z) : domain_code :=
  MkCode (codeBorder d) (code d) (<[Z.to_nat c := a]> (codeTop d)) (cur_code d) (code_bytes d).

Definition malloc_code (d : domain_code) (size : Z) (s : S) : res (Z * domain_code * S) :=
  let chunksize := u32 (code_bytes d) in
  let! '(d, s) := (if cur_code d =? -1 then new_chunk d 0 chunksize s else Ok (d, s)) in
  let c := cur_code d in
  let nextObj := u32 (top_of d c + size) in
  if border_of d c <? nextObj then
    let c := c + 1 in
    if c =? CODE_FRAGMENTS then Err (EPanic "NO MORE CODE") else
    let! '(d, s) := new_chunk d c chunksize s in
    let nextObj := u32 (top_of d c + size) in
    if border_of d c <? nextObj then Err (EPanic "can`t alloc %i byte")
    else Ok (top_of d c, set_top d c nextObj, s)
  else Ok (top_of d c, set_top d c nextObj, s).

(** *** The typed front ends

    [sz_T] is C's [sizeof(T)].  Fronts that clear their result or set name
    pointers write through the returned address: [cleared] is the range
    passed to [memset], [name] and [vtable] the pointers stored. *)
Context (sz_LibDesc sz_ClassDesc sz_PrimitiveClassDesc sz_ArrayClassDesc sz_Class sz_MethodDesc
         sz_ExceptionDesc sz_SharedLibDesc sz_FieldDesc sz_SymbolDesc sz_ByteCodeDesc
         sz_SourceLineDesc sz_meta_s sz_nameValue_s : Z).
Definition sz_ptr : Z := 4.

Definition malloc_libdesc d (s : S) := malloc_code d sz_LibDesc s.

(** a zeroed descriptor followed by the characters of its name *)
Record named := MkNamed { desc : Z; cleared : Z; name : Z; vtable : Z }.
Definition malloc_classdesc d (namelen : Z) (s : S) : res (named * domain_code * S) :=
  let! '(m, d, s) := malloc_code d (u32 (sz_ClassDesc + namelen)) s in
  Ok (MkNamed m (u32 (sz_ClassDesc + namelen)) (u32 (m + sz_ClassDesc)) 0, d, s).
Definition malloc_primitiveclassdesc d (namelen : Z) (s : S) : res (named * domain_code * S) :=
  let! '(m, d, s) := malloc_code d (u32 (sz_PrimitiveClassDesc + namelen)) s in
  Ok (MkNamed m (u32 (sz_PrimitiveClassDesc + namelen)) (u32 (m + sz_PrimitiveClassDesc)) 0, d, s).
(** the vtable follows the name, behind one word for the class pointer *)
Definition malloc_arrayclassdesc d (namelen : Z) (s : S) : res (named * domain_code * S) :=
  let! '(m, d, s) := malloc_code d (u32 (sz_ArrayClassDesc + namelen + (11 + 1) * 4)) s in
  Ok (MkNamed m (u32 (sz_ArrayClassDesc + namelen)) (u32 (m + sz_ArrayClassDesc))
        (u32 (m + sz_ArrayClassDesc + namelen + 4)), d, s).

Definition malloc_class d (s : S) := malloc_code d sz_Class s.
Definition malloc_classes d number (s : S) := malloc_code d (u32 (sz_Class * number)) s.
Definition malloc_methoddesc d (s : S) := malloc_code d sz_MethodDesc s.
Definition malloc_methoddescs d number (s : S) := malloc_code d (u32 (sz_MethodDesc * number)) s.
Definition malloc_exceptiondescs d number (s : S) := malloc_code d (u32 (sz_ExceptionDesc * number)) s.
Definition malloc_classdescs d number (s : S) := malloc_code d (u32 (sz_ClassDesc * number)) s.
Definition malloc_vtableSym d vtablelen (s : S) := malloc_code d (u32 (vtablelen * 3 * sz_ptr)) s.
Definition malloc_methods d number (s : S) := malloc_code d (u32 (number * sz_MethodDesc)) s.
Definition malloc_methodVtable d number (s : S) := malloc_code d (u32 (number * sz_ptr)) s.
Definition malloc_classdesctable d number (s : S) := malloc_code d (u32 (number * sz_ptr)) s.
Definition malloc_sharedlibdesctable d number (s : S) := malloc_code d (u32 (number * sz_ptr)) s.
Definition malloc_fielddescs d number (s : S) := malloc_code d (u32 (sz_FieldDesc * number)) s.
Definition malloc_vtable d number (s : S) := malloc_code d (u32 (number * sz_ptr)) s.

(** Temporary string tables come from a [TempMemory] arena: [free] and
    [border] are its fields, the new [free] is the second component. *)
Definition malloc_tmp_stringtable (free border number : Z) : res (Z * Z) :=
  let n := u32 (free + u32 (number * 4)) in
  if border <? n then Err (EPanic "temp space not sufficient") else Ok (free, n).

(** every shared library gets the next identifier *)
Definition malloc_sharedlibdesc d (sharedLibID namelen : Z) (s : S)
  : res (named * Z * Z * domain_code * S) :=
  let! '(m, d, s) := malloc_code d (u32 (sz_SharedLibDesc + namelen)) s in
  Ok (MkNamed m (u32 (sz_SharedLibDesc + namelen)) (u32 (m + sz_SharedLibDesc)) 0,
      sharedLibID, u32 (sharedLibID + 1), d, s).

Definition malloc_string d len (s : S) := malloc_code d (u32 ((len + 1) * 1)) s.
Definition malloc_staticsmap d size (s : S) := malloc_code d size s.
Definition malloc_objectmap d size (s : S) := malloc_code d size s.
Definition malloc_argsmap d size (s : S) := malloc_code d size s.
Definition malloc_symboltable d len (s : S) := malloc_code d (u32 (sz_ptr * len)) s.
Definition malloc_symbol d size (s : S) := malloc_code d size s.
Definition malloc_stackmap d size (s : S) := malloc_code d size s.
Definition malloc_proxycode d size (s : S) := malloc_code d size s.
Definition malloc_cpudesc d size (s : S) := malloc_code d size s.
Definition malloc_bytecodetable d len (s : S) := malloc_code d (u32 (sz_ByteCodeDesc * len)) s.
Definition malloc_sourcelinetable d len (s : S) := malloc_code d (u32 (sz_SourceLineDesc * len)) s.
Definition malloc_staticfields d number (s : S) := malloc_code d (u32 (number * 4)) s.
Definition malloc_metatable d number (s : S) := malloc_code d (u32 (number * sz_meta_s)) s.

(** native code: 16-byte aligned for the instruction buffer *)
Definition malloc_nativecode d size (s : S) : res (Z * domain_code * S) :=
  let! '(m, d, s) := malloc_code d (u32 (size + 16)) s in
  Ok (Z.land (u32 (m + 15)) (u32 (Z.lnot 15)), d, s).

(** [malloc_domainzero_namevalue]: in DomainZero's code memory *)
Definition malloc_domainzero_namevalue domainZero namelen (s : S) : res (Z * Z * domain_code * S) :=
  let! '(m, d, s) := malloc_code domainZero (u32 (sz_nameValue_s + namelen)) s in
  Ok (m, u32 (m + sz_nameValue_s), d, s).
End CodeMemory.

(** ** Invariant *)

Section CodeInvariant.
Context {S : Type} `{!Allocator S}.

(** The chunks [0 .. cur_code] are blocks the allocator has granted, and each
    is filled up to [codeTop]. *)
Record code_ok (d : domain_code) (s : S) : Prop := {
  co_len : length (codeBorder d) = 128%nat /\ length (code d) = 128%nat /\ length (codeTop d) = 128%nat;
  co_cur : -1 <= cur_code d < CODE_FRAGMENTS;
  co_bytes : 0 < code_bytes d < 2147483648;
  co_chunk : forall c, 0 <= c <= cur_code d ->
    grant s (code d !!! Z.to_nat c) (code_bytes d) /\
    0 <= code d !!! Z.to_nat c <= top_of d c /\ top_of d c <= border_of d c /\
    border_of d c = code d !!! Z.to_nat c + code_bytes d /\ border_of d c <= 2147483648;
  co_disj : forall c c' x, 0 <= c <= cur_code d -> 0 <= c' <= cur_code d ->
    code d !!! Z.to_nat c <= x < border_of d c ->
    code d !!! Z.to_nat c' <= x < border_of d c' -> c = c';
}.

(** [in_use d x]: the byte [x] was returned by an earlier [malloc_code] *)
Definition in_use (d : domain_code) (x : Z) : Prop :=
  exists c, 0 <= c <= cur_code d /\ code d !!! Z.to_nat c <= x < top_of d c.

Lemma new_chunk_ok d c s d' s' :
  al_ok s -> code_ok d s -> c = cur_code d + 1 -> c < CODE_FRAGMENTS ->
  new_chunk d c (u32 (code_bytes d)) s = Ok (d', s') ->
  al_ok s' /\ code_ok d' s' /\ cur_code d' = c /\ code_bytes d' = code_bytes d /\
  (forall x, in_use d' x <-> in_use d x) /\
  (forall x, top_of d' c <= x < border_of d' c -> ~ owned s x /\ owned s' x) /\
  (forall x, owned s x -> owned s' x).
Proof.
  intros Hs [(L1 & L2 & L3) Hcur Hbytes Hch Hdis] -> Hlt H. unfold new_chunk in H.
  rewrite (u32_small (code_bytes d)) in H by lia.
  res_inv H. destruct r as [a s1]. injection H as <- <-.
  apply al_alloc_spec in E as (Hok & Ha & Hfit & Hg & Hfresh & Hown & Hkeep); [|done|lia|lia].
  pose proof (al_span_le (code_bytes d) ltac:(lia)) as Hsp.
  rewrite (u32_small (a + _)) by lia. remember (cur_code d + 1) as c eqn:Ec.
  unfold CODE_FRAGMENTS in Hlt, Hcur.
  assert (Hnew : forall l : list Z, length l = 128%nat -> forall v, (<[Z.to_nat c := v]> l) !!! Z.to_nat c = v).
  { intros l Hl v. apply list_lookup_total_insert_eq. rewrite Hl. lia. }
  assert (Hold : forall (l : list Z) v k, 0 <= k <= cur_code d -> (<[Z.to_nat c := v]> l) !!! Z.to_nat k = l !!! Z.to_nat k).
  { intros l v k Hk. apply list_lookup_total_insert_ne. lia. }
  unfold in_use, top_of, border_of in *; simpl.
  split_and!; try done.
  - assert (Hold_owned : forall k x, 0 <= k <= cur_code d ->
      code d !!! Z.to_nat k <= x < codeBorder d !!! Z.to_nat k -> ~ a <= x < a + code_bytes d).
    { intros k x Hk Hx Hxa. destruct (Hch k Hk) as (G & ? & ? & ? & ?).
      apply (Hfresh x); [lia|]. eapply grant_owned; [exact G|lia]. }
    constructor; simpl; [by rewrite !length_insert|unfold CODE_FRAGMENTS; lia|done| |].
    2: { intros k k' x Hk Hk'. unfold border_of. simpl.
      destruct (decide (k = c)) as [->|Hne], (decide (k' = c)) as [->|Hne']; [done| | |];
        rewrite ?Hnew, ?Hold by (done || lia); intros Hx Hx'; [| |by apply (Hdis k k' x); lia].
      - exfalso. apply (Hold_owned k' x); lia.
      - exfalso. apply (Hold_owned k x); lia. }
    intros k Hk. unfold top_of, border_of. simpl.
    destruct (decide (k = c)) as [->|Hne].
    + rewrite !Hnew by done. split_and!; try done; lia.
    + rewrite !Hold by lia. destruct (Hch k ltac:(lia)) as (G & ?). split; [by apply Hkeep|done].
  - intros x. split; intros (k & Hk & Hx).
    + destruct (decide (k = c)) as [->|Hne]; [rewrite !Hnew in Hx by done; lia|].
      rewrite !Hold in Hx by lia. exists k. split; [lia|done].
    + exists k. rewrite !Hold by lia. split; [lia|done].
  - intros x. rewrite !Hnew by done. intros Hx. split; [apply Hfresh; lia|]. apply Hown. right. lia.
  - intros x Hx. apply Hown. by left.
Qed.

(** What filling chunk [cur_code] up to [nextObj] does. *)
Lemma fill_ok d s size :
  code_ok d s -> 0 <= cur_code d -> 0 <= size < 2147483648 ->
  u32 (top_of d (cur_code d) + size) <= border_of d (cur_code d) ->
  let p := top_of d (cur_code d) in
  let d' := set_top d (cur_code d) (u32 (p + size)) in
  code_ok d' s /\
  (forall x, p <= x < p + size -> ~ in_use d x /\ owned s x) /\
  (forall x, in_use d' x <-> in_use d x \/ p <= x < p + size).
Proof.
  intros [(L1 & L2 & L3) Hcur Hbytes Hch Hdis] Hc0 Hsize Hfit p d'. subst d'.
  destruct (Hch (cur_code d) ltac:(lia)) as (G & Hlo & Hhi & Hb & Hmax). fold p in Hlo, Hhi, Hfit.
  rewrite u32_small in * by lia. pose proof (al_span_le (code_bytes d) ltac:(lia)).
  assert (Htop : forall k, top_of (set_top d (cur_code d) (p + size)) k =
    if decide (Z.to_nat k = Z.to_nat (cur_code d)) then p + size else top_of d k).
  { intros k. unfold top_of. simpl. case_decide as E.
    - rewrite E. apply list_lookup_total_insert_eq. unfold CODE_FRAGMENTS in *. lia.
    - by apply list_lookup_total_insert_ne. }
  assert (Huse : forall x, in_use (set_top d (cur_code d) (p + size)) x <-> in_use d x \/ p <= x < p + size).
  { intros x. unfold in_use. simpl. setoid_rewrite Htop. split.
    - intros (k & Hk & Hx). case_decide as E.
      + assert (k = cur_code d) as -> by lia. destruct (decide (x < p)); [left|right; lia].
        exists (cur_code d). fold p. split; lia.
      + left. by exists k.
    - intros [(k & Hk & Hx)|Hx]; [exists k|exists (cur_code d)]; (split; [lia|]); case_decide as E; try lia; try done.
      assert (k = cur_code d) as -> by lia. fold p in Hx. lia. }
  split_and!; [|intros x Hx; split|done].
  - constructor; simpl; [by rewrite length_insert|done|done| |done].
    intros k Hk. rewrite Htop. change (border_of (set_top _ _ _) k) with (border_of d k).
    case_decide as E; [|by apply Hch]. assert (k = cur_code d) as -> by lia. split_and!; try done; lia.
  - intros (k & Hk & Hxk). destruct (Hch k Hk) as (_ & ? & ? & _).
    assert (k = cur_code d) as -> by (apply (Hdis _ _ x); lia). fold p in Hxk. lia.
  - eapply grant_owned; [exact G|lia].
Qed.

Lemma malloc_code_spec d size s p d' s' :
  al_ok s -> code_ok d s -> 0 <= size < 2147483648 ->
  malloc_code d size s = Ok (p, d', s') ->
  al_ok s' /\ code_ok d' s' /\
  (forall x, p <= x < p + size -> ~ in_use d x /\ owned s' x) /\
  (forall x, in_use d' x <-> in_use d x \/ p <= x < p + size).
Proof.
  intros Hs Hd Hsize H. unfold malloc_code in H. res_inv H. destruct r as [d1 s1].
  assert (H1 : al_ok s1 /\ code_ok d1 s1 /\ 0 <= cur_code d1 /\ (forall x, in_use d1 x <-> in_use d x) /\
    code_bytes d1 = code_bytes d).
  { destruct (Z.eqb_spec (cur_code d) (-1)) as [Heq|Hne].
    - apply new_chunk_ok in E as (? & ? & Hc & ? & ? & _); try done; [|lia].
      rewrite Hc. by split_and!.
    - injection E as <- <-. pose proof (co_cur _ _ Hd). split_and!; try done. lia. }
  destruct H1 as (Hs1 & Hd1 & Hc1 & Huse1 & Hcb). rewrite <- Hcb in H.
  setoid_rewrite <- Huse1.
  destruct (Z.ltb_spec (border_of d1 (cur_code d1)) (u32 (top_of d1 (cur_code d1) + size))) as [Hlt|Hle].
  - destruct (Z.eqb_spec (cur_code d1 + 1) CODE_FRAGMENTS); [done|]. res_inv H. destruct r as [d2 s2].
    apply new_chunk_ok in E0 as (Hs2 & Hd2 & Hc2 & _ & Huse2 & _); try done;
      [|destruct Hd1 as [_ ? _ _ _]; lia].
    setoid_rewrite <- Huse2. rewrite <- Hc2 in H.
    destruct (Z.ltb_spec (border_of d2 (cur_code d2)) (u32 (top_of d2 (cur_code d2) + size))) as [|Hle];
      [done|]. injection H as <- <- <-. split; [done|]. by apply fill_ok; try lia.
  - injection H as <- <- <-. split; [done|]. by apply fill_ok; try lia.
Qed.

(** the returned block lies below 2 GB *)
Lemma malloc_code_bound d size s p d' s' :
  al_ok s -> code_ok d s -> 0 < size < 2147483648 ->
  malloc_code d size s = Ok (p, d', s') -> 0 <= p /\ p + size <= 2147483648.
Proof.
  intros Hs Hd Hsize H. pose proof (malloc_code_spec d size s p d' s' Hs Hd ltac:(lia) H) as (_ & Hd' & Hf & Hu).
  assert (Hin : forall x, p <= x < p + size -> 0 <= x < 2147483648).
  { intros x Hx. destruct (proj2 (Hu x) (or_intror Hx)) as (c & Hc & Hxc).
    destruct (co_chunk _ _ Hd' c Hc) as (_ & ? & ? & _ & ?). lia. }
  pose proof (Hin p ltac:(lia)). pose proof (Hin (p + size - 1) ltac:(lia)). lia.
Qed.

(** no chunk lies at address 0, and the allocator never grants it *)
Definition never_null (d : domain_code) (s : S) : Prop :=
  owned s 0 /\ forall c, 0 <= c <= cur_code d -> code d !!! Z.to_nat c <> 0.

Lemma new_chunk_null d c size s d' s' :
  al_ok s -> 0 < size < 2147483648 -> length (code d) = 128%nat -> c = cur_code d + 1 -> -1 <= cur_code d < 127 ->
  never_null d s -> new_chunk d c size s = Ok (d', s') -> never_null d' s'.
Proof.
  intros Hs Hsize Hlen -> Hc [H0 Hn] H. unfold new_chunk in H. res_inv H. destruct r as [a s1]. injection H as <- <-.
  apply al_alloc_spec in E as (_ & Ha & _ & _ & Hfresh & Hown & _); [|done|lia|lia].
  pose proof (al_span_le size ltac:(lia)). split; [apply Hown; by left|]. simpl. intros c Hcc.
  destruct (decide (c = cur_code d + 1)) as [->|Hne].
  - rewrite list_lookup_total_insert_eq by lia. intros ->. by apply (Hfresh 0); [lia|].
  - rewrite list_lookup_total_insert_ne by lia. apply Hn. lia.
Qed.

Lemma malloc_code_null d size s p d' s' :
  al_ok s -> code_ok d s -> 0 <= size < 2147483648 -> never_null d s ->
  malloc_code d size s = Ok (p, d', s') -> never_null d' s' /\ (0 < size -> p <> 0).
Proof.
  intros Hs Hd Hsize Hn H.
  assert (Hp : never_null d' s' -> 0 < size -> p <> 0).
  { intros [_ Hn'] Hpos ->. apply malloc_code_spec in H as (_ & Hd' & _ & Hu); try done.
    destruct (proj2 (Hu 0)) as (c & Hc & Hx); [right; lia|]. apply (Hn' c Hc).
    destruct (co_chunk _ _ Hd' c Hc) as (_ & ? & _). lia. }
  assert (never_null d' s'); [|by split; [|apply Hp]]. clear Hp.
  unfold malloc_code in H. pose proof Hd as [(L1 & L2 & L3) Hcur Hbytes _ _]. rewrite (u32_small (code_bytes d)) in H by lia.
  unfold CODE_FRAGMENTS in *. res_inv H. destruct r as [d1 s1].
  assert (H1 : al_ok s1 /\ code_ok d1 s1 /\ never_null d1 s1 /\ 0 <= cur_code d1 /\ code_bytes d1 = code_bytes d).
  { destruct (Z.eqb_spec (cur_code d) (-1)) as [Heq|Hne].
    - pose proof E as En. rewrite <- (u32_small (code_bytes d)) in E by lia.
      apply new_chunk_ok in E as (? & ? & Hc & ? & _); try done; try (unfold CODE_FRAGMENTS; lia). rewrite Hc. split_and!; try done.
      by apply (new_chunk_null d 0 (code_bytes d) s); try done; lia.
    - injection E as <- <-. split_and!; try done. lia. }
  destruct H1 as (Hs1 & Hd1 & Hn1 & Hc1 & Hcb). pose proof Hd1 as [(M1 & M2 & M3) Hcur1 _ _ _]. unfold CODE_FRAGMENTS in *.
  destruct (border_of d1 (cur_code d1) <? _); [|injection H as _ <- <-; by destruct Hn1].
  destruct (Z.eqb_spec (cur_code d1 + 1) 128); [done|]. res_inv H. destruct r as [d2 s2].
  assert (never_null d2 s2) as Hn2 by (apply (new_chunk_null d1 (cur_code d1 + 1) (code_bytes d) s1); try done; lia).
  destruct (_ <? _); [done|]. injection H as _ <- <-. by destruct Hn2.
Qed.

(** memory of somebody else: allocated, and in no chunk of this domain *)
Definition foreign (d : domain_code) (s : S) (x : Z) : Prop :=
  owned s x /\ forall c, 0 <= c <= cur_code d -> ~ code d !!! Z.to_nat c <= x < border_of d c.

Lemma foreign_not_in_use d s x : code_ok d s -> foreign d s x -> ~ in_use d x.
Proof. intros Hd [_ H] (c & Hc & Hx). apply (H c Hc). destruct (co_chunk _ _ Hd c Hc) as (_ & _ & ? & _). lia. Qed.

Lemma new_chunk_foreign d c size s d' s' x :
  al_ok s -> 0 < size < 2147483648 -> length (code d) = 128%nat -> length (codeBorder d) = 128%nat ->
  c = cur_code d + 1 -> -1 <= cur_code d < 127 ->
  new_chunk d c size s = Ok (d', s') -> foreign d s x -> foreign d' s' x.
Proof.
  intros Hs Hsize Hlen Hlen' -> Hc H [H0 Hn]. unfold new_chunk in H. res_inv H. destruct r as [a s1]. injection H as <- <-.
  apply al_alloc_spec in E as (_ & Ha & Hfit & _ & Hfresh & Hown & _); [|done|lia|lia].
  pose proof (al_span_le size ltac:(lia)). split; [apply Hown; by left|]. unfold border_of in *. simpl. intros c Hcc.
  destruct (decide (c = cur_code d + 1)) as [->|Hne].
  - rewrite !list_lookup_total_insert_eq by lia. rewrite u32_small by lia. intros Hx. by apply (Hfresh x); [lia|].
  - rewrite !list_lookup_total_insert_ne by lia. apply Hn. lia.
Qed.

Lemma malloc_code_foreign d size s p d' s' x :
  al_ok s -> code_ok d s -> malloc_code d size s = Ok (p, d', s') -> foreign d s x -> foreign d' s' x.
Proof.
  intros Hs Hd H Hx. unfold malloc_code in H. pose proof Hd as [(L1 & L2 & L3) Hcur Hbytes _ _].
  rewrite (u32_small (code_bytes d)) in H by lia. unfold CODE_FRAGMENTS in *. res_inv H. destruct r as [d1 s1].
  assert (H1 : al_ok s1 /\ code_ok d1 s1 /\ foreign d1 s1 x /\ 0 <= cur_code d1 /\ code_bytes d1 = code_bytes d).
  { destruct (Z.eqb_spec (cur_code d) (-1)) as [Heq|Hne].
    - pose proof E as En. rewrite <- (u32_small (code_bytes d)) in E by lia.
      apply new_chunk_ok in E as (? & ? & Hc & ? & _); try done; try (unfold CODE_FRAGMENTS; lia). rewrite Hc. split_and!; try done.
      by apply (new_chunk_foreign d 0 (code_bytes d) s); try done; lia.
    - injection E as <- <-. split_and!; try done. lia. }
  destruct H1 as (Hs1 & Hd1 & Hn1 & Hc1 & Hcb). pose proof Hd1 as [(M1 & M2 & M3) Hcur1 _ _ _]. unfold CODE_FRAGMENTS in *.
  destruct (border_of d1 (cur_code d1) <? _); [|injection H as _ <- <-; exact Hn1].
  destruct (Z.eqb_spec (cur_code d1 + 1) 128); [done|]. res_inv H. destruct r as [d2 s2].
  assert (foreign d2 s2 x) as Hn2 by (apply (new_chunk_foreign d1 (cur_code d1 + 1) (code_bytes d) s1); try done; lia).
  destruct (_ <? _); [done|]. injection H as _ <- <-. exact Hn2.
Qed.

(** Every block [malloc_code] returns is new: none of its bytes was returned
    before, all of them lie in a chunk the block allocator granted to this
    domain, and exactly they are added to the bytes in use.  The chunk table
    stays well-formed (128 fragments, disjoint chunks, [codeTop] between
    start and border). *)
Theorem malloc_code_fresh d size s p d' s' :
  al_ok s -> code_ok d s -> 0 <= size < 2147483648 ->
  malloc_code d size s = Ok (p, d', s') ->
  al_ok s' /\ code_ok d' s' /\
  (forall x, p <= x < p + size -> ~ in_use d x /\ owned s' x) /\
  (forall x, in_use d' x <-> in_use d x \/ p <= x < p + size).
Proof. apply malloc_code_spec. Qed.

(** Native code starts on a 16-byte boundary and the [size] bytes from there
    are new bytes of this domain's code memory: the 16 extra bytes requested
    always cover the shift. *)
Theorem malloc_nativecode_aligned d size s q d' s' :
  al_ok s -> code_ok d s -> 0 <= size < 2147483632 ->
  malloc_nativecode d size s = Ok (q, d', s') ->
  q mod 16 = 0 /\ al_ok s' /\ code_ok d' s' /\
  (forall x, q <= x < q + size -> ~ in_use d x /\ in_use d' x /\ owned s' x).
Proof.
  intros Hs Hd Hsize H. unfold malloc_nativecode in H. rewrite (u32_small (size + 16)) in H by lia.
  res_inv H. destruct r as [[m d1] s1]. injection H as <- <- <-.
  pose proof (malloc_code_bound d (size + 16) s m d1 s1 Hs Hd ltac:(lia) E) as Hb.
  apply malloc_code_spec in E as (Hs' & Hd' & Hfresh & Huse); try done; [|lia].
  rewrite u32_small by lia. pose proof (land_align 4 (m + 15) ltac:(lia) ltac:(lia)) as Hal.
  change (2 ^ 4 - 1) with 15 in Hal. change (2 ^ 4) with 16 in Hal. rewrite Hal.
  pose proof (Z.div_mod (m + 15) 16 ltac:(lia)). pose proof (Z.mod_pos_bound (m + 15) 16 ltac:(lia)).
  split_and!; try done; [by rewrite Z.mod_mul|].
  intros x Hx. destruct (Hfresh x ltac:(lia)) as [? ?]. split_and!; try done.
  apply Huse. right. lia.
Qed.
End CodeInvariant.

(** ** A concrete code memory on the 16-block allocator *)

Definition code0 : domain_code := MkCode (replicate 128 0) (replicate 128 0) (replicate 128 0) (-1) 2048.

Lemma code0_ok : code_ok code0 st16.
Proof.
  constructor; simpl; [done|unfold CODE_FRAGMENTS; lia|lia| |]; intros c; lia.
Qed.

Lemma st16_good : malloc_good st16.
Proof. split; [apply st16_ok|done]. Qed.

Lemma malloc_code_fresh_witness :
  exists p d' s', malloc_code code0 100 st16 = Ok (p, d', s') /\ code_ok d' s' /\ in_use d' p.
Proof.
  destruct (malloc_code code0 100 st16) as [[[p d'] s']|e] eqn:E; [|by vm_compute in E].
  destruct (@malloc_code_fresh _ malloc_allocator code0 100 st16 p d' s' st16_good code0_ok ltac:(lia) E) as (_ & Hd & _ & Hu).
  exists p, d', s'. split_and!; [done|done|]. apply Hu. right. lia.
Defined.

Lemma malloc_nativecode_aligned_witness :
  exists q d' s', malloc_nativecode code0 100 st16 = Ok (q, d', s') /\ q mod 16 = 0 /\ in_use d' q.
Proof.
  destruct (malloc_nativecode code0 100 st16) as [[[q d'] s']|e] eqn:E; [|by vm_compute in E].
  destruct (@malloc_nativecode_aligned _ malloc_allocator code0 100 st16 q d' s' st16_good code0_ok ltac:(lia) E) as (Hal & _ & _ & Hu).
  exists q, d', s'. split_and!; [done|done|]. destruct (Hu q ltac:(lia)) as (_ & ? & _). done.
Defined.
