(* ===== verification/RunQueue.v ===== *)
(** * The round-robin scheduler (core/runq.c, core/runq_inline.c)

    Threads and domains are shared heap objects linked through their
    [nextInRunQueue] fields; a pointer is a [Z], [NULL] is 0.  Every domain has
    a queue of runnable threads, the global queue holds the domains that have
    runnable threads, and the running thread and its domain are in no queue.
    The operations are translated on the shared store; [rep] relates the store
    to the abstract queues, on which the operations are one-line functions. *)

From S2P Require Import Prelude.
#[local] Open Scope Z_scope.

Definition STATE_INIT : Z := 1.
Definition STATE_RUNNABLE : Z := 2.
Definition STATE_ZOMBIE : Z := 3.
Definition STATE_SLEEPING : Z := 5.
Definition STATE_WAITING : Z := 6.
Definition STATE_PORTAL_WAIT_FOR_RCV : Z := 7.
Definition STATE_PORTAL_WAIT_FOR_SND : Z := 8.
Definition STATE_PORTAL_WAIT_FOR_RET : Z := 9.
Definition STATE_BLOCKEDUSER : Z := 10.
Definition STATE_AVAILABLE : Z := 11.
Definition SCHED_CREATETHREAD_DEFAULT : Z := 0.
Definition SCHED_CREATETHREAD_NORUNQ : Z := 1.

(** the scheduling fields of [ThreadDesc] and [DomainDesc] *)
Record thread := MkThread {
  t_state : Z;
  t_domain : Z;
  t_nextInRunQueue : Z;
}.
Record domain := MkDomain {
  firstThreadInRunQueue : Z;
  lastThreadInRunQueue : Z;
  d_nextInRunQueue : Z;
}.

(** [domain_table]: the domains that are not free, in table order *)
Record sched := MkSched {
  threads : gmap Z thread;
  domains : gmap Z domain;
  domain_table : list Z;
  rq_first : Z;
  rq_last : Z;
  current : Z;
  idle_thread : Z;
}.

(** ** Access to the store *)

Definition thr (s : sched) (t : Z) : res thread :=
  match threads s !! t with Some x => Ok x | None => Err EFault end.
Definition dom_ (s : sched) (d : Z) : res domain :=
  match domains s !! d with Some x => Ok x | None => Err EFault end.

Definition upd_thr (t : Z) (f : thread -> thread) (s : sched) : sched :=
  MkSched (alter f t (threads s)) (domains s) (domain_table s) (rq_first s) (rq_last s) (current s) (idle_thread s).
Definition upd_dom (d : Z) (f : domain -> domain) (s : sched) : sched :=
  MkSched (threads s) (alter f d (domains s)) (domain_table s) (rq_first s) (rq_last s) (current s) (idle_thread s).
Definition set_rq_first (p : Z) (s : sched) : sched :=
  MkSched (threads s) (domains s) (domain_table s) p (rq_last s) (current s) (idle_thread s).
Definition set_rq_last (p : Z) (s : sched) : sched :=
  MkSched (threads s) (domains s) (domain_table s) (rq_first s) p (current s) (idle_thread s).
Definition set_current (p : Z) (s : sched) : sched :=
  MkSched (threads s) (domains s) (domain_table s) (rq_first s) (rq_last s) p (idle_thread s).

Definition set_t_state (t v : Z) : sched -> sched :=
  upd_thr t (fun x => MkThread v (t_domain x) (t_nextInRunQueue x)).
Definition set_t_next (t v : Z) : sched -> sched :=
  upd_thr t (fun x => MkThread (t_state x) (t_domain x) v).
Definition set_d_first (d v : Z) : sched -> sched :=
  upd_dom d (fun x => MkDomain v (lastThreadInRunQueue x) (d_nextInRunQueue x)).
Definition set_d_last (d v : Z) : sched -> sched :=
  upd_dom d (fun x => MkDomain (firstThreadInRunQueue x) v (d_nextInRunQueue x)).
Definition set_d_next (d v : Z) : sched -> sched :=
  upd_dom d (fun x => MkDomain (firstThreadInRunQueue x) (lastThreadInRunQueue x) v).

Definition curthr (s : sched) : Z := current s.
Definition curdom (s : sched) : res Z :=
  if current s =? NULL then Ok NULL else let! x := thr s (current s) in Ok (t_domain x).

(** Fuel for a walk along the domain queue or a thread queue: no acyclic queue
    is longer than the store. *)
Definition d_fuel (s : sched) : nat := S (size (domains s)).
Definition t_fuel (s : sched) : nat := S (size (threads s)).

(** ** Thread queues *)

Definition threadrunq_append (domain_ thread_ : Z) (s : sched) : res (bool * sched) :=
  let! _ := thr s thread_ in
  let s := set_t_next thread_ NULL s in
  let! d := dom_ s domain_ in
  if lastThreadInRunQueue d =? NULL then
    Ok (true, set_d_last domain_ thread_ (set_d_first domain_ thread_ s))
  else
    let! _ := thr s (lastThreadInRunQueue d) in
    Ok (false, set_d_last domain_ thread_ (set_t_next (lastThreadInRunQueue d) thread_ s)).

Definition threadrunq_remove (domain_ : Z) (s : sched) : res (Z * sched) :=
  let! d := dom_ s domain_ in
  let t := firstThreadInRunQueue d in
  if t =? NULL then Ok (NULL, s) else
  let! x := thr s t in
  let! _ := assert_ "t->state == STATE_RUNNABLE" (t_state x =? STATE_RUNNABLE) in
  let s := set_d_first domain_ (t_nextInRunQueue x) s in
  let s := if t =? lastThreadInRunQueue d then set_d_last domain_ NULL s else s in
  Ok (t, set_t_next t NULL s).

(** ** The domain queue *)

(** is domain [d] on the list that starts at [p]? *)
Fixpoint on_queue (fuel : nat) (d p : Z) (s : sched) : res bool :=
  match fuel with
  | O => Err EFuel
  | S n =>
      if p =? NULL then Ok false
      else if p =? d then Ok true
      else let! x := dom_ s p in on_queue n d (d_nextInRunQueue x) s
  end.

Definition domainrunq_append (domain_ : Z) (s : sched) : res sched :=
  let! b := on_queue (d_fuel s) domain_ (rq_first s) s in
  if b then Err (EPanic "domain already in runqueue") else
  let! _ := (if rq_last s =? NULL then assert_ "domain_runqueue.first == NULL" (rq_first s =? NULL) else Ok tt) in
  let! _ := dom_ s domain_ in
  let s := set_d_next domain_ NULL s in
  if rq_last s =? NULL then Ok (set_rq_last domain_ (set_rq_first domain_ s))
  else
    let! _ := dom_ s (rq_last s) in
    Ok (set_rq_last domain_ (set_d_next (rq_last s) domain_ s)).

Definition domainrunq_remove (s : sched) : res (Z * sched) :=
  let d := rq_first s in
  if d =? NULL then Ok (NULL, s) else
  let! cd := curdom s in
  if d =? cd then Err (EPanic "running domain should not be in runq") else
  let! x := dom_ s d in
  let s := set_rq_first (d_nextInRunQueue x) s in
  let s := if d =? rq_last s then set_rq_last NULL s else s in
  let! _ := (if rq_first s =? NULL then assert_ "domain_runqueue.last == NULL" (rq_last s =? NULL) else Ok tt) in
  Ok (d, set_d_next d NULL s).

(** unlink [domain_], wherever it is in the queue: [p] walks, [prev] follows *)
Fixpoint unlink_loop (fuel : nat) (domain_ prev p : Z) (s : sched) : res sched :=
  match fuel with
  | O => Err EFuel
  | S n =>
      if p =? NULL then Ok s
      else if p =? domain_ then
        let! x := dom_ s domain_ in
        let s := if prev =? NULL then set_rq_first (d_nextInRunQueue x) s
                 else set_d_next prev (d_nextInRunQueue x) s in
        let! s := (if d_nextInRunQueue x =? NULL then
                     let! _ := assert_ "domain == domain_runqueue.last" (domain_ =? rq_last s) in
                     Ok (set_rq_last prev s)
                   else Ok s) in
        Ok (set_d_next domain_ NULL s)
      else let! x := dom_ s p in unlink_loop n domain_ p (d_nextInRunQueue x) s
  end.

Definition domainrunq_remove_domain (domain_ : Z) (s : sched) : res sched :=
  unlink_loop (d_fuel s) domain_ NULL (rq_first s) s.

Definition runqueue_switchdomains (currentDomain to : Z) (s : sched) : res sched :=
  let! cd := curdom s in
  let! _ := assert_ "curdom() == currentDomain" (cd =? currentDomain) in
  let! c := dom_ s currentDomain in
  let! s := (if firstThreadInRunQueue c =? NULL then Ok s else domainrunq_append currentDomain s) in
  let! t := dom_ s to in
  let! s := (if firstThreadInRunQueue t =? NULL then Ok s
             else unlink_loop (d_fuel s) to NULL (rq_first s) s) in
  let! _ := (if rq_first s =? NULL then assert_ "domain_runqueue.last == NULL" (rq_last s =? NULL) else Ok tt) in
  let! _ := (if rq_last s =? NULL then assert_ "domain_runqueue.first == NULL" (rq_first s =? NULL) else Ok tt) in
  Ok s.

(** ** Consistency checks of the debug kernel *)

(** [check_runnable] sets the state of the first queued thread (the source
    writes [if (t->state = STATE_RUNNABLE)]), so its search always stops there. *)
Definition check_runnable (domain_ : Z) (s : sched) : res sched :=
  let! cd := curdom s in
  if domain_ =? cd then Ok s else
  let! d := dom_ s domain_ in
  let t := firstThreadInRunQueue d in
  if t =? NULL then Ok s else
  let! _ := thr s t in
  let s := set_t_state t STATE_RUNNABLE s in
  let! b := on_queue (d_fuel s) domain_ (rq_first s) s in
  if b then Ok s
  else Err (EPanic "domain %d contains runnable threads but is not in runq and not the current domain").

Fixpoint foreachDomain (f : Z -> sched -> res sched) (l : list Z) (s : sched) : res sched :=
  match l with
  | [] => Ok s
  | d :: l => let! s := f d s in foreachDomain f l s
  end.

Definition check_completerunnable (s : sched) : res sched :=
  foreachDomain check_runnable (domain_table s) s.

Fixpoint thread_on_queue (fuel : nat) (t p : Z) (s : sched) : res bool :=
  match fuel with
  | O => Err EFuel
  | S n =>
      if p =? NULL then Ok false
      else if p =? t then Ok true
      else let! x := thr s p in thread_on_queue n t (t_nextInRunQueue x) s
  end.

Fixpoint thread_on_queues (fuel : nat) (t p : Z) (s : sched) : res bool :=
  match fuel with
  | O => Err EFuel
  | S n =>
      if p =? NULL then Ok false else
      let! d := dom_ s p in
      let! b := thread_on_queue (t_fuel s) t (firstThreadInRunQueue d) s in
      if b then Ok true else thread_on_queues n t (d_nextInRunQueue d) s
  end.

Definition check_not_in_runq (t : Z) (s : sched) : res unit :=
  let! cd := curdom s in
  let! d := dom_ s cd in
  let! b := thread_on_queue (t_fuel s) t (firstThreadInRunQueue d) s in
  let! b' := (if b then Ok true else thread_on_queues (d_fuel s) t (rq_first s) s) in
  if b' then Err (EPanic "Thread %d.%d is in runq and should not be there") else Ok tt.

Definition check_domain_not_in_runq (cd : Z) (s : sched) : res unit :=
  let! b := on_queue (d_fuel s) cd (rq_first s) s in
  if b then Err (EPanic "current domain in runq") else Ok tt.

(** ** Choosing the next thread *)

Definition runqueue_removeFirstOrNULL (currentDomain : Z) (s : sched) : res (Z * sched) :=
  let! s := check_completerunnable s in
  let! '(newdom, s) := domainrunq_remove s in
  if newdom =? NULL then threadrunq_remove currentDomain s else
  let! n := dom_ s newdom in
  let! _ := assert_ "newdom->firstThreadInRunQueue" (negb (firstThreadInRunQueue n =? NULL)) in
  let! c := dom_ s currentDomain in
  let! s := (if firstThreadInRunQueue c =? NULL then Ok s else domainrunq_append currentDomain s) in
  let! '(next, s) := threadrunq_remove newdom s in
  let! _ := assert_ "next != NULL" (negb (next =? NULL)) in
  let! x := thr s next in
  let! _ := assert_ "next->state == STATE_RUNNABLE" (t_state x =? STATE_RUNNABLE) in
  Ok (next, s).

Definition runqueue_removeFirstOrIdle (currentDomain : Z) (s : sched) : res (Z * sched) :=
  let! '(result, s) := runqueue_removeFirstOrNULL currentDomain s in
  if result =? NULL then Ok (idle_thread s, s) else Ok (result, s).

(** The context switch itself (Assembly/switch.S) saves and loads registers; for
    the scheduler it makes [to] the current thread. *)
Definition switch_to (to : Z) (s : sched) : res sched :=
  let! _ := thr s to in
  let! _ := thr s (current s) in
  Ok (set_current to s).

Definition Sched_switch_to_nextThread (s : sched) : res sched :=
  let! cd := curdom s in
  let! '(next, s) := runqueue_removeFirstOrIdle cd s in
  let! _ := check_not_in_runq next s in
  switch_to next s.

Definition Sched_destroy_switch_to_nextThread (currentDomain : Z) (s : sched) : res sched :=
  let! '(next, s) := runqueue_removeFirstOrIdle currentDomain s in
  let! _ := check_not_in_runq next s in
  Ok (set_current next s).

(** ** The scheduler interface *)

Definition Sched_created (t param : Z) (s : sched) : res sched :=
  if param =? SCHED_CREATETHREAD_DEFAULT then
    let! x := thr s t in
    let! '(empty, s) := threadrunq_append (t_domain x) t s in
    let! cd := curdom s in
    if empty && negb (cd =? t_domain x) then domainrunq_append (t_domain x) s else Ok s
  else Ok s.

Definition Sched_destroyed (t : Z) (s : sched) : res unit :=
  let! x := thr s t in
  assert_ "thread->state != STATE_RUNNABLE" (negb (t_state x =? STATE_RUNNABLE)).

Definition Sched_blocked (t : Z) (s : sched) : res unit :=
  let! x := thr s t in
  assert_ "thread->state != STATE_RUNNABLE" (negb (t_state x =? STATE_RUNNABLE)).

Definition Sched_unblocked (t : Z) (s : sched) : res sched :=
  let! x := thr s t in
  let! '(empty, s) := threadrunq_append (t_domain x) t s in
  let! cd := curdom s in
  if empty && negb (cd =? t_domain x) then domainrunq_append (t_domain x) s else Ok s.

Definition Sched_yielded (t : Z) (s : sched) : res sched :=
  if t =? idle_thread s then Ok s else
  let! x := thr s (curthr s) in
  let! '(_, s) := threadrunq_append (t_domain x) (curthr s) s in Ok s.

Definition Sched_threadsExist (domain_ : Z) (s : sched) : res bool :=
  let! d := dom_ s domain_ in Ok (negb (firstThreadInRunQueue d =? NULL)).

Definition Sched_activate_interrupt_thread (irqThread : Z) (s : sched) : res sched :=
  let! cd := curdom s in
  let! x := thr s irqThread in
  if cd =? t_domain x then Ok s else runqueue_switchdomains cd (t_domain x) s.

Definition Sched_deactivate_interrupt_thread (normalThread : Z) (s : sched) : res sched :=
  let! cd := curdom s in
  let! x := thr s normalThread in
  if cd =? t_domain x then Ok s else runqueue_switchdomains cd (t_domain x) s.

(** timer tick: [true] when another thread takes over *)
Definition Sched_reschedule (s : sched) : res (bool * sched) :=
  let! cd := curdom s in
  let! '(next, s) := runqueue_removeFirstOrNULL cd s in
  if next =? NULL then Ok (false, s) else
  let! s := (if curthr s =? idle_thread s then Ok s else
               let! x := thr s (curthr s) in
               let! '(empty, s) := threadrunq_append (t_domain x) (curthr s) s in
               if empty then
                 let! n := thr s next in
                 if t_domain n =? t_domain x then Ok s else domainrunq_append (t_domain x) s
               else Ok s) in
  let! _ := assert_ "curthr() != next" (negb (curthr s =? next)) in
  let! _ := check_not_in_runq next s in
  Ok (true, set_current next s).

Definition Sched_domainLeave (domain_ : Z) (s : sched) : res sched :=
  domainrunq_remove_domain domain_ s.

(** [Sched_block] up to the context switch; the thread continues in
    [Sched_block_resume] when it is current again. *)
Definition Sched_block (state : Z) (s : sched) : res sched :=
  let s := set_t_state (curthr s) state s in
  let! _ := Sched_blocked (curthr s) s in
  Sched_switch_to_nextThread s.
Definition Sched_block_resume (s : sched) : sched := set_t_state (curthr s) STATE_RUNNABLE s.

(** *** Thread operations (core/thread.c) *)

Definition threadunblock (t : Z) (s : sched) : res sched :=
  let! _ := thr s t in Sched_unblocked t (set_t_state t STATE_RUNNABLE s).
Definition locked_threadunblock (t : Z) (s : sched) : res sched := threadunblock t s.

Definition threadyield (s : sched) : res sched :=
  let! x := thr s (curthr s) in
  let! _ := assert_ "curthr()->state == STATE_RUNNABLE" (t_state x =? STATE_RUNNABLE) in
  let! s := Sched_yielded (curthr s) s in
  Sched_switch_to_nextThread s.

Definition threadblock (s : sched) : res sched := Sched_block STATE_BLOCKEDUSER s.
Definition locked_threadblock (s : sched) : res sched := threadblock s.

Definition reschedule (disable_threadswitching : bool) (s : sched) : res sched :=
  if disable_threadswitching then Ok s
  else let! '(_, s) := Sched_reschedule s in Ok s.

(** *** Portal calls *)

Definition Sched_portal_handoff_to_receiver (receiver : Z) (s : sched) : res sched :=
  let s := set_t_state (curthr s) STATE_PORTAL_WAIT_FOR_RET s in
  let! _ := thr s receiver in
  let s := set_t_state receiver STATE_RUNNABLE s in
  let! s := threadunblock receiver s in
  Sched_switch_to_nextThread s.

Definition Sched_portal_handoff_to_sender (sender : Z) (isRunnable : bool) (s : sched) : res sched :=
  let! x := thr s (curthr s) in
  let! s := (if isRunnable then
               let s := set_t_state (curthr s) STATE_RUNNABLE s in
               let! '(_, s) := threadrunq_append (t_domain x) (curthr s) s in Ok s
             else Ok (set_t_state (curthr s) STATE_PORTAL_WAIT_FOR_SND s)) in
  let! s := threadunblock sender s in
  Sched_switch_to_nextThread s.

Definition Sched_portal_destroy_handoff_to_sender (sender : Z) (s : sched) : res sched :=
  let! x := thr s (curthr s) in
  let! '(_, s) := threadrunq_append (t_domain x) (curthr s) s in
  let! s := threadunblock sender s in
  let! cd := curdom s in
  Sched_destroy_switch_to_nextThread cd s.

Definition Sched_portal_unblock_sender (sender : Z) (s : sched) : res sched := threadunblock sender s.

Definition runq_init (s : sched) : sched := set_rq_last NULL (set_rq_first NULL s).

(** ** Linked queues

    [lseg nxt p l]: following [nxt] from [p] visits exactly [l] and ends in
    [NULL]. *)

Fixpoint lseg (nxt : Z -> option Z) (p : Z) (l : list Z) : Prop :=
  match l with
  | [] => p = NULL
  | x :: l => p = x /\ x <> NULL /\ exists n, nxt x = Some n /\ lseg nxt n l
  end.

Definition tail_of (l : list Z) : Z := default NULL (last l).

Definition queue (nxt : Z -> option Z) (first last_ : Z) (l : list Z) : Prop :=
  lseg nxt first l /\ last_ = tail_of l /\ NoDup l.

Lemma lseg_ext nxt nxt' p l :
  (forall x, x ∈ l -> nxt' x = nxt x) -> lseg nxt p l -> lseg nxt' p l.
Proof.
  revert p. induction l as [|x l IH]; intros p Hx; simpl; [done|].
  intros (-> & ? & n & E & H). split_and!; [done|done|]. exists n.
  rewrite Hx by apply list_elem_of_here. split; [done|].
  apply IH; [|done]. intros. by apply Hx, list_elem_of_further.
Qed.

Lemma lseg_nonnull nxt p l x : lseg nxt p l -> x ∈ l -> x <> NULL /\ is_Some (nxt x).
Proof.
  revert p. induction l as [|y l IH]; intros p; simpl; [by intros _ ?%elem_of_nil|].
  intros (-> & ? & n & E & H) [->|]%elem_of_cons; eauto.
Qed.

Lemma lseg_null nxt p l : lseg nxt p l -> (p = NULL <-> l = []).
Proof. destruct l as [|x l]; simpl; [done|]. intros (-> & ? & _). by split. Qed.

Lemma tail_of_in l : l <> [] -> tail_of l ∈ l.
Proof.
  intros Hl. destruct (exists_last Hl) as (l' & x & ->). unfold tail_of. rewrite last_snoc. simpl.
  apply elem_of_app. right. apply list_elem_of_here.
Qed.

Lemma tail_of_snoc l x : tail_of (l ++ [x]) = x.
Proof. unfold tail_of. by rewrite last_snoc. Qed.

Lemma tail_of_null nxt p l : lseg nxt p l -> (tail_of l = NULL <-> l = []).
Proof.
  intros H. split; [|by intros ->]. intros Ht. destruct l as [|x l]; [done|].
  by destruct (lseg_nonnull _ _ _ (tail_of (x :: l)) H (tail_of_in (x :: l) ltac:(done))).
Qed.

Lemma queue_ext nxt nxt' f la l :
  (forall x, x ∈ l -> nxt' x = nxt x) -> queue nxt f la l -> queue nxt' f la l.
Proof. intros Hx (H & ? & ?). split_and!; try done. by eapply lseg_ext. Qed.

(** appending at the tail *)
Lemma queue_append nxt nxt' f la l x :
  queue nxt f la l -> x ∉ l -> x <> NULL -> nxt' x = Some NULL ->
  (forall y, y ∈ l -> y <> la -> nxt' y = nxt y) -> (l <> [] -> nxt' la = Some x) ->
  queue nxt' (if la =? NULL then x else f) x (l ++ [x]).
Proof.
  intros (H & -> & Hnd) Hx H0 Hnx Hsame Hla. split_and!.
  2: by rewrite tail_of_snoc.
  2: { apply NoDup_app. split_and!; [done| |apply NoDup_singleton]. intros y Hy ->%list_elem_of_singleton. done. }
  pose proof (tail_of_null _ _ _ H) as Ht.
  destruct (decide (l = [])) as [->|Hne].
  { simpl. split_and!; try done. by exists NULL. }
  destruct (Z.eqb_spec (tail_of l) NULL) as [|_]; [tauto|].
  destruct (exists_last Hne) as (l0 & z & ->). rewrite tail_of_snoc in *. specialize (Hla Hne).
  clear Hne Ht. revert f H Hnd Hx Hsame. induction l0 as [|y l0 IH]; intros f; simpl.
  - intros (-> & ? & n & E & ->) _ _ _. split_and!; try done. exists x. split; [done|]. split_and!; try done. by exists NULL.
  - intros (-> & ? & n & E & H) [Hny Hnd]%NoDup_cons Hx Hsame. split_and!; try done. exists n. split.
    + rewrite Hsame; [done|apply list_elem_of_here|]. intros ->. apply Hny, elem_of_app. right. apply list_elem_of_here.
    + apply IH; [done|done| |].
      * intros Hin. apply Hx. by apply list_elem_of_further.
      * intros w Hw. apply Hsame. by apply list_elem_of_further.
Qed.

(** removing the head *)
Lemma queue_pop nxt f la x l :
  queue nxt f la (x :: l) ->
  f = x /\ x <> NULL /\ (x ∉ l) /\ exists n, (nxt x = Some n) /\ queue nxt n (if x =? la then NULL else la) l.
Proof.
  intros ((-> & ? & n & E & H) & -> & [Hx Hnd]%NoDup_cons). split_and!; try done.
  exists n. split; [done|]. split_and!; try done.
  destruct l as [|y l]; [cbn; by rewrite Z.eqb_refl|].
  destruct (Z.eqb_spec x (tail_of (x :: y :: l))) as [Heq|]; [|done].
  exfalso. apply Hx. rewrite Heq. apply (tail_of_in (y :: l)). done.
Qed.

(** ** Abstract queues *)

Record queues := MkQ { dq : list Z; tq : Z -> list Z }.

Definition q_dpush (d : Z) (q : queues) : queues := MkQ (dq q ++ [d]) (tq q).
Definition q_tset (d : Z) (l : list Z) (q : queues) : queues :=
  MkQ (dq q) (fun e => if e =? d then l else tq q e).
Definition q_tpush (d t : Z) (q : queues) : queues := q_tset d (tq q d ++ [t]) q.
Definition q_tpop (d : Z) (q : queues) : queues := q_tset d (tail (tq q d)) q.
Definition q_dset (l : list Z) (q : queues) : queues := MkQ l (tq q).

(** a thread of domain [d] becomes runnable while domain [cd] runs *)
Definition q_ready (cd d t : Z) (q : queues) : queues :=
  let q' := q_tpush d t q in
  if bool_decide (tq q d = []) && negb (cd =? d) then q_dpush d q' else q'.

(** the running domain [cd] goes behind the others if it still has threads *)
Definition q_requeue (cd : Z) (q : queues) : queues :=
  if bool_decide (tq q cd = []) then q else q_dpush cd q.

(** the next thread: the head of the first domain's queue, or of the running
    domain's own queue, or none *)
Definition q_pick (cd : Z) (q : queues) : Z * queues :=
  match dq q with
  | [] => match tq q cd with [] => (NULL, q) | t :: _ => (t, q_tpop cd q) end
  | d :: ds => (hd NULL (tq q d), q_tpop d (q_requeue cd (q_dset ds q)))
  end.

(** ** Representation *)

Definition tnext (s : sched) (t : Z) : option Z := t_nextInRunQueue <$> threads s !! t.
Definition dnext (s : sched) (d : Z) : option Z := d_nextInRunQueue <$> domains s !! d.
Definition tinfo (s : sched) (t : Z) : option (Z * Z) := (fun x => (t_state x, t_domain x)) <$> threads s !! t.
Definition dom_of (s : sched) (t : Z) : Z := default NULL (t_domain <$> threads s !! t).

Record rep (s : sched) (q : queues) : Prop := {
  r_dq : queue (dnext s) (rq_first s) (rq_last s) (dq q);
  r_tq : forall d D, domains s !! d = Some D ->
    queue (tnext s) (firstThreadInRunQueue D) (lastThreadInRunQueue D) (tq q d);
  r_out : forall d, domains s !! d = None -> tq q d = [];
  r_mem : forall d t, t ∈ tq q d -> tinfo s t = Some (STATE_RUNNABLE, d);
  r_dom : forall t T, threads s !! t = Some T -> is_Some (domains s !! t_domain T);
  r_null : threads s !! NULL = None /\ domains s !! NULL = None;
}.

(** what the queue operations leave alone *)
Record frame (s s' : sched) : Prop := {
  f_table : domain_table s' = domain_table s;
  f_cur : current s' = current s;
  f_idle : idle_thread s' = idle_thread s;
  f_info : forall t, tinfo s' t = tinfo s t;
  f_dom : forall d, is_Some (domains s' !! d) <-> is_Some (domains s !! d);
}.

#[export] Instance frame_preorder : PreOrder frame.
Proof.
  split.
  - intros s. by constructor.
  - intros s1 s2 s3 [? ? ? I1 D1] [? ? ? I2 D2]. constructor; [congruence..| |].
    + intros t. by rewrite I2.
    + intros d. by rewrite D2.
Qed.

(** the running domain is off the queue; the others are on it iff they have
    runnable threads *)
Definition balanced (cd : Z) (q : queues) : Prop :=
  forall d, d ∈ dq q <-> d <> cd /\ tq q d <> [].

Definition queued (q : queues) (t : Z) : Prop := exists d, t ∈ tq q d.

(** ** The walks along the queues *)

Lemma on_queue_spec s l : forall p d fuel,
  lseg (dnext s) p l -> (length l < fuel)%nat -> on_queue fuel d p s = Ok (bool_decide (d ∈ l)).
Proof.
  induction l as [|x l IH]; intros p d [|fuel] H Hf; simpl in *; try lia.
  - subst p. by rewrite Z.eqb_refl.
  - destruct H as (-> & Hx & n & E & H). unfold dnext in E.
    destruct (Z.eqb_spec x NULL) as [|_]; [done|]. destruct (Z.eqb_spec x d) as [->|Hne].
    { rewrite bool_decide_true; [done|]. apply list_elem_of_here. }
    unfold dom_. destruct (domains s !! x) as [D|]; [|done]. injection E as <-. simpl.
    rewrite (IH _ _ _ H) by lia. f_equal. apply bool_decide_ext. rewrite elem_of_cons. split; [by right|by intros [|]].
Qed.

Lemma thread_on_queue_spec s l : forall p t fuel,
  lseg (tnext s) p l -> (length l < fuel)%nat -> thread_on_queue fuel t p s = Ok (bool_decide (t ∈ l)).
Proof.
  induction l as [|x l IH]; intros p d [|fuel] H Hf; simpl in *; try lia.
  - subst p. by rewrite Z.eqb_refl.
  - destruct H as (-> & Hx & n & E & H). unfold tnext in E.
    destruct (Z.eqb_spec x NULL) as [|_]; [done|]. destruct (Z.eqb_spec x d) as [->|Hne].
    { rewrite bool_decide_true; [done|]. apply list_elem_of_here. }
    unfold thr. destruct (threads s !! x) as [T|]; [|done]. injection E as <-. simpl.
    rewrite (IH _ _ _ H) by lia. f_equal. apply bool_decide_ext. rewrite elem_of_cons. split; [by right|by intros [|]].
Qed.

#[local] Arguments on_queue : simpl never.
#[local] Arguments thread_on_queue : simpl never.

Lemma queue_len {A} (m : gmap Z A) (f : A -> Z) p la l :
  queue (fun x => f <$> m !! x) p la l -> (length l < S (size m))%nat.
Proof.
  intros (H & _ & Hnd). apply Nat.lt_succ_r, nodup_keys_le; [done|]. intros x Hx.
  destruct (lseg_nonnull _ _ _ _ H Hx) as [_ Hs]. by apply fmap_is_Some in Hs.
Qed.

Lemma on_domain_queue s q d : rep s q -> on_queue (d_fuel s) d (rq_first s) s = Ok (bool_decide (d ∈ dq q)).
Proof. intros H. apply on_queue_spec; [apply r_dq; exact H|]. eapply queue_len, r_dq, H. Qed.

Lemma on_thread_queue s q d D t :
  rep s q -> domains s !! d = Some D ->
  thread_on_queue (t_fuel s) t (firstThreadInRunQueue D) s = Ok (bool_decide (t ∈ tq q d)).
Proof.
  intros H Hd. apply thread_on_queue_spec; [by apply (r_tq s q H d)|]. eapply queue_len, (r_tq s q H d), Hd.
Qed.

Lemma first_null s q d D :
  rep s q -> domains s !! d = Some D -> (firstThreadInRunQueue D =? NULL) = bool_decide (tq q d = []).
Proof.
  intros H Hd. destruct (r_tq s q H d D Hd) as (Hl & _). apply lseg_null in Hl.
  destruct (Z.eqb_spec (firstThreadInRunQueue D) NULL), (bool_decide_reflect (tq q d = [])); tauto.
Qed.

Lemma last_null s q d D :
  rep s q -> domains s !! d = Some D -> (lastThreadInRunQueue D =? NULL) = bool_decide (tq q d = []).
Proof.
  intros H Hd. destruct (r_tq s q H d D Hd) as (Hl & -> & _). apply tail_of_null in Hl.
  destruct (Z.eqb_spec (tail_of (tq q d)) NULL), (bool_decide_reflect (tq q d = [])); tauto.
Qed.

Lemma rq_null s q : rep s q ->
  (rq_first s =? NULL) = bool_decide (dq q = []) /\ (rq_last s =? NULL) = bool_decide (dq q = []).
Proof.
  intros H. destruct (r_dq s q H) as (Hl & -> & _). pose proof (lseg_null _ _ _ Hl). pose proof (tail_of_null _ _ _ Hl).
  destruct (Z.eqb_spec (rq_first s) NULL), (Z.eqb_spec (tail_of (dq q)) NULL),
    (bool_decide_reflect (dq q = [])); tauto.
Qed.

Lemma dq_dom s q d : rep s q -> d ∈ dq q -> is_Some (domains s !! d).
Proof.
  intros H Hd. destruct (r_dq s q H) as (Hl & _). destruct (lseg_nonnull _ _ _ _ Hl Hd) as [_ Hs].
  by apply fmap_is_Some in Hs.
Qed.

Lemma tq_dom s q d t : rep s q -> t ∈ tq q d -> is_Some (domains s !! d).
Proof.
  intros H Ht. destruct (domains s !! d) eqn:E; [done|]. rewrite (r_out s q H d E) in Ht. by apply elem_of_nil in Ht.
Qed.

(** ** Effects of the field updates *)

Lemma tnext_set_t_next t v s y :
  tnext (set_t_next t v s) y = if y =? t then (fun _ => v) <$> tnext s t else tnext s y.
Proof.
  unfold tnext, set_t_next, upd_thr. simpl. destruct (Z.eqb_spec y t) as [->|].
  - rewrite lookup_alter_eq. by destruct (threads s !! t).
  - by rewrite lookup_alter_ne.
Qed.

Lemma tinfo_set_t_next t v s y : tinfo (set_t_next t v s) y = tinfo s y.
Proof.
  unfold tinfo, set_t_next, upd_thr. simpl. destruct (decide (y = t)) as [->|].
  - rewrite lookup_alter_eq. by destruct (threads s !! t).
  - by rewrite lookup_alter_ne.
Qed.

Lemma dnext_set_d_next d v s y :
  dnext (set_d_next d v s) y = if y =? d then (fun _ => v) <$> dnext s d else dnext s y.
Proof.
  unfold dnext, set_d_next, upd_dom. simpl. destruct (Z.eqb_spec y d) as [->|].
  - rewrite lookup_alter_eq. by destruct (domains s !! d).
  - by rewrite lookup_alter_ne.
Qed.

Lemma tinfo_some s t st d : tinfo s t = Some (st, d) ->
  exists T, threads s !! t = Some T /\ t_state T = st /\ t_domain T = d.
Proof. unfold tinfo. destruct (threads s !! t) as [T|]; [|done]. intros [= <- <-]. by exists T. Qed.

Lemma tinfo_thr s t T : threads s !! t = Some T -> tinfo s t = Some (t_state T, t_domain T).
Proof. intros E. unfold tinfo. by rewrite E. Qed.

(** A thread record is determined up to its link by [tinfo], so the threads
    part of [rep] transfers along equal [tinfo]. *)
Lemma rep_build s s' q q' :
  rep s q -> (forall t, tinfo s' t = tinfo s t) ->
  (forall d, is_Some (domains s' !! d) <-> is_Some (domains s !! d)) ->
  queue (dnext s') (rq_first s') (rq_last s') (dq q') ->
  (forall d D, domains s' !! d = Some D ->
     queue (tnext s') (firstThreadInRunQueue D) (lastThreadInRunQueue D) (tq q' d)) ->
  (forall d t, t ∈ tq q' d -> tinfo s t = Some (STATE_RUNNABLE, d)) ->
  rep s' q'.
Proof.
  intros H Hi Hd Hdq Htq Hm.
  assert (Hdom : forall t T, threads s' !! t = Some T -> is_Some (domains s' !! t_domain T)).
  { intros t T E. apply Hd. pose proof (Hi t) as Ht. rewrite (tinfo_thr _ _ _ E) in Ht. symmetry in Ht.
    apply tinfo_some in Ht as (T' & E' & _ & <-). by apply (r_dom s q H t). }
  constructor; try done.
  - intros d E. destruct (tq q' d) as [|t l] eqn:El; [done|]. exfalso.
    pose proof (Hm d t ltac:(rewrite El; apply list_elem_of_here)) as Ht.
    apply tinfo_some in Ht as (T & ET & _ & <-). destruct (r_dom s q H t T ET) as [D ED].
    assert (Hs : is_Some (domains s' !! t_domain T)) by (apply Hd; by rewrite ED).
    rewrite E in Hs. by destruct Hs.
  - intros d t Ht. rewrite Hi. by apply Hm.
  - destruct (r_null s q H) as [Ht0 Hd0]. split.
    + pose proof (Hi NULL) as Hn. unfold tinfo in Hn. rewrite Ht0 in Hn. by destruct (threads s' !! NULL).
    + destruct (domains s' !! NULL) eqn:E; [|done]. assert (Hs : is_Some (domains s !! NULL)) by (apply Hd; by rewrite E).
      rewrite Hd0 in Hs. by destruct Hs.
Qed.

Lemma is_some_alter {A} (f : A -> A) (m : gmap Z A) k j : is_Some (alter f k m !! j) <-> is_Some (m !! j).
Proof.
  destruct (decide (j = k)) as [->|]; [rewrite lookup_alter_eq; by destruct (m !! k)|by rewrite lookup_alter_ne].
Qed.

Lemma nonnull_thread s q t st d : rep s q -> tinfo s t = Some (st, d) -> t <> NULL.
Proof. intros H Ht ->. unfold tinfo in Ht. by rewrite (proj1 (r_null s q H)) in Ht. Qed.

(** ** The four queue operations refine the abstract ones *)

Lemma lookup_alter_if {A} (f : A -> A) (m : gmap Z A) k j :
  alter f k m !! j = if j =? k then f <$> m !! k else m !! j.
Proof. destruct (Z.eqb_spec j k) as [->|]; [apply lookup_alter_eq|by apply lookup_alter_ne]. Qed.

(** replacing the queue of one domain *)
Lemma rep_tset s s' q d D D' l :
  rep s q -> domains s !! d = Some D ->
  (forall t, tinfo s' t = tinfo s t) ->
  domains s' !! d = Some D' -> d_nextInRunQueue D' = d_nextInRunQueue D ->
  (forall e, e <> d -> domains s' !! e = domains s !! e) ->
  (domain_table s', rq_first s', rq_last s', current s', idle_thread s') =
    (domain_table s, rq_first s, rq_last s, current s, idle_thread s) ->
  queue (tnext s') (firstThreadInRunQueue D') (lastThreadInRunQueue D') l ->
  (forall e t, e <> d -> t ∈ tq q e -> tnext s' t = tnext s t) ->
  (forall t, t ∈ l -> tinfo s t = Some (STATE_RUNNABLE, d)) ->
  rep s' (q_tset d l q) /\ frame s s'.
Proof.
  intros H ED Hi ED' Hn Hd [= Htab Hf Hla Hc Hidle] Hq Hother Hl.
  assert (Hsome : forall e, is_Some (domains s' !! e) <-> is_Some (domains s !! e)).
  { intros e. destruct (decide (e = d)) as [->|He]; [by rewrite ED, ED'|by rewrite Hd]. }
  split; [|by constructor].
  eapply rep_build; [exact H|done|done| | |].
  - rewrite Hf, Hla. eapply queue_ext; [|apply H]. intros x _. unfold dnext.
    destruct (decide (x = d)) as [->|He]; [rewrite ED, ED'; simpl; congruence|by rewrite Hd].
  - intros e E HE. simpl. destruct (Z.eqb_spec e d) as [->|He]; [by simplify_eq|].
    rewrite Hd in HE by done. eapply queue_ext; [|by apply (r_tq s q H)]. intros x Hx. by apply (Hother e).
  - intros e t. simpl. destruct (Z.eqb_spec e d) as [->|He]; [apply Hl|apply r_mem, H].
Qed.

Lemma other_queue s q d e t y :
  rep s q -> tinfo s t = Some (STATE_RUNNABLE, d) -> e <> d -> y ∈ tq q e -> y <> t.
Proof. intros H Ht He Hy ->. pose proof (r_mem s q H e t Hy). congruence. Qed.

Lemma threadrunq_append_spec s q d t :
  rep s q -> tinfo s t = Some (STATE_RUNNABLE, d) -> t ∉ tq q d ->
  exists s', threadrunq_append d t s = Ok (bool_decide (tq q d = []), s') /\
    rep s' (q_tpush d t q) /\ frame s s'.
Proof.
  intros H Ht Hnot. pose proof (nonnull_thread _ _ _ _ _ H Ht) as Ht0.
  destruct (tinfo_some _ _ _ _ Ht) as (T & ET & _ & Hdom).
  destruct (r_dom s q H t T ET) as [D ED]. rewrite Hdom in ED.
  pose proof (last_null s q d D H ED) as Hnull. pose proof (r_tq s q H d D ED) as Hq.
  assert (Hl : forall y, y ∈ tq q d ++ [t] -> tinfo s y = Some (STATE_RUNNABLE, d)).
  { intros y [Hy| ->%list_elem_of_singleton]%elem_of_app; [by apply (r_mem s q H)|done]. }
  assert (Htn : exists n, tnext s t = Some n) by (unfold tnext; rewrite ET; by eexists).
  destruct Htn as [n Htn].
  unfold threadrunq_append, thr, dom_. rewrite ET. simpl. rewrite ED. simpl. rewrite Hnull.
  destruct (bool_decide_reflect (tq q d = [])) as [Hemp|Hne].
  - eexists. split; [done|]. unfold q_tpush.
    eapply rep_tset; [exact H|exact ED|apply tinfo_set_t_next| | | |done| | |exact Hl].
    + simpl. by rewrite lookup_alter_if, Z.eqb_refl, lookup_alter_if, Z.eqb_refl, ED.
    + done.
    + intros e He. simpl. rewrite !lookup_alter_if. by destruct (Z.eqb_spec e d).
    + rewrite Hemp. simpl. split_and!; [|done|apply NoDup_singleton]. simpl. split_and!; try done.
      exists NULL. split; [|done].
      change (tnext (set_t_next t NULL s) t = Some NULL). by rewrite tnext_set_t_next, Z.eqb_refl, Htn.
    + intros e y He Hy. change (tnext (set_t_next t NULL s) y = tnext s y). rewrite tnext_set_t_next.
      destruct (Z.eqb_spec y t) as [->|]; [|done]. by destruct (other_queue s q d e t t H Ht He Hy).
  - assert (Hla : lastThreadInRunQueue D ∈ tq q d).
    { destruct Hq as (_ & -> & _). by apply tail_of_in. }
    set (la := lastThreadInRunQueue D) in *.
    assert (Hlat : la <> t) by (intros ->; done).
    pose proof (Hl la ltac:(apply elem_of_app; by left)) as Hlai.
    destruct (tinfo_some _ _ _ _ Hlai) as (L & EL & _ & _).
    rewrite lookup_alter_ne, EL by done. simpl.
    assert (Hnx : forall y, tnext (set_t_next la t (set_t_next t NULL s)) y =
      if y =? la then Some t else if y =? t then Some NULL else tnext s y).
    { intros y. rewrite !tnext_set_t_next. destruct (Z.eqb_spec la t) as [|_]; [done|].
      unfold tnext at 1. rewrite EL, Htn. done. }
    eexists. split; [done|]. unfold q_tpush.
    eapply rep_tset; [exact H|exact ED|intros y; etrans; [apply (tinfo_set_t_next la t (set_t_next t NULL s))|apply tinfo_set_t_next]| | | |done| | |exact Hl].
    + simpl. by rewrite lookup_alter_if, Z.eqb_refl, ED.
    + done.
    + intros e He. simpl. rewrite !lookup_alter_if. by destruct (Z.eqb_spec e d).
    + simpl. pose proof (queue_append (tnext s) (tnext (set_t_next la t (set_t_next t NULL s)))
        (firstThreadInRunQueue D) la (tq q d) t Hq Hnot Ht0) as Hap.
      rewrite Hnull in Hap. apply Hap.
      * rewrite Hnx, Z.eqb_refl. by destruct (Z.eqb_spec t la).
      * intros y Hy Hyl. rewrite Hnx. destruct (Z.eqb_spec y la), (Z.eqb_spec y t); try done. by subst.
      * intros _. by rewrite Hnx, Z.eqb_refl.
    + intros e y He Hy. change (tnext (set_t_next la t (set_t_next t NULL s)) y = tnext s y). rewrite Hnx.
      destruct (Z.eqb_spec y la) as [->|]; [by destruct (other_queue s q d e la la H Hlai He Hy)|].
      destruct (Z.eqb_spec y t) as [->|]; [|done]. by destruct (other_queue s q d e t t H Ht He Hy).
Qed.

Lemma threadrunq_remove_empty s q d D :
  rep s q -> domains s !! d = Some D -> tq q d = [] -> threadrunq_remove d s = Ok (NULL, s).
Proof.
  intros H ED E. unfold threadrunq_remove, dom_. rewrite ED. simpl.
  by rewrite (first_null s q d D H ED), bool_decide_true.
Qed.

Lemma threadrunq_remove_spec s q d t l :
  rep s q -> tq q d = t :: l ->
  exists s', threadrunq_remove d s = Ok (t, s') /\ rep s' (q_tpop d q) /\ frame s s'.
Proof.
  intros H E. assert (Hin : t ∈ tq q d) by (rewrite E; apply list_elem_of_here).
  pose proof (r_mem s q H d t Hin) as Ht. destruct (tinfo_some _ _ _ _ Ht) as (T & ET & Hst & _).
  destruct (tq_dom s q d t H Hin) as [D ED].
  pose proof (r_tq s q H d D ED) as Hq. rewrite E in Hq.
  apply queue_pop in Hq as (Hf & Ht0 & Htl & n & Hn & Hq).
  assert (HnT : t_nextInRunQueue T = n) by (unfold tnext in Hn; rewrite ET in Hn; by injection Hn).
  unfold threadrunq_remove, dom_. rewrite ED. simpl. rewrite Hf, (proj2 (Z.eqb_neq t NULL) Ht0).
  unfold thr. rewrite ET. simpl. rewrite Hst. simpl. rewrite HnT.
  eexists. split; [done|]. unfold q_tpop. rewrite E. simpl.
  eapply (rep_tset _ _ _ _ _ (MkDomain n (if t =? lastThreadInRunQueue D then NULL else lastThreadInRunQueue D) (d_nextInRunQueue D)));
    [exact H|exact ED| | | | | | | |].
  - intros y. rewrite tinfo_set_t_next. by destruct (t =? lastThreadInRunQueue D).
  - destruct (t =? lastThreadInRunQueue D); simpl; rewrite ?lookup_alter_if, ?Z.eqb_refl; rewrite ED; done.
  - done.
  - intros e He. destruct (t =? lastThreadInRunQueue D); simpl; rewrite !lookup_alter_if; by destruct (Z.eqb_spec e d).
  - by destruct (t =? lastThreadInRunQueue D).
  - simpl. eapply queue_ext; [|exact Hq]. intros x Hx. rewrite tnext_set_t_next.
    destruct (Z.eqb_spec x t) as [->|]; [done|]. by destruct (t =? lastThreadInRunQueue D).
  - intros e y He Hy. rewrite tnext_set_t_next.
    destruct (Z.eqb_spec y t) as [->|]; [by destruct (other_queue s q d e t t H Ht He Hy)|].
    by destruct (t =? lastThreadInRunQueue D).
  - intros y Hy. apply (r_mem s q H). rewrite E. by apply list_elem_of_further.
Qed.

(** replacing the domain queue *)
Lemma rep_dset s s' q l :
  rep s q -> (forall t, threads s' !! t = threads s !! t) ->
  (forall d, (fun D => (firstThreadInRunQueue D, lastThreadInRunQueue D)) <$> domains s' !! d =
             (fun D => (firstThreadInRunQueue D, lastThreadInRunQueue D)) <$> domains s !! d) ->
  (domain_table s', current s', idle_thread s') = (domain_table s, current s, idle_thread s) ->
  queue (dnext s') (rq_first s') (rq_last s') l ->
  rep s' (q_dset l q) /\ frame s s'.
Proof.
  intros H Ht Hd [= Htab Hc Hidle] Hq.
  assert (Hi : forall t, tinfo s' t = tinfo s t) by (intros t; unfold tinfo; by rewrite Ht).
  assert (Hsome : forall e, is_Some (domains s' !! e) <-> is_Some (domains s !! e)).
  { intros e. pose proof (Hd e) as He. by destruct (domains s' !! e), (domains s !! e). }
  split; [|by constructor].
  eapply rep_build; [exact H|done|done|done| |intros d t; apply (r_mem s q H)].
  intros d D' E'. pose proof (Hd d) as He. rewrite E' in He.
  destruct (domains s !! d) as [D|] eqn:ED; [|done]. injection He as -> ->.
  eapply queue_ext; [|by apply (r_tq s q H)]. intros x _. unfold tnext. by rewrite Ht.
Qed.

Lemma domainrunq_append_spec s q d D :
  rep s q -> domains s !! d = Some D -> d ∉ dq q ->
  exists s', domainrunq_append d s = Ok s' /\ rep s' (q_dpush d q) /\ frame s s'.
Proof.
  intros H ED Hnot. destruct (rq_null s q H) as [Hf Hl]. pose proof (r_dq s q H) as Hq.
  assert (Hd0 : d <> NULL) by (intros ->; by rewrite (proj2 (r_null s q H)) in ED).
  assert (Hdn : exists n, dnext s d = Some n) by (unfold dnext; rewrite ED; by eexists).
  destruct Hdn as [n Hdn].
  unfold domainrunq_append. rewrite (on_domain_queue s q d H), bool_decide_false by done. simpl.
  rewrite Hl, Hf. unfold dom_. destruct (bool_decide_reflect (dq q = [])) as [Hemp|Hne].
  - simpl. rewrite ED. simpl. eexists. split; [done|].
    eapply rep_dset; [exact H|done| |done|].
    + intros e. simpl. rewrite lookup_alter_if. destruct (Z.eqb_spec e d) as [->|]; [|done]. by destruct (domains s !! d).
    + rewrite Hemp. simpl. split_and!; [|done|apply NoDup_singleton]. simpl. split_and!; try done.
      exists NULL. split; [|done]. change (dnext (set_d_next d NULL s) d = Some NULL).
      by rewrite dnext_set_d_next, Z.eqb_refl, Hdn.
  - assert (Hla : rq_last s ∈ dq q) by (destruct Hq as (_ & -> & _); by apply tail_of_in).
    set (la := rq_last s) in *. assert (Hne' : la <> d) by (intros ->; done).
    destruct (dq_dom s q la H Hla) as [L EL].
    cbn [rbind]. rewrite ED. cbn [rbind]. change (rq_last (set_d_next d NULL s)) with la.
    simpl. rewrite ?Hl. simpl. rewrite lookup_alter_ne, EL by done. simpl.
    assert (Hnx : forall y, dnext (set_d_next la d (set_d_next d NULL s)) y =
      if y =? la then Some d else if y =? d then Some NULL else dnext s y).
    { intros y. rewrite !dnext_set_d_next. destruct (Z.eqb_spec la d) as [|_]; [done|].
      unfold dnext at 1. rewrite EL, Hdn. done. }
    eexists. split; [done|]. eapply rep_dset; [exact H|done| |done|].
    + intros e. simpl. rewrite !lookup_alter_if. destruct (Z.eqb_spec e la) as [->|].
      * destruct (Z.eqb_spec la d); [done|]. by destruct (domains s !! la).
      * destruct (Z.eqb_spec e d) as [->|]; [|done]. by destruct (domains s !! d).
    + pose proof (queue_append (dnext s) (dnext (set_d_next la d (set_d_next d NULL s)))
        (rq_first s) la (dq q) d Hq Hnot Hd0) as Hap.
      rewrite Hl in Hap. apply Hap.
      * rewrite Hnx, Z.eqb_refl. by destruct (Z.eqb_spec d la).
      * intros y Hy Hyl. rewrite Hnx. destruct (Z.eqb_spec y la), (Z.eqb_spec y d); try done. by subst.
      * intros _. by rewrite Hnx, Z.eqb_refl.
Qed.

Lemma domainrunq_remove_spec s q cd d ds :
  rep s q -> curdom s = Ok cd -> dq q = d :: ds -> d <> cd ->
  exists s', domainrunq_remove s = Ok (d, s') /\ rep s' (q_dset ds q) /\ frame s s'.
Proof.
  intros H Hcd E Hne. pose proof (r_dq s q H) as Hq. rewrite E in Hq.
  apply queue_pop in Hq as (Hf & Hd0 & Hdl & n & Hn & Hq).
  destruct (dq_dom s q d H ltac:(rewrite E; apply list_elem_of_here)) as [D ED].
  assert (HnD : d_nextInRunQueue D = n) by (unfold dnext in Hn; rewrite ED in Hn; by injection Hn).
  unfold domainrunq_remove. rewrite Hf, (proj2 (Z.eqb_neq d NULL) Hd0), Hcd. simpl.
  rewrite (proj2 (Z.eqb_neq d cd) Hne). unfold dom_. rewrite ED. simpl. rewrite HnD.
  assert (Hnull : (n =? NULL) = true -> (d =? rq_last s) = true \/ rq_last s = NULL).
  { intros ->%Z.eqb_eq. destruct Hq as (Hl & Hla & _). apply lseg_null in Hl. rewrite (proj1 Hl eq_refl) in Hla.
    destruct (Z.eqb_spec d (rq_last s)); [by left|by right]. }
  match goal with |- exists s', rbind ?c _ = _ /\ _ => assert (Hc : c = Ok tt) end.
  { destruct (Z.eqb_spec d (rq_last s)) as [El|El]; simpl.
    - by destruct (n =? NULL).
    - destruct (n =? NULL); [|done]. destruct (Hnull eq_refl) as [He|He]; [|by rewrite He]. lia. }
  rewrite Hc. simpl. eexists. split; [done|].
  eapply rep_dset; [exact H| | | |].
  - intros t. by destruct (d =? rq_last s).
  - intros e. destruct (d =? rq_last s); simpl; rewrite lookup_alter_if;
      (destruct (Z.eqb_spec e d) as [->|]; [by destruct (domains s !! d)|done]).
  - by destruct (d =? rq_last s).
  - replace (rq_first _) with n by (by destruct (d =? rq_last s)).
    replace (rq_last (set_d_next _ _ _)) with (if d =? rq_last s then NULL else rq_last s) by (by destruct (d =? rq_last s)).
    eapply queue_ext; [|exact Hq]. intros x Hx. rewrite dnext_set_d_next.
    destruct (Z.eqb_spec x d) as [->|]; [done|]. by destruct (d =? rq_last s).
Qed.

(** ** Scheduling *)

(** The scheduler state between two operations on the queues: [cd] is the
    domain of the running thread, which may be in any state. *)
Record sched_mid (s : sched) (q : queues) (cd : Z) : Prop := {
  sm_rep : rep s q;
  sm_cur : exists st, tinfo s (current s) = Some (st, cd);
  sm_bal : balanced cd q;
  sm_idle : exists dz, tinfo s (idle_thread s) = Some (STATE_RUNNABLE, dz);
  sm_idle_out : ~ queued q (idle_thread s);
  sm_table : forall d, d ∈ domain_table s -> is_Some (domains s !! d);
}.

(** The invariant: the running thread is runnable and in no queue. *)
Record sched_ok (s : sched) (q : queues) (cd : Z) : Prop := {
  so_mid : sched_mid s q cd;
  so_run : tinfo s (current s) = Some (STATE_RUNNABLE, cd);
  so_out : ~ queued q (current s);
}.

Lemma curdom_mid s q cd : sched_mid s q cd -> curdom s = Ok cd.
Proof.
  intros [H [st Hc] _ _ _ _]. unfold curdom.
  rewrite (proj2 (Z.eqb_neq _ _) (nonnull_thread _ _ _ _ _ H Hc)).
  destruct (tinfo_some _ _ _ _ Hc) as (T & E & _ & <-). unfold thr. by rewrite E.
Qed.

Lemma cur_dom_some s q cd : sched_mid s q cd -> is_Some (domains s !! cd).
Proof.
  intros [H [st Hc] _ _ _ _]. destruct (tinfo_some _ _ _ _ Hc) as (T & E & _ & <-). exact (r_dom s q H _ T E).
Qed.

Lemma tinfo_dom s q t st d : rep s q -> tinfo s t = Some (st, d) -> is_Some (domains s !! d).
Proof. intros H Ht. destruct (tinfo_some _ _ _ _ Ht) as (T & E & _ & <-). exact (r_dom s q H _ T E). Qed.

(** Whenever the queues are balanced the debug check passes and changes nothing. *)
Lemma check_completerunnable_ok s q cd : sched_mid s q cd -> check_completerunnable s = Ok s.
Proof.
  intros Hm. unfold check_completerunnable. pose proof (sm_table _ _ _ Hm) as Htab. revert Htab.
  induction (domain_table s) as [|d l IH]; intros Htab; simpl; [done|].
  assert (E : check_runnable d s = Ok s); [|rewrite E; apply IH; intros e He; by apply Htab, list_elem_of_further].
  pose proof (sm_rep _ _ _ Hm) as H. unfold check_runnable. rewrite (curdom_mid _ _ _ Hm). simpl.
  destruct (Z.eqb_spec d cd) as [|Hne]; [done|].
  destruct (Htab d ltac:(apply list_elem_of_here)) as [D ED]. unfold dom_. rewrite ED. simpl.
  rewrite (first_null s q d D H ED). destruct (bool_decide_reflect (tq q d = [])) as [|Hq]; [done|].
  destruct (tq q d) as [|t ts] eqn:Eq; [done|]. pose proof (r_tq s q H d D ED) as Hqu. rewrite Eq in Hqu.
  apply queue_pop in Hqu as (Hf & _). rewrite Hf.
  pose proof (r_mem s q H d t ltac:(rewrite Eq; apply list_elem_of_here)) as Ht.
  destruct (tinfo_some _ _ _ _ Ht) as (T & ET & Hst & _). unfold thr. rewrite ET. cbn [rbind].
  assert (Hid : set_t_state t STATE_RUNNABLE s = s).
  { unfold set_t_state, upd_thr. destruct s as [th ds tab f la c i]; simpl in *. f_equal. apply alter_id.
    intros x Hx. rewrite ET in Hx. injection Hx as <-. rewrite <- Hst. by destruct T. }
  rewrite Hid, (on_domain_queue s q d H), bool_decide_true; [done|].
  apply (sm_bal _ _ _ Hm). split; [done|]. by rewrite Eq.
Qed.

Lemma frame_tinfo s s' t x : frame s s' -> tinfo s t = x -> tinfo s' t = x.
Proof. intros F <-. apply (f_info _ _ F). Qed.

Lemma frame_dom s s' d : frame s s' -> is_Some (domains s !! d) -> is_Some (domains s' !! d).
Proof. intros F. apply (f_dom _ _ F). Qed.

Lemma frame_curdom s s' : frame s s' -> curdom s' = curdom s.
Proof.
  intros F. unfold curdom, thr. rewrite (f_cur _ _ F).
  pose proof (f_info _ _ F (current s)) as Hi. unfold tinfo in Hi.
  destruct (threads s' !! current s), (threads s !! current s); try done. simpl in *. by injection Hi as _ ->.
Qed.

Lemma q_requeue_spec s q cd :
  rep s q -> is_Some (domains s !! cd) -> cd ∉ dq q ->
  exists s', (let! c := dom_ s cd in
     (if firstThreadInRunQueue c =? NULL then Ok s else domainrunq_append cd s)) = Ok s' /\
   rep s' (q_requeue cd q) /\ frame s s'.
Proof.
  intros H [D ED] Hn. unfold dom_, q_requeue. rewrite ED. simpl. rewrite (first_null s q cd D H ED).
  destruct (bool_decide_reflect (tq q cd = [])); [by exists s|]. by eapply domainrunq_append_spec.
Qed.

Lemma balanced_head cd q d ds : balanced cd q -> dq q = d :: ds -> d <> cd /\ exists t l, tq q d = t :: l.
Proof.
  intros Hb E. destruct (proj1 (Hb d)) as [Hne Hq]; [rewrite E; apply list_elem_of_here|].
  split; [done|]. destruct (tq q d) as [|t l]; [done|by eauto].
Qed.

Lemma removeFirstOrNULL_spec s q cd :
  sched_mid s q cd ->
  exists s', runqueue_removeFirstOrNULL cd s = Ok (fst (q_pick cd q), s') /\
    rep s' (snd (q_pick cd q)) /\ frame s s'.
Proof.
  intros Hm. pose proof (sm_rep _ _ _ Hm) as H. unfold runqueue_removeFirstOrNULL.
  rewrite (check_completerunnable_ok _ _ _ Hm). simpl. pose proof (curdom_mid _ _ _ Hm) as Hcd.
  destruct (cur_dom_some _ _ _ Hm) as [C EC].
  unfold q_pick. destruct (dq q) as [|d ds] eqn:Edq.
  - assert (Er : domainrunq_remove s = Ok (NULL, s)).
    { unfold domainrunq_remove. rewrite (proj1 (rq_null s q H)), Edq. done. }
    rewrite Er. simpl. destruct (tq q cd) as [|t l] eqn:Et.
    + exists s. split_and!; [by eapply threadrunq_remove_empty|done|done].
    + by eapply threadrunq_remove_spec.
  - destruct (balanced_head cd q d ds (sm_bal _ _ _ Hm) Edq) as (Hne & t & l & Et).
    destruct (domainrunq_remove_spec s q cd d ds H Hcd Edq Hne) as (s1 & E1 & H1 & F1).
    rewrite E1. cbn [rbind].
    pose proof (r_mem s q H d t ltac:(rewrite Et; apply list_elem_of_here)) as Ht.
    assert (Hd0 : d <> NULL).
    { intros ->. destruct (tinfo_dom _ _ _ _ _ H Ht) as [D ED]. by rewrite (proj2 (r_null s q H)) in ED. }
    rewrite (proj2 (Z.eqb_neq d NULL) Hd0).
    destruct (frame_dom _ _ d F1 (tinfo_dom _ _ _ _ _ H Ht)) as [D1 ED1].
    unfold dom_ at 1. rewrite ED1. simpl. rewrite (first_null s1 _ d D1 H1 ED1). simpl. rewrite Et. simpl.
    destruct (q_requeue_spec s1 (q_dset ds q) cd) as (s2 & E2 & H2 & F2); [done|eapply frame_dom; done| |].
    { simpl. intros Hc. destruct (proj1 (sm_bal _ _ _ Hm cd)) as [Hbad _]; [|done]. rewrite Edq. by apply list_elem_of_further. }
    rewrite <- rbind_assoc, E2. simpl.
    assert (Et2 : tq (q_requeue cd (q_dset ds q)) d = t :: l) by (unfold q_requeue; by case_bool_decide).
    destruct (threadrunq_remove_spec s2 _ d t l H2 Et2) as (s3 & E3 & H3 & F3). rewrite E3. simpl.
    assert (F : frame s s3) by (etrans; [exact F1|etrans; [exact F2|exact F3]]).
    rewrite (proj2 (Z.eqb_neq t NULL) (nonnull_thread _ _ _ _ _ H Ht)). simpl.
    destruct (tinfo_some s3 t STATE_RUNNABLE d) as (T & ET & Hst & _); [by apply (frame_tinfo s)|].
    unfold thr. rewrite ET. simpl. rewrite Hst. simpl. by exists s3.
Qed.

Lemma thread_on_queues_none s q t l : forall p fuel,
  rep s q -> lseg (dnext s) p l -> (length l < fuel)%nat -> ~ queued q t ->
  thread_on_queues fuel t p s = Ok false.
Proof.
  induction l as [|x l IH]; intros p [|fuel] H Hl Hf Hn; simpl in *; try lia.
  - subst p. by rewrite Z.eqb_refl.
  - destruct Hl as (-> & Hx & n & E & Hl). unfold dnext in E.
    rewrite (proj2 (Z.eqb_neq x NULL) Hx). unfold dom_. destruct (domains s !! x) as [D|] eqn:ED; [|done].
    injection E as <-. simpl. rewrite (on_thread_queue s q x D t H ED), bool_decide_false by (intros Hi; apply Hn; by exists x).
    simpl. apply IH; [done|done|lia|done].
Qed.

#[local] Arguments thread_on_queues : simpl never.

Lemma check_not_in_runq_ok s q cd t :
  rep s q -> curdom s = Ok cd -> is_Some (domains s !! cd) -> ~ queued q t -> check_not_in_runq t s = Ok tt.
Proof.
  intros H Hcd [D ED] Hn. unfold check_not_in_runq. rewrite Hcd. simpl. unfold dom_. rewrite ED. simpl.
  rewrite (on_thread_queue s q cd D t H ED), bool_decide_false by (intros Hi; apply Hn; by exists cd). simpl.
  rewrite (thread_on_queues_none s q t (dq q)); [done|done|apply r_dq, H| |done]. eapply queue_len, r_dq, H.
Qed.

(** What the choice of the next thread means for the abstract queues. *)
Lemma pick_spec s q cd next q' :
  rep s q -> balanced cd q -> q_pick cd q = (next, q') ->
  (next = NULL /\ q' = q /\ dq q = [] /\ forall d, tq q d = []) \/
  (exists d, next <> NULL /\ tinfo s next = Some (STATE_RUNNABLE, d) /\ balanced d q' /\ ~ queued q' next /\
     (forall t, queued q' t -> queued q t) /\ d = hd cd (dq q)).
Proof.
  intros H Hb E. unfold q_pick in E.
  assert (Hnd : forall d t l, tq q d = t :: l -> tinfo s t = Some (STATE_RUNNABLE, d) /\ t ∉ l).
  { intros d t l Et. pose proof (r_mem s q H d t ltac:(rewrite Et; apply list_elem_of_here)) as Ht.
    split; [done|]. destruct (tinfo_dom _ _ _ _ _ H Ht) as [D ED].
    destruct (r_tq s q H d D ED) as (_ & _ & Hn). rewrite Et in Hn. by apply NoDup_cons in Hn as [? _]. }
  assert (Hout : forall d t l dq', tq q d = t :: l -> ~ queued (MkQ dq' (fun e => if e =? d then l else tq q e)) t).
  { intros d t l dq' Et [e He]. destruct (Hnd d t l Et) as [Ht Hl]. simpl in He.
    destruct (Z.eqb_spec e d) as [He0|Hne]; [by subst e|]. by destruct (other_queue s q d e t t H Ht Hne He). }
  assert (Hsub : forall d t l dq' y, tq q d = t :: l -> queued (MkQ dq' (fun e => if e =? d then l else tq q e)) y -> queued q y).
  { intros d t l dq' y Et [e He]. simpl in He. destruct (Z.eqb_spec e d) as [He0|Hne]; [|by exists e].
    exists d. rewrite Et. by apply list_elem_of_further. }
  destruct (dq q) as [|d ds] eqn:Edq.
  - assert (Hoth : forall d, d <> cd -> tq q d = []).
    { intros d Hd. destruct (tq q d) eqn:Ed; [done|]. assert (Hin : d ∈ dq q) by (apply Hb; rewrite Ed; done).
      rewrite Edq in Hin. by apply elem_of_nil in Hin. }
    destruct (tq q cd) as [|t l] eqn:Et; injection E as <- <-.
    + left. split_and!; try done. intros d. destruct (decide (d = cd)) as [->|]; auto.
    + right. destruct (Hnd cd t l Et) as [Ht Hl]. exists cd. unfold q_tpop, q_tset. rewrite Et.
      split_and!; try done; [by eapply nonnull_thread| |by apply Hout|intros y; by eapply Hsub].
      intros e. simpl. rewrite Edq. split; [by intros ?%elem_of_nil|].
      intros [He Hq]. rewrite (proj2 (Z.eqb_neq e cd) He) in Hq. by rewrite Hoth in Hq.
  - right. destruct (balanced_head cd q d ds Hb Edq) as (Hne & t & l & Et). rewrite Et in E. simpl in E.
    injection E as <- <-. destruct (Hnd d t l Et) as [Ht Hl]. exists d.
    destruct (r_dq s q H) as (_ & _ & Hndd). rewrite Edq in Hndd. apply NoDup_cons in Hndd as [Hdd _].
    assert (Eq : q_tpop d (q_requeue cd (q_dset ds q)) =
      MkQ (if bool_decide (tq q cd = []) then ds else ds ++ [cd]) (fun e => if e =? d then l else tq q e)).
    { unfold q_tpop, q_requeue, q_tset. simpl. case_bool_decide; simpl; by rewrite Et. }
    rewrite Eq. split_and!; try done; [by eapply nonnull_thread| |by apply Hout|intros y; by eapply Hsub].
    intros e. simpl. pose proof (Hb e) as Hbe. rewrite Edq, elem_of_cons in Hbe.
    assert (Hin : e ∈ (if bool_decide (tq q cd = []) then ds else ds ++ [cd]) <-> e ∈ ds \/ (e = cd /\ tq q cd <> [])).
    { case_bool_decide; [split; [by left|by intros [?|[_ ?]]]|]. rewrite elem_of_app, list_elem_of_singleton. tauto. }
    rewrite Hin. destruct (Z.eqb_spec e d) as [->|Hed].
    + split; [|by intros [? _]]. intros [?|[? _]]; done.
    + split; [intros [He|[-> He]]; [|done]|]; [by destruct (proj1 Hbe (or_intror He))|].
      intros [_ He]. destruct (decide (e = cd)) as [->|]; [by right|]. left. by destruct (proj2 Hbe (conj n He)).
Qed.

(** the thread the scheduler chooses *)
Definition chosen (s : sched) (cd : Z) (q : queues) : Z :=
  let next := fst (q_pick cd q) in if next =? NULL then idle_thread s else next.

Lemma removeFirstOrIdle_spec s q cd :
  sched_mid s q cd ->
  exists s' cd', runqueue_removeFirstOrIdle cd s = Ok (chosen s cd q, s') /\
    rep s' (snd (q_pick cd q)) /\ frame s s' /\
    check_not_in_runq (chosen s cd q) s' = Ok tt /\
    sched_ok (set_current (chosen s cd q) s') (snd (q_pick cd q)) cd'.
Proof.
  intros Hm. pose proof (sm_rep _ _ _ Hm) as H. pose proof (sm_bal _ _ _ Hm) as Hb.
  destruct (removeFirstOrNULL_spec s q cd Hm) as (s' & E & H' & F).
  destruct (q_pick cd q) as [next q'] eqn:Ep. simpl in *.
  unfold runqueue_removeFirstOrIdle, chosen. rewrite E, Ep. simpl.
  destruct (sm_idle _ _ _ Hm) as [dz Hidle].
  assert (Hchk : ~ queued q' (chosen s cd q) -> check_not_in_runq (chosen s cd q) s' = Ok tt).
  { intros Hn. eapply check_not_in_runq_ok; [done|rewrite (frame_curdom _ _ F); by eapply curdom_mid| |done].
    eapply frame_dom, cur_dom_some; done. }
  unfold chosen in Hchk. rewrite Ep in Hchk. simpl in Hchk.
  assert (Hok : forall c d, tinfo s c = Some (STATE_RUNNABLE, d) -> balanced d q' -> ~ queued q' c ->
    (forall t, queued q' t -> queued q t) -> sched_ok (set_current c s') q' d).
  { intros c d Hc Hbd Hn Hsub. split; [|exact (frame_tinfo s s' c _ F Hc)|done]. split.
    - destruct H'. by constructor.
    - exists STATE_RUNNABLE. exact (frame_tinfo s s' c _ F Hc).
    - done.
    - exists dz. simpl. rewrite (f_idle _ _ F). exact (frame_tinfo s s' _ _ F Hidle).
    - simpl. rewrite (f_idle _ _ F). intros Hq%Hsub. by apply (sm_idle_out _ _ _ Hm).
    - simpl. rewrite (f_table _ _ F). intros d' Hd'. eapply frame_dom, (sm_table _ _ _ Hm); done. }
  destruct (pick_spec s q cd next q' H Hb Ep) as [(-> & -> & Hdq & Hempty)|(d & Hnn & Ht & Hbd & Hn & Hsub & _)].
  - rewrite Z.eqb_refl in *. rewrite (f_idle _ _ F). exists s', dz. split_and!; try done.
    + apply Hchk, (sm_idle_out _ _ _ Hm).
    + apply Hok; try done; [|by apply (sm_idle_out _ _ _ Hm)]. intros e. rewrite Hdq, Hempty.
      split; [by intros ?%elem_of_nil|by intros [_ ?]].
  - rewrite (proj2 (Z.eqb_neq next NULL) Hnn) in *. exists s', d. split_and!; try done.
    + by apply Hchk.
    + by apply Hok.
Qed.

Lemma switch_to_ok s t st d st' d' :
  tinfo s t = Some (st, d) -> tinfo s (current s) = Some (st', d') -> switch_to t s = Ok (set_current t s).
Proof.
  intros (T & E & _)%tinfo_some (C & E' & _)%tinfo_some. unfold switch_to, thr. by rewrite E, E'.
Qed.

Lemma sched_ok_frame s s' c q cd : frame s s' -> sched_ok (set_current c s') q cd -> tinfo s c = Some (STATE_RUNNABLE, cd).
Proof. intros F [_ H _]. change (tinfo s' c = Some (STATE_RUNNABLE, cd)) in H. by rewrite (f_info _ _ F) in H. Qed.

(** the context switch: the chosen thread runs, the invariant holds again *)
Lemma switch_next_spec s q cd :
  sched_mid s q cd ->
  exists s' cd', Sched_switch_to_nextThread s = Ok s' /\ current s' = chosen s cd q /\
    sched_ok s' (snd (q_pick cd q)) cd' /\ (forall t, tinfo s' t = tinfo s t) /\ idle_thread s' = idle_thread s.
Proof.
  intros Hm. destruct (removeFirstOrIdle_spec s q cd Hm) as (s' & cd' & E & H' & F & Hc & Hok).
  unfold Sched_switch_to_nextThread. rewrite (curdom_mid _ _ _ Hm). simpl. rewrite E. simpl. rewrite Hc. simpl.
  destruct (sm_cur _ _ _ Hm) as [st Hst].
  rewrite (switch_to_ok s' _ STATE_RUNNABLE cd' st cd);
    [|exact (so_run _ _ _ Hok)|rewrite (f_cur _ _ F); by apply (frame_tinfo s)].
  eexists _, _. split_and!; try done; [apply (f_info _ _ F)|apply (f_idle _ _ F)].
Qed.

(** ** Making a thread runnable *)

Lemma balanced_ready cd d t q : balanced cd q -> balanced cd (q_ready cd d t q).
Proof.
  intros Hb e. unfold q_ready, q_tpush, q_tset, q_dpush. pose proof (Hb e) as Hbe.
  assert (Hne : tq q d ++ [t] <> []) by (by destruct (tq q d)).
  destruct (bool_decide_reflect (tq q d = [])) as [He|He], (Z.eqb_spec cd d) as [->|Hcd]; simpl;
    (destruct (Z.eqb_spec e d) as [->|Hed]; [|try rewrite elem_of_app, list_elem_of_singleton; tauto]).
  - split; [|tauto]. tauto.
  - rewrite elem_of_app, list_elem_of_singleton. split; [|auto]. intros _. split; [congruence|done].
  - split; [|tauto]. tauto.
  - split; [|intros _]; [intros _; split; [congruence|done]|]. apply Hbe. split; [congruence|done].
Qed.

Lemma queued_tpush d t q y : queued (q_tpush d t q) y -> queued q y \/ y = t.
Proof.
  intros [e He]. simpl in He. destruct (Z.eqb_spec e d) as [_|]; [|left; by exists e].
  apply elem_of_app in He as [He|He%list_elem_of_singleton]; [left; by exists d|by right].
Qed.

Lemma queued_ready cd d t q y : queued (q_ready cd d t q) y -> queued q y \/ y = t.
Proof.
  intros [e He]. apply (queued_tpush d). exists e. unfold q_ready in He. by destruct (_ && _).
Qed.

Lemma sched_mid_frame s s' q q' cd :
  sched_mid s q cd -> rep s' q' -> frame s s' -> balanced cd q' -> ~ queued q' (idle_thread s) ->
  sched_mid s' q' cd.
Proof.
  intros [H [st Hc] Hb [dz Hi] Ho Htab] H' F Hb' Hn. constructor; try done.
  - exists st. rewrite (f_cur _ _ F). by apply (frame_tinfo s).
  - exists dz. rewrite (f_idle _ _ F). by apply (frame_tinfo s).
  - by rewrite (f_idle _ _ F).
  - rewrite (f_table _ _ F). intros d Hd. by eapply frame_dom, Htab.
Qed.

Lemma Sched_unblocked_spec s q cd t d :
  sched_mid s q cd -> tinfo s t = Some (STATE_RUNNABLE, d) -> ~ queued q t -> t <> idle_thread s ->
  exists s', Sched_unblocked t s = Ok s' /\ sched_mid s' (q_ready cd d t q) cd /\ frame s s'.
Proof.
  intros Hm Ht Hn Hidle. pose proof (sm_rep _ _ _ Hm) as H.
  assert (Hmid : forall s', rep s' (q_ready cd d t q) -> frame s s' -> sched_mid s' (q_ready cd d t q) cd).
  { intros s' H' F. eapply sched_mid_frame; [done|done|done|by apply balanced_ready, (sm_bal _ _ _ Hm)|].
    intros [Hq|Hq]%queued_ready; [by apply (sm_idle_out _ _ _ Hm)|by apply Hidle]. }
  destruct (tinfo_some _ _ _ _ Ht) as (T & ET & _ & Ed). unfold Sched_unblocked, thr. rewrite ET. simpl. rewrite Ed.
  destruct (threadrunq_append_spec s q d t H Ht) as (s1 & E1 & H1 & F1); [intros Hi; apply Hn; by exists d|].
  rewrite E1. simpl. rewrite (frame_curdom _ _ F1), (curdom_mid _ _ _ Hm). simpl. unfold q_ready in *.
  destruct (bool_decide_reflect (tq q d = [])) as [He|He], (Z.eqb_spec cd d) as [->|Hcd]; simpl in *;
    try (exists s1; split_and!; auto; done).
  destruct (frame_dom _ _ d F1 (tinfo_dom _ _ _ _ _ H Ht)) as [D ED].
  destruct (domainrunq_append_spec s1 (q_tpush d t q) d D H1 ED) as (s2 & E2 & H2 & F2).
  { simpl. intros Hin%(sm_bal _ _ _ Hm). by destruct Hin. }
  assert (F : frame s s2) by (etrans; [exact F1|exact F2]). exists s2. auto.
Qed.

Lemma tinfo_set_t_state t st s y :
  tinfo (set_t_state t st s) y = if y =? t then (fun x => (st, snd x)) <$> tinfo s t else tinfo s y.
Proof.
  unfold tinfo, set_t_state, upd_thr. simpl. rewrite lookup_alter_if.
  destruct (Z.eqb_spec y t) as [->|]; [|done]. by destruct (threads s !! t).
Qed.

Lemma rep_set_t_state s q t st :
  rep s q -> st = STATE_RUNNABLE \/ ~ queued q t -> rep (set_t_state t st s) q.
Proof.
  intros H Hst. destruct H as [Hdq Htq Ho Hm Hd [Hn Hn']].
  assert (Hnx : forall x, tnext (set_t_state t st s) x = tnext s x).
  { intros x. unfold tnext, set_t_state, upd_thr. simpl. rewrite lookup_alter_if.
    destruct (Z.eqb_spec x t) as [->|]; [|done]. by destruct (threads s !! t). }
  constructor; try done.
  - intros d D E. eapply queue_ext; [intros x _; apply Hnx|by apply Htq].
  - intros d y Hy. rewrite tinfo_set_t_state. pose proof (Hm d y Hy) as Ey.
    destruct (Z.eqb_spec y t) as [->|]; [|done]. rewrite Ey. simpl.
    destruct Hst as [->|Hq]; [done|]. destruct Hq. by exists d.
  - intros y Y. unfold set_t_state, upd_thr. simpl. rewrite lookup_alter_if.
    destruct (Z.eqb_spec y t) as [->|]; [|apply Hd].
    destruct (threads s !! t) eqn:E; [|done]. intros [= <-]. simpl. by eapply Hd.
  - split; [|done]. unfold set_t_state, upd_thr. simpl. rewrite lookup_alter_if.
    destruct (Z.eqb_spec NULL t) as [<-|]; [by rewrite Hn|done].
Qed.

Lemma sched_mid_set_state s q cd t st :
  sched_mid s q cd -> st = STATE_RUNNABLE \/ (~ queued q t /\ t <> idle_thread s) ->
  sched_mid (set_t_state t st s) q cd.
Proof.
  intros [H [st0 Hc] Hb [dz Hi] Ho Htab] Hst. constructor; try done.
  - apply rep_set_t_state; [done|tauto].
  - change (exists st', tinfo (set_t_state t st s) (current s) = Some (st', cd)). rewrite tinfo_set_t_state.
    destruct (Z.eqb_spec (current s) t) as [<-|]; [exists st|exists st0; done]. by rewrite Hc.
  - exists dz. change (tinfo (set_t_state t st s) (idle_thread s) = Some (STATE_RUNNABLE, dz)). rewrite tinfo_set_t_state.
    destruct (Z.eqb_spec (idle_thread s) t) as [<-|]; [|done]. rewrite Hi. simpl. by destruct Hst as [->|[_ Hne]].
Qed.

(** ** The scheduler operations on a consistent state *)

(** the queues after the running thread [cur] of domain [cd] gives up the CPU *)
Definition q_yield (s : sched) (cd : Z) (q : queues) : queues :=
  if current s =? idle_thread s then q else q_tpush cd (current s) q.

Lemma balanced_tpush_cur cd t q : balanced cd q -> balanced cd (q_tpush cd t q).
Proof.
  intros Hb e. rewrite (Hb e). simpl. destruct (Z.eqb_spec e cd) as [->|]; [|done]. tauto.
Qed.

Lemma yield_mid s q cd :
  sched_ok s q cd ->
  exists s', Sched_yielded (current s) s = Ok s' /\ sched_mid s' (q_yield s cd q) cd /\ frame s s'.
Proof.
  intros [Hm Hrun Hout]. unfold Sched_yielded, q_yield, curthr.
  destruct (Z.eqb_spec (current s) (idle_thread s)) as [|Hne]; [by exists s|].
  destruct (tinfo_some _ _ _ _ Hrun) as (T & ET & _ & Ed). unfold thr. rewrite ET. simpl. rewrite Ed.
  destruct (threadrunq_append_spec s q cd (current s) (sm_rep _ _ _ Hm) Hrun) as (s1 & E1 & H1 & F1).
  { intros Hi. apply Hout. by exists cd. }
  rewrite E1. simpl. exists s1. split_and!; [done| |done].
  eapply sched_mid_frame; [exact Hm|done|done|by apply balanced_tpush_cur, (sm_bal _ _ _ Hm)|].
  intros [Hq|Hq]%queued_tpush; [by apply (sm_idle_out _ _ _ Hm)|by apply Hne].
Qed.

Lemma threadyield_spec s q cd :
  sched_ok s q cd ->
  exists s' cd', threadyield s = Ok s' /\ sched_ok s' (snd (q_pick cd (q_yield s cd q))) cd' /\
    current s' = chosen s cd (q_yield s cd q) /\ (forall t, tinfo s' t = tinfo s t) /\ idle_thread s' = idle_thread s.
Proof.
  intros Hok. destruct (yield_mid s q cd Hok) as (s1 & E1 & Hm1 & F1).
  destruct (switch_next_spec s1 _ cd Hm1) as (s2 & cd' & E2 & Hc & Hok2 & Hi & Hid).
  destruct (tinfo_some _ _ _ _ (so_run _ _ _ Hok)) as (T & ET & Hst & _).
  unfold threadyield, curthr, thr. rewrite ET. simpl. rewrite Hst. simpl. rewrite E1. simpl.
  exists s2, cd'. split_and!; try done.
  - rewrite Hc. unfold chosen. by rewrite (f_idle _ _ F1).
  - intros t. by rewrite Hi, (f_info _ _ F1).
  - by rewrite Hid, (f_idle _ _ F1).
Qed.

Lemma threadunblock_spec s q cd t T :
  sched_mid s q cd -> threads s !! t = Some T -> ~ queued q t -> t <> idle_thread s ->
  exists s', threadunblock t s = Ok s' /\ sched_mid s' (q_ready cd (t_domain T) t q) cd /\
    current s' = current s /\ idle_thread s' = idle_thread s /\
    (forall y, tinfo s' y = if y =? t then Some (STATE_RUNNABLE, t_domain T) else tinfo s y).
Proof.
  intros Hm ET Hn Hidle. unfold threadunblock, thr. rewrite ET. simpl.
  assert (Hm1 := sched_mid_set_state s q cd t STATE_RUNNABLE Hm (or_introl eq_refl)).
  assert (Ht : tinfo (set_t_state t STATE_RUNNABLE s) t = Some (STATE_RUNNABLE, t_domain T)).
  { rewrite tinfo_set_t_state, Z.eqb_refl. by rewrite (tinfo_thr _ _ _ ET). }
  destruct (Sched_unblocked_spec _ q cd t (t_domain T) Hm1 Ht Hn Hidle) as (s' & E & Hm' & F).
  exists s'. split_and!; [done|done|apply (f_cur _ _ F)|apply (f_idle _ _ F)|].
  intros y. rewrite (f_info _ _ F), tinfo_set_t_state. destruct (Z.eqb_spec y t); [|done].
  by rewrite (tinfo_thr _ _ _ ET).
Qed.

Lemma Sched_block_spec s q cd st :
  sched_ok s q cd -> st <> STATE_RUNNABLE -> current s <> idle_thread s ->
  exists s' cd', Sched_block st s = Ok s' /\ sched_ok s' (snd (q_pick cd q)) cd' /\
    current s' = chosen s cd q /\
    (forall y, tinfo s' y = if y =? current s then Some (st, cd) else tinfo s y).
Proof.
  intros [Hm Hrun Hout] Hst Hidle. unfold Sched_block, curthr.
  assert (Hm1 := sched_mid_set_state s q cd (current s) st Hm (or_intror (conj Hout Hidle))).
  destruct (switch_next_spec _ q cd Hm1) as (s2 & cd' & E2 & Hc & Hok2 & Hi & _).
  assert (Hb : Sched_blocked (current s) (set_t_state (current s) st s) = Ok tt).
  { assert (Ht : tinfo (set_t_state (current s) st s) (current s) = Some (st, cd)).
    { rewrite tinfo_set_t_state, Z.eqb_refl. by rewrite Hrun. }
    destruct (tinfo_some _ _ _ _ Ht) as (T & ET & HT & _). unfold Sched_blocked, thr. rewrite ET. simpl.
    by rewrite HT, (proj2 (Z.eqb_neq st _) Hst). }
  change (current (set_t_state (current s) st s)) with (current s). rewrite Hb. cbn [rbind].
  exists s2, cd'. split_and!; try done.
  intros y. rewrite Hi, tinfo_set_t_state. destruct (Z.eqb_spec y (current s)); [|done]. by rewrite Hrun.
Qed.

(** C22 [threadyield] refines the abstract round robin: the running thread goes to
    the end of its domain's queue, its domain behind the other runnable domains,
    and the head of the first domain's queue runs (the same thread again when
    nobody else is runnable; the idle thread never enters a queue).  No check of
    the debug kernel fires and the scheduler invariant holds afterwards. *)
Theorem threadyield_refines s q cd :
  sched_ok s q cd ->
  exists s' cd', threadyield s = Ok s' /\ sched_ok s' (snd (q_pick cd (q_yield s cd q))) cd' /\
    current s' = chosen s cd (q_yield s cd q) /\ (forall t, tinfo s' t = tinfo s t).
Proof. intros H. destruct (threadyield_spec s q cd H) as (s' & cd' & ? & ? & ? & ? & _). by exists s', cd'. Qed.

(** [threadunblock] makes a blocked thread runnable: its state is [RUNNABLE],
    it is the last of its domain's queue, and its domain joins the domain queue
    exactly when its queue was empty and it is not the running domain.  The
    running thread keeps running and the invariant holds afterwards. *)
Theorem threadunblock_refines s q cd t T :
  sched_ok s q cd -> threads s !! t = Some T -> ~ queued q t -> t <> idle_thread s -> t <> current s ->
  exists s', threadunblock t s = Ok s' /\ sched_ok s' (q_ready cd (t_domain T) t q) cd /\
    current s' = current s /\
    (forall y, tinfo s' y = if y =? t then Some (STATE_RUNNABLE, t_domain T) else tinfo s y).
Proof.
  intros [Hm Hrun Hout] ET Hn Hidle Hcur.
  destruct (threadunblock_spec s q cd t T Hm ET Hn Hidle) as (s' & E & Hm' & Hc & _ & Hi).
  exists s'. split_and!; try done. split; [done| |].
  - rewrite Hc, Hi. destruct (Z.eqb_spec (current s) t); [congruence|done].
  - rewrite Hc. intros [?|?]%queued_ready; [done|congruence].
Qed.

(** [Sched_block] takes the running thread off the CPU with the given state:
    it is in no queue, the others keep their order, the next thread (or idle)
    runs and the invariant holds afterwards. *)
Theorem Sched_block_refines s q cd st :
  sched_ok s q cd -> st <> STATE_RUNNABLE -> current s <> idle_thread s ->
  exists s' cd', Sched_block st s = Ok s' /\ sched_ok s' (snd (q_pick cd q)) cd' /\
    current s' = chosen s cd q /\ ~ queued (snd (q_pick cd q)) (current s) /\
    (forall y, tinfo s' y = if y =? current s then Some (st, cd) else tinfo s y).
Proof.
  intros Hok Hst Hidle. destruct (Sched_block_spec s q cd st Hok Hst Hidle) as (s' & cd' & ? & ? & ? & ?).
  exists s', cd'. split_and!; try done. destruct Hok as [Hm _ Hout]. destruct (q_pick cd q) as [n q'] eqn:E.
  destruct (pick_spec s q cd n q' (sm_rep _ _ _ Hm) (sm_bal _ _ _ Hm) E)
    as [(_ & -> & _)|(d & _ & _ & _ & _ & Hsub & _)]; [done|]. intros Hq. by apply Hout, Hsub.
Qed.

(** *** Preemption *)

(** what the timer tick does to the queues *)
Definition q_preempt (s : sched) (cd : Z) (q : queues) : queues :=
  match q_pick cd q with
  | (next, q') =>
      if next =? NULL then q
      else if current s =? idle_thread s then q'
      else q_ready (hd cd (dq q)) cd (current s) q'
  end.

(** Both orders - first leave, then choose; first choose, then requeue - come
    out the same: queue functions are compared pointwise. *)
Definition q_eq (q q' : queues) : Prop := dq q = dq q' /\ forall d, tq q d = tq q' d.

Lemma preempt_is_yield s q cd :
  balanced cd q -> fst (q_pick cd q) <> NULL ->
  q_eq (q_preempt s cd q) (snd (q_pick cd (q_yield s cd q))) /\
  fst (q_pick cd (q_yield s cd q)) = fst (q_pick cd q).
Proof.
  intros Hb Hn. unfold q_preempt, q_ready, q_yield. destruct (q_pick cd q) as [next q'] eqn:E. simpl in Hn.
  rewrite (proj2 (Z.eqb_neq next NULL) Hn). destruct (current s =? idle_thread s).
  { rewrite E. done. }
  unfold q_pick in E |- *. simpl. destruct (dq q) as [|d ds] eqn:Edq.
  - destruct (tq q cd) as [|t l] eqn:Et; injection E as <- <-; [done|].
    rewrite !Z.eqb_refl, andb_false_r. simpl. split; [|done]. unfold q_eq. simpl.
    split; [done|]. intros e. rewrite Z.eqb_refl. destruct (e =? cd); [|done]. by rewrite Et.
  - destruct (balanced_head cd q d ds Hb Edq) as (Hne & t & l & Et). injection E as <- <-.
    rewrite (proj2 (Z.eqb_neq d cd) Hne), Et. simpl. split; [|done].
    unfold q_tpop, q_requeue, q_tpush, q_tset, q_dset, q_dpush, q_eq. simpl.
    assert (Hnn : tq q cd ++ [current s] <> []) by (by destruct (tq q cd)).
    rewrite Z.eqb_refl, (proj2 (Z.eqb_neq d cd) Hne), (bool_decide_false (_ ++ _ = [])) by done.
    destruct (bool_decide_reflect (tq q cd = [])) as [He|He]; simpl;
      rewrite (proj2 (Z.eqb_neq cd d)), ?He, ?(proj2 (Z.eqb_neq d cd) Hne) by done; simpl;
      rewrite ?(bool_decide_false (tq q cd = [])) by done; simpl;
      (split; [done|]; intros e; destruct (Z.eqb_spec e cd) as [->|];
        [by rewrite (proj2 (Z.eqb_neq cd d)), ?He by done|done]).
Qed.

Lemma pick_queued cd q : fst (q_pick cd q) <> NULL -> queued q (fst (q_pick cd q)).
Proof.
  unfold q_pick. destruct (dq q) as [|d ds].
  - destruct (tq q cd) as [|t l] eqn:Et; simpl; [done|]. intros _. exists cd. rewrite Et. apply list_elem_of_here.
  - simpl. intros Hn. exists d. destruct (tq q d) as [|t l]; [done|]. apply list_elem_of_here.
Qed.

(** the second half of [Sched_reschedule]: the interrupted thread is requeued *)
Lemma requeue_current s q cd s1 q1 next d :
  sched_ok s q cd -> rep s1 q1 -> frame s s1 -> balanced d q1 -> (forall t, queued q1 t -> queued q t) ->
  tinfo s next = Some (STATE_RUNNABLE, d) -> current s <> idle_thread s ->
  exists s2, (let! x := thr s1 (curthr s1) in
     let! '(empty, s) := threadrunq_append (t_domain x) (curthr s1) s1 in
     if empty then
       let! n := thr s next in
       if t_domain n =? t_domain x then Ok s else domainrunq_append (t_domain x) s
     else Ok s) = Ok s2 /\ rep s2 (q_ready d cd (current s) q1) /\ frame s s2.
Proof.
  intros [Hm Hrun Hout] H1 F1 Hb Hsub Hnext Hne.
  pose proof (frame_tinfo _ _ _ _ F1 Hrun) as Hrun1.
  destruct (tinfo_some _ _ _ _ Hrun1) as (T & ET & _ & Ed). unfold curthr. rewrite (f_cur _ _ F1).
  unfold thr at 1. rewrite ET. simpl. rewrite Ed.
  destruct (threadrunq_append_spec s1 q1 cd (current s) H1 Hrun1) as (s2 & E2 & H2 & F2).
  { intros Hi. apply Hout, Hsub. by exists cd. }
  rewrite E2. simpl. unfold q_ready. assert (F : frame s s2) by (etrans; [exact F1|exact F2]).
  destruct (bool_decide_reflect (tq q1 cd = [])) as [He|He]; simpl; [|by exists s2].
  destruct (tinfo_some _ _ _ _ (frame_tinfo _ _ _ _ F Hnext)) as (N & EN & _ & En).
  unfold thr. rewrite EN. simpl. rewrite En. destruct (Z.eqb_spec d cd) as [|Hd]; simpl; [by exists s2|].
  destruct (frame_dom _ _ cd F2 (tinfo_dom _ _ _ _ _ H1 Hrun1)) as [D ED].
  destruct (domainrunq_append_spec s2 _ cd D H2 ED) as (s3 & E3 & H3 & F3).
  { simpl. intros Hin%Hb. by destruct Hin. }
  exists s3. split_and!; [done|done|]. etrans; [exact F|exact F3].
Qed.

Lemma Sched_reschedule_spec s q cd :
  sched_ok s q cd ->
  exists s' cd', Sched_reschedule s = Ok (negb (fst (q_pick cd q) =? NULL), s') /\
    sched_ok s' (q_preempt s cd q) cd' /\
    current s' = (if fst (q_pick cd q) =? NULL then current s else fst (q_pick cd q)) /\
    (forall t, tinfo s' t = tinfo s t).
Proof.
  intros Hok. pose proof Hok as [Hm Hrun Hout]. pose proof (sm_rep _ _ _ Hm) as H. pose proof (sm_bal _ _ _ Hm) as Hb.
  destruct (removeFirstOrNULL_spec s q cd Hm) as (s1 & E1 & H1 & F1).
  unfold Sched_reschedule, q_preempt. rewrite (curdom_mid _ _ _ Hm). simpl. rewrite E1. simpl.
  pose proof (pick_queued cd q) as Hpq. destruct (q_pick cd q) as [next q'] eqn:Ep. simpl in *.
  destruct (pick_spec s q cd next q' H Hb Ep) as [(-> & -> & _)|(d & Hnn & Ht & Hbd & Hn & Hsub & Hd)].
  { rewrite Z.eqb_refl. exists s1, cd. split_and!; [done| |apply (f_cur _ _ F1)|apply (f_info _ _ F1)].
    split; [eapply sched_mid_frame; [exact Hm|done|done|done|by apply (sm_idle_out _ _ _ Hm)]| |];
      rewrite (f_cur _ _ F1); [by apply (frame_tinfo s)|done]. }
  rewrite (proj2 (Z.eqb_neq next NULL) Hnn), <- Hd. unfold curthr at 1. rewrite (f_cur _ _ F1), (f_idle _ _ F1).
  assert (Hcn : current s <> next) by (intros Hc; apply Hout; rewrite Hc; by apply Hpq).
  match goal with |- exists s' cd', rbind ?c _ = _ /\ sched_ok _ ?q2 _ /\ _ =>
    assert (Hreq : exists s2, c = Ok s2 /\ rep s2 q2 /\ frame s s2 /\ balanced d q2 /\
              (forall t, queued q2 t -> queued q t \/ (t = current s /\ t <> idle_thread s)) /\ ~ queued q2 next)
  end.
  { destruct (Z.eqb_spec (current s) (idle_thread s)) as [Hid|Hid].
    - exists s1. split_and!; try done. intros t Hq. left. by apply Hsub.
    - destruct (requeue_current s q cd s1 q' next d Hok H1 F1 Hbd Hsub Ht Hid) as (s2 & E2 & H2 & F2).
      exists s2. split_and!; try done; [by apply balanced_ready| |].
      + intros t [Hq|Hq]%queued_ready; [left; by apply Hsub|right]. by subst t.
      + intros [Hq|Hq]%queued_ready; [done|by apply Hcn]. }
  destruct Hreq as (s2 & E2 & H2 & F2 & Hb2 & Hq2 & Hnext2). rewrite E2. simpl. unfold curthr.
  rewrite (f_cur _ _ F2), (proj2 (Z.eqb_neq _ _) Hcn). simpl.
  rewrite (check_not_in_runq_ok s2 _ cd next H2); [|rewrite (frame_curdom _ _ F2); by eapply curdom_mid|
    eapply frame_dom, cur_dom_some; eassumption|done]. simpl.
  exists (set_current next s2), d. split_and!; [done| |done|apply (f_info _ _ F2)].
  split; [|exact (frame_tinfo s s2 next _ F2 Ht)|done]. destruct (sm_idle _ _ _ Hm) as [dz Hz]. split.
  - destruct H2. by constructor.
  - exists STATE_RUNNABLE. exact (frame_tinfo s s2 next _ F2 Ht).
  - done.
  - exists dz. simpl. rewrite (f_idle _ _ F2). exact (frame_tinfo s s2 _ _ F2 Hz).
  - simpl. rewrite (f_idle _ _ F2). intros [Hq|[_ Hq]]%Hq2; [by apply (sm_idle_out _ _ _ Hm)|done].
  - simpl. rewrite (f_table _ _ F2). intros d' Hd'. eapply frame_dom, (sm_table _ _ _ Hm); eassumption.
Qed.

(** Preemption and voluntary yielding agree: from the same state the timer
    tick ([reschedule]) and [threadyield] make the same thread current and leave
    the same queues, although one requeues the running thread after and the other
    before choosing. *)
Theorem reschedule_is_threadyield s q cd :
  sched_ok s q cd ->
  exists sp sy qp qy cp cy, reschedule false s = Ok sp /\ threadyield s = Ok sy /\
    sched_ok sp qp cp /\ sched_ok sy qy cy /\ q_eq qp qy /\ current sp = current sy.
Proof.
  intros Hok. destruct (Sched_reschedule_spec s q cd Hok) as (sp & cp & Ep & Hp & Hcp & _).
  destruct (threadyield_spec s q cd Hok) as (sy & cy & Ey & Hy & Hcy & _).
  exists sp, sy, (q_preempt s cd q), (snd (q_pick cd (q_yield s cd q))), cp, cy.
  unfold reschedule. rewrite Ep. simpl. split_and!; try done; rewrite ?Hcp, ?Hcy; unfold chosen;
    (destruct (decide (fst (q_pick cd q) = NULL)) as [Hn|Hn];
      [|destruct (preempt_is_yield s q cd (sm_bal _ _ _ (so_mid _ _ _ Hok)) Hn) as [Hq Hf]; rewrite ?Hf;
        try done; by rewrite (proj2 (Z.eqb_neq _ _) Hn)]).
  - pose proof Hok as [Hm _ _]. destruct (q_pick cd q) as [n q'] eqn:E. simpl in Hn.
    destruct (pick_spec s q cd n q' (sm_rep _ _ _ Hm) (sm_bal _ _ _ Hm) E) as [(-> & -> & Hd & He)|(d & Hnn & _)]; [|done].
    unfold q_preempt, q_yield. rewrite E, Z.eqb_refl.
    destruct (current s =? idle_thread s); [by rewrite E|].
    unfold q_pick. simpl. rewrite Hd, Z.eqb_refl, He. simpl. split; [done|].
    intros e. unfold q_tpop, q_tpush, q_tset. simpl. rewrite Z.eqb_refl, !He. simpl. by destruct (e =? cd).
  - pose proof Hok as [Hm Hrun _]. destruct (q_pick cd q) as [n q'] eqn:E. simpl in *. subst n. rewrite Z.eqb_refl.
    destruct (pick_spec s q cd NULL q' (sm_rep _ _ _ Hm) (sm_bal _ _ _ Hm) E) as [(_ & -> & Hd & He)|(d & Hnn & _)]; [|done].
    unfold q_yield. destruct (Z.eqb_spec (current s) (idle_thread s)); [by rewrite E|].
    unfold q_pick. simpl. rewrite Hd, Z.eqb_refl, He. simpl.
    by rewrite (proj2 (Z.eqb_neq _ _) (nonnull_thread _ _ _ _ _ (sm_rep _ _ _ Hm) Hrun)).
Qed.

(** *** Round robin *)

Fixpoint yields (n : nat) (s : sched) : res sched :=
  match n with O => Ok s | S n => let! s := threadyield s in yields n s end.

Lemma yield_head s q cd d ds :
  dq q = d :: ds -> d <> cd ->
  hd NULL (tq (q_yield s cd q) d) = hd NULL (tq q d) /\
  (exists l, dq (snd (q_pick cd (q_yield s cd q))) = ds ++ l) /\
  (forall e, e <> d -> e <> cd -> tq (snd (q_pick cd (q_yield s cd q))) e = tq q e) /\
  fst (q_pick cd (q_yield s cd q)) = hd NULL (tq (q_yield s cd q) d).
Proof.
  intros E Hne. assert (Edq : dq (q_yield s cd q) = d :: ds) by (unfold q_yield; by destruct (_ =? _)).
  assert (Etq : forall e, e <> cd -> tq (q_yield s cd q) e = tq q e).
  { intros e He. unfold q_yield. destruct (_ =? _); [done|]. simpl. by rewrite (proj2 (Z.eqb_neq e cd) He). }
  unfold q_pick. rewrite Edq. split_and!; [by rewrite Etq| | |done].
  - simpl. unfold q_requeue. case_bool_decide; simpl; [exists []; by rewrite app_nil_r|by exists [cd]].
  - intros e He Hec. simpl. unfold q_requeue.
    rewrite <- (Etq e Hec). case_bool_decide; simpl; by rewrite (proj2 (Z.eqb_neq e d) He).
Qed.

(** C27 No runnable domain starves: if domain [d] is at position [i] of the domain
    queue and [t] is its first runnable thread, then after [i + 1] yields [t] is
    running. *)
Theorem round_robin_progress : forall ds1 s q cd d ds2 t ts,
  sched_ok s q cd -> dq q = ds1 ++ d :: ds2 -> tq q d = t :: ts ->
  exists s', yields (S (length ds1)) s = Ok s' /\ current s' = t.
Proof.
  induction ds1 as [|d1 ds1 IH]; intros s q cd d ds2 t ts Hok Edq Et;
    pose proof Hok as [Hm Hrun Hout]; pose proof (sm_bal _ _ _ Hm) as Hb;
    destruct (threadyield_spec s q cd Hok) as (s1 & cd1 & E1 & Hok1 & Hc1 & _); simpl in *; rewrite E1; simpl.
  - destruct (proj1 (Hb d)) as [Hd _]; [rewrite Edq; apply list_elem_of_here|].
    destruct (yield_head s q cd d ds2 Edq Hd) as (Hh & _ & _ & Hf). exists s1. split; [done|].
    rewrite Hc1. unfold chosen. rewrite Hf, Hh, Et. simpl.
    pose proof (r_mem s q (sm_rep _ _ _ Hm) d t ltac:(rewrite Et; apply list_elem_of_here)) as Ht.
    by rewrite (proj2 (Z.eqb_neq _ _) (nonnull_thread _ _ _ _ _ (sm_rep _ _ _ Hm) Ht)).
  - destruct (proj1 (Hb d1)) as [Hd1 _]; [rewrite Edq; apply list_elem_of_here|].
    destruct (yield_head s q cd d1 _ Edq Hd1) as (_ & [l El] & Htq & _).
    destruct (proj1 (Hb d)) as [Hd _].
    { rewrite Edq. apply list_elem_of_further, elem_of_app. right. apply list_elem_of_here. }
    destruct (r_dq s q (sm_rep _ _ _ Hm)) as (_ & _ & Hnd). rewrite Edq in Hnd. apply NoDup_cons in Hnd as [Hnd _].
    eapply (IH s1 _ cd1 d (ds2 ++ l) t ts Hok1).
    + by rewrite El, <- app_assoc.
    + rewrite Htq; [done| |done]. intros ->. apply Hnd, elem_of_app. right. apply list_elem_of_here.
Qed.

(** ** Unlinking from the middle of the domain queue *)

Definition q_dremove (d : Z) (q : queues) : queues := q_dset (filter (fun e => e <> d) (dq q)) q.

Lemma filter_ne_notin (d : Z) (l : list Z) : d ∉ l -> filter (fun e => e <> d) l = l.
Proof.
  induction l as [|x l IH]; intros Hd; [done|]. apply not_elem_of_cons in Hd as [Hx Hd].
  rewrite filter_cons_True by congruence. by rewrite IH.
Qed.

Lemma filter_ne_mid (d : Z) (l1 l2 : list Z) : d ∉ l1 -> d ∉ l2 -> filter (fun e => e <> d) (l1 ++ d :: l2) = l1 ++ l2.
Proof.
  intros H1 H2. rewrite filter_app, filter_cons_False by (intros Hn; by apply Hn). by rewrite !filter_ne_notin.
Qed.


(** the queue without the element [d] behind [l1] *)
Lemma lseg_unlink nxt nxt' d n l1 l2 : forall p,
  lseg nxt p (l1 ++ d :: l2) -> NoDup (l1 ++ d :: l2) -> nxt d = Some n ->
  (forall x, x ∈ l1 ++ l2 -> x <> tail_of l1 -> nxt' x = nxt x) ->
  (l1 <> [] -> nxt' (tail_of l1) = Some n) ->
  lseg nxt' (if decide (l1 = []) then n else p) (l1 ++ l2).
Proof.
  induction l1 as [|x l1 IH]; intros p H Hnd Hn Hsame Ht; simpl in *.
  - destruct H as (-> & _ & n' & E & H). rewrite Hn in E. injection E as <-.
    eapply lseg_ext; [|exact H]. intros y Hy. apply Hsame; [done|]. intros ->.
    by destruct (lseg_nonnull _ _ _ _ H Hy).
  - destruct H as (-> & Hx & m & E & H). apply NoDup_cons in Hnd as [Hxn Hnd]. split_and!; try done.
    destruct (decide (l1 = [])) as [->|Hne].
    + simpl in *. exists n. split; [by apply Ht|].
      destruct H as (-> & _ & n' & E' & H). rewrite Hn in E'. injection E' as <-.
      eapply lseg_ext; [|exact H]. intros y Hy. apply Hsame; [by apply list_elem_of_further|].
      intros ->. apply Hxn. by apply list_elem_of_further.
    + assert (Hto : tail_of (x :: l1) = tail_of l1).
      { destruct (exists_last Hne) as (l0 & z & ->). by rewrite app_comm_cons, !tail_of_snoc. }
      rewrite Hto in *. exists m. split.
      * rewrite Hsame; [done|apply list_elem_of_here|]. intros ->. apply Hxn, elem_of_app. left. by apply tail_of_in.
      * specialize (IH m H Hnd Hn). apply IH; [|by intros _; apply Ht].
        intros y Hy. apply Hsame. by apply list_elem_of_further.
Qed.

Lemma unlink_walk s : forall l2 l1 d p fuel,
  lseg (dnext s) p (l2 ++ [d]) \/ (exists l3, lseg (dnext s) p (l2 ++ d :: l3)) ->
  NoDup (l1 ++ l2) -> d ∉ l2 -> (length l2 < fuel)%nat -> d <> NULL ->
  exists fuel', unlink_loop fuel d (tail_of l1) p s = unlink_loop (S fuel') d (tail_of (l1 ++ l2)) d s.
Proof.
  intros l2. induction l2 as [|x l2 IH]; intros l1 d p [|fuel] Hl Hnd Hd Hf Hd0; simpl in Hf; try lia.
  - exists fuel. rewrite app_nil_r. assert (p = d) as -> by (destruct Hl as [Hl|[l3 Hl]]; apply Hl). done.
  - apply not_elem_of_cons in Hd as [Hdx Hd].
    assert (Hs : p = x /\ x <> NULL /\ exists n, dnext s x = Some n /\
      (lseg (dnext s) n (l2 ++ [d]) \/ exists l3, lseg (dnext s) n (l2 ++ d :: l3))).
    { destruct Hl as [(-> & ? & n & ? & Hl)|[l3 (-> & ? & n & ? & Hl)]];
        (split_and!; [done|done|]; exists n; split; [done|]); [by left|right; by exists l3]. }
    destruct Hs as (-> & Hx & n & Hn & Hl'). simpl.
    rewrite (proj2 (Z.eqb_neq x NULL) Hx), (proj2 (Z.eqb_neq x d)) by congruence.
    unfold dnext in Hn. unfold dom_. destruct (domains s !! x) as [X|] eqn:EX; [|done]. injection Hn as Hn. simpl. rewrite Hn.
    destruct (IH (l1 ++ [x]) d n fuel Hl') as [f' E]; [by rewrite <- app_assoc|done|lia|done|].
    exists f'. rewrite tail_of_snoc, <- app_assoc in E. by rewrite E.
Qed.

Lemma unlink_absent s d l : forall prev p fuel,
  lseg (dnext s) p l -> d ∉ l -> (length l < fuel)%nat -> unlink_loop fuel d prev p s = Ok s.
Proof.
  induction l as [|x l IH]; intros prev p [|fuel] Hl Hd Hf; simpl in *; try lia.
  - subst p. by rewrite Z.eqb_refl.
  - destruct Hl as (-> & Hx & n & Hn & Hl). apply not_elem_of_cons in Hd as [Hdx Hd].
    rewrite (proj2 (Z.eqb_neq x NULL) Hx), (proj2 (Z.eqb_neq x d)) by congruence.
    unfold dnext in Hn. unfold dom_. destruct (domains s !! x) as [X|]; [|done]. injection Hn as <-. simpl.
    apply IH; [done|done|lia].
Qed.

(** the store after [d], between [prev] and [n], was unlinked *)
Definition unlinked (s : sched) (prev d n : Z) : sched :=
  let s1 := if prev =? NULL then set_rq_first n s else set_d_next prev n s in
  set_d_next d NULL (if n =? NULL then set_rq_last prev s1 else s1).

Lemma unlinked_dnext s prev d n x :
  is_Some (dnext s d) -> prev = NULL \/ is_Some (dnext s prev) -> prev <> d ->
  dnext (unlinked s prev d n) x =
    if x =? d then Some NULL else if negb (prev =? NULL) && (x =? prev) then Some n else dnext s x.
Proof.
  intros [m Hd] Hp Hne. unfold unlinked. cbv zeta. rewrite dnext_set_d_next.
  set (s1 := if prev =? NULL then _ else _).
  assert (Hs1 : forall y, dnext s1 y = if negb (prev =? NULL) && (y =? prev) then Some n else dnext s y).
  { intros y. unfold s1. destruct (Z.eqb_spec prev NULL) as [|Hn]; [done|]. simpl. rewrite dnext_set_d_next.
    destruct (y =? prev); [|done]. by destruct Hp as [?|[? ->]]. }
  assert (Hs2 : forall y, dnext (if n =? NULL then set_rq_last prev s1 else s1) y = dnext s1 y)
    by (intros y; by destruct (n =? NULL)).
  rewrite !Hs2, !Hs1, (proj2 (Z.eqb_neq d prev)), andb_false_r, Hd by done. done.
Qed.

Lemma unlinked_fields s prev d n :
  (forall t, threads (unlinked s prev d n) !! t = threads s !! t) /\
  (forall e, (fun D => (firstThreadInRunQueue D, lastThreadInRunQueue D)) <$> domains (unlinked s prev d n) !! e =
             (fun D => (firstThreadInRunQueue D, lastThreadInRunQueue D)) <$> domains s !! e) /\
  (domain_table (unlinked s prev d n), current (unlinked s prev d n), idle_thread (unlinked s prev d n)) =
    (domain_table s, current s, idle_thread s) /\
  rq_first (unlinked s prev d n) = (if prev =? NULL then n else rq_first s) /\
  rq_last (unlinked s prev d n) = (if n =? NULL then prev else rq_last s).
Proof.
  assert (Hal : forall (m : gmap Z domain) k v e,
    (fun D => (firstThreadInRunQueue D, lastThreadInRunQueue D)) <$>
      alter (fun x => MkDomain (firstThreadInRunQueue x) (lastThreadInRunQueue x) v) k m !! e =
    (fun D => (firstThreadInRunQueue D, lastThreadInRunQueue D)) <$> m !! e).
  { intros m k v e. rewrite lookup_alter_if. destruct (Z.eqb_spec e k) as [->|]; [|done]. by destruct (m !! k). }
  unfold unlinked. destruct (prev =? NULL), (n =? NULL); simpl; split_and!; try done; intros e; by rewrite !Hal.
Qed.

(** one pass over a queue [l1 ++ d :: l2] ends in [unlinked] *)
Lemma unlink_loop_spec s f d l1 l2 n :
  queue (dnext s) (rq_first s) (rq_last s) (l1 ++ d :: l2) -> dnext s d = Some n ->
  unlink_loop (S f) d (tail_of l1) d s = Ok (unlinked s (tail_of l1) d n) /\ lseg (dnext s) n l2.
Proof.
  intros (Hl & Hla & _) Hn.
  destruct (lseg_nonnull _ _ _ d Hl ltac:(apply elem_of_app; right; apply list_elem_of_here)) as [Hd0 _].
  assert (Hl2 : lseg (dnext s) n l2).
  { clear - Hl Hn. revert Hl. generalize (rq_first s). induction l1 as [|x l1 IH]; intros p; simpl.
    - intros (-> & _ & m & E & Hl). rewrite Hn in E. by injection E as <-.
    - intros (_ & _ & m & _ & Hl). by eapply IH. }
  split; [|done]. simpl. rewrite (proj2 (Z.eqb_neq d NULL) Hd0), Z.eqb_refl.
  unfold dnext in Hn. unfold dom_. destruct (domains s !! d) as [D|]; [|done]. injection Hn as Hn. simpl. rewrite Hn.
  unfold unlinked. set (s1 := if tail_of l1 =? NULL then _ else _).
  assert (Hs1 : rq_last s1 = rq_last s) by (unfold s1; by destruct (_ =? NULL)).
  destruct (Z.eqb_spec n NULL) as [Hz|]; [|done]. apply (lseg_null _ _ _ Hl2) in Hz as ->.
  by rewrite Hs1, Hla, tail_of_snoc, Z.eqb_refl.
Qed.

(** unlinking element [d] of the queue *)
Lemma unlinked_queue s d l1 l2 n :
  queue (dnext s) (rq_first s) (rq_last s) (l1 ++ d :: l2) -> dnext s d = Some n -> lseg (dnext s) n l2 ->
  queue (dnext (unlinked s (tail_of l1) d n)) (rq_first (unlinked s (tail_of l1) d n))
    (rq_last (unlinked s (tail_of l1) d n)) (l1 ++ l2).
Proof.
  intros (Hl & Hla & Hnd) Hn Hl2. destruct (unlinked_fields s (tail_of l1) d n) as (_ & _ & _ & -> & ->).
  pose proof Hnd as Hnd'. apply NoDup_app in Hnd' as (Hn1 & Hd1 & Hn2). apply NoDup_cons in Hn2 as [Hd2 Hn2].
  assert (Hd1' : d ∉ l1) by (intros Hi; apply (Hd1 d Hi), list_elem_of_here).
  assert (Htl1 : l1 <> [] -> tail_of l1 <> NULL /\ is_Some (dnext s (tail_of l1)) /\ tail_of l1 <> d).
  { intros Hne. destruct (lseg_nonnull _ _ _ (tail_of l1) Hl) as [Hz Hs]; [apply elem_of_app; left; by apply tail_of_in|].
    split_and!; [done|done|]. intros E. apply Hd1'. rewrite <- E. by apply tail_of_in. }
  assert (Hd0 : d <> NULL).
  { apply (lseg_nonnull _ _ _ d Hl). apply elem_of_app. right. apply list_elem_of_here. }
  assert (Hnx := fun x => unlinked_dnext s (tail_of l1) d n x).
  assert (Hpre : (tail_of l1 = NULL \/ is_Some (dnext s (tail_of l1))) /\ tail_of l1 <> d).
  { destruct (decide (l1 = [])) as [->|Hne]; [split; [by left|by apply not_eq_sym]|].
    destruct (Htl1 Hne) as (? & ? & ?). split; [by right|done]. }
  destruct Hpre as [Hp1 Hp2].
  split_and!.
  - replace (if tail_of l1 =? NULL then n else rq_first s) with (if decide (l1 = []) then n else rq_first s).
    2: { destruct (decide (l1 = [])) as [->|Hne]; [done|]. by rewrite (proj2 (Z.eqb_neq _ _) (proj1 (Htl1 Hne))). }
    eapply lseg_unlink; [exact Hl|exact Hnd|exact Hn| |].
    + intros x Hx Hxt. rewrite Hnx by (done || by exists n).
      destruct (Z.eqb_spec x d) as [->|]; [by apply elem_of_app in Hx as [?|?]|].
      by rewrite (proj2 (Z.eqb_neq x _) Hxt), andb_false_r.
    + intros Hne. destruct (Htl1 Hne) as (Hz & _ & Hzd). rewrite Hnx by (done || by exists n).
      by rewrite (proj2 (Z.eqb_neq _ d) Hzd), (proj2 (Z.eqb_neq _ NULL) Hz), Z.eqb_refl.
  - destruct (Z.eqb_spec n NULL) as [Hz|Hz].
    + apply (lseg_null _ _ _ Hl2) in Hz as ->. by rewrite app_nil_r.
    + rewrite Hla. destruct (decide (l2 = [])) as [->|Hne]; [by apply lseg_null in Hl2; tauto|].
      destruct (exists_last Hne) as (l0 & z & ->). by rewrite app_comm_cons, !app_assoc, !tail_of_snoc.
  - apply NoDup_app. split_and!; [done| |done]. intros x Hx Hx2. apply (Hd1 x Hx). by apply list_elem_of_further.
Qed.

Lemma domainrunq_remove_domain_spec s q d :
  rep s q -> exists s', unlink_loop (d_fuel s) d NULL (rq_first s) s = Ok s' /\ rep s' (q_dremove d q) /\ frame s s'.
Proof.
  intros H. pose proof (r_dq s q H) as Hq. pose proof Hq as (Hl & _ & Hnd). unfold q_dremove.
  pose proof (queue_len _ _ _ _ _ Hq) as Hlen. change (length (dq q) < d_fuel s)%nat in Hlen.
  destruct (decide (d ∈ dq q)) as [Hin|Hout].
  2: { exists s. rewrite (unlink_absent s d (dq q)) by done. rewrite filter_ne_notin by done.
       split_and!; [done| |done]. by destruct q. }
  destruct (lseg_nonnull _ _ _ d Hl Hin) as [Hd0 [n Hn]].
  destruct (list_elem_of_split _ _ Hin) as (l1 & l2 & Edq). rewrite Edq in *.
  pose proof Hnd as Hnd'. apply NoDup_app in Hnd' as (Hn1 & Hd1 & Hn2). apply NoDup_cons in Hn2 as [Hd2 Hn2].
  assert (Hd1' : d ∉ l1) by (intros Hi; apply (Hd1 d Hi), list_elem_of_here).
  rewrite length_app in Hlen. simpl in Hlen.
  destruct (unlink_walk s l1 [] d (rq_first s) (d_fuel s)) as [f E]; [by right; exists l2|done|done|lia|done|].
  change (tail_of []) with NULL in E. simpl app in E. rewrite E.
  destruct (unlink_loop_spec s f d l1 l2 n Hq Hn) as [-> Hl2]. eexists. split; [done|].
  rewrite filter_ne_mid by done. destruct (unlinked_fields s (tail_of l1) d n) as (Ht & Hd & He & _).
  eapply rep_dset; [exact H|exact Ht|exact Hd|exact He|]. by apply unlinked_queue.
Qed.

#[local] Arguments unlink_loop : simpl never.

Definition q_switch (cd to : Z) (q : queues) : queues := q_dremove to (q_requeue cd q).

Lemma q_dremove_notin d q : d ∉ dq q -> q_dremove d q = q.
Proof. intros Hd. unfold q_dremove. rewrite filter_ne_notin by done. by destruct q. Qed.

Lemma balanced_switch cd to q : balanced cd q -> to <> cd -> balanced to (q_switch cd to q).
Proof.
  intros Hb Hne e. unfold q_switch, q_dremove. simpl. rewrite list_elem_of_filter.
  assert (Hr : e ∈ dq (q_requeue cd q) <-> tq q e <> []).
  { unfold q_requeue. pose proof (Hb e) as He. case_bool_decide as Hc; simpl.
    - rewrite He. destruct (decide (e = cd)) as [->|]; tauto.
    - rewrite elem_of_app, list_elem_of_singleton, He. destruct (decide (e = cd)) as [->|]; tauto. }
  rewrite Hr. unfold q_requeue. by case_bool_decide.
Qed.

(** [runqueue_switchdomains] hands the CPU from the running domain to domain
    [to] for an interrupt: no assertion fails, the interrupted domain joins the
    queue if it has runnable threads, [to] leaves the queue from wherever it
    stands, the other domains keep their order, and the queues are again those
    of a scheduler on which [to] is running. *)
Theorem runqueue_switchdomains_refines s q cd to :
  sched_ok s q cd -> is_Some (domains s !! to) -> to <> cd ->
  exists s', runqueue_switchdomains cd to s = Ok s' /\ rep s' (q_switch cd to q) /\ frame s s' /\
    balanced to (q_switch cd to q) /\ (forall d, tq (q_switch cd to q) d = tq q d).
Proof.
  intros [Hm _ _] Hto Hne. pose proof (sm_rep _ _ _ Hm) as H. pose proof (sm_bal _ _ _ Hm) as Hb.
  unfold runqueue_switchdomains. rewrite (curdom_mid _ _ _ Hm). simpl. rewrite Z.eqb_refl. simpl.
  destruct (q_requeue_spec s q cd H (cur_dom_some _ _ _ Hm)) as (s1 & E1 & H1 & F1); [intros Hin%Hb; by destruct Hin|].
  destruct (cur_dom_some _ _ _ Hm) as [C EC]. unfold dom_ at 1. rewrite EC. simpl.
  unfold dom_ in E1 at 1. rewrite EC in E1. simpl in E1. rewrite E1. simpl.
  destruct (frame_dom _ _ _ F1 Hto) as [T ET]. unfold dom_ at 1. rewrite ET. simpl.
  rewrite (first_null s1 _ to T H1 ET).
  destruct (domainrunq_remove_domain_spec s1 _ to H1) as (s2 & E2 & H2 & F2).
  assert (Htq : tq (q_requeue cd q) = tq q) by (unfold q_requeue; by case_bool_decide). rewrite Htq.
  assert (Hs : (if bool_decide (tq q to = []) then Ok s1 else unlink_loop (d_fuel s1) to NULL (rq_first s1) s1) = Ok s2 \/
               (bool_decide (tq q to = []) = true /\ q_switch cd to q = q_requeue cd q)).
  { case_bool_decide as Ht; [right|by left]. split; [done|]. apply q_dremove_notin. unfold q_requeue.
    case_bool_decide; simpl; rewrite ?elem_of_app, ?list_elem_of_singleton, (Hb to); tauto. }
  assert (Hfin : exists s', (if bool_decide (tq q to = []) then Ok s1 else unlink_loop (d_fuel s1) to NULL (rq_first s1) s1) = Ok s' /\
    rep s' (q_switch cd to q) /\ frame s s').
  { destruct Hs as [Hs|[Hs Hq]].
    - exists s2. split_and!; [done|done|]. etrans; [exact F1|exact F2].
    - exists s1. rewrite Hs, Hq. split_and!; done. }
  destruct Hfin as (s' & E' & H' & F'). rewrite E'. simpl. destruct (rq_null s' _ H') as [-> ->].
  exists s'. split_and!; [by destruct (bool_decide (dq (q_switch cd to q) = []))|done|done|by apply balanced_switch|].
  intros d. unfold q_switch, q_requeue. by case_bool_decide.
Qed.

(** The debug check [check_runnable] does not inspect thread states: because of
    [if (t->state = STATE_RUNNABLE)] it turns the first thread of the queue of
    any other queued domain [RUNNABLE], whatever its state was, and passes. *)
Theorem check_runnable_overwrites s cd d D t T :
  curdom s = Ok cd -> d <> cd -> domains s !! d = Some D -> firstThreadInRunQueue D = t -> t <> NULL ->
  threads s !! t = Some T -> on_queue (d_fuel s) d (rq_first s) (set_t_state t STATE_RUNNABLE s) = Ok true ->
  check_runnable d s = Ok (set_t_state t STATE_RUNNABLE s).
Proof.
  intros Hc Hne ED Hf Ht ET Hq. unfold check_runnable, dom_, thr. rewrite Hc. simpl.
  rewrite (proj2 (Z.eqb_neq d cd) Hne), ED. simpl. rewrite Hf, (proj2 (Z.eqb_neq t NULL) Ht), ET. cbn [rbind].
  change (d_fuel (set_t_state t STATE_RUNNABLE s)) with (d_fuel s).
  change (rq_first (set_t_state t STATE_RUNNABLE s)) with (rq_first s). by rewrite Hq.
Qed.

(** ** A concrete scheduler

    DomainZero (100) with the idle thread 1 and thread 2, domain 200 with
    threads 3 and 4, domain 300 with thread 5 and the blocked thread 6; thread 2
    runs, 3, 4 and 5 are queued. *)
Definition demo : sched :=
  MkSched
    (list_to_map [(1, MkThread STATE_RUNNABLE 100 0); (2, MkThread STATE_RUNNABLE 100 0);
                  (3, MkThread STATE_RUNNABLE 200 4); (4, MkThread STATE_RUNNABLE 200 0);
                  (5, MkThread STATE_RUNNABLE 300 0); (6, MkThread STATE_BLOCKEDUSER 300 0)])
    (list_to_map [(100, MkDomain 0 0 0); (200, MkDomain 3 4 300); (300, MkDomain 5 5 0)])
    [100; 200; 300] 200 300 2 1.
Definition demo_q : queues :=
  MkQ [200; 300] (fun d => if d =? 200 then [3; 4] else if d =? 300 then [5] else []).

Lemma map_to_list_cases {A} (m : gmap Z A) (P : Z -> A -> Prop) :
  Forall (fun p => P p.1 p.2) (map_to_list m) -> forall k x, m !! k = Some x -> P k x.
Proof. rewrite Forall_forall. intros H k x E. by apply (H (k, x)), elem_of_map_to_list. Qed.

Lemma demo_queued t : queued demo_q t -> t = 3 \/ t = 4 \/ t = 5.
Proof.
  intros [d Hd]. simpl in Hd. destruct (d =? 200), (d =? 300); rewrite ?elem_of_cons, ?elem_of_nil in Hd; tauto.
Qed.

Lemma demo_rep : rep demo demo_q.
Proof.
  assert (Hnd : forall l : list Z, bool_decide (NoDup l) = true -> NoDup l) by (intros l Hl; by apply bool_decide_eq_true in Hl).
  constructor.
  - split_and!; [|done|by apply Hnd]. simpl. repeat (first [progress split_and!|eexists; split; [reflexivity|]]); done.
  - apply (map_to_list_cases _ (fun d D => queue (tnext demo) (firstThreadInRunQueue D) (lastThreadInRunQueue D) (tq demo_q d))).
    let l := eval vm_compute in (map_to_list (domains demo)) in change (map_to_list (domains demo)) with l.
    repeat apply Forall_cons_2; try apply Forall_nil_2;
      (split_and!; [|done|by apply Hnd]; simpl;
       repeat (first [progress split_and!|eexists; split; [reflexivity|]]); done).
  - intros d Hd. simpl. destruct (Z.eqb_spec d 200) as [->|]; [done|]. by destruct (Z.eqb_spec d 300) as [->|].
  - intros d t Ht. simpl in Ht. destruct (Z.eqb_spec d 200) as [->|].
    { apply elem_of_cons in Ht as [->|Ht%list_elem_of_singleton]; [done|by subst t]. }
    destruct (Z.eqb_spec d 300) as [->|]; [|by apply elem_of_nil in Ht].
    apply list_elem_of_singleton in Ht. by subst t.
  - apply (map_to_list_cases _ (fun t T => is_Some (domains demo !! t_domain T))).
    repeat constructor; by eexists.
  - done.
Qed.

Lemma demo_ok : sched_ok demo demo_q 100.
Proof.
  assert (Hout : forall t, t <> 3 -> t <> 4 -> t <> 5 -> ~ queued demo_q t) by (intros t ? ? ? [|[|]]%demo_queued; done).
  split; [|done|by apply Hout]. split; [apply demo_rep|by exists 2| |by exists 100|by apply Hout|].
  - intros d. unfold demo_q. cbn [dq tq]. rewrite elem_of_cons, list_elem_of_singleton. split.
    + by intros [->| ->].
    + intros [_ Hd]. destruct (Z.eqb_spec d 200), (Z.eqb_spec d 300); auto; done.
  - intros d Hd. simpl in Hd. rewrite !elem_of_cons, elem_of_nil in Hd. destruct Hd as [->|[->|[->|[]]]]; by eexists.
Qed.

Lemma demo_not_queued t : t <> 3 -> t <> 4 -> t <> 5 -> ~ queued demo_q t.
Proof. intros ? ? ? [|[|]]%demo_queued; done. Qed.

Lemma threadyield_refines_witness :
  exists s', threadyield demo = Ok s' /\ current s' = 3 /\ rq_first s' = 300 /\ rq_last s' = 100.
Proof.
  destruct (threadyield_refines demo demo_q 100 demo_ok) as (s' & cd' & E & _ & Hc & _).
  exists s'. split_and!; [done|exact Hc| |]; vm_compute in E; injection E as <-; reflexivity.
Defined.

Lemma threadunblock_refines_witness :
  exists s', threadunblock 6 demo = Ok s' /\ current s' = 2 /\
    tinfo s' 6 = Some (STATE_RUNNABLE, 300).
Proof.
  destruct (threadunblock_refines demo demo_q 100 6 (MkThread STATE_BLOCKEDUSER 300 0) demo_ok) as (s' & E & _ & Hc & Hi);
    [reflexivity|by apply demo_not_queued|done|done|]. exists s'. split_and!; [done|exact Hc|exact (Hi 6)].
Defined.

Lemma Sched_block_refines_witness :
  exists s', Sched_block STATE_BLOCKEDUSER demo = Ok s' /\ current s' = 3.
Proof.
  destruct (Sched_block_refines demo demo_q 100 STATE_BLOCKEDUSER demo_ok) as (s' & cd' & E & _ & Hc & _);
    [done|done|]. by exists s'.
Defined.

Lemma reschedule_is_threadyield_witness :
  exists sp sy, reschedule false demo = Ok sp /\ threadyield demo = Ok sy /\ current sp = current sy.
Proof.
  destruct (reschedule_is_threadyield demo demo_q 100 demo_ok) as (sp & sy & qp & qy & cp & cy & E1 & E2 & _ & _ & _ & Hc).
  by exists sp, sy.
Defined.

Lemma round_robin_progress_witness : exists s', yields 2 demo = Ok s' /\ current s' = 5.
Proof. apply (round_robin_progress [200] demo demo_q 100 300 [] 5 [] demo_ok); reflexivity. Defined.

Lemma runqueue_switchdomains_refines_witness :
  exists s', runqueue_switchdomains 100 300 demo = Ok s' /\ rep s' (q_switch 100 300 demo_q).
Proof.
  destruct (runqueue_switchdomains_refines demo demo_q 100 300 demo_ok) as (s' & E & H & _); [by eexists|done|].
  by exists s'.
Defined.

(** thread 5 is queued although it is a zombie: the check "repairs" it silently *)
Lemma check_runnable_overwrites_witness :
  let s := set_t_state 5 STATE_ZOMBIE demo in
  check_runnable 300 s = Ok (set_t_state 5 STATE_RUNNABLE s).
Proof.
  apply (check_runnable_overwrites (set_t_state 5 STATE_ZOMBIE demo) 100 300 (MkDomain 5 5 0) 5
           (MkThread STATE_ZOMBIE 300 0)); done || reflexivity.
Defined.
