(* ===== verification/Sync.v ===== *)
(** * Blocking and waking threads from Java (Interface/zero_AtomicVariable.c,
      Interface/zero_CPUManager.c, Interface/zero_CAS.c)

    Monitors and semaphores of the Java level are built from atomic variables,
    whose waiters are linked through [ThreadDesc.next], and from the block and
    unblock operations of the CPU manager.  The operations run with interrupts
    disabled on the scheduler of [RunQueue]; those that give up the CPU
    continue in [resume] when their thread runs again. *)

From S2P Require Import Prelude Mem RunQueue.
#[local] Open Scope Z_scope.

(** ** State *)

(** what the scheduler does not look at in a [ThreadDesc] *)
Record tcb := MkTcb {
  next_ : Z;                        (* next waiter of an atomic variable *)
  unblockedWithoutBeingBlocked : bool;
  th_id : Z;
  th_nextInDomain : Z;
}.
Record avar := MkAvar { av_value : Z; av_blockedThread : Z; av_listMode : Z }.

(** a CPUState object holds the [ThreadDesc] behind its first word, or refers
    to a thread of another domain *)
Inductive cpu_state :=
| CPUSTATE
| FOREIGN_CPUSTATE (domain domainID thread threadID gcEpoch : Z).
Record dom_info := MkDomInfo { di_id : Z; di_epoch : Z; di_threads : Z }.

Record sync := MkSync {
  sch : sched;
  tcbs : gmap Z tcb;
  avars : gmap Z avar;
  handles : gmap Z cpu_state;
  dominfo : gmap Z dom_info;
}.

Definition with_sch (s : sched) (x : sync) : sync := MkSync s (tcbs x) (avars x) (handles x) (dominfo x).
Definition upd_tcb (t : Z) (f : tcb -> tcb) (x : sync) : sync :=
  MkSync (sch x) (alter f t (tcbs x)) (avars x) (handles x) (dominfo x).
Definition upd_avar (a : Z) (f : avar -> avar) (x : sync) : sync :=
  MkSync (sch x) (tcbs x) (alter f a (avars x)) (handles x) (dominfo x).
Definition set_handle (p : Z) (h : cpu_state) (x : sync) : sync :=
  MkSync (sch x) (tcbs x) (avars x) (<[p := h]> (handles x)) (dominfo x).
Definition set_next (t v : Z) : sync -> sync :=
  upd_tcb t (fun c => MkTcb v (unblockedWithoutBeingBlocked c) (th_id c) (th_nextInDomain c)).
Definition set_flag (t : Z) (b : bool) : sync -> sync :=
  upd_tcb t (fun c => MkTcb (next_ c) b (th_id c) (th_nextInDomain c)).
Definition set_value (a v : Z) : sync -> sync := upd_avar a (fun x => MkAvar v (av_blockedThread x) (av_listMode x)).
Definition set_blockedThread (a t : Z) : sync -> sync := upd_avar a (fun x => MkAvar (av_value x) t (av_listMode x)).

Definition get_tcb (t : Z) (x : sync) : res tcb := match tcbs x !! t with Some c => Ok c | None => Err EFault end.
Definition get_avar (a : Z) (x : sync) : res avar := match avars x !! a with Some v => Ok v | None => Err EFault end.
Definition get_dominfo (d : Z) (x : sync) : res dom_info := match dominfo x !! d with Some i => Ok i | None => Err EFault end.
(** a scheduler operation *)
Definition on_sch (f : sched -> res sched) (x : sync) : res sync := let! s := f (sch x) in Ok (with_sch s x).
Definition walk_fuel (x : sync) : nat := S (size (tcbs x)).
Definition curthr_ (x : sync) : Z := curthr (sch x).

(** ** CPUState objects (Interface/zero.h, core/thread.c) *)

Definition thread2CPUState (thread : Z) : Z := if thread =? NULL then NULL else thread - 4.

Fixpoint find_by_id (fuel : nat) (id t : Z) (x : sync) : res Z :=
  match fuel with
  | O => Err EFuel
  | S n =>
      if t =? NULL then Ok NULL else
      let! c := get_tcb t x in
      if th_id c =? id then Ok t else find_by_id n id (th_nextInDomain c) x
  end.
Definition findThreadByID (domain id : Z) (x : sync) : res Z :=
  let! d := get_dominfo domain x in find_by_id (walk_fuel x) id (di_threads d) x.

(** threads move when their domain is collected: a proxy of an older epoch is
    renewed *)
Definition findThreadDesc (proxy domain domainID thread threadID gcEpoch : Z) (x : sync) : res (Z * sync) :=
  let! d := get_dominfo domain x in
  if negb (di_id d =? domainID) then Ok (NULL, x) else
  if gcEpoch =? di_epoch d then Ok (thread, x) else
  let! t := find_by_id (walk_fuel x) threadID (di_threads d) x in
  if t =? NULL then Ok (NULL, x)
  else Ok (t, set_handle proxy (FOREIGN_CPUSTATE domain domainID t threadID (di_epoch d)) x).

Definition cpuState2thread (obj : Z) (x : sync) : res (Z * sync) :=
  if obj =? NULL then Ok (NULL, x) else
  match handles x !! obj with
  | Some CPUSTATE => Ok (obj + 4, x)
  | Some (FOREIGN_CPUSTATE d did t tid e) => findThreadDesc obj d did t tid e x
  | None => Err (EPanic "cpustate object has wrong flags")
  end.
(** [ASSERTTHREAD]: reads the magic word of the thread *)
Definition ASSERTTHREAD (t : Z) (x : sync) : res thread := thr (sch x) t.

(** ** Atomic variables *)

Definition atomicvariable_set (self value : Z) (x : sync) : res sync :=
  let! _ := get_avar self x in Ok (set_value self value x).
Definition atomicvariable_get (self : Z) (x : sync) : res Z := let! a := get_avar self x in Ok (av_value a).
Definition atomicvariable_activateListMode (self : Z) (x : sync) : res sync :=
  let! _ := get_avar self x in Ok (upd_avar self (fun a => MkAvar (av_value a) (av_blockedThread a) 1) x).

(** [for (t = self->blockedThread; t != NULL; t = t->next) threadunblock(t);] *)
Fixpoint unblock_list (fuel : nat) (t : Z) (x : sync) : res sync :=
  match fuel with
  | O => Err EFuel
  | S n =>
      if t =? NULL then Ok x else
      let! x := on_sch (threadunblock t) x in
      let! c := get_tcb t x in
      unblock_list n (next_ c) x
  end.

Definition atomicvariable_atomicUpdateUnblock (fuel : nat) (self value cpuStateProxy : Z) (x : sync) : res sync :=
  let! _ := get_avar self x in
  let x := set_value self value x in
  let! a := get_avar self x in
  if av_listMode a =? 1 then
    let! x := unblock_list fuel (av_blockedThread a) x in
    Ok (set_blockedThread self NULL x)
  else if negb (cpuStateProxy =? NULL) && negb (av_blockedThread a =? NULL) then
    let! '(t, x) := cpuState2thread cpuStateProxy x in
    let! th := ASSERTTHREAD t x in
    let! _ := assert_ "self->blockedThread == cpuState" (av_blockedThread a =? t) in
    if t_state th =? STATE_BLOCKEDUSER
    then on_sch (threadunblock t) (set_blockedThread self NULL x)
    else Ok x
  else Ok x.

(** the body that [blockIfEqual] and [blockIfNotEqual] share, up to the
    context switch *)
Definition block_on (self : Z) (x : sync) : res sync :=
  let thread := curthr_ x in
  let! a := get_avar self x in
  let! x := (if av_listMode a =? 1 then
               let! _ := get_tcb thread x in
               Ok (set_blockedThread self thread (set_next thread (av_blockedThread a) x))
             else
               let! _ := assert_ "self->blockedThread == NULL || self->blockedThread == thread"
                           ((av_blockedThread a =? NULL) || (av_blockedThread a =? thread)) in
               Ok (set_blockedThread self thread x)) in
  on_sch threadblock x.
(** [true]: the thread was blocked *)
Definition atomicvariable_blockIfEqual (self test : Z) (x : sync) : res (bool * sync) :=
  let! a := get_avar self x in
  if av_value a =? test then let! x := block_on self x in Ok (true, x) else Ok (false, x).
Definition atomicvariable_blockIfNotEqual (self test : Z) (x : sync) : res (bool * sync) :=
  let! a := get_avar self x in
  if negb (av_value a =? test) then let! x := block_on self x in Ok (true, x) else Ok (false, x).

(** compare and set of a word of an object (the proxy holds its index) *)
Definition cas_casObject (index obj compare setTo : Z) (m : memory) : bool * memory :=
  let a := obj + 4 + 4 * index in
  if negb (load32 m a =? u32 compare) then (false, m) else (true, store32 m a setTo).

(** ** The CPU manager *)

Definition cpuManager_yield (x : sync) : res sync := on_sch threadyield x.
Definition cpuManager_getCPUState (x : sync) : Z := thread2CPUState (curthr_ x).
Definition cpuManager_block (x : sync) : res sync := on_sch locked_threadblock x.
Definition cpuManager_blockIfNotUnblocked (x : sync) : res (bool * sync) :=
  let! c := get_tcb (curthr_ x) x in
  if negb (unblockedWithoutBeingBlocked c) then let! x := on_sch threadblock x in Ok (true, x) else Ok (false, x).
Definition cpuManager_clearUnblockFlag (x : sync) : res sync :=
  let! _ := get_tcb (curthr_ x) x in Ok (set_flag (curthr_ x) false x).
Definition cpuManager_unblock (cpuStateProxy : Z) (x : sync) : res (bool * sync) :=
  if cpuStateProxy =? NULL then Err (EThrow "RuntimeException") else
  let! '(t, x) := cpuState2thread cpuStateProxy x in
  if t =? NULL then Ok (false, x) else
  let! th := ASSERTTHREAD t x in
  if negb (t_state th =? STATE_BLOCKEDUSER) then
    let! _ := get_tcb t x in Ok (false, set_flag t true x)
  else let! x := on_sch (threadunblock t) x in Ok (true, x).
Definition cpuManager_start (cpuStateProxy : Z) (x : sync) : res (bool * sync) :=
  let! '(t, x) := cpuState2thread cpuStateProxy x in
  let! th := ASSERTTHREAD t x in
  if negb (t_state th =? STATE_INIT) then Ok (false, x) else
  let x := with_sch (set_t_state t STATE_RUNNABLE (sch x)) x in
  let! x := on_sch (Sched_created t SCHED_CREATETHREAD_DEFAULT) x in
  Ok (true, x).

(** one look at the condition of [while (cpuState->state != st) threadyield();]
    [false] to look again when the thread runs the next time *)
Definition wait_step (t st : Z) (x : sync) : res (bool * sync) :=
  let! th := thr (sch x) t in
  if t_state th =? st then Ok (true, x) else let! x := on_sch threadyield x in Ok (false, x).

(** ** Threads that run these operations *)

(** where a thread continues: after a [threadblock] (of an atomic variable,
    with the condition it waits for), or in a loop that yields *)
Inductive cont :=
| CNone
| CBlocked (wait : option (Z * bool * Z))
| CLoop (t st : Z).
Record sys := MkSys { sy : sync; conts : gmap Z cont }.
Definition cont_of (t : Z) (s : sys) : cont := default CNone (conts s !! t).
Definition set_cont (t : Z) (c : cont) (s : sys) : sys := MkSys (sy s) (<[t := c]> (conts s)).
Definition with_sy (x : sync) (s : sys) : sys := MkSys x (conts s).
Definition running (s : sys) : Z := curthr_ (sy s).

Inductive op :=
| OYield
| OTimer
| OSet (av v : Z)
| OUpdate (av v h : Z)
| OListMode (av : Z)
| OBlockIf (av : Z) (equal : bool) (test : Z)
| OBlock
| OBlockIfNotUnblocked
| OClearFlag
| OUnblock (h : Z)
| OStart (h : Z)
| OJoin (h : Z)
| OWaitUntilBlocked (h : Z).

(** an operation that may block the running thread *)
Definition blocking (w : option (Z * bool * Z)) (r : res (bool * sync)) (s : sys) : res sys :=
  let! '(b, x) := r in
  Ok (if (b : bool) then set_cont (running s) (CBlocked w) (with_sy x s) else with_sy x s).
(** [join] and [waitUntilBlocked] *)
Definition wait_for (h st : Z) (s : sys) : res sys :=
  let! '(t, x) := cpuState2thread h (sy s) in
  let! _ := ASSERTTHREAD t x in
  Ok (set_cont (running s) (CLoop t st) (with_sy x s)).

Definition perform (o : op) (s : sys) : res sys :=
  let x := sy s in
  match o with
  | OYield => let! x := cpuManager_yield x in Ok (with_sy x s)
  | OTimer => let! x := on_sch (reschedule false) x in Ok (with_sy x s)
  | OSet av v => let! x := atomicvariable_set av v x in Ok (with_sy x s)
  | OUpdate av v h => let! x := atomicvariable_atomicUpdateUnblock (walk_fuel x) av v h x in Ok (with_sy x s)
  | OListMode av => let! x := atomicvariable_activateListMode av x in Ok (with_sy x s)
  | OBlockIf av equal test =>
      blocking (Some (av, equal, test))
        ((if equal then atomicvariable_blockIfEqual else atomicvariable_blockIfNotEqual) av test x) s
  | OBlock => blocking None (let! x := cpuManager_block x in Ok (true, x)) s
  | OBlockIfNotUnblocked => blocking None (cpuManager_blockIfNotUnblocked x) s
  | OClearFlag => let! x := cpuManager_clearUnblockFlag x in Ok (with_sy x s)
  | OUnblock h => let! '(_, x) := cpuManager_unblock h x in Ok (with_sy x s)
  | OStart h => let! '(_, x) := cpuManager_start h x in Ok (with_sy x s)
  | OJoin h => wait_for h STATE_ZOMBIE s
  | OWaitUntilBlocked h => wait_for h STATE_BLOCKEDUSER s
  end.

(** the running thread takes one step: it finishes the operation it is in, or
    performs [o] *)
Definition exec (o : op) (s : sys) : res sys :=
  match cont_of (running s) s with
  | CNone => perform o s
  | CBlocked _ => Ok (set_cont (running s) CNone (with_sy (with_sch (Sched_block_resume (sch (sy s))) (sy s)) s))
  | CLoop t st =>
      let! '(b, x) := wait_step t st (sy s) in
      Ok (if (b : bool) then set_cont (running s) CNone (with_sy x s) else with_sy x s)
  end.
