(* ===== verification/SyncInv.v ===== *)
(** * No wake-up is lost (Interface/zero_AtomicVariable.c, zero_CPUManager.c)

    The invariant of threads that block on atomic variables, in list mode and
    in the default mode that has room for one waiter, and through the CPU
    manager; every interleaving of their operations, and what breaks it. *)

From S2P Require Import Prelude Mem RunQueue Sync.
#[local] Open Scope Z_scope.

(** ** The invariant *)

Definition next_of (x : sync) (t : Z) : option Z := next_ <$> tcbs x !! t.
Definition state_of (s : sys) (t : Z) : option Z := fst <$> tinfo (sch (sy s)) t.
Definition blocked (s : sys) (t : Z) : Prop := state_of s t = Some STATE_BLOCKEDUSER.
(** the condition a thread waits under *)
Definition holds (equal : bool) (value test : Z) : Prop := equal = (value =? test).

(** [l] waits for the variable [y]: in list mode linked through [next], else
    at most one thread, which the variable names *)
Definition listed (next : Z -> option Z) (y : avar) (l : list Z) : Prop :=
  NoDup l /\
  if av_listMode y =? 1 then lseg next (av_blockedThread y) l
  else l = if av_blockedThread y =? NULL then [] else [av_blockedThread y].

Lemma listed_ext f g y l : (forall t, t ∈ l -> g t = f t) -> listed f y l -> listed g y l.
Proof. intros H [Hnd Hl]. split; [done|]. destruct (_ =? 1); [|done]. by eapply lseg_ext; [|exact Hl]. Qed.
Lemma listed_value f v y l : listed f y l -> listed f (MkAvar v (av_blockedThread y) (av_listMode y)) l.
Proof. done. Qed.
Lemma listed_nobody f v m : listed f (MkAvar v NULL m) [].
Proof. split; [constructor|]. cbn. by destruct (m =? 1). Qed.
Lemma listed_empty f y l : listed f y l -> av_blockedThread y = NULL -> l = [].
Proof.
  intros [_ Hl] E. rewrite E in Hl. destruct (_ =? 1); [|done]. destruct l as [|t l]; [done|]. by destruct Hl as (<- & Hn & _).
Qed.

(** [W a]: the waiters of the atomic variable [a] *)
Record sync_ok (s : sys) (q : queues) (cd : Z) (W : Z -> list Z) : Prop := {
  sk_sched : sched_ok (sch (sy s)) q cd;
  sk_tcbs : forall t, is_Some (tcbs (sy s) !! t) <-> is_Some (tinfo (sch (sy s)) t);
  sk_list : forall a x, avars (sy s) !! a = Some x ->
    listed (next_of (sy s)) x (W a);
  sk_wait : forall a t, t ∈ W a -> blocked s t /\ exists x e v, avars (sy s) !! a = Some x /\
    cont_of t s = CBlocked (Some (a, e, v)) /\ holds e (av_value x) v;
  sk_listed : forall a e v t, cont_of t s = CBlocked (Some (a, e, v)) -> blocked s t -> t ∈ W a;
  sk_blocked : forall t, blocked s t -> exists w, cont_of t s = CBlocked w;
  sk_loop : forall t u st, cont_of t s = CLoop u st -> is_Some (tinfo (sch (sy s)) u);
}.

(** a CPUState object that names a thread *)
Definition names (h t : Z) (s : sys) : Prop :=
  exists x, cpuState2thread h (sy s) = Ok (t, x) /\ is_Some (tinfo (sch (sy s)) t).
Definition idle (s : sys) : Prop := running s = idle_thread (sch (sy s)).

(** What the operations are used for: values change through
    [atomicUpdateUnblock], the idle thread does not block, and a thread that
    waits for an atomic variable is not woken behind its back.  A variable that
    is not in list mode has one waiter at a time, whom the update names, and
    becomes one in list mode only while nobody waits. *)
Definition polite (o : op) (s : sys) : Prop :=
  match o with
  | OYield | OTimer | OClearFlag => True
  | OSet _ _ => False
  | OUpdate a _ h => exists y, avars (sy s) !! a = Some y /\
      (av_listMode y = 1 \/ av_blockedThread y = NULL \/ h <> NULL /\ names h (av_blockedThread y) s)
  | OListMode a => exists y, avars (sy s) !! a = Some y /\ (av_listMode y = 1 \/ av_blockedThread y = NULL)
  | OBlockIf a e v => ~ idle s /\ exists y, avars (sy s) !! a = Some y /\
      (holds e (av_value y) v -> av_listMode y = 1 \/ av_blockedThread y = NULL)
  | OBlock | OBlockIfNotUnblocked => ~ idle s
  | OUnblock h => exists t, names h t s /\ h <> NULL /\ forall w, cont_of t s <> CBlocked (Some w)
  | OStart h | OJoin h | OWaitUntilBlocked h => exists t, names h t s
  end.

Lemma state_of_tinfo s t st : state_of s t = Some st <-> exists d, tinfo (sch (sy s)) t = Some (st, d).
Proof.
  unfold state_of. destruct (tinfo (sch (sy s)) t) as [[st' d]|]; cbn; split; try done; [by intros [= ->]; exists d|by intros [? [= -> ->]]|by intros [? ?]].
Qed.

Section Invariant.
Context (s : sys) (q : queues) (cd : Z) (W : Z -> list Z) (I : sync_ok s q cd W).

Lemma sk_run : tinfo (sch (sy s)) (running s) = Some (STATE_RUNNABLE, cd).
Proof using I. apply (so_run _ _ _ (sk_sched _ _ _ _ I)). Qed.
Lemma sk_running_tcb : is_Some (tcbs (sy s) !! running s).
Proof using I. apply (sk_tcbs _ _ _ _ I). by rewrite sk_run. Qed.
Lemma sk_running_not_blocked : ~ blocked s (running s).
Proof using I. intros (d & E)%state_of_tinfo. by rewrite sk_run in E. Qed.
Lemma sk_not_waiting a : running s ∉ W a.
Proof using I. intros Hin. by apply sk_running_not_blocked, (sk_wait _ _ _ _ I a). Qed.
Lemma blocked_not_queued t : blocked s t -> ~ queued q t.
Proof using I.
  intros (d & E)%state_of_tinfo [e He]. pose proof (r_mem _ _ (sm_rep _ _ _ (so_mid _ _ _ (sk_sched _ _ _ _ I))) e t He) as E'. by rewrite E' in E.
Qed.
Lemma blocked_not_idle t : blocked s t -> t <> idle_thread (sch (sy s)).
Proof using I. intros (d & E)%state_of_tinfo ->. destruct (sm_idle _ _ _ (so_mid _ _ _ (sk_sched _ _ _ _ I))) as [dz Hz]. by rewrite Hz in E. Qed.

(** the scheduler moved on and no thread changed its state *)
Lemma sync_ok_sched sch' q' cd' : sched_ok sch' q' cd' -> (forall t, tinfo sch' t = tinfo (sch (sy s)) t) ->
  sync_ok (with_sy (with_sch sch' (sy s)) s) q' cd' W.
Proof using I.
  intros Hs Ht. assert (Hb : forall t, blocked (with_sy (with_sch sch' (sy s)) s) t <-> blocked s t).
  { intros t. unfold blocked, state_of. cbn. by rewrite Ht. }
  destruct I as [I1 I2 I3 I4 I5 I6 I7]. split; cbn; try done.
  - intros t. by rewrite Ht.
  - intros a t Hin. rewrite Hb. by apply I4.
  - intros a e v t Hc. rewrite Hb. by apply (I5 a e v).
  - intros t. rewrite Hb. apply I6.
  - intros t u st Hc. rewrite Ht. by apply (I7 t u st).
Qed.

(** only CPUState objects changed *)
Lemma sync_ok_handles x : sch x = sch (sy s) -> tcbs x = tcbs (sy s) -> avars x = avars (sy s) -> sync_ok (with_sy x s) q cd W.
Proof using I.
  intros E1 E2 E3. destruct I as [I1 I2 I3 I4 I5 I6 I7].
  assert (Hb : forall t, blocked (with_sy x s) t <-> blocked s t) by (intros t; unfold blocked, state_of; cbn; by rewrite E1).
  split; cbn; rewrite ?E1, ?E2, ?E3; try done.
  - unfold next_of. rewrite E2. exact I3.
  - intros a t Hin. rewrite Hb. by apply I4.
  - intros a e v t Hc. rewrite Hb. by apply (I5 a e v).
  - intros t. rewrite Hb. apply I6.
Qed.

Lemma sync_ok_flag t b : sync_ok (with_sy (set_flag t b (sy s)) s) q cd W.
Proof using I.
  destruct I as [I1 I2 I3 I4 I5 I6 I7]. split; try done.
  - intros u. cbn. rewrite <- I2. destruct (decide (u = t)) as [->|]; [rewrite lookup_alter_eq; by rewrite fmap_is_Some|by rewrite lookup_alter_ne].
  - intros a x Hx. eapply listed_ext; [|exact (I3 a x Hx)].
    intros u _. unfold next_of. cbn. destruct (decide (u = t)) as [->|]; [rewrite lookup_alter_eq; by destruct (tcbs (sy s) !! t)|by rewrite lookup_alter_ne].
Qed.

(** the running thread goes on after its operation *)
Lemma sync_ok_cont c : (forall w, c <> CBlocked w) -> (forall u st, c = CLoop u st -> is_Some (tinfo (sch (sy s)) u)) ->
  sync_ok (set_cont (running s) c s) q cd W.
Proof using I.
  intros Hc Hl. pose proof sk_running_not_blocked as Hnb. pose proof sk_not_waiting as Hnw.
  assert (Hcont : forall t, cont_of t (set_cont (running s) c s) = if decide (t = running s) then c else cont_of t s).
  { intros t. unfold cont_of. cbn. destruct (decide (t = running s)) as [->|]; [by rewrite lookup_insert_eq|by rewrite lookup_insert_ne]. }
  destruct I as [I1 I2 I3 I4 I5 I6 I7]. split; try done.
  - intros a t Hin. destruct (I4 a t Hin) as (Hb & x & e & v & Hx & Hct & Hv). split; [done|]. exists x, e, v. split_and!; try done.
    rewrite Hcont, decide_False; [done|]. intros ->. by apply (Hnw a).
  - intros a e v t. rewrite Hcont. destruct (decide (t = running s)) as [->|]; [by intros E; apply Hc in E|apply I5].
  - intros t Hb. rewrite Hcont, decide_False; [by apply I6|]. by intros ->.
  - intros t u st. rewrite Hcont. destruct (decide (t = running s)) as [->|]; [apply Hl|apply I7].
Qed.
End Invariant.

(** ** Blocking *)

Section Block.
Context (s : sys) (q : queues) (cd : Z) (W : Z -> list Z) (I : sync_ok s q cd W) (Hidle : ~ idle s).
(** [x]: the running thread was entered in a list, if it waits for a variable *)
Context (w : option (Z * bool * Z)) (x : sync) (W' : Z -> list Z).
Context (Hsch : sch x = sch (sy s)) (Htcbs : forall t, is_Some (tcbs x !! t) <-> is_Some (tcbs (sy s) !! t)).
Context (Hlist : forall a y, avars x !! a = Some y -> listed (next_of x) y (W' a)).
Context (Hval : forall a y, avars (sy s) !! a = Some y -> exists y', avars x !! a = Some y' /\ av_value y' = av_value y).
Context (Hw : forall a t, t ∈ W' a <-> t ∈ W a \/ t = running s /\ exists e v, w = Some (a, e, v)).
Context (Hcond : forall a e v, w = Some (a, e, v) -> exists y, avars x !! a = Some y /\ holds e (av_value y) v).

Lemma sync_ok_block : exists sch' q' cd', threadblock (sch x) = Ok sch' /\
  sync_ok (set_cont (running s) (CBlocked w) (with_sy (with_sch sch' x) s)) q' cd' W'.
Proof using All.
  pose proof (sk_not_waiting _ _ _ _ I) as Hnw. pose proof (sk_run _ _ _ _ I) as Hrun. destruct I as [I1 I2 I3 I4 I5 I6 I7].
  destruct (Sched_block_spec (sch (sy s)) q cd STATE_BLOCKEDUSER I1) as (sch' & cd' & E & Hok & _ & Hi); [done|exact Hidle|].
  exists sch', (snd (q_pick cd q)), cd'. split; [by rewrite Hsch|]. set (s' := set_cont _ _ _).
  change (current (sch (sy s))) with (running s) in Hi.
  assert (Hc : forall t, cont_of t s' = if decide (t = running s) then CBlocked w else cont_of t s).
  { intros t. unfold cont_of. cbn. destruct (decide (t = running s)) as [->|]; [by rewrite lookup_insert_eq|by rewrite lookup_insert_ne]. }
  assert (Hb : forall t, blocked s' t <-> t = running s \/ blocked s t).
  { intros t. unfold blocked, state_of. cbn. rewrite Hi. destruct (Z.eqb_spec t (running s)) as [->|]; cbn; tauto. }
  assert (Hti : forall t, is_Some (tinfo sch' t) <-> is_Some (tinfo (sch (sy s)) t)).
  { intros t. rewrite Hi. destruct (Z.eqb_spec t (running s)) as [->|]; [|done]. split; intros _; [by rewrite Hrun|done]. }
  split; try done.
  - intros t. cbn. by rewrite Htcbs, I2, Hti.
  - intros a t [Hin|[-> (e & v & Ew)]]%Hw.
    + destruct (I4 a t Hin) as (Hbt & y & e & v & Hy & Hct & Hh). split; [by apply Hb; right|].
      destruct (Hval a y Hy) as (y' & Hy' & Ev). exists y', e, v. rewrite Hc, decide_False, Ev; [done|]. intros ->. by apply (Hnw a).
    + split; [by apply Hb; left|]. destruct (Hcond a e v Ew) as (y & Hy & Hh). exists y, e, v. rewrite Hc, decide_True by done. by rewrite Ew.
  - intros a e v t. rewrite Hc, Hb, Hw. destruct (decide (t = running s)) as [->|Hne].
    + intros [= ->] _. right. split; [done|]. by exists e, v.
    + intros Hct [?|Hbt]; [done|]. left. by apply (I5 a e v).
  - intros t. rewrite Hb, Hc. destruct (decide (t = running s)) as [->|Hne]; [by exists w|]. intros [?|?]; [done|by apply I6].
  - intros t u st. rewrite Hc. destruct (decide (t = running s)) as [->|Hne]; [done|]. intros Hl. apply Hti. by apply (I7 t u st).
Qed.
End Block.

(** pushing the running thread on the list of [a] *)
Definition pushed (a t : Z) (W : Z -> list Z) (b : Z) : list Z := if b =? a then t :: W b else W b.

Lemma block_on_ok s q cd W a e v y : sync_ok s q cd W -> ~ idle s -> avars (sy s) !! a = Some y -> holds e (av_value y) v ->
  av_listMode y = 1 \/ av_blockedThread y = NULL ->
  exists x q' cd', block_on a (sy s) = Ok x /\
    sync_ok (set_cont (running s) (CBlocked (Some (a, e, v))) (with_sy x s)) q' cd' (pushed a (running s) W).
Proof.
  intros I Hidle Hy Hh Hmode. destruct (sk_running_tcb _ _ _ _ I) as [c Hc]. pose proof (sk_not_waiting _ _ _ _ I) as Hnw.
  pose proof (sk_list _ _ _ _ I a y Hy) as Hl.
  assert (Hnn : running s <> NULL) by (exact (nonnull_thread _ _ _ _ _ (sm_rep _ _ _ (so_mid _ _ _ (sk_sched _ _ _ _ I))) (sk_run _ _ _ _ I))).
  set (x := set_blockedThread a (running s) (if av_listMode y =? 1 then set_next (running s) (av_blockedThread y) (sy s) else sy s)).
  assert (Hav : forall b, avars x !! b = if decide (b = a) then Some (MkAvar (av_value y) (running s) (av_listMode y)) else avars (sy s) !! b).
  { intros b. unfold x. destruct (decide (b = a)) as [->|]; destruct (_ =? 1); cbn; by rewrite ?lookup_alter_eq, ?Hy, ?lookup_alter_ne. }
  assert (Hnx : forall t, t <> running s -> next_of x t = next_of (sy s) t).
  { intros t Ht. unfold next_of, x. destruct (_ =? 1); cbn; [by rewrite lookup_alter_ne|done]. }
  destruct (sync_ok_block s q cd W I Hidle (Some (a, e, v)) x (pushed a (running s) W)) as (sch' & q' & cd' & Eb & Hok).
  - unfold x. by destruct (_ =? 1).
  - intros t. unfold x. destruct (_ =? 1); [|done]. cbn. destruct (decide (t = running s)) as [->|]; [by rewrite lookup_alter_eq, Hc|by rewrite lookup_alter_ne].
  - intros b z. rewrite Hav. unfold pushed. destruct (decide (b = a)) as [->|Hne].
    + intros [= <-]. rewrite Z.eqb_refl. split; [apply NoDup_cons; by split; [|apply Hl]|]. cbn [av_listMode av_blockedThread].
      destruct (Z.eqb_spec (av_listMode y) 1) as [Em|Em].
      * split; [done|]. split; [done|]. exists (av_blockedThread y). split.
        -- unfold next_of, x. cbn. by rewrite lookup_alter_eq, Hc.
        -- destruct Hl as [_ Hl]. rewrite Em in Hl. cbn in Hl. eapply lseg_ext; [|exact Hl]. intros t Ht. rewrite Hnx; [done|]. intros ->. by apply (Hnw a).
      * rewrite (proj2 (Z.eqb_neq _ NULL) Hnn), (listed_empty _ _ _ Hl) by tauto. done.
    + rewrite (proj2 (Z.eqb_neq b a) Hne). intros Hz. eapply listed_ext; [|exact (sk_list _ _ _ _ I b z Hz)].
      intros t Ht. apply Hnx. intros ->. by apply (Hnw b).
  - intros b z Hz. rewrite Hav. destruct (decide (b = a)) as [->|Hne]; [|by exists z]. rewrite Hy in Hz. injection Hz as <-. by eexists.
  - intros b t. unfold pushed. destruct (Z.eqb_spec b a) as [->|Hne].
    + rewrite elem_of_cons. split; [intros [->|?]; [right|by left]|intros [?|[-> _]]; [by right|by left]]. split; [done|]. by exists e, v.
    + split; [by left|]. intros [?|(_ & e' & v' & [= E])]; done.
  - intros b e' v' [= <- <- <-]. rewrite Hav, decide_True by done. by eexists.
  - unfold block_on, get_avar, get_tcb. rewrite Hy. cbn [rbind]. change (curthr_ (sy s)) with (running s). unfold on_sch, x in *.
    destruct (Z.eqb_spec (av_listMode y) 1) as [Em|Em].
    + rewrite Hc. cbn [rbind]. rewrite Eb. cbn [rbind]. by eexists _, q', cd'.
    + assert (av_blockedThread y = NULL) as -> by tauto. cbn [orb assert_ Z.eqb NULL rbind]. rewrite Eb. cbn [rbind]. by eexists _, q', cd'.
Qed.

(** outside list mode there is no room for a second waiter *)
Lemma block_on_second x a y : avars x !! a = Some y -> av_listMode y <> 1 -> av_blockedThread y <> NULL -> av_blockedThread y <> curthr_ x ->
  block_on a x = Err (EAssert "self->blockedThread == NULL || self->blockedThread == thread").
Proof.
  intros Hy Hm Hn Hc. unfold block_on, get_avar. rewrite Hy. cbn [rbind].
  by rewrite (proj2 (Z.eqb_neq _ 1) Hm), (proj2 (Z.eqb_neq _ NULL) Hn), (proj2 (Z.eqb_neq _ (curthr_ x)) Hc).
Qed.

(** ** Waking up *)

Lemma threadunblock_keeps s q cd t st d : sched_ok s q cd -> tinfo s t = Some (st, d) -> st <> STATE_RUNNABLE ->
  exists s', threadunblock t s = Ok s' /\ sched_ok s' (q_ready cd d t q) cd /\ current s' = current s /\
    idle_thread s' = idle_thread s /\ (forall y, tinfo s' y = if y =? t then Some (STATE_RUNNABLE, d) else tinfo s y).
Proof.
  intros [Hm Hrun Hout] Ht Hne. destruct (tinfo_some _ _ _ _ Ht) as (T & ET & Hst & <-).
  assert (Hn : ~ queued q t) by (intros [e He]; pose proof (r_mem _ _ (sm_rep _ _ _ Hm) e t He) as E; rewrite Ht in E; by injection E).
  assert (Hc : t <> current s) by (intros ->; rewrite Hrun in Ht; by injection Ht).
  assert (Hi : t <> idle_thread s) by (intros ->; destruct (sm_idle _ _ _ Hm) as [dz Hz]; rewrite Hz in Ht; by injection Ht).
  destruct (threadunblock_spec s q cd t T Hm ET Hn Hi) as (s' & E & Hm' & Ec & Ei & Hti).
  exists s'. split_and!; try done. split; [done| |].
  - rewrite Ec, Hti. destruct (Z.eqb_spec (current s) t); [congruence|done].
  - rewrite Ec. intros [?|?]%queued_ready; [done|congruence].
Qed.

(** the queues after the threads [l] were woken one after the other *)
Definition wake (s : sched) (cd : Z) (l : list Z) (q : queues) : queues :=
  foldl (fun q t => q_ready cd (dom_of s t) t q) q l.

Lemma dom_of_tinfo s t st d : tinfo s t = Some (st, d) -> dom_of s t = d.
Proof. intros (T & ET & _ & Ed)%tinfo_some. unfold dom_of. by rewrite ET. Qed.

Lemma dom_of_ext s1 s2 t : tinfo s1 t = tinfo s2 t -> dom_of s1 t = dom_of s2 t.
Proof. unfold dom_of, tinfo. destruct (threads s1 !! t), (threads s2 !! t); cbn; try done. by intros [= _ ->]. Qed.
Lemma wake_ext s1 s2 cd l : (forall y, y ∈ l -> tinfo s1 y = tinfo s2 y) -> forall q, wake s1 cd l q = wake s2 cd l q.
Proof.
  induction l as [|y l IH]; intros H q; [done|]. cbn. rewrite (dom_of_ext s1 s2) by (apply H, list_elem_of_here).
  apply IH. intros z Hz. by apply H, list_elem_of_further.
Qed.

Lemma queued_ready_self cd d t q : queued (q_ready cd d t q) t.
Proof.
  exists d. unfold q_ready, q_tpush, q_tset, q_dpush. destruct (_ && _); cbn; rewrite Z.eqb_refl; apply elem_of_app; right; apply list_elem_of_here.
Qed.
Lemma queued_ready_other cd d t q y : queued q y -> queued (q_ready cd d t q) y.
Proof.
  intros [e He]. exists e. unfold q_ready, q_tpush, q_tset, q_dpush. destruct (_ && _); cbn; destruct (Z.eqb_spec e d) as [->|]; try done; apply elem_of_app; by left.
Qed.
Lemma wake_queued s cd l : forall q y, queued q y \/ y ∈ l -> queued (wake s cd l q) y.
Proof.
  induction l as [|t l IH]; intros q y; cbn; [intros [?|?%not_elem_of_nil]; done|]. intros H. apply IH.
  rewrite elem_of_cons in H. destruct H as [?|[->|?]]; [left; by apply queued_ready_other|left; apply queued_ready_self|by right].
Qed.

Lemma unblock_list_spec cd l : forall fuel p x q, sched_ok (sch x) q cd -> lseg (next_of x) p l -> NoDup l ->
  (forall t, t ∈ l -> exists d, tinfo (sch x) t = Some (STATE_BLOCKEDUSER, d)) -> (length l < fuel)%nat ->
  exists sch', unblock_list fuel p x = Ok (with_sch sch' x) /\ sched_ok sch' (wake (sch x) cd l q) cd /\
    current sch' = current (sch x) /\ idle_thread sch' = idle_thread (sch x) /\
    forall y, tinfo sch' y = if decide (y ∈ l) then (fun i => (STATE_RUNNABLE, snd i)) <$> tinfo (sch x) y else tinfo (sch x) y.
Proof.
  induction l as [|t l IH]; intros [|fuel] p x q Hok Hl Hnd Hb Hf; cbn [length] in Hf; try lia; cbn [lseg] in Hl.
  - subst p. exists (sch x). by destruct x.
  - destruct Hl as (-> & Hnn & n & En & Hl). apply NoDup_cons in Hnd as [Hnt Hnd].
    destruct (Hb t (list_elem_of_here _ _)) as [d Hd].
    destruct (threadunblock_keeps (sch x) q cd t _ d Hok Hd ltac:(done)) as (s1 & E1 & Hok1 & Ec1 & Ei1 & Ht1).
    cbn [unblock_list]. rewrite (proj2 (Z.eqb_neq t NULL) Hnn). unfold on_sch. rewrite E1. cbn [rbind].
    unfold next_of in En. unfold get_tcb. change (tcbs (with_sch s1 x)) with (tcbs x). destruct (tcbs x !! t) as [c|]; [|done]. cbn [rbind].
    injection En as En. rewrite En.
    assert (Ht1' : forall y, y ∈ l -> tinfo s1 y = tinfo (sch x) y).
    { intros y Hy. rewrite Ht1. destruct (Z.eqb_spec y t) as [->|]; done. }
    destruct (IH fuel n (with_sch s1 x) (q_ready cd d t q)) as (s2 & E2 & Hok2 & Ec2 & Ei2 & Ht2).
    + exact Hok1.
    + exact Hl.
    + done.
    + intros y Hy. cbn. rewrite Ht1' by done. apply Hb. by apply list_elem_of_further.
    + lia.
    + exists s2. split; [exact E2|]. cbn in Ec2, Ei2. rewrite Ec2, Ei2. split_and!; try done.
      * change (sched_ok s2 (wake (sch x) cd l (q_ready cd (dom_of (sch x) t) t q)) cd).
        rewrite (dom_of_tinfo _ _ _ _ Hd), <- (wake_ext s1) by done. exact Hok2.
      * intros y. rewrite Ht2. cbn. rewrite Ht1. destruct (Z.eqb_spec y t) as [->|Hne].
        -- rewrite decide_False by done. rewrite decide_True by apply list_elem_of_here. by rewrite Hd.
        -- destruct (decide (y ∈ l)) as [Hy|Hy]; [rewrite decide_True by (by apply list_elem_of_further); done|].
           rewrite decide_False; [done|]. by intros [?|?]%elem_of_cons.
Qed.

Section Wake.
Context (s : sys) (q : queues) (cd : Z) (W : Z -> list Z) (I : sync_ok s q cd W).
Context (x : sync) (sch' : sched) (q' : queues) (l : list Z) (W' : Z -> list Z).
Context (Hok : sched_ok sch' q' cd).
Context (Hti : forall y, tinfo sch' y = if decide (y ∈ l) then (fun i => (STATE_RUNNABLE, snd i)) <$> tinfo (sch (sy s)) y else tinfo (sch (sy s)) y).
Context (Htcbs : tcbs x = tcbs (sy s)).
Context (Hlist : forall a y, avars x !! a = Some y -> listed (next_of (sy s)) y (W' a)).
Context (Hval : forall a y t, t ∈ W' a -> avars (sy s) !! a = Some y -> exists y', avars x !! a = Some y' /\ av_value y' = av_value y).
Context (Hw : forall a t, t ∈ W' a <-> t ∈ W a /\ t ∉ l).

Lemma sync_ok_wake : sync_ok (with_sy (with_sch sch' x) s) q' cd W'.
Proof using All.
  destruct I as [I1 I2 I3 I4 I5 I6 I7]. set (s' := with_sy _ _).
  assert (Hb : forall t, blocked s' t <-> blocked s t /\ t ∉ l).
  { intros t. unfold blocked, state_of. cbn. rewrite Hti. destruct (decide (t ∈ l)) as [Hl|Hl]; [|tauto].
    split; [|by intros [_ ?]]. destruct (tinfo (sch (sy s)) t) as [[]|]; by cbn. }
  assert (Hs : forall t, is_Some (tinfo sch' t) <-> is_Some (tinfo (sch (sy s)) t)).
  { intros t. rewrite Hti. destruct (decide (t ∈ l)); [apply fmap_is_Some|done]. }
  split; try done.
  - intros t. cbn. by rewrite Htcbs, I2, Hs.
  - intros a y Hy. cbn. unfold next_of. cbn. rewrite Htcbs. by apply Hlist.
  - intros a t Hin'. apply Hw in Hin' as Hin. destruct Hin as [Hin Hl]. destruct (I4 a t Hin) as (Hbt & y & e & v & Hy & Hc & Hh).
    split; [by apply Hb|]. destruct (Hval a y t Hin' Hy) as (y' & Hy' & Ev). exists y', e, v. by rewrite Ev.
  - intros a e v t Hc [Hbt Hl]%Hb. apply Hw. split; [|done]. by apply (I5 a e v).
  - intros t [Hbt _]%Hb. by apply I6.
  - intros t u st Hc. apply Hs. by apply (I7 t u st).
Qed.
End Wake.

(** looking a thread up may renew the object, nothing else *)
Lemma cpuState2thread_handles h x t x' : cpuState2thread h x = Ok (t, x') -> sch x' = sch x /\ tcbs x' = tcbs x /\ avars x' = avars x.
Proof.
  unfold cpuState2thread, findThreadDesc. destruct (_ =? _); [by intros [= _ <-]|]. destruct (handles x !! h) as [[|]|]; [by intros [= _ <-]| |done].
  intros E. apply rbind_ok in E as (i & _ & E). destruct (negb _); [by injection E as _ <-|]. destruct (_ =? _); [by injection E as _ <-|].
  apply rbind_ok in E as (u & _ & E). destruct (_ =? _); by injection E as _ <-.
Qed.

(** [atomicUpdateUnblock] wakes every waiter *)
Definition emptied (a : Z) (W : Z -> list Z) (b : Z) : list Z := if b =? a then [] else W b.

Lemma find_by_id_ext id x y : tcbs x = tcbs y -> forall fuel t, find_by_id fuel id t x = find_by_id fuel id t y.
Proof.
  intros E. induction fuel as [|n IH]; intros t; [done|]. cbn [find_by_id]. unfold get_tcb. rewrite E.
  destruct (t =? NULL); [done|]. destruct (tcbs y !! t); [|done]. cbn [rbind]. by rewrite IH.
Qed.
Lemma cpuState2thread_value h x t x' a v : cpuState2thread h x = Ok (t, x') ->
  cpuState2thread h (set_value a v x) = Ok (t, set_value a v x').
Proof.
  unfold cpuState2thread, findThreadDesc, get_dominfo, walk_fuel. destruct (h =? NULL); [by intros [= <- <-]|].
  change (handles (set_value a v x)) with (handles x). change (dominfo (set_value a v x)) with (dominfo x).
  change (tcbs (set_value a v x)) with (tcbs x).
  destruct (handles x !! h) as [[|d did u tid ep]|]; [by intros [= <- <-]| |done].
  destruct (dominfo x !! d) as [i|]; [|done]. cbn [rbind]. destruct (negb _); [by intros [= <- <-]|].
  destruct (ep =? _); [by intros [= <- <-]|]. rewrite (find_by_id_ext tid (set_value a v x) x) by done.
  destruct (find_by_id _ _ _ x) as [w|]; [|done]. cbn [rbind]. by destruct (w =? NULL); intros [= <- <-].
Qed.

(** the threads [l] became runnable *)
Definition woken (s s' : sched) (l : list Z) : Prop :=
  current s' = current s /\
  forall y, tinfo s' y = if decide (y ∈ l) then (fun i => (STATE_RUNNABLE, snd i)) <$> tinfo s y else tinfo s y.

(** the update itself, in both modes *)
Lemma update_runs s q cd W a v h y : sync_ok s q cd W -> avars (sy s) !! a = Some y ->
  av_listMode y = 1 \/ av_blockedThread y = NULL \/ h <> NULL /\ names h (av_blockedThread y) s ->
  exists x sch', atomicvariable_atomicUpdateUnblock (walk_fuel (sy s)) a v h (sy s) = Ok (with_sch sch' x) /\
    sched_ok sch' (wake (sch (sy s)) cd (W a) q) cd /\ woken (sch (sy s)) sch' (W a) /\ tcbs x = tcbs (sy s) /\
    forall b, avars x !! b = if decide (b = a) then Some (MkAvar v NULL (av_listMode y)) else avars (sy s) !! b.
Proof.
  intros I Hy Hmode. pose proof (sk_list _ _ _ _ I a y Hy) as Hl. pose proof (sk_sched _ _ _ _ I) as Hok.
  assert (Hblk : forall t, t ∈ W a -> exists d, tinfo (sch (sy s)) t = Some (STATE_BLOCKEDUSER, d)).
  { intros t Ht. apply state_of_tinfo, (sk_wait _ _ _ _ I a t Ht). }
  unfold atomicvariable_atomicUpdateUnblock, get_avar. rewrite Hy. cbn [rbind]. set (x := set_value a v (sy s)).
  assert (Hyx : avars x !! a = Some (MkAvar v (av_blockedThread y) (av_listMode y))) by (unfold x; cbn; by rewrite lookup_alter_eq, Hy).
  assert (Hxb : forall b, b <> a -> avars x !! b = avars (sy s) !! b) by (intros; unfold x; cbn; by rewrite lookup_alter_ne).
  rewrite Hyx. cbn [rbind av_listMode av_blockedThread]. destruct (Z.eqb_spec (av_listMode y) 1) as [Em|Em].
  - destruct Hl as [Hnd Hl]. rewrite Em in Hl. cbn in Hl.
    destruct (unblock_list_spec cd (W a) (walk_fuel (sy s)) (av_blockedThread y) x q) as (sch' & E & Hok' & Hc & _ & Hti); try done.
    + unfold walk_fuel. apply Nat.lt_succ_r, nodup_keys_le; [done|]. intros t Ht. apply (sk_tcbs _ _ _ _ I). by destruct (Hblk t Ht) as [d ->].
    + rewrite E. cbn [rbind]. exists (set_blockedThread a NULL x), sch'. split_and!; try done.
      intros b. cbn [avars set_blockedThread upd_avar]. destruct (decide (b = a)) as [->|Hne]; [by rewrite lookup_alter_eq, Hyx|by rewrite lookup_alter_ne, Hxb].
  - destruct (Z.eqb_spec (av_blockedThread y) NULL) as [En|En].
    + rewrite (listed_empty _ _ _ Hl En), andb_false_r. exists x, (sch (sy s)). split; [by destruct (sy s)|]. split_and!; try done.
      intros b. destruct (decide (b = a)) as [->|Hne]; [by rewrite Hyx, En|by apply Hxb].
    + destruct Hmode as [?|[?|[Hh (x1 & E1 & _)]]]; [done|done|]. destruct (cpuState2thread_handles _ _ _ _ E1) as (S1 & S2 & S3).
      assert (W a = [av_blockedThread y]) as HW by (destruct Hl as [_ Hl]; by rewrite (proj2 (Z.eqb_neq _ 1) Em), (proj2 (Z.eqb_neq _ NULL) En) in Hl).
      destruct (Hblk (av_blockedThread y)) as [d Hd]; [rewrite HW; apply list_elem_of_here|].
      destruct (threadunblock_keeps _ q cd _ _ d Hok Hd ltac:(done)) as (sch' & Eu & Hok' & Hc & _ & Hti).
      rewrite (proj2 (Z.eqb_neq h NULL) Hh). cbn [negb andb]. unfold x. rewrite (cpuState2thread_value _ _ _ _ a v E1). cbn [rbind].
      destruct (tinfo_some _ _ _ _ Hd) as (T & ET & HT & _). unfold ASSERTTHREAD, thr. cbn [sch set_value upd_avar]. rewrite S1, ET. cbn [rbind].
      rewrite Z.eqb_refl, HT. cbn [assert_ rbind Z.eqb Pos.eqb STATE_BLOCKEDUSER]. unfold on_sch. cbn [sch set_blockedThread set_value upd_avar].
      rewrite S1, Eu. cbn [rbind]. exists (set_blockedThread a NULL (set_value a v x1)), sch'. split; [done|]. split.
      { rewrite HW. cbn. by rewrite (dom_of_tinfo _ _ _ _ Hd). }
      split; [split; [done|]|split; [done|]].
      * intros z. rewrite Hti, HW. destruct (Z.eqb_spec z (av_blockedThread y)) as [->|Hz].
        -- rewrite decide_True by apply list_elem_of_here. by rewrite Hd.
        -- rewrite decide_False; [done|]. by intros ?%list_elem_of_singleton.
      * intros b. cbn. destruct (decide (b = a)) as [->|Hne]; [by rewrite !lookup_alter_eq, S3, Hy|by rewrite !lookup_alter_ne, S3].
Qed.

Lemma update_ok s q cd W a v h y : sync_ok s q cd W -> avars (sy s) !! a = Some y ->
  av_listMode y = 1 \/ av_blockedThread y = NULL \/ h <> NULL /\ names h (av_blockedThread y) s ->
  exists x, atomicvariable_atomicUpdateUnblock (walk_fuel (sy s)) a v h (sy s) = Ok x /\
    sync_ok (with_sy x s) (wake (sch (sy s)) cd (W a) q) cd (emptied a W) /\
    avars x !! a = Some (MkAvar v NULL (av_listMode y)) /\
    current (sch x) = current (sch (sy s)) /\
    forall t, t ∈ W a -> state_of (with_sy x s) t = Some STATE_RUNNABLE.
Proof.
  intros I Hy Hmode. destruct (update_runs s q cd W a v h y I Hy Hmode) as (x & sch' & E & Hok & [Hc Hti] & Ht & Ha).
  exists (with_sch sch' x). split; [exact E|]. split; [|split; [cbn; by rewrite Ha, decide_True|split; [exact Hc|]]].
  - apply (sync_ok_wake s q cd W I _ _ _ (W a)); try done.
    + intros b z. rewrite Ha. unfold emptied. destruct (decide (b = a)) as [->|Hne].
      * intros [= <-]. rewrite Z.eqb_refl. apply listed_nobody.
      * rewrite (proj2 (Z.eqb_neq b a) Hne). apply (sk_list _ _ _ _ I).
    + intros b z t. unfold emptied. rewrite Ha. destruct (Z.eqb_spec b a) as [->|Hne]; [by intros ?%not_elem_of_nil|].
      rewrite decide_False by done. intros _ Hz. by exists z.
    + intros b t. unfold emptied. destruct (Z.eqb_spec b a) as [->|Hne]; [split; [by intros ?%not_elem_of_nil|by intros []]|].
      split; [|by intros []]. intros Hb. split; [done|]. intros Ha'.
      destruct (sk_wait _ _ _ _ I b t Hb) as (_ & ? & ? & ? & _ & Hc1 & _). destruct (sk_wait _ _ _ _ I a t Ha') as (_ & ? & ? & ? & _ & Hc2 & _).
      congruence.
  - intros t Hin. apply state_of_tinfo. cbn. rewrite Hti, decide_True by done.
    destruct (sk_wait _ _ _ _ I a t Hin) as [(d & Hd)%state_of_tinfo _]. rewrite Hd. by exists d.
Qed.

(** a variable without waiters becomes one in list mode *)
Lemma list_mode_ok s q cd W a y : sync_ok s q cd W -> avars (sy s) !! a = Some y -> av_listMode y = 1 \/ av_blockedThread y = NULL ->
  sync_ok (with_sy (upd_avar a (fun y => MkAvar (av_value y) (av_blockedThread y) 1) (sy s)) s) q cd W.
Proof.
  intros I Hy Hmode. set (x := upd_avar _ _ _). pose proof (sk_list _ _ _ _ I a y Hy) as Hl.
  assert (Ha : forall b, avars x !! b = if decide (b = a) then Some (MkAvar (av_value y) (av_blockedThread y) 1) else avars (sy s) !! b).
  { intros b. unfold x. cbn. destruct (decide (b = a)) as [->|]; [by rewrite lookup_alter_eq, Hy|by rewrite lookup_alter_ne]. }
  change x with (with_sch (sch (sy s)) x). apply (sync_ok_wake s q cd W I _ _ _ [] W); try done.
  - apply (sk_sched _ _ _ _ I).
  - intros b z. rewrite Ha. destruct (decide (b = a)) as [->|Hne]; [|apply (sk_list _ _ _ _ I)]. intros [= <-].
    destruct Hmode as [Em|En]; [destruct Hl as [Hnd Hl]; by rewrite Em in Hl|]. rewrite (listed_empty _ _ _ Hl En), En. apply listed_nobody.
  - intros b z t _ Hz. rewrite Ha. destruct (decide (b = a)) as [->|Hne]; [|by exists z]. rewrite Hy in Hz. injection Hz as <-. by eexists.
  - intros b t. split; [|by intros []]. intros Hb. split; [done|apply not_elem_of_nil].
Qed.

(** one thread that waits for no variable becomes runnable *)
Lemma make_runnable_ok s q cd W t st d : sync_ok s q cd W -> tinfo (sch (sy s)) t = Some (st, d) -> st <> STATE_RUNNABLE ->
  (forall a, t ∉ W a) -> exists sch', threadunblock t (sch (sy s)) = Ok sch' /\ sync_ok (with_sy (with_sch sch' (sy s)) s) (q_ready cd d t q) cd W.
Proof.
  intros I Ht Hne Hnw. destruct (threadunblock_keeps _ q cd t st d (sk_sched _ _ _ _ I) Ht Hne) as (sch' & E & Hok & Hc & _ & Hti).
  exists sch'. split; [done|]. apply (sync_ok_wake s q cd W I (sy s) sch' _ [t] W); try done.
  - intros y. rewrite Hti. destruct (Z.eqb_spec y t) as [->|Hy].
    + rewrite decide_True by apply list_elem_of_here. by rewrite Ht.
    + rewrite decide_False; [done|]. by intros ?%list_elem_of_singleton.
  - intros a y. apply (sk_list _ _ _ _ I).
  - intros a y u _ Hy. by exists y.
  - intros a u. split; [|by intros []]. intros Hu. split; [done|]. intros ->%list_elem_of_singleton. by apply (Hnw a).
Qed.

Lemma names_ok s q cd W h t : sync_ok s q cd W -> names h t s ->
  exists x, cpuState2thread h (sy s) = Ok (t, x) /\ sync_ok (with_sy x s) q cd W /\ sch x = sch (sy s) /\ tcbs x = tcbs (sy s) /\ t <> NULL /\
    exists st d T, tinfo (sch (sy s)) t = Some (st, d) /\ ASSERTTHREAD t x = Ok T /\ t_state T = st.
Proof.
  intros I (x & E & [[st d] Ht]). destruct (cpuState2thread_handles _ _ _ _ E) as (E1 & E2 & E3). exists x. split_and!; try done.
  - by apply (sync_ok_handles _ _ _ _ I).
  - by apply (nonnull_thread _ _ _ _ _ (sm_rep _ _ _ (so_mid _ _ _ (sk_sched _ _ _ _ I))) Ht).
  - destruct (tinfo_some _ _ _ _ Ht) as (T & ET & Hst & _). exists st, d, T. unfold ASSERTTHREAD, thr. by rewrite E1, ET.
Qed.

(** ** Every operation *)

Lemma not_in_a_list s q cd W t : sync_ok s q cd W -> (forall w, cont_of t s <> CBlocked (Some w)) -> forall a, t ∉ W a.
Proof. intros I Hc a Hin. destruct (sk_wait _ _ _ _ I a t Hin) as (_ & y & e & v & _ & E & _). by apply (Hc (a, e, v)). Qed.

Definition fine (r : res sys) : Prop := exists s' q' cd' W', r = Ok s' /\ sync_ok s' q' cd' W'.

Lemma unblock_ok s q cd W h t : sync_ok s q cd W -> names h t s -> h <> NULL -> (forall w, cont_of t s <> CBlocked (Some w)) ->
  fine (perform (OUnblock h) s).
Proof.
  intros I Hn Hh Hc. destruct (names_ok s q cd W h t I Hn) as (x & E & I' & Es & Et & Hnn & st & d & T & Ht & EA & HT).
  unfold perform, cpuManager_unblock. rewrite (proj2 (Z.eqb_neq h NULL) Hh), E. cbn [rbind]. rewrite (proj2 (Z.eqb_neq t NULL) Hnn), EA. cbn [rbind].
  rewrite HT. destruct (Z.eqb_spec st STATE_BLOCKEDUSER) as [->|Hst]; cbn [negb].
  - destruct (make_runnable_ok (with_sy x s) q cd W t STATE_BLOCKEDUSER d I') as (sch' & Eu & Hok); [cbn; by rewrite Es|done|by apply (not_in_a_list s q cd W)|].
    unfold on_sch. cbn [sy with_sy] in Eu. rewrite Eu. cbn [rbind]. by exists (with_sy (with_sch sch' x) s), (q_ready cd d t q), cd, W.
  - assert (exists c, tcbs x !! t = Some c) as [c Hc'] by (rewrite Et; apply (sk_tcbs _ _ _ _ I); by rewrite Ht).
    unfold get_tcb. rewrite Hc'. cbn [rbind]. exists (with_sy (set_flag t true x) s), q, cd, W. split; [done|].
    by apply (sync_ok_flag (with_sy x s) q cd W).
Qed.

Lemma start_ok s q cd W h t : sync_ok s q cd W -> names h t s -> fine (perform (OStart h) s).
Proof.
  intros I Hn. destruct (names_ok s q cd W h t I Hn) as (x & E & I' & Es & Et & Hnn & st & d & T & Ht & EA & HT).
  unfold perform, cpuManager_start. rewrite E. cbn [rbind]. rewrite EA. cbn [rbind]. rewrite HT.
  destruct (Z.eqb_spec st STATE_INIT) as [->|Hst]; cbn [negb rbind]; [|by exists (with_sy x s), q, cd, W].
  assert (Hx : tinfo (sch (sy (with_sy x s))) t = Some (STATE_INIT, d)) by (cbn; by rewrite Es).
  assert (Hnw : forall a, t ∉ W a).
  { intros a Hin. destruct (sk_wait _ _ _ _ I a t Hin) as [(d' & Hb)%state_of_tinfo _]. by rewrite Ht in Hb. }
  destruct (make_runnable_ok (with_sy x s) q cd W t STATE_INIT d I' Hx ltac:(done) Hnw) as (sch' & Eu & Hok).
  assert (Ecr : on_sch (Sched_created t SCHED_CREATETHREAD_DEFAULT) (with_sch (set_t_state t STATE_RUNNABLE (sch x)) x) = Ok (with_sch sch' x)).
  { unfold on_sch. cbn [sch with_sch]. unfold threadunblock in Eu. apply rbind_ok in Eu as (T' & _ & Eu). unfold Sched_unblocked in Eu.
    unfold Sched_created. change (SCHED_CREATETHREAD_DEFAULT =? SCHED_CREATETHREAD_DEFAULT) with true. cbv iota. cbn [sy with_sy] in Eu. by rewrite Eu. }
  rewrite Ecr. cbn [rbind]. by exists (with_sy (with_sch sch' x) s), (q_ready cd d t q), cd, W.
Qed.

Lemma wait_for_ok s q cd W h t st : sync_ok s q cd W -> names h t s -> fine (wait_for h st s).
Proof.
  intros I Hn. destruct (names_ok s q cd W h t I Hn) as (x & E & I' & Es & _ & _ & st' & d & T & Ht & EA & _).
  unfold wait_for. rewrite E. cbn [rbind]. rewrite EA. cbn [rbind]. eexists _, q, cd, W. split; [reflexivity|].
  replace (running s) with (running (with_sy x s)) by (unfold running, curthr_; cbn; by rewrite Es).
  apply sync_ok_cont; [done|done|]. intros u st'' [= <- <-]. cbn. by rewrite Es, Ht.
Qed.

Lemma block_plain_ok s q cd W : sync_ok s q cd W -> ~ idle s ->
  fine (blocking None (let! x := on_sch threadblock (sy s) in Ok (true, x)) s).
Proof.
  intros I Hi. destruct (sync_ok_block s q cd W I Hi None (sy s) W) as (sch' & q' & cd' & E & Hok); try done.
  - apply (sk_list _ _ _ _ I).
  - intros a y Hy. by exists y.
  - intros a t. split; [by left|]. intros [?|(_ & ? & ? & ?)]; done.
  - unfold blocking, on_sch. rewrite E. cbn [rbind]. by exists (set_cont (running s) (CBlocked None) (with_sy (with_sch sch' (sy s)) s)), q', cd', W.
Qed.

Lemma yield_ok s q cd W : sync_ok s q cd W -> exists sch' q' cd', threadyield (sch (sy s)) = Ok sch' /\
  sync_ok (with_sy (with_sch sch' (sy s)) s) q' cd' W.
Proof.
  intros I. destruct (threadyield_spec _ q cd (sk_sched _ _ _ _ I)) as (sch' & cd' & E & Hok & _ & Ht & _).
  exists sch', (snd (q_pick cd (q_yield (sch (sy s)) cd q))), cd'. split; [done|]. by eapply sync_ok_sched.
Qed.

Lemma with_sy_self s : with_sy (sy s) s = s.
Proof. by destruct s. Qed.

Lemma perform_fine s q cd W o : sync_ok s q cd W -> polite o s -> fine (perform o s).
Proof.
  intros I Hp. destruct o as [| |a v|a v h|a|a e v| | | |h|h|h|h]; cbn [polite] in Hp.
  - destruct (yield_ok s q cd W I) as (sch' & q' & cd' & E & Hok). unfold perform, cpuManager_yield, on_sch. rewrite E. cbn [rbind].
    by exists (with_sy (with_sch sch' (sy s)) s), q', cd', W.
  - destruct (Sched_reschedule_spec _ q cd (sk_sched _ _ _ _ I)) as (sch' & cd' & E & Hok & _ & Ht).
    unfold perform, on_sch, reschedule. rewrite E. cbn [rbind]. eexists _, _, cd', W. split; [reflexivity|]. by eapply sync_ok_sched.
  - done.
  - destruct Hp as (y & Hy & Hp). destruct (update_ok s q cd W a v h y I Hy Hp) as (x & E & Hok & _). unfold perform. rewrite E. cbn [rbind]. by eexists _, _, cd, _.
  - destruct Hp as (y & Hy & Hp). unfold perform, atomicvariable_activateListMode, get_avar. rewrite Hy. cbn [rbind].
    eexists _, q, cd, W. split; [reflexivity|]. by apply (list_mode_ok s q cd W a y).
  - destruct Hp as (Hi & y & Hy & Hp). unfold perform, blocking, atomicvariable_blockIfEqual, atomicvariable_blockIfNotEqual, get_avar.
    assert (Hb : holds e (av_value y) v -> fine (let! '(b, x) := (let! x := block_on a (sy s) in Ok (true, x)) in
      Ok (if (b : bool) then set_cont (running s) (CBlocked (Some (a, e, v))) (with_sy x s) else with_sy x s))).
    { intros Hh. destruct (block_on_ok s q cd W a e v y I Hi Hy Hh (Hp Hh)) as (x & q' & cd' & E & Hok). rewrite E. cbn [rbind].
      by exists (set_cont (running s) (CBlocked (Some (a, e, v))) (with_sy x s)), q', cd', (pushed a (running s) W). }
    assert (Hn : fine (Ok s)) by (by exists s, q, cd, W).
    destruct e; rewrite Hy; cbn [rbind]; unfold holds in Hb; destruct (av_value y =? v); cbn [negb rbind];
      first [by apply Hb|by rewrite with_sy_self].
  - by apply (block_plain_ok s q cd W).
  - destruct (sk_running_tcb _ _ _ _ I) as [c Hc]. unfold perform, cpuManager_blockIfNotUnblocked, get_tcb.
    change (curthr_ (sy s)) with (running s). rewrite Hc. cbn [rbind]. destruct (unblockedWithoutBeingBlocked c); cbn [negb].
    + unfold blocking. cbn [rbind]. rewrite with_sy_self. by exists s, q, cd, W.
    + by apply (block_plain_ok s q cd W).
  - destruct (sk_running_tcb _ _ _ _ I) as [c Hc]. unfold perform, cpuManager_clearUnblockFlag, get_tcb.
    change (curthr_ (sy s)) with (running s). rewrite Hc. cbn [rbind]. eexists _, q, cd, W. split; [reflexivity|]. by apply sync_ok_flag.
  - destruct Hp as (t & Hn & Hh & Hc). by apply (unblock_ok s q cd W h t).
  - destruct Hp as (t & Hn). by apply (start_ok s q cd W h t).
  - destruct Hp as (t & Hn). by apply (wait_for_ok s q cd W h t).
  - destruct Hp as (t & Hn). by apply (wait_for_ok s q cd W h t).
Qed.

(** a thread that ran into [Sched_block_resume] was already made runnable *)
Lemma resume_ok s q cd W : sync_ok s q cd W ->
  sync_ok (set_cont (running s) CNone (with_sy (with_sch (Sched_block_resume (sch (sy s))) (sy s)) s)) q cd W.
Proof.
  intros I. set (s1 := with_sy _ s). assert (I1 : sync_ok s1 q cd W); [|by apply (sync_ok_cont s1 q cd W I1)].
  pose proof (sk_run _ _ _ _ I) as Hrun. destruct (sk_sched _ _ _ _ I) as [Hm Hr Hout].
  assert (Ht : forall t, tinfo (Sched_block_resume (sch (sy s))) t = tinfo (sch (sy s)) t).
  { intros t. unfold Sched_block_resume. rewrite tinfo_set_t_state. destruct (Z.eqb_spec t (curthr (sch (sy s)))) as [->|]; [|done].
    unfold curthr. by rewrite Hr. }
  apply (sync_ok_sched s q cd W I); [|exact Ht]. split; [by apply sched_mid_set_state; [|left]| |done]. rewrite <- Hr. apply Ht.
Qed.

Lemma exec_fine s q cd W o : sync_ok s q cd W -> (cont_of (running s) s = CNone -> polite o s) -> fine (exec o s).
Proof.
  intros I Hp. unfold exec. destruct (cont_of (running s) s) as [|w|t st] eqn:Ec.
  - by apply (perform_fine s q cd W), Hp.
  - eexists _, q, cd, W. split; [reflexivity|]. by apply resume_ok.
  - destruct (sk_loop _ _ _ _ I _ _ _ Ec) as [[st' d] Ht]. destruct (tinfo_some _ _ _ _ Ht) as (T & ET & _ & _).
    unfold wait_step, thr. rewrite ET. cbn [rbind]. destruct (t_state T =? st); cbn [rbind].
    + eexists _, q, cd, W. split; [reflexivity|]. rewrite with_sy_self. by apply sync_ok_cont.
    + destruct (yield_ok s q cd W I) as (sch' & q' & cd' & E & Hok). unfold on_sch. rewrite E. cbn [rbind].
      by exists (with_sy (with_sch sch' (sy s)) s), q', cd', W.
Qed.

(** ** Runs *)

(** any interleaving of polite operations of the running threads *)
Inductive reachable (s0 : sys) : sys -> Prop :=
| re_here : reachable s0 s0
| re_step s s' o : reachable s0 s -> (cont_of (running s) s = CNone -> polite o s) -> exec o s = Ok s' -> reachable s0 s'.

(** C20 No wake-up is lost.  Threads synchronise through atomic variables and
    the CPU manager, under the rules of [polite]: values change with
    [atomicUpdateUnblock]; nobody is woken behind the back of a variable; a
    variable outside list mode, the default, has one waiter at a time, whom
    the update names; list mode starts while nobody waits.  In every
    interleaving of such operations each of them succeeds: no check of the
    debug kernel fires and no walk along a list fails to end.  A thread that
    is blocked on a variable is the one it names or, in list mode, in its
    list, exactly once; the condition it waits under still holds; and the next
    update makes it runnable.  The rule on the default mode is needed: a
    second thread whose condition holds stops the system at an assertion. *)
Theorem no_wakeup_lost s0 q0 cd0 W0 s : sync_ok s0 q0 cd0 W0 -> reachable s0 s ->
  exists q cd W, sync_ok s q cd W /\
    (forall o, (cont_of (running s) s = CNone -> polite o s) -> is_ok (exec o s) = true) /\
    (forall t a e v, blocked s t -> cont_of t s = CBlocked (Some (a, e, v)) ->
      t ∈ W a /\ (exists y, avars (sy s) !! a = Some y /\ listed (next_of (sy s)) y (W a) /\ holds e (av_value y) v) /\
      forall v' h, cont_of (running s) s = CNone -> polite (OUpdate a v' h) s ->
        exists s' y, exec (OUpdate a v' h) s = Ok s' /\ state_of s' t = Some STATE_RUNNABLE /\
          avars (sy s') !! a = Some y /\ av_value y = v' /\ av_blockedThread y = NULL) /\
    forall a e v y, cont_of (running s) s = CNone -> avars (sy s) !! a = Some y -> holds e (av_value y) v ->
      av_listMode y <> 1 -> av_blockedThread y <> NULL ->
      exec (OBlockIf a e v) s = Err (EAssert "self->blockedThread == NULL || self->blockedThread == thread").
Proof.
  intros I0 HR. assert (exists q cd W, sync_ok s q cd W) as (q & cd & W & I).
  { induction HR as [|s s' o _ IH Hp E]; [by exists q0, cd0, W0|]. destruct IH as (q & cd & W & I).
    destruct (exec_fine s q cd W o I Hp) as (s2 & q' & cd' & W' & E' & I'). rewrite E in E'. injection E' as <-. by exists q', cd', W'. }
  exists q, cd, W. split; [done|]. split_and!.
  - intros o Hp. by destruct (exec_fine s q cd W o I Hp) as (s2 & ? & ? & ? & -> & _).
  - intros t a e v Hb Hc. pose proof (sk_listed _ _ _ _ I a e v t Hc Hb) as Hin. split; [done|]. split.
    + destruct (sk_wait _ _ _ _ I a t Hin) as (_ & y & e' & v' & Hy & Hc' & Hh). rewrite Hc in Hc'. injection Hc' as <- <-.
      exists y. by split; [|split; [apply (sk_list _ _ _ _ I)|]].
    + intros v' h Hn (y & Hy & Hp). destruct (update_ok s q cd W a v' h y I Hy Hp) as (x & E & _ & Ha & _ & Hst).
      exists (with_sy x s). eexists. unfold exec. rewrite Hn. unfold perform. rewrite E. cbn [rbind]. by split_and!; [|apply Hst|exact Ha|..].
  - intros a e v y Hn Hy Hh Hm Hnn. unfold exec. rewrite Hn. unfold perform, blocking, atomicvariable_blockIfEqual, atomicvariable_blockIfNotEqual, get_avar.
    assert (Hne : av_blockedThread y <> curthr_ (sy s)).
    { intros E. apply (sk_not_waiting _ _ _ _ I a). destruct (sk_list _ _ _ _ I a y Hy) as [_ Hl].
      rewrite (proj2 (Z.eqb_neq _ 1) Hm), (proj2 (Z.eqb_neq _ NULL) Hnn) in Hl. rewrite Hl, E. apply list_elem_of_here. }
    unfold holds in Hh. destruct e; rewrite Hy; cbn [rbind]; rewrite <- Hh; cbn [negb]; by rewrite (block_on_second _ _ y).
Qed.

(** [atomicUpdateUnblock] is a broadcast: it stores the value, makes every
    thread that is blocked on the variable runnable, behind the other runnable
    threads of its domain and in the order of the list, leaves the list empty
    and the lists of other variables as they are, and the caller goes on. *)
Theorem update_wakes_all s q cd W a v h : sync_ok s q cd W -> cont_of (running s) s = CNone -> polite (OUpdate a v h) s ->
  exists s', exec (OUpdate a v h) s = Ok s' /\ sync_ok s' (wake (sch (sy s)) cd (W a) q) cd (emptied a W) /\
    running s' = running s /\ (exists y, avars (sy s') !! a = Some y /\ av_value y = v) /\
    forall t e test, blocked s t -> cont_of t s = CBlocked (Some (a, e, test)) ->
      state_of s' t = Some STATE_RUNNABLE /\ queued (wake (sch (sy s)) cd (W a) q) t.
Proof.
  intros I Hc (y & Hy & Hp). destruct (update_ok s q cd W a v h y I Hy Hp) as (x & E & Hok & Hv & Hcur & Hst).
  exists (with_sy x s). unfold exec. rewrite Hc. unfold perform. rewrite E. cbn [rbind]. split_and!; try done.
  - by exists (MkAvar v NULL (av_listMode y)).
  - intros t e test Hb Hct. pose proof (sk_listed _ _ _ _ I a e test t Hct Hb) as Hin. split; [by apply Hst|].
    apply wake_queued. by right.
Qed.

(** ** What breaks it *)

Lemma self_list_spins t : forall fuel x, t <> NULL -> next_of x t = Some t -> forall r, unblock_list fuel t x <> Ok r.
Proof.
  induction fuel as [|n IH]; intros x Hnn Hx r; cbn [unblock_list]; [done|]. rewrite (proj2 (Z.eqb_neq t NULL) Hnn).
  unfold on_sch. destruct (threadunblock t (sch x)) as [s1|e]; [|done]. cbn [rbind]. unfold next_of in Hx.
  unfold get_tcb. cbn [tcbs with_sch]. destruct (tcbs x !! t) as [c|] eqn:Ec; [|done]. cbn [rbind]. injection Hx as Hx. rewrite Hx. apply IH; [done|].
  unfold next_of. cbn. rewrite Ec. cbn. by rewrite Hx.
Qed.

(** the running thread is the first of the list of the variable *)
Definition still_listed (a : Z) (x : sync) : Prop :=
  exists y, avars x !! a = Some y /\ av_listMode y = 1 /\ av_blockedThread y = curthr_ x /\ curthr_ x <> NULL.

(** A waiter that something else than the variable made runnable
    ([CPUManager.unblock]) stays in the list.  When it blocks on the variable
    again while it is still the first of the list, it becomes its own
    successor, and from then on [atomicUpdateUnblock] never returns (with
    interrupts disabled), however far the scheduler has moved on. *)
Theorem relisted_waiter_spins x a x' : still_listed a x -> block_on a x = Ok x' ->
  forall x2 fuel v h r, tcbs x2 = tcbs x' -> avars x2 = avars x' -> atomicvariable_atomicUpdateUnblock fuel a v h x2 <> Ok r.
Proof.
  intros (y & Hy & Hm & Hb & Hnn) E x2 fuel v h r Et Ea. unfold block_on, get_avar in E. rewrite Hy in E. cbn [rbind] in E.
  rewrite Hm in E. cbn [Z.eqb Pos.eqb] in E. unfold get_tcb in E. destruct (tcbs x !! curthr_ x) as [c|] eqn:Ec; [|done]. cbn [rbind] in E.
  unfold on_sch in E. apply rbind_ok in E as (s1 & _ & [= <-]). cbn in Et, Ea.
  unfold atomicvariable_atomicUpdateUnblock, get_avar. rewrite Ea, lookup_alter_eq, Hy. cbn [rbind].
  cbn [set_value upd_avar avars]. rewrite Ea, lookup_alter_eq, lookup_alter_eq, Hy. cbn [rbind fmap option_fmap option_map av_listMode av_blockedThread]. rewrite Hm. cbn [Z.eqb Pos.eqb].
  destruct (unblock_list fuel (curthr_ x) (set_value a v x2)) as [x3|e] eqn:E3; [|done]. exfalso. revert E3.
  apply self_list_spins; [done|]. unfold next_of. cbn. rewrite Et, lookup_alter_eq, Ec. cbn. by rewrite Hb.
Qed.

(** ** A variable in list mode with one waiter and one in the default mode *)

Definition demo_sys : sys :=
  MkSys (MkSync demo (list_to_map ((fun t => (t, MkTcb 0 false t 0)) <$> [1; 2; 3; 4; 5; 6]))
    {[ 50 := MkAvar 7 6 1; 60 := MkAvar 3 0 0 ]} {[ 9000 := FOREIGN_CPUSTATE 100 1 2 2 0 ]} {[ 100 := MkDomInfo 1 0 0 ]})
    {[ 6 := CBlocked (Some (50, true, 7)) ]}.
Definition demo_W (a : Z) : list Z := if a =? 50 then [6] else [].
Fixpoint run (l : list op) (s : sys) : res sys :=
  match l with [] => Ok s | o :: l => let! s := exec o s in run l s end.

Lemma demo_blocked t : blocked demo_sys t <-> t = 6.
Proof.
  split; [|intros ->; by vm_compute]. intros (d & (T & ET & Hst & _)%tinfo_some)%state_of_tinfo.
  assert (HP : forall t T, threads demo !! t = Some T -> t_state T = STATE_BLOCKEDUSER -> t = 6).
  { apply (map_to_list_cases _ (fun t T => t_state T = STATE_BLOCKEDUSER -> t = 6)).
    let l := eval vm_compute in (map_to_list (threads demo)) in change (map_to_list (threads demo)) with l.
    repeat constructor; cbn; done. }
  by apply (HP t T).
Qed.
Lemma demo_cont t w : cont_of t demo_sys = w -> t = 6 \/ w = CNone.
Proof. unfold cont_of, demo_sys. cbn. destruct (decide (t = 6)) as [->|]; [by left|]. rewrite lookup_singleton_ne by done. intros <-. by right. Qed.

Lemma demo_sync_ok : sync_ok demo_sys demo_q 100 demo_W.
Proof.
  split.
  - apply demo_ok.
  - assert (Hd : dom (tcbs (sy demo_sys)) = dom (threads demo)) by (apply (bool_decide_unpack _); by vm_compute).
    intros t. rewrite <- elem_of_dom, Hd, elem_of_dom. unfold tinfo. cbn. by rewrite fmap_is_Some.
  - intros a x Hx. cbn in Hx. apply lookup_insert_Some in Hx as [[<- <-]|[_ [<- <-]%lookup_singleton_Some]]; (split; [apply (bool_decide_unpack _); by vm_compute|]); [|done].
    cbn. split_and!; try done. by exists 0.
  - intros a t. unfold demo_W. destruct (Z.eqb_spec a 50) as [->|]; [|by intros ?%not_elem_of_nil]. intros ->%list_elem_of_singleton.
    split; [by apply demo_blocked|]. by exists (MkAvar 7 6 1), true, 7.
  - intros a e v t Hc Hb%demo_blocked. subst t. injection Hc as <- <- <-. apply list_elem_of_here.
  - intros t ->%demo_blocked. by exists (Some (50, true, 7)).
  - intros t u st Hc. destruct (demo_cont t _ Hc) as [->|]; done.
Qed.

(** thread 2 waits for the variable in the default mode; thread 3 runs *)
Definition demo_two : sys := match exec (OBlockIf 60 true 3) demo_sys with Ok s => s | Err _ => demo_sys end.
Lemma demo_two_reached : exec (OBlockIf 60 true 3) demo_sys = Ok demo_two.
Proof. unfold demo_two. assert (H : is_ok (exec (OBlockIf 60 true 3) demo_sys) = true) by (by vm_compute). by destruct (exec _ _). Qed.
Lemma demo_two_reachable : reachable demo_sys demo_two.
Proof.
  apply (re_step _ demo_sys _ (OBlockIf 60 true 3)); [constructor| |exact demo_two_reached].
  intros _. split; [intros H; by vm_compute in H|]. exists (MkAvar 3 0 0). split; [done|]. by right.
Qed.
Example demo_two_waits : cont_of (running demo_two) demo_two = CNone /\ avars (sy demo_two) !! 60 = Some (MkAvar 3 2 0) /\
  state_of demo_two 2 = Some STATE_BLOCKEDUSER /\ cont_of 2 demo_two = CBlocked (Some (60, true, 3)) /\
  avars (sy demo_two) !! 50 = Some (MkAvar 7 6 1).
Proof. by vm_compute. Qed.

(** the variable names thread 2; joining it there is fatal, joining thread 6 in
    the list is not, and an update wakes thread 6 *)
Lemma no_wakeup_lost_witness :
  (exists y, avars (sy demo_two) !! 60 = Some y /\ listed (next_of (sy demo_two)) y [2]) /\
  exec (OBlockIf 60 true 3) demo_two = Err (EAssert "self->blockedThread == NULL || self->blockedThread == thread") /\
  is_ok (exec (OBlockIf 50 true 7) demo_two) = true /\
  exists s', exec (OUpdate 50 8 0) demo_two = Ok s' /\ state_of s' 6 = Some STATE_RUNNABLE.
Proof.
  destruct demo_two_waits as (Hn & Hy & Hb & Hc & Hy5).
  destruct (no_wakeup_lost demo_sys demo_q 100 demo_W demo_two demo_sync_ok demo_two_reachable) as (q & cd & W & I & Hop & Hw & Hs).
  split_and!.
  - destruct (Hw 2 60 true 3 Hb Hc) as (_ & (y & Hy' & Hl & _) & _). exists y. split; [done|].
    rewrite Hy in Hy'. injection Hy' as <-. destruct Hl as [_ Hl]. split; [apply (bool_decide_unpack _); by vm_compute|done].
  - exact (Hs 60 true 3 _ Hn Hy eq_refl ltac:(discriminate) ltac:(discriminate)).
  - apply Hop. intros _. split; [intros H; by vm_compute in H|]. exists (MkAvar 7 6 1). split; [exact Hy5|]. by left.
  - destruct (Hw 6 50 true 7) as (_ & _ & Hu); [by vm_compute|by vm_compute|].
    destruct (Hu 8 0 Hn) as (s' & y & E & Hst & _); [|by exists s'].
    exists (MkAvar 7 6 1). split; [exact Hy5|]. by left.
Defined.

Lemma update_wakes_all_witness :
  exists s', exec (OUpdate 50 8 0) demo_sys = Ok s' /\ sync_ok s' (wake demo 100 [6] demo_q) 100 (emptied 50 demo_W) /\
    running s' = 2 /\ (exists y, avars (sy s') !! 50 = Some y /\ av_value y = 8) /\
    forall t e test, blocked demo_sys t -> cont_of t demo_sys = CBlocked (Some (50, e, test)) ->
      state_of s' t = Some STATE_RUNNABLE /\ queued (wake demo 100 [6] demo_q) t.
Proof. apply (update_wakes_all demo_sys demo_q 100 demo_W 50 8 0 demo_sync_ok); [by vm_compute|]. exists (MkAvar 7 6 1). split; [done|]. by left. Defined.

(** thread 2 blocks, thread 3 unblocks it directly, and it runs again *)
Definition demo_behind : list op := [OBlockIf 50 true 7; OUnblock 9000; OYield; OYield; OYield].
Definition demo_relisted : sync := match run demo_behind demo_sys with Ok s => sy s | Err _ => sy demo_sys end.
Example demo_relisted_head : curthr_ demo_relisted = 2 /\ avars demo_relisted !! 50 = Some (MkAvar 7 2 1).
Proof. by vm_compute. Qed.

Definition demo_stuck : sync := match block_on 50 demo_relisted with Ok x => x | Err _ => demo_relisted end.
Lemma relisted_waiter_spins_witness : still_listed 50 demo_relisted /\
  forall fuel v h r, atomicvariable_atomicUpdateUnblock fuel 50 v h demo_stuck <> Ok r.
Proof.
  assert (E : block_on 50 demo_relisted = Ok demo_stuck).
  { unfold demo_stuck. assert (H : is_ok (block_on 50 demo_relisted) = true) by (by vm_compute). by destruct (block_on 50 demo_relisted). }
  assert (HL : still_listed 50 demo_relisted).
  { destruct demo_relisted_head as [Hc Hy].
    exists (MkAvar 7 2 1). split; [exact Hy|]. split; [reflexivity|]. split; [exact (eq_sym Hc)|]. intros H. pose proof (eq_trans (eq_sym Hc) H). discriminate. }
  split; [exact HL|]. intros fuel v h r.
  apply (relisted_waiter_spins demo_relisted 50 demo_stuck); [exact HL|exact E|reflexivity|reflexivity].
Defined.
