(* ===== verification/Portal.v ===== *)
(** * Portal calls (core/portal.c)

    A service is a [DEPDesc] with a queue of waiting senders and one receiver
    thread.  [direct_send_portal] queues the calling thread and hands over to
    the receiver; [receive_portalcall] takes the first sender, copies its
    parameters, runs the method and hands the result back.  A function that
    gives up the CPU is cut there: its second half runs when its thread is
    current again, and [pc] records which second half that is. *)

From S2P Require Import Prelude RunQueue.
#[local] Open Scope Z_scope.

Definition MAX_SERVICES : Z := 1500.
Definition RECEIVE_PORTAL_QUOTA : Z := 100000.
Definition SERVICE_ENTRY_FREE : Z := 0.
Definition SERVICE_ENTRY_CHANGING : Z := 0xffffffff.
Definition DOMAIN_STATE_ACTIVE : Z := 2.
Definition STATE_PORTAL_WAIT_FOR_PARAMCOPY : Z := 13.
Definition STATE_PORTAL_WAIT_FOR_RETCOPY : Z := 14.
Definition PORTAL_RETURN_TYPE_NUMERIC : Z := 0.
Definition PORTAL_RETURN_TYPE_REFERENCE : Z := 1.
Definition PORTAL_RETURN_TYPE_EXCEPTION : Z := 3.
Definition RESTART : Z := 0xffffffff.

(** ** State *)

Record service := MkService {
  svc_domain : Z;
  svc_obj : Z;
  svc_index : Z;
  svc_valid : bool;
  svc_refcount : Z;
  svc_abort : bool;
  firstWaitingSender : Z;
  lastWaitingSender : Z;
  svc_receiver : Z;
}.

(** where a thread continues when it is switched to *)
Inductive pc :=
| PUser                        (** Java code, perhaps the method of a service *)
| PSendBlocked (dom idx : Z)   (** [direct_send_portal], after [SCHED_BLOCK_PORTAL_WAIT_FOR_RCV] *)
| PSendHandoff                 (** [direct_send_portal], after [Sched_portal_handoff_to_receiver] *)
| PRecvBlocked (idx : Z)       (** [receive_portalcall], after [SCHED_BLOCK_PORTAL_WAIT_FOR_SND] *)
| PRecvLoop (idx : Z).         (** [receive_portalcall], at the head of the receive loop *)

(** the portal fields of [ThreadDesc]; [depParams = []] stands for [NULL] *)
Record pthread := MkPThread {
  p_pc : pc;
  nextInDEPQueue : Z;
  depParams : list Z;
  depMethodIndex : Z;
  processingDEP : Z;
  mostRecentlyCalledBy : Z;
  blockedInDomain : Z;
  blockedInDomainID : Z;
  blockedInServiceIndex : Z;
  blockedInServiceThread : Z;
  callerDomain : Z;
  callerDomainID : Z;
  myparams : list Z;
  portalReturn : Z;
  portalReturnType : Z;
  portalParameter : Z;
}.

Record pdomain := MkPDomain {
  pd_id : Z;
  pd_state : Z;
  services_of : list Z;
}.

Record proxy := MkProxy {
  targetDomain : Z;
  targetDomainID : Z;
  px_index : Z;
}.

(** a method of a service object, from [methodVtable]; [keeps_return]: it is
    one of the three whose result is already in the heap of the caller *)
Record method := MkMethod {
  numberOfArgs : Z;
  argTypeMap : list bool;
  returnType : Z;
  keeps_return : bool;
}.

(** What portal calls need of the heaps [X]: the methods of an object, and
    the copying of an object graph from one domain to another, which returns
    [RESTART] when a collection interrupted it. *)
Class Copying (X : Type) := {
  method_of : Z -> Z -> X -> option method;
  copy_reference : Z -> Z -> Z -> Z -> X -> res (Z * Z * X);
}.

Section Portal.
Context {X : Type} `{!Copying X}.

Record sys := MkSys {
  sch : sched;
  pthreads : gmap Z pthread;
  svcs : gmap Z service;
  pdoms : gmap Z pdomain;
  domainZero : Z;
  heaps : X;
}.

(** ** Access to the store *)

Definition pthr (s : sys) (t : Z) : res pthread :=
  match pthreads s !! t with Some x => Ok x | None => Err EFault end.
Definition svc_ (s : sys) (v : Z) : res service :=
  match svcs s !! v with Some x => Ok x | None => Err EFault end.
Definition pdom (s : sys) (d : Z) : res pdomain :=
  match pdoms s !! d with Some x => Ok x | None => Err EFault end.

Definition set_sch (c : sched) (s : sys) : sys := MkSys c (pthreads s) (svcs s) (pdoms s) (domainZero s) (heaps s).
Definition set_heaps (x : X) (s : sys) : sys := MkSys (sch s) (pthreads s) (svcs s) (pdoms s) (domainZero s) x.
Definition upd_pthr (t : Z) (f : pthread -> pthread) (s : sys) : sys :=
  MkSys (sch s) (alter f t (pthreads s)) (svcs s) (pdoms s) (domainZero s) (heaps s).
Definition upd_svc (v : Z) (f : service -> service) (s : sys) : sys :=
  MkSys (sch s) (pthreads s) (alter f v (svcs s)) (pdoms s) (domainZero s) (heaps s).
Definition upd_pdom (d : Z) (f : pdomain -> pdomain) (s : sys) : sys :=
  MkSys (sch s) (pthreads s) (svcs s) (alter f d (pdoms s)) (domainZero s) (heaps s).

(** run an operation of the scheduler *)
Definition lift (f : sched -> res sched) (s : sys) : res sys := let! c := f (sch s) in Ok (set_sch c s).
Definition set_state (t v : Z) (s : sys) : sys := set_sch (set_t_state t v (sch s)) s.
Definition cur (s : sys) : Z := curthr (sch s).

Definition set_pc (v : pc) (p : pthread) : pthread :=
  MkPThread v (nextInDEPQueue p) (depParams p) (depMethodIndex p) (processingDEP p) (mostRecentlyCalledBy p)
    (blockedInDomain p) (blockedInDomainID p) (blockedInServiceIndex p) (blockedInServiceThread p)
    (callerDomain p) (callerDomainID p) (myparams p) (portalReturn p) (portalReturnType p) (portalParameter p).
Definition set_nextInDEPQueue (v : Z) (p : pthread) : pthread :=
  MkPThread (p_pc p) v (depParams p) (depMethodIndex p) (processingDEP p) (mostRecentlyCalledBy p)
    (blockedInDomain p) (blockedInDomainID p) (blockedInServiceIndex p) (blockedInServiceThread p)
    (callerDomain p) (callerDomainID p) (myparams p) (portalReturn p) (portalReturnType p) (portalParameter p).
Definition set_dep (params : list Z) (method : Z) (p : pthread) : pthread :=
  MkPThread (p_pc p) (nextInDEPQueue p) params method (processingDEP p) (mostRecentlyCalledBy p)
    (blockedInDomain p) (blockedInDomainID p) (blockedInServiceIndex p) (blockedInServiceThread p)
    (callerDomain p) (callerDomainID p) (myparams p) (portalReturn p) (portalReturnType p) (portalParameter p).
Definition set_processing (svc source : Z) (p : pthread) : pthread :=
  MkPThread (p_pc p) (nextInDEPQueue p) (depParams p) (depMethodIndex p) svc source
    (blockedInDomain p) (blockedInDomainID p) (blockedInServiceIndex p) (blockedInServiceThread p)
    (callerDomain p) (callerDomainID p) (myparams p) (portalReturn p) (portalReturnType p) (portalParameter p).
Definition set_blocked (dom id idx thread : Z) (p : pthread) : pthread :=
  MkPThread (p_pc p) (nextInDEPQueue p) (depParams p) (depMethodIndex p) (processingDEP p) (mostRecentlyCalledBy p)
    dom id idx thread (callerDomain p) (callerDomainID p) (myparams p) (portalReturn p) (portalReturnType p) (portalParameter p).
Definition set_caller (dom id : Z) (p : pthread) : pthread :=
  MkPThread (p_pc p) (nextInDEPQueue p) (depParams p) (depMethodIndex p) (processingDEP p) (mostRecentlyCalledBy p)
    (blockedInDomain p) (blockedInDomainID p) (blockedInServiceIndex p) (blockedInServiceThread p)
    dom id (myparams p) (portalReturn p) (portalReturnType p) (portalParameter p).
Definition set_myparams (l : list Z) (p : pthread) : pthread :=
  MkPThread (p_pc p) (nextInDEPQueue p) (depParams p) (depMethodIndex p) (processingDEP p) (mostRecentlyCalledBy p)
    (blockedInDomain p) (blockedInDomainID p) (blockedInServiceIndex p) (blockedInServiceThread p)
    (callerDomain p) (callerDomainID p) l (portalReturn p) (portalReturnType p) (portalParameter p).
Definition set_return (v type : Z) (p : pthread) : pthread :=
  MkPThread (p_pc p) (nextInDEPQueue p) (depParams p) (depMethodIndex p) (processingDEP p) (mostRecentlyCalledBy p)
    (blockedInDomain p) (blockedInDomainID p) (blockedInServiceIndex p) (blockedInServiceThread p)
    (callerDomain p) (callerDomainID p) (myparams p) v type (portalParameter p).
Definition set_portalParameter (v : Z) (p : pthread) : pthread :=
  MkPThread (p_pc p) (nextInDEPQueue p) (depParams p) (depMethodIndex p) (processingDEP p) (mostRecentlyCalledBy p)
    (blockedInDomain p) (blockedInDomainID p) (blockedInServiceIndex p) (blockedInServiceThread p)
    (callerDomain p) (callerDomainID p) (myparams p) (portalReturn p) (portalReturnType p) v.

Definition set_first (v : Z) (x : service) : service :=
  MkService (svc_domain x) (svc_obj x) (svc_index x) (svc_valid x) (svc_refcount x) (svc_abort x) v (lastWaitingSender x) (svc_receiver x).
Definition set_last (v : Z) (x : service) : service :=
  MkService (svc_domain x) (svc_obj x) (svc_index x) (svc_valid x) (svc_refcount x) (svc_abort x) (firstWaitingSender x) v (svc_receiver x).
Definition set_receiver (v : Z) (x : service) : service :=
  MkService (svc_domain x) (svc_obj x) (svc_index x) (svc_valid x) (svc_refcount x) (svc_abort x) (firstWaitingSender x) (lastWaitingSender x) v.
Definition set_abort (v : bool) (x : service) : service :=
  MkService (svc_domain x) (svc_obj x) (svc_index x) (svc_valid x) (svc_refcount x) v (firstWaitingSender x) (lastWaitingSender x) (svc_receiver x).
Definition set_svc_refcount (v : Z) (x : service) : service :=
  MkService (svc_domain x) (svc_obj x) (svc_index x) (svc_valid x) v (svc_abort x) (firstWaitingSender x) (lastWaitingSender x) (svc_receiver x).

Definition q_fuel (s : sys) : nat := S (size (pthreads s)).

(** ** The queue of waiting senders *)

(** inner loop of [check_servicequeue]: [p] walks behind [t]; [i] counts *)
Fixpoint check_behind (fuel : nat) (t p i : Z) (s : sys) : res Z :=
  match fuel with
  | O => Err EFuel
  | S n =>
      if p =? NULL then Ok i
      else if p =? t then Err (EPanic "Thread %p multiple times in depqueue %p")
      else if i + 1 =? 1000000 then Err (EPanic "endless loop in portal waitqueue domain %d service %s (waiting domain=%d)")
      else let! x := pthr s p in check_behind n t (nextInDEPQueue x) (i + 1) s
  end.
Fixpoint check_from (fuel : nat) (p i : Z) (s : sys) : res unit :=
  match fuel with
  | O => Err EFuel
  | S n =>
      if p =? NULL then Ok tt else
      let! x := pthr s p in
      let! i := check_behind (q_fuel s) p (nextInDEPQueue x) i s in
      check_from n (nextInDEPQueue x) i s
  end.
Definition check_servicequeue (dep : Z) (s : sys) : res unit :=
  let! d := svc_ s dep in check_from (q_fuel s) (firstWaitingSender d) 0 s.

Fixpoint notin_loop (fuel : nat) (thread p : Z) (s : sys) : res unit :=
  match fuel with
  | O => Err EFuel
  | S n =>
      if p =? NULL then Ok tt
      else if p =? thread then Err (EPanic "Thread %p already in depqueue %p")
      else let! x := pthr s p in notin_loop n thread (nextInDEPQueue x) s
  end.
Definition check_notin_servicequeue (dep thread : Z) (s : sys) : res unit :=
  let! d := svc_ s dep in notin_loop (q_fuel s) thread (firstWaitingSender d) s.

Definition portal_set_recv (dep thread : Z) (s : sys) : res sys :=
  let! _ := assert_ "thread != NULL" (negb (thread =? NULL)) in
  let! _ := assert_ "dep != NULL" (negb (dep =? NULL)) in
  let! _ := svc_ s dep in
  Ok (upd_svc dep (set_receiver thread) s).

Definition portal_add_sender (dep thread : Z) (s : sys) : res sys :=
  let! _ := assert_ "thread != NULL" (negb (thread =? NULL)) in
  let! _ := assert_ "dep != NULL" (negb (dep =? NULL)) in
  let! _ := check_servicequeue dep s in
  let! _ := check_notin_servicequeue dep thread s in
  let! _ := pthr s thread in
  let s := upd_pthr thread (set_nextInDEPQueue NULL) s in
  let! d := svc_ s dep in
  let! s := (if lastWaitingSender d =? NULL then Ok (upd_svc dep (set_last thread) (upd_svc dep (set_first thread) s))
             else let! _ := pthr s (lastWaitingSender d) in
                  Ok (upd_svc dep (set_last thread) (upd_pthr (lastWaitingSender d) (set_nextInDEPQueue thread) s))) in
  let! _ := check_servicequeue dep s in
  Ok s.

Definition portal_dequeue_sender (dep : Z) (s : sys) : res (Z * sys) :=
  let! d := svc_ s dep in
  let ret := firstWaitingSender d in
  if ret =? NULL then Ok (NULL, s) else
  let! x := pthr s ret in
  let s := upd_svc dep (set_first (nextInDEPQueue x)) s in
  let s := if nextInDEPQueue x =? NULL then upd_svc dep (set_last NULL) s else s in
  Ok (ret, upd_pthr ret (set_nextInDEPQueue NULL) s).

(** [prev = NULL]: the pointer under inspection is [dep->firstWaitingSender] *)
Fixpoint remove_loop (fuel : nat) (dep sender prev p : Z) (s : sys) : res sys :=
  match fuel with
  | O => Err EFuel
  | S n =>
      if p =? NULL then Err (EPanic "SENDER NOT IN QUEUE")
      else let! x := pthr s p in
        if p =? sender then
          Ok (if prev =? NULL then upd_svc dep (set_first (nextInDEPQueue x)) s
              else upd_pthr prev (set_nextInDEPQueue (nextInDEPQueue x)) s)
        else remove_loop n dep sender p (nextInDEPQueue x) s
  end.
Definition portal_remove_sender (dep sender : Z) (s : sys) : res sys :=
  let! d := svc_ s dep in remove_loop (q_fuel s) dep sender NULL (firstWaitingSender d) s.

Definition portal_abort_current_call (dep : Z) (s : sys) : res sys :=
  let! _ := svc_ s dep in Ok (upd_svc dep (set_abort true) s).

(** ** Services *)

(** [domain->services[index]] for an index that names a live descriptor *)
Definition GETSVC (d idx : Z) (s : sys) : res Z :=
  let! x := pdom s d in
  match services_of x !! Z.to_nat idx with
  | Some v => let! _ := svc_ s v in Ok v
  | None => Err EFault
  end.

Fixpoint first_free (l : list Z) (i : Z) : option Z :=
  match l with
  | [] => None
  | v :: l => if v =? SERVICE_ENTRY_FREE then Some i else first_free l (i + 1)
  end.
Definition set_entry (d idx v : Z) : sys -> sys :=
  upd_pdom d (fun x => MkPDomain (pd_id x) (pd_state x) (<[Z.to_nat idx := v]> (services_of x))).

(** [alloc]: [allocServiceDescInDomain], which gives a cleared descriptor; a
    collection it starts is part of [heaps] *)
Definition createService (alloc : Z -> sys -> res (Z * sys)) (d obj : Z) (s : sys) : res (Z * sys) :=
  let! x := pdom s d in
  match first_free (services_of x) 0 with
  | None => Err (EPanic "domain can not create more services")
  | Some index =>
      let s := set_entry d index SERVICE_ENTRY_CHANGING s in
      let! '(dep, s) := alloc d s in
      let s := MkSys (sch s) (pthreads s) (<[dep := MkService d obj index true 0 false NULL NULL NULL]> (svcs s))
                 (pdoms s) (domainZero s) (heaps s) in
      Ok (index, set_entry d index dep s)
  end.

Definition service_incRefcount (p : Z) (s : sys) : res sys :=
  let! v := svc_ s p in Ok (upd_svc p (set_svc_refcount (u32 (svc_refcount v + 1))) s).

(** [terminateThread]: ends the receiver; [finalizer]: the class of the object
    has a [serviceFinalizer], which a new thread then runs ([notify]) *)
Definition service_decRefcount (terminateThread : Z -> sys -> res sys) (finalizer : Z -> sys -> bool)
    (notify : Z -> Z -> sys -> res sys) (d index : Z) (s : sys) : res sys :=
  let! x := pdom s d in
  match services_of x !! Z.to_nat index with
  | None => Err EFault
  | Some p =>
      let! v := svc_ s p in
      let n := u32 (svc_refcount v - 1) in
      let s := upd_svc p (set_svc_refcount n) s in
      let! s := (if n =? 1 then
                   let s := upd_svc p (set_svc_refcount 0) s in
                   let! s := terminateThread (svc_receiver v) s in
                   Ok (set_entry d index SERVICE_ENTRY_FREE s)
                 else Ok s) in
      if finalizer (svc_obj v) s then notify d (svc_obj v) s else Ok s
  end.

(** ** direct_send_portal *)

(** [LocalCall]: the method runs at once on the stack of the caller *)
Inductive sent := LocalCall (obj method : Z) (params : list Z) | Switched | Raised (exn : Z).

(** the label [finished]: what the caller sees *)
Inductive outcome := Returned (v : Z) | Thrown (exn : Z).
Definition send_finished (s : sys) : res (outcome * sys) :=
  let c := cur s in
  let! x := pthr s c in
  let s := upd_pthr c (fun x => set_dep [] (depMethodIndex x) (set_blocked NULL (blockedInDomainID x) 0 NULL x)) s in
  if portalReturnType x =? PORTAL_RETURN_TYPE_EXCEPTION then Ok (Thrown (portalReturn x), s)
  else Ok (Returned (portalReturn x), upd_pthr c (fun x => set_return (portalReturn x) 0 x) s).

Definition send_refused (s : sys) : res (sent * sys) :=
  let! _ := pthr s (cur s) in
  let s := upd_pthr (cur s) (fun x => set_return (portalReturn x) PORTAL_RETURN_TYPE_EXCEPTION x) s in
  let! '(o, s) := send_finished s in
  match o with Thrown e => Ok (Raised e, s) | Returned v => Ok (Raised v, s) end.

(** [params]: the words at [paramlist], the proxy first *)

(** the short circuit inside one domain *)
Definition send_local (td : pdomain) (px : proxy) (params : list Z) (methodIndex : Z) (s : sys) : res (sent * sys) :=
  match services_of td !! Z.to_nat (px_index px) with
  | None => Err EFault
  | Some v =>
      let! v := svc_ s v in
      match method_of (svc_obj v) methodIndex (heaps s) with
      | None => Err EFault
      | Some _ =>
          if negb (targetDomainID px =? pd_id td) then Err (EThrow "DomainTerminatedException")
          else Ok (LocalCall (svc_obj v) methodIndex (tail params), s)
      end
  end.

(** queue the caller and hand over to the receiver, or sleep *)
Definition send_enqueue (td : pdomain) (svc : Z) (px : proxy) (params : list Z) (methodIndex : Z) (s : sys) : res (sent * sys) :=
  let c := cur s in
  let! _ := pthr s c in
  let s := upd_pthr c (fun x => set_dep params methodIndex
             (set_blocked (targetDomain px) (pd_id td) (px_index px) (blockedInServiceThread x) x)) s in
  let! v := svc_ s svc in
  let! s := portal_add_sender svc c s in
  let target := svc_receiver v in
  let! r := thr (sch s) target in
  if negb (t_state r =? STATE_PORTAL_WAIT_FOR_SND) then
    let! s := lift (Sched_block STATE_PORTAL_WAIT_FOR_RCV)
                (upd_pthr c (set_pc (PSendBlocked (targetDomain px) (px_index px))) s) in
    Ok (Switched, s)
  else
    let! _ := check_servicequeue svc s in
    let! s := lift (Sched_portal_handoff_to_receiver target) (upd_pthr c (set_pc PSendHandoff) s) in
    Ok (Switched, s).

Definition direct_send_portal (px : proxy) (params : list Z) (methodIndex : Z) (s : sys) : res (sent * sys) :=
  let! td := pdom s (targetDomain px) in
  let! cd := curdom (sch s) in
  if targetDomain px =? cd then
    send_local td px params methodIndex s
  else if negb (targetDomainID px =? pd_id td) then send_refused s
  else if negb (pd_state td =? DOMAIN_STATE_ACTIVE) then send_refused s
  else
    match services_of td !! Z.to_nat (px_index px) with
    | None => Err EFault
    | Some svc =>
        if svc =? SERVICE_ENTRY_CHANGING then send_refused s else send_enqueue td svc px params methodIndex s
    end.

(** the second half, when the caller runs again *)
Definition send_resume (s : sys) : res (outcome * sys) :=
  let c := cur s in
  let! x := pthr s c in
  let! s := (match p_pc x with
             | PSendBlocked d idx =>
                 let s := set_sch (Sched_block_resume (sch s)) s in
                 let! svc0 := GETSVC d idx s in
                 let! _ := check_notin_servicequeue svc0 c s in Ok s
             | _ =>
                 let! t := thr (sch s) c in
                 let! _ := assert_ "curthr()->state == STATE_RUNNABLE" (t_state t =? STATE_RUNNABLE) in Ok s
             end) in
  send_finished (upd_pthr c (set_pc PUser) s).

(** ** receive_portalcall *)

(** [copy_reference] until no collection interrupts it *)
Definition copy_restarting (fuel : nat) (src dst ref quota : Z) (s : sys) : res (Z * Z * sys) :=
  loop fuel (fun '(q, s) =>
    let! '(r, q, x) := copy_reference src dst ref q (heaps s) in
    let s := set_heaps x s in
    if r =? RESTART then Ok (inl (q, s)) else Ok (inr (r, q, s))) (quota, s).

(** parameters [1 .. numberArgs]; [map]: which are references *)
Fixpoint copy_params (fuel : nat) (src dst : Z) (map : list bool) (params : list Z) (quota : Z) (s : sys) : res (list Z * Z * sys) :=
  match params, map with
  | p :: params, isref :: map =>
      let! '(v, quota, s) :=
        (if (p =? 0) || negb isref || (dst =? domainZero s) then Ok (p, quota, s)
         else copy_restarting fuel src dst p quota s) in
      let! '(l, quota, s) := copy_params fuel src dst map params quota s in
      Ok (v :: l, quota, s)
  | _, _ => Ok ([], quota, s)
  end.

Section Receive.
Context (fuel : nat).

(** a sender was dequeued: up to the call of the method *)
Definition recv_accept (source : Z) (s : sys) : res sys :=
  let c := cur s in
  let! cd := curdom (sch s) in
  let! _ := check_domain_not_in_runq cd (sch s) in
  let! _ := thr (sch s) source in
  let s := set_state source STATE_PORTAL_WAIT_FOR_PARAMCOPY s in
  let! src := pthr s source in
  let idx := blockedInServiceIndex src in
  let! svc := GETSVC cd idx s in
  let! t := thr (sch s) c in
  let! _ := assert_ "curthr()->state == STATE_RUNNABLE" (t_state t =? STATE_RUNNABLE) in
  let! v := svc_ s svc in
  let! _ := pthr s c in
  let s := upd_pthr c (set_processing svc source) s in
  let s := upd_pthr source (fun x => set_blocked (blockedInDomain x) (blockedInDomainID x) (blockedInServiceIndex x) c x) s in
  match method_of (svc_obj v) (depMethodIndex src) (heaps s) with
  | None => Err (EAssert "methodIndex < targetClass->vtableSize")
  | Some m =>
      let! sd := thr (sch s) source in
      let! '(quota, s) :=
        (if portalParameter src =? 0 then Ok (RECEIVE_PORTAL_QUOTA, s)
         else let! '(v, quota, s) := copy_restarting fuel (t_domain sd) cd (portalParameter src) RECEIVE_PORTAL_QUOTA s in
              Ok (quota, upd_pthr c (set_portalParameter v) s)) in
      let! '(l, _, s) := copy_params fuel (t_domain sd) cd (argTypeMap m)
                           (take (Z.to_nat (numberOfArgs m)) (tail (depParams src))) quota s in
      let s := upd_pthr c (set_myparams (svc_obj v :: l)) s in
      let s := upd_pthr source (fun x => set_dep [] (depMethodIndex x) x) s in
      let! svc := GETSVC cd idx s in
      let! _ := check_servicequeue svc s in
      let! _ := check_notin_servicequeue svc source s in
      let! v := svc_ s svc in
      if negb (svc_valid v) then Err (EThrow "RuntimeException") else
      let! sdom := pdom s (t_domain sd) in
      let s := upd_pthr c (set_caller (t_domain sd) (pd_id sdom)) s in
      Ok (upd_pthr c (set_pc PUser) (set_state source STATE_PORTAL_WAIT_FOR_RET s))
  end.

(** the wait for a sender, from [GETSVC] on *)
Definition recv_wait (idx : Z) (s : sys) : res sys :=
  let! cd := curdom (sch s) in
  let! svc := GETSVC cd idx s in
  let! '(source, s) := portal_dequeue_sender svc s in
  if source =? NULL then lift (Sched_block STATE_PORTAL_WAIT_FOR_SND) (upd_pthr (cur s) (set_pc (PRecvBlocked idx)) s)
  else recv_accept source s.

(** the head of the receive loop *)
Definition recv_loop (idx : Z) (s : sys) : res sys :=
  let! _ := pthr s (cur s) in recv_wait idx (upd_pthr (cur s) (set_processing NULL NULL) s).

(** after [SCHED_BLOCK_PORTAL_WAIT_FOR_SND] *)
Definition recv_wakeup (idx : Z) (s : sys) : res sys := recv_wait idx (set_sch (Sched_block_resume (sch s)) s).

(** the method returned [ret]: deliver it and hand over to the caller *)
Definition recv_reply (idx ret : Z) (s : sys) : res sys :=
  let c := cur s in
  let! x := pthr s c in
  let! cdom := pdom s (callerDomain x) in
  if negb (callerDomainID x =? pd_id cdom) || negb (pd_state cdom =? DOMAIN_STATE_ACTIVE) then recv_loop idx s else
  let source := mostRecentlyCalledBy x in
  let! src := pthr s source in
  let! cd := curdom (sch s) in
  let! svc := GETSVC cd idx s in
  let! v := svc_ s svc in
  if svc_abort v then recv_loop idx (upd_svc svc (set_abort false) s) else
  let! _ := check_notin_servicequeue svc c s in
  match method_of (svc_obj v) (depMethodIndex src) (heaps s) with
  | None => Err EFault
  | Some m =>
      let s := upd_pthr c (fun x => set_myparams (replicate (Z.to_nat (numberOfArgs m)) 0 ++ drop (Z.to_nat (numberOfArgs m)) (myparams x)) x) s in
      let! sd := thr (sch s) source in
      let s := set_state source STATE_PORTAL_WAIT_FOR_RETCOPY s in
      let! '(r, s) := (if (returnType m =? 1) && negb (keeps_return m) then
                         let! '(r, _, s) := copy_restarting fuel cd (t_domain sd) ret RECEIVE_PORTAL_QUOTA s in Ok (r, s)
                       else Ok (ret, s)) in
      let s := upd_pthr source (set_return r (if returnType m =? 1 then PORTAL_RETURN_TYPE_REFERENCE else PORTAL_RETURN_TYPE_NUMERIC)) s in
      let s := upd_pthr c (set_pc (PRecvLoop idx)) (upd_pthr c (set_processing NULL NULL) s) in
      lift (Sched_portal_handoff_to_sender source (negb (firstWaitingSender v =? NULL))) s
  end.
End Receive.

(** ** One step of the system *)

(** What the running thread does next: Java code yields, blocks, unblocks
    another thread, calls a portal or returns from the method of a service; a
    thread inside a portal function continues there. *)
Inductive portal_step (fuel : nat) (s : sys) : sys -> Prop :=
| step_yield x s' : pthreads s !! cur s = Some x -> p_pc x = PUser ->
    lift threadyield s = Ok s' -> portal_step fuel s s'
| step_block x s' : pthreads s !! cur s = Some x -> p_pc x = PUser -> cur s <> idle_thread (sch s) ->
    lift threadblock s = Ok s' -> portal_step fuel s s'
| step_unblock x t d s' : pthreads s !! cur s = Some x -> p_pc x = PUser ->
    tinfo (sch s) t = Some (STATE_BLOCKEDUSER, d) -> lift (threadunblock t) s = Ok s' -> portal_step fuel s s'
| step_send x px params m o s' : pthreads s !! cur s = Some x -> p_pc x = PUser -> cur s <> idle_thread (sch s) -> 0 <= px_index px ->
    direct_send_portal px params m s = Ok (o, s') -> portal_step fuel s s'
| step_send_resume x o s' : pthreads s !! cur s = Some x -> (p_pc x = PSendHandoff \/ exists d i, p_pc x = PSendBlocked d i) ->
    send_resume s = Ok (o, s') -> portal_step fuel s s'
| step_recv_wakeup x idx s' : pthreads s !! cur s = Some x -> p_pc x = PRecvBlocked idx -> cur s <> idle_thread (sch s) ->
    recv_wakeup fuel idx s = Ok s' -> portal_step fuel s s'
| step_recv_loop x idx s' : pthreads s !! cur s = Some x -> p_pc x = PRecvLoop idx -> cur s <> idle_thread (sch s) ->
    recv_loop fuel idx s = Ok s' -> portal_step fuel s s'
| step_reply x v idx ret s' : pthreads s !! cur s = Some x -> p_pc x = PUser -> mostRecentlyCalledBy x <> NULL ->
    svcs s !! processingDEP x = Some v -> svc_index v = idx -> cur s <> idle_thread (sch s) ->
    recv_reply fuel idx ret s = Ok s' -> portal_step fuel s s'.

(** ** Sequences of queue operations *)

Fixpoint add_senders (dep : Z) (l : list Z) (s : sys) : res sys :=
  match l with
  | [] => Ok s
  | t :: l => let! s := portal_add_sender dep t s in add_senders dep l s
  end.
Fixpoint dequeue_senders (n : nat) (dep : Z) (s : sys) : res (list Z * sys) :=
  match n with
  | O => Ok ([], s)
  | S n =>
      let! '(t, s) := portal_dequeue_sender dep s in
      let! '(l, s) := dequeue_senders n dep s in
      Ok (t :: l, s)
  end.
End Portal.
Arguments sys X : clear implicits.

(** ** The queue of waiting senders refines a list *)

Definition pnext (m : gmap Z pthread) (t : Z) : option Z := nextInDEPQueue <$> m !! t.

(** the pairs that [check_servicequeue] compares in a queue of [n] senders *)
Fixpoint pairs (n : nat) : Z :=
  match n with O => 0 | S k => Z.of_nat k + pairs k end.

Section Queue.
Context {X : Type} `{!Copying X}.
Abbreviation sys := (sys X).

(** [t] is linked behind the last sender of [v] *)
Definition added (v t : Z) (d : service) (s : sys) : sys :=
  let s := upd_pthr t (set_nextInDEPQueue NULL) s in
  if lastWaitingSender d =? NULL then upd_svc v (set_last t) (upd_svc v (set_first t) s)
  else upd_svc v (set_last t) (upd_pthr (lastWaitingSender d) (set_nextInDEPQueue t) s).

Lemma pthr_some (s : sys) t x : pthr s t = Ok x -> pthreads s !! t = Some x.
Proof. unfold pthr. destruct (pthreads s !! t); by intros [= ->]. Qed.
Lemma svc_some (s : sys) v x : svc_ s v = Ok x -> svcs s !! v = Some x.
Proof. unfold svc_. destruct (svcs s !! v); by intros [= ->]. Qed.
Lemma thr_some s t x : thr s t = Ok x -> threads s !! t = Some x.
Proof. unfold thr. destruct (threads s !! t); by intros [= ->]. Qed.

Lemma portal_add_sender_inv v t (s s' : sys) : portal_add_sender v t s = Ok s' ->
  t <> NULL /\ is_Some (pthreads s !! t) /\ exists d, svcs s !! v = Some d /\ s' = added v t d s.
Proof.
  unfold portal_add_sender. intros E. destruct (Z.eqb_spec t NULL) as [|Ht]; [done|]. cbn [negb assert_ rbind] in E.
  destruct (negb (v =? NULL)); [|done]. cbn [assert_ rbind] in E.
  apply rbind_ok in E as (_ & _ & E). apply rbind_ok in E as (_ & _ & E). apply rbind_ok in E as (x & Ex & E).
  apply rbind_ok in E as (d & Ed & E). apply rbind_ok in E as (s1 & E1 & E). apply rbind_ok in E as (_ & _ & E). injection E as <-.
  split; [done|]. split; [eexists; by apply pthr_some|]. exists d. split; [by apply svc_some in Ed|]. unfold added.
  destruct (lastWaitingSender d =? NULL); [by injection E1 as <-|]. apply rbind_ok in E1 as (_ & _ & E1). by injection E1 as <-.
Qed.

Lemma alter_lookup {A} (f : A -> A) (m : gmap Z A) k j : alter f k m !! j = if j =? k then f <$> m !! k else m !! j.
Proof. destruct (Z.eqb_spec j k) as [->|]; [apply lookup_alter_eq|by apply lookup_alter_ne]. Qed.

Lemma pnext_set t n m y : pnext (alter (set_nextInDEPQueue n) t m) y = if y =? t then const n <$> m !! t else pnext m y.
Proof. unfold pnext. rewrite alter_lookup. destruct (y =? t); [|done]. by destruct (m !! t). Qed.

(** the threads without their links *)
Definition strip (m : gmap Z pthread) : gmap Z pthread := set_nextInDEPQueue NULL <$> m.

Lemma strip_alter n t m : strip (alter (set_nextInDEPQueue n) t m) = strip m.
Proof.
  apply map_eq. intros y. unfold strip. rewrite !lookup_fmap, alter_lookup. destruct (Z.eqb_spec y t) as [->|]; [|done].
  by destruct (m !! t).
Qed.

Lemma strip_lookup m m' y p' : strip m' = strip m -> m' !! y = Some p' ->
  exists p, m !! y = Some p /\ p' = set_nextInDEPQueue (nextInDEPQueue p') p.
Proof.
  intros E Hy. apply (f_equal (fun k => k !! y)) in E. unfold strip in E. rewrite !lookup_fmap, Hy in E. simpl in E.
  destruct (m !! y) as [p|]; [|done]. exists p. split; [done|]. injection E as E. destruct p', p. simpl in *. by simplify_eq.
Qed.

Lemma queue_last_in nxt f la l : queue nxt f la l -> la <> NULL -> la ∈ l.
Proof. intros (_ & -> & _) H. apply tail_of_in. by intros ->. Qed.

(** what [added] does to the queue of [v] *)
Lemma added_queue v t d l (s : sys) : svcs s !! v = Some d -> t <> NULL -> is_Some (pthreads s !! t) -> t ∉ l ->
  queue (pnext (pthreads s)) (firstWaitingSender d) (lastWaitingSender d) l ->
  let s' := added v t d s in
  (exists d', svcs s' !! v = Some d' /\ queue (pnext (pthreads s')) (firstWaitingSender d') (lastWaitingSender d') (l ++ [t]) /\
     d' = set_last t (set_first (firstWaitingSender d') d)) /\
  (forall w, w <> v -> svcs s' !! w = svcs s !! w) /\
  (forall y, y <> t -> y ∉ l -> pthreads s' !! y = pthreads s !! y) /\
  strip (pthreads s') = strip (pthreads s).
Proof.
  intros Ev Ht [p Ep] Hl HQ s'. set (la := lastWaitingSender d) in *.
  assert (la <> NULL -> la ∈ l) as Hla by (exact (queue_last_in _ _ _ _ HQ)).
  assert (l <> [] -> la <> NULL) as Hne.
  { intros Hn E. destruct HQ as (Hs & -> & _). by apply (tail_of_null _ _ _ Hs) in E. }
  assert (pthreads s' = if la =? NULL then alter (set_nextInDEPQueue NULL) t (pthreads s)
     else alter (set_nextInDEPQueue t) la (alter (set_nextInDEPQueue NULL) t (pthreads s))) as Em.
  { unfold s', added. fold la. by destruct (la =? NULL). }
  assert (svcs s' !! v = Some (set_last t (set_first (if la =? NULL then t else firstWaitingSender d) d)) /\
    forall w, w <> v -> svcs s' !! w = svcs s !! w) as [Esv Eow].
  { unfold s', added. fold la. destruct (la =? NULL); cbn [svcs upd_svc upd_pthr]; rewrite ?lookup_alter_eq, Ev;
      (split; [by destruct d|intros w Hw; by rewrite ?lookup_alter_ne by done]). }
  split_and!.
  - eexists. split; [exact Esv|]. split; [|by destruct d].
    apply (queue_append (pnext (pthreads s)) _ _ la l t HQ Hl Ht); rewrite Em.
    + destruct (Z.eqb_spec la NULL) as [|Hn]; rewrite !pnext_set; [by rewrite Z.eqb_refl, Ep|].
      rewrite (proj2 (Z.eqb_neq t la)), Z.eqb_refl, Ep; [done|]. intros ->. by apply Hl, Hla.
    + intros y Hy Hyl. assert (y <> t) by (by intros ->). destruct (Z.eqb_spec la NULL) as [|Hn]; rewrite !pnext_set; zbool.
    + intros Hn%Hne. rewrite (proj2 (Z.eqb_neq la NULL) Hn), pnext_set, Z.eqb_refl, alter_lookup.
      destruct (lseg_nonnull _ _ _ la (proj1 HQ) (Hla Hn)) as [_ [n En]]. unfold pnext in En.
      destruct (pthreads s !! la) as [q|] eqn:E; [|done]. destruct (la =? t) eqn:Et; [|by rewrite ?E].
      apply Z.eqb_eq in Et. rewrite <- Et. by rewrite E.
  - exact Eow.
  - intros y Hy Hyl. rewrite Em. destruct (Z.eqb_spec la NULL) as [|Hn]; rewrite !alter_lookup.
    + by rewrite (proj2 (Z.eqb_neq y t) Hy).
    + rewrite (proj2 (Z.eqb_neq y t) Hy), (proj2 (Z.eqb_neq y la)); [done|]. intros ->. by apply Hyl, Hla.
  - rewrite Em. destruct (la =? NULL); by rewrite !strip_alter.
Qed.

Lemma dequeue_empty v d (s : sys) : svcs s !! v = Some d -> firstWaitingSender d = NULL ->
  portal_dequeue_sender v s = Ok (NULL, s).
Proof. intros Ev Hf. unfold portal_dequeue_sender, svc_. rewrite Ev. cbn [rbind]. by rewrite Hf. Qed.

Lemma dequeue_head v d t l (s : sys) : svcs s !! v = Some d ->
  queue (pnext (pthreads s)) (firstWaitingSender d) (lastWaitingSender d) (t :: l) ->
  exists s', portal_dequeue_sender v s = Ok (t, s') /\
    (exists d', svcs s' !! v = Some d' /\ queue (pnext (pthreads s')) (firstWaitingSender d') (lastWaitingSender d') l /\
       d' = set_last (lastWaitingSender d') (set_first (firstWaitingSender d') d)) /\
    (forall w, w <> v -> svcs s' !! w = svcs s !! w) /\
    (forall y, y <> t -> pthreads s' !! y = pthreads s !! y) /\
    strip (pthreads s') = strip (pthreads s) /\
    sch s' = sch s /\ pdoms s' = pdoms s /\ domainZero s' = domainZero s /\ heaps s' = heaps s.
Proof.
  intros Ev HQ. destruct (queue_pop _ _ _ _ _ HQ) as (Ef & Ht & Hl & n & En & Hq').
  unfold pnext in En. destruct (pthreads s !! t) as [x|] eqn:Ex; [|done]. injection En as En.
  unfold portal_dequeue_sender, svc_, pthr. rewrite Ev. cbn [rbind]. rewrite Ef, (proj2 (Z.eqb_neq t NULL) Ht), Ex. cbn [rbind].
  rewrite En. eexists. split; [reflexivity|].
  assert (forall m, queue m n (if n =? NULL then NULL else lastWaitingSender d) l <-> queue m n (if t =? lastWaitingSender d then NULL else lastWaitingSender d) l) as Hlast.
  { intros m. destruct (Z.eqb_spec n NULL) as [Hn|Hn], (Z.eqb_spec t (lastWaitingSender d)) as [Ht'|Ht']; try done.
    - exfalso. destruct Hq' as (Hs & Hla & _). rewrite Hn in Hs. apply lseg_null in Hs as [Hs _]. rewrite (Hs eq_refl) in *.
      destruct HQ as (_ & Hla' & _). rewrite Hla' in Ht'. done.
    - exfalso. destruct Hq' as (Hs & Hla & _). destruct l as [|y l]; [by rewrite Hla in Hn; destruct Hs|].
      destruct HQ as (_ & Hla' & Hnd). apply NoDup_cons in Hnd as [Hnin _]. apply Hnin. rewrite Ht', Hla'.
      apply (tail_of_in (y :: l)). done. }
  assert (queue (pnext (alter (set_nextInDEPQueue NULL) t (pthreads s))) n (if n =? NULL then NULL else lastWaitingSender d) l) as Hq2.
  { apply Hlast. eapply queue_ext; [|exact Hq']. intros y Hy. rewrite pnext_set. destruct (Z.eqb_spec y t) as [->|]; [done|done]. }
  split_and!.
  - destruct (Z.eqb_spec n NULL) as [Hn|Hn]; cbn [svcs upd_svc upd_pthr]; rewrite !lookup_alter_eq, Ev; eexists; (split; [reflexivity|]);
      (split; [exact Hq2|by destruct d]).
  - intros w Hw. destruct (n =? NULL); cbn [svcs upd_svc upd_pthr]; by rewrite !lookup_alter_ne by done.
  - intros y Hy. destruct (n =? NULL); cbn [pthreads upd_svc upd_pthr]; by rewrite lookup_alter_ne by done.
  - destruct (n =? NULL); apply strip_alter.
  - by destruct (n =? NULL).
  - by destruct (n =? NULL).
  - by destruct (n =? NULL).
  - by destruct (n =? NULL).
Qed.

(** the links of the threads from [p] on are [l] *)
Abbreviation linked s p l := (lseg (pnext (pthreads s)) p l).

Lemma linked_cons (s : sys) p x l : linked s p (x :: l) ->
  p = x /\ x <> NULL /\ exists q, pthr s x = Ok q /\ linked s (nextInDEPQueue q) l.
Proof.
  intros (-> & Hx & n & En & Hl). split_and!; try done. unfold pnext in En. unfold pthr.
  destruct (pthreads s !! x) as [q|]; [|done]. exists q. split; [done|]. by injection En as ->.
Qed.

Definition too_long : err := EPanic "endless loop in portal waitqueue domain %d service %s (waiting domain=%d)".

Lemma check_behind_spec (s : sys) t l : forall p i n, linked s p l -> t ∉ l -> i < 1000000 -> (length l < n)%nat ->
  check_behind n t p i s = if i + Z.of_nat (length l) <? 1000000 then Ok (i + Z.of_nat (length l)) else Err too_long.
Proof.
  induction l as [|x l IH]; intros p i n Hl Ht Hi Hn; (destruct n as [|n]; [lia|]); cbn [check_behind].
  - rewrite (Hl : p = NULL), Z.add_0_r. cbn. by rewrite (proj2 (Z.ltb_lt i 1000000)).
  - destruct (linked_cons _ _ _ _ Hl) as (-> & Hx & q & Eq & Hl'). rewrite (proj2 (Z.eqb_neq x NULL) Hx).
    apply not_elem_of_cons in Ht as [Htx Ht]. rewrite (proj2 (Z.eqb_neq x t)) by congruence.
    simpl in Hn. rewrite Eq. cbn [rbind length]. destruct (Z.eqb_spec (i + 1) 1000000) as [E|E].
    + rewrite (proj2 (Z.ltb_ge _ _)) by lia. done.
    + rewrite (IH _ (i + 1) n Hl' Ht) by lia. replace (i + 1 + Z.of_nat (length l)) with (i + Z.of_nat (S (length l))) by lia. done.
Qed.

Lemma pairs_nonneg n : 0 <= pairs n.
Proof. induction n; simpl; lia. Qed.

Lemma check_from_spec (s : sys) l : forall p i n, linked s p l -> NoDup l -> 0 <= i < 1000000 ->
  (length l < n)%nat -> (length l < q_fuel s)%nat ->
  check_from n p i s = if i + pairs (length l) <? 1000000 then Ok tt else Err too_long.
Proof.
  induction l as [|x l IH]; intros p i n Hl Hnd Hi Hn Hf; (destruct n as [|n]; [lia|]); cbn [check_from].
  - rewrite (Hl : p = NULL). cbn. rewrite Z.add_0_r. by rewrite (proj2 (Z.ltb_lt i 1000000)) by lia.
  - destruct (linked_cons _ _ _ _ Hl) as (-> & Hx & q & Eq & Hl'). rewrite (proj2 (Z.eqb_neq x NULL) Hx), Eq.
    apply NoDup_cons in Hnd as [Hxl Hnd]. cbn [length pairs rbind] in *.
    pose proof (pairs_nonneg (length l)). rewrite (check_behind_spec s x l) by (done || lia).
    destruct (Z.ltb_spec (i + Z.of_nat (length l)) 1000000) as [Hlt|Hge]; cbn [rbind].
    + rewrite (IH _ _ n Hl' Hnd) by lia. by rewrite Z.add_assoc.
    + rewrite (proj2 (Z.ltb_ge _ _)) by lia. done.
Qed.

Lemma linked_len (s : sys) p l : linked s p l -> NoDup l -> (length l < q_fuel s)%nat.
Proof.
  intros Hl Hnd. unfold q_fuel. apply le_n_S, nodup_keys_le; [done|]. intros x Hx.
  destruct (lseg_nonnull _ _ _ _ Hl Hx) as [_ [n Hn]]. unfold pnext in Hn. destruct (pthreads s !! x); [by eexists|done].
Qed.

Lemma check_servicequeue_spec v d l (s : sys) : svcs s !! v = Some d ->
  queue (pnext (pthreads s)) (firstWaitingSender d) (lastWaitingSender d) l ->
  check_servicequeue v s = if pairs (length l) <? 1000000 then Ok tt else Err too_long.
Proof.
  intros Ev (Hl & _ & Hnd). unfold check_servicequeue, svc_. rewrite Ev. cbn [rbind].
  pose proof (linked_len _ _ _ Hl Hnd). rewrite (check_from_spec s l) by (done || lia). done.
Qed.

Lemma notin_spec (s : sys) t l : forall p n, linked s p l -> (length l < n)%nat ->
  notin_loop n t p s = if bool_decide (t ∈ l) then Err (EPanic "Thread %p already in depqueue %p") else Ok tt.
Proof.
  induction l as [|x l IH]; intros p n Hl Hn; (destruct n as [|n]; [lia|]); cbn [notin_loop].
  - rewrite (Hl : p = NULL). cbn. by rewrite bool_decide_false by apply not_elem_of_nil.
  - destruct (linked_cons _ _ _ _ Hl) as (-> & Hx & q & Eq & Hl'). rewrite (proj2 (Z.eqb_neq x NULL) Hx), Eq. simpl in Hn.
    destruct (Z.eqb_spec x t) as [->|Hne].
    + rewrite bool_decide_true by apply list_elem_of_here. done.
    + cbn [rbind]. rewrite (IH _ n Hl') by lia. by rewrite (bool_decide_ext _ (t ∈ x :: l)) by set_solver.
Qed.

Lemma check_notin_spec v d l t (s : sys) : svcs s !! v = Some d ->
  queue (pnext (pthreads s)) (firstWaitingSender d) (lastWaitingSender d) l ->
  check_notin_servicequeue v t s = if bool_decide (t ∈ l) then Err (EPanic "Thread %p already in depqueue %p") else Ok tt.
Proof.
  intros Ev (Hl & _ & Hnd). unfold check_notin_servicequeue, svc_. rewrite Ev. cbn [rbind].
  apply notin_spec; [done|by eapply linked_len].
Qed.

Lemma add_sender_spec v t d l (s : sys) : svcs s !! v = Some d -> v <> NULL -> t <> NULL -> is_Some (pthreads s !! t) -> t ∉ l ->
  queue (pnext (pthreads s)) (firstWaitingSender d) (lastWaitingSender d) l -> pairs (S (length l)) < 1000000 ->
  portal_add_sender v t s = Ok (added v t d s).
Proof.
  intros Ev Hv Ht [p Ep] Hl HQ Hlen. cbn [pairs] in Hlen. pose proof (pairs_nonneg (length l)).
  destruct (added_queue v t d l s Ev Ht (ex_intro _ p Ep) Hl HQ) as ((d' & Ev' & HQ' & _) & _).
  unfold portal_add_sender. rewrite (proj2 (Z.eqb_neq t NULL) Ht), (proj2 (Z.eqb_neq v NULL) Hv). cbn [negb assert_ rbind].
  rewrite (check_servicequeue_spec v d l s Ev HQ), (proj2 (Z.ltb_lt _ _)) by lia. cbn [rbind].
  rewrite (check_notin_spec v d l t s Ev HQ), bool_decide_false by done. cbn [rbind].
  unfold pthr at 1. rewrite Ep. cbn [rbind]. unfold svc_. cbn [svcs upd_pthr]. rewrite Ev. cbn [rbind].
  assert (forall s1, s1 = added v t d s -> (let! _ := check_servicequeue v s1 in Ok s1) = Ok (added v t d s)) as Hfin.
  { intros s1 ->. rewrite (check_servicequeue_spec v d' (l ++ [t]) _ Ev' HQ').
    rewrite length_app, Nat.add_comm. cbn [length plus pairs]. by rewrite (proj2 (Z.ltb_lt _ _)) by lia. }
  destruct (Z.eqb_spec (lastWaitingSender d) NULL) as [E|E]; cbn [rbind].
  - apply Hfin. unfold added. by rewrite E.
  - assert (exists q, pthr (upd_pthr t (set_nextInDEPQueue NULL) s) (lastWaitingSender d) = Ok q) as [q ->].
    { destruct (lseg_nonnull _ _ _ _ (proj1 HQ) (queue_last_in _ _ _ _ HQ E)) as [_ [n Hn]]. unfold pnext in Hn.
      unfold pthr. cbn [pthreads upd_pthr]. rewrite alter_lookup. destruct (Z.eqb_spec (lastWaitingSender d) t) as [Elt|_].
      - rewrite Ep. by eexists.
      - destruct (pthreads s !! lastWaitingSender d) as [q|]; [by exists q|done]. }
    cbn [rbind]. apply Hfin. unfold added. by rewrite (proj2 (Z.eqb_neq _ _) E).
Qed.

(** the senders [l] wait for [v] *)
Definition waiting (s : sys) (v : Z) (l : list Z) : Prop :=
  exists d, svcs s !! v = Some d /\ queue (pnext (pthreads s)) (firstWaitingSender d) (lastWaitingSender d) l.

Lemma strip_some m m' t : strip m' = strip m -> is_Some (m !! t) -> is_Some (m' !! t).
Proof.
  intros E [p Hp]. apply (f_equal (fun k => k !! t)) in E. unfold strip in E. rewrite !lookup_fmap, Hp in E.
  destruct (m' !! t); [by eexists|done].
Qed.

Lemma pairs_mono n m : (n <= m)%nat -> pairs n <= pairs m.
Proof. induction 1 as [|m _ IH]; cbn [pairs]; lia. Qed.

Lemma add_senders_spec v ts : forall l (s : sys), v <> NULL -> waiting s v l -> NoDup (l ++ ts) ->
  Forall (fun t => t <> NULL /\ is_Some (pthreads s !! t)) ts -> pairs (length (l ++ ts)) < 1000000 ->
  exists s', add_senders v ts s = Ok s' /\ waiting s' v (l ++ ts).
Proof.
  induction ts as [|t ts IH]; intros l s Hv (d & Ed & HQ) Hnd Hts Hlen; cbn [add_senders].
  { rewrite app_nil_r. exists s. split; [done|by exists d]. }
  apply Forall_cons in Hts as [[Ht Hst] Hts]. rewrite (cons_middle t l ts), app_assoc in *.
  assert (t ∉ l) as Htl.
  { apply NoDup_app in Hnd as (Hnd & _). apply NoDup_app in Hnd as (_ & Hdis & _). intros Hin. apply (Hdis t Hin), list_elem_of_here. }
  assert (pairs (S (length l)) < 1000000) as Hl1.
  { eapply Z.le_lt_trans; [apply pairs_mono|exact Hlen]. rewrite !length_app. simpl. lia. }
  rewrite (add_sender_spec v t d l s Ed Hv Ht Hst Htl HQ Hl1). cbn [rbind].
  destruct (added_queue v t d l s Ed Ht Hst Htl HQ) as ((d' & Ed' & HQ' & _) & _ & _ & Hstrip).
  destruct (IH (l ++ [t]) (added v t d s) Hv (ex_intro _ d' (conj Ed' HQ')) Hnd) as (s' & E & Hw); [|done|by exists s'].
  eapply Forall_impl; [exact Hts|]. intros y [Hy Hs]. split; [done|by eapply strip_some].
Qed.

Lemma dequeue_senders_spec v l : forall s : sys, waiting s v l ->
  exists s', dequeue_senders (length l) v s = Ok (l, s') /\ waiting s' v [].
Proof.
  induction l as [|t l IH]; intros s Hw; cbn [length dequeue_senders]; [by exists s|]. destruct Hw as (d & Ed & HQ).
  destruct (dequeue_head v d t l s Ed HQ) as (s1 & E1 & (d1 & Ed1 & HQ1 & _) & _). rewrite E1. cbn [rbind].
  destruct (IH s1 (ex_intro _ d1 (conj Ed1 HQ1))) as (s2 & E2 & Hw2). rewrite E2. by exists s2.
Qed.

(** Waiting senders are served in the order in which they called.  If the
    senders [l] already wait and the threads [ts] join them one after the
    other, then the receiver takes first [l], then [ts], each exactly once and
    in order, and after them finds the queue empty. *)
Theorem senders_fifo v l ts (s : sys) :
  v <> NULL -> waiting s v l -> NoDup (l ++ ts) ->
  Forall (fun t => t <> NULL /\ is_Some (pthreads s !! t)) ts -> pairs (length (l ++ ts)) < 1000000 ->
  exists s1 s2, add_senders v ts s = Ok s1 /\ dequeue_senders (length (l ++ ts)) v s1 = Ok (l ++ ts, s2) /\
    portal_dequeue_sender v s2 = Ok (NULL, s2).
Proof.
  intros Hv Hw Hnd Hts Hlen. destruct (add_senders_spec v ts l s Hv Hw Hnd Hts Hlen) as (s1 & E1 & Hw1).
  destruct (dequeue_senders_spec v (l ++ ts) s1 Hw1) as (s2 & E2 & d & Ed & Hf & _). exists s1, s2. split_and!; try done.
  by eapply dequeue_empty.
Qed.

(** The consistency check bounds the queue.  [check_servicequeue] compares
    every pair of waiting senders and takes the millionth comparison for an
    endless loop, so with [l] senders waiting another one can be added if and
    only if [l] is shorter than 1414; the 1415th waiting sender panics the
    system, although its queue is well formed. *)
Theorem sender_queue_limit v t l (s : sys) :
  v <> NULL -> waiting s v l -> t <> NULL -> is_Some (pthreads s !! t) -> t ∉ l -> (length l <= 1414)%nat ->
  if (length l <? 1414)%nat then exists s', portal_add_sender v t s = Ok s' /\ waiting s' v (l ++ [t])
  else portal_add_sender v t s = Err too_long.
Proof.
  intros Hv (d & Ed & HQ) Ht Hst Htl Hlen. destruct (Nat.ltb_spec (length l) 1414) as [Hlt|Hge].
  - destruct (added_queue v t d l s Ed Ht Hst Htl HQ) as ((d' & Ed' & HQ' & _) & _). exists (added v t d s). split; [|by exists d'].
    apply (add_sender_spec v t d l s); try done. eapply Z.le_lt_trans; [apply (pairs_mono _ 1414); lia|]. by vm_compute.
  - assert (length l = 1414%nat) as El by lia.
    destruct (added_queue v t d l s Ed Ht Hst Htl HQ) as ((d' & Ed' & HQ' & _) & _).
    unfold portal_add_sender. rewrite (proj2 (Z.eqb_neq t NULL) Ht), (proj2 (Z.eqb_neq v NULL) Hv). cbn [negb assert_ rbind].
    rewrite (check_servicequeue_spec v d l s Ed HQ), El. replace (pairs 1414 <? 1000000) with true by (by vm_compute). cbn [rbind].
    rewrite (check_notin_spec v d l t s Ed HQ), bool_decide_false by done. cbn [rbind].
    destruct Hst as [p Ep]. unfold pthr at 1. rewrite Ep. cbn [rbind]. unfold svc_ at 1. cbn [svcs upd_pthr]. rewrite Ed. cbn [rbind].
    assert (lastWaitingSender d <> NULL) as Hla.
    { intros E. destruct HQ as (Hs & Hq & _). rewrite E in Hq. symmetry in Hq. by apply (tail_of_null _ _ _ Hs) in Hq as ->. }
    rewrite (proj2 (Z.eqb_neq _ _) Hla). unfold added in Ed', HQ'. rewrite (proj2 (Z.eqb_neq _ _) Hla) in Ed', HQ'.
    assert (exists q, pthr (upd_pthr t (set_nextInDEPQueue NULL) s) (lastWaitingSender d) = Ok q) as [q ->].
    { destruct (lseg_nonnull _ _ _ _ (proj1 HQ) (queue_last_in _ _ _ _ HQ Hla)) as [_ [n Hn]]. unfold pnext in Hn.
      unfold pthr. cbn [pthreads upd_pthr]. rewrite alter_lookup. destruct (Z.eqb_spec (lastWaitingSender d) t) as [Elt|_].
      - rewrite Ep. by eexists.
      - destruct (pthreads s !! lastWaitingSender d) as [q|]; [by exists q|done]. }
    cbn [rbind]. rewrite (check_servicequeue_spec v d' (l ++ [t]) _ Ed' HQ'), length_app, El.
    replace (pairs (1414 + length [t]) <? 1000000) with false by (by vm_compute). done.
Qed.

(** [portal_remove_sender] breaks the queue when it removes the last
    sender: it does not update [lastWaitingSender].  After the only waiting
    sender [t] was removed, the next sender [u] is linked behind [t] instead
    of becoming the first, and [portal_dequeue_sender] does not find it: the
    call of [u] is lost. *)
Theorem remove_sender_loses_next v t u (s : sys) :
  v <> NULL -> waiting s v [t] -> u <> NULL -> is_Some (pthreads s !! u) -> u <> t ->
  exists s1 s2, portal_remove_sender v t s = Ok s1 /\ portal_add_sender v u s1 = Ok s2 /\
    portal_dequeue_sender v s2 = Ok (NULL, s2).
Proof.
  intros Hv (d & Ed & HQ) Hu [pu Eu] Hut. destruct HQ as (Hl & Hla & _). destruct (linked_cons _ _ _ _ Hl) as (Hf & Ht & x & Ex & Hn).
  unfold portal_remove_sender, svc_. rewrite Ed. cbn [rbind]. unfold q_fuel. cbn [remove_loop]. rewrite Hf, (proj2 (Z.eqb_neq t NULL) Ht), Ex. cbn [rbind].
  rewrite Z.eqb_refl. cbn [Z.eqb NULL]. change (nextInDEPQueue x = NULL) in Hn. rewrite Hn. set (s1 := upd_svc v (set_first NULL) s).
  set (d1 := set_first NULL d). assert (svcs s1 !! v = Some d1) as Ed1 by (unfold s1; cbn; by rewrite lookup_alter_eq, Ed).
  assert (forall w (s0 : sys) d0, svcs s0 !! v = Some d0 -> firstWaitingSender d0 = NULL ->
    check_servicequeue v s0 = Ok tt /\ check_notin_servicequeue v w s0 = Ok tt) as Hempty.
  { intros w s0 d0 E0 F0. unfold check_servicequeue, check_notin_servicequeue, svc_. rewrite E0. cbn [rbind]. rewrite F0. done. }
  exists s1. unfold portal_add_sender. rewrite (proj2 (Z.eqb_neq u NULL) Hu), (proj2 (Z.eqb_neq v NULL) Hv). cbn [negb assert_ rbind].
  destruct (Hempty u s1 d1 Ed1 eq_refl) as [-> ->]. cbn [rbind]. unfold pthr at 1. change (pthreads s1) with (pthreads s). rewrite Eu. cbn [rbind].
  unfold svc_ at 1. cbn [svcs upd_pthr]. rewrite Ed1. cbn [rbind]. change (lastWaitingSender d1) with (lastWaitingSender d).
  assert (lastWaitingSender d = t) as -> by (by rewrite Hla). rewrite (proj2 (Z.eqb_neq t NULL) Ht).
  unfold pthr at 1 in Ex. unfold pthr at 1. cbn [pthreads upd_pthr]. rewrite lookup_alter_ne by done. change (pthreads s1) with (pthreads s).
  destruct (pthreads s !! t) as [xt|]; [|done]. cbn [rbind].
  set (s2 := upd_svc v (set_last u) _). assert (svcs s2 !! v = Some (set_last u d1)) as Ed2 by (unfold s2; cbn [svcs upd_svc upd_pthr]; by rewrite lookup_alter_eq, Ed1).
  destruct (Hempty u s2 _ Ed2 eq_refl) as [-> _]. cbn [rbind]. exists s2. split_and!; try done. by eapply dequeue_empty.
Qed.
End Queue.

(** ** Witnesses *)

(** a service 7 with threads 2, 3 and 4; thread 2 waits *)
Definition waiting_room : sys unit :=
  let p := MkPThread PUser 0 [] 0 0 0 0 0 0 0 0 0 [] 0 0 0 in
  MkSys (MkSched ∅ ∅ [] 0 0 0 0) (list_to_map [(2, p); (3, p); (4, p)]) (list_to_map [(7, MkService 200 9 1 true 0 false 2 2 0)]) ∅ 0 tt.

Lemma waiting_room_ok : waiting waiting_room 7 [2].
Proof.
  eexists. split; [reflexivity|]. split_and!; [|done|apply (bool_decide_unpack _); by vm_compute].
  split; [done|]. split; [done|]. by exists 0.
Qed.

Lemma senders_fifo_witness : exists s1 s2, add_senders 7 [4; 3] waiting_room = Ok s1 /\ dequeue_senders 3 7 s1 = Ok ([2; 4; 3], s2).
Proof.
  destruct (senders_fifo 7 [2] [4; 3] waiting_room) as (s1 & s2 & E1 & E2 & _);
    [done|apply waiting_room_ok|apply (bool_decide_unpack _); by vm_compute| |by vm_compute|by exists s1, s2].
  repeat constructor; try done; by eexists.
Defined.

Lemma sender_queue_limit_witness : exists s1, portal_add_sender 7 3 waiting_room = Ok s1 /\ waiting s1 7 [2; 3].
Proof.
  apply (sender_queue_limit 7 3 [2] waiting_room); [done|apply waiting_room_ok|done|by eexists|apply (bool_decide_unpack _); by vm_compute|simpl; lia].
Defined.

Lemma remove_sender_loses_next_witness : exists s1 s2, portal_remove_sender 7 2 waiting_room = Ok s1 /\
  portal_add_sender 7 3 s1 = Ok s2 /\ portal_dequeue_sender 7 s2 = Ok (NULL, s2).
Proof. apply (remove_sender_loses_next 7 2 3 waiting_room); [done|apply waiting_room_ok|done|by eexists|done]. Defined.
