(* ===== verification/PortalInv.v ===== *)
(** * The portal protocol keeps its invariant

    Every step of [portal_step] refines a step on abstract FIFO queues and
    keeps the invariant: who waits in a queue is blocked and waits for that
    service, who is served waits for the result, and a receiver that sleeps
    has an empty queue.  [absinv] states this on the fields the protocol uses;
    [portal_inv] connects it with the linked queues and the scheduler. *)

From S2P Require Import Prelude RunQueue Portal.
#[local] Open Scope Z_scope.

(** ** The abstract state *)

(** the fields of a thread that the protocol uses *)
Record fields := MkFields {
  f_pc : pc;
  f_src : Z;     (** mostRecentlyCalledBy *)
  f_proc : Z;    (** processingDEP *)
  f_dom : Z;     (** blockedInDomain *)
  f_idx : Z;     (** blockedInServiceIndex *)
  f_thread : Z;  (** blockedInServiceThread *)
}.
Definition fields_of (p : pthread) : fields :=
  MkFields (p_pc p) (mostRecentlyCalledBy p) (processingDEP p) (blockedInDomain p) (blockedInServiceIndex p) (blockedInServiceThread p).

Definition receiving (p : pc) (i : Z) : Prop := p = PRecvBlocked i \/ p = PRecvLoop i.

Record absinv (L : Z -> list Z) (ts : Z -> option (Z * Z)) (F : Z -> option fields)
    (G : Z -> option (Z * Z * Z)) (E : Z -> Z -> option Z) : Prop := {
  a_waits : forall v d i r t, G v = Some (d, i, r) -> t ∈ L v ->
    (exists td, ts t = Some (STATE_PORTAL_WAIT_FOR_RCV, td) \/ ts t = Some (STATE_PORTAL_WAIT_FOR_RET, td)) /\
    exists f, F t = Some f /\ f_dom f = d /\ f_idx f = i;
  a_once : forall v x t r f, G v = Some x -> t ∈ L v -> F r = Some f -> f_src f <> NULL -> f_src f <> t;
  a_idle : forall v d i r td, G v = Some (d, i, r) -> ts r = Some (STATE_PORTAL_WAIT_FOR_SND, td) -> L v = [];
  a_entry : forall v d i r, G v = Some (d, i, r) -> E d i = Some v;
  a_served : forall r f, F r = Some f -> f_src f <> NULL ->
    (exists td, ts (f_src f) = Some (STATE_PORTAL_WAIT_FOR_RET, td)) /\
    exists g, F (f_src f) = Some g /\ f_thread g = r;
  a_serving : forall r f, F r = Some f -> f_src f <> NULL -> exists d i, G (f_proc f) = Some (d, i, r);
  a_loop : forall r f i, F r = Some f -> receiving (f_pc f) i -> f_src f = NULL /\ exists v d, G v = Some (d, i, r);
  a_recv : forall v v' d i d' i' r, r <> NULL -> G v = Some (d, i, r) -> G v' = Some (d', i', r) -> v = v';
  a_table : forall v d i d' i' r, E d i = Some v -> 0 <= i -> G v = Some (d', i', r) -> d' = d /\ i' = i;
  a_home : forall v d i r st d', G v = Some (d, i, r) -> ts r = Some (st, d') -> d' = d;
}.

Definition fupd {A} (g : Z -> A) (k : Z) (a : A) : Z -> A := fun y => if y =? k then a else g y.

(** what the queues do in one step *)
Inductive fifo_step (L : Z -> list Z) : (Z -> list Z) -> Prop :=
| fifo_same : fifo_step L L
| fifo_push v t : (forall w, t ∉ L w) -> fifo_step L (fupd L v (L v ++ [t]))
| fifo_pop v t l : L v = t :: l -> fifo_step L (fupd L v l).

Definition portal_state (st : Z) : Prop := st = STATE_PORTAL_WAIT_FOR_RCV \/ st = STATE_PORTAL_WAIT_FOR_RET.

Section Abstract.
Context (L : Z -> list Z) (ts : Z -> option (Z * Z)) (F : Z -> option fields).
Context (G : Z -> option (Z * Z * Z)) (E : Z -> Z -> option Z).
Context (I : absinv L ts F G E).

Lemma entry_unique v w d i r r' : G v = Some (d, i, r) -> G w = Some (d, i, r') -> v = w.
Proof using I. intros Hv%(a_entry _ _ _ _ _ I) Hw%(a_entry _ _ _ _ _ I). congruence. Qed.

(** a thread in no portal state is in no queue and not served *)
Lemma not_waiting t st td v x : ts t = Some (st, td) -> ~ portal_state st -> G v = Some x -> t ∉ L v.
Proof using I.
  intros Ht Hst Hv Hin. destruct x as [[d i] r]. destruct (a_waits _ _ _ _ _ I v d i r t Hv Hin) as [[td' [H|H]] _];
    rewrite H in Ht; injection Ht as <- _; apply Hst; [by left|by right].
Qed.
Lemma not_served t st td r f : ts t = Some (st, td) -> ~ portal_state st -> F r = Some f -> f_src f = t -> t = NULL.
Proof using I.
  intros Ht Hst Hr <-. destruct (Z.eq_dec (f_src f) NULL) as [|Hn]; [done|].
  destruct (a_served _ _ _ _ _ I r f Hr Hn) as [[td' H] _]. rewrite H in Ht. injection Ht as <- _. destruct Hst. by right.
Qed.
Lemma waits_once v w t x y : G v = Some x -> G w = Some y -> t ∈ L v -> t ∈ L w -> v = w.
Proof using I.
  intros Hv Hw Hinv Hinw. destruct x as [[d i] r], y as [[d' i'] r'].
  destruct (a_waits _ _ _ _ _ I v d i r t Hv Hinv) as [_ (f & Hf & <- & <-)].
  destruct (a_waits _ _ _ _ _ I w d' i' r' t Hw Hinw) as [_ (f' & Hf' & <- & <-)].
  rewrite Hf in Hf'. injection Hf' as <-. by eapply entry_unique.
Qed.

(** the protocol relies on the state of [t] *)
Definition involved (t : Z) : Prop :=
  (exists v x, G v = Some x /\ t ∈ L v) \/ (exists r f, F r = Some f /\ f_src f <> NULL /\ f_src f = t).

(** the states of other threads change *)
Lemma abs_states ts' :
  (forall t st td, ts t = Some (st, td) -> portal_state st -> involved t -> ts' t = Some (st, td)) ->
  (forall t, snd <$> ts' t = snd <$> ts t) ->
  (forall v d i r td, G v = Some (d, i, r) -> ts' r = Some (STATE_PORTAL_WAIT_FOR_SND, td) ->
     ts r = Some (STATE_PORTAL_WAIT_FOR_SND, td) \/ L v = []) ->
  absinv L ts' F G E.
Proof using I.
  intros Hkeep Hdom Hsnd. split; try apply I.
  - intros v d i r t Hv Ht. destruct (a_waits _ _ _ _ _ I v d i r t Hv Ht) as [[td [H|H]] Hf]; (split; [|done]); exists td.
    + left. apply (Hkeep _ _ _ H); [by left|]. left. by eexists _, _.
    + right. apply (Hkeep _ _ _ H); [by right|]. left. by eexists _, _.
  - intros v d i r td Hv Hr. destruct (Hsnd v d i r td Hv Hr) as [H|H]; [by eapply (a_idle _ _ _ _ _ I)|done].
  - intros r f Hr Hn. destruct (a_served _ _ _ _ _ I r f Hr Hn) as [[td H] Hg]. split; [|done]. exists td. apply (Hkeep _ _ _ H); [by right|]. right. by eexists _, _.
  - intros v d i r st d' Hv Hr. pose proof (Hdom r) as Hd. rewrite Hr in Hd. destruct (ts r) as [[st0 d0]|] eqn:E0; [|done].
    injection Hd as ->. by eapply (a_home _ _ _ _ _ I).
Qed.

(** a thread in no portal state changes its fields, but serves as before *)
Lemma abs_fields c st td f g : ts c = Some (st, td) -> ~ portal_state st -> c <> NULL -> F c = Some f ->
  (f_src g = f_src f /\ f_proc g = f_proc f \/ f_src g = NULL) ->
  (forall i, receiving (f_pc g) i -> f_src g = NULL /\ exists v d, G v = Some (d, i, c)) ->
  absinv L ts (fupd F c (Some g)) G E.
Proof using I.
  intros Hc Hst Hc0 Hf Hsrc Hpc. unfold fupd. split; try apply I.
  - intros v d i r t Hv Ht. destruct (a_waits _ _ _ _ _ I v d i r t Hv Ht) as [Hs (h & Hh & ?)]. split; [done|].
    exists h. destruct (Z.eqb_spec t c) as [->|]; [|done]. by destruct (not_waiting c st td v _ Hc Hst Hv).
  - intros v x t r h Hv Ht. destruct (Z.eqb_spec r c) as [->|]; [|by apply (a_once _ _ _ _ _ I v x)].
    intros [= <-] Hn. destruct Hsrc as [[Es _]|]; [|done]. rewrite Es in *. by apply (a_once _ _ _ _ _ I v x t c).
  - intros r h Hr Hn. assert (forall y k, F y = Some k -> f_src k <> NULL -> f_src k <> c) as Hnc.
    { intros y k Hy Hk Ek. by apply Hc0, (not_served c st td y k). }
    destruct (Z.eqb_spec r c) as [->|Hrc].
    + injection Hr as <-. destruct Hsrc as [[Es _]|]; [|done]. rewrite Es in *.
      destruct (a_served _ _ _ _ _ I c f Hf Hn) as [Hs Hg]. split; [done|].
      by rewrite (proj2 (Z.eqb_neq _ _) (Hnc c f Hf Hn)).
    + destruct (a_served _ _ _ _ _ I r h Hr Hn) as [Hs Hg]. split; [done|].
      by rewrite (proj2 (Z.eqb_neq _ _) (Hnc r h Hr Hn)).
  - intros r h. destruct (Z.eqb_spec r c) as [->|]; [|apply (a_serving _ _ _ _ _ I)]. intros [= <-] Hn.
    destruct Hsrc as [[Es Ep]|]; [|done]. rewrite Es in Hn. rewrite Ep. by apply (a_serving _ _ _ _ _ I c f).
  - intros r h i. destruct (Z.eqb_spec r c) as [->|]; [|apply (a_loop _ _ _ _ _ I)]. intros [= <-]. apply Hpc.
Qed.

(** a caller [c] joins the queue of [v] and sleeps; the receiver may wake up *)
Lemma abs_send c v d i r st td f g ts' :
  ts c = Some (st, td) -> ~ portal_state st -> c <> NULL -> F c = Some f -> G v = Some (d, i, r) ->
  f_src g = f_src f -> f_proc g = f_proc f -> f_dom g = d -> f_idx g = i -> (forall j, ~ receiving (f_pc g) j) ->
  (exists st', ts' c = Some (st', td) /\ portal_state st') ->
  (forall t, t <> c -> t <> r -> ts' t = ts t) -> (forall t, snd <$> ts' t = snd <$> ts t) ->
  (forall st0 d0, ts r = Some (st0, d0) -> r <> c -> portal_state st0 -> ts' r = Some (st0, d0)) ->
  (forall d0, ts' r <> Some (STATE_PORTAL_WAIT_FOR_SND, d0)) ->
  absinv (fupd L v (L v ++ [c])) ts' (fupd F c (Some g)) G E.
Proof using I.
  intros Hc Hst Hc0 Hf Hv Es Ep Ed Ei Hpc (stc & Hstc & Hwait) Hsame Hdom Hr Hsnd.
  assert (forall t st0 d0, ts t = Some (st0, d0) -> portal_state st0 -> ts' t = Some (st0, d0)) as Hkeep.
  { intros t st0 d0 Ht Hp. destruct (decide (t = c)) as [->|Hne]; [rewrite Hc in Ht; by injection Ht as -> _|].
    destruct (decide (t = r)) as [->|]; [by apply Hr|]. by rewrite Hsame. }
  assert (forall w x, G w = Some x -> c ∉ L w) as Hnc by (intros w x; by eapply not_waiting).
  assert (forall y k, F y = Some k -> f_src k <> NULL -> f_src k <> c) as Hns.
  { intros y k Hy Hk Ek. by apply Hc0, (not_served c st td y k). }
  unfold fupd. split; try apply I.
  - intros w d' i' r' t Hw Ht. destruct (Z.eqb_spec t c) as [->|Htc].
    + destruct (Z.eqb_spec w v) as [->|Hwv]; [|by destruct (Hnc w _ Hw)]. rewrite Hv in Hw. injection Hw as <- <- <-. split.
      * exists td. destruct Hwait as [-> | ->]; [by left|by right].
      * by exists g.
    + assert (t ∈ L w) as Hin.
      { destruct (w =? v) eqn:Ewv; [|done]. apply Z.eqb_eq in Ewv as ->. apply elem_of_app in Ht as [?|Ht%list_elem_of_singleton]; done. }
      destruct (a_waits _ _ _ _ _ I w d' i' r' t Hw Hin) as [[td' [H|H]] Hg]; (split; [exists td'|done]); [left|right]; apply (Hkeep _ _ _ H); [by left|by right].
  - intros w x t y k Hw Ht Hy Hk. assert (exists k0, F y = Some k0 /\ f_src k = f_src k0) as (k0 & Hy0 & Ek).
    { destruct (Z.eqb_spec y c) as [->|]; [injection Hy as <-; by exists f|by exists k]. }
    rewrite Ek in *. destruct (Z.eqb_spec w v) as [->|]; [|by apply (a_once _ _ _ _ _ I w x t y k0)].
    apply elem_of_app in Ht as [Ht| ->%list_elem_of_singleton]; [by apply (a_once _ _ _ _ _ I v x t y k0)|by apply (Hns y k0)].
  - intros w d' i' r' td' Hw Hr'. destruct (decide (r' = r)) as [->|Hne]; [by destruct (Hsnd td')|].
    destruct (decide (r' = c)) as [->|Hnc'].
    + rewrite Hstc in Hr'. injection Hr' as -> _. by destruct Hwait.
    + rewrite Hsame in Hr' by done. destruct (Z.eqb_spec w v) as [->|]; [|by eapply (a_idle _ _ _ _ _ I)].
      rewrite Hv in Hw. injection Hw as _ _ <-. done.
  - intros y k Hy Hk. assert (exists k0, F y = Some k0 /\ f_src k = f_src k0) as (k0 & Hy0 & Ek).
    { destruct (Z.eqb_spec y c) as [->|]; [injection Hy as <-; by exists f|by exists k]. }
    rewrite Ek in *. destruct (a_served _ _ _ _ _ I y k0 Hy0 Hk) as [[td' H] Hg]. split.
    + exists td'. apply (Hkeep _ _ _ H). by right.
    + by rewrite (proj2 (Z.eqb_neq _ _) (Hns y k0 Hy0 Hk)).
  - intros y k Hy Hk. destruct (Z.eqb_spec y c) as [->|]; [|by apply (a_serving _ _ _ _ _ I y k)]. injection Hy as <-.
    rewrite Es in Hk. rewrite Ep. by apply (a_serving _ _ _ _ _ I c f).
  - intros y k j Hy Hj. destruct (Z.eqb_spec y c) as [->|]; [|by apply (a_loop _ _ _ _ _ I y k j)]. injection Hy as <-. by destruct (Hpc j).
  - intros w d' i' r' st' d0 Hw Hr'. pose proof (Hdom r') as Hd. rewrite Hr' in Hd. destruct (ts r') as [[st0 d1]|] eqn:E0; [|done].
    injection Hd as ->. by eapply (a_home _ _ _ _ _ I).
Qed.

(** the receiver [c] of [v] takes the first sender [t] *)
Lemma abs_accept c v d i st td stt tdt t l f g ft gt ts' :
  ts c = Some (st, td) -> ~ portal_state st -> c <> NULL -> F c = Some f -> G v = Some (d, i, c) ->
  L v = t :: l -> t ∉ l -> t <> NULL -> F t = Some ft -> ts t = Some (stt, tdt) ->
  f_src g = t -> f_proc g = v -> (forall j, ~ receiving (f_pc g) j) ->
  f_src gt = f_src ft -> f_proc gt = f_proc ft -> f_pc gt = f_pc ft -> f_dom gt = f_dom ft -> f_idx gt = f_idx ft -> f_thread gt = c ->
  ts' t = Some (STATE_PORTAL_WAIT_FOR_RET, tdt) -> (forall y, y <> t -> ts' y = ts y) ->
  absinv (fupd L v l) ts' (fupd (fupd F c (Some g)) t (Some gt)) G E.
Proof using I.
  intros Hc Hst Hc0 Hf Hv HL Htl Ht0 Hft Htt Es Ep Hpc Es' Ep' Epc' Ed' Ei' Eth Hret Hsame.
  assert (t ∈ L v) as Htv by (rewrite HL; apply list_elem_of_here).
  assert (t <> c) as Htc by (intros ->; by apply (not_waiting c st td v _ Hc Hst Hv)).
  assert (portal_state stt) as Hpt.
  { destruct (a_waits _ _ _ _ _ I v d i c t Hv Htv) as [[td' [H|H]] _]; rewrite H in Htt; injection Htt as <- _; [by left|by right]. }
  assert (forall y k, F y = Some k -> f_src k <> NULL -> f_src k <> c /\ f_src k <> t) as Hns.
  { intros y k Hy Hk. split; [intros Ek; by apply Hc0, (not_served c st td y k)|by apply (a_once _ _ _ _ _ I v _ t y k Hv)]. }
  assert (forall w x, G w = Some x -> t ∉ fupd L v l w) as Htout.
  { intros w x Hw. unfold fupd. destruct (Z.eqb_spec w v) as [->|Hne]; [done|]. intros Hin. by apply Hne, (waits_once w v t _ _ Hw Hv Hin Htv). }
  assert (forall w x, x ∈ fupd L v l w -> x ∈ L w) as Hsub.
  { intros w x. unfold fupd. destruct (Z.eqb_spec w v) as [->|]; [|done]. rewrite HL. intros ?. by apply list_elem_of_further. }
  set (L' := fupd L v l) in *. unfold fupd. split; try apply I.
  - intros w d' i' r' y Hw Hy. assert (y <> t) as Hyt by (intros ->; by apply (Htout w _ Hw)).
    destruct (a_waits _ _ _ _ _ I w d' i' r' y Hw (Hsub _ _ Hy)) as [Hs Hg]. rewrite (Hsame y Hyt). split; [done|].
    rewrite (proj2 (Z.eqb_neq y t) Hyt), (proj2 (Z.eqb_neq y c)); [done|]. intros ->.
    by apply (not_waiting c st td w _ Hc Hst Hw), Hsub.
  - intros w x y z k Hw Hy Hz Hk. destruct (Z.eqb_spec z t) as [->|Hzt].
    + injection Hz as <-. rewrite Es' in *. apply (a_once _ _ _ _ _ I w x y t ft Hw); [by apply Hsub|done|done].
    + destruct (Z.eqb_spec z c) as [->|]; [|by apply (a_once _ _ _ _ _ I w x y z k Hw (Hsub _ _ Hy))].
      injection Hz as <-. rewrite Es. intros <-. by apply (Htout w _ Hw).
  - intros w d' i' r' td' Hw Hr'. destruct (decide (r' = t)) as [->|Hne].
    + rewrite Hret in Hr'. done.
    + rewrite Hsame in Hr' by done. pose proof (a_idle _ _ _ _ _ I w d' i' r' td' Hw Hr') as He. unfold L', fupd.
      destruct (Z.eqb_spec w v) as [->|]; [|done]. by rewrite HL in He.
  - intros y k Hy Hk. destruct (Z.eqb_spec y t) as [->|Hyt].
    + injection Hy as <-. rewrite Es' in *. destruct (Hns t ft Hft Hk) as [H1 H2].
      destruct (a_served _ _ _ _ _ I t ft Hft Hk) as [Hs Hg]. rewrite (Hsame _ H2). split; [done|].
      by rewrite (proj2 (Z.eqb_neq _ _) H2), (proj2 (Z.eqb_neq _ _) H1).
    + destruct (Z.eqb_spec y c) as [->|Hyc].
      * injection Hy as <-. rewrite Es, Z.eqb_refl. split; [by exists tdt|]. by exists gt.
      * destruct (Hns y k Hy Hk) as [H1 H2]. destruct (a_served _ _ _ _ _ I y k Hy Hk) as [Hs Hg]. rewrite (Hsame _ H2). split; [done|].
        by rewrite (proj2 (Z.eqb_neq _ _) H2), (proj2 (Z.eqb_neq _ _) H1).
  - intros y k Hy Hk. destruct (Z.eqb_spec y t) as [->|Hyt].
    + injection Hy as <-. rewrite Es' in Hk. rewrite Ep'. by apply (a_serving _ _ _ _ _ I t ft).
    + destruct (Z.eqb_spec y c) as [->|]; [|by apply (a_serving _ _ _ _ _ I y k)]. injection Hy as <-. rewrite Ep. by exists d, i.
  - intros y k j Hy Hj. destruct (Z.eqb_spec y t) as [->|Hyt].
    + injection Hy as <-. rewrite Epc' in Hj. rewrite Es'. by apply (a_loop _ _ _ _ _ I t ft j).
    + destruct (Z.eqb_spec y c) as [->|]; [|by apply (a_loop _ _ _ _ _ I y k j)]. injection Hy as <-. by destruct (Hpc j).
  - intros w d' i' r' st' d0 Hw Hr'. destruct (decide (r' = t)) as [->|Hne].
    + rewrite Hret in Hr'. injection Hr' as _ <-. by apply (a_home _ _ _ _ _ I w d' i' t stt tdt).
    + rewrite Hsame in Hr' by done. by eapply (a_home _ _ _ _ _ I).
Qed.

(** the receiver [c], which serves nobody, sleeps or goes round its loop *)
Lemma abs_receive c v d i st td f g : ts c = Some (st, td) -> ~ portal_state st -> c <> NULL -> F c = Some f -> G v = Some (d, i, c) ->
  f_src g = NULL -> receiving (f_pc g) i -> absinv L ts (fupd F c (Some g)) G E.
Proof using I.
  intros Hc Hst Hc0 Hf Hv Es Hpc. eapply abs_fields; try done; [by right|].
  intros j Hj. split; [done|]. exists v, d. assert (j = i) as ->; [|done].
  destruct Hpc as [Hp|Hp], Hj as [Hj|Hj]; congruence.
Qed.
End Abstract.

(** ** Handing over the CPU *)

Lemma not_runnable_out s q t st d : rep s q -> tinfo s t = Some (st, d) -> st <> STATE_RUNNABLE -> ~ queued q t.
Proof. intros H Ht Hst [e He]. pose proof (r_mem s q H e t He) as Hr. rewrite Ht in Hr. by injection Hr. Qed.

Lemma chosen_idle s s' cd q : idle_thread s' = idle_thread s -> chosen s' cd q = chosen s cd q.
Proof. unfold chosen. by intros ->. Qed.

Lemma switch_after_unblock s q cd t T :
  sched_mid s q cd -> threads s !! t = Some T -> ~ queued q t -> t <> idle_thread s ->
  exists s' cd', (let! s := threadunblock t s in Sched_switch_to_nextThread s) = Ok s' /\
    sched_ok s' (snd (q_pick cd (q_ready cd (t_domain T) t q))) cd' /\
    current s' = chosen s cd (q_ready cd (t_domain T) t q) /\ idle_thread s' = idle_thread s /\
    forall y, tinfo s' y = if y =? t then Some (STATE_RUNNABLE, t_domain T) else tinfo s y.
Proof.
  intros Hm ET Hn Hi. destruct (threadunblock_spec s q cd t T Hm ET Hn Hi) as (s1 & E1 & Hm1 & _ & Hid & Ht).
  destruct (switch_next_spec s1 _ cd Hm1) as (s2 & cd' & E2 & Hc & Hok & Ht2 & Hid2). rewrite E1. cbn [rbind].
  exists s2, cd'. split_and!; [done|done|by rewrite Hc; apply chosen_idle|congruence|]. intros y. by rewrite Ht2.
Qed.

Lemma handoff_receiver_spec s q cd r T :
  sched_ok s q cd -> current s <> idle_thread s -> threads s !! r = Some T -> t_state T <> STATE_RUNNABLE ->
  exists s' cd', Sched_portal_handoff_to_receiver r s = Ok s' /\
    sched_ok s' (snd (q_pick cd (q_ready cd (t_domain T) r q))) cd' /\
    current s' = chosen s cd (q_ready cd (t_domain T) r q) /\ idle_thread s' = idle_thread s /\
    forall y, tinfo s' y = if y =? r then Some (STATE_RUNNABLE, t_domain T)
                           else if y =? current s then Some (STATE_PORTAL_WAIT_FOR_RET, cd) else tinfo s y.
Proof.
  intros [Hm Hrun Hout] Hi ET Hst. unfold Sched_portal_handoff_to_receiver, curthr.
  pose proof (tinfo_thr _ _ _ ET) as Er.
  assert (r <> current s) as Hrc by (intros ->; rewrite Hrun in Er; by injection Er as E _).
  pose proof (not_runnable_out s q r _ _ (sm_rep _ _ _ Hm) Er Hst) as Hn.
  assert (r <> idle_thread s) as Hri. { intros ->. destruct (sm_idle _ _ _ Hm) as [dz E]. rewrite Er in E. by injection E. }
  set (s1 := set_t_state (current s) STATE_PORTAL_WAIT_FOR_RET s).
  assert (Hm1 : sched_mid s1 q cd) by (apply sched_mid_set_state; [done|by right]).
  assert (threads s1 !! r = Some T) as ET1 by (unfold s1, set_t_state, upd_thr; simpl; by rewrite lookup_alter_ne).
  unfold thr. rewrite ET1. cbn [rbind]. set (s2 := set_t_state r STATE_RUNNABLE s1).
  assert (Hm2 : sched_mid s2 q cd) by (apply sched_mid_set_state; [done|by left]).
  assert (threads s2 !! r = Some (MkThread STATE_RUNNABLE (t_domain T) (t_nextInRunQueue T))) as ET2.
  { unfold s2, set_t_state, upd_thr. simpl. rewrite lookup_alter_eq. change (threads s1 !! r) with (threads s1 !! r). simpl in ET1. by rewrite ET1. }
  destruct (switch_after_unblock s2 q cd r _ Hm2 ET2 Hn Hri) as (s' & cd' & E & Hok & Hc & Hid & Ht). cbn [t_domain] in *.
  exists s', cd'. split_and!; [exact E|done|done|done|]. intros y. rewrite Ht. destruct (Z.eqb_spec y r) as [|Hy]; [done|].
  unfold s2. rewrite tinfo_set_t_state, (proj2 (Z.eqb_neq y r) Hy). unfold s1. rewrite tinfo_set_t_state.
  destruct (y =? current s); [by rewrite Hrun|done].
Qed.

Lemma handoff_sender_spec s q cd t T (b : bool) :
  sched_ok s q cd -> current s <> idle_thread s -> threads s !! t = Some T -> t_state T <> STATE_RUNNABLE ->
  exists s' q' cd', Sched_portal_handoff_to_sender t b s = Ok s' /\
    sched_ok s' (snd (q_pick cd (q_ready cd (t_domain T) t q'))) cd' /\
    (q' = if b then q_tpush cd (current s) q else q) /\
    current s' = chosen s cd (q_ready cd (t_domain T) t q') /\ idle_thread s' = idle_thread s /\
    forall y, tinfo s' y = if y =? t then Some (STATE_RUNNABLE, t_domain T)
      else if y =? current s then Some (if b then STATE_RUNNABLE else STATE_PORTAL_WAIT_FOR_SND, cd) else tinfo s y.
Proof.
  intros [Hm Hrun Hout] Hi ET Hst. unfold Sched_portal_handoff_to_sender, curthr.
  pose proof (tinfo_thr _ _ _ ET) as Er.
  assert (t <> current s) as Htc by (intros ->; rewrite Hrun in Er; by injection Er as E _).
  pose proof (not_runnable_out s q t _ _ (sm_rep _ _ _ Hm) Er Hst) as Hn.
  assert (t <> idle_thread s) as Hti. { intros ->. destruct (sm_idle _ _ _ Hm) as [dz E]. rewrite Er in E. by injection E. }
  destruct (tinfo_some _ _ _ _ Hrun) as (C & EC & HCs & HCd). unfold thr. rewrite EC. cbn [rbind]. rewrite HCd.
  destruct b; cbv iota zeta.
  - set (s1 := set_t_state (current s) STATE_RUNNABLE s).
    assert (Hm1 : sched_mid s1 q cd) by (apply sched_mid_set_state; [done|by left]).
    assert (tinfo s1 (current s) = Some (STATE_RUNNABLE, cd)) as H1.
    { unfold s1. rewrite tinfo_set_t_state, Z.eqb_refl. by rewrite Hrun. }
    destruct (threadrunq_append_spec s1 q cd (current s) (sm_rep _ _ _ Hm1) H1) as (s2 & E2 & H2 & F2).
    { intros Hin. apply Hout. by exists cd. }
    change (current s1) with (current s). rewrite E2. cbn [rbind].
    assert (Hm2 : sched_mid s2 (q_tpush cd (current s) q) cd).
    { eapply sched_mid_frame; [exact Hm1|done|done|by apply balanced_tpush_cur, (sm_bal _ _ _ Hm)|].
      intros [Hq|Hq]%queued_tpush; [by apply (sm_idle_out _ _ _ Hm)|by apply Hi]. }
    assert (forall y, tinfo s2 y = tinfo s y) as Ht2.
    { intros y. rewrite (f_info _ _ F2). unfold s1. rewrite tinfo_set_t_state. destruct (Z.eqb_spec y (current s)) as [->|]; [by rewrite Hrun|done]. }
    pose proof (Ht2 t) as Et2. rewrite Er in Et2. destruct (tinfo_some _ _ _ _ Et2) as (T2 & ET2 & HT2 & HT2d).
    destruct (switch_after_unblock s2 _ cd t T2 Hm2 ET2) as (s' & cd' & E & Hok & Hc & Hid & Ht).
    + intros [?|?]%queued_tpush; done.
    + by rewrite (f_idle _ _ F2).
    + rewrite HT2d in *. exists s', (q_tpush cd (current s) q), cd'. split_and!; [exact E|done|done| | |].
      * rewrite Hc. apply chosen_idle. apply (f_idle _ _ F2).
      * rewrite Hid. apply (f_idle _ _ F2).
      * intros y. rewrite Ht, Ht2. destruct (y =? t); [done|]. destruct (Z.eqb_spec y (current s)) as [->|]; [by rewrite Hrun|done].
  - cbn [rbind]. set (s1 := set_t_state (current s) STATE_PORTAL_WAIT_FOR_SND s).
    assert (Hm1 : sched_mid s1 q cd) by (apply sched_mid_set_state; [done|by right]).
    assert (threads s1 !! t = Some T) as ET1 by (unfold s1, set_t_state, upd_thr; simpl; by rewrite lookup_alter_ne).
    destruct (switch_after_unblock s1 q cd t T Hm1 ET1 Hn Hti) as (s' & cd' & E & Hok & Hc & Hid & Ht).
    exists s', q, cd'. split_and!; [exact E|done|done|done|done|]. intros y. rewrite Ht. destruct (y =? t); [done|].
    unfold s1. rewrite tinfo_set_t_state. destruct (y =? current s); [by rewrite Hrun|done].
Qed.

(** ** The invariant of the system *)

Section Invariant.
Context {X : Type} `{!Copying X}.
Abbreviation sys := (sys X).

Definition states (s : sys) (t : Z) : option (Z * Z) := tinfo (sch s) t.
Definition thread_fields (s : sys) (t : Z) : option fields := fields_of <$> pthreads s !! t.
Definition service_ids (s : sys) (v : Z) : option (Z * Z * Z) :=
  (fun x => (svc_domain x, svc_index x, svc_receiver x)) <$> svcs s !! v.
Definition entries (s : sys) (d i : Z) : option Z := pdoms s !! d ≫= fun pd => services_of pd !! Z.to_nat i.

Definition queues_ok (L : Z -> list Z) (s : sys) : Prop :=
  forall v x, svcs s !! v = Some x -> queue (pnext (pthreads s)) (firstWaitingSender x) (lastWaitingSender x) (L v).

Record portal_inv (L : Z -> list Z) (s : sys) : Prop := {
  pv_sched : exists q cd, sched_ok (sch s) q cd;
  pv_queues : queues_ok L s;
  pv_abs : absinv L (states s) (thread_fields s) (service_ids s) (entries s);
  pv_null : pthreads s !! NULL = None;
  pv_none : forall v, svcs s !! v = None -> L v = [];
}.

Lemma absinv_ext L ts F G E ts' F' G' E' : (forall t, ts' t = ts t) -> (forall t, F' t = F t) -> (forall v, G' v = G v) ->
  (forall d i, E' d i = E d i) -> absinv L ts F G E -> absinv L ts' F' G' E'.
Proof.
  intros Hts HF HG HE I. split; intros *; rewrite ?Hts, ?HF, ?HG, ?HE; try setoid_rewrite Hts; try setoid_rewrite HF; try setoid_rewrite HG; apply I.
Qed.

Lemma states_sched (s : sys) q cd : sched_ok (sch s) q cd -> states s (cur s) = Some (STATE_RUNNABLE, cd) /\ cur s <> NULL.
Proof.
  intros Hok. split; [exact (so_run _ _ _ Hok)|]. exact (nonnull_thread _ _ _ _ _ (sm_rep _ _ _ (so_mid _ _ _ Hok)) (so_run _ _ _ Hok)).
Qed.

Lemma fields_upd c f (s : sys) y :
  thread_fields (upd_pthr c f s) y = if y =? c then fields_of <$> (f <$> pthreads s !! c) else thread_fields s y.
Proof. unfold thread_fields. cbn [pthreads upd_pthr]. rewrite alter_lookup. by destruct (y =? c). Qed.

Lemma pnext_upd c f (m : gmap Z pthread) y : (forall x, nextInDEPQueue (f x) = nextInDEPQueue x) -> pnext (alter f c m) y = pnext m y.
Proof.
  intros Hf. unfold pnext. rewrite alter_lookup. destruct (Z.eqb_spec y c) as [->|]; [|done]. destruct (m !! c); [|done]. simpl. by rewrite Hf.
Qed.

(** a change of a thread that touches neither its links nor the protocol *)
Lemma inv_upd_other L c f (s : sys) : (forall x, nextInDEPQueue (f x) = nextInDEPQueue x) -> (forall x, fields_of (f x) = fields_of x) ->
  portal_inv L s -> portal_inv L (upd_pthr c f s).
Proof.
  intros Hn Hf [Hs Hq Ha H0 HN]. split; [exact Hs| | | |exact HN].
  - intros v x Hv. eapply queue_ext; [intros y _; by apply pnext_upd|by apply Hq].
  - refine (absinv_ext _ _ _ _ _ _ _ _ _ _ _ _ _ Ha); try done. intros t. rewrite fields_upd.
    destruct (Z.eqb_spec t c) as [->|]; [|done]. unfold thread_fields. destruct (pthreads s !! c); [|done]. simpl. by rewrite Hf.
  - cbn [pthreads upd_pthr]. rewrite alter_lookup. destruct (Z.eqb_spec NULL c) as [<-|]; [by rewrite H0|done].
Qed.

Lemma inv_heaps L x (s : sys) : portal_inv L s -> portal_inv L (set_heaps x s).
Proof. intros [Hs Hq Ha H0 HN]. by split. Qed.

(** a thread in no portal state changes what it does *)
Lemma inv_upd L c st td x f (s : sys) : portal_inv L s -> states s c = Some (st, td) -> ~ portal_state st -> c <> NULL ->
  pthreads s !! c = Some x -> nextInDEPQueue (f x) = nextInDEPQueue x ->
  (mostRecentlyCalledBy (f x) = mostRecentlyCalledBy x /\ processingDEP (f x) = processingDEP x \/ mostRecentlyCalledBy (f x) = NULL) ->
  (forall i, receiving (p_pc (f x)) i -> mostRecentlyCalledBy (f x) = NULL /\ exists v d, service_ids s v = Some (d, i, c)) ->
  portal_inv L (upd_pthr c f s).
Proof.
  intros [Hs Hq Ha H0 HN] Hc Hst Hc0 Hx Hn Hsrc Hpc.
  assert (thread_fields s c = Some (fields_of x)) as HF by (unfold thread_fields; by rewrite Hx).
  split; [exact Hs| | | |exact HN].
  - intros v y Hv. eapply queue_ext; [|by apply Hq]. intros z _. unfold pnext. cbn [pthreads upd_pthr]. rewrite alter_lookup.
    destruct (Z.eqb_spec z c) as [->|]; [|done]. rewrite Hx. simpl. by rewrite Hn.
  - refine (absinv_ext _ _ _ _ _ _ _ _ _ _ _ _ _ (abs_fields _ _ _ _ _ Ha c st td (fields_of x) (fields_of (f x)) Hc Hst Hc0 HF Hsrc Hpc)); try done.
    intros t. rewrite fields_upd. unfold fupd. destruct (t =? c); [by rewrite Hx|done].
  - cbn [pthreads upd_pthr]. rewrite alter_lookup. destruct (Z.eqb_spec NULL c) as [<-|]; [done|done].
Qed.

(** the scheduler changed the states of threads outside portal calls *)
Lemma inv_sched L c (s : sys) : portal_inv L s -> (exists q cd, sched_ok c q cd) ->
  (forall t st td, states s t = Some (st, td) -> portal_state st -> involved L (thread_fields s) (service_ids s) t -> tinfo c t = Some (st, td)) ->
  (forall t, snd <$> tinfo c t = snd <$> states s t) ->
  (forall v x td, svcs s !! v = Some x -> tinfo c (svc_receiver x) = Some (STATE_PORTAL_WAIT_FOR_SND, td) ->
     states s (svc_receiver x) = Some (STATE_PORTAL_WAIT_FOR_SND, td) \/ L v = []) ->
  portal_inv L (set_sch c s).
Proof.
  intros [Hs Hq Ha H0 HN] Hok Hk Hd Hsnd. split; [exact Hok|exact Hq| |exact H0|exact HN].
  apply (abs_states _ _ _ _ _ Ha); [exact Hk|exact Hd|].
  intros v d i r td Hv Hr. unfold service_ids in Hv. destruct (svcs s !! v) as [x|] eqn:Ex; [|done]. injection Hv as _ _ Er.
  rewrite <- Er in *. by apply (Hsnd v x).
Qed.

(** ** Steps of Java code *)

Lemma runnable_not_portal : ~ portal_state STATE_RUNNABLE.
Proof. by intros [?|?]. Qed.

Lemma lift_ok f (s s' : sys) : lift f s = Ok s' -> exists c, f (sch s) = Ok c /\ s' = set_sch c s.
Proof. unfold lift. intros E. apply rbind_ok in E as (c & E & Es). injection Es as <-. by exists c. Qed.

Lemma inv_yield L (s s' : sys) : portal_inv L s -> lift threadyield s = Ok s' -> portal_inv L s'.
Proof.
  intros I (c & E & ->)%lift_ok. destruct (pv_sched _ _ I) as (q & cd & Hok).
  destruct (threadyield_spec _ q cd Hok) as (s1 & cd' & E1 & Hok1 & _ & Ht & _). rewrite E in E1. injection E1 as <-.
  apply inv_sched; [done|by eexists _, _|intros t st td Hst _; by rewrite Ht|intros t; by rewrite Ht|intros v x td _ Hx; left; by rewrite Ht in Hx].
Qed.

Lemma inv_block L (s s' : sys) : portal_inv L s -> cur s <> idle_thread (sch s) -> lift threadblock s = Ok s' -> portal_inv L s'.
Proof.
  intros I Hi (c & E & ->)%lift_ok. destruct (pv_sched _ _ I) as (q & cd & Hok).
  destruct (states_sched s q cd Hok) as [Hc Hc0]. unfold threadblock in E.
  destruct (Sched_block_spec _ q cd STATE_BLOCKEDUSER Hok ltac:(done) Hi) as (s1 & cd' & E1 & Hok1 & _ & Ht). rewrite E in E1. injection E1 as <-.
  apply inv_sched; [done|by eexists _, _| | |].
  - intros t st td Hst Hp. rewrite Ht. destruct (Z.eqb_spec t (current (sch s))) as [->|]; [|done].
    change (states s (cur s) = Some (st, td)) in Hst. rewrite Hc in Hst. injection Hst as <- _. by destruct runnable_not_portal.
  - intros t. rewrite Ht. destruct (Z.eqb_spec t (current (sch s))) as [->|]; [|done].
    change (states s (current (sch s))) with (states s (cur s)). by rewrite Hc.
  - intros v x td _ Hx. rewrite Ht in Hx. destruct (Z.eqb_spec (svc_receiver x) (current (sch s))); [done|by left].
Qed.

Lemma inv_unblock L t d (s s' : sys) : portal_inv L s -> tinfo (sch s) t = Some (STATE_BLOCKEDUSER, d) ->
  lift (threadunblock t) s = Ok s' -> portal_inv L s'.
Proof.
  intros I Hst (c & E & ->)%lift_ok. destruct (pv_sched _ _ I) as (q & cd & [Hm Hrun Hout]).
  destruct (tinfo_some _ _ _ _ Hst) as (T & ET & HT & HTd).
  assert (t <> current (sch s)) as Htc by (intros ->; by rewrite Hrun in Hst).
  destruct (threadunblock_spec _ q cd t T Hm ET) as (s1 & E1 & Hm1 & Hc1 & _ & Ht).
  { by eapply not_runnable_out; [apply Hm|exact Hst|]. }
  { intros ->. destruct (sm_idle _ _ _ Hm) as [dz Hz]. by rewrite Hz in Hst. }
  rewrite E in E1. injection E1 as <-. apply inv_sched; [done| | | |].
  - eexists _, _. split; [exact Hm1| |]; rewrite Hc1; [by rewrite Ht, (proj2 (Z.eqb_neq _ _)) by congruence|].
    intros [?|?]%queued_ready; [done|congruence].
  - intros y st td Hy Hp. rewrite Ht. destruct (Z.eqb_spec y t) as [->|]; [|done].
    unfold states in Hy. rewrite Hst in Hy. injection Hy as <- _. by destruct Hp.
  - intros y. rewrite Ht. unfold states. destruct (Z.eqb_spec y t) as [->|]; [|done]. rewrite Hst. simpl. by rewrite HTd.
  - intros v x td _ Hx. rewrite Ht in Hx. destruct (Z.eqb_spec (svc_receiver x) t); [done|by left].
Qed.

(** ** Steps of a sender *)

Lemma inv_finished L (s s' : sys) o : portal_inv L s -> (forall x i, pthreads s !! cur s = Some x -> ~ receiving (p_pc x) i) ->
  send_finished s = Ok (o, s') -> portal_inv L s'.
Proof.
  intros I Hpc E. destruct (pv_sched _ _ I) as (q & cd & Hok). destruct (states_sched s q cd Hok) as [Hc Hc0].
  unfold send_finished in E. apply rbind_ok in E as (x & Ex%pthr_some & E).
  assert (portal_inv L (upd_pthr (cur s) (fun x => set_dep [] (depMethodIndex x) (set_blocked NULL (blockedInDomainID x) 0 NULL x)) s)) as I1.
  { eapply inv_upd; [exact I|exact Hc|exact runnable_not_portal|exact Hc0|exact Ex|done|by left|]. intros i Hi. by destruct (Hpc x i Ex). }
  destruct (_ =? PORTAL_RETURN_TYPE_EXCEPTION); injection E as _ <-; [done|]. by apply inv_upd_other.
Qed.

Lemma inv_refused L (s s' : sys) o : portal_inv L s -> (forall x i, pthreads s !! cur s = Some x -> ~ receiving (p_pc x) i) ->
  send_refused s = Ok (o, s') -> portal_inv L s'.
Proof.
  intros I Hpc E. unfold send_refused in E. apply rbind_ok in E as (y & Ey%pthr_some & E). apply rbind_ok in E as ([o1 s1] & E1 & E).
  assert (s1 = s') as -> by (destruct o1; by injection E).
  eapply inv_finished; [|shelve|exact E1]. by apply inv_upd_other.
  Unshelve. intros x i Hx. change (cur _) with (cur s) in Hx. cbn [pthreads upd_pthr] in Hx. rewrite lookup_alter_eq, Ey in Hx. injection Hx as <-.
  by apply (Hpc y).
Qed.

Lemma inv_resume L (s : sys) : portal_inv L s -> portal_inv L (set_sch (Sched_block_resume (sch s)) s).
Proof.
  intros I. destruct (pv_sched _ _ I) as (q & cd & Hok). destruct (states_sched s q cd Hok) as [Hc Hc0].
  assert (forall t, tinfo (Sched_block_resume (sch s)) t = states s t) as Ht.
  { intros t. unfold Sched_block_resume. rewrite tinfo_set_t_state. unfold curthr, states.
    destruct (Z.eqb_spec t (current (sch s))) as [->|]; [|done]. unfold states, cur, curthr in Hc. by rewrite Hc. }
  apply inv_sched; [done| |intros t st td Hst _; by rewrite Ht|intros t; by rewrite Ht|intros v y td _ Hx; left; by rewrite Ht in Hx].
  exists q, cd. destruct Hok as [Hm Hrun Hout]. split; [by apply sched_mid_set_state; [|left]|by rewrite Ht|done].
Qed.

Lemma inv_send_resume L (s s' : sys) o : portal_inv L s -> send_resume s = Ok (o, s') -> portal_inv L s'.
Proof.
  intros I E. destruct (pv_sched _ _ I) as (q & cd & Hok). destruct (states_sched s q cd Hok) as [Hc Hc0].
  unfold send_resume in E. apply rbind_ok in E as (x & Ex%pthr_some & E). apply rbind_ok in E as (s1 & E1 & E).
  assert (portal_inv L s1 /\ cur s1 = cur s /\ pthreads s1 = pthreads s) as (I1 & Ec1 & Ep1).
  { assert (forall u, u = set_sch (Sched_block_resume (sch s)) s -> portal_inv L u /\ cur u = cur s /\ pthreads u = pthreads s) as Hres.
    { intros u ->. split; [by apply inv_resume|done]. }
    destruct (p_pc x).
    2: { apply rbind_ok in E1 as (v0 & _ & E1). apply rbind_ok in E1 as (_ & _ & E1). injection E1 as <-. by apply Hres. }
    all: apply rbind_ok in E1 as (y & _ & E1); apply rbind_ok in E1 as (_ & _ & E1); by injection E1 as <-. }
  assert (portal_inv L (upd_pthr (cur s) (set_pc PUser) s1)) as I2.
  { destruct (pv_sched _ _ I1) as (q1 & cd1 & Hok1). destruct (states_sched s1 q1 cd1 Hok1) as [Hc1 _]. rewrite Ec1 in Hc1. rewrite <- Ep1 in Ex.
    eapply inv_upd; [exact I1|exact Hc1|exact runnable_not_portal|exact Hc0|exact Ex|done|by left|]. by intros i [?|?]. }
  eapply inv_finished; [exact I2| |exact E]. intros y i Hy. change (cur (upd_pthr (cur s) (set_pc PUser) s1)) with (cur s1) in Hy.
  rewrite Ec1 in Hy. cbn [pthreads upd_pthr] in Hy. rewrite lookup_alter_eq, Ep1, Ex in Hy. injection Hy as <-. by intros [?|?].
Qed.

Lemma fields_strip (m m' : gmap Z pthread) y : strip m' = strip m -> fields_of <$> m' !! y = fields_of <$> m !! y.
Proof.
  intros E. apply (f_equal (fun k => k !! y)) in E. unfold strip in E. rewrite !lookup_fmap in E.
  destruct (m' !! y) as [p'|], (m !! y) as [p|]; try done. injection E as ?????. unfold fields_of. simpl. by f_equal/=; destruct p', p; simplify_eq/=.
Qed.

(** the queues of other services are not affected by the links of [v]'s senders *)
Lemma queue_elsewhere L v w x y (m m' : gmap Z pthread) (s : sys) : portal_inv L s ->
  svcs s !! v = Some x -> svcs s !! w = Some y -> w <> v ->
  (forall z, z ∈ L w -> z ∉ L v -> pnext m' z = pnext m z) ->
  queue (pnext m) (firstWaitingSender y) (lastWaitingSender y) (L w) ->
  queue (pnext m') (firstWaitingSender y) (lastWaitingSender y) (L w).
Proof.
  intros I Hv Hw Hne Hz HQ. eapply queue_ext; [|exact HQ]. intros z Hin. apply Hz; [done|]. intros Hinv. apply Hne.
  refine (waits_once _ _ _ _ _ (pv_abs _ _ I) w v z _ _ _ _ Hin Hinv); unfold service_ids; [by rewrite Hw|by rewrite Hv].
Qed.

Lemma inv_enqueue L (s : sys) svc v cd x f p sc st' :
  let c := cur s in
  portal_inv L s -> states s c = Some (STATE_RUNNABLE, cd) -> c <> NULL -> pthreads s !! c = Some x -> svcs s !! svc = Some v ->
  nextInDEPQueue (f x) = nextInDEPQueue x -> mostRecentlyCalledBy (f x) = mostRecentlyCalledBy x -> processingDEP (f x) = processingDEP x ->
  blockedInDomain (f x) = svc_domain v -> blockedInServiceIndex (f x) = svc_index v -> (forall j, ~ receiving p j) ->
  (exists q cd, sched_ok sc q cd) -> portal_state st' -> svc_receiver v <> c ->
  tinfo sc c = Some (st', cd) -> (forall t, t <> c -> t <> svc_receiver v -> tinfo sc t = states s t) ->
  (snd <$> tinfo sc (svc_receiver v) = snd <$> states s (svc_receiver v)) ->
  (forall st0 d0, states s (svc_receiver v) = Some (st0, d0) -> portal_state st0 -> tinfo sc (svc_receiver v) = Some (st0, d0)) ->
  (forall d0, tinfo sc (svc_receiver v) <> Some (STATE_PORTAL_WAIT_FOR_SND, d0)) ->
  portal_inv (fupd L svc (L svc ++ [c])) (set_sch sc (upd_pthr c (set_pc p) (added svc c v (upd_pthr c f s)))).
Proof.
  intros c I Hc Hc0 Hx Hv Hn Es Ep Ed Ei Hp Hsc Hst' Hrc Hcs Hother Hrd Hrk Hrs.
  assert (service_ids s svc = Some (svc_domain v, svc_index v, svc_receiver v)) as HG by (unfold service_ids; by rewrite Hv).
  pose proof (pv_abs _ _ I) as Ha.
  assert (forall w y, svcs s !! w = Some y -> c ∉ L w) as Hnc.
  { intros w y Hw. eapply (not_waiting _ _ _ _ _ Ha); [exact Hc|exact runnable_not_portal|]. unfold service_ids. by rewrite Hw. }
  set (s1 := upd_pthr c f s). assert (pthreads s1 !! c = Some (f x)) as Hx1 by (unfold s1; cbn; by rewrite lookup_alter_eq, Hx).
  assert (forall y, pnext (pthreads s1) y = pnext (pthreads s) y) as Hnx1.
  { intros y. unfold pnext, s1. cbn. rewrite alter_lookup. destruct (Z.eqb_spec y c) as [->|]; [|done]. rewrite Hx. simpl. by rewrite Hn. }
  assert (queue (pnext (pthreads s1)) (firstWaitingSender v) (lastWaitingSender v) (L svc)) as HQ1.
  { eapply queue_ext; [intros y _; apply Hnx1|by apply (pv_queues _ _ I)]. }
  destruct (added_queue svc c v (L svc) s1 Hv Hc0 (ex_intro _ _ Hx1) (Hnc _ _ Hv) HQ1) as ((v' & Ev' & HQ' & Edv) & Eow & Eoy & Estr).
  set (s2 := added svc c v s1) in *.
  assert (forall y, pnext (alter (set_pc p) c (pthreads s2)) y = pnext (pthreads s2) y) as Hnx3 by (intros y; by apply pnext_upd).
  assert (forall y, thread_fields (set_sch sc (upd_pthr c (set_pc p) s2)) y =
    fupd (thread_fields s) c (Some (fields_of (set_pc p (f x)))) y) as HF.
  { intros y. unfold thread_fields, fupd. cbn [pthreads set_sch upd_pthr]. rewrite alter_lookup.
    pose proof (fields_strip _ _ y Estr) as Hy. unfold s1 in Hy. cbn [pthreads upd_pthr] in Hy. rewrite alter_lookup in Hy.
    destruct (Z.eqb_spec y c) as [Ey|]; [subst y|exact Hy]. rewrite Hx in Hy. simpl in Hy. destruct (pthreads s2 !! c) as [z|]; [|done].
    injection Hy as ? ? ? ? ? ?. unfold fields_of. simpl. congruence. }
  split; [exact Hsc| | | |].
  - intros w y Hw. change (svcs (set_sch sc (upd_pthr c (set_pc p) s2)) !! w) with (svcs s2 !! w) in Hw.
    eapply queue_ext; [intros z _; apply Hnx3|]. unfold fupd. destruct (Z.eqb_spec w svc) as [->|Hne].
    + rewrite Ev' in Hw. by injection Hw as <-.
    + rewrite Eow in Hw by done. eapply (queue_elsewhere L svc w v y (pthreads s)); try done; [|by apply (pv_queues _ _ I)].
      intros z Hzw Hzv. rewrite <- Hnx1. unfold pnext. rewrite Eoy; [done| |done]. intros ->. by apply (Hnc w y).
  - assert (thread_fields s c = Some (fields_of x)) as HFc by (unfold thread_fields; by rewrite Hx).
    refine (absinv_ext _ _ _ _ _ _ _ _ _ _ _ _ _ (abs_send _ _ _ _ _ Ha c svc _ _ _ _ _ _ (fields_of (set_pc p (f x))) (states (set_sch sc (upd_pthr c (set_pc p) s2))) Hc runnable_not_portal Hc0 HFc HG Es Ep Ed Ei Hp _ _ _ _ Hrs));
      try done.
    + intros w. unfold service_ids. cbn [svcs set_sch upd_pthr]. destruct (decide (w = svc)) as [->|Hne]; [|by rewrite Eow].
      rewrite Ev', Hv, Edv. done.
    + unfold entries. intros d i. unfold s2, added. by destruct (lastWaitingSender v =? NULL).
    + by exists st'.
    + intros t. destruct (decide (t = c)) as [->|Htc]; [unfold states at 1; cbn; by rewrite Hcs, Hc|].
      destruct (decide (t = svc_receiver v)) as [->|Htr]; [done|]. unfold states at 1. cbn. by rewrite Hother.
    + intros st0 d0 Hr0 _. by apply Hrk.
  - cbn [pthreads set_sch upd_pthr]. rewrite alter_lookup, (proj2 (Z.eqb_neq NULL c)) by done.
    destruct (pthreads s2 !! NULL) as [z|] eqn:Ez; [|done]. destruct (strip_lookup _ _ _ _ Estr Ez) as (z' & Ez' & _).
    unfold s1 in Ez'. cbn in Ez'. rewrite lookup_alter_ne in Ez' by done. by rewrite (pv_null _ _ I) in Ez'.
  - intros w Hw. cbn [svcs set_sch upd_pthr] in Hw. unfold fupd. destruct (Z.eqb_spec w svc) as [->|Hne]; [by rewrite Ev' in Hw|].
    rewrite Eow in Hw by done. by apply (pv_none _ _ I).
Qed.

Lemma pdom_some (s : sys) d x : pdom s d = Ok x -> pdoms s !! d = Some x.
Proof. unfold pdom. destruct (pdoms s !! d); by intros [= ->]. Qed.

(** an entry of the service table leads to the descriptor of that entry *)
Lemma entry_service L (s : sys) d pd i svc v : portal_inv L s -> pdoms s !! d = Some pd -> 0 <= i ->
  services_of pd !! Z.to_nat i = Some svc -> svcs s !! svc = Some v -> svc_domain v = d /\ svc_index v = i.
Proof.
  intros I Hd Hi He Hv. eapply (a_table _ _ _ _ _ (pv_abs _ _ I) svc); [|exact Hi|].
  - unfold entries. by rewrite Hd.
  - unfold service_ids. by rewrite Hv.
Qed.

Lemma inv_direct_send L (s s' : sys) px params m o x : portal_inv L s -> pthreads s !! cur s = Some x -> p_pc x = PUser ->
  cur s <> idle_thread (sch s) -> 0 <= px_index px -> direct_send_portal px params m s = Ok (o, s') ->
  exists L', portal_inv L' s' /\ fifo_step L L'.
Proof.
  intros I Hx Hpc Hidle Hi E. destruct (pv_sched _ _ I) as (q & cd & Hok). destruct (states_sched s q cd Hok) as [Hc Hc0].
  assert (forall y i, pthreads s !! cur s = Some y -> ~ receiving (p_pc y) i) as Hnr.
  { intros y i Hy. rewrite Hx in Hy. injection Hy as <-. rewrite Hpc. by intros [?|?]. }
  assert (forall E : send_refused s = Ok (o, s'), exists L', portal_inv L' s' /\ fifo_step L L') as Hrefused.
  { intros Er. exists L. split; [by eapply inv_refused|constructor]. }
  unfold direct_send_portal, send_local, send_enqueue in E. apply rbind_ok in E as (td & Etd%pdom_some & E). apply rbind_ok in E as (cd' & Ecd & E).
  rewrite (curdom_mid _ _ _ (so_mid _ _ _ Hok)) in Ecd. injection Ecd as <-.
  destruct (Z.eqb_spec (targetDomain px) cd) as [_|Hremote].
  { destruct (services_of td !! _) as [svc|]; [|done]. apply rbind_ok in E as (v & _ & E). destruct (method_of _ _ _); [|done].
    destruct (negb _); [done|]. injection E as _ <-. exists L. split; [done|constructor]. }
  destruct (negb _); [by apply Hrefused|]. destruct (negb _); [by apply Hrefused|].
  destruct (services_of td !! Z.to_nat (px_index px)) as [svc|] eqn:Ee; [|done].
  destruct (svc =? SERVICE_ENTRY_CHANGING); [by apply Hrefused|]. cbv zeta in E.
  apply rbind_ok in E as (x0 & _ & E). set (f := fun x => set_dep params m _) in E.
  apply rbind_ok in E as (v & Ev%svc_some & E). change (svcs s !! svc = Some v) in Ev.
  destruct (entry_service L s _ _ _ svc v I Etd Hi Ee Ev) as [Hsd Hsi].
  apply rbind_ok in E as (s2 & E2 & E). apply portal_add_sender_inv in E2 as (_ & _ & v' & Ev' & ->).
  change (svcs s !! svc = Some v') in Ev'. rewrite Ev in Ev'. injection Ev' as <-.
  apply rbind_ok in E as (T & ET%thr_some & E).
  assert (sch (added svc (cur s) v (upd_pthr (cur s) f s)) = sch s) as Esch by (unfold added; by destruct (_ =? NULL)).
  rewrite Esch in ET. exists (fupd L svc (L svc ++ [cur s])). split.
  2: { constructor. intros w Hin. destruct (svcs s !! w) as [y|] eqn:Ew; [|by rewrite (pv_none _ _ I w Ew) in Hin; apply elem_of_nil in Hin].
       by eapply (not_waiting _ _ _ _ _ (pv_abs _ _ I) (cur s)); [exact Hc|exact runnable_not_portal| |exact Hin]; unfold service_ids; rewrite Ew. }
  pose proof (tinfo_thr _ _ _ ET) as Er.
  assert (svc_receiver v <> cur s) as Hrc.
  { intros Heq. apply Hremote. rewrite <- Hsd. symmetry.
    eapply (a_home _ _ _ _ _ (pv_abs _ _ I) svc); [unfold service_ids; by rewrite Ev|rewrite Heq; exact Hc]. }
  destruct (Z.eqb_spec (t_state T) STATE_PORTAL_WAIT_FOR_SND) as [Hst|Hst]; cbn [negb] in E.
  - apply rbind_ok in E as (_ & _ & E). apply rbind_ok in E as (s3 & E3 & E). injection E as _ <-.
    apply lift_ok in E3 as (c' & E3 & ->). change (sch (upd_pthr _ _ ?u)) with (sch u) in E3. rewrite Esch in E3.
    destruct (handoff_receiver_spec (sch s) q cd (svc_receiver v) T Hok Hidle ET ltac:(by rewrite Hst)) as (c2 & cd2 & E4 & Hok2 & _ & _ & Ht).
    rewrite E3 in E4. injection E4 as <-.
    eapply (inv_enqueue L s svc v cd x f PSendHandoff c' STATE_PORTAL_WAIT_FOR_RET); try done.
    + by intros j [?|?].
    + by eexists _, _.
    + by right.
    + rewrite Ht. rewrite (proj2 (Z.eqb_neq _ _)) by (intros Heq; by apply Hrc). unfold cur, curthr. by rewrite Z.eqb_refl.
    + intros t Htc Htr. rewrite Ht, (proj2 (Z.eqb_neq _ _) Htr). by rewrite (proj2 (Z.eqb_neq t (current (sch s))) Htc).
    + rewrite Ht, Z.eqb_refl. unfold states. by rewrite Er.
    + intros st0 d0 Hr0 Hp. unfold states in Hr0. rewrite Er, Hst in Hr0. injection Hr0 as <- _. by destruct Hp.
    + intros d0. by rewrite Ht, Z.eqb_refl.
  - apply rbind_ok in E as (s3 & E3 & E). injection E as _ <-.
    apply lift_ok in E3 as (c' & E3 & ->). change (sch (upd_pthr _ _ ?u)) with (sch u) in E3. rewrite Esch in E3.
    destruct (Sched_block_spec (sch s) q cd STATE_PORTAL_WAIT_FOR_RCV Hok ltac:(done) Hidle) as (c2 & cd2 & E4 & Hok2 & _ & Ht).
    rewrite E3 in E4. injection E4 as <-.
    assert (tinfo c' (svc_receiver v) = Some (t_state T, t_domain T)) as Er'.
    { rewrite Ht. by rewrite (proj2 (Z.eqb_neq (svc_receiver v) (current (sch s))) Hrc). }
    eapply (inv_enqueue L s svc v cd x f _ c' STATE_PORTAL_WAIT_FOR_RCV); try done.
    + by intros j [?|?].
    + by eexists _, _.
    + by left.
    + rewrite Ht. unfold cur, curthr. by rewrite Z.eqb_refl.
    + intros t Htc Htr. rewrite Ht. by rewrite (proj2 (Z.eqb_neq t (current (sch s))) Htc).
    + rewrite Er'. unfold states. by rewrite Er.
    + intros st0 d0 Hr0 Hp. rewrite Er'. unfold states in Hr0. by rewrite Er in Hr0.
    + intros d0. rewrite Er'. intros [= H _]. done.
Qed.

(** ** Steps of a receiver *)

Lemma copy_restarting_frame fuel src dst ref quota (s s' : sys) v q :
  copy_restarting fuel src dst ref quota s = Ok (v, q, s') -> exists h, s' = set_heaps h s.
Proof.
  unfold copy_restarting. intros E.
  refine (loop_partial _ (fun st => exists h, snd st = set_heaps h s) (fun r => exists h, snd r = set_heaps h s) _ fuel _ _ _ _ E).
  - intros [q1 s1] [q2 s2] [h Hh] E1. simpl in *. apply rbind_ok in E1 as ([[r q3] x] & _ & E1).
    destruct (r =? RESTART); [|done]. injection E1 as <- <-. exists x. by rewrite Hh.
  - intros [q1 s1] [[r q2] s2] [h Hh] E1. simpl in *. apply rbind_ok in E1 as ([[r' q3] x] & _ & E1).
    destruct (r' =? RESTART); [done|]. injection E1 as <- <- <-. exists x. by rewrite Hh.
  - exists (heaps s). by destruct s.
Qed.

Lemma copy_params_frame fuel src dst map : forall params quota (s s' : sys) l q,
  copy_params fuel src dst map params quota s = Ok (l, q, s') -> exists h, s' = set_heaps h s.
Proof.
  induction map as [|b map IH]; intros [|p params] quota s s' l q E; cbn [copy_params] in E;
    try (injection E as _ _ <-; exists (heaps s); by destruct s).
  apply rbind_ok in E as ([[v q1] s1] & E1 & E). apply rbind_ok in E as ([[l1 q2] s2] & E2 & E). injection E as _ _ <-.
  apply IH in E2 as [h2 ->]. destruct (_ || _ || _).
  - injection E1 as _ _ <-. by exists h2.
  - apply copy_restarting_frame in E1 as [h1 ->]. by exists h2.
Qed.

Lemma sched_ok_set_state s q cd t st st0 d : sched_ok s q cd -> t <> current s -> tinfo s t = Some (st0, d) -> st0 <> STATE_RUNNABLE ->
  sched_ok (set_t_state t st s) q cd.
Proof.
  intros [Hm Hrun Hout] Ht Hst Hn. split; [| |done].
  - apply sched_mid_set_state; [done|right]. split; [by eapply not_runnable_out; [apply Hm|exact Hst|]|].
    intros ->. destruct (sm_idle _ _ _ Hm) as [dz Hz]. rewrite Hst in Hz. by injection Hz.
  - rewrite tinfo_set_t_state. change (current (set_t_state t st s)) with (current s).
    by rewrite (proj2 (Z.eqb_neq (current s) t)) by congruence.
Qed.

(** what [recv_accept] does to the threads, apart from the heaps *)
Definition accepted (c t svc : Z) (obj : Z) (l : list Z) (pp : option Z) (dom id : Z) (h : X) (s : sys) : sys :=
  let s := set_state t STATE_PORTAL_WAIT_FOR_PARAMCOPY s in
  let s := upd_pthr c (set_processing svc t) s in
  let s := upd_pthr t (fun x => set_blocked (blockedInDomain x) (blockedInDomainID x) (blockedInServiceIndex x) c x) s in
  let s := match pp with Some v => upd_pthr c (set_portalParameter v) s | None => s end in
  let s := upd_pthr c (set_myparams (obj :: l)) s in
  let s := upd_pthr t (fun x => set_dep [] (depMethodIndex x) x) s in
  let s := upd_pthr c (set_caller dom id) s in
  set_heaps h (upd_pthr c (set_pc PUser) (set_state t STATE_PORTAL_WAIT_FOR_RET s)).

Lemma recv_accept_inv fuel t (s s' : sys) cd src : curdom (sch s) = Ok cd -> pthreads s !! t = Some src ->
  recv_accept fuel t s = Ok s' ->
  exists svc obj l pp dom id h, GETSVC cd (blockedInServiceIndex src) s = Ok svc /\
    (portalParameter src = 0 -> pp = None) /\ s' = accepted (cur s) t svc obj l pp dom id h s.
Proof.
  intros Hcd Hsrc E. unfold recv_accept in E. rewrite Hcd in E. cbn [rbind] in E.
  apply rbind_ok in E as (_ & _ & E). apply rbind_ok in E as (T0 & _ & E). apply rbind_ok in E as (src' & Esrc & E).
  unfold pthr in Esrc. cbn [pthreads set_state set_sch] in Esrc. rewrite Hsrc in Esrc. injection Esrc as <-.
  apply rbind_ok in E as (svc & Esvc & E). apply rbind_ok in E as (T1 & _ & E). apply rbind_ok in E as (_ & _ & E).
  apply rbind_ok in E as (v & _ & E). apply rbind_ok in E as (x0 & _ & E). destruct (method_of _ _ _) as [m|]; [|done].
  apply rbind_ok in E as (sd & _ & E). apply rbind_ok in E as ([q1 s1] & E1 & E). apply rbind_ok in E as ([[l q2] s2] & E2 & E).
  apply copy_params_frame in E2 as [h2 ->]. apply rbind_ok in E as (svc2 & _ & E). apply rbind_ok in E as (_ & _ & E).
  apply rbind_ok in E as (_ & _ & E). apply rbind_ok in E as (v2 & _ & E). destruct (negb (svc_valid v2)); [done|].
  apply rbind_ok in E as (sdom & _ & E). injection E as <-.
  destruct (Z.eqb_spec (portalParameter src) 0) as [Hpp|Hpp].
  - injection E1 as _ <-. exists svc, (svc_obj v), l, None, (t_domain sd), (pd_id sdom), h2. split_and!; done.
  - apply rbind_ok in E1 as ([[pv q3] s3] & E3 & E1). injection E1 as _ <-. apply copy_restarting_frame in E3 as [h3 ->].
    exists svc, (svc_obj v), l, (Some pv), (t_domain sd), (pd_id sdom), h2. split_and!; [done|by intros ?|done].
Qed.

Lemma accepted_links c t svc obj l pp dom id h (s : sys) y : pnext (pthreads (accepted c t svc obj l pp dom id h s)) y = pnext (pthreads s) y.
Proof. unfold accepted. destruct pp; cbn [pthreads set_heaps set_state set_sch upd_pthr]; by rewrite !pnext_upd. Qed.

Lemma accepted_fields c t svc obj l pp dom id h (s : sys) x y z : t <> c -> pthreads s !! c = Some x -> pthreads s !! t = Some y ->
  thread_fields (accepted c t svc obj l pp dom id h s) z =
    fupd (fupd (thread_fields s) c (Some (MkFields PUser t svc (blockedInDomain x) (blockedInServiceIndex x) (blockedInServiceThread x))))
      t (Some (MkFields (p_pc y) (mostRecentlyCalledBy y) (processingDEP y) (blockedInDomain y) (blockedInServiceIndex y) c)) z.
Proof.
  intros Htc Hx Hy. unfold thread_fields, accepted, fupd. destruct pp; cbn [pthreads set_heaps set_state set_sch upd_pthr];
    (destruct (Z.eqb_spec z t) as [Ez|]; [subst z|destruct (Z.eqb_spec z c) as [Ez|]; [subst z|by rewrite !lookup_alter_ne]]).
  all: repeat first [rewrite lookup_alter_eq | rewrite lookup_alter_ne by congruence]; by rewrite ?Hx, ?Hy.
Qed.

Lemma inv_recv_wait fuel idx L (s s' : sys) x v y cd : portal_inv L s -> pthreads s !! cur s = Some x -> mostRecentlyCalledBy x = NULL ->
  curdom (sch s) = Ok cd -> svcs s !! v = Some y -> svc_receiver y = cur s -> svc_domain y = cd -> svc_index y = idx ->
  cur s <> idle_thread (sch s) -> recv_wait fuel idx s = Ok s' -> exists L', portal_inv L' s' /\ fifo_step L L'.
Proof.
  intros I Hx Hsrc Hcd Hv Hr Hd Hi Hidle E. destruct (pv_sched _ _ I) as (q & cd' & Hok). destruct (states_sched s q cd' Hok) as [Hc Hc0].
  rewrite (curdom_mid _ _ _ (so_mid _ _ _ Hok)) in Hcd. injection Hcd as ->. pose proof (pv_abs _ _ I) as Ha.
  assert (service_ids s v = Some (cd, idx, cur s)) as HG by (unfold service_ids; rewrite Hv; simpl; congruence).
  unfold recv_wait in E. rewrite (curdom_mid _ _ _ (so_mid _ _ _ Hok)) in E. cbn [rbind] in E.
  assert (forall u : sys, pdoms u = pdoms s -> forall w, GETSVC cd idx u = Ok w -> w = v) as Hget.
  { intros u Hu w Hw. unfold GETSVC, pdom in Hw. rewrite Hu in Hw. pose proof (a_entry _ _ _ _ _ Ha v cd idx _ HG) as He. unfold entries in He.
    destruct (pdoms s !! cd) as [pd|]; [|done]. cbn [rbind] in Hw. simpl in He. rewrite He in Hw.
    apply rbind_ok in Hw as (v0 & _ & Hw). by injection Hw. }
  apply rbind_ok in E as (w & Ew & E). apply (Hget s eq_refl) in Ew as ->.
  pose proof (pv_queues _ _ I v y Hv) as HQ. destruct (L v) as [|t l] eqn:EL.
  - rewrite (dequeue_empty v y s Hv (proj1 HQ)) in E. cbn [rbind] in E. rewrite Z.eqb_refl in E.
    apply lift_ok in E as (c' & E & ->). exists L. split; [|constructor].
    change (sch (upd_pthr _ _ s)) with (sch s) in E.
    destruct (Sched_block_spec (sch s) q cd STATE_PORTAL_WAIT_FOR_SND Hok ltac:(done) Hidle) as (c2 & cd2 & E4 & Hok2 & _ & Ht).
    rewrite E in E4. injection E4 as <-.
    assert (portal_inv L (upd_pthr (cur s) (set_pc (PRecvBlocked idx)) s)) as I1.
    { eapply inv_upd; [exact I|exact Hc|exact runnable_not_portal|exact Hc0|exact Hx|done|by left|]. intros j Hj. split; [exact Hsrc|].
      exists v, cd. assert (j = idx) as ->; [|done]. destruct Hj as [Hj|Hj]; simpl in Hj; congruence. }
    apply inv_sched; [exact I1|by eexists _, _| | |].
    + intros t st td Hst Hp. rewrite Ht. destruct (Z.eqb_spec t (current (sch s))) as [->|]; [|done].
      change (states s (cur s) = Some (st, td)) in Hst. rewrite Hc in Hst. injection Hst as <- _. by destruct runnable_not_portal.
    + intros t. rewrite Ht. destruct (Z.eqb_spec t (current (sch s))) as [->|]; [|done].
      change (states _ (current (sch s))) with (states s (cur s)). by rewrite Hc.
    + intros w z td Hw Hz. change (svcs s !! w = Some z) in Hw. rewrite Ht in Hz.
      destruct (Z.eqb_spec (svc_receiver z) (current (sch s))) as [Hzc|]; [right|by left].
      assert (w = v) as ->; [|done]. eapply (a_recv _ _ _ _ _ Ha w v (svc_domain z) (svc_index z) cd idx (cur s) Hc0); [|exact HG].
      unfold service_ids. rewrite Hw. simpl. by rewrite Hzc.
  - destruct (dequeue_head v y t l s Hv HQ) as (s1 & E1 & (y' & Hy' & HQ' & Ey') & Hoth & Hpt & Hstrip & Hsch & Hpd & _ & _).
    rewrite E1 in E. cbn [rbind] in E. destruct HQ as (Hlk & Hla & Hnd). destruct Hlk as (_ & Ht0 & _).
    rewrite (proj2 (Z.eqb_neq t NULL) Ht0) in E. apply NoDup_cons in Hnd as [Htl Hnd].
    assert (t ∈ L v) as Htv by (rewrite EL; apply list_elem_of_here).
    destruct (a_waits _ _ _ _ _ Ha v cd idx _ t HG Htv) as [[td Hts] (ft & Hft & Hfd & Hfi)].
    assert (exists stt, states s t = Some (stt, td) /\ portal_state stt) as (stt & Hst & Hpst).
    { destruct Hts as [H|H]; eexists; (split; [exact H|]); [by left|by right]. }
    assert (t <> cur s) as Htc by (intros ->; rewrite Hc in Hst; injection Hst as <- _; by apply runnable_not_portal).
    unfold thread_fields in Hft. destruct (pthreads s !! t) as [src0|] eqn:Esrc0; [|done]. injection Hft as <-. simpl in Hfd, Hfi.
    assert (exists src, pthreads s1 !! t = Some src /\ fields_of src = fields_of src0) as (src & Esrc & Ef).
    { pose proof (fields_strip _ _ t Hstrip) as Hf. rewrite Esrc0 in Hf. destruct (pthreads s1 !! t) as [src|]; [|done]. exists src. split; [done|]. apply (f_equal (default (fields_of src))) in Hf. exact Hf. }
    assert (cur s1 = cur s) as Ecur by (unfold cur; by rewrite Hsch).
    assert (pthreads s1 !! cur s = Some x) as Hx1 by (rewrite Hpt; [done|by intros ?; apply Htc]).
    assert (curdom (sch s1) = Ok cd) as Hcd1 by (rewrite Hsch; exact (curdom_mid _ _ _ (so_mid _ _ _ Hok))).
    destruct (recv_accept_inv fuel t s1 s' cd src Hcd1 Esrc E) as (svc & obj & lp & pp & dom & id & h & Eget & _ & ->).
    assert (blockedInServiceIndex src = idx) as Hbi.
    { pose proof (f_equal f_idx Ef) as Hi'. simpl in Hi'. congruence. }
    rewrite Hbi in Eget. apply (Hget s1 Hpd) in Eget as ->. rewrite Ecur in *.
    exists (fupd L v l). split; [|by eapply fifo_pop].
    set (s2 := accepted (cur s) t v obj lp pp dom id h s1).
    assert (svcs s2 = svcs s1) as Esv by (unfold s2, accepted; by destruct pp).
    assert (sch s2 = set_t_state t STATE_PORTAL_WAIT_FOR_RET (set_t_state t STATE_PORTAL_WAIT_FOR_PARAMCOPY (sch s))) as Esch.
    { unfold s2, accepted. destruct pp; cbn; by rewrite Hsch. }
    assert (tinfo (sch s) t = Some (stt, td)) as Hst' by exact Hst.
    assert (stt <> STATE_RUNNABLE) as Hsttr by (intros ->; by apply runnable_not_portal).
    split.
    + exists q, cd. rewrite Esch. eapply sched_ok_set_state; [|exact Htc| |]; [by eapply sched_ok_set_state| |].
      * rewrite tinfo_set_t_state, Z.eqb_refl, Hst'. reflexivity.
      * done.
    + intros w z Hw. rewrite Esv in Hw. eapply queue_ext; [intros u _; apply accepted_links|]. unfold fupd.
      destruct (Z.eqb_spec w v) as [->|Hne]; [rewrite Hy' in Hw; by injection Hw as <-|]. rewrite Hoth in Hw by done.
      eapply (queue_elsewhere L v w y z (pthreads s)); try done; [|by apply (pv_queues _ _ I)].
      intros u _ Hu. unfold pnext. rewrite Hpt; [done|]. intros ->. done.
    + set (g := MkFields PUser t v (blockedInDomain x) (blockedInServiceIndex x) (blockedInServiceThread x)).
      set (gt := MkFields (p_pc src) (mostRecentlyCalledBy src) (processingDEP src) (blockedInDomain src) (blockedInServiceIndex src) (cur s)).
      assert (thread_fields s (cur s) = Some (fields_of x)) as HFx by (unfold thread_fields; by rewrite Hx).
      assert (thread_fields s t = Some (fields_of src0)) as HFt by (unfold thread_fields; by rewrite Esrc0).
      assert (states s2 t = Some (STATE_PORTAL_WAIT_FOR_RET, td)) as Hs2t.
      { unfold states. rewrite Esch. rewrite !tinfo_set_t_state, !Z.eqb_refl. by rewrite Hst'. }
      assert (forall z, z <> t -> states s2 z = states s z) as Hs2z.
      { intros z Hz. unfold states. rewrite Esch, !tinfo_set_t_state. by rewrite (proj2 (Z.eqb_neq z t) Hz). }
      assert (forall j, ~ receiving (f_pc g) j) as Hgr by (by intros j [?|?]).
      pose proof (abs_accept _ _ _ _ _ Ha (cur s) v cd idx _ _ stt td t l (fields_of x) g (fields_of src0) gt (states s2)
        Hc runnable_not_portal Hc0 HFx HG EL Htl Ht0 HFt Hst eq_refl eq_refl Hgr (f_equal f_src Ef) (f_equal f_proc Ef) (f_equal f_pc Ef)
        (f_equal f_dom Ef) (f_equal f_idx Ef) eq_refl Hs2t Hs2z) as Hb.
      refine (absinv_ext _ _ _ _ _ _ _ _ _ _ _ _ _ Hb); [done| | |].
      * intros z. unfold s2. rewrite (accepted_fields _ _ _ _ _ _ _ _ _ s1 x src z Htc Hx1 Esrc). unfold fupd.
        destruct (z =? t); [done|]. destruct (z =? cur s); [done|]. unfold thread_fields. by apply fields_strip.
      * intros w. unfold service_ids. rewrite Esv. destruct (decide (w = v)) as [->|Hne]; [|by rewrite Hoth].
        rewrite Hy', Hv, Ey'. done.
      * intros d i. unfold entries, s2, accepted. destruct pp; cbn; by rewrite Hpd.
    + destruct (pthreads s2 !! NULL) as [z|] eqn:Ez; [|done].
      pose proof (accepted_fields _ _ v obj lp pp dom id h s1 x src NULL Htc Hx1 Esrc) as Hn. fold s2 in Hn.
      unfold thread_fields at 1 in Hn. rewrite Ez in Hn. unfold fupd in Hn. rewrite (proj2 (Z.eqb_neq NULL t)), (proj2 (Z.eqb_neq NULL (cur s))) in Hn by done.
      unfold thread_fields in Hn. destruct (pthreads s1 !! NULL) as [z1|] eqn:Ez1; [|done].
      destruct (strip_lookup _ _ _ _ Hstrip Ez1) as (z2 & Ez2 & _). by rewrite (pv_null _ _ I) in Ez2.
    + intros w Hw. rewrite Esv in Hw. unfold fupd. destruct (Z.eqb_spec w v) as [->|Hne]; [by rewrite Hy' in Hw|].
      rewrite Hoth in Hw by done. by apply (pv_none _ _ I).
Qed.

Lemma inv_upd_svc L w f (s : sys) :
  (forall x, svc_domain (f x) = svc_domain x /\ svc_index (f x) = svc_index x /\ svc_receiver (f x) = svc_receiver x /\
     firstWaitingSender (f x) = firstWaitingSender x /\ lastWaitingSender (f x) = lastWaitingSender x) ->
  portal_inv L s -> portal_inv L (upd_svc w f s).
Proof.
  intros Hf [Hs Hq Ha H0 HN].
  assert (forall v x, alter f w (svcs s) !! v = Some x -> exists y, svcs s !! v = Some y /\ (x = y \/ x = f y)) as Hl.
  { intros v x. rewrite alter_lookup. destruct (Z.eqb_spec v w) as [->|]; [|intros; by exists x; split; [|left]].
    destruct (svcs s !! w) as [y|]; [|done]. intros [= <-]. exists y. by split; [|right]. }
  split; [exact Hs| | |exact H0|].
  - intros v x (y & Hy & [-> | ->])%Hl; [by apply Hq|]. destruct (Hf y) as (_ & _ & _ & -> & ->). by apply Hq.
  - refine (absinv_ext _ _ _ _ _ _ _ _ _ _ _ _ _ Ha); try done. intros v. unfold service_ids. cbn [svcs upd_svc]. rewrite alter_lookup.
    destruct (Z.eqb_spec v w) as [->|]; [|done]. destruct (svcs s !! w) as [y|]; [|done]. simpl. by destruct (Hf y) as (-> & -> & -> & _).
  - intros v. cbn [svcs upd_svc]. rewrite alter_lookup. destruct (Z.eqb_spec v w) as [->|]; [|apply HN].
    destruct (svcs s !! w) eqn:Ew; [done|]. intros _. by apply HN.
Qed.

(** [c] is the receiver of the service with index [idx] of its domain *)
Definition receives (s : sys) (c idx : Z) : Prop :=
  exists v d, service_ids s v = Some (d, idx, c).

Lemma inv_recv_loop fuel idx L (s s' : sys) : portal_inv L s -> receives s (cur s) idx ->
  cur s <> idle_thread (sch s) -> recv_loop fuel idx s = Ok s' -> exists L', portal_inv L' s' /\ fifo_step L L'.
Proof.
  intros I (v & d & HG) Hidle E. destruct (pv_sched _ _ I) as (q & cd & Hok). destruct (states_sched s q cd Hok) as [Hc Hc0].
  unfold recv_loop in E. apply rbind_ok in E as (x & Ex%pthr_some & E).
  assert (cd = d) as <- by (by eapply (a_home _ _ _ _ _ (pv_abs _ _ I))).
  assert (portal_inv L (upd_pthr (cur s) (set_processing NULL NULL) s)) as I1.
  { eapply inv_upd; [exact I|exact Hc|exact runnable_not_portal|exact Hc0|exact Ex|done|by right|]. intros j Hj. split; [done|].
    eapply (a_loop _ _ _ _ _ (pv_abs _ _ I) (cur s) (fields_of x)); [|exact Hj]. unfold thread_fields. by rewrite Ex. }
  unfold service_ids in HG. destruct (svcs s !! v) as [y|] eqn:Ey; [|done]. injection HG as Hd Hi Hr.
  eapply (inv_recv_wait fuel idx L _ s' (set_processing NULL NULL x) v y cd I1); try done.
  - change (cur (upd_pthr _ _ s)) with (cur s). cbn [pthreads upd_pthr]. by rewrite lookup_alter_eq, Ex.
  - exact (curdom_mid _ _ _ (so_mid _ _ _ Hok)).
Qed.

Lemma inv_recv_wakeup fuel idx L (s s' : sys) x : portal_inv L s -> pthreads s !! cur s = Some x -> p_pc x = PRecvBlocked idx ->
  cur s <> idle_thread (sch s) -> recv_wakeup fuel idx s = Ok s' -> exists L', portal_inv L' s' /\ fifo_step L L'.
Proof.
  intros I Hx Hpc Hidle E. destruct (pv_sched _ _ I) as (q & cd & Hok). destruct (states_sched s q cd Hok) as [Hc Hc0].
  destruct (a_loop _ _ _ _ _ (pv_abs _ _ I) (cur s) (fields_of x) idx) as [Hsrc (v & d & HG)].
  { unfold thread_fields. by rewrite Hx. } { by left. }
  assert (cd = d) as <- by (by eapply (a_home _ _ _ _ _ (pv_abs _ _ I))).
  unfold service_ids in HG. destruct (svcs s !! v) as [y|] eqn:Ey; [|done]. injection HG as Hd Hi Hr.
  pose proof (inv_resume L s I) as I1. destruct (pv_sched _ _ I1) as (q1 & cd1 & Hok1).
  eapply (inv_recv_wait fuel idx L _ s' x v y cd I1); try done. rewrite (curdom_mid _ _ _ (so_mid _ _ _ Hok1)).
  pose proof (so_run _ _ _ Hok1) as Hr1. unfold Sched_block_resume in Hr1. cbn [sch set_sch] in Hr1. rewrite tinfo_set_t_state in Hr1.
  change (current (set_t_state _ _ (sch s))) with (current (sch s)) in Hr1. unfold curthr in Hr1. rewrite Z.eqb_refl in Hr1.
  change (tinfo (sch s) (current (sch s)) = Some (STATE_RUNNABLE, cd)) in Hc. rewrite Hc in Hr1. by injection Hr1 as ->.
Qed.

(** what [recv_reply] does before it hands over, apart from the heaps *)
Definition replied (c t idx : Z) (n : nat) (r type : Z) (h : X) (s : sys) : sys :=
  let s := upd_pthr c (fun x => set_myparams (replicate n 0 ++ drop n (myparams x)) x) s in
  let s := set_heaps h (set_state t STATE_PORTAL_WAIT_FOR_RETCOPY s) in
  let s := upd_pthr t (set_return r type) s in
  upd_pthr c (set_pc (PRecvLoop idx)) (upd_pthr c (set_processing NULL NULL) s).

Lemma recv_reply_inv fuel idx ret (s s' : sys) x cd : pthreads s !! cur s = Some x -> curdom (sch s) = Ok cd ->
  recv_reply fuel idx ret s = Ok s' ->
  recv_loop fuel idx s = Ok s' \/
  exists svc v, GETSVC cd idx s = Ok svc /\ svcs s !! svc = Some v /\
    ((svc_abort v = true /\ recv_loop fuel idx (upd_svc svc (set_abort false) s) = Ok s') \/
     exists n r type h, lift (Sched_portal_handoff_to_sender (mostRecentlyCalledBy x) (negb (firstWaitingSender v =? NULL)))
       (replied (cur s) (mostRecentlyCalledBy x) idx n r type h s) = Ok s').
Proof.
  intros Hx Hcd E. unfold recv_reply in E. apply rbind_ok in E as (x' & Ex%pthr_some & E). rewrite Hx in Ex. injection Ex as <-.
  apply rbind_ok in E as (cdom & _ & E). destruct (_ || _); [by left|right]. cbv zeta in E.
  apply rbind_ok in E as (src & _ & E). rewrite Hcd in E. cbn [rbind] in E. apply rbind_ok in E as (svc & Esvc & E).
  apply rbind_ok in E as (v & Ev%svc_some & E). exists svc, v. split; [done|]. split; [done|].
  destruct (svc_abort v); [by left|right]. apply rbind_ok in E as (_ & _ & E). destruct (method_of _ _ _) as [m|]; [|done].
  apply rbind_ok in E as (sd & _ & E). apply rbind_ok in E as ([r s1] & E1 & E).
  destruct ((returnType m =? 1) && negb (keeps_return m)).
  - apply rbind_ok in E1 as ([[r1 q1] s2] & E2 & E1). injection E1 as <- <-. apply copy_restarting_frame in E2 as [h ->].
    eexists _, _, _, _. exact E.
  - injection E1 as <- <-. eexists _, _, _, (heaps s). exact E.
Qed.

Lemma inv_recv_reply fuel idx ret L (s s' : sys) x v0 : portal_inv L s -> pthreads s !! cur s = Some x ->
  mostRecentlyCalledBy x <> NULL -> svcs s !! processingDEP x = Some v0 -> svc_index v0 = idx ->
  cur s <> idle_thread (sch s) -> recv_reply fuel idx ret s = Ok s' -> exists L', portal_inv L' s' /\ fifo_step L L'.
Proof.
  intros I Hx Hsrc Hv0 Hidx Hidle E. destruct (pv_sched _ _ I) as (q & cd & Hok). destruct (states_sched s q cd Hok) as [Hc Hc0].
  pose proof (pv_abs _ _ I) as Ha. assert (thread_fields s (cur s) = Some (fields_of x)) as HFx by (unfold thread_fields; by rewrite Hx).
  destruct (a_serving _ _ _ _ _ Ha _ _ HFx Hsrc) as (d & i & HG). change (f_proc (fields_of x)) with (processingDEP x) in HG.
  assert (i = idx) as ->. { unfold service_ids in HG. rewrite Hv0 in HG. injection HG as _ <- _. done. }
  assert (cd = d) as <- by (by eapply (a_home _ _ _ _ _ Ha)).
  destruct (recv_reply_inv _ _ _ _ _ x cd Hx (curdom_mid _ _ _ (so_mid _ _ _ Hok)) E) as [E1|(svc & v & Esvc & Ev & E1)].
  { eapply inv_recv_loop; [exact I| |exact Hidle|exact E1]. by eexists _, _. }
  assert (svc = processingDEP x) as ->.
  { unfold GETSVC, pdom in Esvc. pose proof (a_entry _ _ _ _ _ Ha _ _ _ _ HG) as He. unfold entries in He.
    destruct (pdoms s !! cd) as [pd|]; [|done]. cbn [rbind] in Esvc. simpl in He. rewrite He in Esvc.
    apply rbind_ok in Esvc as (w & _ & Esvc). by injection Esvc. }
  destruct E1 as [[_ E1]|(n & r & type & h & E1)].
  { eapply (inv_recv_loop fuel idx L (upd_svc (processingDEP x) (set_abort false) s)); [by apply inv_upd_svc| |exact Hidle|exact E1].
    exists (processingDEP x), cd. unfold service_ids. cbn [svcs upd_svc]. rewrite lookup_alter_eq, Ev. simpl.
    unfold service_ids in HG. by rewrite Ev in HG. }
  exists L. split; [|constructor]. set (t := mostRecentlyCalledBy x) in *.
  destruct (a_served _ _ _ _ _ Ha _ _ HFx Hsrc) as [[td Ht] (gt & Hgt & Hgth)]. change (f_src (fields_of x)) with t in *.
  assert (t <> cur s) as Htc by (intros Heq; rewrite Heq in Ht; by rewrite Hc in Ht).
  assert (tinfo (sch s) t = Some (STATE_PORTAL_WAIT_FOR_RET, td)) as Ht' by exact Ht.
  apply lift_ok in E1 as (c' & E1 & ->).
  change (sch (replied _ _ _ _ _ _ _ s)) with (set_t_state t STATE_PORTAL_WAIT_FOR_RETCOPY (sch s)) in E1.
  set (sc := set_t_state t STATE_PORTAL_WAIT_FOR_RETCOPY (sch s)) in *.
  assert (sched_ok sc q cd) as Hoksc by (eapply sched_ok_set_state; [exact Hok|exact Htc|exact Ht'|done]).
  assert (tinfo sc t = Some (STATE_PORTAL_WAIT_FOR_RETCOPY, td)) as Hsct.
  { unfold sc. rewrite tinfo_set_t_state, Z.eqb_refl. by rewrite Ht'. }
  destruct (tinfo_some _ _ _ _ Hsct) as (T & ET & HTs & HTd).
  destruct (handoff_sender_spec sc q cd t T (negb (firstWaitingSender v =? NULL)) Hoksc Hidle ET ltac:(by rewrite HTs))
    as (c2 & q' & cd2 & E2 & Hok2 & _ & _ & _ & Hst). rewrite E1 in E2. injection E2 as <-.
  (* the threads without the switch *)
  set (s1 := upd_pthr (cur s) (set_pc (PRecvLoop idx)) (upd_pthr (cur s) (set_processing NULL NULL)
    (upd_pthr t (set_return r type) (set_heaps h (upd_pthr (cur s) (fun x => set_myparams (replicate n 0 ++ drop n (myparams x)) x) s))))).
  assert (portal_inv L s1) as I1.
  { assert (portal_inv L (upd_pthr t (set_return r type) (set_heaps h (upd_pthr (cur s) (fun x => set_myparams (replicate n 0 ++ drop n (myparams x)) x) s)))) as I0.
    { apply inv_upd_other; [done|done|]. apply inv_heaps, inv_upd_other; done. }
    assert (exists y, pthreads (upd_pthr t (set_return r type) (set_heaps h (upd_pthr (cur s) (fun x => set_myparams (replicate n 0 ++ drop n (myparams x)) x) s))) !! cur s = Some y) as [y Hy].
    { cbn. rewrite lookup_alter_ne by congruence. rewrite lookup_alter_eq, Hx. by eexists. }
    assert (portal_inv L (upd_pthr (cur s) (set_processing NULL NULL) (upd_pthr t (set_return r type) (set_heaps h (upd_pthr (cur s) (fun x => set_myparams (replicate n 0 ++ drop n (myparams x)) x) s))))) as I01.
    { eapply (inv_upd _ (cur s)); [exact I0|exact Hc|exact runnable_not_portal|exact Hc0|exact Hy|done|by right|].
      intros j Hj. split; [done|]. eapply (a_loop _ _ _ _ _ (pv_abs _ _ I0) (cur s) (fields_of y)); [|exact Hj]. unfold thread_fields. by rewrite Hy. }
    eapply (inv_upd _ (cur s) _ _ (set_processing NULL NULL y)); [exact I01|exact Hc|exact runnable_not_portal|exact Hc0| |done|by right|].
    - cbn [pthreads upd_pthr] in Hy |- *. rewrite lookup_alter_eq. by rewrite Hy.
    - intros j Hj. split; [done|]. exists (processingDEP x), cd. assert (j = idx) as ->; [destruct Hj as [Hj|Hj]; simpl in Hj; congruence|]. exact HG. }
  change (set_sch c' (replied (cur s) t idx n r type h s)) with (set_sch c' s1).
  assert (forall y, thread_fields s1 y = fupd (thread_fields s) (cur s) (Some (MkFields (PRecvLoop idx) NULL NULL (blockedInDomain x) (blockedInServiceIndex x) (blockedInServiceThread x))) y) as HF1.
  { intros y. unfold thread_fields, s1, fupd. cbn [pthreads upd_pthr set_heaps].
    destruct (Z.eqb_spec y (cur s)) as [Ey|Hy]; [subst y|].
    - rewrite !lookup_alter_eq, lookup_alter_ne by congruence. by rewrite lookup_alter_eq, Hx.
    - rewrite !lookup_alter_ne by congruence. rewrite alter_lookup. destruct (Z.eqb_spec y t) as [->|]; rewrite lookup_alter_ne by congruence; [|done].
      by destruct (pthreads s !! t). }
  assert (~ involved L (thread_fields s1) (service_ids s1) t) as Hfree.
  { intros [(w & z & Hw & Hin)|(y & g & Hg & Hn & Hgt2)].
    - by apply (a_once _ _ _ _ _ Ha w z t (cur s) (fields_of x) Hw Hin HFx Hsrc).
    - rewrite HF1 in Hg. unfold fupd in Hg. destruct (Z.eqb_spec y (cur s)) as [|Hyc]; [injection Hg as <-; done|].
      destruct (a_served _ _ _ _ _ Ha y g Hg Hn) as [_ (g2 & Hg2 & Hth2)]. rewrite Hgt2, Hgt in Hg2. injection Hg2 as <-. congruence. }
  apply inv_sched; [exact I1|by eexists _, _| | |].
  - intros y st yd Hy Hp Hin. rewrite Hst. destruct (Z.eqb_spec y t) as [->|Hyt]; [done|].
    destruct (Z.eqb_spec y (current sc)) as [->|Hyc].
    + change (states s (cur s) = Some (st, yd)) in Hy. rewrite Hc in Hy. injection Hy as <- _. by destruct runnable_not_portal.
    + unfold sc. rewrite tinfo_set_t_state, (proj2 (Z.eqb_neq y t) Hyt). exact Hy.
  - intros y. rewrite Hst. change (states s1 y) with (tinfo (sch s) y). destruct (Z.eqb_spec y t) as [->|Hyt]; [rewrite Ht'; simpl; by rewrite HTd|].
    destruct (Z.eqb_spec y (current sc)) as [->|Hyc].
    + change (current sc) with (cur s). change (tinfo (sch s) (cur s)) with (states s (cur s)). by rewrite Hc.
    + unfold sc. by rewrite tinfo_set_t_state, (proj2 (Z.eqb_neq y t) Hyt).
  - intros w z zd Hw Hz. change (svcs s !! w = Some z) in Hw. rewrite Hst in Hz.
    destruct (Z.eqb_spec (svc_receiver z) t) as [|Hzt]; [done|]. destruct (Z.eqb_spec (svc_receiver z) (current sc)) as [Hzc|Hzc].
    + right. assert (w = processingDEP x) as ->.
      { eapply (a_recv _ _ _ _ _ Ha w (processingDEP x) (svc_domain z) (svc_index z) cd idx (cur s) Hc0); [|exact HG].
        unfold service_ids. rewrite Hw. simpl. by rewrite Hzc. }
      destruct (Z.eqb_spec (firstWaitingSender v) NULL) as [Hf|Hf]; [|done].
      apply (lseg_null _ _ _ (proj1 (pv_queues _ _ I _ v Ev))). exact Hf.
    + left. unfold sc in Hz. rewrite tinfo_set_t_state, (proj2 (Z.eqb_neq (svc_receiver z) t) Hzt) in Hz. exact Hz.
Qed.

Lemma portal_step_inv fuel L (s s' : sys) : portal_inv L s -> portal_step fuel s s' -> exists L', portal_inv L' s' /\ fifo_step L L'.
Proof.
  intros I [x s1 Hx Hpc E|x s1 Hx Hpc Hi E|x t d s1 Hx Hpc Ht E|x px params m o s1 Hx Hpc Hi Hp E|x o s1 Hx Hpc E|
    x idx s1 Hx Hpc Hi E|x idx s1 Hx Hpc Hi E|x v idx ret s1 Hx Hpc Hs Hv Hidx Hi E].
  - exists L. split; [by eapply inv_yield|constructor].
  - exists L. split; [by eapply inv_block|constructor].
  - exists L. split; [by eapply inv_unblock|constructor].
  - by eapply inv_direct_send.
  - exists L. split; [by eapply inv_send_resume|constructor].
  - by eapply inv_recv_wakeup.
  - eapply inv_recv_loop; try done.
    destruct (a_loop _ _ _ _ _ (pv_abs _ _ I) (cur s) (fields_of x) idx) as [_ (v & d & HG)].
    { unfold thread_fields. by rewrite Hx. } { by right. } by exists v, d.
  - by eapply inv_recv_reply.
Qed.

(** ** The protocol *)

(** C13 The portal protocol is safe.  Whatever sequence of yields, blocks,
    unblocks, portal calls, wake-ups, accepted calls and replies runs from a
    state that satisfies [portal_inv], the linked queues of waiting senders
    behave as FIFO lists (senders are only appended at the end and taken from
    the front); a receiver sleeps only while the queue of its service is
    empty; and a caller that is being served waits for the result from the
    thread that serves it, in no queue. *)
Theorem portal_protocol_safe fuel L (s s' : sys) :
  portal_inv L s -> rtc (portal_step fuel) s s' ->
  exists L', portal_inv L' s' /\ rtc fifo_step L L' /\
    (forall v x td, svcs s' !! v = Some x -> tinfo (sch s') (svc_receiver x) = Some (STATE_PORTAL_WAIT_FOR_SND, td) ->
       firstWaitingSender x = NULL /\ lastWaitingSender x = NULL) /\
    (forall r p v x, pthreads s' !! r = Some p -> mostRecentlyCalledBy p <> NULL -> svcs s' !! v = Some x ->
       ~ (mostRecentlyCalledBy p ∈ L' v) /\
       (exists td, tinfo (sch s') (mostRecentlyCalledBy p) = Some (STATE_PORTAL_WAIT_FOR_RET, td)) /\
       (blockedInServiceThread <$> (pthreads s' !! mostRecentlyCalledBy p)) = Some r).
Proof.
  intros I Hrtc. assert (exists L', portal_inv L' s' /\ rtc fifo_step L L') as (L' & I' & Hf).
  { revert L I. induction Hrtc as [s|s s1 s2 Hstep _ IH]; intros L I; [by exists L; split; [|apply rtc_refl]|].
    destruct (portal_step_inv _ _ _ _ I Hstep) as (L1 & I1 & Hf1). destruct (IH L1 I1) as (L2 & I2 & Hf2).
    exists L2. split; [done|]. by eapply rtc_l. }
  exists L'. split; [done|]. split; [done|]. pose proof (pv_abs _ _ I') as Ha. split.
  - intros v x td Hv Hr. assert (L' v = []) as E.
    { apply (a_idle _ _ _ _ _ Ha v (svc_domain x) (svc_index x) (svc_receiver x) td); [|exact Hr]. unfold service_ids. by rewrite Hv. }
    destruct (pv_queues _ _ I' v x Hv) as (H1 & H2 & _). rewrite E in *. done.
  - intros r p v x Hp Hn Hv. assert (thread_fields s' r = Some (fields_of p)) as HF by (unfold thread_fields; by rewrite Hp).
    destruct (a_served _ _ _ _ _ Ha r _ HF Hn) as [Hs (g & Hg & Hth)]. split_and!; [|exact Hs|].
    + intros Hin. refine (a_once _ _ _ _ _ Ha v _ _ r _ _ Hin HF Hn eq_refl). unfold service_ids. by rewrite Hv.
    + unfold thread_fields in Hg. change (f_src (fields_of p)) with (mostRecentlyCalledBy p) in Hg.
      destruct (pthreads s' !! mostRecentlyCalledBy p) as [z|]; [|done]. injection Hg as Hg. rewrite <- Hth, <- Hg. done.
Qed.
End Invariant.

(** ** A concrete system *)

(** heaps without references; every object has one method with one number *)
#[local] Instance no_heaps : Copying unit := {
  method_of := fun _ i _ => if i =? 0 then Some (MkMethod 1 [false] 0 false) else None;
  copy_reference := fun _ _ r q x => Ok (r, q, x);
}.

(** thread 2 of domain 100 runs; thread 3 of domain 200 waits for callers of
    the service at index 1; thread 1 is the idle thread *)
Definition sleepy : sched :=
  MkSched (list_to_map [(1, MkThread STATE_RUNNABLE 100 0); (2, MkThread STATE_RUNNABLE 100 0);
                        (3, MkThread STATE_PORTAL_WAIT_FOR_SND 200 0)])
    (list_to_map [(100, MkDomain 0 0 0); (200, MkDomain 0 0 0)]) [100; 200] 0 0 2 1.
Definition sleepy_q : queues := MkQ [] (fun _ => []).

Lemma sleepy_rep : rep sleepy sleepy_q.
Proof.
  constructor.
  - split_and!; [done|done|apply NoDup_nil_2].
  - apply (map_to_list_cases _ (fun d D => queue (tnext sleepy) (firstThreadInRunQueue D) (lastThreadInRunQueue D) (tq sleepy_q d))).
    let l := eval vm_compute in (map_to_list (domains sleepy)) in change (map_to_list (domains sleepy)) with l.
    repeat apply Forall_cons_2; try apply Forall_nil_2; (split_and!; [done|done|apply NoDup_nil_2]).
  - done.
  - intros d t Ht. by apply elem_of_nil in Ht.
  - apply (map_to_list_cases _ (fun t T => is_Some (domains sleepy !! t_domain T))). repeat constructor; by eexists.
  - done.
Qed.

Lemma sleepy_out t : ~ queued sleepy_q t.
Proof. intros [d Hd]. by apply elem_of_nil in Hd. Qed.

Lemma sleepy_ok : sched_ok sleepy sleepy_q 100.
Proof.
  split; [|done|apply sleepy_out]. split; [apply sleepy_rep|by exists 2| |by exists 100|apply sleepy_out|].
  - intros d. cbn. rewrite elem_of_nil. split; [done|]. by intros [_ ?].
  - intros d. cbn. rewrite elem_of_cons, list_elem_of_singleton. intros [->| ->]; by eexists.
Qed.

Definition new_pthread (p : pc) : pthread := MkPThread p 0 [] 0 0 0 0 0 0 0 0 0 [] 0 0 0.
Definition sleepy_sys : sys unit :=
  MkSys sleepy (list_to_map [(1, new_pthread PUser); (2, new_pthread PUser); (3, new_pthread (PRecvBlocked 1))])
    (list_to_map [(7, MkService 200 9 1 true 0 false 0 0 3)])
    (list_to_map [(100, MkPDomain 5 DOMAIN_STATE_ACTIVE []); (200, MkPDomain 6 DOMAIN_STATE_ACTIVE [0; 7])]) 100 tt.
Definition sleepy_proxy : proxy := MkProxy 200 6 1.

Lemma sleepy_service v x : svcs sleepy_sys !! v = Some x -> v = 7 /\ x = MkService 200 9 1 true 0 false 0 0 3.
Proof. apply (map_to_list_cases _ (fun v x => v = 7 /\ x = MkService 200 9 1 true 0 false 0 0 3)). by repeat constructor. Qed.

Lemma sleepy_ids v d i r : service_ids sleepy_sys v = Some (d, i, r) -> v = 7 /\ d = 200 /\ i = 1 /\ r = 3.
Proof.
  unfold service_ids. destruct (svcs sleepy_sys !! v) as [x|] eqn:E; [|done]. apply sleepy_service in E as [-> ->]. intros H. by injection H as <- <- <-.
Qed.

Lemma sleepy_fields t f : thread_fields sleepy_sys t = Some f -> f_src f = NULL /\ (forall i, receiving (f_pc f) i -> t = 3 /\ i = 1).
Proof.
  unfold thread_fields. destruct (pthreads sleepy_sys !! t) as [p|] eqn:E; [|done]. intros H. injection H as <-. revert t p E.
  apply (map_to_list_cases _ (fun t p => f_src (fields_of p) = NULL /\ forall i, receiving (f_pc (fields_of p)) i -> t = 3 /\ i = 1)).
  repeat apply Forall_cons_2; try apply Forall_nil_2; (split; [done|]); intros i [H|H]; simpl in *; try done. by injection H as <-.
Qed.

Lemma sleepy_entry d i : 0 <= i -> entries sleepy_sys d i = Some 7 -> d = 200 /\ i = 1.
Proof.
  unfold entries. intros Hi. destruct (pdoms sleepy_sys !! d) as [x|] eqn:E; [|done]. simpl. revert d x E.
  apply (map_to_list_cases _ (fun d x => services_of x !! Z.to_nat i = Some 7 -> d = 200 /\ i = 1)).
  repeat apply Forall_cons_2; try apply Forall_nil_2; simpl; intros H; [by destruct (Z.to_nat i)|].
  split; [done|]. destruct (Z.to_nat i) as [|[|[|n]]] eqn:En; simpl in H; try done. lia.
Qed.

Lemma sleepy_inv : portal_inv (fun _ => []) sleepy_sys.
Proof.
  split; [by exists sleepy_q, 100; apply sleepy_ok| | |done|done].
  - intros v x [-> ->]%sleepy_service. split_and!; [done|done|apply NoDup_nil_2].
  - split.
    + intros v d i r t _ H. by apply elem_of_nil in H.
    + intros v x t r f _ H. by apply elem_of_nil in H.
    + done.
    + intros v d i r (-> & -> & -> & ->)%sleepy_ids. done.
    + intros r f [E _]%sleepy_fields. done.
    + intros r f [E _]%sleepy_fields. done.
    + intros r f i [E H]%sleepy_fields Hi. split; [done|]. destruct (H i Hi) as [-> ->]. by exists 7, 200.
    + intros v v' d i d' i' r _ (-> & _)%sleepy_ids (-> & _)%sleepy_ids. done.
    + intros v d i d' i' r He Hi (-> & -> & -> & _)%sleepy_ids. by apply sleepy_entry in He as [-> ->].
    + intros v d i r st d' (-> & -> & -> & ->)%sleepy_ids H. by injection H.
Qed.

(** the caller sends, the receiver accepts *)
Definition sleepy_sent : sys unit :=
  match direct_send_portal sleepy_proxy [8; 42] 0 sleepy_sys with Ok (_, s) => s | Err _ => sleepy_sys end.
Definition sleepy_accepted : sys unit :=
  match recv_wakeup 1 1 sleepy_sent with Ok s => s | Err _ => sleepy_sys end.

Lemma portal_protocol_safe_witness :
  cur sleepy_sent = 3 /\ (myparams <$> (pthreads sleepy_accepted !! 3)) = Some [9; 42] /\
  exists L', portal_inv L' sleepy_accepted /\ rtc fifo_step (fun _ => []) L'.
Proof.
  split; [by vm_compute|]. split; [by vm_compute|].
  destruct (portal_protocol_safe 1 (fun _ => []) sleepy_sys sleepy_accepted sleepy_inv) as (L' & I & Hf & _); [|by exists L'].
  eapply (rtc_l _ _ sleepy_sent).
  - eapply (step_send 1 sleepy_sys (new_pthread PUser) sleepy_proxy [8; 42] 0); [by vm_compute..|by vm_compute].
  - apply rtc_once. eapply (step_recv_wakeup 1 sleepy_sent _ 1); [by vm_compute..|by vm_compute].
Defined.
