(* ===== verification/PortalCall.v ===== *)
(** * A portal call from end to end

    With a waiting receiver and no other runnable thread, a call runs through
    four pieces of code: the first half of [direct_send_portal], the receiver
    up to the method, the receiver after the method, and the second half of
    [direct_send_portal].  The copies of references that it makes on the way
    are described by relations over the heaps. *)

From S2P Require Import Prelude RunQueue Portal PortalInv.
#[local] Open Scope Z_scope.

(** no thread is queued *)
Definition quiet (q : queues) : Prop := dq q = [] /\ forall d, tq q d = [].

Lemma pick_ready_quiet cd d t q : quiet q -> cd <> d ->
  fst (q_pick cd (q_ready cd d t q)) = t /\ quiet (snd (q_pick cd (q_ready cd d t q))).
Proof.
  intros [Hd Ht] Hne. unfold q_ready. rewrite (Ht d), bool_decide_true by done. rewrite (proj2 (Z.eqb_neq cd d) Hne). cbn [andb negb].
  unfold q_pick, q_dpush, q_tpush, q_tset. cbn [dq tq]. rewrite Hd, (Ht d). cbn [app hd]. rewrite Z.eqb_refl. cbn [fst snd hd]. split; [reflexivity|].
  unfold q_requeue, q_dset, q_tpop, q_tset. cbn [dq tq]. rewrite (proj2 (Z.eqb_neq cd d) Hne), (Ht cd), bool_decide_true by done. cbn.
  split; [done|]. intros e. rewrite Z.eqb_refl. cbn. destruct (Z.eqb_spec e d) as [->|]; [done|apply Ht].
Qed.

Lemma switch_quiet s s' cd cd' d t q q' : quiet q -> cd <> d -> t <> NULL -> sched_ok s' q' cd' ->
  current s' = chosen s cd (q_ready cd d t q) -> tinfo s' t = Some (STATE_RUNNABLE, d) -> current s' = t /\ cd' = d.
Proof.
  intros Hq Hne Ht Hok Hc Hst. destruct (pick_ready_quiet cd d t q Hq Hne) as [Hp _].
  assert (current s' = t) as E by (rewrite Hc; unfold chosen; rewrite Hp; by rewrite (proj2 (Z.eqb_neq t NULL) Ht)).
  split; [done|]. pose proof (so_run _ _ _ Hok) as Hr. rewrite E, Hst in Hr. by injection Hr.
Qed.

Ltac alters := repeat first [rewrite lookup_alter_eq | rewrite lookup_alter_ne by congruence].

Section Call.
Context {X : Type} `{!Copying X}.
Abbreviation sys := (sys X).

(** ** What the copies of a call produce

    A copy of one reference starts again, with the quota left, as long as a
    collection interrupts it: [n] interruptions. *)
Inductive reference_copied (src dst p : Z) : nat -> Z -> X -> Z -> Z -> X -> Prop :=
| rc_done q h v q' h' : copy_reference src dst p q h = Ok (v, q', h') -> v <> RESTART -> reference_copied src dst p 0 q h v q' h'
| rc_again n q h q1 h1 v q' h' : copy_reference src dst p q h = Ok (RESTART, q1, h1) ->
    reference_copied src dst p n q1 h1 v q' h' -> reference_copied src dst p (S n) q h v q' h'.

(** numbers and [NULL] are passed as they are, references into DomainZero too *)
Inductive parameters_copied (fuel : nat) (zero src dst : Z) : list bool -> list Z -> Z -> X -> list Z -> Z -> X -> Prop :=
| pc_done map params q h : map = [] \/ params = [] -> parameters_copied fuel zero src dst map params q h [] q h
| pc_word isref map p params q h l q' h' : p = 0 \/ isref = false \/ dst = zero ->
    parameters_copied fuel zero src dst map params q h l q' h' ->
    parameters_copied fuel zero src dst (isref :: map) (p :: params) q h (p :: l) q' h'
| pc_reference map p params n q h v q1 h1 l q' h' : p <> 0 -> dst <> zero -> (n < fuel)%nat ->
    reference_copied src dst p n q h v q1 h1 ->
    parameters_copied fuel zero src dst map params q1 h1 l q' h' ->
    parameters_copied fuel zero src dst (true :: map) (p :: params) q h (v :: l) q' h'.

(** the credentials [p] of the caller, if it has any; they use up the quota first *)
Definition credentials_copied (fuel : nat) (src dst p : Z) (h : X) (pp q' : Z) (h' : X) : Prop :=
  if p =? 0 then q' = RECEIVE_PORTAL_QUOTA /\ h' = h
  else exists n, (n < fuel)%nat /\ reference_copied src dst p n RECEIVE_PORTAL_QUOTA h pp q' h'.
Definition credited (p pp : Z) (y : pthread) : pthread := if p =? 0 then y else set_portalParameter pp y.

(** the result [ret] of the method [m] *)
Definition result_copied (fuel : nat) (m : method) (src dst ret : Z) (h : X) (ret' : Z) (h' : X) : Prop :=
  if (returnType m =? 1) && negb (keeps_return m)
  then exists n q, (n < fuel)%nat /\ reference_copied src dst ret n RECEIVE_PORTAL_QUOTA h ret' q h'
  else ret' = ret /\ h' = h.

Lemma heaps_same (s : sys) : set_heaps (heaps s) s = s.
Proof. by destruct s. Qed.
Lemma upd_pthr_same t f (s : sys) : (forall y, f y = y) -> upd_pthr t f s = s.
Proof.
  intros Hf. destruct s as [c m v d z h]. unfold upd_pthr. cbn. f_equal. apply map_eq. intros x.
  destruct (decide (x = t)) as [->|Hx]; [|by rewrite lookup_alter_ne]. rewrite lookup_alter_eq.
  destruct (m !! t); cbn; [by rewrite Hf|done].
Qed.

Lemma copy_restarting_copied src dst p n q h v q' h' : reference_copied src dst p n q h v q' h' ->
  forall fuel (s : sys), (n < fuel)%nat -> heaps s = h -> copy_restarting fuel src dst p q s = Ok (v, q', set_heaps h' s).
Proof.
  induction 1 as [q h v q' h' E Hv|n q h q1 h1 v q' h' E _ IH]; intros fuel s Hf Hh; (destruct fuel as [|fuel]; [lia|]);
    unfold copy_restarting in *; cbn [loop]; rewrite Hh, E; cbn [rbind].
  - by rewrite (proj2 (Z.eqb_neq v RESTART) Hv).
  - rewrite Z.eqb_refl. cbn [rbind]. rewrite (IH fuel (set_heaps h1 s)) by (done || lia). done.
Qed.

Lemma copy_params_copied fuel zero src dst map params q h l q' h' : parameters_copied fuel zero src dst map params q h l q' h' ->
  forall s : sys, domainZero s = zero -> heaps s = h -> copy_params fuel src dst map params q s = Ok (l, q', set_heaps h' s).
Proof.
  induction 1 as [map params q h Hn|isref map p params q h l q' h' Hp _ IH|map p params n q h v q1 h1 l q' h' Hp Hd Hn Hr _ IH]; intros s Hz Hh.
  - rewrite <- Hh, heaps_same. destruct Hn as [-> | ->]; [by destruct params|by destruct map].
  - cbn [copy_params]. assert ((p =? 0) || negb isref || (dst =? domainZero s) = true) as ->.
    { rewrite Hz. destruct Hp as [-> | [-> | ->]]; [done|by rewrite orb_true_r|by rewrite Z.eqb_refl, orb_true_r]. }
    cbn [rbind]. rewrite IH by done. done.
  - cbn [copy_params]. rewrite Hz, (proj2 (Z.eqb_neq p 0) Hp), (proj2 (Z.eqb_neq dst zero) Hd). cbn [negb orb].
    rewrite (copy_restarting_copied _ _ _ _ _ _ _ _ _ Hr fuel s Hn Hh). cbn [rbind]. rewrite (IH (set_heaps h1 s)) by done. done.
Qed.

(** without references the parameters are the caller's words *)
Lemma parameters_numeric fuel zero src dst map : forall params q h, Forall (fun b => b = false) map ->
  parameters_copied fuel zero src dst map params q h (take (length map) params) q h.
Proof.
  induction map as [|b map IH]; intros [|p params] q h Hm; cbn [length take]; try (apply pc_done; tauto).
  apply Forall_cons in Hm as [-> Hm]. apply pc_word; [tauto|by apply IH].
Qed.

(** what is true of the service during the call *)
Record called (s : sys) (D idx svc : Z) (v : service) (x : pdomain) : Prop := {
  cd_dom : pdoms s !! D = Some x;
  cd_entry : services_of x !! Z.to_nat idx = Some svc;
  cd_svc : svcs s !! svc = Some v;
  cd_nonnull : svc <> NULL /\ svc <> SERVICE_ENTRY_CHANGING;
}.

Lemma GETSVC_called s D idx svc v x : called s D idx svc v x -> GETSVC D idx s = Ok svc.
Proof. intros [Hd He Hs _]. unfold GETSVC, pdom. rewrite Hd. cbn [rbind]. rewrite He. unfold svc_. by rewrite Hs. Qed.

Lemma thr_of_tinfo s t st d : tinfo s t = Some (st, d) -> exists T, thr s t = Ok T /\ t_state T = st /\ t_domain T = d.
Proof. intros (T & ET & H1 & H2)%tinfo_some. exists T. unfold thr. by rewrite ET. Qed.

(** the first half of [direct_send_portal] *)
Lemma send_to_waiting px params m (s : sys) q cd x v svc pd r y :
  sched_ok (sch s) q cd -> quiet q -> cur s <> idle_thread (sch s) -> pthreads s !! cur s = Some x ->
  called s (targetDomain px) (px_index px) svc v pd -> targetDomain px <> cd ->
  pd_id pd = targetDomainID px -> pd_state pd = DOMAIN_STATE_ACTIVE ->
  firstWaitingSender v = NULL -> lastWaitingSender v = NULL -> svc_receiver v = r ->
  tinfo (sch s) r = Some (STATE_PORTAL_WAIT_FOR_SND, targetDomain px) -> pthreads s !! r = Some y ->
  exists s1 q1, direct_send_portal px params m s = Ok (Switched, s1) /\
    sched_ok (sch s1) q1 (targetDomain px) /\ quiet q1 /\ cur s1 = r /\ idle_thread (sch s1) = idle_thread (sch s) /\
    tinfo (sch s1) (cur s) = Some (STATE_PORTAL_WAIT_FOR_RET, cd) /\
    pthreads s1 !! r = Some y /\
    pthreads s1 !! cur s = Some (set_pc PSendHandoff (set_nextInDEPQueue NULL
      (set_dep params m (set_blocked (targetDomain px) (pd_id pd) (px_index px) (blockedInServiceThread x) x)))) /\
    called s1 (targetDomain px) (px_index px) svc (set_last (cur s) (set_first (cur s) v)) pd /\
    pdoms s1 = pdoms s /\ heaps s1 = heaps s /\ domainZero s1 = domainZero s.
Proof.
  intros Hok Hq Hidle Hx Hcall Hne Hid Hact Hfirst Hlast Hr Hrs Hy. destruct (states_sched s q cd Hok) as [Hc Hc0].
  set (c := cur s) in *. destruct Hcall as [Hd He Hs [Hs0 Hsc]].
  assert (r <> c) as Hrc by (intros ->; unfold states in Hc; by rewrite Hrs in Hc).
  unfold direct_send_portal, send_local, send_enqueue, pdom. rewrite Hd. cbn [rbind]. rewrite (curdom_mid _ _ _ (so_mid _ _ _ Hok)). cbn [rbind].
  rewrite (proj2 (Z.eqb_neq _ _) Hne), Hid, Z.eqb_refl, Hact, Z.eqb_refl, He, (proj2 (Z.eqb_neq svc _) Hsc). cbn [negb].
  fold c. unfold pthr at 1. rewrite Hx. cbn [rbind].
  set (f := fun x => set_dep params m _). set (s0 := upd_pthr c f s).
  unfold svc_ at 1. change (svcs s0) with (svcs s). rewrite Hs. cbn [rbind].
  assert (pthreads s0 !! c = Some (f x)) as Hx0 by (unfold s0; cbn; by rewrite lookup_alter_eq, Hx).
  assert (queue (pnext (pthreads s0)) (firstWaitingSender v) (lastWaitingSender v) []) as HQ by (rewrite Hfirst, Hlast; split_and!; [done|done|apply NoDup_nil_2]).
  rewrite (add_sender_spec svc c v [] s0 Hs Hs0 Hc0 (ex_intro _ _ Hx0) (not_elem_of_nil _) HQ) by (by vm_compute). cbn [rbind].
  destruct (added_queue svc c v [] s0 Hs Hc0 (ex_intro _ _ Hx0) (not_elem_of_nil _) HQ) as ((v' & Hv' & HQ' & _) & _).
  set (s2 := added svc c v s0) in *.
  assert (s2 = upd_svc svc (set_last c) (upd_svc svc (set_first c) (upd_pthr c (set_nextInDEPQueue NULL) s0))) as Es2.
  { unfold s2, added. by rewrite Hlast. }
  assert (sch s2 = sch s) as Esch by (by rewrite Es2). rewrite Esch, Hr.
  destruct (tinfo_some _ _ _ _ Hrs) as (T & ET & HTs & HTd). unfold thr at 1. rewrite ET. cbn [rbind]. rewrite HTs. cbn [negb].
  rewrite (check_servicequeue_spec svc v' _ s2 Hv' HQ'). cbn [rbind].
  destruct (handoff_receiver_spec (sch s) q cd r T Hok Hidle ET ltac:(by rewrite HTs)) as (c1 & cd1 & E1 & Hok1 & Hcur1 & Hid1 & Ht1).
  rewrite HTd in *. destruct (pick_ready_quiet cd (targetDomain px) r q Hq ltac:(congruence)) as [_ Hq1].
  unfold lift. change (sch (upd_pthr c (set_pc PSendHandoff) s2)) with (sch s2). rewrite Esch, E1. cbn [rbind].
  assert (r <> NULL) as Hrn by (exact (nonnull_thread _ _ _ _ _ (sm_rep _ _ _ (so_mid _ _ _ Hok)) Hrs)).
  destruct (switch_quiet (sch s) c1 cd cd1 (targetDomain px) r q _ Hq ltac:(congruence) Hrn Hok1 Hcur1 ltac:(by rewrite Ht1, Z.eqb_refl)) as [Hc1 ->].
  eexists _, _. split; [reflexivity|]. split; [exact Hok1|]. split; [exact Hq1|]. cbn [sch set_sch cur].
  split_and!.
  - exact Hc1.
  - exact Hid1.
  - rewrite Ht1. rewrite (proj2 (Z.eqb_neq c r)) by congruence. unfold c, cur, curthr. by rewrite Z.eqb_refl.
  - rewrite Es2. cbn. by rewrite !lookup_alter_ne by congruence.
  - rewrite Es2. cbn. by rewrite !lookup_alter_eq, Hx.
  - rewrite Es2. split; [exact Hd|exact He| |done]. cbn. by rewrite !lookup_alter_eq, Hs.
  - by rewrite Es2.
  - by rewrite Es2.
  - by rewrite Es2.
Qed.

Lemma not_queued_domain (s : sched) q cd : sched_ok s q cd -> quiet q -> check_domain_not_in_runq cd s = Ok tt.
Proof.
  intros Hok [Hd _]. unfold check_domain_not_in_runq. rewrite (on_domain_queue s q cd (sm_rep _ _ _ (so_mid _ _ _ Hok))), Hd.
  cbn [rbind]. by rewrite bool_decide_false by apply not_elem_of_nil.
Qed.

(** the waiting receiver takes the only sender, up to the method *)
Lemma accept_waiting fuel idx (s : sys) q D r c cd y z svc v pd cpd m params pp q0 h0 l q1 h1 :
  sched_ok (sch s) q D -> quiet q -> cur s = r -> c <> r -> c <> NULL -> tinfo (sch s) c = Some (STATE_PORTAL_WAIT_FOR_RET, cd) ->
  pthreads s !! r = Some y -> pthreads s !! c = Some z ->
  nextInDEPQueue z = NULL -> blockedInServiceIndex z = idx -> depParams z = params ->
  called s D idx svc v pd -> firstWaitingSender v = c -> lastWaitingSender v = c -> svc_valid v = true ->
  method_of (svc_obj v) (depMethodIndex z) (heaps s) = Some m ->
  credentials_copied fuel cd D (portalParameter z) (heaps s) pp q0 h0 ->
  parameters_copied fuel (domainZero s) cd D (argTypeMap m) (take (Z.to_nat (numberOfArgs m)) (tail params)) q0 h0 l q1 h1 ->
  pdoms s !! cd = Some cpd ->
  exists s', recv_wait fuel idx s = Ok s' /\ sched_ok (sch s') q D /\ cur s' = r /\ idle_thread (sch s') = idle_thread (sch s) /\
    tinfo (sch s') c = Some (STATE_PORTAL_WAIT_FOR_RET, cd) /\
    pthreads s' !! r = Some (set_pc PUser (set_caller cd (pd_id cpd)
      (set_myparams (svc_obj v :: l) (credited (portalParameter z) pp (set_processing svc c y))))) /\
    pthreads s' !! c = Some (set_dep [] (depMethodIndex z) (set_blocked (blockedInDomain z) (blockedInDomainID z) idx r (set_nextInDEPQueue NULL z))) /\
    called s' D idx svc (set_last NULL (set_first NULL v)) pd /\ pdoms s' = pdoms s /\ heaps s' = h1.
Proof.
  intros Hok Hq Hcur Hcr Hc0 Hst Hy Hz Hn Hidx Hp Hcall Hf Hl Hval Hm Hcred Hmap Hcd.
  pose proof (GETSVC_called _ _ _ _ _ _ Hcall) as Hget. pose proof Hcall as [Hd He Hs Hs0].
  pose proof (curdom_mid _ _ _ (so_mid _ _ _ Hok)) as Hcdom.
  unfold recv_wait. rewrite Hcdom. cbn [rbind]. rewrite Hget. cbn [rbind].
  unfold portal_dequeue_sender, svc_ at 1. rewrite Hs. cbn [rbind]. rewrite Hf, (proj2 (Z.eqb_neq c NULL) Hc0).
  unfold pthr at 1. rewrite Hz. cbn [rbind]. rewrite Hn. cbn [Z.eqb NULL]. cbn [rbind].
  set (s1 := upd_pthr c (set_nextInDEPQueue NULL) _).
  assert (called s1 D idx svc (set_last NULL (set_first NULL v)) pd) as Hcall1.
  { split; [exact Hd|exact He| |done]. unfold s1. cbn. by rewrite !lookup_alter_eq, Hs. }
  assert (pthreads s1 !! c = Some (set_nextInDEPQueue NULL z)) as Hz1 by (unfold s1; cbn; by rewrite lookup_alter_eq, Hz).
  assert (pthreads s1 !! r = Some y) as Hy1 by (unfold s1; cbn; by rewrite lookup_alter_ne by congruence).
  assert (sch s1 = sch s) as Hsch by done. assert (heaps s1 = heaps s) as Hh by done. assert (domainZero s1 = domainZero s) as Hdz by done. assert (pdoms s1 = pdoms s) as Hpd by done.
  clearbody s1. rewrite (proj2 (Z.eqb_neq c NULL) Hc0). unfold recv_accept.
  assert (cur s1 = r) as Hcur1 by (unfold cur, curthr; rewrite Hsch; exact Hcur). rewrite Hcur1, Hsch, Hcdom. cbn [rbind].
  rewrite (not_queued_domain _ _ _ Hok Hq). cbn [rbind].
  destruct (thr_of_tinfo _ _ _ _ Hst) as (T & ET & HTs & HTd). rewrite ET. cbn [rbind].
  set (sc := set_t_state c STATE_PORTAL_WAIT_FOR_PARAMCOPY (sch s)).
  assert (sched_ok sc q D) as Hoksc by (eapply sched_ok_set_state; [exact Hok|unfold cur, curthr in Hcur; congruence|exact Hst|done]).
  assert (tinfo sc c = Some (STATE_PORTAL_WAIT_FOR_PARAMCOPY, cd)) as Hsc.
  { unfold sc. by rewrite tinfo_set_t_state, Z.eqb_refl, Hst. }
  destruct (thr_of_tinfo _ _ _ _ Hsc) as (T1 & ET1 & _ & HT1d).
  assert (exists R, thr sc r = Ok R /\ t_state R = STATE_RUNNABLE /\ t_domain R = D) as (R & ER & HRs & _).
  { apply thr_of_tinfo. rewrite <- Hcur. exact (so_run _ _ _ Hoksc). }
  
  assert (forall u : sys, svcs u = svcs s1 -> pdoms u = pdoms s1 ->
    GETSVC D idx u = Ok svc /\ svc_ u svc = Ok (set_last NULL (set_first NULL v)) /\
    check_servicequeue svc u = Ok tt /\ check_notin_servicequeue svc c u = Ok tt) as Hu.
  { intros u Es Ed. destruct Hcall1 as [Hd1 He1 Hs1 _]. rewrite <- Es in Hs1. rewrite <- Ed in Hd1.
    assert (queue (pnext (pthreads u)) NULL NULL []) as HQ by (split_and!; [done|done|apply NoDup_nil_2]). split_and!.
    - eapply GETSVC_called. by split.
    - unfold svc_. by rewrite Hs1.
    - by rewrite (check_servicequeue_spec svc _ [] u Hs1 HQ).
    - rewrite (check_notin_spec svc _ [] c u Hs1 HQ). by rewrite bool_decide_false by apply not_elem_of_nil. }
  unfold pthr at 1. cbn [pthreads set_state set_sch]. rewrite Hz1. cbn [rbind blockedInServiceIndex set_nextInDEPQueue depMethodIndex portalParameter depParams].
  rewrite Hidx, Hp. set (s2 := set_state c STATE_PORTAL_WAIT_FOR_PARAMCOPY s1).
  destruct (Hu s2 eq_refl eq_refl) as (Eg & Ev & _). rewrite Eg. cbn [rbind]. assert (sch s2 = sc) as Hs2 by (unfold s2, sc, set_state; cbn; by rewrite Hsch).
  rewrite Hs2, ER. cbn [rbind]. rewrite HRs, Z.eqb_refl. cbn [assert_ rbind]. rewrite Ev. cbn [rbind].
  assert (pthreads s2 = pthreads s1) as Hps by done. assert (svcs s2 = svcs s1) as Hss by done. assert (pdoms s2 = pdoms s1) as Hds by done.
  assert (heaps s2 = heaps s) as Hhs by done. assert (domainZero s2 = domainZero s) as Hdz2 by done. clearbody s2. clear Eg Ev. unfold pthr at 1. rewrite Hps, Hy1. cbn [rbind svc_obj set_last set_first].
  cbn [heaps upd_pthr]. rewrite Hhs, Hm. cbn [sch upd_pthr]. rewrite Hs2, ET1. cbn [rbind]. rewrite HT1d.
  set (s3 := upd_pthr c (fun x => set_blocked _ _ _ r x) (upd_pthr r _ s2)).
  assert (credentials : (if portalParameter z =? 0 then Ok (RECEIVE_PORTAL_QUOTA, s3)
      else let! '(v0, quota, s) := copy_restarting fuel cd D (portalParameter z) RECEIVE_PORTAL_QUOTA s3 in
           Ok (quota, upd_pthr r (set_portalParameter v0) s)) =
    Ok (q0, set_heaps h0 (upd_pthr r (credited (portalParameter z) pp) s3))).
  { unfold credentials_copied in Hcred. unfold credited. destruct (portalParameter z =? 0).
    - destruct Hcred as [-> ->]. rewrite upd_pthr_same by done. rewrite <- Hhs. change (heaps s2) with (heaps s3). by rewrite heaps_same.
    - destruct Hcred as (n & Hn' & Hrc). rewrite (copy_restarting_copied _ _ _ _ _ _ _ _ _ Hrc fuel s3 Hn' Hhs). done. }
  rewrite credentials. clear credentials. cbn [rbind]. rewrite (copy_params_copied _ _ _ _ _ _ _ _ _ _ _ Hmap) by done. cbn [rbind].
  set (s4 := upd_pthr c (fun x => set_dep [] (depMethodIndex x) x) _).
  destruct (Hu s4 Hss Hds) as (Eg & Ev & Ech & Eno). rewrite Eg. cbn [rbind]. rewrite Ech. cbn [rbind]. rewrite Eno. cbn [rbind].
  rewrite Ev. cbn [rbind svc_valid set_last set_first]. rewrite Hval. cbn [negb].
  unfold pdom. change (pdoms s4) with (pdoms s2). rewrite Hds, Hpd, Hcd. cbn [rbind].
  eexists. split; [reflexivity|]. cbn [sch pthreads svcs pdoms heaps upd_pthr set_state set_sch cur].
  change (sch s4) with (sch s2). rewrite Hs2. split; [|split; [|split; [|split; [|split]]]].
  - eapply sched_ok_set_state; [exact Hoksc|unfold cur, curthr in Hcur; cbn; congruence|exact Hsc|done].
  - unfold cur, curthr. cbn [sch upd_pthr set_state set_sch]. change (sch s4) with (sch s2). rewrite Hs2. exact Hcur.
  - done.
  - by rewrite tinfo_set_t_state, Z.eqb_refl, Hsc.
  - unfold s4, s3. cbn [pthreads upd_pthr set_heaps]. rewrite Hps. alters. by rewrite Hy1.
  - unfold s4, s3. cbn [pthreads upd_pthr set_heaps]. rewrite Hps. split_and!.
    + alters. rewrite Hz1. cbn. by rewrite Hidx.
    + destruct Hcall1 as [Hd1 He1 Hs1 Hn1]. split; [by rewrite <- Hd1, <- Hds|exact He1|by rewrite <- Hs1, <- Hss|exact Hn1].
    + change (pdoms s2 = pdoms s). congruence.
    + done.
Qed.

(** the method returned: the result is delivered *)
Lemma reply_to_caller fuel idx ret (s : sys) q D r c cd y z svc v pd cpd m T ret' h' :
  sched_ok (sch s) q D -> quiet q -> cur s = r -> c <> r -> r <> idle_thread (sch s) -> cd <> D ->
  tinfo (sch s) c = Some (STATE_PORTAL_WAIT_FOR_RET, cd) -> threads (sch s) !! c = Some T ->
  pthreads s !! r = Some y -> pthreads s !! c = Some z ->
  mostRecentlyCalledBy y = c -> callerDomain y = cd -> callerDomainID y = pd_id cpd -> pdoms s !! cd = Some cpd -> pd_state cpd = DOMAIN_STATE_ACTIVE ->
  called s D idx svc v pd -> firstWaitingSender v = NULL -> lastWaitingSender v = NULL -> svc_abort v = false ->
  method_of (svc_obj v) (depMethodIndex z) (heaps s) = Some m -> result_copied fuel m D cd ret (heaps s) ret' h' ->
  exists s' q', recv_reply fuel idx ret s = Ok s' /\
    sched_ok (sch s') q' cd /\ quiet q' /\ cur s' = c /\ idle_thread (sch s') = idle_thread (sch s) /\
    tinfo (sch s') r = Some (STATE_PORTAL_WAIT_FOR_SND, D) /\
    (exists y', pthreads s' !! r = Some y' /\ p_pc y' = PRecvLoop idx) /\
    pthreads s' !! c = Some (set_return ret' (if returnType m =? 1 then PORTAL_RETURN_TYPE_REFERENCE else PORTAL_RETURN_TYPE_NUMERIC) z) /\
    svcs s' = svcs s /\ pdoms s' = pdoms s /\ heaps s' = h'.
Proof.
  intros Hok Hq Hcur Hcr Hri Hne Hst HT Hy Hz Hsrc Hcd Hcid Hcpd Hact Hcall Hf Hl Hab Hm Hnum.
  pose proof (GETSVC_called _ _ _ _ _ _ Hcall) as Hget. pose proof Hcall as [Hd He Hs Hs0].
  pose proof (curdom_mid _ _ _ (so_mid _ _ _ Hok)) as Hcdom.
  destruct (thr_of_tinfo _ _ _ _ Hst) as (T0 & ET & HTs & HTd). apply thr_some in ET. rewrite HT in ET. injection ET as <-.
  assert (queue (pnext (pthreads s)) (firstWaitingSender v) (lastWaitingSender v) []) as HQ.
  { rewrite Hf, Hl. split_and!; [done|done|apply NoDup_nil_2]. }
  unfold recv_reply, pthr at 1. rewrite Hcur, Hy. cbn [rbind]. unfold pdom. rewrite Hcd, Hcpd. cbn [rbind]. rewrite Hcid, Hact, !Z.eqb_refl. cbn [negb orb].
  rewrite Hsrc. unfold pthr at 1. rewrite Hz. cbn [rbind]. rewrite Hcdom. cbn [rbind]. rewrite Hget. cbn [rbind]. unfold svc_ at 1. rewrite Hs. cbn [rbind].
  rewrite Hab, (check_notin_spec svc v [] r s Hs HQ), bool_decide_false by apply not_elem_of_nil. cbn [rbind]. rewrite Hm.
  unfold thr at 1. cbn [sch upd_pthr]. rewrite HT. cbn [rbind]. rewrite HTd.
  set (s0 := set_state c STATE_PORTAL_WAIT_FOR_RETCOPY _).
  assert (result : (if (returnType m =? 1) && negb (keeps_return m) then
      let! '(r0, _, s) := copy_restarting fuel D cd ret RECEIVE_PORTAL_QUOTA s0 in Ok (r0, s) else Ok (ret, s0)) = Ok (ret', set_heaps h' s0)).
  { unfold result_copied in Hnum. destruct ((returnType m =? 1) && negb (keeps_return m)).
    - destruct Hnum as (n & q0 & Hn & Hrc). rewrite (copy_restarting_copied _ _ _ _ _ _ _ _ _ Hrc fuel s0 Hn eq_refl). done.
    - destruct Hnum as [-> ->]. done. }
  rewrite result. clear result. cbn [rbind]. rewrite Hf. cbn [Z.eqb NULL negb].
  set (s1 := upd_pthr r (set_pc (PRecvLoop idx)) _). set (sc := set_t_state c STATE_PORTAL_WAIT_FOR_RETCOPY (sch s)).
  assert (sched_ok sc q D) as Hoksc by (eapply sched_ok_set_state; [exact Hok|unfold cur, curthr in Hcur; congruence|exact Hst|done]).
  assert (tinfo sc c = Some (STATE_PORTAL_WAIT_FOR_RETCOPY, cd)) as Hsc by (unfold sc; by rewrite tinfo_set_t_state, Z.eqb_refl, Hst).
  destruct (tinfo_some _ _ _ _ Hsc) as (T1 & ET1 & HT1s & HT1d).
  destruct (handoff_sender_spec sc q D c T1 false Hoksc ltac:(unfold cur, curthr in Hcur; cbn; congruence) ET1 ltac:(by rewrite HT1s))
    as (c2 & q' & cd2 & E2 & Hok2 & -> & Hc2 & Hid2 & Ht2).
  rewrite HT1d in *. destruct (pick_ready_quiet D cd c q Hq ltac:(congruence)) as [_ Hq2].
  assert (c <> NULL) as Hc0 by (exact (nonnull_thread _ _ _ _ _ (sm_rep _ _ _ (so_mid _ _ _ Hok)) Hst)).
  destruct (switch_quiet sc c2 D cd2 cd c q _ Hq ltac:(congruence) Hc0 Hok2 Hc2 ltac:(by rewrite Ht2, Z.eqb_refl)) as [Hcc ->].
  unfold lift. change (sch s1) with sc. rewrite E2. cbn [rbind]. eexists _, _. split; [reflexivity|]. split; [exact Hok2|]. split; [exact Hq2|].
  cbn [sch set_sch]. split_and!.
  - exact Hcc.
  - exact Hid2.
  - rewrite Ht2, (proj2 (Z.eqb_neq r c)) by congruence. change (current sc) with (cur s). by rewrite Hcur, Z.eqb_refl.
  - unfold s1, s0. cbn. alters. rewrite Hy. by eexists.
  - unfold s1, s0. cbn. alters. by rewrite Hz.
  - done.
  - done.
  - done.
Qed.

(** the caller runs again: the result is on its stack *)
Lemma resume_returns ret (s : sys) q cd c z :
  sched_ok (sch s) q cd -> cur s = c -> pthreads s !! c = Some z -> p_pc z = PSendHandoff ->
  portalReturn z = ret -> portalReturnType z <> PORTAL_RETURN_TYPE_EXCEPTION ->
  exists s' z', send_resume s = Ok (Returned ret, s') /\ sch s' = sch s /\ pthreads s' !! c = Some z' /\
    depParams z' = [] /\ p_pc z' = PUser /\ portalParameter z' = portalParameter z /\
    (forall t, t <> c -> pthreads s' !! t = pthreads s !! t) /\ svcs s' = svcs s /\ pdoms s' = pdoms s /\ heaps s' = heaps s.
Proof.
  intros Hok Hcur Hz Hpc Hret Hty. unfold send_resume, pthr at 1. rewrite Hcur, Hz. cbn [rbind]. rewrite Hpc.
  destruct (thr_of_tinfo _ _ _ _ (so_run _ _ _ Hok)) as (T & ET & HTs & _). change (current (sch s)) with (cur s) in ET. rewrite Hcur in ET.
  rewrite ET. cbn [rbind]. rewrite HTs, Z.eqb_refl. cbn [assert_ rbind]. unfold send_finished. set (s1 := upd_pthr c (set_pc PUser) s).
  change (cur s1) with (cur s). rewrite Hcur. unfold pthr, s1. cbn [pthreads upd_pthr]. rewrite lookup_alter_eq, Hz. cbn [fmap option_fmap option_map rbind].
  cbn [portalReturnType set_pc portalReturn]. rewrite (proj2 (Z.eqb_neq _ _) Hty), Hret.
  eexists _, _. split; [reflexivity|]. split; [done|]. cbn [pthreads upd_pthr]. split; [alters; by rewrite Hz|].
  split_and!; try done. intros t Ht. by alters.
Qed.

(** [r] sleeps in the service [svc] of domain [D], whose queue is empty; the
    running thread belongs to [cd] *)
Record ready (s : sys) (q : queues) (cd D idx svc r : Z) (v : service) (pd cpd : pdomain) : Prop := {
  rd_sched : sched_ok (sch s) q cd;
  rd_quiet : quiet q;
  rd_user : cur s <> idle_thread (sch s);
  rd_called : called s D idx svc v pd;
  rd_empty : firstWaitingSender v = NULL /\ lastWaitingSender v = NULL;
  rd_receiver : svc_receiver v = r;
  rd_live : svc_valid v = true /\ svc_abort v = false;
  rd_sleeps : tinfo (sch s) r = Some (STATE_PORTAL_WAIT_FOR_SND, D);
  rd_pc : exists y, pthreads s !! r = Some y /\ receiving (p_pc y) idx;
  rd_caller : pdoms s !! cd = Some cpd /\ pd_state cpd = DOMAIN_STATE_ACTIVE;
  rd_other : D <> cd;
}.

(** a receiver that was switched to goes on where it left off *)
Definition recv_continue (fuel : nat) (p : pc) (s : sys) : res sys :=
  match p with
  | PRecvBlocked i => recv_wakeup fuel i s
  | PRecvLoop i => recv_loop fuel i s
  | _ => Err EFault
  end.

Lemma resume_id (s : sched) d : tinfo s (curthr s) = Some (STATE_RUNNABLE, d) -> Sched_block_resume s = s.
Proof.
  intros (T & ET & HT & _)%tinfo_some. unfold Sched_block_resume, set_t_state, upd_thr. destruct s as [th ds tb f l c i].
  cbn in *. f_equal. apply map_eq. intros y. destruct (decide (y = c)) as [->|Hn]; [|by rewrite lookup_alter_ne].
  rewrite lookup_alter_eq. cbn in ET. rewrite ET. cbn. rewrite <- HT. by destruct T.
Qed.

(** the receiver, wherever it sleeps, takes the only sender *)
Lemma continue_accepts fuel idx (s : sys) q D r c cd y z svc v pd cpd m params pp q0 h0 l q1 h1 :
  sched_ok (sch s) q D -> quiet q -> cur s = r -> c <> r -> c <> NULL -> tinfo (sch s) c = Some (STATE_PORTAL_WAIT_FOR_RET, cd) ->
  pthreads s !! r = Some y -> receiving (p_pc y) idx -> pthreads s !! c = Some z ->
  nextInDEPQueue z = NULL -> blockedInServiceIndex z = idx -> depParams z = params ->
  called s D idx svc v pd -> firstWaitingSender v = c -> lastWaitingSender v = c -> svc_valid v = true ->
  method_of (svc_obj v) (depMethodIndex z) (heaps s) = Some m ->
  credentials_copied fuel cd D (portalParameter z) (heaps s) pp q0 h0 ->
  parameters_copied fuel (domainZero s) cd D (argTypeMap m) (take (Z.to_nat (numberOfArgs m)) (tail params)) q0 h0 l q1 h1 ->
  pdoms s !! cd = Some cpd ->
  exists s' y', recv_continue fuel (p_pc y) s = Ok s' /\ sched_ok (sch s') q D /\ cur s' = r /\ idle_thread (sch s') = idle_thread (sch s) /\
    tinfo (sch s') c = Some (STATE_PORTAL_WAIT_FOR_RET, cd) /\ pthreads s' !! r = Some y' /\ p_pc y' = PUser /\
    mostRecentlyCalledBy y' = c /\ processingDEP y' = svc /\ callerDomain y' = cd /\ callerDomainID y' = pd_id cpd /\
    myparams y' = svc_obj v :: l /\ portalParameter y' = (if portalParameter z =? 0 then portalParameter y else pp) /\
    pthreads s' !! c = Some (set_dep [] (depMethodIndex z) (set_blocked (blockedInDomain z) (blockedInDomainID z) idx r (set_nextInDEPQueue NULL z))) /\
    called s' D idx svc (set_last NULL (set_first NULL v)) pd /\ pdoms s' = pdoms s /\ heaps s' = h1.
Proof.
  intros Hok Hq Hcur Hcr Hc0 Hst Hy Hpc Hz Hn Hidx Hp Hcall Hf Hl Hval Hm Hcred Hmap Hcd. destruct Hpc as [-> | ->]; cbn [recv_continue].
  - unfold recv_wakeup. rewrite (resume_id _ D) by exact (so_run _ _ _ Hok). replace (set_sch (sch s) s) with s by (by destruct s).
    destruct (accept_waiting fuel idx s q D r c cd y z svc v pd cpd m params pp q0 h0 l q1 h1) as (s' & E & H1 & H2 & H3 & H4 & H5 & H6 & H7 & H8 & H9); try done.
    rewrite E. eexists _, _. split_and!; try done; unfold credited; by destruct (portalParameter z =? 0).
  - unfold recv_loop, pthr. rewrite Hcur, Hy. cbn [rbind]. set (s0 := upd_pthr r (set_processing NULL NULL) s).
    destruct (accept_waiting fuel idx s0 q D r c cd (set_processing NULL NULL y) z svc v pd cpd m params pp q0 h0 l q1 h1) as (s' & E & H1 & H2 & H3 & H4 & H5 & H6 & H7 & H8 & H9); try done.
    + unfold s0. cbn. alters. by rewrite Hy.
    + unfold s0. cbn. by alters.
    + by destruct Hcall.
    + rewrite E. eexists _, _. split_and!; try done; unfold credited; by destruct (portalParameter z =? 0).
Qed.

(** C12 A portal call returns.  Let the receiver of a service sleep with an
    empty queue and no other thread be runnable.  The caller's
    [direct_send_portal] switches to the receiver; the receiver's
    [receive_portalcall] reaches the method with the service object and the
    caller's arguments, numbers as they are and references replaced by their
    copies in the domain of the service, made in order on one quota after the
    copy of the caller's credentials, each started again while a collection
    interrupts it.  When the method, which may have changed the heaps, returns
    [ret], the receiver switches back with [ret] or, for a reference, its copy
    in the domain of the caller; [direct_send_portal] returns it, the queue is
    empty again and the receiver sleeps: the service is ready for the next
    call.  The copies are assumed to come to an end, after fewer than [fuel]
    interruptions each. *)
Theorem portal_call_returns fuel px params mi (s : sys) q cd svc r v pd cpd m x pp q0 h0 l q1 h1 :
  ready s q cd (targetDomain px) (px_index px) svc r v pd cpd ->
  pd_id pd = targetDomainID px -> pd_state pd = DOMAIN_STATE_ACTIVE ->
  pthreads s !! cur s = Some x -> method_of (svc_obj v) mi (heaps s) = Some m ->
  credentials_copied fuel cd (targetDomain px) (portalParameter x) (heaps s) pp q0 h0 ->
  parameters_copied fuel (domainZero s) cd (targetDomain px) (argTypeMap m)
    (take (Z.to_nat (numberOfArgs m)) (tail params)) q0 h0 l q1 h1 ->
  exists s1 y1 s2 y2,
    direct_send_portal px params mi s = Ok (Switched, s1) /\ cur s1 = r /\ pthreads s1 !! r = Some y1 /\
    recv_continue fuel (p_pc y1) s1 = Ok s2 /\ cur s2 = r /\ pthreads s2 !! r = Some y2 /\ heaps s2 = h1 /\
      p_pc y2 = PUser /\ myparams y2 = svc_obj v :: l /\
      portalParameter y2 = (if portalParameter x =? 0 then portalParameter y1 else pp) /\
    forall h2 ret ret' h3, method_of (svc_obj v) mi h2 = Some m ->
      result_copied fuel m (targetDomain px) cd ret h2 ret' h3 ->
      exists s3 s4 q4 z x4, recv_reply fuel (px_index px) ret (set_heaps h2 s2) = Ok s3 /\ cur s3 = cur s /\
        pthreads s3 !! cur s = Some z /\ portalReturn z = ret' /\
        portalReturnType z = (if returnType m =? 1 then PORTAL_RETURN_TYPE_REFERENCE else PORTAL_RETURN_TYPE_NUMERIC) /\
        send_resume s3 = Ok (Returned ret', s4) /\ cur s4 = cur s /\
        ready s4 q4 cd (targetDomain px) (px_index px) svc r v pd cpd /\ heaps s4 = h3 /\
        pthreads s4 !! cur s = Some x4 /\ p_pc x4 = PUser /\ depParams x4 = [] /\ portalParameter x4 = portalParameter x.
Proof.
  intros [Hok Hq Hidle Hcall [Hf Hl] Hr [Hval Hab] Hsl (y & Hy & Hpc) [Hcpd Hcact] Hne] Hid Hact Hx Hm Hcred Hmap.
  destruct (states_sched s q cd Hok) as [Hrun Hc0]. unfold states in Hrun.
  assert (cur s <> r) as Hcr by (intros Heq; rewrite Heq, Hsl in Hrun; done).
  assert (r <> idle_thread (sch s)) as Hri.
  { intros ->. destruct (sm_idle _ _ _ (so_mid _ _ _ Hok)) as [dz Ez]. rewrite Hsl in Ez. done. }
  destruct (send_to_waiting px params mi s q cd x v svc pd r y) as (s1 & q1' & E1 & Hok1 & Hq1 & Hc1 & Hi1 & Ht1 & Hy1 & Hx1 & Hcall1 & Hpd1 & Hh1 & Hz1); try done.
  destruct (continue_accepts fuel (px_index px) s1 q1' (targetDomain px) r (cur s) cd y
    (set_pc PSendHandoff (set_nextInDEPQueue NULL (set_dep params mi (set_blocked (targetDomain px) (pd_id pd) (px_index px) (blockedInServiceThread x) x))))
    svc (set_last (cur s) (set_first (cur s) v)) pd cpd m params pp q0 h0 l q1 h1)
    as (s2 & y2 & E2 & Hok2 & Hc2 & Hi2 & Ht2 & Hy2 & Hpc2 & Hmr & _ & Hcd2 & Hcid2 & Hmp & Hpp2 & Hx2 & Hcall2 & Hpd2 & Hh2); try done.
  { rewrite Hh1. exact Hm. } { rewrite Hh1. exact Hcred. } { by rewrite Hz1. } { by rewrite Hpd1. }
  destruct (tinfo_some _ _ _ _ Ht2) as (T & ET & _ & _).
  exists s1, y, s2, y2. split_and!; try done. intros h2 ret ret' h3 Hm' Hres.
  destruct (reply_to_caller fuel (px_index px) ret (set_heaps h2 s2) q1' (targetDomain px) r (cur s) cd y2 _ svc _ pd cpd m T ret' h3 Hok2 Hq1 Hc2 Hcr
     ltac:(change (r <> idle_thread (sch s2)); congruence) ltac:(congruence) Ht2 ET Hy2 Hx2 Hmr Hcd2 Hcid2 ltac:(cbn; congruence) Hcact
     ltac:(by destruct Hcall2) eq_refl eq_refl Hab Hm' Hres)
    as (s3 & q3 & E3 & Hok3 & Hq3 & Hc3 & Hi3 & Ht3 & (y3 & Hy3 & Hpc3) & Hx3 & Hs3 & Hpd3 & Hh3).
  destruct (resume_returns ret' s3 q3 cd (cur s) _ Hok3 Hc3 Hx3 eq_refl eq_refl ltac:(cbn; by destruct (returnType m =? 1)))
    as (s4 & x4 & E4 & Hsch4 & Hx4 & Hdep4 & Hpc4 & Hpp4 & Hoth & Hs4 & Hpd4 & Hh4).
  change (idle_thread (sch (set_heaps h2 s2))) with (idle_thread (sch s2)) in Hi3.
  exists s3, s4, q3. eexists. exists x4. split; [exact E3|]. split; [exact Hc3|]. split; [exact Hx3|]. split_and!; try done.
  - unfold cur, curthr. rewrite Hsch4. exact Hc3.
  - destruct Hcall2 as [Hd2 He2 Hv2 Hn2]. cbn in Hpd3, Hs3. split; try done.
    + by rewrite Hsch4.
    + unfold cur, curthr. rewrite Hsch4. change (current (sch s3)) with (cur s3). rewrite Hc3. congruence.
    + split; [congruence|exact He2| |exact Hn2]. rewrite Hs4, Hs3, Hv2. cbn. f_equal. clear -Hf Hl. destruct v as [? ? ? ? ? ? f l ?]. cbn in Hf, Hl. by subst f l.
    + by rewrite Hsch4.
    + exists y3. split; [by rewrite Hoth by congruence|by right].
    + split; [congruence|done].
  - congruence.
Qed.

(** C31 Credentials outlive a call.  The receiver's [portalParameter], which
    carries the credentials of the caller to the service, is written only when
    the caller has some.  When the next sender has none, its call runs with
    the credentials that the receiver holds from an earlier caller. *)
Theorem credentials_survive_calls fuel idx (s s' : sys) q D r y z svc v pd t l :
  sched_ok (sch s) q D -> cur s = r -> pthreads s !! r = Some y -> receiving (p_pc y) idx ->
  called s D idx svc v pd -> queue (pnext (pthreads s)) (firstWaitingSender v) (lastWaitingSender v) (t :: l) ->
  pthreads s !! t = Some z -> t <> r -> portalParameter z = 0 ->
  recv_continue fuel (p_pc y) s = Ok s' ->
  exists y', pthreads s' !! r = Some y' /\ p_pc y' = PUser /\ mostRecentlyCalledBy y' = t /\ portalParameter y' = portalParameter y.
Proof.
  intros Hok Hcur Hy Hpc Hcall HQ Hz Htr Hpp E. destruct (queue_pop _ _ _ _ _ HQ) as (_ & Ht0 & _).
  assert (exists (s0 : sys) y0, recv_wait fuel idx s0 = Ok s' /\ sch s0 = sch s /\ called s0 D idx svc v pd /\
    (forall x, pnext (pthreads s0) x = pnext (pthreads s) x) /\ pthreads s0 !! t = Some z /\
    pthreads s0 !! r = Some y0 /\ portalParameter y0 = portalParameter y) as (s0 & y0 & E0 & Hsch & [Hd He Hs Hn] & Hnx & Hz0 & Hy0 & Hpy).
  { destruct Hpc as [Ep|Ep]; rewrite Ep in E; cbn [recv_continue] in E.
    - unfold recv_wakeup in E. rewrite (resume_id _ D) in E by exact (so_run _ _ _ Hok). exists s, y. split_and!; try done. by destruct s.
    - unfold recv_loop, pthr in E. rewrite Hcur, Hy in E. cbn [rbind] in E. eexists _, (set_processing NULL NULL y). split; [exact E|].
      split_and!; try done.
      + by destruct Hcall.
      + intros x. by apply pnext_upd.
      + cbn. by alters.
      + cbn. alters. by rewrite Hy. }
  assert (queue (pnext (pthreads s0)) (firstWaitingSender v) (lastWaitingSender v) (t :: l)) as HQ0 by (eapply queue_ext; [intros x _; apply Hnx|exact HQ]).
  pose proof (curdom_mid _ _ _ (so_mid _ _ _ Hok)) as Hcd. unfold recv_wait in E0. rewrite Hsch, Hcd in E0. cbn [rbind] in E0.
  rewrite (GETSVC_called s0 D idx svc v pd) in E0 by done. cbn [rbind] in E0.
  destruct (dequeue_head svc v t l s0 Hs HQ0) as (s1 & E1 & _ & _ & Hpt & Hstrip & Hsch1 & _). rewrite E1 in E0. cbn [rbind] in E0.
  rewrite (proj2 (Z.eqb_neq t NULL) Ht0) in E0.
  assert (is_Some (pthreads s1 !! t)) as [z1 Hz1] by (apply (strip_some (pthreads s0)); [done|by eexists]).
  destruct (strip_lookup _ _ _ _ Hstrip Hz1) as (zz & Ezz & Ez1). rewrite Hz0 in Ezz. injection Ezz as <-.
  assert (cur s1 = r) as Hcur1 by (unfold cur, curthr in *; congruence).
  destruct (recv_accept_inv fuel t s1 s' D z1) as (svc1 & obj & args & pp & dom & id & h & _ & Hpp1 & ->); [congruence|done|exact E0|].
  rewrite Hpp1 by (rewrite Ez1; exact Hpp). rewrite Hcur1.
  assert (pthreads s1 !! r = Some y0) as Hy1 by (rewrite Hpt by congruence; exact Hy0).
  unfold accepted. cbn [pthreads set_heaps set_state set_sch upd_pthr]. alters. rewrite Hy1. eexists. split; [reflexivity|]. done.
Qed.
End Call.

(** ** Witnesses *)

(** a heap that counts the interruptions still to come: every copy is moved
    by 0x10000, but the next ones are interrupted; method 0 takes a reference
    and a number and returns a reference *)
#[local] Instance counting_heaps : Copying nat := {|
  method_of _ mi _ := if mi =? 0 then Some (MkMethod 2 [true; false] 1 false) else None;
  copy_reference _ _ p q n := match n with O => Ok (p + 0x10000, q - 1, O) | S n => Ok (RESTART, q - 1, n) end;
|}.

Definition counting_sys : sys nat :=
  MkSys (sch sleepy_sys) (list_to_map [(1, new_pthread PUser); (2, set_portalParameter 80 (new_pthread PUser)); (3, new_pthread (PRecvBlocked 1))])
    (svcs sleepy_sys) (pdoms sleepy_sys) (domainZero sleepy_sys) 1%nat.

(** a call with credentials, a reference and a number; the first copy, that
    of the credentials, is interrupted, then one during the method *)
Lemma portal_call_returns_witness :
  exists s1 y1 s2 y2 s3 s4,
    direct_send_portal sleepy_proxy [8; 48; 42] 0 counting_sys = Ok (Switched, s1) /\ recv_continue 2 (p_pc y1) s1 = Ok s2 /\
    pthreads s2 !! 3 = Some y2 /\ myparams y2 = [9; 65584; 42] /\ portalParameter y2 = 65616 /\
    recv_reply 2 1 64 (set_heaps 1%nat s2) = Ok s3 /\ send_resume s3 = Ok (Returned 65600, s4) /\
    (exists q, ready s4 q 100 200 1 7 3 (MkService 200 9 1 true 0 false 0 0 3) (MkPDomain 6 DOMAIN_STATE_ACTIVE [0; 7]) (MkPDomain 5 DOMAIN_STATE_ACTIVE [])).
Proof.
  destruct (portal_call_returns 2 sleepy_proxy [8; 48; 42] 0 counting_sys sleepy_q 100 7 3 (MkService 200 9 1 true 0 false 0 0 3)
    (MkPDomain 6 DOMAIN_STATE_ACTIVE [0; 7]) (MkPDomain 5 DOMAIN_STATE_ACTIVE []) (MkMethod 2 [true; false] 1 false) (set_portalParameter 80 (new_pthread PUser))
    65616 99998 O [65584; 42] 99997 O)
    as (s1 & y1 & s2 & y2 & E1 & _ & _ & E2 & _ & Y2 & _ & _ & P2 & C2 & H); try done.
  - split; try done; [apply sleepy_ok|]. exists (new_pthread (PRecvBlocked 1)). split; [done|by left].
  - exists 1%nat. split; [lia|]. eapply rc_again; [done|]. by apply rc_done.
  - eapply pc_reference; [done|done|exact (Nat.lt_0_succ 1)|by apply rc_done|]. apply pc_word; [by right; left|]. apply pc_done. by left.
  - destruct (H 1%nat 64 65600 O eq_refl) as (s3 & s4 & q4 & _ & _ & E3 & _ & _ & _ & _ & E4 & _ & R & _).
    { exists 1%nat, 99998. split; [lia|]. eapply rc_again; [done|]. by apply rc_done. }
    exists s1, y1, s2, y2, s3, s4. split_and!; try done. by exists q4.
Defined.

#[local] Existing Instance no_heaps.

(** the receiver still holds the credentials 77 of an earlier caller *)
Definition sleepy_credentials : sys unit := upd_pthr 3 (set_portalParameter 77) sleepy_sent.

Lemma credentials_survive_calls_witness :
  exists s' y', recv_wakeup 1 1 sleepy_credentials = Ok s' /\ pthreads s' !! 3 = Some y' /\ mostRecentlyCalledBy y' = 2 /\ portalParameter y' = 77.
Proof.
  assert (exists q, sched_ok (sch sleepy_credentials) q 200) as [q Hok].
  { destruct (inv_direct_send _ sleepy_sys sleepy_sent sleepy_proxy [8; 42] 0 Switched (new_pthread PUser) sleepy_inv) as (L & I & _); try (by vm_compute).
    destruct (pv_sched _ _ I) as (q & cd & Hok). exists q. assert (cd = 200) as ->; [|exact Hok].
    pose proof (so_run _ _ _ Hok) as E. vm_compute in E. by injection E. }
  assert (exists s', recv_wakeup 1 1 sleepy_credentials = Ok s') as [s' E] by (eexists; vm_compute; reflexivity).
  destruct (credentials_survive_calls 1 1 sleepy_credentials s' q 200 3 (set_portalParameter 77 (new_pthread (PRecvBlocked 1)))
    (set_pc PSendHandoff (set_nextInDEPQueue NULL (set_dep [8; 42] 0 (set_blocked 200 6 1 0 (new_pthread PUser))))) 7
    (MkService 200 9 1 true 0 false 2 2 3) (MkPDomain 6 DOMAIN_STATE_ACTIVE [0; 7]) 2 [] Hok) as (y' & Hy & _ & H2 & H3);
    [by vm_compute|by vm_compute|by left|by split; vm_compute| |by vm_compute|done|done|exact E|by exists s', y'].
  split_and!; [|done|apply (bool_decide_unpack _); by vm_compute]. split; [done|]. split; [done|]. exists 0. split; [by vm_compute|done].
Defined.
