(* ===== verification/JString.v ===== *)
(** * Java strings and arrays seen from C (core/load.c)

    A [java.lang.String] object holds a reference to a [char] array in its first
    data word; in this configuration every array element takes 32 bits
    ([ALL_ARRAYS_32BIT]).  The kernel copies strings into C buffers and back.
    Object layout (Headers/core/object.h): [ObjectDesc] is vtable, data;
    [ArrayDesc] is vtable, arrayClass, size, data. *)

From S2P Require Import Prelude Mem CString.
#[local] Open Scope Z_scope.

(** The word in front of the vtable is the class. *)
Definition ASSERTOBJECT (m : memory) (x : Z) : res unit :=
  assert_ "NOT AN OBJECT" ((x =? 0) || (load32 m (x - 4) =? MAGIC_OBJECT)).
Definition obj2ClassDesc (m : memory) (obj : Z) : res Z :=
  if (load32 m (obj - 4) =? MAGIC_OBJECT) && negb (load32 m obj =? 0) then Ok (load32 m (load32 m obj - 4))
  else Err (EPanic "").
Definition nonatomic_handle2ClassDesc (m : memory) (handle : Z) : res Z :=
  let! _ := ASSERTOBJECT m handle in obj2ClassDesc m handle.

Definition obj_data (o i : Z) : Z := o + 4 + 4 * i.
Definition arr_class (m : memory) (a : Z) : Z := load32 m (a + 4).
Definition arr_size (m : memory) (a : Z) : Z := s32 (load32 m (a + 8)).
Definition arr_data (a i : Z) : Z := a + 12 + 4 * i.

Definition getArraySize (m : memory) (array : Z) : res Z :=
  if array =? 0 then Err (EPanic "array NULLPOINTER") else Ok (arr_size m array).

Definition getReferenceArrayElement (m : memory) (array pos : Z) : res Z :=
  let! _ := assert_ "pos < array->size" (pos <? arr_size m array) in
  Ok (load32 m (arr_data array pos)).

(** [field[i] = str[i]]: [char] is signed, the element is a [u4_t] *)
Definition copyIntoByteArray (m : memory) (array str size : Z) : memory :=
  match for_n (Z.to_nat size) 0
          (fun i m => Ok (store32 m (arr_data array i) (s8 (load8 m (str + i))))) m with
  | Ok m => m | Err _ => m
  end.

Section Arrays.
(** offset of the [name] pointer in [ArrayClassDesc], read by [ASSERT_ARRAYTYPE] *)
Context (off_name : Z).

Definition ASSERT_ARRAYTYPE (m : memory) (array type : Z) : res unit :=
  if s8 (load8 m (load32 m (arr_class m array + off_name) + 1)) =? type then Ok tt
  else Err (EPanic "Assertion failed").

Definition copyIntoCharArray (m : memory) (array str size : Z) : res memory :=
  let! _ := ASSERT_ARRAYTYPE m array 67 in
  Ok (copyIntoByteArray m array str size).
End Arrays.

(** the copy loop and the final [buf[i] = 0] *)
Fixpoint copy_chars (n : nat) (m : memory) (buf array i : Z) : memory :=
  match n with
  | O => store8 m (buf + i) 0
  | S n => copy_chars n (store8 m (buf + i) (load32 m (arr_data array i))) buf array (i + 1)
  end.

Definition copyFromCharArray (m : memory) (buf buflen array : Z) : memory :=
  if buflen =? 0 then m else
  let buflen := s32 (buflen - 1) in
  let size := if arr_size m array <? buflen then arr_size m array else buflen in
  copy_chars (Z.to_nat size) m buf array 0.

Definition string_Length (m : memory) (str : Z) : Z := arr_size m (load32 m (obj_data str 0)).

Definition stringToChar (m : memory) (str c buflen : Z) : memory :=
  copyFromCharArray m c buflen (load32 m (obj_data str 0)).

Definition string_CompareChar (m : memory) (str c : Z) : Z :=
  let charArray := load32 m (obj_data str 0) in
  strncmp m c (arr_data charArray 0) (Z.to_nat (u32 (arr_size m charArray))).

Definition string_replace_char (m : memory) (str c1 c2 : Z) : memory :=
  let array := load32 m (obj_data str 0) in
  match for_n (Z.to_nat (arr_size m array)) 0
          (fun i m => Ok (if s32 (load32 m (arr_data array i)) =? c1 then store32 m (arr_data array i) c2 else m)) m with
  | Ok m => m | Err _ => m
  end.

(** ** The characters of an array *)

Definition chars_at (m : memory) (array : Z) (l : list Z) : Prop :=
  forall i x, l !! i = Some x -> load32 m (arr_data array (Z.of_nat i)) = x.

(** [a]'s elements and the buffer do not overlap. *)
Definition apart (buf len a n : Z) : Prop := buf + len <= a \/ a + n <= buf.

Lemma copy_chars_out n : forall m buf array i x,
  x < buf + i \/ buf + i + Z.of_nat n < x -> load8 (copy_chars n m buf array i) x = load8 m x.
Proof.
  induction n as [|n IH]; intros m buf array i x Hx; cbn [copy_chars].
  - apply load8_store8_ne. lia.
  - rewrite IH by lia. apply load8_store8_ne. lia.
Qed.

Lemma copy_chars_holds l : forall m buf array i,
  (forall k x, l !! k = Some x -> load32 m (arr_data array (i + Z.of_nat k)) = x) ->
  0 <= i ->
  (forall k, 0 <= k < i + Z.of_nat (length l) -> apart buf (i + Z.of_nat (length l) + 1) (arr_data array k) 4) ->
  holds (copy_chars (length l) m buf array i) (buf + i) (map u8 l ++ [0]).
Proof.
  induction l as [|c l IH]; intros m buf array i Hl Hi Hap; cbn [copy_chars length map app].
  - apply holds_cons. split; [|apply holds_nil]. mem_simpl. done.
  - apply holds_cons. split.
    + rewrite copy_chars_out by lia. rewrite load8_store8.
      rewrite <- (Hl 0%nat c) by done. f_equal. f_equal. f_equal. lia.
    + rewrite <- Z.add_assoc. apply IH; [|lia|].
      * intros k x Hk. rewrite <- (Hl (S k) x Hk). pose proof (lookup_lt_Some _ _ _ Hk).
        replace (i + Z.of_nat (S k)) with (i + 1 + Z.of_nat k) by lia.
        apply load32_ext. intros y Hy. apply load8_store8_ne.
        pose proof (Hap (i + 1 + Z.of_nat k)) as Ha. unfold apart in Ha. simpl length in Ha. lia.
      * intros k Hk. specialize (Hap k). unfold apart in *. simpl length in Hap. lia.
Qed.

(** [stringToChar] is a bounded copy: for a string of the characters [l] and a
    buffer of [buflen] bytes it stores the low bytes of the first
    [min (length l) (buflen - 1)] characters and a NUL, and changes no byte
    outside the buffer, however long the string is. *)
Theorem stringToChar_bounded m str array buf buflen l :
  0 < buflen < 2147483648 -> load32 m (obj_data str 0) = array ->
  arr_size m array = Z.of_nat (length l) -> chars_at m array l ->
  (forall k, 0 <= k < Z.of_nat (length l) -> apart buf buflen (arr_data array k) 4) ->
  let m' := stringToChar m str buf buflen in
  holds m' buf (map u8 (take (Z.to_nat (buflen - 1)) l) ++ [0]) /\
  (forall x, x < buf \/ buf + buflen <= x -> load8 m' x = load8 m x).
Proof.
  intros Hb Ha Hs Hl Hap m'. subst m'. unfold stringToChar, copyFromCharArray.
  rewrite Ha, (proj2 (Z.eqb_neq buflen 0)), (s32_small (buflen - 1)), Hs by lia.
  assert (Hn : Z.to_nat (if Z.of_nat (length l) <? buflen - 1 then Z.of_nat (length l) else buflen - 1) =
               length (take (Z.to_nat (buflen - 1)) l)).
  { rewrite length_take. destruct (Z.ltb_spec (Z.of_nat (length l)) (buflen - 1)); lia. }
  rewrite Hn. split.
  - rewrite <- (Z.add_0_r buf) at 2. apply copy_chars_holds; [|lia|].
    + intros k x Hk. apply lookup_take_Some in Hk as [Hk _]. by apply Hl.
    + intros k Hk. rewrite length_take in Hk |- *. specialize (Hap k). unfold apart in *. lia.
  - intros x Hx. apply copy_chars_out. rewrite length_take. lia.
Qed.

(** [string_CompareChar] compares the bytes of [c] with the raw 32-bit array
    elements: for every string of at least two characters below 256 it reports a
    difference to the very same C string. *)
Theorem string_CompareChar_differs m str array c x y l :
  load32 m (obj_data str 0) = array -> arr_size m array = Z.of_nat (length (x :: y :: l)) ->
  chars_at m array (x :: y :: l) -> cstr m c (x :: y :: l) ->
  string_CompareChar m str c <> 0.
Proof.
  intros Ha Hs Hch Hc. unfold string_CompareChar. rewrite Ha, Hs. simpl length.
  pose proof (s32_range (load32 m (array + 8))) as Hr. fold (arr_size m array) in Hr. rewrite Hs in Hr. simpl length in Hr.
  rewrite u32_small by lia. rewrite Nat2Z.id. rewrite !cstr_cons in Hc. destruct Hc as (Ex & Hx & Ey & Hy & _).
  pose proof (Hch 0%nat x eq_refl) as H0. unfold arr_data in *. simpl in H0. rewrite Z.mul_0_r in *. rewrite !Z.add_0_r in *.
  unfold load32, load16 in H0.
  pose proof (load8_range m (array + 12)). pose proof (load8_range m (array + 12 + 1)).
  pose proof (load8_range m (array + 12 + 2)). pose proof (load8_range m (array + 12 + 2 + 1)).
  assert (E1 : load8 m (array + 12) = x) by lia. assert (E2 : load8 m (array + 12 + 1) = 0) by lia.
  cbn [strncmp]. rewrite Ex, E1, Z.eqb_refl, (proj2 (Z.eqb_neq x 0)) by lia. simpl negb. cbv iota.
  rewrite Ey, E2, (proj2 (Z.eqb_neq y 0)) by lia. simpl. lia.
Qed.

(** The Java string "jx" at 1000 (array at 2000) and the C string "jx" at 100. *)
Definition jx_mem : memory :=
  store32 (store32 (store32 (store32 (store_bytes (fun _ => 7) 100 [106; 120; 0]) 1004 2000) 2008 2) 2012 106) 2016 120.

Lemma jx_chars : chars_at jx_mem 2000 [106; 120].
Proof. intros [|[|i]] x [= <-]; reflexivity. Qed.

Lemma jx_cstr : cstr jx_mem 100 [106; 120].
Proof. split; [|by repeat constructor]. intros [|[|[|i]]] x [= <-]; reflexivity. Qed.

Lemma stringToChar_bounded_witness : holds (stringToChar jx_mem 1000 300 2) 300 [106; 0].
Proof.
  apply (stringToChar_bounded jx_mem 1000 2000 300 2 [106; 120]); [lia|reflexivity|reflexivity|apply jx_chars|].
  intros k Hk. unfold apart, arr_data. simpl in Hk. lia.
Defined.

Lemma string_CompareChar_differs_witness : string_CompareChar jx_mem 1000 100 <> 0.
Proof.
  apply (string_CompareChar_differs jx_mem 1000 2000 100 106 120 []);
    [reflexivity|reflexivity|apply jx_chars|apply jx_cstr].
Defined.
