(* ===== verification/Zip.v ===== *)
(** * The boot archive reader (core/zip.c)

    The boot loader passes one uncompressed ZIP archive; the kernel reads its end
    record and central directory and then walks the entries.  The reader runs on
    byte memory; its static variables are the record [zip_state].  The functional
    theorem is stated against a writer: [image] lays out an archive, and the
    reader returns exactly its entries. *)

From S2P Require Import Prelude Mem CString Malloc Alloc.
#[local] Open Scope Z_scope.

Definition LREC_SIZE : Z := 30.
Definition CREC_SIZE : Z := 46.
Definition ECREC_SIZE : Z := 22.
Definition LOCAL_HEADER_SIGNATURE : Z := 67324752.
Definition L_FILENAME_LENGTH : Z := 26.
Definition L_EXTRA_FIELD_LENGTH : Z := 28.
Definition CENTRAL_HEADER_SIGNATURE : Z := 33639248.
Definition C_COMPRESSION_METHOD : Z := 10.
Definition C_UNCOMPRESSED_SIZE : Z := 24.
Definition C_FILENAME_LENGTH : Z := 28.
Definition C_EXTRA_FIELD_LENGTH : Z := 30.
Definition C_COMMENT_LENGTH : Z := 32.
Definition C_RELATIVE_OFFSET_LOCAL_HEADER : Z := 42.
Definition C_FILENAME : Z := 46.
Definition END_CENTRAL_DIR_SIGNATURE : Z := 101010256.
Definition TOTAL_ENTRIES_CENTRAL_DIR : Z := 10.
Definition SIZE_CENTRAL_DIRECTORY : Z := 12.

(** the static variables *)
Record zip_state := MkZip {
  zip : Z; count : Z; dirofs : Z; mempos : Z; dirbuf : Z; zcurrent : Z;
}.

(** the fields of a [zipentry] at address [e]: a name buffer of 80 bytes *)
Definition e_filename (e : Z) : Z := e.
Definition e_uncompressed_size (e : Z) : Z := e + 80.
Definition e_compression_method (e : Z) : Z := e + 84.
Definition e_data (e : Z) : Z := e + 88.

(** [char] is signed, so the high byte sign-extends. *)
Definition makeword (m : memory) (b offset : Z) : Z :=
  s32 (Z.lor (Z.shiftl (s8 (load8 m (b + (offset + 1)))) 8) (Z.land (s8 (load8 m (b + offset))) 255)).

Definition makelong (m : memory) (b offset : Z) : Z :=
  s32 (Z.lor (Z.lor (Z.lor
    (Z.land (Z.shiftl (s8 (load8 m (b + (offset + 3)))) 24) 4278190080)
    (Z.land (Z.shiftl (s8 (load8 m (b + (offset + 2)))) 16) 16711680))
    (Z.land (Z.shiftl (s8 (load8 m (b + (offset + 1)))) 8) 65280))
    (Z.land (s8 (load8 m (b + offset))) 255)).

Definition makestring (m : memory) (buf b offset len : Z) : memory :=
  store8 (strncpy m buf (b + offset) (Z.to_nat (u32 len))) (buf + len) 0.

Definition set_mempos (z : zip_state) (p : Z) : zip_state :=
  MkZip (zip z) (count z) (dirofs z) p (dirbuf z) (zcurrent z).

Definition zseek (pos : Z) (z : zip_state) : res zip_state :=
  if pos <? 0 then Err (EPanic "Seeking to negative position ") else Ok (set_mempos z (zip z + pos)).

Definition zread (buf len : Z) (z : zip_state) (m : memory) : memory := memcpy m buf (mempos z) len.

Definition zip_reset (z : zip_state) : zip_state := MkZip (zip z) (count z) 0 (zip z) (dirbuf z) 0.

Section ZipInit.
Context {S : Type} `{!Allocator S}.

(** [buffer] is the address of the local array of [ECREC_SIZE] bytes *)
Definition zip_init (buffer zipstart ziplen : Z) (z : zip_state) (m : memory) (s : S)
  : res (zip_state * memory * S) :=
  let len := ziplen in
  let z := MkZip zipstart (count z) (dirofs z) zipstart (dirbuf z) (zcurrent z) in
  let! z := zseek (s32 (len - ECREC_SIZE)) z in
  let m := zread buffer ECREC_SIZE z m in
  let signature := makelong m buffer 0 in
  if negb (signature =? END_CENTRAL_DIR_SIGNATURE) then Err (EPanic "Wrong signature=0x%lx") else
  let count := makeword m buffer TOTAL_ENTRIES_CENTRAL_DIR in
  let dir_size := makelong m buffer SIZE_CENTRAL_DIRECTORY in
  let! z := zseek (s32 (len - s32 (dir_size + ECREC_SIZE))) z in
  let! '(dirbuf, s) := al_alloc (u32 dir_size) s in
  let m := zread dirbuf dir_size z m in
  Ok (MkZip (zip z) count 0 (mempos z) dirbuf 0, m, s).
End ZipInit.

(** [header] is the address of the local array of [LREC_SIZE] bytes; the result
    is -1 at the end of the directory and 0 otherwise. *)
Definition zip_next_entry (header entry : Z) (z : zip_state) (m : memory) : res (Z * zip_state * memory) :=
  if zcurrent z =? count z then Ok (-1, z, m) else
  let z := MkZip (zip z) (count z) (dirofs z) (mempos z) (dirbuf z) (s32 (zcurrent z + 1)) in
  if negb (makelong m (dirbuf z) (dirofs z + 0) =? CENTRAL_HEADER_SIGNATURE) then
    Err (EPanic "wrong central header signature 0x%lx") else
  let m := store32 m (e_uncompressed_size entry) (makelong m (dirbuf z) (dirofs z + C_UNCOMPRESSED_SIZE)) in
  let filename_length := makeword m (dirbuf z) (dirofs z + C_FILENAME_LENGTH) in
  let cextra_length := makeword m (dirbuf z) (dirofs z + C_EXTRA_FIELD_LENGTH) in
  let comment_length := makeword m (dirbuf z) (dirofs z + C_COMMENT_LENGTH) in
  let local_header_offset := makelong m (dirbuf z) (dirofs z + C_RELATIVE_OFFSET_LOCAL_HEADER) in
  let! z := zseek local_header_offset z in
  let m := zread header LREC_SIZE z m in
  if negb (makelong m header 0 =? LOCAL_HEADER_SIGNATURE) then Err (EPanic "wrong local header signature") else
  let filestart := s32 (local_header_offset + LREC_SIZE + makeword m header L_FILENAME_LENGTH
                        + makeword m header L_EXTRA_FIELD_LENGTH) in
  let m := makestring m (e_filename entry) (dirbuf z) (dirofs z + C_FILENAME) filename_length in
  let m := store32 m (e_data entry) (zip z + filestart) in
  let method := makeword m (dirbuf z) (dirofs z + C_COMPRESSION_METHOD) in
  let m := store32 m (e_compression_method entry) method in
  if negb (method =? 0) then Err (EPanic "Compression not supported.") else
  Ok (0, MkZip (zip z) (count z) (s32 (dirofs z + (C_FILENAME + filename_length + cextra_length + comment_length)))
           (mempos z) (dirbuf z) (zcurrent z), m).

(** ** Little-endian fields *)

Definition le16 (v : Z) : list Z := [v mod 256; v / 256].
Definition le32 (v : Z) : list Z := [v mod 256; v / 256 mod 256; v / 65536 mod 256; v / 16777216].

Lemma s8_mod b : 0 <= b < 256 -> s8 b mod 256 = b.
Proof.
  intros Hb. unfold s8, swrap. change (2 ^ (8 - 1)) with 128. change (2 ^ 8) with 256.
  destruct (Z.lt_ge_cases b 128).
  - rewrite (Z.mod_small (b + 128)) by lia. rewrite Z.mod_small; lia.
  - replace ((b + 128) mod 256) with (b - 128); [|apply (Z.mod_unique _ _ 1); lia].
    symmetry. apply (Z.mod_unique _ _ (-1)); lia.
Qed.

Lemma s8_land b : 0 <= b < 256 -> Z.land (s8 b) 255 = b.
Proof. intros Hb. change 255 with (Z.ones 8). rewrite Z.land_ones by lia. by apply s8_mod. Qed.

Lemma land_shiftl_byte b k :
  0 <= b < 256 -> 0 <= k -> Z.land (Z.shiftl (s8 b) k) (Z.shiftl 255 k) = b * 2 ^ k.
Proof.
  intros Hb Hk. rewrite <- Z.shiftl_land, s8_land by done. by apply Z.shiftl_mul_pow2.
Qed.

Lemma lor_high_low a b k : 0 <= k -> 0 <= b < 2 ^ k -> Z.lor (a * 2 ^ k) b = a * 2 ^ k + b.
Proof.
  intros Hk Hb. rewrite <- Z.shiftl_mul_pow2 by lia.
  assert (Hand : Z.land (Z.shiftl a k) b = 0).
  { apply Z.bits_inj'. intros i Hi. rewrite Z.land_spec, Z.shiftl_spec, Z.bits_0 by lia.
    destruct (Z.lt_ge_cases i k); [by rewrite Z.testbit_neg_r by lia|].
    assert (Hbi : b < 2 ^ i) by (eapply Z.lt_le_trans; [apply Hb|apply Z.pow_le_mono_r; lia]).
    rewrite (Z.testbit_eqb b i), (Z.div_small b (2 ^ i)) by lia. apply andb_false_r. }
  rewrite <- Z.lxor_lor by done. by rewrite <- Z.add_nocarry_lxor.
Qed.

Lemma makelong_load m b offset : makelong m b offset = s32 (load32 m (b + offset)).
Proof.
  unfold makelong, load32, load16. f_equal. rewrite !Z.add_assoc.
  pose proof (load8_range m (b + offset)). pose proof (load8_range m (b + offset + 1)).
  pose proof (load8_range m (b + offset + 2)). pose proof (load8_range m (b + offset + 3)).
  change 4278190080 with (Z.shiftl 255 24). change 16711680 with (Z.shiftl 255 16). change 65280 with (Z.shiftl 255 8).
  rewrite !land_shiftl_byte, s8_land by lia. rewrite <- !Z.lor_assoc.
  rewrite (lor_high_low _ _ 8) by lia.
  rewrite (lor_high_low _ _ 16) by (change (2 ^ 8) with 256; change (2 ^ 16) with 65536; lia).
  rewrite (lor_high_low _ _ 24) by (change (2 ^ 8) with 256; change (2 ^ 16) with 65536; change (2 ^ 24) with 16777216; lia).
  replace (b + offset + 2 + 1) with (b + offset + 3) by lia.
  change (2 ^ 8) with 256; change (2 ^ 16) with 65536; change (2 ^ 24) with 16777216. lia.
Qed.

Lemma makeword_load m b offset : makeword m b offset = s16 (load16 m (b + offset)).
Proof.
  unfold makeword, load16. rewrite !Z.add_assoc.
  pose proof (load8_range m (b + offset)). pose proof (load8_range m (b + offset + 1)).
  rewrite s8_land, Z.shiftl_mul_pow2, lor_high_low by lia.
  unfold s8, s16, s32, swrap. set (h := load8 m (b + offset + 1)) in *. set (l := load8 m (b + offset)) in *.
  change (2 ^ (32 - 1)) with 2147483648. change (2 ^ 32) with 4294967296. change (2 ^ (16 - 1)) with 32768.
  change (2 ^ 16) with 65536. change (2 ^ (8 - 1)) with 128. change (2 ^ 8) with 256.
  destruct (Z.lt_ge_cases h 128).
  - rewrite (Z.mod_small (h + 128)), (Z.mod_small (l + 256 * h + 32768)) by lia. rewrite Z.mod_small; lia.
  - replace ((h + 128) mod 256) with (h - 128) by (apply (Z.mod_unique _ _ 1); lia).
    replace ((l + 256 * h + 32768) mod 65536) with (l + 256 * h - 32768) by (apply (Z.mod_unique _ _ 1); lia).
    rewrite Z.mod_small; lia.
Qed.

(** A word field of 32768 or more is read as a negative number. *)
Lemma makeword_small m b offset v : load16 m (b + offset) = v -> 0 <= v < 32768 -> makeword m b offset = v.
Proof.
  intros E Hv. rewrite makeword_load, E. apply (swrap_small 16); [lia|].
  change (2 ^ (16 - 1)) with 32768. lia.
Qed.

Lemma makelong_small m b offset v : load32 m (b + offset) = v -> 0 <= v < 2147483648 -> makelong m b offset = v.
Proof. intros E Hv. rewrite makelong_load, E. apply s32_small. lia. Qed.

Lemma holds_le16 m a v : 0 <= v < 65536 -> holds m a (le16 v) -> load16 m a = v.
Proof.
  intros Hv H. unfold le16 in H. rewrite !holds_cons in H. destruct H as (E0 & E1 & _).
  unfold load16. rewrite E0, E1. pose proof (Z.div_mod v 256). lia.
Qed.

Lemma holds_le32 m a v : 0 <= v < 4294967296 -> holds m a (le32 v) -> load32 m a = v.
Proof.
  intros Hv H. unfold le32 in H. rewrite !holds_cons in H. destruct H as (E0 & E1 & E2 & E3 & _).
  unfold load32, load16. rewrite E0, E1. replace (a + 2) with (a + 1 + 1) by lia. rewrite E2, E3.
  pose proof (Z.div_mod v 256 ltac:(lia)). pose proof (Z.div_mod (v / 256) 256 ltac:(lia)).
  pose proof (Z.div_mod (v / 65536) 256 ltac:(lia)).
  rewrite (Z.div_div v 256 256) in * by lia. rewrite (Z.div_div v 65536 256) in * by lia.
  change (256 * 256) with 65536 in *. change (65536 * 256) with 16777216 in *. lia.
Qed.

(** ** Archives as their writer lays them out *)

(** One stored file; the bytes the reader ignores (versions, dates, CRC,
    attributes, extra fields, comment) are arbitrary. *)
Record zfile := MkFile {
  z_name : list Z; z_content : list Z;
  l_misc : list Z; l_extra : list Z;
  c_misc1 : list Z; c_misc2 : list Z; c_misc3 : list Z; c_extra : list Z; c_comment : list Z;
}.

Definition len (l : list Z) : Z := Z.of_nat (length l).
#[local] Arguments len : simpl never.

Definition local_record (f : zfile) : list Z :=
  le32 LOCAL_HEADER_SIGNATURE ++ l_misc f ++ le16 (len (z_name f)) ++ le16 (len (l_extra f)) ++
  z_name f ++ l_extra f ++ z_content f.

Definition central_record (f : zfile) (off : Z) : list Z :=
  le32 CENTRAL_HEADER_SIGNATURE ++ c_misc1 f ++ le16 0 ++ c_misc2 f ++ le32 (len (z_content f)) ++
  le16 (len (z_name f)) ++ le16 (len (c_extra f)) ++ le16 (len (c_comment f)) ++ c_misc3 f ++ le32 off ++
  z_name f ++ c_extra f ++ c_comment f.

Fixpoint locals (fs : list zfile) : list Z :=
  match fs with [] => [] | f :: fs => local_record f ++ locals fs end.

Fixpoint directory (fs : list zfile) (off : Z) : list Z :=
  match fs with
  | [] => []
  | f :: fs => central_record f off ++ directory fs (off + len (local_record f))
  end.

(** the end record: signature, disk numbers and disk entry count, total entries,
    directory size, directory offset and comment length *)
Definition end_record (misc1 misc2 : list Z) (n dir_size : Z) : list Z :=
  le32 END_CENTRAL_DIR_SIGNATURE ++ misc1 ++ le16 n ++ le32 dir_size ++ misc2.

Definition image (fs : list zfile) (misc1 misc2 : list Z) : list Z :=
  locals fs ++ directory fs 0 ++ end_record misc1 misc2 (Z.of_nat (length fs)) (len (directory fs 0)).

#[local] Arguments local_record : simpl never.
#[local] Arguments central_record : simpl never.

(** Names fit the 80-byte buffer; word fields stay below 32768. *)
Record file_ok (f : zfile) : Prop := {
  f_name : nonzero_bytes (z_name f) /\ (length (z_name f) < 80)%nat;
  f_sizes : len (l_extra f) < 32768 /\ len (c_extra f) < 32768 /\ len (c_comment f) < 32768;
  f_misc : length (l_misc f) = 22%nat /\ length (c_misc1 f) = 6%nat /\ length (c_misc2 f) = 12%nat /\
           length (c_misc3 f) = 8%nat;
}.

Lemma len_app l1 l2 : len (l1 ++ l2) = len l1 + len l2.
Proof. unfold len. rewrite length_app. lia. Qed.

Lemma locals_app fs gs : locals (fs ++ gs) = locals fs ++ locals gs.
Proof. induction fs as [|f fs IH]; simpl; [done|]. by rewrite IH, app_assoc. Qed.

Lemma directory_app fs gs off : directory (fs ++ gs) off = directory fs off ++ directory gs (off + len (locals fs)).
Proof.
  revert off. induction fs as [|f fs IH]; intros off; cbn [directory locals app]; [by rewrite Z.add_0_r|].
  by rewrite IH, <- app_assoc, len_app, Z.add_assoc.
Qed.

Lemma len_nonneg l : 0 <= len l.
Proof. unfold len. lia. Qed.

Lemma holds_at m a a' l : holds m a l -> a = a' -> holds m a' l.
Proof. by intros H <-. Qed.

Lemma central_record_len f off : file_ok f ->
  len (central_record f off) = 46 + len (z_name f) + len (c_extra f) + len (c_comment f).
Proof.
  intros [_ _ (_ & E1 & E2 & E3)]. unfold central_record. rewrite !len_app. unfold len. simpl. rewrite E1, E2, E3. lia.
Qed.

Lemma local_record_len f : file_ok f ->
  len (local_record f) = 30 + len (z_name f) + len (l_extra f) + len (z_content f).
Proof.
  intros [_ _ (E1 & _)]. unfold local_record. rewrite !len_app. unfold len. simpl. rewrite E1. lia.
Qed.

(** the fields the reader takes from a central directory record *)
Lemma central_fields m p f off :
  file_ok f -> holds m p (central_record f off) ->
  holds m p (le32 CENTRAL_HEADER_SIGNATURE) /\ holds m (p + 10) (le16 0) /\
  holds m (p + 24) (le32 (len (z_content f))) /\ holds m (p + 28) (le16 (len (z_name f))) /\
  holds m (p + 30) (le16 (len (c_extra f))) /\ holds m (p + 32) (le16 (len (c_comment f))) /\
  holds m (p + 42) (le32 off) /\ holds m (p + 46) (z_name f).
Proof.
  intros [_ _ (_ & E1 & E2 & E3)] H. unfold central_record in H. rewrite !holds_app in H.
  rewrite E1, E2, E3 in H. simpl length in H. destruct H as (H0 & _ & H1 & _ & H2 & H3 & H4 & H5 & _ & H6 & H7 & _).
  split_and!; [done|..]; (eapply holds_at; [eassumption|lia]).
Qed.

Lemma local_fields m p f :
  file_ok f -> holds m p (local_record f) ->
  holds m p (le32 LOCAL_HEADER_SIGNATURE) /\ holds m (p + 26) (le16 (len (z_name f))) /\
  holds m (p + 28) (le16 (len (l_extra f))) /\
  holds m (p + 30 + len (z_name f) + len (l_extra f)) (z_content f).
Proof.
  intros [_ _ (E1 & _)] H. unfold local_record in H. rewrite !holds_app in H.
  rewrite E1 in H. simpl length in H. destruct H as (H0 & _ & H1 & H2 & _ & _ & H3).
  split_and!; [done|..]; (eapply holds_at; [eassumption|unfold len; lia]).
Qed.

(** ** The reader's invariant

    [archive m z done rest]: the files of [done] have been returned, those of
    [rest] come next. *)
Record archive (m : memory) (z : zip_state) (done rest : list zfile) : Prop := {
  a_files : Forall file_ok (done ++ rest);
  a_locals : holds m (zip z) (locals (done ++ rest));
  a_dir : holds m (dirbuf z) (directory (done ++ rest) 0);
  a_count : count z = Z.of_nat (length (done ++ rest)) /\ zcurrent z = Z.of_nat (length done) /\
            dirofs z = len (directory done 0);
  a_space : 0 <= zip z /\ zip z + len (locals (done ++ rest)) < 4294967296 /\
            len (locals (done ++ rest)) < 2147483648 /\ len (directory (done ++ rest) 0) < 2147483648 /\
            Z.of_nat (length (done ++ rest)) < 32768;
}.

(** [away z fs a n]: the [n] bytes at [a] touch neither the archive nor the
    directory buffer *)
Definition away (z : zip_state) (fs : list zfile) (a n : Z) : Prop :=
  (a + n <= zip z \/ zip z + len (locals fs) <= a) /\
  (a + n <= dirbuf z \/ dirbuf z + len (directory fs 0) <= a).

Lemma archive_frame m m' z done rest :
  archive m z done rest ->
  (forall x, zip z <= x < zip z + len (locals (done ++ rest)) -> load8 m' x = load8 m x) ->
  (forall x, dirbuf z <= x < dirbuf z + len (directory (done ++ rest) 0) -> load8 m' x = load8 m x) ->
  archive m' z done rest.
Proof. intros [] H1 H2. constructor; try done; by eapply holds_frame. Qed.

Lemma load16_frame m m' a : (forall x, a <= x < a + 2 -> load8 m' x = load8 m x) -> load16 m' a = load16 m a.
Proof. intros H. unfold load16. by rewrite !H by lia. Qed.

Lemma store32_frame m a v x : x < a \/ a + 4 <= x -> load8 (store32 m a v) x = load8 m x.
Proof. apply load8_store32_ne. Qed.

Lemma makestring_spec m buf b offset l :
  holds m (b + offset) l -> nonzero_bytes l -> len l < 32768 ->
  buf + len l <= b + offset \/ b + offset + len l <= buf ->
  cstr (makestring m buf b offset (len l)) buf l /\
  forall x, x < buf \/ buf + len l < x -> load8 (makestring m buf b offset (len l)) x = load8 m x.
Proof.
  intros H Hl Hs Hd. unfold makestring, len in *. rewrite u32_small, Nat2Z.id by lia. split.
  - split; [|done]. apply holds_app. split.
    + eapply holds_frame; [by apply (strncpy_holds l m buf (b + offset))|].
      intros x Hx. apply load8_store8_ne. lia.
    + apply holds_cons. split; [by rewrite load8_store8|apply holds_nil].
  - intros x Hx. rewrite load8_store8_ne by lia. apply strncpy_out. lia.
Qed.

(** copying the local header of the next file *)
Lemma header_copy m m1 z done f rest header :
  archive m z done (f :: rest) -> away z (done ++ f :: rest) header 30 ->
  (forall x, zip z <= x < zip z + len (locals (done ++ f :: rest)) -> load8 m1 x = load8 m x) ->
  let off := len (locals done) in
  let m2 := memcpy m1 header (zip z + off) 30 in
  makelong m2 header 0 = LOCAL_HEADER_SIGNATURE /\
  makeword m2 header L_FILENAME_LENGTH = len (z_name f) /\
  makeword m2 header L_EXTRA_FIELD_LENGTH = len (l_extra f) /\
  (forall x, x < header \/ header + 30 <= x -> load8 m2 x = load8 m1 x) /\
  holds m (zip z + off) (local_record f) /\ 0 <= off /\
  off + len (local_record f) <= len (locals (done ++ f :: rest)).
Proof.
  intros H [Haw _] Hsame off m2. destruct H as [Hok Hloc _ _ (Hz0 & Hz1 & Hz2 & _)].
  rewrite locals_app in Hloc, Haw, Hsame, Hz2 |- *. cbn [locals] in *. rewrite !len_app in *.
  apply holds_app in Hloc as [_ Hloc]. apply holds_app in Hloc as [Hloc _]. fold (len (locals done)) in Hloc.
  apply Forall_app in Hok as [_ Hok]. apply Forall_cons in Hok as [Hf _].
  pose proof (local_record_len f Hf) as Hlen. pose proof (len_nonneg (z_name f)). pose proof (len_nonneg (l_extra f)).
  pose proof (len_nonneg (z_content f)). pose proof (len_nonneg (locals done)). pose proof (len_nonneg (locals rest)).
  destruct (local_fields m _ f Hf Hloc) as (Hsig & Hn & He & _).
  assert (Hm2 : forall k, 0 <= k < 30 -> load8 m2 (header + k) = load8 m (zip z + off + k)).
  { intros k Hk. subst m2. rewrite memcpy_load by (unfold off; lia).
    rewrite (proj2 (Z.leb_le _ _)), (proj2 (Z.ltb_lt _ _)) by lia. simpl.
    replace (zip z + off + (header + k - header)) with (zip z + off + k) by lia. apply Hsame. unfold off. lia. }
  assert (H16 : forall k, 0 <= k < 29 -> load16 m2 (header + k) = load16 m (zip z + off + k)).
  { intros k Hk. unfold load16. rewrite <- !Z.add_assoc. rewrite !Hm2 by lia. by rewrite !Z.add_assoc. }
  destruct Hf as [[_ Hname] (Hex & _) _]. unfold L_FILENAME_LENGTH, L_EXTRA_FIELD_LENGTH.
  split_and!; [| | | |done|done|lia].
  - apply makelong_small; [|done]. rewrite Z.add_0_r. pose proof (H16 0 ltac:(lia)) as E0.
    pose proof (H16 2 ltac:(lia)) as E2. rewrite !Z.add_0_r in E0. unfold load32. rewrite E0, E2.
    assert (Hr : 0 <= LOCAL_HEADER_SIGNATURE < 4294967296) by (unfold LOCAL_HEADER_SIGNATURE; lia).
    pose proof (holds_le32 m (zip z + off) LOCAL_HEADER_SIGNATURE Hr Hsig) as E4.
    unfold load32 in E4.
    exact E4.
  - apply makeword_small; [|unfold len; lia]. rewrite H16 by lia. apply holds_le16; [unfold len; lia|exact Hn].
  - apply makeword_small; [|lia]. rewrite H16 by lia. apply holds_le16; [lia|exact He].
  - intros x Hx. subst m2. rewrite memcpy_load by (unfold off; lia).
    destruct (Z.leb_spec header x), (Z.ltb_spec x (header + 30)); simpl; try done; lia.
Qed.

(** the directory fields of the next file, read through a memory that agrees
    with [m] on the directory *)
Lemma dir_fields m m1 z done f rest :
  archive m z done (f :: rest) ->
  (forall x, dirbuf z <= x < dirbuf z + len (directory (done ++ f :: rest) 0) -> load8 m1 x = load8 m x) ->
  let d := dirofs z in
  makelong m1 (dirbuf z) (d + 0) = CENTRAL_HEADER_SIGNATURE /\
  makelong m1 (dirbuf z) (d + C_UNCOMPRESSED_SIZE) = len (z_content f) /\
  makeword m1 (dirbuf z) (d + C_FILENAME_LENGTH) = len (z_name f) /\
  makeword m1 (dirbuf z) (d + C_EXTRA_FIELD_LENGTH) = len (c_extra f) /\
  makeword m1 (dirbuf z) (d + C_COMMENT_LENGTH) = len (c_comment f) /\
  makelong m1 (dirbuf z) (d + C_RELATIVE_OFFSET_LOCAL_HEADER) = len (locals done) /\
  makeword m1 (dirbuf z) (d + C_COMPRESSION_METHOD) = 0 /\
  holds m1 (dirbuf z + (d + C_FILENAME)) (z_name f) /\
  d + C_FILENAME + len (z_name f) + len (c_extra f) + len (c_comment f) = len (directory (done ++ [f]) 0) /\
  0 <= d /\ len (directory (done ++ [f]) 0) <= len (directory (done ++ f :: rest) 0).
Proof.
  intros H Hsame d. pose proof (archive_frame m m1 z done (f :: rest) H) as _.
  destruct H as [Hok _ Hdir (_ & _ & Hd) (_ & _ & Hl2 & Hd2 & _)].
  assert (Hdir1 : holds m1 (dirbuf z) (directory (done ++ f :: rest) 0)) by (by eapply holds_frame).
  clear Hdir Hsame. rewrite !directory_app in *. cbn [directory] in *. rewrite Z.add_0_l in *.
  apply holds_app in Hdir1 as [_ Hc]. apply holds_app in Hc as [Hc _]. fold (len (directory done 0)) in Hc.
  rewrite <- Hd in Hc. fold d in Hc.
  apply Forall_app in Hok as [_ Hok]. apply Forall_cons in Hok as [Hf _].
  rewrite locals_app in Hl2. cbn [locals] in Hl2. rewrite !len_app in *.
  change (len []) with 0 in *. rewrite <- Hd in Hd2 |- *. fold d in Hd2 |- *.
  pose proof (central_record_len f (len (locals done)) Hf) as Hcl. rewrite Hcl in *.
  pose proof (local_record_len f Hf) as Hll.
  pose proof (len_nonneg (z_name f)). pose proof (len_nonneg (c_extra f)). pose proof (len_nonneg (c_comment f)).
  pose proof (len_nonneg (z_content f)). pose proof (len_nonneg (locals done)). pose proof (len_nonneg (locals rest)).
  pose proof (len_nonneg (l_extra f)). pose proof (len_nonneg (directory rest (len (locals done) + len (local_record f)))).
  assert (Hd0 : 0 <= d) by (unfold d; rewrite Hd; apply len_nonneg).
  destruct (central_fields m1 _ f _ Hf Hc) as (F0 & F1 & F2 & F3 & F4 & F5 & F6 & F7).
  destruct Hf as [[_ Hname] (_ & Hce & Hcc) _].
  unfold C_UNCOMPRESSED_SIZE, C_FILENAME_LENGTH, C_EXTRA_FIELD_LENGTH, C_COMMENT_LENGTH,
    C_RELATIVE_OFFSET_LOCAL_HEADER, C_COMPRESSION_METHOD, C_FILENAME.
  assert (Hnm : len (z_name f) < 80) by (unfold len; lia).
  split_and!; try lia;
    try match goal with
    | |- makelong _ _ _ = ?v => apply makelong_small; [rewrite ?Z.add_assoc, ?Z.add_0_r; apply (holds_le32 _ _ v); [|done]|]
    | |- makeword _ _ _ = ?v => apply makeword_small; [rewrite ?Z.add_assoc, ?Z.add_0_r; apply (holds_le16 _ _ v); [|done]|]
    | |- holds _ _ _ => rewrite ?Z.add_assoc; exact F7
    end; unfold CENTRAL_HEADER_SIGNATURE; lia.
Qed.

(** what one call leaves in memory: the name, size and data pointer of the file
    in [entry]; everything but [entry] and the [header] buffer is unchanged *)
Record entry_of (m m' : memory) (entry header : Z) (z : zip_state) (off : Z) (f : zfile) : Prop := {
  eo_name : cstr m' (e_filename entry) (z_name f);
  eo_size : load32 m' (e_uncompressed_size entry) = len (z_content f);
  eo_data : load32 m' (e_data entry) = zip z + off + 30 + len (z_name f) + len (l_extra f);
  eo_content : holds m' (load32 m' (e_data entry)) (z_content f);
  eo_frame : forall x, (x < entry \/ entry + 92 <= x) -> (x < header \/ header + 30 <= x) ->
    load8 m' x = load8 m x;
}.

Lemma entry_memory m z done f rest entry header :
  archive m z done (f :: rest) ->
  away z (done ++ f :: rest) entry 92 -> away z (done ++ f :: rest) header 30 ->
  entry + 92 <= header \/ header + 30 <= entry ->
  let off := len (locals done) in
  let d := dirofs z in
  let m1 := store32 m (e_uncompressed_size entry) (len (z_content f)) in
  let m2 := memcpy m1 header (zip z + off) 30 in
  let m3 := makestring m2 (e_filename entry) (dirbuf z) (d + C_FILENAME) (len (z_name f)) in
  let m4 := store32 m3 (e_data entry) (zip z + (off + 30 + len (z_name f) + len (l_extra f))) in
  let m5 := store32 m4 (e_compression_method entry) 0 in
  entry_of m m5 entry header z off f /\
  (forall x, dirbuf z <= x < dirbuf z + len (directory (done ++ f :: rest) 0) -> load8 m4 x = load8 m x).
Proof.
  intros H Hae Hah Heh off d m1 m2 m3 m4 m5. unfold e_uncompressed_size, e_filename, e_data, e_compression_method in *.
  destruct (header_copy m m1 z done f rest header H Hah) as (_ & _ & _ & G2 & Hloc & Hoff & Hlen).
  { intros x Hx. apply store32_frame. destruct Hae as [Hae _]. lia. }
  destruct (dir_fields m m z done f rest H ltac:(done)) as (_ & _ & _ & _ & _ & _ & _ & Hname & Hde & Hd0 & Hdl).
  pose proof H as [Hok _ _ _ (Hz0 & Hz1 & _)]. apply Forall_app in Hok as [_ Hok]. apply Forall_cons in Hok as [Hf _].
  pose proof (local_record_len f Hf) as Hll. pose proof (f_name f Hf) as [Hnz Hn80]. fold off in Hoff, Hlen, Hloc.
  pose proof (len_nonneg (z_name f)). pose proof (len_nonneg (l_extra f)). pose proof (len_nonneg (z_content f)).
  pose proof (len_nonneg (c_extra f)). pose proof (len_nonneg (c_comment f)).
  assert (Hn : len (z_name f) < 80) by (unfold len; lia).
  destruct Hae as [Hae1 Hae2], Hah as [Hah1 Hah2]. unfold C_FILENAME in *. fold d in Hd0, Hde, Hname.
  assert (Hm2 : forall x, (x < entry \/ entry + 92 <= x) -> (x < header \/ header + 30 <= x) -> load8 m2 x = load8 m x).
  { intros x Hx1 Hx2. unfold m2. fold off in G2. rewrite (G2 x Hx2). apply store32_frame. lia. }
  destruct (makestring_spec m2 entry (dirbuf z) (d + 46) (z_name f)) as [Hc3 G3]; [| done|lia|lia|].
  { eapply holds_frame; [exact Hname|]. fold (len (z_name f)). intros x Hx. apply Hm2; lia. }
  fold m3 in Hc3, G3.
  assert (Hm5 : forall x, (x < entry \/ entry + 92 <= x) -> (x < header \/ header + 30 <= x) -> load8 m5 x = load8 m x).
  { intros x Hx1 Hx2. unfold m5, m4. rewrite !store32_frame by lia. rewrite G3 by lia. by apply Hm2. }
  assert (Hdata : load32 m5 (entry + 88) = zip z + off + 30 + len (z_name f) + len (l_extra f)).
  { unfold m5. rewrite (load32_ext m4) by (intros x Hx; apply store32_frame; lia).
    unfold m4. rewrite load32_store32, u32_small by lia. lia. }
  split; [constructor; [| |exact Hdata| |exact Hm5]|].
  - eapply cstr_frame; [exact Hc3|]. fold (len (z_name f)). intros x Hx. unfold m5, m4. unfold e_filename in *.
    rewrite !store32_frame by lia. done.
  - unfold e_uncompressed_size. rewrite (load32_ext m1).
    + unfold m1. rewrite load32_store32. apply u32_small. lia.
    + intros x Hx. unfold m5, m4. rewrite !store32_frame by lia. rewrite G3 by lia. apply G2. lia.
  - unfold e_data. rewrite Hdata. destruct (local_fields m _ f Hf Hloc) as (_ & _ & _ & Hcont).
    eapply holds_frame; [exact Hcont|]. fold (len (z_content f)). intros x Hx. apply Hm5; lia.
  - intros x Hx. unfold m4. rewrite store32_frame by lia. rewrite G3 by lia. apply Hm2; lia.
Qed.

Lemma zip_next_entry_spec m z done f rest entry header :
  archive m z done (f :: rest) ->
  away z (done ++ f :: rest) entry 92 -> away z (done ++ f :: rest) header 30 ->
  entry + 92 <= header \/ header + 30 <= entry ->
  exists z' m', zip_next_entry header entry z m = Ok (0, z', m') /\
    archive m' z' (done ++ [f]) rest /\ entry_of m m' entry header z (len (locals done)) f /\
    zip z' = zip z /\ dirbuf z' = dirbuf z.
Proof.
  intros H Hae Hah Heh.
  destruct (entry_memory m z done f rest entry header H Hae Hah Heh) as [Hent Hm4].
  set (m1 := store32 m (e_uncompressed_size entry) (len (z_content f))) in *.
  destruct (header_copy m m1 z done f rest header H Hah) as (Hs & Hln & Hle & _ & _ & Hoff & Hlen).
  { intros x Hx. apply store32_frame. destruct Hae as [Hae _]. unfold e_uncompressed_size. lia. }
  destruct (dir_fields m m z done f rest H ltac:(done)) as (D0 & D1 & _ & _ & _ & _ & _ & _ & Hde & Hd0 & Hdl).
  destruct (dir_fields m m1 z done f rest H) as (_ & _ & D2 & D3 & D4 & D5 & _).
  { intros x Hx. apply store32_frame. destruct Hae as [_ Hae]. unfold e_uncompressed_size. lia. }
  destruct (dir_fields m _ z done f rest H Hm4) as (_ & _ & _ & _ & _ & _ & Dm & _).
  pose proof H as [Hok Hl Hdir (Hc & Hcur & Hdo) (Hz0 & Hz1 & Hz2 & Hz3 & Hz4)].
  pose proof Hok as Hf. apply Forall_app in Hf as [_ Hf]. apply Forall_cons in Hf as [Hf _].
  pose proof (local_record_len f Hf) as Hll.
  pose proof (len_nonneg (z_name f)). pose proof (len_nonneg (l_extra f)). pose proof (len_nonneg (z_content f)).
  assert (Hlt : Z.of_nat (length done) < Z.of_nat (length (done ++ f :: rest))) by (rewrite length_app; simpl; lia).
  unfold zip_next_entry. rewrite Hc, Hcur, (proj2 (Z.eqb_neq _ _)) by lia. cbv zeta. cbn [zip count dirofs mempos dirbuf zcurrent].
  rewrite D0, D1. fold m1. rewrite D5, D2, D3, D4. rewrite (Z.eqb_refl CENTRAL_HEADER_SIGNATURE). cbn [negb].
  unfold zseek. rewrite (proj2 (Z.ltb_ge (len (locals done)) 0)) by lia. cbn [rbind].
  unfold zread, set_mempos. cbn [zip count dirofs mempos dirbuf zcurrent]. unfold LREC_SIZE.
  rewrite Hs, Hln, Hle, (Z.eqb_refl LOCAL_HEADER_SIGNATURE). cbn [negb]. rewrite (s32_small (_ + 30 + _ + _)) by lia.
  rewrite Dm. rewrite (Z.eqb_refl 0). cbn [negb].
  eexists _, _. split; [reflexivity|]. split; [|split; [exact Hent|by split]].
  assert (Eapp : (done ++ [f]) ++ rest = done ++ f :: rest) by (by rewrite <- app_assoc).
  destruct Hae as [Hae1 Hae2], Hah as [Hah1 Hah2].
  match type of Hent with entry_of _ ?mm _ _ _ _ _ => generalize dependent mm end. intros m' Hent.
  constructor; rewrite ?Eapp; cbn [zip count dirofs mempos dirbuf zcurrent]; [exact Hok| | | |by split_and!].
  - eapply holds_frame; [exact Hl|]. fold (len (locals (done ++ f :: rest))). intros x Hx. apply (eo_frame _ _ _ _ _ _ _ Hent); lia.
  - eapply holds_frame; [exact Hdir|]. fold (len (directory (done ++ f :: rest) 0)). intros x Hx.
    apply (eo_frame _ _ _ _ _ _ _ Hent); lia.
  - pose proof (len_nonneg (directory (done ++ [f]) 0)). rewrite (s32_small (_ + 1)), s32_small by lia. split_and!; [done|rewrite length_app; simpl; lia|].
    rewrite <- Hde. lia.
Qed.

Lemma zip_next_entry_end m z done entry header :
  archive m z done [] -> zip_next_entry header entry z m = Ok (-1, z, m).
Proof.
  intros [_ _ _ (Hc & Hcur & _) _]. unfold zip_next_entry. rewrite app_nil_r in Hc. by rewrite Hc, Hcur, Z.eqb_refl.
Qed.

(** ** Initialisation *)

(** reading fields out of a copied record *)
Lemma copied_load32 m m1 a b n k :
  (forall i, 0 <= i < n -> load8 m1 (b + i) = load8 m (a + i)) -> 0 <= k -> k + 4 <= n ->
  load32 m1 (b + k) = load32 m (a + k).
Proof. intros H Hk Hn. unfold load32, load16. rewrite <- !Z.add_assoc. by rewrite !H by lia. Qed.

Lemma copied_load16 m m1 a b n k :
  (forall i, 0 <= i < n -> load8 m1 (b + i) = load8 m (a + i)) -> 0 <= k -> k + 2 <= n ->
  load16 m1 (b + k) = load16 m (a + k).
Proof. intros H Hk Hn. unfold load16. rewrite <- !Z.add_assoc. by rewrite !H by lia. Qed.

Lemma memcpy_copied m to from n :
  0 <= n < 4294967296 -> to + n <= from \/ from + n <= to ->
  (forall i, 0 <= i < n -> load8 (memcpy m to from n) (to + i) = load8 m (from + i)) /\
  (forall x, x < to \/ to + n <= x -> load8 (memcpy m to from n) x = load8 m x).
Proof.
  intros Hn Hd. split; intros i Hi; rewrite memcpy_load by lia.
  - rewrite (proj2 (Z.leb_le _ _)), (proj2 (Z.ltb_lt _ _)) by lia. simpl. f_equal. lia.
  - destruct (Z.leb_spec to i), (Z.ltb_spec i (to + n)); simpl; try done; lia.
Qed.

Section InitSpec.
Context {S : Type} `{!Allocator S}.

Lemma end_fields m p misc1 misc2 n ds :
  length misc1 = 6%nat -> holds m p (end_record misc1 misc2 n ds) ->
  holds m p (le32 END_CENTRAL_DIR_SIGNATURE) /\ holds m (p + 10) (le16 n) /\ holds m (p + 12) (le32 ds).
Proof.
  intros E1 H. unfold end_record in H. rewrite !holds_app in H. rewrite E1 in H. simpl length in H.
  destruct H as (H0 & _ & H1 & H2 & _).
  split_and!; [done|..]; (eapply holds_at; [eassumption|lia]).
Qed.

(** Reading an archive: on an image written from the files [fs], [zip_init]
    succeeds (given memory for the directory) and sets the reader to the first
    of exactly these files; it changes no byte outside its record buffer and
    the directory buffer it allocates. *)
Theorem zip_init_reads m z s buffer zipstart fs misc1 misc2 a s' :
  Forall file_ok fs -> length misc1 = 6%nat -> length misc2 = 6%nat ->
  let img := image fs misc1 misc2 in
  holds m zipstart img -> 0 <= zipstart -> zipstart + len img < 4294967296 -> len img < 2147483648 ->
  Z.of_nat (length fs) < 32768 ->
  al_alloc (len (directory fs 0)) s = Ok (a, s') ->
  buffer + 22 <= zipstart \/ zipstart + len img <= buffer ->
  a + len (directory fs 0) <= zipstart \/ zipstart + len img <= a ->
  exists z' m', zip_init buffer zipstart (len img) z m s = Ok (z', m', s') /\ archive m' z' [] fs /\
    (forall x, x < buffer \/ buffer + 22 <= x -> x < a \/ a + len (directory fs 0) <= x -> load8 m' x = load8 m x).
Proof.
  intros Hok E1 E2 img Himg Hz0 Hz1 Hz2 Hcnt Hal Hbuf Ha.
  assert (Hend : len (end_record misc1 misc2 (Z.of_nat (length fs)) (len (directory fs 0))) = 22).
  { unfold end_record. rewrite !len_app. unfold len. rewrite E1, E2. done. }
  assert (Hlen : len img = len (locals fs) + len (directory fs 0) + 22).
  { unfold img, image. rewrite !len_app, Hend. lia. }
  pose proof (len_nonneg (locals fs)). pose proof (len_nonneg (directory fs 0)).
  unfold img, image in Himg. rewrite !holds_app in Himg. destruct Himg as (Hl & Hd & He).
  fold (len (locals fs)) in Hd, He. fold (len (directory fs 0)) in He.
  unfold zip_init, zseek, zread, set_mempos, ECREC_SIZE. cbn [zip count dirofs mempos dirbuf zcurrent].
  rewrite (s32_small (len img - 22)), (proj2 (Z.ltb_ge (len img - 22) 0)) by lia. cbn [rbind zip count dirofs mempos dirbuf zcurrent].
  destruct (memcpy_copied m buffer (zipstart + (len img - 22)) 22) as [Hc Hout]; [lia|lia|].
  set (m1 := memcpy m buffer (zipstart + (len img - 22)) 22) in *.
  replace (zipstart + (len img - 22)) with (zipstart + len (locals fs) + len (directory fs 0)) in Hc by lia.
  destruct (end_fields m _ misc1 misc2 _ _ E1 He) as (F0 & F1 & F2).
  assert (V0 : makelong m1 buffer 0 = END_CENTRAL_DIR_SIGNATURE).
  { apply makelong_small; [|unfold END_CENTRAL_DIR_SIGNATURE; lia]. rewrite (copied_load32 _ _ _ _ _ 0 Hc) by lia.
    apply holds_le32; [unfold END_CENTRAL_DIR_SIGNATURE; lia|]. by rewrite Z.add_0_r. }
  assert (V1 : makeword m1 buffer 10 = Z.of_nat (length fs)).
  { apply makeword_small; [|lia]. rewrite (copied_load16 _ _ _ _ _ 10 Hc) by lia. apply holds_le16; [lia|done]. }
  assert (V2 : makelong m1 buffer 12 = len (directory fs 0)).
  { apply makelong_small; [|lia]. rewrite (copied_load32 _ _ _ _ _ 12 Hc) by lia. apply holds_le32; [lia|done]. }
  rewrite V0, (Z.eqb_refl END_CENTRAL_DIR_SIGNATURE). cbn [negb].
  unfold SIZE_CENTRAL_DIRECTORY, TOTAL_ENTRIES_CENTRAL_DIR. rewrite V1, V2.
  rewrite (s32_small (len (directory fs 0) + 22)), (s32_small (len img - _)) by lia.
  rewrite (proj2 (Z.ltb_ge (len img - _) 0)) by lia. cbn [rbind zip count dirofs mempos dirbuf zcurrent].
  rewrite u32_small by lia. rewrite Hal. cbn [rbind].
  destruct (memcpy_copied m1 a (zipstart + (len img - (len (directory fs 0) + 22))) (len (directory fs 0))) as [Hc2 Hout2]; [lia|lia|].
  set (m2 := memcpy m1 a _ _) in *. clearbody m2. clearbody m1.
  eexists _, m2. split; [reflexivity|]. split.
  - constructor; cbn [zip count dirofs mempos dirbuf zcurrent app]; [done| | |done|split_and!; lia].
    + eapply holds_frame; [exact Hl|]. fold (len (locals fs)). intros x Hx. rewrite Hout2 by lia. apply Hout. lia.
    + intros i x Hx. pose proof (lookup_lt_Some _ _ _ Hx). rewrite Hc2 by (unfold len; lia).
      rewrite Hout by (unfold len in *; lia). rewrite <- (Hd i x Hx). f_equal. lia.
  - intros x Hx Hx2. rewrite Hout2 by lia. apply Hout. lia.
Qed.
End InitSpec.

(** C24 Walking an archive: while files remain, [zip_next_entry] returns 0 and the
    next one - its name, NUL-terminated, its size, and a pointer to its bytes -
    and nothing outside the entry and the header buffer changes. *)
Theorem zip_next_entry_reads m z done f rest entry header :
  archive m z done (f :: rest) ->
  away z (done ++ f :: rest) entry 92 -> away z (done ++ f :: rest) header 30 ->
  entry + 92 <= header \/ header + 30 <= entry ->
  exists z' m', zip_next_entry header entry z m = Ok (0, z', m') /\
    archive m' z' (done ++ [f]) rest /\ entry_of m m' entry header z (len (locals done)) f.
Proof.
  intros H H1 H2 H3. destruct (zip_next_entry_spec m z done f rest entry header H H1 H2 H3) as (z' & m' & ? & ? & ? & _).
  by exists z', m'.
Qed.

(** A 16-bit field of 32768 or more - a file count, say - is read as a negative
    number, because [makeword] shifts a sign-extended [char]. *)
Theorem makeword_negative m b offset :
  32768 <= load16 m (b + offset) -> makeword m b offset = load16 m (b + offset) - 65536.
Proof.
  intros H. rewrite makeword_load. pose proof (load16_range m (b + offset)). unfold s16, swrap.
  change (2 ^ (16 - 1)) with 32768. change (2 ^ 16) with 65536.
  replace ((load16 m (b + offset) + 32768) mod 65536) with (load16 m (b + offset) - 32768); [lia|].
  apply (Z.mod_unique _ _ 1); lia.
Qed.

(** ** A concrete archive: the files "a" (bytes 1 2 3) and "bc" (empty) at 4096 *)
Definition file_a : zfile := MkFile [97] [1; 2; 3] (replicate 22 0) [9] (replicate 6 0) (replicate 12 0) (replicate 8 0) [] [5; 5].
Definition file_bc : zfile := MkFile [98; 99] [] (replicate 22 0) [] (replicate 6 0) (replicate 12 0) (replicate 8 0) [7] [].
Definition demo_image : list Z := image [file_a; file_bc] (replicate 6 0) (replicate 6 0).
Definition demo_zip_mem : memory := store_bytes (fun _ => 0) 4096 demo_image.
Definition z_empty : zip_state := MkZip 0 0 0 0 0 0.

Lemma demo_files_ok : Forall file_ok [file_a; file_bc].
Proof.
  repeat apply Forall_cons_2; [| |apply Forall_nil_2]; (constructor; [split; [by repeat constructor|simpl; lia]|unfold len; simpl; lia|done]).
Qed.

Lemma demo_holds : holds demo_zip_mem 4096 demo_image.
Proof.
  apply holds_store_bytes, Forall_forall. intros x Hx. rewrite list_elem_of_In in Hx.
  assert (Hall : forallb (fun x => (0 <=? x) && (x <? 256)) demo_image = true) by reflexivity.
  rewrite forallb_forall in Hall. apply Hall in Hx. lia.
Qed.

Lemma zip_init_reads_witness :
  exists z' m' s', zip_init 1000 4096 (len demo_image) z_empty demo_zip_mem st16 = Ok (z', m', s') /\
    archive m' z' [] [file_a; file_bc].
Proof.
  destruct (@al_alloc _ malloc_allocator (len (directory [file_a; file_bc] 0)) st16) as [[a s']|e] eqn:E; [|by vm_compute in E].
  assert (Ha : a = 1049600) by (vm_compute in E; by injection E).
  assert (Hlen : len (image [file_a; file_bc] (replicate 6 0) (replicate 6 0)) = 187) by reflexivity.
  assert (Hd : len (directory [file_a; file_bc] 0) = 98) by reflexivity.
  destruct (@zip_init_reads _ malloc_allocator demo_zip_mem z_empty st16 1000 4096 [file_a; file_bc] (replicate 6 0) (replicate 6 0) a s'
    demo_files_ok eq_refl eq_refl demo_holds) as (z' & m' & E' & H & _);
    [lia|rewrite Hlen; lia|rewrite Hlen; lia|simpl; lia|exact E|left; lia|right; rewrite Hlen; lia|].
  exists z', m', s'. split; [exact E'|exact H].
Defined.

(** the same archive with its directory already at 8192 *)
Definition demo_dir_mem : memory := store_bytes demo_zip_mem 8192 (directory [file_a; file_bc] 0).
Definition z_start : zip_state := MkZip 4096 2 0 4096 8192 0.

Lemma demo_archive : archive demo_dir_mem z_start [] [file_a; file_bc].
Proof.
  constructor; cbn [zip count dirofs mempos dirbuf zcurrent app]; [apply demo_files_ok| | |by split_and!|].
  - pose proof demo_holds as H. unfold demo_image, image in H. apply holds_app in H as [H _].
    eapply holds_frame; [exact H|]. intros x Hx. apply load8_store_bytes_out. left.
    assert (Hlen : length (locals [file_a; file_bc]) = 67%nat) by reflexivity. rewrite Hlen in Hx. change (zip z_start) with 4096 in Hx. lia.
  - apply holds_store_bytes, Forall_forall. intros x Hx. rewrite list_elem_of_In in Hx.
    assert (Hall : forallb (fun x => (0 <=? x) && (x <? 256)) (directory [file_a; file_bc] 0) = true) by reflexivity.
    rewrite forallb_forall in Hall. apply Hall in Hx. lia.
  - assert (Hlen : len (locals [file_a; file_bc]) = 67) by reflexivity.
    assert (Hd : len (directory [file_a; file_bc] 0) = 98) by reflexivity.
    change (zip z_start) with 4096. rewrite Hlen, Hd. simpl. lia.
Qed.

Lemma zip_next_entry_reads_witness :
  exists z' m', zip_next_entry 1000 2000 z_start demo_dir_mem = Ok (0, z', m') /\
    archive m' z' [file_a] [file_bc] /\ cstr m' 2000 [97].
Proof.
  assert (Hlen : len (locals [file_a; file_bc]) = 67) by reflexivity.
  assert (Hd : len (directory [file_a; file_bc] 0) = 98) by reflexivity.
  destruct (zip_next_entry_reads demo_dir_mem z_start [] file_a [file_bc] 2000 1000 demo_archive) as (z' & m' & E & H & He).
  - unfold away. cbn [app]. rewrite Hlen, Hd. simpl. lia.
  - unfold away. cbn [app]. rewrite Hlen, Hd. simpl. lia.
  - lia.
  - exists z', m'. split_and!; [done|exact H|exact (eo_name _ _ _ _ _ _ _ He)].
Defined.

Lemma makeword_negative_witness : makeword (store16 (fun _ => 0) 10 40000) 0 10 = -25536.
Proof. rewrite (makeword_negative (store16 (fun _ => 0) 10 40000) 0 10); [reflexivity|vm_compute; done]. Defined.
