(* ===== verification/BootFS.v ===== *)
(** * The boot file system (core/memfs.c, core/libcache.c, Interface/zero_BootFS.c)

    Files come from the libraries registered at run time ([libcache]) or from the
    boot archive; an open file is a [FileDesc] with a read position.  Memory
    objects (their start and size) belong to the memory manager and are
    parameters of the lookup. *)

From S2P Require Import Prelude Mem CString JString Malloc Alloc Zip.
#[local] Open Scope Z_scope.

Definition MEMFS_RO : Z := 0.
Definition MEMFS_RW : Z := 1.
Definition MAGIC_FD : Z := 9578326.
Definition sizeof_FileDesc : Z := 28.

Record FileDesc := MkFd {
  fd_magic : Z; fd_pos : Z; fd_data : Z; fd_size : Z; fd_filename : Z; fd_domain : Z; fd_mem : Z;
}.
Definition set_pos (d : FileDesc) (p : Z) : FileDesc :=
  MkFd (fd_magic d) p (fd_data d) (fd_size d) (fd_filename d) (fd_domain d) (fd_mem d).

Definition ASSERTFD (d : FileDesc) : res unit := assert_ "_fd_->magic==MAGIC_FD" (fd_magic d =? MAGIC_FD).

(** ** Reading *)

Definition memfs_eof (d : FileDesc) : res bool :=
  let! _ := ASSERTFD d in Ok (negb (fd_pos d <? fd_size d)).

(** [None] is the return value -1. *)
Definition memfs_readByte (m : memory) (d : FileDesc) : res (option (Z * FileDesc)) :=
  let! eof := memfs_eof d in
  if eof then Ok None
  else Ok (Some (s8 (load8 m (fd_data d + fd_pos d)), set_pos d (u32 (fd_pos d + 1)))).

Definition memfs_readInt (m : memory) (d : FileDesc) : res (option (Z * FileDesc)) :=
  let! eof := memfs_eof d in
  if eof then Ok None
  else Ok (Some (s32 (load32 m (fd_data d + fd_pos d)), set_pos d (u32 (fd_pos d + 4)))).

Definition memfs_readStringData (m : memory) (d : FileDesc) (buf length : Z) : res (option (memory * FileDesc)) :=
  let! eof := memfs_eof d in
  if eof then Ok None
  else
    let m := memcpy m buf (fd_data d + fd_pos d) length in
    Ok (Some (store8 m (buf + length) 0, set_pos d (u32 (fd_pos d + length)))).

(** [domain_panic] terminates the current domain, which never returns. *)
Definition memfs_readString (m : memory) (d : FileDesc) (buf nbuf : Z) : res (option (memory * FileDesc)) :=
  let! r := memfs_readInt m d in
  match r with
  | None => Ok None
  | Some (length, d) =>
      if nbuf <=? length then Err (EPanic "buffer too small!")
      else memfs_readStringData m d buf length
  end.

Definition memfs_readCode (m : memory) (d : FileDesc) (buf nbuf : Z) : res (option (memory * FileDesc)) :=
  let! eof := memfs_eof d in
  if eof then Ok None
  else Ok (Some (memcpy m buf (fd_data d + fd_pos d) nbuf, set_pos d (u32 (fd_pos d + nbuf)))).

Definition memfs_getPos (d : FileDesc) : res Z := let! _ := ASSERTFD d in Ok (fd_pos d).
Definition memfs_getFileName (d : FileDesc) : res Z := let! _ := ASSERTFD d in Ok (fd_filename d).
Definition memfs_getSize (d : FileDesc) : res Z := let! _ := ASSERTFD d in Ok (fd_size d).
Definition memfs_seek (d : FileDesc) (pos : Z) : res FileDesc := let! _ := ASSERTFD d in Ok (set_pos d (u32 pos)).

(** the loop [for (i = 0; i < desc->size - 4; i++)], an unsigned comparison *)
Fixpoint checksum_loop (n : nat) (m : memory) (data i checksum : Z) : Z :=
  match n with
  | O => checksum
  | S n => checksum_loop n m data (i + 1) (Z.land (Z.lxor checksum (s8 (load8 m (data + i)))) 255)
  end.
Definition memfs_testChecksum (m : memory) (d : FileDesc) : res Z :=
  let! _ := ASSERTFD d in
  let checksum := checksum_loop (Z.to_nat (u32 (fd_size d - 4))) m (fd_data d) 0 0 in
  if checksum =? s32 (load32 m (fd_data d + fd_size d - 4)) then Ok 0 else Ok (-1).

(** ** Opening *)

(** an entry of the list [global_jll_cache] *)
Record libcache_entry := MkLib { lc_name : Z; lc_codefile : Z }.

Section Lookup.
Context {A : Type} `{!Allocator A}.
(** size and start address of a memory object *)
Context (memory_size memory_getStartAddress : Z -> Z).
(** addresses of the local buffers [e_str], [entry] and [header] *)
Context (e_str entry header : Z).

Fixpoint libcache_lookup_jll (fuel : nat) (m : memory) (name : Z) (cache : list libcache_entry)
  : res (option (Z * Z) * memory) :=
  match cache with
  | [] => Ok (None, m)
  | e :: cache =>
      let m := stringToChar m (lc_name e) e_str 80 in
      let! c := strcmp fuel m name e_str in
      if c =? 0 then Ok (Some (memory_getStartAddress (lc_codefile e), memory_size (lc_codefile e)), m)
      else libcache_lookup_jll fuel m name cache
  end.

Definition libcache_new_entry (string_obj memory_obj : Z) (s : A) : res (libcache_entry * A) :=
  let! '(_, s) := al_alloc 12 s in Ok (MkLib string_obj memory_obj, s).

Definition libcache_register_jll (string_obj memory_obj : Z) (cache : list libcache_entry) (m : memory) (s : A)
  : res (list libcache_entry * memory * A) :=
  let m := stringToChar m string_obj e_str 80 in
  let! '(newjll, s) := libcache_new_entry string_obj memory_obj s in
  Ok (newjll :: cache, m, s).

(** the loop over the archive: data pointer and size of the entry called
    [filename] *)
Fixpoint zip_find (fuel : nat) (filename : Z) (z : zip_state) (m : memory)
  : res (option (Z * Z) * zip_state * memory) :=
  match fuel with
  | O => Err EFuel
  | S n =>
      let! '(r, z, m) := zip_next_entry header entry z m in
      if r =? -1 then Ok (None, z, m) else
      let! c := strcmp 81 m (e_filename entry) filename in
      if c =? 0 then Ok (Some (load32 m (e_data entry), load32 m (e_uncompressed_size entry)), z, m)
      else zip_find n filename z m
  end.

(** [read_codefile] of core/load.c: the archive only *)
Definition read_codefile (fuel : nat) (filename : Z) (z : zip_state) (m : memory)
  : res (option (Z * Z) * zip_state * memory) :=
  zip_find fuel filename (zip_reset z) m.

Definition find_codefile (fuel : nat) (filename : Z) (cache : list libcache_entry) (z : zip_state) (m : memory)
  : res (option (Z * Z) * zip_state * memory) :=
  let! '(r, m) := libcache_lookup_jll fuel m filename cache in
  match r with
  | Some (codefile, size) => Ok (Some (codefile, size), z, m)
  | None => zip_find fuel filename (zip_reset z) m
  end.

Definition memfs_lookup (fuel : nat) (filename : Z) (cache : list libcache_entry) (z : zip_state) (m : memory)
  : res (bool * zip_state * memory) :=
  let! '(r, z, m) := find_codefile fuel filename cache z m in
  Ok (match r with Some _ => true | None => false end, z, m).

Definition memfs_open (fuel : nat) (domain filename : Z) (cache : list libcache_entry)
    (z : zip_state) (m : memory) (s : A) : res (option (Z * FileDesc) * zip_state * memory * A) :=
  let! '(r, z, m) := find_codefile fuel filename cache z m in
  match r with
  | None => Ok (None, z, m, s)
  | Some (codefile, size) =>
      let! '(desc, s) := al_alloc sizeof_FileDesc s in
      let m := memset m desc 0 sizeof_FileDesc in
      Ok (Some (desc, MkFd MAGIC_FD 0 codefile size filename domain 0), z, m, s)
  end.

(** [allocReadOnlyMemory] of the memory manager *)
Context (allocReadOnlyMemory : Z -> Z -> A -> res (Z * A)).

Definition memfs_mmap (d : FileDesc) (flag : Z) (s : A) : res (Z * FileDesc * A) :=
  let! _ := ASSERTFD d in
  if negb (flag =? MEMFS_RO) then Err (EThrow "BootFS can only create ReadOnlyMemory") else
  if fd_mem d =? 0 then
    let! '(h, s) := allocReadOnlyMemory (fd_data d) (fd_size d) s in
    Ok (h, MkFd (fd_magic d) (fd_pos d) (fd_data d) (fd_size d) (fd_filename d) (fd_domain d) h, s)
  else Ok (fd_mem d, d, s).

(** [desc] is the address [memfs_open] allocated; the magic number is cleared
    before the block is released *)
Definition memfs_close (desc : Z) (d : FileDesc) (s : A) : res (FileDesc * A) :=
  let! _ := ASSERTFD d in
  let d := MkFd 0 (fd_pos d) (fd_data d) 0 (fd_filename d) (fd_domain d) (fd_mem d) in
  let! s := al_free desc sizeof_FileDesc s in Ok (d, s).

(** *** The BootFS portal *)
Definition bootfs_lookup (fuel : nat) (char_buffer filename : Z) cache z m : res (bool * zip_state * memory) :=
  memfs_lookup fuel char_buffer cache z (stringToChar m filename char_buffer 128).

Definition bootfs_getFile (fuel : nat) (char_buffer curdom filename : Z) cache z m (s : A)
  : res (option Z * zip_state * memory * A) :=
  if filename =? 0 then Err (EThrow "NullPointerException") else
  let! '(fd, z, m, s) := memfs_open fuel curdom char_buffer cache z (stringToChar m filename char_buffer 128) s in
  match fd with
  | None => Ok (None, z, m, s)
  | Some (desc, fd) =>
      let! '(mem, fd, s) := memfs_mmap fd MEMFS_RO s in
      let! '(_, s) := memfs_close desc fd s in Ok (Some mem, z, m, s)
  end.

Definition bootfs_getReadWriteFile (fuel : nat) (char_buffer curdom filename : Z) cache z m (s : A)
  : res (Z * zip_state * memory * A) :=
  if filename =? 0 then Err (EThrow "NullPointerException") else
  let! '(fd, z, m, s) := memfs_open fuel curdom char_buffer cache z (stringToChar m filename char_buffer 128) s in
  match fd with
  | None => Err (EThrow "NullPointerException")
  | Some (desc, fd) =>
      let! '(mem, fd, s) := memfs_mmap fd MEMFS_RW s in
      let! '(_, s) := memfs_close desc fd s in Ok (mem, z, m, s)
  end.
End Lookup.

(** ** Searching the archive *)

Lemma archive_reset m z done rest : archive m z done rest -> archive m (zip_reset z) [] (done ++ rest).
Proof. intros [Hok Hl Hd (Hc & _) Hs]. constructor; try done. Qed.

(** the first file called [name] *)
Fixpoint find_file (fs : list zfile) (name : list Z) : option zfile :=
  match fs with
  | [] => None
  | f :: fs => if decide (z_name f = name) then Some f else find_file fs name
  end.

Section Search.
Context (entry header filename : Z) (name : list Z).

(** [apart z fs]: the buffers, the archive, the directory and the name string
    occupy disjoint memory *)
Definition bufs_ok (z : zip_state) (fs : list zfile) : Prop :=
  away z fs entry 92 /\ away z fs header 30 /\ (entry + 92 <= header \/ header + 30 <= entry) /\
  (filename + len name < entry \/ entry + 92 <= filename) /\
  (filename + len name < header \/ header + 30 <= filename).

Lemma zip_find_spec : forall rest done m z fuel,
  archive m z done rest -> bufs_ok z (done ++ rest) -> cstr m filename name -> (length rest < fuel)%nat ->
  exists r z' m' done' rest', zip_find entry header fuel filename z m = Ok (r, z', m') /\
    archive m' z' done' rest' /\ done' ++ rest' = done ++ rest /\ zip z' = zip z /\ dirbuf z' = dirbuf z /\
    (forall x, (x < entry \/ entry + 92 <= x) -> (x < header \/ header + 30 <= x) -> load8 m' x = load8 m x) /\
    match find_file rest name with
    | None => r = None
    | Some f => exists data, r = Some (data, len (z_content f)) /\ holds m' data (z_content f) /\
                  zip z <= data /\ data + len (z_content f) <= zip z + len (locals (done ++ rest))
    end.
Proof.
  induction rest as [|f rest IH]; intros done m z [|fuel] H Hb Hn Hf; simpl in Hf; try lia; cbn [zip_find].
  - rewrite (zip_next_entry_end m z done entry header H). cbn [rbind]. rewrite Z.eqb_refl.
    exists None, z, m, done, []. by split_and!.
  - destruct Hb as (He & Hh & Heh & Hfe & Hfh).
    destruct (zip_next_entry_spec m z done f rest entry header H He Hh Heh) as (z1 & m1 & E & H1 & Hent & Ez & Ed).
    rewrite E. cbn [rbind]. change (0 =? -1) with false. cbv iota.
    assert (Hn1 : cstr m1 filename name).
    { eapply cstr_frame; [exact Hn|]. fold (len name). intros x Hx. apply (eo_frame _ _ _ _ _ _ _ Hent); lia. }
    pose proof (eo_name _ _ _ _ _ _ _ Hent) as Hne.
    pose proof (a_files _ _ _ _ H) as Hok. apply Forall_app in Hok as [_ Hok]. apply Forall_cons in Hok as [[[_ H80] _ _] _].
    destruct (strcmp_cstr 81 m1 (e_filename entry) filename _ _ Hne Hn1) as (c & Ec & Hc0 & _); [lia|].
    rewrite Ec. cbn [rbind find_file]. destruct (decide (z_name f = name)) as [Hnm|Hnm].
    + rewrite (proj2 (Z.eqb_eq c 0)) by tauto. eexists _, z1, m1, (done ++ [f]), rest.
      split; [reflexivity|]. split_and!; [exact H1|by rewrite <- app_assoc|done|done|apply (eo_frame _ _ _ _ _ _ _ Hent)|].
      eexists. rewrite (eo_size _ _ _ _ _ _ _ Hent). split; [done|]. split; [apply (eo_content _ _ _ _ _ _ _ Hent)|].
      rewrite (eo_data _ _ _ _ _ _ _ Hent). pose proof (a_files _ _ _ _ H) as Hok. apply Forall_app in Hok as [_ Hok].
      apply Forall_cons in Hok as [Hok _]. rewrite locals_app. cbn [locals]. rewrite !len_app, (local_record_len f Hok).
      pose proof (len_nonneg (locals done)). pose proof (len_nonneg (locals rest)).
      pose proof (len_nonneg (z_name f)). pose proof (len_nonneg (l_extra f)). pose proof (len_nonneg (z_content f)). lia.
    + rewrite (proj2 (Z.eqb_neq c 0)) by tauto.
      assert (Eapp : (done ++ [f]) ++ rest = done ++ f :: rest) by (by rewrite <- app_assoc).
      destruct (IH (done ++ [f]) m1 z1 fuel H1) as (r & z' & m' & d' & r' & E' & H' & Ea & Ez' & Ed' & Hfr & Hr);
        [|done|lia|].
      { rewrite Eapp. unfold bufs_ok, away in *. by rewrite Ez, Ed. }
      exists r, z', m', d', r'. rewrite Ez', Ed'. split_and!; try done; [by rewrite Ea, Eapp| |].
      { intros x Hx Hx2. rewrite Hfr by done. by apply (eo_frame _ _ _ _ _ _ _ Hent). }
      by rewrite Eapp, Ez in Hr.
Qed.

(** [memfs_open] finds a boot file by its name: with no registered library and
    an archive of the files [fs], it opens the first file called [name] - the
    descriptor points to exactly its bytes, at position 0 - and returns NULL when
    there is none; the search never fails and leaves the archive readable. *)
Theorem memfs_open_finds {A : Type} `{!Allocator A} msize mstart e_str domain m z done rest fuel (s : A) desc s' :
  archive m z done rest -> bufs_ok z (done ++ rest) -> cstr m filename name -> (length (done ++ rest) < fuel)%nat ->
  al_alloc sizeof_FileDesc s = Ok (desc, s') ->
  desc + 28 <= zip z \/ zip z + len (locals (done ++ rest)) <= desc ->
  exists r z' m' s'', memfs_open msize mstart e_str entry header fuel domain filename [] z m s = Ok (r, z', m', s'') /\
    match find_file (done ++ rest) name with
    | None => r = None /\ s'' = s
    | Some f => exists data, r = Some (desc, MkFd MAGIC_FD 0 data (len (z_content f)) filename domain 0) /\
                  s'' = s' /\ holds m' data (z_content f)
    end.
Proof.
  intros H Hb Hn Hf Hal Hd. unfold memfs_open, find_codefile. simpl.
  destruct (zip_find_spec (done ++ rest) [] m (zip_reset z) fuel (archive_reset _ _ _ _ H)) as
    (r & z' & m' & d' & r' & E & H' & Ea & Ez & Ed & _ & Hr); try done.
  rewrite E. simpl. destruct (find_file (done ++ rest) name) as [f|].
  - destruct Hr as (data & -> & Hdata & Hlo & Hhi). simpl in Hlo, Hhi. rewrite Hal. simpl.
    eexists _, z', _, s'. split; [reflexivity|]. exists data. split_and!; try done.
    eapply holds_frame; [exact Hdata|]. fold (len (z_content f)). intros x Hx.
    rewrite memset_load by (unfold sizeof_FileDesc; lia). unfold sizeof_FileDesc.
    destruct (Z.leb_spec desc x), (Z.ltb_spec x (desc + 28)); simpl; try done; lia.
  - subst r. by exists None, z', m', s.
Qed.
End Search.

(** ** Reading what was opened *)

(** [n] calls of [memfs_readByte]; the bytes and the last descriptor *)
Fixpoint read_bytes (n : nat) (m : memory) (d : FileDesc) : res (list Z * FileDesc) :=
  match n with
  | O => Ok ([], d)
  | S n =>
      let! r := memfs_readByte m d in
      match r with
      | None => Ok ([], d)
      | Some (b, d) => let! '(l, d) := read_bytes n m d in Ok (b :: l, d)
      end
  end.

(** Reading a file byte by byte returns its contents and then the end-of-file
    result: from position [p], [memfs_readByte] yields the (sign-extended) bytes
    [p], [p+1], ... up to the size, never one behind it. *)
Theorem memfs_readByte_contents : forall n m d l,
  fd_magic d = MAGIC_FD -> holds m (fd_data d) l -> fd_size d = len l -> len l < 4294967295 ->
  0 <= fd_pos d <= len l -> (length l - Z.to_nat (fd_pos d) <= n)%nat ->
  exists d', read_bytes n m d = Ok (map s8 (drop (Z.to_nat (fd_pos d)) l), d') /\
    memfs_readByte m d' = Ok None /\ fd_pos d' = len l.
Proof.
  induction n as [|n IH]; intros m d l Hm H Hs Hl Hp Hn; unfold len in *; cbn [read_bytes].
  - assert (E : fd_pos d = Z.of_nat (length l)) by lia. exists d. rewrite E, Nat2Z.id, drop_all. split_and!; try done.
    unfold memfs_readByte, memfs_eof, ASSERTFD. rewrite Hm. simpl. by rewrite Hs, E, Z.ltb_irrefl.
  - assert (Heof : memfs_eof d = Ok (negb (fd_pos d <? fd_size d))) by (unfold memfs_eof, ASSERTFD; by rewrite Hm).
    unfold memfs_readByte at 1. rewrite Heof, Hs. simpl. destruct (Z.ltb_spec (fd_pos d) (Z.of_nat (length l))) as [Hlt|Hge].
    + simpl. destruct (lookup_lt_is_Some_2 l (Z.to_nat (fd_pos d))) as [x Hx]; [lia|].
      destruct (IH m (set_pos d (u32 (fd_pos d + 1))) l) as (d' & E & He & Hpos); unfold len; simpl; try done;
        rewrite ?u32_small by lia; try lia.
      rewrite u32_small in E by lia. rewrite E. simpl. exists d'. split_and!; [|done|done].
      rewrite (drop_S _ _ _ Hx). simpl. replace (Z.to_nat (fd_pos d + 1)) with (S (Z.to_nat (fd_pos d))) by lia.
      do 3 f_equal. f_equal. specialize (H _ _ Hx). by rewrite Z2Nat.id in H by lia.
    + simpl. assert (E : fd_pos d = Z.of_nat (length l)) by lia. exists d. rewrite E, Nat2Z.id, drop_all. split_and!; try done.
      unfold memfs_readByte. rewrite Heof, Hs, E. simpl. by rewrite Z.ltb_irrefl.
Qed.

(** [memfs_readString] does not check for a negative length: when the length
    word read from the file is -1, it "succeeds", and the byte before the
    caller's buffer is overwritten with the terminating zero. *)
Theorem memfs_readString_underrun m d buf nbuf :
  fd_magic d = MAGIC_FD -> 0 <= fd_pos d -> fd_pos d + 4 < fd_size d -> fd_size d < 4294967292 ->
  load32 m (fd_data d + fd_pos d) = 4294967295 -> 0 <= nbuf ->
  exists m' d', memfs_readString m d buf nbuf = Ok (Some (m', d')) /\ load8 m' (buf - 1) = 0.
Proof.
  intros Hm Hp Hs Hs2 Hw Hn. unfold memfs_readString, memfs_readInt, memfs_eof, ASSERTFD. rewrite Hm. simpl.
  rewrite (proj2 (Z.ltb_lt _ _)) by lia. simpl. rewrite Hw. change (s32 4294967295) with (-1).
  rewrite (proj2 (Z.leb_gt nbuf (-1))) by lia. unfold memfs_readStringData, memfs_eof, ASSERTFD. simpl. rewrite Hm. simpl.
  rewrite u32_small, (proj2 (Z.ltb_lt _ _)) by lia. simpl. eexists _, _. split; [reflexivity|]. apply load8_store8.
Qed.

(** [xor] of the low bytes, the checksum the loader expects *)
Definition xor_bytes (l : list Z) : Z := foldl Z.lxor 0 l.

Lemma checksum_loop_xor l : forall m data i c,
  (forall k x, l !! k = Some x -> load8 m (data + i + Z.of_nat k) = x) -> 0 <= c < 256 ->
  Forall (fun x => 0 <= x < 256) l ->
  checksum_loop (length l) m data i c = foldl Z.lxor c l.
Proof.
  induction l as [|x l IH]; intros m data i c Hl Hc Hb; simpl; [done|]. apply Forall_cons in Hb as [Hx Hb].
  assert (E : load8 m (data + i) = x) by (rewrite <- (Hl 0%nat x) by done; f_equal; lia).
  assert (Hxor : Z.land (Z.lxor c (s8 x)) 255 = Z.lxor c x).
  { apply Z.bits_inj'. intros k Hk. change 255 with (Z.ones 8). rewrite Z.land_spec, !Z.lxor_spec.
    destruct (Z.lt_ge_cases k 8) as [Hlt|Hge].
    - rewrite Z.ones_spec_low, andb_true_r by lia. f_equal. rewrite <- (s8_mod x Hx) at 2.
      symmetry. change 256 with (2 ^ 8). apply Z.mod_pow2_bits_low. lia.
    - rewrite Z.ones_spec_high, andb_false_r by lia.
      by rewrite !(testbit_high 8) by (done || lia). }
  rewrite E, Hxor. apply IH; [| |done].
  - intros k y Hy. rewrite <- (Hl (S k) y Hy). f_equal. lia.
  - rewrite <- Hxor. change 255 with (Z.ones 8). rewrite Z.land_ones by lia. apply Z.mod_pos_bound. lia.
Qed.

Lemma foldl_lxor_range l : forall c, 0 <= c < 256 -> Forall (fun x => 0 <= x < 256) l -> 0 <= foldl Z.lxor c l < 256.
Proof.
  induction l as [|x l IH]; intros c Hc Hb; simpl; [done|]. apply Forall_cons in Hb as [Hx Hb].
  apply IH; [|done]. by apply (lxor_range 8).
Qed.

(** [memfs_testChecksum] accepts a file (of at least four bytes) exactly when
    its last word is the exclusive-or of all bytes before it. *)
Theorem memfs_testChecksum_spec m d l w :
  fd_magic d = MAGIC_FD -> fd_size d = len l + 4 -> len l + 4 < 2147483648 ->
  holds m (fd_data d) l -> Forall (fun x => 0 <= x < 256) l -> load32 m (fd_data d + len l) = w ->
  memfs_testChecksum m d = Ok (if w =? xor_bytes l then 0 else -1).
Proof.
  intros Hm Hs Hl H Hb Hw. unfold memfs_testChecksum, ASSERTFD. rewrite Hm, Hs. simpl.
  replace (len l + 4 - 4) with (len l) by lia. replace (fd_data d + (len l + 4) - 4) with (fd_data d + len l) by lia.
  pose proof (len_nonneg l). rewrite u32_small by lia. unfold len at 1. rewrite Nat2Z.id, Hw.
  rewrite (checksum_loop_xor l); [|intros k x Hx; rewrite Z.add_0_r; by apply H|lia|done].
  fold (xor_bytes l).
  assert (Hx : 0 <= xor_bytes l < 256).
  { unfold xor_bytes. apply foldl_lxor_range; [lia|done]. }
  pose proof (load32_range m (fd_data d + len l)) as Hr. rewrite Hw in Hr.
  destruct (Z.eqb_spec w (xor_bytes l)) as [->|Hne].
  - by rewrite s32_small, Z.eqb_refl by lia.
  - destruct (Z.eqb_spec (xor_bytes l) (s32 w)) as [E|]; [|done]. exfalso. apply Hne.
    destruct (Z.lt_ge_cases w 2147483648); [rewrite s32_small in E by lia; lia|].
    assert (s32 w < 0); [|lia]. unfold s32, swrap. change (2 ^ (32 - 1)) with 2147483648. change (2 ^ 32) with 4294967296.
    replace ((w + 2147483648) mod 4294967296) with (w - 2147483648); [lia|]. apply (Z.mod_unique _ _ 1); lia.
Qed.

(** [getReadWriteFile] asks for a writable mapping, which [memfs_mmap] always
    refuses: the portal method never returns a memory object. *)
Lemma bootfs_getReadWriteFile_throws {A : Type} `{!Allocator A} msize mstart e_str entry header alloc fuel cb cd f cache z m (s : A) r :
  bootfs_getReadWriteFile msize mstart e_str entry header alloc fuel cb cd f cache z m s <> Ok r.
Proof.
  unfold bootfs_getReadWriteFile. destruct (f =? 0); [done|]. intros H. res_inv H.
  destruct r0 as [[[[[desc fd]|] z1] m1] s1]; [|done]. res_inv H. destruct r0 as [[mem fd'] s2].
  unfold memfs_mmap in E0. by destruct (ASSERTFD fd).
Qed.

(** ** Concrete files *)

Definition name_bc : memory := store_bytes demo_dir_mem 100 [98; 99; 0].

Lemma archive_name_bc : archive name_bc z_start [] [file_a; file_bc].
Proof.
  eapply archive_frame; [apply demo_archive| |]; intros x Hx; apply load8_store_bytes_out; simpl in *; lia.
Qed.

Lemma memfs_open_finds_witness :
  exists d z' m' s'', memfs_open (fun _ => 0) (fun _ => 0) 300 2000 1000 5 1 100 [] z_start name_bc st16
    = Ok (Some (1049600, d), z', m', s'') /\ fd_size d = 0.
Proof.
  assert (Hlen : len (locals [file_a; file_bc]) = 67) by reflexivity.
  assert (Hd : len (directory [file_a; file_bc] 0) = 98) by reflexivity.
  destruct (@al_alloc _ malloc_allocator sizeof_FileDesc st16) as [[a s']|e] eqn:E; [|by vm_compute in E].
  assert (Ha : a = 1049600) by (vm_compute in E; by injection E). subst a.
  destruct (@memfs_open_finds 2000 1000 100 [98; 99] _ malloc_allocator (fun _ => 0) (fun _ => 0) 300 1 name_bc z_start [] [file_a; file_bc] 5 st16
     1049600 s' archive_name_bc) as (r & z' & m' & s'' & E' & Hr).
  - unfold bufs_ok, away. cbn [app]. rewrite Hlen, Hd. unfold len. simpl. lia.
  - split; [|by repeat constructor]. intros [|[|[|i]]] x [= <-]; reflexivity.
  - simpl. lia.
  - exact E.
  - right. cbn [app]. rewrite Hlen. simpl. lia.
  - assert (Ef : find_file ([] ++ [file_a; file_bc]) [98; 99] = Some file_bc) by reflexivity. rewrite Ef in Hr.
    destruct Hr as (data & -> & -> & _). eexists _, z', m', s'. split; [exact E'|reflexivity].
Defined.

Definition fd_demo : FileDesc := MkFd MAGIC_FD 1 4128 3 0 1 0.

Lemma memfs_readByte_contents_witness : exists d', read_bytes 5 demo_zip_mem fd_demo = Ok ([2; 3], d') /\ fd_pos d' = 3.
Proof.
  destruct (memfs_readByte_contents 5 demo_zip_mem fd_demo [1; 2; 3]) as (d' & E & _ & Hp); try reflexivity.
  - intros [|[|[|i]]] x [= <-]; reflexivity.
  - unfold len. simpl. lia.
  - simpl. lia.
  - by exists d'.
Defined.

Definition neg_len : memory := store32 (fun _ => 7) 1000 (-1).

Lemma memfs_readString_underrun_witness :
  exists m' d', memfs_readString neg_len (MkFd MAGIC_FD 0 1000 100 0 1 0) 500 80 = Ok (Some (m', d')) /\ load8 m' 499 = 0.
Proof. apply (memfs_readString_underrun neg_len (MkFd MAGIC_FD 0 1000 100 0 1 0) 500 80); simpl; try reflexivity; lia. Defined.

Lemma memfs_testChecksum_spec_witness :
  memfs_testChecksum (store_bytes (fun _ => 0) 50 [1; 2; 7; 4; 0; 0; 0]) (MkFd MAGIC_FD 0 50 7 0 1 0) = Ok 0.
Proof.
  rewrite (memfs_testChecksum_spec _ (MkFd MAGIC_FD 0 50 7 0 1 0) [1; 2; 7] 4); try reflexivity.
  - intros [|[|[|i]]] x [= <-]; reflexivity.
  - repeat apply Forall_cons_2; try apply Forall_nil_2; lia.
Defined.
