(* ===== verification/DZMemory.v ===== *)
(** * Memory objects: chunks, sharing and revocation (Interface/zero_Memory_org.c)

    A Java [Memory] object is a proxy that caches the size and the address of a
    [DZMemoryProxy], the record of a memory range shared by every domain that
    holds the object.  Ranges that come from one allocation form a doubly
    linked chunk; splitting and joining rebuild the chunk, and the allocation
    is given back when no range of the chunk is referenced any more.

    Pointers are [Z] ([NULL] is 0); the descriptors live in the store [dzs],
    the proxies in [proxies].  The block allocator is used through
    [Allocator]; the effect of running the collectors and the allocation of
    heap objects are arguments. *)

From S2P Require Import Prelude Mem CString Malloc Alloc.
#[local] Open Scope Z_scope.

Definition JNI_FALSE : Z := 0.

Record DZMemoryProxy := MkDz {
  dz_refcount : Z;
  dz_valid : Z;
  dz_mem : Z;
  dz_size : Z;
  dz_deviceMem : Z;
  dz_prev : Z;
  dz_next : Z;
  dz_prevOwner : Z;
  dz_nextOwner : Z;
}.
Definition sizeof_DZMemoryProxy : Z := 36.

Record MemoryProxy := MkProxy {
  p_vtable : Z;
  p_size : Z;
  p_mem : Z;
  p_dz : Z;
}.
Definition sizeof_MemoryProxy : Z := 24.

(** Assignments to one field. *)
Definition w_refcount (v : Z) (d : DZMemoryProxy) : DZMemoryProxy :=
  MkDz v (dz_valid d) (dz_mem d) (dz_size d) (dz_deviceMem d) (dz_prev d) (dz_next d) (dz_prevOwner d) (dz_nextOwner d).
Definition w_valid (v : Z) (d : DZMemoryProxy) : DZMemoryProxy :=
  MkDz (dz_refcount d) v (dz_mem d) (dz_size d) (dz_deviceMem d) (dz_prev d) (dz_next d) (dz_prevOwner d) (dz_nextOwner d).
Definition w_mem (v : Z) (d : DZMemoryProxy) : DZMemoryProxy :=
  MkDz (dz_refcount d) (dz_valid d) v (dz_size d) (dz_deviceMem d) (dz_prev d) (dz_next d) (dz_prevOwner d) (dz_nextOwner d).
Definition w_size (v : Z) (d : DZMemoryProxy) : DZMemoryProxy :=
  MkDz (dz_refcount d) (dz_valid d) (dz_mem d) v (dz_deviceMem d) (dz_prev d) (dz_next d) (dz_prevOwner d) (dz_nextOwner d).
Definition w_prev (v : Z) (d : DZMemoryProxy) : DZMemoryProxy :=
  MkDz (dz_refcount d) (dz_valid d) (dz_mem d) (dz_size d) (dz_deviceMem d) v (dz_next d) (dz_prevOwner d) (dz_nextOwner d).
Definition w_next (v : Z) (d : DZMemoryProxy) : DZMemoryProxy :=
  MkDz (dz_refcount d) (dz_valid d) (dz_mem d) (dz_size d) (dz_deviceMem d) (dz_prev d) v (dz_prevOwner d) (dz_nextOwner d).
Definition w_prevOwner (v : Z) (d : DZMemoryProxy) : DZMemoryProxy :=
  MkDz (dz_refcount d) (dz_valid d) (dz_mem d) (dz_size d) (dz_deviceMem d) (dz_prev d) (dz_next d) v (dz_nextOwner d).
Definition w_nextOwner (v : Z) (d : DZMemoryProxy) : DZMemoryProxy :=
  MkDz (dz_refcount d) (dz_valid d) (dz_mem d) (dz_size d) (dz_deviceMem d) (dz_prev d) (dz_next d) (dz_prevOwner d) v.

(** The store of this component, over the state [jx] of the block allocator.
    [objectBytes] is the per-domain counter [memoryObjectBytes]. *)
Record dzstate (A : Type) := MkState {
  dzs : gmap Z DZMemoryProxy;
  dzMemoryFreeList : Z;
  dzInvalid : Z;
  proxies : gmap Z MemoryProxy;
  objectBytes : gmap Z Z;
  jx : A;
}.
Arguments MkState {A} _ _ _ _ _ _.
Arguments dzs {A} _.
Arguments dzMemoryFreeList {A} _.
Arguments dzInvalid {A} _.
Arguments proxies {A} _.
Arguments objectBytes {A} _.
Arguments jx {A} _.

Section Chunks.
Context {A : Type} `{!Allocator A}.
(** [foreachDomain(dzmemory_gcdomain)]: the collectors of all domains run *)
Context (gc : dzstate A -> dzstate A).
(** [gc_allocDataInDomain]: the address of a new heap object *)
Context (gc_alloc : Z -> dzstate A -> res (Z * dzstate A)).
(** fuel for the loops over chunks and for the allocation retry loop *)
Context (fuel : nat).
Abbreviation st := (dzstate A).

Definition dz (s : st) (x : Z) : res DZMemoryProxy :=
  match dzs s !! x with Some d => Ok d | None => Err EFault end.
Definition proxy (s : st) (p : Z) : res MemoryProxy :=
  match proxies s !! p with Some m => Ok m | None => Err EFault end.
Definition set_dzs (m : gmap Z DZMemoryProxy) (s : st) : st :=
  MkState m (dzMemoryFreeList s) (dzInvalid s) (proxies s) (objectBytes s) (jx s).
Definition upd_dz (x : Z) (f : DZMemoryProxy -> DZMemoryProxy) (s : st) : st := set_dzs (alter f x (dzs s)) s.
Definition set_free (x : Z) (s : st) : st :=
  MkState (dzs s) x (dzInvalid s) (proxies s) (objectBytes s) (jx s).
Definition set_invalid (x : Z) (s : st) : st :=
  MkState (dzs s) (dzMemoryFreeList s) x (proxies s) (objectBytes s) (jx s).
Definition set_proxies (m : gmap Z MemoryProxy) (s : st) : st :=
  MkState (dzs s) (dzMemoryFreeList s) (dzInvalid s) m (objectBytes s) (jx s).
Definition set_bytes (b : gmap Z Z) (s : st) : st :=
  MkState (dzs s) (dzMemoryFreeList s) (dzInvalid s) (proxies s) b (jx s).
Definition set_jx (j : A) (s : st) : st :=
  MkState (dzs s) (dzMemoryFreeList s) (dzInvalid s) (proxies s) (objectBytes s) j.

(** ** Descriptors *)

(** [INVALIDATE_DZ] and [FREE_DZ] *)
Definition INVALIDATE_DZ (x : Z) (s : st) : st := upd_dz x (w_valid 0) s.
Definition FREE_DZ (x : Z) (s : st) : st := upd_dz x (w_mem NULL) (INVALIDATE_DZ x s).
Definition FREE_DZMEM (p : Z) (s : st) : res st := let! m := proxy s p in Ok (FREE_DZ (p_dz m) s).

(** [CHECKVALID] on a proxy *)
Definition CHECKVALID (m : MemoryProxy) (s : st) : res unit :=
  let! d := dz s (p_dz m) in
  if dz_valid d =? 0 then Err (EThrow "InvalidMemory") else Ok tt.
Definition CHECK_NULL_PTR (p : Z) : res unit :=
  if p =? NULL then Err (EThrow "NullPointerException") else Ok tt.

Definition dzmemory_collector (s : st) : res (Z * st) :=
  let s := gc s in
  let dzm := dzMemoryFreeList s in
  if dzm =? NULL then Ok (NULL, s) else
  let! d := dz s dzm in
  let s := set_free (dz_next d) s in
  let! _ := assert_ "dzm != dzMemoryFreeList" (negb (dzm =? dzMemoryFreeList s)) in
  let! _ := assert_ "dzm->refcount == 0" (dz_refcount d =? 0) in
  let! _ := assert_ "dzm->mem == 0" (dz_mem d =? 0) in
  Ok (dzm, s).

Definition leaf_alloc (dzm : Z) (s : st) : Z * st :=
  (dzm, upd_dz dzm (fun d => w_refcount 1 (w_next NULL (w_valid 0 d))) s).

(** The retry loop: without a free descriptor and without luck in the
    collector it goes round again. *)
Fixpoint dzmemory_alloc_loop (n : nat) (s : st) : res (Z * st) :=
  match n with
  | O => Err EFuel
  | S k =>
      let dzm := dzMemoryFreeList s in
      if dzm =? NULL then
        let! '(dzm, s) := dzmemory_collector s in
        if negb (dzm =? NULL) then Ok (leaf_alloc dzm s) else dzmemory_alloc_loop k s
      else
        let! d := dz s dzm in Ok (leaf_alloc dzm (set_free (dz_next d) s))
  end.
Definition dzmemory_alloc (s : st) : res (Z * st) := dzmemory_alloc_loop fuel s.

Definition dzmemory_free (dzm : Z) (s : st) : res st :=
  let! d := dz s dzm in
  let! _ := assert_ "dzm->refcount == 0" (dz_refcount d =? 0) in
  Ok (set_free dzm (upd_dz dzm (fun d => w_next (dzMemoryFreeList s) (w_valid 2 d)) s)).

(** one element of the table at initialisation; the other fields keep what
    [jxmalloc] returned *)
Definition init_dz (nextfree : Z) (d : DZMemoryProxy) : DZMemoryProxy :=
  w_next nextfree (w_prev NULL (w_mem NULL (w_valid 2 (w_refcount 0 d)))).
Fixpoint init_loop (n : nat) (dzm : Z) (junk : Z -> DZMemoryProxy) (s : st) : st :=
  match n with
  | O => s
  | S k =>
      init_loop k (dzm + sizeof_DZMemoryProxy) junk
        (set_free dzm (set_dzs (<[dzm := init_dz (dzMemoryFreeList s) (junk dzm)]> (dzs s)) s))
  end.
Definition dzmemory_init (NUMBER_DZMEM : nat) (junk : Z -> DZMemoryProxy) (s : st) : res st :=
  let! '(dzMemory, j) := al_alloc (Z.of_nat NUMBER_DZMEM * sizeof_DZMemoryProxy) (jx s) in
  let s := init_loop NUMBER_DZMEM dzMemory junk (set_free NULL (set_jx j s)) in
  let! '(inv, s) := dzmemory_alloc s in
  Ok (upd_dz inv (w_valid 0) (set_invalid inv s)).

(** ** Releasing chunks *)

(** the tail check: is a reference left from [x] on? *)
Fixpoint tail_referenced (n : nat) (x : Z) (s : st) : res bool :=
  match n with
  | O => Err EFuel
  | S k =>
      if x =? NULL then Ok false else
      let! d := dz s x in
      if negb (dz_refcount d =? 0) then Ok true else tail_referenced k (dz_next d) s
  end.

(** climb to the top of the chunk; [None] when a reference is met *)
Fixpoint find_top (n : nat) (x : Z) (s : st) : res (option Z) :=
  match n with
  | O => Err EFuel
  | S k =>
      let! d := dz s x in
      if dz_prev d =? NULL then Ok (Some x) else
      let! p := dz s (dz_prev d) in
      let! _ := assert_ "dzm->prev->next == dzm" (dz_next p =? x) in
      let! _ := assert_ "adjacent"
        ((dz_mem p =? NULL) || (dz_mem d =? NULL) || (u32 (dz_mem p + dz_size p) =? dz_mem d)) in
      if negb (dz_refcount p =? 0) then Ok None else find_top k (dz_prev d) s
  end.

(** free the elements after the top, adding their sizes to it *)
Fixpoint free_elements (n : nat) (dzm nextObj : Z) (s : st) : res st :=
  match n with
  | O => Err EFuel
  | S k =>
      if nextObj =? NULL then Ok s else
      let! d := dz s dzm in
      let! e := dz s nextObj in
      let! _ := assert_ "nextObj->refcount == 0" (dz_refcount e =? 0) in
      let! _ := assert_ "adjacent"
        ((dz_mem d =? NULL) || (dz_mem e =? NULL) || (dz_mem e =? u32 (dz_mem d + dz_size d))) in
      let s := upd_dz dzm (w_size (u32 (dz_size d + dz_size e))) s in
      let s := upd_dz nextObj (fun e => w_next NULL (w_size NULL (w_mem NULL (w_prev NULL e)))) s in
      let! s := dzmemory_free nextObj s in
      free_elements k dzm (dz_next e) s
  end.

(** the top element: give the memory back to the block allocator *)
Definition free_top (dzm : Z) (s : st) : res st :=
  let! d := dz s dzm in
  let! _ := assert_ "dzm->prev == NULL" (dz_prev d =? NULL) in
  let! _ := assert_ "dzm->next == NULL" (dz_next d =? NULL) in
  let! _ := assert_ "dzm->refcount == 0" (dz_refcount d =? 0) in
  let! s :=
    (if negb (dz_mem d =? NULL) then
       let! _ := assert_ "dzm->size > 4" (4 <? dz_size d) in
       let! j := al_free (dz_mem d) (dz_size d) (jx s) in
       Ok (upd_dz dzm (w_mem NULL) (set_jx j s))
     else Ok s) in
  dzmemory_free dzm s.

Definition dzmemory_free_chunk (dzm : Z) (s : st) : res st :=
  let! r := tail_referenced fuel dzm s in
  if r then Ok s else
  let! d := dz s dzm in
  let! _ := assert_ "dzm->refcount == 0" (dz_refcount d =? 0) in
  if negb (dz_prev d =? NULL) || negb (dz_next d =? NULL) then
    let! top := find_top fuel dzm s in
    match top with
    | None => Ok s
    | Some dzm =>
        let! d := dz s dzm in
        let! s := free_elements fuel dzm (dz_next d) s in
        free_top dzm (upd_dz dzm (w_next NULL) s)
    end
  else free_top dzm s.

(** [dzmemory_decRefcount], [dzmemory_incRefcount] *)
Definition dzmemory_decRefcount (mp : MemoryProxy) (s : st) : res st :=
  let m := p_dz mp in
  let! d := dz s m in
  let s := upd_dz m (w_refcount (u32 (dz_refcount d - 1))) s in
  if u32 (dz_refcount d - 1) =? 0 then dzmemory_free_chunk m s else Ok s.
Definition dzmemory_incRefcount (mp : MemoryProxy) (s : st) : res st :=
  let! d := dz s (p_dz mp) in
  Ok (upd_dz (p_dz mp) (w_refcount (u32 (dz_refcount d + 1))) s).
Definition memory_deleted (p : Z) (s : st) : res st :=
  let! mp := proxy s p in dzmemory_decRefcount mp s.
Definition dzmemory_alive (mp : MemoryProxy) (s : st) : res st :=
  let! d := dz s (p_dz mp) in Ok (upd_dz (p_dz mp) (w_valid (Z.land (dz_valid d) 3)) s).

(** ** Creating, splitting and joining ranges *)

Definition createDZMemory (size mem : Z) (s : st) : res (Z * st) :=
  let! '(dzm, s) := dzmemory_alloc s in
  Ok (dzm, upd_dz dzm (fun d => MkDz (dz_refcount d) 1 mem (u32 size) JNI_FALSE NULL NULL 0 0) s).

(** [if (x) x->f = ...] *)
Definition upd_if (x : Z) (f : DZMemoryProxy -> DZMemoryProxy) (s : st) : st :=
  if x =? NULL then s else upd_dz x f s.

Definition dzmemory_split3 (domain dzm offset len : Z) (s : st) : res (option (Z * Z * Z) * st) :=
  let! _ := assert_ "dzm != NULL" (negb (dzm =? NULL)) in
  let! d := dz s dzm in
  let! _ := assert_ "dzm->valid == 1" (dz_valid d =? 1) in
  let! _ := assert_ "dzm->mem != NULL" (negb (dz_mem d =? NULL)) in
  if (offset <? 0) || (len <? 0) || (dz_size d <? u32 (offset + len)) then Ok (None, s) else
  let! '(dzm0, s) := createDZMemory offset (dz_mem d) s in
  let! '(dzm1, s) := createDZMemory len (u32 (dz_mem d + offset)) s in
  let! '(dzm2, s) := createDZMemory (u32 (dz_size d - len - offset)) (u32 (dz_mem d + len + offset)) s in
  let! d := dz s dzm in
  let s := upd_if (dz_prev d) (w_next dzm0) s in
  let s := upd_dz dzm0 (fun e => w_prevOwner (dz_prevOwner d) (w_nextOwner domain (w_next dzm1 (w_prev (dz_prev d) e)))) s in
  let s := upd_dz dzm1 (fun e => w_prevOwner domain (w_nextOwner domain (w_next dzm2 (w_prev dzm0 e)))) s in
  let s := upd_dz dzm2 (fun e => w_prevOwner domain (w_nextOwner (dz_nextOwner d) (w_next (dz_next d) (w_prev dzm1 e)))) s in
  let s := upd_if (dz_next d) (w_prev dzm2) s in
  let s := upd_dz dzm (fun e => w_mem NULL (w_valid 0 (w_next NULL (w_prev NULL e)))) s in
  Ok (Some (dzm0, dzm1, dzm2), s).

Definition dzmemory_split2 (domain dzm offset : Z) (s : st) : res (option (Z * Z) * st) :=
  let! _ := assert_ "dzm != NULL" (negb (dzm =? NULL)) in
  let! d := dz s dzm in
  let! _ := assert_ "dzm->valid == 1" (dz_valid d =? 1) in
  let! _ := assert_ "dzm->mem != NULL" (negb (dz_mem d =? NULL)) in
  if (offset <? 0) || (dz_size d <? u32 offset) then Ok (None, s) else
  let! '(dzm0, s) := createDZMemory offset (dz_mem d) s in
  let! '(dzm1, s) := createDZMemory (u32 (dz_size d - offset)) (u32 (dz_mem d + offset)) s in
  let! d := dz s dzm in
  let s := upd_if (dz_prev d) (w_next dzm0) s in
  let s := upd_dz dzm0 (fun e => w_nextOwner domain (w_next dzm1 (w_prevOwner (dz_prevOwner d) (w_prev (dz_prev d) e)))) s in
  let s := upd_dz dzm1 (fun e => w_nextOwner (dz_nextOwner d) (w_next (dz_next d) (w_prevOwner domain (w_prev dzm0 e)))) s in
  let s := upd_if (dz_next d) (w_prev dzm1) s in
  let s := upd_dz dzm (fun e => w_valid 0 (w_mem NULL (w_next NULL (w_prev NULL e)))) s in
  Ok (Some (dzm0, dzm1), s).

Definition dzmemory_join (dzm1 dzm2 : Z) (s : st) : res (Z * st) :=
  let! _ := assert_ "dzm1" (negb (dzm1 =? NULL)) in
  let! _ := assert_ "dzm2" (negb (dzm2 =? NULL)) in
  let! d1 := dz s dzm1 in
  let! d2 := dz s dzm2 in
  let! _ := assert_ "dzm1->valid == 1" (dz_valid d1 =? 1) in
  let! _ := assert_ "dzm2->valid == 1" (dz_valid d2 =? 1) in
  let! _ := assert_ "dzm1->mem" (negb (dz_mem d1 =? NULL)) in
  let! _ := assert_ "dzm2->mem" (negb (dz_mem d2 =? NULL)) in
  let! _ := assert_ "dzm1->mem <= dzm2->mem" (dz_mem d1 <=? dz_mem d2) in
  let! _ := assert_ "dzm1->next == dzm2" (dz_next d1 =? dzm2) in
  let! _ := assert_ "dzm2->prev == dzm1" (dz_prev d2 =? dzm1) in
  let! '(dzm, s) := createDZMemory (u32 (dz_size d1 + dz_size d2)) (dz_mem d1) s in
  let! d1 := dz s dzm1 in
  let! d2 := dz s dzm2 in
  let s := upd_if (dz_prev d1) (w_next dzm) s in
  let s := upd_dz dzm (fun e => w_nextOwner (dz_nextOwner d2) (w_next (dz_next d2)
                        (w_prevOwner (dz_prevOwner d1) (w_prev (dz_prev d1) e)))) s in
  let s := upd_if (dz_next d2) (w_prev dzm) s in
  let s := upd_dz dzm1 (fun e => w_mem NULL (w_valid 0 (w_prev NULL e))) s in
  let s := upd_dz dzm2 (fun e => w_mem NULL (w_valid 0 (w_next NULL e))) s in
  Ok (dzm, s).

(** ** Proxies *)

Definition internalallocMemoryProxyInDomain (domain vtable dzm : Z) (s : st) : res (Z * st) :=
  let! '(obj, s) := gc_alloc domain s in
  if obj =? NULL then Err (EThrow "gc_allocDataInDomain") else
  let! d := dz s dzm in
  Ok (obj, set_proxies (<[obj := MkProxy vtable (dz_size d) (dz_mem d) dzm]> (proxies s)) s).
Definition allocMemoryProxyInDomainDZM (domain vtable dzm : Z) (s : st) : res (Z * st) :=
  internalallocMemoryProxyInDomain domain vtable dzm s.
Definition allocMemoryProxyInDomain (domain vtable start size : Z) (s : st) : res (Z * st) :=
  let! '(dzm, s) := createDZMemory size start s in
  internalallocMemoryProxyInDomain domain vtable dzm s.

(** the classes of the portal, by their vtables, and the current domain *)
Context (memoryClass readonlyMemoryClass deviceMemoryClass : Z).
Context (curdom : Z).

Definition allocReadOnlyMemory (start size : Z) (s : st) : res (Z * st) :=
  allocMemoryProxyInDomain curdom readonlyMemoryClass start size s.

(** The memory is taken with room for the alignment, cleared, and described
    from the aligned address on. *)
Definition createMemoryInstance (domain size bytes : Z) (m : memory) (s : st) : res (Z * memory * st) :=
  let! '(d, j) := al_alloc (u32 (size + bytes - 1)) (jx s) in
  let s := set_jx j s in
  let used := match objectBytes s !! domain with Some b => b | None => 0 end in
  let s := set_bytes (<[domain := u32 (used + size + bytes - 1)]> (objectBytes s)) s in
  let d := if 1 <? bytes then
             let rem := u32 d mod bytes in if 0 <? rem then u32 (d + bytes - rem) else d
           else d in
  let m := memset m d 0 size in
  let! '(p, s) := allocMemoryProxyInDomain domain memoryClass d size s in
  Ok (p, m, s).

Definition memoryManager_alloc (size : Z) (m : memory) (s : st) : res (Z * memory * st) :=
  let! _ := assert_ "domain != domainZero" (negb (curdom =? 0)) in
  createMemoryInstance curdom size 1 m s.
Definition memoryManager_allocAligned (size bytes : Z) (m : memory) (s : st) : res (Z * memory * st) :=
  let! _ := assert_ "domain != domainZero" (negb (curdom =? 0)) in
  if bytes <=? 0 then Ok (NULL, m, s) else createMemoryInstance curdom size bytes m s.
Definition memoryManager_allocDeviceMemory (start size : Z) (s : st) : res (Z * st) :=
  allocMemoryProxyInDomain curdom deviceMemoryClass start size s.

Definition nonatomic_memoryIsValid (p : Z) (s : st) : res bool :=
  let! m := proxy s p in let! d := dz s (p_dz m) in Ok (dz_valid d =? 1).
Definition nonatomic_memoryGetMem (p : Z) (s : st) : res Z := let! m := proxy s p in Ok (p_mem m).
Definition nonatomic_memoryGetSize (p : Z) (s : st) : res Z := let! m := proxy s p in Ok (p_size m).
Definition nonatomic_memoryGetValid (p : Z) (s : st) : res Z :=
  let! m := proxy s p in let! d := dz s (p_dz m) in Ok (dz_valid d).

(** [while ((dz->prevOwner == cdom->id) && (dz = dz->prev)) INVALIDATE_DZ(dz)]
    and its mirror image *)
Fixpoint invalidate_prev (n : nat) (x : Z) (s : st) : res st :=
  match n with
  | O => Err EFuel
  | S k =>
      let! d := dz s x in
      if (dz_prevOwner d =? curdom) && negb (dz_prev d =? NULL) then
        let! _ := dz s (dz_prev d) in invalidate_prev k (dz_prev d) (INVALIDATE_DZ (dz_prev d) s)
      else Ok s
  end.
Fixpoint invalidate_next (n : nat) (x : Z) (s : st) : res st :=
  match n with
  | O => Err EFuel
  | S k =>
      let! d := dz s x in
      if (dz_nextOwner d =? curdom) && negb (dz_next d =? NULL) then
        let! _ := dz s (dz_next d) in invalidate_next k (dz_next d) (INVALIDATE_DZ (dz_next d) s)
      else Ok s
  end.
Definition nonatomic_memorySetValid (p v : Z) (s : st) : res st :=
  let! m := proxy s p in
  if v =? 0 then
    let! s := invalidate_prev fuel (p_dz m) s in
    let! s := invalidate_next fuel (p_dz m) s in
    Ok (INVALIDATE_DZ (p_dz m) s)
  else Ok (upd_dz (p_dz m) (w_valid v) s).

(** ** The portal operations on ranges *)

(** [dzm0] and [dzm2] are descriptors, not proxies: [dzmemory_decRefcount]
    reads its argument as a [MemoryProxy], whose field [dz] lies where the
    descriptor has its [size]. *)
Definition dz_as_proxy (d : DZMemoryProxy) : MemoryProxy :=
  MkProxy (dz_refcount d) (dz_valid d) (dz_mem d) (dz_size d).
Definition decRefcount_of_dz (x : Z) (s : st) : res st :=
  let! d := dz s x in dzmemory_decRefcount (dz_as_proxy d) s.

Definition memory_getSubRange (self offset len : Z) (s : st) : res (Z * st) :=
  let! _ := CHECK_NULL_PTR self in
  let! m := proxy s self in
  let! _ := CHECKVALID m s in
  let! d := dz s (p_dz m) in
  let! _ := assert_ "self->size == self->dz->size" (p_size m =? dz_size d) in
  let! _ := assert_ "self->mem == self->dz->mem" (p_mem m =? dz_mem d) in
  let! '(dzm1, s) :=
    (if u32 (offset + len) =? dz_size d then
       let! '(r, s) := dzmemory_split2 curdom (p_dz m) offset s in
       match r with
       | None => Err (EThrow "MemoryIndexOutOfBounds")
       | Some (dzm0, dzm1) => let! s := decRefcount_of_dz dzm0 s in Ok (dzm1, s)
       end
     else
       let! '(r, s) := dzmemory_split3 curdom (p_dz m) offset len s in
       match r with
       | None => Err (EThrow "MemoryIndexOutOfBounds")
       | Some (dzm0, dzm1, dzm2) =>
           let! s := decRefcount_of_dz dzm0 s in
           let! s := decRefcount_of_dz dzm2 s in Ok (dzm1, s)
       end) in
  let! s := FREE_DZMEM self s in
  allocMemoryProxyInDomainDZM curdom memoryClass dzm1 s.

(** [arr] is the size of the result array, [None] for a null array; the result
    is what the first elements of the array hold afterwards. *)
Definition memory_split2 (self offset : Z) (arr : option Z) (s : st) : res (Z * Z * st) :=
  let! _ := CHECK_NULL_PTR self in
  let! m := proxy s self in
  let! _ := CHECKVALID m s in
  if match arr with None => true | Some n => n <? 2 end then Err (EThrow "ArrayIndexOutOfBounds") else
  let! '(r, s) := dzmemory_split2 curdom (p_dz m) offset s in
  match r with
  | None => Err (EThrow "MemoryIndexOutOfBounds")
  | Some (dzm0, dzm1) =>
      let! '(mem0, s) := allocMemoryProxyInDomainDZM curdom memoryClass dzm0 s in
      let! '(mem1, s) := allocMemoryProxyInDomainDZM curdom memoryClass dzm1 s in
      let! s := FREE_DZMEM self s in
      Ok (mem0, mem1, s)
  end.

Definition memory_split3 (self offset len : Z) (arr : option Z) (s : st) : res (Z * Z * Z * st) :=
  let! _ := CHECK_NULL_PTR self in
  let! m := proxy s self in
  let! _ := CHECKVALID m s in
  if match arr with None => true | Some n => n <? 3 end then Err (EThrow "ArrayIndexOutOfBounds") else
  let! d := dz s (p_dz m) in
  let! _ := assert_ "self->size == self->dz->size" (p_size m =? dz_size d) in
  let! _ := assert_ "self->mem == self->dz->mem" (p_mem m =? dz_mem d) in
  let! '(r, s) := dzmemory_split3 curdom (p_dz m) offset len s in
  match r with
  | None => Err (EThrow "MemoryIndexOutOfBounds")
  | Some (dzm0, dzm1, dzm2) =>
      let! '(mem0, s) := allocMemoryProxyInDomainDZM curdom memoryClass dzm0 s in
      let! '(mem1, s) := allocMemoryProxyInDomainDZM curdom memoryClass dzm1 s in
      let! '(mem2, s) := allocMemoryProxyInDomainDZM curdom memoryClass dzm2 s in
      let! s := FREE_DZMEM self s in
      Ok (mem0, mem1, mem2, s)
  end.

Definition memory_joinPrevious (self : Z) (s : st) : res (Z * st) :=
  let! _ := CHECK_NULL_PTR self in
  let! m := proxy s self in
  let! _ := CHECKVALID m s in
  let dzmThis := p_dz m in
  if dzmThis =? NULL then Err (EPanic "join: NO DZ") else
  let! d := dz s dzmThis in
  if negb (dz_prevOwner d =? curdom) then Err (EPanic "join not allowed") else
  let dzmPrev := dz_prev d in
  if dzmPrev =? NULL then Err (EPanic "join: NO prev") else
  let! '(dzmNew, s) := dzmemory_join dzmPrev dzmThis s in
  allocMemoryProxyInDomainDZM curdom memoryClass dzmNew (FREE_DZ dzmThis (FREE_DZ dzmPrev s)).

(** [NULL] when the neighbour is not ours *)
Definition memory_joinNext (self : Z) (s : st) : res (Z * st) :=
  let! _ := CHECK_NULL_PTR self in
  let! m := proxy s self in
  let! _ := CHECKVALID m s in
  let dzmThis := p_dz m in
  if dzmThis =? NULL then Err (EPanic "join: NO DZ") else
  let! d := dz s dzmThis in
  if negb (dz_nextOwner d =? curdom) then Ok (NULL, s) else
  let dzmNext := dz_next d in
  if dzmNext =? NULL then Err (EPanic "join: NO next") else
  let! '(dzmNew, s) := dzmemory_join dzmThis dzmNext s in
  allocMemoryProxyInDomainDZM curdom memoryClass dzmNew (FREE_DZ dzmThis (FREE_DZ dzmNext s)).

(** the top of the part of the chunk that the domain may join *)
Fixpoint join_top (n : nat) (x : Z) (s : st) : res Z :=
  match n with
  | O => Err EFuel
  | S k =>
      let! d := dz s x in
      if negb (dz_prev d =? NULL) && (dz_prevOwner d =? curdom) then
        let! p := dz s (dz_prev d) in
        let! _ := assert_ "dzmTop->prev->valid == 1" (dz_valid p =? 1) in
        let! _ := assert_ "adjacent" (dz_mem p =? u32 (dz_mem d - dz_size p)) in
        join_top k (dz_prev d) s
      else Ok x
  end.

(** the [do ... while] that releases the old ranges; the last range ([NULL]
    when the chunk ended) and the total size *)
Fixpoint join_rest (n : nat) (x size : Z) (s : st) : res (Z * Z * st) :=
  match n with
  | O => Err EFuel
  | S k =>
      let! d := dz s x in
      let! _ := assert_ "dzmLast->valid == 1" (dz_valid d =? 1) in
      let! _ :=
        (if dz_next d =? NULL then Ok tt else
         let! e := dz s (dz_next d) in
         let! _ := assert_ "dzmLast->next->prev == dzmLast" (dz_prev e =? x) in
         assert_ "adjacent" (u32 (dz_mem d + dz_size d) =? dz_mem e)) in
      let size := u32 (size + dz_size d) in
      let s := FREE_DZ x s in
      if dz_nextOwner d =? curdom then
        if dz_next d =? NULL then Ok (NULL, size, s) else join_rest k (dz_next d) size s
      else Ok (x, size, s)
  end.

Definition memory_joinAll (self : Z) (s : st) : res (Z * st) :=
  let! _ := CHECK_NULL_PTR self in
  let! m := proxy s self in
  let! _ := CHECKVALID m s in
  let dzmRef := p_dz m in
  if dzmRef =? NULL then Err (EPanic "joinAll: no dz") else
  let! dzmTop := join_top fuel dzmRef s in
  let! t := dz s dzmTop in
  let mem := dz_mem t in
  let! '(dzmLast, size, s) := join_rest fuel dzmTop 0 s in
  let! '(dzmNew, s) := createDZMemory size mem s in
  let! n := dz s dzmNew in
  let! _ := assert_ "dzmNew->mem" (negb (dz_mem n =? NULL)) in
  let! t := dz s dzmTop in
  let s := upd_if (dz_prev t) (w_next dzmNew) s in
  let s := upd_dz dzmNew (fun e => w_prevOwner (dz_prevOwner t) (w_prev (dz_prev t) e)) s in
  let s := upd_dz dzmTop (w_prev NULL) s in
  let! s :=
    (if negb (dzmLast =? NULL) then
       let! l := dz s dzmLast in
       let s := upd_dz dzmNew (fun e => w_nextOwner (dz_nextOwner l) (w_next (dz_next l) e)) s in
       let s := upd_if (dz_next l) (w_prev dzmNew) s in
       Ok (upd_dz dzmLast (w_next NULL) s)
     else Ok (upd_dz dzmNew (fun e => w_nextOwner curdom (w_next NULL e)) s)) in
  allocMemoryProxyInDomainDZM curdom memoryClass dzmNew s.

(** ** Revocation

    The loops of [memory_revoke] replace every range of the chunk that the
    domain owns by a fresh one.  [cur] is the variable [dzmCurNew], which the
    code does not initialise. *)

Fixpoint revoke_prev (n : nat) (dzmCurOld dzmLastNew cur : Z) (s : st) : res (Z * Z * st) :=
  match n with
  | O => Err EFuel
  | S k =>
      let! d := dz s dzmCurOld in
      if negb (dz_prevOwner d =? curdom) then Ok (dzmCurOld, cur, s)
      else if dz_prev d =? NULL then Ok (NULL, cur, s)
      else
        let old := dz_prev d in
        let! e := dz s old in
        let! '(new, s) := createDZMemory (dz_size e) (dz_mem e) s in
        let s := upd_dz new (fun e => w_nextOwner curdom (w_next dzmLastNew e)) s in
        let s := upd_dz dzmLastNew (fun e => w_prevOwner curdom (w_prev new e)) s in
        let s := upd_dz old (fun e => w_mem NULL (w_valid 0 e)) s in
        revoke_prev k old new new s
  end.

Fixpoint revoke_next (n : nat) (dzmCurOld dzmLastNew cur : Z) (s : st) : res (Z * Z * st) :=
  match n with
  | O => Err EFuel
  | S k =>
      let! d := dz s dzmCurOld in
      if negb (dz_nextOwner d =? curdom) then Ok (dzmCurOld, cur, s)
      else if dz_next d =? NULL then Ok (NULL, cur, s)
      else
        let old := dz_next d in
        let! e := dz s old in
        let! '(new, s) := createDZMemory (dz_size e) (dz_mem e) s in
        let! _ := assert_ "dzmCurNew != dzmLastNew" (negb (new =? dzmLastNew)) in
        let s := upd_dz new (fun e => w_prevOwner curdom (w_prev dzmLastNew e)) s in
        let s := upd_dz dzmLastNew (fun e => w_nextOwner curdom (w_next new e)) s in
        let s := upd_dz old (fun e => w_mem NULL (w_valid 0 e)) s in
        revoke_next k old new new s
  end.

Definition memory_revoke (junk self : Z) (s : st) : res (Z * st) :=
  let! m := proxy s self in
  let! _ := CHECKVALID m s in
  let dzmOldThis := p_dz m in
  let! _ := assert_ "dzmOldThis" (negb (dzmOldThis =? NULL)) in
  let! '(dzmNewThis, s) := createDZMemory (p_size m) (p_mem m) s in
  let! '(dzmCurOld, cur, s) := revoke_prev fuel dzmOldThis dzmNewThis junk s in
  let! s :=
    (if dzmCurOld =? NULL then Ok s else
     let! d := dz s dzmCurOld in
     if dz_prev d =? NULL then Ok s else
     let! _ := dz s cur in
     let s := upd_dz (dz_prev d) (w_next cur) s in
     Ok (upd_dz cur (fun e => w_prevOwner (dz_prevOwner d) (w_prev (dz_prev d) e)) s)) in
  let! '(dzmCurOld, cur, s) := revoke_next fuel dzmOldThis dzmNewThis cur s in
  let! s :=
    (if dzmCurOld =? NULL then Ok s else
     let! d := dz s dzmCurOld in
     if dz_next d =? NULL then Ok s else
     let! _ := dz s cur in
     let s := upd_dz (dz_next d) (w_prev cur) s in
     Ok (upd_dz cur (fun e => w_nextOwner (dz_nextOwner d) (w_next (dz_next d) e)) s)) in
  let! '(memoryInstance, s) := allocMemoryProxyInDomainDZM curdom memoryClass dzmNewThis s in
  let! s := FREE_DZMEM self s in
  let! v := nonatomic_memoryIsValid self s in
  let! _ := assert_ "!ISVALID(selfHandle)" (negb v) in
  Ok (memoryInstance, s).

(** ** Copies *)

Definition OBJSIZE_MEMORY : Z := 8.

(** Passing a memory object to another domain: a new proxy that shares the
    descriptor.  [quota] is in words. *)
Definition copy_memory (src dst obj quota : Z) (s : st) : res (Z * Z * st) :=
  if obj =? NULL then Ok (NULL, quota, s)
  else if src =? dst then Ok (obj, quota, s)
  else if quota <? OBJSIZE_MEMORY then Err (EPanic "")
  else
    let! m := proxy s obj in
    let! '(o, s) := allocMemoryProxyInDomainDZM dst (p_vtable m) (p_dz m) s in
    let! _ := assert_ "o->dz != NULL" (negb (p_dz m =? NULL)) in
    let! d := dz s (p_dz m) in
    Ok (o, quota - OBJSIZE_MEMORY, upd_dz (p_dz m) (w_refcount (u32 (dz_refcount d + 1))) s).

Definition memory_copy_intradomain (dstObj srcObj : Z) (s : st) : res st :=
  let! m := proxy s srcObj in
  let! _ := assert_ "dstObj->dz != NULL" (negb (p_dz m =? NULL)) in
  let! d := dz s (p_dz m) in
  let! _ := assert_ "dstObj->dz->refcount > 0" (0 <? dz_refcount d) in
  Ok (set_proxies (<[dstObj := m]> (proxies s)) s).
End Chunks.
