(* ===== verification/DZChunks.v ===== *)
(** * Theory of linked memory chunks

    Doubly linked segments of descriptors, the regions they cover, the
    representation invariant [dz_rep] of the descriptor store (chunks in use
    plus free list), and the behaviour of allocation and of
    [dzmemory_free_chunk] in its terms.  [splice_rep] is the common step of
    splitting and joining. *)

From S2P Require Import Prelude Mem CString Malloc Alloc DZMemory.
#[local] Open Scope Z_scope.

(** ** Linked chunks

    [seg m p l n]: the descriptors [l] are linked in this order, the first one
    back to [p] and the last one on to [n]. *)
Fixpoint seg (m : gmap Z DZMemoryProxy) (p : Z) (l : list Z) (n : Z) : Prop :=
  match l with
  | [] => True
  | x :: r => exists d, m !! x = Some d /\ dz_prev d = p /\ dz_next d = hd n r /\ seg m x r n
  end.

Definition lastz (p : Z) (l : list Z) : Z := List.last l p.

(** the ranges of a list of descriptors *)
Definition range (m : gmap Z DZMemoryProxy) (x : Z) : Z * Z :=
  match m !! x with Some d => (dz_mem d, dz_size d) | None => (0, 0) end.
Definition refs (m : gmap Z DZMemoryProxy) (x : Z) : Z :=
  match m !! x with Some d => dz_refcount d | None => 0 end.

Fixpoint contig (a : Z) (rs : list (Z * Z)) : Prop :=
  match rs with
  | [] => a <= 4294967295
  | (b, n) :: r => b = a /\ 0 <= n /\ contig (a + n) r
  end.
Fixpoint total (rs : list (Z * Z)) : Z :=
  match rs with [] => 0 | (_, n) :: r => n + total r end.

(** A chunk in use covers one region without gaps; a chunk that was split or
    joined away has lost its addresses. *)
Definition live (m : gmap Z DZMemoryProxy) (a : Z) (l : list Z) : Prop := 0 < a /\ contig a (range m <$> l).
Definition dead (m : gmap Z DZMemoryProxy) (l : list Z) : Prop := Forall (fun x => fst (range m x) = 0) l.
Definition chunk_ok (m : gmap Z DZMemoryProxy) (l : list Z) : Prop :=
  l <> [] /\ seg m NULL l NULL /\ ((exists a, live m a l) \/ dead m l).

(** the free list *)
Fixpoint free_ok (m : gmap Z DZMemoryProxy) (h : Z) (l : list Z) : Prop :=
  match l with
  | [] => h = NULL
  | x :: r => h = x /\ exists d, m !! x = Some d /\ dz_refcount d = 0 /\ dz_valid d = 2 /\
                                 dz_mem d = NULL /\ dz_prev d = NULL /\ free_ok m (dz_next d) r
  end.

(** The store consists of the chunks [cs] and the free list [fl]. *)
Record dz_rep {A} (s : dzstate A) (cs : list (list Z)) (fl : list Z) : Prop := {
  rep_nodup : NoDup (concat cs ++ fl);
  rep_null : NULL ∉ concat cs ++ fl;
  rep_chunks : Forall (chunk_ok (dzs s)) cs;
  rep_free : free_ok (dzs s) (dzMemoryFreeList s) fl;
}.

(** ** Frame and splice lemmas *)

Lemma hd_app n (l1 l2 : list Z) : hd n (l1 ++ l2) = hd (hd n l2) l1.
Proof. by destruct l1. Qed.

Lemma seg_app m p l1 l2 n : seg m p (l1 ++ l2) n <-> seg m p l1 (hd n l2) /\ seg m (lastz p l1) l2 n.
Proof.
  revert p. induction l1 as [|x l1 IH]; intros p; [simpl; tauto|].
  cbn [app seg]. assert (El : lastz p (x :: l1) = lastz x l1).
  { unfold lastz. destruct l1 as [|y l1]; [done|].
    clear. revert y. induction l1 as [|z l1 IH]; intros y; [done|]. apply (IH z). }
  rewrite El. split.
  - intros (d & Hd & Hp & Hn & H). apply IH in H as [? ?]. rewrite hd_app in Hn. eauto 10.
  - intros [(d & Hd & Hp & Hn & H) ?]. exists d. rewrite hd_app. repeat split; try done. by apply IH.
Qed.

Lemma seg_ext m m' p l n :
  (forall x, x ∈ l -> (fun d => (dz_prev d, dz_next d)) <$> m' !! x = (fun d => (dz_prev d, dz_next d)) <$> m !! x) ->
  seg m p l n -> seg m' p l n.
Proof.
  revert p. induction l as [|x l IH]; intros p Heq; [done|].
  intros (d & Hd & Hp & Hn & H). pose proof (Heq x ltac:(left)) as E. rewrite Hd in E. simpl in E.
  destruct (m' !! x) as [d'|] eqn:Ed; [|done]. simpl in E. injection E as E1 E2.
  exists d'. rewrite E1, E2. repeat split; try done. apply IH; [|done]. intros y Hy. apply Heq. by right.
Qed.

Lemma seg_alter f x m p l n : x ∉ l -> seg m p l n -> seg (alter f x m) p l n.
Proof. intros Hx. apply seg_ext. intros y Hy. rewrite lookup_alter_ne; [done|congruence]. Qed.

Lemma seg_insert d x m p l n : x ∉ l -> seg m p l n -> seg (<[x:=d]> m) p l n.
Proof. intros Hx. apply seg_ext. intros y Hy. rewrite lookup_insert_ne; [done|congruence]. Qed.

(** updates that leave both links alone *)
Lemma seg_alter_links f x m p l n :
  (forall d, dz_prev (f d) = dz_prev d /\ dz_next (f d) = dz_next d) ->
  seg m p l n -> seg (alter f x m) p l n.
Proof.
  intros Hf. apply seg_ext. intros y _. destruct (decide (x = y)) as [->|].
  - rewrite lookup_alter_eq. destruct (m !! y); simpl; [|done]. by destruct (Hf d) as [-> ->].
  - by rewrite lookup_alter_ne.
Qed.

(** redirect the last descriptor of a segment *)
Lemma seg_retarget_end m p l n n' :
  NoDup l -> seg m p l n -> seg (if decide (l = []) then m else alter (w_next n') (lastz p l) m) p l n'.
Proof.
  intros Hnd. destruct l as [|x l _] using rev_ind; [done|].
  rewrite decide_False by (by destruct l). apply NoDup_app in Hnd as (_ & Hx & _).
  unfold lastz. rewrite List.last_last. rewrite !seg_app. simpl. intros [H1 (d & Hd & Hp & Hn & _)]. split.
  - apply seg_alter; [|done]. intros Hin. apply (Hx x Hin). left.
  - exists (w_next n' d). rewrite lookup_alter_eq, Hd. done.
Qed.

(** redirect the first descriptor of a segment *)
Lemma seg_retarget_start m p p' x l n :
  NoDup (x :: l) -> seg m p (x :: l) n -> seg (alter (w_prev p') x m) p' (x :: l) n.
Proof.
  intros [Hx _]%NoDup_cons (d & Hd & Hp & Hn & H). exists (w_prev p' d). rewrite lookup_alter_eq, Hd.
  repeat split; try done. by apply seg_alter.
Qed.

Lemma range_alter f x m y :
  (forall d, dz_mem (f d) = dz_mem d /\ dz_size (f d) = dz_size d) -> range (alter f x m) y = range m y.
Proof.
  intros Hf. unfold range. destruct (decide (x = y)) as [->|].
  - rewrite lookup_alter_eq. destruct (m !! y); simpl; [|done]. by destruct (Hf d) as [-> ->].
  - by rewrite lookup_alter_ne.
Qed.
Lemma range_alter_ne f x m y : x <> y -> range (alter f x m) y = range m y.
Proof. intros. unfold range. by rewrite lookup_alter_ne. Qed.
Lemma range_insert_ne d x m y : x <> y -> range (<[x:=d]> m) y = range m y.
Proof. intros. unfold range. by rewrite lookup_insert_ne. Qed.

Lemma chunk_ok_ext m m' l :
  (forall x, x ∈ l -> exists d d', m !! x = Some d /\ m' !! x = Some d' /\ dz_prev d' = dz_prev d /\
     dz_next d' = dz_next d /\ dz_mem d' = dz_mem d /\ dz_size d' = dz_size d) ->
  chunk_ok m l -> chunk_ok m' l.
Proof.
  intros Heq (Hne & Hseg & Hr).
  assert (Er : forall x, x ∈ l -> range m' x = range m x).
  { intros x Hx. destruct (Heq x Hx) as (d & d' & E & E' & _ & _ & E1 & E2).
    unfold range. rewrite E, E'. congruence. }
  split; [done|]. split.
  - eapply seg_ext; [|done]. intros x Hx. destruct (Heq x Hx) as (d & d' & E & E' & E1 & E2 & _).
    rewrite E, E'. simpl. congruence.
  - destruct Hr as [(a & Ha & Hc)|Hd]; [left; exists a; split; [done|]|right].
    + replace (range m' <$> l) with (range m <$> l); [done|].
      apply list_fmap_ext. intros i x Hx. symmetry. apply Er. by eapply list_elem_of_lookup_2.
    + unfold dead in *. rewrite Forall_forall in *. intros x Hx. rewrite Er; auto.
Qed.

Lemma seg_dom m p l n x : seg m p l n -> x ∈ l -> is_Some (m !! x).
Proof.
  revert p. induction l as [|y l IH]; intros p H Hx; [by apply not_elem_of_nil in Hx|].
  destruct H as (d & Hd & _ & _ & H). apply elem_of_cons in Hx as [->|Hx]; eauto.
Qed.

Lemma chunk_ok_agree m m' l : (forall x, x ∈ l -> m' !! x = m !! x) -> chunk_ok m l -> chunk_ok m' l.
Proof.
  intros Heq Hc. eapply chunk_ok_ext; [|done]. intros x Hx.
  destruct Hc as (_ & Hs & _). destruct (seg_dom _ _ _ _ _ Hs Hx) as [d Hd].
  exists d, d. rewrite (Heq x Hx). done.
Qed.

Lemma chunks_agree m m' cs :
  (forall x, x ∈ concat cs -> m' !! x = m !! x) -> Forall (chunk_ok m) cs -> Forall (chunk_ok m') cs.
Proof.
  intros Heq. rewrite !Forall_forall. intros H l Hl. apply (chunk_ok_agree m); [|by apply H].
  intros x Hx. apply Heq. apply list_elem_of_In, in_concat. exists l. by rewrite <- !list_elem_of_In.
Qed.

Lemma free_ok_agree m m' h l : (forall x, x ∈ l -> m' !! x = m !! x) -> free_ok m h l -> free_ok m' h l.
Proof.
  revert h. induction l as [|x l IH]; intros h Heq; [done|].
  intros (-> & d & Hd & Hr & Hv & Hm & Hp & H). split; [done|]. exists d.
  rewrite Heq by left. repeat split; try done. apply IH; [|done]. intros y Hy. apply Heq. by right.
Qed.

(** The representation does not depend on the order of the chunks. *)
Lemma concat_perm (cs cs' : list (list Z)) : cs ≡ₚ cs' -> concat cs ≡ₚ concat cs'.
Proof.
  induction 1; simpl; [done| |by rewrite !(assoc_L (++)), (Permutation_app_comm x y)|by etrans].
  by apply Permutation_app.
Qed.
Lemma dz_rep_perm {A} (s : dzstate A) cs cs' fl : cs ≡ₚ cs' -> dz_rep s cs fl -> dz_rep s cs' fl.
Proof.
  intros Hp [H1 H2 H3 H4]. pose proof (concat_perm _ _ Hp) as Hc.
  split; [by rewrite <- Hc|by rewrite <- Hc|by rewrite <- Hp|done].
Qed.

(** [pick]: turns [NoDup] of concatenations into disjointness facts. *)
Lemma nodup_app3 (l : list Z) cs fl : NoDup (concat (l :: cs) ++ fl) ->
  NoDup l /\ NoDup (concat cs ++ fl) /\ (forall x, x ∈ l -> x ∉ concat cs) /\ (forall x, x ∈ l -> x ∉ fl).
Proof.
  simpl. rewrite <- app_assoc. intros (H1 & H2 & H3)%NoDup_app. split_and!; try done.
  - intros x Hx Hx'. apply (H2 x Hx). set_solver.
  - intros x Hx Hx'. apply (H2 x Hx). set_solver.
Qed.

Section Ops.
Context {A : Type} `{!Allocator A}.
Context (gc : dzstate A -> dzstate A).
Context (gc_alloc : Z -> dzstate A -> res (Z * dzstate A)).

Lemma dz_some (s : dzstate A) x d : dzs s !! x = Some d -> dz s x = Ok d.
Proof. unfold dz. by intros ->. Qed.

(** With a free descriptor, allocation takes the first one. *)
Lemma dzmemory_alloc_spec fuel (s : dzstate A) cs x fl :
  dz_rep s cs (x :: fl) ->
  exists d, dzs s !! x = Some d /\
  dzmemory_alloc gc (S fuel) s =
    Ok (x, set_dzs (<[x := MkDz 1 0 NULL (dz_size d) (dz_deviceMem d) NULL NULL (dz_prevOwner d) (dz_nextOwner d)]> (dzs s))
             (set_free (dz_next d) s)) /\
  free_ok (dzs s) (dz_next d) fl.
Proof.
  intros [_ Hnull _ Hf]. destruct Hf as (Eh & d & Hd & Hr & Hv & Hm & Hp & Hf).
  exists d. split_and!; try done.
  unfold dzmemory_alloc. cbn [dzmemory_alloc_loop]. rewrite Eh.
  assert (x <> NULL) by (intros ->; apply Hnull; set_solver).
  rewrite (proj2 (Z.eqb_neq _ _)) by done. rewrite (dz_some _ _ _ Hd). simpl. unfold leaf_alloc. do 2 f_equal.
  unfold upd_dz, set_dzs, set_free. simpl. f_equal. rewrite (alter_alt_Some _ _ _ _ Hd). unfold w_refcount, w_next, w_valid. simpl. by rewrite Hm, Hp.
Qed.
End Ops.

(** ** Releasing a chunk *)

Lemma lastz_cons p x l : lastz p (x :: l) = lastz x l.
Proof.
  unfold lastz. destruct l as [|y l]; [done|]. clear. revert y.
  induction l as [|z l IH]; intros y; [done|]. apply (IH z).
Qed.

Lemma seg_mid m p l1 x l2 n :
  seg m p (l1 ++ x :: l2) n ->
  exists d, m !! x = Some d /\ dz_prev d = lastz p l1 /\ dz_next d = hd n l2 /\
    seg m p l1 x /\ seg m x l2 n.
Proof. rewrite seg_app. simpl. intros [H1 (d & ? & ? & ? & ?)]. eauto 10. Qed.

Definition any_ref (m : gmap Z DZMemoryProxy) (l : list Z) : bool := existsb (fun x => negb (refs m x =? 0)) l.

Lemma any_ref_cons m x l : any_ref m (x :: l) = negb (refs m x =? 0) || any_ref m l.
Proof. done. Qed.
Lemma any_ref_app m l1 l2 : any_ref m (l1 ++ l2) = any_ref m l1 || any_ref m l2.
Proof. apply existsb_app. Qed.
Lemma any_ref_agree m m' l : (forall x, x ∈ l -> m' !! x = m !! x) -> any_ref m' l = any_ref m l.
Proof.
  induction l as [|x l IH]; intros H; [done|]. rewrite !any_ref_cons, IH by (intros; apply H; by right).
  unfold refs. by rewrite H by left.
Qed.

Lemma refs_some m x d : m !! x = Some d -> refs m x = dz_refcount d.
Proof. unfold refs. by intros ->. Qed.
Lemma range_some m x d : m !! x = Some d -> range m x = (dz_mem d, dz_size d).
Proof. unfold range. by intros ->. Qed.
Lemma ranges_agree m m' (l : list Z) : (forall x, x ∈ l -> m' !! x = m !! x) -> range m' <$> l = range m <$> l.
Proof.
  intros H. apply list_fmap_ext. intros i x Hx%list_elem_of_lookup_2. unfold range. by rewrite H.
Qed.

Lemma contig_total a l : contig a l -> 0 <= a -> 0 <= total l /\ a + total l <= 4294967295.
Proof.
  revert a. induction l as [|[b n] l IH]; intros a; simpl; [lia|].
  intros (-> & Hn & H) Ha. destruct (IH _ H ltac:(lia)). lia.
Qed.
Lemma contig_le a l : contig a l -> a <= 4294967295.
Proof. revert a. induction l as [|[c k] l IH]; intros b; simpl; [done|]. intros (_ & ? & ?%IH). lia. Qed.

Lemma contig_app a l1 l2 : contig a (l1 ++ l2) <-> contig a l1 /\ contig (a + total l1) l2.
Proof.
  revert a. induction l1 as [|[b n] l1 IH]; intros a; simpl.
  - rewrite Z.add_0_r. split; [|tauto]. intros H. split; [by eapply contig_le|done].
  - rewrite IH, Z.add_assoc. tauto.
Qed.
Lemma total_app l1 l2 : total (l1 ++ l2) = total l1 + total l2.
Proof. induction l1 as [|[b n] l1 IH]; simpl; lia. Qed.


Section Release.
Context {A : Type} `{!Allocator A}.

Lemma tail_referenced_spec n p x l (s : dzstate A) :
  seg (dzs s) p (x :: l) NULL -> NULL ∉ x :: l -> (length (x :: l) < n)%nat ->
  tail_referenced n x s = Ok (any_ref (dzs s) (x :: l)).
Proof.
  revert p x n. induction l as [|y l IH]; intros p x n Hs Hn Hl;
    destruct Hs as (d & Hd & _ & Hnx & Hs); (destruct n as [|n]; [simpl in Hl; lia|]); cbn [tail_referenced];
    rewrite (proj2 (Z.eqb_neq x NULL)) by set_solver; rewrite (dz_some _ _ _ Hd); simpl rbind;
    rewrite any_ref_cons, (refs_some _ _ _ Hd), Hnx; (destruct (dz_refcount d =? 0); simpl negb; [|done]).
  - destruct n as [|n]; [simpl in Hl; lia|]. done.
  - cbn [hd orb]. apply (IH x); [done|set_solver|simpl in *; lia].
Qed.

(** adjacency of neighbours, as the assertions test it *)
Definition adjacent (d e : DZMemoryProxy) : Prop :=
  dz_mem d = NULL \/ dz_mem e = NULL \/ u32 (dz_mem d + dz_size d) = dz_mem e.

Lemma chunk_adjacent m l1 x y l2 dx dy :
  (exists a, live m a (l1 ++ x :: y :: l2)) \/ dead m (l1 ++ x :: y :: l2) ->
  m !! x = Some dx -> m !! y = Some dy -> adjacent dx dy.
Proof.
  intros [(a & Ha & Hc)|Hd] Hx Hy.
  - rewrite fmap_app, !fmap_cons in Hc. apply contig_app in Hc as [Hc1 Hc].
    apply contig_total in Hc1; [|lia]. rewrite (range_some _ _ _ Hx), (range_some _ _ _ Hy) in Hc. simpl in Hc.
    destruct Hc as (Em & Hn & Em' & Hn' & Hc). right. right.
    apply contig_total in Hc; [|lia]. rewrite u32_small; lia.
  - left. unfold dead in Hd. rewrite Forall_forall in Hd. specialize (Hd x ltac:(set_solver)).
    by rewrite (range_some _ _ _ Hx) in Hd.
Qed.

Lemma find_top_spec n l1 x l2 (s : dzstate A) :
  seg (dzs s) NULL (l1 ++ x :: l2) NULL -> NULL ∉ l1 ->
  (exists a, live (dzs s) a (l1 ++ x :: l2)) \/ dead (dzs s) (l1 ++ x :: l2) ->
  (length l1 < n)%nat ->
  find_top n x s = Ok (if any_ref (dzs s) l1 then None else Some (hd x l1)).
Proof.
  revert n x l2. induction l1 as [|y l1 IH] using rev_ind; intros n x l2 Hs Hn Hr Hl;
    (destruct n as [|n]; [lia|]); cbn [find_top]; destruct (seg_mid _ _ _ _ _ _ Hs) as (d & Hd & Hp & _ & _ & _);
    rewrite (dz_some _ _ _ Hd); simpl rbind; rewrite Hp.
  - done.
  - unfold lastz. rewrite List.last_last. rewrite (proj2 (Z.eqb_neq y NULL)) by set_solver.
    rewrite <- app_assoc in Hs, Hr. simpl in Hs, Hr.
    destruct (seg_mid _ _ _ _ _ _ Hs) as (e & He & _ & Hne & _ & _).
    rewrite (dz_some _ _ _ He). simpl rbind. rewrite Hne. simpl hd. rewrite (Z.eqb_refl x).
    pose proof (chunk_adjacent _ _ _ _ _ _ _ Hr He Hd) as Hadj. simpl assert_. simpl rbind.
    assert ((dz_mem e =? NULL) || (dz_mem d =? NULL) || (u32 (dz_mem e + dz_size e) =? dz_mem d) = true) as ->.
    { destruct Hadj as [->|[->| ->]]; [done|by rewrite orb_true_r|by rewrite Z.eqb_refl, orb_true_r]. }
    simpl rbind. rewrite any_ref_app. simpl. rewrite (refs_some _ _ _ He), orb_false_r.
    destruct (dz_refcount e =? 0); simpl; [|by rewrite orb_true_r].
    rewrite orb_false_r, (IH n y (x :: l2)); [|done|set_solver|done|rewrite length_app in Hl; simpl in Hl; lia].
    destruct l1; done.
Qed.

(** everything but the descriptors and the free list *)
Definition same_rest (s s' : dzstate A) : Prop :=
  dzInvalid s' = dzInvalid s /\ proxies s' = proxies s /\ objectBytes s' = objectBytes s /\ jx s' = jx s.

Lemma dzmemory_free_spec x d (s : dzstate A) :
  dzs s !! x = Some d -> dz_refcount d = 0 ->
  dzmemory_free x s =
    Ok (set_free x (set_dzs (<[x := w_next (dzMemoryFreeList s) (w_valid 2 d)]> (dzs s)) s)).
Proof.
  intros Hd Hr. unfold dzmemory_free. rewrite (dz_some _ _ _ Hd). simpl. rewrite Hr. simpl.
  unfold upd_dz. by rewrite (alter_alt_Some _ _ _ _ Hd).
Qed.

Definition freed (s s' : dzstate A) (top : Z) (r fl : list Z) : Prop :=
  free_ok (dzs s') (dzMemoryFreeList s') (rev r ++ fl) /\
  (forall y, y <> top -> y ∉ r -> y ∉ fl -> dzs s' !! y = dzs s !! y) /\ same_rest s s'.

Lemma free_elements_spec n dzm d r p (s : dzstate A) fl :
  dzs s !! dzm = Some d -> seg (dzs s) p r NULL -> NoDup (dzm :: r ++ fl) -> NULL ∉ r ->
  any_ref (dzs s) r = false -> free_ok (dzs s) (dzMemoryFreeList s) fl ->
  dz_mem d = NULL \/ (0 <= dz_mem d /\ 0 <= dz_size d /\ contig (dz_mem d + dz_size d) (range (dzs s) <$> r)) ->
  (length r < n)%nat ->
  exists s' sz, free_elements n dzm (hd NULL r) s = Ok s' /\
    dzs s' !! dzm = Some (w_size sz d) /\
    (dz_mem d <> NULL -> sz = dz_size d + total (range (dzs s) <$> r)) /\
    freed s s' dzm r fl.
Proof.
  revert n d p s fl. induction r as [|x r IH]; intros n d p s fl Hd Hs Hnd Hn Ha Hf Hc Hl;
    (destruct n as [|n]; [simpl in Hl; lia|]); cbn [free_elements hd].
  { exists s, (dz_size d). split_and!; try done; [by destruct d|]. simpl. lia. }
  rewrite (proj2 (Z.eqb_neq x NULL)) by set_solver. rewrite (dz_some _ _ _ Hd). simpl rbind.
  destruct Hs as (e & He & Hpe & Hne & Hs). rewrite (dz_some _ _ _ He). simpl rbind.
  rewrite any_ref_cons in Ha. apply orb_false_iff in Ha as [Ha1 Ha].
  rewrite (refs_some _ _ _ He) in Ha1. apply negb_false_iff in Ha1. rewrite Ha1. simpl assert_. simpl rbind.
  apply Z.eqb_eq in Ha1.
  assert (Hxd : dzm <> x) by (apply NoDup_cons in Hnd as [H _]; intros ->; apply H; left).
  assert (Hc' : dz_mem d = NULL \/ (dz_mem e = u32 (dz_mem d + dz_size d) /\ 0 <= dz_mem d /\
     u32 (dz_size d + dz_size e) = dz_size d + dz_size e /\ 0 <= dz_size d + dz_size e /\
     contig (dz_mem d + (dz_size d + dz_size e)) (range (dzs s) <$> r))).
  { destruct Hc as [->|(Hm & Hsd & Hc)]; [by left|right]. rewrite fmap_cons, (range_some _ _ _ He) in Hc. simpl in Hc.
    destruct Hc as (Em & Hes & Hc). pose proof (contig_total _ _ Hc ltac:(lia)).
    rewrite !u32_small by lia. rewrite Z.add_assoc. split_and!; try done; lia. }
  assert (Hadj : (dz_mem d =? NULL) || (dz_mem e =? NULL) || (dz_mem e =? u32 (dz_mem d + dz_size d)) = true).
  { destruct Hc' as [->|(-> & _)]; [done|]. by rewrite (Z.eqb_refl (u32 _)), orb_true_r. }
  rewrite Hadj. simpl rbind. clear Hadj.
  set (sz := u32 (dz_size d + dz_size e)) in *.
  set (e' := w_next NULL (w_size NULL (w_mem NULL (w_prev NULL e)))).
  set (s1 := upd_dz x _ _).
  assert (Es1 : dzs s1 = <[x := e']> (<[dzm := w_size sz d]> (dzs s))).
  { unfold s1, upd_dz, set_dzs. cbn [dzs]. rewrite (alter_alt_Some _ _ _ _ Hd).
    rewrite (alter_alt_Some _ _ x e); [done|by rewrite lookup_insert_ne]. }
  assert (Hx1' : dzs s1 !! x = Some e') by (rewrite Es1; apply lookup_insert_eq).
  rewrite (dzmemory_free_spec x e' s1 Hx1' Ha1).
  simpl rbind. rewrite Hne.
  set (s2 := set_free x _).
  assert (Es2 : dzs s2 = <[x := w_next (dzMemoryFreeList s) (w_valid 2 e')]> (<[dzm := w_size sz d]> (dzs s))).
  { transitivity (<[x := w_next (dzMemoryFreeList s) (w_valid 2 e')]> (dzs s1)); [reflexivity|].
    by rewrite Es1, insert_insert_eq. }
  assert (Hout : forall y, y <> x -> y <> dzm -> dzs s2 !! y = dzs s !! y).
  { intros y ? ?. rewrite Es2, !lookup_insert_ne by done. done. }
  cbn [app] in Hnd. apply NoDup_cons in Hnd as [Hd1 Hnd]. apply NoDup_cons in Hnd as [Hx1 Hnd].
  rewrite not_elem_of_cons, not_elem_of_app in Hd1. rewrite not_elem_of_app in Hx1.
  assert (Hr : forall y, y ∈ r -> dzs s2 !! y = dzs s !! y) by (intros y Hy; apply Hout; set_solver).
  destruct (IH n (w_size sz d) x s2 (x :: fl)) as (s' & sz' & E & Ed & Ht & Hff & Hk & Hsr).
  - rewrite Es2, lookup_insert_ne, lookup_insert_eq by done. done.
  - eapply seg_ext; [|exact Hs]. intros y Hy. by rewrite Hr.
  - apply NoDup_cons. split; [set_solver|].
    rewrite <- Permutation_middle. apply NoDup_cons. split; [set_solver|done].
  - set_solver.
  - by rewrite (any_ref_agree (dzs s)).
  - cbn [free_ok]. split; [done|]. exists (w_next (dzMemoryFreeList s) (w_valid 2 e')).
    split_and!; try done; [by rewrite Es2, lookup_insert_eq|].
    eapply free_ok_agree; [|exact Hf]. intros y Hy. apply Hout; set_solver.
  - cbn [w_size dz_mem dz_size]. rewrite (ranges_agree (dzs s)) by done.
    destruct Hc' as [Hc'|(Em & Hm & Eu & Hp & Hc')]; [by left|right]. rewrite Eu. done.
  - simpl in Hl. lia.
  - exists s', sz'. split_and!; try done.
    + intros Hm. rewrite (Ht Hm), (ranges_agree (dzs s)) by done. cbn [w_size dz_size].
      rewrite fmap_cons, (range_some _ _ _ He). simpl.
      destruct Hc' as [Hc'|(_ & _ & Eu & _)]; [done|]. rewrite Eu. lia.
    + split_and!; [|intros y Hy Hy2 Hy3|exact Hsr].
      * simpl rev. by rewrite <- app_assoc.
      * rewrite Hk, Hout; [done|set_solver|done|done|set_solver|].
        intros [->|?]%elem_of_cons; set_solver.
Qed.
End Release.

Section FreeChunk.
Context {A : Type} `{!Allocator A}.

(** What the release of a whole chunk asks of the block allocator: the region
    of a live chunk is given back in one piece, a dead chunk has none. *)
Definition give_back (m : gmap Z DZMemoryProxy) (l : list Z) (j : A) : res A :=
  let a := fst (range m (hd NULL l)) in
  if a =? NULL then Ok j else
  let! _ := assert_ "dzm->size > 4" (4 <? total (range m <$> l)) in
  al_free a (total (range m <$> l)) j.

Lemma free_top_spec top d sz (s : dzstate A) :
  dzs s !! top = Some d -> dz_prev d = NULL -> dz_next d = NULL -> dz_refcount d = 0 ->
  (dz_mem d <> NULL -> dz_size d = sz) ->
  free_top top s =
    rbind (if dz_mem d =? NULL then Ok (jx s) else
           let! _ := assert_ "dzm->size > 4" (4 <? sz) in al_free (dz_mem d) sz (jx s))
      (fun j => Ok (set_jx j (set_free top
         (set_dzs (<[top := w_next (dzMemoryFreeList s) (w_valid 2 (w_mem NULL d))]> (dzs s)) s)))).
Proof.
  intros Hd Hp Hn Hr Hsz. unfold free_top. rewrite (dz_some _ _ _ Hd). simpl rbind.
  rewrite Hp, Hn, Hr. simpl assert_. simpl rbind.
  destruct (dz_mem d =? NULL) eqn:Em; simpl negb; cbn match.
  - simpl rbind. rewrite (dzmemory_free_spec top d s Hd Hr). apply Z.eqb_eq in Em.
    unfold set_jx. simpl. do 3 f_equal. destruct d. simpl in *. by subst.
  - apply Z.eqb_neq in Em. rewrite (Hsz Em). destruct (4 <? sz); simpl; [|done].
    destruct (al_free (dz_mem d) sz (jx s)) as [j|e]; simpl; [|done].
    erewrite (dzmemory_free_spec top (w_mem NULL d)); [|simpl; by rewrite (alter_alt_Some _ _ _ _ Hd), lookup_insert_eq|done].
    unfold upd_dz, set_dzs. simpl. rewrite (alter_alt_Some _ _ _ _ Hd), insert_insert_eq. done.
Qed.

Lemma set_free_dzs_rep top d m (s : dzstate A) cs fl :
  NoDup (top :: concat cs ++ fl) -> NULL ∉ top :: concat cs ++ fl ->
  Forall (chunk_ok m) cs -> free_ok m (dzMemoryFreeList s) fl ->
  dz_refcount d = 0 -> dz_valid d = 2 -> dz_mem d = NULL -> dz_prev d = NULL -> dz_next d = dzMemoryFreeList s ->
  dz_rep (set_free top (set_dzs (<[top := d]> m) s)) cs (top :: fl).
Proof.
  intros Hnd Hnull Hcs Hf Hr Hv Hm Hp Hn.
  pose proof Hnd as [Hnt _]%NoDup_cons. rewrite not_elem_of_app in Hnt.
  split; [by rewrite <- Permutation_middle|set_solver| |].
  - eapply chunks_agree; [|exact Hcs]. intros y Hy. simpl. rewrite lookup_insert_ne; set_solver.
  - simpl. split; [done|]. exists d. rewrite lookup_insert_eq, Hn. split_and!; try done.
    eapply free_ok_agree; [|exact Hf]. intros y Hy. rewrite lookup_insert_ne; set_solver.
Qed.

Lemma rev_perm (l : list Z) : rev l ≡ₚ l.
Proof. symmetry. apply Permutation_rev. Qed.

Lemma lastz_null l : NULL ∉ l -> lastz NULL l = NULL -> l = [].
Proof.
  destruct l as [|x l _] using rev_ind; [done|]. unfold lastz. rewrite List.last_last. intros H ->. set_solver.
Qed.
Lemma hd_null l : NULL ∉ l -> hd NULL l = NULL -> l = [].
Proof. destruct l as [|x l]; [done|]. simpl. intros H ->. set_solver. Qed.

Lemma dzmemory_free_chunk_keeps fuel x l1 l2 (s : dzstate A) cs fl :
  dz_rep s ((l1 ++ x :: l2) :: cs) fl -> (length (l1 ++ x :: l2) < fuel)%nat ->
  refs (dzs s) x = 0 -> any_ref (dzs s) (l1 ++ x :: l2) = true ->
  dzmemory_free_chunk fuel x s = Ok s.
Proof.
  intros [Hnd Hnull Hcs _] Hfuel Hx Ha. apply Forall_cons in Hcs as [(_ & Hseg & Hr) _].
  simpl in Hnull. rewrite length_app in Hfuel. destruct (seg_mid _ _ _ _ _ _ Hseg) as (d & Hd & Hp & Hn & _ & Hs2).
  unfold dzmemory_free_chunk.
  erewrite tail_referenced_spec; [|exact (proj2 (proj1 (seg_app _ _ _ _ _) Hseg))|set_solver|lia].
  rewrite any_ref_app in Ha. destruct (any_ref (dzs s) (x :: l2)) eqn:E2; [done|]. cbn [rbind].
  rewrite orb_false_r in Ha.
  rewrite (dz_some _ _ _ Hd). simpl rbind. rewrite (refs_some _ _ _ Hd) in Hx. rewrite Hx. simpl assert_. simpl rbind.
  assert (negb (dz_prev d =? NULL) = true) as ->.
  { apply negb_true_iff, Z.eqb_neq. rewrite Hp. intros H. apply lastz_null in H; [by subst|set_solver]. }
  simpl orb. rewrite (find_top_spec _ l1 x l2); [by rewrite Ha|done|set_solver|done|lia].
Qed.

Lemma dzmemory_free_chunk_releases fuel x l (s : dzstate A) cs fl :
  dz_rep s (l :: cs) fl -> x ∈ l -> (length l < fuel)%nat -> any_ref (dzs s) l = false ->
  exists s', dzmemory_free_chunk fuel x s = rbind (give_back (dzs s) l (jx s)) (fun j => Ok (set_jx j s')) /\
    dz_rep s' cs (hd NULL l :: rev (tl l) ++ fl) /\ same_rest s s' /\
    (forall y, y ∈ concat cs -> dzs s' !! y = dzs s !! y).
Proof.
  intros [Hnd Hnull Hcs Hfr] Hx Hfuel Ha. apply Forall_cons in Hcs as [(Hne & Hseg & Hr) Hcs].
  destruct l as [|top rest]; [done|]. clear Hne. simpl in Hnd, Hnull.
  assert (Hnd' : NoDup (top :: rest ++ fl) /\ NoDup (top :: (concat cs ++ rev rest ++ fl)) /\
    (forall y, y ∈ concat cs -> y <> top /\ (y ∉ rest) /\ (y ∉ fl))).
  { apply NoDup_cons in Hnd as [Ht Hnd]. rewrite <- app_assoc in Hnd. apply NoDup_app in Hnd as (N1 & N2 & N3).
    apply NoDup_app in N3 as (N3 & N4 & N5). split_and!.
    - apply NoDup_cons. split; [set_solver|]. apply NoDup_app. split_and!; try done. set_solver.
    - apply NoDup_cons. split; [rewrite (rev_perm rest); set_solver|].
      rewrite (rev_perm rest), (assoc_L (++)), (Permutation_app_comm (concat cs)), <- (assoc_L (++)).
      apply NoDup_app. split_and!; try done. by apply NoDup_app.
    - intros y Hy. split_and!; intros Hc; [subst; apply Ht|apply (N2 y)|apply (N4 y)]; set_solver. }
  destruct Hnd' as (Hnd1 & Hnd2 & Hdis).
  destruct Hseg as (d & Hd & Hp & Hn & Hseg).
  rewrite any_ref_cons, (refs_some _ _ _ Hd) in Ha. apply orb_false_iff in Ha as [Hr0 Har].
  apply negb_false_iff, Z.eqb_eq in Hr0.
  assert (Hcont : dz_mem d = NULL \/ (0 <= dz_mem d /\ 0 <= dz_size d /\
     contig (dz_mem d + dz_size d) (range (dzs s) <$> rest))).
  { destruct Hr as [(a & Hap & Hc)|Hdead].
    - right. rewrite fmap_cons, (range_some _ _ _ Hd) in Hc. simpl in Hc. destruct Hc as (-> & ? & ?). split_and!; [lia|done|done].
    - left. apply Forall_cons in Hdead as [Hdead _]. by rewrite (range_some _ _ _ Hd) in Hdead. }
  (* from the top on *)
  assert (Hdown : forall n, (length rest < n)%nat -> exists s',
     rbind (free_elements n top (dz_next d) s) (fun s => free_top top (upd_dz top (w_next NULL) s)) =
       rbind (give_back (dzs s) (top :: rest) (jx s)) (fun j => Ok (set_jx j s')) /\
     dz_rep s' cs (top :: rev rest ++ fl) /\ same_rest s s' /\
     (forall y, y ∈ concat cs -> dzs s' !! y = dzs s !! y)).
  { intros n Hl. rewrite Hn.
    destruct (free_elements_spec n top d rest top s fl) as (s1 & sz & E1 & Ed1 & Hsz & Hf1 & Hk1 & (Hs1 & Hs2 & Hs3 & Hs4));
      try done; [set_solver|].
    rewrite E1. simpl rbind.
    set (d' := w_next NULL (w_size sz d)).
    assert (Em : dzs (upd_dz top (w_next NULL) s1) = <[top := d']> (dzs s1)).
    { unfold upd_dz, set_dzs. cbn [dzs]. apply (alter_alt_Some _ _ _ _ Ed1). }
    assert (Htot : total (range (dzs s) <$> top :: rest) = dz_size d + total (range (dzs s) <$> rest)).
    { rewrite fmap_cons, (range_some _ _ _ Hd). done. }
    rewrite (free_top_spec top d' (total (range (dzs s) <$> top :: rest)));
      [|by rewrite Em, lookup_insert_eq|done|done|done|rewrite Htot; apply Hsz].
    eexists. split; [|split; [|split]].
    - unfold give_back. simpl hd. rewrite (range_some _ _ _ Hd). cbn [fst].
      change (dz_mem d') with (dz_mem d). change (jx (upd_dz top (w_next NULL) s1)) with (jx s1). rewrite Hs4.
      reflexivity.
    - rewrite Em, insert_insert_eq. change (set_dzs ?m (upd_dz _ _ s1)) with (set_dzs m s1).
      change (dzMemoryFreeList (upd_dz _ _ s1)) with (dzMemoryFreeList s1).
      apply set_free_dzs_rep; try done; [rewrite (rev_perm rest); set_solver|].
      eapply chunks_agree; [|exact Hcs]. intros y Hy. destruct (Hdis y Hy) as (? & ? & ?). by apply Hk1.
    - by split_and!.
    - intros y Hy. destruct (Hdis y Hy) as (? & ? & ?). cbn [set_free set_dzs dzs].
      rewrite Em, !lookup_insert_ne by done. by apply Hk1. }
  unfold dzmemory_free_chunk.
  apply list_elem_of_split in Hx as (l1 & l2 & El). rewrite El in Hfuel.
  assert (Hsegx : seg (dzs s) NULL (l1 ++ x :: l2) NULL).
  { rewrite <- El. exists d. done. }
  destruct (seg_mid _ _ _ _ _ _ Hsegx) as (e & He & Hpe & Hnee & _ & _).
  assert (Ha : any_ref (dzs s) (l1 ++ x :: l2) = false).
  { rewrite <- El, any_ref_cons, (refs_some _ _ _ Hd), Hr0. done. }
  rewrite any_ref_app in Ha. apply orb_false_iff in Ha as [Ha1 Ha2].
  assert (Hnx : NULL ∉ l1 ++ x :: l2) by (rewrite <- El; set_solver).
  rewrite length_app in Hfuel.
  erewrite tail_referenced_spec; [|exact (proj2 (proj1 (seg_app _ _ _ _ _) Hsegx))|set_solver|lia].
  rewrite Ha2. simpl rbind. rewrite (dz_some _ _ _ He). simpl rbind.
  rewrite any_ref_cons, (refs_some _ _ _ He) in Ha2. apply orb_false_iff in Ha2 as [Hre _].
  apply negb_false_iff in Hre. rewrite Hre. simpl assert_. simpl rbind.
  simpl hd. simpl tl.
  destruct (negb (dz_prev e =? NULL) || negb (dz_next e =? NULL)) eqn:Elink.
  - rewrite (find_top_spec _ l1 x l2); [|done|set_solver|by rewrite <- El|lia].
    rewrite Ha1. simpl rbind. assert (hd x l1 = top) as -> by (destruct l1; simpl in El; simpl; congruence).
    rewrite (dz_some _ _ _ Hd). simpl rbind. apply Hdown. apply (f_equal length) in El.
    rewrite length_app in El. simpl in *. lia.
  - apply orb_false_iff in Elink as [E1 E2]. apply negb_false_iff, Z.eqb_eq in E1, E2.
    rewrite Hpe in E1. rewrite Hnee in E2.
    apply lastz_null in E1; [|set_solver]. apply hd_null in E2; [|set_solver]. subst l1 l2. simpl in El.
    injection El as -> ->. destruct (Hdown 1%nat ltac:(simpl; lia)) as (s' & E & ?). exists s'. split; [|done].
    rewrite <- E. rewrite Hn. simpl free_elements. simpl rbind. f_equal.
    destruct s. unfold upd_dz, set_dzs. simpl in *. f_equal. rewrite (alter_alt_Some _ _ _ _ Hd).
    symmetry. apply insert_id. rewrite Hd. f_equal. destruct d. simpl in *. by subst.
Qed.
End FreeChunk.

(** ** Replacing a part of a chunk

    Splitting, joining and joining everything all replace a part [old] of a
    chunk by fresh descriptors [new] that cover the same bytes. *)

Definition relinked_left (m m' : gmap Z DZMemoryProxy) (l1 : list Z) (a : Z) : Prop :=
  forall y, y ∈ l1 -> m' !! y = (fun d => if y =? lastz NULL l1 then w_next a d else d) <$> m !! y.
Definition relinked_right (m m' : gmap Z DZMemoryProxy) (l2 : list Z) (z : Z) : Prop :=
  forall y, y ∈ l2 -> m' !! y = (fun d => if y =? hd NULL l2 then w_prev z d else d) <$> m !! y.

Lemma relinked_left_seg m m' l1 a n :
  NoDup l1 -> seg m NULL l1 n -> relinked_left m m' l1 a -> seg m' NULL l1 a.
Proof.
  intros Hnd Hs Hr. eapply seg_ext; [|exact (seg_retarget_end _ _ _ _ a Hnd Hs)].
  intros y Hy. rewrite (Hr y Hy). destruct (decide (l1 = [])) as [->|Hne]; [by apply not_elem_of_nil in Hy|].
  destruct (y =? lastz NULL l1) eqn:E.
  - apply Z.eqb_eq in E. rewrite E, lookup_alter_eq. done.
  - apply Z.eqb_neq in E. rewrite lookup_alter_ne by congruence. by destruct (m !! y).
Qed.

Lemma relinked_right_seg m m' l2 z p :
  NoDup l2 -> seg m p l2 NULL -> relinked_right m m' l2 z -> seg m' z l2 NULL.
Proof.
  intros Hnd Hs Hr. destruct l2 as [|x l2]; [done|].
  eapply seg_ext; [|exact (seg_retarget_start _ _ z _ _ _ Hnd Hs)].
  intros y Hy. rewrite (Hr y Hy). simpl hd. destruct (y =? x) eqn:E.
  - apply Z.eqb_eq in E. rewrite E, lookup_alter_eq. done.
  - apply Z.eqb_neq in E. rewrite lookup_alter_ne by congruence. by destruct (m !! y).
Qed.

Lemma relinked_left_range m m' l1 a : relinked_left m m' l1 a -> range m' <$> l1 = range m <$> l1.
Proof.
  intros Hr. apply list_fmap_ext. intros i y Hy%list_elem_of_lookup_2. unfold range. rewrite (Hr y Hy).
  destruct (m !! y); simpl; [|done]. by case_match.
Qed.
Lemma relinked_right_range m m' l2 z : relinked_right m m' l2 z -> range m' <$> l2 = range m <$> l2.
Proof.
  intros Hr. apply list_fmap_ext. intros i y Hy%list_elem_of_lookup_2. unfold range. rewrite (Hr y Hy).
  destruct (m !! y); simpl; [|done]. by case_match.
Qed.

Lemma splice_rep {A} (s s' : dzstate A) a b l1 old l2 new cs fl :
  dz_rep s ((l1 ++ old ++ l2) :: cs) (new ++ fl) ->
  live (dzs s) a (l1 ++ old ++ l2) -> new <> [] ->
  relinked_left (dzs s) (dzs s') l1 (hd (hd NULL l2) new) ->
  relinked_right (dzs s) (dzs s') l2 (lastz (lastz NULL l1) new) ->
  seg (dzs s') (lastz NULL l1) new (hd NULL l2) ->
  b = a + total (range (dzs s) <$> l1) ->
  contig b (range (dzs s') <$> new) ->
  total (range (dzs s') <$> new) = total (range (dzs s) <$> old) ->
  chunk_ok (dzs s') old ->
  (forall y, y ∈ concat cs ++ fl -> dzs s' !! y = dzs s !! y) ->
  free_ok (dzs s) (dzMemoryFreeList s') fl ->
  dz_rep s' ((l1 ++ new ++ l2) :: old :: cs) fl /\ live (dzs s') a (l1 ++ new ++ l2).
Proof.
  intros [Hnd Hnull Hcs _] [Ha Hlive] Hnew Hl Hr Hseg -> Hc Htot Hold Hout Hfree.
  apply Forall_cons in Hcs as [(_ & Hs & _) Hcs]. simpl in Hnd, Hnull.
  apply seg_app in Hs as [Hs1 Hs]. apply seg_app in Hs as [_ Hs2].
  assert (Hp : (l1 ++ old ++ l2) ++ concat cs ++ new ++ fl ≡ₚ (l1 ++ new ++ l2) ++ old ++ concat cs ++ fl).
  { rewrite <- !(assoc_L (++)). apply Permutation_app_head.
    rewrite (Permutation_app_swap_app (concat cs) new), (Permutation_app_swap_app l2 new).
    rewrite (Permutation_app_swap_app old new), (Permutation_app_swap_app old l2). done. }
  rewrite <- !(assoc_L (++)) in Hnd, Hnull, Hp.
  assert (Hlive' : live (dzs s') a (l1 ++ new ++ l2)).
  { split; [done|]. rewrite !fmap_app in *. rewrite (relinked_left_range _ _ _ _ Hl), (relinked_right_range _ _ _ _ Hr).
    apply contig_app in Hlive as [Hc1 Hlive]. apply contig_app in Hlive as [_ Hlive].
    apply contig_app. split; [done|]. apply contig_app. split; [done|]. by rewrite Htot. }
  pose proof Hnd as Hnd0. apply NoDup_app in Hnd0 as (Hnd1 & _ & Hnd0). apply NoDup_app in Hnd0 as (_ & _ & Hnd0).
  apply NoDup_app in Hnd0 as (Hnd2 & _ & _).
  assert (Hall : l1 ++ old ++ l2 ++ concat cs ++ new ++ fl ≡ₚ concat ((l1 ++ new ++ l2) :: old :: cs) ++ fl).
  { cbn [concat]. rewrite <- !(assoc_L (++)). by repeat rewrite <- (assoc_L (++)) in Hp. }
  split; [|done]. split.
  - by rewrite <- Hall.
  - by rewrite <- Hall.
  - apply Forall_cons. split.
    + split; [destruct l1; [by destruct new|done]|]. split; [|by left; exists a].
      rewrite !seg_app. split_and!.
      * rewrite hd_app. by eapply relinked_left_seg.
      * done.
      * by eapply relinked_right_seg.
    + apply Forall_cons. split; [done|]. eapply chunks_agree; [|exact Hcs]. intros y Hy. apply Hout. set_solver.
  - eapply free_ok_agree; [|exact Hfree]. intros y Hy. apply Hout. set_solver.
Qed.
