(* ===== verification/DZRanges.v ===== *)
(** * Correctness of memory objects: release, split, join

    The operations of Interface/zero_Memory_org.c against the chunk
    representation: a chunk is given back to the block allocator exactly when
    its last reference disappears, splitting and joining rearrange descriptors
    without gaining or losing a byte, and an invalidated range is refused to
    every domain that holds it. *)

From S2P Require Import Prelude Mem CString Malloc Alloc CodeMem DZMemory DZChunks.
#[local] Open Scope Z_scope.

Section Updates.
Context {A : Type}.

Lemma lookup_upd_dz k f (s : dzstate A) y :
  dzs (upd_dz k f s) !! y = if y =? k then f <$> dzs s !! y else dzs s !! y.
Proof.
  unfold upd_dz, set_dzs. cbn [dzs]. destruct (y =? k) eqn:E.
  - apply Z.eqb_eq in E as ->. apply lookup_alter_eq.
  - apply Z.eqb_neq in E. apply lookup_alter_ne. congruence.
Qed.
Lemma lookup_upd_if k f (s : dzstate A) y :
  dzs (upd_if k f s) !! y = if negb (k =? NULL) && (y =? k) then f <$> dzs s !! y else dzs s !! y.
Proof. unfold upd_if. destruct (k =? NULL); [done|]. apply lookup_upd_dz. Qed.
Lemma lookup_create x d h (s : dzstate A) y :
  dzs (set_dzs (<[x := d]> (dzs s)) (set_free h s)) !! y = if y =? x then Some d else dzs s !! y.
Proof.
  cbn [set_dzs dzs]. destruct (y =? x) eqn:E.
  - apply Z.eqb_eq in E as ->. apply lookup_insert_eq.
  - apply Z.eqb_neq in E. apply lookup_insert_ne. congruence.
Qed.
Lemma free_upd_if k f (s : dzstate A) : dzMemoryFreeList (upd_if k f s) = dzMemoryFreeList s.
Proof. unfold upd_if. by destruct (k =? NULL). Qed.
Lemma rest_upd_if k f (s : dzstate A) : same_rest s (upd_if k f s).
Proof. unfold upd_if. by destruct (k =? NULL). Qed.
End Updates.

Section Create.
Context {A : Type} `{!Allocator A}.
Context (gc : dzstate A -> dzstate A).

Definition fresh_dz (size mem : Z) : DZMemoryProxy := MkDz 1 1 mem (u32 size) JNI_FALSE NULL NULL 0 0.

Lemma createDZMemory_free fuel (s : dzstate A) x fl size mem :
  free_ok (dzs s) (dzMemoryFreeList s) (x :: fl) -> NULL <> x -> x ∉ fl ->
  exists s', createDZMemory gc (S fuel) size mem s = Ok (x, s') /\
    (forall y, dzs s' !! y = if y =? x then Some (fresh_dz size mem) else dzs s !! y) /\
    same_rest s s' /\ free_ok (dzs s') (dzMemoryFreeList s') fl.
Proof.
  intros Hf Hx Hfl. destruct Hf as (Eh & d & Hd & Hr & Hv & Hm & Hp & Hf).
  exists (set_dzs (<[x := fresh_dz size mem]> (dzs s)) (set_free (dz_next d) s)).
  split; [|split; [intros y; apply lookup_create|split; [done|]]].
  - unfold createDZMemory, dzmemory_alloc. cbn [dzmemory_alloc_loop]. rewrite Eh.
    rewrite (proj2 (Z.eqb_neq x NULL)) by done. rewrite (dz_some _ _ _ Hd). cbn [rbind leaf_alloc].
    unfold upd_dz, set_dzs, set_free. cbn [dzs dzMemoryFreeList dzInvalid proxies objectBytes jx].
    rewrite (alter_alt_Some _ _ _ _ Hd), (alter_alt_Some _ _ _ _ (lookup_insert_eq _ _ _)), insert_insert_eq. done.
  - cbn [set_dzs set_free dzs dzMemoryFreeList].
    eapply free_ok_agree; [|exact Hf]. intros y Hy. rewrite lookup_insert_ne; [done|]. by intros ->.
Qed.
End Create.

(** ** Splitting *)

Lemma live_mid m a l1 x l2 d :
  live m a (l1 ++ x :: l2) -> m !! x = Some d ->
  dz_mem d = a + total (range m <$> l1) /\ 0 < dz_mem d /\ 0 <= dz_size d /\ dz_mem d + dz_size d <= 4294967295.
Proof.
  intros [Ha Hc] Hd. rewrite fmap_app, fmap_cons in Hc. apply contig_app in Hc as [Hc1 Hc].
  rewrite (range_some _ _ _ Hd) in Hc. destruct Hc as (E & Hs & Hc). apply contig_total in Hc1; [|lia].
  apply contig_le in Hc. lia.
Qed.

(** All the names of a state, pairwise different: the new descriptors, the old
    ones, the rest of the chunk, the other chunks and the free list. *)
Lemma rep_distinct {A} (s : dzstate A) l1 old l2 new cs fl :
  dz_rep s ((l1 ++ old ++ l2) :: cs) (new ++ fl) ->
  NoDup (NULL :: new ++ old ++ l1 ++ l2 ++ concat cs ++ fl).
Proof.
  intros [Hnd Hnull _ _]. cbn [concat] in *.
  assert (Hp : ((l1 ++ old ++ l2) ++ concat cs) ++ new ++ fl ≡ₚ new ++ old ++ l1 ++ l2 ++ concat cs ++ fl).
  { rewrite <- !(assoc_L (++)). rewrite (Permutation_app_swap_app (concat cs) new), (Permutation_app_swap_app l2 new).
    rewrite (Permutation_app_swap_app old new), (Permutation_app_swap_app l1 new), (Permutation_app_swap_app l1 old). done. }
  rewrite Hp in Hnd, Hnull. by apply NoDup_cons.
Qed.

Lemma lastz_in p l : l <> [] -> lastz p l ∈ l.
Proof.
  intros Hl. destruct l as [|x l _] using rev_ind; [done|]. unfold lastz. rewrite List.last_last. set_solver.
Qed.
Lemma lastz_cases l : l = [] /\ lastz NULL l = NULL \/ lastz NULL l ∈ l.
Proof. destruct l as [|x l]; [by left|right]. by apply lastz_in. Qed.
Lemma hd_cases l : l = [] /\ hd NULL l = NULL \/ hd NULL l ∈ l.
Proof. destruct l as [|x l]; [by left|right]. simpl. left. Qed.
Lemma lastz_ne l x : x ∉ l -> NULL <> x -> lastz NULL l <> x.
Proof. intros Hx Hn. destruct (lastz_cases l) as [[_ ->]|Hin]; congruence. Qed.
Lemma hd_ne l x : x ∉ l -> NULL <> x -> hd NULL l <> x.
Proof. intros Hx Hn. destruct (hd_cases l) as [[_ ->]|Hin]; congruence. Qed.

Lemma last_guard y l : y ∉ l -> negb (lastz NULL l =? NULL) && (y =? lastz NULL l) = false.
Proof.
  intros Hy. destruct (lastz_cases l) as [[_ ->]|Hin]; [done|].
  rewrite (proj2 (Z.eqb_neq y _)) by congruence. apply andb_false_r.
Qed.
Lemma hd_guard y l : y ∉ l -> negb (hd NULL l =? NULL) && (y =? hd NULL l) = false.
Proof.
  intros Hy. destruct (hd_cases l) as [[_ ->]|Hin]; [done|].
  rewrite (proj2 (Z.eqb_neq y _)) by congruence. apply andb_false_r.
Qed.

(** [nodup_facts H] takes [H : NoDup (x :: y :: ... l ++ ...)] apart into
    disequalities and non-memberships; [ne] uses them. *)
Ltac nodup_facts H :=
  cbn [app] in H;
  repeat (let H1 := fresh "Hni" in apply NoDup_cons in H as [H1 H];
          rewrite ?not_elem_of_cons, ?not_elem_of_app in H1; destruct_and? H1).
Ltac ne :=
  first [ congruence
        | apply lastz_ne; congruence
        | apply hd_ne; congruence
        | apply not_eq_sym; apply lastz_ne; congruence
        | apply not_eq_sym; apply hd_ne; congruence
        | match goal with
          | Hy : ?y ∈ ?l, Hx : ?x ∉ ?l |- ?y <> ?x => intros ->; exact (Hx Hy)
          | Hy : ?y ∈ ?l, Hx : ?x ∉ ?l |- ?x <> ?y => intros <-; exact (Hx Hy)
          end ].

Lemma eqb_false a b : a <> b -> (a =? b) = false.
Proof. apply Z.eqb_neq. Qed.

(** evaluate lookups in an updated store *)
Ltac look :=
  repeat first [rewrite lookup_upd_dz | rewrite lookup_upd_if | rewrite lookup_create];
  repeat match goal with
  | |- context [?a =? ?a] => rewrite (Z.eqb_refl a)
  | |- context [?a =? ?b] => rewrite (eqb_false a b) by ne
  end; rewrite ?andb_false_r; cbn [negb andb orb].


Lemma relinked_left_of {A} (s s' : dzstate A) l a :
  NULL ∉ l ->
  (forall y, y ∈ l -> dzs s' !! y =
     if negb (lastz NULL l =? NULL) && (y =? lastz NULL l) then w_next a <$> dzs s !! y else dzs s !! y) ->
  relinked_left (dzs s) (dzs s') l a.
Proof.
  intros Hn H y Hy. rewrite (H y Hy). destruct (y =? lastz NULL l) eqn:E.
  - apply Z.eqb_eq in E. rewrite <- E, (eqb_false y NULL) by congruence. done.
  - rewrite andb_false_r. by destruct (dzs s !! y).
Qed.
Lemma relinked_right_of {A} (s s' : dzstate A) l z :
  NULL ∉ l ->
  (forall y, y ∈ l -> dzs s' !! y =
     if negb (hd NULL l =? NULL) && (y =? hd NULL l) then w_prev z <$> dzs s !! y else dzs s !! y) ->
  relinked_right (dzs s) (dzs s') l z.
Proof.
  intros Hn H y Hy. rewrite (H y Hy). destruct (y =? hd NULL l) eqn:E.
  - apply Z.eqb_eq in E. rewrite <- E, (eqb_false y NULL) by congruence. done.
  - rewrite andb_false_r. by destruct (dzs s !! y).
Qed.

(** What a split or join leaves alone. *)
Definition outside {A} (s s' : dzstate A) (ks : list Z) : Prop :=
  same_rest s s' /\ forall y, y ∉ ks -> dzs s' !! y = dzs s !! y.

(** The neighbours of the replaced part are redirected, nothing else changes. *)
Definition redirected {A} (s s' : dzstate A) (l1 l2 : list Z) (a z : Z) (y : Z) : Prop :=
  dzs s' !! y =
    let v := if negb (lastz NULL l1 =? NULL) && (y =? lastz NULL l1) then w_next a <$> dzs s !! y else dzs s !! y in
    if negb (hd NULL l2 =? NULL) && (y =? hd NULL l2) then w_prev z <$> v else v.

Lemma replace_rep {A} (s s' : dzstate A) mf a l1 old l2 new cs fl :
  dz_rep s ((l1 ++ old ++ l2) :: cs) (new ++ fl) -> live (dzs s) a (l1 ++ old ++ l2) -> new <> [] ->
  same_rest s s' ->
  (forall y, y ∉ new -> y ∉ old -> redirected s s' l1 l2 (hd (hd NULL l2) new) (lastz (lastz NULL l1) new) y) ->
  seg (dzs s') (lastz NULL l1) new (hd NULL l2) ->
  contig (a + total (range (dzs s) <$> l1)) (range (dzs s') <$> new) ->
  total (range (dzs s') <$> new) = total (range (dzs s) <$> old) ->
  chunk_ok (dzs s') old -> free_ok mf (dzMemoryFreeList s') fl -> (forall y, y ∈ fl -> dzs s !! y = mf !! y) ->
  dz_rep s' ((l1 ++ new ++ l2) :: old :: cs) fl /\ live (dzs s') a (l1 ++ new ++ l2) /\
  outside s s' (l1 ++ new ++ old ++ l2).
Proof.
  intros Hrep Hlive Hnew Hrest Hred Hseg Hc Ht Hold Hf Hmf.
  pose proof (rep_distinct _ _ _ _ _ _ _ Hrep) as Hnd.
  apply NoDup_cons in Hnd as [Hnull Hnd]. apply NoDup_app in Hnd as (_ & D1 & Hnd).
  apply NoDup_app in Hnd as (_ & D2 & Hnd). apply NoDup_app in Hnd as (_ & D3 & Hnd).
  apply NoDup_app in Hnd as (_ & D4 & _).
  assert (Hout : forall y, y ∉ l1 -> y ∉ l2 -> y ∉ new -> y ∉ old -> dzs s' !! y = dzs s !! y).
  { intros y ? ? ? ?. rewrite Hred by done. by rewrite last_guard, hd_guard by done. }
  destruct (splice_rep s s' a (a + total (range (dzs s) <$> l1)) l1 old l2 new cs fl) as [? ?]; try done.
  - apply relinked_left_of; [set_solver|]. intros y Hy. rewrite Hred by set_solver.
    by rewrite (hd_guard y l2) by set_solver.
  - apply relinked_right_of; [set_solver|]. intros y Hy. rewrite Hred by set_solver.
    by rewrite (last_guard y l1) by set_solver.
  - intros y Hy. apply Hout; set_solver.
  - by apply (free_ok_agree mf).
  - split_and!; try done. split; [done|]. intros y Hy. apply Hout; set_solver.
Qed.

(** A descriptor that was replaced: no links, no memory. *)
Lemma dead_single m x d : m !! x = Some d -> dz_prev d = NULL -> dz_next d = NULL -> dz_mem d = NULL -> chunk_ok m [x].
Proof.
  intros Hd Hp Hn Hm. split; [done|]. split; [exists d; done|right]. apply Forall_cons. split; [|done].
  by rewrite (range_some _ _ _ Hd).
Qed.

Lemma same_rest_trans {A} (s1 s2 s3 : dzstate A) : same_rest s1 s2 -> same_rest s2 s3 -> same_rest s1 s3.
Proof. unfold same_rest. intros (-> & -> & -> & ->) (? & ? & ? & ?). done. Qed.

Section Split.
Context {A : Type} `{!Allocator A}.
Context (gc : dzstate A -> dzstate A).

Lemma dzmemory_split3_spec fuel domain (s : dzstate A) l1 x l2 cs x0 x1 x2 fl d a offset len :
  dz_rep s ((l1 ++ [x] ++ l2) :: cs) ([x0; x1; x2] ++ fl) ->
  live (dzs s) a (l1 ++ [x] ++ l2) -> dzs s !! x = Some d -> dz_valid d = 1 ->
  0 <= offset -> 0 <= len -> offset + len <= dz_size d ->
  exists s', dzmemory_split3 gc (S fuel) domain x offset len s = Ok (Some (x0, x1, x2), s') /\
    dz_rep s' ((l1 ++ [x0; x1; x2] ++ l2) :: [x] :: cs) fl /\
    live (dzs s') a (l1 ++ [x0; x1; x2] ++ l2) /\
    dzs s' !! x0 = Some (MkDz 1 1 (dz_mem d) offset JNI_FALSE (lastz NULL l1) x1 (dz_prevOwner d) domain) /\
    dzs s' !! x1 = Some (MkDz 1 1 (dz_mem d + offset) len JNI_FALSE x0 x2 domain domain) /\
    dzs s' !! x2 = Some (MkDz 1 1 (dz_mem d + offset + len) (dz_size d - offset - len) JNI_FALSE x1 (hd NULL l2)
                           domain (dz_nextOwner d)) /\
    outside s s' (l1 ++ [x0; x1; x2] ++ [x] ++ l2).
Proof.
  intros Hrep Hlive Hd Hv Ho Hl Hsz. pose proof (rep_distinct _ _ _ _ _ _ _ Hrep) as Hnd.
  pose proof Hrep as [_ _ Hcs Hfree]. pose proof Hcs as [(_ & Hseg & _) _]%Forall_cons.
  destruct (live_mid _ _ _ _ _ _ Hlive Hd) as (Em & Hm0 & Hs0 & Hend).
  destruct (seg_mid _ _ _ _ _ _ Hseg) as (d0 & Hd0 & Hp & Hn & _ & _).
  assert (d0 = d) as -> by congruence. clear Hd0 Hseg.
  nodup_facts Hnd. apply NoDup_app in Hnd as (Hnd1 & Hdis1 & Hnd). apply NoDup_app in Hnd as (Hnd2 & Hdis2 & _).
  unfold dzmemory_split3. rewrite (eqb_false x NULL) by ne. rewrite (dz_some _ _ _ Hd). cbn [negb assert_ rbind].
  rewrite Hv, (eqb_false (dz_mem d) NULL) by (unfold NULL; lia). cbn [negb assert_ rbind Z.eqb Pos.eqb].
  rewrite (u32_small (offset + len)) by lia.
  assert ((offset <? 0) || (len <? 0) || (dz_size d <? offset + len) = false) as ->
    by (rewrite !orb_false_iff, !Z.ltb_ge; lia).
  destruct (createDZMemory_free gc fuel s x0 (x1 :: x2 :: fl) offset (dz_mem d)) as (s1 & -> & L1 & R1 & F1);
    [done|done|set_solver|]. cbn [rbind].
  destruct (createDZMemory_free gc fuel s1 x1 (x2 :: fl) len (u32 (dz_mem d + offset))) as (s2 & -> & L2 & R2 & F2);
    [done|done|set_solver|]. cbn [rbind].
  destruct (createDZMemory_free gc fuel s2 x2 fl (u32 (dz_size d - len - offset)) (u32 (dz_mem d + len + offset)))
    as (s3 & -> & L3 & R3 & F3); [done|done|set_solver|]. cbn [rbind].
  assert (Hd3 : dzs s3 !! x = Some d) by (rewrite L3, L2, L1; look; exact Hd).
  rewrite (dz_some _ _ _ Hd3). cbn [rbind]. rewrite Hp, Hn.
  eexists. split; [reflexivity|].
  set (s' := upd_dz x _ _).
  assert (Hred : forall y, y ∉ [x0; x1; x2] -> y ∉ [x] -> redirected s s' l1 l2 x0 x2 y).
  { intros y Hy Hyx. assert (y <> x0 /\ y <> x1 /\ y <> x2 /\ y <> x) as (? & ? & ? & ?) by set_solver.
    unfold redirected, s'. look. rewrite L3, L2, L1. by look. }
  assert (Ex : dzs s' !! x = Some (w_mem NULL (w_valid 0 (w_next NULL (w_prev NULL d))))).
  { unfold s'. look. rewrite L3, L2, L1. look. by rewrite Hd. }
  assert (E0 : dzs s' !! x0 = Some (MkDz 1 1 (dz_mem d) offset JNI_FALSE (lastz NULL l1) x1 (dz_prevOwner d) domain)).
  { unfold s'. look. rewrite L3, L2, L1. look. unfold fresh_dz. simpl. by rewrite !u32_small by lia. }
  assert (E1 : dzs s' !! x1 = Some (MkDz 1 1 (dz_mem d + offset) len JNI_FALSE x0 x2 domain domain)).
  { unfold s'. look. rewrite L3, L2, L1. look. unfold fresh_dz. simpl. by rewrite !u32_small by lia. }
  assert (E2 : dzs s' !! x2 = Some (MkDz 1 1 (dz_mem d + offset + len) (dz_size d - offset - len) JNI_FALSE x1
     (hd NULL l2) domain (dz_nextOwner d))).
  { unfold s'. look. rewrite L3, L2, L1. look. unfold fresh_dz. simpl.
    rewrite (u32_small (dz_size d - len - offset)), (u32_small (dz_size d - len - offset)), (u32_small (dz_mem d + len + offset)) by lia.
    unfold w_prevOwner, w_nextOwner, w_next, w_prev. simpl. f_equal. f_equal; lia. }
  destruct (replace_rep s s' (dzs s3) a l1 [x] l2 [x0; x1; x2] cs fl) as (? & ? & ?); try done.
  - apply (same_rest_trans s s1); [done|]. apply (same_rest_trans s1 s2); [done|]. apply (same_rest_trans s2 s3); [done|].
    unfold s', upd_if. by destruct (hd NULL l2 =? NULL), (lastz NULL l1 =? NULL).
  - cbn [seg hd]. eauto 20.
  - rewrite !fmap_cons, (range_some _ _ _ E0), (range_some _ _ _ E1), (range_some _ _ _ E2). simpl. lia.
  - rewrite !fmap_cons, (range_some _ _ _ E0), (range_some _ _ _ E1), (range_some _ _ _ E2), (range_some _ _ _ Hd). simpl. lia.
  - by apply (dead_single _ _ _ Ex).
  - replace (dzMemoryFreeList s') with (dzMemoryFreeList s3); [done|].
    unfold s', upd_if. by destruct (hd NULL l2 =? NULL), (lastz NULL l1 =? NULL).
  - intros y Hy. rewrite L3, L2, L1. by look.
Qed.

Lemma dzmemory_split2_spec fuel domain (s : dzstate A) l1 x l2 cs x0 x1 fl d a offset :
  dz_rep s ((l1 ++ [x] ++ l2) :: cs) ([x0; x1] ++ fl) ->
  live (dzs s) a (l1 ++ [x] ++ l2) -> dzs s !! x = Some d -> dz_valid d = 1 ->
  0 <= offset <= dz_size d ->
  exists s', dzmemory_split2 gc (S fuel) domain x offset s = Ok (Some (x0, x1), s') /\
    dz_rep s' ((l1 ++ [x0; x1] ++ l2) :: [x] :: cs) fl /\
    live (dzs s') a (l1 ++ [x0; x1] ++ l2) /\
    dzs s' !! x0 = Some (MkDz 1 1 (dz_mem d) offset JNI_FALSE (lastz NULL l1) x1 (dz_prevOwner d) domain) /\
    dzs s' !! x1 = Some (MkDz 1 1 (dz_mem d + offset) (dz_size d - offset) JNI_FALSE x0 (hd NULL l2)
                           domain (dz_nextOwner d)) /\
    outside s s' (l1 ++ [x0; x1] ++ [x] ++ l2).
Proof.
  intros Hrep Hlive Hd Hv Ho. pose proof (rep_distinct _ _ _ _ _ _ _ Hrep) as Hnd.
  pose proof Hrep as [_ _ Hcs Hfree]. pose proof Hcs as [(_ & Hseg & _) _]%Forall_cons.
  destruct (live_mid _ _ _ _ _ _ Hlive Hd) as (Em & Hm0 & Hs0 & Hend).
  destruct (seg_mid _ _ _ _ _ _ Hseg) as (d0 & Hd0 & Hp & Hn & _ & _).
  assert (d0 = d) as -> by congruence. clear Hd0 Hseg.
  nodup_facts Hnd. apply NoDup_app in Hnd as (Hnd1 & Hdis1 & Hnd). apply NoDup_app in Hnd as (Hnd2 & Hdis2 & _).
  unfold dzmemory_split2. rewrite (eqb_false x NULL) by ne. rewrite (dz_some _ _ _ Hd). cbn [negb assert_ rbind].
  rewrite Hv, (eqb_false (dz_mem d) NULL) by (unfold NULL; lia). cbn [negb assert_ rbind Z.eqb Pos.eqb].
  rewrite (u32_small offset) by lia.
  assert ((offset <? 0) || (dz_size d <? offset) = false) as -> by (rewrite !orb_false_iff, !Z.ltb_ge; lia).
  destruct (createDZMemory_free gc fuel s x0 (x1 :: fl) offset (dz_mem d)) as (s1 & -> & L1 & R1 & F1);
    [done|done|set_solver|]. cbn [rbind].
  destruct (createDZMemory_free gc fuel s1 x1 fl (u32 (dz_size d - offset)) (u32 (dz_mem d + offset))) as (s2 & -> & L2 & R2 & F2);
    [done|done|set_solver|]. cbn [rbind].
  assert (Hd3 : dzs s2 !! x = Some d) by (rewrite L2, L1; look; exact Hd).
  rewrite (dz_some _ _ _ Hd3). cbn [rbind]. rewrite Hp, Hn.
  eexists. split; [reflexivity|].
  set (s' := upd_dz x _ _).
  assert (Hred : forall y, y ∉ [x0; x1] -> y ∉ [x] -> redirected s s' l1 l2 x0 x1 y).
  { intros y Hy Hyx. assert (y <> x0 /\ y <> x1 /\ y <> x) as (? & ? & ?) by set_solver.
    unfold redirected, s'. look. rewrite L2, L1. by look. }
  assert (Ex : dzs s' !! x = Some (w_valid 0 (w_mem NULL (w_next NULL (w_prev NULL d))))).
  { unfold s'. look. rewrite L2, L1. look. by rewrite Hd. }
  assert (E0 : dzs s' !! x0 = Some (MkDz 1 1 (dz_mem d) offset JNI_FALSE (lastz NULL l1) x1 (dz_prevOwner d) domain)).
  { unfold s'. look. rewrite L2, L1. look. unfold fresh_dz. simpl. by rewrite !u32_small by lia. }
  assert (E1 : dzs s' !! x1 = Some (MkDz 1 1 (dz_mem d + offset) (dz_size d - offset) JNI_FALSE x0
     (hd NULL l2) domain (dz_nextOwner d))).
  { unfold s'. look. rewrite L2, L1. look. unfold fresh_dz. simpl.
    by rewrite (u32_small (dz_size d - offset)), (u32_small (dz_size d - offset)), (u32_small (dz_mem d + offset)) by lia. }
  destruct (replace_rep s s' (dzs s2) a l1 [x] l2 [x0; x1] cs fl) as (? & ? & ?); try done.
  - apply (same_rest_trans s s1); [done|]. apply (same_rest_trans s1 s2); [done|].
    unfold s', upd_if. by destruct (hd NULL l2 =? NULL), (lastz NULL l1 =? NULL).
  - cbn [seg hd]. eauto 20.
  - rewrite !fmap_cons, (range_some _ _ _ E0), (range_some _ _ _ E1). simpl. lia.
  - rewrite !fmap_cons, (range_some _ _ _ E0), (range_some _ _ _ E1), (range_some _ _ _ Hd). simpl. lia.
  - by apply (dead_single _ _ _ Ex).
  - replace (dzMemoryFreeList s') with (dzMemoryFreeList s2); [done|].
    unfold s', upd_if. by destruct (hd NULL l2 =? NULL), (lastz NULL l1 =? NULL).
  - intros y Hy. rewrite L2, L1. by look.
Qed.

(** ** Joining *)

Lemma dzmemory_join_spec fuel (s : dzstate A) l1 x y l2 cs z fl dx dy a :
  dz_rep s ((l1 ++ [x; y] ++ l2) :: cs) ([z] ++ fl) ->
  live (dzs s) a (l1 ++ [x; y] ++ l2) ->
  dzs s !! x = Some dx -> dzs s !! y = Some dy -> dz_valid dx = 1 -> dz_valid dy = 1 ->
  exists s', dzmemory_join gc (S fuel) x y s = Ok (z, s') /\
    dz_rep s' ((l1 ++ [z] ++ l2) :: [x; y] :: cs) fl /\ live (dzs s') a (l1 ++ [z] ++ l2) /\
    dzs s' !! z = Some (MkDz 1 1 (dz_mem dx) (dz_size dx + dz_size dy) JNI_FALSE (lastz NULL l1) (hd NULL l2)
                          (dz_prevOwner dx) (dz_nextOwner dy)) /\
    (exists dx' dy', dzs s' !! x = Some dx' /\ dzs s' !! y = Some dy' /\ dz_valid dx' = 0 /\ dz_valid dy' = 0) /\
    outside s s' (l1 ++ [z] ++ [x; y] ++ l2).
Proof.
  intros Hrep Hlive Hdx Hdy Hvx Hvy. pose proof (rep_distinct _ _ _ _ _ _ _ Hrep) as Hnd.
  pose proof Hrep as [_ _ Hcs Hfree]. pose proof Hcs as [(_ & Hseg & _) _]%Forall_cons.
  destruct (live_mid _ _ _ _ _ _ Hlive Hdx) as (Em & Hm0 & Hs0 & Hend).
  assert (Hliv2 : live (dzs s) a ((l1 ++ [x]) ++ y :: l2)) by (by rewrite <- (assoc_L (++))).
  destruct (live_mid _ _ _ _ _ _ Hliv2 Hdy) as (Emy & Hm0y & Hs0y & Hendy). clear Hliv2.
  rewrite fmap_app, total_app, fmap_cons, (range_some _ _ _ Hdx) in Emy. simpl in Emy.
  apply seg_app in Hseg as [_ (d1 & E1 & Hp & Hnx & d2 & E2 & Hpy & Hn & _)].
  assert (d1 = dx) as -> by congruence. assert (d2 = dy) as -> by congruence. clear E1 E2. cbn [hd app] in Hnx, Hn.
  nodup_facts Hnd. apply NoDup_app in Hnd as (Hnd1 & Hdis1 & Hnd). apply NoDup_app in Hnd as (Hnd2 & Hdis2 & _).
  unfold dzmemory_join. rewrite (eqb_false x NULL), (eqb_false y NULL) by ne.
  rewrite (dz_some _ _ _ Hdx), (dz_some _ _ _ Hdy). cbn [negb assert_ rbind].
  rewrite Hvx, Hvy, (eqb_false (dz_mem dx) NULL), (eqb_false (dz_mem dy) NULL) by (unfold NULL; lia).
  cbn [negb assert_ rbind Z.eqb Pos.eqb].
  assert ((dz_mem dx <=? dz_mem dy) = true) as -> by (apply Z.leb_le; lia).
  rewrite Hnx, Hpy, (Z.eqb_refl x), (Z.eqb_refl y). cbn [assert_ rbind].
  destruct (createDZMemory_free gc fuel s z fl (u32 (dz_size dx + dz_size dy)) (dz_mem dx)) as (s1 & -> & L1 & R1 & F1);
    [done|done|done|]. cbn [rbind].
  assert (Hdx1 : dzs s1 !! x = Some dx) by (rewrite L1; look; exact Hdx).
  assert (Hdy1 : dzs s1 !! y = Some dy) by (rewrite L1; look; exact Hdy).
  rewrite (dz_some _ _ _ Hdx1), (dz_some _ _ _ Hdy1). cbn [rbind]. rewrite Hp, Hn.
  eexists. split; [reflexivity|].
  set (s' := upd_dz y _ _).
  assert (Hred : forall k, k ∉ [z] -> k ∉ [x; y] -> redirected s s' l1 l2 z z k).
  { intros k Hk Hk2. assert (k <> z /\ k <> x /\ k <> y) as (? & ? & ?) by set_solver.
    unfold redirected, s'. look. rewrite L1. by look. }
  assert (Ez : dzs s' !! z = Some (MkDz 1 1 (dz_mem dx) (dz_size dx + dz_size dy) JNI_FALSE (lastz NULL l1) (hd NULL l2)
                          (dz_prevOwner dx) (dz_nextOwner dy))).
  { unfold s'. look. rewrite L1. look. unfold fresh_dz. simpl. by rewrite !(u32_small (dz_size dx + dz_size dy)) by lia. }
  assert (Ex : dzs s' !! x = Some (w_mem NULL (w_valid 0 (w_prev NULL dx)))).
  { unfold s'. look. rewrite L1. look. by rewrite Hdx. }
  assert (Ey : dzs s' !! y = Some (w_mem NULL (w_valid 0 (w_next NULL dy)))).
  { unfold s'. look. rewrite L1. look. by rewrite Hdy. }
  destruct (replace_rep s s' (dzs s1) a l1 [x; y] l2 [z] cs fl) as (? & ? & ?); try done.
  - apply (same_rest_trans s s1); [done|].
    unfold s', upd_if. by destruct (hd NULL l2 =? NULL), (lastz NULL l1 =? NULL).
  - cbn [seg hd]. eauto 20.
  - rewrite !fmap_cons, (range_some _ _ _ Ez). simpl. lia.
  - rewrite !fmap_cons, (range_some _ _ _ Ez), (range_some _ _ _ Hdx), (range_some _ _ _ Hdy). simpl. lia.
  - split; [done|]. split.
    + cbn [seg hd]. eexists. split; [exact Ex|]. split_and!; try done. eexists. split; [exact Ey|]. done.
    + right. repeat (apply Forall_cons; split); [|by rewrite (range_some _ _ _ Ey)|done]. by rewrite (range_some _ _ _ Ex).
  - replace (dzMemoryFreeList s') with (dzMemoryFreeList s1); [done|].
    unfold s', upd_if. by destruct (hd NULL l2 =? NULL), (lastz NULL l1 =? NULL).
  - intros k Hk. rewrite L1. by look.
  - split_and!; try done. eauto 10.
Qed.
End Split.

(** * The properties *)

Section RefCounts.
Context {A : Type} `{!Allocator A}.

Lemma refcount_rep x v (s : dzstate A) cs fl :
  x ∈ concat cs -> dz_rep s cs fl -> dz_rep (upd_dz x (w_refcount v) s) cs fl.
Proof.
  intros Hx [Hnd Hnull Hcs Hfr]. split; [done|done| |].
  - rewrite Forall_forall in *. intros l Hl. specialize (Hcs l Hl). eapply chunk_ok_ext; [|exact Hcs].
    intros y Hy. destruct Hcs as (_ & Hs & _). destruct (seg_dom _ _ _ _ _ Hs Hy) as [d Hd].
    exists d, (if y =? x then w_refcount v d else d). rewrite lookup_upd_dz, Hd. by destruct (y =? x).
  - eapply free_ok_agree; [|exact Hfr]. intros y Hy. rewrite lookup_upd_dz, eqb_false; [done|].
    intros ->. apply NoDup_app in Hnd as (_ & H & _). by apply (H x).
Qed.

Lemma refcount_range x v (s : dzstate A) (l : list Z) : range (dzs (upd_dz x (w_refcount v) s)) <$> l = range (dzs s) <$> l.
Proof.
  apply list_fmap_ext. intros i y _. unfold range. rewrite lookup_upd_dz.
  destruct (y =? x); [|done]. by destruct (dzs s !! y).
Qed.

Lemma refs_upd x v (s : dzstate A) y :
  is_Some (dzs s !! y) -> refs (dzs (upd_dz x (w_refcount v) s)) y = if y =? x then v else refs (dzs s) y.
Proof.
  intros [d Hd]. unfold refs. rewrite lookup_upd_dz, Hd. by destruct (y =? x).
Qed.

Lemma any_ref_false m l : any_ref m l = false <-> forall y, y ∈ l -> refs m y = 0.
Proof.
  induction l as [|x l IH]; [split; [set_solver|done]|]. rewrite any_ref_cons, orb_false_iff, IH, negb_false_iff, Z.eqb_eq.
  split; [intros [? ?] y; rewrite elem_of_cons; naive_solver|]. intros H. split; [|intros]; apply H; set_solver.
Qed.

Lemma in_concat_head x l (cs : list (list Z)) : x ∈ l -> x ∈ concat (l :: cs).
Proof. simpl. set_solver. Qed.

Lemma chunk_dom (s : dzstate A) l cs fl x : dz_rep s (l :: cs) fl -> x ∈ l -> is_Some (dzs s !! x).
Proof. intros [_ _ [(_ & Hs & _) _]%Forall_cons _] Hx. by eapply seg_dom. Qed.

(** [dzmemory_decRefcount] in terms of the chunk. *)
Lemma decRefcount_unfold fuel v sz m x (s : dzstate A) :
  is_Some (dzs s !! x) -> 1 <= refs (dzs s) x <= 4294967295 ->
  dzmemory_decRefcount fuel (MkProxy v sz m x) s =
    let s' := upd_dz x (w_refcount (refs (dzs s) x - 1)) s in
    if refs (dzs s) x =? 1 then dzmemory_free_chunk fuel x s' else Ok s'.
Proof.
  intros [d Hd] Hr. unfold dzmemory_decRefcount. cbn [p_dz]. rewrite (dz_some _ _ _ Hd). cbn [rbind].
  rewrite (refs_some _ _ _ Hd) in *. rewrite u32_small by lia.
  destruct (Z.eqb_spec (dz_refcount d) 1) as [E|E]; [by rewrite E|]. rewrite eqb_false by lia. done.
Qed.

(** The bytes [a, a + n) are the allocator's again, and nothing else changed
    hands. *)
Definition given_back (s s' : dzstate A) (a n : Z) : Prop :=
  al_ok (jx s') /\ forall b, owned (jx s') b <-> owned (jx s) b /\ ~ a <= b < a + al_span n.

(** C23 The last reference: when the only reference left in a chunk is dropped,
    the chunk goes back to the block allocator in one piece, with the base and
    the size of the original allocation; exactly its bytes become available,
    its descriptors join the free list and every other chunk is untouched. *)
Theorem decRefcount_last fuel v sz m x (s : dzstate A) l cs fl a :
  dz_rep s (l :: cs) fl -> live (dzs s) a l -> x ∈ l -> (length l < fuel)%nat ->
  refs (dzs s) x = 1 -> (forall y, y ∈ l -> y <> x -> refs (dzs s) y = 0) ->
  4 < total (range (dzs s) <$> l) -> total (range (dzs s) <$> l) + 1023 < 4294967296 ->
  al_ok (jx s) -> grant (jx s) a (total (range (dzs s) <$> l)) ->
  exists s', dzmemory_decRefcount fuel (MkProxy v sz m x) s = Ok s' /\
    dz_rep s' cs (hd NULL l :: rev (tl l) ++ fl) /\
    (forall y, y ∈ concat cs -> dzs s' !! y = dzs s !! y) /\ proxies s' = proxies s /\
    given_back s s' a (total (range (dzs s) <$> l)).
Proof.
  intros Hrep Hlive Hx Hfuel Hr1 Hr0 Hbig Hbnd Hok Hg.
  pose proof (chunk_dom _ _ _ _ _ Hrep Hx) as Hsome.
  rewrite decRefcount_unfold by (rewrite ?Hr1; (done || lia)). rewrite Hr1. cbn zeta. cbn [Z.eqb Pos.eqb Z.sub Z.pos_sub Z.add Z.opp].
  set (s1 := upd_dz x (w_refcount (1 - 1)) s).
  destruct (dzmemory_free_chunk_releases fuel x l s1 cs fl) as (s' & E & Hrep' & (_ & Hp & _ & _) & Hout);
    [by apply refcount_rep, Hrep; apply in_concat_head|done|done| |].
  { apply any_ref_false. intros y Hy. unfold s1. rewrite refs_upd by (by eapply chunk_dom).
    destruct (Z.eqb_spec y x); [done|]. by apply Hr0. }
  unfold give_back in E. assert (Erl : range (dzs s1) <$> l = range (dzs s) <$> l) by apply refcount_range. rewrite Erl in E.
  destruct (al_free_spec (total (range (dzs s) <$> l)) (jx s) a) as (j & Ej & Hj & Ho & _); [done|lia|done|done|].
  assert (Ea : fst (range (dzs s1) (hd NULL l)) = a).
  { destruct l as [|y l]; [by apply not_elem_of_nil in Hx|]. simpl.
    pose proof (refcount_range x (1 - 1) s [y]) as E1. simpl in E1. injection E1 as E1. unfold s1. rewrite E1.
    destruct Hlive as [_ Hc]. rewrite fmap_cons in Hc. destruct (range (dzs s) y). simpl in *. tauto. }
  change (jx s1) with (jx s) in E. rewrite Ea, eqb_false in E by (destruct Hlive; unfold NULL; lia).
  rewrite (proj2 (Z.ltb_lt _ _) Hbig) in E. cbn [assert_ rbind] in E. rewrite Ej in E. cbn [rbind] in E.
  exists (set_jx j s'). split_and!; [exact E|by destruct Hrep'| |exact Hp|done].
  intros y Hy. cbn [set_jx dzs]. rewrite Hout by done. unfold s1. rewrite lookup_upd_dz, eqb_false; [done|].
  intros ->. destruct Hrep as [Hnd _ _ _]. apply nodup_app3 in Hnd as (_ & _ & H & _). by apply (H x).
Qed.

Definition drop_ref (x : Z) (s : dzstate A) : dzstate A := upd_dz x (w_refcount (refs (dzs s) x - 1)) s.

(** A shared chunk survives: dropping a reference while another one is
    left, to the same range or to any other range of the chunk, changes that
    reference count and nothing else. *)
Theorem decRefcount_shared fuel v sz m x (s : dzstate A) l cs fl :
  dz_rep s (l :: cs) fl -> x ∈ l -> (length l < fuel)%nat ->
  1 <= refs (dzs s) x <= 4294967295 ->
  (1 < refs (dzs s) x \/ exists y, y ∈ l /\ y <> x /\ refs (dzs s) y <> 0) ->
  dzmemory_decRefcount fuel (MkProxy v sz m x) s = Ok (drop_ref x s) /\ dz_rep (drop_ref x s) (l :: cs) fl /\
  range (dzs (drop_ref x s)) <$> l = range (dzs s) <$> l.
Proof.
  intros Hrep Hx Hfuel Hr Hsh. unfold drop_ref. set (s' := upd_dz x _ s).
  pose proof (refcount_rep x (refs (dzs s) x - 1) s _ _ (in_concat_head _ _ _ Hx) Hrep) as Hrep'.
  split_and!; [|done|apply refcount_range].
  rewrite decRefcount_unfold by (by (eapply chunk_dom || lia)). cbn zeta.
  destruct (Z.eqb_spec (refs (dzs s) x) 1) as [E1|]; [|done].
  destruct Hsh as [?|(y & Hy & Hyx & Hry)]; [lia|].
  pose proof Hx as (l1 & l2 & ->)%list_elem_of_split.
  apply (dzmemory_free_chunk_keeps _ _ l1 l2 _ cs fl); [done|done| |].
  - fold s'. unfold s'. rewrite refs_upd, Z.eqb_refl by (by eapply chunk_dom). lia.
  - apply not_false_iff_true. rewrite any_ref_false. intros H. apply Hry. rewrite <- (H y Hy).
    rewrite refs_upd by (by eapply chunk_dom). by rewrite eqb_false.
Qed.
End RefCounts.

Section Partition.
Context {A : Type} `{!Allocator A}.
Context (gc : dzstate A -> dzstate A).

(** A subrange of a descriptor's range. *)
Definition subrange (d : DZMemoryProxy) (offset len : Z) : Prop := 0 <= offset /\ 0 <= len /\ offset + len <= dz_size d.
#[export] Instance subrange_dec d offset len : Decision (subrange d offset len).
Proof. unfold subrange. apply _. Defined.

(** C26 Splitting into three: for every pair of [jint] arguments the range is
    replaced, at its place in the chunk, by three ranges that cover exactly its
    bytes in order, each with one reference and owned by the splitting domain
    towards the inside; arguments outside the range, in particular negative
    ones and ones whose sum overflows, are refused without any change. *)
Theorem dzmemory_split3_partition fuel domain (s : dzstate A) l1 x l2 cs x0 x1 x2 fl d a offset len :
  dz_rep s ((l1 ++ [x] ++ l2) :: cs) ([x0; x1; x2] ++ fl) ->
  live (dzs s) a (l1 ++ [x] ++ l2) -> dzs s !! x = Some d -> dz_valid d = 1 ->
  -2147483648 <= offset < 2147483648 -> -2147483648 <= len < 2147483648 ->
  if bool_decide (subrange d offset len) then
    exists s', dzmemory_split3 gc (S fuel) domain x offset len s = Ok (Some (x0, x1, x2), s') /\
      dz_rep s' ((l1 ++ [x0; x1; x2] ++ l2) :: [x] :: cs) fl /\
      live (dzs s') a (l1 ++ [x0; x1; x2] ++ l2) /\
      range (dzs s') <$> [x0; x1; x2] =
        [(dz_mem d, offset); (dz_mem d + offset, len); (dz_mem d + offset + len, dz_size d - offset - len)] /\
      refs (dzs s') <$> [x0; x1; x2] = [1; 1; 1] /\
      outside s s' (l1 ++ [x0; x1; x2] ++ [x] ++ l2)
  else dzmemory_split3 gc (S fuel) domain x offset len s = Ok (None, s).
Proof.
  intros Hrep Hlive Hd Hv Ho Hl. case_bool_decide as Hb; unfold subrange in Hb.
  - destruct (dzmemory_split3_spec gc fuel domain s l1 x l2 cs x0 x1 x2 fl d a offset len)
      as (s' & E & ? & ? & E0 & E1 & E2 & ?); try done; try tauto.
    exists s'. split_and!; try done; rewrite !fmap_cons; simpl.
    + by rewrite (range_some _ _ _ E0), (range_some _ _ _ E1), (range_some _ _ _ E2).
    + by rewrite (refs_some _ _ _ E0), (refs_some _ _ _ E1), (refs_some _ _ _ E2).
  - destruct (live_mid _ _ _ _ _ _ Hlive Hd) as (Em & Hm0 & Hs0 & Hend).
    assert (Hx : x <> NULL). { intros ->. destruct Hrep as [_ Hnull _ _]. apply Hnull. simpl. set_solver. }
    unfold dzmemory_split3. rewrite (eqb_false x NULL), (dz_some _ _ _ Hd) by done. cbn [negb assert_ rbind].
    rewrite Hv, (eqb_false (dz_mem d) NULL) by (unfold NULL; lia). cbn [negb assert_ rbind Z.eqb Pos.eqb].
    destruct (Z.ltb_spec offset 0); [done|]. destruct (Z.ltb_spec len 0); [done|]. cbn [orb].
    rewrite u32_small by lia. by rewrite (proj2 (Z.ltb_lt _ _)) by lia.
Qed.

(** Splitting in two and joining the two parts again gives a range with
    the address, the size, the neighbours and the owners of the original one. *)
Theorem split2_join fuel domain (s : dzstate A) l1 x l2 cs x0 x1 z fl d a offset :
  dz_rep s ((l1 ++ [x] ++ l2) :: cs) ([x0; x1; z] ++ fl) ->
  live (dzs s) a (l1 ++ [x] ++ l2) -> dzs s !! x = Some d -> dz_valid d = 1 -> 0 <= offset <= dz_size d ->
  exists s1 s2 dz', dzmemory_split2 gc (S fuel) domain x offset s = Ok (Some (x0, x1), s1) /\
    dzmemory_join gc (S fuel) x0 x1 s1 = Ok (z, s2) /\
    dz_rep s2 ((l1 ++ [z] ++ l2) :: [x0; x1] :: [x] :: cs) fl /\ live (dzs s2) a (l1 ++ [z] ++ l2) /\
    dzs s2 !! z = Some dz' /\ dz_mem dz' = dz_mem d /\ dz_size dz' = dz_size d /\
    dz_prev dz' = dz_prev d /\ dz_next dz' = dz_next d /\
    dz_prevOwner dz' = dz_prevOwner d /\ dz_nextOwner dz' = dz_nextOwner d /\
    outside s s2 (l1 ++ [x0; x1; z] ++ [x] ++ l2).
Proof.
  intros Hrep Hlive Hd Hv Ho.
  destruct (dzmemory_split2_spec gc fuel domain s l1 x l2 cs x0 x1 (z :: fl) d a offset)
    as (s1 & E1 & Hrep1 & Hlive1 & D0 & D1 & [R1 O1]); try done.
  destruct (dzmemory_join_spec gc fuel s1 l1 x0 x1 l2 ([x] :: cs) z fl _ _ a Hrep1 Hlive1 D0 D1)
    as (s2 & E2 & Hrep2 & Hlive2 & Dz & _ & [R2 O2]); try done.
  destruct Hrep as [_ _ [(_ & Hs & _) _]%Forall_cons _]. apply seg_mid in Hs as (d0 & Hd0 & Hp & Hn & _).
  assert (d0 = d) as -> by congruence.
  exists s1, s2. eexists. split_and!; try done; simpl; [lia|].
  split; [by eapply same_rest_trans|]. intros y Hy.
  rewrite O2 by set_solver. apply O1. set_solver.
Qed.

Section Portal.
Context (gc_alloc : Z -> dzstate A -> res (Z * dzstate A)) (fuel : nat) (memoryClass curdom : Z).

Lemma revoke_prev_stop x last cur (s : dzstate A) d :
  dzs s !! x = Some d -> dz_prevOwner d <> curdom \/ dz_prev d = NULL ->
  revoke_prev gc (S fuel) curdom (S fuel) x last cur s = Ok (if dz_prevOwner d =? curdom then NULL else x, cur, s).
Proof.
  intros Hd H. cbn [revoke_prev]. rewrite (dz_some _ _ _ Hd). cbn [rbind].
  destruct (Z.eqb_spec (dz_prevOwner d) curdom); cbn [negb]; [|done]. by destruct H as [?| ->].
Qed.
Lemma revoke_next_stop x last cur (s : dzstate A) d :
  dzs s !! x = Some d -> dz_nextOwner d <> curdom \/ dz_next d = NULL ->
  revoke_next gc (S fuel) curdom (S fuel) x last cur s = Ok (if dz_nextOwner d =? curdom then NULL else x, cur, s).
Proof.
  intros Hd H. cbn [revoke_next]. rewrite (dz_some _ _ _ Hd). cbn [rbind].
  destruct (Z.eqb_spec (dz_nextOwner d) curdom); cbn [negb]; [|done]. by destruct H as [?| ->].
Qed.

Lemma alloc_proxy (s : dzstate A) dom vt x d o :
  gc_alloc dom s = Ok (o, s) -> o <> NULL -> dzs s !! x = Some d ->
  allocMemoryProxyInDomainDZM gc_alloc dom vt x s =
    Ok (o, set_proxies (<[o := MkProxy vt (dz_size d) (dz_mem d) x]> (proxies s)) s).
Proof.
  intros Ha Ho Hd. unfold allocMemoryProxyInDomainDZM, internalallocMemoryProxyInDomain. rewrite Ha. cbn [rbind].
  by rewrite (eqb_false o NULL), (dz_some _ _ _ Hd) by done.
Qed.

(** The part of the chunk before [d] was split off by another domain. *)
Definition foreign_left (d : DZMemoryProxy) : Prop := dz_prev d <> NULL /\ dz_prevOwner d <> curdom.

(** Revocation of one part of a split memory object by a domain that did
    not do the split: [dzmCurNew] is still uninitialised when the neighbour's
    link is written, so the outcome depends on what the stack slot held; with
    anything that is not a descriptor the kernel faults. *)
Theorem memory_revoke_uninitialised junk self m x d (s : dzstate A) cs l fl x0 :
  dz_rep s (l :: cs) (x0 :: fl) -> x ∈ l -> proxies s !! self = Some m -> p_dz m = x ->
  dzs s !! x = Some d -> dz_valid d = 1 ->
  foreign_left d -> dzs s !! junk = None ->
  memory_revoke gc gc_alloc (S fuel) memoryClass curdom junk self s = Err EFault.
Proof.
  intros Hrep Hx Hm Hmx Hd Hv [Hp Hpo] Hj.
  pose proof Hrep as [Hnd Hnull _ Hfree].
  apply NoDup_app in Hnd as (_ & Hdis & Hnd). apply NoDup_cons in Hnd as [Hx0 _].
  pose proof (Hdis x (in_concat_head _ _ _ Hx)) as Hxf. rewrite not_elem_of_cons in Hxf. destruct Hxf as [Hxx0 _].
  assert (Hxn : x <> NULL) by (intros ->; apply Hnull; simpl; set_solver).
  assert (Hx0n : NULL <> x0) by (intros <-; apply Hnull; set_solver).
  assert (Hjx : junk <> x0) by (intros ->; destruct Hfree as (_ & e & He & _); congruence).
  unfold memory_revoke, proxy at 1. rewrite Hm. cbn [rbind]. unfold CHECKVALID at 1. rewrite Hmx, (dz_some _ _ _ Hd).
  cbn [rbind]. rewrite Hv. cbn [Z.eqb rbind]. rewrite (eqb_false x NULL) by done. cbn [negb assert_ rbind].
  destruct (createDZMemory_free gc fuel s x0 fl (p_size m) (p_mem m)) as (s1 & -> & L1 & _ & _); [done|done|done|].
  cbn [rbind]. assert (D1 : dzs s1 !! x = Some d) by (rewrite L1; look; exact Hd).
  rewrite (revoke_prev_stop _ _ _ _ d) by auto. cbn [rbind]. rewrite (eqb_false _ _ Hpo), (eqb_false x NULL) by done.
  rewrite (dz_some _ _ _ D1). cbn [rbind]. rewrite (eqb_false _ _ Hp).
  unfold dz. rewrite L1, (eqb_false junk x0), Hj by done. done.
Qed.

(** [getSubRange] with an offset that is not, by accident, the address of
    a descriptor: the release of the leading part reads that part's size as
    the descriptor pointer, and the kernel faults (or decrements whatever the
    word at that address is). *)
Theorem memory_getSubRange_misreads self m l1 x l2 cs x0 x1 x2 fl d a offset len (s : dzstate A) :
  dz_rep s ((l1 ++ [x] ++ l2) :: cs) ([x0; x1; x2] ++ fl) -> live (dzs s) a (l1 ++ [x] ++ l2) ->
  self <> NULL -> proxies s !! self = Some m -> p_dz m = x -> dzs s !! x = Some d -> dz_valid d = 1 ->
  p_size m = dz_size d -> p_mem m = dz_mem d ->
  subrange d offset len -> dzs s !! offset = None ->
  memory_getSubRange gc gc_alloc (S fuel) memoryClass curdom self offset len s = Err EFault.
Proof.
  intros Hrep Hlive Hself Hm Hmx Hd Hv Hps Hpm (Ho & Hl & Hsz) Hoff.
  destruct (live_mid _ _ _ _ _ _ Hlive Hd) as (Em & Hm0 & Hs0 & Hend).
  assert (Hdom : forall y, y ∈ l1 ++ [x0; x1; x2] ++ [x] ++ l2 -> is_Some (dzs s !! y)).
  { intros y Hy. pose proof Hrep as [_ _ [(_ & Hseg & _) _]%Forall_cons (_ & e0 & H0 & _ & _ & _ & _ & _ & e1 & H1 & _ & _ & _ & _ & _ & e2 & H2 & _)].
    assert (y = x0 \/ y = x1 \/ y = x2 \/ y ∈ l1 ++ [x] ++ l2) as [->|[->|[->|Hin]]] by set_solver; eauto.
    by eapply seg_dom. }
  assert (Hno : offset ∉ l1 ++ [x0; x1; x2] ++ [x] ++ l2) by (intros Hin%Hdom; destruct Hin; congruence).
  unfold memory_getSubRange, CHECK_NULL_PTR, proxy. rewrite (eqb_false self NULL), Hm by done. cbn [rbind].
  unfold CHECKVALID. rewrite Hmx, (dz_some _ _ _ Hd). cbn [rbind]. rewrite Hv. cbn [Z.eqb rbind].
  rewrite Hps, Hpm, (Z.eqb_refl (dz_size d)), (Z.eqb_refl (dz_mem d)). cbn [assert_ rbind].
  rewrite u32_small by lia. destruct (Z.eqb_spec (offset + len) (dz_size d)) as [Eq|Ne].
  - destruct (dzmemory_split2_spec gc fuel curdom s l1 x l2 cs x0 x1 (x2 :: fl) d a offset)
      as (s1 & -> & _ & _ & D0 & _ & [_ O1]); try done; [lia|]. cbn [rbind].
    unfold decRefcount_of_dz. rewrite (dz_some _ _ _ D0). cbn [rbind]. unfold dzmemory_decRefcount, dz_as_proxy.
    cbn [p_dz dz_size]. unfold dz. rewrite O1 by set_solver. by rewrite Hoff.
  - destruct (dzmemory_split3_spec gc fuel curdom s l1 x l2 cs x0 x1 x2 fl d a offset len)
      as (s1 & -> & _ & _ & D0 & _ & _ & [_ O1]); try done. cbn [rbind].
    unfold decRefcount_of_dz. rewrite (dz_some _ _ _ D0). cbn [rbind]. unfold dzmemory_decRefcount, dz_as_proxy.
    cbn [p_dz dz_size]. unfold dz. rewrite O1 by done. by rewrite Hoff.
Qed.
End Portal.
End Partition.

(** * Witnesses: one memory object of 2000 bytes and three free descriptors *)

Definition free_dz (next : Z) : DZMemoryProxy := MkDz 0 2 0 0 0 0 next 0 0.
Definition demo (a : Z) (j : malloc_state) : dzstate malloc_state :=
  MkState {[ 100 := MkDz 1 1 a 2000 0 0 0 0 0; 136 := free_dz 172; 172 := free_dz 208; 208 := free_dz 0 ]}
    136 0 {[ 500 := MkProxy 7 2000 a 100 ]} ∅ j.
Definition demo_alloc (dom : Z) (s : dzstate malloc_state) : res (Z * dzstate malloc_state) := Ok (600, s).

Lemma demo_dz_live a j : 0 < a -> a + 2000 <= 4294967295 -> live (dzs (demo a j)) a [100].
Proof. intros. split; [done|]. change (range (dzs (demo a j)) <$> [100]) with [(a, 2000)]. simpl. lia. Qed.
Lemma demo_dz_rep a j : 0 < a -> a + 2000 <= 4294967295 -> dz_rep (demo a j) [[100]] [136; 172; 208].
Proof.
  intros. split; [apply (bool_decide_unpack _); vm_compute; exact I|apply (bool_decide_unpack _); vm_compute; exact I| |].
  - apply Forall_cons. split; [|done]. split; [done|]. split; [eexists; split; [reflexivity|done]|].
    left. exists a. by apply demo_dz_live.
  - simpl. split; [done|]. repeat (eexists; split_and!; try reflexivity).
Qed.

(** the same chunk after a split, as seen by domain 9 that received the second part *)
Definition demo2 : dzstate malloc_state :=
  MkState {[ 100 := MkDz 1 1 4096 1000 0 0 136 0 5; 136 := MkDz 1 1 5096 1000 0 100 0 5 0; 172 := free_dz 208; 208 := free_dz 0 ]}
    172 0 {[ 500 := MkProxy 7 1000 5096 136 ]} ∅ st16.
Lemma demo2_rep : dz_rep demo2 [[100; 136]] [172; 208].
Proof.
  split; [apply (bool_decide_unpack _); vm_compute; exact I|apply (bool_decide_unpack _); vm_compute; exact I| |].
  - apply Forall_cons. split; [|done]. split; [done|]. split.
    + eexists. split; [reflexivity|]. split_and!; [done|done|]. eexists. split; [reflexivity|done].
    + left. exists 4096. split; [lia|]. change (range (dzs demo2) <$> [100; 136]) with [(4096, 1000); (5096, 1000)]. simpl. lia.
  - simpl. split; [done|]. repeat (eexists; split_and!; try reflexivity).
Qed.

Lemma decRefcount_last_witness :
  exists a s', dzmemory_decRefcount 9 (MkProxy 7 2000 a 100) (demo a (match al_alloc 2000 st16 with Ok (_, j) => j | Err _ => st16 end))
     = Ok s' /\ dz_rep s' [] [100; 136; 172; 208].
Proof.
  destruct (al_alloc 2000 st16) as [[a j]|e] eqn:E; [|by vm_compute in E].
  destruct (@al_alloc_spec _ malloc_allocator 2000 st16 a j st16_good ltac:(lia) ltac:(lia) E) as (Hok & Ha & Hend & Hg & _).
  pose proof (al_span_le 2000 ltac:(lia)) as Hspan.
  assert (Ha0 : 0 < a) by (vm_compute in E; injection E as <- _; lia).
  assert (Et : total (range (dzs (demo a j)) <$> [100]) = 2000) by reflexivity.
  destruct (decRefcount_last 9 7 2000 a 100 (demo a j) [100] [] [136; 172; 208] a) as (s' & Es & Hrep & _);
    [apply demo_dz_rep; lia|apply demo_dz_live; lia|left|simpl; lia|reflexivity|
     intros y ->%list_elem_of_singleton ?; done|rewrite Et; lia|rewrite Et; lia|exact Hok|rewrite Et; exact Hg|].
  exists a, s'. split; [exact Es|exact Hrep].
Defined.

Lemma decRefcount_shared_witness :
  exists s', dzmemory_decRefcount 9 (MkProxy 7 1000 5096 136) demo2 = Ok s' /\ dz_rep s' [[100; 136]] [172; 208].
Proof.
  destruct (decRefcount_shared 9 7 1000 5096 136 demo2 [100; 136] [] [172; 208]) as (E & Hrep & _);
    [apply demo2_rep|set_solver|simpl; lia|vm_compute; split; discriminate|right; exists 100; split_and!; [set_solver|done|done]|].
  eexists. split; [exact E|exact Hrep].
Defined.

Lemma dzmemory_split3_partition_witness :
  exists s', dzmemory_split3 id 2 5 100 500 300 (demo 4096 st16) = Ok (Some (136, 172, 208), s') /\
    live (dzs s') 4096 [136; 172; 208].
Proof.
  pose proof (dzmemory_split3_partition id 1 5 (demo 4096 st16) [] 100 [] [] 136 172 208 [] (MkDz 1 1 4096 2000 0 0 0 0 0) 4096 500 300
    (demo_dz_rep 4096 st16 ltac:(lia) ltac:(lia)) (demo_dz_live 4096 st16 ltac:(lia) ltac:(lia)) eq_refl eq_refl ltac:(lia) ltac:(lia)) as H.
  rewrite bool_decide_eq_true_2 in H by (unfold subrange; simpl; lia). destruct H as (s' & E & _ & Hl & _). exists s'. by split.
Defined.

Lemma split2_join_witness :
  exists s1 s2, dzmemory_split2 id 2 5 100 500 (demo 4096 st16) = Ok (Some (136, 172), s1) /\
    dzmemory_join id 2 136 172 s1 = Ok (208, s2).
Proof.
  destruct (split2_join id 1 5 (demo 4096 st16) [] 100 [] [] 136 172 208 [] (MkDz 1 1 4096 2000 0 0 0 0 0) 4096 500)
    as (s1 & s2 & _ & E1 & E2 & _);
    first [done | apply demo_dz_rep; lia | apply demo_dz_live; lia | idtac]. by exists s1, s2.
Defined.

Lemma memory_revoke_uninitialised_witness :
  memory_revoke id demo_alloc 3 7 9 12345 500 demo2 = Err EFault.
Proof.
  apply (memory_revoke_uninitialised id demo_alloc 2 7 9 12345 500 (MkProxy 7 1000 5096 136) 136 (MkDz 1 1 5096 1000 0 100 0 5 0)
    demo2 [] [100; 136] [208] 172); try done; [apply demo2_rep|set_solver].
Defined.

Lemma memory_getSubRange_misreads_witness :
  memory_getSubRange id demo_alloc 3 7 5 500 64 1000 (demo 4096 st16) = Err EFault.
Proof.
  apply (memory_getSubRange_misreads id demo_alloc 2 7 5 500 (MkProxy 7 2000 4096 100) [] 100 [] [] 136 172 208 []
    (MkDz 1 1 4096 2000 0 0 0 0 0) 4096 64 1000);
    first [done | apply demo_dz_rep; lia | apply demo_dz_live; lia | idtac].
Defined.
