(* ===== verification/MemAccess.v ===== *)
(** * Access to memory objects (Interface/zero_Memory_org.c)

    Loads, stores, fills and copies through a memory proxy.  Every operation
    gets the object by reference, refuses a revoked range ([CHECKVALID]),
    compares indices with the size cached in the proxy, in the signedness the
    C expression has, and works on the flat byte memory.  Results are the new
    memory or the value read; the descriptor store is only read. *)

From S2P Require Import Prelude Mem CString JString Malloc Alloc DZMemory.
#[local] Open Scope Z_scope.

Definition MemoryIndexOutOfBounds {B} : res B := Err (EThrow "MemoryIndexOutOfBounds").

(** ** String instructions of the copy and fill routines (Assembly/lowlevel.S) *)

(** [rep stosl] with [count] words of value [eax] *)
Fixpoint stosl (m : memory) (edi eax : Z) (count : nat) : memory :=
  match count with
  | O => m
  | S k => stosl (store32 m edi eax) (edi + 4) eax k
  end.

(** [jxwmemset(dst, value, nbytes)]: an odd byte first, then a 16-bit word,
    then 32-bit words, all of the 16-bit pattern *)
Definition jxwmemset (m : memory) (dst value nbytes : Z) : memory :=
  let eax := u16 value + 65536 * u16 value in
  let ecx := u32 nbytes in
  let '(m, edi) := if Z.odd ecx then (store8 m dst eax, dst + 1) else (m, dst) in
  let ecx := ecx / 2 in
  let '(m, edi) := if Z.odd ecx then (store16 m edi eax, edi + 2) else (m, edi) in
  stosl m edi eax (Z.to_nat (ecx / 2)).

(** [rep movsb]; [rep movsl] (the source word is read before the store) *)
Definition jxbytecpy (m : memory) (source target nbytes : Z) : memory :=
  memcpy_loop m target source (Z.to_nat (u32 nbytes)).
Fixpoint movsl (m : memory) (esi edi step : Z) (count : nat) : memory :=
  match count with
  | O => m
  | S k => movsl (store32 m edi (load32 m esi)) (esi + step) (edi + step) step k
  end.
Definition jxwordcpy (m : memory) (source target nwords : Z) : memory :=
  movsl m source target 4 (Z.to_nat (u32 nwords)).

Section Access.
Context {A : Type}.
Abbreviation st := (dzstate A) (only parsing).

(** [CHECK_NULL_PTR(self); CHECKVALID(self)] and the fields of the proxy *)
Definition accessible (self : Z) (s : st) : res MemoryProxy :=
  let! _ := CHECK_NULL_PTR self in
  let! p := proxy s self in
  let! _ := CHECKVALID p s in
  Ok p.
(** the operations that dereference [self] without the test *)
Definition accessible_nonnull (self : Z) (s : st) : res MemoryProxy :=
  let! p := proxy s self in
  let! _ := CHECKVALID p s in
  Ok p.
Definition jsize (p : MemoryProxy) : Z := s32 (p_size p).

(** ** Single elements

    [where] is a [jint].  [size / sizeof(t)] is unsigned, so that a negative
    index is a large one; plain [size] and [size >> 2] are signed. *)

Definition memory_set8 (self where_ what : Z) (s : st) (m : memory) : res memory :=
  let! p := accessible self s in
  let! _ := assert_ "ptr != NULL" (negb (p_mem p =? NULL)) in
  if jsize p <=? where_ then MemoryIndexOutOfBounds
  else Ok (store8 m (u32 (p_mem p + where_)) what).

Definition memory_get8 (self where_ : Z) (s : st) (m : memory) : res Z :=
  if self =? NULL then Err (EPanic "STRANGE NULL") else
  let! p := accessible self s in
  if (jsize p <=? where_) || (where_ <? 0) then MemoryIndexOutOfBounds
  else Ok (s8 (load8 m (u32 (p_mem p + where_)))).

Definition memory_set16 (self where_ what : Z) (s : st) (m : memory) : res memory :=
  let! p := accessible self s in
  if p_size p / 2 <=? u32 where_ then MemoryIndexOutOfBounds
  else Ok (store16 m (u32 (p_mem p + 2 * where_)) what).

Definition memory_get16 (self where_ : Z) (s : st) (m : memory) : res Z :=
  let! p := accessible self s in
  if p_size p / 2 <=? u32 where_ then MemoryIndexOutOfBounds
  else Ok (load16 m (u32 (p_mem p + 2 * where_))).

Definition memory_set32 (self where_ what : Z) (s : st) (m : memory) : res memory :=
  let! p := accessible_nonnull self s in
  if Z.shiftr (jsize p) 2 <=? where_ then Err (EThrow "RuntimeException")
  else Ok (store32 m (u32 (p_mem p + 4 * where_)) what).

Definition memory_get32 (self where_ : Z) (s : st) (m : memory) : res Z :=
  let! p := accessible_nonnull self s in
  if p_size p / 4 <=? u32 where_ then Err (EPanic "Reading Memory access out of range")
  else Ok (s32 (load32 m (u32 (p_mem p + 4 * where_)))).

(** ** Fills *)

Definition memory_fill16 (self what where_ length : Z) (s : st) (m : memory) : res memory :=
  let! p := accessible self s in
  if p_size p / 2 <? u32 (where_ + length) then MemoryIndexOutOfBounds
  else Ok (jxwmemset m (u32 (p_mem p + 2 * where_)) what (length * 2)).

Definition memory_fill32 (self what where_ length : Z) (s : st) (m : memory) : res memory :=
  let! p := accessible self s in
  if p_size p / 4 <? u32 (where_ + length) then MemoryIndexOutOfBounds
  else Ok (stosl m (u32 (p_mem p + 4 * where_)) what (Z.to_nat length)).

Definition memory_clear (self : Z) (s : st) (m : memory) : res memory :=
  let! p := accessible self s in
  Ok (jxwmemset m (p_mem p) 0 (p_size p / 4)).

(** ** Copies inside the object *)

(** The inline assembly: byte, word and double word moves, upwards when the
    destination is below the source and downwards otherwise.  [count] is the
    unsigned content of [ecx]. *)
Definition move_up (m : memory) (dst src count : Z) : memory :=
  let '(m, dst, src) :=
    if Z.odd count then (store8 m dst (load8 m src), dst + 1, src + 1) else (m, dst, src) in
  let count := count / 2 in
  let '(m, dst, src) :=
    if Z.odd count then (store16 m dst (load16 m src), dst + 2, src + 2) else (m, dst, src) in
  movsl m src dst 4 (Z.to_nat (count / 2)).
Definition move_down (m : memory) (dst src count : Z) : memory :=
  let edi := dst + count - 4 in
  let esi := src + count - 4 in
  let '(m, edi, esi) :=
    if Z.odd count then (store8 m (edi + 3) (load8 m (esi + 3)), edi - 1, esi - 1) else (m, edi, esi) in
  let count := count / 2 in
  let '(m, edi, esi) :=
    if Z.odd count then (store16 m (edi + 2) (load16 m (esi + 2)), edi - 2, esi - 2) else (m, edi, esi) in
  movsl m esi edi (-4) (Z.to_nat (count / 2)).

(** No test of [self] or of its validity. *)
Definition memory_move (self __dst __src count : Z) (s : st) (m : memory) : res memory :=
  let! p := proxy s self in
  let dst := u32 (p_mem p + __dst) in
  let src := u32 (p_mem p + __src) in
  if (jsize p <? s32 (__dst + count)) || (jsize p <? s32 (__src + count)) then MemoryIndexOutOfBounds
  else Ok (if dst <? src then move_up m dst src (u32 count) else move_down m dst src (u32 count)).

Definition memory_copy (self from to len : Z) (s : st) (m : memory) : res memory :=
  let! p := accessible self s in
  if jsize p <? s32 (to + len) then Err (EPanic "to+len out of range")
  else if jsize p <? s32 (from + len) then Err (EPanic "from+len out of range")
  else Ok (memcpy_loop m (u32 (p_mem p + to)) (u32 (p_mem p + from)) (Z.to_nat len)).

Definition memory_getStartAddress (self : Z) (s : st) : res Z :=
  let! p := accessible_nonnull self s in Ok (s32 (p_mem p)).
Definition memory_size (self : Z) (s : st) : res Z := let! p := proxy s self in Ok (jsize p).

(** ** Byte arrays: one 32-bit element per byte *)

(** [*dst++ = *src++] from signed characters to elements, and back *)
Fixpoint chars_to_elements (m : memory) (dst src : Z) (n : nat) : memory :=
  match n with
  | O => m
  | S k => chars_to_elements (store32 m dst (s8 (load8 m src))) (dst + 4) (src + 1) k
  end.
Fixpoint elements_to_chars (m : memory) (dst src : Z) (n : nat) : memory :=
  match n with
  | O => m
  | S k => elements_to_chars (store8 m dst (load32 m src)) (dst + 1) (src + 4) k
  end.

Definition memory_copyToByteArray (self bytes array_offset mem_offset len : Z) (s : st) (m : memory) : res memory :=
  let! _ := CHECK_NULL_PTR self in
  let! _ := CHECK_NULL_PTR bytes in
  let! p := accessible_nonnull self s in
  if jsize p <? s32 (mem_offset + len) then MemoryIndexOutOfBounds
  else if arr_size m bytes <? s32 (array_offset + len) then MemoryIndexOutOfBounds
  else Ok (chars_to_elements m (u32 (arr_data bytes array_offset)) (u32 (p_mem p + mem_offset)) (Z.to_nat len)).

Definition memory_copyFromByteArray (self bytes array_offset mem_offset len : Z) (s : st) (m : memory) : res memory :=
  let! _ := CHECK_NULL_PTR self in
  let! _ := CHECK_NULL_PTR bytes in
  let! p := accessible_nonnull self s in
  if jsize p <? s32 (mem_offset + len) then MemoryIndexOutOfBounds
  else if arr_size m bytes <? s32 (array_offset + len) then MemoryIndexOutOfBounds
  else Ok (elements_to_chars m (u32 (p_mem p + mem_offset)) (u32 (arr_data bytes array_offset)) (Z.to_nat len)).

(** ** Copies between objects *)

(** The common tail: word copy when both addresses and the length allow it. *)
Definition copy_between (m : memory) (smem mem len : Z) : memory :=
  if Z.land (Z.lor (Z.lor smem mem) (u32 len)) 3 =? 0 then jxwordcpy m smem mem (Z.shiftr len 2)
  else jxbytecpy m smem mem len.

(** Only [self], the source, is tested for validity. *)
Definition memory_copyToMemory (self dst srcOffset dstOffset len : Z) (s : st) (m : memory) : res memory :=
  let! _ := CHECK_NULL_PTR self in
  let! _ := CHECK_NULL_PTR dst in
  let! p := accessible_nonnull self s in
  let! q := proxy s dst in
  if (jsize q <? s32 (dstOffset + len)) || (jsize p <? s32 (srcOffset + len)) then MemoryIndexOutOfBounds
  else Ok (copy_between m (u32 (p_mem p + srcOffset)) (u32 (p_mem q + dstOffset)) len).

Definition memory_copyFromMemory (self src srcOffset dstOffset len : Z) (s : st) (m : memory) : res memory :=
  let! _ := CHECK_NULL_PTR self in
  let! _ := CHECK_NULL_PTR src in
  let! p := accessible_nonnull self s in
  let! q := accessible_nonnull src s in
  if (jsize p <? s32 (dstOffset + len)) || (jsize q <? s32 (srcOffset + len)) then MemoryIndexOutOfBounds
  else Ok (copy_between m (u32 (p_mem q + srcOffset)) (u32 (p_mem p + dstOffset)) len).

(** ** Byte order *)

Definition in_range (p : MemoryProxy) (offset n : Z) : bool := s32 (offset + n) <=? jsize p.

Definition memory_getLittleEndian32 (self offset : Z) (s : st) (m : memory) : res Z :=
  let! p := accessible self s in
  if in_range p offset 4 then Ok (s32 (load32 m (u32 (p_mem p + offset)))) else MemoryIndexOutOfBounds.
Definition memory_setLittleEndian32 (self offset value : Z) (s : st) (m : memory) : res memory :=
  let! p := accessible self s in
  if in_range p offset 4 then Ok (store32 m (u32 (p_mem p + offset)) value) else MemoryIndexOutOfBounds.
Definition memory_getLittleEndian16 (self offset : Z) (s : st) (m : memory) : res Z :=
  let! p := accessible self s in
  if in_range p offset 2 then Ok (load16 m (u32 (p_mem p + offset))) else MemoryIndexOutOfBounds.
Definition memory_setLittleEndian16 (self offset value : Z) (s : st) (m : memory) : res memory :=
  let! p := accessible self s in
  if in_range p offset 2 then Ok (store16 m (u32 (p_mem p + offset)) value) else MemoryIndexOutOfBounds.

(** [((value & 0x00ff) << 8) | ((value & 0xff00) >> 8)] *)
Definition swap16 (value : Z) : Z :=
  Z.lor (Z.shiftl (Z.land value 255) 8) (Z.shiftr (Z.land value 65280) 8).
Definition memory_getBigEndian16 (self offset : Z) (s : st) (m : memory) : res Z :=
  let! p := accessible self s in
  if in_range p offset 2 then Ok (swap16 (s16 (load16 m (u32 (p_mem p + offset))))) else MemoryIndexOutOfBounds.
Definition memory_setBigEndian16 (self offset value : Z) (s : st) (m : memory) : res memory :=
  let! p := accessible self s in
  if in_range p offset 2 then Ok (store16 m (u32 (p_mem p + offset)) (swap16 (s16 value))) else MemoryIndexOutOfBounds.

(** The 32-bit variants swap register [eax] with an [asm] whose only operand is
    an output: what ends up in the variable is whatever the chosen register
    holds, the argument [reg]. *)
Definition memory_getBigEndian32 (reg self offset : Z) (s : st) (m : memory) : res Z :=
  let! p := accessible self s in
  if in_range p offset 4 then Ok reg else MemoryIndexOutOfBounds.
Definition memory_setBigEndian32 (reg self offset value : Z) (s : st) (m : memory) : res memory :=
  let! p := accessible self s in
  if in_range p offset 4 then Ok (store32 m (u32 (p_mem p + offset)) reg) else MemoryIndexOutOfBounds.

(** ** Operations that are no longer supported *)

Definition memory_getReadOnlySubRange (self offset len : Z) : res Z := Err (EPanic "NO LONGER SUPPORTED").
Definition memory_extendRange (self atbegin atend : Z) : res Z := Err (EPanic "NO LONGER SUPPORTED").
Definition memory_extendFullRange (self : Z) : res Z := Err (EPanic "NO LONGER SUPPORTED").
Definition memory_map (self vmclass : Z) : res Z := Err (EPanic "map not supported").
Definition memory_getOffset (self : Z) : res Z := Err (EPanic "NOT SUPPORTED").
Definition memory_isValid (self : Z) (s : st) : res bool := nonatomic_memoryIsValid self s.
End Access.

(** * Theory of the copy and fill instructions *)

Lemma load8_store16_byte m d v a :
  load8 (store16 m d v) a = if bool_decide (d <= a < d + 2) then u8 (Z.shiftr v (8 * (a - d))) else load8 m a.
Proof.
  case_bool_decide as H.
  - unfold store16. assert (a = d \/ a = d + 1) as [->| ->] by lia.
    + rewrite load8_store8_ne by lia. rewrite load8_store8. by replace (8 * (d - d)) with 0 by lia.
    + rewrite load8_store8. by replace (8 * (d + 1 - d)) with 8 by lia.
  - by apply load8_store16_ne; lia.
Qed.

Lemma load8_store32_byte m d v a :
  load8 (store32 m d v) a = if bool_decide (d <= a < d + 4) then u8 (Z.shiftr v (8 * (a - d))) else load8 m a.
Proof.
  unfold store32. rewrite !load8_store16_byte.
  repeat case_bool_decide; try lia; try done.
  rewrite Z.shiftr_shiftr by lia. do 2 f_equal. lia.
Qed.

(** The [k]-th byte of a loaded word. *)
Lemma load32_byte m s k : 0 <= k < 4 -> u8 (Z.shiftr (load32 m s) (8 * k)) = load8 m (s + k).
Proof.
  intros Hk. pose proof (load8_range m s). pose proof (load8_range m (s + 1)).
  pose proof (load8_range m (s + 2)). pose proof (load8_range m (s + 3)).
  unfold load32, load16, u8, uwrap. rewrite Z.shiftr_div_pow2 by lia. change (2 ^ 8) with 256.
  assert (k = 0 \/ k = 1 \/ k = 2 \/ k = 3) as [->|[->|[->| ->]]] by lia; simpl Z.mul; simpl Z.pow;
    replace (s + 2 + 1) with (s + 3) by lia; rewrite ?Z.add_0_r; Z.div_mod_to_equations; lia.
Qed.
Lemma load16_byte m s k : 0 <= k < 2 -> u8 (Z.shiftr (load16 m s) (8 * k)) = load8 m (s + k).
Proof.
  intros Hk. pose proof (load8_range m s). pose proof (load8_range m (s + 1)).
  unfold load16, u8, uwrap. rewrite Z.shiftr_div_pow2 by lia. change (2 ^ 8) with 256.
  assert (k = 0 \/ k = 1) as [->| ->] by lia; simpl Z.mul; simpl Z.pow;
    rewrite ?Z.add_0_r; Z.div_mod_to_equations; lia.
Qed.

(** [copied m m' d s n]: [m'] is [m] with the [n] bytes at [s] copied to [d]. *)
Definition copied (m m' : memory) (d s n : Z) : Prop :=
  forall a, load8 m' a = if bool_decide (d <= a < d + n) then load8 m (s + (a - d)) else load8 m a.

Lemma copied_nil m d s : copied m m d s 0.
Proof. intros a. by rewrite bool_decide_eq_false_2 by lia. Qed.
Lemma copied_8 m d s : copied m (store8 m d (load8 m s)) d s 1.
Proof.
  intros a. case_bool_decide.
  - assert (a = d) as -> by lia. rewrite load8_store8, Z.sub_diag, Z.add_0_r. apply u8_small, load8_range.
  - apply load8_store8_ne. lia.
Qed.
Lemma copied_16 m d s : copied m (store16 m d (load16 m s)) d s 2.
Proof. intros a. rewrite load8_store16_byte. case_bool_decide; [apply load16_byte; lia|done]. Qed.
Lemma copied_32 m d s : copied m (store32 m d (load32 m s)) d s 4.
Proof. intros a. rewrite load8_store32_byte. case_bool_decide; [apply load32_byte; lia|done]. Qed.

(** Two pieces upwards: right when the source is not below the destination, or
    the regions are apart; downwards when it is not above. *)
Lemma copied_up m m1 m2 d s w n :
  0 <= w -> 0 <= n -> d <= s \/ s + w + n <= d ->
  copied m m1 d s w -> copied m1 m2 (d + w) (s + w) n -> copied m m2 d s (w + n).
Proof.
  intros Hw Hn Hds H1 H2 a. rewrite H2, !H1.
  repeat case_bool_decide; try lia; try done; f_equal; lia.
Qed.
Lemma copied_down m m1 m2 d s w n :
  0 <= w -> 0 <= n -> s <= d ->
  copied m m1 (d + n) (s + n) w -> copied m1 m2 d s n -> copied m m2 d s (w + n).
Proof.
  intros Hw Hn Hds H1 H2 a. rewrite H2, !H1.
  repeat case_bool_decide; try lia; try done; f_equal; lia.
Qed.

Lemma movsl_up n : forall m d s,
  d <= s \/ s + 4 * Z.of_nat n <= d -> copied m (movsl m s d 4 n) d s (4 * Z.of_nat n).
Proof.
  induction n as [|n IH]; intros m d s H; [apply copied_nil|].
  cbn [movsl]. replace (4 * Z.of_nat (S n)) with (4 + 4 * Z.of_nat n) by lia.
  eapply copied_up; [lia|lia|lia|apply copied_32|]. apply IH. lia.
Qed.
Lemma movsl_down n : forall m d s,
  s <= d -> copied m (movsl m (s + 4 * Z.of_nat n - 4) (d + 4 * Z.of_nat n - 4) (-4) n) d s (4 * Z.of_nat n).
Proof.
  induction n as [|n IH]; intros m d s H; [apply copied_nil|].
  cbn [movsl]. replace (4 * Z.of_nat (S n)) with (4 + 4 * Z.of_nat n) by lia.
  replace (s + (4 + 4 * Z.of_nat n) - 4) with (s + 4 * Z.of_nat n) by lia.
  replace (d + (4 + 4 * Z.of_nat n) - 4) with (d + 4 * Z.of_nat n) by lia.
  eapply copied_down; [lia|lia|done|apply copied_32|]. by apply IH.
Qed.
Lemma memcpy_loop_up n : forall m d s,
  d <= s \/ s + Z.of_nat n <= d -> copied m (memcpy_loop m d s n) d s (Z.of_nat n).
Proof.
  induction n as [|n IH]; intros m d s H; [apply copied_nil|].
  cbn [memcpy_loop]. replace (Z.of_nat (S n)) with (1 + Z.of_nat n) by lia.
  eapply copied_up; [lia|lia|lia|apply copied_8|]. apply IH. lia.
Qed.

(** [count = (low bit) + 2 (next bit) + 4 (rest)], as the shifts of [ecx] split it *)
Lemma count_split c : 0 <= c ->
  c = (if Z.odd c then 1 else 0) + (if Z.odd (c / 2) then 2 else 0) + 4 * Z.of_nat (Z.to_nat (c / 2 / 2)).
Proof.
  intros Hc. rewrite Z2Nat.id by (apply Z.div_pos; [apply Z.div_pos; lia|lia]).
  pose proof (Zmod_odd c). pose proof (Zmod_odd (c / 2)).
  destruct (Z.odd c), (Z.odd (c / 2)); Z.div_mod_to_equations; lia.
Qed.

Lemma move_up_copied m d s c : 0 <= c -> d <= s -> copied m (move_up m d s c) d s c.
Proof.
  intros Hc Hds. unfold move_up. pose proof (count_split c Hc) as E. set (n := Z.to_nat (c / 2 / 2)) in *.
  assert (Htail : forall m1 d1 s1, d1 <= s1 -> copied m1
    (let '(m, dst, src) := if Z.odd (c / 2) then (store16 m1 d1 (load16 m1 s1), d1 + 2, s1 + 2) else (m1, d1, s1) in
     movsl m src dst 4 n) d1 s1 ((if Z.odd (c / 2) then 2 else 0) + 4 * Z.of_nat n)).
  { intros m1 d1 s1 H1. destruct (Z.odd (c / 2)); [|apply movsl_up; lia].
    eapply copied_up; [lia|lia|by left|apply copied_16|]. apply movsl_up. lia. }
  match goal with |- copied _ ?R _ _ _ =>
    enough (H : copied m R d s ((if Z.odd c then 1 else 0) + (if Z.odd (c / 2) then 2 else 0) + 4 * Z.of_nat n))
      by (by rewrite <- E in H)
  end. clear E.
  destruct (Z.odd c); cbv iota.
  - rewrite <- (Z.add_assoc 1). eapply copied_up; [lia|destruct (Z.odd (c / 2)); lia|by left|apply copied_8|].
    apply Htail. lia.
  - by apply Htail.
Qed.

Lemma move_down_copied m d s c : 0 <= c -> s <= d -> copied m (move_down m d s c) d s c.
Proof.
  intros Hc Hds. unfold move_down. pose proof (count_split c Hc) as E. set (n := Z.to_nat (c / 2 / 2)) in *.
  set (b := if Z.odd c then 1 else 0) in *. set (w := if Z.odd (c / 2) then 2 else 0) in *.
  assert (Hb : 0 <= b) by (unfold b; destruct (Z.odd c); lia).
  assert (Hw : 0 <= w) by (unfold w; destruct (Z.odd (c / 2)); lia).
  assert (Htail : forall m1 edi esi, edi = d + (w + 4 * Z.of_nat n) - 4 -> esi = s + (w + 4 * Z.of_nat n) - 4 -> copied m1
    (let '(m, edi, esi) := if Z.odd (c / 2) then (store16 m1 (edi + 2) (load16 m1 (esi + 2)), edi - 2, esi - 2) else (m1, edi, esi) in
     movsl m esi edi (-4) n) d s (w + 4 * Z.of_nat n)).
  { intros m1 edi esi -> ->. unfold w. destruct (Z.odd (c / 2)).
    - replace (s + (2 + 4 * Z.of_nat n) - 4 + 2) with (s + 4 * Z.of_nat n) by lia.
      replace (d + (2 + 4 * Z.of_nat n) - 4 + 2) with (d + 4 * Z.of_nat n) by lia.
      replace (s + (2 + 4 * Z.of_nat n) - 4 - 2) with (s + 4 * Z.of_nat n - 4) by lia.
      replace (d + (2 + 4 * Z.of_nat n) - 4 - 2) with (d + 4 * Z.of_nat n - 4) by lia.
      eapply copied_down; [lia|lia|done|apply copied_16|]. by apply movsl_down.
    - rewrite !Z.add_0_l. by apply movsl_down. }
  assert (Ec : c = b + (w + 4 * Z.of_nat n)) by lia. clear E.
  match goal with |- copied _ ?R _ _ _ =>
    enough (H : copied m R d s (b + (w + 4 * Z.of_nat n))) by (by rewrite <- Ec in H)
  end.
  unfold b in *. destruct (Z.odd c); cbv iota; [|by apply Htail; lia].
  replace (d + c - 4 + 3) with (d + (w + 4 * Z.of_nat n)) by lia.
  replace (s + c - 4 + 3) with (s + (w + 4 * Z.of_nat n)) by lia.
  eapply copied_down; [lia|lia|done|apply copied_8|]. apply Htail; lia.
Qed.

(** Filling with zeros. *)
Definition zeroed (m m' : memory) (d n : Z) : Prop :=
  forall a, load8 m' a = if bool_decide (d <= a < d + n) then 0 else load8 m a.

Lemma stosl_zero k : forall m d, zeroed m (stosl m d 0 k) d (4 * Z.of_nat k).
Proof.
  induction k as [|k IH]; intros m d a; cbn [stosl].
  - by rewrite bool_decide_eq_false_2 by lia.
  - rewrite IH, load8_store32_byte. rewrite Z.shiftr_0_l. repeat case_bool_decide; try lia; done.
Qed.

Lemma jxwmemset_zero m d n : 0 <= n <= 4294967295 -> zeroed m (jxwmemset m d 0 n) d n.
Proof.
  intros Hn. unfold jxwmemset. rewrite (u32_small n) by lia.
  change (u16 0 + 65536 * u16 0) with 0.
  pose proof (count_split n ltac:(lia)) as E. set (k := Z.to_nat (n / 2 / 2)) in *.
  intros a. destruct (Z.odd n), (Z.odd (n / 2)); cbv iota; cbv iota in E; rewrite stosl_zero, ?load8_store16_byte, ?Z.shiftr_0_l;
    repeat case_bool_decide; try lia; try done.
  all: first [ rewrite load8_store8_ne by lia; done
             | match goal with |- load8 (store8 _ ?d _) ?a = _ => assert (a = d) as -> by lia end; by rewrite load8_store8 ].
Qed.

Section Claims.
Context {A : Type}.

(** [self] refers to a memory object that was not revoked, whose bytes lie in
    the address space. *)
Definition usable (s : dzstate A) (self : Z) (p : MemoryProxy) : Prop :=
  self <> NULL /\ proxies s !! self = Some p /\
  (exists d, dzs s !! p_dz p = Some d /\ dz_valid d <> 0) /\
  0 < p_mem p /\ 0 <= p_size p < 2147483648 /\ p_mem p + p_size p <= 4294967295.

Lemma usable_accessible s self p : usable s self p -> accessible self s = Ok p.
Proof.
  intros (Hn & Hp & (d & Hd & Hv) & _). unfold accessible, CHECK_NULL_PTR, proxy, CHECKVALID, dz.
  rewrite (proj2 (Z.eqb_neq self NULL) Hn), Hp. cbn [rbind]. rewrite Hd. cbn [rbind].
  by rewrite (proj2 (Z.eqb_neq _ 0) Hv).
Qed.
Lemma usable_nonnull s self p : usable s self p -> accessible_nonnull self s = Ok p.
Proof.
  intros (Hn & Hp & (d & Hd & Hv) & _). unfold accessible_nonnull, proxy, CHECKVALID, dz.
  rewrite Hp. cbn [rbind]. rewrite Hd. cbn [rbind]. by rewrite (proj2 (Z.eqb_neq _ 0) Hv).
Qed.

Lemma u32_neg z : -2147483648 <= z < 0 -> u32 z = z + 4294967296.
Proof.
  intros. unfold u32, uwrap. change (2 ^ 32) with 4294967296. symmetry. apply (Z.mod_unique _ _ (-1)); lia.
Qed.
Lemma usable_jsize s self p : usable s self p -> jsize p = p_size p.
Proof. intros (_ & _ & _ & _ & Hs & _). apply s32_small. lia. Qed.

(** 16-bit elements: for every [jint] index the pair of accessors agrees
    on the bounds; inside, a store writes the two bytes of that element, all
    inside the object, and the load returns the stored value zero-extended;
    outside, negative indices included, both throw. *)
Theorem memory_get16_set16 self p (s : dzstate A) (m : memory) where_ what :
  usable s self p -> -2147483648 <= where_ < 2147483648 ->
  if bool_decide (0 <= where_ /\ 2 * where_ + 2 <= p_size p) then
    exists m', memory_set16 self where_ what s m = Ok m' /\ memory_get16 self where_ s m' = Ok (u16 what) /\
      (forall a, ~ p_mem p + 2 * where_ <= a < p_mem p + 2 * where_ + 2 -> load8 m' a = load8 m a)
  else memory_set16 self where_ what s m = MemoryIndexOutOfBounds /\
       memory_get16 self where_ s m = MemoryIndexOutOfBounds.
Proof.
  intros Hu Hw. pose proof Hu as (_ & _ & _ & Hm & Hs & He). unfold memory_set16, memory_get16.
  rewrite (usable_accessible _ _ _ Hu). cbn [rbind]. case_bool_decide as Hb.
  - rewrite (u32_small where_), (u32_small (p_mem p + 2 * where_)) by lia.
    rewrite (proj2 (Z.leb_gt _ _)) by (apply Z.div_le_lower_bound || (Z.div_mod_to_equations; lia)).
    eexists. split_and!; [done|by rewrite load16_store16|]. intros a Ha. apply load8_store16_ne; lia.
  - assert (p_size p / 2 <= u32 where_) as H.
    { destruct (decide (where_ < 0)); [rewrite u32_neg by lia|rewrite u32_small by lia]; Z.div_mod_to_equations; lia. }
    by rewrite (proj2 (Z.leb_le _ _) H).
Qed.

(** [set8] misses the test for negative indices: a negative index stores
    below the object. *)
Theorem memory_set8_negative self p (s : dzstate A) (m : memory) where_ what :
  usable s self p -> - p_mem p <= where_ < 0 ->
  exists m', memory_set8 self where_ what s m = Ok m' /\ load8 m' (p_mem p + where_) = u8 what /\
    memory_get8 self where_ s m = MemoryIndexOutOfBounds.
Proof.
  intros Hu Hw. pose proof Hu as (Hn & _ & _ & Hm & Hs & He). pose proof (usable_jsize _ _ _ Hu) as Hj.
  unfold memory_set8, memory_get8. rewrite (proj2 (Z.eqb_neq self NULL) Hn), (usable_accessible _ _ _ Hu). cbn [rbind].
  rewrite (proj2 (Z.eqb_neq (p_mem p) NULL)) by (unfold NULL; lia). cbn [negb assert_ rbind].
  rewrite Hj, (proj2 (Z.leb_gt _ _)) by lia. rewrite (proj2 (Z.ltb_lt where_ 0)) by lia. rewrite u32_small by lia.
  eexists. split_and!; [done|apply load8_store8|done].
Qed.

(** C25 [move] inside an object: whatever the overlap and the alignment, the
    destination gets the bytes the source had before, and no other byte
    changes. *)
Theorem memory_move_moves self p (s : dzstate A) (m : memory) dst src count :
  usable s self p -> 0 <= dst -> 0 <= src -> 0 <= count -> dst + count <= p_size p -> src + count <= p_size p ->
  exists m', memory_move self dst src count s m = Ok m' /\
    copied m m' (p_mem p + dst) (p_mem p + src) count.
Proof.
  intros Hu Hd Hsr Hc Hde Hse. pose proof Hu as (_ & Hp & _ & Hm & Hs & He). unfold memory_move, proxy. rewrite Hp. cbn [rbind].
  rewrite (usable_jsize _ _ _ Hu), (u32_small (p_mem p + dst)), (u32_small (p_mem p + src)), (u32_small count) by lia.
  rewrite (s32_small (dst + count)), (s32_small (src + count)) by lia.
  rewrite !(proj2 (Z.ltb_ge _ _)) by lia. cbn [orb]. eexists. split; [done|].
  destruct (Z.ltb_spec (p_mem p + dst) (p_mem p + src)).
  - apply move_up_copied; lia.
  - apply move_down_copied; lia.
Qed.

(** [clear] hands the number of 32-bit words to a routine that expects
    bytes: it zeroes exactly the first quarter of the object. *)
Theorem memory_clear_quarter self p (s : dzstate A) (m : memory) :
  usable s self p ->
  exists m', memory_clear self s m = Ok m' /\ zeroed m m' (p_mem p) (p_size p / 4).
Proof.
  intros Hu. pose proof Hu as (_ & _ & _ & Hm & Hs & He). unfold memory_clear. rewrite (usable_accessible _ _ _ Hu).
  cbn [rbind]. eexists. split; [done|]. apply jxwmemset_zero.
  split; [apply Z.div_pos; lia|]. apply (Z.le_trans _ (p_size p)); [apply Z.div_le_upper_bound|]; lia.
Qed.

Lemma copy_between_copied m smem mem len :
  0 <= len <= 4294967295 -> mem <= smem \/ smem + len <= mem -> copied m (copy_between m smem mem len) mem smem len.
Proof.
  intros Hl Hd. unfold copy_between. rewrite u32_small by lia. destruct (Z.eqb_spec (Z.land (Z.lor (Z.lor smem mem) len) 3) 0) as [E|_].
  - assert (Hl4 : len = 4 * (len / 4)).
    { rewrite Z.land_lor_distr_l in E. apply Z.lor_eq_0_iff in E as [_ E].
      change 3 with (Z.ones 2) in E. rewrite Z.land_ones in E by lia. change (2 ^ 2) with 4 in E.
      Z.div_mod_to_equations. lia. }
    unfold jxwordcpy. rewrite Z.shiftr_div_pow2 by lia. change (2 ^ 2) with 4.
    rewrite u32_small by (Z.div_mod_to_equations; lia).
    assert (Ek : len = 4 * Z.of_nat (Z.to_nat (len / 4))) by (rewrite Z2Nat.id by (apply Z.div_pos; lia); exact Hl4).
    rewrite Ek at 2. apply movsl_up. rewrite <- Ek. lia.
  - unfold jxbytecpy. rewrite u32_small by lia.
    assert (Ek : len = Z.of_nat (Z.to_nat len)) by lia. rewrite Ek at 2. apply memcpy_loop_up. rewrite <- Ek. lia.
Qed.

(** Copying between two memory objects that do not overlap transfers
    exactly the requested bytes, by words or by bytes as alignment allows, and
    a request beyond either object is refused. *)
Theorem memory_copyFromMemory_copies self p src q (s : dzstate A) (m : memory) srcOffset dstOffset len :
  usable s self p -> usable s src q -> 0 <= srcOffset < 1073741824 -> 0 <= dstOffset < 1073741824 -> 0 <= len < 1073741824 ->
  p_mem p + p_size p <= p_mem q \/ p_mem q + p_size q <= p_mem p ->
  if bool_decide (dstOffset + len <= p_size p /\ srcOffset + len <= p_size q) then
    exists m', memory_copyFromMemory self src srcOffset dstOffset len s m = Ok m' /\
      copied m m' (p_mem p + dstOffset) (p_mem q + srcOffset) len
  else memory_copyFromMemory self src srcOffset dstOffset len s m = MemoryIndexOutOfBounds.
Proof.
  intros Hp Hq Hso Hdo Hl Hdis. pose proof Hp as (Hn1 & _ & _ & Hm1 & Hs1 & He1). pose proof Hq as (Hn2 & _ & _ & Hm2 & Hs2 & He2).
  unfold memory_copyFromMemory, CHECK_NULL_PTR.
  rewrite (proj2 (Z.eqb_neq self NULL) Hn1), (proj2 (Z.eqb_neq src NULL) Hn2). cbn [rbind].
  rewrite (usable_nonnull _ _ _ Hp), (usable_nonnull _ _ _ Hq). cbn [rbind].
  rewrite (usable_jsize _ _ _ Hp), (usable_jsize _ _ _ Hq), !s32_small by lia. case_bool_decide as Hb.
  - rewrite !(proj2 (Z.ltb_ge _ _)) by lia. cbn [orb]. rewrite !u32_small by lia. eexists. split; [done|].
    apply copy_between_copied; lia.
  - destruct (Z.ltb_spec (p_size p) (dstOffset + len)); [done|]. by rewrite (proj2 (Z.ltb_lt (p_size q) _)) by lia.
Qed.

Lemma swap16_bytes v : swap16 v = 256 * (v mod 256) + v / 256 mod 256.
Proof.
  unfold swap16. rewrite Z.shiftr_land, (Z.shiftr_div_pow2 v) by lia. change (Z.shiftr 65280 8) with (Z.ones 8).
  change 255 with (Z.ones 8). rewrite !Z.land_ones, Z.shiftl_mul_pow2 by lia. change (2 ^ 8) with 256.
  rewrite <- Z.lxor_lor; [rewrite <- Z.add_nocarry_lxor; [lia|]|].
  all: apply Z.bits_inj'; intros n Hn; rewrite Z.land_spec, Z.bits_0; change 256 with (2 ^ 8);
    rewrite <- Z.shiftl_mul_pow2 by lia;
    (destruct (Z.ltb_spec n 8);
     [by rewrite Z.shiftl_spec_low|rewrite (Z.mod_pow2_bits_high (v / 2 ^ 8)) by lia; apply andb_false_r]).
Qed.

Lemma load16_eq_mod m a : load16 m a mod 256 = load8 m a /\ load16 m a / 256 = load8 m (a + 1).
Proof.
  unfold load16. pose proof (load8_range m a). pose proof (load8_range m (a + 1)). Z.div_mod_to_equations. lia.
Qed.
Lemma s16_bytes v : 0 <= v < 65536 -> s16 v mod 256 = v mod 256 /\ s16 v / 256 mod 256 = v / 256.
Proof.
  intros. unfold s16, swrap. change (2 ^ (16 - 1)) with 32768. change (2 ^ 16) with 65536. Z.div_mod_to_equations. lia.
Qed.

(** Big-endian 16-bit fields: a store puts the high byte first, whatever
    the sign of the value, and the load returns the stored value zero-extended. *)
Theorem memory_getBigEndian16_set self p (s : dzstate A) (m : memory) offset value :
  usable s self p -> 0 <= offset -> offset + 2 <= p_size p ->
  exists m', memory_setBigEndian16 self offset value s m = Ok m' /\
    load8 m' (p_mem p + offset) = u16 value / 256 /\ load8 m' (p_mem p + offset + 1) = u16 value mod 256 /\
    memory_getBigEndian16 self offset s m' = Ok (u16 value).
Proof.
  intros Hu Ho He2. pose proof Hu as (_ & _ & _ & Hm & Hs & He).
  unfold memory_setBigEndian16, memory_getBigEndian16, in_range. rewrite (usable_accessible _ _ _ Hu). cbn [rbind].
  rewrite (usable_jsize _ _ _ Hu), (s32_small (offset + 2)) by lia. rewrite (proj2 (Z.leb_le _ _)) by lia.
  rewrite (u32_small (p_mem p + offset)) by lia. set (a := p_mem p + offset).
  set (v := u16 value). assert (Hv : 0 <= v < 65536) by (unfold v, u16, uwrap; apply Z.mod_pos_bound; lia).
  assert (Hsw : swap16 (s16 value) = 256 * (v mod 256) + v / 256).
  { rewrite swap16_bytes. destruct (s16_bytes v Hv) as [<- <-].
    replace (s16 v) with (s16 value); [done|]. unfold v, u16, s16, uwrap, swrap.
    by rewrite Zplus_mod_idemp_l. }
  assert (Hl : load16 (store16 m a (swap16 (s16 value))) a = 256 * (v mod 256) + v / 256).
  { rewrite load16_store16, Hsw. unfold u16, uwrap. apply Z.mod_small. change (2 ^ 16) with 65536.
    Z.div_mod_to_equations. lia. }
  exists (store16 m a (swap16 (s16 value))). destruct (load16_eq_mod (store16 m a (swap16 (s16 value))) a) as [E1 E2].
  rewrite Hl in E1, E2 |- *. split_and!; [done|rewrite <- E1|rewrite <- E2|f_equal].
  - Z.div_mod_to_equations. lia.
  - Z.div_mod_to_equations. lia.
  - rewrite swap16_bytes. destruct (s16_bytes (256 * (v mod 256) + v / 256)) as [-> ->]; Z.div_mod_to_equations; lia.
Qed.
End Claims.

(** * Witnesses: two objects of 100 and 64 bytes *)

Definition acc_state : dzstate unit :=
  MkState {[ 10 := MkDz 1 1 1000 100 0 0 0 0 0; 20 := MkDz 1 1 2000 64 0 0 0 0 0 ]} 0 0
    {[ 1 := MkProxy 7 100 1000 10; 2 := MkProxy 7 64 2000 20 ]} ∅ tt.
Definition acc_p : MemoryProxy := MkProxy 7 100 1000 10.
Definition acc_q : MemoryProxy := MkProxy 7 64 2000 20.
Definition acc_mem : memory := fun a => a mod 256.

Lemma acc_usable : usable acc_state 1 acc_p /\ usable acc_state 2 acc_q.
Proof.
  split; (split; [done|split; [done|split; [eexists; split; [reflexivity|done]|simpl; lia]]]).
Qed.

Lemma memory_get16_set16_witness :
  exists m', memory_set16 1 49 70000 acc_state acc_mem = Ok m' /\ memory_get16 1 49 acc_state m' = Ok 4464.
Proof.
  pose proof (memory_get16_set16 1 acc_p acc_state acc_mem 49 70000 (proj1 acc_usable) ltac:(lia)) as H.
  rewrite bool_decide_eq_true_2 in H by (simpl; lia). destruct H as (m' & E1 & E2 & _). by exists m'.
Defined.

Lemma memory_set8_negative_witness :
  exists m', memory_set8 1 (-5) 300 acc_state acc_mem = Ok m' /\ load8 m' 995 = 44.
Proof.
  destruct (memory_set8_negative 1 acc_p acc_state acc_mem (-5) 300 (proj1 acc_usable) ltac:(simpl; lia)) as (m' & E & El & _).
  by exists m'.
Defined.

Lemma memory_move_moves_witness :
  exists m', memory_move 1 3 0 11 acc_state acc_mem = Ok m' /\ copied acc_mem m' 1003 1000 11.
Proof.
  destruct (memory_move_moves 1 acc_p acc_state acc_mem 3 0 11 (proj1 acc_usable)) as (m' & E & Hc); try (simpl; lia).
  by exists m'.
Defined.

Lemma memory_clear_quarter_witness :
  exists m', memory_clear 1 acc_state acc_mem = Ok m' /\ load8 m' 1024 = 0 /\ load8 m' 1025 = 1.
Proof.
  destruct (memory_clear_quarter 1 acc_p acc_state acc_mem (proj1 acc_usable)) as (m' & E & Hz).
  exists m'. split; [exact E|]. by rewrite !Hz.
Defined.

Lemma memory_copyFromMemory_copies_witness :
  exists m', memory_copyFromMemory 1 2 4 8 16 acc_state acc_mem = Ok m' /\ copied acc_mem m' 1008 2004 16.
Proof.
  pose proof (memory_copyFromMemory_copies 1 acc_p 2 acc_q acc_state acc_mem 4 8 16 (proj1 acc_usable) (proj2 acc_usable)
    ltac:(lia) ltac:(lia) ltac:(lia) ltac:(simpl; lia)) as H.
  rewrite bool_decide_eq_true_2 in H by (simpl; lia). destruct H as (m' & E & Hc). by exists m'.
Defined.

Lemma memory_getBigEndian16_set_witness :
  exists m', memory_setBigEndian16 1 7 (-2) acc_state acc_mem = Ok m' /\ load8 m' 1007 = 255 /\ load8 m' 1008 = 254.
Proof.
  destruct (memory_getBigEndian16_set 1 acc_p acc_state acc_mem 7 (-2) (proj1 acc_usable)) as (m' & E & E1 & E2 & _);
    [lia|simpl; lia|]. by exists m'.
Defined.
