(* ===== verification/Revoke.v ===== *)
(** * Revoking a memory object (Interface/zero_Memory_org.c, [memory_revoke])

    A domain takes back the memory that it gave to other domains: the ranges of
    the chunk that it split itself get fresh descriptors and the old ones lose
    their bytes.  The two loops of [memory_revoke] are instances of one walk
    along a direction; at the end stands what a holder of an old object can
    still do, operation by operation. *)

From S2P Require Import Prelude Mem CString JString Malloc Alloc CodeMem DZMemory DZChunks DZRanges MemAccess.
#[local] Open Scope Z_scope.

(** ** Directions *)

(** the fields of a descriptor that lead in a direction, and those that lead back *)
Record side := {
  link : DZMemoryProxy -> Z; owner : DZMemoryProxy -> Z;
  back : DZMemoryProxy -> Z; back_owner : DZMemoryProxy -> Z;
  w_link : Z -> DZMemoryProxy -> DZMemoryProxy; w_owner : Z -> DZMemoryProxy -> DZMemoryProxy;
  w_back : Z -> DZMemoryProxy -> DZMemoryProxy; w_back_owner : Z -> DZMemoryProxy -> DZMemoryProxy;
}.
Definition leftwards : side := {|
  link := dz_prev; owner := dz_prevOwner; back := dz_next; back_owner := dz_nextOwner;
  w_link := w_prev; w_owner := w_prevOwner; w_back := w_next; w_back_owner := w_nextOwner |}.
Definition rightwards : side := {|
  link := dz_next; owner := dz_nextOwner; back := dz_prev; back_owner := dz_prevOwner;
  w_link := w_next; w_owner := w_nextOwner; w_back := w_prev; w_back_owner := w_prevOwner |}.

(** what a setter leaves alone *)
Definition same_range (d e : DZMemoryProxy) : Prop :=
  dz_mem e = dz_mem d /\ dz_size e = dz_size d /\ dz_valid e = dz_valid d /\ dz_refcount e = dz_refcount d.
Record lawful (sd : side) : Prop := {
  lw_link : forall v w d, let e := w_owner sd v (w_link sd w d) in
    link sd e = w /\ owner sd e = v /\ back sd e = back sd d /\ back_owner sd e = back_owner sd d /\ same_range d e;
  lw_back : forall v w d, let e := w_back_owner sd v (w_back sd w d) in
    link sd e = link sd d /\ owner sd e = owner sd d /\ back sd e = w /\ back_owner sd e = v /\ same_range d e;
  lw_kill : forall d, let e := w_mem NULL (w_valid 0 d) in
    link sd e = link sd d /\ owner sd e = owner sd d /\ back sd e = back sd d /\ back_owner sd e = back_owner sd d;
  lw_fresh : forall n b, link sd (fresh_dz n b) = NULL;
}.
Lemma leftwards_lawful : lawful leftwards.
Proof. by split. Qed.
Lemma rightwards_lawful : lawful rightwards.
Proof. by split. Qed.

Lemma Forall2_impl_in {B C} (P Q : B -> C -> Prop) l k : Forall2 P l k -> (forall x y, x ∈ l -> P x y -> Q x y) -> Forall2 Q l k.
Proof.
  induction 1 as [|x y l k H _ IH]; intros HQ; [done|]. apply Forall2_cons. split; [apply HQ; [apply list_elem_of_here|done]|].
  apply IH. intros u v Hu. by apply HQ, list_elem_of_further.
Qed.

Section Walk.
Context {A : Type} `{!Allocator A} (gc : dzstate A -> dzstate A) (fuel : nat) (curdom : Z) (sd : side) (LW : lawful sd).

(** [r] is everything that lies in the direction, and [curdom] split it *)
Fixpoint chain (m : gmap Z DZMemoryProxy) (y : Z) (r : list Z) : Prop :=
  match r with
  | [] => exists d, m !! y = Some d /\ link sd d = NULL
  | z :: r => exists d, m !! y = Some d /\ link sd d = z /\ owner sd d = curdom /\ z <> NULL /\ chain m z r
  end.
(** the links back to [y] *)
Fixpoint backs (m : gmap Z DZMemoryProxy) (y : Z) (r : list Z) : Prop :=
  match r with
  | [] => True
  | z :: r => exists d, m !! z = Some d /\ back sd d = y /\ back_owner sd d = curdom /\ backs m z r
  end.

Lemma chain_agree (m m' : gmap Z DZMemoryProxy) r : forall y,
  (forall k, k = y \/ k ∈ r -> m' !! k = m !! k) -> chain m y r -> chain m' y r.
Proof.
  induction r as [|z r IH]; intros y H; cbn [chain]; intros (d & Hd & Hr); exists d; rewrite H by tauto; [done|].
  destruct Hr as (? & ? & ? & Hr). split_and!; try done. apply IH; [|done]. intros k Hk. apply H. rewrite elem_of_cons. tauto.
Qed.
Lemma backs_agree (m m' : gmap Z DZMemoryProxy) r : forall y,
  (forall k, k ∈ r -> m' !! k = m !! k) -> backs m y r -> backs m' y r.
Proof.
  induction r as [|z r IH]; intros y H; cbn [backs]; [done|]. intros (d & Hd & ? & ? & Hr). exists d.
  rewrite H by apply list_elem_of_here. split_and!; try done. apply IH; [|done]. intros k Hk. by apply H, list_elem_of_further.
Qed.
(** the first descriptor may change as long as its link stays *)
Lemma chain_first (m m' : gmap Z DZMemoryProxy) r y d d' :
  m !! y = Some d -> m' !! y = Some d' -> link sd d' = link sd d -> owner sd d' = owner sd d ->
  (forall k, k ∈ r -> m' !! k = m !! k) -> chain m y r -> chain m' y r.
Proof.
  intros Hd Hd' El Eo H. destruct r as [|z r]; cbn [chain]; intros (e & He & Hr); rewrite Hd in He; injection He as <-; exists d'; rewrite El, ?Eo; [done|].
  destruct Hr as (? & ? & ? & Hr). split_and!; try done. eapply chain_agree; [|exact Hr].
  intros k Hk. apply H. rewrite elem_of_cons. tauto.
Qed.

Lemma chain_in m y r : chain m y r -> is_Some (m !! y).
Proof. destruct r; intros (d & Hd & _); by exists d. Qed.

(** the range [z] was replaced by [f] *)
Definition replaced_by (m m' : gmap Z DZMemoryProxy) (z f : Z) : Prop :=
  exists d e, m !! z = Some d /\ m' !! z = Some (w_mem NULL (w_valid 0 d)) /\
    m' !! f = Some e /\ dz_mem e = dz_mem d /\ dz_size e = u32 (dz_size d) /\ dz_valid e = 1.

(** one round of the loop, after the fresh descriptor [f] was created *)
Definition relink (last f z : Z) (s : dzstate A) : dzstate A :=
  upd_dz z (fun e => w_mem NULL (w_valid 0 e))
    (upd_dz last (fun e => w_owner sd curdom (w_link sd f e))
       (upd_dz f (fun e => w_back_owner sd curdom (w_back sd last e)) s)).

Context (loop : nat -> Z -> Z -> Z -> dzstate A -> res (Z * Z * dzstate A)).
Context (loop_stop : forall n y last cur s d, dzs s !! y = Some d -> link sd d = NULL ->
  loop (S n) y last cur s = Ok (if owner sd d =? curdom then NULL else y, cur, s)).
Context (loop_step : forall n y last cur s d z e f s1, dzs s !! y = Some d -> owner sd d = curdom -> link sd d = z -> z <> NULL ->
  dzs s !! z = Some e -> createDZMemory gc fuel (dz_size e) (dz_mem e) s = Ok (f, s1) -> f <> last ->
  loop (S n) y last cur s = loop n z f f (relink last f z s1)).

(** The walk replaces everything in the direction, range by range. *)
Lemma walk_spec (Hfuel : (0 < fuel)%nat) r : forall n y last cur (s : dzstate A) fs fl dl,
  chain (dzs s) y r -> free_ok (dzs s) (dzMemoryFreeList s) (fs ++ fl) -> length fs = length r ->
  NoDup (NULL :: last :: fs ++ y :: r ++ fl) -> dzs s !! last = Some dl -> (length r < n)%nat ->
  exists y' cur' s' v w, loop n y last cur s = Ok (y', cur', s') /\ same_rest s s' /\
    free_ok (dzs s') (dzMemoryFreeList s') fl /\
    (y' = NULL \/ exists d, dzs s' !! y' = Some d /\ link sd d = NULL) /\
    Forall2 (replaced_by (dzs s) (dzs s')) r fs /\
    (fs = [] /\ dzs s' !! last = Some dl \/ dzs s' !! last = Some (w_owner sd v (w_link sd w dl))) /\
    (link sd dl = NULL -> chain (dzs s') last fs) /\ backs (dzs s') last fs /\
    forall k, k ∉ r -> k ∉ fs -> k <> last -> dzs s' !! k = dzs s !! k.
Proof using All.
  induction r as [|z r IH]; intros n y last cur s fs fl dl Hch Hfree Hlen Hnd Hdl Hn; (destruct n as [|n]; [cbn in Hn; lia|]).
  - destruct fs; [|done]. destruct Hch as (d & Hd & Hl). rewrite (loop_stop n y last cur s d Hd Hl).
    exists (if owner sd d =? curdom then NULL else y), cur, s, 0, 0. split_and!; try done; [|by left|].
    + destruct (_ =? _); [by left|right]. by exists d.
    + intros H. by exists dl.
  - destruct fs as [|f fs]; [done|]. destruct Hch as (d & Hd & Hl & Ho & Hz & Hch).
    pose proof (chain_in _ _ _ Hch) as [e He].
    cbn [app] in Hnd. pose proof Hnd as Hnd0. apply NoDup_cons in Hnd as [Hn0 Hnd]. apply NoDup_cons in Hnd as [Hn1 Hnd].
    apply NoDup_cons in Hnd as [Hn2 Hnd]. set_unfold in Hn0. set_unfold in Hn1. set_unfold in Hn2.
    assert (Hz3 : z ∉ fs /\ z ∉ r /\ z <> last /\ z <> f /\ (forall k, k ∈ r -> k ∉ fs /\ k <> last /\ k <> f /\ k <> z)).
    { apply NoDup_app in Hnd as (_ & Hd1 & Hnd). apply NoDup_cons in Hnd as [_ Hnd]. apply NoDup_cons in Hnd as [Hzr _].
      rewrite elem_of_app in Hzr. split_and!; try (intros ?; set_solver). }
    destruct Hz3 as (Hzfs & Hzr & Hzl & Hzf & Hr).
    assert (Hfl : f <> last) by (intros ->; tauto). assert (Hlf : last <> f) by done. assert (Hlz : last <> z) by done. assert (Hfz : f <> z) by done.
    destruct fuel as [|fu] eqn:Efu; [lia|].
    destruct (createDZMemory_free gc fu s f (fs ++ fl) (dz_size e) (dz_mem e) Hfree) as (s1 & E1 & L1 & R1 & F1); [tauto| |].
    { rewrite elem_of_app. tauto. }
    rewrite (loop_step n y last cur s d z e f s1) by (done || tauto).
    set (s2 := relink last f z s1). set (ef := w_back_owner sd curdom (w_back sd last (fresh_dz (dz_size e) (dz_mem e)))).
    assert (L2 : forall k, dzs s2 !! k = if k =? z then Some (w_mem NULL (w_valid 0 e)) else
      if k =? last then Some (w_owner sd curdom (w_link sd f dl)) else if k =? f then Some ef else dzs s !! k).
    { intros k. unfold s2, relink. rewrite !lookup_upd_dz, !L1.
      destruct (Z.eqb_spec k z) as [->|]; [rewrite (eqb_false z last), (eqb_false z f) by done; by rewrite He|].
      destruct (Z.eqb_spec k last) as [->|]; [|by destruct (k =? f)]. rewrite (eqb_false last f) by done. by rewrite Hdl. }
    assert (Lr : forall k, k <> z -> k <> last -> k <> f -> dzs s2 !! k = dzs s !! k).
    { intros k ? ? ?. by rewrite L2, !eqb_false by done. }
    assert (Lz : dzs s2 !! z = Some (w_mem NULL (w_valid 0 e))) by (by rewrite L2, Z.eqb_refl).
    assert (Ll : dzs s2 !! last = Some (w_owner sd curdom (w_link sd f dl))) by (rewrite L2, (eqb_false last z), Z.eqb_refl by done; done).
    assert (Lf : dzs s2 !! f = Some ef) by (rewrite L2, (eqb_false f z), (eqb_false f last), Z.eqb_refl by done; done).
    destruct (lw_back sd LW curdom last (fresh_dz (dz_size e) (dz_mem e))) as (B1 & B2 & B3 & B4 & B5 & B6 & B7 & _). fold ef in B1, B2, B3, B4, B5, B6, B7.
    rewrite (lw_fresh sd LW) in B1. cbn [fresh_dz dz_mem dz_size dz_valid] in B5, B6, B7.
    destruct (IH n z f f s2 fs fl ef) as (y' & cur' & s' & v & w & E' & R' & F' & Hy' & Hrep & Hlast & Hc' & Hb' & Hout).
    + eapply chain_first; [exact He|exact Lz|apply (lw_kill sd LW)|apply (lw_kill sd LW)| |exact Hch].
      intros k Hk. destruct (Hr k Hk) as (? & ? & ? & ?). by apply Lr.
    + change (dzMemoryFreeList s2) with (dzMemoryFreeList s1). eapply free_ok_agree; [|exact F1]. intros k Hk. rewrite elem_of_app in Hk.
      rewrite L1, (eqb_false k f) by (intros ->; tauto). apply Lr; intros ->; [|tauto..]. destruct Hk as [?|Hk]; [done|].
      apply NoDup_app in Hnd as (_ & _ & Hnd). apply NoDup_cons in Hnd as [_ Hnd]. apply NoDup_cons in Hnd as [Hzr' _]. set_solver.
    + cbn in Hlen. lia.
    + apply NoDup_cons. split; [set_unfold; tauto|].
      apply NoDup_cons. split; [set_unfold; tauto|].
      rewrite <- Permutation_middle in Hnd. by apply NoDup_cons in Hnd as [_ Hnd].
    + exact Lf.
    + cbn in Hn. lia.
    + assert (Hfnew : exists e', dzs s' !! f = Some e' /\ back sd e' = last /\ back_owner sd e' = curdom /\ same_range ef e').
      { destruct Hlast as [[_ H]|H]; [by exists ef|]. eexists. split; [exact H|].
        destruct (lw_link sd LW v w ef) as (_ & _ & ? & ? & ?). split_and!; congruence || done. }
      destruct Hfnew as (e' & Hf' & Eb & Ebo & Em & Es & Ev & _).
      assert (Hlast' : dzs s' !! last = Some (w_owner sd curdom (w_link sd f dl))) by (rewrite Hout by tauto; exact Ll).
      assert (Hz' : dzs s' !! z = Some (w_mem NULL (w_valid 0 e))) by (rewrite Hout by done; exact Lz).
      destruct (lw_link sd LW curdom f dl) as (C1 & C2 & _).
      exists y', cur', s', curdom, f. split_and!; try done; try (eapply same_rest_trans; [exact R1|exact R']).
      * apply Forall2_cons. split; [exists e, e'; split_and!; congruence || done|]. eapply Forall2_impl_in; [exact Hrep|].
        intros z' f' Hz'' (d1 & e1 & Hd1 & H1). exists d1, e1. destruct (Hr z' Hz'') as (? & ? & ? & ?). by rewrite Lr in Hd1.
      * by right.
      * intros _. cbn [chain]. eexists. split_and!; [exact Hlast'|done|done|intros ->; tauto|by apply Hc'].
      * cbn [backs]. by exists e'.
      * intros k Hk1 Hk2 Hk3. rewrite elem_of_cons in Hk1, Hk2. rewrite Hout by tauto. apply Lr; tauto.
Qed.
End Walk.

(** ** A chunk that one domain split *)

Section Owned.
Context (curdom : Z).

(** the ranges [y] and [z] are neighbours after a split by [curdom] *)
Definition boundary (m : gmap Z DZMemoryProxy) (y z : Z) : Prop :=
  exists d e, m !! y = Some d /\ m !! z = Some e /\ dz_nextOwner d = curdom /\ dz_prevOwner e = curdom.
Fixpoint owned (m : gmap Z DZMemoryProxy) (l : list Z) : Prop :=
  match l with
  | y :: ((z :: _) as r) => boundary m y z /\ owned m r
  | _ => True
  end.

Lemma owned_app m l x r : owned m (l ++ x :: r) <-> owned m (l ++ [x]) /\ owned m (x :: r).
Proof.
  induction l as [|y l IH]; [cbn; tauto|]. destruct l as [|z l]; cbn [app owned] in *; [cbn; tauto|]. rewrite IH. tauto.
Qed.

Lemma owned_agree (m m' : gmap Z DZMemoryProxy) l : (forall k, k ∈ l -> m' !! k = m !! k) -> owned m l -> owned m' l.
Proof.
  induction l as [|y l IH]; intros H; [done|]. destruct l as [|z l]; [done|]. intros [(d & e & Hd & He & E) Ho]. split.
  - exists d, e. rewrite !H by set_solver. done.
  - apply IH; [|exact Ho]. intros k Hk. by apply H, list_elem_of_further.
Qed.

Abbreviation leftc := (chain curdom leftwards).
Abbreviation rightc := (chain curdom rightwards).

Lemma chain_right m r : forall p x, seg m p (x :: r) NULL -> owned m (x :: r) -> NULL ∉ r -> rightc m x r.
Proof.
  induction r as [|z r IH]; intros p x (d & Hd & Hp & Hn & Hs) Ho Hnn; [by exists d|].
  destruct Ho as [(d1 & e & Hd1 & He & E1 & E2) Ho]. rewrite Hd in Hd1. injection Hd1 as <-. exists d. split_and!; try done.
  - intros ->. apply Hnn, list_elem_of_here.
  - apply (IH x); [exact Hs|exact Ho|]. intros H. by apply Hnn, list_elem_of_further.
Qed.
Lemma chain_left m r : forall x n, seg m NULL (rev r ++ [x]) n -> owned m (rev r ++ [x]) -> NULL ∉ r -> leftc m x r.
Proof.
  induction r as [|z r IH]; intros x n Hs Ho Hnn; cbn [rev app] in *; [destruct Hs as (d & Hd & Hp & _); by exists d|].
  rewrite <- app_assoc in Hs, Ho. cbn [app] in Hs, Ho. apply seg_mid in Hs as Hs'. destruct Hs' as (e & He & _ & _ & Hs1 & (d & Hd & Hp & _)).
  apply owned_app in Ho as [Ho1 [(d1 & e1 & Hd1 & He1 & E1 & E2) _]]. rewrite Hd in He1. injection He1 as <-. exists d. split_and!; try done.
  - intros ->. apply Hnn, list_elem_of_here.
  - apply (IH z (hd n [x])); [|done|intros H; by apply Hnn, list_elem_of_further].
    apply seg_app in Hs as [Hs2 (e2 & He2 & Hp2 & Hn2 & _)]. apply seg_app. split; [exact Hs2|]. by exists e2.
Qed.

Lemma seg_right m r : forall p x d, m !! x = Some d -> dz_prev d = p -> rightc m x r -> backs curdom rightwards m x r ->
  seg m p (x :: r) NULL /\ owned m (x :: r).
Proof.
  induction r as [|z r IH]; intros p x d Hd Hp Hc Hb; cbn [chain backs] in *; destruct Hc as (d' & Hd' & Hc).
  - rewrite Hd in Hd'. injection Hd' as <-. split; [|done]. by exists d.
  - destruct Hc as (Hl & Ho & Hz & Hc), Hb as (e & He & Hbk & Hbo & Hb). rewrite Hd in Hd'. injection Hd' as <-.
    destruct (IH x z e He Hbk Hc Hb) as [Hs Hw]. split; [exists d; by split_and!|]. split; [by exists d, e|done].
Qed.
Lemma seg_left m r : forall x d n, m !! x = Some d -> dz_next d = n -> leftc m x r -> backs curdom leftwards m x r ->
  seg m NULL (rev r ++ [x]) n /\ owned m (rev r ++ [x]).
Proof.
  induction r as [|z r IH]; intros x d n Hd Hn Hc Hb; cbn [chain backs rev app] in *; destruct Hc as (d' & Hd' & Hc).
  - rewrite Hd in Hd'. injection Hd' as <-. split; [|done]. by exists d.
  - destruct Hc as (Hl & Ho & Hz & Hc), Hb as (e & He & Hbk & Hbo & Hb). rewrite Hd in Hd'. injection Hd' as <-.
    destruct (IH z e x He Hbk Hc Hb) as [Hs Hw]. rewrite <- app_assoc. cbn [app]. split.
    + apply seg_app in Hs as [Hs (e' & He' & Hp' & _)]. apply seg_app. split; [exact Hs|]. rewrite He in He'. injection He' as <-.
      exists e. split_and!; try done. by exists d.
    + apply owned_app. split; [done|]. split; [by exists e, d|done].
Qed.
End Owned.

Section Loops.
Context {A : Type} `{!Allocator A} (gc : dzstate A -> dzstate A) (fuel : nat) (curdom : Z).

Lemma revoke_prev_is_walk n y last cur (s : dzstate A) d : dzs s !! y = Some d -> dz_prev d = NULL ->
  revoke_prev gc fuel curdom (S n) y last cur s = Ok (if dz_prevOwner d =? curdom then NULL else y, cur, s).
Proof. intros Hd Hl. cbn [revoke_prev]. rewrite (dz_some _ _ _ Hd). cbn [rbind]. rewrite Hl. by destruct (_ =? curdom). Qed.
Lemma revoke_next_is_walk n y last cur (s : dzstate A) d : dzs s !! y = Some d -> dz_next d = NULL ->
  revoke_next gc fuel curdom (S n) y last cur s = Ok (if dz_nextOwner d =? curdom then NULL else y, cur, s).
Proof. intros Hd Hl. cbn [revoke_next]. rewrite (dz_some _ _ _ Hd). cbn [rbind]. rewrite Hl. by destruct (_ =? curdom). Qed.

Lemma revoke_prev_step n y last cur (s : dzstate A) d z e f s1 : dzs s !! y = Some d -> dz_prevOwner d = curdom -> dz_prev d = z -> z <> NULL ->
  dzs s !! z = Some e -> createDZMemory gc fuel (dz_size e) (dz_mem e) s = Ok (f, s1) -> f <> last ->
  revoke_prev gc fuel curdom (S n) y last cur s = revoke_prev gc fuel curdom n z f f (relink curdom leftwards last f z s1).
Proof.
  intros Hd Ho Hl Hz He E Hf. cbn [revoke_prev]. rewrite (dz_some _ _ _ Hd). cbn [rbind]. rewrite Ho, Z.eqb_refl, Hl, (eqb_false z NULL) by done.
  cbn [negb]. rewrite (dz_some _ _ _ He). cbn [rbind]. rewrite E. done.
Qed.
Lemma revoke_next_step n y last cur (s : dzstate A) d z e f s1 : dzs s !! y = Some d -> dz_nextOwner d = curdom -> dz_next d = z -> z <> NULL ->
  dzs s !! z = Some e -> createDZMemory gc fuel (dz_size e) (dz_mem e) s = Ok (f, s1) -> f <> last ->
  revoke_next gc fuel curdom (S n) y last cur s = revoke_next gc fuel curdom n z f f (relink curdom rightwards last f z s1).
Proof.
  intros Hd Ho Hl Hz He E Hf. cbn [revoke_next]. rewrite (dz_some _ _ _ Hd). cbn [rbind]. rewrite Ho, Z.eqb_refl, Hl, (eqb_false z NULL) by done.
  cbn [negb]. rewrite (dz_some _ _ _ He). cbn [rbind]. rewrite E. cbn [rbind]. rewrite (eqb_false f last) by done. done.
Qed.
End Loops.

(** ** What a holder of a memory object can do *)

Inductive operation :=
| Set8 (where_ what : Z) | Get8 (where_ : Z) | Set16 (where_ what : Z) | Get16 (where_ : Z) | Set32 (where_ what : Z) | Get32 (where_ : Z)
| Fill16 (what where_ length : Z) | Fill32 (what where_ length : Z) | Clear | Copy (from to len : Z) | GetStartAddress
| CopyToByteArray (bytes array_offset mem_offset len : Z) | CopyFromByteArray (bytes array_offset mem_offset len : Z)
| CopyToMemory (dst srcOffset dstOffset len : Z) | CopyFromMemory (src srcOffset dstOffset len : Z)
| GetLittleEndian32 (offset : Z) | SetLittleEndian32 (offset value : Z) | GetLittleEndian16 (offset : Z) | SetLittleEndian16 (offset value : Z)
| GetBigEndian16 (offset : Z) | SetBigEndian16 (offset value : Z) | GetBigEndian32 (reg offset : Z) | SetBigEndian32 (reg offset value : Z)
| GetSubRange (offset len : Z) | Split2 (offset : Z) (arr : option Z) | Split3 (offset len : Z) (arr : option Z)
| JoinPrevious | JoinNext | JoinAll | Revoke (junk : Z).

Section Holder.
Context {A : Type} `{!Allocator A} (gc : dzstate A -> dzstate A) (gc_alloc : Z -> dzstate A -> res (Z * dzstate A)).
Context (fuel : nat) (memoryClass curdom : Z).

(** the operation [o] on the object [q], but for its result *)
Definition holder_op (o : operation) (q : Z) (s : dzstate A) (m : memory) : res unit :=
  let done {B} (r : res B) : res unit := let! _ := r in Ok tt in
  match o with
  | Set8 w v => done (memory_set8 q w v s m)
  | Get8 w => done (memory_get8 q w s m)
  | Set16 w v => done (memory_set16 q w v s m)
  | Get16 w => done (memory_get16 q w s m)
  | Set32 w v => done (memory_set32 q w v s m)
  | Get32 w => done (memory_get32 q w s m)
  | Fill16 v w n => done (memory_fill16 q v w n s m)
  | Fill32 v w n => done (memory_fill32 q v w n s m)
  | Clear => done (memory_clear q s m)
  | Copy f t n => done (memory_copy q f t n s m)
  | GetStartAddress => done (memory_getStartAddress q s)
  | CopyToByteArray b ao mo n => done (memory_copyToByteArray q b ao mo n s m)
  | CopyFromByteArray b ao mo n => done (memory_copyFromByteArray q b ao mo n s m)
  | CopyToMemory d so d_o n => done (memory_copyToMemory q d so d_o n s m)
  | CopyFromMemory d so d_o n => done (memory_copyFromMemory q d so d_o n s m)
  | GetLittleEndian32 f => done (memory_getLittleEndian32 q f s m)
  | SetLittleEndian32 f v => done (memory_setLittleEndian32 q f v s m)
  | GetLittleEndian16 f => done (memory_getLittleEndian16 q f s m)
  | SetLittleEndian16 f v => done (memory_setLittleEndian16 q f v s m)
  | GetBigEndian16 f => done (memory_getBigEndian16 q f s m)
  | SetBigEndian16 f v => done (memory_setBigEndian16 q f v s m)
  | GetBigEndian32 r f => done (memory_getBigEndian32 r q f s m)
  | SetBigEndian32 r f v => done (memory_setBigEndian32 r q f v s m)
  | GetSubRange f n => done (memory_getSubRange gc gc_alloc fuel memoryClass curdom q f n s)
  | Split2 f arr => done (memory_split2 gc gc_alloc fuel memoryClass curdom q f arr s)
  | Split3 f n arr => done (memory_split3 gc gc_alloc fuel memoryClass curdom q f n arr s)
  | JoinPrevious => done (memory_joinPrevious gc gc_alloc fuel memoryClass curdom q s)
  | JoinNext => done (memory_joinNext gc gc_alloc fuel memoryClass curdom q s)
  | JoinAll => done (memory_joinAll gc gc_alloc fuel memoryClass curdom q s)
  | Revoke junk => done (memory_revoke gc gc_alloc fuel memoryClass curdom junk q s)
  end.

(** an argument that is tested before the object *)
Definition argument_null (o : operation) : bool :=
  match o with
  | CopyToByteArray p _ _ _ | CopyFromByteArray p _ _ _ | CopyToMemory p _ _ _ | CopyFromMemory p _ _ _ => p =? NULL
  | _ => false
  end.

(** Every operation that tests the object for validity throws, and so does a
    copy out of it into another object. *)
Definition refused (s : dzstate A) (q : Z) : Prop :=
  (forall o m, holder_op o q s m = Err (EThrow (if argument_null o then "NullPointerException" else "InvalidMemory"))) /\
  nonatomic_memoryIsValid q s = Ok false /\
  forall p mp so d_o n m, accessible p s = Ok mp -> memory_copyFromMemory p q so d_o n s m = Err (EThrow "InvalidMemory").

(** The three operations without the test do what they did before. *)
Definition unchecked (s s' : dzstate A) (q : Z) : Prop :=
  (forall d f n m, memory_move q d f n s' m = memory_move q d f n s m) /\
  memory_size q s' = memory_size q s /\
  forall p mp so d_o n m, accessible p s = Ok mp -> accessible p s' = Ok mp ->
    memory_copyToMemory p q so d_o n s' m = memory_copyToMemory p q so d_o n s m.

Lemma accessible_inv (s : dzstate A) p mp : accessible p s = Ok mp -> p <> NULL /\ proxies s !! p = Some mp /\ CHECKVALID mp s = Ok tt.
Proof.
  unfold accessible, CHECK_NULL_PTR, proxy. destruct (Z.eqb_spec p NULL); [done|]. cbn [rbind]. destruct (proxies s !! p) as [mp'|]; [|done].
  cbn [rbind]. destruct (CHECKVALID mp' s) as [[]|] eqn:E; [|done]. cbn [rbind]. by intros [= ->].
Qed.

Lemma killed_refused (s : dzstate A) q mq d : proxies s !! q = Some mq -> q <> NULL ->
  dzs s !! p_dz mq = Some d -> dz_valid d = 0 -> refused s q.
Proof.
  intros Hq Hn Hd Hv.
  assert (EV : CHECKVALID mq s = Err (EThrow "InvalidMemory")) by (unfold CHECKVALID; by rewrite (dz_some _ _ _ Hd); cbn [rbind]; rewrite Hv).
  assert (EP : proxy s q = Ok mq) by (unfold proxy; by rewrite Hq).
  assert (EN : CHECK_NULL_PTR q = Ok tt) by (unfold CHECK_NULL_PTR; by rewrite (eqb_false q NULL)).
  assert (EA : accessible q s = Err (EThrow "InvalidMemory")) by (unfold accessible; rewrite EN; cbn [rbind]; rewrite EP; cbn [rbind]; by rewrite EV).
  assert (EB : accessible_nonnull q s = Err (EThrow "InvalidMemory")) by (unfold accessible_nonnull; rewrite EP; cbn [rbind]; by rewrite EV).
  split_and!.
  - intros o m. destruct o; cbn [holder_op argument_null];
      unfold memory_set8, memory_get8, memory_set16, memory_get16, memory_set32, memory_get32, memory_fill16, memory_fill32, memory_clear,
        memory_copy, memory_getStartAddress, memory_copyToByteArray, memory_copyFromByteArray, memory_copyToMemory, memory_copyFromMemory,
        memory_getLittleEndian32, memory_setLittleEndian32, memory_getLittleEndian16, memory_setLittleEndian16,
        memory_getBigEndian16, memory_setBigEndian16, memory_getBigEndian32, memory_setBigEndian32, memory_getSubRange, memory_split2, memory_split3,
        memory_joinPrevious, memory_joinNext, memory_joinAll, memory_revoke;
      rewrite ?EA, ?EB, ?EN, ?EP, ?(eqb_false q NULL) by done; cbn [rbind]; rewrite ?EP, ?EV, ?EB; cbn [rbind]; try rewrite EV; try reflexivity;
      unfold CHECK_NULL_PTR; match goal with |- context [?p =? NULL] => destruct (p =? NULL) end; cbn [rbind]; rewrite ?EB; reflexivity.
  - unfold nonatomic_memoryIsValid. rewrite EP. cbn [rbind]. rewrite (dz_some _ _ _ Hd). cbn [rbind]. by rewrite Hv.
  - intros p mp so d_o n m (Hp & Ep & Ev)%accessible_inv. unfold memory_copyFromMemory. unfold CHECK_NULL_PTR at 1. rewrite (eqb_false p NULL) by done.
    cbn [rbind]. rewrite EN. cbn [rbind]. unfold accessible_nonnull at 1, proxy. rewrite Ep. cbn [rbind]. rewrite Ev. cbn [rbind]. by rewrite EB.
Qed.

Lemma kept_unchecked (s s' : dzstate A) q : proxies s' !! q = proxies s !! q -> unchecked s s' q.
Proof.
  intros E. assert (EP : proxy s' q = proxy s q) by (unfold proxy; by rewrite E).
  split_and!; unfold memory_move, memory_size; rewrite ?EP; [done..|].
  intros p mp so d_o n m (Hp & Ep & Ev)%accessible_inv (_ & Ep' & Ev')%accessible_inv. unfold memory_copyToMemory, accessible_nonnull.
  rewrite EP. unfold proxy at 1 3. rewrite Ep, Ep'. cbn [rbind]. by rewrite Ev, Ev'.
Qed.
End Holder.

(** ** Revocation *)

Lemma Forall2_in_l {B C} (P : B -> C -> Prop) l k x : Forall2 P l k -> x ∈ l -> exists y, y ∈ k /\ P x y.
Proof.
  induction 1 as [|u v l k H _ IH]; [by intros ?%not_elem_of_nil|]. intros [->|Hx]%elem_of_cons.
  - exists v. split; [apply list_elem_of_here|done].
  - destruct (IH Hx) as (y & Hy & HP). exists y. split; [by apply list_elem_of_further|done].
Qed.
Lemma Forall2_in_r {B C} (P : B -> C -> Prop) l k y : Forall2 P l k -> y ∈ k -> exists x, x ∈ l /\ P x y.
Proof. intros H%Forall2_flip Hy. by apply (Forall2_in_l _ _ _ _ H). Qed.
Lemma Forall2_impl_both {B C} (P Q : B -> C -> Prop) l k : Forall2 P l k -> (forall x y, x ∈ l -> y ∈ k -> P x y -> Q x y) -> Forall2 Q l k.
Proof.
  induction 1 as [|x y l k H _ IH]; intros HQ; [done|]. apply Forall2_cons. split; [apply HQ; [apply list_elem_of_here..|exact H]|].
  apply IH. intros u v Hu Hv. apply HQ; by apply list_elem_of_further.
Qed.
Lemma Forall2_rev {B C} (P : B -> C -> Prop) l k : Forall2 P l k -> Forall2 P (rev l) (rev k).
Proof. induction 1 as [|x y l k H _ IH]; [done|]. cbn. apply Forall2_app; [exact IH|by apply Forall2_cons]. Qed.

Lemma replaced_ranges m m' l k : Forall2 (replaced_by m m') l k -> Forall (fun x => 0 <= snd (range m x) <= 4294967295) l ->
  range m' <$> k = range m <$> l.
Proof.
  induction 1 as [|x y l k (d & e & Hd & _ & He & Em & Es & _) _ IH]; intros Hl; [done|]. apply Forall_cons in Hl as [Hx Hl].
  rewrite !fmap_cons, IH by done. f_equal. rewrite (range_some _ _ _ Hd) in Hx. cbn in Hx.
  rewrite (range_some _ _ _ Hd), (range_some _ _ _ He), Em, Es. by rewrite u32_small by lia.
Qed.
Lemma live_sizes m a l : live m a l -> Forall (fun x => 0 <= snd (range m x) <= 4294967295) l.
Proof.
  intros [Ha Hc]. revert a Ha Hc. induction l as [|x l IH]; intros a Ha Hc; [done|]. cbn [fmap list_fmap contig] in Hc.
  destruct (range m x) as [b n] eqn:E. destruct Hc as (-> & Hn & Hc). pose proof (contig_le _ _ Hc). apply Forall_cons. rewrite E. cbn.
  split; [lia|]. apply (IH (a + n)); [lia|exact Hc].
Qed.

Section Revocation.
Context {A : Type} `{!Allocator A} (gc : dzstate A -> dzstate A) (gc_alloc : Z -> dzstate A -> res (Z * dzstate A)).
Context (fuel : nat) (memoryClass curdom : Z).

(** the two loops and what lies between them *)
Lemma revoke_loops junk x d (s : dzstate A) l1 l2 fl1 x0 fl2 fl size mem (k : Z -> dzstate A -> res (Z * dzstate A)) :
  NoDup (NULL :: (x0 :: fl1 ++ x :: rev l1 ++ fl2 ++ fl) ++ l2) -> free_ok (dzs s) (dzMemoryFreeList s) (x0 :: fl1 ++ fl2 ++ fl) ->
  length fl1 = length l1 -> length fl2 = length l2 -> (length l1 < fuel)%nat -> (length l2 < fuel)%nat ->
  seg (dzs s) NULL (l1 ++ x :: l2) NULL -> owned curdom (dzs s) (l1 ++ x :: l2) -> dzs s !! x = Some d ->
  exists s' e,
    (let! '(dzmNewThis, s) := createDZMemory gc fuel size mem s in
     let! '(dzmCurOld, cur, s) := revoke_prev gc fuel curdom fuel x dzmNewThis junk s in
     let! s := (if dzmCurOld =? NULL then Ok s else
       let! d := dz s dzmCurOld in
       if dz_prev d =? NULL then Ok s else
       let! _ := dz s cur in
       let s := upd_dz (dz_prev d) (w_next cur) s in
       Ok (upd_dz cur (fun e => w_prevOwner (dz_prevOwner d) (w_prev (dz_prev d) e)) s)) in
     let! '(dzmCurOld, cur, s) := revoke_next gc fuel curdom fuel x dzmNewThis cur s in
     let! s := (if dzmCurOld =? NULL then Ok s else
       let! d := dz s dzmCurOld in
       if dz_next d =? NULL then Ok s else
       let! _ := dz s cur in
       let s := upd_dz (dz_next d) (w_prev cur) s in
       Ok (upd_dz cur (fun e => w_nextOwner (dz_nextOwner d) (w_next (dz_next d) e)) s)) in
     k dzmNewThis s) = k x0 s' /\
    same_rest s s' /\ free_ok (dzs s') (dzMemoryFreeList s') fl /\ dzs s' !! x0 = Some e /\ same_range (fresh_dz size mem) e /\
    Forall2 (replaced_by (dzs s) (dzs s')) (rev l1) fl1 /\ Forall2 (replaced_by (dzs s) (dzs s')) l2 fl2 /\
    seg (dzs s') NULL (rev fl1 ++ x0 :: fl2) NULL /\ owned curdom (dzs s') (rev fl1 ++ x0 :: fl2) /\
    forall y, y ∉ l1 -> y ∉ l2 -> y ∉ x0 :: fl1 ++ fl2 -> dzs s' !! y = dzs s !! y.
Proof.
  intros Hnd Hfree Len1 Len2 Hf1 Hf2 Hseg Hown Hd.
  assert (Hf0 : (0 < fuel)%nat) by lia. destruct fuel as [|fu] eqn:Efu; [lia|].
  pose proof (proj1 (NoDup_cons _ _) Hnd) as [Hnull Hnd']. set_unfold in Hnull.
  apply NoDup_app in Hnd' as (Hnd1 & Hdis2 & Hnd2). pose proof Hnd1 as Hnd1'.
  apply NoDup_cons in Hnd1' as [Hx0 Hnd1']. apply NoDup_app in Hnd1' as (Hndf & Hdis1 & Hnd1'). apply NoDup_cons in Hnd1' as [Hx Hnd3].
  apply NoDup_app in Hnd3 as (Hndr & Hdis3 & Hnd3). apply NoDup_app in Hnd3 as (Hndf2 & Hdis4 & Hndfl).
  set_unfold in Hx0. set_unfold in Hx. set_unfold in Hdis1. set_unfold in Hdis2. set_unfold in Hdis3. 
  assert (Erev : forall t, t ∈ rev l1 <-> t ∈ l1) by (intros; by rewrite rev_perm).
  destruct (createDZMemory_free gc fu s x0 (fl1 ++ fl2 ++ fl) size mem Hfree) as (s1 & -> & L1 & R1 & F1); [set_solver|set_solver|]. cbn [rbind].
  assert (A1 : forall y, y <> x0 -> dzs s1 !! y = dzs s !! y) by (intros; by rewrite L1, eqb_false).
  assert (D0 : dzs s1 !! x0 = Some (fresh_dz size mem)) by (by rewrite L1, Z.eqb_refl).
  (* the left part *)
  destruct (walk_spec gc (S fu) curdom leftwards leftwards_lawful (revoke_prev gc (S fu) curdom)
    (revoke_prev_is_walk gc (S fu) curdom) (revoke_prev_step gc (S fu) curdom) ltac:(lia)
    (rev l1) (S fu) x x0 junk s1 fl1 (fl2 ++ fl) (fresh_dz size mem))
    as (y' & cur' & s2 & v & w & E2 & R2 & F2 & Hy2 & Hrep2 & Hlast2 & Hc2 & Hb2 & Hout2);
    [|exact F1|by rewrite length_rev| |exact D0|by rewrite length_rev|].
  { apply (chain_agree curdom leftwards (dzs s)).
    - intros t Ht. apply A1. intros ->. set_solver.
    - apply (chain_left curdom _ (rev l1) x (hd NULL l2)); rewrite ?rev_involutive.
      + apply seg_app in Hseg as [H1 (d' & Hd' & Hp' & Hn' & _)]. apply seg_app. split; [exact H1|]. by exists d'.
      + by apply owned_app in Hown as [? _].
      + set_solver. }
  { apply NoDup_cons. split; [set_solver|]. done. }
  rewrite E2. cbn [rbind].
  assert (Hskip2 : (if y' =? NULL then Ok s2 else
       let! d := dz s2 y' in
       if dz_prev d =? NULL then Ok s2 else
       let! _ := dz s2 cur' in
       Ok (upd_dz cur' (fun e => w_prevOwner (dz_prevOwner d) (w_prev (dz_prev d) e)) (upd_dz (dz_prev d) (w_next cur') s2))) = Ok s2).
  { destruct Hy2 as [->|(dy & Hdy & Hl)]; [done|]. destruct (y' =? NULL); [done|]. rewrite (dz_some _ _ _ Hdy). cbn [rbind].
    cbn in Hl. by rewrite Hl. }
  rewrite Hskip2. clear Hskip2. cbn [rbind].
  assert (Hlast2' : exists e2, dzs s2 !! x0 = Some e2 /\ dz_next e2 = NULL /\ same_range (fresh_dz size mem) e2).
  { destruct Hlast2 as [[_ H]|H]; eexists; (split; [exact H|]); done. }
  destruct Hlast2' as (e2 & D2 & N2 & S2).
  (* the right part *)
  assert (A2 : forall y, y ∉ l1 -> y ∉ fl1 -> y <> x0 -> dzs s2 !! y = dzs s !! y) by (intros y ? ? ?; rewrite Hout2, A1; set_solver).
  destruct (walk_spec gc (S fu) curdom rightwards rightwards_lawful (revoke_next gc (S fu) curdom)
    (revoke_next_is_walk gc (S fu) curdom) (revoke_next_step gc (S fu) curdom) ltac:(lia)
    l2 (S fu) x x0 cur' s2 fl2 fl e2)
    as (y'' & cur'' & s3 & v' & w' & E3 & R3 & F3 & Hy3 & Hrep3 & Hlast3 & Hc3 & Hb3 & Hout3);
    [|exact F2|done| |exact D2|done|].
  { apply (chain_agree curdom rightwards (dzs s)).
    - intros t Ht. apply A2; set_solver.
    - apply seg_app in Hseg as [_ Hs2]. apply owned_app in Hown as [_ Ho2]. eapply chain_right; [exact Hs2|exact Ho2|set_solver]. }
  { apply NoDup_cons. split; [set_solver|].
    assert (Hp : (x0 :: fl1 ++ x :: rev l1 ++ fl2 ++ fl) ++ l2 ≡ₚ (x0 :: fl2 ++ x :: l2 ++ fl) ++ fl1 ++ rev l1) by solve_Permutation.
    assert (Hall : NoDup ((x0 :: fl1 ++ x :: rev l1 ++ fl2 ++ fl) ++ l2)) by (by apply NoDup_cons in Hnd as [_ ?]).
    rewrite Hp in Hall. by apply NoDup_app in Hall as (? & _). }
  rewrite E3. cbn [rbind].
  assert (Hskip3 : (if y'' =? NULL then Ok s3 else
       let! d := dz s3 y'' in
       if dz_next d =? NULL then Ok s3 else
       let! _ := dz s3 cur'' in
       Ok (upd_dz cur'' (fun e => w_nextOwner (dz_nextOwner d) (w_next (dz_next d) e)) (upd_dz (dz_next d) (w_prev cur'') s3))) = Ok s3).
  { destruct Hy3 as [->|(dy & Hdy & Hl)]; [done|]. destruct (y'' =? NULL); [done|]. rewrite (dz_some _ _ _ Hdy). cbn [rbind].
    cbn in Hl. by rewrite Hl. }
  rewrite Hskip3. clear Hskip3. cbn [rbind].
  assert (Hlast3' : exists e3, dzs s3 !! x0 = Some e3 /\ dz_prev e3 = dz_prev e2 /\ dz_prevOwner e3 = dz_prevOwner e2 /\ same_range e2 e3).
  { destruct Hlast3 as [[_ H]|H]; eexists; (split; [exact H|]); done. }
  destruct Hlast3' as (e3 & D3 & P3 & O3 & S3).
  assert (A3 : forall y, y ∉ l1 -> y ∉ l2 -> y ∉ x0 :: fl1 ++ fl2 -> dzs s3 !! y = dzs s !! y).
  { intros y ? ? Hy. rewrite Hout3 by set_solver. apply A2; set_solver. }
  assert (H12 : forall t, t ∈ l1 -> t ∉ l2 /\ t ∉ fl2 /\ t <> x0 /\ t <> x) by (intros t Ht; split_and!; set_solver).
  assert (Hf12 : forall t, t ∈ fl1 -> t ∉ l2 /\ t ∉ fl2 /\ t <> x0) by (intros t Ht; split_and!; set_solver).
  assert (H21 : forall t, t ∈ l2 -> t ∉ l1 /\ t ∉ fl1 /\ t <> x0) by (intros t Ht; split_and!; set_solver).
  assert (Hsl : seg (dzs s3) NULL (rev fl1 ++ [x0]) (dz_next e3) /\ owned curdom (dzs s3) (rev fl1 ++ [x0])).
  { apply (seg_left curdom _ fl1 x0 e3); [done|done| |].
    - eapply (chain_first curdom leftwards); [exact D2|exact D3|done|done| |by apply Hc2].
      intros t Ht. destruct (Hf12 t Ht) as (? & ? & ?). by apply Hout3.
    - eapply (backs_agree curdom leftwards); [|exact Hb2]. intros t Ht. destruct (Hf12 t Ht) as (? & ? & ?). by apply Hout3. }
  assert (Hr3 := Hc3 N2).
  exists s3, e3. split_and!.
  - done.
  - eapply same_rest_trans; [exact R1|]. by eapply same_rest_trans.
  - exact F3.
  - exact D3.
  - destruct S2 as (? & ? & ? & ?), S3 as (? & ? & ? & ?). split_and!; congruence.
  - eapply Forall2_impl_both; [exact Hrep2|]. intros z f Hz Hf (dd & ee & Hdd & Hz' & He' & Hrest). rewrite Erev in Hz.
    destruct (H12 z Hz) as (? & ? & ? & ?), (Hf12 f Hf) as (? & ? & ?). exists dd, ee. rewrite A1 in Hdd by done. by rewrite !Hout3.
  - eapply Forall2_impl_both; [exact Hrep3|]. intros z f Hz Hf (dd & ee & Hdd & Hrest). destruct (H21 z Hz) as (? & ? & ?).
    exists dd, ee. by rewrite A2 in Hdd.
  - apply seg_app. destruct Hsl as [Hsl _]. apply seg_app in Hsl as [Hsl (e' & He' & Hp' & _)]. split; [exact Hsl|].
    rewrite D3 in He'. injection He' as <-. rewrite <- Hp'. apply (seg_right curdom _ fl2 (dz_prev e3) x0 e3 D3 eq_refl Hr3 Hb3).
  - apply owned_app. split; [apply Hsl|]. apply (seg_right curdom _ fl2 (dz_prev e3) x0 e3 D3 eq_refl Hr3 Hb3).
  - exact A3.
Qed.

(** C29 Revocation.  Let the caller's domain have split the whole chunk that
    [self] is part of (a chunk that nobody split included), and let there be
    free descriptors for its ranges.  Then every range gets a fresh descriptor
    for the same bytes, linked as before, and the caller a new object for the
    bytes of [self].  Every old descriptor of the chunk is invalid and has lost
    its address, so whoever holds an object for it, in whatever domain, is
    refused by every operation that tests for validity: all accesses to single
    elements, fills, copies from and to arrays, copies out of the object,
    splits, joins and revocation, thirty in number.  Three operations make no
    such test and work on the bytes as they did before the revocation:
    [memory_move], [memory_size] and, in its second argument,
    [memory_copyToMemory].  No other descriptor changes. *)
Theorem memory_revoke_revokes junk self m x d (s : dzstate A) l1 l2 cs fl1 x0 fl2 fl o a :
  dz_rep s ((l1 ++ x :: l2) :: cs) (x0 :: fl1 ++ fl2 ++ fl) -> length fl1 = length l1 -> length fl2 = length l2 ->
  live (dzs s) a (l1 ++ x :: l2) -> owned curdom (dzs s) (l1 ++ x :: l2) -> (length l1 < fuel)%nat -> (length l2 < fuel)%nat ->
  proxies s !! self = Some m -> p_dz m = x -> dzs s !! x = Some d -> dz_valid d = 1 ->
  p_size m = dz_size d -> p_mem m = dz_mem d ->
  (forall s', gc_alloc curdom s' = Ok (o, s')) -> o <> NULL -> proxies s !! o = None ->
  let old := l1 ++ x :: l2 in
  let new := rev fl1 ++ x0 :: fl2 in
  exists s', memory_revoke gc gc_alloc fuel memoryClass curdom junk self s = Ok (o, s') /\
    accessible o s' = Ok (MkProxy memoryClass (dz_size d) (dz_mem d) x0) /\
    Forall2 (replaced_by (dzs s) (dzs s')) old new /\
    live (dzs s') a new /\ owned curdom (dzs s') new /\ dz_rep s' (new :: old :: cs) fl /\
    (forall q mq, proxies s !! q = Some mq -> q <> NULL -> p_dz mq ∈ old ->
       proxies s' !! q = Some mq /\ refused gc gc_alloc fuel memoryClass curdom s' q /\ unchecked s s' q) /\
    (forall y, y ∉ old -> y ∉ new -> dzs s' !! y = dzs s !! y) /\
    (forall q, q <> o -> proxies s' !! q = proxies s !! q).
Proof.
  intros Hrep Len1 Len2 Hlive Hown Hf1 Hf2 Hm Hmx Hd Hv Hps Hpm Halloc Ho Hof old new.
  pose proof Hrep as [Hn1 Hn2 [(_ & Hseg & _) Hcs]%Forall_cons Hfree].
  assert (Hperm : concat ((l1 ++ x :: l2) :: cs) ++ x0 :: fl1 ++ fl2 ++ fl ≡ₚ ((x0 :: fl1 ++ x :: rev l1 ++ fl2 ++ fl) ++ l2) ++ concat cs).
  { cbn [concat]. rewrite (rev_perm l1). solve_Permutation. }
  rewrite Hperm in Hn1, Hn2. pose proof Hn1 as Hnd. apply NoDup_app in Hnd as (Hnd & Hdis & _).
  assert (Hxn : x <> NULL) by (intros ->; apply Hn2; set_solver).
  destruct (live_mid _ a l1 x l2 d Hlive Hd) as (_ & Hm0 & Hs0 & Hend).
  unfold memory_revoke, proxy at 1. rewrite Hm. cbn [rbind]. unfold CHECKVALID at 1. rewrite Hmx, (dz_some _ _ _ Hd).
  cbn [rbind]. rewrite Hv. cbn [Z.eqb rbind]. rewrite (eqb_false x NULL) by done. cbn [negb assert_ rbind].
  edestruct (revoke_loops junk x d s l1 l2 fl1 x0 fl2 fl (p_size m) (p_mem m) (fun n t =>
      let! '(memoryInstance, t) := allocMemoryProxyInDomainDZM gc_alloc curdom memoryClass n t in
      let! t := FREE_DZMEM self t in
      let! v := nonatomic_memoryIsValid self t in
      let! _ := assert_ "!ISVALID(selfHandle)" (negb v) in
      Ok (memoryInstance, t)))
    as (s1 & e & Eloop & (R1 & R2 & R3 & R4) & F1 & D1 & (E1 & E2 & E3 & _) & Hr1 & Hr2 & Hseg1 & Hown1 & Hout1);
    [apply NoDup_cons; split; [intros Hin; apply Hn2; set_solver|exact Hnd]|done..|]. cbv beta in Eloop.
  assert (Hperm2 : ((x0 :: fl1 ++ x :: rev l1 ++ fl2 ++ fl) ++ l2) ++ concat cs ≡ₚ old ++ new ++ fl ++ concat cs).
  { unfold old, new. rewrite (rev_perm l1), (rev_perm fl1). solve_Permutation. }
  rewrite Hperm2 in Hn1, Hn2. clear Hnd Hdis. apply NoDup_app in Hn1 as Hnd. destruct Hnd as (Hndo & Hdo & Hnd).
  apply NoDup_app in Hnd as (Hndn & Hdn & Hndf). unfold old in Hndo. apply NoDup_app in Hndo as (_ & Hdx1 & Hndx). apply NoDup_cons in Hndx as [Hxl2 _].
  assert (Hxl1 : x ∉ l1) by (intros Hin; apply (Hdx1 x Hin), list_elem_of_here).
  assert (Hxold : x ∈ old) by (apply elem_of_app; right; apply list_elem_of_here).
  assert (Hx0new : x0 ∈ new) by (apply elem_of_app; right; apply list_elem_of_here).
  assert (Hon : forall y, y ∈ old -> y ∉ new) by (intros y Hy Hy'; apply (Hdo y Hy), elem_of_app; by left).
  assert (Hnewsplit : forall y, y ∈ x0 :: fl1 ++ fl2 <-> y ∈ new).
  { intros y. assert (x0 :: fl1 ++ fl2 ≡ₚ new) as -> by (unfold new; rewrite (rev_perm fl1); solve_Permutation). reflexivity. }
  assert (Hout1' : forall y, y ∉ l1 -> y ∉ l2 -> y ∉ new -> dzs s1 !! y = dzs s !! y) by (intros y ? ? Hy; apply Hout1; [done|done|by rewrite Hnewsplit]).
  cbn [fresh_dz dz_mem dz_size dz_valid] in E1, E2, E3. rewrite Hps, u32_small in E2 by lia. rewrite Hpm in E1.
  set (s2 := set_proxies (<[o := MkProxy memoryClass (dz_size d) (dz_mem d) x0]> (proxies s)) s1). set (s3 := FREE_DZ x s2).
  assert (Hso : self <> o) by congruence.
  assert (P3 : forall q, q <> o -> proxies s3 !! q = proxies s !! q) by (intros q Hq; unfold s3, s2; cbn; by rewrite lookup_insert_ne).
  assert (Po : proxies s3 !! o = Some (MkProxy memoryClass (dz_size d) (dz_mem d) x0)) by (unfold s3, s2; cbn; by rewrite lookup_insert_eq).
  assert (Hdx : dzs s1 !! x = Some d) by (rewrite Hout1' by auto; exact Hd).
  assert (L3 : forall y, dzs s3 !! y = if y =? x then Some (w_mem NULL (w_valid 0 d)) else dzs s1 !! y).
  { intros y. unfold s3, FREE_DZ, INVALIDATE_DZ. rewrite !lookup_upd_dz. change (dzs s2) with (dzs s1).
    destruct (Z.eqb_spec y x) as [->|]; [by rewrite Hdx|done]. }
  assert (D3 : dzs s3 !! x0 = Some e) by (rewrite L3, eqb_false; [done|]; intros ->; by apply (Hon x Hxold)).
  assert (Hrange3 : Forall2 (replaced_by (dzs s) (dzs s3)) old new).
  { apply Forall2_app.
    - rewrite <- (rev_involutive l1). apply Forall2_rev. eapply Forall2_impl_both; [exact Hr1|].
      intros z f Hz Hf (d1 & e1 & H1 & H2 & H3 & H4). exists d1, e1. rewrite !L3, !eqb_false; [done|..].
      + intros ->. apply (Hon x Hxold), elem_of_app. left. by rewrite (rev_perm fl1).
      + intros ->. apply Hxl1. by rewrite (rev_perm l1) in Hz.
    - apply Forall2_cons. split.
      + exists d, e. rewrite L3, Z.eqb_refl, u32_small by lia. by split_and!.
      + eapply Forall2_impl_both; [exact Hr2|]. intros z f Hz Hf (d1 & e1 & H1 & H2 & H3 & H4). exists d1, e1. rewrite !L3, !eqb_false; [done|..].
        * intros ->. apply (Hon x Hxold), elem_of_app. right. by apply list_elem_of_further.
        * by intros ->. }
  assert (Hkill : forall y, y ∈ old -> exists dy, dzs s !! y = Some dy /\ dzs s3 !! y = Some (w_mem NULL (w_valid 0 dy))).
  { intros y Hy. destruct (Forall2_in_l _ _ _ _ Hrange3 Hy) as (f & _ & dy & _ & H1 & H2 & _). by exists dy. }
  assert (Hranges : range (dzs s3) <$> new = range (dzs s) <$> old) by (by apply replaced_ranges; [|by eapply live_sizes]).
  assert (Hlive3 : live (dzs s3) a new) by (destruct Hlive as [Ha Hc]; split; [done|]; by rewrite Hranges).
  assert (Hnew3 : forall y, y ∈ new -> dzs s3 !! y = dzs s1 !! y).
  { intros y Hy. rewrite L3, eqb_false; [done|]. intros ->. by apply (Hon x Hxold). }
  assert (Hown3 : owned curdom (dzs s3) new) by (eapply owned_agree; [exact Hnew3|exact Hown1]).
  assert (Hout3 : forall y, y ∉ old -> y ∉ new -> dzs s3 !! y = dzs s !! y).
  { intros y Hy Hy'. unfold old in Hy. rewrite elem_of_app, elem_of_cons in Hy. rewrite L3, eqb_false by tauto. apply Hout1'; tauto. }
  exists s3. refine (conj (eq_trans Eloop _) _).
  { rewrite (alloc_proxy gc_alloc _ _ _ _ _ o (Halloc s1) Ho D1). cbn [rbind]. rewrite E1, E2, R2. fold s2.
    unfold FREE_DZMEM, proxy. cbn [proxies set_proxies s2]. unfold s2 at 1. cbn [proxies set_proxies]. rewrite lookup_insert_ne, Hm by done. cbn [rbind].
    rewrite Hmx. fold s3. unfold nonatomic_memoryIsValid, proxy. rewrite P3, Hm by done. cbn [rbind]. unfold dz. rewrite Hmx, L3, Z.eqb_refl. done. }
  assert (Hperm3 : concat (new :: old :: cs) ++ fl ≡ₚ old ++ new ++ fl ++ concat cs) by (cbn [concat]; solve_Permutation).
  split_and!; try done.
  - unfold accessible, CHECK_NULL_PTR, proxy, CHECKVALID, dz. rewrite (eqb_false o NULL) by done. cbn [rbind]. rewrite Po. cbn [rbind p_dz]. rewrite D3. cbn [rbind]. by rewrite E3.
  - split.
    + by rewrite Hperm3.
    + by rewrite Hperm3.
    + apply Forall_cons. split; [|apply Forall_cons; split].
      * split; [by destruct (rev fl1)|]. split; [|left; by exists a]. eapply seg_ext; [|exact Hseg1]. intros y Hy. by rewrite Hnew3.
      * split; [by destruct l1|]. split; [|right].
        -- eapply seg_ext; [|exact Hseg]. intros y Hy. destruct (Hkill y Hy) as (dy & -> & ->). done.
        -- apply Forall_forall. intros y Hy. destruct (Hkill y Hy) as (dy & _ & H). by rewrite (range_some _ _ _ H).
      * eapply chunks_agree; [|exact Hcs]. intros y Hy. apply Hout3; intros Hy'.
        -- apply (Hdo y Hy'). set_solver.
        -- apply (Hdn y Hy'). set_solver.
    + change (dzMemoryFreeList s3) with (dzMemoryFreeList s1). eapply free_ok_agree; [|exact F1]. intros y Hy.
      rewrite L3, eqb_false; [done|]. intros ->. apply (Hdo x Hxold). set_solver.
  - intros q mq Hq Hqn Hin. assert (q <> o) by congruence. destruct (Hkill _ Hin) as (dy & _ & Hk). split; [by rewrite P3|]. split.
    + eapply killed_refused; [by rewrite P3|done|exact Hk|done].
    + apply kept_unchecked. by apply P3.
Qed.
End Revocation.

(** * Witness: a memory object that domain 5 split in two; it passed the first
    part on (object 501) and takes everything back *)

Definition demo_split : dzstate malloc_state :=
  set_proxies {[ 500 := MkProxy 7 1000 5096 136; 501 := MkProxy 7 1000 4096 100 ]} demo2.
Lemma demo_split_rep : dz_rep demo_split [[100; 136]] [172; 208].
Proof. destruct demo2_rep. by split. Qed.
Lemma demo_split_live : live (dzs demo_split) 4096 [100; 136].
Proof. split; [lia|]. change (range (dzs demo_split) <$> [100; 136]) with [(4096, 1000); (5096, 1000)]. simpl. lia. Qed.
Lemma demo_split_owned : owned 5 (dzs demo_split) [100; 136].
Proof. split; [|done]. by exists (MkDz 1 1 4096 1000 0 0 136 0 5), (MkDz 1 1 5096 1000 0 100 0 5 0). Qed.

Lemma memory_revoke_revokes_witness :
  exists s', memory_revoke id demo_alloc 3 7 5 0 500 demo_split = Ok (600, s') /\ dz_rep s' [[208; 172]; [100; 136]] [] /\
    (forall m, holder_op id demo_alloc 3 7 5 (Set32 0 1) 501 s' m = Err (EThrow "InvalidMemory")) /\
    forall m, memory_move 501 0 8 4 s' m = memory_move 501 0 8 4 demo_split m.
Proof.
  destruct (memory_revoke_revokes id demo_alloc 3 7 5 0 500 (MkProxy 7 1000 5096 136) 136 (MkDz 1 1 5096 1000 0 100 0 5 0) demo_split
    [100] [] [] [208] 172 [] [] 600 4096) as (s' & E & _ & _ & _ & _ & Hrep & Hq & _ & _);
    first [done|exact demo_split_rep|exact demo_split_live|exact demo_split_owned|simpl; lia|idtac].
  exists s'. split; [exact E|]. split; [exact Hrep|].
  destruct (Hq 501 (MkProxy 7 1000 4096 100)) as (_ & [Hr _] & [Hu _]); [done|done|apply list_elem_of_here|].
  split; [intros m; exact (Hr (Set32 0 1) m)|intros m; apply Hu].
Defined.
