(* ===== verification/Classes.v ===== *)
(** * Classes and libraries shared by all domains (core/load.c, Headers/core/code.h)

    Class descriptors, method descriptors and libraries as the loader leaves
    them, the lookup of a class by its name through the hash keys of the
    libraries, and the registry of array classes.  Descriptors live at
    addresses; a [char *] to a constant name is the list of its characters,
    so that [strcmp(a, b) == 0] is equality of lists
    ([CString.strcmp_cstr]).  A list linked by a [next] field is a Coq list,
    head first. *)

From S2P Require Import Prelude Mem CString Malloc Alloc CodeMem.
#[local] Open Scope Z_scope.

(** ** Names *)

Definition cstring : Type := list Z.
#[export] Instance cstring_dec : EqDecision cstring.
Proof. unfold cstring. apply _. Defined.
Definition str (s : string) : cstring :=
  map (fun c => Z.of_N (Ascii.N_of_ascii c)) (String.list_ascii_of_string s).
(** [s[i]]; the character behind the last one is the terminator *)
Definition char_at (s : cstring) (i : nat) : Z := default 0 (s !! i).
Definition strcmp_eq (a b : cstring) : bool := bool_decide (a = b).

Definition name_Object : cstring := str "java/lang/Object".
Definition c_bracket : Z := 91.     (* '[' *)
Definition c_L : Z := 76.           (* 'L' *)
Definition c_semicolon : Z := 59.   (* ';' *)
Definition c_less : Z := 60.        (* '<' *)

(** ** Data (Headers/core/code.h, core/load.c) *)

Definition CLASSTYPE_CLASS : Z := 1.
Definition CLASSTYPE_INTERFACE : Z := 3.
Definition CLASSTYPE_ARRAYCLASS : Z := 4.
Definition CLASSTYPE_PRIMITIVE : Z := 8.
Definition LIB_HASHKEY_LEN : nat := 10.
Definition sizeof_ClassDesc : Z := 124.

(** The symbol entries of a method: what the linker patches into its code. *)
Inductive symbol :=
| SymDomainZero | SymExceptionHandler
| SymDEPFunction (className methodName methodSignature : cstring)
| SymStaticField (className : cstring) (kind fieldOffset : Z)
| SymAllocObject
| SymClass (className : cstring)
| SymDirectMethodCall (className methodName methodSignature : cstring)
| SymString (value : cstring)
| SymAllocArray | SymAllocMultiArray
| SymLongArithmetic (operation : Z)
| SymVMSupport (operation : Z)
| SymPrimitiveClass (primitiveType : Z)
| SymUnresolvedJump (targetNCIndex : Z)
| SymVMAbsolute (operation : Z)
| SymStackMapOld (n_bits : Z) (smap : list Z)
| SymStackMap (immediateNCIndexPre n_bits : Z) (smap : list Z)
| SymExceptionTable (targetNCIndex rangeStart rangeEnd : Z) (className : cstring)
| SymThreadPointer | SymStackChunkSize
| SymProfile (kind : Z)
| SymMethodeDesc
| SymTCBOffset (kind : Z).

Record SymbolDesc := MkSymbol {
  immediateNCIndex : Z; numBytes : Z; nextInstrNCIndex : Z; sym : symbol;
}.
Record ByteCodeDesc := MkByteCode { bytecodePos : Z; bc_start : Z; bc_end : Z }.
Record SourceLineDesc := MkSourceLine { startBytecode : Z; lineNumber : Z }.
Record FieldDesc := MkField { fieldName : cstring; fieldType : cstring; fieldOffset : Z }.

Record MethodDesc := MkMethod {
  m_name : cstring;
  m_signature : cstring;
  sizeLocalVars : Z;
  numberOfCodeBytes : Z;
  numberOfArgs : Z;
  argTypeMap : list Z;
  returnType : Z;
  m_flags : Z;
  codeOffset : Z;
  symbols : list SymbolDesc;
  sizeOfExceptionTable : Z;
  bytecodeTable : list ByteCodeDesc;
  sourceLineTable : list SourceLineDesc;
}.

(** [ArrayClassDesc] only adds [elementClass]. *)
Record ClassDesc := MkClass {
  classType : Z;
  c_nm : cstring;
  superclass : Z;
  ifname : list cstring;
  interfaces : list Z;
  instanceSize : Z;
  objmap : list Z;
  fields : list FieldDesc;
  staticFieldsSize : Z;
  sfield_offset : Z;
  staticsMap : list Z;
  vtableSym : list (cstring * cstring * cstring);
  methods : list MethodDesc;
  definingLib : Z;
  elementClass : Z;
  arrayClass : Z;
}.

Record SharedLibDesc := MkSharedLib {
  slib_name : cstring;
  slib_id : Z;
  ndx : Z;
  neededLibs : list Z;
  lib_meta : list (cstring * cstring);
  allClasses : Z;               (* the first of [numberOfClasses] descriptors *)
  numberOfClasses : Z;
  key : list Z;
  memSizeStaticFields : Z;
  lib_code : Z;
  codeBytes : Z;
  lib_vtablesize : Z;
  lib_bytecodes : Z;
}.

(** an [ArrayClassDesc] as [memset] and the two creation functions leave it *)
Definition array_desc (nm : cstring) (elem : Z) : ClassDesc :=
  MkClass CLASSTYPE_ARRAYCLASS nm NULL [] [] 0 [] [] 0 0 [] [] [] NULL elem NULL.
Definition set_arrayClass (a : Z) (c : ClassDesc) : ClassDesc :=
  MkClass (classType c) (c_nm c) (superclass c) (ifname c) (interfaces c) (instanceSize c)
    (objmap c) (fields c) (staticFieldsSize c) (sfield_offset c) (staticsMap c) (vtableSym c)
    (methods c) (definingLib c) (elementClass c) a.

(** What the kernel keeps about classes outside the domains. *)
Record class_state (A : Type) := MkCS {
  classdescs : gmap Z ClassDesc;
  slibs : gmap Z SharedLibDesc;
  sharedLibs : list Z;
  sharedArrayClasses : list Z;
  dz_code : domain_code;        (* DomainZero's code memory *)
  cs_alloc : A;
}.
Arguments MkCS {A} _ _ _ _ _ _.
Arguments classdescs {A} _.
Arguments slibs {A} _.
Arguments sharedLibs {A} _.
Arguments sharedArrayClasses {A} _.
Arguments dz_code {A} _.
Arguments cs_alloc {A} _.

(** ** Hash keys

    A key is the bitwise or of the first ten characters of the names added to
    it; [char] is signed, which makes no difference to [|], [&] and [!=]. *)

Fixpoint addHashKey (name key : list Z) (len : nat) : list Z :=
  match len, name, key with
  | S len, c :: name, k :: key => Z.lor k c :: addHashKey name key len
  | _, _, _ => key
  end.

Fixpoint testHashKey (name key : list Z) (len : nat) : bool :=
  match len, name, key with
  | S len, c :: name, k :: key =>
      if negb (Z.land c k =? c) then false else testHashKey name key len
  | _, _, _ => true
  end.

(** ** Lookup *)

Section Classes.
Context {A : Type} `{!Allocator A}.
Abbreviation cst := (class_state A) (only parsing).
(** the kernel's own class; the primitive classes [class_I] ... [class_Z] by
    the character of their name *)
Context (java_lang_Object : Z) (class_prim : Z -> Z).
(** sizes of C structures, as in [CodeMem] *)
Context (sz_ArrayClassDesc : Z).

Definition cls (c : Z) (s : cst) : res ClassDesc :=
  match classdescs s !! c with Some d => Ok d | None => Err EFault end.
Definition slib (l : Z) (s : cst) : res SharedLibDesc :=
  match slibs s !! l with Some d => Ok d | None => Err (EAssert "x->magic==MAGIC_SLIB") end.
Definition class_at (l : SharedLibDesc) (i : Z) : Z := allClasses l + i * sizeof_ClassDesc.

Fixpoint find_named (n : nat) (i : Z) (l : SharedLibDesc) (name : cstring) (s : cst) : res Z :=
  match n with
  | O => Ok NULL
  | S n =>
      let! c := cls (class_at l i) s in
      if strcmp_eq (c_nm c) name then Ok (class_at l i) else find_named n (i + 1) l name s
  end.

Definition findClassDescInSharedLib (lib : Z) (name : cstring) (s : cst) : res Z :=
  let! l := slib lib s in
  if strcmp_eq name name_Object then Ok java_lang_Object
  else find_named (Z.to_nat (numberOfClasses l)) 0 l name s.

Fixpoint find_in_libs (libs : list Z) (name : cstring) (s : cst) : res Z :=
  match libs with
  | [] => Ok NULL
  | lib :: rest =>
      let! l := slib lib s in
      if testHashKey name (key l) LIB_HASHKEY_LEN then
        let! cl := findClassDescInSharedLib lib name s in
        if negb (cl =? NULL) then Ok cl else find_in_libs rest name s
      else find_in_libs rest name s
  end.

Definition findClassDesc (name : cstring) (s : cst) : res Z :=
  if strcmp_eq name name_Object then Ok java_lang_Object
  else find_in_libs (sharedLibs s) name s.

Fixpoint find_slib (libs : list Z) (name : cstring) (s : cst) : res Z :=
  match libs with
  | [] => Ok NULL
  | lib :: rest =>
      let! l := slib lib s in
      if strcmp_eq (slib_name l) name then Ok lib else find_slib rest name s
  end.
Definition findSharedLib (libname : cstring) (s : cst) : res Z := find_slib (sharedLibs s) libname s.

(** the field is a [char]; the failure result is [(u4_t)-1] *)
Fixpoint findFieldOffset (fs : list FieldDesc) (fieldname : cstring) : Z :=
  match fs with
  | [] => u32 (-1)
  | f :: fs => if strcmp_eq (fieldName f) fieldname then u32 (fieldOffset f) else findFieldOffset fs fieldname
  end.

Definition findPrimitiveClass (name : Z) : res Z :=
  if name =? c_L then Err (EAssert "name != 'L'")
  else if existsb (Z.eqb name) (str "IJFDBCSZ") then Ok (class_prim name)
  else Err (EPanic "unknown primitive type %c").

(** ** Array classes

    Descriptors are found by name ([findSharedArrayClassDesc]) or through
    their element class ([findSharedArrayClassDescByElemClass]) and created
    when they are missing. *)

Definition with_classes (f : gmap Z ClassDesc -> gmap Z ClassDesc) (s : cst) : cst :=
  MkCS (f (classdescs s)) (slibs s) (sharedLibs s) (sharedArrayClasses s) (dz_code s) (cs_alloc s).
(** [c->next = sharedArrayClasses; sharedArrayClasses = c] *)
Definition push_array_class (c : Z) (s : cst) : cst :=
  MkCS (classdescs s) (slibs s) (sharedLibs s) (c :: sharedArrayClasses s) (dz_code s) (cs_alloc s).

(** [malloc_arrayclassdesc(domainZero, namelen)] and the assignments to the
    descriptor; [extra] is what the caller asks for beyond the name *)
Definition new_array_class (nm : cstring) (extra elem : Z) (s : cst) : res (Z * cst) :=
  let! '(n, d, a) := malloc_arrayclassdesc sz_ArrayClassDesc (dz_code s)
                       (u32 (Z.of_nat (length nm) + 1 + extra)) (cs_alloc s) in
  Ok (desc n, MkCS (<[desc n := array_desc nm elem]> (classdescs s)) (slibs s) (sharedLibs s)
                (sharedArrayClasses s) d a).

(** [char value[80]]: a longer class name is written past its end *)
Definition signature_class (name : cstring) : res cstring :=
  let n := Z.of_nat (length name) - 3 in
  if (n <? 0) || (80 <=? n) then Err EFault
  else Ok (take (Z.to_nat n) (drop 2 name)).

Fixpoint find_array_named (l : list Z) (name : cstring) (s : cst) : res (option Z) :=
  match l with
  | [] => Ok None
  | c :: l =>
      let! d := cls c s in
      if strcmp_eq (c_nm d) name then Ok (Some c) else find_array_named l name s
  end.

(** the element class of an array class that is about to be created;
    [find] looks up the array class one bracket down *)
Definition element_of_name (find : cstring -> cst -> res (Z * cst)) (name : cstring) (s : cst)
  : res (Z * cst) :=
  let n := drop 1 name in
  if char_at n 0 =? c_L then
    let! value := signature_class name in
    let! c := findClassDesc value s in
    Ok (c, s)
  else if char_at n 0 =? c_bracket then find n s
  else let! c := findPrimitiveClass (char_at n 0) in Ok (c, s).

Definition createSharedArrayClassDesc (find : cstring -> cst -> res (Z * cst)) (name : cstring) (s : cst)
  : res (Z * cst) :=
  let! '(c, s) := element_of_name find name s in
  if c =? NULL then Err (EPanic "not a shared element class")
  else new_array_class name 0 c s.

(** The recursion strips one bracket: [length name] is enough fuel. *)
Fixpoint findSharedArrayClassDesc (fuel : nat) (name : cstring) (s : cst) : res (Z * cst) :=
  match fuel with
  | O => Err EFuel
  | S k =>
      let! found := find_array_named (sharedArrayClasses s) name s in
      match found with
      | Some c => Ok (c, s)
      | None =>
          let! '(c, s) := createSharedArrayClassDesc (findSharedArrayClassDesc k) name s in
          Ok (c, push_array_class c s)
      end
  end.

(** the name of the array class over [e] *)
Definition array_name (e : ClassDesc) : cstring :=
  if (char_at (c_nm e) 0 =? c_bracket) || (classType e =? CLASSTYPE_PRIMITIVE)
  then c_bracket :: c_nm e
  else [c_bracket; c_L] ++ c_nm e ++ [c_semicolon].

Definition createSharedArrayClassDescUsingElemClass (elemClass : Z) (s : cst) : res (Z * cst) :=
  if elemClass =? NULL then Err (EPanic "not a shared element class") else
  let! e := cls elemClass s in
  new_array_class (array_name e) 1 elemClass s.

Definition findSharedArrayClassDescByElemClass (elemClass : Z) (s : cst) : res (Z * cst) :=
  let! e := cls elemClass s in
  if negb (arrayClass e =? NULL) then Ok (arrayClass e, s) else
  let! '(c, s) := createSharedArrayClassDescUsingElemClass elemClass s in
  Ok (c, push_array_class c (with_classes (alter (set_arrayClass c) elemClass) s)).
End Classes.

(** ** Hash keys never hide a class *)

Lemma land_lor_absorb c k : Z.land c (Z.lor k c) = c.
Proof. apply Z.bits_inj'. intros n _. rewrite Z.land_spec, Z.lor_spec. by destruct (Z.testbit c n), (Z.testbit k n). Qed.

Lemma land_lor_keep c k d : Z.land c k = c -> Z.land c (Z.lor k d) = c.
Proof.
  intros H. rewrite Z.land_lor_distr_r, H. apply Z.bits_inj'. intros n _.
  rewrite Z.lor_spec, Z.land_spec. by destruct (Z.testbit c n), (Z.testbit d n).
Qed.

Lemma testHashKey_added name : forall key len, testHashKey name (addHashKey name key len) len = true.
Proof.
  induction name as [|c name IH]; intros key [|len]; try done. destruct key as [|k key]; [done|]. simpl.
  rewrite land_lor_absorb, Z.eqb_refl. apply IH.
Qed.

Lemma testHashKey_keeps name other : forall key len,
  testHashKey name key len = true -> testHashKey name (addHashKey other key len) len = true.
Proof.
  revert other. induction name as [|c name IH]; intros [|o other] key [|len]; try done.
  destruct key as [|k key]; [done|]. simpl.
  destruct (Z.eqb_spec (Z.land c k) c) as [E|]; [|done]. rewrite land_lor_keep, Z.eqb_refl by done. apply IH.
Qed.

(** the key of a library all of whose names were added covers each of them *)
Lemma testHashKey_all names name : forall key,
  name ∈ names -> testHashKey name (foldl (fun k n => addHashKey n k LIB_HASHKEY_LEN) key names) LIB_HASHKEY_LEN = true.
Proof.
  assert (Hkeep : forall names key, testHashKey name key LIB_HASHKEY_LEN = true ->
    testHashKey name (foldl (fun k n => addHashKey n k LIB_HASHKEY_LEN) key names) LIB_HASHKEY_LEN = true).
  { induction names0 as [|n ns IH]; intros key H; simpl; [done|]. by apply IH, testHashKey_keeps. }
  induction names as [|n ns IH]; intros key Hin; [by apply not_elem_of_nil in Hin|]. simpl.
  apply elem_of_cons in Hin as [->|Hin]; [apply Hkeep, testHashKey_added|by apply IH].
Qed.

(** ** Lookup by name *)

Section ClassTheory.
Context {A : Type} `{!Allocator A} (java_lang_Object : Z) (class_prim : Z -> Z) (sz_ArrayClassDesc : Z).
Abbreviation cst := (class_state A) (only parsing).

Definition name_of (s : cst) (c : Z) : option cstring := c_nm <$> classdescs s !! c.
Definition lib_classes (l : SharedLibDesc) : list Z :=
  map (fun i => class_at l (Z.of_nat i)) (seq 0 (Z.to_nat (numberOfClasses l))).
(** the classes of all libraries, newest library first *)
Definition all_lib_classes (s : cst) : list Z :=
  concat (map (fun lib => match slibs s !! lib with Some l => lib_classes l | None => [] end) (sharedLibs s)).

(** The loaded libraries: every class has a descriptor that is not at address
    0, is no array or primitive class, and whose name the library's key covers. *)
Record libs_ok (s : cst) : Prop := {
  lo_libs : forall lib, lib ∈ sharedLibs s -> is_Some (slibs s !! lib);
  lo_class : forall lib l c, slibs s !! lib = Some l -> c ∈ lib_classes l ->
    c <> NULL /\ exists d, classdescs s !! c = Some d /\
      testHashKey (c_nm d) (key l) LIB_HASHKEY_LEN = true /\
      char_at (c_nm d) 0 <> c_bracket /\ classType d <> CLASSTYPE_PRIMITIVE;
  lo_object : exists d, classdescs s !! java_lang_Object = Some d /\ c_nm d = name_Object /\
    classType d = CLASSTYPE_CLASS /\ java_lang_Object <> NULL;
}.

(** the reference: the first class of that name, without keys *)
Definition first_named (s : cst) (name : cstring) (l : list Z) : Z :=
  default NULL (snd <$> list_find (fun c => name_of s c = Some name) l).

Lemma first_named_app s name l1 l2 :
  (forall c, c ∈ l1 -> c <> NULL) ->
  first_named s name (l1 ++ l2) =
  if first_named s name l1 =? NULL then first_named s name l2 else first_named s name l1.
Proof.
  intros Hnn. unfold first_named. induction l1 as [|c l1 IH]; [done|]. cbn [app list_find].
  case_decide as E; simpl.
  - rewrite (proj2 (Z.eqb_neq c NULL)); [done|]. apply Hnn, list_elem_of_here.
  - specialize (IH (fun c' H => Hnn c' (list_elem_of_further _ _ _ H))).
    destruct (list_find _ (l1 ++ l2)) as [[? ?]|], (list_find _ l1) as [[? ?]|]; exact IH.
Qed.

Lemma first_named_some s name l c :
  first_named s name l = c -> c <> NULL -> c ∈ l /\ name_of s c = Some name.
Proof.
  unfold first_named. destruct (list_find _ l) as [[i x]|] eqn:E; simpl; [intros -> _|by intros ->].
  apply list_find_Some in E as (E & H & _). split; [by eapply list_elem_of_lookup_2|done].
Qed.

Lemma first_named_none s name l :
  (forall c, c ∈ l -> name_of s c <> Some name) -> first_named s name l = NULL.
Proof.
  intros H. unfold first_named. destruct (list_find _ l) as [[i x]|] eqn:E; [|done].
  apply list_find_Some in E as (E & Hx & _). exfalso. eapply H; [by eapply list_elem_of_lookup_2|done].
Qed.

Lemma find_named_spec s l name n : forall i,
  (forall k, (i <= k < i + n)%nat -> is_Some (classdescs s !! class_at l (Z.of_nat k))) ->
  find_named n (Z.of_nat i) l name s = Ok (first_named s name (map (fun i => class_at l (Z.of_nat i)) (seq i n))).
Proof.
  unfold first_named. induction n as [|n IH]; intros i Hd; [done|]. cbn [find_named seq map list_find].
  destruct (Hd i ltac:(lia)) as [d E]. unfold cls. rewrite E. cbn [rbind]. unfold strcmp_eq.
  assert (name_of s (class_at l (Z.of_nat i)) = Some (c_nm d)) as En by (unfold name_of; by rewrite E).
  case_bool_decide; case_decide; try congruence; try done.
  replace (Z.of_nat i + 1) with (Z.of_nat (S i)) by lia. rewrite IH by (intros; apply Hd; lia).
  by destruct (list_find _ _) as [[? ?]|].
Qed.

Lemma lib_class_lt l c : c ∈ lib_classes l <-> exists i, (i < Z.to_nat (numberOfClasses l))%nat /\ c = class_at l (Z.of_nat i).
Proof.
  unfold lib_classes. rewrite list_elem_of_fmap. setoid_rewrite elem_of_seq. split; intros (i & ? & ?); exists i; split; try done; lia.
Qed.

Lemma findClassDescInSharedLib_ref s lib l name :
  libs_ok s -> slibs s !! lib = Some l -> name <> name_Object ->
  findClassDescInSharedLib java_lang_Object lib name s = Ok (first_named s name (lib_classes l)).
Proof.
  intros Hok E Hn. unfold findClassDescInSharedLib, slib. rewrite E. cbn [rbind]. unfold strcmp_eq.
  rewrite bool_decide_false by done. change 0 with (Z.of_nat 0). apply find_named_spec. intros k Hk.
  destruct (lo_class s Hok lib l (class_at l (Z.of_nat k)) E) as (_ & d & Ed & _); [|eauto].
  apply lib_class_lt. exists k. split; [lia|done].
Qed.

Lemma find_in_libs_ref s name libs :
  libs_ok s -> name <> name_Object -> (forall lib, lib ∈ libs -> is_Some (slibs s !! lib)) ->
  find_in_libs java_lang_Object libs name s =
  Ok (first_named s name (concat (map (fun lib => match slibs s !! lib with Some l => lib_classes l | None => [] end) libs))).
Proof.
  intros Hok Hn. induction libs as [|lib libs IH]; intros Hl; [done|]. cbn [find_in_libs map concat].
  destruct (Hl lib) as [l E]; [apply list_elem_of_here|]. unfold slib at 1. rewrite E. cbn [rbind].
  specialize (IH (fun x H => Hl x (list_elem_of_further _ _ _ H))).
  rewrite first_named_app by (intros c Hc; by apply (lo_class s Hok lib l c E)).
  destruct (testHashKey name (key l) LIB_HASHKEY_LEN) eqn:Ek.
  - rewrite (findClassDescInSharedLib_ref s lib l) by done. cbn [rbind].
    by destruct (Z.eqb_spec (first_named s name (lib_classes l)) NULL).
  - rewrite (first_named_none s name (lib_classes l)); [done|]. intros c Hc.
    destruct (lo_class s Hok lib l c E Hc) as (_ & d & Ed & Hk & _). unfold name_of. rewrite Ed. simpl. congruence.
Qed.

Lemma findClassDesc_ref s name :
  libs_ok s ->
  findClassDesc java_lang_Object name s =
  Ok (if bool_decide (name = name_Object) then java_lang_Object else first_named s name (all_lib_classes s)).
Proof.
  intros Hok. unfold findClassDesc, strcmp_eq. case_bool_decide; [done|].
  apply find_in_libs_ref; try done. apply (lo_libs s Hok).
Qed.

(** ** The registry of array classes *)

(** the names of array classes: [[I], [[Ljava/lang/String;], [[[C] and so on *)
Inductive array_sig : cstring -> Prop :=
| sig_prim p : p ∈ str "IJFDBCSZ" -> array_sig [c_bracket; p]
| sig_class X : char_at X 0 <> c_bracket -> (length X < 80)%nat ->
    array_sig ([c_bracket; c_L] ++ X ++ [c_semicolon])
| sig_array n : array_sig n -> array_sig (c_bracket :: n).

Record arrays_ok (s : cst) : Prop := {
  ao_libs : libs_ok s;
  ao_prim : forall p, p ∈ str "IJFDBCSZ" ->
    exists d, classdescs s !! class_prim p = Some d /\ c_nm d = [p] /\ classType d = CLASSTYPE_PRIMITIVE;
  ao_alloc : al_ok (cs_alloc s) /\ code_ok (dz_code s) (cs_alloc s);
  ao_used : forall c d, classdescs s !! c = Some d -> in_use (dz_code s) c;
  ao_shared : forall c, c ∈ sharedArrayClasses s ->
    exists d e, classdescs s !! c = Some d /\ classdescs s !! elementClass d = Some e /\
      c_nm d = array_name e /\ classType d = CLASSTYPE_ARRAYCLASS;
  ao_cache : forall e ed, classdescs s !! e = Some ed -> arrayClass ed <> NULL ->
    arrayClass ed ∈ sharedArrayClasses s /\
    exists d, classdescs s !! arrayClass ed = Some d /\ elementClass d = e;
}.

(** [same d d']: [d'] is [d] up to the cached array class *)
Definition same (d d' : ClassDesc) : Prop := set_arrayClass (arrayClass d') d = d'.
Definition grows (s s' : cst) : Prop :=
  slibs s' = slibs s /\ sharedLibs s' = sharedLibs s /\
  forall c d, classdescs s !! c = Some d -> exists d', classdescs s' !! c = Some d' /\ same d d'.

Lemma same_refl d : same d d.
Proof. by destruct d. Qed.
Lemma same_fields d d' : same d d' ->
  c_nm d' = c_nm d /\ classType d' = classType d /\ elementClass d' = elementClass d /\ array_name d' = array_name d.
Proof. unfold same. by intros <-. Qed.

Lemma libs_ok_grows s s' : grows s s' -> libs_ok s -> libs_ok s'.
Proof.
  intros (E1 & E2 & Hg) [H1 H2 H3]. split.
  - by rewrite E2, E1.
  - rewrite E1. intros lib l c Hl Hc. destruct (H2 lib l c Hl Hc) as (Hn & d & Hd & Hk & Hb & Hp).
    destruct (Hg c d Hd) as (d' & Hd' & (F1 & F2 & _ & _)%same_fields). split; [done|]. exists d'. by rewrite F1, F2.
  - destruct H3 as (d & Hd & Hn & Ht & Ho). destruct (Hg _ d Hd) as (d' & Hd' & (F1 & F2 & _ & _)%same_fields).
    exists d'. by rewrite F1, F2.
Qed.

Context (sz_pos : 0 < sz_ArrayClassDesc < 1000000).

(** A new descriptor lands at a fresh address. *)
Lemma new_array_class_fresh s nm extra elem c s' :
  arrays_ok s -> Z.of_nat (length nm) < 1000000 -> 0 <= extra <= 1 ->
  new_array_class sz_ArrayClassDesc nm extra elem s = Ok (c, s') ->
  classdescs s !! c = None /\ classdescs s' = <[c := array_desc nm elem]> (classdescs s) /\
  slibs s' = slibs s /\ sharedLibs s' = sharedLibs s /\ sharedArrayClasses s' = sharedArrayClasses s /\
  al_ok (cs_alloc s') /\ code_ok (dz_code s') (cs_alloc s') /\ in_use (dz_code s') c /\
  (forall x, in_use (dz_code s) x -> in_use (dz_code s') x).
Proof using sz_pos.
  intros Hok Hs Hx H. unfold new_array_class, malloc_arrayclassdesc in H.
  rewrite (u32_small (Z.of_nat _ + 1 + extra)), (u32_small (sz_ArrayClassDesc + _ + _)) in H by lia.
  res_inv H. destruct r as [[n d] a]. injection H as <- <-. res_inv E. destruct r as [[m d1] a1]. injection E as <- <- <-.
  destruct (ao_alloc s Hok) as [Ha Hd].
  apply malloc_code_spec in E0 as (? & ? & Hf & Hu); try done; [|lia]. simpl.
  assert (in_use d1 m) by (apply Hu; right; lia).
  split_and!; try done.
  - destruct (classdescs s !! m) eqn:E; [|done]. exfalso. apply (Hf m); [lia|]. by eapply (ao_used s Hok).
  - intros x Hux. apply Hu. by left.
Qed.

(** Registering a new array class over [e], with or without filling the cache. *)
Lemma register_ok s nm elem e c s1 (cache : bool) :
  arrays_ok s -> classdescs s !! elem = Some e -> nm = array_name e ->
  classdescs s !! c = None /\ classdescs s1 = <[c := array_desc nm elem]> (classdescs s) /\
  slibs s1 = slibs s /\ sharedLibs s1 = sharedLibs s /\ sharedArrayClasses s1 = sharedArrayClasses s /\
  al_ok (cs_alloc s1) /\ code_ok (dz_code s1) (cs_alloc s1) /\ in_use (dz_code s1) c /\
  (forall x, in_use (dz_code s) x -> in_use (dz_code s1) x) ->
  let s' := push_array_class c (with_classes (if cache then alter (set_arrayClass c) elem else id) s1) in
  arrays_ok s' /\ grows s s' /\
  (exists d, classdescs s' !! c = Some d /\ c_nm d = nm /\ elementClass d = elem /\ classType d = CLASSTYPE_ARRAYCLASS).
Proof.
  intros Hok He -> (Hfr & Hcl & Hl & Hll & Hsh & Ha & Hcd & Huse & Hmono) s'.
  assert (elem <> c) as Hne by congruence.
  assert (Hlook : forall x d, classdescs s !! x = Some d -> exists d', classdescs s' !! x = Some d' /\ same d d' /\
    (arrayClass d' = arrayClass d \/ x = elem /\ arrayClass d' = c)).
  { intros x d Hx. assert (x <> c) by congruence. subst s'. simpl. rewrite Hcl. destruct cache; simpl.
    - destruct (decide (x = elem)) as [->|Hxe].
      + rewrite lookup_alter_eq, lookup_insert_ne, Hx by done. exists (set_arrayClass c d). simpl. split_and!; [done|by destruct d|by right].
      + rewrite lookup_alter_ne, lookup_insert_ne, Hx by done. exists d. split_and!; [done|apply same_refl|by left].
    - rewrite lookup_insert_ne, Hx by done. exists d. split_and!; [done|apply same_refl|by left]. }
  assert (Hnew : classdescs s' !! c = Some (array_desc (array_name e) elem)).
  { subst s'. simpl. rewrite Hcl. destruct cache; simpl; rewrite ?lookup_alter_ne by done; by rewrite lookup_insert_eq. }
  assert (Hinv : forall x d, classdescs s' !! x = Some d -> x = c /\ d = array_desc (array_name e) elem \/
    exists d0, classdescs s !! x = Some d0 /\ same d0 d /\ (arrayClass d = arrayClass d0 \/ x = elem /\ arrayClass d = c)).
  { intros x d Hx. destruct (decide (x = c)) as [->|Hxc]; [left; split; congruence|]. right.
    assert (is_Some (classdescs s !! x)) as [d0 E].
    { subst s'. simpl in Hx. rewrite Hcl in Hx. destruct cache; simpl in Hx.
      - destruct (decide (x = elem)) as [->|]; [eauto|]. rewrite lookup_alter_ne, lookup_insert_ne in Hx by done. eauto.
      - rewrite lookup_insert_ne in Hx by done. eauto. }
    exists d0. split; [done|]. destruct (Hlook x d0 E) as (d' & E' & ?). congruence. }
  assert (Hgr : grows s s').
  { split_and!; [done|done|]. intros x d Hx. destruct (Hlook x d Hx) as (d' & ? & ? & _). eauto. }
  split_and!; [|done|].
  - split.
    + by eapply libs_ok_grows, ao_libs.
    + intros p Hp. destruct (ao_prim s Hok p Hp) as (d & Hd & Hn & Ht).
      destruct (Hlook _ _ Hd) as (d' & Hd' & (F1 & F2 & _)%same_fields & _). exists d'. by rewrite F1, F2.
    + done.
    + intros x d Hx. destruct (Hinv x d Hx) as [[-> _]|(d0 & E & _)]; [done|]. by eapply Hmono, (ao_used s Hok).
    + change (sharedArrayClasses s') with (c :: sharedArrayClasses s1). rewrite Hsh. intros x Hx.
      apply elem_of_cons in Hx as [->|Hx].
      * destruct (Hlook elem e He) as (e' & He' & (F1 & F2 & F3 & F4)%same_fields & _).
        exists (array_desc (array_name e) elem), e'. by rewrite F4.
      * destruct (ao_shared s Hok x Hx) as (d & e0 & Hd & He0 & Hn & Ht).
        destruct (Hlook x d Hd) as (d' & Hd' & (F1 & F2 & F3 & F4)%same_fields & _).
        destruct (Hlook _ e0 He0) as (e' & He' & (G1 & G2 & G3 & G4)%same_fields & _).
        exists d', e'. by rewrite F1, F2, F3, G4.
    + change (sharedArrayClasses s') with (c :: sharedArrayClasses s1). rewrite Hsh. intros x d Hx Hnn.
      destruct (Hinv x d Hx) as [[-> ->]|(d0 & E & Hsame & [Hc|[-> Hc]])]; [done| |].
      * rewrite Hc in *. destruct (ao_cache s Hok x d0 E Hnn) as (Hin & da & Hda & Hel). split; [by apply list_elem_of_further|].
        destruct (Hlook _ da Hda) as (da' & Hda' & (_ & _ & F3 & _)%same_fields & _). exists da'. by rewrite F3.
      * rewrite Hc. split; [apply list_elem_of_here|]. by exists (array_desc (array_name e) elem).
  - by exists (array_desc (array_name e) elem).
Qed.

Abbreviation findShared := (findSharedArrayClassDesc java_lang_Object class_prim sz_ArrayClassDesc) (only parsing).

Lemma grows_refl s : grows s s.
Proof. split_and!; try done. intros c d H. exists d. split; [done|apply same_refl]. Qed.
Lemma grows_trans s1 s2 s3 : grows s1 s2 -> grows s2 s3 -> grows s1 s3.
Proof.
  intros (E1 & E2 & H) (F1 & F2 & G). split_and!; [congruence|congruence|]. intros c d Hd.
  destruct (H c d Hd) as (d1 & Hd1 & S1). destruct (G c d1 Hd1) as (d2 & Hd2 & S2). exists d2. split; [done|].
  unfold same in *. rewrite <- S1 in S2. by destruct d, d2; simpl in *.
Qed.

(** [grows] without a change of the cache *)
Definition extends (s s' : cst) : Prop := grows s s' /\ classdescs s ⊆ classdescs s'.

Lemma find_array_named_spec s name l :
  arrays_ok s -> (forall c, c ∈ l -> c ∈ sharedArrayClasses s) ->
  exists r, find_array_named l name s = Ok r /\
    match r with
    | Some c => c ∈ l /\ name_of s c = Some name
    | None => forall c, c ∈ l -> name_of s c <> Some name
    end.
Proof.
  intros Hok. induction l as [|c l IH]; intros Hl; cbn [find_array_named].
  - eexists. split; [done|]. by intros c ?%not_elem_of_nil.
  - destruct (ao_shared s Hok c) as (d & e & Hd & _); [apply Hl, list_elem_of_here|].
    unfold cls, strcmp_eq. rewrite Hd. cbn [rbind]. case_bool_decide as En.
    + eexists. split; [done|]. split; [apply list_elem_of_here|]. unfold name_of. by rewrite Hd, <- En.
    + destruct IH as (r & -> & Hr); [intros x Hx; by apply Hl, list_elem_of_further|]. exists r. split; [done|].
      destruct r as [c'|].
      * destruct Hr. split; [by apply list_elem_of_further|done].
      * intros x [->|Hx]%elem_of_cons; [unfold name_of; rewrite Hd; simpl; congruence|by apply Hr].
Qed.

Lemma signature_class_sig X :
  (length X < 80)%nat -> signature_class ([c_bracket; c_L] ++ X ++ [c_semicolon]) = Ok X.
Proof.
  intros HX. unfold signature_class. rewrite !length_app. simpl length.
  assert (Z.of_nat (2 + (length X + 1)) - 3 = Z.of_nat (length X)) as -> by lia.
  rewrite (proj2 (Z.ltb_ge _ 0)), (proj2 (Z.leb_gt 80 _)) by lia. cbn [orb drop app].
  by rewrite Nat2Z.id, drop_0, take_app_length.
Qed.

Lemma prim_not p : p ∈ str "IJFDBCSZ" -> p <> c_L /\ p <> c_bracket /\ existsb (Z.eqb p) (str "IJFDBCSZ") = true.
Proof.
  intros H. split_and!; [by intros ->; vm_compute in H; repeat (apply elem_of_cons in H as [H|H]; [done|]); apply not_elem_of_nil in H..|].
  apply existsb_exists. exists p. split; [by apply list_elem_of_In|apply Z.eqb_refl].
Qed.

(** The element class of a well-formed name. *)
Lemma element_of_name_spec find name s c s1 :
  arrays_ok s -> array_sig name ->
  (forall n c s1, name = c_bracket :: n -> array_sig n -> find n s = Ok (c, s1) ->
     arrays_ok s1 /\ extends s s1 /\ name_of s1 c = Some n) ->
  element_of_name java_lang_Object class_prim find name s = Ok (c, s1) -> c <> NULL ->
  arrays_ok s1 /\ extends s s1 /\ exists e, classdescs s1 !! c = Some e /\ name = array_name e.
Proof.
  intros Hok Hsig Hfind H Hc. assert (extends s s) as Hrefl by (split; [apply grows_refl|done]).
  unfold element_of_name in H. destruct Hsig as [p Hp|X HX HlX|n Hn].
  - destruct (prim_not p Hp) as (Hp1 & Hp2 & Hp3). cbn [drop] in H. unfold char_at in H. simpl in H.
    rewrite (proj2 (Z.eqb_neq p c_L)), (proj2 (Z.eqb_neq p c_bracket)) in H by done.
    unfold findPrimitiveClass in H. rewrite (proj2 (Z.eqb_neq p c_L)), Hp3 in H by done. injection H as <- <-.
    split_and!; [done|done|]. destruct (ao_prim s Hok p Hp) as (d & Hd & En & Et). exists d. split; [done|].
    unfold array_name. rewrite En, Et, Z.eqb_refl, orb_true_r. done.
  - change (char_at (drop 1 ([c_bracket; c_L] ++ X ++ [c_semicolon])) 0 =? c_L) with true in H.
    rewrite signature_class_sig in H by done. cbn [rbind] in H.
    rewrite (findClassDesc_ref _ _ (ao_libs s Hok)) in H. injection H as <- <-.
    split_and!; [done|done|]. case_bool_decide as EX.
    + destruct (lo_object s (ao_libs s Hok)) as (d & Hd & En & Et & _). exists d. split; [done|].
      unfold array_name. by rewrite En, Et, EX.
    + destruct (first_named_some s X (all_lib_classes s) _ eq_refl Hc) as [Hin Hn]. revert Hin Hn. generalize (first_named s X (all_lib_classes s)). intros c Hin Hn.
      apply list_elem_of_In, in_concat in Hin as (l & Hl & Hin). apply in_map_iff in Hl as (lib & <- & Hlib).
      destruct (slibs s !! lib) as [ld|] eqn:El; [|done].
      destruct (lo_class s (ao_libs s Hok) lib ld c El) as (_ & d & Hd & _ & Hb & Ht); [by apply list_elem_of_In|].
      exists d. split; [done|]. unfold name_of in Hn. rewrite Hd in Hn. injection Hn as Hn. unfold array_name.
      by rewrite (proj2 (Z.eqb_neq _ _) Hb), (proj2 (Z.eqb_neq _ _) Ht), Hn.
  - change (drop 1 (c_bracket :: n)) with n in H. assert (char_at n 0 = c_bracket) as Eb by (by destruct Hn). rewrite Eb in H. simpl in H.
    destruct (Hfind n c s1 eq_refl Hn H) as (Hok1 & Hext & Hname). split_and!; [done|done|].
    unfold name_of in Hname. destruct (classdescs s1 !! c) as [e|] eqn:E; [|done]. injection Hname as Hname.
    exists e. split; [done|]. unfold array_name. by rewrite Hname, Eb.
Qed.

Lemma findShared_spec fuel : forall name s c s',
  arrays_ok s -> array_sig name -> Z.of_nat (length name) < 1000000 ->
  findShared fuel name s = Ok (c, s') ->
  arrays_ok s' /\ extends s s' /\ c ∈ sharedArrayClasses s' /\ name_of s' c = Some name /\
  find_array_named (sharedArrayClasses s') name s' = Ok (Some c).
Proof using sz_pos.
  induction fuel as [|k IH]; intros name s c s' Hok Hsig Hlen H; [done|]. cbn [findSharedArrayClassDesc] in H.
  destruct (find_array_named_spec s name (sharedArrayClasses s) Hok (fun _ h => h)) as (r & Er & Hr).
  rewrite Er in H. cbn [rbind] in H. destruct r as [c0|].
  - injection H as <- <-. destruct Hr. split_and!; try done. split; [apply grows_refl|done].
  - apply rbind_ok in H as ([c1 s2] & E & H). injection H as <- <-.
    unfold createSharedArrayClassDesc in E. apply rbind_ok in E as ([el s1] & Eel & E). destruct (Z.eqb_spec el NULL) as [|Hel]; [done|].
    apply element_of_name_spec in Eel as (Hok1 & [Hg1 Hs1] & e & He & Hnm); try done.
    2: { intros n c2 s3 -> Hn Ef. apply IH in Ef as (? & ? & _ & ? & _); try done. simpl in Hlen. lia. }
    apply new_array_class_fresh in E as Hf; [|done|done|lia].
    destruct (register_ok s1 name el e c1 s2 false Hok1 He Hnm Hf) as (Hok' & Hg' & d & Hd & Hdn & _).
    assert (push_array_class c1 s2 = push_array_class c1 (with_classes id s2)) as Epush by (by destruct s2).
    rewrite Epush. split_and!.
    + done.
    + split; [by eapply grows_trans|]. etransitivity; [exact Hs1|]. destruct Hf as (Hfr & Hcl & _). simpl. unfold id.
      rewrite Hcl. by apply insert_subseteq.
    + apply list_elem_of_here.
    + unfold name_of. rewrite Hd. simpl. by rewrite Hdn.
    + cbn [find_array_named sharedArrayClasses push_array_class]. unfold cls. rewrite Hd. cbn [rbind].
      unfold strcmp_eq. by rewrite bool_decide_true.
Qed.

(** Each level of the recursion strips a bracket. *)
Lemma findShared_fuel name : forall s k1 k2,
  (length name < k1)%nat -> (length name < k2)%nat -> findShared k1 name s = findShared k2 name s.
Proof.
  induction name as [name IH] using (induction_ltof1 _ length). intros s [|k1] [|k2] H1 H2; [lia..|].
  cbn [findSharedArrayClassDesc]. destruct (find_array_named _ _ _) as [[?|]|]; [done| |done]. cbn [rbind].
  f_equal. unfold createSharedArrayClassDesc. f_equal. unfold element_of_name.
  destruct (char_at (drop 1 name) 0 =? c_L); [done|]. destruct (char_at (drop 1 name) 0 =? c_bracket) eqn:E; [|done].
  destruct name as [|x name]; [done|]. change (drop 1 (x :: name)) with name.
  cbn [length] in H1, H2. apply IH; unfold ltof; cbn [length]; lia.
Qed.
End ClassTheory.

(** ** Properties *)

Section ClassProperties.
Context {A : Type} `{!Allocator A} (java_lang_Object : Z) (class_prim : Z -> Z) (sz_ArrayClassDesc : Z).
Context (sz_pos : 0 < sz_ArrayClassDesc < 1000000).
Abbreviation cst := (class_state A) (only parsing).
Abbreviation find_array := (findSharedArrayClassDesc java_lang_Object class_prim sz_ArrayClassDesc) (only parsing).
Abbreviation arrays_ok := (arrays_ok java_lang_Object class_prim) (only parsing).

(** Looking a class up by its name through the hash keys of the libraries
    gives what a scan of all libraries without keys gives: [java/lang/Object]
    itself, otherwise the first class of that name in the newest library that
    has one, and NULL exactly when no library has it.  It always returns. *)
Theorem findClassDesc_reference (s : cst) name :
  libs_ok java_lang_Object s ->
  findClassDesc java_lang_Object name s =
  Ok (if bool_decide (name = name_Object) then java_lang_Object else first_named s name (all_lib_classes s)).
Proof. apply findClassDesc_ref. Qed.

(** Looking up an array class by a well-formed name finds or creates it: the
    result is registered under that name, its element class is the class the
    name stands for (so all element classes exist, down to the innermost), no
    existing descriptor changes, the registry stays consistent, and asking for
    the name again returns the same descriptor without any further change. *)
Theorem findSharedArrayClassDesc_registers fuel name (s : cst) c s' :
  arrays_ok s -> array_sig name -> Z.of_nat (length name) < 1000000 ->
  find_array fuel name s = Ok (c, s') ->
  arrays_ok s' /\ classdescs s ⊆ classdescs s' /\ c ∈ sharedArrayClasses s' /\
  (exists d e, classdescs s' !! c = Some d /\ c_nm d = name /\ classdescs s' !! elementClass d = Some e /\ name = array_name e) /\
  find_array 1 name s' = Ok (c, s').
Proof using sz_pos.
  intros Hok Hsig Hlen H. apply findShared_spec in H as (Hok' & [_ Hsub] & Hin & Hn & Hf); try done.
  split_and!; try done.
  - destruct (ao_shared _ _ s' Hok' c Hin) as (d & e & Hd & He & Hnm & _). exists d, e.
    unfold name_of in Hn. rewrite Hd in Hn. injection Hn as Hn. split_and!; try done. by rewrite <- Hn.
  - cbn [findSharedArrayClassDesc]. by rewrite Hf.
Qed.

(** The two registries do not know of each other: an array class first found
    by its name is not entered in its element class, so that the lookup
    through the element class creates a second descriptor of the same name. *)
Theorem array_class_duplicated fuel (s : cst) e ed c s1 c' s2 :
  arrays_ok s -> classdescs s !! e = Some ed -> arrayClass ed = NULL -> array_sig (array_name ed) ->
  Z.of_nat (length (c_nm ed)) < 999000 ->
  find_array fuel (array_name ed) s = Ok (c, s1) ->
  findSharedArrayClassDescByElemClass sz_ArrayClassDesc e s1 = Ok (c', s2) ->
  c' <> c /\ arrays_ok s2 /\
  name_of s2 c = Some (array_name ed) /\ name_of s2 c' = Some (array_name ed).
Proof using sz_pos.
  intros Hok He Hnull Hsig Hlen H1 H2.
  assert (Z.of_nat (length (array_name ed)) < 1000000) as Hl.
  { unfold array_name. destruct (_ || _); rewrite ?length_app; cbn [length]; rewrite ?length_app; cbn [length]; lia. }
  apply findShared_spec in H1 as (Hok1 & [_ Hsub] & Hin & Hn & _); try done.
  assert (classdescs s1 !! e = Some ed) as He1 by (by eapply lookup_weaken).
  unfold findSharedArrayClassDescByElemClass, cls in H2. rewrite He1 in H2. cbn [rbind] in H2. rewrite Hnull in H2. simpl in H2.
  apply rbind_ok in H2 as ([c2 s3] & E & H2). injection H2 as <- <-. unfold createSharedArrayClassDescUsingElemClass, cls in E.
  destruct (e =? NULL); [done|]. rewrite He1 in E. cbn [rbind] in E.
  apply (new_array_class_fresh java_lang_Object class_prim) in E as Hf; [|done..|lia].
  destruct (register_ok java_lang_Object class_prim s1 _ e ed c2 s3 true Hok1 He1 eq_refl Hf) as (Hok2 & (_ & _ & Hg) & d & Hd & Hdn & _).
  unfold name_of in Hn. destruct (classdescs s1 !! c) as [dc|] eqn:Ec; [|done]. injection Hn as Hn.
  split_and!; try done.
  - intros ->. destruct Hf as [Hfr _]. congruence.
  - destruct (Hg c dc Ec) as (d' & Hd' & (F & _)%same_fields). unfold name_of. simpl in *. rewrite Hd'. simpl. congruence.
  - unfold name_of. simpl in *. rewrite Hd. simpl. congruence.
Qed.
End ClassProperties.

(** ** A concrete registry: one library with one class [X] *)

Definition demo_block : Z * domain_code * malloc_state :=
  match malloc_code code0 1600 st16 with Ok r => r | Err _ => (0, code0, st16) end.
Definition demo_base : Z := 1049600.
Definition demo_prims : list Z := str "IJFDBCSZ".
Definition plain_class (t : Z) (nm : cstring) (super lib : Z) : ClassDesc :=
  MkClass t nm super [] [] 0 [] [] 0 0 [] [] [] lib NULL NULL.
(** the primitive class of the character [p] *)
Definition demo_prim (p : Z) : Z := demo_base + 15 * (p - 65) + 300.
Definition demo_class_Object : Z := demo_base.
Definition demo_class_X : Z := demo_base + 124.
Definition demo_lib : SharedLibDesc :=
  MkSharedLib (str "lib.jll") 1 0 [] [] demo_class_X 1 (addHashKey (str "X") (replicate 10 0) LIB_HASHKEY_LEN) 0 0 0 0 0.
Definition demo_classes : class_state malloc_state :=
  MkCS (<[demo_class_Object := plain_class CLASSTYPE_CLASS name_Object NULL NULL]>
       (<[demo_class_X := plain_class CLASSTYPE_CLASS (str "X") demo_class_Object 5000]>
       (list_to_map (map (fun p => (demo_prim p, plain_class CLASSTYPE_PRIMITIVE [p] NULL NULL)) demo_prims))))
    {[5000 := demo_lib]} [5000] [] (snd (fst demo_block)) (snd demo_block).

Lemma demo_libs_ok : libs_ok demo_class_Object demo_classes.
Proof.
  split.
  - intros lib ->%list_elem_of_singleton. by exists demo_lib.
  - intros lib l c Hl (i & Hi & ->)%lib_class_lt. change (({[5000 := demo_lib]} : gmap Z SharedLibDesc) !! lib = Some l) in Hl.
    apply lookup_singleton_Some in Hl as [<- <-].
    assert (i = 0)%nat as -> by (change (Z.to_nat (numberOfClasses demo_lib)) with 1%nat in Hi; lia).
    split; [done|]. exists (plain_class CLASSTYPE_CLASS (str "X") demo_class_Object 5000). by split_and!.
  - exists (plain_class CLASSTYPE_CLASS name_Object NULL NULL). by split_and!.
Qed.

Lemma demo_arrays_ok : arrays_ok demo_class_Object demo_prim demo_classes.
Proof.
  destruct (malloc_code code0 1600 st16) as [[[p d] a]|e] eqn:E; [|by vm_compute in E].
  assert (p = 1049600) as -> by (apply (f_equal (fun r => match r with Ok (p, _, _) => p | Err _ => 0 end)) in E; vm_compute in E; congruence).
  pose proof E as (Ha & Hd & _ & Hu)%malloc_code_spec; [|apply st16_good|apply code0_ok|lia].
  assert (demo_block = (1049600, d, a)) as Eb by (unfold demo_block; by rewrite E).
  split; [apply demo_libs_ok| | | | |].
  - intros p Hp. exists (plain_class CLASSTYPE_PRIMITIVE [p] NULL NULL). split; [|done].
    assert (forallb (fun p => bool_decide (c_nm <$> (classdescs demo_classes !! demo_prim p) = Some [p])) demo_prims = true) as H by (by vm_compute).
    revert p Hp. apply Forall_forall. repeat constructor.
  - unfold demo_classes. rewrite Eb. done.
  - intros c cd Hc. unfold demo_classes. rewrite Eb. simpl. apply Hu. right.
    assert (map_Forall (fun c _ => 1049600 <= c < 1051200) (classdescs demo_classes)) as H by (apply (bool_decide_unpack _); by vm_compute).
    by apply (H c cd).
  - by intros c ?%not_elem_of_nil.
  - intros e ed He Hn. exfalso. apply Hn.
    assert (map_Forall (fun _ d => arrayClass d = NULL) (classdescs demo_classes)) as H by (apply (bool_decide_unpack _); by vm_compute).
    by apply (H e ed).
Qed.

Lemma findClassDesc_reference_witness :
  findClassDesc demo_class_Object (str "X") demo_classes = Ok demo_class_X.
Proof.
  rewrite (findClassDesc_reference demo_class_Object demo_classes (str "X") demo_libs_ok). by vm_compute.
Defined.

Lemma findSharedArrayClassDesc_registers_witness :
  exists c s', findSharedArrayClassDesc demo_class_Object demo_prim 132 5 (str "[[I") demo_classes = Ok (c, s') /\
    arrays_ok demo_class_Object demo_prim s' /\ c ∈ sharedArrayClasses s'.
Proof.
  destruct (findSharedArrayClassDesc demo_class_Object demo_prim 132 5 (str "[[I") demo_classes) as [[c s']|e] eqn:E; [|by vm_compute in E].
  destruct (@findSharedArrayClassDesc_registers _ malloc_allocator demo_class_Object demo_prim 132 ltac:(lia) 5 (str "[[I") demo_classes c s'
    demo_arrays_ok) as (H1 & _ & H2 & _); [|done|exact E|by exists c, s'].
  apply sig_array, sig_prim. apply list_elem_of_here.
Defined.

Lemma array_class_duplicated_witness :
  exists c s1 c' s2, findSharedArrayClassDesc demo_class_Object demo_prim 132 5 (str "[LX;") demo_classes = Ok (c, s1) /\
    findSharedArrayClassDescByElemClass 132 demo_class_X s1 = Ok (c', s2) /\ c' <> c.
Proof.
  destruct (findSharedArrayClassDesc demo_class_Object demo_prim 132 5 (str "[LX;") demo_classes) as [[c s1]|e] eqn:E; [|by vm_compute in E].
  destruct (findSharedArrayClassDescByElemClass 132 demo_class_X s1) as [[c' s2]|e] eqn:E2.
  - exists c, s1, c', s2. split_and!; [done|done|].
    eapply (@array_class_duplicated _ malloc_allocator demo_class_Object demo_prim 132 ltac:(lia) 5 demo_classes demo_class_X
      (plain_class CLASSTYPE_CLASS (str "X") demo_class_Object 5000) c s1 c' s2 demo_arrays_ok); try done.
    by apply (sig_class (str "X")); [|simpl; lia].
  - exfalso. revert E2. vm_compute in E. injection E as <- <-. by vm_compute.
Defined.
