(* ===== verification/Types.v ===== *)
(** * Type tests of compiled code (core/vmsupport.c)

    [instanceof], [checkcast] and array stores end in [check_assign].  The
    recursions follow superclasses, interfaces and element classes; fuel
    counts calls, and the rank of a class (the length of the longest chain of
    such references below it) says how much is enough.  The test of the
    remaining stack ([CHECK_STACK_SIZE]) is not modelled. *)

From S2P Require Import Prelude Mem CString JString Malloc Alloc CodeMem Classes.
#[local] Open Scope Z_scope.

Section Types.
Context {A : Type} (java_lang_Object : Z) (s : class_state A).
Abbreviation classof := (fun c => Classes.cls c s) (only parsing).

(** ** The code *)

Definition isArrayClass (c : Z) : res bool :=
  let! d := classof c in Ok (char_at (c_nm d) 0 =? c_bracket).
Definition get_element_class (c : Z) : res Z := let! d := classof c in Ok (elementClass d).
Definition is_interface (c : Z) : res bool :=
  let! d := classof c in Ok (classType d =? CLASSTYPE_INTERFACE).

(** [while ((subclass = subclass->superclass) != NULL) ...] *)
Fixpoint superclass_loop (fuel : nat) (subclass superclass_ : Z) : res bool :=
  match fuel with
  | O => Err EFuel
  | S n =>
      let! d := classof subclass in
      let subclass := superclass d in
      if subclass =? NULL then Ok false else
      let! _ := classof subclass in
      if subclass =? superclass_ then Ok true else superclass_loop n subclass superclass_
  end.

Definition is_subclass_of (fuel : nat) (subclass superclass_ : Z) : res bool :=
  let! _ := classof subclass in
  let! _ := classof superclass_ in
  if subclass =? superclass_ then Ok true else superclass_loop fuel subclass superclass_.

(** the loop over [c->interfaces] *)
Fixpoint any_interface (test : Z -> res bool) (l : list Z) : res bool :=
  match l with
  | [] => Ok false
  | i :: l => let! b := test i in if (b : bool) then Ok true else any_interface test l
  end.

Fixpoint implements_interface (fuel : nat) (c ifa : Z) {struct fuel} : res bool :=
  match fuel with
  | O => Err EFuel
  | S n =>
      let! d := classof c in
      let! _ := classof ifa in
      let! b := is_subinterface_of n c ifa in
      if (b : bool) then Ok true else
      any_interface (fun i =>
        let! b := implements_interface n i ifa in
        if (b : bool) then Ok true else is_subinterface_of n i ifa) (interfaces d)
  end
with is_subinterface_of (fuel : nat) (subif superif : Z) {struct fuel} : res bool :=
  match fuel with
  | O => Err EFuel
  | S n =>
      let! _ := classof subif in
      let! _ := classof superif in
      if subif =? superif then Ok true else subif_loop n subif superif
  end
with subif_loop (fuel : nat) (subif superif : Z) {struct fuel} : res bool :=
  match fuel with
  | O => Err EFuel
  | S n =>
      let! d := classof subif in
      let subif := superclass d in
      if subif =? NULL then Ok false else
      let! _ := classof subif in
      if subif =? superif then Ok true else
      let! b := implements_interface n subif superif in
      if (b : bool) then Ok true else subif_loop n subif superif
  end.

Fixpoint check_assign (fuel : nat) (variable_class reference_class : Z) : res bool :=
  match fuel with
  | O => Err EFuel
  | S n =>
      let! _ := classof reference_class in
      let! _ := classof variable_class in
      if variable_class =? reference_class then Ok true else
      let! ra := isArrayClass reference_class in
      if (ra : bool) then
        if variable_class =? java_lang_Object then Ok true else
        let! va := isArrayClass variable_class in
        if negb va then Ok false else
        let! v := get_element_class variable_class in
        let! r := get_element_class reference_class in
        check_assign n v r
      else
        let! b := is_subclass_of n reference_class variable_class in
        if (b : bool) then Ok true else
        let! i := is_interface variable_class in
        if (i : bool) then implements_interface n reference_class variable_class else Ok false
  end.

Definition vm_instanceof (fuel : nat) (m : memory) (obj c : Z) : res bool :=
  let! _ := classof c in
  if obj =? NULL then Ok true else
  let! oclass := nonatomic_handle2ClassDesc m obj in
  let! _ := classof oclass in
  if oclass =? c then Ok true else check_assign fuel c oclass.

Definition vm_checkcast (fuel : nat) (m : memory) (obj c : Z) : res unit :=
  let! _ := classof c in
  if obj =? NULL then Ok tt else
  let! _ := ASSERTOBJECT m obj in
  let! oclass := nonatomic_handle2ClassDesc m obj in
  let! b := check_assign fuel c oclass in
  if (b : bool) then Ok tt else Err (EThrow "java/lang/ClassCastException").

(** ** The specification *)

Definition desc_of (c : Z) (d : ClassDesc) : Prop := classdescs s !! c = Some d.
(** one step up: to the superclass, or also to an interface *)
Definition extends1 (c c' : Z) : Prop := exists d, desc_of c d /\ superclass d = c' /\ c' <> NULL.
Definition direct (c c' : Z) : Prop :=
  exists d, desc_of c d /\ (superclass d = c' /\ c' <> NULL \/ c' ∈ interfaces d).
Definition is_array (c : Z) : Prop := exists d, desc_of c d /\ char_at (c_nm d) 0 = c_bracket.
Definition interface (c : Z) : Prop := exists d, desc_of c d /\ classType d = CLASSTYPE_INTERFACE.
Definition element (c e : Z) : Prop := exists d, desc_of c d /\ char_at (c_nm d) 0 = c_bracket /\ elementClass d = e.

(** [assignable v r]: a reference of class [r] may be stored in a variable of type [v]. *)
Inductive assignable : Z -> Z -> Prop :=
| as_refl v : assignable v v
| as_object r : is_array r -> assignable java_lang_Object r
| as_array v r ev er : element v ev -> element r er -> assignable ev er -> assignable v r
| as_subclass v r : ~ is_array r -> rtc extends1 r v -> assignable v r
| as_interface v r : ~ is_array r -> interface v -> rtc direct r v -> assignable v r.

(** Every class that is referred to has a descriptor, and references go down in rank. *)
Record hierarchy_ok (rank : Z -> nat) : Prop := {
  ho_direct : forall c c', direct c c' -> is_Some (classdescs s !! c') /\ (rank c' < rank c)%nat;
  ho_element : forall c e, element c e -> is_Some (classdescs s !! e) /\ (rank e < rank c)%nat;
}.

(** ** Correctness *)

(** a test that returns and decides [P] *)
Definition decides (r : res bool) (P : Prop) : Prop := exists b : bool, r = Ok b /\ (b = true <-> P).

Lemma decides_ok (b : bool) (P : Prop) : (b = true <-> P) -> decides (Ok b) P.
Proof. by exists b. Qed.
Lemma decides_iff r P Q : decides r P -> (P <-> Q) -> decides r Q.
Proof. intros (b & E & H) HPQ. exists b. split; [done|]. by rewrite H. Qed.
Lemma decides_or r P (k : res bool) Q R :
  decides r P -> (P -> R) -> (~ P -> decides k Q) -> (~ P -> Q <-> R) ->
  decides (let! b := r in if (b : bool) then Ok true else k) R.
Proof.
  intros (b & -> & Hb) HPR Hk HQR. cbn [rbind]. destruct b.
  - apply decides_ok. split; [|done]. intros _. by apply HPR, Hb.
  - assert (~ P) as HnP by (intros HP; by apply Hb in HP). eapply decides_iff; auto.
Qed.

Lemma any_interface_spec test (P : Z -> Prop) l :
  (forall i, i ∈ l -> decides (test i) (P i)) -> decides (any_interface test l) (exists i, i ∈ l /\ P i).
Proof.
  induction l as [|i l IH]; intros H; cbn [any_interface].
  - apply decides_ok. split; [done|]. by intros (i & ?%not_elem_of_nil & _).
  - apply (decides_or _ (P i) _ (exists j, j ∈ l /\ P j)).
    + apply H, list_elem_of_here.
    + intros Hi. exists i. split; [apply list_elem_of_here|done].
    + intros _. apply IH. intros j Hj. apply H. by apply list_elem_of_further.
    + intros Hi. split; [intros (j & ? & ?); exists j; split; [by apply list_elem_of_further|done]|].
      intros (j & [->|Hj]%elem_of_cons & Hp); [done|by exists j].
Qed.

Section Correct.
Context (rank : Z -> nat) (Hok : hierarchy_ok rank).
Abbreviation valid := (fun c => is_Some (classdescs s !! c)) (only parsing).

Lemma extends1_direct c p : extends1 c p -> direct c p.
Proof. intros (d & ? & ?). exists d. split; [done|by left]. Qed.
Lemma extends_direct c p : rtc extends1 c p -> rtc direct c p.
Proof. induction 1; [done|]. eapply rtc_l; [by apply extends1_direct|done]. Qed.

Lemma direct_cases c d p : desc_of c d -> direct c p <-> extends1 c p \/ p ∈ interfaces d.
Proof.
  unfold desc_of. intros Hd. split.
  - intros (d' & Hd' & [H|H]); [left; by exists d'|right]. unfold desc_of in Hd'. rewrite Hd in Hd'. by injection Hd' as ->.
  - intros [H|H]; [by apply extends1_direct|]. exists d. split; [done|by right].
Qed.

(** The step of both superclass loops. *)
Lemma superclass_step c d :
  desc_of c d ->
  (superclass d = NULL /\ forall p, ~ extends1 c p) \/
  (superclass d <> NULL /\ extends1 c (superclass d) /\ valid (superclass d) /\ (rank (superclass d) < rank c)%nat /\
   forall p, extends1 c p -> p = superclass d).
Proof using Hok.
  intros Hd. unfold desc_of in Hd. destruct (decide (superclass d = NULL)) as [E|E]; [left|right].
  - split; [done|]. intros p (d' & Hd' & Hp & Hn). unfold desc_of in Hd'. congruence.
  - assert (extends1 c (superclass d)) as He by (by exists d).
    destruct (ho_direct rank Hok c _ (extends1_direct _ _ He)). split_and!; try done.
    intros p (d' & Hd' & Hp & Hn). unfold desc_of in Hd'. congruence.
Qed.

Lemma superclass_loop_spec fuel : forall c sup,
  valid c -> (rank c < fuel)%nat ->
  decides (superclass_loop fuel c sup) (exists p, extends1 c p /\ rtc extends1 p sup).
Proof using Hok.
  induction fuel as [|n IH]; intros c sup [d Hd] Hf; [lia|]. cbn [superclass_loop]. unfold cls at 1. rewrite Hd. cbn [rbind].
  destruct (superclass_step c d Hd) as [[E Hno]|(E & He & [ds Hs] & Hr & Huniq)].
  - rewrite E. apply decides_ok. split; [done|]. by intros (p & Hp & _); apply Hno in Hp.
  - rewrite (proj2 (Z.eqb_neq _ _) E). unfold cls. rewrite Hs. cbn [rbind].
    destruct (Z.eqb_spec (superclass d) sup) as [<-|Hne].
    + apply decides_ok. split; [|done]. intros _. by exists (superclass d).
    + eapply decides_iff; [apply IH; [done|lia]|]. split.
      * intros (p & Hp & Hpp). exists (superclass d). split; [done|]. by eapply rtc_l.
      * intros (p & ->%Huniq & Hpp). by inversion Hpp; subst; [|eauto].
Qed.

Lemma is_subclass_of_spec fuel c sup :
  valid c -> valid sup -> (rank c < fuel)%nat -> decides (is_subclass_of fuel c sup) (rtc extends1 c sup).
Proof using Hok.
  intros Hc [ds Hs] Hf. pose proof Hc as [d Hd]. unfold is_subclass_of, cls. rewrite Hd, Hs. cbn [rbind].
  destruct (Z.eqb_spec c sup) as [<-|Hne]; [by apply decides_ok|].
  eapply decides_iff; [by apply superclass_loop_spec|]. split; [intros (p & ? & ?); by eapply rtc_l|].
  intros H. inversion H; subst; [done|eauto].
Qed.

Lemma implements_spec fuel :
  (forall c i, valid c -> valid i -> (3 * rank c + 3 <= fuel)%nat ->
     decides (implements_interface fuel c i) (rtc direct c i)) /\
  (forall c i, valid c -> valid i -> (3 * rank c + 2 <= fuel)%nat ->
     decides (is_subinterface_of fuel c i) (c = i \/ exists p, extends1 c p /\ rtc direct p i)) /\
  (forall c i, valid c -> valid i -> (3 * rank c + 1 <= fuel)%nat ->
     decides (subif_loop fuel c i) (exists p, extends1 c p /\ rtc direct p i)).
Proof using Hok.
  induction fuel as [|n (IH1 & IH2 & IH3)]; [split_and!; intros; lia|].
  split_and!; intros c i [d Hd] [di Hi] Hf; cbn [implements_interface is_subinterface_of subif_loop];
    unfold cls; rewrite ?Hd, ?Hi; cbn [rbind].
  - set (Q := exists j, j ∈ interfaces d /\ rtc direct j i).
    apply (decides_or _ (c = i \/ exists p, extends1 c p /\ rtc direct p i) _ Q).
    + apply IH2; [by exists d|by exists di|lia].
    + intros [->|(p & Hp & Hpi)]; [done|]. eapply rtc_l; [by apply extends1_direct|done].
    + intros _. apply any_interface_spec. intros j Hj.
      destruct (ho_direct rank Hok c j) as [Hvj Hrj]; [apply (direct_cases c d); [done|by right]|].
      apply (decides_or _ (rtc direct j i) _ (j = i \/ exists p, extends1 j p /\ rtc direct p i)).
      * apply IH1; [done|by exists di|lia].
      * done.
      * intros _. apply IH2; [done|by exists di|lia].
      * intros Hnj. split; [|done]. intros [->|(p & Hp & Hpi)]; [done|]. eapply rtc_l; [by apply extends1_direct|done].
    + intros Hno. split.
      * intros (j & Hj & Hji). eapply rtc_l; [|done]. apply (direct_cases c d); [done|by right].
      * intros Hci. inversion Hci as [|? p ? Hp Hpi]; subst; [by destruct Hno; left|].
        apply (direct_cases c d) in Hp as [Hp|Hp]; [|by exists p|done]. destruct Hno. right. by exists p.
  - destruct (Z.eqb_spec c i) as [->|Hne]; [apply decides_ok; tauto|].
    eapply decides_iff; [apply IH3; [by exists d|by exists di|lia]|]. tauto.
  - destruct (superclass_step c d Hd) as [[E Hno]|(E & He & Hvs & Hr & Huniq)].
    + rewrite E. apply decides_ok. split; [done|]. by intros (p & Hp & _); apply Hno in Hp.
    + rewrite (proj2 (Z.eqb_neq _ _) E). destruct Hvs as [ds Hs]. rewrite Hs. cbn [rbind].
      destruct (Z.eqb_spec (superclass d) i) as [<-|Hne].
      { apply decides_ok. split; [|done]. intros _. by exists (superclass d). }
      apply (decides_or _ (rtc direct (superclass d) i) _ (exists p, extends1 (superclass d) p /\ rtc direct p i)).
      * apply IH1; [by exists ds|by exists di|lia].
      * intros H. by exists (superclass d).
      * intros _. apply IH3; [by exists ds|by exists di|lia].
      * intros Hno. split; [intros (p & Hp & Hpi); destruct Hno; eapply rtc_l; [by apply extends1_direct|done]|].
        by intros (p & ->%Huniq & Hpi).
Qed.

Lemma is_array_dec c d : desc_of c d -> is_array c <-> char_at (c_nm d) 0 = c_bracket.
Proof. unfold desc_of. intros Hd. split; [|by exists d]. intros (d' & Hd' & H). unfold desc_of in Hd'. congruence. Qed.

Lemma check_assign_spec fuel : forall v r,
  valid v -> valid r -> (3 * rank r + 4 <= fuel)%nat -> decides (check_assign fuel v r) (assignable v r).
Proof using Hok.
  induction fuel as [|n IH]; intros v r [dv Hv] [dr Hr] Hf; [lia|]. cbn [check_assign].
  unfold isArrayClass, is_interface, get_element_class, cls. rewrite Hr, Hv. cbn [rbind].
  destruct (Z.eqb_spec v r) as [->|Hne]; [apply decides_ok; split; [intros _; constructor|done]|].
  pose proof (is_array_dec r dr Hr) as Har. pose proof (is_array_dec v dv Hv) as Hav.
  destruct (Z.eqb_spec (char_at (c_nm dr) 0) c_bracket) as [Er|Er].
  - destruct (Z.eqb_spec v java_lang_Object) as [->|Ho].
    { apply decides_ok. split; [|done]. intros _. apply as_object. tauto. }
    destruct (Z.eqb_spec (char_at (c_nm dv) 0) c_bracket) as [Ev|Ev]; cbn [negb rbind].
    + destruct (ho_element rank Hok r (elementClass dr)) as [Hvr Hrr]; [by exists dr|].
      destruct (ho_element rank Hok v (elementClass dv)) as [Hvv _]; [by exists dv|].
      eapply decides_iff; [apply IH; [done|done|lia]|]. split.
      * intros H. eapply as_array; [by exists dv|by exists dr|done].
      * intros H. inversion H as [|? ?|? ? ev er (d1 & H1 & _ & <-) (d2 & H2 & _ & <-) Hee|? ? Hna _|? ? Hna _ _]; subst;
          unfold desc_of in *; simplify_eq; try done; tauto.
    + apply decides_ok. split; [done|].
      intros H. inversion H as [|? ?|? ? ev er (d1 & H1 & ? & <-) _ _|? ? Hna _|? ? Hna _ _]; subst; unfold desc_of in *; simplify_eq; try done; tauto.
  - destruct (implements_spec n) as (Himp & _ & _).
    apply (decides_or _ (rtc extends1 r v) _ (interface v /\ rtc direct r v)).
    + apply is_subclass_of_spec; [by exists dr|by exists dv|lia].
    + intros H. apply as_subclass; tauto.
    + intros _. destruct (Z.eqb_spec (classType dv) CLASSTYPE_INTERFACE) as [Ei|Ei].
      * eapply decides_iff; [apply Himp; [by exists dr|by exists dv|lia]|]. split; [|tauto]. intros H. split; [by exists dv|done].
      * apply decides_ok. split; [done|]. intros [(d & Hd & ?) _]. unfold desc_of in Hd. congruence.
    + intros Hno. split; [intros [? ?]; apply as_interface; tauto|].
      intros H. inversion H as [|? Ha|? ? ev er Hev (d2 & H2 & ? & _) Hee|? ? Hna Hx|? ? Hna Hx Hy]; subst; unfold desc_of in *; simplify_eq; try done; tauto.
Qed.

(** ** Subsumption *)

(** What a hierarchy loaded from Java classes satisfies besides: [Object] is a
    plain root, only non-array classes have superclasses and interfaces, and
    those are no arrays; interfaces extend [Object] only, and a class with a
    superclass or an interface is an [Object]. *)
Record java_ok : Prop := {
  jo_object : exists d, desc_of java_lang_Object d /\ char_at (c_nm d) 0 <> c_bracket /\ superclass d = NULL /\ interfaces d = [];
  jo_array : forall c p, direct c p -> ~ is_array p;
  jo_interface : forall i p, interface i -> extends1 i p -> p = java_lang_Object;
  jo_rooted : forall c p, direct c p -> rtc extends1 c java_lang_Object;
}.

Context (Hj : java_ok).

Lemma object_top w : rtc direct java_lang_Object w -> w = java_lang_Object.
Proof using Hj.
  destruct (jo_object Hj) as (d & Hd & _ & Hs & Hi). intros H. inversion H as [|? p ? (d' & Hd' & Hp)]; subst; [done|].
  unfold desc_of in *. simplify_eq. destruct Hp as [[<- Hn]|Hp]; [by rewrite Hs in Hn|]. rewrite Hi in Hp. by apply not_elem_of_nil in Hp.
Qed.
Lemma object_no_array : ~ is_array java_lang_Object.
Proof using Hj. destruct (jo_object Hj) as (d & Hd & Hc & _). intros (d' & Hd' & ?). unfold desc_of in *. congruence. Qed.
Lemma element_array c e : element c e -> is_array c.
Proof. intros (d & ? & ? & _). by exists d. Qed.
Lemma direct_no_array r v : ~ is_array r -> rtc direct r v -> ~ is_array v.
Proof using Hj. intros Hr H. apply rtc_inv_r in H as [<-|(p & _ & Hp)]; [done|by eapply jo_array]. Qed.

Lemma assignable_plain w v : ~ is_array v -> assignable w v ->
  w = v \/ rtc extends1 v w \/ interface w /\ rtc direct v w.
Proof.
  intros Hv H. inversion H as [|? Ha|? ? ev er Hev Her Hee|? ? Hna Hx|? ? Hna Hx Hy]; subst; auto; exfalso;
    [done|apply Hv; by eapply element_array].
Qed.

Lemma assignable_trans v r : assignable v r -> forall w, assignable w v -> assignable w r.
Proof using Hj.
  induction 1 as [v|r Hr|v r ev er Hev Her Hee IH|v r Hr Hext|v r Hr Hv Hd]; intros w Hw; [done| | | |].
  - apply assignable_plain in Hw as [->|[H|[_ H]]]; [by apply as_object|..|apply object_no_array].
    + rewrite (object_top w); [by apply as_object|by apply extends_direct].
    + rewrite (object_top w) by done. by apply as_object.
  - inversion Hw as [|? Ha|? ? ew ev' Hew Hev' Hww|? ? Hna _|? ? Hna _ _]; subst.
    + by eapply as_array.
    + apply as_object. by eapply element_array.
    + assert (ev' = ev) as -> by (destruct Hev as (d1 & H1 & _ & <-), Hev' as (d2 & H2 & _ & <-); unfold desc_of in *; congruence).
      eapply as_array; [done|done|]. by apply IH.
    + destruct Hna. by eapply element_array.
    + destruct Hna. by eapply element_array.
  - pose proof (extends_direct r v Hext) as Hd. apply assignable_plain in Hw as [->|[H|[Hi H]]];
      [by apply as_subclass|..|by eapply direct_no_array].
    + apply as_subclass; [done|]. by etransitivity.
    + apply as_interface; [done|done|]. by etransitivity.
  - apply assignable_plain in Hw as [->|[H|[Hi H]]]; [by apply as_interface|..|by eapply direct_no_array].
    + inversion H as [|? p ? Hp Hpw]; subst; [by apply as_interface|].
      assert (p = java_lang_Object) as -> by (by eapply jo_interface).
      rewrite (object_top w) by (by apply extends_direct). apply as_subclass; [done|].
      inversion Hd as [|? q ? Hq _]; subst; [by apply rtc_once|by eapply jo_rooted].
    + apply as_interface; [done|done|]. by etransitivity.
Qed.
End Correct.
End Types.

(** ** Properties *)

Section TypeProperties.
Context {A : Type} (java_lang_Object : Z) (s : class_state A) (rank : Z -> nat).
(** C6 [check_assign] decides assignment compatibility: on a hierarchy whose
    references all lead to classes of lower rank, it returns for every two
    classes, and its answer is the relation [assignable] (the class itself,
    [Object] for arrays, arrays of assignable elements, superclasses,
    implemented interfaces with their superinterfaces). *)
Theorem check_assign_decides fuel v r :
  hierarchy_ok s rank -> is_Some (classdescs s !! v) -> is_Some (classdescs s !! r) ->
  (3 * rank r + 4 <= fuel)%nat ->
  exists b : bool, check_assign java_lang_Object s fuel v r = Ok b /\ (b = true <-> assignable java_lang_Object s v r).
Proof. intros. by apply check_assign_spec with rank. Qed.

(** C7 Subsumption: on a Java class hierarchy, whatever passes the test for a
    class passes the test for every class this one is assignable to, through
    arrays, superclasses and interfaces in any combination. *)
Theorem check_assign_subsumption fuel v r w :
  hierarchy_ok s rank -> java_ok java_lang_Object s ->
  (forall c, c ∈ [v; r; w] -> is_Some (classdescs s !! c) /\ (3 * rank c + 4 <= fuel)%nat) ->
  check_assign java_lang_Object s fuel v r = Ok true ->
  check_assign java_lang_Object s fuel w v = Ok true ->
  check_assign java_lang_Object s fuel w r = Ok true.
Proof.
  intros Hh Hj Hc H1 H2.
  destruct (Hc v ltac:(set_solver)) as [Vv Fv], (Hc r ltac:(set_solver)) as [Vr Fr], (Hc w ltac:(set_solver)) as [Vw _].
  destruct (check_assign_spec java_lang_Object s rank Hh fuel v r Vv Vr Fr) as (b1 & E1 & A1).
  destruct (check_assign_spec java_lang_Object s rank Hh fuel w v Vw Vv Fv) as (b2 & E2 & A2).
  destruct (check_assign_spec java_lang_Object s rank Hh fuel w r Vw Vr Fr) as (b3 & E3 & A3).
  rewrite E3. f_equal. apply A3. eapply assignable_trans; [done|apply A1; congruence|apply A2; congruence].
Qed.

(** [instanceof] and [checkcast] agree: for a reference with class [r] both
    answer by [assignable], the cast with a [ClassCastException]; NULL passes
    both, although [null instanceof C] is false in Java. *)
Theorem instanceof_checkcast fuel m obj c :
  hierarchy_ok s rank -> is_Some (classdescs s !! c) ->
  (obj <> NULL -> load32 m (obj - 4) = MAGIC_OBJECT /\ load32 m obj <> 0 /\
     is_Some (classdescs s !! load32 m (load32 m obj - 4)) /\
     (3 * rank (load32 m (load32 m obj - 4)) + 4 <= fuel)%nat) ->
  exists b : bool,
    vm_instanceof java_lang_Object s fuel m obj c = Ok b /\
    vm_checkcast java_lang_Object s fuel m obj c = (if b then Ok tt else Err (EThrow "java/lang/ClassCastException")) /\
    (b = true <-> obj = NULL \/ assignable java_lang_Object s c (load32 m (load32 m obj - 4))).
Proof.
  intros Hh [d Hd] Ho. unfold vm_instanceof, vm_checkcast, cls at 1 3. rewrite Hd. cbn [rbind].
  destruct (Z.eqb_spec obj NULL) as [->|Hn]; [exists true; tauto|].
  destruct (Ho Hn) as (Hm & Hv & Hr & Hf). unfold nonatomic_handle2ClassDesc, ASSERTOBJECT, obj2ClassDesc.
  rewrite Hm, (proj2 (Z.eqb_neq _ 0) Hv), Z.eqb_refl, orb_true_r. cbn [andb negb assert_ rbind].
  set (r := load32 m (load32 m obj - 4)) in *.
  destruct (check_assign_spec java_lang_Object s rank Hh fuel c r) as (b & E & Hb); [by exists d|done|done|].
  exists b. rewrite E. destruct Hr as [dr Hr]. unfold cls. rewrite Hr. cbn [rbind].
  split_and!; [|by destruct b|rewrite Hb; tauto].
  destruct (Z.eqb_spec r c) as [Erc|]; [|done]. f_equal. symmetry. apply Hb. rewrite Erc. apply as_refl.
Qed.
End TypeProperties.

(** ** A concrete hierarchy: [class D extends C], [C implements J], [J extends I], and arrays *)

Definition class_desc (t : Z) (nm : cstring) (super : Z) (ifs : list Z) (elem : Z) : ClassDesc :=
  MkClass t nm super [] ifs 0 [] [] 0 0 [] [] [] 5000 elem NULL.
Definition t_Object : Z := 100.
Definition demo_hierarchy : class_state unit :=
  MkCS (list_to_map
    [(t_Object, class_desc CLASSTYPE_CLASS name_Object NULL [] NULL);
     (101, class_desc CLASSTYPE_INTERFACE (str "I") t_Object [] NULL);
     (102, class_desc CLASSTYPE_INTERFACE (str "J") t_Object [101] NULL);
     (103, class_desc CLASSTYPE_CLASS (str "C") t_Object [102] NULL);
     (104, class_desc CLASSTYPE_CLASS (str "D") 103 [] NULL);
     (105, class_desc CLASSTYPE_ARRAYCLASS (str "[LD;") NULL [] 104);
     (106, class_desc CLASSTYPE_ARRAYCLASS (str "[LC;") NULL [] 103);
     (107, class_desc CLASSTYPE_ARRAYCLASS (str "[LI;") NULL [] 101)])
    ∅ [] [] code0 tt.
Definition demo_rank (c : Z) : nat := Z.to_nat (c - 100).

Lemma demo_hierarchy_ok : hierarchy_ok demo_hierarchy demo_rank.
Proof.
  assert (map_Forall (fun c d =>
    (superclass d = NULL \/ is_Some (classdescs demo_hierarchy !! superclass d) /\ (demo_rank (superclass d) < demo_rank c)%nat) /\
    Forall (fun i => is_Some (classdescs demo_hierarchy !! i) /\ (demo_rank i < demo_rank c)%nat) (interfaces d) /\
    (char_at (c_nm d) 0 = c_bracket -> is_Some (classdescs demo_hierarchy !! elementClass d) /\ (demo_rank (elementClass d) < demo_rank c)%nat))
    (classdescs demo_hierarchy)) as H by (apply (bool_decide_unpack _); by vm_compute).
  split.
  - intros c p (d & Hd & [[<- Hn]|Hp]); destruct (H c d Hd) as (H1 & H2 & _); [tauto|].
    by apply (proj1 (Forall_forall _ _) H2).
  - intros c e (d & Hd & Hb & <-). by apply (H c d Hd).
Qed.

Lemma demo_java_ok : java_ok t_Object demo_hierarchy.
Proof.
  set (m := classdescs demo_hierarchy).
  assert (map_Forall (fun _ d =>
    (char_at (c_nm d) 0 = c_bracket -> superclass d = NULL /\ interfaces d = []) /\
    (classType d = CLASSTYPE_INTERFACE -> superclass d = t_Object) /\
    (superclass d = NULL /\ interfaces d = [] \/ superclass d = t_Object \/
     superclass d <> NULL /\ (superclass <$> (m !! superclass d)) = Some t_Object) /\
    Forall (fun p => p = NULL \/ ((fun e => char_at (c_nm e) 0 =? c_bracket) <$> (m !! p)) = Some false) (superclass d :: interfaces d)) m)
    as H by (apply (bool_decide_unpack _); by vm_compute).
  split.
  - exists (class_desc CLASSTYPE_CLASS name_Object NULL [] NULL). by split_and!.
  - intros c p (d & Hd & Hp) (e & He & Hb). destruct (H c d Hd) as (_ & _ & _ & Hf).
    assert (p <> NULL /\ p ∈ superclass d :: interfaces d) as [Hn Hin].
    { destruct Hp as [[<- Hn]|Hp]; [split; [done|apply list_elem_of_here]|]. split; [|by apply list_elem_of_further].
      intros ->. by vm_compute in He. }
    apply (proj1 (Forall_forall _ _) Hf) in Hin as [|Hin]; [done|]. unfold desc_of in He. fold m in He. rewrite He in Hin.
    injection Hin as Hin. by apply Z.eqb_neq in Hin.
  - intros i p (d & Hd & Hi) (d' & Hd' & <- & _). destruct (H i d' Hd') as (_ & Hs & _). apply Hs. unfold desc_of in *. congruence.
  - intros c p (d & Hd & Hp). destruct (H c d Hd) as (_ & _ & [[E1 E2]|[E|[Hn E]]] & _).
    + rewrite E1, E2 in Hp. destruct Hp as [[<- ?]|?%not_elem_of_nil]; done.
    + apply rtc_once. by exists d.
    + destruct (m !! superclass d) as [e|] eqn:He; [|done]. injection E as E. eapply rtc_l; [by exists d|]. apply rtc_once. by exists e.
Qed.

Lemma check_assign_decides_witness :
  exists b : bool, check_assign t_Object demo_hierarchy 20 101 104 = Ok b /\ (b = true <-> assignable t_Object demo_hierarchy 101 104).
Proof. apply (check_assign_decides t_Object demo_hierarchy demo_rank 20 101 104 demo_hierarchy_ok); [by eexists|by eexists|vm_compute; lia]. Defined.

(** [D[]] passes for [C[]], [C[]] for [I[]], hence [D[]] for [I[]]. *)
Lemma check_assign_subsumption_witness : check_assign t_Object demo_hierarchy 40 107 105 = Ok true.
Proof.
  apply (check_assign_subsumption t_Object demo_hierarchy demo_rank 40 106 105 107 demo_hierarchy_ok demo_java_ok); [|by vm_compute..].
  intros c Hc. repeat (apply elem_of_cons in Hc as [->|Hc]; [split; [by eexists|vm_compute; lia]|]). by apply not_elem_of_nil in Hc.
Defined.

(** an object of class [D] at 2000 *)
Definition demo_object : memory :=
  foldr (fun p m => store32 m p.1 p.2) (fun _ => 0) [(1996, MAGIC_OBJECT); (2000, 3000); (2996, 104)].

Lemma instanceof_checkcast_witness :
  exists b : bool, vm_instanceof t_Object demo_hierarchy 40 demo_object 2000 102 = Ok b /\
    vm_checkcast t_Object demo_hierarchy 40 demo_object 2000 102 = (if b then Ok tt else Err (EThrow "java/lang/ClassCastException")) /\
    (b = true <-> 2000 = NULL \/ assignable t_Object demo_hierarchy 102 (load32 demo_object (load32 demo_object 2000 - 4))).
Proof.
  apply (instanceof_checkcast t_Object demo_hierarchy demo_rank 40 demo_object 2000 102 demo_hierarchy_ok); [by eexists|].
  intros _. split_and!; [by vm_compute|by vm_compute|by eexists|vm_compute; lia].
Defined.
