(* ===== verification/VMSupport.v ===== *)
(** * Run-time support for compiled code (core/vmsupport.c, core/load.c)

    Array copies, checked stores and 64-bit arithmetic that compiled methods
    call.  Arrays and objects lie in the flat memory of [Mem] with the layout
    of [JString]; assignability is [Types.check_assign]. *)

From S2P Require Import Prelude Mem CString JString Malloc Alloc CodeMem DZMemory MemAccess Classes Types.
#[local] Open Scope Z_scope.

Definition ArrayIndexOutOfBounds {B} : res B := Err (EThrow "ArrayIndexOutOfBounds").
Definition RuntimeException {B} : res B := Err (EThrow "RuntimeException").

Section Support.
Context {A : Type} (java_lang_Object : Z) (s : class_state A) (fuel : nat).

(** ** Array copies *)

(** [if (!isArrayClass(c)) if (strcmp(c->name, "<Array>") != 0) throw] *)
Definition require_array (c : Z) : res unit :=
  let! b := isArrayClass s c in
  if (b : bool) then Ok tt else
  let! d := cls c s in
  if strcmp_eq (c_nm d) (str "<Array>") then Ok tt else RuntimeException.

(** [ddata[--doff] = sdata[--soff]], [count] times, with unsigned indices *)
Fixpoint copy_down (count : nat) (sdata ddata soff doff : Z) (m : memory) : memory :=
  match count with
  | O => m
  | S n =>
      let doff := u32 (doff - 1) in
      let soff := u32 (soff - 1) in
      copy_down n sdata ddata soff doff (store32 m (u32 (ddata + 4 * doff)) (load32 m (u32 (sdata + 4 * soff))))
  end.

(** [(doff + count > dsize) || (soff + count > ssize)]: unsigned sums *)
Definition out_of_bounds (m : memory) (src soff dst doff count : Z) : bool :=
  (u32 (arr_size m dst) <? u32 (doff + count)) || (u32 (arr_size m src) <? u32 (soff + count)).

Definition vm_arraycopy (src soff dst doff count : Z) (m : memory) : res memory :=
  let! _ := CHECK_NULL_PTR src in
  let! _ := CHECK_NULL_PTR dst in
  let! _ := ASSERTOBJECT m src in
  let! _ := ASSERTOBJECT m dst in
  let! sclass := obj2ClassDesc m src in
  let! _ := require_array sclass in
  let! dclass := obj2ClassDesc m dst in
  let! _ := require_array dclass in
  let! b := check_assign java_lang_Object s fuel dclass sclass in
  if negb b then RuntimeException else
  let sdata := arr_data src 0 in
  let ddata := arr_data dst 0 in
  if out_of_bounds m src soff dst doff count then ArrayIndexOutOfBounds
  else if (sdata =? ddata) && (soff <? doff) then Ok (copy_down (Z.to_nat count) sdata ddata soff doff m)
  else Ok (jxwordcpy m (u32 (sdata + 4 * soff)) (u32 (ddata + 4 * doff)) count).

Definition vm_arraycopy_right (src soff dst doff count : Z) (m : memory) : res memory :=
  let! _ := CHECK_NULL_PTR src in
  let! _ := CHECK_NULL_PTR dst in
  let! _ := ASSERTOBJECT m src in
  let! _ := ASSERTOBJECT m dst in
  let! sclass := obj2ClassDesc m src in
  let! dclass := obj2ClassDesc m dst in
  let! b := check_assign java_lang_Object s fuel dclass sclass in
  if negb b then RuntimeException
  else if out_of_bounds m src soff dst doff count then ArrayIndexOutOfBounds
  else Ok (jxwordcpy m (u32 (arr_data src 0 + 4 * soff)) (u32 (arr_data dst 0 + 4 * doff)) count).

Definition vm_arraycopy_left (src soff dst doff count : Z) (m : memory) : res memory := RuntimeException.

(** ** Stores *)

(** word [offset] of the object; word 0 is the vtable pointer *)
Definition vm_put_field32 (obj offset value : Z) (m : memory) : res memory :=
  let! _ := ASSERTOBJECT m obj in
  let! c := obj2ClassDesc m obj in
  let! d := cls c s in
  if (offset <? 0) || (instanceSize d <? offset) then ArrayIndexOutOfBounds
  else Ok (store32 m (u32 (obj + 4 * offset)) value).

Definition vm_put_array_field32 (arr index value : Z) (m : memory) : res memory :=
  let! _ := ASSERTOBJECT m arr in
  if index <? arr_size m arr then Ok (store32 m (u32 (arr_data arr index)) value) else ArrayIndexOutOfBounds.

(** the static fields of library [ndx] of the current domain *)
Context (sfields : Z -> Z).
Definition static_base (c : Z) : res Z :=
  let! d := cls c s in
  let! l := slib (definingLib d) s in
  Ok (sfields (ndx l)).
Definition vm_getStaticsAddr2 (c : Z) : res Z := static_base c.
Definition vm_put_static_field32 (c offset value : Z) (m : memory) : res memory :=
  let! b := static_base c in Ok (store32 m (u32 (b + 4 * offset)) value).
End Support.

(** ** 64-bit arithmetic

    A division by zero traps.  [2 << ~b] shifts an [int] by a negative count:
    the shift instruction uses the low five bits of it. *)

Definition longDiv (a b : Z) : res Z := if b =? 0 then Err EFault else Ok (s64 (Z.quot a b)).
Definition longRem (a b : Z) : res Z := if b =? 0 then Err EFault else Ok (s64 (Z.rem a b)).
Definition longShr (a b : Z) : Z := Z.shiftr a (Z.land b 63).
Definition longShl (a b : Z) : Z := s64 (Z.shiftl a (Z.land b 63)).
Definition longUShr (a b : Z) : Z :=
  let b := Z.land b 63 in
  if 0 <=? a then Z.shiftr a b
  else s64 (Z.shiftr a b + s32 (Z.shiftl 2 (Z.land (Z.lnot b) 31))).
Definition longCmp (a b : Z) : Z := if b <? a then 1 else if a <? b then -1 else 0.
Definition longMul (a b : Z) : Z := s64 (a * b).

(** ** Array copies *)

(** an array object: class [c], [n] elements *)
Record array_at (m : memory) (a c n : Z) : Prop := {
  aa_object : load32 m (a - 4) = MAGIC_OBJECT /\ load32 m a <> 0 /\ load32 m (load32 m a - 4) = c;
  aa_size : arr_size m a = n /\ 0 <= n;
  aa_place : 0 < a /\ arr_data a n < 4294967296;
}.

Lemma u32_index base k : 0 <= base + 4 * k < 4294967296 -> u32 (base + 4 * u32 k) = base + 4 * k.
Proof.
  intros Hk. unfold u32, uwrap. rewrite Z.add_mod, Z.mul_mod_idemp_r, <- Z.add_mod by lia. by apply Z.mod_small.
Qed.
Lemma u32_pred a b : u32 a = u32 b -> u32 (a - 1) = u32 (b - 1).
Proof. unfold u32, uwrap. intros E. by rewrite Zminus_mod, E, <- Zminus_mod. Qed.

(** the downward loop, even below index 0 *)
Lemma copy_down_movsl n : forall m base soff doff ss dd,
  0 <= base + 4 * (soff - Z.of_nat n) -> base + 4 * doff < 4294967296 -> soff <= doff ->
  u32 ss = u32 soff -> u32 dd = u32 doff ->
  copy_down n base base ss dd m = movsl m (base + 4 * (soff - 1)) (base + 4 * (doff - 1)) (-4) n.
Proof.
  induction n as [|n IH]; intros m base soff doff ss dd H1 H2 H3 Es Ed; [done|]. cbn [copy_down movsl].
  rewrite (u32_pred _ _ Es), (u32_pred _ _ Ed), !u32_index by lia.
  rewrite (IH _ base (soff - 1) (doff - 1)); [|lia..|apply Z.mod_mod; lia|apply Z.mod_mod; lia]. f_equal; lia.
Qed.

Section Copies.
Context {A : Type} (java_lang_Object : Z) (s : class_state A) (fuel : nat).
Abbreviation arraycopy := (vm_arraycopy java_lang_Object s fuel) (only parsing).
Abbreviation array_class := (fun c => exists d, classdescs s !! c = Some d /\ char_at (c_nm d) 0 = c_bracket) (only parsing).

(** Everything before the bounds test. *)
Lemma vm_arraycopy_checked (m : memory) src soff dst doff count c d n k b :
  array_at m src c n -> array_at m dst d k -> array_class c -> array_class d ->
  check_assign java_lang_Object s fuel d c = Ok b ->
  arraycopy src soff dst doff count m =
  if negb b then RuntimeException else
  if (u32 k <? u32 (doff + count)) || (u32 n <? u32 (soff + count)) then ArrayIndexOutOfBounds
  else if (src =? dst) && (soff <? doff)
  then Ok (copy_down (Z.to_nat count) (arr_data src 0) (arr_data dst 0) soff doff m)
  else Ok (jxwordcpy m (u32 (arr_data src 0 + 4 * soff)) (u32 (arr_data dst 0 + 4 * doff)) count).
Proof.
  intros [(M1 & V1 & C1) [S1 _] [P1 _]] [(M2 & V2 & C2) [S2 _] [P2 _]] (dc & Hc & Nc) (dd & Hd & Nd) Hb.
  unfold vm_arraycopy, CHECK_NULL_PTR, ASSERTOBJECT, obj2ClassDesc, require_array, isArrayClass, Classes.cls.
  rewrite (proj2 (Z.eqb_neq src NULL)), (proj2 (Z.eqb_neq dst NULL)) by (unfold NULL; lia). cbn [rbind].
  rewrite M1, M2, Z.eqb_refl, !orb_true_r, (proj2 (Z.eqb_neq _ 0) V1), (proj2 (Z.eqb_neq _ 0) V2).
  cbn [assert_ andb negb rbind]. rewrite C1, C2, Hc, Hd. cbn [rbind]. rewrite Nc, Nd. cbn [Z.eqb Pos.eqb c_bracket rbind].
  rewrite Hb. cbn [rbind]. destruct b; cbn [negb]; [|done]. unfold out_of_bounds. rewrite S1, S2.
  destruct ((u32 k <? u32 (doff + count)) || _); [done|].
  assert ((arr_data src 0 =? arr_data dst 0) = (src =? dst)) as -> by (unfold arr_data; zbool). done.
Qed.

Lemma jxwordcpy_copied m src dst count :
  0 <= count < 4294967296 -> dst <= src \/ src + 4 * count <= dst ->
  copied m (jxwordcpy m src dst count) dst src (4 * count).
Proof.
  intros Hc Hd. unfold jxwordcpy. rewrite u32_small by lia.
  assert (E : count = Z.of_nat (Z.to_nat count)) by lia. rewrite E at 2. apply movsl_up. lia.
Qed.

(** An offset as the bounds test sees it: [off + count] is a 32-bit sum, so an
    offset whose sum wraps stands for the negative number [off - 2^32]. *)
Definition effective (off count : Z) : Z := if off + count <? 4294967296 then off else off - 4294967296.

Lemma effective_u32 off count : 0 <= off < 4294967296 -> 0 <= count < 4294967296 ->
  u32 (off + count) = effective off count + count /\ u32 off = u32 (effective off count) /\ 0 <= effective off count + count.
Proof.
  intros H1 H2. unfold effective. destruct (Z.ltb_spec (off + count) 4294967296).
  - rewrite u32_small by lia. lia.
  - unfold u32, uwrap. change (2 ^ 32) with 4294967296. split_and!; [|rewrite <- (Z.mod_add (off - 4294967296) 1) by lia; f_equal; lia|lia].
    rewrite <- (Z.mod_small (_ - _ + count) 4294967296), <- (Z.mod_add (_ - _ + count) 1) by lia. f_equal. lia.
Qed.

(** the first word the code addresses *)
Lemma effective_address a off count n :
  0 <= off < 4294967296 -> 0 <= count < 4294967296 -> effective off count + count <= n -> arr_data a n < 4294967296 ->
  0 <= arr_data a (effective off count) ->
  u32 (arr_data a 0 + 4 * off) = arr_data a (effective off count).
Proof.
  intros H1 H2 H3 H4 H5. destruct (effective_u32 off count H1 H2) as (_ & E & _). unfold arr_data in *.
  rewrite <- (u32_small (a + 12 + 4 * effective off count)) by lia.
  assert (Hu : forall x, u32 (a + 12 + 4 * 0 + 4 * x) = u32 (a + 12 + 4 * u32 x)).
  { intros x. unfold u32, uwrap. rewrite (Z.add_mod (a + 12) (4 * (x mod _))), Z.mul_mod_idemp_r, <- Z.add_mod by lia. f_equal. lia. }
  rewrite Hu, E. unfold u32, uwrap. rewrite (Z.add_mod (a + 12) (4 * (_ mod _))), Z.mul_mod_idemp_r, <- Z.add_mod by lia. done.
Qed.

(** C10 [vm_arraycopy] for every 32-bit offset and count.  An incompatible
    element type throws [RuntimeException]; otherwise the call throws
    [ArrayIndexOutOfBounds] exactly when a range, its offset read modulo 2^32
    against its end, leaves the end of its array, and returns in every other
    case.  What is then copied, for every pair of ranges:
    - between two arrays, or to the left within one, the [count] words of the
      source range, as if through a buffer, when the ranges do not overlap the
      wrong way; with offsets inside the arrays these are the ranges asked for.
      The test says nothing of the start of a range: an offset of [-j] with
      [j <= count] is accepted and addresses the words in front of the elements;
    - to the right within one array, not the words asked for but the [count]
      words in front of the source range, to those in front of the
      destination range (the downward loop starts at the wrong end). *)
Theorem vm_arraycopy_copies (m : memory) src soff dst doff count c d n k b :
  array_at m src c n -> array_at m dst d k -> array_class c -> array_class d ->
  check_assign java_lang_Object s fuel d c = Ok b ->
  0 <= soff < 4294967296 -> 0 <= doff < 4294967296 -> 0 <= count < 4294967296 ->
  let sfirst := effective soff count in
  let dfirst := effective doff count in
  if b then
    if bool_decide (sfirst + count <= n /\ dfirst + count <= k) then
      exists m', arraycopy src soff dst doff count m = Ok m' /\
        (0 <= soff <= n -> 0 <= doff <= k -> (src = dst /\ doff <= soff) \/ arr_data src n <= dst \/ arr_data dst k <= src ->
         soff + count < 4294967296 -> doff + count < 4294967296 ->
         copied m m' (arr_data dst doff) (arr_data src soff) (4 * count)) /\
        (0 <= arr_data src sfirst -> 0 <= arr_data dst dfirst -> src <> dst \/ doff <= soff ->
         arr_data dst dfirst <= arr_data src sfirst \/ arr_data src (sfirst + count) <= arr_data dst dfirst ->
         copied m m' (arr_data dst dfirst) (arr_data src sfirst) (4 * count)) /\
        (0 <= arr_data src (sfirst - count) -> src = dst -> soff < doff -> sfirst <= dfirst ->
         copied m m' (arr_data dst (dfirst - count)) (arr_data src (sfirst - count)) (4 * count))
    else arraycopy src soff dst doff count m = ArrayIndexOutOfBounds
  else arraycopy src soff dst doff count m = RuntimeException.
Proof.
  intros Hs Hd Hc1 Hc2 Hb H1 H2 H3 sfirst dfirst. pose proof Hs as [_ [S1 N1] [P1 E1]]. pose proof Hd as [_ [S2 N2] [P2 E2]].
  rewrite (vm_arraycopy_checked m src soff dst doff count c d n k b) by done. destruct b; cbn [negb]; [|done].
  destruct (effective_u32 soff count H1 H3) as (F1 & F2 & F3), (effective_u32 doff count H2 H3) as (G1 & G2 & G3).
  fold sfirst in F1, F2, F3. fold dfirst in G1, G2, G3.
  rewrite (u32_small k), (u32_small n), F1, G1 by (unfold arr_data in *; lia).
  case_bool_decide as Hr; [|destruct (Z.ltb_spec k (dfirst + count)); [done|]; by rewrite (proj2 (Z.ltb_lt n _)) by lia].
  rewrite !(proj2 (Z.ltb_ge _ _)) by lia. cbn [orb].
  assert (Hcopy : 0 <= arr_data src sfirst -> 0 <= arr_data dst dfirst ->
    arr_data dst dfirst <= arr_data src sfirst \/ arr_data src (sfirst + count) <= arr_data dst dfirst ->
    copied m (jxwordcpy m (u32 (arr_data src 0 + 4 * soff)) (u32 (arr_data dst 0 + 4 * doff)) count)
      (arr_data dst dfirst) (arr_data src sfirst) (4 * count)).
  { intros Q1 Q2 Q3. rewrite (effective_address src soff count n), (effective_address dst doff count k) by tauto.
    apply jxwordcpy_copied; [done|]. fold sfirst dfirst. unfold arr_data in *. lia. }
  destruct ((src =? dst) && (soff <? doff)) eqn:Eb; [apply andb_prop in Eb as [?%Z.eqb_eq ?%Z.ltb_lt]|];
    (eexists; split; [done|]; split_and!).
  - intros ? ? [|[|]]; unfold arr_data in *; lia.
  - lia.
  - intros Q1 _ _ Q2. subst dst. rewrite (copy_down_movsl _ _ _ sfirst dfirst) by (done || unfold arr_data in *; lia).
    pose proof (movsl_down (Z.to_nat count) m (arr_data src (dfirst - count)) (arr_data src (sfirst - count))) as H.
    rewrite Z2Nat.id in H by lia. unfold arr_data in *. specialize (H ltac:(lia)).
    replace (src + 12 + 4 * 0 + 4 * (sfirst - 1)) with (src + 12 + 4 * (sfirst - count) + 4 * count - 4) by lia.
    by replace (src + 12 + 4 * 0 + 4 * (dfirst - 1)) with (src + 12 + 4 * (dfirst - count) + 4 * count - 4) by lia.
  - intros ? ? Hov ? ?. assert (sfirst = soff /\ dfirst = doff) as [Q1 Q2].
    { unfold sfirst, dfirst, effective. by rewrite !(proj2 (Z.ltb_lt _ _)) by done. }
    rewrite Q1, Q2 in *. apply Hcopy; unfold arr_data in *; lia.
  - intros. by apply Hcopy.
  - intros _ -> ?. rewrite Z.eqb_refl, (proj2 (Z.ltb_lt soff doff)) in Eb by done. done.
Qed.

(** Moving a range to the right within an array goes wrong: the downward loop
    starts at the first word of the ranges instead of the last.  It copies the
    [count] words in front of [soff] to the [count] words in front of [doff],
    leaves the destination range as it was, and for [count > doff] overwrites
    the length field of the array. *)
Theorem vm_arraycopy_right_in_place (m : memory) a c n soff doff count :
  array_at m a c n -> array_class c -> check_assign java_lang_Object s fuel c c = Ok true ->
  0 <= soff < doff -> 0 <= count -> doff + count <= n -> 4 * (count - soff) <= a ->
  exists m', arraycopy a soff a doff count m = Ok m' /\
    copied m m' (arr_data a (doff - count)) (arr_data a (soff - count)) (4 * count) /\
    (forall i, doff <= i < doff + count -> load32 m' (arr_data a i) = load32 m (arr_data a i)) /\
    (doff < count -> arr_size m' a = s32 (load32 m (arr_data a (soff - doff - 1)))).
Proof.
  intros Ha Hc Hb H1 H2 H3 H4. pose proof Ha as [_ [S1 N1] [P1 E1]].
  rewrite (vm_arraycopy_checked m a soff a doff count c c n n true) by done. cbn [negb]. unfold arr_data in *.
  rewrite (u32_small n), (u32_small (doff + _)), (u32_small (soff + _)), !(proj2 (Z.ltb_ge _ _)), Z.eqb_refl,
    (proj2 (Z.ltb_lt soff doff)) by lia. cbn [orb andb]. eexists. split; [done|].
  rewrite (copy_down_movsl _ _ _ soff doff) by (done || lia).
  assert (Hcp : copied m (movsl m (a + 12 + 4 * 0 + 4 * (soff - 1)) (a + 12 + 4 * 0 + 4 * (doff - 1)) (-4) (Z.to_nat count))
    (a + 12 + 4 * (doff - count)) (a + 12 + 4 * (soff - count)) (4 * count)).
  { pose proof (movsl_down (Z.to_nat count) m (a + 12 + 4 * (doff - count)) (a + 12 + 4 * (soff - count)) ltac:(lia)) as H.
    rewrite Z2Nat.id in H by lia. replace (a + 12 + 4 * 0 + 4 * (soff - 1)) with (a + 12 + 4 * (soff - count) + 4 * count - 4) by lia.
    by replace (a + 12 + 4 * 0 + 4 * (doff - 1)) with (a + 12 + 4 * (doff - count) + 4 * count - 4) by lia. }
  split_and!; [done|..].
  - intros i Hi. apply load32_ext. intros x Hx. rewrite Hcp, bool_decide_false by lia. done.
  - intros Hlt. unfold arr_size. f_equal. unfold load32, load16. rewrite !Hcp, !bool_decide_true by lia.
    repeat (f_equal; try lia).
Qed.

(** The bounds test of [vm_arraycopy] adds in 32 bits: a destination offset of
    [-count] (as unsigned) passes it, and the words are written in front of
    the elements; with one word, the length of the destination becomes the
    first element of the source. *)
Theorem vm_arraycopy_negative_offset (m : memory) src dst count c d n k :
  array_at m src c n -> array_at m dst d k -> array_class c -> array_class d ->
  check_assign java_lang_Object s fuel d c = Ok true ->
  0 < count <= n -> 4 * count <= dst -> src <> dst -> arr_data src n <= dst - 4 * count \/ arr_data dst 0 <= src ->
  exists m', arraycopy src 0 dst (4294967296 - count) count m = Ok m' /\
    copied m m' (arr_data dst (- count)) (arr_data src 0) (4 * count) /\
    (count = 1 -> arr_size m' dst = s32 (load32 m (arr_data src 0))).
Proof.
  intros Hs Hd Hc1 Hc2 Hb Hc Hp Hne Hov. pose proof Hs as [_ [S1 N1] [P1 E1]]. pose proof Hd as [_ [S2 N2] [P2 E2]].
  rewrite (vm_arraycopy_checked m src 0 dst (4294967296 - count) count c d n k true) by done. cbn [negb]. unfold arr_data in *.
  replace (4294967296 - count + count) with 4294967296 by lia. change (u32 4294967296) with 0.
  rewrite (u32_small k), (u32_small n), (u32_small (0 + _)), !(proj2 (Z.ltb_ge _ _)), (proj2 (Z.eqb_neq src dst)) by lia.
  cbn [orb andb]. eexists. split; [done|].
  assert (Eu : u32 (dst + 12 + 4 * 0 + 4 * (4294967296 - count)) = dst + 12 + 4 * - count).
  { unfold u32, uwrap. change (2 ^ 32) with 4294967296. rewrite Z.mod_eq by lia. 
    replace (dst + 12 + 4 * 0 + 4 * (4294967296 - count)) with (dst + 12 - 4 * count + 4 * 4294967296) by lia.
    rewrite Z.div_add, (Z.div_small (dst + 12 - 4 * count)) by lia. lia. }
  rewrite Eu, (u32_small (src + _ + _ + _)) by lia. replace (src + 12 + 4 * 0 + 4 * 0) with (src + 12 + 4 * 0) by lia.
  assert (Hcp := jxwordcpy_copied m (src + 12 + 4 * 0) (dst + 12 + 4 * - count) count ltac:(lia) ltac:(lia)).
  split; [done|]. intros ->. unfold arr_size. f_equal. unfold load32, load16. rewrite !Hcp, !bool_decide_true by lia.
  repeat (f_equal; try lia).
Qed.
End Copies.

(** An array store is checked against the length only: every index below it
    is accepted, negative ones included; storing [v] at index -1 makes [v]
    the length of the array. *)
Theorem vm_put_array_field32_bounds (m : memory) arr c n index value :
  array_at m arr c n -> 0 <= arr_data arr index ->
  vm_put_array_field32 arr index value m =
    (if n <=? index then ArrayIndexOutOfBounds else Ok (store32 m (arr_data arr index) value)) /\
  (index = -1 -> exists m', vm_put_array_field32 arr index value m = Ok m' /\ arr_size m' arr = s32 value).
Proof.
  intros [(M & V & C) [S N] [P E]] Hi.
  assert (Eq : vm_put_array_field32 arr index value m =
    (if n <=? index then ArrayIndexOutOfBounds else Ok (store32 m (arr_data arr index) value))).
  { unfold vm_put_array_field32, ASSERTOBJECT. rewrite M, Z.eqb_refl, orb_true_r. cbn [assert_ rbind]. rewrite S.
    destruct (Z.ltb_spec index n), (Z.leb_spec n index); try lia; [|done]. rewrite u32_small by (unfold arr_data in *; lia). done. }
  split; [done|]. intros ->. rewrite Eq, (proj2 (Z.leb_gt n (-1))) by lia. eexists. split; [done|].
  unfold arr_size, arr_data. replace (arr + 12 + 4 * -1) with (arr + 8) by lia. rewrite load32_store32.
  unfold u32, uwrap, s32, swrap. rewrite Z.add_mod_idemp_l by lia. done.
Qed.

(** ** Shifts of 64-bit integers *)

Lemma land_63 b : 0 <= b < 64 -> Z.land b 63 = b.
Proof. intros. change 63 with (Z.ones 6). rewrite Z.land_ones by lia. by apply Z.mod_small. Qed.
Lemma ushr_mask b : 0 <= b < 64 -> s32 (Z.shiftl 2 (Z.land (Z.lnot b) 31)) = s32 (2 ^ (32 - b mod 32)).
Proof.
  intros. change 31 with (Z.ones 5). rewrite Z.land_ones, Z.shiftl_mul_pow2 by (try apply Z.mod_pos_bound; lia).
  unfold Z.lnot. f_equal. rewrite <- (Z.pow_1_r 2) at 1. rewrite <- Z.pow_add_r by (try apply Z.mod_pos_bound; lia). f_equal.
  change (2 ^ 5) with 32. Z.div_mod_to_equations. lia.
Qed.

Lemma s64_eq x y : s64 x = s64 y <-> (x - y) mod 18446744073709551616 = 0.
Proof.
  unfold s64, swrap. change (2 ^ 64) with 18446744073709551616. change (2 ^ (64 - 1)) with 9223372036854775808.
  rewrite <- (Z.add_simpl_r x 9223372036854775808) at 2. rewrite <- (Z.add_simpl_r y 9223372036854775808) at 2.
  generalize (x + 9223372036854775808) (y + 9223372036854775808). clear. intros x y. split; intros H; Z.div_mod_to_equations; lia.
Qed.

(** the 64 distances, by evaluation *)
Lemma ushr_distances b :
  0 <= b < 64 -> (2 ^ (64 - b) - s32 (2 ^ (32 - b mod 32))) mod 18446744073709551616 = 0 <-> b = 0 \/ 34 <= b.
Proof.
  intros Hb.
  assert (H : forallb (fun k => Bool.eqb ((2 ^ (64 - Z.of_nat k) - s32 (2 ^ (32 - Z.of_nat k mod 32))) mod 18446744073709551616 =? 0)
    ((Z.of_nat k =? 0) || (34 <=? Z.of_nat k))) (seq 0 64) = true) by (by vm_compute).
  apply (proj1 (forallb_forall _ _)) with (x := Z.to_nat b) in H; [|apply in_seq; lia].
  rewrite Z2Nat.id in H by lia. apply Bool.eqb_prop in H. rewrite <- Z.eqb_eq, H.
  destruct (Z.eqb_spec b 0), (Z.leb_spec 34 b); simpl; split; intros; try done; try tauto; lia.
Qed.

(** C32 [longUShr] is the unsigned shift for every non-negative number, and for a
    negative one exactly when the distance is 0 or at least 34: the sign
    correction [2 << ~b] is computed in 32 bits. *)
Theorem longUShr_correct_iff a b :
  -9223372036854775808 <= a < 9223372036854775808 -> 0 <= b < 64 ->
  longUShr a b = s64 (Z.shiftr (u64 a) b) <-> 0 <= a \/ b = 0 \/ 34 <= b.
Proof.
  intros Ha Hb. unfold longUShr. rewrite land_63, ushr_mask by done.
  pose proof (Z.pow_pos_nonneg 2 b ltac:(lia) ltac:(lia)). destruct (Z.leb_spec 0 a) as [Hp|Hn].
  - rewrite u64_small by lia. split; [tauto|]. intros _. symmetry. apply swrap_small; [lia|].
    rewrite Z.shiftr_div_pow2 by lia. change (2 ^ (64 - 1)) with 9223372036854775808.
    pose proof (Z.div_le_upper_bound a (2 ^ b) 9223372036854775807 ltac:(lia) ltac:(nia)).
    pose proof (Z.div_pos a (2 ^ b) ltac:(lia) ltac:(lia)). lia.
  - assert (Hu : Z.shiftr (u64 a) b = Z.shiftr a b + 2 ^ (64 - b)).
    { assert (u64 a = a + 2 ^ (64 - b) * 2 ^ b) as ->.
      { rewrite <- Z.pow_add_r by lia. replace (64 - b + b) with 64 by lia. change (2 ^ 64) with 18446744073709551616.
        unfold u64, uwrap. change (2 ^ 64) with 18446744073709551616. Z.div_mod_to_equations. lia. }
      rewrite !Z.shiftr_div_pow2, Z.div_add by lia. done. }
    rewrite Hu. assert (Hs : forall x y : Z, x = y <-> y = x) by (split; congruence). rewrite Hs, s64_eq.
    replace (Z.shiftr a b + 2 ^ (64 - b) - (Z.shiftr a b + s32 (2 ^ (32 - b mod 32)))) with (2 ^ (64 - b) - s32 (2 ^ (32 - b mod 32))) by lia.
    rewrite ushr_distances by done. split; [tauto|]. intros [|]; [lia|done].
Qed.

(** ** Two concrete arrays of class [C[]] *)

Definition demo_arrays : memory :=
  foldr (fun p m => store32 m p.1 p.2) (fun _ => 0)
    [(2996, 106); (1996, MAGIC_OBJECT); (2000, 3000); (2004, 106); (2008, 4); (2012, 11); (2016, 12); (2020, 13); (2024, 14);
     (2096, MAGIC_OBJECT); (2100, 3000); (2104, 106); (2108, 4); (2112, 21); (2116, 22); (2120, 23); (2124, 24)].

Lemma demo_array_at a : a = 2000 \/ a = 2100 -> array_at demo_arrays a 106 4.
Proof. by intros [-> | ->]; split; vm_compute. Qed.
Lemma demo_array_class : exists d, classdescs demo_hierarchy !! 106 = Some d /\ char_at (c_nm d) 0 = c_bracket.
Proof. exists (class_desc CLASSTYPE_ARRAYCLASS (str "[LC;") NULL [] 103). done. Qed.
Lemma demo_assign : check_assign t_Object demo_hierarchy 20 106 106 = Ok true.
Proof. by vm_compute. Qed.

Lemma vm_arraycopy_copies_witness :
  (exists m', vm_arraycopy t_Object demo_hierarchy 20 2000 1 2100 0 3 demo_arrays = Ok m' /\
    copied demo_arrays m' (arr_data 2100 0) (arr_data 2000 1) (4 * 3)) /\
  vm_arraycopy t_Object demo_hierarchy 20 2000 1 2100 2 3 demo_arrays = ArrayIndexOutOfBounds /\
  (exists m', vm_arraycopy t_Object demo_hierarchy 20 2000 0 2100 4294967295 1 demo_arrays = Ok m' /\
    copied demo_arrays m' (arr_data 2100 (-1)) (arr_data 2000 0) (4 * 1)).
Proof.
  pose proof (fun soff doff count => vm_arraycopy_copies t_Object demo_hierarchy 20 demo_arrays 2000 soff 2100 doff count 106 106 4 4 true
    (demo_array_at 2000 (or_introl eq_refl)) (demo_array_at 2100 (or_intror eq_refl)) demo_array_class demo_array_class demo_assign) as H.
  split_and!.
  - destruct (H 1 0 3) as (m' & E & C & _); [lia..|]. exists m'. split; [exact E|]. apply C; unfold arr_data; lia.
  - exact (H 1 2 3 ltac:(lia) ltac:(lia) ltac:(lia)).
  - destruct (H 0 4294967295 1) as (m' & E & _ & C & _); [lia..|]. exists m'. split; [exact E|].
    apply C; [by vm_compute..|left; lia|right; by vm_compute].
Defined.

(** [[11, 12, 13, 14]] moved by one: element 0 becomes the length, the length
    the address of the class. *)
Lemma vm_arraycopy_right_in_place_witness :
  exists m', vm_arraycopy t_Object demo_hierarchy 20 2000 0 2000 1 3 demo_arrays = Ok m' /\ arr_size m' 2000 = 106.
Proof.
  destruct (vm_arraycopy_right_in_place t_Object demo_hierarchy 20 demo_arrays 2000 106 4 0 1 3
    (demo_array_at 2000 (or_introl eq_refl)) demo_array_class demo_assign) as (m' & E & _ & _ & H); [lia..|].
  exists m'. split; [done|]. rewrite H by lia. by vm_compute.
Defined.

Lemma vm_arraycopy_negative_offset_witness :
  exists m', vm_arraycopy t_Object demo_hierarchy 20 2000 0 2100 4294967295 1 demo_arrays = Ok m' /\ arr_size m' 2100 = 11.
Proof.
  destruct (vm_arraycopy_negative_offset t_Object demo_hierarchy 20 demo_arrays 2000 2100 1 106 106 4 4
    (demo_array_at 2000 (or_introl eq_refl)) (demo_array_at 2100 (or_intror eq_refl)) demo_array_class demo_array_class demo_assign)
    as (m' & E & _ & H); [unfold arr_data; lia..|].
  exists m'. split; [done|]. rewrite H by done. by vm_compute.
Defined.

Lemma vm_put_array_field32_bounds_witness :
  exists m', vm_put_array_field32 2000 (-1) 1000 demo_arrays = Ok m' /\ arr_size m' 2000 = 1000.
Proof.
  destruct (vm_put_array_field32_bounds demo_arrays 2000 106 4 (-1) 1000 (demo_array_at 2000 (or_introl eq_refl))) as [_ H];
    [unfold arr_data; lia|]. by apply H.
Defined.

Lemma longUShr_correct_iff_witness : longUShr (-1) 1 <> s64 (Z.shiftr (u64 (-1)) 1) /\ longUShr (-1) 40 = s64 (Z.shiftr (u64 (-1)) 40).
Proof.
  split; [intros H%longUShr_correct_iff; lia|apply longUShr_correct_iff; lia].
Defined.
