(* ===== verification/CodeFile.v ===== *)
(** * Reading a compiled library (core/load.c, loadSharedLibrary)

    A code file is a sequence of 32-bit numbers, bytes and NUL-terminated
    strings: needed libraries, meta data, a string table, the table of run-time
    support functions, the classes with their methods, and the native code.
    The reader runs over the flat memory with a position, [codefilepos]; the
    tables it builds are allocated from DomainZero's code memory ([CodeMem]),
    and only the addresses that the program uses later are kept.  A count that
    is not positive leaves an empty list. *)

From S2P Require Import Prelude Mem CString Malloc Alloc CodeMem Zip BootFS Classes.
#[local] Open Scope Z_scope.

Definition CURRENT_COMPILER_VERSION : Z := 10.
(** C structures, in bytes *)
Definition sizeof_MethodDesc : Z := 96.
Definition sizeof_SharedLibDesc : Z := 76.
Definition sizeof_FieldDesc : Z := 12.
Definition sizeof_ByteCodeDesc : Z := 12.
Definition sizeof_SourceLineDesc : Z := 8.
Definition sizeof_ExceptionDesc : Z := 16.
Definition sizeof_meta_s : Z := 8.

(** ** State *)

(** The loader's globals, and the arena of temporary tables ([TempMemory]). *)
Record loader (A : Type) := MkLoader {
  ld_cs : class_state A;
  ld_vmindex : list Z;             (* vmsupport[j].index *)
  sharedLibsIndexNumber : Z;
  sharedLibID : Z;
  tmp_free : Z;
  tmp_border : Z;
}.
Arguments MkLoader {A} _ _ _ _ _ _.
Arguments ld_cs {A} _.
Arguments ld_vmindex {A} _.
Arguments sharedLibsIndexNumber {A} _.
Arguments sharedLibID {A} _.
Arguments tmp_free {A} _.
Arguments tmp_border {A} _.

Definition set_cs {A} (c : class_state A) (s : loader A) : loader A :=
  MkLoader c (ld_vmindex s) (sharedLibsIndexNumber s) (sharedLibID s) (tmp_free s) (tmp_border s).
Definition set_vmindex {A} (v : list Z) (s : loader A) : loader A :=
  MkLoader (ld_cs s) v (sharedLibsIndexNumber s) (sharedLibID s) (tmp_free s) (tmp_border s).
Definition set_tmp {A} (f : Z) (s : loader A) : loader A :=
  MkLoader (ld_cs s) (ld_vmindex s) (sharedLibsIndexNumber s) (sharedLibID s) f (tmp_border s).
Definition set_arena {A} (f b : Z) (s : loader A) : loader A :=
  MkLoader (ld_cs s) (ld_vmindex s) (sharedLibsIndexNumber s) (sharedLibID s) f b.
Definition set_ids {A} (ndx id : Z) (s : loader A) : loader A :=
  MkLoader (ld_cs s) (ld_vmindex s) ndx id (tmp_free s) (tmp_border s).
Definition with_code {A} (d : domain_code) (a : A) (s : loader A) : loader A :=
  let c := ld_cs s in
  set_cs (MkCS (classdescs c) (slibs c) (sharedLibs c) (sharedArrayClasses c) d a) s.

(** ** The reading monad: position and loader state *)

Definition reader (A X : Type) : Type := Z * loader A -> res (X * (Z * loader A)).
Definition rret {A X} (x : X) : reader A X := fun s => Ok (x, s).
Definition rseq {A X Y} (r : reader A X) (k : X -> reader A Y) : reader A Y :=
  fun s => let! '(x, s) := r s in k x s.
Definition rfail {A X} (e : err) : reader A X := fun _ => Err e.
Declare Scope reader_scope.
Delimit Scope reader_scope with reader.
Notation "'let*' x := r 'in' k" := (rseq r (fun x => k))
  (at level 10, x name, r at level 100, k at level 200) : reader_scope.
Notation "'let*' ' p := r 'in' k" := (rseq r (fun x => match x with p => k end))
  (at level 10, p pattern, r at level 100, k at level 200) : reader_scope.
#[local] Open Scope reader_scope.

(** [for (j = 0; j < n; j++)], collecting the results *)
Fixpoint repeat_r {A X} (n : nat) (r : reader A X) : reader A (list X) :=
  match n with
  | O => rret []
  | S n => let* x := r in let* l := repeat_r n r in rret (x :: l)
  end.

(** the characters from [p] up to the terminator *)
Fixpoint cstring_at (fuel : nat) (m : memory) (p : Z) : res cstring :=
  match fuel with
  | O => Err EFuel
  | S n =>
      if load8 m p =? 0 then Ok [] else
      let! l := cstring_at n m (p + 1) in Ok (load8 m p :: l)
  end.

Section Reader.
Context {A : Type} `{!Allocator A} (m : memory) (fuel : nat).
Abbreviation rd := (reader A) (only parsing).

Definition readInt : rd Z := fun '(p, s) => Ok (s32 (load32 m p), (p + 4, s)).
Definition readByte : rd Z := fun '(p, s) => Ok (s8 (load8 m p), (p + 1, s)).
Definition readString : rd cstring :=
  fun '(p, s) => let! l := cstring_at fuel m p in Ok (l, (p + Z.of_nat (length l) + 1, s)).

(** [for(ii = string_table_size - 1; ii < id; ii++) skip one string] *)
Fixpoint skip_strings (n : nat) (p : Z) : res Z :=
  match n with
  | O => Ok p
  | S n => let! l := cstring_at fuel m p in skip_strings n (p + Z.of_nat (length l) + 1)
  end.
(** a negative number indexes memory in front of the table *)
Definition readStringID (string_table : list Z) : rd cstring :=
  let* id := readInt in
  let size := Z.of_nat (length string_table) in
  fun s =>
    let! buf := (if id <? size then match string_table !! Z.to_nat id with
                                    | Some a => if id <? 0 then Err EFault else Ok (Some a)
                                    | None => Err EFault end
                 else if size =? 0 then Ok None
                 else let! p := skip_strings (Z.to_nat (id - (size - 1))) (string_table !!! Z.to_nat (size - 1)) in Ok (Some p)) in
    match buf with
    | Some p => let! l := cstring_at fuel m p in Ok (l, s)
    | None => Ok ([], s)
    end.

(** an allocation from DomainZero's code memory *)
Definition alloc (f : domain_code -> A -> res (Z * domain_code * A)) : rd Z :=
  fun '(p, s) =>
    let! '(a, d, al) := f (dz_code (ld_cs s)) (cs_alloc (ld_cs s)) in
    Ok (a, (p, with_code d al s)).
Definition alloc_if (b : bool) (f : domain_code -> A -> res (Z * domain_code * A)) : rd Z :=
  if b then alloc f else rret NULL.
(** [malloc_tmp_stringtable] takes [number * 4] bytes of the arena *)
Definition alloc_tmp (number : Z) : rd Z :=
  fun '(p, s) =>
    let! '(a, f) := malloc_tmp_stringtable (tmp_free s) (tmp_border s) number in
    Ok (a, (p, set_tmp f s)).

(** a length, and that many bytes into a table of that size ([malloc_objectmap];
    [malloc_staticsmap] is the same function) *)
Definition readMap : rd (list Z) :=
  let* n := readInt in
  let* _ := alloc_if (0 <? n) (fun d => malloc_objectmap d (u32 n)) in
  repeat_r (Z.to_nat n) readByte.

(** ** Symbols *)

Definition sizeof_symbol (type : Z) : Z :=
  if existsb (Z.eqb type) [3; 4; 7] then 28
  else if existsb (Z.eqb type) [6; 8; 11; 12; 13; 14; 15; 21; 23] then 20
  else if existsb (Z.eqb type) [16; 17; 18] then 32 else 16.

Section Strings.
Context (string_table : list Z).
Abbreviation readID := (readStringID string_table) (only parsing).

(** [n_bytes], [n_bits] and the bits of a stack map *)
Definition readStackMap : rd (Z * list Z) :=
  let* n_bytes := readInt in
  let* n_bits := readInt in
  let* _ := alloc_if (0 <? n_bytes) (fun d => malloc_stackmap d (u32 n_bytes)) in
  let* l := repeat_r (Z.to_nat n_bytes) readByte in
  rret (n_bits, l).

(** the part of a symbol that depends on its type *)
Definition readSymbolData (type : Z) : rd symbol :=
  match type with
  | 1 => rret SymDomainZero
  | 2 => rret SymExceptionHandler
  | 3 => let* c := readString in let* n := readString in let* s := readString in rret (SymDEPFunction c n s)
  | 4 => let* c := readID in let* k := readInt in let* o := readInt in rret (SymStaticField c k o)
  | 5 => rret SymAllocObject
  | 6 => let* c := readID in rret (SymClass c)
  | 7 => let* c := readID in let* n := readID in let* s := readID in rret (SymDirectMethodCall c n s)
  | 8 => let* v := readID in rret (SymString v)
  | 9 => rret SymAllocArray
  | 10 => rret SymAllocMultiArray
  | 11 => let* o := readInt in rret (SymLongArithmetic o)
  | 12 => let* o := readInt in rret (SymVMSupport o)
  | 13 => let* t := readInt in rret (SymPrimitiveClass t)
  | 14 => let* t := readInt in rret (SymUnresolvedJump t)
  | 15 => let* o := readInt in rret (SymVMAbsolute o)
  | 16 => let* '(n, l) := readStackMap in rret (SymStackMapOld n l)
  | 17 => let* pre := readInt in let* '(n, l) := readStackMap in rret (SymStackMap pre n l)
  | 18 => let* t := readInt in let* b := readInt in let* e := readInt in let* c := readID in
          rret (SymExceptionTable t b e c)
  | 19 => rret SymThreadPointer
  | 20 => rret SymStackChunkSize
  | 21 => let* k := readInt in rret (SymProfile k)
  | 22 => rret SymMethodeDesc
  | 23 => let* k := readInt in rret (SymTCBOffset k)
  | _ => rfail (EPanic "Unknown symbol %d")
  end.

Definition readSymbol (numberOfCodeBytes : Z) : rd SymbolDesc :=
  let* type := readInt in
  let* immediateNCIndex := readInt in
  let* numBytes := readInt in
  let* nextInstrNCIndex := readInt in
  if numberOfCodeBytes <? s32 (immediateNCIndex + numBytes) then rfail (EPanic "wrong patch index") else
  if type =? 0 then rfail (EPanic "Error: Symboltype 0") else
  let* _ := (if (1 <=? type) && (type <=? 23) then alloc (fun d => malloc_symbol d (sizeof_symbol type)) else rret NULL) in
  let* x := readSymbolData type in
  rret (MkSymbol immediateNCIndex numBytes nextInstrNCIndex x).

(** ** Methods *)

Definition is_exception (s : SymbolDesc) : bool := match sym s with SymExceptionTable _ _ _ _ => true | _ => false end.

Definition readByteCode : rd ByteCodeDesc :=
  let* b := readInt in let* s := readInt in let* e := readInt in rret (MkByteCode b s e).
Definition readSourceLine : rd SourceLineDesc :=
  let* b := readInt in let* l := readInt in rret (MkSourceLine b l).

(** [completeCodeBytes] is the offset of the method's code; the result has the next one. *)
Definition readMethod (completeCodeBytes : Z) : rd (MethodDesc * Z) :=
  let* name := readID in
  let* signature := readID in
  let* sizeLocalVars := readInt in
  let* numberOfCodeBytes := readInt in
  let* _ := (if numberOfCodeBytes <? 0 then rfail (EAssert "numberOfCodeBytes >= 0") else rret tt) in
  let* argBytes := readInt in
  let* numberOfArgs := readInt in
  let* _ := alloc_if (0 <? argBytes) (fun d => malloc_argsmap d (u32 argBytes)) in
  let* argTypeMap := repeat_r (Z.to_nat argBytes) readByte in
  let* returnType := readInt in
  let* flags := readInt in
  let* numberOfSymbols := readInt in
  let* _ := alloc_if (0 <? numberOfSymbols) (fun d => malloc_symboltable d numberOfSymbols) in
  let* symbols := repeat_r (Z.to_nat numberOfSymbols) (readSymbol numberOfCodeBytes) in
  let sizeOfExceptionTable := Z.of_nat (length (List.filter is_exception symbols)) in
  let* _ := alloc_if (0 <? sizeOfExceptionTable)
              (fun d => malloc_exceptiondescs sizeof_ExceptionDesc d sizeOfExceptionTable) in
  let* numberOfByteCodes := readInt in
  let* _ := alloc_if (0 <? numberOfByteCodes) (fun d => malloc_bytecodetable sizeof_ByteCodeDesc d numberOfByteCodes) in
  let* bytecodeTable := repeat_r (Z.to_nat numberOfByteCodes) readByteCode in
  let* numberOfSourceLines := readInt in
  let* _ := alloc_if (0 <? numberOfSourceLines)
              (fun d => malloc_sourcelinetable sizeof_SourceLineDesc d numberOfSourceLines) in
  let* sourceLineTable := repeat_r (Z.to_nat numberOfSourceLines) readSourceLine in
  rret (MkMethod name signature sizeLocalVars numberOfCodeBytes numberOfArgs argTypeMap returnType flags
          completeCodeBytes symbols sizeOfExceptionTable bytecodeTable sourceLineTable,
        s32 (completeCodeBytes + numberOfCodeBytes)).

Fixpoint readMethods (n : nat) (completeCodeBytes : Z) : rd (list MethodDesc * Z) :=
  match n with
  | O => rret ([], completeCodeBytes)
  | S n =>
      let* '(x, c) := readMethod completeCodeBytes in
      let* '(l, c) := readMethods n c in
      rret (x :: l, c)
  end.
End Strings.

(** ** Classes *)

Section Library.
Context (java_lang_Object : Z) (string_table : list Z) (lib : Z).
Abbreviation readID := (readStringID string_table) (only parsing).

Definition readField : rd FieldDesc :=
  let* n := readID in let* t := readID in let* o := readInt in rret (MkField n t (s8 o)).
Definition readVTableEntry : rd (cstring * cstring * cstring) :=
  let* c := readID in let* n := readID in let* t := readID in let* _ := readInt in rret (c, n, t).

(** [lib->allClasses[i].superclass], looked up in this library as far as it is
    read and in the libraries loaded before *)
Definition resolve_super (supername : cstring) : rd Z := fun '(p, s) =>
  if strcmp_eq supername [] then Ok (NULL, (p, s)) else
  let! scl := (if strcmp_eq supername name_Object then Ok java_lang_Object else Ok NULL) in
  let! scl := (if scl =? NULL then findClassDescInSharedLib java_lang_Object lib supername (ld_cs s) else Ok scl) in
  let! scl := (if scl =? NULL then findClassDesc java_lang_Object supername (ld_cs s) else Ok scl) in
  if scl =? NULL then Err (EPanic "find superclass") else Ok (scl, (p, s)).

(** the sums over the classes: code, vtable, byte code sizes, static fields *)
Record sums := MkSums { completeCodeBytes : Z; completeVtableSize : Z; completeBytecodeSize : Z; sfields_offset : Z }.

Definition readClass (c : sums) : rd (ClassDesc * sums) :=
  let* name := readID in
  let* supername := readID in
  let* super := resolve_super supername in
  let* isinterface := readInt in
  let* numberOfInterfaces := readInt in
  let* _ := alloc_if (0 <? numberOfInterfaces) (fun d => malloc_classdesctable d numberOfInterfaces) in
  let* _ := (if 0 <? numberOfInterfaces then alloc_tmp numberOfInterfaces else rret NULL) in
  let* ifname := repeat_r (Z.to_nat numberOfInterfaces) readID in
  let* numberOfMethods := readInt in
  let* _ := alloc_if (0 <? numberOfMethods) (fun d => malloc_methoddescs sizeof_MethodDesc d numberOfMethods) in
  let* instanceSize := readInt in
  let* map := readMap in
  let* numberFields := readInt in
  let* _ := alloc_if (0 <? numberFields) (fun d => malloc_fielddescs sizeof_FieldDesc d numberFields) in
  let* fields := repeat_r (Z.to_nat numberFields) readField in
  let* staticFieldsSize := readInt in
  let* staticsMap := readMap in
  let* bytecodesize := readInt in
  let* _ := readInt in
  let* vtableSize := readInt in
  let* _ := alloc_if (negb (vtableSize =? 0)) (fun d => malloc_vtableSym d vtableSize) in
  let* vtableSym := repeat_r (Z.to_nat vtableSize) readVTableEntry in
  let* '(methods, codeBytes) := readMethods string_table (Z.to_nat numberOfMethods) (completeCodeBytes c) in
  rret (MkClass (if isinterface =? 0 then CLASSTYPE_CLASS else CLASSTYPE_INTERFACE) name super ifname [] instanceSize
          map fields staticFieldsSize (sfields_offset c) staticsMap vtableSym methods lib NULL NULL,
        MkSums codeBytes (s32 (completeVtableSize c + vtableSize)) (s32 (completeBytecodeSize c + bytecodesize))
          (s32 (sfields_offset c + staticFieldsSize))).

(** the library with one more class *)
Definition lib_add (c : ClassDesc) (l : SharedLibDesc) : SharedLibDesc :=
  MkSharedLib (slib_name l) (slib_id l) (ndx l) (neededLibs l) (lib_meta l) (allClasses l)
    (numberOfClasses l + 1) (addHashKey (c_nm c) (key l) LIB_HASHKEY_LEN)
    (s32 (memSizeStaticFields l + staticFieldsSize c)) (lib_code l) (codeBytes l)
    (lib_vtablesize l) (lib_bytecodes l).
(** [lib->numberOfClasses++]: the class becomes visible to later ones *)
Definition add_class (c : ClassDesc) (s : loader A) : loader A :=
  let cs := ld_cs s in
  match slibs cs !! lib with
  | Some l =>
      set_cs (MkCS (<[class_at l (numberOfClasses l) := c]> (classdescs cs)) (<[lib := lib_add c l]> (slibs cs))
                (sharedLibs cs) (sharedArrayClasses cs) (dz_code cs) (cs_alloc cs)) s
  | None => s
  end.

Fixpoint readClasses (n : nat) (c : sums) : rd sums :=
  match n with
  | O => rret c
  | S n =>
      let* '(cd, c) := readClass c in
      let* _ := (fun '(p, s) => Ok (tt, (p, add_class cd s))) in
      readClasses n c
  end.
End Library.

(** ** Tables *)

Definition readMeta : rd (cstring * cstring) :=
  let* var := readString in let* val := readString in rret (var, val).

(** the start addresses of the strings in [[p, e)] *)
Fixpoint scan_strings (n : nat) (p e : Z) : res (list Z) :=
  match n with
  | O => Err EFuel
  | S n =>
      if p <? e then
        let! q := loop (S n) (fun q => if (q <? e) && negb (load8 m q =? 0) then Ok (inl (q + 1)) else Ok (inr q)) p in
        let! l := scan_strings n (q + 1) e in
        Ok (p :: l)
      else Ok []
  end.

(** the table of addresses is never freed *)
Definition readStringTable : rd (list Z) :=
  let* i := readInt in
  if i =? 0 then rret [] else
  fun '(p, s) =>
    let! t := scan_strings (S (Z.to_nat i)) p (p + i) in
    let! '(_, a) := al_alloc (u32 (Z.of_nat (length t) * 4)) (cs_alloc (ld_cs s)) in
    Ok (t, (p + i, with_code (dz_code (ld_cs s)) a s)).

(** [vmsupport[j].index]: the entry of that name, or entry 0 *)
Fixpoint index_of (l : list cstring) (x : cstring) (k : Z) : option Z :=
  match l with
  | [] => None
  | y :: l => if strcmp_eq x y then Some k else index_of l x (k + 1)
  end.

Section VMSupportTable.
(** the names of the table [vmsupport] *)
Context (vmsupport : list cstring).
Fixpoint readVMSymbols (n : nat) (j : nat) : rd unit :=
  match n with
  | O => rret tt
  | S n =>
      let* symbol := readString in
      if (j =? length vmsupport)%nat then rfail (EPanic "to many symbols") else
      let* _ := (fun '(p, s) => Ok (tt, (p, set_vmindex (<[j := default 0 (index_of vmsupport symbol 0)]> (ld_vmindex s)) s))) in
      readVMSymbols n (S j)
  end.
End VMSupportTable.
End Reader.

(** the entries of [vmsupport] in this configuration (core/vmsupport.c) *)
Definition vmsupport_names : list cstring :=
  map str ["vm_unsupported"; "vm_instanceof"; "nil"; "vm_breakpoint"; "vm_getclassname"; "vm_getinstancesize";
    "vm_isprimitive"; "vm_monitorenter"; "vm_monitorexit"; "vm_checkcast"; "vm_test_cinit"; "vm_getStaticsAddr";
    "vm_getStaticsAddr2"; "vm_spinlock"; "vm_arraycopy"; "vm_arraycopy_right"; "vm_arraycopy_left"; "vm_getnaming";
    "vm_stackoverflow"; "vm_arrindex"; "vm_nullchk"; "vm_arith"; "vm_get8"; "vm_get32"; "vm_getLittleEndian32";
    "vm_put_field32"; "vm_put_array_field32"; "vm_put_static_field32"]%string.

(** ** The file *)

(** [testCheckSumAndVersion]: the position behind the processor string *)
Definition testCheckSumAndVersion {A} (m : memory) (fuel : nat) (codefile size : Z) : reader A unit :=
  let checksum := checksum_loop (Z.to_nat (size - 4)) m codefile 0 0 in
  if negb (checksum =? s32 (load32 m (codefile + size - 4))) then rfail (EPanic "WRONG CHECKSUM") else
  let* version := readInt m in
  if negb (version =? CURRENT_COMPILER_VERSION)
  then rfail (EPanic "Mismatch between library version and version supported by jxcore") else
  let* _ := readString m fuel in rret tt.

(** What the loader uses of the boot archive ([BootFS.read_codefile]) and of
    the linker. *)
Class LoaderEnv (A : Type) := {
  codefile : cstring -> option (Z * Z);                                   (* address and size *)
  linksharedlib : Z -> memory -> loader A -> res (memory * loader A);
}.

Section Load.
Context {A : Type} `{!Allocator A, !LoaderEnv A} (java_lang_Object : Z) (fuel : nat).

(** [jxmalloc_tmp]: an arena for the tables of one library *)
Definition new_arena (size : Z) (s : loader A) : res (Z * Z * loader A) :=
  let n := ALIGN_NEXT_BLOCK (u32 (size + sizeof_TempMemory)) in
  let! '(t, a) := al_alloc n (cs_alloc (ld_cs s)) in
  Ok (t, n, set_arena (t + sizeof_TempMemory) (t + n) (with_code (dz_code (ld_cs s)) a s)).
(** [jxfree_tmp]; the caller goes on with its own arena *)
Definition free_arena (t n free border : Z) (s : loader A) : res (loader A) :=
  let! a := al_free t n (cs_alloc (ld_cs s)) in
  Ok (set_arena free border (with_code (dz_code (ld_cs s)) a s)).

(** The needed libraries; a missing one is loaded and linked. *)
Fixpoint load_needed (load : cstring -> memory -> loader A -> res (Z * memory * loader A))
    (k : nat) (m : memory) (p : Z) (s : loader A) : res (list Z * memory * (Z * loader A)) :=
  match k with
  | O => Ok ([], m, (p, s))
  | S k =>
      let! '(libname, (p, s)) := readString m fuel (p, s) in
      let! found := findSharedLib libname (ld_cs s) in
      let! '(neededLib, m, s) :=
        (if found =? NULL then
           let! '(t, n, s1) := new_arena 5000 s in
           let! '(l, m, s1) := load libname m s1 in
           let! '(m, s1) := (if l =? NULL then Ok (m, s1) else linksharedlib l m s1) in
           let! s1 := free_arena t n (tmp_free s) (tmp_border s) s1 in
           Ok (l, m, s1)
         else Ok (found, m, s)) in
      let! _ := slib neededLib (ld_cs s) in
      let! '(l, m, s) := load_needed load k m p s in
      Ok (neededLib :: l, m, s)
  end.

Definition set_lib (lib : Z) (f : SharedLibDesc -> SharedLibDesc) (s : loader A) : loader A :=
  let cs := ld_cs s in
  set_cs (MkCS (classdescs cs) (alter f lib (slibs cs)) (sharedLibs cs) (sharedArrayClasses cs) (dz_code cs) (cs_alloc cs)) s.

(** [malloc_sharedlibdesc] and the first assignments *)
Definition new_lib (filename : cstring) (s : loader A) : res (Z * loader A) :=
  let cs := ld_cs s in
  let! '(l, id, next, d, a) := malloc_sharedlibdesc sizeof_SharedLibDesc (dz_code cs) (sharedLibID s)
                                 (Z.of_nat (length filename) + 1) (cs_alloc cs) in
  let lib := MkSharedLib filename id (-1) [] [] NULL 0 (replicate LIB_HASHKEY_LEN 0) 0 NULL 0 0 0 in
  Ok (desc l, set_ids (sharedLibsIndexNumber s) next
                (set_cs (MkCS (classdescs cs) (<[desc l := lib]> (slibs cs)) (sharedLibs cs) (sharedArrayClasses cs) d a) s)).

Definition set_needed (l : list Z) (x : SharedLibDesc) : SharedLibDesc :=
  MkSharedLib (slib_name x) (slib_id x) (ndx x) l (lib_meta x) (allClasses x) (numberOfClasses x) (key x)
    (memSizeStaticFields x) (lib_code x) (codeBytes x) (lib_vtablesize x) (lib_bytecodes x).
Definition set_meta (l : list (cstring * cstring)) (x : SharedLibDesc) : SharedLibDesc :=
  MkSharedLib (slib_name x) (slib_id x) (ndx x) (neededLibs x) l (allClasses x) (numberOfClasses x) (key x)
    (memSizeStaticFields x) (lib_code x) (codeBytes x) (lib_vtablesize x) (lib_bytecodes x).
Definition set_allClasses (a : Z) (x : SharedLibDesc) : SharedLibDesc :=
  MkSharedLib (slib_name x) (slib_id x) (ndx x) (neededLibs x) (lib_meta x) a 0 (key x) 0
    (lib_code x) (codeBytes x) (lib_vtablesize x) (lib_bytecodes x).
Definition set_code (a : Z) (c : sums) (n : Z) (x : SharedLibDesc) : SharedLibDesc :=
  MkSharedLib (slib_name x) (slib_id x) n (neededLibs x) (lib_meta x) (allClasses x) (numberOfClasses x) (key x)
    (memSizeStaticFields x) a (completeCodeBytes c) (completeVtableSize c) (completeBytecodeSize c).

(** Everything behind the list of needed libraries, up to the native code. *)
Definition readLibrary (m : memory) (lib : Z) : reader A sums :=
  let* numberOfMeta := readInt m in
  let* _ := alloc (fun d => malloc_metatable sizeof_meta_s d numberOfMeta) in
  let* meta := repeat_r (Z.to_nat numberOfMeta) (readMeta m fuel) in
  let* _ := (fun '(p, s) => Ok (tt, (p, set_lib lib (set_meta meta) s))) in
  let* string_table := readStringTable m in
  let* i := readInt m in
  let* _ := readVMSymbols m fuel vmsupport_names (Z.to_nat i) 0 in
  let* totalNumberOfClasses := readInt m in
  let* base := alloc (fun d => malloc_classdescs sizeof_ClassDesc d totalNumberOfClasses) in
  let* _ := (fun '(p, s) => Ok (tt, (p, set_lib lib (set_allClasses base) s))) in
  readClasses m fuel java_lang_Object string_table lib (Z.to_nat totalNumberOfClasses) (MkSums 0 0 0 0).

(** [lib->code] and the registration of the library *)
Definition finish_lib (m : memory) (lib : Z) (c : sums) : reader A memory :=
  let* code := alloc (fun d => malloc_nativecode d (completeCodeBytes c)) in
  fun '(p, s) =>
    let s := set_lib lib (set_code code c (sharedLibsIndexNumber s)) s in
    let cs := ld_cs s in
    let s := set_cs (MkCS (classdescs cs) (slibs cs) (lib :: sharedLibs cs) (sharedArrayClasses cs) (dz_code cs) (cs_alloc cs)) s in
    Ok (memcpy m code p (completeCodeBytes c),
        (p + completeCodeBytes c, set_ids (s32 (sharedLibsIndexNumber s + 1)) (sharedLibID s) s)).

(** [depth] bounds the nesting of needed libraries. *)
Fixpoint loadSharedLibrary (depth : nat) (filename : cstring) (m : memory) (s : loader A)
  : res (Z * memory * loader A) :=
  match depth with
  | O => Err EFuel
  | S depth =>
      match codefile filename with
      | None => Ok (NULL, m, s)
      | Some (codefile, size) =>
          let! '(_, (p, s)) := testCheckSumAndVersion m fuel codefile size (codefile, s) in
          let! '(lib, s) := new_lib filename s in
          let! '(_, (p, s)) := readInt m (p, s) in
          let! '(numberOfNeededLibs, (p, s)) := readInt m (p, s) in
          let! '(_, (p, s)) := alloc_if (negb (numberOfNeededLibs =? 0))
                                 (fun d => malloc_sharedlibdesctable d numberOfNeededLibs) (p, s) in
          let! '(needed, m, (p, s)) := load_needed (loadSharedLibrary depth) (Z.to_nat numberOfNeededLibs) m p s in
          let s := set_lib lib (set_needed needed) s in
          let! '(c, (p, s)) := readLibrary m lib (p, s) in
          let! '(m, (p, s)) := finish_lib m lib c (p, s) in
          Ok (lib, m, s)
      end
  end.
End Load.
