(* ===== verification/CodeFormat.v ===== *)
(** * The format of code files, and what reading one gives (core/load.c)

    [encode] writes a library in the format [CodeFile.loadSharedLibrary]
    reads.  [reads r l x] says that the reader [r] consumes exactly the bytes
    [l] and returns [x], unless an allocation fails on the way; the rules for
    it follow the structure of the reader. *)

From S2P Require Import Prelude Mem CString Malloc Alloc CodeMem Zip BootFS Classes CodeFile.
#[local] Open Scope Z_scope.
#[local] Open Scope reader_scope.

(** ** The format *)

Definition int_ok (z : Z) : Prop := -2147483648 <= z < 2147483648.
Definition sbyte_ok (z : Z) : Prop := -128 <= z < 128.
Definition small {X} (l : list X) : Prop := Z.of_nat (length l) < 1000000.
#[export] Instance int_ok_dec z : Decision (int_ok z).
Proof. unfold int_ok. apply _. Defined.
#[export] Instance sbyte_ok_dec z : Decision (sbyte_ok z).
Proof. unfold sbyte_ok. apply _. Defined.
#[export] Instance small_dec {X} (l : list X) : Decision (small l).
Proof. unfold small. apply _. Defined.

Definition enc_int (z : Z) : list Z := le32 (u32 z).
Definition enc_str (s : cstring) : list Z := s ++ [0].
Definition enc_count {X} (l : list X) : list Z := enc_int (Z.of_nat (length l)).
Definition enc_all {X} (f : X -> list Z) (l : list X) : list Z := concat (map f l).
Definition enc_map (l : list Z) : list Z := enc_count l ++ map u8 l.

Section Encode.
(** the string table *)
Context (strings : list cstring).

Definition enc_id (s : cstring) : list Z := enc_int (default 0 (index_of strings s 0)).

Definition sym_type (x : symbol) : Z :=
  match x with
  | SymDomainZero => 1 | SymExceptionHandler => 2 | SymDEPFunction _ _ _ => 3 | SymStaticField _ _ _ => 4
  | SymAllocObject => 5 | SymClass _ => 6 | SymDirectMethodCall _ _ _ => 7 | SymString _ => 8
  | SymAllocArray => 9 | SymAllocMultiArray => 10 | SymLongArithmetic _ => 11 | SymVMSupport _ => 12
  | SymPrimitiveClass _ => 13 | SymUnresolvedJump _ => 14 | SymVMAbsolute _ => 15 | SymStackMapOld _ _ => 16
  | SymStackMap _ _ _ => 17 | SymExceptionTable _ _ _ _ => 18 | SymThreadPointer => 19
  | SymStackChunkSize => 20 | SymProfile _ => 21 | SymMethodeDesc => 22 | SymTCBOffset _ => 23
  end.
Definition enc_symbol_data (x : symbol) : list Z :=
  match x with
  | SymDEPFunction c n s => enc_str c ++ enc_str n ++ enc_str s
  | SymStaticField c k o => enc_id c ++ enc_int k ++ enc_int o
  | SymClass c | SymString c => enc_id c
  | SymDirectMethodCall c n s => enc_id c ++ enc_id n ++ enc_id s
  | SymLongArithmetic o | SymVMSupport o | SymPrimitiveClass o | SymUnresolvedJump o | SymVMAbsolute o
  | SymProfile o | SymTCBOffset o => enc_int o
  | SymStackMapOld n l => enc_count l ++ enc_int n ++ map u8 l
  | SymStackMap p n l => enc_int p ++ enc_count l ++ enc_int n ++ map u8 l
  | SymExceptionTable t b e c => enc_int t ++ enc_int b ++ enc_int e ++ enc_id c
  | _ => []
  end.
Definition enc_symbol (x : SymbolDesc) : list Z :=
  enc_int (sym_type (sym x)) ++ enc_int (immediateNCIndex x) ++ enc_int (numBytes x) ++ enc_int (nextInstrNCIndex x) ++
  enc_symbol_data (sym x).

Definition enc_bytecode (b : ByteCodeDesc) : list Z := enc_int (bytecodePos b) ++ enc_int (bc_start b) ++ enc_int (bc_end b).
Definition enc_line (b : SourceLineDesc) : list Z := enc_int (startBytecode b) ++ enc_int (lineNumber b).

(** [codeOffset] and [sizeOfExceptionTable] are not in the file. *)
Definition enc_method (x : MethodDesc) : list Z :=
  enc_id (m_name x) ++ enc_id (m_signature x) ++ enc_int (sizeLocalVars x) ++ enc_int (numberOfCodeBytes x) ++
  enc_count (argTypeMap x) ++ enc_int (numberOfArgs x) ++ map u8 (argTypeMap x) ++ enc_int (returnType x) ++
  enc_int (m_flags x) ++ enc_count (symbols x) ++ enc_all enc_symbol (symbols x) ++
  enc_count (bytecodeTable x) ++ enc_all enc_bytecode (bytecodeTable x) ++
  enc_count (sourceLineTable x) ++ enc_all enc_line (sourceLineTable x).

(** A class: the descriptor, the name of the superclass (empty: none), the
    size of its byte code, two numbers the loader skips. *)
Record class_file := MkClassFile { cf : ClassDesc; cf_super : cstring; cf_bytecodes : Z; cf_skip : Z; cf_vskip : Z }.

Definition enc_field (f : FieldDesc) : list Z := enc_id (fieldName f) ++ enc_id (fieldType f) ++ enc_int (fieldOffset f).
Definition enc_ventry (skip : Z) (e : cstring * cstring * cstring) : list Z :=
  let '(c, n, t) := e in enc_id c ++ enc_id n ++ enc_id t ++ enc_int skip.
Definition enc_class (k : class_file) : list Z :=
  let c := cf k in
  enc_id (c_nm c) ++ enc_id (cf_super k) ++ enc_int (if classType c =? CLASSTYPE_INTERFACE then 1 else 0) ++
  enc_count (ifname c) ++ enc_all enc_id (ifname c) ++ enc_count (methods c) ++ enc_int (instanceSize c) ++
  enc_map (objmap c) ++ enc_count (fields c) ++ enc_all enc_field (fields c) ++ enc_int (staticFieldsSize c) ++
  enc_map (staticsMap c) ++ enc_int (cf_bytecodes k) ++ enc_int (cf_skip k) ++ enc_count (vtableSym c) ++
  enc_all (enc_ventry (cf_vskip k)) (vtableSym c) ++ enc_all enc_method (methods c).
End Encode.

(** ** What a reader reads *)

Section Reads.
(** reading starts in the state [s0] *)
Context {A : Type} `{!Allocator A} (m : memory) (fuel : nat) (s0 : loader A).

(** the allocator is well-formed, and every descriptor is code memory *)
Record state_ok (s : loader A) : Prop := {
  so_alloc : al_ok (cs_alloc (ld_cs s));
  so_code : code_ok (dz_code (ld_cs s)) (cs_alloc (ld_cs s));
  so_null : never_null (dz_code (ld_cs s)) (cs_alloc (ld_cs s));
  so_class : forall a d, classdescs (ld_cs s) !! a = Some d -> in_use (dz_code (ld_cs s)) a;
  so_slib : forall l d, slibs (ld_cs s) !! l = Some d -> in_use (dz_code (ld_cs s)) l;
}.
(** memory in use stays in use, foreign memory stays foreign *)
Definition mem_grows (s s' : loader A) : Prop :=
  (forall x, in_use (dz_code (ld_cs s)) x -> in_use (dz_code (ld_cs s')) x) /\
  (forall x, foreign (dz_code (ld_cs s)) (cs_alloc (ld_cs s)) x -> foreign (dz_code (ld_cs s')) (cs_alloc (ld_cs s')) x).
(** only memory was allocated *)
Definition keeps (s s' : loader A) : Prop :=
  classdescs (ld_cs s') = classdescs (ld_cs s) /\ slibs (ld_cs s') = slibs (ld_cs s) /\
  sharedLibs (ld_cs s') = sharedLibs (ld_cs s) /\ sharedArrayClasses (ld_cs s') = sharedArrayClasses (ld_cs s) /\
  ld_vmindex s' = ld_vmindex s /\ sharedLibsIndexNumber s' = sharedLibsIndexNumber s /\ sharedLibID s' = sharedLibID s /\
  mem_grows s s'.
(** the errors of a failed allocation *)
Definition alloc_error (e : err) : Prop :=
  (exists d n a, @malloc_code A _ d n a = Err e) \/ (exists n a, @al_alloc A _ n a = Err e) \/
  e = EPanic "temp space not sufficient".

Definition reads {X} (r : reader A X) (l : list Z) (x : X) : Prop := forall p s,
  holds m p l -> state_ok s -> keeps s0 s ->
  match r (p, s) with
  | Ok (y, (p', s')) => y = x /\ p' = p + Z.of_nat (length l) /\ state_ok s' /\ keeps s s'
  | Err e => alloc_error e
  end.
(** a reader that only allocates, with any result *)
Definition quiet {X} (r : reader A X) : Prop := forall p s,
  state_ok s ->
  match r (p, s) with
  | Ok (_, (p', s')) => p' = p /\ state_ok s' /\ keeps s s'
  | Err e => alloc_error e
  end.

Lemma mem_grows_trans s1 s2 s3 : mem_grows s1 s2 -> mem_grows s2 s3 -> mem_grows s1 s3.
Proof. intros [A1 A2] [B1 B2]. split; intros x Hx; [by apply B1, A1|by apply B2, A2]. Qed.
Lemma keeps_refl s : keeps s s.
Proof. by split_and!. Qed.
Lemma keeps_trans s1 s2 s3 : keeps s1 s2 -> keeps s2 s3 -> keeps s1 s3.
Proof.
  intros (? & ? & ? & ? & ? & ? & ? & K1) (? & ? & ? & ? & ? & ? & ? & K2).
  split_and!; try congruence. by eapply mem_grows_trans.
Qed.

Lemma reads_eq {X} (r : reader A X) l l' x : reads r l x -> l = l' -> reads r l' x.
Proof. by intros ? <-. Qed.
Lemma reads_ret {X} (x : X) : reads (rret x) [] x.
Proof. intros p s _ Hs _. cbn. split_and!; [done|lia|done|apply keeps_refl..]. Qed.

Lemma reads_bind {X Y} (r : reader A X) (k : X -> reader A Y) l1 l2 x y :
  reads r l1 x -> reads (k x) l2 y -> reads (rseq r k) (l1 ++ l2) y.
Proof.
  intros H1 H2 p s [Hl1 Hl2]%holds_app Hs Hk. unfold rseq. specialize (H1 p s Hl1 Hs Hk).
  destruct (r (p, s)) as [[x' [p1 s1]]|e]; [|done]. destruct H1 as (-> & -> & Hs1 & K1). cbn [rbind].
  specialize (H2 _ s1 Hl2 Hs1 (keeps_trans _ _ _ Hk K1)). destruct (k x _) as [[y' [p2 s2]]|e]; [|done].
  destruct H2 as (-> & -> & Hs2 & K2). rewrite length_app. split_and!; [done|lia|done|by eapply keeps_trans].
Qed.
Lemma reads_quiet {X Y} (r : reader A X) (k : reader A Y) l y :
  quiet r -> reads k l y -> reads (rseq r (fun _ => k)) l y.
Proof.
  intros H1 H2 p s Hl Hs Hk. unfold rseq. specialize (H1 p s Hs).
  destruct (r (p, s)) as [[x' [p1 s1]]|e]; [|done]. destruct H1 as (-> & Hs1 & K1). cbn [rbind].
  specialize (H2 p s1 Hl Hs1 (keeps_trans _ _ _ Hk K1)). destruct (k _) as [[y' [p2 s2]]|e]; [|done].
  destruct H2 as (-> & -> & Hs2 & K2). split_and!; [done|lia|done|by eapply keeps_trans].
Qed.
Lemma reads_silent {X Y} (r : reader A X) (k : X -> reader A Y) l x y : reads r [] x -> reads (k x) l y -> reads (rseq r k) l y.
Proof. intros H1 H2. by apply (reads_bind r k [] l x y). Qed.
(** the last step of a reader *)
Lemma reads_last {X Y} (r : reader A X) (f : X -> Y) l x : reads r l x -> reads (rseq r (fun x => rret (f x))) l (f x).
Proof. intros H. eapply reads_eq; [eapply reads_bind; [exact H|apply reads_ret]|apply app_nil_r]. Qed.
Lemma reads_final {X Y} (r : reader A X) (k : X -> reader A Y) l x y : reads r l x -> k x = rret y -> reads (rseq r k) l y.
Proof. intros H E. eapply reads_eq; [eapply reads_bind; [exact H|rewrite E; apply reads_ret]|apply app_nil_r]. Qed.
Lemma reads_last_pair {X X' Y} (r : reader A (X * X')) (f : X -> X' -> Y) l a b :
  reads r l (a, b) -> reads (let* '(a, b) := r in rret (f a b)) l (f a b).
Proof. intros H. eapply reads_eq; [eapply reads_bind; [exact H|apply reads_ret]|apply app_nil_r]. Qed.
Lemma quiet_ret {X} (x : X) : quiet (rret x).
Proof. intros p s Hs. cbn. split_and!; [done|done|apply keeps_refl..]. Qed.

Lemma s32_u32 z : int_ok z -> s32 (u32 z) = z.
Proof.
  intros Hz. unfold s32, swrap, u32, uwrap. rewrite Z.add_mod_idemp_l by lia.
  fold (swrap 32 z). apply swrap_small; [lia|exact Hz].
Qed.
Lemma s8_u8 z : sbyte_ok z -> s8 (u8 z) = z.
Proof.
  intros Hz. unfold s8, swrap, u8, uwrap. rewrite Z.add_mod_idemp_l by lia.
  fold (swrap 8 z). apply swrap_small; [lia|exact Hz].
Qed.
Lemma length_enc_int z : length (enc_int z) = 4%nat.
Proof. done. Qed.
Lemma load_enc_int p z : int_ok z -> holds m p (enc_int z) -> s32 (load32 m p) = z.
Proof. intros Hz H. rewrite (holds_le32 _ _ (u32 z)); [by apply s32_u32|apply u32_range|done]. Qed.

Lemma reads_int z : int_ok z -> reads (readInt m) (enc_int z) z.
Proof.
  intros Hz p s Hl Hs _. cbn. rewrite (load_enc_int p z) by done. split_and!; [done|done|done|apply keeps_refl..].
Qed.
Lemma reads_byte z : sbyte_ok z -> reads (readByte m) [u8 z] z.
Proof.
  intros Hz p s [Hl _]%holds_cons Hs _. cbn. rewrite Hl, s8_u8 by done. split_and!; [done|done|done|apply keeps_refl..].
Qed.

(** a C string that the fuel covers *)
Definition str_ok (l : cstring) : Prop := nonzero_bytes l /\ (length l < fuel)%nat.
Lemma cstring_at_spec l : forall n p, cstr m p l -> (length l < n)%nat -> cstring_at n m p = Ok l.
Proof.
  induction l as [|c l IH]; intros [|n] p H Hn; [lia| |lia|]; cbn [cstring_at].
  - apply cstr_nil in H. by rewrite H.
  - apply cstr_cons in H as (Hc & Hr & H). rewrite Hc, (proj2 (Z.eqb_neq c 0)) by lia.
    rewrite IH; [done|done|simpl in Hn; lia].
Qed.
Lemma reads_string l : str_ok l -> reads (readString m fuel) (enc_str l) l.
Proof.
  intros [Hn Hf] p s Hl Hs _. cbn. rewrite (cstring_at_spec l) by done. cbn [rbind].
  unfold enc_str. rewrite length_app. simpl length. split_and!; [done|lia|done|apply keeps_refl..].
Qed.

(** the addresses of the strings of the table *)
Definition table_ok (strings : list cstring) (t : list Z) : Prop :=
  length t = length strings /\ small strings /\
  forall i x, strings !! i = Some x -> exists a, t !! i = Some a /\ cstr m a x /\ (length x < fuel)%nat.

Lemma index_of_spec strings x : forall k, x ∈ strings ->
  exists i, index_of strings x k = Some (k + Z.of_nat i) /\ strings !! i = Some x.
Proof.
  induction strings as [|y l IH]; intros k Hx; [by apply not_elem_of_nil in Hx|]. cbn [index_of]. unfold strcmp_eq.
  case_bool_decide as E; [exists 0%nat; subst y; split; [f_equal; lia|done]|].
  apply elem_of_cons in Hx as [|Hx]; [done|]. destruct (IH (k + 1) Hx) as (i & -> & Hi). exists (S i). split; [f_equal; lia|done].
Qed.

Lemma reads_id strings t x : table_ok strings t -> x ∈ strings -> reads (readStringID m fuel t) (enc_id strings x) x.
Proof.
  intros (Hlen & Hsm & Ht) Hx. destruct (index_of_spec strings x 0 Hx) as (i & Ei & Hi). unfold enc_id. rewrite Ei. simpl default.
  pose proof (lookup_lt_Some _ _ _ Hi) as Hlt. unfold small, cstring in *. destruct (Ht i x Hi) as (a & Ha & Hc & Hf).
  rewrite Z.add_0_l. eapply reads_eq; [eapply reads_bind; [apply (reads_int (Z.of_nat i)); unfold int_ok; lia|]|apply app_nil_r].
  intros p s _ Hs _. cbv beta zeta. rewrite (proj2 (Z.ltb_lt (Z.of_nat i) (Z.of_nat (length t)))) by lia.
  rewrite Nat2Z.id, Ha, (proj2 (Z.ltb_ge (Z.of_nat i) 0)) by lia. cbn [rbind].
  rewrite (cstring_at_spec x) by done. cbn [rbind]. split_and!; [done|simpl; lia|done|apply keeps_refl..].
Qed.

Lemma reads_repeat {X} (r : reader A X) (enc : X -> list Z) l :
  (forall x, x ∈ l -> reads r (enc x) x) -> reads (repeat_r (length l) r) (enc_all enc l) l.
Proof.
  unfold enc_all. induction l as [|x l IH]; intros H; cbn [length repeat_r map concat]; [apply reads_ret|].
  eapply reads_bind; [apply H, list_elem_of_here|]. eapply reads_eq; [eapply reads_bind; [|apply reads_ret]|apply app_nil_r].
  apply IH. intros y Hy. apply H. by apply list_elem_of_further.
Qed.

(** a block of code memory: new bytes, not at address 0 *)
Lemma alloc_block f n p s a p' s' :
  (forall d al, f d al = malloc_code d n al) -> 0 <= n < 2147483648 -> state_ok s -> alloc f (p, s) = Ok (a, (p', s')) ->
  p' = p /\ state_ok s' /\ keeps s s' /\ (0 < n -> 0 < a) /\
  forall x, a <= x < a + n -> ~ in_use (dz_code (ld_cs s)) x /\ in_use (dz_code (ld_cs s')) x.
Proof.
  intros Hf Hn [Hal Hd Hz Hc Hl] H. unfold alloc in H. rewrite Hf in H. apply rbind_ok in H as ([[b d] al] & E & H).
  injection H as <- <- <-. pose proof E as (Hz' & Hnn)%malloc_code_null; try done.
  assert (Hpos : 0 < n -> 0 < b).
  { intros Hpos. pose proof (malloc_code_bound _ n _ b d al Hal Hd ltac:(lia) E). specialize (Hnn Hpos). unfold NULL in *. lia. }
  assert (Hfor : forall x, foreign (dz_code (ld_cs s)) (cs_alloc (ld_cs s)) x -> foreign d al x).
  { intros x. by eapply malloc_code_foreign. }
  apply malloc_code_spec in E as (Hal' & Hd' & Hfr & Hin); try done.
  assert (Hm : forall x, in_use (dz_code (ld_cs s)) x -> in_use d x) by (intros x Hx; apply Hin; by left).
  assert (Hg : mem_grows s (with_code d al s)) by (split; [exact Hm|exact Hfor]).
  split_and!; try done.
  - split; try done; [intros a' cd Hx; by eapply Hm, Hc|intros l ld Hx; by eapply Hm, Hl].
  - intros x Hx. split; [by apply Hfr|]. apply Hin. by right.
Qed.

Lemma alloc_block_total f n p s :
  (forall d al, f d al = malloc_code d n al) -> 0 <= n < 2147483648 -> state_ok s ->
  match alloc f (p, s) with
  | Ok (a, (p', s')) => p' = p /\ state_ok s' /\ keeps s s' /\ (0 < n -> 0 < a) /\
      forall x, a <= x < a + n -> ~ in_use (dz_code (ld_cs s)) x /\ in_use (dz_code (ld_cs s')) x
  | Err e => alloc_error e
  end.
Proof.
  intros Hf Hn Hs. destruct (alloc f (p, s)) as [[a [p' s']]|e] eqn:E; [by eapply alloc_block|].
  unfold alloc in E. rewrite Hf in E. destruct (malloc_code _ n _) as [[[b d] al]|e'] eqn:E'; [done|]. injection E as ->. left. eauto.
Qed.

Lemma quiet_alloc f :
  (forall d a, exists n, f d a = malloc_code d n a /\ 0 <= n < 2147483648) -> quiet (alloc f).
Proof.
  intros Hf p s Hs. destruct (Hf (dz_code (ld_cs s)) (cs_alloc (ld_cs s))) as (n & Ef & Hn).
  pose proof (alloc_block_total (fun d al => malloc_code d n al) n p s ltac:(done) Hn Hs) as H.
  unfold alloc in *. rewrite Ef. destruct (malloc_code _ n _) as [[[b d] al]|e']; [|done]. cbn [rbind] in *. tauto.
Qed.
Lemma quiet_alloc_if b f :
  (b = true -> forall d a, exists n, f d a = malloc_code d n a /\ 0 <= n < 2147483648) -> quiet (alloc_if b f).
Proof. intros H. destruct b; [by apply quiet_alloc, H|apply quiet_ret]. Qed.
Lemma quiet_tmp n : quiet (alloc_tmp n).
Proof.
  intros p s [? ? ? ? ?]. unfold alloc_tmp, malloc_tmp_stringtable. destruct (_ <? _); cbn [rbind]; [by do 2 right|].
  by split_and!.
Qed.
Lemma quiet_if {X} (b : bool) (r1 r2 : reader A X) : quiet r1 -> quiet r2 -> quiet (if b then r1 else r2).
Proof. by destruct b. Qed.

(** ** Symbols and methods *)

Section Contents.
Context (strings : list cstring) (t : list Z) (Ht : table_ok strings t).

Definition sym_ids (x : symbol) : list cstring :=
  match x with
  | SymStaticField c _ _ | SymClass c | SymString c | SymExceptionTable _ _ _ c => [c]
  | SymDirectMethodCall c n s => [c; n; s]
  | _ => []
  end.
Definition sym_inline (x : symbol) : list cstring :=
  match x with SymDEPFunction c n s => [c; n; s] | _ => [] end.
Definition sym_ints (x : symbol) : list Z :=
  match x with
  | SymStaticField _ k o => [k; o]
  | SymLongArithmetic o | SymVMSupport o | SymPrimitiveClass o | SymUnresolvedJump o | SymVMAbsolute o
  | SymProfile o | SymTCBOffset o | SymStackMapOld o _ => [o]
  | SymStackMap p n _ => [p; n]
  | SymExceptionTable a b e _ => [a; b; e]
  | _ => []
  end.
Definition sym_bits (x : symbol) : list Z :=
  match x with SymStackMapOld _ l | SymStackMap _ _ l => l | _ => [] end.

(** What the fields of the file can hold. *)
Definition symbol_ok (numberOfCodeBytes : Z) (x : SymbolDesc) : Prop :=
  Forall (fun s => s ∈ strings) (sym_ids (sym x)) /\ Forall (fun s => str_ok s) (sym_inline (sym x)) /\
  Forall int_ok ([immediateNCIndex x; numBytes x; nextInstrNCIndex x] ++ sym_ints (sym x)) /\
  Forall sbyte_ok (sym_bits (sym x)) /\ small (sym_bits (sym x)) /\
  s32 (immediateNCIndex x + numBytes x) <= numberOfCodeBytes.

Lemma reads_list_bytes l : Forall sbyte_ok l -> reads (repeat_r (length l) (readByte m)) (map u8 l) l.
Proof using.
  intros H. eapply reads_eq; [apply (reads_repeat _ (fun b => [u8 b]))|].
  - intros x Hx. apply reads_byte. by eapply Forall_forall in H.
  - unfold enc_all. clear H. induction l; simpl; congruence.
Qed.

Lemma reads_count {X Y} (l : list X) (k : Z -> reader A Y) rest y :
  small l -> reads (k (Z.of_nat (length l))) rest y -> reads (rseq (readInt m) k) (enc_count l ++ rest) y.
Proof using. intros Hl Hk. eapply reads_bind; [apply reads_int|done]. unfold small, int_ok in *. lia. Qed.

Lemma size_ok n k : 0 <= n < 1000000 -> 0 <= k <= 124 -> u32 (k * n) = k * n /\ 0 <= k * n < 2147483648.
Proof using. intros. assert (0 <= k * n < 2147483648) by nia. split; [apply u32_small; lia|done]. Qed.

Ltac quiet_tac :=
  first [ apply quiet_tmp
        | apply quiet_alloc_if; intros _ | apply quiet_alloc
        | apply quiet_ret | apply quiet_if ].
(** the sizes asked for: [k * n], [n * k] and plain byte counts *)
Lemma quiet_table {X} (l : list X) (f : domain_code -> A -> res (Z * domain_code * A)) k :
  small l -> 0 <= k <= 124 -> (forall d a, f d a = malloc_code d (u32 (k * Z.of_nat (length l))) a) ->
  quiet (alloc_if (0 <? Z.of_nat (length l)) f).
Proof using.
  intros Hl Hk Hf. apply quiet_alloc_if. intros _ d a. rewrite Hf. eexists. split; [done|].
  unfold small in Hl. destruct (size_ok (Z.of_nat (length l)) k) as [-> ?]; lia.
Qed.

Lemma reads_stackmap n l :
  int_ok n -> small l -> Forall sbyte_ok l -> reads (readStackMap m) (enc_count l ++ enc_int n ++ map u8 l) (n, l).
Proof using.
  intros Hn Hl Hb. unfold readStackMap. apply reads_count; [done|]. apply reads_bind with n; [by apply reads_int|].
  apply reads_quiet.
  - apply (quiet_table l _ 1); [done|lia|]. intros d a. unfold malloc_stackmap. do 2 f_equal. lia.
  - rewrite Nat2Z.id. by apply (reads_last _ (fun l => (n, l))), reads_list_bytes.
Qed.

(** one field *)
Ltac rd_field :=
  first [ apply reads_int; assumption | apply (reads_id strings t); [exact Ht|assumption] | apply reads_string; assumption ].
Ltac rd_fields := repeat first [ apply reads_last; rd_field | eapply reads_bind; [rd_field|] | apply reads_ret ].

Lemma reads_symbol_data x :
  Forall (fun s => s ∈ strings) (sym_ids x) -> Forall (fun s => str_ok s) (sym_inline x) ->
  Forall int_ok (sym_ints x) -> Forall sbyte_ok (sym_bits x) -> small (sym_bits x) ->
  reads (readSymbolData m fuel t (sym_type x)) (enc_symbol_data strings x) x.
Proof using Ht.
  intros H1 H2 H3 H4 H5. destruct x; cbn [sym_type readSymbolData enc_symbol_data sym_ids sym_inline sym_ints sym_bits] in *;
    rewrite ?Forall_cons in *; destruct_and?; rd_fields.
  - by apply reads_last_pair, reads_stackmap.
  - by apply reads_last_pair, reads_stackmap.
Qed.

Lemma sym_type_range x : 1 <= sym_type x <= 23.
Proof using. destruct x; simpl; lia. Qed.
Lemma sizeof_symbol_range k : 16 <= sizeof_symbol k <= 32.
Proof using. unfold sizeof_symbol. repeat case_match; lia. Qed.

Lemma reads_symbol ncb x : symbol_ok ncb x -> reads (readSymbol m fuel t ncb) (enc_symbol strings x) x.
Proof using Ht.
  intros (H1 & H2 & H3 & H4 & H5 & H6). apply Forall_app in H3 as [H3 H3']. rewrite !Forall_cons in H3. destruct H3 as (? & ? & ? & _).
  pose proof (sym_type_range (sym x)) as Hr. unfold readSymbol, enc_symbol.
  eapply reads_bind; [apply reads_int; unfold int_ok; lia|]. do 3 (eapply reads_bind; [by apply reads_int|]).
  rewrite (proj2 (Z.ltb_ge _ _)), (proj2 (Z.eqb_neq _ 0)), !(proj2 (Z.leb_le _ _)) by lia. cbn [andb].
  apply reads_quiet.
  - apply quiet_alloc. intros d a. eexists. split; [done|]. pose proof (sizeof_symbol_range (sym_type (sym x))). lia.
  - eapply reads_eq; [eapply reads_bind; [by apply reads_symbol_data|]|apply app_nil_r].
    destruct x. apply reads_ret.
Qed.

Definition bytecode_ok (b : ByteCodeDesc) : Prop := Forall int_ok [bytecodePos b; bc_start b; bc_end b].
Definition line_ok (b : SourceLineDesc) : Prop := Forall int_ok [startBytecode b; lineNumber b].
Definition method_ok (x : MethodDesc) : Prop :=
  Forall (fun s => s ∈ strings) [m_name x; m_signature x] /\
  Forall int_ok [sizeLocalVars x; numberOfCodeBytes x; numberOfArgs x; returnType x; m_flags x] /\
  0 <= numberOfCodeBytes x /\
  (Forall sbyte_ok (argTypeMap x) /\ small (argTypeMap x)) /\
  (Forall (symbol_ok (numberOfCodeBytes x)) (symbols x) /\ small (symbols x)) /\
  (Forall bytecode_ok (bytecodeTable x) /\ small (bytecodeTable x)) /\
  (Forall line_ok (sourceLineTable x) /\ small (sourceLineTable x)).

(** what the loader computes for a method whose code starts at [off] *)
Definition exceptions (l : list SymbolDesc) : Z := Z.of_nat (length (List.filter is_exception l)).
Definition placed (off : Z) (x : MethodDesc) : MethodDesc :=
  MkMethod (m_name x) (m_signature x) (sizeLocalVars x) (numberOfCodeBytes x) (numberOfArgs x) (argTypeMap x) (returnType x)
    (m_flags x) off (symbols x) (exceptions (symbols x)) (bytecodeTable x) (sourceLineTable x).

Lemma reads_all {X} (r : reader A X) (enc : X -> list Z) (P : X -> Prop) l :
  Forall P l -> (forall x, P x -> reads r (enc x) x) -> reads (repeat_r (Z.to_nat (Z.of_nat (length l))) r) (enc_all enc l) l.
Proof using. intros Hl H. rewrite Nat2Z.id. apply reads_repeat. intros x Hx. apply H. by eapply Forall_forall in Hl. Qed.

Lemma reads_bytecode b : bytecode_ok b -> reads (readByteCode m) (enc_bytecode b) b.
Proof using.
  intros H. unfold bytecode_ok in H. rewrite !Forall_cons in H. destruct H as (? & ? & ? & _). destruct b.
  do 2 (eapply reads_bind; [by apply reads_int|]). by apply reads_last, reads_int.
Qed.
Lemma reads_line b : line_ok b -> reads (readSourceLine m) (enc_line b) b.
Proof using.
  intros H. unfold line_ok in H. rewrite !Forall_cons in H. destruct H as (? & ? & _). destruct b.
  eapply reads_bind; [by apply reads_int|]. by apply reads_last, reads_int.
Qed.

Lemma exceptions_small l : small l -> 0 <= exceptions l < 1000000.
Proof using.
  unfold small, exceptions. intros H. assert (length (List.filter is_exception l) <= length l)%nat; [|lia].
  clear H. induction l as [|x l IH]; simpl; [lia|]. destruct (is_exception x); simpl; lia.
Qed.

Lemma reads_method off x :
  method_ok x -> reads (readMethod m fuel t off) (enc_method strings x) (placed off x, s32 (off + numberOfCodeBytes x)).
Proof using Ht.
  intros (H1 & H2 & H3 & [H4 H4'] & [H5 H5'] & [H6 H6'] & [H7 H7']).
  rewrite !Forall_cons in H1. rewrite !Forall_cons in H2. destruct H1 as (? & ? & _), H2 as (? & ? & ? & ? & ? & _). unfold readMethod, enc_method.
  do 2 (eapply reads_bind; [by apply (reads_id strings t)|]). do 2 (eapply reads_bind; [by apply reads_int|]).
  rewrite (proj2 (Z.ltb_ge _ 0)) by lia. apply reads_quiet; [apply quiet_ret|].
  apply reads_count; [done|]. eapply reads_bind; [by apply reads_int|].
  apply reads_quiet; [apply (quiet_table (argTypeMap x) _ 1); [done|lia|intros; unfold malloc_argsmap; do 2 f_equal; lia]|].
  rewrite Nat2Z.id. eapply reads_bind; [by apply reads_list_bytes|]. do 2 (eapply reads_bind; [by apply reads_int|]).
  apply reads_count; [done|].
  apply reads_quiet; [apply (quiet_table (symbols x) _ 4); [done|lia|done]|].
  eapply reads_bind; [eapply reads_all; [exact H5|apply reads_symbol]|].
  fold (exceptions (symbols x)). pose proof (exceptions_small _ H5').
  apply reads_quiet.
  { apply quiet_alloc_if. intros _ d a. eexists. split; [done|]. unfold sizeof_ExceptionDesc. by destruct (size_ok (exceptions (symbols x)) 16) as [-> ?]. }
  apply reads_count; [done|].
  apply reads_quiet; [apply (quiet_table (bytecodeTable x) _ 12); [done|lia|done]|].
  eapply reads_bind; [eapply reads_all; [exact H6|apply reads_bytecode]|].
  apply reads_count; [done|].
  apply reads_quiet; [apply (quiet_table (sourceLineTable x) _ 8); [done|lia|done]|].
  eapply reads_final; [eapply reads_all; [exact H7|apply reads_line]|done].
Qed.

(** a sequence of methods, their code one behind the other *)
Fixpoint place (off : Z) (l : list MethodDesc) : list MethodDesc * Z :=
  match l with
  | [] => ([], off)
  | x :: l => let '(l', e) := place (s32 (off + numberOfCodeBytes x)) l in (placed off x :: l', e)
  end.

Lemma reads_methods l : forall off,
  Forall method_ok l -> reads (readMethods m fuel t (length l) off) (enc_all (enc_method strings) l) (place off l).
Proof using Ht.
  induction l as [|x l IH]; intros off H; cbn [length readMethods place]; [apply reads_ret|]. apply Forall_cons in H as [Hx Hl].
  unfold enc_all. cbn [map concat]. eapply reads_bind; [by apply reads_method|]. cbv beta iota.
  specialize (IH (s32 (off + numberOfCodeBytes x)) Hl). destruct (place (s32 (off + numberOfCodeBytes x)) l) as [l' e].
  by eapply reads_final.
Qed.

(** ** Classes *)

Definition field_ok (f : FieldDesc) : Prop :=
  Forall (fun s => s ∈ strings) [fieldName f; fieldType f] /\ sbyte_ok (fieldOffset f).
Definition ventry_ok (e : cstring * cstring * cstring) : Prop :=
  Forall (fun s => s ∈ strings) [e.1.1; e.1.2; e.2].
Definition class_ok (k : class_file) : Prop :=
  let c := cf k in
  (Forall (fun s => s ∈ strings) [c_nm c; cf_super k] /\ char_at (c_nm c) 0 <> c_bracket) /\
  (Forall (fun s => s ∈ strings) (ifname c) /\ small (ifname c)) /\
  Forall int_ok [instanceSize c; staticFieldsSize c; cf_bytecodes k; cf_skip k; cf_vskip k] /\
  (Forall sbyte_ok (objmap c) /\ small (objmap c)) /\ (Forall sbyte_ok (staticsMap c) /\ small (staticsMap c)) /\
  (Forall field_ok (fields c) /\ small (fields c)) /\ (Forall ventry_ok (vtableSym c) /\ small (vtableSym c)) /\
  (Forall method_ok (methods c) /\ small (methods c)).

(** the descriptor the loader makes of a class, and the new sums *)
Definition loaded_class (lib super : Z) (c : sums) (k : class_file) : ClassDesc :=
  let x := cf k in
  MkClass (if classType x =? CLASSTYPE_INTERFACE then CLASSTYPE_INTERFACE else CLASSTYPE_CLASS) (c_nm x) super (ifname x) []
    (instanceSize x) (objmap x) (fields x) (staticFieldsSize x) (sfields_offset c) (staticsMap x) (vtableSym x)
    (fst (place (completeCodeBytes c) (methods x))) lib NULL NULL.
Definition next_sums (c : sums) (k : class_file) : sums :=
  let x := cf k in
  MkSums (snd (place (completeCodeBytes c) (methods x))) (s32 (completeVtableSize c + Z.of_nat (length (vtableSym x))))
    (s32 (completeBytecodeSize c + cf_bytecodes k)) (s32 (sfields_offset c + staticFieldsSize x)).

Lemma reads_field f : field_ok f -> reads (readField m fuel t) (enc_field strings f) f.
Proof using Ht.
  intros [H Ho]. rewrite !Forall_cons in H. destruct H as (? & ? & _). destruct f as [n y o]. simpl in *.
  do 2 (eapply reads_bind; [by apply (reads_id strings t)|]). eapply reads_final; [apply reads_int; unfold int_ok, sbyte_ok in *; simpl; lia|].
  cbn. unfold s8. by rewrite (swrap_small 8 o ltac:(lia) Ho).
Qed.
Lemma reads_ventry skip e : int_ok skip -> ventry_ok e -> reads (readVTableEntry m fuel t) (enc_ventry strings skip e) e.
Proof using Ht.
  intros Hs H. destruct e as [[c n] y]. unfold ventry_ok in H. rewrite !Forall_cons in H. destruct H as (? & ? & ? & _).
  do 3 (eapply reads_bind; [by apply (reads_id strings t)|]). by eapply reads_final; [apply reads_int|].
Qed.
Lemma reads_map l rest {Y} (k : list Z -> reader A Y) y :
  Forall sbyte_ok l -> small l -> reads (k l) rest y -> reads (rseq (readMap m) k) (enc_map l ++ rest) y.
Proof using.
  intros Hb Hl Hk. eapply reads_bind; [|exact Hk]. unfold readMap, enc_map. apply reads_count; [done|].
  apply reads_quiet; [apply (quiet_table l _ 1); [done|lia|]|rewrite Nat2Z.id; by apply reads_list_bytes].
  intros d a. unfold malloc_objectmap. do 2 f_equal. lia.
Qed.

(** a count, the table for it, something in between, and the entries *)
Lemma reads_ids l : Forall (fun s => s ∈ strings) l ->
  reads (repeat_r (Z.to_nat (Z.of_nat (length l))) (readStringID m fuel t)) (enc_all (enc_id strings) l) l.
Proof using Ht. intros H. eapply reads_all; [exact H|]. intros x Hx. by apply reads_id. Qed.

Context (java_lang_Object lib : Z).

Lemma reads_class super c k :
  class_ok k ->
  (forall p s, keeps s0 s -> resolve_super java_lang_Object lib (cf_super k) (p, s) = Ok (super, (p, s))) ->
  reads (readClass m fuel java_lang_Object t lib c) (enc_class strings k) (loaded_class lib super c k, next_sums c k).
Proof using Ht.
  intros ([H1 _] & [H2 H2'] & H3 & [H4 H4'] & [H5 H5'] & [H6 H6'] & [H7 H7'] & [H8 H8']) Hsup.
  rewrite !Forall_cons in H1. rewrite !Forall_cons in H3. destruct H1 as (? & ? & _), H3 as (? & ? & ? & ? & ? & _).
  unfold readClass, enc_class. do 2 (eapply reads_bind; [by apply (reads_id strings t)|]).
  eapply (reads_silent (resolve_super java_lang_Object lib (cf_super k)) _ _ super); [|].
  { intros p s _ Hs Hk. rewrite Hsup by done. split_and!; [done|simpl; lia|done|apply keeps_refl..]. }
  eapply reads_bind; [apply reads_int; unfold int_ok; case_match; lia|]. apply reads_count; [done|].
  apply reads_quiet; [apply (quiet_table (ifname (cf k)) _ 4); [done|lia|intros; unfold malloc_classdesctable, sz_ptr; do 2 f_equal; lia]|].
  apply reads_quiet; [apply quiet_if; [apply quiet_tmp|apply quiet_ret]|].
  eapply reads_bind; [by apply reads_ids|]. apply reads_count; [done|].
  apply reads_quiet; [apply (quiet_table (methods (cf k)) _ 96); [done|lia|done]|].
  eapply reads_bind; [by apply reads_int|]. apply reads_map; [done|done|]. apply reads_count; [done|].
  apply reads_quiet; [apply (quiet_table (fields (cf k)) _ 12); [done|lia|done]|].
  eapply reads_bind; [eapply reads_all; [exact H6|apply reads_field]|].
  eapply reads_bind; [by apply reads_int|]. apply reads_map; [done|done|].
  do 2 (eapply reads_bind; [by apply reads_int|]). apply reads_count; [done|].
  apply reads_quiet.
  { apply quiet_alloc_if. intros _ d a. eexists. split; [done|]. unfold small, sz_ptr in *.
    replace (Z.of_nat (length (vtableSym (cf k))) * 3 * 4) with (12 * Z.of_nat (length (vtableSym (cf k)))) by lia.
    destruct (size_ok (Z.of_nat (length (vtableSym (cf k)))) 12) as [-> ?]; lia. }
  eapply reads_bind; [eapply reads_all; [exact H7|intros; by apply reads_ventry]|]. rewrite Nat2Z.id.
  eapply reads_final; [by apply reads_methods|]. unfold loaded_class, next_sums.
  destruct (place _ _) as [ms e]. by destruct (classType (cf k) =? CLASSTYPE_INTERFACE).
Qed.
End Contents.
End Reads.

(** ** All classes of a library *)

Section AllClasses.
Context {A : Type} `{!Allocator A} (m : memory) (fuel : nat) (strings : list cstring) (t : list Z).
Context (Ht : table_ok m fuel strings t) (java_lang_Object lib : Z).

(** [sup] is the class called [name] *)
Definition super_ok (s : loader A) (name : cstring) (sup : Z) : Prop :=
  if strcmp_eq name [] then sup = NULL
  else if strcmp_eq name name_Object then sup = java_lang_Object
  else sup <> NULL /\ name_of (ld_cs s) sup = Some name.
(** some class of that name is known to the library [L] or to another one *)
Definition known (s : loader A) (L : SharedLibDesc) (name : cstring) : Prop :=
  name = [] \/ name = name_Object \/
  exists c, c ∈ lib_classes L ++ all_lib_classes (ld_cs s) /\ name_of (ld_cs s) c = Some name.

Lemma first_named_exists (c : class_state A) name l a :
  (forall a, a ∈ l -> a <> NULL) -> a ∈ l -> name_of c a = Some name -> first_named c name l <> NULL.
Proof.
  intros Hnn Ha Hn. unfold first_named. destruct (list_find _ l) as [[i x]|] eqn:E; simpl.
  - apply list_find_Some in E as (E & _). apply Hnn. by eapply list_elem_of_lookup_2.
  - apply list_find_None in E. rewrite Forall_forall in E. by destruct (E a Ha).
Qed.
Lemma all_lib_classes_nonnull (c : class_state A) a :
  libs_ok java_lang_Object c -> a ∈ all_lib_classes c -> a <> NULL.
Proof.
  intros Hok Ha. apply list_elem_of_In, in_concat in Ha as (l & Hl & Hin). apply in_map_iff in Hl as (lb & <- & _).
  destruct (slibs c !! lb) as [ld|] eqn:El; [|done]. apply list_elem_of_In in Hin. by apply (lo_class _ c Hok lb ld a El).
Qed.

(** the class the loader resolves the name to *)
Definition super_of (c : class_state A) (L : SharedLibDesc) (name : cstring) : Z :=
  if strcmp_eq name [] then NULL else if strcmp_eq name name_Object then java_lang_Object else
  let a := first_named c name (lib_classes L) in
  if a =? NULL then first_named c name (all_lib_classes c) else a.

Lemma super_of_keeps s s' L name : keeps s s' -> super_of (ld_cs s') L name = super_of (ld_cs s) L name.
Proof. intros (E1 & E2 & E3 & _). unfold super_of, first_named, all_lib_classes, name_of. by rewrite E1, E2, E3. Qed.

Lemma super_of_ok s L name :
  libs_ok java_lang_Object (ld_cs s) -> slibs (ld_cs s) !! lib = Some L -> known s L name ->
  super_ok s name (super_of (ld_cs s) L name).
Proof.
  intros Hok HL Hk. unfold super_of, super_ok. destruct (strcmp_eq name []) eqn:E1; [done|].
  destruct (strcmp_eq name name_Object) eqn:E2; [done|]. apply bool_decide_eq_false in E1, E2.
  set (a := first_named (ld_cs s) name (lib_classes L)). destruct (Z.eqb_spec a NULL) as [Ea|Ea]; [|split; [done|by eapply first_named_some]].
  assert (first_named (ld_cs s) name (all_lib_classes (ld_cs s)) <> NULL) as Hb; [|split; [done|by eapply first_named_some]].
  destruct Hk as [|[|(c & [Hc|Hc]%elem_of_app & Hn)]]; [done|done| |].
  - exfalso. revert Ea. eapply first_named_exists; [|exact Hc|exact Hn]. intros x Hx. by apply (lo_class _ _ Hok lib L x HL).
  - eapply first_named_exists; [|exact Hc|exact Hn]. intros x Hx. by apply all_lib_classes_nonnull with (ld_cs s).
Qed.

Lemma resolve_super_eq s L name p :
  libs_ok java_lang_Object (ld_cs s) -> slibs (ld_cs s) !! lib = Some L -> super_ok s name (super_of (ld_cs s) L name) ->
  resolve_super java_lang_Object lib name (p, s) = Ok (super_of (ld_cs s) L name, (p, s)).
Proof.
  intros Hok HL Hs. destruct (lo_object _ _ Hok) as (d & _ & _ & _ & Ho). apply Z.eqb_neq in Ho.
  unfold resolve_super, super_of, super_ok in *. destruct (strcmp_eq name []) eqn:E1; [done|].
  destruct (strcmp_eq name name_Object) eqn:E2; [repeat (cbn [rbind]; rewrite Ho); done|]. apply bool_decide_eq_false in E1, E2.
  rewrite (findClassDescInSharedLib_ref _ _ _ L) by done. rewrite (findClassDesc_ref _ _ _ Hok), bool_decide_false by done.
  cbn [rbind]. change (NULL =? NULL) with true. cbn [rbind]. destruct Hs as [Hs _]. apply Z.eqb_neq in Hs.
  destruct (first_named (ld_cs s) name (lib_classes L) =? NULL) eqn:Ea; cbn [rbind]; [by rewrite Hs|]. repeat (rewrite ?Ea; cbn [rbind]); by rewrite ?Ea.
Qed.

Lemma libs_ok_keeps (s s' : loader A) : keeps s s' -> libs_ok java_lang_Object (ld_cs s) -> libs_ok java_lang_Object (ld_cs s').
Proof. intros (E1 & E2 & E3 & _) [H1 H2 H3]. split; rewrite ?E1, ?E2, ?E3; done. Qed.
Lemma known_keeps (s s' : loader A) L name : keeps s s' -> known s L name -> known s' L name.
Proof. intros (E1 & E2 & E3 & _). unfold known, all_lib_classes, name_of. by rewrite E1, E2, E3. Qed.

Lemma lib_add_classes cd L :
  0 <= numberOfClasses L -> lib_classes (lib_add cd L) = lib_classes L ++ [class_at L (numberOfClasses L)].
Proof.
  intros Hn. unfold lib_classes. cbn [lib_add numberOfClasses]. rewrite Z2Nat.inj_add by lia. change (Z.to_nat 1) with 1%nat.
  rewrite seq_app, map_app. simpl. by rewrite Z2Nat.id.
Qed.

Section AddClass.
Context (s : loader A) (L : SharedLibDesc) (cd : ClassDesc).
Context (Hok : libs_ok java_lang_Object (ld_cs s)) (HL : slibs (ld_cs s) !! lib = Some L) (Hn : 0 <= numberOfClasses L).
Let a : Z := class_at L (numberOfClasses L).
Context (Hfresh : classdescs (ld_cs s) !! a = None) (Hnn : a <> NULL).
Context (Hc : char_at (c_nm cd) 0 <> c_bracket) (Ht' : classType cd <> CLASSTYPE_PRIMITIVE).
Let s' : loader A := add_class lib cd s.

Lemma add_class_lookups :
  classdescs (ld_cs s') = <[a := cd]> (classdescs (ld_cs s)) /\ slibs (ld_cs s') = <[lib := lib_add cd L]> (slibs (ld_cs s)) /\
  sharedLibs (ld_cs s') = sharedLibs (ld_cs s) /\ sharedArrayClasses (ld_cs s') = sharedArrayClasses (ld_cs s) /\
  dz_code (ld_cs s') = dz_code (ld_cs s) /\ cs_alloc (ld_cs s') = cs_alloc (ld_cs s) /\
  ld_vmindex s' = ld_vmindex s /\ sharedLibsIndexNumber s' = sharedLibsIndexNumber s /\ sharedLibID s' = sharedLibID s.
Proof using HL. subst s' a. unfold add_class. rewrite HL. done. Qed.

Lemma add_class_sub : classdescs (ld_cs s) ⊆ classdescs (ld_cs s').
Proof using HL Hfresh. destruct add_class_lookups as (-> & _). by apply insert_subseteq. Qed.

Lemma libs_ok_add : libs_ok java_lang_Object (ld_cs s').
Proof using Hok HL Hn Hfresh Hnn Hc Ht'.
  pose proof add_class_sub as Hsub. destruct add_class_lookups as (E1 & E2 & E3 & _). destruct Hok as [H1 H2 H3]. split.
  - rewrite E3, E2. intros lb Hlb. destruct (decide (lb = lib)) as [->|]; [rewrite lookup_insert_eq; eauto|].
    rewrite lookup_insert_ne by done. by apply H1.
  - intros lb l c Hl Hin. rewrite E2 in Hl. destruct (decide (lb = lib)) as [->|Hne].
    + rewrite lookup_insert_eq in Hl. injection Hl as <-. rewrite lib_add_classes in Hin by done.
      apply elem_of_app in Hin as [Hin| ->%list_elem_of_singleton].
      * destruct (H2 lib L c HL Hin) as (Hcn & d & Hd & Hk & Hb & Hp). split; [done|]. exists d.
        split; [by eapply lookup_weaken|]. split; [|done]. by apply testHashKey_keeps.
      * split; [done|]. exists cd. rewrite E1, lookup_insert_eq. split_and!; [done|apply testHashKey_added|done|done].
    + rewrite lookup_insert_ne in Hl by done. destruct (H2 lb l c Hl Hin) as (Hcn & d & Hd & ?). split; [done|].
      exists d. split; [by eapply lookup_weaken|done].
  - destruct H3 as (d & Hd & ?). exists d. split; [by eapply lookup_weaken|done].
Qed.

(** names known before, and the new one *)
Lemma known_add name : known s L name \/ name = c_nm cd -> known s' (lib_add cd L) name.
Proof using Hok HL Hn Hfresh Hnn.
  pose proof add_class_sub as Hsub. destruct add_class_lookups as (E1 & E2 & E3 & _). unfold known. rewrite lib_add_classes by done.
  intros [[|[|(c & Hin & Hname)]]| ->]; [by left|by right; left| |]; right; right.
  - exists c. split.
    + apply elem_of_app in Hin as [Hin|Hin]; apply elem_of_app; [left; apply elem_of_app; by left|].
      apply list_elem_of_In, in_concat in Hin as (l & Hl & Hin). apply in_map_iff in Hl as (lb & <- & Hlb).
      destruct (decide (lb = lib)) as [->|Hne].
      * left. apply elem_of_app. left. rewrite HL in Hin. by apply list_elem_of_In.
      * right. apply list_elem_of_In, in_concat. exists (match slibs (ld_cs s) !! lb with Some l => lib_classes l | None => [] end).
        split; [|done]. apply in_map_iff. exists lb. rewrite E3, E2, lookup_insert_ne by done. done.
    + unfold name_of in *. destruct (classdescs (ld_cs s) !! c) as [d|] eqn:Ed; [|done]. by rewrite (lookup_weaken _ _ _ _ Ed Hsub).
  - exists a. split; [apply elem_of_app; left; apply elem_of_app; right; apply list_elem_of_here|].
    unfold name_of. by rewrite E1, lookup_insert_eq.
Qed.
End AddClass.

(** only descriptors, this library and memory changed *)
Definition grown (s s' : loader A) : Prop :=
  classdescs (ld_cs s) ⊆ classdescs (ld_cs s') /\
  (forall l, l <> lib -> slibs (ld_cs s') !! l = slibs (ld_cs s) !! l) /\
  sharedLibs (ld_cs s') = sharedLibs (ld_cs s) /\ sharedArrayClasses (ld_cs s') = sharedArrayClasses (ld_cs s) /\
  ld_vmindex s' = ld_vmindex s /\ sharedLibsIndexNumber s' = sharedLibsIndexNumber s /\ sharedLibID s' = sharedLibID s /\
  mem_grows s s'.
Lemma grown_trans s1 s2 s3 : grown s1 s2 -> grown s2 s3 -> grown s1 s3.
Proof.
  intros (A1 & A2 & A3 & A4 & A5 & A6 & A7 & A8) (B1 & B2 & B3 & B4 & B5 & B6 & B7 & B8).
  split_and!; try congruence; [by etransitivity| |].
  - intros l Hl. rewrite B2, A2; done.
  - by eapply mem_grows_trans.
Qed.
Lemma keeps_grown s s' : keeps s s' -> grown s s'.
Proof. intros (E1 & E2 & E3 & E4 & E5 & E6 & E7 & E8). split_and!; try done; [by rewrite E1|intros; by rewrite E2]. Qed.
Lemma super_ok_grown s s' name sup : grown s s' -> super_ok s name sup -> super_ok s' name sup.
Proof.
  intros (Hsub & _) H. unfold super_ok in *. destruct (strcmp_eq name []); [done|]. destruct (strcmp_eq name name_Object); [done|]. destruct H as [Hn H]. split; [done|].
  unfold name_of in *. destruct (classdescs (ld_cs s) !! sup) as [d|] eqn:E; [|done]. by rewrite (lookup_weaken _ _ _ _ E Hsub).
Qed.

(** the room for the classes that are still to be read *)
Definition room (s : loader A) (L : SharedLibDesc) (n : nat) : Prop :=
  0 <= numberOfClasses L /\
  forall j, numberOfClasses L <= j < numberOfClasses L + Z.of_nat n ->
    classdescs (ld_cs s) !! class_at L j = None /\ in_use (dz_code (ld_cs s)) (class_at L j) /\ class_at L j <> NULL.

Fixpoint all_known (s : loader A) (L : SharedLibDesc) (names : list cstring) (ks : list class_file) : Prop :=
  match ks with
  | [] => True
  | k :: ks => (known s L (cf_super k) \/ cf_super k ∈ names) /\ all_known s L (c_nm (cf k) :: names) ks
  end.

Lemma all_known_mono s L s' L' names names' ks :
  (forall x, known s L x \/ x ∈ names -> known s' L' x \/ x ∈ names') -> all_known s L names ks -> all_known s' L' names' ks.
Proof.
  revert names names'. induction ks as [|k ks IH]; intros names names' H Hk; [done|]. destruct Hk as [H1 H2].
  split; [by apply H|]. eapply IH; [|exact H2]. intros x [Hx|[->|Hx]%elem_of_cons].
  - destruct (H x (or_introl Hx)); [by left|right; by apply list_elem_of_further].
  - right. apply list_elem_of_here.
  - destruct (H x (or_intror Hx)); [by left|right; by apply list_elem_of_further].
Qed.

Lemma room_add s L cd n :
  room s L (S n) -> slibs (ld_cs s) !! lib = Some L -> room (add_class lib cd s) (lib_add cd L) n.
Proof.
  intros [Hn Hr] HL. destruct (add_class_lookups s L cd HL) as (E1 & _ & _ & _ & E5 & _). split; [simpl; lia|].
  intros j Hj. simpl in Hj. change (class_at (lib_add cd L) j) with (class_at L j). rewrite E1, E5.
  destruct (Hr j) as (H1 & H2 & H3); [lia|]. split_and!; [|done|done]. rewrite lookup_insert_ne; [done|].
  unfold class_at, sizeof_ClassDesc. lia.
Qed.
Lemma room_keeps s s' L n : keeps s s' -> room s L n -> room s' L n.
Proof.
  intros (E1 & _ & _ & _ & _ & _ & _ & [E8 _]) [Hn Hr]. split; [done|]. intros j Hj. rewrite E1. destruct (Hr j Hj) as (? & ? & ?). auto.
Qed.

Lemma readClasses_spec ks : forall c p s L,
  holds m p (enc_all (enc_class strings) ks) -> state_ok s -> libs_ok java_lang_Object (ld_cs s) ->
  slibs (ld_cs s) !! lib = Some L -> room s L (length ks) -> Forall (class_ok fuel strings) ks -> all_known s L [] ks ->
  match readClasses m fuel java_lang_Object t lib (length ks) c (p, s) with
  | Ok (c', (p', s')) =>
      c' = foldl next_sums c ks /\ p' = p + Z.of_nat (length (enc_all (enc_class strings) ks)) /\
      state_ok s' /\ libs_ok java_lang_Object (ld_cs s') /\ grown s s' /\
      slibs (ld_cs s') !! lib = Some (foldl (fun L k => lib_add (cf k) L) L ks) /\
      (forall i k, ks !! i = Some k -> exists sup, super_ok s' (cf_super k) sup /\
         classdescs (ld_cs s') !! class_at L (numberOfClasses L + Z.of_nat i) =
           Some (loaded_class lib sup (foldl next_sums c (take i ks)) k))
  | Err e => @alloc_error A _ e
  end.
Proof using Ht.
  induction ks as [|k ks IH]; intros c p s L Hh Hs Hok HL Hroom Hcs Hk.
  { cbn. split_and!; [done|lia|done|done|apply keeps_grown, keeps_refl|done|by intros i k ?]. }
  unfold enc_all in Hh. cbn [map concat] in Hh. apply holds_app in Hh as [Hh1 Hh2]. fold (enc_all (enc_class strings) ks) in Hh2.
  apply Forall_cons in Hcs as [Hc Hcs]. destruct Hk as [Hk1 Hk2].
  cbn [length readClasses]. unfold rseq at 1.
  assert (Hkn : known s L (cf_super k)) by (destruct Hk1 as [|?%not_elem_of_nil]; done).
  set (sup := super_of (ld_cs s) L (cf_super k)).
  assert (Hsup : super_ok s (cf_super k) sup) by (by apply super_of_ok).
  pose proof (reads_class m fuel s strings t Ht java_lang_Object lib sup c k Hc) as Hrd.
  specialize (Hrd (fun p' s' K => eq_trans
    (resolve_super_eq s' L (cf_super k) p' (libs_ok_keeps _ _ K Hok) (eq_trans (f_equal (lookup lib) (proj1 (proj2 K))) HL)
       (eq_ind_r (super_ok s' (cf_super k)) (super_ok_grown _ _ _ _ (keeps_grown _ _ K) Hsup) (super_of_keeps s s' L _ K)))
    (f_equal (fun x => Ok (x, (p', s'))) (super_of_keeps s s' L _ K))) p s Hh1 Hs (keeps_refl s)).
  destruct (readClass _ _ _ _ _ _ (p, s)) as [[x [p1 s1]]|e]; [|done]. destruct Hrd as (-> & -> & Hs1 & K1). cbn [rbind].
  set (cd := loaded_class lib sup c k) in *.
  assert (HL1 : slibs (ld_cs s1) !! lib = Some L) by (destruct K1 as (_ & -> & _); done).
  assert (Hok1 : libs_ok java_lang_Object (ld_cs s1)) by (by eapply libs_ok_keeps).
  pose proof (room_keeps _ _ _ _ K1 Hroom) as Hroom1. pose proof Hroom1 as [Hn Hr1].
  destruct (Hr1 (numberOfClasses L)) as (Hfresh & Huse & Hnn); [cbn [length]; lia|].
  assert (Hcd : char_at (c_nm cd) 0 <> c_bracket) by apply Hc.
  assert (Hty : classType cd <> CLASSTYPE_PRIMITIVE) by (unfold cd, loaded_class; cbn; by case_match).
  unfold rseq at 1. cbn [rbind]. set (s2 := add_class lib cd s1).
  destruct (add_class_lookups s1 L cd HL1) as (E1 & E2 & E3 & E4 & E5 & E6 & E7 & E8 & E9). fold s2 in E1, E2, E3, E4, E5, E6, E7, E8, E9.
  assert (G12 : grown s1 s2).
  { split_and!; try done; [by apply (add_class_sub s1 L cd)| |unfold mem_grows; by rewrite E5, E6]. intros l Hl. by rewrite E2, lookup_insert_ne. }
  assert (Hs2 : state_ok s2).
  { destruct Hs1 as [S1 S2 S3 S4 S5]. split; rewrite ?E5, ?E6, ?E1, ?E2; try done.
    - intros a d [[<- <-]|[_ Hd]]%lookup_insert_Some; [done|by eapply S4].
    - intros l d [[<- <-]|[_ Hd]]%lookup_insert_Some; [by eapply S5|by eapply S5]. }
  specialize (IH (next_sums c k) _ s2 (lib_add cd L) Hh2 Hs2).
  assert (HL2 : slibs (ld_cs s2) !! lib = Some (lib_add cd L)) by (by rewrite E2, lookup_insert_eq).
  assert (Hk3 : all_known s2 (lib_add cd L) [] ks).
  { eapply all_known_mono; [|exact Hk2]. intros x Hx. left. apply (known_add s1 L cd Hok1 HL1 Hn Hfresh Hnn).
    destruct Hx as [Hx|Hx]; [left; by eapply known_keeps|right; by apply list_elem_of_singleton in Hx]. }
  specialize (IH (libs_ok_add s1 L cd Hok1 HL1 Hn Hfresh Hnn Hcd Hty) HL2 (room_add s1 L cd _ Hroom1 HL1) Hcs Hk3).
  destruct (readClasses _ _ _ _ _ _ _ _) as [[c' [p' s']]|e]; [|done].
  destruct IH as (-> & -> & Hs' & Hok' & G2 & HL' & Hcl).
  assert (G : grown s1 s') by (by eapply grown_trans).
  split_and!.
  - done.
  - unfold enc_all. cbn [map concat]. rewrite length_app. fold (enc_all (enc_class strings) ks). lia.
  - done.
  - done.
  - eapply grown_trans; [by apply keeps_grown|done].
  - done.
  - intros [|i] k' Hi; cbn [lookup] in Hi.
    + injection Hi as <-. exists sup. split; [eapply super_ok_grown; [|exact Hsup]; eapply grown_trans; [by apply keeps_grown|done]|].
      rewrite Z.add_0_r. cbn [take foldl]. eapply lookup_weaken; [|apply G2]. rewrite E1. apply lookup_insert_eq.
    + destruct (Hcl i k' Hi) as (sup' & H1 & H2). exists sup'. split; [done|].
      change (class_at (lib_add cd L) (numberOfClasses (lib_add cd L) + Z.of_nat i))
        with (class_at L (numberOfClasses L + 1 + Z.of_nat i)) in H2.
      replace (numberOfClasses L + Z.of_nat (S i)) with (numberOfClasses L + 1 + Z.of_nat i) by lia. exact H2.
Qed.
End AllClasses.
