(* ===== verification/CodeLoad.v ===== *)
(** * Loading a library reads back what was written (core/load.c)

    The image of a library in the format of [CodeFormat], with its checksum,
    and the theorem that [CodeFile.loadSharedLibrary] recovers every part of
    it: the decoder inverts the encoder. *)

From S2P Require Import Prelude Mem CString Malloc Alloc CodeMem Zip BootFS Classes CodeFile CodeFormat.
#[local] Open Scope Z_scope.
#[local] Open Scope reader_scope.

(** ** The string table *)

Section StringTable.
Context {A : Type} `{!Allocator A} (m : memory) (fuel : nat).

Lemma length_enc_strs x l : Z.of_nat (length (enc_all enc_str (x :: l))) = Z.of_nat (length x) + 1 + Z.of_nat (length (enc_all enc_str l)).
Proof. unfold enc_all, enc_str. cbn [map concat]. rewrite !length_app. simpl. lia. Qed.

Lemma skip_string x : forall n q e,
  cstr m q x -> q + Z.of_nat (length x) < e -> (length x < n)%nat ->
  loop n (fun q => if (q <? e) && negb (load8 m q =? 0) then Ok (inl (q + 1)) else Ok (inr q)) q = Ok (q + Z.of_nat (length x)).
Proof.
  induction x as [|c x IH]; intros [|n] q e Hx He Hn; cbn [length] in *; [lia| |lia|]; cbn [loop].
  - apply cstr_nil in Hx. rewrite Hx, andb_false_r. f_equal. lia.
  - apply cstr_cons in Hx as (Hc & Hr & Hx). rewrite Hc, (proj2 (Z.ltb_lt _ _)), (proj2 (Z.eqb_neq c 0)) by lia. cbn [andb negb].
    rewrite IH by (done || lia). f_equal. lia.
Qed.

Lemma scan_strings_spec l : forall n p,
  holds m p (enc_all enc_str l) -> Forall nonzero_bytes l -> (length (enc_all enc_str l) < n)%nat ->
  exists t, scan_strings m n p (p + Z.of_nat (length (enc_all enc_str l))) = Ok t /\ length t = length l /\
    forall i x, l !! i = Some x -> exists a, t !! i = Some a /\ cstr m a x.
Proof.
  induction l as [|x l IH]; intros [|n] p Hh Hz Hn; [lia| |lia|]; cbn [scan_strings].
  - exists []. rewrite (proj2 (Z.ltb_ge _ _)) by (simpl; lia). by split_and!.
  - pose proof (length_enc_strs x l) as Hl. apply Forall_cons in Hz as [Hx Hz].
    unfold enc_all in Hh. cbn [map concat] in Hh. apply holds_app in Hh as [Hh1 Hh2]. fold (enc_all enc_str l) in Hh2.
    rewrite (proj2 (Z.ltb_lt _ _)) by lia.
    assert (cstr m p x) as Hc by done. rewrite (skip_string x) by (done || lia). cbn [rbind].
    destruct (IH n (p + Z.of_nat (length x) + 1)) as (t & Et & Hlt & Ht).
    { unfold enc_str in Hh2. rewrite length_app in Hh2. simpl in Hh2. replace (p + Z.of_nat (length x) + 1) with (p + Z.of_nat (length x + 1)) by lia. done. }
    { done. } { lia. }
    replace (p + Z.of_nat (length (enc_all enc_str (x :: l)))) with (p + Z.of_nat (length x) + 1 + Z.of_nat (length (enc_all enc_str l))) by lia.
    rewrite Et. cbn [rbind]. exists (p :: t). split_and!; [done|simpl; lia|]. intros [|i] y Hi; [injection Hi as <-; by exists p|by apply Ht].
Qed.

Definition enc_table (l : list cstring) : list Z := enc_int (Z.of_nat (length (enc_all enc_str l))) ++ enc_all enc_str l.

Lemma code_ok_alloc d (a a' : A) n x :
  al_ok a -> 0 < n -> n + 1023 < 4294967296 -> al_alloc n a = Ok (x, a') -> code_ok d a -> never_null d a ->
  al_ok a' /\ code_ok d a' /\ never_null d a' /\ (forall y, foreign d a y -> foreign d a' y).
Proof.
  intros Ha Hn Hn2 E [H1 H2 H3 H4 H5] [N1 N2]. apply al_alloc_spec in E as (Hok & _ & _ & _ & _ & Hown & Hg); try done.
  split_and!; [done| |split; [apply Hown; by left|done]|intros y [Hy Hf]; split; [apply Hown; by left|done]]. split; try done.
  intros c Hc. destruct (H4 c Hc) as (G & ?). split; [by apply Hg|done].
Qed.

Lemma readStringTable_spec strings p s :
  holds m p (enc_table strings) -> state_ok s -> Forall (str_ok fuel) strings -> small strings ->
  int_ok (Z.of_nat (length (enc_all enc_str strings))) ->
  match readStringTable m (p, s) with
  | Ok (t, (p', s')) => table_ok m fuel strings t /\ p' = p + Z.of_nat (length (enc_table strings)) /\ state_ok s' /\ keeps s s'
  | Err e => @alloc_error A _ e
  end.
Proof.
  intros [Hh1 Hh2]%holds_app Hs Hstr Hsm Hint. unfold readStringTable, rseq, readInt. rewrite (load_enc_int m p _ Hint Hh1). cbn [rbind].
  assert (Hlen : length (enc_table strings) = (4 + length (enc_all enc_str strings))%nat) by done.
  destruct (Z.eqb_spec (Z.of_nat (length (enc_all enc_str strings))) 0) as [E|E].
  { destruct strings as [|x l]; [|rewrite length_enc_strs in E; lia]. cbn. split_and!; [|lia|done|apply keeps_refl..].
    split_and!; [done|done|]. by intros i x ?. }
  destruct (scan_strings_spec strings (S (Z.to_nat (Z.of_nat (length (enc_all enc_str strings))))) (p + 4)) as (t & Et & Hlt & Ht).
  { done. } { eapply Forall_impl; [exact Hstr|]. by intros x []. } { lia. }
  rewrite Et. cbn [rbind]. destruct strings as [|x0 l0]; [done|].
  unfold small, cstring in *. cbn [length] in *. rewrite u32_small by lia.
  destruct (al_alloc _ _) as [[x a]|e] eqn:Ea; cbn [rbind]; [|right; left; eauto].
  destruct Hs as [S1 S2 S3 S4 S5]. apply (code_ok_alloc (dz_code (ld_cs s))) in Ea as (? & ? & ? & ?); try done; [|lia..].
  split_and!; try done; [|lia].
  split_and!; [done|done|]. intros i y Hi. destruct (Ht i y Hi) as (b & Hb & Hc). exists b. split_and!; [done|done|].
  apply (Forall_lookup_1 _ _ _ _ Hstr Hi).
Qed.
End StringTable.

(** ** Run-time support symbols *)

(** entry [j] of [vmsupport] is renamed to the [j]-th symbol of the file *)
Fixpoint install (names : list cstring) (j : nat) (syms : list cstring) (v : list Z) : list Z :=
  match syms with
  | [] => v
  | x :: syms => install names (S j) syms (<[j := default 0 (index_of names x 0)]> v)
  end.

Section Symbols.
Context {A : Type} `{!Allocator A} (m : memory) (fuel : nat).

Lemma readVMSymbols_spec names syms : forall j p (s : loader A),
  holds m p (enc_all enc_str syms) -> Forall (str_ok fuel) syms -> (j + length syms <= length names)%nat ->
  readVMSymbols m fuel names (length syms) j (p, s) =
  Ok (tt, (p + Z.of_nat (length (enc_all enc_str syms)), set_vmindex (install names j syms (ld_vmindex s)) s)).
Proof.
  induction syms as [|x l IH]; intros j p s Hh Hs Hj; cbn [length readVMSymbols install].
  - unfold rret, enc_all. simpl. rewrite Z.add_0_r. by destruct s.
  - pose proof (length_enc_strs x l) as Hl. apply Forall_cons in Hs as [[Hx Hf] Hs].
    unfold enc_all in Hh. cbn [map concat] in Hh. apply holds_app in Hh as [Hh1 Hh2]. fold (enc_all enc_str l) in Hh2.
    cbn [length] in Hj. unfold rseq at 1, readString. rewrite (cstring_at_spec m x) by done. cbn [rbind].
    rewrite (proj2 (Nat.eqb_neq j (length names))) by lia. unfold rseq at 1. cbn [rbind]. rewrite IH; [|clear IH|done|lia].
    + rewrite Hl. do 3 f_equal. lia.
    + unfold enc_str in Hh2. rewrite length_app in Hh2. cbn [length] in Hh2.
      replace (p + Z.of_nat (length x) + 1) with (p + Z.of_nat (length x + 1)) by lia. done.
Qed.
End Symbols.

(** ** The image *)

Record lib_file := MkLibFile {
  lf_option : Z;
  lf_processor : cstring;
  lf_needed : list cstring;
  lf_meta : list (cstring * cstring);
  lf_strings : list cstring;
  lf_vmsyms : list cstring;
  lf_classes : list class_file;
  lf_code : list Z;
}.

Definition enc_meta (x : cstring * cstring) : list Z := enc_str x.1 ++ enc_str x.2.
(** from the meta data to the last class *)
Definition enc_library (f : lib_file) : list Z :=
  enc_count (lf_meta f) ++ enc_all enc_meta (lf_meta f) ++ enc_table (lf_strings f) ++
  enc_count (lf_vmsyms f) ++ enc_all enc_str (lf_vmsyms f) ++
  enc_count (lf_classes f) ++ enc_all (enc_class (lf_strings f)) (lf_classes f).
Definition enc_header (f : lib_file) : list Z := enc_int CURRENT_COMPILER_VERSION ++ enc_str (lf_processor f).
Definition enc_needed (f : lib_file) : list Z :=
  enc_int (lf_option f) ++ enc_count (lf_needed f) ++ enc_all enc_str (lf_needed f).
Definition body (f : lib_file) : list Z := enc_header f ++ enc_needed f ++ enc_library f ++ lf_code f.
Definition encode (f : lib_file) : list Z := body f ++ enc_int (xor_bytes (body f)).

Definition zero_sums : sums := MkSums 0 0 0 0.
Definition total_sums (f : lib_file) : sums := foldl next_sums zero_sums (lf_classes f).

(** What the format can represent, for a kernel whose run-time support has
    the names [vmsupport_names]; strings fit the fuel. *)
Record lib_file_ok (fuel : nat) (f : lib_file) : Prop := {
  fo_option : int_ok (lf_option f);
  fo_processor : str_ok fuel (lf_processor f);
  fo_needed : Forall (str_ok fuel) (lf_needed f) /\ small (lf_needed f);
  fo_meta : Forall (fun x => str_ok fuel x.1 /\ str_ok fuel x.2) (lf_meta f) /\ small (lf_meta f);
  fo_strings : Forall (str_ok fuel) (lf_strings f) /\ small (lf_strings f);
  fo_vmsyms : Forall (str_ok fuel) (lf_vmsyms f) /\ (length (lf_vmsyms f) <= length vmsupport_names)%nat;
  fo_classes : Forall (class_ok fuel (lf_strings f)) (lf_classes f) /\ small (lf_classes f);
  fo_code : Forall (fun b => 0 <= b < 256) (lf_code f) /\ completeCodeBytes (total_sums f) = Z.of_nat (length (lf_code f));
  fo_bytes : Forall (fun b => 0 <= b < 256) (body f) /\ Z.of_nat (length (body f)) < 1000000000;
}.

Section Library.
Context {A : Type} `{!Allocator A} (m : memory) (fuel : nat) (java_lang_Object lib : Z).

Lemma state_ok_set_lib l (g : SharedLibDesc -> SharedLibDesc) (s : loader A) : state_ok s -> state_ok (set_lib l g s).
Proof.
  intros [? ? ? ? H]. split; try done. intros k d Hk. cbn in Hk. apply lookup_alter_Some in Hk as [(-> & d' & Hd & _)|[_ Hk]]; by eapply H.
Qed.
Lemma state_ok_set_vmindex v (s : loader A) : state_ok s -> state_ok (set_vmindex v s).
Proof. by intros [? ? ? ? ?]. Qed.

(** Changing fields that the lookup does not read. *)
Lemma all_lib_classes_set_lib g (s : loader A) L :
  slibs (ld_cs s) !! lib = Some L -> lib_classes (g L) = lib_classes L ->
  all_lib_classes (ld_cs (set_lib lib g s)) = all_lib_classes (ld_cs s).
Proof.
  intros HL Hg. unfold all_lib_classes. f_equal. cbn. apply map_ext. intros l.
  destruct (decide (l = lib)) as [->|]; [by rewrite lookup_alter_eq, HL|by rewrite lookup_alter_ne].
Qed.
Lemma libs_ok_set_lib g (s : loader A) L :
  slibs (ld_cs s) !! lib = Some L -> lib_classes (g L) = lib_classes L -> key (g L) = key L ->
  libs_ok java_lang_Object (ld_cs s) -> libs_ok java_lang_Object (ld_cs (set_lib lib g s)).
Proof.
  intros HL Hg Hk [H1 H2 H3]. split; [| |done].
  - intros l Hl. cbn. destruct (decide (l = lib)) as [->|]; [rewrite lookup_alter_eq, HL; eauto|rewrite lookup_alter_ne by done; by apply H1].
  - intros l d c Hl Hc. cbn in Hl. destruct (decide (l = lib)) as [->|]; [|rewrite lookup_alter_ne in Hl by done; by eapply H2].
    rewrite lookup_alter_eq, HL in Hl. injection Hl as <-. rewrite Hg in Hc. rewrite Hk. by eapply H2.
Qed.
Lemma known_set_lib g (s : loader A) L L' name :
  slibs (ld_cs s) !! lib = Some L -> lib_classes (g L) = lib_classes L -> lib_classes L' = lib_classes L ->
  known s L name -> known (set_lib lib g s) L' name.
Proof. intros HL Hg HL' H. unfold known in *. rewrite (all_lib_classes_set_lib g s L HL Hg), HL'. done. Qed.

(** Unchanged but for descriptors, this library, memory and the symbol table. *)
Definition later (s s' : loader A) : Prop :=
  classdescs (ld_cs s) ⊆ classdescs (ld_cs s') /\
  (forall l, l <> lib -> slibs (ld_cs s') !! l = slibs (ld_cs s) !! l) /\
  sharedLibs (ld_cs s') = sharedLibs (ld_cs s) /\ sharedArrayClasses (ld_cs s') = sharedArrayClasses (ld_cs s) /\
  sharedLibsIndexNumber s' = sharedLibsIndexNumber s /\ sharedLibID s' = sharedLibID s /\ mem_grows s s'.
Lemma later_trans s1 s2 s3 : later s1 s2 -> later s2 s3 -> later s1 s3.
Proof.
  intros (A1 & A2 & A3 & A4 & A6 & A7 & A8) (B1 & B2 & B3 & B4 & B6 & B7 & B8).
  split_and!; try congruence; [by etransitivity| |by eapply mem_grows_trans]. intros l Hl. rewrite B2, A2; done.
Qed.
Lemma grown_later s s' : grown lib s s' -> later s s'.
Proof. intros (? & ? & ? & ? & ? & ? & ? & ?). by split_and!. Qed.
Lemma keeps_later s s' : keeps s s' -> later s s'.
Proof. intros H. by apply grown_later, keeps_grown. Qed.
Lemma set_lib_later g s : later s (set_lib lib g s).
Proof. split_and!; try done. intros l Hl. cbn. by rewrite lookup_alter_ne. Qed.
Lemma set_vmindex_later v s : later s (set_vmindex v s).
Proof. by split_and!. Qed.

Lemma keeps_slib (s s' : loader A) l (L : SharedLibDesc) : keeps s s' -> slibs (ld_cs s) !! l = Some L -> slibs (ld_cs s') !! l = Some L.
Proof. by intros (_ & -> & _). Qed.

Lemma reads_meta s0 x : str_ok fuel x.1 -> str_ok fuel x.2 -> reads m s0 (readMeta m fuel) (enc_meta x) x.
Proof.
  intros. eapply reads_bind; [by apply reads_string|]. eapply reads_final; [by apply reads_string|]. by destruct x.
Qed.

(** a reader that only allocates, at the start of a sequence *)
Lemma run_reads {X Y} (r : reader A X) (k : X -> reader A Y) l x p s rest (Q : res (Y * (Z * loader A)) -> Prop) :
  (forall s0, reads m s0 r l x) -> holds m p (l ++ rest) -> state_ok s ->
  (forall s1, state_ok s1 -> keeps s s1 -> holds m (p + Z.of_nat (length l)) rest -> Q (k x (p + Z.of_nat (length l), s1))) ->
  (forall e, @alloc_error A _ e -> Q (Err e)) -> Q (rseq r k (p, s)).
Proof.
  intros Hr [H1 H2]%holds_app Hs HQ HE. unfold rseq. pose proof (Hr s p s H1 Hs (keeps_refl s)) as H.
  destruct (r (p, s)) as [[y [p1 s1]]|e]; [|by apply HE]. destruct H as (-> & -> & Hs1 & K). cbn [rbind]. by apply HQ.
Qed.
Lemma run_quiet {X Y} (r : reader A X) (k : reader A Y) p s (Q : res (Y * (Z * loader A)) -> Prop) :
  quiet r -> state_ok s -> (forall s1, state_ok s1 -> keeps s s1 -> Q (k (p, s1))) ->
  (forall e, @alloc_error A _ e -> Q (Err e)) -> Q (rseq r (fun _ => k) (p, s)).
Proof.
  intros Hr Hs HQ HE. unfold rseq. pose proof (Hr p s Hs) as H.
  destruct (r (p, s)) as [[y [p1 s1]]|e]; [|by apply HE]. destruct H as (-> & Hs1 & K). cbn [rbind]. by apply HQ.
Qed.

Lemma run_count {X Y} (l : list X) (k : Z -> reader A Y) p s rest (Q : res (Y * (Z * loader A)) -> Prop) :
  int_ok (Z.of_nat (length l)) -> holds m p (enc_count l ++ rest) -> state_ok s ->
  (forall s1, state_ok s1 -> keeps s s1 -> holds m (p + 4) rest -> Q (k (Z.of_nat (length l)) (p + 4, s1))) ->
  (forall e, @alloc_error A _ e -> Q (Err e)) -> Q (rseq (readInt m) k (p, s)).
Proof. intros Hl Hh Hs HQ HE. eapply (run_reads _ _ (enc_count l)); try done. intros s0. by apply reads_int. Qed.

(** the classes of the file after loading: the i-th descriptor of the library *)
Definition classes_loaded (s : loader A) (L : SharedLibDesc) (ks : list class_file) : Prop :=
  forall i k, ks !! i = Some k -> exists sup, super_ok java_lang_Object s (cf_super k) sup /\
    classdescs (ld_cs s) !! class_at L (Z.of_nat i) = Some (loaded_class lib sup (foldl next_sums zero_sums (take i ks)) k).
Definition add_classes (ks : list class_file) (L : SharedLibDesc) : SharedLibDesc := foldl (fun L k => lib_add (cf k) L) L ks.

Lemma readLibrary_spec f p s L :
  holds m p (enc_library f) -> lib_file_ok fuel f -> state_ok s -> libs_ok java_lang_Object (ld_cs s) ->
  slibs (ld_cs s) !! lib = Some L -> numberOfClasses L = 0 -> all_known s L [] (lf_classes f) ->
  match readLibrary java_lang_Object fuel m lib (p, s) with
  | Ok (c, (p', s')) =>
      c = total_sums f /\ p' = p + Z.of_nat (length (enc_library f)) /\ state_ok s' /\ libs_ok java_lang_Object (ld_cs s') /\
      later s s' /\ ld_vmindex s' = install vmsupport_names 0 (lf_vmsyms f) (ld_vmindex s) /\
      exists base, slibs (ld_cs s') !! lib = Some (add_classes (lf_classes f) (set_allClasses base (set_meta (lf_meta f) L))) /\
        classes_loaded s' (set_allClasses base L) (lf_classes f)
  | Err e => @alloc_error A _ e
  end.
Proof.
  intros Hh Hf Hs Hok HL Hn Hk. destruct Hf as [_ _ _ [M1 M2] [S1 S2] [V1 V2] [C1 C2] _ [_ Hb]].
  set (Q := fun r : res (sums * (Z * loader A)) => match r with
    | Ok (c, (p', s')) => c = total_sums f /\ p' = p + Z.of_nat (length (enc_library f)) /\ state_ok s' /\ libs_ok java_lang_Object (ld_cs s') /\
      later s s' /\ ld_vmindex s' = install vmsupport_names 0 (lf_vmsyms f) (ld_vmindex s) /\
      exists base, slibs (ld_cs s') !! lib = Some (add_classes (lf_classes f) (set_allClasses base (set_meta (lf_meta f) L))) /\
        classes_loaded s' (set_allClasses base L) (lf_classes f)
    | Err e => @alloc_error A _ e end).
  change (Q (readLibrary java_lang_Object fuel m lib (p, s))). assert (HE : forall e, @alloc_error A _ e -> Q (Err e)) by done.
  assert (Hz : lib_classes L = []) by (unfold lib_classes; by rewrite Hn).
  assert (Hcount : forall X (l : list X), small l -> int_ok (Z.of_nat (length l))) by (unfold small, int_ok; lia).
  assert (Hlen : forall l1 l2 : list Z, Z.of_nat (length (l1 ++ l2)) = Z.of_nat (length l1) + Z.of_nat (length l2)) by (intros; rewrite length_app; lia).
  assert (Hend : p + Z.of_nat (length (enc_library f)) = p + 4 + Z.of_nat (length (enc_all enc_meta (lf_meta f))) +
    Z.of_nat (length (enc_table (lf_strings f))) + 4 + Z.of_nat (length (enc_all enc_str (lf_vmsyms f))) + 4 +
    Z.of_nat (length (enc_all (enc_class (lf_strings f)) (lf_classes f)))).
  { unfold enc_library. rewrite !Hlen. unfold enc_count. rewrite !length_enc_int. lia. }
  unfold readLibrary. unfold enc_library in Hh.
  eapply (run_count (lf_meta f)); [by apply Hcount|exact Hh|done| |done]. intros s1 Hs1 K1 Hh1.
  apply run_quiet; [|done| |done].
  { apply quiet_alloc. intros d a. eexists. split; [done|]. unfold sizeof_meta_s, small in *.
    replace (Z.of_nat (length (lf_meta f)) * 8) with (8 * Z.of_nat (length (lf_meta f))) by lia.
    destruct (size_ok (Z.of_nat (length (lf_meta f))) 8) as [-> ?]; lia. }
  intros s2 Hs2 K2. eapply run_reads; [|exact Hh1|done| |done].
  { intros s0. eapply reads_all; [exact M1|]. intros x []. by apply reads_meta. }
  intros s3 Hs3 K3 Hh3. unfold rseq at 1. cbn [rbind].
  assert (K : keeps s s3) by (eapply keeps_trans; [|exact K3]; by eapply keeps_trans).
  (* meta data *)
  set (s4 := set_lib lib (set_meta (lf_meta f)) s3).
  assert (HL3 : slibs (ld_cs s3) !! lib = Some L) by (destruct K as (_ & -> & _); done).
  assert (Hs4 : state_ok s4) by (by apply state_ok_set_lib).
  assert (Hok3 : libs_ok java_lang_Object (ld_cs s3)) by (by eapply libs_ok_keeps).
  assert (Hok4 : libs_ok java_lang_Object (ld_cs s4)) by (by apply (libs_ok_set_lib _ _ L)).
  assert (HL4 : slibs (ld_cs s4) !! lib = Some (set_meta (lf_meta f) L)) by (cbn; by rewrite lookup_alter_eq, HL3).
  apply holds_app in Hh3 as [Hh4 Hh5].
  (* string table *)
  unfold rseq at 1. pose proof (readStringTable_spec m fuel (lf_strings f) _ s4 Hh4 Hs4 S1 S2) as Ht.
  specialize (Ht ltac:(pose proof (Hcount Z [] ltac:(done)); unfold int_ok; split; [lia|]; apply (Z.le_lt_trans _ (Z.of_nat (length (body f)))); [|lia];
    unfold body, enc_library, enc_table; rewrite !Hlen; lia)).
  destruct (readStringTable m _) as [[t [p5 s5]]|e]; [|by apply HE]. destruct Ht as (Ht & -> & Hs5 & K5). cbn [rbind].
  (* symbols *)
  eapply (run_count (lf_vmsyms f)); [unfold int_ok; cbn in V2; lia|exact Hh5|done| |done]. intros s6 Hs6 K6 [Hh6 Hh7]%holds_app.
  unfold rseq at 1. rewrite Nat2Z.id, (readVMSymbols_spec m fuel) by done. cbn [rbind].
  set (s7 := set_vmindex _ s6). assert (Hs7 : state_ok s7) by (by apply state_ok_set_vmindex).
  (* classes *)
  eapply (run_count (lf_classes f)); [by apply Hcount|exact Hh7|done| |done]. intros s8 Hs8 K8 Hh8.
  unfold rseq at 1.
  pose proof (alloc_block_total (fun d => malloc_classdescs sizeof_ClassDesc d (Z.of_nat (length (lf_classes f))))
    (124 * Z.of_nat (length (lf_classes f)))) as Hb9. specialize (Hb9 (p + 4 + Z.of_nat (length (enc_all enc_meta (lf_meta f))) +
    Z.of_nat (length (enc_table (lf_strings f))) + 4 + Z.of_nat (length (enc_all enc_str (lf_vmsyms f))) + 4) s8).
  unfold small in C2. destruct (size_ok (Z.of_nat (length (lf_classes f))) 124 ltac:(lia) ltac:(lia)) as [Hu Hsz].
  specialize (Hb9 ltac:(intros; unfold malloc_classdescs, sizeof_ClassDesc; by rewrite Hu) Hsz Hs8).
  destruct (alloc _ (_, s8)) as [[base [p9 s9]]|e]; [|by apply HE]. destruct Hb9 as (-> & Hs9 & K9 & Hpos & Hblk). cbn [rbind].
  unfold rseq at 1. cbn [rbind]. set (s10 := set_lib lib (set_allClasses base) s9).
  set (L10 := set_allClasses base (set_meta (lf_meta f) L)).
  assert (K47 : later s4 s7) by (eapply later_trans; [by eapply keeps_later|]; eapply later_trans; [by eapply keeps_later|apply set_vmindex_later]).
  assert (K46 : keeps s4 s6) by (by eapply keeps_trans). assert (K79 : keeps s7 s9) by (by eapply keeps_trans).
  assert (HL9 : slibs (ld_cs s9) !! lib = Some (set_meta (lf_meta f) L)).
  { apply (keeps_slib _ _ _ _ K79). exact (keeps_slib _ _ _ _ K46 HL4). }
  assert (Hok10 : libs_ok java_lang_Object (ld_cs s10)).
  { apply (libs_ok_set_lib _ _ (set_meta (lf_meta f) L)); [done|exact (eq_sym Hz)|done|].
    eapply libs_ok_keeps; [exact K79|]. by apply (libs_ok_keeps _ s4 s6). }
  assert (HL10 : slibs (ld_cs s10) !! lib = Some L10) by (cbn; by rewrite lookup_alter_eq, HL9).
  assert (Hcl10 : classdescs (ld_cs s10) = classdescs (ld_cs s8)) by exact (proj1 K9).
  assert (Hroom : room s10 L10 (length (lf_classes f))).
  { split; [done|]. cbn [L10 set_allClasses numberOfClasses]. intros j Hj. unfold class_at, L10, sizeof_ClassDesc. cbn [allClasses set_allClasses].
    destruct (Hblk (base + j * 124)) as [Hb1 Hb2]; [lia|]. split_and!; [|exact Hb2|unfold NULL; lia].
    rewrite Hcl10. destruct (classdescs (ld_cs s8) !! _) as [d|] eqn:E; [|done]. exfalso. by eapply Hb1, so_class. }
  assert (Hk10 : all_known s10 L10 [] (lf_classes f)).
  { eapply all_known_mono; [|exact Hk]. intros x [Hx|[]%not_elem_of_nil]. left.
    apply (known_set_lib _ s9 (set_meta (lf_meta f) L)); [done|exact (eq_sym Hz)|exact (eq_sym Hz)|].
    eapply known_keeps; [exact K79|]. apply (known_keeps s4 s6); [done|].
    apply (known_set_lib _ s3 L); [done..|]. by apply (known_keeps s s3). }
  pose proof (readClasses_spec m fuel (lf_strings f) t Ht java_lang_Object lib (lf_classes f) zero_sums _ s10 L10 Hh8
    (state_ok_set_lib _ _ _ Hs9) Hok10 HL10 Hroom C1 Hk10) as Hrd.
  rewrite Nat2Z.id. fold zero_sums.
  destruct (readClasses _ _ _ _ _ _ _ _) as [[c [p' s']]|e]; [|by apply HE].
  destruct Hrd as (-> & -> & Hs' & Hok' & G & HL' & Hcl). split_and!; [done|by rewrite Hend|done|done| | |].
  - eapply later_trans; [by apply keeps_later|]. eapply later_trans; [apply set_lib_later|]. eapply later_trans; [exact K47|].
    eapply later_trans; [by apply keeps_later|]. eapply later_trans; [apply set_lib_later|]. by apply grown_later.
  - destruct G as (_ & _ & _ & _ & -> & _). change (ld_vmindex s10) with (ld_vmindex s9).
    rewrite (proj1 (proj2 (proj2 (proj2 (proj2 K79))))). cbn. f_equal.
    rewrite (proj1 (proj2 (proj2 (proj2 (proj2 K46))))). cbn. apply (proj2 (proj2 (proj2 (proj2 K)))).
  - exists base. split; [exact HL'|]. intros i k Hi. destruct (Hcl i k Hi) as (sup & H1 & H2). by exists sup.
Qed.
End Library.

(** ** The header, the library's descriptor, the needed libraries *)

Section Header.
Context {A : Type} `{!Allocator A} (m : memory) (fuel : nat).

Lemma body_bytes f : Forall (fun b => 0 <= b < 256) (body f) -> 0 <= xor_bytes (body f) < 256.
Proof. intros H. apply foldl_lxor_range; [lia|done]. Qed.

Lemma testCheckSumAndVersion_spec f a (s : loader A) :
  lib_file_ok fuel f -> holds m a (encode f) ->
  testCheckSumAndVersion m fuel a (Z.of_nat (length (encode f))) (a, s) = Ok (tt, (a + Z.of_nat (length (enc_header f)), s)).
Proof.
  intros Hf [Hb Hx]%holds_app. pose proof (fo_bytes _ _ Hf) as [Hby Hl]. pose proof (body_bytes f Hby) as Hr.
  unfold testCheckSumAndVersion, encode. rewrite length_app, length_enc_int.
  replace (Z.to_nat (Z.of_nat (length (body f) + 4) - 4)) with (length (body f)) by lia.
  rewrite (checksum_loop_xor (body f)); [|intros k x Hk; rewrite Z.add_0_r; by apply Hb|lia|done]. fold (xor_bytes (body f)).
  replace (a + Z.of_nat (length (body f) + 4) - 4) with (a + Z.of_nat (length (body f))) by lia.
  rewrite (load_enc_int m _ (xor_bytes (body f))) by (done || (unfold int_ok; lia)). rewrite Z.eqb_refl. cbn [negb].
  unfold body, enc_header in Hb. apply holds_app in Hb as [[Hv Hp]%holds_app _]. rewrite length_enc_int in Hp.
  unfold rseq, readInt. rewrite (load_enc_int m a CURRENT_COMPILER_VERSION) by done. cbn [rbind].
  change (negb (CURRENT_COMPILER_VERSION =? CURRENT_COMPILER_VERSION)) with false. cbv iota.
  destruct (fo_processor _ _ Hf) as [Hz Hn]. unfold readString. rewrite (cstring_at_spec m (lf_processor f)) by done. cbn [rbind].
  unfold enc_header, enc_str. rewrite !length_app, length_enc_int. cbn [length]. unfold rret. do 3 f_equal. lia.
Qed.

Definition empty_lib (filename : cstring) (id : Z) : SharedLibDesc :=
  MkSharedLib filename id (-1) [] [] NULL 0 (replicate LIB_HASHKEY_LEN 0) 0 NULL 0 0 0.

Lemma in_use_range d (a : A) x : code_ok d a -> in_use d x -> 0 <= x < 2147483648.
Proof. intros Hd (c & Hc & Hx). destruct (co_chunk _ _ Hd c Hc) as (_ & ? & ? & _ & ?). lia. Qed.

Lemma new_lib_spec filename (s : loader A) :
  state_ok s -> Z.of_nat (length filename) < 1000000 ->
  match new_lib filename s with
  | Ok (lib, s') => state_ok s' /\ slibs (ld_cs s) !! lib = None /\ lib <> NULL /\
      slibs (ld_cs s') = <[lib := empty_lib filename (sharedLibID s)]> (slibs (ld_cs s)) /\
      classdescs (ld_cs s') = classdescs (ld_cs s) /\ sharedLibs (ld_cs s') = sharedLibs (ld_cs s) /\
      sharedArrayClasses (ld_cs s') = sharedArrayClasses (ld_cs s) /\ ld_vmindex s' = ld_vmindex s /\
      sharedLibsIndexNumber s' = sharedLibsIndexNumber s /\ sharedLibID s' = u32 (sharedLibID s + 1) /\ mem_grows s s'
  | Err e => @alloc_error A _ e
  end.
Proof.
  intros Hs Hl. unfold new_lib, malloc_sharedlibdesc, sizeof_SharedLibDesc. rewrite u32_small by lia.
  set (n := 76 + (Z.of_nat (length filename) + 1)).
  pose proof (alloc_block_total (fun d => malloc_code d n) n 0 s ltac:(done) ltac:(lia) Hs) as H. unfold alloc in H.
  destruct (malloc_code _ n _) as [[[b d] al]|e]; [|done]. cbn [rbind] in *. destruct H as (_ & [S1 S2 S3 S4 S5] & K & Hpos & Hb).
  destruct (Hb b ltac:(lia)) as [Hnew Hin]. destruct K as (_ & _ & _ & _ & _ & _ & _ & Hg). cbn [desc].
  split_and!; try done; [|destruct (slibs (ld_cs s) !! b) eqn:E; [|done]; by destruct Hnew; eapply so_slib|unfold NULL; lia].
  split; try done. intros l x Hx. cbn in Hx. apply lookup_insert_Some in Hx as [[<- _]|[_ Hx]]; [exact Hin|by eapply S5].
Qed.

(** A library that is not in the list does not matter. *)
Lemma find_slib_ext name (c c' : class_state A) libs :
  (forall l, l ∈ libs -> slibs c' !! l = slibs c !! l) -> find_slib libs name c' = find_slib libs name c.
Proof.
  induction libs as [|l libs IH]; intros H; [done|]. cbn [find_slib]. unfold slib. rewrite (H l) by apply list_elem_of_here.
  destruct (slibs c !! l); [|done]. cbn [rbind]. case_match; [done|]. apply IH. intros x Hx. apply H. by apply list_elem_of_further.
Qed.

(** the libraries [libs] are loaded under these names *)
Definition needed_loaded (c : class_state A) (names : list cstring) (libs : list Z) : Prop :=
  Forall2 (fun name l => findSharedLib name c = Ok l /\ l <> NULL /\ is_Some (slibs c !! l)) names libs.

Lemma load_needed_spec `{!LoaderEnv A} load names : forall libs p (s : loader A),
  holds m p (enc_all enc_str names) -> Forall (str_ok fuel) names -> needed_loaded (ld_cs s) names libs ->
  load_needed fuel load (length names) m p s = Ok (libs, m, (p + Z.of_nat (length (enc_all enc_str names)), s)).
Proof.
  induction names as [|x l IH]; intros libs p s Hh Hs Hn.
  - apply Forall2_nil_inv_l in Hn as ->. cbn. by rewrite Z.add_0_r.
  - apply Forall2_cons_inv_l in Hn as (lb & libs' & (Ef & Hnn & [d Hd]) & Hn & ->).
    pose proof (length_enc_strs x l) as Hl. apply Forall_cons in Hs as [[Hx Hf] Hs].
    unfold enc_all in Hh. cbn [map concat] in Hh. apply holds_app in Hh as [Hh1 Hh2]. fold (enc_all enc_str l) in Hh2.
    cbn [length load_needed]. unfold readString. rewrite (cstring_at_spec m x) by done. cbn [rbind]. rewrite Ef. cbn [rbind].
    rewrite (proj2 (Z.eqb_neq lb NULL)) by done. cbn [rbind]. unfold slib at 1. rewrite Hd. cbn [rbind].
    rewrite (IH libs'); [cbn [rbind]; rewrite Hl; do 3 f_equal; lia| |done|done].
    unfold enc_str in Hh2. rewrite length_app in Hh2. cbn [length] in Hh2.
    replace (p + Z.of_nat (length x) + 1) with (p + Z.of_nat (length x + 1)) by lia. done.
Qed.

(** native code: new bytes on a 16-byte boundary *)
Lemma alloc_nativecode n p (s : loader A) :
  0 <= n < 1000000000 -> state_ok s ->
  match alloc (fun d => malloc_nativecode d n) (p, s) with
  | Ok (q, (p', s')) => p' = p /\ state_ok s' /\ keeps s s' /\ q mod 16 = 0 /\
      forall x, q <= x < q + n -> ~ in_use (dz_code (ld_cs s)) x /\ in_use (dz_code (ld_cs s')) x
  | Err e => @alloc_error A _ e
  end.
Proof.
  intros Hn Hs. pose proof (alloc_block_total (fun d => malloc_code d (n + 16)) (n + 16) p s ltac:(done) ltac:(lia) Hs) as H.
  unfold alloc, malloc_nativecode in *. rewrite u32_small by lia.
  destruct (malloc_code _ (n + 16) _) as [[[b d] al]|e]; [|done]. cbn [rbind] in *. destruct H as (_ & Hs' & K & Hpos & Hb).
  pose proof (so_code _ Hs') as Hc. cbn in Hc.
  pose proof (in_use_range _ _ b Hc (proj2 (Hb b ltac:(lia)))) as R1.
  pose proof (in_use_range _ _ (b + n + 15) Hc (proj2 (Hb (b + n + 15) ltac:(lia)))) as R2.
  rewrite (u32_small (b + 15)) by lia. pose proof (land_align 4 (b + 15) ltac:(lia) ltac:(lia)) as Hal.
  change (2 ^ 4 - 1) with 15 in Hal. change (2 ^ 4) with 16 in Hal. rewrite Hal.
  pose proof (Z.div_mod (b + 15) 16 ltac:(lia)). pose proof (Z.mod_pos_bound (b + 15) 16 ltac:(lia)).
  split_and!; [done|done|done|by rewrite Z.mod_mul|]. intros x Hx. apply Hb. lia.
Qed.

(** The image survives: it is disjoint from code memory. *)
Lemma foreign_disjoint (s : loader A) a n q k :
  state_ok s -> (forall x, a <= x < a + n -> foreign (dz_code (ld_cs s)) (cs_alloc (ld_cs s)) x) ->
  (forall x, q <= x < q + k -> in_use (dz_code (ld_cs s)) x) -> 0 < n -> 0 < k -> q + k <= a \/ a + n <= q.
Proof.
  intros Hs Hf Hq Hn Hk. destruct (Z.le_gt_cases (q + k) a); [by left|]. destruct (Z.le_gt_cases (a + n) q); [by right|]. exfalso.
  assert (q <= Z.max a q < q + k /\ a <= Z.max a q < a + n) as [H1 H2] by lia.
  eapply foreign_not_in_use; [apply (so_code _ Hs)|by apply Hf|by apply Hq].
Qed.
End Header.

(** ** The whole library *)

Section Whole.
Context {A : Type} `{!Allocator A, !LoaderEnv A} (fuel : nat) (java_lang_Object : Z).

(** the descriptor of the library that [f] describes *)
Definition library_desc (f : lib_file) (filename : cstring) (needed : list Z) (base code : Z) (s : loader A) : SharedLibDesc :=
  set_code code (total_sums f) (sharedLibsIndexNumber s)
    (add_classes (lf_classes f) (set_allClasses base (set_meta (lf_meta f)
      (set_needed needed (empty_lib filename (sharedLibID s)))))).

(** The library [lib] is the contents of [f]: meta data, classes with their
    methods and superclasses, a copy of the native code, renamed run-time
    support; everything loaded before is untouched. *)
Record library_loaded (f : lib_file) (filename : cstring) (needed : list Z) (m : memory) (s : loader A)
    (lib : Z) (m' : memory) (s' : loader A) : Prop := {
  ll_new : lib <> NULL /\ slibs (ld_cs s) !! lib = None;
  ll_libs : sharedLibs (ld_cs s') = lib :: sharedLibs (ld_cs s);
  ll_other : forall l, l <> lib -> slibs (ld_cs s') !! l = slibs (ld_cs s) !! l;
  ll_old : classdescs (ld_cs s) ⊆ classdescs (ld_cs s') /\ sharedArrayClasses (ld_cs s') = sharedArrayClasses (ld_cs s);
  ll_vmsyms : ld_vmindex s' = install vmsupport_names 0 (lf_vmsyms f) (ld_vmindex s);
  ll_ids : sharedLibsIndexNumber s' = s32 (sharedLibsIndexNumber s + 1) /\ sharedLibID s' = u32 (sharedLibID s + 1);
  ll_ok : state_ok s' /\ libs_ok java_lang_Object (ld_cs s');
  ll_desc : exists base code, let L := library_desc f filename needed base code s in
    slibs (ld_cs s') !! lib = Some L /\ classes_loaded java_lang_Object lib s' L (lf_classes f) /\
    code mod 16 = 0 /\ holds m' code (lf_code f) /\
    forall x, ~ code <= x < code + Z.of_nat (length (lf_code f)) -> load8 m' x = load8 m x;
}.

Lemma add_classes_base ks : forall L, allClasses (add_classes ks L) = allClasses L.
Proof. induction ks as [|k ks IH]; intros L; [done|]. unfold add_classes in *. cbn [foldl]. by rewrite IH. Qed.

Lemma classes_loaded_mono lib (s s' : loader A) L L' ks :
  classdescs (ld_cs s) ⊆ classdescs (ld_cs s') -> allClasses L' = allClasses L ->
  classes_loaded java_lang_Object lib s L ks -> classes_loaded java_lang_Object lib s' L' ks.
Proof.
  intros Hsub Hb H i k Hi. destruct (H i k Hi) as (sup & H1 & H2). exists sup. split.
  - unfold super_ok in *. repeat case_match; try done. destruct H1 as [Hn H1]. split; [done|].
    unfold name_of in *. destruct (classdescs (ld_cs s) !! sup) as [d|] eqn:E; [|done]. by rewrite (lookup_weaken _ _ _ _ E Hsub).
  - unfold class_at in *. rewrite Hb. by eapply lookup_weaken.
Qed.

(** Adding a descriptor at a new address. *)
Section NewLib.
Context (s s' : loader A) (lib : Z) (L : SharedLibDesc).
Context (Hok : libs_ok java_lang_Object (ld_cs s)) (Hnew : slibs (ld_cs s) !! lib = None) (HL : lib_classes L = []).
Context (E1 : slibs (ld_cs s') = <[lib := L]> (slibs (ld_cs s))) (E2 : classdescs (ld_cs s') = classdescs (ld_cs s)).
Context (E3 : sharedLibs (ld_cs s') = sharedLibs (ld_cs s)).

Lemma new_lib_other l : l ∈ sharedLibs (ld_cs s) -> slibs (ld_cs s') !! l = slibs (ld_cs s) !! l.
Proof using Hok Hnew E1.
  intros Hl. rewrite E1. apply lookup_insert_ne. intros ->. destruct (lo_libs _ _ Hok l Hl) as [d Hd]. by rewrite Hnew in Hd.
Qed.
Lemma libs_ok_new : libs_ok java_lang_Object (ld_cs s').
Proof using All.
  pose proof new_lib_other as Ho. destruct Hok as [H1 H2 H3]. split.
  - rewrite E3. intros l Hl. rewrite Ho by done. by apply H1.
  - intros l d c Hd Hc. rewrite E2. rewrite E1 in Hd. apply lookup_insert_Some in Hd as [[<- <-]|[_ Hd]]; [|by apply (H2 l d)].
    rewrite HL in Hc. by apply not_elem_of_nil in Hc.
  - by rewrite E2.
Qed.
Lemma known_new L' name : lib_classes L' = [] -> known s L' name -> known s' L name.
Proof using All.
  intros HL'. unfold known. rewrite HL, HL'. cbn [app].
  assert (all_lib_classes (ld_cs s') = all_lib_classes (ld_cs s)) as ->; [|unfold name_of; by rewrite E2].
  unfold all_lib_classes. rewrite E3. f_equal. apply map_ext_in. intros l Hl. rewrite new_lib_other; [done|by apply list_elem_of_In].
Qed.
Lemma needed_new names libs : needed_loaded (ld_cs s) names libs -> needed_loaded (ld_cs s') names libs.
Proof using Hok Hnew E1 E3.
  intros H. eapply Forall2_impl; [exact H|]. intros x l (Hf & Hn & [d Hd]). split_and!; [|done|].
  - unfold findSharedLib in *. rewrite E3. by rewrite (find_slib_ext x (ld_cs s) (ld_cs s') _ new_lib_other).
  - rewrite E1. destruct (decide (l = lib)) as [->|]; [by rewrite lookup_insert_eq|rewrite lookup_insert_ne by done; eauto].
Qed.
End NewLib.

(** the code is copied, and the library becomes visible *)
Lemma finish_lib_spec lib c code m p (s : loader A) L :
  state_ok s -> libs_ok java_lang_Object (ld_cs s) -> slibs (ld_cs s) !! lib = Some L -> holds m p code ->
  completeCodeBytes c = Z.of_nat (length code) -> Z.of_nat (length code) < 1000000000 ->
  (forall x, p <= x < p + Z.of_nat (length code) -> foreign (dz_code (ld_cs s)) (cs_alloc (ld_cs s)) x) ->
  match finish_lib m lib c (p, s) with
  | Ok (m', (p', s')) => exists q, let L' := set_code q c (sharedLibsIndexNumber s) L in
      state_ok s' /\ libs_ok java_lang_Object (ld_cs s') /\ classdescs (ld_cs s') = classdescs (ld_cs s) /\
      slibs (ld_cs s') !! lib = Some L' /\ (forall l, l <> lib -> slibs (ld_cs s') !! l = slibs (ld_cs s) !! l) /\
      sharedLibs (ld_cs s') = lib :: sharedLibs (ld_cs s) /\ sharedArrayClasses (ld_cs s') = sharedArrayClasses (ld_cs s) /\
      ld_vmindex s' = ld_vmindex s /\ sharedLibsIndexNumber s' = s32 (sharedLibsIndexNumber s + 1) /\ sharedLibID s' = sharedLibID s /\
      q mod 16 = 0 /\ holds m' q code /\ forall x, ~ q <= x < q + Z.of_nat (length code) -> load8 m' x = load8 m x
  | Err e => @alloc_error A _ e
  end.
Proof.
  intros Hs Hok HL Hh Hc Hlen Hf. unfold finish_lib, rseq. rewrite Hc. set (n := Z.of_nat (length code)) in *.
  pose proof (alloc_nativecode n p s ltac:(lia) Hs) as H. destruct (alloc _ (p, s)) as [[q [p1 s1]]|e]; [|done].
  destruct H as (-> & Hs1 & K & Hq & Hb). cbn [rbind]. exists q.
  pose proof (keeps_slib _ _ _ _ K HL) as HL1. pose proof (libs_ok_keeps java_lang_Object _ _ K Hok) as Hok1.
  destruct K as (K1 & K2 & K3 & K4 & K5 & K6 & K7 & [_ K8]).
  assert (Hd : 0 < n -> q + n <= p \/ p + n <= q).
  { intros Hn. apply (foreign_disjoint s1 p n q n); try done; [intros x Hx; by apply K8, Hf|intros x Hx; by apply Hb]. }
  assert (Hm : forall x, load8 (memcpy m q p n) x = if (q <=? x) && (x <? q + n) then load8 m (p + (x - q)) else load8 m x).
  { intros x. destruct (decide (0 < n)) as [Hn|Hn]; [apply memcpy_load; [lia|by apply Hd]|].
    assert (n = 0) as -> by lia. cbn. zbool. }
  rewrite <- K6. set (g := set_code q c (sharedLibsIndexNumber s1)).
  pose proof (libs_ok_set_lib java_lang_Object lib g s1 L HL1 eq_refl eq_refl Hok1) as Hok2.
  destruct (state_ok_set_lib lib g s1 Hs1) as [S1 S2 S3 S4 S5].
  assert (HL2 : slibs (ld_cs (set_lib lib g s1)) !! lib = Some (g L)) by (cbn; by rewrite lookup_alter_eq, HL1).
  split_and!; try done.
  - destruct Hok2 as [H1 H2 H3]. split; try done. intros l [->|Hl]%elem_of_cons; [eauto|by apply H1].
  - intros l Hl. cbn. by rewrite lookup_alter_ne, K2.
  - cbn. by rewrite K3.
  - intros i x Hx. pose proof (lookup_lt_Some _ _ _ Hx). rewrite Hm. zbool. rewrite <- (Hh i x Hx). f_equal. lia.
  - intros x Hx. rewrite Hm. zbool.
Qed.

(** [enc_needed]: two numbers, the table, the names *)
Lemma run_needed load f p m (s : loader A) needed {Y} (k : list Z -> memory -> Z -> loader A -> res Y) (Q : res Y -> Prop) :
  lib_file_ok fuel f -> holds m p (enc_needed f) -> state_ok s -> needed_loaded (ld_cs s) (lf_needed f) needed ->
  (forall s1, state_ok s1 -> keeps s s1 -> Q (k needed m (p + Z.of_nat (length (enc_needed f))) s1)) ->
  (forall e, @alloc_error A _ e -> Q (Err e)) ->
  Q (let! '(_, (p, s)) := readInt m (p, s) in
     let! '(n, (p, s)) := readInt m (p, s) in
     let! '(_, (p, s)) := alloc_if (negb (n =? 0)) (fun d => malloc_sharedlibdesctable d n) (p, s) in
     let! '(needed, m, (p, s)) := load_needed fuel load (Z.to_nat n) m p s in
     k needed m p s).
Proof.
  intros Hf Hh Hs Hn HQ HE. destruct Hf as [Ho _ [N1 N2] _ _ _ _ _ _]. unfold enc_needed in Hh.
  apply holds_app in Hh as [H1 [H2 H3]%holds_app]. rewrite length_enc_int in H2. unfold enc_count in H3. rewrite !length_enc_int in H3.
  unfold readInt. rewrite (load_enc_int m p _ Ho H1). cbn [rbind].
  rewrite (load_enc_int m _ (Z.of_nat (length (lf_needed f)))) by (done || (unfold small, int_ok in *; lia)). cbn [rbind].
  set (n := Z.of_nat (length (lf_needed f))) in *.
  assert (Hq : @quiet A _ Z (alloc_if (negb (n =? 0)) (fun d => malloc_sharedlibdesctable d n))).
  { apply quiet_alloc_if. intros _ d a. eexists. split; [done|]. unfold sz_ptr, small in *. rewrite Z.mul_comm.
    destruct (size_ok n 4) as [-> ?]; lia. }
  specialize (Hq (p + 4 + 4) s Hs). destruct (alloc_if _ _ _) as [[x [p1 s1]]|e]; [|by apply HE].
  destruct Hq as (-> & Hs1 & K). cbn [rbind]. subst n. rewrite Nat2Z.id.
  assert (Hn1 : needed_loaded (ld_cs s1) (lf_needed f) needed).
  { destruct K as (_ & E1 & E2 & _). eapply Forall2_impl; [exact Hn|]. intros y l (Hy & ? & ?). rewrite E1. split_and!; try done.
    unfold findSharedLib in *. rewrite E2, (find_slib_ext y (ld_cs s) (ld_cs s1)); [done|]. by rewrite E1. }
  rewrite (load_needed_spec m fuel load (lf_needed f) needed); [|by replace (p + 4 + 4) with (p + Z.of_nat 4 + Z.of_nat 4) by lia|done|done].
  cbn [rbind]. replace (p + 4 + 4 + _) with (p + Z.of_nat (length (enc_needed f))); [by apply HQ|].
  unfold enc_needed, enc_count. rewrite !length_app, !length_enc_int. lia.
Qed.

Lemma loaded_library f filename needed m (s s1 s2 s4 s5 : loader A) lib base q m' :
  slibs (ld_cs s) !! lib = None -> lib <> NULL ->
  slibs (ld_cs s1) = <[lib := empty_lib filename (sharedLibID s)]> (slibs (ld_cs s)) ->
  classdescs (ld_cs s1) = classdescs (ld_cs s) -> sharedLibs (ld_cs s1) = sharedLibs (ld_cs s) ->
  sharedArrayClasses (ld_cs s1) = sharedArrayClasses (ld_cs s) -> ld_vmindex s1 = ld_vmindex s ->
  sharedLibsIndexNumber s1 = sharedLibsIndexNumber s -> sharedLibID s1 = u32 (sharedLibID s + 1) ->
  keeps s1 s2 -> later lib (set_lib lib (set_needed needed) s2) s4 ->
  ld_vmindex s4 = install vmsupport_names 0 (lf_vmsyms f) (ld_vmindex s2) ->
  let L := set_needed needed (empty_lib filename (sharedLibID s)) in
  classes_loaded java_lang_Object lib s4 (set_allClasses base L) (lf_classes f) ->
  let L' := set_code q (total_sums f) (sharedLibsIndexNumber s4) (add_classes (lf_classes f) (set_allClasses base (set_meta (lf_meta f) L))) in
  state_ok s5 -> libs_ok java_lang_Object (ld_cs s5) -> classdescs (ld_cs s5) = classdescs (ld_cs s4) ->
  slibs (ld_cs s5) !! lib = Some L' -> (forall l, l <> lib -> slibs (ld_cs s5) !! l = slibs (ld_cs s4) !! l) ->
  sharedLibs (ld_cs s5) = lib :: sharedLibs (ld_cs s4) -> sharedArrayClasses (ld_cs s5) = sharedArrayClasses (ld_cs s4) ->
  ld_vmindex s5 = ld_vmindex s4 -> sharedLibsIndexNumber s5 = s32 (sharedLibsIndexNumber s4 + 1) -> sharedLibID s5 = sharedLibID s4 ->
  q mod 16 = 0 -> holds m' q (lf_code f) ->
  (forall x, ~ q <= x < q + Z.of_nat (length (lf_code f)) -> load8 m' x = load8 m x) ->
  library_loaded f filename needed m s lib m' s5.
Proof.
  intros Hnew Hnn A1 A2 A3 A4 A5 A6 A7 (B1 & B2 & B3 & B4 & B5 & B6 & B7 & _) (C1 & C2 & C3 & C4 & C6 & C7 & _) C5 L Hcl L'
    Hs5 Hok5 D1 D2 D3 D4 D5 D6 D7 D8 Hq Hcode Hout.
  cbn in C1, C2, C3, C4, C6, C7. split; try congruence; try done.
  - intros l Hl. rewrite D3, C2 by done. rewrite lookup_alter_ne, B2, A1, lookup_insert_ne by done. done.
  - split; [rewrite D1, <- A2, <- B1; exact C1|congruence].
  - split; [|congruence]. rewrite D7. congruence.
  - exists base, q. assert (L' = library_desc f filename needed base q s) as <- by (unfold L', library_desc, L; f_equal; congruence).
    split_and!; try done. apply (classes_loaded_mono lib s4 s5 (set_allClasses base L)); [by rewrite D1| |exact Hcl].
    unfold L'. cbn [set_code allClasses]. by rewrite add_classes_base.
Qed.

(** C8 Loading a library reads back what was written: for every library [f] in
    the code format (checksum, version, string table, classes, methods, symbols,
    code) whose image the boot archive returns under [filename], with its
    needed libraries loaded and the superclasses known, [loadSharedLibrary]
    either runs out of memory or gives a new library with the meta data, the
    classes (names, fields, methods with code offsets, the superclass found by
    name), the summed sizes, a key that covers the class names, and a 16-byte
    aligned copy of the native code; nothing loaded before changes. *)
Theorem loadSharedLibrary_roundtrip depth f filename a needed m (s : loader A) :
  lib_file_ok fuel f -> codefile filename = Some (a, Z.of_nat (length (encode f))) -> holds m a (encode f) ->
  (forall x, a <= x < a + Z.of_nat (length (encode f)) -> foreign (dz_code (ld_cs s)) (cs_alloc (ld_cs s)) x) ->
  state_ok s -> libs_ok java_lang_Object (ld_cs s) -> Z.of_nat (length filename) < 1000000 ->
  needed_loaded (ld_cs s) (lf_needed f) needed ->
  all_known s (empty_lib filename (sharedLibID s)) [] (lf_classes f) ->
  match loadSharedLibrary java_lang_Object fuel (S depth) filename m s with
  | Ok (lib, m', s') => library_loaded f filename needed m s lib m' s'
  | Err e => @alloc_error A _ e
  end.
Proof.
  intros Hf Ecf Hh Hfor Hs Hok Hname Hneed Hknown. set (Q := fun r : res (Z * memory * loader A) => match r with
    | Ok (lib, m', s') => library_loaded f filename needed m s lib m' s' | Err e => @alloc_error A _ e end).
  change (Q (loadSharedLibrary java_lang_Object fuel (S depth) filename m s)). cbn [loadSharedLibrary].
  rewrite Ecf, (testCheckSumAndVersion_spec m fuel f) by done. cbn [rbind].
  pose proof (new_lib_spec filename s Hs Hname) as Hnl. destruct (new_lib filename s) as [[lib s1]|e]; [|done].
  destruct Hnl as (Hs1 & Hnew & Hnn & A1 & A2 & A3 & A4 & A5 & A6 & A7 & A8). cbn [rbind].
  pose proof Hh as [[_ [Hn [Hl Hc]%holds_app]%holds_app]%holds_app _]%holds_app.
  apply (run_needed _ f _ _ s1 needed); try done; [by apply (needed_new s s1 lib (empty_lib filename (sharedLibID s)))|].
  intros s2 Hs2 K. cbv zeta beta. set (s3 := set_lib lib (set_needed needed) s2). set (L := empty_lib filename (sharedLibID s)) in *.
  assert (HL1 : slibs (ld_cs s1) !! lib = Some L) by (rewrite A1; apply lookup_insert_eq).
  pose proof (keeps_slib _ _ _ _ K HL1) as HL2.
  pose proof (readLibrary_spec m fuel java_lang_Object lib f (a + Z.of_nat (length (enc_header f)) + Z.of_nat (length (enc_needed f))) s3
    (set_needed needed L)) as Hr.
  assert (Hok2 : libs_ok java_lang_Object (ld_cs s2)) by (apply (libs_ok_keeps _ s1); [done|by apply (libs_ok_new s s1 lib L)]).
  assert (HL3 : slibs (ld_cs s3) !! lib = Some (set_needed needed L)) by (cbn; by rewrite lookup_alter_eq, HL2).
  assert (Hk3 : all_known s3 (set_needed needed L) [] (lf_classes f)).
  { eapply all_known_mono; [|exact Hknown]. intros x [Hx|[]%not_elem_of_nil]. left.
    apply (known_set_lib lib (set_needed needed) s2 L (set_needed needed L)); [done..|]. apply (known_keeps s1 s2); [done|]. by apply (known_new s s1 lib L Hok Hnew eq_refl A1 A2 A3 L). }
  specialize (Hr Hl Hf (state_ok_set_lib _ _ _ Hs2) (libs_ok_set_lib _ _ (set_needed needed) _ L HL2 eq_refl eq_refl Hok2) HL3 eq_refl Hk3).
  destruct (readLibrary _ _ _ _ _) as [[c [p4 s4]]|e]; [|by apply Hr]. cbn [rbind].
  destruct Hr as (-> & -> & Hs4 & Hok4 & K4 & Hvm & base & HL4 & Hcl).
  pose proof (fo_code _ _ Hf) as [_ Hlc]. pose proof (fo_bytes _ _ Hf) as [_ Hbl].
  pose proof (finish_lib_spec lib (total_sums f) (lf_code f) m _ s4 _ Hs4 Hok4 HL4 Hc Hlc) as Hfin.
  assert (Hlen : Z.of_nat (length (encode f)) = Z.of_nat (length (enc_header f)) + Z.of_nat (length (enc_needed f)) +
    Z.of_nat (length (enc_library f)) + Z.of_nat (length (lf_code f)) + 4).
  { unfold encode, body. rewrite !length_app, length_enc_int. lia. }
  assert (Hbl' : Z.of_nat (length (lf_code f)) < 1000000000) by (unfold body in Hbl; rewrite !length_app in Hbl; lia).
  specialize (Hfin Hbl' ltac:(intros x Hx; apply K4, K, A8, Hfor; lia)). destruct (finish_lib _ _ _ _) as [[m' [p5 s5]]|e]; [|done].
  cbn [rbind]. destruct Hfin as (q & F1 & F2 & F3 & F4 & F5 & F6 & F7 & F8 & F9 & F10 & F11 & F12 & F13).
  by apply (loaded_library f filename needed m s s1 s2 s4 s5 lib base q m').
Qed.
End Whole.

(** ** Corrupt files *)

Lemma foldl_lxor l : forall c, foldl Z.lxor c l = Z.lxor c (xor_bytes l).
Proof.
  unfold xor_bytes. induction l as [|x l IH]; intros c; cbn [foldl]; [by rewrite Z.lxor_0_r|].
  rewrite (IH (Z.lxor c x)), (IH (Z.lxor 0 x)), Z.lxor_0_l. by rewrite Z.lxor_assoc.
Qed.
Lemma xor_bytes_insert l : forall i x y, l !! i = Some x -> xor_bytes (<[i := y]> l) = Z.lxor (xor_bytes l) (Z.lxor x y).
Proof.
  induction l as [|z l IH]; intros [|i] x y H; [done|done| |]; cbn in H.
  - injection H as ->. change (<[0%nat := y]> (x :: l)) with (y :: l). unfold xor_bytes. cbn [foldl]. rewrite !foldl_lxor, !Z.lxor_0_l.
    rewrite (Z.lxor_comm x (xor_bytes l)), (Z.lxor_assoc (xor_bytes l)), <- (Z.lxor_assoc x x y), Z.lxor_nilpotent, Z.lxor_0_l.
    apply Z.lxor_comm.
  - change (<[S i := y]> (z :: l)) with (z :: <[i := y]> l). unfold xor_bytes. cbn [foldl]. rewrite !foldl_lxor, !Z.lxor_0_l.
    rewrite (IH i x y H). by rewrite Z.lxor_assoc.
Qed.

(** C30 Damage to one byte is detected: when a single byte of a library's body
    differs from what was written, the checksum does not match and the loader
    panics before it creates anything. *)
Theorem loadSharedLibrary_detects_damage {A : Type} `{!Allocator A, !LoaderEnv A} fuel java_lang_Object depth f filename a i x y m (s : loader A) :
  lib_file_ok fuel f -> codefile filename = Some (a, Z.of_nat (length (encode f))) ->
  body f !! i = Some x -> 0 <= y < 256 -> y <> x -> holds m a (<[i := y]> (encode f)) ->
  loadSharedLibrary java_lang_Object fuel (S depth) filename m s = Err (EPanic "WRONG CHECKSUM").
Proof.
  intros Hf Ecf Hi Hy Hne Hh. pose proof (fo_bytes _ _ Hf) as [Hby Hl]. pose proof (body_bytes f Hby) as Hr.
  pose proof (lookup_lt_Some _ _ _ Hi) as Hlt. unfold encode in Hh. rewrite insert_app_l in Hh by done.
  apply holds_app in Hh as [Hb Hx]. rewrite length_insert in Hx.
  cbn [loadSharedLibrary]. rewrite Ecf. unfold testCheckSumAndVersion, encode. rewrite length_app, length_enc_int.
  replace (Z.to_nat (Z.of_nat (length (body f) + 4) - 4)) with (length (<[i := y]> (body f))) by (rewrite length_insert; lia).
  rewrite (checksum_loop_xor (<[i := y]> (body f))); [|intros k z Hk; rewrite Z.add_0_r; by apply Hb|lia|by apply Forall_insert].
  fold (xor_bytes (<[i := y]> (body f))).
  replace (a + Z.of_nat (length (body f) + 4) - 4) with (a + Z.of_nat (length (body f))) by lia.
  rewrite (load_enc_int m _ (xor_bytes (body f))) by (done || (unfold int_ok; lia)).
  rewrite (xor_bytes_insert _ _ x y Hi). destruct (Z.eqb_spec (Z.lxor (xor_bytes (body f)) (Z.lxor x y)) (xor_bytes (body f))) as [E|E]; [|done].
  exfalso. apply Hne. symmetry. apply Z.lxor_eq. apply (f_equal (Z.lxor (xor_bytes (body f)))) in E.
  by rewrite <- Z.lxor_assoc, !Z.lxor_nilpotent, Z.lxor_0_l in E.
Qed.

(** ** A concrete library: class [Y] extends [X] of the library [lib.jll] *)

#[export] Instance str_ok_dec fuel l : Decision (str_ok fuel l).
Proof. unfold str_ok, nonzero_bytes. apply _. Defined.

Definition demo_method : MethodDesc :=
  MkMethod (str "run") (str "()V") 8 6 1 [1] 0 1 0
    [MkSymbol 1 4 5 (SymString (str "Y")); MkSymbol 0 0 6 (SymExceptionTable 0 0 6 (str "X"))] 1
    [MkByteCode 0 0 6] [MkSourceLine 0 12].
Definition demo_class_Y : ClassDesc :=
  MkClass CLASSTYPE_CLASS (str "Y") 0 [str "I"] [] 2 [1] [MkField (str "next") (str "Y") 4] 1 0 [0]
    [(str "Y", str "run", str "()V")] [demo_method] 0 NULL NULL.
Definition demo_file : lib_file :=
  MkLibFile 0 (str "i386") [str "lib.jll"] [(str "version", str "1")]
    [str "Y"; str "X"; str "I"; str "next"; str "run"; str "()V"]
    [str "nil"; str "vm_nullchk"] [MkClassFile demo_class_Y (str "X") 3 0 0] [85; 104; 1; 2; 3; 195].

Definition demo_slib : Z := demo_base + 1500.
Definition demo_image : Z * malloc_state :=
  match al_alloc 1000 (snd demo_block) with Ok r => r | Err _ => (0, st16) end.
Definition demo_at : Z := 1051648.
Definition demo_loader : loader malloc_state :=
  MkLoader (MkCS (<[demo_class_Object := plain_class CLASSTYPE_CLASS name_Object NULL NULL]>
                 {[demo_class_X := plain_class CLASSTYPE_CLASS (str "X") demo_class_Object demo_slib]})
              {[demo_slib := demo_lib]} [demo_slib] [] (snd (fst demo_block)) (snd demo_image))
    (replicate 28 0) 1 2 3000000 3005000.
Definition demo_memory : memory := store_bytes (fun _ => 0) demo_at (encode demo_file).
#[local] Instance demo_env : LoaderEnv malloc_state := {
  codefile n := if strcmp_eq n (str "y.jll") then Some (demo_at, Z.of_nat (length (encode demo_file))) else None;
  linksharedlib _ m s := Ok (m, s);
}.

Lemma demo_file_ok : lib_file_ok 50 demo_file.
Proof.
  split.
  all: try (apply (bool_decide_unpack _); by vm_compute).
Qed.

Lemma demo_state : exists d a,
  demo_block = (1049600, d, a) /\ al_alloc 1000 a = Ok (demo_at, snd demo_image) /\
  malloc_code code0 1600 st16 = Ok (1049600, d, a).
Proof.
  destruct (malloc_code code0 1600 st16) as [[[p d] a]|e] eqn:E; [|by vm_compute in E].
  assert (p = 1049600) as -> by (apply (f_equal (fun r => match r with Ok (p, _, _) => p | Err _ => 0 end)) in E; vm_compute in E; congruence).
  assert (demo_block = (1049600, d, a)) as Eb by (unfold demo_block; by rewrite E). exists d, a. split_and!; try done.
  unfold demo_image. rewrite Eb. cbn [snd]. destruct (al_alloc 1000 a) as [[b a']|e] eqn:E2; cbn [snd].
  - assert (b = demo_at) as ->; [|done]. assert (fst demo_image = demo_at) as <- by (by vm_compute).
    unfold demo_image. rewrite Eb. cbn [snd]. by rewrite E2.
  - assert (is_ok (al_alloc 1000 (snd demo_block)) = true) as Hx by (by vm_compute). rewrite Eb in Hx. cbn [snd] in Hx. by rewrite E2 in Hx.
Qed.

(** the code memory in use, and the block of the file outside of it *)
Lemma demo_blocks :
  let d := snd (fst demo_block) in let a := snd demo_image in
  (al_ok a /\ code_ok d a /\ never_null d a) /\
  (forall x, 1049600 <= x < 1051200 -> in_use d x) /\
  forall x, demo_at <= x < demo_at + al_span 1000 -> foreign d a x.
Proof.
  destruct demo_state as (d & a & Eb & E2 & E). rewrite Eb. cbn [fst snd].
  pose proof (malloc_code_null code0 1600 st16 _ _ _ st16_good code0_ok ltac:(lia) ltac:(split; [by left|intros c Hc; simpl in Hc; lia]) E) as [Hnn _].
  pose proof E as (Ha & Hd & _ & Hu)%malloc_code_spec; [|apply st16_good|apply code0_ok|lia].
  pose proof (code_ok_alloc d a _ 1000 demo_at Ha ltac:(lia) ltac:(lia) E2 Hd Hnn) as (Ha' & Hd' & Hnn' & _).
  pose proof E2 as (_ & _ & _ & Hg & Hfr & _)%al_alloc_spec; [|done|lia|lia].
  split_and!; [done..| |].
  - intros x Hx. apply Hu. by right.
  - intros x Hx. split; [eapply grant_owned; [exact Hg|lia]|]. intros c Hc Hxc.
    destruct (co_chunk _ _ Hd c Hc) as (G & _ & _ & Hbo & _). apply (Hfr x); [lia|].
    eapply grant_owned; [exact G|]. pose proof (al_span_le (code_bytes d)). pose proof (co_bytes _ _ Hd). lia.
Qed.

Lemma demo_loader_ok :
  state_ok demo_loader /\ libs_ok demo_class_Object (ld_cs demo_loader) /\
  forall x, demo_at <= x < demo_at + Z.of_nat (length (encode demo_file)) ->
    foreign (dz_code (ld_cs demo_loader)) (cs_alloc (ld_cs demo_loader)) x.
Proof.
  destruct demo_blocks as ((Ha & Hd & Hnn) & Huse & Hf).
  assert (Hlen : Z.of_nat (length (encode demo_file)) <= al_span 1000) by (by vm_compute).
  split_and!.
  - split; cbn [demo_loader ld_cs dz_code cs_alloc classdescs slibs]; try done.
    + intros c cd [[<- _]|[_ [<- _]%lookup_singleton_Some]]%lookup_insert_Some; by apply Huse.
    + intros l x [<- _]%lookup_singleton_Some. by apply Huse.
  - split; cbn [demo_loader ld_cs sharedLibs slibs classdescs].
    + intros lib ->%list_elem_of_singleton. by exists demo_lib.
    + intros lib l c [<- <-]%lookup_singleton_Some Hc. change (c ∈ [demo_class_X]) in Hc. apply list_elem_of_singleton in Hc as ->.
      split; [done|]. exists (plain_class CLASSTYPE_CLASS (str "X") demo_class_Object demo_slib). by split_and!.
    + exists (plain_class CLASSTYPE_CLASS name_Object NULL NULL). by split_and!.
  - intros x Hx. apply Hf. lia.
Qed.

Lemma demo_needed : needed_loaded (ld_cs demo_loader) [str "lib.jll"] [demo_slib].
Proof. apply Forall2_cons. split; [|by constructor]. split_and!; [by vm_compute|done|by exists demo_lib]. Qed.

Lemma loadSharedLibrary_roundtrip_witness :
  exists lib m' s', loadSharedLibrary demo_class_Object 50 1 (str "y.jll") demo_memory demo_loader = Ok (lib, m', s') /\
    library_loaded demo_class_Object demo_file (str "y.jll") [demo_slib] demo_memory demo_loader lib m' s'.
Proof.
  destruct demo_loader_ok as (H1 & H2 & H3).
  pose proof (loadSharedLibrary_roundtrip 50 demo_class_Object 0 demo_file (str "y.jll") demo_at [demo_slib] demo_memory demo_loader
    demo_file_ok eq_refl) as H.
  specialize (H ltac:(apply holds_store_bytes; apply (bool_decide_unpack _); by vm_compute) H3 H1 H2 ltac:(done) demo_needed).
  destruct (loadSharedLibrary demo_class_Object 50 1 (str "y.jll") demo_memory demo_loader) as [[[lib m'] s']|e] eqn:E; [|by vm_compute in E].
  exists lib, m', s'. split; [done|]. apply H. split; [|done]. left. right. right. exists demo_class_X. split; [by left|done].
Defined.

Lemma loadSharedLibrary_detects_damage_witness :
  loadSharedLibrary demo_class_Object 50 1 (str "y.jll") (store8 demo_memory (demo_at + 100) 7) demo_loader = Err (EPanic "WRONG CHECKSUM").
Proof.
  apply (loadSharedLibrary_detects_damage 50 demo_class_Object 0 demo_file (str "y.jll") demo_at 100 0 7);
    [exact demo_file_ok|done|by vm_compute|lia|done|].
  intros k z Hk. destruct (decide (k = 100%nat)) as [->|Hne].
  - rewrite list_lookup_insert_eq in Hk by (apply Nat.ltb_lt; by vm_compute). injection Hk as <-. by vm_compute.
  - rewrite list_lookup_insert_ne in Hk by done. rewrite load8_store8_ne by lia.
    revert k z Hk Hne. assert (holds demo_memory demo_at (encode demo_file)) as H; [|by intros k z Hk _; apply H].
    apply holds_store_bytes. apply (bool_decide_unpack _); by vm_compute.
Defined.
