(* ===== verification/Linker.v ===== *)
(** * Linking a library (core/load.c, linksharedlib)

    The loader leaves symbolic references in the code of a library; the linker
    looks up what they name and writes addresses into the code: of methods,
    classes, strings, static fields, run-time support.  It also resolves the
    interfaces of each class and builds the virtual method tables.  Code and
    tables live in the flat memory; a method descriptor is known by its
    address, [method_at]. *)

From S2P Require Import Prelude Mem CString Malloc Alloc CodeMem BootFS Classes CodeFile.
#[local] Open Scope Z_scope.

(** ** Finding a method *)

(** [objectMethods]: the methods every class has (Interface/zero_object.c) *)
Definition objectMethods : list (cstring * cstring) :=
  map (fun x => (str (fst x), str (snd x)))
    [("getClass", "()Ljava/lang/Class;"); ("hashCode", "()I"); ("clone", "()Ljava/lang/Object;"); ("wait", "()V");
     ("wait", "(J)V"); ("wait", "(JI)V"); ("notify", "()V"); ("notifyAll", "()V"); ("toString", "()Ljava/lang/String;");
     ("equals", "(Ljava/lang/Object;)Z"); ("finalize", "()V")]%string.

(** Addresses the kernel was linked at, and what the running thread adds. *)
Record kernel := MkKernel {
  exceptionHandler : Z;
  should_not_be_called : Z;
  vmSpecialAllocMultiArray : Z;
  longops : list Z;
  vmsupport_fkt : list Z;                    (* vmsupport[i].fkt *)
  object_constructor_methoddesc : Z;
  objectMethodDescs : Z;
  curthrP : Z;
  offset_stack : Z;                          (* of [stack] in a ThreadDesc *)
  methods_of : Z -> Z;                       (* the method table of a class *)
}.

Section Find.
Context {A : Type} (java_lang_Object : Z) (K : kernel).
Abbreviation cst := (class_state A) (only parsing).

Definition method_at (table j : Z) : Z := table + j * sizeof_MethodDesc.

Fixpoint index_method (j : Z) (ms : list (cstring * cstring)) (methodname signature : cstring) : option Z :=
  match ms with
  | [] => None
  | (n, t) :: ms =>
      if strcmp_eq methodname n && strcmp_eq signature t then Some j
      else index_method (j + 1) ms methodname signature
  end.
Definition method_names (d : ClassDesc) : list (cstring * cstring) :=
  map (fun x => (m_name x, m_signature x)) (methods d).

(** [classFound] and [methodFound]; the caller has set both to [NULL] *)
Definition findClassDescAndMethodInObject (methodname signature : cstring) : Z * Z :=
  if strcmp_eq methodname (str "<init>") && strcmp_eq signature (str "()V")
  then (java_lang_Object, object_constructor_methoddesc K)
  else match index_method 0 objectMethods methodname signature with
       | Some j => (java_lang_Object, method_at (objectMethodDescs K) j)
       | None => (NULL, NULL)
       end.

Fixpoint find_method_in_classes (n : nat) (i : Z) (l : SharedLibDesc) (classname methodname signature : cstring) (s : cst)
  : res (Z * Z) :=
  match n with
  | O => Ok (NULL, NULL)
  | S n =>
      let c := class_at l i in
      let! d := cls c s in
      match (if strcmp_eq classname (c_nm d) then index_method 0 (method_names d) methodname signature else None) with
      | Some j => Ok (c, method_at (methods_of K c) j)
      | None => find_method_in_classes n (i + 1) l classname methodname signature s
      end
  end.

Definition findClassDescAndMethodInLib (lib : Z) (classname methodname signature : cstring) (s : cst) : res (Z * Z) :=
  if strcmp_eq classname name_Object then Ok (findClassDescAndMethodInObject methodname signature) else
  let! l := slib lib s in
  find_method_in_classes (Z.to_nat (numberOfClasses l)) 0 l classname methodname signature s.

(** the libraries whose key does ([hit]) or does not cover the class name *)
Fixpoint find_method_in_libs (hit : bool) (libs : list Z) (classname methodname signature : cstring) (s : cst) : res (Z * Z) :=
  match libs with
  | [] => Ok (NULL, NULL)
  | lib :: libs =>
      let! l := slib lib s in
      if Bool.eqb (testHashKey classname (key l) LIB_HASHKEY_LEN) hit then
        let! '(c, m) := findClassDescAndMethodInLib lib classname methodname signature s in
        if negb (c =? NULL) then Ok (c, m) else find_method_in_libs hit libs classname methodname signature s
      else find_method_in_libs hit libs classname methodname signature s
  end.

Definition findClassDescAndMethod (classname methodname signature : cstring) (s : cst) : res (Z * Z) :=
  let! '(c, m) := find_method_in_libs true (sharedLibs s) classname methodname signature s in
  if negb (c =? NULL) then Ok (c, m) else find_method_in_libs false (sharedLibs s) classname methodname signature s.

Definition findMethodInSharedLibs (classname methodname signature : cstring) (s : cst) : res Z :=
  let! '(_, m) := findClassDescAndMethod classname methodname signature s in Ok m.
End Find.

(** ** State *)

Record ExceptionDesc := MkException { ex_type : Z; ex_start : Z; ex_end : Z; ex_addr : Z }.

(** The memory, the classes and what the linker fills in: [code] of each
    method, its exception table, [vtable] and [methodVtable] of each class. *)
Record link_state (A : Type) := MkLink {
  lk_ld : loader A;
  lk_mem : memory;
  mcode : gmap Z Z;
  exceptionTable : gmap Z (list ExceptionDesc);
  vtable : gmap Z Z;
  methodVtable : gmap Z Z;
}.
Arguments MkLink {A} _ _ _ _ _ _.
Arguments lk_ld {A} _.
Arguments lk_mem {A} _.
Arguments mcode {A} _.
Arguments exceptionTable {A} _.
Arguments vtable {A} _.
Arguments methodVtable {A} _.
Definition lk_cs {A} (s : link_state A) : class_state A := ld_cs (lk_ld s).

Definition set_lk {A} (c : class_state A) (s : link_state A) : link_state A :=
  MkLink (set_cs c (lk_ld s)) (lk_mem s) (mcode s) (exceptionTable s) (vtable s) (methodVtable s).
Definition set_lk_mem {A} (m : memory) (s : link_state A) : link_state A :=
  MkLink (lk_ld s) m (mcode s) (exceptionTable s) (vtable s) (methodVtable s).
Definition set_mcode {A} (m c : Z) (s : link_state A) : link_state A :=
  MkLink (lk_ld s) (lk_mem s) (<[m := c]> (mcode s)) (exceptionTable s) (vtable s) (methodVtable s).
Definition add_exception {A} (m : Z) (e : ExceptionDesc) (s : link_state A) : link_state A :=
  MkLink (lk_ld s) (lk_mem s) (mcode s) (<[m := default [] (exceptionTable s !! m) ++ [e]]> (exceptionTable s)) (vtable s) (methodVtable s).
Definition clear_exceptions {A} (m : Z) (s : link_state A) : link_state A :=
  MkLink (lk_ld s) (lk_mem s) (mcode s) (<[m := []]> (exceptionTable s)) (vtable s) (methodVtable s).
Definition set_vtable {A} (c v : Z) (s : link_state A) : link_state A :=
  MkLink (lk_ld s) (lk_mem s) (mcode s) (exceptionTable s) (<[c := v]> (vtable s)) (methodVtable s).
Definition set_methodVtable {A} (c v : Z) (s : link_state A) : link_state A :=
  MkLink (lk_ld s) (lk_mem s) (mcode s) (exceptionTable s) (vtable s) (<[c := v]> (methodVtable s)).
Definition read_field (g : gmap Z Z) (x : Z) : res Z := match g !! x with Some v => Ok v | None => Err EFault end.

(** ** Writing into code *)

Definition patchByte (code : Z) (x : SymbolDesc) (value : Z) (m : memory) : memory :=
  store8 m (code + immediateNCIndex x) (Z.land value 255).
Definition patchConstant (code : Z) (x : SymbolDesc) (value : Z) (m : memory) : memory :=
  let addr := code + immediateNCIndex x in
  let m := store8 m addr (Z.land value 255) in
  let m := store8 m (addr + 1) (Z.land (Z.shiftr value 8) 255) in
  let m := store8 m (addr + 2) (Z.land (Z.shiftr value 16) 255) in
  store8 m (addr + 3) (Z.land (Z.shiftr value 24) 255).
Definition patchRelativeAddress (code : Z) (x : SymbolDesc) (function : Z) (m : memory) : memory :=
  patchConstant code x (s32 (- (code + nextInstrNCIndex x - function))) m.

Section Patch.
Context {A : Type} `{!Allocator A} (java_lang_Object : Z) (class_prim : Z -> Z) (sz_ArrayClassDesc : Z) (K : kernel).
(** a string object for the constant, in DomainZero's heap *)
Context (newDomainZeroString : cstring -> memory -> res (Z * memory)).
Abbreviation st := (link_state A) (only parsing).
Abbreviation findClassDesc := (Classes.findClassDesc java_lang_Object) (only parsing).

Definition patch_const (code : Z) (x : SymbolDesc) (v : Z) (s : st) : res st := Ok (set_lk_mem (patchConstant code x v (lk_mem s)) s).
Definition patch_rel (code : Z) (x : SymbolDesc) (f : Z) (s : st) : res st := Ok (set_lk_mem (patchRelativeAddress code x f (lk_mem s)) s).

Definition STACK_CHUNK : Z := 13.
Definition patchStaticFieldAddress (code : Z) (x : SymbolDesc) (className : cstring) (kind fieldOffset : Z) (s : st) : res st :=
  let! c := findClassDesc className (lk_cs s) in
  if c =? NULL then Err (EPanic "could not find class") else
  let! d := cls c (lk_cs s) in
  let! l := (match slibs (lk_cs s) !! definingLib d with Some l => Ok l | None => Err EFault end) in
  match kind with
  | 0 => patch_const code x (s32 (sfield_offset d + fieldOffset)) s
  | 1 => if (ndx l <? 0) || (sharedLibsIndexNumber (lk_ld s) <? ndx l) then Err (EPanic "invalid lib index") else patch_const code x (s32 (ndx l * 4)) s
  | 2 => patch_const code x (s32 ((sfield_offset d + fieldOffset) * 4)) s
  | 3 => patch_const code x (s32 (Z.shiftl 4294967295 STACK_CHUNK)) s
  | _ => Err (EPanic "unknown static field symbol %d")
  end.

Definition patchClassPointer (code : Z) (x : SymbolDesc) (className : cstring) (s : st) : res st :=
  let! '(c, s) := (if char_at className 0 =? c_bracket
                   then let! '(c, k) := findSharedArrayClassDesc java_lang_Object class_prim sz_ArrayClassDesc (S (length className)) className (lk_cs s) in
                        Ok (c, set_lk k s)
                   else let! c := findClassDesc className (lk_cs s) in Ok (c, s)) in
  if c =? NULL then Err (EPanic "Link error: Required class not found: %s") else patch_const code x c s.

(** calls of a method that does not exist or has no code end in a panic *)
Definition patchDirectMethodAddress (code : Z) (x : SymbolDesc) (className methodName methodSignature : cstring) (s : st) : res st :=
  let! '(c, m) := findClassDescAndMethod java_lang_Object K className methodName methodSignature (lk_cs s) in
  if m =? NULL then patch_rel code x (should_not_be_called K) s else
  let! f := read_field (mcode s) m in
  patch_rel code x (if f =? NULL then should_not_be_called K else f) s.

Definition patchStringAddress (code : Z) (x : SymbolDesc) (value : cstring) (s : st) : res st :=
  let! '(obj, m) := newDomainZeroString value (lk_mem s) in
  if obj =? NULL then Err (EPanic "could not create string object") else patch_const code x obj (set_lk_mem m s).

Definition nth_address (l : list Z) (i : Z) : res Z :=
  if i <? 0 then Err EFault else match l !! Z.to_nat i with Some a => Ok a | None => Err EFault end.
Definition patchRelativeLongAddress (code : Z) (x : SymbolDesc) (operation : Z) (s : st) : res st :=
  let! f := nth_address (longops K) operation in patch_rel code x f s.

Definition primitive_char (t : Z) : option Z :=
  match t with
  | 0 => Some 73 | 1 => Some 74 | 2 => Some 70 | 3 => Some 68 | 5 => Some 66 | 6 => Some 67 | 7 => Some 83 | 8 => Some 90
  | _ => None
  end.
Definition patchPrimitiveClassPointer (code : Z) (x : SymbolDesc) (primitiveType : Z) (s : st) : res st :=
  match primitive_char primitiveType with
  | Some p => patch_const code x (class_prim p) s
  | None => Err (EPanic "not primitive")
  end.
Definition patchUnresolvedJump (code : Z) (x : SymbolDesc) (targetNCIndex : Z) (s : st) : res st :=
  patch_const code x (s32 (u32 (u32 targetNCIndex + code))) s.

(** [VMSUPPORT(_ndx_)]; the test lets [numberVMOperations] itself through *)
Definition VMSUPPORT (i : Z) (s : st) : res Z :=
  let! k := nth_address (ld_vmindex (lk_ld s)) i in nth_address (vmsupport_fkt K) k.
Definition wrong_operation (i : Z) : bool := (i <=? 0) || (Z.of_nat (length vmsupport_names) <? i).

(** ** The symbols of a method *)

Context (allocObjectFunction allocArrayFunction : Z).

(** one turn of the loop of [patchMethodSymbols] *)
Definition patchSymbol (method code : Z) (x : SymbolDesc) (s : st) : res st :=
  match sym x with
  | SymDomainZero => Err (EPanic "DomainZeroSTEntry no longer used.")
  | SymExceptionHandler => patch_rel code x (exceptionHandler K) s
  | SymDEPFunction _ _ _ => Err (EPanic "DEPFUNCTION no longer supported")
  | SymStaticField c k o => patchStaticFieldAddress code x c k o s
  | SymAllocObject => patch_rel code x allocObjectFunction s
  | SymClass c => patchClassPointer code x c s
  | SymDirectMethodCall c n t => patchDirectMethodAddress code x c n t s
  | SymString v => patchStringAddress code x v s
  | SymAllocArray => patch_rel code x allocArrayFunction s
  | SymAllocMultiArray => patch_rel code x (vmSpecialAllocMultiArray K) s
  | SymLongArithmetic o => patchRelativeLongAddress code x o s
  | SymVMSupport o =>
      if wrong_operation o then Err (EPanic "wrong vmsupport index") else
      let! f := VMSUPPORT o s in patch_rel code x f s
  | SymPrimitiveClass t => patchPrimitiveClassPointer code x t s
  | SymUnresolvedJump t => patchUnresolvedJump code x t s
  | SymVMAbsolute o =>
      if wrong_operation o then Err (EPanic "wrong vmabssupport index") else
      let! f := VMSUPPORT o s in patch_const code x f s
  | SymStackMapOld _ _ | SymStackMap _ _ _ => Ok s
  | SymExceptionTable t b e c =>
      let! y := (if strcmp_eq c (str "any") then Ok NULL else findClassDesc c (lk_cs s)) in
      Ok (add_exception method (MkException y b e t) s)
  | SymThreadPointer => patch_const code x (curthrP K) s
  | SymStackChunkSize => Ok (set_lk_mem (patchByte code x STACK_CHUNK (lk_mem s)) s)
  | SymProfile _ => Err (EPanic "Linker unknown profile symbol %d")
  | SymMethodeDesc => patch_const code x method s
  | SymTCBOffset k => if k =? 1 then patch_const code x (offset_stack K) s else Err (EPanic "Linker unknown TCBOffset symbol %d")
  end.
Fixpoint patch_symbols (patch : SymbolDesc -> st -> res st) (l : list SymbolDesc) (s : st) : res st :=
  match l with
  | [] => Ok s
  | x :: l => let! s := patch x s in patch_symbols patch l s
  end.
(** the table is filled from its start: [exCount = 0] *)
Definition patchMethodSymbols (method code : Z) (d : MethodDesc) (s : st) : res st :=
  patch_symbols (patchSymbol method code) (symbols d) (clear_exceptions method s).

(** the code of a copy: what does not depend on its position is kept *)
Definition repatchSymbol (method code : Z) (x : SymbolDesc) (s : st) : res st :=
  match sym x with
  | SymDomainZero | SymVMAbsolute _ | SymExceptionTable _ _ _ _ | SymThreadPointer | SymStackChunkSize => Ok s
  | SymTCBOffset _ => Err (EPanic "Linker unknown symbol %d")
  | _ => patchSymbol method code x s
  end.
Definition repatchMethodSymbols (method code : Z) (d : MethodDesc) (s : st) : res st :=
  patch_symbols (repatchSymbol method code) (symbols d) s.

(** [domain] is the code memory of the domain that gets the copy. *)
Definition cloneMethodInDomain (domain : domain_code) (method : Z) (d : MethodDesc) (s : st) : res (Z * domain_code * st) :=
  let cs := lk_cs s in
  let set_al a s := set_lk (MkCS (classdescs (lk_cs s)) (slibs (lk_cs s)) (sharedLibs (lk_cs s)) (sharedArrayClasses (lk_cs s)) (dz_code (lk_cs s)) a) s in
  let! '(new_method, domain, a) := malloc_methoddescs sizeof_MethodDesc domain 1 (cs_alloc cs) in
  if new_method =? NULL then Ok (NULL, domain, set_al a s) else
  let! from := read_field (mcode s) method in
  let! '(code, domain, a) := malloc_nativecode domain (numberOfCodeBytes d) a in
  let s := set_mcode new_method code (set_al a s) in
  let s := set_lk_mem (memcpy (lk_mem s) code from (numberOfCodeBytes d)) s in
  let! s := repatchMethodSymbols new_method code d s in
  Ok (new_method, domain, s).

(** ** A library *)

Definition setCodeStart_method (lib : SharedLibDesc) (c : Z) (j : nat) (d : MethodDesc) (s : st) : st :=
  set_mcode (method_at (methods_of K c) (Z.of_nat j))
    (if numberOfCodeBytes d =? 0 then 0 else lib_code lib + codeOffset d) s.
(** [for (j = 0; ...) f(&methods[j])] *)
Fixpoint each_method {X} (f : nat -> MethodDesc -> X -> res X) (j : nat) (l : list MethodDesc) (s : X) : res X :=
  match l with
  | [] => Ok s
  | d :: l => let! s := f j d s in each_method f (S j) l s
  end.
(** [for (i = 0; i < n; i++) f(&lib->allClasses[i])] *)
Fixpoint each_class (f : Z -> st -> res st) (l : SharedLibDesc) (n : nat) (i : Z) (s : st) : res st :=
  match n with
  | O => Ok s
  | S n => let! s := f (class_at l i) s in each_class f l n (i + 1) s
  end.

Definition setCodeStart (lib : SharedLibDesc) (s : st) : res st :=
  each_class (fun c s =>
    let! d := cls c (lk_cs s) in
    each_method (fun j m s => Ok (setCodeStart_method lib c j m s)) 0 (methods d) s)
  lib (Z.to_nat (numberOfClasses lib)) 0 s.

(** an allocation from DomainZero's code memory *)
Definition lk_alloc (f : domain_code -> A -> res (Z * domain_code * A)) (s : st) : res (Z * st) :=
  let! '(a, d, al) := f (dz_code (lk_cs s)) (cs_alloc (lk_cs s)) in
  Ok (a, set_lk (ld_cs (with_code d al (lk_ld s))) s).

(** the class pointer stands in front of the table *)
Definition createVTable (c : Z) (s : st) : res st :=
  let! d := cls c (lk_cs s) in
  let vtableSize := Z.of_nat (length (vtableSym d)) in
  let! '(v, s) := lk_alloc (fun d => malloc_vtable d (vtableSize + 1)) s in
  if v =? NULL then Err (EAssert "vtable != NULL") else
  let m := memset (lk_mem s) v 0 (4 * vtableSize + 4) in
  let s := set_vtable c (v + 4) (set_lk_mem (store32 m v c) s) in
  if c =? java_lang_Object then Ok s else
  let! '(a, s) := lk_alloc (fun d => malloc_methodVtable d vtableSize) s in
  Ok (set_methodVtable c a s).

Definition find_interface (lib : Z) (name : cstring) (s : st) : res Z :=
  let! scl := findClassDescInSharedLib java_lang_Object lib name (lk_cs s) in
  let! scl := (if scl =? NULL then findClassDesc name (lk_cs s) else Ok scl) in
  if scl =? NULL then Err (EPanic "Cannot find interface %s while linking class %s of library %s") else Ok scl.
Fixpoint find_interfaces (lib : Z) (names : list cstring) (s : st) : res (list Z) :=
  match names with
  | [] => Ok []
  | n :: names => let! i := find_interface lib n s in let! l := find_interfaces lib names s in Ok (i :: l)
  end.
Definition set_interfaces (l : list Z) (c : ClassDesc) : ClassDesc :=
  MkClass (classType c) (c_nm c) (superclass c) (ifname c) l (instanceSize c) (objmap c) (fields c) (staticFieldsSize c)
    (sfield_offset c) (staticsMap c) (vtableSym c) (methods c) (definingLib c) (elementClass c) (arrayClass c).

(** an empty class name marks a hole *)
Fixpoint fill_vtable (v mv : Z) (j : Z) (l : list (cstring * cstring * cstring)) (s : st) : res st :=
  match l with
  | [] => Ok s
  | (c, n, t) :: l =>
      if strcmp_eq c [] then fill_vtable v mv (j + 1) l s else
      let! m := findMethodInSharedLibs java_lang_Object K c n t (lk_cs s) in
      if m =? NULL then Err (EAssert "method != NULL") else
      let! f := read_field (mcode s) m in
      let s := set_lk_mem (store32 (store32 (lk_mem s) (v + 4 * j) f) (mv + 4 * j) m) s in
      fill_vtable v mv (j + 1) l s
  end.

Definition link_class (lib c : Z) (s : st) : res st :=
  let! d := cls c (lk_cs s) in
  let! ifs := find_interfaces lib (ifname d) s in
  let s := set_lk (with_classes (alter (set_interfaces ifs) c) (lk_cs s)) s in
  let! s := each_method (fun j m s =>
      let method := method_at (methods_of K c) (Z.of_nat j) in
      let! code := read_field (mcode s) method in
      patchMethodSymbols method code m s) 0 (methods d) s in
  if Z.of_nat (length (vtableSym d)) <? 11 then Err (EPanic "vtableSize<11") else
  let! v := read_field (vtable s) c in
  let! mv := read_field (methodVtable s) c in
  fill_vtable v mv 0 (vtableSym d) s.

Definition linksharedlib (lib : Z) (s : st) : res st :=
  let! l := slib lib (lk_cs s) in
  let n := Z.to_nat (numberOfClasses l) in
  let! s := setCodeStart l s in
  let! s := each_class createVTable l n 0 s in
  each_class (link_class lib) l n 0 s.
End Patch.
