(* ===== verification/Linking.v ===== *)
(** * Every reference of a linked library is resolved (core/load.c)

    The lookup of methods equals a scan without hash keys; the words the
    linker writes make the code refer to what its symbols name, whatever the
    order of the symbols; and linking a library writes only into its code and
    its new method tables. *)

From S2P Require Import Prelude Mem CString Malloc Alloc CodeMem BootFS Classes CodeFile CodeFormat CodeLoad Linker.
#[local] Open Scope Z_scope.

(** ** Finding a method *)

Section FindMethod.
Context {A : Type} `{!Allocator A} (java_lang_Object : Z) (K : kernel).
Abbreviation cst := (class_state A) (only parsing).

(** the reference: the first class of that name with such a method *)
Definition method_in (s : cst) (c : Z) (classname methodname signature : cstring) : option Z :=
  match classdescs s !! c with
  | Some d => if strcmp_eq classname (c_nm d) then index_method 0 (method_names d) methodname signature else None
  | None => None
  end.
Fixpoint first_method (s : cst) (l : list Z) (classname methodname signature : cstring) : Z * Z :=
  match l with
  | [] => (NULL, NULL)
  | c :: l => match method_in s c classname methodname signature with
              | Some j => (c, method_at (methods_of K c) j)
              | None => first_method s l classname methodname signature
              end
  end.
(** a library without classes of the program still has [java/lang/Object] *)
Definition method_reference (s : cst) (classname methodname signature : cstring) : Z * Z :=
  if strcmp_eq classname name_Object
  then match sharedLibs s with [] => (NULL, NULL) | _ => findClassDescAndMethodInObject java_lang_Object K methodname signature end
  else first_method s (all_lib_classes s) classname methodname signature.

Section Names.
Context (s : cst) (classname methodname signature : cstring).
Abbreviation first l := (first_method s l classname methodname signature) (only parsing).

Lemma first_method_app l1 l2 : (forall c, c ∈ l1 -> c <> NULL) ->
  first (l1 ++ l2) = if fst (first l1) =? NULL then first l2 else first l1.
Proof using.
  induction l1 as [|c l1 IH]; intros H; [done|]. cbn [app first_method].
  destruct (method_in s c classname methodname signature); [|apply IH; intros x Hx; by apply H, list_elem_of_further].
  cbn [fst]. rewrite (proj2 (Z.eqb_neq c NULL)); [done|]. apply H, list_elem_of_here.
Qed.
Lemma first_method_none l : (forall c, c ∈ l -> method_in s c classname methodname signature = None) -> first l = (NULL, NULL).
Proof using.
  induction l as [|c l IH]; intros H; [done|]. cbn [first_method]. rewrite H by apply list_elem_of_here.
  apply IH. intros x Hx. by apply H, list_elem_of_further.
Qed.
Lemma first_method_null l : (forall c, c ∈ l -> c <> NULL) -> fst (first l) = NULL -> first l = (NULL, NULL).
Proof using.
  induction l as [|c l IH]; intros H; [done|]. cbn [first_method]. destruct (method_in _ _ _ _ _); [|intros E; apply IH; [|done]].
  - cbn [fst]. intros E. exfalso. by apply (H c); [apply list_elem_of_here|].
  - intros x Hx. by apply H, list_elem_of_further.
Qed.

Lemma find_method_in_classes_ref l n : forall i,
  (forall k, (i <= k < i + n)%nat -> is_Some (classdescs s !! class_at l (Z.of_nat k))) ->
  find_method_in_classes K n (Z.of_nat i) l classname methodname signature s =
  Ok (first (map (fun i => class_at l (Z.of_nat i)) (seq i n))).
Proof using.
  induction n as [|n IH]; intros i Hd; [done|]. cbn [find_method_in_classes seq map first_method].
  destruct (Hd i ltac:(lia)) as [d E]. unfold cls, method_in. rewrite E. cbn [rbind].
  destruct (if strcmp_eq classname (c_nm d) then _ else None); [done|].
  replace (Z.of_nat i + 1) with (Z.of_nat (S i)) by lia. apply IH. intros; apply Hd; lia.
Qed.

Context (Hok : libs_ok java_lang_Object s).
Lemma find_method_in_lib_ref lib l :
  slibs s !! lib = Some l -> classname <> name_Object ->
  findClassDescAndMethodInLib java_lang_Object K lib classname methodname signature s = Ok (first (lib_classes l)).
Proof using Hok.
  intros E Hn. unfold findClassDescAndMethodInLib, slib, strcmp_eq. rewrite bool_decide_false, E by done. cbn [rbind].
  change 0 with (Z.of_nat 0). apply find_method_in_classes_ref. intros k Hk.
  destruct (lo_class _ s Hok lib l (class_at l (Z.of_nat k)) E) as (_ & d & Ed & _); [|eauto].
  apply lib_class_lt. exists k. split; [lia|done].
Qed.
(** a library whose key does not cover the name has no class of that name *)
Lemma method_key_miss lib l :
  slibs s !! lib = Some l -> testHashKey classname (key l) LIB_HASHKEY_LEN = false -> first (lib_classes l) = (NULL, NULL).
Proof using Hok.
  intros E Hk. apply first_method_none. intros c Hc. destruct (lo_class _ s Hok lib l c E Hc) as (_ & d & Ed & Hkd & _).
  unfold method_in, strcmp_eq. rewrite Ed. rewrite bool_decide_false; [done|]. congruence.
Qed.

Lemma find_method_in_libs_ref (hit : bool) libs :
  classname <> name_Object -> (forall lib, lib ∈ libs -> is_Some (slibs s !! lib)) ->
  find_method_in_libs java_lang_Object K hit libs classname methodname signature s =
  Ok (if hit then first (concat (map (fun lib => match slibs s !! lib with Some l => lib_classes l | None => [] end) libs)) else (NULL, NULL)).
Proof using Hok.
  intros Hn. induction libs as [|lib libs IH]; intros Hl; [by destruct hit|]. cbn [find_method_in_libs map concat].
  destruct (Hl lib) as [l E]; [apply list_elem_of_here|]. unfold slib at 1. rewrite E. cbn [rbind].
  specialize (IH (fun x H => Hl x (list_elem_of_further _ _ _ H))).
  assert (Hnn : forall c, c ∈ lib_classes l -> c <> NULL) by (intros c Hc; by apply (lo_class _ s Hok lib l c E)).
  rewrite first_method_app by done. pose proof (find_method_in_lib_ref lib l E Hn) as Ef. pose proof (method_key_miss lib l E) as Hm.
  pose proof (first_method_null (lib_classes l) Hnn) as H0.
  destruct (testHashKey classname (key l) LIB_HASHKEY_LEN), hit; cbn [Bool.eqb]; rewrite ?Ef; cbn [rbind].
  - destruct (first (lib_classes l)) as [c x]. cbn [fst] in *. by destruct (Z.eqb_spec c NULL).
  - done.
  - rewrite IH, Hm by done. done.
  - rewrite Hm by done. cbn [fst]. exact IH.
Qed.

Lemma find_method_in_libs_Object (hit : bool) libs :
  classname = name_Object -> (forall lib, lib ∈ libs -> is_Some (slibs s !! lib)) ->
  let x := findClassDescAndMethodInObject java_lang_Object K methodname signature in
  exists y, find_method_in_libs java_lang_Object K hit libs classname methodname signature s = Ok y /\
    (y = x \/ y = (NULL, NULL)) /\
    (y = (NULL, NULL) -> fst x = NULL \/ forall lib l, lib ∈ libs -> slibs s !! lib = Some l ->
       testHashKey classname (key l) LIB_HASHKEY_LEN = negb hit).
Proof using.
  intros Hn Hl x. induction libs as [|lib libs IH]; cbn [find_method_in_libs].
  { exists (NULL, NULL). split_and!; [done|by right|]. intros _. right. by intros lib l ?%not_elem_of_nil. }
  destruct (Hl lib) as [l E]; [apply list_elem_of_here|]. unfold slib at 1. rewrite E. cbn [rbind].
  destruct (IH (fun z H => Hl z (list_elem_of_further _ _ _ H))) as (y & Ey & H1 & H2).
  unfold findClassDescAndMethodInLib. rewrite Hn in Ey |- *. change (strcmp_eq name_Object name_Object) with true.
  destruct (testHashKey name_Object (key l) LIB_HASHKEY_LEN) eqn:Ek, hit; cbn [Bool.eqb rbind];
    try (exists y; split; [exact Ey|]; split; [exact H1|]; intros Hy; specialize (H2 Hy); destruct H2 as [H2|H2]; [by left|right];
         intros lb ld [->|Hin]%elem_of_cons Eld; [cbn [negb]; congruence|rewrite <- Hn; by apply (H2 lb ld)]).
  all: subst x; destruct (findClassDescAndMethodInObject _ _ _ _) as [c z]; cbn [fst] in *; destruct (Z.eqb_spec c NULL) as [Ec|Ec]; cbn [negb];
    [exists y; split; [exact Ey|split; [exact H1|by left]]|exists (c, z); split; [reflexivity|split; [by left|intros [=]; congruence]]].
Qed.
End Names.

Lemma InObject_null methodname signature :
  java_lang_Object <> NULL -> fst (findClassDescAndMethodInObject java_lang_Object K methodname signature) = NULL ->
  findClassDescAndMethodInObject java_lang_Object K methodname signature = (NULL, NULL).
Proof.
  unfold findClassDescAndMethodInObject. intros Ho. destruct (_ && _); [done|]. by destruct (index_method _ _ _ _).
Qed.

Lemma findClassDescAndMethod_ref s classname methodname signature :
  libs_ok java_lang_Object s ->
  findClassDescAndMethod java_lang_Object K classname methodname signature s = Ok (method_reference s classname methodname signature).
Proof.
  intros Hok. unfold findClassDescAndMethod, method_reference, strcmp_eq. case_bool_decide as En.
  - pose proof (lo_object _ s Hok) as (_ & _ & _ & _ & Ho). pose proof (lo_libs _ s Hok) as Hl.
    destruct (sharedLibs s) as [|lb libs]; [done|].
    destruct (find_method_in_libs_Object s classname methodname signature true (lb :: libs) En Hl) as (y & -> & Hy & Hy0).
    destruct (find_method_in_libs_Object s classname methodname signature false (lb :: libs) En Hl) as (z & Ez & Hz & Hz0).
    cbn [rbind]. pose proof (InObject_null methodname signature Ho) as H0.
    set (x := findClassDescAndMethodInObject java_lang_Object K methodname signature) in *.
    destruct (decide (fst x = NULL)) as [Hx|Hx].
    { rewrite (H0 Hx) in *. assert (y = (NULL, NULL)) as -> by (by destruct Hy). assert (z = (NULL, NULL)) as -> by (by destruct Hz). exact Ez. }
    assert (Hxn : x <> (NULL, NULL)) by (by intros ->).
    destruct Hy as [->| ->]; [destruct x as [c w]; cbn [fst] in *; by rewrite (proj2 (Z.eqb_neq c NULL))|].
    destruct (Hy0 eq_refl) as [|Hall]; [done|]. change (negb (NULL =? NULL)) with false. cbv iota. rewrite Ez. f_equal. destruct Hz as [|Hz]; [done|]. exfalso.
    destruct (Hz0 Hz) as [|Hall2]; [done|]. destruct (Hl lb) as [l El]; [apply list_elem_of_here|].
    pose proof (Hall2 lb l (list_elem_of_here _ _) El) as E2. rewrite (Hall lb l (list_elem_of_here _ _) El) in E2. done.
  - rewrite !find_method_in_libs_ref by (done || apply (lo_libs _ s Hok)). cbn [rbind].
    pose proof (first_method_null s classname methodname signature (all_lib_classes s)) as H0.
    fold (all_lib_classes s). destruct (first_method s (all_lib_classes s) classname methodname signature) as [c x] eqn:E. cbn [fst] in *.
    destruct (Z.eqb_spec c NULL) as [->|]; [|done]. cbn [negb]. rewrite H0; [done| |done].
    intros c' Hc. by apply (all_lib_classes_nonnull java_lang_Object s).
Qed.
End FindMethod.

(** ** Lookups while classes are linked *)

(** [d'] is [d] up to the interfaces and the cached array class. *)
Definition linked_as (d d' : ClassDesc) : Prop := set_interfaces (interfaces d') (set_arrayClass (arrayClass d') d) = d'.
Definition evolves {A} (s s' : class_state A) : Prop :=
  slibs s' = slibs s /\ sharedLibs s' = sharedLibs s /\
  (forall c, c ∈ sharedArrayClasses s -> c ∈ sharedArrayClasses s') /\
  forall c d, classdescs s !! c = Some d -> exists d', classdescs s' !! c = Some d' /\ linked_as d d'.

Section Evolves.
Context {A : Type} (java_lang_Object : Z) (K : kernel).
Abbreviation cst := (class_state A) (only parsing).

Lemma linked_as_refl d : linked_as d d.
Proof. by destruct d. Qed.
Lemma linked_as_trans d1 d2 d3 : linked_as d1 d2 -> linked_as d2 d3 -> linked_as d1 d3.
Proof. unfold linked_as. intros H1 H2. rewrite <- H2, <- H1. done. Qed.
Lemma linked_as_fields d d' : linked_as d d' ->
  c_nm d' = c_nm d /\ methods d' = methods d /\ classType d' = classType d /\ sfield_offset d' = sfield_offset d /\
  definingLib d' = definingLib d /\ vtableSym d' = vtableSym d /\ ifname d' = ifname d /\ superclass d' = superclass d.
Proof. unfold linked_as. by intros <-. Qed.
Lemma evolves_refl (s : cst) : evolves s s.
Proof. split_and!; try done. intros c d ?. exists d. split; [done|apply linked_as_refl]. Qed.
Lemma evolves_trans (s1 s2 s3 : cst) : evolves s1 s2 -> evolves s2 s3 -> evolves s1 s3.
Proof.
  intros (A1 & A2 & A3 & A4) (B1 & B2 & B3 & B4). split_and!; try congruence; [by intros c Hc; apply B3, A3|].
  intros c d Hc. destruct (A4 c d Hc) as (d' & Hd' & H1). destruct (B4 c d' Hd') as (d'' & Hd'' & H2).
  exists d''. split; [done|by eapply linked_as_trans].
Qed.
Lemma libs_ok_evolves (s s' : cst) : evolves s s' -> libs_ok java_lang_Object s -> libs_ok java_lang_Object s'.
Proof.
  intros (E1 & E2 & _ & Hg) [H1 H2 H3]. split.
  - by rewrite E2, E1.
  - rewrite E1. intros lib l c Hl Hc. destruct (H2 lib l c Hl Hc) as (Hn & d & Hd & Hk & Hb & Hp).
    destruct (Hg c d Hd) as (d' & Hd' & (F1 & _ & F2 & _)%linked_as_fields). split; [done|]. exists d'. by rewrite F1, F2.
  - destruct H3 as (d & Hd & Hn & Ht & Ho). destruct (Hg _ d Hd) as (d' & Hd' & (F1 & _ & F2 & _)%linked_as_fields).
    exists d'. by rewrite F1, F2.
Qed.
Lemma name_of_evolves (s s' : cst) c n : evolves s s' -> name_of s c = Some n -> name_of s' c = Some n.
Proof.
  intros (_ & _ & _ & Hg). unfold name_of. destruct (classdescs s !! c) as [d|] eqn:E; [|done]. intros [= <-].
  destruct (Hg c d E) as (d' & -> & (F & _)%linked_as_fields). cbn. by rewrite F.
Qed.
Lemma all_lib_classes_desc (s : cst) c : libs_ok java_lang_Object s -> c ∈ all_lib_classes s -> is_Some (classdescs s !! c).
Proof.
  intros Hok Hc. apply list_elem_of_In, in_concat in Hc as (l & Hl & Hin). apply in_map_iff in Hl as (lib & <- & _).
  destruct (slibs s !! lib) as [ld|] eqn:E; [|done]. apply list_elem_of_In in Hin.
  destruct (lo_class _ s Hok lib ld c E Hin) as (_ & d & Hd & _). eauto.
Qed.

Lemma first_named_ext (s s' : cst) name l : (forall c, c ∈ l -> name_of s' c = name_of s c) -> first_named s' name l = first_named s name l.
Proof.
  unfold first_named. induction l as [|c l IH]; intros H; [done|]. cbn [list_find]. rewrite (H c) by apply list_elem_of_here.
  specialize (IH (fun x Hx => H x (list_elem_of_further _ _ _ Hx))).
  case_decide; [done|]. destruct (list_find _ l) as [[? ?]|], (list_find _ l) as [[? ?]|]; exact IH.
Qed.
Lemma first_method_ext (s s' : cst) l cn n t :
  (forall c, c ∈ l -> method_in s' c cn n t = method_in s c cn n t) -> first_method K s' l cn n t = first_method K s l cn n t.
Proof.
  induction l as [|c l IH]; intros H; [done|]. cbn [first_method]. rewrite H by apply list_elem_of_here.
  case_match; [done|]. apply IH. intros x Hx. by apply H, list_elem_of_further.
Qed.

Lemma all_lib_classes_evolves (s s' : cst) : evolves s s' -> all_lib_classes s' = all_lib_classes s.
Proof. intros (E1 & E2 & _). unfold all_lib_classes. by rewrite E1, E2. Qed.
Lemma findClassDesc_evolves (s s' : cst) name :
  evolves s s' -> libs_ok java_lang_Object s -> findClassDesc java_lang_Object name s' = findClassDesc java_lang_Object name s.
Proof.
  intros He Hok. rewrite (findClassDesc_ref _ _ _ Hok), (findClassDesc_ref _ _ _ (libs_ok_evolves _ _ He Hok)).
  rewrite (all_lib_classes_evolves s s' He). f_equal. case_bool_decide; [done|]. apply first_named_ext. intros c Hc.
  destruct (all_lib_classes_desc s c Hok Hc) as [d Hd]. assert (name_of s c = Some (c_nm d)) as E by (unfold name_of; by rewrite Hd).
  rewrite E. by eapply name_of_evolves.
Qed.
Lemma method_reference_evolves (s s' : cst) cn n t :
  evolves s s' -> libs_ok java_lang_Object s -> method_reference java_lang_Object K s' cn n t = method_reference java_lang_Object K s cn n t.
Proof.
  intros He Hok. unfold method_reference. rewrite (all_lib_classes_evolves s s' He). destruct He as (E1 & E2 & E3 & Hg).
  rewrite E2. destruct (strcmp_eq cn name_Object); [done|]. apply first_method_ext. intros c Hc.
  destruct (all_lib_classes_desc s c Hok Hc) as [d Hd]. destruct (Hg c d Hd) as (d' & Hd' & (F1 & F2 & _)%linked_as_fields).
  unfold method_in, method_names. by rewrite Hd, Hd', F1, F2.
Qed.
End Evolves.

(** ** Words in the code *)

Lemma load8_patchConstant_ne code x v m a :
  a < code + immediateNCIndex x \/ code + immediateNCIndex x + 4 <= a -> load8 (patchConstant code x v m) a = load8 m a.
Proof. intros H. unfold patchConstant. cbv zeta. rewrite !load8_store8_ne by lia. done. Qed.
Lemma patchConstant_word code x v m : load32 (patchConstant code x v m) (code + immediateNCIndex x) = u32 v.
Proof.
  unfold patchConstant. cbv zeta. set (a := code + immediateNCIndex x). rewrite <- (load32_store32 m a v). unfold load32, load16.
  unfold store32, store16.
  assert (Hb : forall k, u8 (Z.land (Z.shiftr v k) 255) = u8 (Z.shiftr v k)).
  { intros k. change 255 with (Z.ones 8). rewrite Z.land_ones by lia. unfold u8, uwrap. by rewrite Z.mod_mod by lia. }
  pose proof (Hb 0) as H0. rewrite Z.shiftr_0_r in H0.
  replace (a + 2 + 1) with (a + 3) by lia.
  repeat first [rewrite load8_store8 | rewrite load8_store8_ne by lia]. rewrite H0, !Hb, !Z.shiftr_shiftr by lia. done.
Qed.
Lemma patchRelative_calls code x f m :
  u32 (code + nextInstrNCIndex x + load32 (patchRelativeAddress code x f m) (code + immediateNCIndex x)) = u32 f.
Proof.
  unfold patchRelativeAddress. rewrite patchConstant_word. set (n := code + nextInstrNCIndex x).
  assert (u32 (s32 (- (n - f))) = u32 (- (n - f))) as ->.
  { unfold u32, uwrap, s32, swrap. rewrite Zminus_mod_idemp_l. f_equal. lia. }
  unfold u32, uwrap. rewrite Z.add_mod_idemp_r by lia. f_equal. lia.
Qed.

(** ** What a symbol asks for *)

Definition width (x : SymbolDesc) : Z :=
  match sym x with
  | SymStackMapOld _ _ | SymStackMap _ _ _ | SymExceptionTable _ _ _ _ => 0
  | SymStackChunkSize => 1
  | _ => 4
  end.
Definition in_patch (code : Z) (x : SymbolDesc) (a : Z) : Prop :=
  code + immediateNCIndex x <= a < code + immediateNCIndex x + width x.

Section Resolve.
Context {A : Type} `{!Allocator A} (java_lang_Object : Z) (class_prim : Z -> Z) (sz_ArrayClassDesc : Z) (K : kernel).
Context (newDomainZeroString : cstring -> memory -> res (Z * memory)) (allocObjectFunction allocArrayFunction : Z).
Abbreviation st := (link_state A) (only parsing).

(** the word in the code is [v]; the call that the word ends reaches [f] *)
Definition absolute (s : st) (code : Z) (x : SymbolDesc) (v : Z) : Prop :=
  load32 (lk_mem s) (code + immediateNCIndex x) = u32 v.
Definition calls (s : st) (code : Z) (x : SymbolDesc) (f : Z) : Prop :=
  u32 (code + nextInstrNCIndex x + load32 (lk_mem s) (code + immediateNCIndex x)) = u32 f.

Definition class_ref (s : class_state A) (name : cstring) : Z :=
  if strcmp_eq name name_Object then java_lang_Object else first_named s name (all_lib_classes s).
(** the class that a class symbol means *)
Definition names_class (s : class_state A) (name : cstring) (c : Z) : Prop :=
  c <> NULL /\
  if char_at name 0 =? c_bracket then c ∈ sharedArrayClasses s /\ name_of s c = Some name else c = class_ref s name.
(** the entry point of a method; [None] while its code has no address *)
Definition method_entry (s : st) (cn n t : cstring) : option Z :=
  let m := snd (method_reference java_lang_Object K (lk_cs s) cn n t) in
  if m =? NULL then Some (should_not_be_called K) else
  f ← mcode s !! m; Some (if f =? NULL then should_not_be_called K else f).
Definition support_entry (s : st) (o f : Z) : Prop := VMSUPPORT K o s = Ok f.

(** The code at [x] is what the symbol asks for. *)
Definition resolved (s : st) (method code : Z) (x : SymbolDesc) : Prop :=
  match sym x with
  | SymExceptionHandler => calls s code x (exceptionHandler K)
  | SymStaticField c k o => exists d l, classdescs (lk_cs s) !! class_ref (lk_cs s) c = Some d /\
      slibs (lk_cs s) !! definingLib d = Some l /\
      match k with
      | 0 => absolute s code x (sfield_offset d + o)
      | 1 => 0 <= ndx l /\ absolute s code x (4 * ndx l)
      | 2 => absolute s code x (4 * (sfield_offset d + o))
      | _ => k = 3 /\ absolute s code x (- 2 ^ STACK_CHUNK)
      end
  | SymAllocObject => calls s code x allocObjectFunction
  | SymClass c => exists cl, names_class (lk_cs s) c cl /\ absolute s code x cl
  | SymDirectMethodCall c n t => exists f, method_entry s c n t = Some f /\ calls s code x f
  | SymString v => exists o m m', newDomainZeroString v m = Ok (o, m') /\ o <> NULL /\ absolute s code x o
  | SymAllocArray => calls s code x allocArrayFunction
  | SymAllocMultiArray => calls s code x (vmSpecialAllocMultiArray K)
  | SymLongArithmetic o => exists f, nth_address (longops K) o = Ok f /\ calls s code x f
  | SymVMSupport o => 0 < o /\ exists f, support_entry s o f /\ calls s code x f
  | SymVMAbsolute o => 0 < o /\ exists f, support_entry s o f /\ absolute s code x f
  | SymPrimitiveClass t => exists p, primitive_char t = Some p /\ absolute s code x (class_prim p)
  | SymUnresolvedJump t => absolute s code x (code + t)
  | SymThreadPointer => absolute s code x (curthrP K)
  | SymStackChunkSize => load8 (lk_mem s) (code + immediateNCIndex x) = STACK_CHUNK
  | SymMethodeDesc => absolute s code x method
  | SymTCBOffset k => k = 1 /\ absolute s code x (offset_stack K)
  | SymStackMapOld _ _ | SymStackMap _ _ _ | SymExceptionTable _ _ _ _ => True
  | SymDomainZero | SymDEPFunction _ _ _ | SymProfile _ => False
  end.

(** one entry of the exception table *)
Definition exception_of (s : class_state A) (x : SymbolDesc) : list ExceptionDesc :=
  match sym x with
  | SymExceptionTable t b e c => [MkException (if strcmp_eq c (str "any") then NULL else class_ref s c) b e t]
  | _ => []
  end.

(** string objects are made in the heap, not in code memory *)
Context (code_area : Z -> Prop).
Context (Hstring : forall v m o m', newDomainZeroString v m = Ok (o, m') -> forall a, code_area a -> load8 m' a = load8 m a).
Context (sz_pos : 0 < sz_ArrayClassDesc < 1000000).
Abbreviation good := (arrays_ok java_lang_Object class_prim) (only parsing).

(** what patching changes besides the words it writes; [X] are the classes
    whose interfaces may change *)
Definition step_but (X : Z -> Prop) (s s' : st) : Prop :=
  good (lk_cs s') /\ evolves (lk_cs s) (lk_cs s') /\
  (forall c d d', ~ X c -> classdescs (lk_cs s) !! c = Some d -> classdescs (lk_cs s') !! c = Some d' -> interfaces d' = interfaces d) /\
  mcode s' = mcode s /\ vtable s' = vtable s /\
  methodVtable s' = methodVtable s /\ ld_vmindex (lk_ld s') = ld_vmindex (lk_ld s) /\
  sharedLibsIndexNumber (lk_ld s') = sharedLibsIndexNumber (lk_ld s).
Abbreviation step := (step_but (fun _ => False)) (only parsing).
Definition writes (W : Z -> Prop) (s s' : st) : Prop :=
  forall a, code_area a -> ~ W a -> load8 (lk_mem s') a = load8 (lk_mem s) a.

Lemma step_refl X s : good (lk_cs s) -> step_but X s s.
Proof using. intros. split_and!; try done; [apply evolves_refl|congruence]. Qed.
Lemma step_trans X s1 s2 s3 : step_but X s1 s2 -> step_but X s2 s3 -> step_but X s1 s3.
Proof using.
  intros (_ & A2 & A8 & A3 & A4 & A5 & A6 & A7) (B1 & B2 & B8 & B3 & B4 & B5 & B6 & B7).
  split_and!; try congruence; [by eapply evolves_trans|]. intros c d d' Hx H1 H3.
  destruct A2 as (_ & _ & _ & A2). destruct (A2 c d H1) as (d2 & H2 & _). rewrite (B8 c d2 d'), (A8 c d d2); done.
Qed.
Lemma step_mono (X Y : Z -> Prop) s s' : (forall c, X c -> Y c) -> step_but X s s' -> step_but Y s s'.
Proof using. intros H (A1 & A2 & A8 & A9). split_and!; try done; [|apply A9..]. intros c d d' Hc. apply A8. intros Hx. by apply Hc, H. Qed.
Lemma writes_mono (W W' : Z -> Prop) s s' : (forall a, W a -> W' a) -> writes W s s' -> writes W' s s'.
Proof using. intros H Hw a Ha Hn. apply Hw; [done|]. intros Hc. by apply Hn, H. Qed.
Lemma writes_trans W s1 s2 s3 : writes W s1 s2 -> writes W s2 s3 -> writes W s1 s3.
Proof using. intros H1 H2 a Ha Hn. by rewrite H2, H1. Qed.

Lemma class_ref_eq (s : class_state A) name : libs_ok java_lang_Object s -> findClassDesc java_lang_Object name s = Ok (class_ref s name).
Proof using. intros Hok. rewrite (findClassDesc_ref _ _ _ Hok). unfold class_ref, strcmp_eq. by case_bool_decide. Qed.
Lemma class_ref_evolves (s s' : class_state A) name :
  evolves s s' -> libs_ok java_lang_Object s -> class_ref s' name = class_ref s name.
Proof using.
  intros He Hok. pose proof (findClassDesc_evolves java_lang_Object s s' name He Hok) as H.
  rewrite (class_ref_eq s name Hok), (class_ref_eq s' name (libs_ok_evolves _ _ _ He Hok)) in H. congruence.
Qed.

Lemma findShared_keeps fuel : forall name (s s' : class_state A) c,
  findSharedArrayClassDesc java_lang_Object class_prim sz_ArrayClassDesc fuel name s = Ok (c, s') ->
  forall x, x ∈ sharedArrayClasses s -> x ∈ sharedArrayClasses s'.
Proof using.
  induction fuel as [|fuel IH]; intros name s s' c H x Hx; [done|]. cbn [findSharedArrayClassDesc] in H.
  apply rbind_ok in H as ([c0|] & _ & H); [by injection H as <- <-|].
  apply rbind_ok in H as ([c1 s2] & E & H). injection H as <- <-. apply list_elem_of_further.
  unfold createSharedArrayClassDesc in E. apply rbind_ok in E as ([el s1] & E1 & E). destruct (el =? NULL); [done|].
  assert (sharedArrayClasses s2 = sharedArrayClasses s1) as ->.
  { unfold new_array_class in E. apply rbind_ok in E as ([[n d] a] & _ & E). by injection E as <- <-. }
  unfold element_of_name in E1. destruct (_ =? c_L).
  { apply rbind_ok in E1 as (v & _ & E1). apply rbind_ok in E1 as (c2 & _ & E1). by injection E1 as <- <-. }
  destruct (_ =? c_bracket); [by eapply IH|]. apply rbind_ok in E1 as (c2 & _ & E1). by injection E1 as <- <-.
Qed.

Lemma grows_evolves (s s' : class_state A) :
  grows s s' -> (forall x, x ∈ sharedArrayClasses s -> x ∈ sharedArrayClasses s') -> evolves s s'.
Proof using.
  intros (E1 & E2 & Hg) Hs. split_and!; try done. intros c d Hc. destruct (Hg c d Hc) as (d' & Hd' & H). exists d'. split; [done|].
  unfold same in H. unfold linked_as. rewrite H. assert (interfaces d' = interfaces d) as -> by (by rewrite <- H). rewrite <- H. by destruct d.
Qed.

Lemma same_interfaces (X : Z -> Prop) (s : class_state A) :
  forall c d d', ~ X c -> classdescs s !! c = Some d -> classdescs s !! c = Some d' -> interfaces d' = interfaces d.
Proof using. congruence. Qed.
Lemma set_lk_mem_step s m : good (lk_cs s) -> step s (set_lk_mem m s).
Proof using. intros H. split_and!; try done; [apply evolves_refl|exact (same_interfaces _ _)]. Qed.

(** writing a word at [x] *)
Lemma patch_const_spec s s' code x v :
  good (lk_cs s) -> width x = 4 -> patch_const code x v s = Ok s' ->
  step s s' /\ writes (in_patch code x) s s' /\ absolute s' code x v.
Proof using.
  intros Hg Hw H. injection H as <-. split_and!.
  - by apply set_lk_mem_step.
  - intros a _ Ha. cbn. apply load8_patchConstant_ne. unfold in_patch in Ha. lia.
  - apply patchConstant_word.
Qed.
Lemma patch_rel_spec s s' code x f :
  good (lk_cs s) -> width x = 4 -> patch_rel code x f s = Ok s' ->
  step s s' /\ writes (in_patch code x) s s' /\ calls s' code x f.
Proof using.
  intros Hg Hw H. injection H as <-. split_and!.
  - by apply set_lk_mem_step.
  - intros a _ Ha. cbn. unfold patchRelativeAddress. apply load8_patchConstant_ne. unfold in_patch in Ha. lia.
  - apply patchRelative_calls.
Qed.

(** names of array classes are well-formed *)
Definition class_name_ok (x : SymbolDesc) : Prop :=
  match sym x with
  | SymClass c => char_at c 0 = c_bracket -> array_sig c /\ Z.of_nat (length c) < 1000000
  | _ => True
  end.
Abbreviation patchSymbol := (patchSymbol java_lang_Object class_prim sz_ArrayClassDesc K newDomainZeroString allocObjectFunction allocArrayFunction) (only parsing).
Definition same_exceptions (method : Z) (s s' : st) : Prop :=
  forall m, m <> method -> exceptionTable s' !! m = exceptionTable s !! m.
Definition exceptions_at (s : st) (method : Z) : list ExceptionDesc := default [] (exceptionTable s !! method).

Lemma s32_absolute s code x v : absolute s code x (s32 v) -> absolute s code x v.
Proof using.
  unfold absolute. intros ->. unfold u32, uwrap, s32, swrap. rewrite Zminus_mod_idemp_l. f_equal. lia.
Qed.

Lemma patchStatic_spec s s' code x c k o :
  good (lk_cs s) -> width x = 4 -> patchStaticFieldAddress java_lang_Object code x c k o s = Ok s' ->
  step s s' /\ writes (in_patch code x) s s' /\ exceptionTable s' = exceptionTable s /\
  exists d l, classdescs (lk_cs s') !! class_ref (lk_cs s') c = Some d /\ slibs (lk_cs s') !! definingLib d = Some l /\
      match k with
      | 0 => absolute s' code x (sfield_offset d + o)
      | 1 => 0 <= ndx l /\ absolute s' code x (4 * ndx l)
      | 2 => absolute s' code x (4 * (sfield_offset d + o))
      | _ => k = 3 /\ absolute s' code x (- 2 ^ STACK_CHUNK)
      end.
Proof using.
  intros Hg Hw H. unfold patchStaticFieldAddress in H. rewrite class_ref_eq in H by apply Hg. cbn [rbind] in H.
  destruct (_ =? NULL); [done|]. unfold cls in H. destruct (classdescs (lk_cs s) !! _) as [d|] eqn:Ed; [|done]. cbn [rbind] in H.
  destruct (slibs (lk_cs s) !! _) as [l|] eqn:El; [|done]. cbn [rbind] in H.
  assert (HP : forall v, patch_const code x v s = Ok s' -> lk_cs s' = lk_cs s /\ exceptionTable s' = exceptionTable s) by (intros v Hv; by injection Hv as <-).
  destruct k as [|[[p|p|]|[p|p|]|]|p]; try done.
  - pose proof (HP _ H) as [-> He]. apply patch_const_spec in H as (? & ? & ?%s32_absolute); try done. split_and!; try done. by exists d, l.
  - pose proof (HP _ H) as [-> He]. apply patch_const_spec in H as (? & ? & H3%s32_absolute); try done. split_and!; try done.
    exists d, l. split_and!; done.
  - pose proof (HP _ H) as [-> He]. apply patch_const_spec in H as (? & ? & H3%s32_absolute); try done. split_and!; try done.
    exists d, l. split_and!; try done. by rewrite Z.mul_comm.
  - destruct (_ || _) eqn:Eb; [done|]. apply orb_false_iff in Eb as [Eb _]. apply Z.ltb_ge in Eb.
    pose proof (HP _ H) as [-> He]. apply patch_const_spec in H as (? & ? & H3%s32_absolute); try done. split_and!; try done.
    exists d, l. split_and!; try done. by rewrite Z.mul_comm.
Qed.

Lemma patchClass_spec s s' method code x c :
  good (lk_cs s) -> class_name_ok x -> sym x = SymClass c ->
  patchClassPointer java_lang_Object class_prim sz_ArrayClassDesc code x c s = Ok s' ->
  step s s' /\ writes (in_patch code x) s s' /\ resolved s' method code x /\ exceptionTable s' = exceptionTable s.
Proof using sz_pos.
  intros Hg Hn Hsym H. assert (Hw : width x = 4) by (unfold width; by rewrite Hsym). unfold class_name_ok in Hn. rewrite Hsym in Hn.
  unfold resolved, names_class. rewrite Hsym. unfold patchClassPointer in H. destruct (Z.eqb_spec (char_at c 0) c_bracket) as [Eb|Eb].
  - apply rbind_ok in H as ([cl s1] & E & H). apply rbind_ok in E as ([c1 k] & E & E'). injection E' as <- <-.
    destruct (Hn Eb) as [Hsig Hlen]. pose proof (findShared_keeps _ _ _ _ _ E) as Hkeep.
    apply findShared_spec in E as (Hg1 & [Hgr _] & Hin & Hname & _); try done.
    destruct (Z.eqb_spec c1 NULL) as [|Hnn]; [done|]. pose proof H as H0. apply patch_const_spec in H as (H1 & H2 & H3); try done.
    assert (lk_cs s' = k) as Ek by (by injection H0 as <-).
    split_and!; [|exact H2| |by injection H0 as <-].
    + eapply step_trans; [|exact H1]. split_and!; try done; [by apply grows_evolves|]. intros c0 d d' _ Hd Hd'. destruct Hgr as (_ & _ & Hgr).
      destruct (Hgr c0 d Hd) as (d2 & Hd2 & Hs2).
      assert (Some d' = Some d2) as [= ->] by exact (eq_trans (eq_sym Hd') Hd2). unfold same in Hs2. by rewrite <- Hs2.
    + exists c1. rewrite Ek. by split_and!.
  - rewrite class_ref_eq in H by apply Hg. cbn [rbind] in H. destruct (Z.eqb_spec (class_ref (lk_cs s) c) NULL) as [|Hnn]; [done|].
    pose proof H as H0. apply patch_const_spec in H as (H1 & H2 & H3); try done. assert (lk_cs s' = lk_cs s) as Ek by (by injection H0 as <-).
    split_and!; [done|done| |by injection H0 as <-]. exists (class_ref (lk_cs s) c). rewrite Ek. by split_and!.
Qed.

Lemma patchCall_spec s s' method code x c n t :
  good (lk_cs s) -> sym x = SymDirectMethodCall c n t -> patchDirectMethodAddress java_lang_Object K code x c n t s = Ok s' ->
  step s s' /\ writes (in_patch code x) s s' /\ resolved s' method code x /\ exceptionTable s' = exceptionTable s.
Proof using.
  intros Hg Hsym H. assert (Hw : width x = 4) by (unfold width; by rewrite Hsym). unfold resolved. rewrite Hsym.
  unfold patchDirectMethodAddress in H. rewrite findClassDescAndMethod_ref in H by apply Hg. cbn [rbind] in H.
  unfold method_entry. pose proof (eq_refl (method_reference java_lang_Object K (lk_cs s) c n t)) as Em.
  destruct (method_reference java_lang_Object K (lk_cs s) c n t) as [cl m] eqn:E. clear Em.
  assert (HP : forall f, patch_rel code x f s = Ok s' -> lk_cs s' = lk_cs s /\ mcode s' = mcode s /\ exceptionTable s' = exceptionTable s).
  { intros f Hf. by injection Hf as <-. }
  destruct (m =? NULL) eqn:Em.
  - destruct (HP _ H) as (-> & -> & He). apply patch_rel_spec in H as (? & ? & ?); try done. split_and!; try done.
    exists (should_not_be_called K). rewrite E. cbn [snd]. by rewrite Em.
  - unfold read_field in H. destruct (mcode s !! m) as [f|] eqn:Ef; [|done]. cbn [rbind] in H.
    destruct (HP _ H) as (-> & -> & He). apply patch_rel_spec in H as (? & ? & ?); try done. split_and!; try done.
    eexists. rewrite E. cbn [snd]. rewrite Em, Ef. by split.
Qed.

Lemma patchSymbol_spec s s' method code x :
  good (lk_cs s) -> class_name_ok x -> patchSymbol method code x s = Ok s' ->
  step s s' /\ writes (in_patch code x) s s' /\ resolved s' method code x /\
  exceptions_at s' method = exceptions_at s method ++ exception_of (lk_cs s') x /\ same_exceptions method s s'.
Proof using Hstring sz_pos.
  intros Hg Hn H.
  assert (Hexc : exceptionTable s' = exceptionTable s -> exception_of (lk_cs s') x = [] ->
    exceptions_at s' method = exceptions_at s method ++ exception_of (lk_cs s') x /\ same_exceptions method s s').
  { unfold exceptions_at, same_exceptions. intros -> ->. by rewrite app_nil_r. }
  assert (Hc : forall v, width x = 4 -> patch_const code x v s = Ok s' ->
    step s s' /\ writes (in_patch code x) s s' /\ absolute s' code x v /\ exceptionTable s' = exceptionTable s /\ lk_ld s' = lk_ld s).
  { intros v Hw Hv. pose proof Hv as (? & ? & ?)%patch_const_spec; try done. injection Hv as <-. by split_and!. }
  assert (Hr : forall f, width x = 4 -> patch_rel code x f s = Ok s' ->
    step s s' /\ writes (in_patch code x) s s' /\ calls s' code x f /\ exceptionTable s' = exceptionTable s /\ lk_ld s' = lk_ld s).
  { intros v Hw Hv. pose proof Hv as (? & ? & ?)%patch_rel_spec; try done. injection Hv as <-. by split_and!. }
  unfold Linker.patchSymbol in H. unfold resolved, exception_of, width in *. destruct (sym x) eqn:Hsym; try done.
  all: try (destruct (Hr _ eq_refl H) as (? & ? & ? & ? & _); split_and!; try done; by apply Hexc).
  all: try (destruct (Hc _ eq_refl H) as (? & ? & ? & ? & _); split_and!; try done; by apply Hexc).
  - apply patchStatic_spec in H as (? & ? & ? & ?); try done; [|by unfold width; rewrite Hsym]. split_and!; try done; by apply Hexc.
  - apply (patchClass_spec _ _ method) in H as (? & ? & H3 & ?); try done. unfold resolved in H3. rewrite Hsym in H3. split_and!; try done; by apply Hexc.
  - apply (patchCall_spec _ _ method) in H as (? & ? & H3 & ?); try done. unfold resolved in H3. rewrite Hsym in H3. split_and!; try done; by apply Hexc.
  - apply rbind_ok in H as ([o m] & E & H). destruct (Z.eqb_spec o NULL); [done|].
    pose proof H as (? & H2 & ?)%patch_const_spec; [|done|by unfold width; rewrite Hsym].
    assert (exceptionTable s' = exceptionTable s) by (by injection H as <-). split_and!; [done| |by exists o, (lk_mem s), m|by apply Hexc..].
    intros a Ha Hn'. rewrite (H2 a Ha Hn'). by apply (Hstring _ _ _ _ E).
  - apply rbind_ok in H as (f & E & H). destruct (Hr _ eq_refl H) as (? & ? & ? & ? & _). split_and!; try done; [by exists f|by apply Hexc..].
  - unfold wrong_operation in H. destruct (_ || _) eqn:Eb; [done|]. apply orb_false_iff in Eb as [Eb _]. apply Z.leb_gt in Eb.
    apply rbind_ok in H as (f & E & H). destruct (Hr _ eq_refl H) as (? & ? & ? & ? & El). split_and!; try done; [|by apply Hexc..].
    exists f. unfold support_entry, VMSUPPORT in *. by rewrite El.
  - unfold patchPrimitiveClassPointer in H. destruct (primitive_char _) as [p|] eqn:E; [|done].
    destruct (Hc _ eq_refl H) as (? & ? & ? & ? & _). split_and!; try done; [by exists p|by apply Hexc..].
  - destruct (Hc _ eq_refl H) as (? & ? & H3%s32_absolute & ? & _). split_and!; try done; [|by apply Hexc..].
    unfold absolute in *. rewrite H3. unfold u32, uwrap. rewrite Z.mod_mod, Z.add_mod_idemp_l by lia. f_equal. lia.
  - unfold wrong_operation in H. destruct (_ || _) eqn:Eb; [done|]. apply orb_false_iff in Eb as [Eb _]. apply Z.leb_gt in Eb.
    apply rbind_ok in H as (f & E & H). destruct (Hc _ eq_refl H) as (? & ? & ? & ? & El). split_and!; try done; [|by apply Hexc..].
    exists f. unfold support_entry, VMSUPPORT in *. by rewrite El.
  - injection H as <-. split_and!; try done; [by apply step_refl|by apply Hexc..].
  - injection H as <-. split_and!; try done; [by apply step_refl|by apply Hexc..].
  - assert (exists s1, s1 = s' /\ s1 = add_exception method (MkException (if strcmp_eq className (str "any") then NULL else class_ref (lk_cs s) className) rangeStart rangeEnd targetNCIndex) s) as (s1 & <- & ->).
    { destruct (strcmp_eq className (str "any")); [by injection H as <-; eauto|].
      rewrite class_ref_eq in H by apply Hg. injection H as <-. eauto. }
    split_and!; [|done|done| |].
    3: { intros k Hk. cbn. by rewrite lookup_insert_ne. }
    + split_and!; try done; [apply evolves_refl|exact (same_interfaces _ _)].
    + unfold exceptions_at. cbn. by rewrite lookup_insert_eq.
  - injection H as <-. split_and!; [by apply set_lk_mem_step| | |by apply Hexc..].
    + intros a _ Ha. cbn. apply load8_store8_ne. unfold in_patch, width in Ha. rewrite Hsym in Ha. lia.
    + cbn. apply load8_store8.
  - destruct (Z.eqb_spec kind 1); [|done]. destruct (Hc _ eq_refl H) as (? & ? & ? & ? & _). split_and!; try done; by apply Hexc.
Qed.

(** ** A method *)

(** A reference stays resolved as long as its bytes stay. *)
Lemma resolved_stable X s s' method code x :
  libs_ok java_lang_Object (lk_cs s) -> step_but X s s' ->
  (forall a, in_patch code x a -> load8 (lk_mem s') a = load8 (lk_mem s) a) ->
  resolved s method code x -> resolved s' method code x.
Proof using.
  intros Hok (_ & He & _ & Hm & _ & _ & Hv & Hi) Hb. unfold in_patch, width in Hb. pose proof He as (E1 & E2 & E3 & E4).
  assert (H8 : width x = 1 -> load8 (lk_mem s') (code + immediateNCIndex x) = load8 (lk_mem s) (code + immediateNCIndex x)).
  { intros Hw. apply Hb. unfold width in Hw. lia. }
  assert (H32 : width x = 4 -> load32 (lk_mem s') (code + immediateNCIndex x) = load32 (lk_mem s) (code + immediateNCIndex x)).
  { intros Hw. apply load32_ext. intros a Ha. apply Hb. unfold width in Hw. lia. }
  unfold resolved, absolute, calls, support_entry, VMSUPPORT, method_entry in *. rewrite Hm, Hv.
  unfold width in *. destruct (sym x); try done; try rewrite H32 by done; try done.
  - intros (d & l & Hd & Hl & Hk). rewrite (class_ref_evolves _ _ _ He Hok). destruct (E4 _ _ Hd) as (d' & Hd' & (_ & _ & _ & F1 & F2 & _)%linked_as_fields).
    exists d', l. rewrite F1, F2, E1. by split_and!.
  - intros (cl & [Hnn Hc] & Ha). exists cl. split; [|done]. split; [done|]. destruct (_ =? c_bracket).
    + destruct Hc as [H1 H2]. split; [by apply E3|by eapply name_of_evolves].
    + by rewrite (class_ref_evolves _ _ _ He Hok).
  - by rewrite (method_reference_evolves _ _ _ _ _ _ _ He Hok).
  - by rewrite H8.
Qed.

(** the bytes of two references do not overlap *)
Definition apart (x y : SymbolDesc) : Prop :=
  width x = 0 \/ width y = 0 \/ immediateNCIndex x + width x <= immediateNCIndex y \/ immediateNCIndex y + width y <= immediateNCIndex x.
Fixpoint all_apart (l : list SymbolDesc) : Prop :=
  match l with [] => True | x :: l => Forall (apart x) l /\ all_apart l end.
Definition in_patches (code : Z) (l : list SymbolDesc) (a : Z) : Prop := exists x, x ∈ l /\ in_patch code x a.

Lemma exception_of_evolves (s s' : class_state A) x :
  evolves s s' -> libs_ok java_lang_Object s -> exception_of s' x = exception_of s x.
Proof using. intros He Hok. unfold exception_of. destruct (sym x); try done. by rewrite (class_ref_evolves s s'). Qed.

Lemma patch_symbols_spec method code l : forall s s',
  good (lk_cs s) -> Forall class_name_ok l -> all_apart l -> (forall a, in_patches code l a -> code_area a) ->
  patch_symbols (patchSymbol method code) l s = Ok s' ->
  step s s' /\ writes (in_patches code l) s s' /\ Forall (resolved s' method code) l /\
  exceptions_at s' method = exceptions_at s method ++ concat (map (exception_of (lk_cs s')) l) /\ same_exceptions method s s'.
Proof using Hstring sz_pos.
  induction l as [|x l IH]; intros s s' Hg Hn Ha Hc H; cbn [patch_symbols] in H.
  { injection H as <-. split_and!; [by apply step_refl|by intros a _ _|done|by rewrite app_nil_r|done]. }
  apply rbind_ok in H as (s1 & E & H). apply Forall_cons in Hn as [Hx Hn]. destruct Ha as [Hax Ha].
  apply patchSymbol_spec in E as (T1 & W1 & R1 & X1 & F1); [|done..].
  apply IH in H as (T2 & W2 & R2 & X2 & F2); [|apply T1|done|done|intros a (y & Hy & Hya); apply Hc; exists y; split; [by apply list_elem_of_further|done]].
  assert (Hsub : forall y, y ∈ x :: l -> forall a, in_patch code y a -> in_patches code (x :: l) a) by (intros y Hy a Hya; by exists y).
  split_and!; [by eapply step_trans| | | |by intros k Hk; rewrite F2, F1].
  - eapply writes_trans; [eapply writes_mono; [|exact W1]|eapply writes_mono; [|exact W2]].
    + apply Hsub, list_elem_of_here.
    + intros a (y & Hy & Hya). apply (Hsub y); [by apply list_elem_of_further|done].
  - apply Forall_cons. split; [|done]. eapply resolved_stable; [apply T1|exact T2| |exact R1].
    intros a Hxa. apply W2; [apply Hc; by apply (Hsub x); [apply list_elem_of_here|]|].
    intros (y & Hy & Hya). rewrite Forall_forall in Hax. specialize (Hax y Hy). unfold apart, in_patch in *. lia.
  - rewrite X2, X1. cbn [map concat]. rewrite app_assoc. do 2 f_equal. symmetry. apply exception_of_evolves; [apply T2|apply T1].
Qed.

(** ** The methods of a class *)

Definition method_linked (s : st) (method : Z) (d : MethodDesc) : Prop := exists code,
  mcode s !! method = Some code /\ Forall (resolved s method code) (symbols d) /\
  exceptions_at s method = concat (map (exception_of (lk_cs s)) (symbols d)).
(** what the linker needs to know of a method whose code is the range [R] *)
Definition method_ready (s : st) (method : Z) (d : MethodDesc) (R : Z -> Prop) : Prop := exists code,
  mcode s !! method = Some code /\ Forall class_name_ok (symbols d) /\ all_apart (symbols d) /\
  forall a, in_patches code (symbols d) a -> R a.

Lemma concat_map_ext {X Y} (f g : X -> list Y) l : (forall x, f x = g x) -> concat (map f l) = concat (map g l).
Proof using. intros H. f_equal. by apply map_ext. Qed.

Lemma method_linked_stable X s s' method d (R : Z -> Prop) :
  libs_ok java_lang_Object (lk_cs s) -> step_but X s s' -> method_ready s method d R ->
  (forall a, R a -> load8 (lk_mem s') a = load8 (lk_mem s) a) -> exceptionTable s' !! method = exceptionTable s !! method ->
  method_linked s method d -> method_linked s' method d.
Proof using.
  intros Hok Hs (code & Hc & _ & _ & HR) Hb Hx (code' & Hc' & H1 & H2). assert (code' = code) as -> by congruence.
  pose proof Hs as (_ & He & _ & Hm & _). exists code. rewrite Hm. split_and!; [done| |].
  - rewrite Forall_forall in H1 |- *. intros x Hxl. apply (resolved_stable X s s'); [done|done| |by apply H1].
    intros a Ha. apply Hb, HR. by exists x.
  - unfold exceptions_at in *. rewrite Hx, H2. apply concat_map_ext. intros x. symmetry. by apply exception_of_evolves.
Qed.
Lemma method_ready_step X s s' method d R : step_but X s s' -> method_ready s method d R -> method_ready s' method d R.
Proof using. intros (_ & _ & _ & Hm & _) (code & ?). exists code. by rewrite Hm. Qed.

Abbreviation link_methods c := (each_method (fun j m (s : st) =>
      let method := method_at (methods_of K c) (Z.of_nat j) in
      let! code := read_field (mcode s) method in
      patchMethodSymbols java_lang_Object class_prim sz_ArrayClassDesc K newDomainZeroString allocObjectFunction allocArrayFunction method code m s)) (only parsing).
Definition method_of (c : Z) (j : nat) : Z := method_at (methods_of K c) (Z.of_nat j).
Definition other_exceptions (M : Z -> Prop) (s s' : st) : Prop := forall m, ~ M m -> exceptionTable s' !! m = exceptionTable s !! m.

Lemma link_method_spec method code d s s' :
  good (lk_cs s) -> Forall class_name_ok (symbols d) -> all_apart (symbols d) -> (forall a, in_patches code (symbols d) a -> code_area a) ->
  patchMethodSymbols java_lang_Object class_prim sz_ArrayClassDesc K newDomainZeroString allocObjectFunction allocArrayFunction method code d s = Ok s' ->
  step s s' /\ writes (in_patches code (symbols d)) s s' /\ Forall (resolved s' method code) (symbols d) /\
  exceptions_at s' method = concat (map (exception_of (lk_cs s')) (symbols d)) /\ same_exceptions method s s'.
Proof using Hstring sz_pos.
  intros Hg Hn Ha Hc H. unfold patchMethodSymbols in H. apply patch_symbols_spec in H as (T & W & R & X & F); try done.
  split_and!; try done.
  - rewrite X. unfold exceptions_at. cbn. by rewrite lookup_insert_eq.
  - intros k Hk. rewrite F by done. cbn. by rewrite lookup_insert_ne.
Qed.

Lemma link_methods_spec c (R : nat -> Z -> Prop) l : forall j s s',
  good (lk_cs s) -> (forall i d, l !! i = Some d -> method_ready s (method_of c (j + i)) d (R (j + i)%nat)) ->
  (forall i i' a, R i a -> R i' a -> i = i') -> (forall i a, R i a -> code_area a) ->
  link_methods c j l s = Ok s' ->
  step s s' /\ writes (fun a => exists i, (i < length l)%nat /\ R (j + i)%nat a) s s' /\
  other_exceptions (fun m => exists i, (i < length l)%nat /\ m = method_of c (j + i)) s s' /\
  forall i d, l !! i = Some d -> method_linked s' (method_of c (j + i)) d.
Proof using Hstring sz_pos.
  induction l as [|d l IH]; intros j s s' Hg Hr Hd Hc H; cbn [each_method] in H.
  { injection H as <-. split_and!; [by apply step_refl|done|done|done]. }
  apply rbind_ok in H as (s1 & E & H). fold (method_of c j) in E.
  pose proof (Hr 0%nat d eq_refl) as Hrd. rewrite Nat.add_0_r in Hrd. pose proof Hrd as (code & Hcode & Hn & Ha & HR).
  unfold read_field in E. rewrite Hcode in E. cbn [rbind] in E.
  apply link_method_spec in E as (T1 & W1 & R1 & X1 & F1); [|done..|intros a Hpa; by eapply Hc, HR].
  assert (L1 : method_linked s1 (method_of c j) d) by (exists code; destruct T1 as (_ & _ & _ & -> & _); done).
  apply IH in H as (T2 & W2 & F2 & R2); [| |intros i dd Hi|done|done].
  2: by destruct T1. 2: { replace (S j + i)%nat with (j + S i)%nat by lia. eapply method_ready_step; [exact T1|]. by apply Hr. }
  assert (Hw2 : forall a, R j a -> load8 (lk_mem s') a = load8 (lk_mem s1) a).
  { intros a Hja. apply W2; [by eapply Hc|]. intros (i & _ & Hi). pose proof (Hd _ _ _ Hja Hi). lia. }
  assert (Hx2 : exceptionTable s' !! method_of c j = exceptionTable s1 !! method_of c j).
  { apply F2. intros (i & _ & Hi). unfold method_of, method_at, sizeof_MethodDesc in Hi. lia. }
  split_and!.
  - by eapply step_trans.
  - eapply writes_trans; [eapply writes_mono; [|exact W1]|eapply writes_mono; [|exact W2]].
    + intros a Hpa. exists 0%nat. rewrite Nat.add_0_r. split; [cbn; lia|by apply HR].
    + intros a (i & Hi & Hia). exists (S i). replace (j + S i)%nat with (S j + i)%nat by lia. split; [cbn; lia|done].
  - intros m Hm. rewrite F2, F1; [done| |].
    + intros ->. apply Hm. exists 0%nat. split; [cbn; lia|by rewrite Nat.add_0_r].
    + intros (i & Hi & ->). apply Hm. exists (S i). split; [cbn; lia|]. f_equal. lia.
  - intros [|i] dd Hi; cbn [lookup] in Hi.
    + injection Hi as <-. rewrite Nat.add_0_r. eapply (method_linked_stable (fun _ => False) s1 s'); [apply T1|done|by eapply method_ready_step|done|done|done].
    + replace (j + S i)%nat with (S j + i)%nat by lia. by apply R2.
Qed.

(** ** Tables and interfaces *)

(** entry [j] of the two tables *)
Definition slot (s : st) (v mv j : Z) (cn n t : cstring) : Prop :=
  let m := snd (method_reference java_lang_Object K (lk_cs s) cn n t) in
  m <> NULL /\ exists f, mcode s !! m = Some f /\ load32 (lk_mem s) (v + 4 * j) = u32 f /\ load32 (lk_mem s) (mv + 4 * j) = u32 m.
Definition in_table (v n a : Z) : Prop := v <= a < v + 4 * n.

Lemma slot_stable X s s' v mv j cn n t :
  libs_ok java_lang_Object (lk_cs s) -> step_but X s s' ->
  (forall a, in_table (v + 4 * j) 1 a \/ in_table (mv + 4 * j) 1 a -> load8 (lk_mem s') a = load8 (lk_mem s) a) ->
  slot s v mv j cn n t -> slot s' v mv j cn n t.
Proof using.
  intros Hok (_ & He & _ & Hm & _) Hb (Hn & f & H1 & H2 & H3). unfold slot, in_table in *.
  rewrite (method_reference_evolves _ _ _ _ _ _ _ He Hok), Hm. split; [done|]. exists f. split; [done|].
  rewrite <- H2, <- H3. split; apply load32_ext; intros a Ha; apply Hb; [left|right]; lia.
Qed.

Lemma fill_vtable_spec v mv l : forall j s s',
  good (lk_cs s) -> 0 <= j ->
  (forall a, in_table v (j + Z.of_nat (length l)) a -> in_table mv (j + Z.of_nat (length l)) a -> False) ->
  fill_vtable java_lang_Object K v mv j l s = Ok s' ->
  step s s' /\ (forall a, ~ in_table (v + 4 * j) (Z.of_nat (length l)) a -> ~ in_table (mv + 4 * j) (Z.of_nat (length l)) a ->
    load8 (lk_mem s') a = load8 (lk_mem s) a) /\ exceptionTable s' = exceptionTable s /\
  forall i cn n t, l !! i = Some (cn, n, t) -> cn <> [] -> slot s' v mv (j + Z.of_nat i) cn n t.
Proof using.
  unfold in_table. induction l as [|[[cn n] t] l IH]; intros j s s' Hg Hj Hdis H; cbn [fill_vtable] in H.
  { injection H as <-. split_and!; [by apply step_refl|done|done|done]. }
  cbn [length] in *. unfold strcmp_eq in H. case_bool_decide as Ec.
  { apply IH in H as (T & W & X & S1); [|done|lia|intros a H1 H2; apply (Hdis a); lia]. split_and!; [done|intros a H1 H2; apply W; lia|done|].
    intros [|i] cn' n' t' Hi Hc; [injection Hi as <- <- <-; done|]. replace (j + Z.of_nat (S i)) with (j + 1 + Z.of_nat i) by lia. by apply S1. }
  apply rbind_ok in H as (m & E & H). unfold findMethodInSharedLibs in E. rewrite findClassDescAndMethod_ref in E by apply Hg. cbn [rbind] in E.
  destruct (method_reference java_lang_Object K (lk_cs s) cn n t) as [c m'] eqn:Em. injection E as ->.
  destruct (Z.eqb_spec m NULL) as [|Hm]; [done|]. apply rbind_ok in H as (f & Ef & H). unfold read_field in Ef.
  destruct (mcode s !! m) as [f'|] eqn:Hf; [|done]. injection Ef as ->.
  set (s1 := set_lk_mem _ s) in H. assert (T1 : step s s1) by (by apply set_lk_mem_step).
  assert (S0 : slot s1 v mv j cn n t).
  { unfold slot, s1. change (lk_cs (set_lk_mem _ s)) with (lk_cs s). rewrite Em. split; [done|]. exists f. split; [done|]. cbn [lk_mem set_lk_mem].
    split; [|by rewrite load32_store32]. erewrite load32_ext; [apply load32_store32|]. intros a Ha. apply load8_store32_ne.
    destruct (Z.le_gt_cases (mv + 4 * j + 4) a); [by right|]. destruct (Z.lt_ge_cases a (mv + 4 * j)); [by left|]. exfalso. apply (Hdis a); lia. }
  apply IH in H as (T & W & X & S1); [|apply T1|lia|intros a H1 H2; apply (Hdis a); lia].
  split_and!.
  - by eapply step_trans.
  - intros a H1 H2. rewrite W by lia. unfold s1. cbn [lk_mem set_lk_mem]. rewrite !load8_store32_ne; [done|lia..].
  - by rewrite X.
  - intros [|i] cn' n' t' Hi Hc; cbn [lookup] in Hi.
    + injection Hi as <- <- <-. rewrite Z.add_0_r. eapply slot_stable; [apply T1|exact T| |exact S0].
      unfold in_table. intros a Ha. apply W; destruct Ha; try lia; intros Hin; apply (Hdis a); lia.
    + replace (j + Z.of_nat (S i)) with (j + 1 + Z.of_nat i) by lia. by apply S1.
Qed.

Lemma class_ref_name (s : class_state A) name : libs_ok java_lang_Object s -> class_ref s name <> NULL -> name_of s (class_ref s name) = Some name.
Proof using.
  intros Hok Hn. unfold class_ref, strcmp_eq in *. case_bool_decide as E.
  - destruct (lo_object _ s Hok) as (d & Hd & Hdn & _). unfold name_of. rewrite Hd. cbn. congruence.
  - by apply (first_named_some s name (all_lib_classes s)).
Qed.
Lemma find_interface_spec lib l name (s : st) i :
  libs_ok java_lang_Object (lk_cs s) -> slibs (lk_cs s) !! lib = Some l ->
  find_interface java_lang_Object lib name s = Ok i -> i <> NULL /\ name_of (lk_cs s) i = Some name.
Proof using.
  intros Hok Hl H. unfold find_interface in H. apply rbind_ok in H as (c & E & H). apply rbind_ok in H as (c' & E' & H).
  destruct (Z.eqb_spec c' NULL) as [|Hn]; [done|]. injection H as ->. split; [done|].
  destruct (Z.eqb_spec c NULL) as [->|Hc].
  - rewrite class_ref_eq in E' by done. injection E' as <-. by apply class_ref_name.
  - injection E' as <-. destruct (decide (name = name_Object)) as [->|Hno].
    + unfold findClassDescInSharedLib, slib in E. rewrite Hl in E. injection E as <-.
      destruct (lo_object _ _ Hok) as (d & Hd & Hdn & _). unfold name_of. rewrite Hd. exact (f_equal Some Hdn).
    + rewrite (findClassDescInSharedLib_ref _ _ lib l) in E by done. injection E as E. by apply (first_named_some _ name (lib_classes l)).
Qed.
Definition interface_is (s : class_state A) (name : cstring) (i : Z) : Prop := i <> NULL /\ name_of s i = Some name.
Lemma find_interfaces_spec lib l names (s : st) : forall ifs,
  libs_ok java_lang_Object (lk_cs s) -> slibs (lk_cs s) !! lib = Some l ->
  find_interfaces java_lang_Object lib names s = Ok ifs -> Forall2 (interface_is (lk_cs s)) names ifs.
Proof using.
  induction names as [|n names IH]; intros ifs Hok Hl H; cbn [find_interfaces] in H; [by injection H as <-|].
  apply rbind_ok in H as (i & E & H). apply rbind_ok in H as (r & E' & H). injection H as <-.
  constructor; [by eapply find_interface_spec|by apply IH].
Qed.

(** ** A class *)

Lemma good_evolves (s s' : class_state A) :
  evolves s s' -> good s -> sharedArrayClasses s' = sharedArrayClasses s -> dz_code s' = dz_code s -> cs_alloc s' = cs_alloc s ->
  (forall c d', classdescs s' !! c = Some d' -> exists d, classdescs s !! c = Some d /\ linked_as d d' /\ arrayClass d' = arrayClass d) ->
  good s'.
Proof using.
  intros He Hg E1 E2 E3 Hb. pose proof He as (_ & _ & _ & Hf). destruct Hg as [G1 G2 G3 G4 G5 G6]. split.
  - by eapply libs_ok_evolves.
  - intros p Hp. destruct (G2 p Hp) as (d & Hd & Hn & Ht). destruct (Hf _ d Hd) as (d' & Hd' & (F1 & _ & F2 & _)%linked_as_fields).
    exists d'. by rewrite F1, F2.
  - by rewrite E2, E3.
  - intros c d' Hd'. destruct (Hb c d' Hd') as (d & Hd & _). rewrite E2. by eapply G4.
  - intros c Hc. rewrite E1 in Hc. destruct (G5 c Hc) as (d & e & Hd & Hde & Hn & Ht).
    destruct (Hf _ d Hd) as (d' & Hd' & Hl), (Hf _ e Hde) as (e' & Hde' & Hl'). exists d', e'. unfold linked_as in Hl, Hl'.
    rewrite <- Hl, <- Hl' in *. by split_and!.
  - intros e ed' He' Hn. destruct (Hb e ed' He') as (ed & Hed & Hl & Ha). rewrite Ha in Hn |- *. rewrite E1.
    destruct (G6 e ed Hed Hn) as (H1 & d & Hd & Hel). split; [done|]. destruct (Hf _ d Hd) as (d' & Hd' & Hl').
    exists d'. split; [done|]. unfold linked_as in Hl'. by rewrite <- Hl'.
Qed.

Lemma set_interfaces_evolves (s : class_state A) c ifs :
  good s -> let s' := with_classes (alter (set_interfaces ifs) c) s in good s' /\ evolves s s'.
Proof using.
  intros Hg s'. assert (He : evolves s s').
  { split_and!; try done. intros x d Hx. unfold s'. cbn. destruct (decide (x = c)) as [->|Hne].
    - rewrite lookup_alter_eq, Hx. exists (set_interfaces ifs d). split; [done|]. by destruct d.
    - rewrite lookup_alter_ne by done. exists d. split; [done|apply linked_as_refl]. }
  split; [|done]. apply (good_evolves s s'); try done. intros x d'. unfold s'. cbn. intros Hx.
  apply lookup_alter_Some in Hx as [(-> & d & Hd & ->)|[_ Hx]]; [exists d|exists d'].
  - split_and!; try done.
  - split_and!; try done. apply linked_as_refl.
Qed.

(** [d]: the descriptor before linking; [R j]: the code of method [j] *)
Record class_ready (s : st) (c : Z) (d : ClassDesc) (R : nat -> Z -> Prop) (v mv : Z) : Prop := {
  cr_desc : exists d0, classdescs (lk_cs s) !! c = Some d0 /\ linked_as d d0;
  cr_methods : forall j m, methods d !! j = Some m -> method_ready s (method_of c j) m (R j);
  cr_apart : forall j j' a, R j a -> R j' a -> j = j';
  cr_code : forall j a, R j a -> code_area a;
  cr_tables : vtable s !! c = Some v /\ methodVtable s !! c = Some mv;
  cr_disjoint : forall a, in_table v (Z.of_nat (length (vtableSym d))) a -> in_table mv (Z.of_nat (length (vtableSym d))) a -> False;
  cr_outside : forall j a, R j a -> ~ in_table v (Z.of_nat (length (vtableSym d))) a /\ ~ in_table mv (Z.of_nat (length (vtableSym d))) a;
}.
Definition class_linked (s : st) (c : Z) (d : ClassDesc) (v mv : Z) : Prop :=
  (exists d', classdescs (lk_cs s) !! c = Some d' /\ linked_as d d' /\ Forall2 (interface_is (lk_cs s)) (ifname d) (interfaces d')) /\
  (forall j m, methods d !! j = Some m -> method_linked s (method_of c j) m) /\
  vtable s !! c = Some v /\ methodVtable s !! c = Some mv /\
  forall j cn n t, vtableSym d !! j = Some (cn, n, t) -> cn <> [] -> slot s v mv (Z.of_nat j) cn n t.
(** the bytes that belong to a class *)
Definition class_area (d : ClassDesc) (R : nat -> Z -> Prop) (v mv a : Z) : Prop :=
  (exists j, (j < length (methods d))%nat /\ R j a) \/
  in_table v (Z.of_nat (length (vtableSym d))) a \/ in_table mv (Z.of_nat (length (vtableSym d))) a.
Definition class_methods (c : Z) (d : ClassDesc) (m : Z) : Prop := exists j, (j < length (methods d))%nat /\ m = method_of c j.
Abbreviation link_class := (link_class java_lang_Object class_prim sz_ArrayClassDesc K newDomainZeroString allocObjectFunction allocArrayFunction) (only parsing).

Lemma Forall2_interfaces (s s' : class_state A) names ifs :
  evolves s s' -> Forall2 (interface_is s) names ifs -> Forall2 (interface_is s') names ifs.
Proof using. intros He H. eapply Forall2_impl; [exact H|]. intros n i [H1 H2]. split; [done|by eapply name_of_evolves]. Qed.

Lemma link_class_spec lib l c d R v mv s s' :
  good (lk_cs s) -> slibs (lk_cs s) !! lib = Some l -> class_ready s c d R v mv -> link_class lib c s = Ok s' ->
  step_but (eq c) s s' /\ writes (class_area d R v mv) s s' /\ other_exceptions (class_methods c d) s s' /\ class_linked s' c d v mv.
Proof using Hstring sz_pos.
  intros Hg Hl [C1 C2 C3 C4 [C5 C5'] C6 C7] H. destruct C1 as (d0 & Hd0 & Hl0).
  pose proof Hl0 as (F1 & F2 & F3 & F4 & F5 & F6 & F7 & F8)%linked_as_fields.
  unfold Linker.link_class, cls in H. rewrite Hd0 in H. cbn [rbind] in H. rewrite F2, F6, F7 in H.
  apply rbind_ok in H as (ifs & Ei & H). apply (find_interfaces_spec lib l) in Ei; [|apply Hg|done].
  destruct (set_interfaces_evolves (lk_cs s) c ifs Hg) as [Hg1 He1]. set (k1 := with_classes (alter (set_interfaces ifs) c) (lk_cs s)) in *.
  set (s1 := set_lk k1 s) in H.
  assert (T1 : step_but (eq c) s s1).
  { split_and!; try done. intros x e e' Hx He He'. change (k1.(classdescs) !! x = Some e') in He'. unfold k1 in He'. cbn in He'.
    rewrite lookup_alter_ne in He' by done. congruence. }
  assert (Hd1 : classdescs k1 !! c = Some (set_interfaces ifs d0)) by (unfold k1; cbn; by rewrite lookup_alter_eq, Hd0).
  apply rbind_ok in H as (s2 & E2 & H).
  apply (link_methods_spec c R) in E2 as (T2 & W2 & X2 & M2); [|done| |done|done].
  2:{ intros i m Hi. eapply method_ready_step; [exact T1|]. by apply C2. }
  destruct (_ <? 11); [done|]. pose proof T2 as (_ & _ & _ & _ & V2 & V2' & _).
  unfold read_field in H. rewrite V2, V2' in H. change (vtable s1) with (vtable s) in H. change (methodVtable s1) with (methodVtable s) in H.
  rewrite C5, C5' in H. cbn [rbind] in H.
  apply fill_vtable_spec in H as (T3 & W3 & X3 & S3); [|apply T2|lia|intros a; rewrite Z.add_0_l; apply C6].
  rewrite !Z.mul_0_r, !Z.add_0_r in W3. pose proof (step_trans _ _ _ _ T2 T3) as T23.
  pose proof (step_mono _ (eq c) _ _ (fun x (h : False) => match h with end) T23) as T23'. pose proof (step_trans _ _ _ _ T1 T23') as T.
  split_and!; [done| | |].
  - intros a Ha Hn. unfold class_area in Hn. rewrite W3 by (intros Hx; apply Hn; auto).
    rewrite W2; [done|done|]. intros (i & Hi & Hia). apply Hn. left. by exists i.
  - intros m Hm. rewrite X3, X2; [done|]. intros (i & Hi & ->). apply Hm. by exists i.
  - pose proof T23 as (Hg' & He' & Hif & _ & V3 & V3' & _). split_and!.
    + destruct He' as (_ & _ & _ & He'). destruct (He' c _ Hd1) as (d' & Hd' & Hld). exists d'. split_and!; [done| |].
      * eapply linked_as_trans; [|exact Hld]. eapply linked_as_trans; [exact Hl0|]. by destruct d0.
      * assert (interfaces d' = ifs) as -> by (by apply (Hif c (set_interfaces ifs d0) d' (fun h => h))).
        destruct T as (_ & He & _). by eapply Forall2_interfaces.
    + intros j m Hj. eapply (method_linked_stable (fun _ => False) s2 s' _ _ (R j)); [apply T2|exact T3| | |by rewrite X3|by apply M2].
      * eapply method_ready_step; [exact T2|]. eapply method_ready_step; [exact T1|]. by apply C2.
      * intros a Ha. by apply W3; apply (C7 j a).
    + by rewrite V3.
    + by rewrite V3'.
    + intros j cn n t Hj Hc. by apply S3.
Qed.

Lemma class_ready_step X s s' c d R v mv : step_but X s s' -> class_ready s c d R v mv -> class_ready s' c d R v mv.
Proof using.
  intros HT [C1 C2 C3 C4 C5 C6 C7]. pose proof HT as (_ & (_ & _ & _ & He) & _ & _ & Hv & Hv' & _). split; try done.
  - destruct C1 as (d0 & Hd0 & Hl). destruct (He c d0 Hd0) as (d1 & Hd1 & Hl1). exists d1. split; [done|by eapply linked_as_trans].
  - intros j m Hj. eapply method_ready_step; [exact HT|by apply C2].
  - by rewrite Hv, Hv'.
Qed.

Lemma class_linked_stable X s s' c d R v mv :
  libs_ok java_lang_Object (lk_cs s) -> step_but X s s' -> ~ X c -> class_ready s c d R v mv ->
  (forall a, class_area d R v mv a -> load8 (lk_mem s') a = load8 (lk_mem s) a) ->
  (forall m, class_methods c d m -> exceptionTable s' !! m = exceptionTable s !! m) ->
  class_linked s c d v mv -> class_linked s' c d v mv.
Proof using.
  intros Hok HT HX Hr Hb Hx (L1 & L2 & L3 & L4 & L5). destruct Hr as [_ C2 _ _ _ _ _]. unfold class_area in Hb.
  pose proof HT as (_ & He & Hif & _ & Hv & Hv' & _). split_and!.
  - destruct L1 as (d1 & Hd1 & Hl & Hi). destruct He as (He1 & He2 & He3 & He4). destruct (He4 c d1 Hd1) as (d2 & Hd2 & Hl2).
    exists d2. split_and!; [done|by eapply linked_as_trans|]. rewrite (Hif c d1 d2) by done. by eapply Forall2_interfaces.
  - intros j m Hj. pose proof (lookup_lt_Some _ _ _ Hj) as Hlt.
    eapply (method_linked_stable X s s' _ _ (R j)); [done|done|by apply C2| |apply Hx; by exists j|by apply L2].
    intros a Ha. apply Hb. left. by exists j.
  - by rewrite Hv.
  - by rewrite Hv'.
  - intros j cn n t Hj Hc. pose proof (lookup_lt_Some _ _ _ Hj) as Hlt. eapply slot_stable; [exact Hok|exact HT| |by apply L5].
    unfold in_table, cstring in *. intros a Ha. apply Hb. right. destruct Ha; [left|right]; lia.
Qed.

(** ** All classes of a library *)

Section AllClasses.
Context (lib : Z) (l : SharedLibDesc).
Context (D : nat -> ClassDesc) (R : nat -> nat -> Z -> Prop) (v mv : nat -> Z).
Abbreviation c i := (class_at l (Z.of_nat i%nat)) (only parsing).
Abbreviation area i := (class_area (D i) (R i) (v i) (mv i)) (only parsing).
Context (N : nat) (Harea : forall i i' a, (i < N)%nat -> (i' < N)%nat -> area i a -> area i' a -> i = i').
Context (Hcode : forall i a, (i < N)%nat -> area i a -> code_area a).
Context (Hmeth : forall i i' m, (i < N)%nat -> (i' < N)%nat -> class_methods (c i) (D i) m -> class_methods (c i') (D i') m -> i = i').

Definition in_classes (k n : nat) (x : Z) : Prop := exists i, (k <= i < k + n)%nat /\ x = c i.

Lemma link_classes_spec n : forall k s s',
  (k + n <= N)%nat -> good (lk_cs s) -> slibs (lk_cs s) !! lib = Some l ->
  (forall i, (k <= i < k + n)%nat -> class_ready s (c i) (D i) (R i) (v i) (mv i)) ->
  each_class (link_class lib) l n (Z.of_nat k) s = Ok s' ->
  step_but (in_classes k n) s s' /\ writes (fun a => exists i, (k <= i < k + n)%nat /\ area i a) s s' /\
  other_exceptions (fun m => exists i, (k <= i < k + n)%nat /\ class_methods (c i) (D i) m) s s' /\
  forall i, (k <= i < k + n)%nat -> class_linked s' (c i) (D i) (v i) (mv i).
Proof using Hstring sz_pos Harea Hcode Hmeth.
  induction n as [|n IH]; intros k s s' HN Hg Hl Hr H; cbn [each_class] in H.
  { injection H as <-. split_and!; [by apply step_refl|done|done|lia]. }
  apply rbind_ok in H as (s1 & E & H). apply (link_class_spec _ l _ (D k) (R k) (v k) (mv k)) in E as (T1 & W1 & X1 & L1); [|done|done|apply Hr; lia].
  replace (Z.of_nat k + 1) with (Z.of_nat (S k)) in H by lia. pose proof T1 as (Hg1 & (El & _) & _).
  apply IH in H as (T2 & W2 & X2 & L2); [|lia|done|by rewrite El|intros i Hi; eapply class_ready_step; [exact T1|apply Hr; lia]].
  split_and!.
  - eapply step_trans; [eapply step_mono; [|exact T1]|eapply step_mono; [|exact T2]].
    + intros x <-. exists k. split; [lia|done].
    + intros x (i & Hi & ->). exists i. split; [lia|done].
  - eapply writes_trans; [eapply writes_mono; [|exact W1]|eapply writes_mono; [|exact W2]].
    + intros a Ha. exists k. split; [lia|done].
    + intros a (i & Hi & Ha). exists i. split; [lia|done].
  - intros m Hm. rewrite X2, X1; [done| |].
    + intros Hc. apply Hm. exists k. split; [lia|done].
    + intros (i & Hi & Hc). apply Hm. exists i. split; [lia|done].
  - intros i Hi. destruct (decide (i = k)) as [->|Hne]; [|apply L2; lia].
    eapply class_linked_stable; [apply Hg1|exact T2| |eapply class_ready_step; [exact T1|by apply Hr]| | |exact L1].
    + intros (i & Hi2 & Hc). unfold class_at, sizeof_ClassDesc in Hc. lia.
    + intros a Ha. apply W2; [eapply (Hcode k); [lia|done]|]. intros (i & Hi2 & Hia). assert (k = i); [|lia]. apply (Harea k i a); [lia|lia|done..].
    + intros m Hm. apply X2. intros (i & Hi2 & Hia). assert (k = i); [|lia]. apply (Hmeth k i m); [lia|lia|done..].
Qed.
End AllClasses.
End Resolve.

(** ** Tables of new code memory *)

Section Tables.
Context {A : Type} `{!Allocator A} (java_lang_Object : Z) (class_prim : Z -> Z) (K : kernel).
Abbreviation st := (link_state A) (only parsing).
Abbreviation good := (arrays_ok java_lang_Object class_prim) (only parsing).

Definition used (s : st) (a : Z) : Prop := in_use (dz_code (lk_cs s)) a.
(** memory was allocated, and only the tables in [X] were set *)
Definition grown_by (X : Z -> Prop) (s s' : st) : Prop :=
  good (lk_cs s') /\ classdescs (lk_cs s') = classdescs (lk_cs s) /\ slibs (lk_cs s') = slibs (lk_cs s) /\
  sharedLibs (lk_cs s') = sharedLibs (lk_cs s) /\ sharedArrayClasses (lk_cs s') = sharedArrayClasses (lk_cs s) /\
  mcode s' = mcode s /\ exceptionTable s' = exceptionTable s /\ ld_vmindex (lk_ld s') = ld_vmindex (lk_ld s) /\
  sharedLibsIndexNumber (lk_ld s') = sharedLibsIndexNumber (lk_ld s) /\ mem_grows (lk_ld s) (lk_ld s') /\
  forall c, ~ X c -> vtable s' !! c = vtable s !! c /\ methodVtable s' !! c = methodVtable s !! c.

Lemma grown_by_trans X s1 s2 s3 : grown_by X s1 s2 -> grown_by X s2 s3 -> grown_by X s1 s3.
Proof.
  intros (_ & A1 & A2 & A3 & A4 & A5 & A6 & A7 & A8 & A9 & A10) (B0 & B1 & B2 & B3 & B4 & B5 & B6 & B7 & B8 & B9 & B10).
  split_and!; try congruence; [by eapply mem_grows_trans|]. intros c Hc. destruct (B10 c Hc) as [-> ->]. by apply A10.
Qed.
Lemma grown_by_mono (X Y : Z -> Prop) s s' : (forall c, X c -> Y c) -> grown_by X s s' -> grown_by Y s s'.
Proof.
  intros H (A0 & A1 & A2 & A3 & A4 & A5 & A6 & A7 & A8 & A9 & A10). split_and!; try done.
  intros c Hc. apply A10. intros Hx. by apply Hc, H.
Qed.
Lemma grown_by_refl X s : good (lk_cs s) -> grown_by X s s.
Proof. intros. by split_and!. Qed.

Lemma lk_alloc_spec f n s a s' :
  (forall d al, f d al = malloc_code d n al) -> 0 <= n < 2147483648 -> good (lk_cs s) -> lk_alloc f s = Ok (a, s') ->
  grown_by (fun _ => False) s s' /\ lk_mem s' = lk_mem s /\ vtable s' = vtable s /\ methodVtable s' = methodVtable s /\
  forall x, a <= x < a + n -> ~ used s x /\ used s' x.
Proof.
  intros Hf Hn Hg H. unfold lk_alloc in H. rewrite Hf in H. apply rbind_ok in H as ([[b d] al] & E & H). injection H as <- <-.
  destruct Hg as [G1 G2 [G3 G3'] G4 G5 G6].
  assert (Hfor : forall x, foreign (dz_code (lk_cs s)) (cs_alloc (lk_cs s)) x -> foreign d al x) by (intros x; by eapply malloc_code_foreign).
  apply malloc_code_spec in E as (Hal & Hd & Hfr & Hin); try done.
  assert (Hm : forall x, in_use (dz_code (lk_cs s)) x -> in_use d x) by (intros x Hx; apply Hin; by left).
  split_and!; try done.
  - split_and!; try done. split; try done; [by destruct G1|]. intros c cd Hc. by eapply Hm, G4.
  - intros x Hx. split; [by apply Hfr|]. apply Hin. by right.
Qed.

(** the tables of the class [c], with the class pointer *)
Definition table_bytes (s : st) (c : Z) (n a : Z) : Prop :=
  (exists v, vtable s !! c = Some v /\ v - 4 <= a < v + 4 * n) \/ (exists mv, methodVtable s !! c = Some mv /\ in_table mv n a).
Definition table_made (s : st) (c n : Z) : Prop := exists v mv,
  vtable s !! c = Some v /\ methodVtable s !! c = Some mv /\ load32 (lk_mem s) (v - 4) = u32 c /\
  forall a, v - 4 <= a < v + 4 * n -> in_table mv n a -> False.

Lemma set_tables_grown s c v mv : good (lk_cs s) -> grown_by (eq c) s (set_methodVtable c mv (set_vtable c v s)).
Proof. intros Hg. split_and!; try done. intros x Hx. cbn. by rewrite !lookup_insert_ne. Qed.

Lemma createVTable_spec c d s s' :
  good (lk_cs s) -> classdescs (lk_cs s) !! c = Some d -> c <> java_lang_Object -> small (vtableSym d) ->
  createVTable java_lang_Object c s = Ok s' ->
  let n := Z.of_nat (length (vtableSym d)) in
  grown_by (eq c) s s' /\ table_made s' c n /\
  (forall a, table_bytes s' c n a -> ~ used s a /\ used s' a) /\
  forall a, ~ table_bytes s' c n a -> load8 (lk_mem s') a = load8 (lk_mem s) a.
Proof.
  intros Hg Hd Hno Hsm H n. unfold createVTable, cls in H. rewrite Hd in H. cbn [rbind] in H.
  apply Z.eqb_neq in Hno. rewrite Hno in H. fold n in H. assert (Hn : 0 <= n < 1000000) by (unfold small in Hsm; lia). clear Hsm.
  apply rbind_ok in H as ([v s1] & E1 & H). destruct (v =? NULL); [done|]. apply rbind_ok in H as ([mv s2] & E2 & H). injection H as <-.
  apply (lk_alloc_spec _ (4 * (n + 1))) in E1 as (A1 & A2 & A3 & A4 & A5); [|intros; unfold malloc_vtable, sz_ptr; rewrite u32_small by lia; f_equal; lia|lia|done].
  set (m := store32 _ v c) in E2. set (s1' := set_vtable c (v + 4) (set_lk_mem m s1)) in E2.
  apply (lk_alloc_spec _ (4 * n)) in E2 as (B1 & B2 & B3 & B4 & B5);
    [|intros; unfold malloc_methodVtable, sz_ptr; rewrite u32_small by lia; f_equal; lia|lia|apply A1].
  assert (Hv : vtable s2 !! c = Some (v + 4)) by (rewrite B3; apply lookup_insert_eq).
  assert (Hu1 : forall a, v <= a < v + 4 * (n + 1) -> used s2 a) by (intros a Ha; apply B1, A5; lia).
  assert (HT : forall a, table_bytes (set_methodVtable c mv s2) c n a <-> v <= a < v + 4 * (n + 1) \/ in_table mv n a).
  { intros a. unfold table_bytes. cbn. rewrite Hv, lookup_insert_eq. split.
    - intros [(v' & [= <-] & Ha)|(mv' & [= <-] & Ha)]; [left; lia|by right].
    - intros [Ha|Ha]; [left; exists (v + 4); split; [done|lia]|right; by exists mv]. }
  split_and!.
  - eapply grown_by_trans; [eapply grown_by_mono; [|exact A1]; done|]. eapply (grown_by_trans _ _ s1').
    { split_and!; try done; [apply A1|]. intros x Hx. cbn. by rewrite lookup_insert_ne. }
    eapply grown_by_trans; [eapply grown_by_mono; [|exact B1]; done|]. split_and!; try done; [apply B1|].
    intros x Hx. cbn. by rewrite lookup_insert_ne.
  - exists (v + 4), mv. cbn. rewrite Hv, lookup_insert_eq, B2. split_and!; [done|done| |].
    + replace (v + 4 - 4) with v by lia. cbn. apply load32_store32.
    + intros a Ha Hm. destruct (B5 a Hm) as [Hf _]. apply Hf. apply A5. lia.
  - intros a [Ha|Ha]%HT.
    + split; [by apply A5|]. by apply (Hu1 a).
    + destruct (B5 a Ha) as [Hf Hu]. split; [|exact Hu]. intros Hc. by apply Hf, A1.
  - intros a Ha. assert (~ v <= a < v + 4 * (n + 1)) as Ha' by (intros Hx; apply Ha, HT; by left).
    cbn. rewrite B2. cbn. unfold m. rewrite load8_store32_ne, memset_load by lia. rewrite A2.
    destruct (Z.leb_spec v a), (Z.ltb_spec a (v + (4 * n + 4))); cbn [andb]; try lia; done.
Qed.

Section Library.
Context (l : SharedLibDesc) (D : nat -> ClassDesc).
Abbreviation c i := (class_at l (Z.of_nat i%nat)) (only parsing).
Definition vsize (i : nat) : Z := Z.of_nat (length (vtableSym (D i))).
Definition range (k n i : nat) : Prop := (k <= i < k + n)%nat.

Lemma class_at_inj i i' : c i = c i' -> i = i'.
Proof using. unfold class_at, sizeof_ClassDesc. lia. Qed.

Lemma create_tables n : forall k s s',
  good (lk_cs s) ->
  (forall i, range k n i -> classdescs (lk_cs s) !! c i = Some (D i) /\ c i <> java_lang_Object /\ small (vtableSym (D i))) ->
  each_class (createVTable java_lang_Object) l n (Z.of_nat k) s = Ok s' ->
  grown_by (in_classes l k n) s s' /\ (forall i, range k n i -> table_made s' (c i) (vsize i)) /\
  (forall i a, range k n i -> table_bytes s' (c i) (vsize i) a -> ~ used s a /\ used s' a) /\
  (forall i i' a, range k n i -> range k n i' -> table_bytes s' (c i) (vsize i) a -> table_bytes s' (c i') (vsize i') a -> i = i') /\
  forall a, (forall i, range k n i -> ~ table_bytes s' (c i) (vsize i) a) -> load8 (lk_mem s') a = load8 (lk_mem s) a.
Proof using.
  unfold range. induction n as [|n IH]; intros k s s' Hg Hd H; cbn [each_class] in H.
  { injection H as <-. split_and!; [by apply grown_by_refl|lia..|done]. }
  apply rbind_ok in H as (s1 & E & H). destruct (Hd k ltac:(lia)) as (Hdk & Hok & Hsk).
  apply (createVTable_spec (c k) (D k)) in E as (A1 & A2 & A3 & A4); try done. fold (vsize k) in A2, A3, A4.
  replace (Z.of_nat k + 1) with (Z.of_nat (S k)) in H by lia.
  apply IH in H as (B1 & B2 & B3 & B4 & B5); [|apply A1|intros i Hi; destruct A1 as (_ & -> & _); apply Hd; lia].
  assert (Hk : ~ in_classes l (S k) n (c k)) by (intros (i & Hi & Hc%class_at_inj); lia).
  assert (Htk : forall a, table_bytes s' (c k) (vsize k) a <-> table_bytes s1 (c k) (vsize k) a).
  { intros a. unfold table_bytes. destruct B1 as (_ & _ & _ & _ & _ & _ & _ & _ & _ & _ & B). destruct (B _ Hk) as [-> ->]. done. }
  assert (Hmono1 : forall a, used s a -> used s1 a) by (intros a; apply A1). assert (Hmono2 : forall a, used s1 a -> used s' a) by (intros a; apply B1).
  assert (Hnew : forall a i, (S k <= i < S k + n)%nat -> table_bytes s1 (c k) (vsize k) a -> ~ table_bytes s' (c i) (vsize i) a).
  { intros a i Hi Ha Hb. apply A3 in Ha as [_ Ha]. by destruct (B3 i a Hi Hb). }
  split_and!.
  - eapply grown_by_trans; [eapply grown_by_mono; [|exact A1]|eapply grown_by_mono; [|exact B1]].
    + intros x <-. exists k. split; [lia|done].
    + intros x (i & Hi & ->). exists i. split; [lia|done].
  - intros i Hi. destruct (decide (i = k)) as [->|Hne]; [|apply B2; lia]. destruct A2 as (v & mv & H1 & H2 & H3 & H4).
    exists v, mv. destruct B1 as (_ & _ & _ & _ & _ & _ & _ & _ & _ & _ & B). destruct (B _ Hk) as [-> ->]. split_and!; try done.
    rewrite <- H3. apply load32_ext. intros a Ha. apply B5. intros i Hi2. apply Hnew; [lia|]. left. exists v. split; [done|]. unfold vsize. lia.
  - intros i a Hi Ha. destruct (decide (i = k)) as [->|Hne].
    + apply Htk, A3 in Ha as [? ?]. split; [done|by apply Hmono2].
    + apply B3 in Ha as [Hn ?]; [|lia]. split; [|done]. intros Hu. by apply Hn, Hmono1.
  - intros i i' a Hi Hi' Ha Ha'. destruct (decide (i = k)) as [->|Hne], (decide (i' = k)) as [->|Hne']; [done| | |].
    + apply Htk in Ha. exfalso. apply (Hnew a i'); [lia|done..].
    + apply Htk in Ha'. exfalso. apply (Hnew a i); [lia|done..].
    + apply (B4 i i' a); [lia|lia|done..].
  - intros a Ha. rewrite B5 by (intros i Hi; apply Ha; lia). apply A4. intros Hx. apply (Ha k); [lia|]. by apply Htk.
Qed.

(** ** Entry points *)

Definition entry (m : MethodDesc) : Z := if numberOfCodeBytes m =? 0 then 0 else lib_code l + codeOffset m.
(** only entry points of methods in [M] were set *)
Definition starts_set (M : Z -> Prop) (s s' : st) : Prop :=
  lk_ld s' = lk_ld s /\ lk_mem s' = lk_mem s /\ exceptionTable s' = exceptionTable s /\ vtable s' = vtable s /\
  methodVtable s' = methodVtable s /\ forall m, ~ M m -> mcode s' !! m = mcode s !! m.
Lemma starts_set_trans M s1 s2 s3 : starts_set M s1 s2 -> starts_set M s2 s3 -> starts_set M s1 s3.
Proof using.
  intros (A1 & A2 & A3 & A4 & A5 & A6) (B1 & B2 & B3 & B4 & B5 & B6). split_and!; try congruence. intros m Hm. by rewrite B6, A6.
Qed.
Lemma starts_set_mono (M N : Z -> Prop) s s' : (forall m, M m -> N m) -> starts_set M s s' -> starts_set N s s'.
Proof using. intros H (A1 & A2 & A3 & A4 & A5 & A6). split_and!; try done. intros m Hm. apply A6. intros Hx. by apply Hm, H. Qed.

Lemma class_starts x ms : forall j s s',
  each_method (fun j m s => Ok (setCodeStart_method K l x j m s)) j ms s = Ok s' ->
  starts_set (fun m => exists i, (i < length ms)%nat /\ m = method_of K x (j + i)) s s' /\
  forall i m, ms !! i = Some m -> mcode s' !! method_of K x (j + i) = Some (entry m).
Proof using.
  induction ms as [|d ms IH]; intros j s s' H; cbn [each_method] in H; [by injection H as <-|]. cbn [rbind] in H.
  apply IH in H as (B1 & B2). set (s1 := setCodeStart_method K l x j d s) in *.
  assert (A2 : mcode s1 !! method_of K x j = Some (entry d)) by apply lookup_insert_eq.
  assert (A1 : starts_set (eq (method_of K x j)) s s1) by (split_and!; try done; intros m Hm; by apply lookup_insert_ne).
  split.
  - eapply starts_set_trans; [eapply starts_set_mono; [|exact A1]|eapply starts_set_mono; [|exact B1]].
    + intros m <-. exists 0%nat. split; [cbn; lia|f_equal; lia].
    + intros m (i & Hi & ->). exists (S i). split; [cbn; lia|f_equal; lia].
  - intros [|i] m Hi; cbn [lookup] in Hi.
    + injection Hi as <-. rewrite Nat.add_0_r. destruct B1 as (_ & _ & _ & _ & _ & B1). rewrite B1; [done|].
      intros (i & _ & Hm). unfold method_of, method_at, sizeof_MethodDesc in Hm. lia.
    + replace (j + S i)%nat with (S j + i)%nat by lia. by apply B2.
Qed.

Context (N : nat).
Context (Hmeth : forall i i' m, (i < N)%nat -> (i' < N)%nat -> class_methods K (c i) (D i) m -> class_methods K (c i') (D i') m -> i = i').
Lemma library_starts n : forall k s s',
  (k + n <= N)%nat ->
  (forall i, range k n i -> classdescs (lk_cs s) !! c i = Some (D i)) ->
  each_class (fun c s => let! d := cls c (lk_cs s) in
    each_method (fun j m s => Ok (setCodeStart_method K l c j m s)) 0 (methods d) s) l n (Z.of_nat k) s = Ok s' ->
  starts_set (fun m => exists i, range k n i /\ class_methods K (c i) (D i) m) s s' /\
  forall i j m, range k n i -> methods (D i) !! j = Some m -> mcode s' !! method_of K (c i) j = Some (entry m).
Proof using Hmeth.
  unfold range. induction n as [|n IH]; intros k s s' HN Hd H; cbn [each_class] in H; [injection H as <-; split; [done|lia]|].
  apply rbind_ok in H as (s1 & E & H). unfold cls in E. rewrite (Hd k) in E by lia. cbn [rbind] in E.
  apply class_starts in E as (A1 & A2). replace (Z.of_nat k + 1) with (Z.of_nat (S k)) in H by lia.
  apply IH in H as (B1 & B2); [|lia|intros i Hi; unfold lk_cs; destruct A1 as (-> & _); apply Hd; lia]. split.
  - eapply starts_set_trans; [eapply starts_set_mono; [|exact A1]|eapply starts_set_mono; [|exact B1]].
    + intros m Hm. exists k. split; [lia|exact Hm].
    + intros m (i & Hi & Hm). exists i. split; [lia|done].
  - intros i j m Hi Hj. destruct (decide (i = k)) as [->|Hne]; [|apply B2; [lia|done]].
    destruct B1 as (_ & _ & _ & _ & _ & B1). rewrite B1; [by apply A2|]. intros (i & Hi2 & Hm).
    assert (k = i); [|lia]. apply (Hmeth k i (method_of K (c k) j)); [lia|lia| |done]. exists j. split; [by eapply lookup_lt_Some|done].
Qed.
End Library.
End Tables.

(** ** Linking a library *)

Section Link.
Context {A : Type} `{!Allocator A} (java_lang_Object : Z) (class_prim : Z -> Z) (sz_ArrayClassDesc : Z) (K : kernel).
Context (newDomainZeroString : cstring -> memory -> res (Z * memory)) (allocObjectFunction allocArrayFunction : Z).
Abbreviation st := (link_state A) (only parsing).
Abbreviation good := (arrays_ok java_lang_Object class_prim) (only parsing).
(** DomainZero's heap, where string objects are made *)
Context (heap : Z -> Prop).
Context (Hstring : forall v m o m', newDomainZeroString v m = Ok (o, m') -> forall a, ~ heap a -> load8 m' a = load8 m a).
Context (sz_pos : 0 < sz_ArrayClassDesc < 1000000).
Abbreviation linksharedlib := (linksharedlib java_lang_Object class_prim sz_ArrayClassDesc K newDomainZeroString allocObjectFunction allocArrayFunction) (only parsing).
Abbreviation class_linked := (class_linked java_lang_Object class_prim K newDomainZeroString allocObjectFunction allocArrayFunction) (only parsing).

Definition method_range (l : SharedLibDesc) (m : MethodDesc) (a : Z) : Prop :=
  lib_code l + codeOffset m <= a < lib_code l + codeOffset m + numberOfCodeBytes m.
(** a reference lies inside the code of its method *)
Definition inside (m : MethodDesc) (x : SymbolDesc) : Prop :=
  width x = 0 \/ 0 <= immediateNCIndex x /\ immediateNCIndex x + width x <= numberOfCodeBytes m.

(** A library that was read: its descriptors, separate methods, references
    that stay inside the code and apart from each other; the heap is memory
    of its own. *)
Record linkable (s : st) (lib : Z) (l : SharedLibDesc) (D : nat -> ClassDesc) : Prop := {
  lb_good : good (lk_cs s);
  lb_lib : slibs (lk_cs s) !! lib = Some l;
  lb_class : forall i, (i < Z.to_nat (numberOfClasses l))%nat ->
    classdescs (lk_cs s) !! class_at l (Z.of_nat i) = Some (D i) /\ class_at l (Z.of_nat i) <> java_lang_Object /\ small (vtableSym (D i));
  lb_symbols : forall i j m, (i < Z.to_nat (numberOfClasses l))%nat -> methods (D i) !! j = Some m ->
    Forall class_name_ok (symbols m) /\ all_apart (symbols m) /\ Forall (inside m) (symbols m);
  lb_code : forall i j m a, (i < Z.to_nat (numberOfClasses l))%nat -> methods (D i) !! j = Some m -> method_range l m a -> used s a;
  lb_apart : forall i j m i' j' m' a, (i < Z.to_nat (numberOfClasses l))%nat -> (i' < Z.to_nat (numberOfClasses l))%nat ->
    methods (D i) !! j = Some m -> methods (D i') !! j' = Some m' -> method_range l m a -> method_range l m' a -> i = i' /\ j = j';
  lb_tables : forall i i' m, (i < Z.to_nat (numberOfClasses l))%nat -> (i' < Z.to_nat (numberOfClasses l))%nat ->
    class_methods K (class_at l (Z.of_nat i)) (D i) m -> class_methods K (class_at l (Z.of_nat i')) (D i') m -> i = i';
  lb_heap : forall a, heap a -> foreign (dz_code (lk_cs s)) (cs_alloc (lk_cs s)) a;
}.

Lemma entry_ready (s : st) l method m :
  mcode s !! method = Some (entry l m) -> Forall class_name_ok (symbols m) -> all_apart (symbols m) -> Forall (inside m) (symbols m) ->
  method_ready s method m (method_range l m).
Proof using.
  intros Hc Hn Ha Hi. exists (entry l m). split_and!; try done. intros a (x & Hx & Hxa). rewrite Forall_forall in Hi.
  specialize (Hi x Hx). unfold inside, in_patch, method_range, entry in *. destruct (numberOfCodeBytes m =? 0) eqn:E; lia.
Qed.

(** after the entry points and the tables, every class is ready *)
Lemma library_ready (s s2 : st) lib l D :
  linkable s lib l D ->
  let n := Z.to_nat (numberOfClasses l) in
  good (lk_cs s2) -> classdescs (lk_cs s2) = classdescs (lk_cs s) ->
  (forall i j m, (i < n)%nat -> methods (D i) !! j = Some m -> mcode s2 !! method_of K (class_at l (Z.of_nat i)) j = Some (entry l m)) ->
  mem_grows (lk_ld s) (lk_ld s2) ->
  (forall i a, (i < n)%nat -> table_bytes s2 (class_at l (Z.of_nat i)) (vsize D i) a -> ~ used s a /\ used s2 a) ->
  forall i v mv, (i < n)%nat -> vtable s2 !! class_at l (Z.of_nat i) = Some v -> methodVtable s2 !! class_at l (Z.of_nat i) = Some mv ->
  (forall a, v - 4 <= a < v + 4 * vsize D i -> in_table mv (vsize D i) a -> False) ->
  class_ready K (fun a => ~ heap a) s2 (class_at l (Z.of_nat i)) (D i)
    (fun j a => exists m, methods (D i) !! j = Some m /\ method_range l m a) v mv.
Proof using.
  intros [L1 L2 L3 L4 L5 L6 L7 L8] n Hg Hcd Hm [Hu Hf] Ht i v mv Hi Hv Hmv Hdis. destruct (L3 i Hi) as (Hd & _ & _).
  assert (Hnh : forall a, used s2 a -> ~ heap a).
  { intros a Hua Hh. eapply foreign_not_in_use; [apply (ao_alloc _ _ _ Hg)|apply Hf, L8, Hh|exact Hua]. }
  split.
  - exists (D i). rewrite Hcd. split; [done|apply linked_as_refl].
  - intros j m Hj. destruct (L4 i j m Hi Hj) as (? & ? & ?).
    destruct (entry_ready s2 l (method_of K (class_at l (Z.of_nat i)) j) m) as (code & ? & ? & ? & HR); try done; [by apply Hm|].
    exists code. split_and!; try done. intros a Ha. exists m. split; [done|by apply HR].
  - intros j j' a (m & Hj & Ha) (m' & Hj' & Ha'). by destruct (L6 i j m i j' m' a).
  - intros j a (m & Hj & Ha). apply Hnh, Hu. by eapply L5.
  - done.
  - intros a H1 H2. apply (Hdis a); [unfold in_table, vsize in *; lia|done].
  - intros j a (m & Hj & Ha). assert (used s a) as Hua by (by eapply L5).
    split; intros Hin; [assert (table_bytes s2 (class_at l (Z.of_nat i)) (vsize D i) a) as Hb|assert (table_bytes s2 (class_at l (Z.of_nat i)) (vsize D i) a) as Hb].
    1: left; exists v; split; [done|unfold in_table, vsize in *; lia]. 2: right; by exists mv.
    all: by destruct (Ht i a Hi Hb).
Qed.

(** Between the second and the third loop of [linksharedlib]. *)
Section Prepared.
Context (l : SharedLibDesc) (D : nat -> ClassDesc) (n : nat).
Abbreviation c i := (class_at l (Z.of_nat i%nat)) (only parsing).
Record prepared (s s2 : st) (v mv : nat -> Z) : Prop := {
  pr_good : good (lk_cs s2);
  pr_cs : classdescs (lk_cs s2) = classdescs (lk_cs s) /\ slibs (lk_cs s2) = slibs (lk_cs s) /\
    sharedLibs (lk_cs s2) = sharedLibs (lk_cs s) /\ sharedArrayClasses (lk_cs s2) = sharedArrayClasses (lk_cs s);
  pr_code : forall i j m, (i < n)%nat -> methods (D i) !! j = Some m -> mcode s2 !! method_of K (c i) j = Some (entry l m);
  pr_grows : mem_grows (lk_ld s) (lk_ld s2);
  pr_tables : forall i, (i < n)%nat -> vtable s2 !! c i = Some (v i) /\ methodVtable s2 !! c i = Some (mv i) /\
    load32 (lk_mem s2) (v i - 4) = u32 (c i) /\
    forall a, v i - 4 <= a < v i + 4 * vsize D i -> in_table (mv i) (vsize D i) a -> False;
  pr_new : forall i a, (i < n)%nat -> table_bytes s2 (c i) (vsize D i) a -> ~ used s a /\ used s2 a;
  pr_apart : forall i i' a, (i < n)%nat -> (i' < n)%nat ->
    table_bytes s2 (c i) (vsize D i) a -> table_bytes s2 (c i') (vsize D i') a -> i = i';
  pr_frame : forall a, (forall i, (i < n)%nat -> ~ table_bytes s2 (c i) (vsize D i) a) -> load8 (lk_mem s2) a = load8 (lk_mem s) a;
}.
Definition code_of (i j : nat) (a : Z) : Prop := exists m, methods (D i) !! j = Some m /\ method_range l m a.
Abbreviation area v mv i := (class_area (D i%nat) (code_of i%nat) (v i%nat) (mv i%nat)) (only parsing).

Lemma area_cases s s2 v mv i a :
  prepared s s2 v mv -> (i < n)%nat -> area v mv i a -> (exists j, code_of i j a) \/ table_bytes s2 (c i) (vsize D i) a.
Proof using.
  intros P Hi [(j & _ & Hj)|[Ha|Ha]]; [left; by exists j|right; left|right; right];
    destruct (pr_tables _ _ _ _ P i Hi) as (Hv & Hmv & _ & _); [exists (v i)|exists (mv i)]; split; try done.
  unfold in_table, vsize in *. lia.
Qed.
End Prepared.

Lemma prepare s s1 s2 lib l D :
  linkable s lib l D -> setCodeStart K l s = Ok s1 ->
  each_class (createVTable java_lang_Object) l (Z.to_nat (numberOfClasses l)) 0 s1 = Ok s2 ->
  exists v mv, prepared l D (Z.to_nat (numberOfClasses l)) s s2 v mv.
Proof using.
  intros [L1 L2 L3 L4 L5 L6 L7 L8] E1 E2. set (n := Z.to_nat (numberOfClasses l)) in *. unfold setCodeStart in E1. change 0 with (Z.of_nat 0) in E1, E2.
  apply (library_starts K l D n L7) in E1 as [(A1 & A3 & A4 & A5 & A6 & A7) A2]; [|done|intros i Hi; apply L3; unfold range in Hi; lia].
  assert (Ecs : lk_cs s1 = lk_cs s) by (unfold lk_cs; by rewrite A1).
  apply (create_tables java_lang_Object class_prim l D) in E2 as (B1 & B2 & B3 & B4 & B5); [|by rewrite Ecs|].
  2:{ intros i Hi. rewrite Ecs. apply L3. unfold range in Hi. lia. }
  destruct B1 as (B1 & C1 & C2 & C3 & C4 & C5 & C6 & C7 & C8 & C9 & C10). rewrite Ecs in C1, C2, C3, C4. unfold used in B3. rewrite Ecs in B3.
  exists (fun i => default 0 (vtable s2 !! class_at l (Z.of_nat i))), (fun i => default 0 (methodVtable s2 !! class_at l (Z.of_nat i))).
  unfold range in *. split; try done.
  - intros i j m Hi Hj. rewrite C5. apply A2; [lia|done].
  - by rewrite <- A1.
  - intros i Hi. destruct (B2 i) as (x & y & H1 & H2 & H3 & H4); [lia|]. rewrite H1, H2. by split_and!.
  - intros i a Hi. apply B3. lia.
  - intros i i' a Hi Hi'. apply B4; lia.
  - intros a Ha. rewrite <- A3. apply B5. intros i Hi. apply Ha. lia.
Qed.

Lemma link_prepared s s2 s' lib l D v mv :
  linkable s lib l D -> prepared l D (Z.to_nat (numberOfClasses l)) s s2 v mv ->
  each_class (link_class java_lang_Object class_prim sz_ArrayClassDesc K newDomainZeroString allocObjectFunction allocArrayFunction lib) l
    (Z.to_nat (numberOfClasses l)) 0 s2 = Ok s' ->
  let n := Z.to_nat (numberOfClasses l) in
  step_but java_lang_Object class_prim (in_classes l 0 n) s2 s' /\
  writes (fun a => ~ heap a) (fun a => exists i, (i < n)%nat /\ class_area (D i) (code_of l D i) (v i) (mv i) a) s2 s' /\
  forall i, (i < n)%nat -> class_linked s' (class_at l (Z.of_nat i)) (D i) (v i) (mv i).
Proof using Hstring sz_pos.
  intros HL P H n. pose proof HL as [L1 L2 L3 L4 L5 L6 L7 L8]. fold n in P, H. change 0 with (Z.of_nat 0) in H.
  assert (Hnh : forall a, used s2 a -> ~ heap a).
  { intros a Hu Hh. eapply foreign_not_in_use; [apply (ao_alloc _ _ _ (pr_good _ _ _ _ _ _ _ P))| |exact Hu]. by apply (pr_grows _ _ _ _ _ _ _ P), L8. }
  assert (Hused : forall i j a, (i < n)%nat -> code_of l D i j a -> used s a) by (intros i j a Hi (m & Hj & Ha); by eapply L5).
  assert (Hcode : forall i a, (i < n)%nat -> class_area (D i) (code_of l D i) (v i) (mv i) a -> ~ heap a).
  { intros i a Hi Ha. apply Hnh. apply (area_cases l D n s s2) in Ha as [[j Hj]|Ha]; try done.
    - apply (pr_grows _ _ _ _ _ _ _ P). by eapply Hused.
    - by apply (pr_new _ _ _ _ _ _ _ P i). }
  apply (link_classes_spec java_lang_Object class_prim sz_ArrayClassDesc K newDomainZeroString allocObjectFunction allocArrayFunction
    (fun a => ~ heap a) Hstring sz_pos lib l D (code_of l D) v mv n) in H as (T & W & _ & Lk); try done.
  - split_and!; [done| |].
    + intros a Ha Hn. apply W; [done|]. intros (i & Hi & Hia). apply Hn. exists i. split; [lia|done].
    + intros i Hi. apply Lk. lia.
  - intros i i' a Hi Hi' Ha Ha'. apply (area_cases l D n s s2) in Ha as [[j Hj]|Ha], Ha' as [[j' Hj']|Ha']; try done.
    + destruct Hj as (m & Hj & Hm), Hj' as (m' & Hj' & Hm'). by destruct (L6 i j m i' j' m' a).
    + exfalso. destruct (pr_new _ _ _ _ _ _ _ P i' a Hi' Ha') as [Hu _]. by apply Hu, (Hused i j).
    + exfalso. destruct (pr_new _ _ _ _ _ _ _ P i a Hi Ha) as [Hu _]. by apply Hu, (Hused i' j').
    + by apply (pr_apart _ _ _ _ _ _ _ P i i' a).
  - apply (pr_good _ _ _ _ _ _ _ P).
  - destruct (pr_cs _ _ _ _ _ _ _ P) as (_ & -> & _). done.
  - intros i Hi. destruct (pr_tables _ _ _ _ _ _ _ P i) as (H1 & H2 & _ & H4); [lia|].
    apply (library_ready s s2 lib); try done; try apply P; lia.
Qed.

(** C9 Linking resolves every reference of a library: afterwards each call,
    class pointer, string, static field and run-time routine in the code of each
    of its methods is what the symbol names (a call of a method reaches that
    method's entry, or the panic routine if there is none), each exception table
    names the classes of its entries (NULL for one that is missing), each
    interface list names existing classes, each method table holds the entry
    points of the methods it names with the class pointer in front; and of the
    code memory in use before only the code of the library was written. *)
Theorem linksharedlib_links s s' lib l D :
  linkable s lib l D -> linksharedlib lib s = Ok s' ->
  let n := Z.to_nat (numberOfClasses l) in
  (forall i, (i < n)%nat -> exists v mv, class_linked s' (class_at l (Z.of_nat i)) (D i) v mv /\
     load32 (lk_mem s') (v - 4) = u32 (class_at l (Z.of_nat i)) /\
     forall j m, methods (D i) !! j = Some m -> mcode s' !! method_of K (class_at l (Z.of_nat i)) j = Some (entry l m)) /\
  good (lk_cs s') /\ evolves (lk_cs s) (lk_cs s') /\
  forall a, used s a -> (forall i j m, (i < n)%nat -> methods (D i) !! j = Some m -> ~ method_range l m a) ->
    load8 (lk_mem s') a = load8 (lk_mem s) a.
Proof using Hstring sz_pos.
  intros HL H n. pose proof HL as [L1 L2 L3 L4 L5 L6 L7 L8]. unfold Linker.linksharedlib, slib in H. rewrite L2 in H. cbn [rbind] in H.
  apply rbind_ok in H as (s1 & E1 & H). apply rbind_ok in H as (s2 & E2 & H).
  destruct (prepare s s1 s2 lib l D HL E1 E2) as (v & mv & P).
  apply (link_prepared s s2 s' lib l D v mv HL P) in H as (T & W & Lk). fold n in P, T, W, Lk. destruct T as (Hg' & He & _ & Hm & _).
  destruct (pr_cs _ _ _ _ _ _ _ P) as (C1 & C2 & C3 & C4).
  assert (Hnh : forall a, used s2 a -> ~ heap a).
  { intros a Hu Hh. eapply foreign_not_in_use; [apply (ao_alloc _ _ _ (pr_good _ _ _ _ _ _ _ P))| |exact Hu]. by apply (pr_grows _ _ _ _ _ _ _ P), L8. }
  split_and!; [|done| |].
  - intros i Hi. exists (v i), (mv i). destruct (pr_tables _ _ _ _ _ _ _ P i Hi) as (H1 & H2 & H3 & H4). split_and!; [by apply Lk| |].
    + rewrite <- H3. apply load32_ext. intros a Ha.
      assert (table_bytes s2 (class_at l (Z.of_nat i)) (vsize D i) a) as Hb by (left; exists (v i); split; [done|unfold vsize; lia]).
      destruct (pr_new _ _ _ _ _ _ _ P i a Hi Hb) as [Hn1 Hn2]. apply W; [by apply Hnh|]. intros (i' & Hi' & Ha').
      pose proof Ha' as [[j (m & Hj & Hm')]|Hb']%(area_cases l D n s s2); [by apply Hn1; eapply L5| |done..].
      assert (i' = i) as -> by (by apply (pr_apart _ _ _ _ _ _ _ P i' i a)).
      destruct Ha' as [(j & _ & m & Hj & Hm')|[Ha'|Ha']]; [by apply Hn1; eapply L5|unfold in_table in Ha'; lia|].
      apply (H4 a); [unfold vsize; lia|done].
    + intros j m Hj. rewrite Hm. by apply (pr_code _ _ _ _ _ _ _ P).
  - destruct He as (He1 & He2 & He3 & He4). split_and!; [congruence|congruence|by rewrite <- C4|by rewrite <- C1].
  - intros a Ha Hn. rewrite W.
    + apply (pr_frame _ _ _ _ _ _ _ P). intros i Hi Hb. by destruct (pr_new _ _ _ _ _ _ _ P i a Hi Hb).
    + apply Hnh. by apply (pr_grows _ _ _ _ _ _ _ P).
    + intros (i & Hi & Hia). apply (area_cases l D n s s2) in Hia as [[j (m & Hj & Hm')]|Hb]; try done; [by apply (Hn i j m)|].
      by destruct (pr_new _ _ _ _ _ _ _ P i a Hi Hb).
Qed.
End Link.

(** A copy of a method with a symbol for an offset in the thread descriptor
    cannot be made: [repatchMethodSymbols] does not know that symbol, which
    [patchMethodSymbols] resolves. *)
Lemma repatch_tcb_offset {A : Type} `{!Allocator A} java_lang_Object class_prim sz_ArrayClassDesc K str_ f g (s : link_state A) method code x d :
  sym x = SymTCBOffset 1 -> symbols d = [x] ->
  is_ok (patchMethodSymbols java_lang_Object class_prim sz_ArrayClassDesc K str_ f g method code d s) = true /\
  repatchMethodSymbols java_lang_Object class_prim sz_ArrayClassDesc K str_ f g method code d s = Err (EPanic "Linker unknown symbol %d").
Proof. intros Hx Hd. unfold patchMethodSymbols, repatchMethodSymbols. rewrite Hd. cbn. unfold repatchSymbol, patchSymbol. by rewrite Hx. Qed.

(** ** A library with one class *)

Definition linked_sym (at_ : Z) (y : symbol) : SymbolDesc := MkSymbol at_ 4 (at_ + 4) y.
(** two methods: one with references of all sorts, one it calls *)
Definition linked_run : MethodDesc :=
  MkMethod (str "run") (str "()V") 0 48 0 [] 0 0 0
    [linked_sym 0 (SymClass (str "[LX;")); linked_sym 4 (SymDirectMethodCall (str "X") (str "stop") (str "()V"));
     linked_sym 8 (SymString (str "hello")); linked_sym 12 (SymStaticField (str "X") 2 3); linked_sym 16 (SymUnresolvedJump 40);
     linked_sym 20 SymStackChunkSize; linked_sym 24 (SymVMSupport 1); linked_sym 28 SymMethodeDesc;
     linked_sym 0 (SymExceptionTable 40 0 20 (str "X")); linked_sym 32 SymExceptionHandler] 1 [] [].
Definition linked_stop : MethodDesc := MkMethod (str "stop") (str "()V") 0 16 0 [] 0 0 48 [] 0 [] [].
Definition linked_X : ClassDesc :=
  MkClass CLASSTYPE_CLASS (str "X") demo_class_Object [] [] 0 [] [] 0 0 []
    (replicate 10 ([], [], []) ++ [(str "X", str "run", str "()V")]) [linked_run; linked_stop] 5000 NULL NULL.
Definition linked_lib : SharedLibDesc :=
  MkSharedLib (str "lib.jll") 1 0 [] [] demo_class_X 1 (addHashKey (str "X") (replicate 10 0) LIB_HASHKEY_LEN) 0 (demo_base + 1000) 64 11 0.
Definition linked_before : link_state malloc_state :=
  MkLink (MkLoader (MkCS (<[demo_class_X := linked_X]> (classdescs demo_classes)) {[5000 := linked_lib]} [5000] []
                      (snd (fst demo_block)) (snd demo_image)) [0; 1] 1 2 0 0)
    (fun _ => 0) ∅ ∅ ∅ ∅.
Definition linked_kernel : kernel := MkKernel 4096 8192 8256 [] [8320; 8384] 8448 8512 8576 12 (fun _ => demo_base + 1200).
(** DomainZero's heap is a block of its own *)
Definition linked_heap (a : Z) : Prop := demo_at <= a < demo_at + al_span 1000.
Definition linked_string (v : cstring) (m : memory) : res (Z * memory) := Ok (demo_at, store32 m demo_at (Z.of_nat (length v))).

Lemma linked_arrays_ok : arrays_ok demo_class_Object demo_prim (lk_cs linked_before).
Proof.
  destruct demo_blocks as ((Ha & Hd & Hnn) & Huse & Hf). destruct demo_arrays_ok as [_ Hp _ _ _ _].
  assert (Hne : forall c cd, <[demo_class_X := linked_X]> (classdescs demo_classes) !! c = Some cd ->
    1049600 <= c < 1051200 /\ arrayClass cd = NULL).
  { assert (map_Forall (fun c d => 1049600 <= c < 1051200 /\ arrayClass d = NULL) (<[demo_class_X := linked_X]> (classdescs demo_classes))) as H;
      [apply (bool_decide_unpack _); by vm_compute|exact H]. }
  split; cbn [linked_before lk_cs lk_ld ld_cs classdescs dz_code cs_alloc sharedArrayClasses].
  - split; cbn [linked_before lk_cs lk_ld ld_cs classdescs sharedLibs slibs].
    + intros lib ->%list_elem_of_singleton. by exists linked_lib.
    + intros lib l c [<- <-]%lookup_singleton_Some Hc. change (c ∈ [demo_class_X]) in Hc. apply list_elem_of_singleton in Hc as ->.
      split; [done|]. exists linked_X. by split_and!.
    + exists (plain_class CLASSTYPE_CLASS name_Object NULL NULL). by split_and!.
  - intros p Hin. destruct (Hp p Hin) as (d & Hd1 & Hd2 & Hd3). exists d. split; [|done]. rewrite lookup_insert_ne; [done|].
    intros E. rewrite <- E in Hd1. vm_compute in Hd1. injection Hd1 as <-. vm_compute in Hd3. done.
  - by split.
  - intros c cd Hc. by apply Huse, (Hne c cd).
  - by intros c ?%not_elem_of_nil.
  - intros e ed He Hn. exfalso. by apply Hn, (Hne e ed).
Qed.
Lemma linked_linkable : linkable demo_class_Object demo_prim linked_kernel linked_heap linked_before 5000 linked_lib (fun _ => linked_X).
Proof.
  destruct demo_blocks as (_ & Huse & Hf).
  assert (Hm : forall i j m, (i < 1)%nat -> methods linked_X !! j = Some m -> i = 0%nat /\ (j = 0%nat /\ m = linked_run \/ j = 1%nat /\ m = linked_stop)).
  { intros i j m Hi Hj. split; [lia|]. destruct j as [|[|j]]; cbn in Hj; [injection Hj as <-; by left|injection Hj as <-; by right|done]. }
  split; change (Z.to_nat (numberOfClasses linked_lib)) with 1%nat.
  - apply linked_arrays_ok.
  - done.
  - intros i Hi. assert (i = 0%nat) as -> by lia. split_and!; [by vm_compute|done|by vm_compute].
  - intros i j m Hi Hj. destruct (Hm i j m Hi Hj) as (_ & [[-> ->]|[-> ->]]); [|by repeat constructor].
    split_and!.
    + repeat (apply Forall_cons_2 || apply Forall_nil_2); unfold class_name_ok; cbn [sym linked_sym]; try exact I.
      intros _. split; [by apply (sig_class (str "X")); [|simpl; lia]|by vm_compute].
    + cbn [all_apart symbols linked_run]. repeat (split || apply Forall_cons_2 || apply Forall_nil_2); unfold apart, width; cbn; lia.
    + repeat (apply Forall_cons_2 || apply Forall_nil_2); unfold inside, width; cbn; lia.
  - intros i j m a Hi Hj Ha. apply Huse. unfold method_range in Ha. destruct (Hm i j m Hi Hj) as (_ & [[-> ->]|[-> ->]]);
      cbn in Ha; unfold demo_base in Ha; lia.
  - intros i j m i' j' m' a Hi Hi' Hj Hj' Ha Ha'. unfold method_range in Ha, Ha'.
    destruct (Hm i j m Hi Hj) as (-> & [[-> ->]|[-> ->]]), (Hm i' j' m' Hi' Hj') as (-> & [[-> ->]|[-> ->]]); cbn in Ha, Ha'; try done; lia.
  - lia.
  - apply Hf.
Qed.

Lemma linksharedlib_links_witness :
  exists s', linksharedlib demo_class_Object demo_prim 132 linked_kernel linked_string 8640 8704 5000 linked_before = Ok s' /\
    exists v mv, class_linked demo_class_Object demo_prim linked_kernel linked_string 8640 8704 s' demo_class_X linked_X v mv /\
      load32 (lk_mem s') (v - 4) = u32 demo_class_X.
Proof.
  assert (Hstr : forall v m o m', linked_string v m = Ok (o, m') -> forall a, ~ linked_heap a -> load8 m' a = load8 m a).
  { intros v m o m' [= <- <-] a Ha. apply load8_store32_ne. unfold linked_heap in Ha. pose proof (al_span_le 1000). lia. }
  assert (is_ok (linksharedlib demo_class_Object demo_prim 132 linked_kernel linked_string 8640 8704 5000 linked_before) = true) as Hrun by (by vm_compute).
  destruct (linksharedlib demo_class_Object demo_prim 132 linked_kernel linked_string 8640 8704 5000 linked_before) as [s'|e] eqn:E; [|done].
  exists s'. split; [done|].
  destruct (linksharedlib_links demo_class_Object demo_prim 132 linked_kernel linked_string 8640 8704 linked_heap Hstr ltac:(lia)
    linked_before s' 5000 linked_lib (fun _ => linked_X) linked_linkable E) as (H & _).
  destruct (H 0%nat ltac:(by vm_compute; lia)) as (v & mv & H1 & H2 & _).
  change (class_at linked_lib (Z.of_nat 0)) with demo_class_X in H1, H2. exists v, mv. split; [exact H1|exact H2].
Defined.
