(* ===== verification/GCHeap.v ===== *)
(** * The copying collector of a domain (Memory/gc_new.c and what it calls)

    Objects live in a semispace of the flat memory: a flags word, a magic word
    and then the object proper, whose first word is the vtable pointer; the
    word before the vtable holds the class descriptor.  The collector moves
    what the roots reach into the other semispace, leaving a forwarding
    pointer in the flags word ([gc_common_move_reference]), scans the copies
    ([gc_walkContinuesBlock]), finalises the dead memory objects and portals
    and exchanges the semispaces.

    An [ObjectDesc *] is the address of the vtable word; the flags are at
    [ref - 8] and the magic at [ref - 4] ([XMOFF] is 1).  A [HandleReference_t]
    gets the value of [*refPtr] and returns what it stores there, if anything. *)

From S2P Require Import Prelude Mem CString.
#[local] Open Scope Z_scope.

(** ** Constants and layout (Memory/gc.h, gc_impl.h, core/object.h) *)

Definition MAGIC_CLASSDESC : Z := 0x47114711.
Definition FORWARD_MASK : Z := 1.
Definition FORWARD_PTR_MASK : Z := 0xfffffffe.
Definition GC_FORWARD : Z := 1.
Definition FLAGS_MASK : Z := 0xfe.
Definition XMOFF : Z := 1.

Definition OBJFLAGS_OBJECT : Z := 0x02.
Definition OBJFLAGS_PORTAL : Z := 0x04.
Definition OBJFLAGS_MEMORY : Z := 0x06.
Definition OBJFLAGS_ATOMVAR : Z := 0x0a.
Definition OBJFLAGS_SERVICE : Z := 0x0c.
Definition OBJFLAGS_CPUSTATE : Z := 0x0e.
Definition OBJFLAGS_FOREIGN_CPUSTATE : Z := 0x10.
Definition OBJFLAGS_EXTERNAL_CPUDESC : Z := 0x14.
Definition OBJFLAGS_ARRAY : Z := 0x16.
Definition OBJFLAGS_EXTERNAL_STRING : Z := 0x18.
Definition OBJFLAGS_CAS : Z := 0x1a.
Definition OBJFLAGS_EXTERNAL_METHOD : Z := 0x1c.
Definition OBJFLAGS_EXTERNAL_CLASS : Z := 0x1e.
Definition OBJFLAGS_INTERCEPTINBOUNDINFO : Z := 0x20.
Definition OBJFLAGS_VMOBJECT : Z := 0x24.
Definition OBJFLAGS_CREDENTIAL : Z := 0x26.
Definition OBJFLAGS_DOMAIN : Z := 0x28.
Definition OBJFLAGS_SERVICE_POOL : Z := 0x2a.
Definition OBJFLAGS_STACK : Z := 0x2e.

Definition sizeof_DEPDesc : Z := 64.
Definition sizeof_ThreadDesc : Z := 272.
Definition sizeof_ThreadDescProxy : Z := 276.
Definition sizeof_MemoryProxy : Z := 24.

(** sizes in words *)
Definition OBJSIZE_ARRAY_32BIT (size : Z) : Z := size + (XMOFF + 1 + 1 + 1 + 1).
Definition OBJSIZE_OBJECT (size : Z) : Z := size + XMOFF + 1 + 1 + 1.
Definition OBJSIZE_PORTAL : Z := XMOFF + 1 + 1 + 1 + 1 + 1.
Definition OBJSIZE_MEMORY : Z := XMOFF + 1 + sizeof_MemoryProxy / 4.
Definition OBJSIZE_SERVICEDESC : Z := (sizeof_DEPDesc + 4) / 4 + 1.
Definition OBJSIZE_ATOMVAR : Z := XMOFF + 1 + 1 + 3.
Definition OBJSIZE_CAS : Z := XMOFF + 1 + 1 + 1.
Definition OBJSIZE_CREDENTIAL : Z := XMOFF + 1 + 1 + 2.
Definition OBJSIZE_DOMAIN : Z := XMOFF + 1 + 1 + 2.
Definition OBJSIZE_THREADDESCPROXY : Z := XMOFF + (sizeof_ThreadDescProxy + 4) / 4 + 1 + 1.
Definition OBJSIZE_FOREIGN_THREADDESC : Z := XMOFF + (20 + 4) / 4 + 1 + 1.

(** Field offsets.  A [ThreadDescProxy] holds the [ThreadDesc] at offset 4;
    the [t_*] offsets are relative to the [ThreadDesc]. *)
Definition t_contextPtr : Z := 0.
Definition t_state : Z := 12.
Definition t_domain : Z := 16.
Definition t_nextInRunQueue : Z := 20.
Definition t_context : Z := 28.
Definition t_depParams : Z := 84.
Definition t_depMethodIndex : Z := 88.
Definition t_isPortalThread : Z := 96.
Definition t_processingDEP : Z := 100.
Definition t_blockedInDomain : Z := 104.
Definition t_blockedInDomainID : Z := 108.
Definition t_blockedInServiceThread : Z := 116.
Definition t_mostRecentlyCalledBy : Z := 120.
Definition t_nextInDomain : Z := 132.
Definition t_prevInDomain : Z := 136.
Definition t_portalParameter : Z := 228.
Definition t_entry : Z := 232.
Definition t_portalReturn : Z := 236.
Definition t_portalReturnType : Z := 240.
Definition t_isInterruptHandlerThread : Z := 256.
Definition t_myparams : Z := 264.
Definition t_id : Z := 268.
Definition STATE_PORTAL_WAIT_FOR_RCV : Z := 7.

Definition dep_receiver : Z := 24.
Definition dep_obj : Z := 36.
Definition dep_proxy : Z := 40.
Definition dep_refcount : Z := 52.

Definition c_name : Z := 8.
Definition c_instanceSize : Z := 48.
Definition c_map : Z := 68.
Definition c_methodVtable : Z := 84.
Definition md_numberOfArgs : Z := 52.
Definition md_argTypeMap : Z := 60.

(** ** State *)

(** What the collector uses of the other components, over their state [A]. *)
Class GCServices (A : Type) := {
  dz_refcount_at : Z -> A -> res Z;             (* dz->refcount *)
  memory_deleted_dz : Z -> A -> res A;          (* memory_deleted of a proxy for dz *)
  domain_id : Z -> A -> Z;                      (* domain->id *)
  service_decRefcount : Z -> Z -> A -> res A;   (* domain, service index *)
}.

Record gc_state (A : Type) := MkGC {
  ram : memory;
  heap : Z; heapBorder : Z; heapTop : Z; heapSize : Z;
  heap2 : Z; heapBorder2 : Z; heapTop2 : Z;
  services : A;
}.
Arguments MkGC {A} _ _ _ _ _ _ _ _ _.
Arguments ram {A} _.
Arguments heap {A} _.
Arguments heapBorder {A} _.
Arguments heapTop {A} _.
Arguments heapSize {A} _.
Arguments heap2 {A} _.
Arguments heapBorder2 {A} _.
Arguments heapTop2 {A} _.
Arguments services {A} _.

Section Collector.
Context {A : Type} `{!GCServices A}.
Abbreviation st := (gc_state A).
(** the domain that is collected, and whether it is DomainZero *)
Context (domain : Z) (is_domainZero : bool).

Definition set_ram (m : memory) (s : st) : st :=
  MkGC m (heap s) (heapBorder s) (heapTop s) (heapSize s) (heap2 s) (heapBorder2 s) (heapTop2 s) (services s).
Definition set_heapTop (v : Z) (s : st) : st :=
  MkGC (ram s) (heap s) (heapBorder s) v (heapSize s) (heap2 s) (heapBorder2 s) (heapTop2 s) (services s).
Definition set_heapTop2 (v : Z) (s : st) : st :=
  MkGC (ram s) (heap s) (heapBorder s) (heapTop s) (heapSize s) (heap2 s) (heapBorder2 s) v (services s).
Definition set_services (a : A) (s : st) : st :=
  MkGC (ram s) (heap s) (heapBorder s) (heapTop s) (heapSize s) (heap2 s) (heapBorder2 s) (heapTop2 s) a.
Definition rd (s : st) (a : Z) : Z := load32 (ram s) a.
Definition wr (a v : Z) (s : st) : st := set_ram (store32 (ram s) a v) s.

(** ** Object headers (Memory/gc.h, core/object.h, core/load.h) *)

Definition ptr2ObjectDesc (ptr : Z) : Z := ptr + 4 * (1 + XMOFF).
Definition ObjectDesc2ptr (ref : Z) : Z := ref - 4 * (1 + XMOFF).
Definition getObjFlags (s : st) (ref : Z) : Z := rd s (ref - 8).
Definition setObjFlags (ref flags : Z) (s : st) : st := wr (ref - 8) flags s.
Definition getObjMagic (s : st) (ref : Z) : Z := rd s (ref - 4).
Definition setObjMagic (ref magic : Z) (s : st) : st := wr (ref - 4) magic s.

Definition ASSERTOBJECT (x : Z) (s : st) : res unit :=
  assert_ "NOT AN OBJECT" ((x =? 0) || (getObjMagic s x =? MAGIC_OBJECT)).
Definition obj2ClassDesc (obj : Z) (s : st) : res Z :=
  if (getObjMagic s obj =? MAGIC_OBJECT) && negb (rd s obj =? 0) then Ok (rd s (rd s obj - 4))
  else Err (EPanic "").
Definition ASSERTCLASSDESC (c : Z) (s : st) : res unit :=
  assert_ "x->magic==MAGIC_CLASSDESC" (rd s c =? MAGIC_CLASSDESC).
Definition instanceSize (s : st) (c : Z) : Z := rd s (c + c_instanceSize).
(** [arrayClass->name[1]] *)
Definition class_name1 (s : st) (c : Z) : Z := load8 (ram s) (rd s (c + c_name) + 1).
(** of zero_Memory_org.c: a forwarded object is not checked *)
Definition assert_memory (x : Z) (s : st) : res unit :=
  let flags := getObjFlags s x in
  if Z.land flags FORWARD_MASK =? GC_FORWARD then Ok tt
  else if negb (Z.land flags FLAGS_MASK =? OBJFLAGS_MEMORY) then Err (EPanic "no mem flags") else Ok tt.
Definition ASSERTMEMORY (x : Z) (s : st) : res unit :=
  let! _ := ASSERTOBJECT x s in assert_memory x s.

Definition thread2CPUState (thread : Z) : Z := if thread =? 0 then 0 else thread - 4.
(** The collector applies it to TCBs of its own heap only; a
    [FOREIGN_CPUSTATE] would go through [findThreadDesc]. *)
Definition cpuState2thread (obj : Z) (s : st) : res Z :=
  if obj =? 0 then Ok 0
  else if Z.land (getObjFlags s obj) FLAGS_MASK =? OBJFLAGS_CPUSTATE then Ok (obj + 4)
  else Err (EPanic "cpustate object has wrong flags").

(** size in words *)
Definition gc_objSize2 (obj flags : Z) (s : st) : res Z :=
  let! _ := ASSERTOBJECT obj s in
  let k := Z.land flags FLAGS_MASK in
  if k =? OBJFLAGS_ARRAY then Ok (u32 (OBJSIZE_ARRAY_32BIT (rd s (obj + 8))))
  else if (k =? OBJFLAGS_EXTERNAL_STRING) || (k =? OBJFLAGS_OBJECT) then
    let! c := obj2ClassDesc obj s in
    let! _ := ASSERTCLASSDESC c s in
    Ok (u32 (OBJSIZE_OBJECT (instanceSize s c)))
  else if k =? OBJFLAGS_PORTAL then Ok OBJSIZE_PORTAL
  else if k =? OBJFLAGS_MEMORY then Ok OBJSIZE_MEMORY
  else if k =? OBJFLAGS_SERVICE then Ok OBJSIZE_SERVICEDESC
  else if k =? OBJFLAGS_ATOMVAR then Ok OBJSIZE_ATOMVAR
  else if k =? OBJFLAGS_CAS then Ok OBJSIZE_CAS
  else if k =? OBJFLAGS_DOMAIN then Ok OBJSIZE_DOMAIN
  else if k =? OBJFLAGS_CPUSTATE then Ok OBJSIZE_THREADDESCPROXY
  else Err (EPanic "WRONG HEAP DATA").

(** ** Copying one object (Memory/gc_move.c)

    [dst] is the block allocated for the copy; the result is the new object. *)

(** [setObjFlags(dstObj, flags); setObjMagic(dstObj, MAGIC_OBJECT);] *)
Definition set_header (dstObj flags : Z) (s : st) : st :=
  setObjMagic dstObj MAGIC_OBJECT (setObjFlags dstObj flags s).
(** [dstObj->f = srcObj->f] for the word at offset [off] *)
Definition copy_field (dstObj srcObj off : Z) (s : st) : st := wr (dstObj + off) (rd s (srcObj + off)) s.
Definition gc_memcpy (dst src size : Z) (s : st) : st := set_ram (memcpy (ram s) dst src size) s.
Definition gc_memcpy4 (dst src size : Z) (s : st) : st := gc_memcpy dst src (u32 (size * 4)) s.

(** copies [OBJSIZE_OBJECT] words from [data] on *)
Definition gc_impl_shallowCopyObject (dst srcObj : Z) (s : st) : res (Z * st) :=
  let dstObj := ptr2ObjectDesc dst in
  let s := copy_field dstObj srcObj 0 (set_header dstObj OBJFLAGS_OBJECT s) in
  let! c := obj2ClassDesc srcObj s in
  Ok (dstObj, gc_memcpy4 (dstObj + 4) (srcObj + 4) (OBJSIZE_OBJECT (instanceSize s c)) s).

Definition gc_impl_shallowCopyArray (dst srcObj : Z) (s : st) : res (Z * st) :=
  let dstObj := ptr2ObjectDesc dst in
  let s := set_header dstObj OBJFLAGS_ARRAY s in
  let s := copy_field dstObj srcObj 8 (copy_field dstObj srcObj 4 (copy_field dstObj srcObj 0 s)) in
  Ok (dstObj, gc_memcpy4 (dstObj + 12) (srcObj + 12) (rd s (srcObj + 8)) s).

Definition gc_impl_shallowCopyService (dst srcObj : Z) (s : st) : res (Z * st) :=
  let dstObj := ptr2ObjectDesc dst in
  Ok (dstObj, gc_memcpy dstObj srcObj sizeof_DEPDesc (set_header dstObj OBJFLAGS_SERVICE s)).

Definition gc_impl_shallowCopyPortal (dst srcObj : Z) (s : st) : res (Z * st) :=
  let dstObj := ptr2ObjectDesc dst in
  let s := copy_field dstObj srcObj 4 (copy_field dstObj srcObj 0 (set_header dstObj OBJFLAGS_PORTAL s)) in
  Ok (dstObj, copy_field dstObj srcObj 12 (copy_field dstObj srcObj 8 s)).

Definition gc_impl_shallowCopyCAS (dst srcObj : Z) (s : st) : res (Z * st) :=
  let dstObj := ptr2ObjectDesc dst in
  Ok (dstObj, copy_field dstObj srcObj 4 (copy_field dstObj srcObj 0 (set_header dstObj OBJFLAGS_CAS s))).

Definition gc_impl_shallowCopyDomain (dst srcObj : Z) (s : st) : res (Z * st) :=
  let dstObj := ptr2ObjectDesc dst in
  let s := copy_field dstObj srcObj 0 (set_header dstObj OBJFLAGS_DOMAIN s) in
  Ok (dstObj, copy_field dstObj srcObj 8 (copy_field dstObj srcObj 4 s)).

Definition gc_impl_shallowCopyCpuState (dst srcObj : Z) (s : st) : res (Z * st) :=
  let dstObj := ptr2ObjectDesc dst in
  let! srcThread := cpuState2thread srcObj s in
  let s := gc_memcpy (dstObj + 4) srcThread sizeof_ThreadDesc s in
  Ok (dstObj, copy_field dstObj srcObj 0 (set_header dstObj OBJFLAGS_CPUSTATE s)).

(** vtable, value and blockedThread, but not [listMode] *)
Definition gc_impl_shallowCopyAtomVar (dst srcObj : Z) (s : st) : res (Z * st) :=
  let dstObj := ptr2ObjectDesc dst in
  let s := copy_field dstObj srcObj 0 (set_header dstObj OBJFLAGS_ATOMVAR s) in
  Ok (dstObj, copy_field dstObj srcObj 8 (copy_field dstObj srcObj 4 s)).

(** [memory_copy_intradomain] of Interface/zero_Memory_org.c: vtable, size, dz, mem *)
Definition memory_copy_intradomain (dstObj srcObj : Z) (s : st) : res st :=
  let s := copy_field dstObj srcObj 12 (copy_field dstObj srcObj 4 (copy_field dstObj srcObj 0 s)) in
  let! _ := assert_ "dstObj->dz != NULL" (negb (rd s (dstObj + 12) =? 0)) in
  let! r := dz_refcount_at (rd s (dstObj + 12)) (services s) in
  let! _ := assert_ "dstObj->dz->refcount > 0" (0 <? r) in
  Ok (copy_field dstObj srcObj 8 s).
Definition gc_impl_shallowCopyMemory (dst srcObj : Z) (s : st) : res (Z * st) :=
  let dstObj := ptr2ObjectDesc dst in
  let! s := memory_copy_intradomain dstObj srcObj (set_header dstObj OBJFLAGS_MEMORY s) in
  Ok (dstObj, s).

(** ** Moving a reference (Memory/gc_move_common.c, gc_new.c) *)

Definition gc_new_isInHeap (obj : Z) (s : st) : bool := (heap s <=? obj) && (obj <? heapTop s).
(** outside the heap it prints the name of the class, and says no *)
Definition gc_new_ensureInHeap (obj : Z) (s : st) : res bool :=
  if gc_new_isInHeap obj s then Ok true else let! _ := obj2ClassDesc obj s in Ok false.

Definition gc_new_allocHeap2 (size : Z) (s : st) : res (Z * st) :=
  let data := heapTop2 s in
  if heapBorder2 s <? data then Err (EPanic "target heap too small????")
  else Ok (data, set_heapTop2 (u32 (data + 4 * size)) s).

Definition gc_common_move_object (obj : Z) (s : st) : res (Z * st) :=
  let! _ := ASSERTOBJECT obj s in
  let! b := gc_new_ensureInHeap obj s in
  if negb b then Err (EPanic "not in heap") else
  let! c := obj2ClassDesc obj s in
  let! '(dst, s) := gc_new_allocHeap2 (u32 (OBJSIZE_OBJECT (instanceSize s c))) s in
  gc_impl_shallowCopyObject dst obj s.

Definition gc_common_move_service (obj : Z) (s : st) : res (Z * st) :=
  let! _ := ASSERTOBJECT obj s in
  let! _ := assert_ "obj->refcount > 1" (1 <? rd s (obj + dep_refcount)) in
  let! '(dst, s) := gc_new_allocHeap2 OBJSIZE_SERVICEDESC s in
  gc_impl_shallowCopyService dst obj s.

Definition gc_common_move_array (obj : Z) (s : st) : res (Z * st) :=
  let! _ := ASSERTOBJECT obj s in
  let! n := gc_objSize2 obj (getObjFlags s obj) s in
  let! '(dst, s) := gc_new_allocHeap2 n s in
  gc_impl_shallowCopyArray dst obj s.

Definition gc_common_move_portal (obj : Z) (s : st) : res (Z * st) :=
  let! _ := ASSERTOBJECT obj s in
  let! '(dst, s) := gc_new_allocHeap2 OBJSIZE_PORTAL s in
  gc_impl_shallowCopyPortal dst obj s.

Definition gc_common_move_memory (obj : Z) (s : st) : res (Z * st) :=
  let! _ := ASSERTOBJECT obj s in
  let! _ := ASSERTMEMORY obj s in
  let! '(dst, s) := gc_new_allocHeap2 OBJSIZE_MEMORY s in
  gc_impl_shallowCopyMemory dst obj s.

Definition gc_common_move_atomvar (obj : Z) (s : st) : res (Z * st) :=
  let! _ := ASSERTOBJECT obj s in
  let! '(dst, s) := gc_new_allocHeap2 OBJSIZE_ATOMVAR s in
  gc_impl_shallowCopyAtomVar dst obj s.

Definition gc_common_move_cas (obj : Z) (s : st) : res (Z * st) :=
  let! _ := ASSERTOBJECT obj s in
  let! '(dst, s) := gc_new_allocHeap2 OBJSIZE_CAS s in
  gc_impl_shallowCopyCAS dst obj s.

Definition gc_common_move_domain (obj : Z) (s : st) : res (Z * st) :=
  let! _ := ASSERTOBJECT obj s in
  let! '(dst, s) := gc_new_allocHeap2 OBJSIZE_DOMAIN s in
  gc_impl_shallowCopyDomain dst obj s.

Definition gc_common_move_cpustate (obj : Z) (s : st) : res (Z * st) :=
  let! _ := cpuState2thread obj s in
  let! _ := ASSERTOBJECT obj s in
  let! '(dst, s) := gc_new_allocHeap2 OBJSIZE_THREADDESCPROXY s in
  gc_impl_shallowCopyCpuState dst obj s.

(** The switch over the kind of object: [None] when it must not be moved.
    [gc_common_move_servicepool] and [gc_common_move_stack] are empty in this
    configuration and return no value. *)
Definition move_by_kind (flags ref : Z) (s : st) : res (option (Z * st)) :=
  let moved (r : res (Z * st)) := let! p := r in Ok (Some p) in
  if (flags =? OBJFLAGS_FOREIGN_CPUSTATE) || (flags =? OBJFLAGS_OBJECT) then
    let! _ := obj2ClassDesc ref s in moved (gc_common_move_object ref s)
  else if flags =? OBJFLAGS_PORTAL then
    let! _ := obj2ClassDesc ref s in moved (gc_common_move_portal ref s)
  else if flags =? OBJFLAGS_MEMORY then
    let! _ := obj2ClassDesc ref s in moved (gc_common_move_memory ref s)
  else if flags =? OBJFLAGS_ARRAY then
    let! _ := obj2ClassDesc ref s in moved (gc_common_move_array ref s)
  else if flags =? OBJFLAGS_SERVICE then moved (gc_common_move_service ref s)
  else if flags =? OBJFLAGS_ATOMVAR then moved (gc_common_move_atomvar ref s)
  else if flags =? OBJFLAGS_CAS then moved (gc_common_move_cas ref s)
  else if flags =? OBJFLAGS_DOMAIN then moved (gc_common_move_domain ref s)
  else if flags =? OBJFLAGS_CPUSTATE then moved (gc_common_move_cpustate ref s)
  else if (flags =? OBJFLAGS_EXTERNAL_STRING) || (flags =? OBJFLAGS_EXTERNAL_CPUDESC)
          || (flags =? OBJFLAGS_EXTERNAL_CLASS) || (flags =? OBJFLAGS_EXTERNAL_METHOD) then Ok None
  else if flags =? OBJFLAGS_INTERCEPTINBOUNDINFO then
    Err (EPanic "Object Type is OBJFLAGS_INTERCEPTINBOUNDINFO or OBJFLAGS_VMOBJECT")
  else if flags =? OBJFLAGS_VMOBJECT then Err (EPanic "Object Type is OBJFLAGS_VMOBJECT")
  else if (flags =? OBJFLAGS_SERVICE_POOL) || (flags =? OBJFLAGS_STACK) then Err EFault
  else Err (EPanic "UNKNOWN OBJECT TYPE").

(** [ref] is [*refPtr]; the result is the value stored through [refPtr]. *)
Definition gc_common_move_reference (ref : Z) (s : st) : res (option Z * st) :=
  if ref =? 0 then Ok (None, s)
  else if ref <=? 0xfff then Ok (None, s)
  else
    let flags := getObjFlags s ref in
    if Z.land flags FORWARD_MASK =? GC_FORWARD then Ok (Some (Z.land flags FORWARD_PTR_MASK), s)
    else
      let! r := move_by_kind (Z.land flags FLAGS_MASK) ref s in
      match r with
      | None => Ok (None, s)
      | Some (forward, s) =>
          let! _ := assert_ "((u4_t) forward & FORWARD_MASK) == 0" (Z.land forward FORWARD_MASK =? 0) in
          Ok (Some forward, setObjFlags ref (Z.lor forward GC_FORWARD) s)
      end.

(** ** Visiting the references of an object (Memory/gc_move.c) *)

Section Walk.
Context (handler : Z -> st -> res (option Z * st)).

(** [handler(domain, (ObjectDesc ** ) a)] *)
Definition handleReference (a : Z) (s : st) : res st :=
  let! '(r, s) := handler (rd s a) s in
  Ok (match r with Some v => wr a v s | None => s end).

(** [if (x) {tpr = thread2CPUState(x); handler(domain, &tpr); x = cpuState2thread(tpr);}] *)
Definition MOVETCB (a : Z) (s : st) : res st :=
  if rd s a =? 0 then Ok s else
  let tpr := thread2CPUState (rd s a) in
  let! '(r, s) := handler tpr s in
  let! x := cpuState2thread (default tpr r) s in
  Ok (wr a x s).

(** FORBITMAP: [addr] walks over the bytes of the map, [bits] holds the rest
    of the current byte *)
Fixpoint FORBITMAP (n : nat) (index addr bits : Z) (isset : Z -> st -> res st) (s : st) : res st :=
  match n with
  | O => Ok s
  | S k =>
      let '(bits, addr) := if index mod 8 =? 0 then (load8 (ram s) addr, addr + 1) else (bits, addr) in
      let! s := (if Z.land bits 1 =? 0 then Ok s else isset index s) in
      FORBITMAP k (index + 1) addr (Z.shiftr bits 1) isset s
  end.

Definition gc_impl_walkContentObject (obj : Z) (s : st) : res st :=
  let! _ := assert_ "obj->vtable != NULL" (negb (rd s obj =? 0)) in
  let cl := rd s (rd s obj - 4) in
  let! _ := ASSERTCLASSDESC cl s in
  FORBITMAP (Z.to_nat (instanceSize s cl)) 0 (rd s (cl + c_map)) 0
    (fun index => handleReference (obj + 4 + 4 * index)) s.

Definition gc_impl_walkContentArray (obj : Z) (s : st) : res st :=
  let c := class_name1 s (rd s (obj + 4)) in
  if (c =? 76) || (c =? 91) (* 'L' or '[' *) then
    for_n (Z.to_nat (rd s (obj + 8))) 0 (fun i => handleReference (obj + 12 + 4 * i)) s
  else Ok s.

Definition gc_impl_walkContentService (obj : Z) (s : st) : res st :=
  let! s := handleReference (obj + dep_obj) s in
  let! s := handleReference (obj + dep_proxy) s in
  MOVETCB (obj + dep_receiver) s.

Definition gc_impl_walkContentAtomVar (obj : Z) (s : st) : res st :=
  let! s := MOVETCB (obj + 8) s in handleReference (obj + 4) s.

(** [isRef]: bit [num] of a map of [total] bits *)
Fixpoint isRef_loop (n : nat) (index addr bits num : Z) (s : st) : bool :=
  match n with
  | O => false
  | S k =>
      let '(bits, addr) := if index mod 8 =? 0 then (load8 (ram s) addr, addr + 1) else (bits, addr) in
      if negb (Z.land bits 1 =? 0) && (index =? num) then true
      else isRef_loop k (index + 1) addr (Z.shiftr bits 1) num s
  end.
Definition isRef (map total num : Z) (s : st) : bool := isRef_loop (Z.to_nat total) 0 map 0 num s.

(** [gc_correct_irqHandlers] of arch/irq.c for one CPU; [irqs] lists the
    interrupts whose vector is used and that have a handler object, as the
    addresses of their [ithreads] entries. *)
Context (irqs : list Z).
Fixpoint gc_correct_irqHandlers (l : list Z) (t : Z) (s : st) : res (bool * st) :=
  match l with
  | [] => Ok (false, s)
  | a :: l =>
      let x := rd s a in
      if (rd s (x + t_id) =? rd s (t + t_id))
         && (domain_id (rd s (x + t_domain)) (services s) =? domain_id (rd s (t + t_domain)) (services s))
      then let! s := MOVETCB a s in Ok (true, s)
      else gc_correct_irqHandlers l t s
  end.

(** the references among the parameters of the incoming portal call *)
Fixpoint walk_params (n : nat) (i t argTypeMap numberArgs : Z) (s : st) : res st :=
  match n with
  | O => Ok s
  | S k =>
      let! s := (if isRef argTypeMap numberArgs (i - 1) s && negb (rd s (rd s (t + t_depParams) + 4 * i) =? 0)
                 then handleReference (rd s (t + t_myparams) + 4 * i) s else Ok s) in
      walk_params k (i + 1) t argTypeMap numberArgs s
  end.

Definition walk_incoming_call (t : Z) (s : st) : res st :=
  if negb (rd s (t + t_isPortalThread) =? 0) then
    let source := rd s (t + t_mostRecentlyCalledBy) in
    if source =? 0 then Ok s else
    let obj := rd s (rd s (t + t_processingDEP) + dep_obj) in
    let! oclass := obj2ClassDesc obj s in
    let method := rd s (rd s (oclass + c_methodVtable) + 4 * rd s (source + t_depMethodIndex)) in
    let numberArgs := rd s (method + md_numberOfArgs) in
    let argTypeMap := rd s (method + md_argTypeMap) in
    let! s := handleReference (rd s (t + t_myparams)) s in
    if rd s (t + t_depParams) =? 0 then Ok s
    else walk_params (Z.to_nat numberArgs) 1 t argTypeMap numberArgs s
  else
    let! _ := assert_ "t->mostRecentlyCalledBy == NULL" (rd s (t + t_mostRecentlyCalledBy) =? 0) in Ok s.

(** [if (t->f) handler(domain, &t->f);] *)
Definition handle_if_set (a : Z) (s : st) : res st := if rd s a =? 0 then Ok s else handleReference a s.

Definition gc_impl_walkContentCPUState (obj : Z) (s : st) : res st :=
  let! t := cpuState2thread obj s in
  let s := wr (t + t_contextPtr) (t + t_context) s in
  let! s := MOVETCB (t + t_nextInDomain) s in
  let! s := MOVETCB (t + t_prevInDomain) s in
  let! s := MOVETCB (t + t_nextInRunQueue) s in
  let! s := (if rd s (t + t_blockedInServiceThread) =? 0 then Ok s
             else MOVETCB (rd s (t + t_blockedInServiceThread) + t_mostRecentlyCalledBy) s) in
  let! s := (if rd s (t + t_mostRecentlyCalledBy) =? 0 then Ok s
             else MOVETCB (rd s (t + t_mostRecentlyCalledBy) + t_blockedInServiceThread) s) in
  if (rd s (t + t_state) =? STATE_PORTAL_WAIT_FOR_RCV)
     && (domain_id (rd s (t + t_blockedInDomain)) (services s) =? rd s (t + t_blockedInDomainID))
  then Err (EPanic "move TCB in wait queue NYI") else
  let s := wr (t + t_contextPtr) (t + t_context) s in
  let! s := (if rd s (t + t_isInterruptHandlerThread) =? 0 then Ok s else
               let! '(found, s) := gc_correct_irqHandlers irqs t s in
               if found then Ok s
               else Err (EPanic "Thread %d.%d marked as interrupt handler but not listed in ithreads")) in
  let! s := handle_if_set (t + t_portalParameter) s in
  let! s := handle_if_set (t + t_entry) s in
  let! s := (if Z.land (rd s (t + t_portalReturnType)) 1 =? 0 then Ok s else handle_if_set (t + t_portalReturn) s) in
  let! s := walk_incoming_call t s in
  if rd s (t + t_processingDEP) =? 0 then Ok s
  else if 1 <? rd s (rd s (t + t_processingDEP) + dep_refcount) then handleReference (t + t_processingDEP) s
  else Ok (wr (t + t_processingDEP) 0 s).
End Walk.

(** ** Walking over a semispace (Memory/gc_common.c) *)

(** A [HandleObject_t]: object, size in words, flags. *)
Abbreviation handle_object := (Z -> Z -> Z -> st -> res st).
Record handlers := MkHandlers {
  handleObject : option handle_object;
  handleArray : option handle_object;
  handlePortal : option handle_object;
  handleMemory : option handle_object;
  handleService : option handle_object;
  handleCAS : option handle_object;
  handleAtomVar : option handle_object;
  handleDomainProxy : option handle_object;
  handleCPUStateProxy : option handle_object;
}.

Definition call_handler (h : option handle_object) (obj objSize flags : Z) (s : st) : res (Z * st) :=
  match h with
  | Some f => let! s := f obj objSize flags s in Ok (objSize, s)
  | None => Ok (objSize, s)
  end.

(** the switch of the loop body: the size of the object, after its handler *)
Definition walk_object (hs : handlers) (obj flags : Z) (s : st) : res (Z * st) :=
  let k := Z.land flags FLAGS_MASK in
  if k =? OBJFLAGS_ARRAY then
    let! objSize := gc_objSize2 obj flags s in call_handler (handleArray hs) obj objSize flags s
  else if (k =? OBJFLAGS_EXTERNAL_STRING) || (k =? OBJFLAGS_FOREIGN_CPUSTATE) || (k =? OBJFLAGS_OBJECT) then
    let! _ := assert_ "domain == domainZero" (negb (k =? OBJFLAGS_EXTERNAL_STRING) || is_domainZero) in
    let! c := obj2ClassDesc obj s in
    let! _ := ASSERTCLASSDESC c s in
    call_handler (handleObject hs) obj (u32 (OBJSIZE_OBJECT (instanceSize s c))) flags s
  else if k =? OBJFLAGS_PORTAL then call_handler (handlePortal hs) obj OBJSIZE_PORTAL flags s
  else if k =? OBJFLAGS_MEMORY then call_handler (handleMemory hs) obj OBJSIZE_MEMORY flags s
  else if k =? OBJFLAGS_SERVICE then call_handler (handleService hs) obj OBJSIZE_SERVICEDESC flags s
  else if k =? OBJFLAGS_ATOMVAR then call_handler (handleAtomVar hs) obj OBJSIZE_ATOMVAR flags s
  else if k =? OBJFLAGS_CAS then call_handler (handleCAS hs) obj OBJSIZE_CAS flags s
  else if k =? OBJFLAGS_DOMAIN then call_handler (handleDomainProxy hs) obj OBJSIZE_DOMAIN flags s
  else if k =? OBJFLAGS_CPUSTATE then call_handler (handleCPUStateProxy hs) obj OBJSIZE_THREADDESCPROXY flags s
  else Err (EPanic "WRONG HEAP DATA").

(** the flags of an object, its copy's when it has been forwarded *)
Definition walk_flags (obj : Z) (s : st) : Z :=
  let flags := getObjFlags s obj in
  if Z.land flags FORWARD_MASK =? GC_FORWARD
  then Z.lor (getObjFlags s (Z.land flags FORWARD_PTR_MASK)) GC_FORWARD else flags.

(** [top] is read again in every round: handlers may append to the space. *)
Fixpoint gc_walkContinuesBlock (fuel : nat) (hs : handlers) (data : Z) (top : st -> Z) (s : st) : res st :=
  if negb (data <? top s) then Ok s else
  match fuel with
  | O => Err EFuel
  | S k =>
      let obj := ptr2ObjectDesc data in
      let! '(objSize, s) := walk_object hs obj (walk_flags obj s) s in
      gc_walkContinuesBlock k hs (u32 (data + 4 * objSize)) top s
  end.

Definition gc_new_walkHeap (fuel : nat) (hs : handlers) (s : st) : res st :=
  gc_walkContinuesBlock fuel hs (heap s) heapTop s.
Definition gc_new_walkHeap2 (fuel : nat) (hs : handlers) (s : st) : res st :=
  gc_walkContinuesBlock fuel hs (heap2 s) heapTop2 s.

(** ** A collection (Memory/gc_new.c) *)

Definition gc_new_finalizeMemoryCB (obj objSize flags : Z) (s : st) : res st :=
  if Z.land flags FORWARD_MASK =? GC_FORWARD then Ok s else
  let! _ := ASSERTMEMORY obj s in
  let! a := memory_deleted_dz (rd s (obj + 12)) (services s) in
  Ok (set_services a s).

Definition gc_new_finalizePortalsCB (obj objSize flags : Z) (s : st) : res st :=
  if Z.land flags FORWARD_MASK =? GC_FORWARD then Ok s else
  let target := rd s (obj + 4) in
  if negb (target =? 0) && (domain_id target (services s) =? rd s (obj + 8)) && negb (target =? domain) then
    let! a := service_decRefcount target (rd s (obj + 12)) (services s) in
    Ok (set_services a s)
  else Ok s.

Definition no_handlers : handlers := MkHandlers None None None None None None None None None.
Definition gc_new_finalizeMemory (fuel : nat) (s : st) : res st :=
  gc_new_walkHeap fuel (MkHandlers None None None (Some gc_new_finalizeMemoryCB) None None None None None) s.
Definition gc_new_finalizePortals (fuel : nat) (s : st) : res st :=
  gc_new_walkHeap fuel (MkHandlers None None (Some gc_new_finalizePortalsCB) None None None None None None) s.
Definition gc_new_checkHeap (fuel : nat) (s : st) : res st := gc_new_walkHeap fuel no_handlers s.

Definition gc_new_scan_heap2_Object (obj objSize flags : Z) : st -> res st :=
  gc_impl_walkContentObject gc_common_move_reference obj.
Definition gc_new_scan_heap2_Array (obj objSize flags : Z) : st -> res st :=
  gc_impl_walkContentArray gc_common_move_reference obj.
Definition gc_new_scan_heap2_Service (obj objSize flags : Z) : st -> res st :=
  gc_impl_walkContentService gc_common_move_reference obj.
Definition gc_new_scan_heap2_AtomVar (obj objSize flags : Z) : st -> res st :=
  gc_impl_walkContentAtomVar gc_common_move_reference obj.
Definition gc_new_scan_heap2_CPUState (irqs : list Z) (obj objSize flags : Z) : st -> res st :=
  gc_impl_walkContentCPUState gc_common_move_reference irqs obj.
Definition scan_handlers (irqs : list Z) : handlers :=
  MkHandlers (Some gc_new_scan_heap2_Object) (Some gc_new_scan_heap2_Array) None None
    (Some gc_new_scan_heap2_Service) None (Some gc_new_scan_heap2_AtomVar) None
    (Some (gc_new_scan_heap2_CPUState irqs)).

(** The root set: cells that hold an object reference and cells that hold a
    [ThreadDesc *]. *)
Inductive root := RRef (a : Z) | RTcb (a : Z).
Definition visit (handler : Z -> st -> res (option Z * st)) (r : root) : st -> res st :=
  match r with RRef a => handleReference handler a | RTcb a => MOVETCB handler a end.
Fixpoint walkRootSet (handler : Z -> st -> res (option Z * st)) (roots : list root) (s : st) : res st :=
  match roots with
  | [] => Ok s
  | r :: l => let! s := visit handler r s in walkRootSet handler l s
  end.

(** the exchange of the semispaces *)
Definition swap_heaps (s : st) : st :=
  MkGC (ram s) (heap2 s) (heapBorder2 s) (heapTop2 s) (heapSize s)
    (heap s) (heapBorder s) (heap s) (services s).

Definition gc_new_gc (fuel : nat) (irqs : list Z) (roots : list root) (s : st) : res st :=
  let! s := walkRootSet gc_common_move_reference roots s in
  let! s := gc_new_walkHeap2 fuel (scan_handlers irqs) s in
  let! s := gc_new_finalizeMemory fuel s in
  let! s := gc_new_finalizePortals fuel s in
  Ok (swap_heaps s).

Definition gc_new_freeWords (s : st) : Z := u32 ((heapBorder s - heapTop s) / 4).
Definition gc_new_totalWords (s : st) : Z := u32 ((heapBorder s - heap s) / 4).
End Collector.
