(* ===== verification/GCTheory.v ===== *)
(** * The copying collector: objects, their layout, and the copy of one object

    The layout of an object is read off the memory: [owords] is its size in
    words, [field] says for each word of its body whether the collector copies
    it as it is, treats it as a reference or a thread pointer, rewrites it
    ([contextPtr]) or loses it.  [wf_obj] is what the collector needs of an
    object.  A copy has the same layout as its original ([shape_*]), because
    the words that determine the layout are copied as they are. *)

From S2P Require Import Prelude Mem CString GCHeap.
#[local] Open Scope Z_scope.

Inductive fkind := FRaw | FRef | FTcb | FSelf | FJunk.
#[export] Instance fkind_eq_dec : EqDecision fkind.
Proof. solve_decision. Defined.

Definition okind (m : memory) (o : Z) : Z := load32 m (o - 8).
Definition cdesc (m : memory) (o : Z) : Z := load32 m (load32 m o - 4).
Definition isize (m : memory) (o : Z) : Z := load32 m (cdesc m o + c_instanceSize).
Definition mapbit (m : memory) (c j : Z) : bool :=
  Z.testbit (load8 m (load32 m (c + c_map) + j / 8)) (j mod 8).
Definition ref_array (m : memory) (o : Z) : bool :=
  let c := load8 m (load32 m (load32 m (o + 4) + c_name) + 1) in (c =? 76) || (c =? 91).

(** the kinds of object the collector moves *)
Definition kinds : list Z :=
  [OBJFLAGS_OBJECT; OBJFLAGS_ARRAY; OBJFLAGS_PORTAL; OBJFLAGS_MEMORY; OBJFLAGS_SERVICE;
   OBJFLAGS_ATOMVAR; OBJFLAGS_CAS; OBJFLAGS_DOMAIN; OBJFLAGS_CPUSTATE].
(** the kinds it leaves where they are *)
Definition fixed_kinds : list Z :=
  [OBJFLAGS_EXTERNAL_STRING; OBJFLAGS_EXTERNAL_CPUDESC; OBJFLAGS_EXTERNAL_CLASS; OBJFLAGS_EXTERNAL_METHOD].

Definition owords (m : memory) (o : Z) : Z :=
  let k := okind m o in
  if k =? OBJFLAGS_ARRAY then OBJSIZE_ARRAY_32BIT (load32 m (o + 8))
  else if k =? OBJFLAGS_OBJECT then OBJSIZE_OBJECT (isize m o)
  else if k =? OBJFLAGS_PORTAL then OBJSIZE_PORTAL
  else if k =? OBJFLAGS_MEMORY then OBJSIZE_MEMORY
  else if k =? OBJFLAGS_SERVICE then OBJSIZE_SERVICEDESC
  else if k =? OBJFLAGS_ATOMVAR then OBJSIZE_ATOMVAR
  else if k =? OBJFLAGS_CAS then OBJSIZE_CAS
  else if k =? OBJFLAGS_DOMAIN then OBJSIZE_DOMAIN
  else OBJSIZE_THREADDESCPROXY.

(** what the word at byte offset [i] of the body is *)
Definition field (m : memory) (o i : Z) : fkind :=
  let k := okind m o in
  let j := (i - 4) / 4 in
  if k =? OBJFLAGS_OBJECT then
    if (0 <=? j) && (j <? isize m o) && mapbit m (cdesc m o) j then FRef else FRaw
  else if k =? OBJFLAGS_ARRAY then
    if (12 <=? i) && ref_array m o then FRef else FRaw
  else if k =? OBJFLAGS_SERVICE then
    if (i =? dep_obj) || (i =? dep_proxy) then FRef else if i =? dep_receiver then FTcb else FRaw
  else if k =? OBJFLAGS_ATOMVAR then
    if i =? 4 then FRef else if i =? 8 then FTcb else if i =? 12 then FJunk else FRaw
  else if k =? OBJFLAGS_MEMORY then if 16 <=? i then FJunk else FRaw
  else if k =? OBJFLAGS_CPUSTATE then
    if i =? 4 + t_contextPtr then FSelf
    else if (i =? 4 + t_nextInDomain) || (i =? 4 + t_prevInDomain) || (i =? 4 + t_nextInRunQueue) then FTcb
    else if (i =? 4 + t_portalParameter) || (i =? 4 + t_entry) || (i =? 4 + t_processingDEP) then FRef
    else if (i =? 4 + t_portalReturn) && negb (Z.land (load32 m (o + 4 + t_portalReturnType)) 1 =? 0) then FRef
    else if 4 + sizeof_ThreadDesc <=? i then FJunk else FRaw
  else FRaw.

(** the byte offsets of the words of the body *)
Definition in_body (m : memory) (o i : Z) : Prop := 0 <= i < 4 * owords m o - 8 /\ i mod 4 = 0.

Lemma in_body_end m o i : in_body m o i -> 0 <= i /\ i + 4 <= 4 * owords m o - 8.
Proof. intros [??]. Z.div_mod_to_equations. lia. Qed.

(** [cls]: the bytes of class descriptors and of objects outside the heap *)
Definition cls32 (cls : Z -> Prop) (a : Z) : Prop := forall x, a <= x < a + 4 -> cls x.

Definition has_class (cls : Z -> Prop) (m : memory) (o : Z) : Prop :=
  load32 m o <> 0 /\ cls32 cls (load32 m o - 4).

(** A thread that takes part in no portal call and handles no interrupt. *)
Definition quiet_thread (m : memory) (t : Z) : Prop :=
  load32 m (t + t_state) <> STATE_PORTAL_WAIT_FOR_RCV /\
  load32 m (t + t_blockedInServiceThread) = 0 /\
  load32 m (t + t_mostRecentlyCalledBy) = 0 /\
  load32 m (t + t_isInterruptHandlerThread) = 0.

Definition wf_body (cls : Z -> Prop) (m : memory) (o : Z) : Prop :=
  let k := okind m o in
  if k =? OBJFLAGS_OBJECT then
    let c := cdesc m o in
    has_class cls m o /\ cls32 cls c /\ load32 m c = MAGIC_CLASSDESC /\
    cls32 cls (c + c_instanceSize) /\ cls32 cls (c + c_map) /\
    forall j, 0 <= j < isize m o -> cls (load32 m (c + c_map) + j / 8)
  else if k =? OBJFLAGS_ARRAY then
    has_class cls m o /\ cls32 cls (load32 m (o + 4) + c_name) /\
    cls (load32 m (load32 m (o + 4) + c_name) + 1)
  else if k =? OBJFLAGS_PORTAL then has_class cls m o
  else if k =? OBJFLAGS_MEMORY then has_class cls m o /\ load32 m (o + 12) <> 0
  else if k =? OBJFLAGS_SERVICE then 1 < load32 m (o + dep_refcount)
  else if k =? OBJFLAGS_CPUSTATE then quiet_thread m (o + 4)
  else True.

Record wf_obj (cls : Z -> Prop) (m : memory) (o : Z) : Prop := {
  wf_kind : okind m o ∈ kinds;
  wf_magic : load32 m (o - 4) = MAGIC_OBJECT;
  wf_addr : 0xfff < o /\ o mod 4 = 0 /\ o + 4 * owords m o < 4294967296;
  wf_class : wf_body cls m o;
}.

Lemma kinds_inv k :
  k ∈ kinds ->
  k = OBJFLAGS_OBJECT \/ k = OBJFLAGS_ARRAY \/ k = OBJFLAGS_PORTAL \/ k = OBJFLAGS_MEMORY \/ k = OBJFLAGS_SERVICE \/
  k = OBJFLAGS_ATOMVAR \/ k = OBJFLAGS_CAS \/ k = OBJFLAGS_DOMAIN \/ k = OBJFLAGS_CPUSTATE.
Proof.
  unfold kinds. intros H. repeat (apply elem_of_cons in H as [->|H]; [tauto|]). by apply elem_of_nil in H.
Qed.

(** cases on the kind of an object *)
Ltac by_kind H E := destruct (kinds_inv _ H) as [E|[E|[E|[E|[E|[E|[E|[E|E]]]]]]]].

Lemma owords_pos m o : 4 <= owords m o.
Proof.
  unfold owords, OBJSIZE_ARRAY_32BIT, OBJSIZE_OBJECT, XMOFF, isize.
  pose proof (load32_range m (o + 8)). pose proof (load32_range m (cdesc m o + c_instanceSize)).
  repeat case_match; try lia; by vm_compute.
Qed.

(** ** Shape *)

(** [o'] in [m'] is laid out like [o] in [m]. *)
Record same_shape (cls : Z -> Prop) (m : memory) (o : Z) (m' : memory) (o' : Z) : Prop := {
  ss_kind : okind m' o' = okind m o;
  ss_raw : forall i, in_body m o i -> field m o i = FRaw -> load32 m' (o' + i) = load32 m (o + i);
  ss_cls : forall a, cls a -> load8 m' a = load8 m a;
}.

Section Shape.
Context (cls : Z -> Prop) (m m' : memory) (o o' : Z).
Context (Hw : wf_obj cls m o) (Hs : same_shape cls m o m' o').

Lemma shape_cls32 a : cls32 cls a -> load32 m' a = load32 m a.
Proof. intros H. apply load32_ext. intros x Hx. by apply (ss_cls _ _ _ _ _ Hs), H. Qed.

Lemma shape_raw i : 0 <= i -> i + 4 <= 4 * owords m o - 8 -> i mod 4 = 0 -> field m o i = FRaw ->
  load32 m' (o' + i) = load32 m (o + i).
Proof. intros. apply (ss_raw _ _ _ _ _ Hs); [split; lia|done]. Qed.

Lemma shape_vtable : okind m o <> OBJFLAGS_CPUSTATE -> load32 m' o' = load32 m o.
Proof.
  intros Hk. rewrite <- (Z.add_0_r o'), <- (Z.add_0_r o). pose proof (owords_pos m o).
  apply shape_raw; [lia..|done|]. unfold field.
  rewrite (proj2 (Z.eqb_neq _ OBJFLAGS_CPUSTATE)) by done. simpl. repeat case_match; done.
Qed.

Lemma shape_cdesc : okind m o <> OBJFLAGS_CPUSTATE -> has_class cls m o -> cdesc m' o' = cdesc m o.
Proof. intros Hk [_ Hc]. unfold cdesc. rewrite shape_vtable by done. by apply shape_cls32. Qed.

Lemma wf_body_at k : okind m o = k -> wf_body cls m o ->
  (if k =? OBJFLAGS_OBJECT then
    let c := cdesc m o in
    has_class cls m o /\ cls32 cls c /\ load32 m c = MAGIC_CLASSDESC /\
    cls32 cls (c + c_instanceSize) /\ cls32 cls (c + c_map) /\
    forall j, 0 <= j < isize m o -> cls (load32 m (c + c_map) + j / 8)
  else if k =? OBJFLAGS_ARRAY then
    has_class cls m o /\ cls32 cls (load32 m (o + 4) + c_name) /\
    cls (load32 m (load32 m (o + 4) + c_name) + 1)
  else if k =? OBJFLAGS_PORTAL then has_class cls m o
  else if k =? OBJFLAGS_MEMORY then has_class cls m o /\ load32 m (o + 12) <> 0
  else if k =? OBJFLAGS_SERVICE then 1 < load32 m (o + dep_refcount)
  else if k =? OBJFLAGS_CPUSTATE then quiet_thread m (o + 4)
  else True).
Proof. intros <-. done. Qed.

(** the words of an instance *)
Lemma shape_instance : okind m o = OBJFLAGS_OBJECT ->
  cdesc m' o' = cdesc m o /\ isize m' o' = isize m o /\
  forall j, 0 <= j < isize m o -> mapbit m' (cdesc m o) j = mapbit m (cdesc m o) j.
Proof.
  intros E. pose proof (wf_body_at _ E (wf_class _ _ _ Hw)) as (Hc & _ & _ & Hi & Hp & Hj). cbv zeta in *.
  assert (cdesc m' o' = cdesc m o) as EC by (apply shape_cdesc; [by rewrite E|done]).
  split_and!; [done|unfold isize; rewrite EC; by apply shape_cls32|].
  intros j Hjr. unfold mapbit. rewrite (shape_cls32 _ Hp). f_equal. by apply (ss_cls _ _ _ _ _ Hs), Hj.
Qed.

Lemma shape_array : okind m o = OBJFLAGS_ARRAY ->
  load32 m' (o' + 4) = load32 m (o + 4) /\ load32 m' (o' + 8) = load32 m (o + 8) /\ ref_array m' o' = ref_array m o.
Proof.
  intros E. pose proof (wf_body_at _ E (wf_class _ _ _ Hw)) as (_ & Hn & Hb). simpl in Hn, Hb.
  pose proof (load32_range m (o + 8)).
  assert (forall i, i = 4 \/ i = 8 -> load32 m' (o' + i) = load32 m (o + i)) as Hf.
  { intros i Hi. apply shape_raw; [lia| |destruct Hi; by subst|].
    - unfold owords. rewrite E. simpl. unfold OBJSIZE_ARRAY_32BIT, XMOFF. lia.
    - unfold field. rewrite E. simpl. destruct Hi; by subst. }
  split_and!; [apply Hf; lia..|]. unfold ref_array. rewrite (Hf 4) by lia. rewrite (shape_cls32 _ Hn).
  by rewrite (ss_cls _ _ _ _ _ Hs _ Hb).
Qed.

Lemma shape_words : owords m' o' = owords m o.
Proof.
  unfold owords. rewrite (ss_kind _ _ _ _ _ Hs).
  destruct (Z.eqb_spec (okind m o) OBJFLAGS_ARRAY) as [E|_]; [by rewrite (proj1 (proj2 (shape_array E)))|].
  destruct (Z.eqb_spec (okind m o) OBJFLAGS_OBJECT) as [E|_]; [by rewrite (proj1 (proj2 (shape_instance E)))|].
  done.
Qed.

Lemma shape_field i : field m' o' i = field m o i.
Proof.
  unfold field. rewrite (ss_kind _ _ _ _ _ Hs).
  destruct (Z.eqb_spec (okind m o) OBJFLAGS_OBJECT) as [E|_].
  { destruct (shape_instance E) as (-> & -> & Hj).
    destruct (Z.leb_spec 0 ((i - 4) / 4)); [|done]. destruct (Z.ltb_spec ((i - 4) / 4) (isize m o)); [|done].
    by rewrite Hj by lia. }
  destruct (Z.eqb_spec (okind m o) OBJFLAGS_ARRAY) as [E|_].
  { by rewrite (proj2 (proj2 (shape_array E))). }
  destruct (okind m o =? OBJFLAGS_SERVICE); [done|].
  destruct (okind m o =? OBJFLAGS_ATOMVAR); [done|].
  destruct (okind m o =? OBJFLAGS_MEMORY); [done|].
  destruct (Z.eqb_spec (okind m o) OBJFLAGS_CPUSTATE) as [E|_]; [|done].
  replace (load32 m' (o' + 4 + t_portalReturnType)) with (load32 m (o + 4 + t_portalReturnType)); [done|].
  symmetry. rewrite <- !Z.add_assoc. apply shape_raw; [done| |done|].
  - unfold owords. rewrite E. by vm_compute.
  - unfold field. by rewrite E.
Qed.

Lemma shape_wf :
  load32 m' (o' - 4) = MAGIC_OBJECT -> 0xfff < o' -> o' mod 4 = 0 -> o' + 4 * owords m o < 4294967296 ->
  wf_obj cls m' o'.
Proof.
  intros Hm Ho Ha Hb. split; [by rewrite (ss_kind _ _ _ _ _ Hs); apply Hw|done|by rewrite shape_words|].
  pose proof (wf_class _ _ _ Hw) as HB. pose proof (wf_kind _ _ _ Hw) as HK. unfold wf_body.
  rewrite (ss_kind _ _ _ _ _ Hs).
  assert (okind m o <> OBJFLAGS_CPUSTATE -> has_class cls m o -> has_class cls m' o') as Hcl.
  { intros Hk [H1 H2]. unfold has_class. by rewrite shape_vtable. }
  by_kind HK E; rewrite E in *; simpl in *; pose proof (wf_body_at _ E HB) as W; simpl in W; try done.
  - destruct (shape_instance E) as (EC & EI & _). rewrite EC, EI. destruct W as (? & H2 & H3 & ? & H5 & ?).
    rewrite (shape_cls32 _ H2), (shape_cls32 _ H5). split_and!; try done. by apply Hcl.
  - destruct (shape_array E) as (-> & _ & _). destruct W as (? & H2 & ?). rewrite (shape_cls32 _ H2).
    split_and!; try done. by apply Hcl.
  - by apply Hcl.
  - destruct W as (? & W). split; [by apply Hcl|].
    rewrite shape_raw; [done|done|unfold owords; by rewrite E|done|unfold field; by rewrite E].
  - rewrite shape_raw; [done|done|unfold owords; by rewrite E|done|unfold field; by rewrite E].
  - unfold quiet_thread in *. rewrite <- !Z.add_assoc in *.
    rewrite !shape_raw; [done|first [done|unfold owords; by rewrite E|unfold field; by rewrite E]..].
Qed.
End Shape.

(** ** The copy of one object *)

(** [m'] arises from [m] by writing only [n - 8 .. lim), the header is set for
    the kind [h], and the words [S] of the body are copies. *)
Record xfer (m m' : memory) (o n lim : Z) (h : option Z) (S : Z -> Prop) : Prop := {
  x_out : forall a, a < n - 8 \/ lim <= a -> load8 m' a = load8 m a;
  x_hdr : forall k, h = Some k -> load32 m' (n - 8) = k /\ load32 m' (n - 4) = MAGIC_OBJECT;
  x_body : forall i, S i -> 0 <= i /\ i mod 4 = 0 /\ load32 m' (n + i) = load32 m (o + i);
}.

Section Xfer.
Context (m : memory) (o n lim olim : Z).
Context (Hlim : n <= lim) (Hd : olim <= n - 8 \/ lim <= o - 8).

Lemma xfer_refl : xfer m m o n lim None (fun _ => False).
Proof. by split. Qed.

Lemma xfer_header m' h S k : 0 <= k < 4294967296 ->
  xfer m m' o n lim h S -> xfer m (store32 (store32 m' (n - 8) k) (n - 4) MAGIC_OBJECT) o n lim (Some k) S.
Proof.
  intros Hk [Ho _ Hb]. split.
  - intros a Ha. rewrite !load8_store32_ne by lia. by apply Ho.
  - intros ? [= <-]. rewrite load32_store32_ne, !load32_store32 by lia. by rewrite u32_small.
  - intros i Hi. destruct (Hb i Hi) as (? & ? & <-). by rewrite !load32_store32_ne by lia.
Qed.

Lemma xfer_src m' h S i : xfer m m' o n lim h S -> 0 <= i -> o + i + 4 <= olim -> load32 m' (o + i) = load32 m (o + i).
Proof. intros [Ho _ _] Hi Hl. apply load32_ext. intros x Hx. apply Ho. lia. Qed.

Lemma xfer_word m' h S i : 0 <= i -> i mod 4 = 0 -> o + i + 4 <= olim -> n + i + 4 <= lim ->
  xfer m m' o n lim h S ->
  xfer m (store32 m' (n + i) (load32 m' (o + i))) o n lim h (fun j => j = i \/ S j).
Proof.
  intros Hi Hm Hs Hl X. rewrite (xfer_src _ _ _ _ X) by lia. destruct X as [Ho Hh Hb]. split.
  - intros a Ha. rewrite load8_store32_ne by lia. by apply Ho.
  - intros k Ek. rewrite !load32_store32_ne by lia. by apply Hh.
  - intros j Hj. destruct (decide (j = i)) as [->|Hne].
    + split_and!; [done|done|]. rewrite load32_store32. apply u32_small, load32_range.
    + destruct Hj as [|Hj]; [done|]. destruct (Hb j Hj) as (? & ? & <-). split_and!; [done|done|].
      apply load32_store32_ne. Z.div_mod_to_equations. lia.
Qed.

Lemma xfer_memcpy m' h S b len : 0 <= b -> b mod 4 = 0 -> 0 <= len < 4294967296 -> o + b + len <= olim ->
  n + b + len <= lim -> xfer m m' o n lim h S ->
  xfer m (memcpy m' (n + b) (o + b) len) o n lim h (fun j => (b <= j /\ j + 4 <= b + len /\ j mod 4 = 0) \/ (S j /\ j < b)).
Proof.
  intros Hb Hb4 Hlen Hs Hl X.
  assert (forall x, load8 (memcpy m' (n + b) (o + b) len) x =
    if (n + b <=? x) && (x <? n + b + len) then load8 m (o + b + (x - (n + b))) else load8 m' x) as HL.
  { intros x. rewrite memcpy_load by lia. destruct (Z.leb_spec (n + b) x), (Z.ltb_spec x (n + b + len)); simpl; try done.
    apply (x_out _ _ _ _ _ _ _ X). lia. }
  assert (forall x, x < n + b \/ n + b + len <= x -> load8 (memcpy m' (n + b) (o + b) len) x = load8 m' x) as HL'.
  { intros x Hx. rewrite HL. destruct (Z.leb_spec (n + b) x), (Z.ltb_spec x (n + b + len)); simpl; try done; lia. }
  destruct X as [Ho Hh Hbd]. split.
  - intros a Ha. rewrite HL' by lia. by apply Ho.
  - intros k Ek. rewrite <- !(proj1 (Hh k Ek)), <- (proj2 (Hh k Ek)).
    split; apply load32_ext; intros x Hx; apply HL'; lia.
  - intros j [(? & ? & ?)|[Hj Hlt]].
    + split_and!; [lia|done|]. unfold load32, load16. rewrite !HL.
      repeat match goal with |- context [?a <=? ?c] => rewrite (proj2 (Z.leb_le a c)) by lia end.
      repeat match goal with |- context [?a <? ?c] => rewrite (proj2 (Z.ltb_lt a c)) by lia end.
      simpl. repeat (f_equal; try lia).
    + destruct (Hbd j Hj) as (? & ? & <-). split_and!; [done|done|]. apply load32_ext. intros x Hx. apply HL'.
      Z.div_mod_to_equations. lia.
Qed.

Lemma xfer_weaken m' h (S S' : Z -> Prop) : (forall i, S' i -> S i) -> xfer m m' o n lim h S -> xfer m m' o n lim h S'.
Proof. intros HS [? ? Hb]. split; auto. Qed.
End Xfer.

#[local] Opaque store32 load32 memcpy.

Section Copy.
Context {A : Type} `{!GCServices A}.
Abbreviation st := (gc_state A).

(** what [gc_common_move_reference] relies on when it copies [o] *)
Record movable (cls : Z -> Prop) (s : st) (o : Z) : Prop := {
  mv_wf : wf_obj cls (ram s) o;
  mv_heap : heap s <= o < heapTop s;
  mv_room : 0 <= heapTop2 s <= heapBorder2 s;
  mv_top : heapTop2 s + 4 * owords (ram s) o + 12 < 4294967296;
  mv_apart : o - 8 + 4 * owords (ram s) o + 12 <= heapTop2 s \/
             heapTop2 s + 4 * owords (ram s) o + 12 <= o - 8;
  mv_cls : forall a, cls a -> a < heapTop2 s \/ heapTop2 s + 4 * owords (ram s) o + 12 <= a;
  mv_dz : okind (ram s) o = OBJFLAGS_MEMORY ->
          exists r, dz_refcount_at (load32 (ram s) (o + 12)) (services s) = Ok r /\ 0 < r;
}.

Definition with_copy (s : st) (m : memory) (w : Z) : st := set_ram m (set_heapTop2 (heapTop2 s + 4 * w) s).

Lemma assertobject_ok cls (s : st) o : wf_obj cls (ram s) o -> ASSERTOBJECT o s = Ok tt.
Proof.
  intros W. unfold ASSERTOBJECT, getObjMagic, rd. rewrite (wf_magic _ _ _ W), Z.eqb_refl. by rewrite orb_true_r.
Qed.

Lemma obj2ClassDesc_ok cls (s : st) o :
  wf_obj cls (ram s) o -> has_class cls (ram s) o -> obj2ClassDesc o s = Ok (cdesc (ram s) o).
Proof.
  intros W [Hv _]. unfold obj2ClassDesc, getObjMagic, rd. rewrite (wf_magic _ _ _ W), Z.eqb_refl.
  by rewrite (proj2 (Z.eqb_neq _ 0) Hv).
Qed.

Lemma allocHeap2_ok (s : st) w : 0 <= heapTop2 s <= heapBorder2 s -> 0 <= w -> heapTop2 s + 4 * w < 4294967296 ->
  gc_new_allocHeap2 w s = Ok (heapTop2 s, set_heapTop2 (heapTop2 s + 4 * w) s).
Proof.
  intros Ht Hw Hb. unfold gc_new_allocHeap2. rewrite (proj2 (Z.ltb_ge _ _)) by lia. by rewrite u32_small by lia.
Qed.

Lemma copy_field_ram n o i (s : st) : ram (copy_field n o i s) = store32 (ram s) (n + i) (load32 (ram s) (o + i)).
Proof. done. Qed.
Lemma set_header_ram n k (s : st) :
  ram (set_header n k s) = store32 (store32 (ram s) (n - 8) k) (n - 4) MAGIC_OBJECT.
Proof. done. Qed.

Definition copy_body (m : memory) (o i : Z) : Prop := in_body m o i /\ field m o i <> FJunk.


(** the memory after a copy *)
Definition copied_to (cls : Z -> Prop) (s : st) (o : Z) (m' : memory) : Prop :=
  xfer (ram s) m' o (heapTop2 s + 8) (heapTop2 s + 4 * owords (ram s) o + 12) (Some (okind (ram s) o))
    (copy_body (ram s) o).

(** peel the stores of a copy; the original ends at [L] *)
Ltac xfer_steps L :=
  lazymatch goal with
  | |- xfer ?m ?m _ _ _ _ _ => apply xfer_refl
  | |- xfer _ (store32 _ _ MAGIC_OBJECT) _ _ _ _ _ =>
      eapply xfer_header; [first [lia|by vm_compute]..|xfer_steps L]
  | |- xfer _ (store32 _ _ (load32 _ _)) _ _ _ _ _ =>
      eapply xfer_word with (olim := L); [first [lia|done]..|xfer_steps L]
  end.

Section Kinds.
Context (cls : Z -> Prop) (s : st) (o : Z) (Hmv : movable cls s o).
Abbreviation m := (ram s).
Abbreviation top := (heapTop2 s).

Lemma mv_object : ASSERTOBJECT o s = Ok tt.
Proof. eapply assertobject_ok, Hmv. Qed.
Lemma mv_class : has_class cls m o -> obj2ClassDesc o s = Ok (cdesc m o).
Proof. apply obj2ClassDesc_ok, Hmv. Qed.
Lemma mv_alloc w : owords m o = w -> gc_new_allocHeap2 w s = Ok (top, set_heapTop2 (top + 4 * w) s).
Proof.
  intros <-. destruct Hmv. pose proof (owords_pos m o). apply allocHeap2_ok; lia.
Qed.

(** a kind of fixed size [w] *)
Ltac fixed_size E EW w :=
  assert (owords m o = w) as EW by (unfold owords; rewrite E; done);
  pose proof (mv_apart _ _ _ Hmv); rewrite (mv_alloc w EW); cbn [rbind];
  let v := eval vm_compute in w in change w with v in *; rewrite EW in *.
Ltac mem_of_copy :=
  unfold copy_field, set_header, setObjMagic, setObjFlags, gc_memcpy4, gc_memcpy, wr, rd; cbn [ram set_ram set_heapTop2];
  change (ptr2ObjectDesc top) with (top + 8).
Ltac copied E EW :=
  unfold copied_to; mem_of_copy; rewrite E, ?EW; eapply xfer_weaken; [|match type of EW with _ = ?w => xfer_steps (o - 8 + 4 * w + 12) end];
  unfold copy_body, in_body, field; rewrite E, EW; simpl; intros i [[Hi Hi4] Hf];
  assert (i = 0 \/ i = 4 \/ i = 8 \/ i = 12 \/ i = 16 \/ i = 20) as Hc by (Z.div_mod_to_equations; lia);
  destruct Hc as [->|[->|[->|[->|[->| ->]]]]]; first [lia | by exfalso; apply Hf].

Lemma move_portal_spec : okind m o = OBJFLAGS_PORTAL ->
  exists m', gc_common_move_portal o s = Ok (top + 8, with_copy s m' (owords m o)) /\ copied_to cls s o m'.
Proof.
  intros E. unfold gc_common_move_portal. rewrite mv_object. cbn [rbind]. fixed_size E EW OBJSIZE_PORTAL.
  eexists. split; [reflexivity|]. copied E EW.
Qed.
Lemma move_atomvar_spec : okind m o = OBJFLAGS_ATOMVAR ->
  exists m', gc_common_move_atomvar o s = Ok (top + 8, with_copy s m' (owords m o)) /\ copied_to cls s o m'.
Proof.
  intros E. unfold gc_common_move_atomvar. rewrite mv_object. cbn [rbind]. fixed_size E EW OBJSIZE_ATOMVAR.
  eexists. split; [reflexivity|]. copied E EW.
Qed.

Lemma move_cas_spec : okind m o = OBJFLAGS_CAS ->
  exists m', gc_common_move_cas o s = Ok (top + 8, with_copy s m' (owords m o)) /\ copied_to cls s o m'.
Proof.
  intros E. unfold gc_common_move_cas. rewrite mv_object. cbn [rbind]. fixed_size E EW OBJSIZE_CAS.
  eexists. split; [reflexivity|]. copied E EW.
Qed.

Lemma move_domain_spec : okind m o = OBJFLAGS_DOMAIN ->
  exists m', gc_common_move_domain o s = Ok (top + 8, with_copy s m' (owords m o)) /\ copied_to cls s o m'.
Proof.
  intros E. unfold gc_common_move_domain. rewrite mv_object. cbn [rbind]. fixed_size E EW OBJSIZE_DOMAIN.
  eexists. split; [reflexivity|]. copied E EW.
Qed.

Lemma move_service_spec : okind m o = OBJFLAGS_SERVICE ->
  exists m', gc_common_move_service o s = Ok (top + 8, with_copy s m' (owords m o)) /\ copied_to cls s o m'.
Proof.
  intros E. pose proof (wf_body_at cls m o _ E (wf_class _ _ _ (mv_wf _ _ _ Hmv))) as B. simpl in B.
  unfold gc_common_move_service. rewrite mv_object. cbn [rbind].
  rewrite (proj2 (Z.ltb_lt _ _) B : (1 <? rd s (o + dep_refcount)) = true). cbn [rbind assert_].
  fixed_size E EW OBJSIZE_SERVICEDESC. eexists. split; [reflexivity|].
  unfold copied_to. mem_of_copy. rewrite E, EW. change sizeof_DEPDesc with 64.
  match goal with |- context [memcpy ?x (top + 8) o 64] =>
    replace (memcpy x (top + 8) o 64) with (memcpy x (top + 8 + 0) (o + 0) 64) by (by rewrite !Z.add_0_r) end.
  eapply xfer_weaken; [|eapply xfer_memcpy with (olim := o - 8 + 4 * 18 + 12); [first [lia|done]..|]; xfer_steps (o - 8 + 4 * 18 + 12)].
  unfold copy_body, in_body. rewrite EW. intros ? [[??] ?]; Z.div_mod_to_equations; lia.
Qed.

Lemma move_cpustate_spec : okind m o = OBJFLAGS_CPUSTATE ->
  exists m', gc_common_move_cpustate o s = Ok (top + 8, with_copy s m' (owords m o)) /\ copied_to cls s o m'.
Proof.
  intros E. pose proof (wf_addr _ _ _ (mv_wf _ _ _ Hmv)) as (Ho & _).
  assert (forall s' : st, getObjFlags s' o = OBJFLAGS_CPUSTATE -> cpuState2thread o s' = Ok (o + 4)) as Ht.
  { intros s' E'. unfold cpuState2thread. rewrite E', (proj2 (Z.eqb_neq o 0)) by lia. done. }
  unfold gc_common_move_cpustate. rewrite Ht by exact E. rewrite mv_object. cbn [rbind].
  fixed_size E EW OBJSIZE_THREADDESCPROXY. unfold gc_impl_shallowCopyCpuState. rewrite Ht by exact E. cbn [rbind].
  eexists. split; [reflexivity|].
  unfold copied_to. mem_of_copy. rewrite E, EW. change sizeof_ThreadDesc with 272.
  eapply xfer_weaken; [|eapply xfer_word with (olim := o - 8 + 4 * 73 + 12); [first [lia|done]..|];
    eapply xfer_header; [first [lia|by vm_compute]..|];
    eapply xfer_memcpy with (olim := o - 8 + 4 * 73 + 12); [first [lia|done]..|]; apply xfer_refl].
  unfold copy_body, in_body, field. rewrite E, EW. simpl. intros i [[??] Hf].
  destruct (Z.leb_spec 276 i); [|Z.div_mod_to_equations; lia]. exfalso. apply Hf.
  change (4 + t_nextInDomain) with 136. change (4 + t_prevInDomain) with 140. change (4 + t_nextInRunQueue) with 24.
  change (4 + t_contextPtr) with 4. change (4 + t_portalParameter) with 232. change (4 + t_entry) with 236.
  change (4 + t_processingDEP) with 104. change (4 + t_portalReturn) with 240. change (4 + sizeof_ThreadDesc) with 276.
  repeat match goal with |- context [i =? ?c] => rewrite (proj2 (Z.eqb_neq i c)) by lia end. simpl.
  by rewrite (proj2 (Z.leb_le 276 i)) by lia.
Qed.

Lemma move_memory_spec : okind m o = OBJFLAGS_MEMORY ->
  exists m', gc_common_move_memory o s = Ok (top + 8, with_copy s m' (owords m o)) /\ copied_to cls s o m'.
Proof.
  intros E. pose proof (wf_body_at cls m o _ E (wf_class _ _ _ (mv_wf _ _ _ Hmv))) as B. simpl in B.
  destruct (mv_dz _ _ _ Hmv E) as (r & Er & Hr).
  unfold gc_common_move_memory, ASSERTMEMORY, assert_memory. rewrite !mv_object. cbn [rbind].
  rewrite (E : getObjFlags s o = _). simpl (Z.land _ _ =? _). cbv iota. simpl (negb _). cbv iota. cbn [rbind].
  fixed_size E EW OBJSIZE_MEMORY. unfold gc_impl_shallowCopyMemory, memory_copy_intradomain.
  set (s1 := copy_field _ _ 12 _).
  assert (rd s1 (ptr2ObjectDesc top + 12) = load32 m (o + 12)) as Ed.
  { subst s1. mem_of_copy. rewrite load32_store32. rewrite u32_small by apply load32_range.
    rewrite !load32_store32_ne by lia. done. }
  rewrite Ed, (proj2 (Z.eqb_neq _ 0)) by apply B. cbn [rbind assert_ negb].
  change (services s1) with (services s). rewrite Er. cbn [rbind]. rewrite (proj2 (Z.ltb_lt 0 r)) by lia. cbn [rbind assert_].
  subst s1. eexists. split; [reflexivity|]. copied E EW.
Qed.
(** the copy being built does not disturb the class of the original *)
Lemma class_during_copy (s1 : st) :
  (forall a, a < top \/ top + 4 * owords m o + 12 <= a -> load8 (ram s1) a = load8 m a) ->
  okind m o = OBJFLAGS_OBJECT ->
  obj2ClassDesc o s1 = Ok (cdesc m o) /\ instanceSize s1 (cdesc m o) = isize m o.
Proof.
  intros Hf E. pose proof (wf_body_at cls m o _ E (wf_class _ _ _ (mv_wf _ _ _ Hmv))) as ((Hv & Hv4) & _ & _ & Hi & _).
  pose proof (owords_pos m o). pose proof (mv_apart _ _ _ Hmv).
  assert (forall a, o - 8 <= a -> a + 4 <= o + 4 -> load32 (ram s1) a = load32 m a) as Hb.
  { intros a ??. apply load32_ext. intros x Hx. apply Hf. lia. }
  assert (forall a, cls32 cls a -> load32 (ram s1) a = load32 m a) as Hc.
  { intros a Ha. apply load32_ext. intros x Hx. apply Hf. by apply (mv_cls _ _ _ Hmv), Ha. }
  unfold obj2ClassDesc, getObjMagic, instanceSize, rd. rewrite !Hb, (wf_magic _ _ _ (mv_wf _ _ _ Hmv)), Z.eqb_refl by lia.
  rewrite (proj2 (Z.eqb_neq _ 0) Hv). cbn [negb andb]. rewrite (Hc _ Hv4). split; [done|]. by apply Hc.
Qed.

Lemma move_object_spec : okind m o = OBJFLAGS_OBJECT ->
  exists m', gc_common_move_object o s = Ok (top + 8, with_copy s m' (owords m o)) /\ copied_to cls s o m'.
Proof.
  intros E. pose proof (wf_body_at cls m o _ E (wf_class _ _ _ (mv_wf _ _ _ Hmv))) as B. simpl in B.
  assert (owords m o = OBJSIZE_OBJECT (isize m o)) as EW by (unfold owords; by rewrite E).
  pose proof (mv_apart _ _ _ Hmv) as Ha. pose proof (mv_top _ _ _ Hmv) as Ht. pose proof (mv_room _ _ _ Hmv) as Hr.
  assert (0 <= isize m o) as Hs0 by apply load32_range.
  unfold gc_common_move_object. rewrite mv_object. cbn [rbind]. unfold gc_new_ensureInHeap, gc_new_isInHeap.
  destruct (mv_heap _ _ _ Hmv) as [H1 H2]. rewrite (proj2 (Z.leb_le _ _) H1), (proj2 (Z.ltb_lt _ _) H2).
  cbn [andb negb rbind]. rewrite mv_class by apply B. cbn [rbind].
  change (instanceSize s (cdesc m o)) with (isize m o). rewrite <- EW, u32_small by (pose proof (owords_pos m o); lia).
  rewrite mv_alloc by done. cbn [rbind]. unfold gc_impl_shallowCopyObject.
  set (s1 := copy_field _ _ 0 _).
  assert (xfer m (ram s1) o (top + 8) (top + 4 * owords m o + 12) (Some (okind m o)) (fun i => i = 0 \/ False)) as X.
  { subst s1. mem_of_copy. rewrite E. pose proof (owords_pos m o). xfer_steps (o - 8 + 4 * owords m o + 12). }
  destruct (class_during_copy s1) as [Ec Ei]; [|done|].
  { intros a Hx. apply (x_out _ _ _ _ _ _ _ X). lia. }
  rewrite Ec. cbn [rbind]. rewrite Ei. eexists. split; [reflexivity|].
  unfold copied_to. unfold gc_memcpy4, gc_memcpy. cbn [ram set_ram]. change (ptr2ObjectDesc top) with (top + 8).
  unfold OBJSIZE_OBJECT, XMOFF in *.
  eapply xfer_weaken; [|eapply xfer_memcpy with (olim := o - 8 + 4 * owords m o + 12) (b := 4); [first [lia|done|apply u32_range|rewrite u32_small by lia; lia]..|exact X]].
  unfold copy_body, in_body. rewrite EW. intros i [[Hi Hi4] _].
  destruct (decide (i = 0)) as [->|]; [right; split; [by left|lia]|left].
  rewrite u32_small by lia. Z.div_mod_to_equations. lia.
Qed.

Lemma move_array_spec : okind m o = OBJFLAGS_ARRAY ->
  exists m', gc_common_move_array o s = Ok (top + 8, with_copy s m' (owords m o)) /\ copied_to cls s o m'.
Proof.
  intros E.
  assert (owords m o = OBJSIZE_ARRAY_32BIT (load32 m (o + 8))) as EW by (unfold owords; by rewrite E).
  pose proof (mv_apart _ _ _ Hmv) as Ha. pose proof (mv_top _ _ _ Hmv) as Ht. pose proof (mv_room _ _ _ Hmv) as Hr.
  pose proof (load32_range m (o + 8)) as Hs0.
  unfold gc_common_move_array. rewrite mv_object. cbn [rbind].
  unfold gc_objSize2. rewrite mv_object. cbn [rbind]. rewrite (E : getObjFlags s o = _).
  simpl (Z.land _ _ =? _). cbv iota. cbn [rbind]. change (rd s (o + 8)) with (load32 m (o + 8)).
  rewrite <- EW, u32_small by (pose proof (owords_pos m o); lia).
  rewrite mv_alloc by done. cbn [rbind]. unfold gc_impl_shallowCopyArray.
  set (s1 := copy_field _ _ 8 _). unfold OBJSIZE_ARRAY_32BIT, XMOFF in *.
  assert (xfer m (ram s1) o (top + 8) (top + 4 * owords m o + 12) (Some (okind m o))
    (fun i => i = 8 \/ i = 4 \/ i = 0 \/ False)) as X.
  { subst s1. mem_of_copy. rewrite E. xfer_steps (o - 8 + 4 * owords m o + 12). }
  assert (rd s1 (o + 8) = load32 m (o + 8)) as ->.
  { apply load32_ext. intros x Hx. apply (x_out _ _ _ _ _ _ _ X). lia. }
  eexists. split; [reflexivity|].
  unfold copied_to. unfold gc_memcpy4, gc_memcpy. cbn [ram set_ram]. change (ptr2ObjectDesc top) with (top + 8).
  eapply xfer_weaken; [|eapply xfer_memcpy with (olim := o - 8 + 4 * owords m o + 12) (b := 12); [first [lia|done|apply u32_range|rewrite u32_small by lia; lia]..|exact X]].
  unfold copy_body, in_body. rewrite EW. intros i [[Hi Hi4] _]. rewrite u32_small by lia.
  assert (i = 0 \/ i = 4 \/ i = 8 \/ 12 <= i) as Hc by (Z.div_mod_to_equations; lia). Z.div_mod_to_equations. lia.
Qed.

Lemma move_by_kind_spec :
  exists m', move_by_kind (okind m o) o s = Ok (Some (top + 8, with_copy s m' (owords m o))) /\ copied_to cls s o m'.
Proof.
  pose proof (wf_class _ _ _ (mv_wf _ _ _ Hmv)) as HB. pose proof (wf_kind _ _ _ (mv_wf _ _ _ Hmv)) as HK.
  by_kind HK E; pose proof (wf_body_at cls m o _ E HB) as B; simpl in B.
  - destruct (move_object_spec E) as (m' & H & ?). exists m'. split; [|done].
    rewrite E. unfold move_by_kind. simpl. rewrite mv_class by apply B. simpl. by rewrite H.
  - destruct (move_array_spec E) as (m' & H & ?). exists m'. split; [|done].
    rewrite E. unfold move_by_kind. simpl. rewrite mv_class by apply B. simpl. by rewrite H.
  - destruct (move_portal_spec E) as (m' & H & ?). exists m'. split; [|done].
    rewrite E. unfold move_by_kind. simpl. rewrite mv_class by apply B. simpl. by rewrite H.
  - destruct (move_memory_spec E) as (m' & H & ?). exists m'. split; [|done].
    rewrite E. unfold move_by_kind. simpl. rewrite mv_class by apply B. simpl. by rewrite H.
  - destruct (move_service_spec E) as (m' & H & ?). exists m'. split; [|done].
    rewrite E. unfold move_by_kind. simpl. by rewrite H.
  - destruct (move_atomvar_spec E) as (m' & H & ?). exists m'. split; [|done].
    rewrite E. unfold move_by_kind. simpl. by rewrite H.
  - destruct (move_cas_spec E) as (m' & H & ?). exists m'. split; [|done].
    rewrite E. unfold move_by_kind. simpl. by rewrite H.
  - destruct (move_domain_spec E) as (m' & H & ?). exists m'. split; [|done].
    rewrite E. unfold move_by_kind. simpl. by rewrite H.
  - destruct (move_cpustate_spec E) as (m' & H & ?). exists m'. split; [|done].
    rewrite E. unfold move_by_kind. simpl. by rewrite H.
Qed.
End Kinds.
End Copy.
