(* ===== verification/GCInv.v ===== *)
(** * The copying collector: its invariant

    [gc_ok] describes a domain heap before a collection: its blocks, the
    references in objects and roots, the room in the other semispace.  During
    a collection [P] lists the objects moved so far with their copies, in the
    order of copying, and [D] says which reference cells have been updated;
    [gc_inv] relates the memory to the initial one. *)

From S2P Require Import Prelude Mem CString GCHeap GCTheory.
#[local] Open Scope Z_scope.

(** ** Heaps *)

(** the objects [l] fill the memory from [a] to [top] *)
Fixpoint blocks (m : memory) (a : Z) (l : list Z) (top : Z) : Prop :=
  match l with
  | [] => a = top
  | o :: l => o = a + 8 /\ blocks m (a + 4 * owords m o) l top
  end.

Definition wsum (m : memory) (l : list Z) : Z := foldr (fun o n => owords m o + n) 0 l.

Lemma wsum_cons m o l : wsum m (o :: l) = owords m o + wsum m l.
Proof. done. Qed.
Arguments wsum : simpl never.

Definition root_addr (r : root) : Z := match r with RRef a => a | RTcb a => a end.
Definition root_kind (r : root) : fkind := match r with RRef _ => FRef | RTcb _ => FTcb end.

(** [v], a word of kind [k], points to the object [o] *)
Definition points (k : fkind) (v o : Z) : Prop :=
  match k with FRef => v = o | FTcb => v = o + 4 | _ => False end.

(** a reference leads into the heap, to an object that is not moved, or is
    a small number, which the collector ignores *)
Definition ref_ok (cls : Z -> Prop) (m : memory) (H : list Z) (k : fkind) (v : Z) : Prop :=
  match k with
  | FRef => v <= 0xfff \/ v ∈ H \/ (cls32 cls (v - 8) /\ load32 m (v - 8) ∈ fixed_kinds)
  | FTcb => v = 0 \/ (v - 4 ∈ H /\ okind m (v - 4) = OBJFLAGS_CPUSTATE)
  | _ => True
  end.

(** a thread serves no portal call, or one whose service lives in this heap *)
Definition dep_ok (m : memory) (H : list Z) (o : Z) : Prop :=
  okind m o = OBJFLAGS_CPUSTATE ->
  let v := load32 m (o + 4 + t_processingDEP) in v = 0 \/ (v ∈ H /\ okind m v = OBJFLAGS_SERVICE).

Section Heap.
Context {A : Type} `{!GCServices A}.
Abbreviation st := (gc_state A).

Record gc_geometry (s : st) : Prop := {
  geo_heap : 0xfff < heap s /\ heap s mod 4 = 0 /\ heapBorder s < 4294967296;
  geo_heap2 : 0xfff < heap2 s /\ heap2 s mod 4 = 0 /\ heapBorder2 s < 4294967296;
  geo_apart : heapBorder s <= heap2 s \/ heapBorder2 s <= heap s;
  geo_used : heap s <= heapTop s /\ heapTop s + 12 <= heapBorder s;
  geo_room : heapTop s - heap s + 12 <= heapBorder2 s - heap2 s;
  geo_empty : heapTop2 s = heap2 s;
}.

(** outside both semispaces *)
Definition elsewhere (s : st) (a : Z) : Prop :=
  (a < heap s \/ heapBorder s <= a) /\ (a < heap2 s \/ heapBorder2 s <= a).

Record heap_ok (cls : Z -> Prop) (roots : list root) (s : st) (H : list Z) : Prop := {
  hk_geo : gc_geometry s;
  hk_blocks : blocks (ram s) (heap s) H (heapTop s);
  hk_wf : forall o, o ∈ H -> wf_obj cls (ram s) o;
  hk_dep : forall o, o ∈ H -> dep_ok (ram s) H o;
  hk_refs : forall o i, o ∈ H -> in_body (ram s) o i -> ref_ok cls (ram s) H (field (ram s) o i) (load32 (ram s) (o + i));
  hk_roots : forall r, r ∈ roots -> ref_ok cls (ram s) H (root_kind r) (load32 (ram s) (root_addr r));
  hk_cls : forall a, cls a -> elsewhere s a;
  hk_cells : forall r x, r ∈ roots -> root_addr r <= x < root_addr r + 4 -> elsewhere s x /\ ~ cls x;
  hk_distinct : NoDup (root_addr <$> roots) /\
    forall r r', r ∈ roots -> r' ∈ roots -> root_addr r < root_addr r' -> root_addr r + 4 <= root_addr r';
}.

(** the chunks of the memory objects are alive *)
Definition memories_ok (s : st) (H : list Z) : Prop :=
  forall o, o ∈ H -> okind (ram s) o = OBJFLAGS_MEMORY ->
  exists r, dz_refcount_at (load32 (ram s) (o + 12)) (services s) = Ok r /\ 0 < r.
End Heap.

Lemma wsum_app m l1 l2 : wsum m (l1 ++ l2) = wsum m l1 + wsum m l2.
Proof. induction l1 as [|x l IH]; [done|]. simpl. rewrite !wsum_cons, IH. lia. Qed.
Lemma wsum_nonneg m l : 0 <= wsum m l.
Proof. induction l as [|x l IH]; [done|]. rewrite wsum_cons. pose proof (owords_pos m x). lia. Qed.

Lemma wsum_submseteq m l1 l2 : l1 ⊆+ l2 -> wsum m l1 <= wsum m l2.
Proof.
  induction 1 as [|x l1 l2 _ IH|x y l|x l1 l2 _ IH|l1 l2 l3 _ IH1 _ IH2]; rewrite ?wsum_cons; try lia.
  pose proof (owords_pos m x). lia.
Qed.

Lemma blocks_bounds m l : forall a top, blocks m a l top ->
  a + 4 * wsum m l = top /\ NoDup l /\
  (forall o, o ∈ l -> a + 8 <= o /\ o - 8 + 4 * owords m o <= top) /\
  (forall o o', o ∈ l -> o' ∈ l -> o < o' -> o + 4 * owords m o <= o').
Proof.
  induction l as [|x l IH]; intros a top; simpl.
  - intros ->. split_and!; [unfold wsum; simpl; lia|constructor|by intros ? ?%elem_of_nil|by intros ? ? ?%elem_of_nil].
  - intros [-> HB]. destruct (IH _ _ HB) as (Hs & Hn & Hb & Hd). pose proof (owords_pos m (a + 8)).
    pose proof (wsum_nonneg m l). rewrite wsum_cons. split_and!; [lia| | |].
    + constructor; [|done]. intros Hin. destruct (Hb _ Hin). lia.
    + intros o [->|Hin]%elem_of_cons; [lia|]. destruct (Hb _ Hin). lia.
    + intros o o' [->|H1]%elem_of_cons [->|H2]%elem_of_cons Hlt; [lia| | |by apply Hd].
      * destruct (Hb _ H2). lia.
      * destruct (Hb _ H1). lia.
Qed.

(** distinct objects of the heap use no more than the heap *)
Lemma wsum_sub m l1 l2 : NoDup l1 -> l1 ⊆ l2 -> wsum m l1 <= wsum m l2.
Proof. intros. by apply wsum_submseteq, NoDup_submseteq. Qed.

(** ** Forwarding *)

Definition fwd (P : list (Z * Z)) (v : Z) : option Z := (list_to_map P : gmap Z Z) !! v.
Definition trans (P : list (Z * Z)) (v : Z) : Z := default v (fwd P v).
Definition transT (P : list (Z * Z)) (v : Z) : Z := if v =? 0 then 0 else trans P (v - 4) + 4.

(** the new value of a word *)
Definition new_word (P : list (Z * Z)) (k : fkind) (v n : Z) : Z :=
  match k with
  | FRef => trans P v
  | FTcb => transT P v
  | FSelf => n + 4 + t_context
  | _ => v
  end.
Definition word_at (P : list (Z * Z)) (d : Prop) (k : fkind) (v n w : Z) : Prop :=
  match k with
  | FRaw => w = v
  | FJunk => True
  | _ => (d -> w = new_word P k v n) /\ (~ d -> w = v)
  end.

Lemma fwd_Some P o n : NoDup P.*1 -> fwd P o = Some n <-> (o, n) ∈ P.
Proof. intros. symmetry. by apply elem_of_list_to_map. Qed.
Lemma fwd_None P o : fwd P o = None <-> o ∉ P.*1.
Proof. symmetry. apply not_elem_of_list_to_map. Qed.
Lemma fwd_app P P' v : NoDup (P ++ P').*1 -> v ∉ P'.*1 -> fwd (P ++ P') v = fwd P v.
Proof.
  intros Hn Hv. destruct (fwd P v) as [n|] eqn:E.
  - apply fwd_Some; [done|]. apply elem_of_app. left. apply fwd_Some; [|done].
    rewrite fmap_app in Hn. by apply NoDup_app in Hn as [? _].
  - apply fwd_None. apply fwd_None in E. rewrite fmap_app, elem_of_app. tauto.
Qed.

(** ** The invariant *)

(** the copies are laid out from [a] on *)
Fixpoint laid (m : memory) (a : Z) (P : list (Z * Z)) : Prop :=
  match P with
  | [] => True
  | (o, n) :: P => n = a + 8 /\ laid m (a + 4 * owords m o) P
  end.

Lemma wsum_olds m o n (P : list (Z * Z)) : wsum m ((o, n) :: P).*1 = owords m o + wsum m P.*1.
Proof. done. Qed.

Lemma laid_app m P1 P2 : forall a, laid m a (P1 ++ P2) <-> laid m a P1 /\ laid m (a + 4 * wsum m P1.*1) P2.
Proof.
  induction P1 as [|[o n] P1 IH]; intros a; cbn [laid app]; [unfold wsum; simpl; rewrite Z.add_0_r; tauto|].
  rewrite IH, wsum_olds. replace (a + 4 * (owords m o + wsum m P1.*1)) with (a + 4 * owords m o + 4 * wsum m P1.*1) by lia. tauto.
Qed.

Lemma laid_bounds m P : forall a, laid m a P ->
  (forall o n, (o, n) ∈ P -> a + 8 <= n /\ n - 8 + 4 * owords m o <= a + 4 * wsum m P.*1) /\
  (forall o n o' n', (o, n) ∈ P -> (o', n') ∈ P -> n < n' -> n + 4 * owords m o <= n') /\
  (forall o n o', (o, n) ∈ P -> (o', n) ∈ P -> o = o').
Proof.
  induction P as [|[x nx] P IH]; intros a; cbn [laid].
  - intros _. split_and!; intros; by match goal with H : _ ∈ [] |- _ => apply elem_of_nil in H end.
  - intros [-> HL]. destruct (IH _ HL) as (Hb & Hd & Hi). pose proof (owords_pos m x). pose proof (wsum_nonneg m P.*1). rewrite wsum_olds.
    split_and!.
    + intros o n [[= -> ->]|Hin]%elem_of_cons; [lia|]. destruct (Hb _ _ Hin). lia.
    + intros o n o' n' [[= -> ->]|H1]%elem_of_cons [[= -> ->]|H2]%elem_of_cons Hlt; [lia| | |by eapply Hd].
      * destruct (Hb _ _ H2). lia.
      * destruct (Hb _ _ H1). lia.
    + intros o n o' [[= -> ->]|H1]%elem_of_cons [[= ->]|H2]%elem_of_cons; [done| | |by eapply Hi].
      * destruct (Hb _ _ H2). lia.
      * subst. destruct (Hb _ _ H1). lia.
Qed.

(** the next copy begins, with its header, where the last one ends *)
Lemma laid_gap m P : forall a, laid m a P ->
  forall o n o' n', (o, n) ∈ P -> (o', n') ∈ P -> n < n' -> n - 8 + 4 * owords m o <= n' - 8.
Proof.
  induction P as [|[x nx] P IH]; intros a; cbn [laid].
  - intros _ o n o' n' H%elem_of_nil. done.
  - intros [-> HL] o n o' n' [[= -> ->]|H1]%elem_of_cons [[= -> ->]|H2]%elem_of_cons Hlt; [lia| | |by eapply IH].
    + destruct (laid_bounds _ _ _ HL) as (Hb & _). destruct (Hb _ _ H2). lia.
    + destruct (laid_bounds _ _ _ HL) as (Hb & _). destruct (Hb _ _ H1). pose proof (owords_pos m x). lia.
Qed.

Section Invariant.
Context {A : Type} `{!GCServices A}.
Abbreviation st := (gc_state A).
Context (cls : Z -> Prop) (roots : list root) (s0 : st) (H : list Z).
Abbreviation m0 := (ram s0).

(** [o] can be reached from the roots *)
Inductive reach : Z -> Prop :=
| reach_root r o : r ∈ roots -> points (root_kind r) (load32 m0 (root_addr r)) o -> o ∈ H -> reach o
| reach_field o i o' : reach o -> in_body m0 o i -> points (field m0 o i) (load32 m0 (o + i)) o' -> o' ∈ H -> reach o'.

(** the cells the collector updates: at [a], of kind [k], with the initial
    content [v], in the copy [n] *)
Inductive cell (P : list (Z * Z)) : Z -> fkind -> Z -> Z -> Prop :=
| cell_root r : r ∈ roots -> cell P (root_addr r) (root_kind r) (load32 m0 (root_addr r)) 0
| cell_copy o n i : (o, n) ∈ P -> in_body m0 o i -> cell P (n + i) (field m0 o i) (load32 m0 (o + i)) n.

(** what a reference that has been updated points to has been moved *)
Definition moved_target (P : list (Z * Z)) (k : fkind) (v : Z) : Prop := forall o, points k v o -> o ∈ H -> o ∈ P.*1.

Record gc_inv (s : st) (P : list (Z * Z)) (D : Z -> Prop) : Prop := {
  iv_state : s = set_ram (ram s) (set_heapTop2 (heap2 s0 + 4 * wsum m0 P.*1) s0);
  iv_nodup : NoDup P.*1;
  iv_sub : P.*1 ⊆ H;
  iv_laid : laid m0 (heap2 s0) P;
  iv_flags : forall o, o ∈ H -> load32 (ram s) (o - 8) = match fwd P o with Some n => n + 1 | None => okind m0 o end;
  iv_from : forall o a, o ∈ H -> o - 4 <= a < o - 8 + 4 * owords m0 o -> load8 (ram s) a = load8 m0 a;
  iv_header : forall o n, (o, n) ∈ P -> load32 (ram s) (n - 8) = okind m0 o /\ load32 (ram s) (n - 4) = MAGIC_OBJECT;
  iv_cells : forall a k v n, cell P a k v n -> word_at P (D a) k v n (load32 (ram s) a);
  iv_done : forall a k v n, cell P a k v n -> D a -> moved_target P k v;
  iv_D : forall a, D a -> a ∈ root_addr <$> roots \/ a < heap2 s0 + 4 * wsum m0 P.*1;
  iv_out : forall a, elsewhere s0 a -> (forall r, r ∈ roots -> ~ root_addr r <= a < root_addr r + 4) ->
    load8 (ram s) a = load8 m0 a;
  iv_reach : forall o, o ∈ P.*1 -> reach o;
}.

Context (Hok : heap_ok cls roots s0 H).
Context (Hmem : memories_ok s0 H).

Lemma h_block o : o ∈ H -> heap s0 + 8 <= o /\ o - 8 + 4 * owords m0 o <= heapTop s0.
Proof. destruct (blocks_bounds _ _ _ _ (hk_blocks _ _ _ _ Hok)) as (_ & _ & Hb & _). apply Hb. Qed.
Lemma h_apart o o' : o ∈ H -> o' ∈ H -> o <> o' -> o + 4 * owords m0 o <= o' \/ o' + 4 * owords m0 o' <= o.
Proof.
  destruct (blocks_bounds _ _ _ _ (hk_blocks _ _ _ _ Hok)) as (_ & _ & _ & Hd). intros H1 H2 Hne.
  destruct (Z.lt_trichotomy o o') as [?|[?|?]]; [left; by apply Hd|done|right; by apply Hd].
Qed.
Lemma h_total : heap s0 + 4 * wsum m0 H = heapTop s0.
Proof. apply (blocks_bounds _ _ _ _ (hk_blocks _ _ _ _ Hok)). Qed.
Lemma h_nodup : NoDup H.
Proof. apply (blocks_bounds _ _ _ _ (hk_blocks _ _ _ _ Hok)). Qed.

(** the room left in the second semispace *)
Lemma h_room (P : list (Z * Z)) : NoDup P.*1 -> P.*1 ⊆ H -> heap2 s0 + 4 * wsum m0 P.*1 + 12 <= heapBorder2 s0.
Proof.
  intros Hn Hs. pose proof (wsum_sub m0 _ _ Hn Hs). pose proof h_total.
  pose proof (geo_room _ (hk_geo _ _ _ _ Hok)). lia.
Qed.

Lemma iv_class s P D a : gc_inv s P D -> cls a -> load8 (ram s) a = load8 m0 a.
Proof.
  intros I Hc. apply (iv_out _ _ _ I); [by apply (hk_cls _ _ _ _ Hok)|].
  intros r Hr Hx. by destruct (hk_cells _ _ _ _ Hok r a Hr Hx).
Qed.

Lemma cell_raw s P D o n i : gc_inv s P D -> (o, n) ∈ P -> in_body m0 o i -> field m0 o i = FRaw ->
  load32 (ram s) (n + i) = load32 m0 (o + i).
Proof.
  intros I Hin Hi Hf. pose proof (iv_cells _ _ _ I _ _ _ _ (cell_copy P o n i Hin Hi)) as Hw. by rewrite Hf in Hw.
Qed.

(** an object that has not been moved is as it was, a copy is laid out like it *)
Lemma shape_unmoved s P D o : gc_inv s P D -> o ∈ H -> fwd P o = None -> same_shape cls m0 o (ram s) o.
Proof.
  intros I Ho Hf. split.
  - unfold okind at 1. rewrite (iv_flags _ _ _ I) by done. by rewrite Hf.
  - intros i Hi%in_body_end _. apply load32_ext. intros x Hx. apply (iv_from _ _ _ I o); [done|lia].
  - intros a Ha. by eapply iv_class.
Qed.
Lemma shape_copy s P D o n : gc_inv s P D -> (o, n) ∈ P -> same_shape cls m0 o (ram s) n.
Proof.
  intros I Hin. split.
  - apply (iv_header _ _ _ I _ _ Hin).
  - intros. by eapply cell_raw.
  - intros a Ha. by eapply iv_class.
Qed.

Lemma h_old (P : list (Z * Z)) o n : P.*1 ⊆ H -> (o, n) ∈ P -> o ∈ H.
Proof. intros Hs Hin. apply Hs. by apply (list_elem_of_fmap_2' fst P (o, n)). Qed.

(** a copy ends before the top of the second semispace *)
Lemma h_copy s P D o n : gc_inv s P D -> (o, n) ∈ P ->
  heap2 s0 + 8 <= n /\ n - 8 + 4 * owords m0 o <= heap2 s0 + 4 * wsum m0 P.*1.
Proof. intros I Hin. destruct (laid_bounds _ _ _ (iv_laid _ _ _ I)) as (Hb & _). by apply Hb. Qed.

(** the initial content of a cell is in order *)
Lemma cell_ref s P D a k v n : gc_inv s P D -> cell P a k v n -> ref_ok cls m0 H k v.
Proof.
  intros I [r Hr|o n' i Hin Hi]; [by apply (hk_roots _ _ _ _ Hok)|].
  apply (hk_refs _ _ _ _ Hok); [|done]. eapply h_old; [apply (iv_sub _ _ _ I)|done].
Qed.

(** two cells are the same or do not overlap *)
Lemma cell_apart s P D a k v n a' k' v' n' : gc_inv s P D -> cell P a k v n -> cell P a' k' v' n' ->
  (a = a' /\ k = k' /\ v = v' /\ n = n') \/ a + 4 <= a' \/ a' + 4 <= a.
Proof.
  intros I C C'. pose proof (iv_laid _ _ _ I) as HL. destruct (laid_bounds _ _ _ HL) as (_ & Hd & Hi).
  pose proof (h_room P (iv_nodup _ _ _ I) (iv_sub _ _ _ I)) as Hroom.
  assert (forall r o m i, r ∈ roots -> (o, m) ∈ P -> in_body m0 o i ->
    root_addr r + 4 <= m + i \/ m + i + 4 <= root_addr r) as Hrc.
  { intros r o m i Hr Hin Hb%in_body_end. pose proof (h_copy _ _ _ _ _ I Hin).
    destruct (Z.le_gt_cases (root_addr r + 4) (m + i)); [by left|]. right.
    destruct (Z.le_gt_cases (m + i + 4) (root_addr r)); [done|].
    destruct (hk_cells _ _ _ _ Hok r (Z.max (root_addr r) (m + i)) Hr ltac:(lia)) as [[_ ?] _]. lia. }
  destruct C as [r Hr|o m i Hin Hb]; destruct C' as [r' Hr'|o' m' i' Hin' Hb'].
  - destruct (hk_distinct _ _ _ _ Hok) as [Hn Hap].
    destruct (Z.lt_trichotomy (root_addr r) (root_addr r')) as [?|[E|?]]; [right; left; by apply Hap| |right; right; by apply Hap].
    left. assert (r = r') as ->; [|done].
    apply list_elem_of_lookup in Hr as [x Hx], Hr' as [y Hy].
    assert (x = y) as ->; [|congruence]. eapply NoDup_lookup; [exact Hn|..]; rewrite list_lookup_fmap.
    + by rewrite Hx.
    + rewrite Hy. simpl. by rewrite E.
  - right. by eapply Hrc.
  - right. destruct (Hrc r' o m i Hr' Hin Hb); lia.
  - pose proof (in_body_end _ _ _ Hb). pose proof (in_body_end _ _ _ Hb').
    destruct (Z.lt_trichotomy m m') as [Hlt|[->|Hlt]].
    + pose proof (Hd _ _ _ _ Hin Hin' Hlt). lia.
    + assert (o = o') as -> by (by eapply Hi). destruct Hb as [_ Hb4], Hb' as [_ Hb4'].
      destruct (Z.lt_trichotomy i i') as [?|[->|?]]; [right; left|by left|right; right]; Z.div_mod_to_equations; lia.
    + pose proof (Hd _ _ _ _ Hin' Hin Hlt). lia.
Qed.
(** where a cell lies *)
Lemma cell_sep s P D a k v n : gc_inv s P D -> cell P a k v n ->
  (a + 4 <= heap s0 \/ heapBorder s0 <= a) /\
  (forall o m, (o, m) ∈ P -> a + 4 <= m - 8 \/ m <= a) /\
  (forall x, elsewhere s0 x -> (forall r, r ∈ roots -> ~ root_addr r <= x < root_addr r + 4) -> x < a \/ a + 4 <= x).
Proof.
  intros I C. destruct (hk_geo _ _ _ _ Hok) as [_ _ Hap Hu Hrm _].
  pose proof (h_room P (iv_nodup _ _ _ I) (iv_sub _ _ _ I)) as Hroom. pose proof (wsum_nonneg m0 P.*1) as Hw0.
  destruct C as [r Hr|o m i Hin Hb].
  - pose proof (fun x => hk_cells _ _ _ _ Hok r x Hr) as Hc. split_and!.
    + destruct (Z.le_gt_cases (root_addr r + 4) (heap s0)); [by left|right].
      destruct (Z.le_gt_cases (heapBorder s0) (root_addr r)); [done|].
      destruct (Hc (Z.max (root_addr r) (heap s0)) ltac:(lia)) as [[? _] _]. lia.
    + intros o m Hin. pose proof (h_copy _ _ _ _ _ I Hin). pose proof (owords_pos m0 o).
      destruct (Z.le_gt_cases (root_addr r + 4) (m - 8)); [by left|right].
      destruct (Z.le_gt_cases m (root_addr r)); [done|].
      destruct (Hc (Z.max (root_addr r) (m - 8)) ltac:(lia)) as [[_ ?] _]. lia.
    + intros x _ Hx. specialize (Hx r Hr). lia.
  - pose proof (h_copy _ _ _ _ _ I Hin). apply in_body_end in Hb. split_and!; [lia| |].
    + intros o' m' Hin'. destruct (laid_bounds _ _ _ (iv_laid _ _ _ I)) as (_ & Hd & Hi).
      pose proof (h_copy _ _ _ _ _ I Hin').
      destruct (Z.lt_trichotomy m m') as [Hlt|[->|Hlt]]; [|lia|].
      * pose proof (Hd _ _ _ _ Hin Hin' Hlt). pose proof (laid_gap m0 P (heap2 s0) (iv_laid _ _ _ I) _ _ _ _ Hin Hin' Hlt). lia.
      * lia.
    + intros x [_ Hx] _. lia.
Qed.

Lemma cell_not_object s P D a k v n o x : gc_inv s P D -> cell P a k v n -> o ∈ H ->
  o - 8 <= x < o - 8 + 4 * owords m0 o -> x < a \/ a + 4 <= x.
Proof.
  intros I C Ho Hx. destruct (cell_sep _ _ _ _ _ _ _ I C) as [? _]. pose proof (h_block _ Ho).
  destruct (geo_used _ (hk_geo _ _ _ _ Hok)). lia.
Qed.

(** ** One cell updated *)

Lemma inv_update s P D a k v n : gc_inv s P D -> cell P a k v n -> k <> FRaw ->
  moved_target P k v -> 0 <= new_word P k v n < 4294967296 ->
  gc_inv (wr a (new_word P k v n) s) P (fun x => D x \/ x = a).
Proof.
  intros I C Hk Ht Hr. destruct (cell_sep _ _ _ _ _ _ _ I C) as (Hs1 & Hs2 & Hs3). unfold wr. split.
  - generalize (store32 (ram s) a (new_word P k v n)). intros mm. by rewrite (iv_state _ _ _ I).
  - apply I.
  - apply I.
  - apply I.
  - intros o Ho. cbn [ram set_ram]. rewrite <- (iv_flags _ _ _ I o Ho). apply load32_store32_ne.
    pose proof (h_block _ Ho). destruct (geo_used _ (hk_geo _ _ _ _ Hok)). pose proof (owords_pos m0 o). lia.
  - intros o x Ho Hx. cbn [ram set_ram]. rewrite load8_store32_ne; [by eapply (iv_from _ _ _ I)|].
    eapply cell_not_object; [done|done|done|lia].
  - intros o m Hin. cbn [ram set_ram]. destruct (iv_header _ _ _ I o m Hin) as [<- <-].
    destruct (Hs2 o m Hin); split; apply load32_store32_ne; lia.
  - intros a' k' v' n' C'. cbn [ram set_ram].
    destruct (cell_apart _ _ _ _ _ _ _ _ _ _ _ I C C') as [(-> & -> & -> & ->)|Hap].
    + rewrite load32_store32, u32_small by done. destruct k'; try done; split; intros; try done; tauto.
    + rewrite load32_store32_ne by lia. pose proof (iv_cells _ _ _ I _ _ _ _ C') as Hw.
      destruct k'; try done; destruct Hw as [H1 H2]; (split; [intros [?|?]; [by apply H1|lia]|intros ?; apply H2; tauto]).
  - intros a' k' v' n' C' [HD|HD]; [by eapply (iv_done _ _ _ I)|].
    destruct (cell_apart _ _ _ _ _ _ _ _ _ _ _ I C C') as [(-> & -> & -> & ->)|Hap]; [done|lia].
  - intros x [Hx| ->]; [by apply (iv_D _ _ _ I)|].
    destruct C as [r Hr'|o m i Hin Hb]; [left; by apply list_elem_of_fmap_2|right].
    pose proof (h_copy _ _ _ _ _ I Hin). apply in_body_end in Hb. lia.
  - intros x Hx Hx2. cbn [ram set_ram]. rewrite load8_store32_ne; [by apply (iv_out _ _ _ I)|by apply Hs3].
  - apply I.
Qed.

(** a cell whose content does not change *)
Lemma inv_skip s P D a k v n : gc_inv s P D -> cell P a k v n -> ~ D a -> k <> FSelf ->
  moved_target P k v -> new_word P k v n = v -> gc_inv s P (fun x => D x \/ x = a).
Proof.
  intros I C Hnd Hk Ht Hv. split; try apply I.
  - intros a' k' v' n' C'. pose proof (iv_cells _ _ _ I _ _ _ _ C') as Hw.
    destruct (cell_apart _ _ _ _ _ _ _ _ _ _ _ I C C') as [(<- & <- & <- & <-)|Hap].
    + destruct k; try done; destruct Hw as [_ H2]; (split; [intros _; rewrite Hv; by apply H2|intros _; by apply H2]).
    + destruct k'; try done; destruct Hw as [H1 H2]; (split; [intros [?|?]; [by apply H1|lia]|intros ?; apply H2; tauto]).
  - intros a' k' v' n' C' [HD|HD]; [by eapply (iv_done _ _ _ I)|].
    destruct (cell_apart _ _ _ _ _ _ _ _ _ _ _ I C C') as [(-> & -> & -> & ->)|Hap]; [done|lia].
  - intros x [Hx| ->]; [by apply (iv_D _ _ _ I)|].
    destruct C as [r Hr'|o m i Hin Hb]; [left; by apply list_elem_of_fmap_2|right].
    pose proof (h_copy _ _ _ _ _ I Hin). apply in_body_end in Hb. lia.
Qed.

Lemma inv_ext s P D D' : (forall a, D a <-> D' a) -> gc_inv s P D -> gc_inv s P D'.
Proof.
  intros HD I. split; try apply I.
  - intros a k v n C. pose proof (iv_cells _ _ _ I _ _ _ _ C) as Hw. specialize (HD a).
    destruct k; try done; destruct Hw; split; tauto.
  - intros a k v n C ?. eapply (iv_done _ _ _ I); [done|by apply HD].
  - intros a ?. apply (iv_D _ _ _ I). by apply HD.
Qed.
(** ** One object moved *)

Lemma iv_fields s P D : gc_inv s P D ->
  heap s = heap s0 /\ heapTop s = heapTop s0 /\ heapTop2 s = heap2 s0 + 4 * wsum m0 P.*1 /\
  heapBorder2 s = heapBorder2 s0 /\ services s = services s0.
Proof. intros I. by rewrite (iv_state _ _ _ I). Qed.

Lemma fwd_snoc (P : list (Z * Z)) o n v : NoDup P.*1 -> o ∉ P.*1 ->
  fwd (P ++ [(o, n)]) v = if decide (v = o) then Some n else fwd P v.
Proof.
  intros Hn Ho. assert (NoDup (P ++ [(o, n)]).*1) as Hn'.
  { rewrite fmap_app. apply NoDup_app. split_and!; [done| |apply NoDup_singleton].
    intros x Hx Hx2. simpl in Hx2. apply list_elem_of_singleton in Hx2. by subst. }
  case_decide as E.
  - subst. apply fwd_Some; [done|]. apply elem_of_app. right. by apply list_elem_of_singleton.
  - apply fwd_app; [done|]. simpl. by rewrite list_elem_of_singleton.
Qed.

(** moving another object does not change what a finished cell should hold *)
Lemma new_word_snoc P o n k v c : NoDup P.*1 -> o ∉ P.*1 -> o ∈ H -> moved_target P k v ->
  new_word (P ++ [(o, n)]) k v c = new_word P k v c.
Proof.
  intros Hn Ho HoH Ht. destruct k; simpl; try done.
  - unfold trans. rewrite fwd_snoc by done. case_decide; [|done]. subst. destruct Ho. by apply Ht.
  - unfold transT. destruct (v =? 0); [done|]. unfold trans. rewrite fwd_snoc by done. case_decide as E; [|done].
    destruct Ho. apply Ht; [simpl; lia|done].
Qed.

Lemma word_at_snoc P o n k v c (d : Prop) w : NoDup P.*1 -> o ∉ P.*1 -> o ∈ H -> word_at P d k v c w ->
  (d -> moved_target P k v) -> word_at (P ++ [(o, n)]) d k v c w.
Proof.
  intros Hn Ho HoH Hw Ht. destruct k; try done; destruct Hw as [H1 H2]; (split; [|done]);
    intros Hd; rewrite new_word_snoc by auto; auto.
Qed.

Lemma inv_movable s P D o : gc_inv s P D -> o ∈ H -> fwd P o = None ->
  movable cls s o /\ owords (ram s) o = owords m0 o /\ okind (ram s) o = okind m0 o /\
  (forall i, field (ram s) o i = field m0 o i).
Proof.
  intros I Ho Hf. pose proof (shape_unmoved _ _ _ _ I Ho Hf) as Hs. pose proof (hk_wf _ _ _ _ Hok o Ho) as Hw.
  destruct (iv_fields _ _ _ I) as (E1 & E2 & E3 & E4 & E5).
  pose proof (shape_words _ _ _ _ _ Hw Hs) as Ew. destruct (h_block _ Ho) as [Hb1 Hb2].
  destruct (hk_geo _ _ _ _ Hok) as [G1 G2 G3 G4 G5 _].
  assert (heap2 s0 + 4 * wsum m0 P.*1 + 4 * owords m0 o + 12 <= heapBorder2 s0) as Hroom.
  { pose proof (h_room ((o, 0) :: P)) as Hr. rewrite wsum_olds in Hr.
    assert (heap2 s0 + 4 * (owords m0 o + wsum m0 P.*1) + 12 <= heapBorder2 s0); [|lia]. apply Hr; simpl.
    - constructor; [by apply fwd_None|apply I].
    - intros x [->|Hx]%elem_of_cons; [done|by apply (iv_sub _ _ _ I)]. }
  pose proof (wsum_nonneg m0 P.*1). pose proof (owords_pos m0 o).
  split_and!; [|done|apply (ss_kind _ _ _ _ _ Hs)|by apply (shape_field _ _ _ _ _ Hw Hs)].
  split; rewrite ?E1, ?E2, ?E3, ?E4, ?E5, ?Ew; try lia.
  - apply (shape_wf _ _ _ _ _ Hw Hs); [|apply (wf_addr _ _ _ Hw)..].
    rewrite <- (wf_magic _ _ _ Hw). apply load32_ext. intros x Hx. apply (iv_from _ _ _ I o); [done|lia].
  - intros a Ha%(hk_cls _ _ _ _ Hok). destruct Ha. lia.
  - intros Ek. destruct (Hmem o Ho) as (r & Hr & ?); [by rewrite <- (ss_kind _ _ _ _ _ Hs)|].
    exists r. split; [|done]. rewrite <- Hr. f_equal. apply load32_ext. intros x Hx. apply (iv_from _ _ _ I o); [done|].
    assert (owords m0 o = 8); [|lia]. unfold owords. rewrite <- (ss_kind _ _ _ _ _ Hs), Ek. done.
Qed.

Lemma inv_move s P D o : gc_inv s P D -> o ∈ H -> fwd P o = None -> reach o ->
  exists n s1, move_by_kind (okind m0 o) o s = Ok (Some (n, s1)) /\ n mod 4 = 0 /\ 0 < n < 4294967296 - 4 /\
    gc_inv (setObjFlags o (n + 1) s1) (P ++ [(o, n)]) D.
Proof.
  intros I Ho Hf Hreach. destruct (inv_movable _ _ _ _ I Ho Hf) as (Hmv & Ew & Ek & Ef).
  destruct (iv_fields _ _ _ I) as (E1 & E2 & E3 & E4 & E5).
  destruct (move_by_kind_spec cls s o Hmv) as (m' & Em & X). rewrite Ek in Em. unfold copied_to in X.
  rewrite Ew, Ek in *. set (n := heapTop2 s + 8) in *.
  pose proof (mv_room _ _ _ Hmv) as Hr. pose proof (mv_top _ _ _ Hmv) as Ht. rewrite Ew in Ht.
  destruct (hk_geo _ _ _ _ Hok) as [G1 G2 G3 G4 G5 _]. pose proof (owords_pos m0 o) as Hw4.
  pose proof (wsum_nonneg m0 P.*1) as Hw0. pose proof (iv_nodup _ _ _ I) as Hnd. apply fwd_None in Hf as HoP.
  assert (heap2 s0 + 4 * wsum m0 P.*1 + 4 * owords m0 o + 12 <= heapBorder2 s0) as Hroom.
  { pose proof (h_room ((o, 0) :: P)) as Hr'. rewrite wsum_olds in Hr'.
    assert (heap2 s0 + 4 * (owords m0 o + wsum m0 P.*1) + 12 <= heapBorder2 s0); [|lia]. apply Hr'; simpl.
    - by constructor.
    - intros x [->|Hx]%elem_of_cons; [done|by apply (iv_sub _ _ _ I)]. }
  assert (NoDup (P ++ [(o, n)]).*1) as Hnd'.
  { rewrite fmap_app. apply NoDup_app. split_and!; [done| |apply NoDup_singleton].
    intros x Hx Hx2. simpl in Hx2. apply list_elem_of_singleton in Hx2. by subst. }
  assert (wsum m0 (P ++ [(o, n)]).*1 = wsum m0 P.*1 + owords m0 o) as Hws.
  { rewrite fmap_app, wsum_app. simpl. rewrite wsum_cons. unfold wsum at 2. simpl. lia. }
  destruct (h_block _ Ho) as [Hb1 Hb2].
  (* the memory outside the copy and the old flags word *)
  assert (forall x, x < n - 8 \/ n - 8 + 4 * owords m0 o + 12 <= x -> x < o - 8 \/ o - 4 <= x ->
    load8 (store32 m' (o - 8) (n + 1)) x = load8 (ram s) x) as Hout.
  { intros x H1 H2. rewrite load8_store32_ne by lia. apply (x_out _ _ _ _ _ _ _ X). lia. }
  exists n, (with_copy s m' (owords m0 o)). split_and!; [done|subst n; rewrite E3; Z.div_mod_to_equations; lia|lia|lia|].
  unfold setObjFlags, wr, with_copy. cbn [ram set_ram set_heapTop2]. split; cbn [ram set_ram set_heapTop2].
  - generalize (store32 m' (o - 8) (n + 1)). intros mm. rewrite Hws, (iv_state _ _ _ I). cbn. unfold set_ram, set_heapTop2. cbn.
    f_equal. lia.
  - done.
  - intros x. rewrite fmap_app. intros [Hx|Hx%list_elem_of_singleton]%elem_of_app; [by apply (iv_sub _ _ _ I)|by subst].
  - apply laid_app. split; [apply I|]. simpl. split; [lia|done].
  - intros o' Ho'. rewrite fwd_snoc by done. case_decide as E.
    + subst. rewrite load32_store32. apply u32_small. lia.
    + rewrite <- (iv_flags _ _ _ I o' Ho'). pose proof (h_block _ Ho'). pose proof (owords_pos m0 o').
      apply load32_ext. intros x Hx. apply Hout; [lia|]. destruct (h_apart _ _ Ho Ho' ltac:(done)); lia.
  - intros o' a Ho' Ha. rewrite <- (iv_from _ _ _ I o' a Ho' Ha). pose proof (h_block _ Ho').
    apply Hout; [lia|]. destruct (decide (o' = o)) as [->|]; [lia|]. destruct (h_apart _ _ Ho Ho' ltac:(done)); lia.
  - intros o' n' [Hin|Hin%list_elem_of_singleton]%elem_of_app.
    + destruct (iv_header _ _ _ I o' n' Hin) as [<- <-]. pose proof (h_copy _ _ _ _ _ I Hin). pose proof (owords_pos m0 o').
      split; apply load32_ext; intros x Hx; apply Hout; lia.
    + injection Hin as -> ->. destruct (x_hdr _ _ _ _ _ _ _ X _ eq_refl) as [<- <-].
      split; apply load32_store32_ne; lia.
  - intros a k v c C. destruct C as [r Hr'|o' n' i Hin Hi].
    + pose proof (cell_root P r Hr') as C'. pose proof (iv_cells _ _ _ I _ _ _ _ C') as Hw.
      destruct (cell_sep _ _ _ _ _ _ _ I C') as (Hs & _).
      assert (load32 (store32 m' (o - 8) (n + 1)) (root_addr r) = load32 (ram s) (root_addr r)) as ->.
      { apply load32_ext. intros x Hx. destruct (hk_cells _ _ _ _ Hok r x Hr' Hx) as [[? ?] _]. apply Hout; lia. }
      eapply word_at_snoc; [done..|]. intros HD. by eapply (iv_done _ _ _ I).
    + apply elem_of_app in Hin as [Hin|Hin%list_elem_of_singleton].
      * pose proof (cell_copy P o' n' i Hin Hi) as C'. pose proof (iv_cells _ _ _ I _ _ _ _ C') as Hw.
        pose proof (h_copy _ _ _ _ _ I Hin). pose proof (in_body_end _ _ _ Hi).
        assert (load32 (store32 m' (o - 8) (n + 1)) (n' + i) = load32 (ram s) (n' + i)) as ->.
        { apply load32_ext. intros x Hx. apply Hout; lia. }
        eapply word_at_snoc; [done..|]. intros HD. by eapply (iv_done _ _ _ I).
      * injection Hin as -> ->. pose proof (in_body_end _ _ _ Hi).
        assert (~ D (n + i)) as HnD.
        { intros HD. apply (iv_D _ _ _ I) in HD as [(r & Er & Hr')%list_elem_of_fmap|HD]; [|lia].
          destruct (hk_cells _ _ _ _ Hok r (n + i) Hr' ltac:(lia)) as [[_ ?] _]. lia. }
        destruct (decide (field m0 o i = FJunk)) as [Ej|Hj]; [by rewrite Ej|].
        assert (load32 (store32 m' (o - 8) (n + 1)) (n + i) = load32 m0 (o + i)) as ->.
        { rewrite load32_store32_ne by lia. destruct (x_body _ _ _ _ _ _ _ X i) as (_ & _ & ->).
          - unfold copy_body, in_body. rewrite Ew, Ef. done.
          - apply load32_ext. intros x Hx. apply (iv_from _ _ _ I o); [done|lia]. }
        destruct (field m0 o i); done.
  - intros a k v c C HD o' Hp Ho'. rewrite fmap_app. apply elem_of_app. left.
    destruct C as [r Hr'|o2 n' i Hin Hi].
    + eapply (iv_done _ _ _ I); [by apply cell_root|done|done|done].
    + apply elem_of_app in Hin as [Hin|Hin%list_elem_of_singleton].
      * eapply (iv_done _ _ _ I); [by eapply cell_copy|done|done|done].
      * injection Hin as -> ->. exfalso. pose proof (in_body_end _ _ _ Hi).
        apply (iv_D _ _ _ I) in HD as [(r & Er & Hr')%list_elem_of_fmap|HD]; [|lia].
        destruct (hk_cells _ _ _ _ Hok r (n + i) Hr' ltac:(lia)) as [[_ ?] _]. lia.
  - intros a Ha. destruct (iv_D _ _ _ I a Ha); [by left|right]. lia.
  - intros a Ha Hc. rewrite <- (iv_out _ _ _ I a Ha Hc). destruct Ha. apply Hout; lia.
  - intros x. rewrite fmap_app. intros [Hx|Hx%list_elem_of_singleton]%elem_of_app; [by apply (iv_reach _ _ _ I)|by subst].
Qed.
End Invariant.

Arguments iv_state {A roots s0 H s P D} _.
Arguments iv_nodup {A roots s0 H s P D} _.
Arguments iv_sub {A roots s0 H s P D} _.
Arguments iv_laid {A roots s0 H s P D} _.
Arguments iv_flags {A roots s0 H s P D} _.
Arguments iv_from {A roots s0 H s P D} _.
Arguments iv_header {A roots s0 H s P D} _.
Arguments iv_cells {A roots s0 H s P D} _.
Arguments iv_done {A roots s0 H s P D} _.
Arguments iv_D {A roots s0 H s P D} _.
Arguments iv_out {A roots s0 H s P D} _.
Arguments iv_reach {A roots s0 H s P D} _.
Arguments h_copy {A roots s0 H s P D o n} _ _.
Arguments h_room {A cls roots s0 H} _ P _ _.
Arguments h_block {A cls roots s0 H} _ _ _.
Arguments h_old {H P o n} _ _.
Arguments cell_ref {A cls roots s0 H} _ {s P D a k v n} _ _.
Arguments cell_raw {A roots s0 H s P D o n i} _ _ _ _.
Arguments cell_apart {A cls roots s0 H} _ {s P D a k v n a' k' v' n'} _ _ _.
Arguments cell_sep {A cls roots s0 H} _ {s P D a k v n} _ _.
Arguments iv_class {A cls roots s0 H} _ {s P D a} _ _.
Arguments iv_fields {A roots s0 H s P D} _.
Arguments inv_update {A cls roots s0 H} _ {s P D a k v n} _ _ _ _ _.
Arguments inv_skip {A cls roots s0 H} _ {s P D a k v n} _ _ _ _ _ _.
Arguments inv_move {A _ cls roots s0 H} _ _ {s P D o} _ _ _ _.
Arguments inv_movable {A _ cls roots s0 H} _ _ {s P D o} _ _ _.
Arguments shape_copy {A cls roots s0 H} _ {s P D o n} _ _.
