(* ===== verification/GCScan.v ===== *)
(** * The copying collector: visiting references, scanning, finalising

    Every step that visits a reference cell keeps [gc_inv] and adds the cell
    to the finished ones; walking over an object finishes its cells, walking
    over the second semispace finishes all copies, including those appended
    on the way. *)

From S2P Require Import Prelude Mem CString GCHeap GCTheory GCInv.
#[local] Open Scope Z_scope.

(** ** The flags word *)

Lemma land_1_even n : n mod 4 = 0 -> Z.land n 1 = 0.
Proof. intros H. change 1 with (Z.ones 1). rewrite Z.land_ones by lia. change (2 ^ 1) with 2. Z.div_mod_to_equations. lia. Qed.
Lemma lor_1_even n : n mod 4 = 0 -> Z.lor n 1 = n + 1.
Proof. intros H. rewrite <- Z.add_lor_land, (land_1_even n H). lia. Qed.

(** a forwarding pointer can be told from the flags of a kind, and read back *)
Lemma forward_flag n : n mod 4 = 0 -> Z.land (n + 1) FORWARD_MASK = GC_FORWARD.
Proof.
  intros H. unfold FORWARD_MASK, GC_FORWARD. change 1 with (Z.ones 1) at 2. rewrite Z.land_ones by lia. change (2 ^ 1) with 2.
  Z.div_mod_to_equations. lia.
Qed.
Lemma forward_ptr n : n mod 4 = 0 -> 0 <= n < 4294967296 - 4 -> Z.land (n + 1) FORWARD_PTR_MASK = n.
Proof.
  intros H Hr. change FORWARD_PTR_MASK with (u32 (Z.lnot (2 ^ 1 - 1))). rewrite land_align by lia.
  change (2 ^ 1) with 2. Z.div_mod_to_equations. lia.
Qed.
Lemma kind_flags k : k ∈ kinds -> Z.land k FORWARD_MASK <> GC_FORWARD /\ Z.land k FLAGS_MASK = k.
Proof. intros H. by_kind H E; subst; by vm_compute. Qed.
Lemma fixed_flags k : k ∈ fixed_kinds -> Z.land k FORWARD_MASK <> GC_FORWARD /\ Z.land k FLAGS_MASK = k.
Proof.
  unfold fixed_kinds. intros H. repeat (apply elem_of_cons in H as [->|H]; [by vm_compute|]). by apply elem_of_nil in H.
Qed.

Lemma laid_aligned m P : forall a, a mod 4 = 0 -> laid m a P -> forall o n, (o, n) ∈ P -> n mod 4 = 0.
Proof.
  induction P as [|[x nx] P IH]; intros a Ha; cbn [laid]; [by intros _ ? ? ?%elem_of_nil|].
  intros [-> HL] o n [[= -> ->]|Hin]%elem_of_cons; [Z.div_mod_to_equations; lia|].
  eapply IH; [|exact HL|exact Hin]. Z.div_mod_to_equations. lia.
Qed.

Lemma in_fst (P : list (Z * Z)) o n : (o, n) ∈ P -> o ∈ P.*1.
Proof. intros Hin. by apply (list_elem_of_fmap_2' fst P (o, n)). Qed.

Section Scan.
Context {A : Type} `{!GCServices A}.
Abbreviation st := (gc_state A).
Context (cls : Z -> Prop) (roots : list root) (s0 : st) (H : list Z).
Context (Hok : heap_ok cls roots s0 H) (Hmem : memories_ok s0 H).
Abbreviation m0 := (ram s0).
Abbreviation inv := (gc_inv roots s0 H).
Abbreviation cell := (cell roots s0).
Abbreviation reach := (reach roots s0 H).
Abbreviation moved_target := (moved_target H).
Abbreviation move := (@gc_common_move_reference A _).

Lemma iv_aligned s P D o n : inv s P D -> (o, n) ∈ P -> n mod 4 = 0 /\ 0xfff < n < 4294967296 - 20.
Proof using Hok.
  intros I Hin. destruct (hk_geo _ _ _ _ Hok) as [G1 G2 G3 G4 G5 _]. split.
  - eapply laid_aligned; [apply G2|apply (iv_laid I)|exact Hin].
  - pose proof (h_copy I Hin). pose proof (owords_pos m0 o). pose proof (h_room Hok P (iv_nodup I) (iv_sub I)). lia.
Qed.

Lemma h_large o : o ∈ H -> 0xfff < o < 4294967296.
Proof using Hok.
  intros Ho. pose proof (h_block Hok _ Ho). destruct (hk_geo _ _ _ _ Hok) as [G1 _ _ G4 _ _]. pose proof (owords_pos m0 o). lia.
Qed.

Lemma fwd_none_outside P v : P.*1 ⊆ H -> v ∉ H -> fwd P v = None.
Proof. intros Hs Hv. apply fwd_None. intros ?. by apply Hv, Hs. Qed.

(** cells stay cells when more objects are moved *)
Lemma cell_mono P P' a k v n : P `prefix_of` P' -> cell P a k v n -> cell P' a k v n.
Proof. intros [Q ->] [r Hr|o n' i Hin Hi]; constructor; try done. apply elem_of_app. by left. Qed.

(** the object a cell points to is reachable *)
Lemma cell_reach s P D a k v n o : inv s P D -> cell P a k v n -> points k v o -> o ∈ H -> reach o.
Proof.
  intros I [r Hr|o' n' i Hin Hi] Hp Ho; [by eapply reach_root|]. eapply reach_field; [|exact Hi|exact Hp|exact Ho].
  apply (iv_reach I). by eapply in_fst.
Qed.

(** ** Moving a reference *)

Lemma move_reference_spec s P D v : inv s P D -> 0 <= v -> ref_ok cls m0 H FRef v -> (v ∈ H -> reach v) ->
  exists r s' P', move v s = Ok (r, s') /\ inv s' P' D /\ P `prefix_of` P' /\
    default v r = trans P' v /\ (v ∈ H -> (v, trans P' v) ∈ P').
Proof using Hok Hmem.
  intros I Hv0 Href Hreach. unfold gc_common_move_reference.
  assert (v ∉ H -> trans P v = v) as Hout.
  { intros Hv. unfold trans. by rewrite fwd_none_outside by (done || apply (iv_sub I)). }
  assert (v ∉ H -> exists r s' P', Ok (None, s) = Ok (r, s') /\ inv s' P' D /\ P `prefix_of` P' /\
    default v r = trans P' v /\ (v ∈ H -> (v, trans P' v) ∈ P')) as Hstay.
  { intros Hv. exists None, s, P. split; [reflexivity|]. split; [exact I|]. split; [reflexivity|].
    split; [symmetry; by apply Hout|by intros ?%Hv]. }
  destruct (Z.eqb_spec v 0) as [E|Hne].
  { apply Hstay. intros ?%h_large. lia. }
  destruct (Z.leb_spec v 0xfff) as [Hle|Hgt].
  { apply Hstay. intros ?%h_large. lia. }
  destruct (decide (v ∈ H)) as [Hv|Hv].
  - unfold getObjFlags, rd. rewrite (iv_flags I v Hv). destruct (fwd P v) as [n|] eqn:E.
    + apply fwd_Some in E as Hin; [|apply (iv_nodup I)]. destruct (iv_aligned _ _ _ _ _ I Hin) as [Ha Hr].
      rewrite (forward_flag n Ha), Z.eqb_refl, (forward_ptr n Ha) by lia. exists (Some n), s, P.
      unfold trans. rewrite E. split; [reflexivity|]. split; [exact I|]. split; [reflexivity|]. split; [reflexivity|by intros _].
    + destruct (kind_flags (okind m0 v)) as [Hf1 Hf2]. { apply (wf_kind _ _ _ (hk_wf _ _ _ _ Hok v Hv)). }
      rewrite (proj2 (Z.eqb_neq _ _) Hf1), Hf2.
      destruct (inv_move Hok Hmem I Hv E (Hreach Hv)) as (n & s1 & -> & Ha & Hr & I'). cbn [rbind].
      unfold assert_, FORWARD_MASK. rewrite (land_1_even n Ha). cbn [rbind Z.eqb]. unfold GC_FORWARD. rewrite lor_1_even by done.
      exists (Some n), (setObjFlags v (n + 1) s1), (P ++ [(v, n)]).
      assert ((v, n) ∈ P ++ [(v, n)]) as Hin by (apply elem_of_app; right; by apply list_elem_of_singleton).
      assert (trans (P ++ [(v, n)]) v = n) as Et.
      { unfold trans. by rewrite (proj2 (fwd_Some _ _ _ (iv_nodup I')) Hin). }
      rewrite Et. split; [reflexivity|]. split; [exact I'|]. split; [by eexists|]. split; [reflexivity|by intros _].
  - destruct Href as [?|[?|[Hc Hk]]]; [lia|done|].
    assert (getObjFlags s v = load32 m0 (v - 8)) as ->.
    { apply load32_ext. intros x Hx. apply (iv_class Hok I). by apply Hc. }
    destruct (fixed_flags _ Hk) as [Hf1 Hf2]. rewrite (proj2 (Z.eqb_neq _ _) Hf1), Hf2.
    assert (move_by_kind (load32 m0 (v - 8)) v s = Ok None) as ->.
    { unfold fixed_kinds in Hk. unfold move_by_kind.
      repeat (apply elem_of_cons in Hk as [->|Hk]; [done|]). by apply elem_of_nil in Hk. }
    by apply Hstay.
Qed.

(** ** Visiting one cell *)

(** [f] succeeds and finishes the cells at the addresses [C] *)
Definition lands (r : res st) (P : list (Z * Z)) (D : Z -> Prop) : Prop :=
  exists s' P', r = Ok s' /\ inv s' P' D /\ P `prefix_of` P'.
Definition finishes (f : st -> res st) (C : Z -> Prop) (s : st) (P : list (Z * Z)) (D : Z -> Prop) : Prop :=
  lands (f s) P (fun x => D x \/ C x).

Lemma lands_bind r g P D1 D : lands r P D1 ->
  (forall s P', inv s P' D1 -> P `prefix_of` P' -> lands (g s) P' D) -> lands (rbind r g) P D.
Proof.
  intros (s1 & P1 & -> & I1 & Hp1) Hg. destruct (Hg s1 P1 I1 Hp1) as (s2 & P2 & E2 & I2 & Hp2).
  exists s2, P2. split; [exact E2|]. split; [exact I2|]. by etrans.
Qed.
Lemma lands_ret s P D : inv s P D -> lands (Ok s) P D.
Proof. intros I. by exists s, P. Qed.
Lemma lands_ext r P D D' : (forall x, D x <-> D' x) -> lands r P D -> lands r P D'.
Proof. intros HD (s & P' & E & I & Hp). exists s, P'. split; [exact E|]. split; [by eapply inv_ext|exact Hp]. Qed.

Lemma finishes_ext f (C C' : Z -> Prop) s P D : (forall x, C x <-> C' x) -> finishes f C s P D -> finishes f C' s P D.
Proof. intros HC. apply lands_ext. intros x. specialize (HC x). cbv beta. tauto. Qed.

Lemma finishes_nothing s P D : inv s P D -> finishes (fun s => Ok s) (fun _ => False) s P D.
Proof. intros I. apply lands_ret. eapply inv_ext; [|exact I]. intros x. cbv beta. tauto. Qed.

Lemma finishes_seq f g C1 C2 s P D :
  finishes f C1 s P D ->
  (forall s' P', inv s' P' (fun x => D x \/ C1 x) -> P `prefix_of` P' -> finishes g C2 s' P' (fun x => D x \/ C1 x)) ->
  finishes (fun s => let! s := f s in g s) (fun x => C1 x \/ C2 x) s P D.
Proof.
  intros Hf Hg. eapply lands_ext; [|eapply lands_bind; [exact Hf|exact Hg]]. intros x. cbv beta. tauto.
Qed.

Lemma trans_range s P D v : inv s P D -> 0 <= v < 4294967296 -> 0 <= trans P v < 4294967296 - 4 \/ trans P v = v.
Proof using Hok.
  intros I Hv. unfold trans. destruct (fwd P v) as [n|] eqn:E; [left|by right]. apply fwd_Some in E; [|apply (iv_nodup I)].
  destruct (iv_aligned _ _ _ _ _ I E). simpl. lia.
Qed.

Lemma cell_word s P D a k v n : inv s P D -> cell P a k v n -> ~ D a -> k <> FJunk -> rd s a = v.
Proof.
  intros I C Hd Hk. pose proof (iv_cells I _ _ _ _ C) as Hw. unfold rd. destruct k; try done; by apply Hw.
Qed.
Lemma cell_range P a k v n : cell P a k v n -> 0 <= v < 4294967296.
Proof. intros [??|?????]; apply load32_range. Qed.

Lemma handleReference_finishes s P D a v n : inv s P D -> cell P a FRef v n -> ~ D a ->
  finishes (handleReference move a) (fun x => x = a) s P D.
Proof using Hok Hmem.
  intros I C Hd. pose proof (cell_range _ _ _ _ _ C) as Hv.
  destruct (move_reference_spec s P D v I) as (r & s1 & P1 & E & I1 & Hp & Hr & Ht); [lia| | |].
  { by apply (cell_ref Hok I C). }
  { intros Hin. eapply cell_reach; [exact I|exact C|done|done]. }
  pose proof (cell_mono _ _ _ _ _ _ Hp C) as C1.
  assert (moved_target P1 FRef v) as Hm.
  { intros o Ho Hin. simpl in Ho. subst o. by eapply in_fst, Ht. }
  unfold finishes, lands, handleReference. rewrite (cell_word _ _ _ _ _ _ _ I C Hd) by done. rewrite E. cbn [rbind].
  destruct r as [v'|]; simpl in Hr.
  - exists (wr a v' s1), P1. split; [reflexivity|]. split; [|exact Hp]. subst v'.
    apply (inv_update Hok I1 C1); [done|exact Hm|]. simpl. destruct (trans_range _ _ _ _ I1 Hv) as [?| ->]; lia.
  - exists s1, P1. split; [reflexivity|]. split; [|exact Hp].
    apply (inv_skip Hok I1 C1); [exact Hd|done|exact Hm|done].
Qed.

Lemma cpustate_copy s P D o n : inv s P D -> (o, n) ∈ P -> okind m0 o = OBJFLAGS_CPUSTATE ->
  cpuState2thread n s = Ok (n + 4).
Proof using Hok.
  intros I Hin Ek. destruct (iv_aligned _ _ _ _ _ I Hin) as [_ Hn]. unfold cpuState2thread, getObjFlags, rd.
  rewrite (proj1 (iv_header I _ _ Hin)), Ek, (proj2 (Z.eqb_neq n 0)) by lia. done.
Qed.

Lemma MOVETCB_finishes s P D a v n : inv s P D -> cell P a FTcb v n -> ~ D a ->
  finishes (MOVETCB move a) (fun x => x = a) s P D.
Proof using Hok Hmem.
  intros I C Hd. pose proof (cell_range _ _ _ _ _ C) as Hv.
  pose proof (cell_ref Hok I C) as Href. simpl in Href.
  unfold finishes, lands, MOVETCB. rewrite (cell_word _ _ _ _ _ _ _ I C Hd) by done.
  destruct (Z.eqb_spec v 0) as [->|Hne].
  { exists s, P. split; [reflexivity|]. split; [|reflexivity].
    apply (inv_skip Hok I C); [exact Hd|done| |done]. intros o Ho Hin. simpl in Ho. pose proof (h_large _ Hin). lia. }
  destruct Href as [|[Hin Ek]]; [done|]. pose proof (h_large _ Hin).
  unfold thread2CPUState. rewrite (proj2 (Z.eqb_neq v 0) Hne).
  destruct (move_reference_spec s P D (v - 4) I) as (r & s1 & P1 & E & I1 & Hp & Hr & Ht); [lia|by right; left| |].
  { intros _. eapply cell_reach; [exact I|exact C|simpl; lia|done]. }
  pose proof (cell_mono _ _ _ _ _ _ Hp C) as C1. specialize (Ht Hin). rewrite E. cbn [rbind]. rewrite Hr.
  rewrite (cpustate_copy _ _ _ _ _ I1 Ht Ek). cbn [rbind].
  assert (new_word P1 FTcb v n = trans P1 (v - 4) + 4) as En by (simpl; unfold transT; by rewrite (proj2 (Z.eqb_neq v 0) Hne)).
  exists (wr a (trans P1 (v - 4) + 4) s1), P1. split; [reflexivity|]. split; [|exact Hp]. rewrite <- En.
  apply (inv_update Hok I1 C1); [done| |].
  - intros o Ho _. simpl in Ho. replace o with (v - 4) by lia. by eapply in_fst.
  - rewrite En. destruct (iv_aligned _ _ _ _ _ I1 Ht). lia.
Qed.

(** [if (t->f) handler(domain, &t->f)] *)
Lemma handle_if_set_finishes s P D a v n : inv s P D -> cell P a FRef v n -> ~ D a ->
  finishes (handle_if_set move a) (fun x => x = a) s P D.
Proof using Hok Hmem.
  intros I C Hd. unfold handle_if_set. destruct (handleReference_finishes _ _ _ _ _ _ I C Hd) as (s' & P' & E & F).
  unfold finishes, lands. rewrite (cell_word _ _ _ _ _ _ _ I C Hd) by done. destruct (Z.eqb_spec v 0) as [->|_]; [|by exists s', P'].
  exists s, P. split; [reflexivity|]. split; [|reflexivity]. apply (inv_skip Hok I C); [exact Hd|done| |].
  - intros o Ho Hin. simpl in Ho. pose proof (h_large _ Hin). lia.
  - simpl. unfold trans. rewrite fwd_none_outside; [done|apply (iv_sub I)|]. intros ?%h_large. lia.
Qed.

(** the root set *)
Lemma walkRootSet_finishes l : forall s P D, inv s P D -> l ⊆ roots -> NoDup (root_addr <$> l) ->
  (forall r, r ∈ l -> ~ D (root_addr r)) ->
  finishes (walkRootSet move l) (fun x => x ∈ root_addr <$> l) s P D.
Proof using Hok Hmem.
  induction l as [|r l IH]; intros s P D I Hs Hn Hd.
  - eapply finishes_ext; [|apply finishes_nothing; exact I]. intros x. simpl. by rewrite elem_of_nil.
  - rewrite fmap_cons in Hn. apply NoDup_cons in Hn as [Hnr Hn].
    assert (r ∈ roots) as Hr by (apply Hs; left).
    pose proof (cell_root _ s0 P r Hr) as C. specialize (Hd r ltac:(left)) as Hd0.
    eapply finishes_ext; [|apply (finishes_seq (visit move r) (walkRootSet move l) (fun x => x = root_addr r) (fun x => x ∈ root_addr <$> l))].
    + intros x. rewrite fmap_cons, elem_of_cons. done.
    + destruct r as [a|a]; [eapply handleReference_finishes|eapply MOVETCB_finishes]; done.
    + intros s' P' I' _. apply IH; [exact I'| |exact Hn|].
      * intros x Hx. apply Hs. by right.
      * intros r' Hr' [Hx|Hx]; [eapply Hd; [by right|exact Hx]|].
        apply Hnr. rewrite <- Hx. by apply list_elem_of_fmap_2.
Qed.

(** ** Visiting the cells of one copy *)

Definition updated (k : fkind) : bool := match k with FRef | FTcb | FSelf => true | _ => false end.

(** the cells of the copy [n] of [o] that the collector updates *)
Definition obj_cells (o n x : Z) : Prop :=
  exists i, in_body m0 o i /\ updated (field m0 o i) = true /\ x = n + i.

Definition walks (f : st -> res st) (o n : Z) : Prop :=
  forall s P D, inv s P D -> (o, n) ∈ P -> (forall x, obj_cells o n x -> ~ D x) -> finishes f (obj_cells o n) s P D.

Lemma in_prefix (P P' : list (Z * Z)) x : P `prefix_of` P' -> x ∈ P -> x ∈ P'.
Proof. intros [Q ->] ?. apply elem_of_app. by left. Qed.

(** the kind and the words of the class, read in the middle of a collection *)
Lemma copy_instance s P D o n : inv s P D -> (o, n) ∈ P -> okind m0 o = OBJFLAGS_OBJECT ->
  let c := cdesc m0 o in
  rd s n <> 0 /\ rd s (rd s n - 4) = c /\ rd s c = MAGIC_CLASSDESC /\ instanceSize s c = isize m0 o /\
  rd s (c + c_map) = load32 m0 (c + c_map) /\
  forall j, 0 <= j < isize m0 o -> load8 (ram s) (load32 m0 (c + c_map) + j / 8) = load8 m0 (load32 m0 (c + c_map) + j / 8).
Proof using Hok.
  intros I Hin E. pose proof (hk_wf _ _ _ _ Hok o (h_old (iv_sub I) Hin)) as W.
  pose proof (shape_copy Hok I Hin) as Hs. destruct (shape_instance _ _ _ _ _ W Hs E) as (Ec & Ei & Ej).
  pose proof (wf_body_at _ _ _ _ E (wf_class _ _ _ W)) as ((Hv & Hv4) & Hc & Hm & Hi & Hp & Hj). cbv zeta in *.
  assert (rd s n = load32 m0 o) as En by (unfold rd; apply (shape_vtable cls _ _ _ _ Hs); by rewrite E).
  split_and!.
  - by rewrite En.
  - exact Ec.
  - unfold rd. rewrite <- Hm. by apply (shape_cls32 _ _ _ _ _ Hs).
  - unfold instanceSize, rd. by apply (shape_cls32 _ _ _ _ _ Hs).
  - unfold rd. by apply (shape_cls32 _ _ _ _ _ Hs).
  - intros j Hjr. apply (ss_cls _ _ _ _ _ Hs). by apply Hj.
Qed.

Lemma land_1_testbit b k : 0 <= k -> (Z.land (Z.shiftr b k) 1 =? 0) = negb (Z.testbit b k).
Proof.
  intros Hk. change 1 with (Z.ones 1). rewrite Z.land_ones by lia. change (2 ^ 1) with 2.
  rewrite <- Z.bit0_mod, Z.shiftr_spec, Z.add_0_l by lia. by destruct (Z.testbit b k).
Qed.

(** FORBITMAP before bit [idx]: [addr] and [bits] *)
Definition bits_at (map idx addr bits : Z) : Prop :=
  if idx mod 8 =? 0 then addr = map + idx / 8
  else addr = map + idx / 8 + 1 /\ bits = Z.shiftr (load8 m0 (map + idx / 8)) (idx mod 8).

Lemma bits_next map idx : 0 <= idx ->
  bits_at map (idx + 1) (map + idx / 8 + 1) (Z.shiftr (Z.shiftr (load8 m0 (map + idx / 8)) (idx mod 8)) 1).
Proof.
  intros Hi. unfold bits_at. rewrite Z.shiftr_shiftr by lia. destruct (Z.eqb_spec ((idx + 1) mod 8) 0) as [E|E].
  - Z.div_mod_to_equations. lia.
  - replace ((idx + 1) / 8) with (idx / 8) by (Z.div_mod_to_equations; lia).
    replace (idx mod 8 + 1) with ((idx + 1) mod 8) by (Z.div_mod_to_equations; lia). done.
Qed.

Lemma FORBITMAP_finishes o n k : okind m0 o = OBJFLAGS_OBJECT -> let c := cdesc m0 o in
  forall idx addr bits s P D, 0 <= idx -> idx + Z.of_nat k = isize m0 o -> inv s P D -> (o, n) ∈ P ->
  bits_at (load32 m0 (c + c_map)) idx addr bits ->
  (forall j, idx <= j < isize m0 o -> mapbit m0 c j = true -> ~ D (n + 4 + 4 * j)) ->
  finishes (FORBITMAP k idx addr bits (fun i => handleReference move (n + 4 + 4 * i)))
    (fun x => exists j, idx <= j < isize m0 o /\ mapbit m0 c j = true /\ x = n + 4 + 4 * j) s P D.
Proof using Hok Hmem.
  intros E c. induction k as [|k IH]; intros idx addr bits s P D H0 Hk I Hin Hb Hd.
  - eapply finishes_ext; [|apply finishes_nothing; exact I]. intros x. split; [done|]. intros (j & ? & _). lia.
  - cbn [FORBITMAP]. destruct (copy_instance _ _ _ _ _ I Hin E) as (_ & _ & _ & _ & _ & Hbyte).
    set (mp := load32 m0 (c + c_map)) in *. fold c in Hbyte. fold mp in Hbyte.
    set (byte := load8 m0 (mp + idx / 8)).
    assert ((if idx mod 8 =? 0 then (load8 (ram s) addr, addr + 1) else (bits, addr)) =
      (Z.shiftr byte (idx mod 8), mp + idx / 8 + 1)) as Eb.
    { unfold bits_at in Hb. destruct (Z.eqb_spec (idx mod 8) 0) as [E8|E8].
      - rewrite E8, Z.shiftr_0_r. subst addr. by rewrite Hbyte by lia.
      - by destruct Hb as [-> ->]. }
    pose proof (bits_next mp idx H0) as Hn. fold byte in Hn.
    assert (0 <= idx mod 8) as Hm8 by (Z.div_mod_to_equations; lia).
    unfold finishes, lands. rewrite Eb. cbv iota. rewrite (land_1_testbit _ _ Hm8). change (Z.testbit byte (idx mod 8)) with (mapbit m0 c idx).
    destruct (mapbit m0 c idx) eqn:Eij; cbn [negb].
    + assert (cell P (n + 4 + 4 * idx) FRef (load32 m0 (o + (4 + 4 * idx))) n) as C.
      { replace (n + 4 + 4 * idx) with (n + (4 + 4 * idx)) by lia.
        assert (field m0 o (4 + 4 * idx) = FRef) as <-.
        { unfold field. rewrite E. simpl (OBJFLAGS_OBJECT =? OBJFLAGS_OBJECT). cbv iota zeta.
          replace ((4 + 4 * idx - 4) / 4) with idx by (Z.div_mod_to_equations; lia).
          rewrite (proj2 (Z.leb_le 0 idx)), (proj2 (Z.ltb_lt idx _)) by lia. fold c. by rewrite Eij. }
        apply cell_copy; [exact Hin|]. split; [|Z.div_mod_to_equations; lia].
        unfold owords. rewrite E. simpl. unfold OBJSIZE_OBJECT, XMOFF. lia. }
      apply (finishes_ext (fun s => let! s := handleReference move (n + 4 + 4 * idx) s in
          FORBITMAP k (idx + 1) (mp + idx / 8 + 1) (Z.shiftr (Z.shiftr byte (idx mod 8)) 1)
            (fun i => handleReference move (n + 4 + 4 * i)) s) (fun x => x = n + 4 + 4 * idx \/
        exists j, idx + 1 <= j < isize m0 o /\ mapbit m0 c j = true /\ x = n + 4 + 4 * j)).
      { intros x. split.
        - intros [->|(j & ? & ? & ->)]; [by exists idx; split; [lia|]|by exists j; split; [lia|]].
        - intros (j & ? & Ej & ->). destruct (decide (j = idx)) as [->|]; [by left|right]. by exists j; split; [lia|]. }
      apply (finishes_seq (handleReference move (n + 4 + 4 * idx))
        (FORBITMAP k (idx + 1) (mp + idx / 8 + 1) (Z.shiftr (Z.shiftr byte (idx mod 8)) 1)
          (fun i => handleReference move (n + 4 + 4 * i)))).
      * eapply handleReference_finishes; [exact I|exact C|]. apply Hd; [lia|done].
      * intros s' P' I' Hp. apply IH; [lia|lia|exact I'|by eapply in_prefix|exact Hn|].
        intros j Hj Ej [Hx|Hx]; [by apply (Hd j); [lia|..]|lia].
    + cbn [rbind]. apply (finishes_ext (FORBITMAP k (idx + 1) (mp + idx / 8 + 1) (Z.shiftr (Z.shiftr byte (idx mod 8)) 1)
          (fun i => handleReference move (n + 4 + 4 * i))) (fun x => exists j, idx + 1 <= j < isize m0 o /\ mapbit m0 c j = true /\ x = n + 4 + 4 * j)).
      { intros x. split; intros (j & ? & Ej & ->); (exists j; split; [|done]); [lia|].
        destruct (decide (j = idx)) as [->|]; [by rewrite Eij in Ej|lia]. }
      apply IH; [lia|lia|exact I|exact Hin|exact Hn|]. intros j Hj. apply Hd. lia.
Qed.

Lemma walk_object_cells o n : okind m0 o = OBJFLAGS_OBJECT -> walks (gc_impl_walkContentObject move n) o n.
Proof using Hok Hmem.
  intros E s P D I Hin Hd. destruct (copy_instance _ _ _ _ _ I Hin E) as (Hv & Ec & Em & Ei & Emap & _).
  unfold finishes, lands, gc_impl_walkContentObject, ASSERTCLASSDESC. rewrite (proj2 (Z.eqb_neq _ 0) Hv). cbn [negb rbind assert_].
  rewrite Ec, Em, Z.eqb_refl. cbn [rbind assert_]. rewrite Ei, Emap.
  pose proof (load32_range m0 (cdesc m0 o + c_instanceSize) : 0 <= isize m0 o < _) as Hr.
  assert (forall x, (exists j, 0 <= j < isize m0 o /\ mapbit m0 (cdesc m0 o) j = true /\ x = n + 4 + 4 * j) <-> obj_cells o n x) as Hc.
  { intros x. unfold obj_cells, field, in_body, owords. rewrite E. simpl (_ =? _). cbv iota zeta. unfold OBJSIZE_OBJECT, XMOFF. split.
    - intros (j & Hj & Ej & ->). exists (4 + 4 * j). replace ((4 + 4 * j - 4) / 4) with j by (Z.div_mod_to_equations; lia).
      rewrite (proj2 (Z.leb_le 0 j)), (proj2 (Z.ltb_lt j _)), Ej by lia. split; [Z.div_mod_to_equations; lia|]. split; [done|lia].
    - intros (i & Hi & Hf & ->). exists ((i - 4) / 4). revert Hf.
      destruct (Z.leb_spec 0 ((i - 4) / 4)), (Z.ltb_spec ((i - 4) / 4) (isize m0 o)), (mapbit m0 (cdesc m0 o) ((i - 4) / 4)); cbn [andb]; intros Hf;
        try done.
      split; [lia|]. split; [done|]. destruct Hi as [_ Hi]. Z.div_mod_to_equations. lia. }
  eapply finishes_ext; [exact Hc|].
  apply FORBITMAP_finishes; [exact E|lia|lia|exact I|exact Hin| |].
  - unfold bits_at. simpl. by rewrite Z.add_0_r.
  - intros j Hj Ej. apply Hd, Hc. by exists j.
Qed.

Lemma cell_at (P : list (Z * Z)) o n i k : (o, n) ∈ P -> in_body m0 o i -> field m0 o i = k ->
  cell P (n + i) k (load32 m0 (o + i)) n.
Proof. intros Hin Hi <-. by apply cell_copy. Qed.

Lemma walk_array_cells o n : okind m0 o = OBJFLAGS_ARRAY -> walks (gc_impl_walkContentArray move n) o n.
Proof using Hok Hmem.
  intros E s P D I Hin Hd. pose proof (hk_wf _ _ _ _ Hok o (h_old (iv_sub I) Hin)) as W.
  destruct (shape_array _ _ _ _ _ W (shape_copy Hok I Hin) E) as (_ & El & Er).
  unfold finishes, lands, gc_impl_walkContentArray. change (rd s (n + 8)) with (load32 (ram s) (n + 8)). rewrite El.
  change ((class_name1 s (rd s (n + 4)) =? 76) || (class_name1 s (rd s (n + 4)) =? 91)) with (ref_array (ram s) n). rewrite Er.
  pose proof (load32_range m0 (o + 8)) as Hr. set (len := load32 m0 (o + 8)) in *.
  assert (forall i, field m0 o i = if (12 <=? i) && ref_array m0 o then FRef else FRaw) as Hf by (intros i; unfold field; by rewrite E).
  assert (4 * owords m0 o - 8 = 12 + 4 * len) as Ew.
  { unfold owords. rewrite E. simpl (_ =? _). cbv iota. unfold OBJSIZE_ARRAY_32BIT, XMOFF. lia. }
  destruct (ref_array m0 o).
  - assert (forall j, 0 <= j < len -> in_body m0 o (12 + 4 * j) /\ field m0 o (12 + 4 * j) = FRef) as Hj.
    { intros j Hj. rewrite Hf, (proj2 (Z.leb_le 12 _)) by lia. split; [|done]. split; [lia|Z.div_mod_to_equations; lia]. }
    destruct (for_n_total (fun i => handleReference move (n + 12 + 4 * i))
      (fun k s => exists P', inv s P' (fun x => D x \/ exists j, 0 <= j < k /\ x = n + 12 + 4 * j) /\ P `prefix_of` P')
      (Z.to_nat len) 0 s) as (s' & E' & P' & I' & Hp').
    + intros k t Hk (P1 & I1 & Hp1). rewrite Z2Nat.id in Hk by lia. destruct (Hj k) as [Hb Hfk]; [lia|].
      pose proof (cell_at P1 o n _ _ (in_prefix _ _ _ Hp1 Hin) Hb Hfk) as C.
      replace (n + (12 + 4 * k)) with (n + 12 + 4 * k) in C by lia.
      destruct (handleReference_finishes _ _ _ _ _ _ I1 C) as (t' & P2 & E2 & I2 & Hp2).
      { intros [Hx|(j & ? & ?)]; [|lia]. revert Hx. apply Hd. exists (12 + 4 * k). rewrite Hfk. split; [done|]. split; [done|lia]. }
      exists t'. split; [exact E2|]. exists P2. split; [|by etrans]. eapply inv_ext; [|exact I2]. intros x. cbv beta. split.
      * intros [[?|(j & ? & ?)]| ->]; [by left|right; exists j; lia|right; exists k; lia].
      * intros [?|(j & ? & ->)]; [by left; left|]. destruct (decide (j = k)) as [->|]; [by right|left; right; exists j; lia].
    + exists P. split; [|reflexivity]. eapply inv_ext; [|exact I]. intros x. cbv beta. split; [by left|].
      intros [?|(j & ? & _)]; [done|lia].
    + exists s', P'. split; [exact E'|]. split; [|exact Hp']. eapply inv_ext; [|exact I']. intros x. cbv beta.
      rewrite Z2Nat.id by lia. apply or_iff_compat_l. split.
      * intros (j & Hjr & ->). destruct (Hj j) as [Hb Hfj]; [lia|]. exists (12 + 4 * j). rewrite Hfj.
        split; [done|]. split; [done|lia].
      * intros (i & [Hb Hb4] & Hfi & ->). rewrite Hf in Hfi. destruct (Z.leb_spec 12 i); [|done].
        exists ((i - 12) / 4). Z.div_mod_to_equations. lia.
  - eapply finishes_ext; [|apply finishes_nothing; exact I]. intros x. split; [done|]. intros (i & _ & Hfi & _).
    by rewrite Hf, andb_false_r in Hfi.
Qed.

(** cells that are not yet finished *)
Ltac pending Hd E i :=
  let Hx := fresh in intros Hx; cbv beta in Hx; repeat (destruct Hx as [Hx|Hx]);
  try (cbv [dep_obj dep_proxy dep_receiver t_contextPtr t_nextInDomain t_prevInDomain t_nextInRunQueue t_portalParameter
    t_entry t_portalReturn t_processingDEP] in Hx; lia);
  revert Hx; apply Hd; exists i; unfold in_body, owords, field; rewrite E;
  split; [by vm_compute|split; [by vm_compute|reflexivity]].

Lemma walk_service_cells o n : okind m0 o = OBJFLAGS_SERVICE -> walks (gc_impl_walkContentService move n) o n.
Proof using Hok Hmem.
  intros E s P D I Hin Hd.
  assert (forall P' i k, (o, n) ∈ P' -> 0 <= i < 64 /\ i mod 4 = 0 -> field m0 o i = k -> cell P' (n + i) k (load32 m0 (o + i)) n) as Hc.
  { intros P' i k Hin' Hi Hf. apply cell_at; [done| |done]. unfold in_body, owords. rewrite E. done. }
  unfold finishes, gc_impl_walkContentService.
  eapply (lands_ext _ _ (fun x => ((D x \/ x = n + dep_obj) \/ x = n + dep_proxy) \/ x = n + dep_receiver)).
  { intros x. unfold obj_cells, in_body, owords, field. rewrite E. simpl (_ =? OBJFLAGS_OBJECT). simpl (_ =? OBJFLAGS_ARRAY).
    simpl (_ =? OBJFLAGS_SERVICE). cbv iota zeta. split.
    - intros [[[?| ->]| ->]| ->]; [by left|right..]; eexists; (split; [|split; [|reflexivity]]); by vm_compute.
    - intros [?|(i & _ & Hf & ->)]; [tauto|]. destruct (Z.eqb_spec i dep_obj); [lia|]. destruct (Z.eqb_spec i dep_proxy); [lia|].
      destruct (Z.eqb_spec i dep_receiver); [lia|done]. }
  eapply lands_bind; [eapply handleReference_finishes; [exact I|apply Hc; [done|done|unfold field; by rewrite E]|pending Hd E dep_obj]|].
  intros s1 P1 I1 Hp1. pose proof (in_prefix _ _ _ Hp1 Hin) as Hin1.
  eapply lands_bind; [eapply handleReference_finishes; [exact I1|apply Hc; [done|done|unfold field; by rewrite E]|pending Hd E dep_proxy]|].
  intros s2 P2 I2 Hp2. pose proof (in_prefix _ _ _ Hp2 Hin1) as Hin2.
  eapply MOVETCB_finishes; [exact I2|apply Hc; [done|done|unfold field; by rewrite E]|pending Hd E dep_receiver].
Qed.

Lemma walk_atomvar_cells o n : okind m0 o = OBJFLAGS_ATOMVAR -> walks (gc_impl_walkContentAtomVar move n) o n.
Proof using Hok Hmem.
  intros E s P D I Hin Hd. unfold finishes, gc_impl_walkContentAtomVar.
  eapply (lands_ext _ _ (fun x => (D x \/ x = n + 8) \/ x = n + 4)).
  { intros x. unfold obj_cells, in_body, owords, field. rewrite E. simpl. split.
    - intros [[?| ->]| ->]; [by left|right..]; eexists; (split; [|split; [|reflexivity]]); by vm_compute.
    - intros [?|(i & _ & Hf & ->)]; [tauto|]. destruct (Z.eqb_spec i 4); [lia|]. destruct (Z.eqb_spec i 8); [lia|].
      by destruct (i =? 12). }
  assert (forall P' i k, (o, n) ∈ P' -> i = 4 \/ i = 8 -> field m0 o i = k -> cell P' (n + i) k (load32 m0 (o + i)) n) as Hc.
  { intros P' i k Hin' Hi Hf. apply cell_at; [done| |done]. unfold in_body, owords. rewrite E. by destruct Hi as [->| ->]. }
  eapply lands_bind; [eapply MOVETCB_finishes; [exact I|apply Hc; [done|by right|unfold field; by rewrite E]|pending Hd E 8]|].
  intros s1 P1 I1 Hp1. pose proof (in_prefix _ _ _ Hp1 Hin) as Hin1.
  eapply handleReference_finishes; [exact I1|apply Hc; [done|by left|unfold field; by rewrite E]|pending Hd E 4].
Qed.

(** ** The cells of a thread *)

Section Thread.
Context (o n : Z) (E : okind m0 o = OBJFLAGS_CPUSTATE).
Abbreviation t := (n + 4).
Abbreviation has_return := (negb (Z.land (load32 m0 (o + 4 + t_portalReturnType)) 1 =? 0)).

Definition thread_cells (x : Z) : Prop :=
  x = t + t_contextPtr \/ x = t + t_nextInDomain \/ x = t + t_prevInDomain \/ x = t + t_nextInRunQueue \/
  x = t + t_portalParameter \/ x = t + t_entry \/ (has_return = true /\ x = t + t_portalReturn) \/ x = t + t_processingDEP.

Lemma thread_field x k : 0 <= x < sizeof_ThreadDesc /\ x mod 4 = 0 -> field m0 o (4 + x) = k ->
  forall P, (o, n) ∈ P -> cell P (t + x) k (load32 m0 (o + 4 + x)) n.
Proof using E.
  intros [Hx Hx4] Hf P Hin. rewrite <- !Z.add_assoc. apply cell_at; [done| |done].
  unfold in_body, owords. rewrite E. simpl. change sizeof_ThreadDesc with 272 in Hx. change OBJSIZE_THREADDESCPROXY with 73.
  Z.div_mod_to_equations. lia.
Qed.

Lemma thread_raw s P D x : 0 <= x < sizeof_ThreadDesc /\ x mod 4 = 0 -> field m0 o (4 + x) = FRaw -> inv s P D -> (o, n) ∈ P ->
  rd s (t + x) = load32 m0 (o + 4 + x).
Proof using E.
  intros Hx Hf I Hin. exact (iv_cells I _ _ _ _ (thread_field x FRaw Hx Hf P Hin)).
Qed.

Lemma thread_return_field : field m0 o (4 + t_portalReturn) = if has_return then FRef else FRaw.
Proof using E. unfold field. rewrite E. simpl. by destruct (Z.land _ 1 =? 0). Qed.

Lemma thread_cells_spec x : thread_cells x <-> obj_cells o n x.
Proof using E.
  unfold thread_cells, obj_cells. split.
  - intros Hx. assert (exists y, x = t + y /\ 0 <= y < sizeof_ThreadDesc /\ y mod 4 = 0 /\ updated (field m0 o (4 + y)) = true) as (y & -> & Hy & Hy4 & Hu).
    { destruct Hx as [->|[->|[->|[->|[->|[->|[[Hr ->]| ->]]]]]]]; (eexists; split; [reflexivity|]; split; [done|]; split; [done|]);
        try (unfold field; by rewrite E). by rewrite thread_return_field, Hr. }
    exists (4 + y). split; [|split; [done|lia]]. unfold in_body, owords. rewrite E. simpl. change sizeof_ThreadDesc with 272 in Hy.
    change OBJSIZE_THREADDESCPROXY with 73. Z.div_mod_to_equations. lia.
  - intros (i & _ & Hf & ->). unfold field in Hf. rewrite E in Hf. simpl (_ =? OBJFLAGS_OBJECT) in Hf. simpl (_ =? OBJFLAGS_ARRAY) in Hf.
    simpl (_ =? OBJFLAGS_SERVICE) in Hf. simpl (_ =? OBJFLAGS_ATOMVAR) in Hf. simpl (_ =? OBJFLAGS_MEMORY) in Hf.
    simpl (_ =? OBJFLAGS_CPUSTATE) in Hf. cbv iota zeta in Hf.
    repeat match type of Hf with context [i =? ?c] => destruct (Z.eqb_spec i c) as [Ei|_]; cbn [orb andb] in Hf; [rewrite Ei, Z.add_assoc|] end;
      try tauto.
    + destruct has_return; [tauto|by destruct (4 + sizeof_ThreadDesc <=? i)].
    + by destruct (4 + sizeof_ThreadDesc <=? i).
Qed.

(** [contextPtr] leads to the context in the copy *)
Lemma contextPtr_lands s P D : inv s P D -> (o, n) ∈ P ->
  inv (wr (t + t_contextPtr) (t + t_context) s) P (fun x => D x \/ x = t + t_contextPtr).
Proof using Hok E.
  intros I Hin. destruct (iv_aligned _ _ _ _ _ I Hin) as [_ Hr].
  assert (t + t_context < 4294967296) as Hlt.
  { destruct (hk_geo _ _ _ _ Hok) as [_ G2 _ _ G5 _]. pose proof (h_copy I Hin) as Hc. pose proof (h_room Hok P (iv_nodup I) (iv_sub I)).
    assert (owords m0 o = 73) as Ew by (unfold owords; by rewrite E). rewrite Ew in Hc. change t_context with 28. lia. }
  assert (field m0 o (4 + t_contextPtr) = FSelf) as Hf by (unfold field; by rewrite E).
  apply (inv_update Hok I (thread_field t_contextPtr _ ltac:(done) Hf P Hin)); [done|by intros ??|].
  simpl. change t_context with 28 in *. lia.
Qed.

Context (irqs : list Z).

(** a field that has not been visited *)
Lemma thread_tcb s P D x : inv s P D -> (o, n) ∈ P -> x = t_nextInDomain \/ x = t_prevInDomain \/ x = t_nextInRunQueue ->
  ~ D (t + x) -> finishes (MOVETCB move (t + x)) (fun y => y = t + x) s P D.
Proof using Hok Hmem E.
  intros I Hin Hx Hd. eapply MOVETCB_finishes; [exact I| |exact Hd].
  apply thread_field; [by destruct Hx as [->|[->| ->]]| |done]. unfold field. rewrite E. by destruct Hx as [->|[->| ->]].
Qed.
Lemma thread_ref s P D x : inv s P D -> (o, n) ∈ P -> x = t_portalParameter \/ x = t_entry ->
  ~ D (t + x) -> finishes (handle_if_set move (t + x)) (fun y => y = t + x) s P D.
Proof using Hok Hmem E.
  intros I Hin Hx Hd. eapply handle_if_set_finishes; [exact I| |exact Hd].
  apply thread_field; [by destruct Hx as [->| ->]| |done]. unfold field. rewrite E. by destruct Hx as [->| ->].
Qed.
Lemma thread_return s P D : inv s P D -> (o, n) ∈ P -> (has_return = true -> ~ D (t + t_portalReturn)) ->
  lands (if Z.land (rd s (t + t_portalReturnType)) 1 =? 0 then Ok s else handle_if_set move (t + t_portalReturn) s) P
    (fun y => D y \/ (has_return = true /\ y = t + t_portalReturn)).
Proof using Hok Hmem E.
  intros I Hin Hd. rewrite (thread_raw s P D t_portalReturnType); [|done|unfold field; by rewrite E|done|done].
  destruct (Z.land _ 1 =? 0) eqn:Eb; simpl.
  - apply lands_ret. eapply inv_ext; [|exact I]. intros y. cbv beta. split; [by left|]. by intros [?|[? _]].
  - eapply lands_ext; [|eapply handle_if_set_finishes; [exact I| |by apply Hd]].
    + intros y. cbv beta. tauto.
    + apply thread_field; [done| |done]. by rewrite thread_return_field, Eb.
Qed.
Lemma thread_dep s P D : inv s P D -> (o, n) ∈ P -> ~ D (t + t_processingDEP) -> dep_ok m0 H o ->
  lands (if rd s (t + t_processingDEP) =? 0 then Ok s
         else if 1 <? rd s (rd s (t + t_processingDEP) + dep_refcount) then handleReference move (t + t_processingDEP) s
         else Ok (wr (t + t_processingDEP) 0 s)) P (fun y => D y \/ y = t + t_processingDEP).
Proof using Hok Hmem E.
  intros I Hin Hd Hdep. assert (field m0 o (4 + t_processingDEP) = FRef) as Hf by (unfold field; by rewrite E).
  pose proof (thread_field t_processingDEP _ ltac:(done) Hf P Hin) as C. specialize (Hdep E). cbv zeta in Hdep.
  rewrite (cell_word _ _ _ _ _ _ _ I C Hd) by done.
  destruct Hdep as [Hv|[Hv Ek]].
  - destruct (handle_if_set_finishes _ _ _ _ _ _ I C Hd) as (s' & P' & Hh & Hrest). unfold handle_if_set in Hh.
    rewrite (cell_word _ _ _ _ _ _ _ I C Hd) in Hh by done. rewrite Hv in *. by exists s', P'.
  - set (v := load32 m0 (o + 4 + t_processingDEP)) in *. pose proof (h_large _ Hv). rewrite (proj2 (Z.eqb_neq v 0)) by lia.
    pose proof (wf_body_at _ _ _ _ Ek (wf_class _ _ _ (hk_wf _ _ _ _ Hok v Hv))) as B. simpl in B.
    assert (rd s (v + dep_refcount) = load32 m0 (v + dep_refcount)) as ->.
    { apply load32_ext. intros x Hx. apply (iv_from I v); [done|]. unfold owords. rewrite Ek. simpl.
      change OBJSIZE_SERVICEDESC with 18. unfold dep_refcount in Hx. lia. }
    rewrite (proj2 (Z.ltb_lt _ _) B). by eapply handleReference_finishes.
Qed.

(** a field that no earlier step visits *)
Ltac fresh_field Hd :=
  let Hx := fresh in intros Hx; cbv beta in Hx; repeat (destruct Hx as [Hx|Hx]);
  try lazymatch type of Hx with _ /\ _ => destruct Hx as [_ Hx] end;
  try (cbv [t_contextPtr t_nextInDomain t_prevInDomain t_nextInRunQueue t_portalParameter t_entry t_portalReturn t_processingDEP] in Hx; lia);
  revert Hx; apply Hd; unfold thread_cells; tauto.

Lemma walk_cpustate_cells : (forall o, o ∈ H -> dep_ok m0 H o) -> walks (gc_impl_walkContentCPUState move irqs n) o n.
Proof using Hok Hmem E.
  intros Hdep s P D I Hin Hd0. pose proof (h_old (iv_sub I) Hin) as HoH.
  assert (forall x, thread_cells x -> ~ D x) as Hd by (intros x Hx; by apply Hd0, thread_cells_spec). clear Hd0.
  destruct (wf_body_at _ _ _ _ E (wf_class _ _ _ (hk_wf _ _ _ _ Hok o HoH)) : quiet_thread m0 (o + 4)) as (Q1 & Q2 & Q3 & Q4).
  apply (lands_ext _ _ (fun x => D x \/ thread_cells x)); [intros x; by rewrite thread_cells_spec|].
  unfold gc_impl_walkContentCPUState. rewrite (cpustate_copy _ _ _ _ _ I Hin E). cbn [rbind].
  pose proof (contextPtr_lands _ _ _ I Hin) as I0. cbv zeta. set (sc := wr _ _ s) in *.
  eapply lands_bind; [apply thread_tcb; [exact I0|exact Hin|tauto|fresh_field Hd]|]. intros s1 P1 I1 Hp1. pose proof (in_prefix _ _ _ Hp1 Hin) as Hin1.
  eapply lands_bind; [apply thread_tcb; [exact I1|exact Hin1|tauto|fresh_field Hd]|]. intros s2 P2 I2 Hp2. pose proof (in_prefix _ _ _ Hp2 Hin1) as Hin2.
  eapply lands_bind; [apply thread_tcb; [exact I2|exact Hin2|tauto|fresh_field Hd]|]. intros s3 P3 I3 Hp3. pose proof (in_prefix _ _ _ Hp3 Hin2) as Hin3.
  eapply lands_bind.
  { erewrite (thread_raw s3), Q2; [|done|unfold field; by rewrite E|exact I3|exact Hin3]. apply lands_ret, I3. }
  intros s4 P4 I4 Hp4. pose proof (in_prefix _ _ _ Hp4 Hin3) as Hin4.
  eapply lands_bind.
  { erewrite (thread_raw s4), Q3; [|done|unfold field; by rewrite E|exact I4|exact Hin4]. apply lands_ret, I4. }
  intros s5 P5 I5 Hp5. pose proof (in_prefix _ _ _ Hp5 Hin4) as Hin5.
  erewrite (thread_raw s5 _ _ t_state); [|done|unfold field; by rewrite E|exact I5|exact Hin5].
  rewrite (proj2 (Z.eqb_neq _ _) Q1). cbn [andb].
  pose proof (contextPtr_lands _ _ _ I5 Hin5) as I6. set (s6 := wr _ _ s5) in *.
  eapply lands_bind.
  { erewrite (thread_raw s6), Q4; [|done|unfold field; by rewrite E|exact I6|exact Hin5]. apply lands_ret, I6. }
  intros s7 P7 I7 Hp7. pose proof (in_prefix _ _ _ Hp7 Hin5) as Hin7.
  eapply lands_bind; [apply thread_ref; [exact I7|exact Hin7|tauto|fresh_field Hd]|]. intros s8 P8 I8 Hp8. pose proof (in_prefix _ _ _ Hp8 Hin7) as Hin8.
  eapply lands_bind; [apply thread_ref; [exact I8|exact Hin8|tauto|fresh_field Hd]|]. intros s9 P9 I9 Hp9. pose proof (in_prefix _ _ _ Hp9 Hin8) as Hin9.
  eapply lands_bind; [apply thread_return; [exact I9|exact Hin9|intros Hr; fresh_field Hd]|]. intros s10 P10 I10 Hp10. pose proof (in_prefix _ _ _ Hp10 Hin9) as Hin10.
  eapply lands_bind.
  { unfold walk_incoming_call. erewrite (thread_raw s10 _ _ t_mostRecentlyCalledBy), Q3; [|done|unfold field; by rewrite E|exact I10|exact Hin10].
    cbn [Z.eqb rbind assert_]. destruct (rd s10 (t + t_isPortalThread) =? 0); apply lands_ret, I10. }
  intros s11 P11 I11 Hp11. pose proof (in_prefix _ _ _ Hp11 Hin10) as Hin11.
  eapply lands_ext; [|apply thread_dep; [exact I11|exact Hin11|fresh_field Hd|by apply Hdep]].
  intros x. cbv beta. unfold thread_cells. tauto.
Qed.
End Thread.
End Scan.
