(* ===== verification/GCCollect.v ===== *)
(** * The copying collector: a whole collection

    [gc_new_gc] copies exactly what the roots reach, redirects every
    reference, finalises the dead memory objects and portals and leaves a
    heap that is in order for the next collection. *)

From S2P Require Import Prelude Mem CString GCHeap GCTheory GCInv GCScan.
#[local] Open Scope Z_scope.

(** ** The two walks *)

(** the handler for objects of kind [k] *)
Definition handler_for {A} `{!GCServices A} (hs : @handlers A) (k : Z) :=
  if k =? OBJFLAGS_ARRAY then handleArray hs
  else if k =? OBJFLAGS_OBJECT then handleObject hs
  else if k =? OBJFLAGS_PORTAL then handlePortal hs
  else if k =? OBJFLAGS_MEMORY then handleMemory hs
  else if k =? OBJFLAGS_SERVICE then handleService hs
  else if k =? OBJFLAGS_ATOMVAR then handleAtomVar hs
  else if k =? OBJFLAGS_CAS then handleCAS hs
  else if k =? OBJFLAGS_DOMAIN then handleDomainProxy hs
  else handleCPUStateProxy hs.

Section Collect.
Context {A : Type} `{!GCServices A}.
Abbreviation st := (gc_state A).
Context (domain : Z) (is_domainZero : bool).
Context (cls : Z -> Prop) (roots : list root) (s0 : st) (H : list Z).
Context (Hok : heap_ok cls roots s0 H) (Hmem : memories_ok s0 H).
Abbreviation m0 := (ram s0).
Abbreviation inv := (gc_inv roots s0 H).
Abbreviation cell := (cell roots s0).
Abbreviation reach := (reach roots s0 H).
Abbreviation obj_cells := (obj_cells s0).
Abbreviation move := (@gc_common_move_reference A _).

(** the memory at [x] holds what determines the size of [o] *)
Record sized (s : st) (x o : Z) : Prop := {
  sz_magic : load32 (ram s) (x - 4) = MAGIC_OBJECT;
  sz_array : okind m0 o = OBJFLAGS_ARRAY -> load32 (ram s) (x + 8) = load32 m0 (o + 8);
  sz_object : okind m0 o = OBJFLAGS_OBJECT ->
    rd s x <> 0 /\ rd s (rd s x - 4) = cdesc m0 o /\ rd s (cdesc m0 o) = MAGIC_CLASSDESC /\
    instanceSize s (cdesc m0 o) = isize m0 o;
}.

Lemma owords_fits o : o ∈ H -> 0 <= owords m0 o < 4294967296.
Proof using Hok. intros Ho. destruct (wf_addr _ _ _ (hk_wf _ _ _ _ Hok o Ho)). pose proof (owords_pos m0 o). lia. Qed.

Lemma walk_object_sized hs s x o f : o ∈ H -> sized s x o -> Z.land f FLAGS_MASK = okind m0 o ->
  walk_object is_domainZero hs x f s = call_handler (handler_for hs (okind m0 o)) x (owords m0 o) f s.
Proof using Hok.
  intros Ho [Hm Ha Hc] Hf. pose proof (owords_fits o Ho) as Hw.
  assert (ASSERTOBJECT x s = Ok tt) as Has by (unfold ASSERTOBJECT, getObjMagic, rd; by rewrite Hm, orb_true_r).
  unfold walk_object. rewrite Hf. by_kind (wf_kind _ _ _ (hk_wf _ _ _ _ Hok o Ho)) E; rewrite E in *.
  2: { specialize (Ha eq_refl). simpl. unfold gc_objSize2. rewrite Has. cbn [rbind]. rewrite Hf. simpl (_ =? _). cbv iota. cbn [rbind].
       unfold rd. rewrite Ha. unfold owords in *. rewrite E in *. simpl in Hw |- *. by rewrite u32_small. }
  1: { destruct (Hc eq_refl) as (Hv & Hd & Hmc & Hi). unfold obj2ClassDesc, ASSERTCLASSDESC, getObjMagic, rd in *. simpl.
       rewrite Hm, (proj2 (Z.eqb_neq _ 0) Hv), Hd, ?Z.eqb_refl. cbn [negb andb rbind]. 
       rewrite Hmc, Z.eqb_refl. cbn [rbind assert_]. rewrite Hi. unfold owords in *. rewrite E in *. simpl in Hw |- *. by rewrite u32_small. }
  all: unfold owords; by rewrite E.
Qed.

Lemma copy_sized s P D o n : inv s P D -> (o, n) ∈ P -> sized s n o.
Proof using Hok.
  intros I Hin. pose proof (hk_wf _ _ _ _ Hok o (h_old (iv_sub I) Hin)) as W. split.
  - apply (iv_header I _ _ Hin).
  - intros E. apply (shape_array _ _ _ _ _ W (shape_copy Hok I Hin) E).
  - intros E. destruct (copy_instance _ _ _ _ Hok _ _ _ _ _ I Hin E) as (? & ? & ? & ? & _). done.
Qed.

Lemma old_word s P D o a : inv s P D -> o ∈ H -> o - 4 <= a -> a + 4 <= o - 8 + 4 * owords m0 o -> rd s a = load32 m0 a.
Proof. intros I Ho H1 H2. apply load32_ext. intros x Hx. apply (iv_from I o); [done|lia]. Qed.

Lemma old_sized s P D o : inv s P D -> o ∈ H -> sized s o o.
Proof using Hok.
  intros I Ho. pose proof (hk_wf _ _ _ _ Hok o Ho) as W. pose proof (owords_pos m0 o).
  assert (forall a, cls32 cls a -> rd s a = load32 m0 a) as Hc.
  { intros a Ha. apply load32_ext. intros x Hx. by apply (iv_class Hok I), Ha. }
  split.
  - rewrite <- (wf_magic _ _ _ W). eapply old_word; [done|done|lia|lia].
  - intros E. eapply old_word; [done|done|lia|]. unfold owords. rewrite E. simpl. unfold OBJSIZE_ARRAY_32BIT, XMOFF.
    pose proof (load32_range m0 (o + 8)). lia.
  - intros E. destruct (wf_body_at _ _ _ _ E (wf_class _ _ _ W)) as ((Hv & Hv4) & Hcc & Hm & Hi & _). cbv zeta in *.
    rewrite (old_word s P D o o) by (done || lia). split_and!; [done|by rewrite Hc|by rewrite Hc|unfold instanceSize; by rewrite Hc].
Qed.

(** ** The scan of the second semispace *)

Definition scanned (P : list (Z * Z)) (x : Z) : Prop :=
  x ∈ root_addr <$> roots \/ exists o n, (o, n) ∈ P /\ obj_cells o n x.

Lemma scan_object irqs o n f w s P D : inv s P D -> (o, n) ∈ P -> (forall x, obj_cells o n x -> ~ D x) ->
  exists s' P', call_handler (handler_for (scan_handlers irqs) (okind m0 o)) n w f s = Ok (w, s') /\
    inv s' P' (fun x => D x \/ obj_cells o n x) /\ P `prefix_of` P'.
Proof using Hok Hmem.
  intros I Hin Hd. pose proof (h_old (iv_sub I) Hin) as Ho.
  assert (forall g, walks roots s0 H (g n w f) o n ->
    exists s' P', call_handler (Some g) n w f s = Ok (w, s') /\ inv s' P' (fun x => D x \/ obj_cells o n x) /\ P `prefix_of` P') as Hwalk.
  { intros g Hg. destruct (Hg s P D I Hin Hd) as (s' & P' & E & Hr). exists s', P'. unfold call_handler. by rewrite E. }
  assert ((forall i, updated (field m0 o i) = false) ->
    exists s' P', call_handler None n w f s = Ok (w, s') /\ inv s' P' (fun x => D x \/ obj_cells o n x) /\ P `prefix_of` P') as Hnone.
  { intros Hu. exists s, P. split; [done|]. split; [|done]. eapply inv_ext; [|exact I]. intros x. split; [by left|].
    intros [?|(i & _ & Hi & _)]; [done|]. by rewrite Hu in Hi. }
  by_kind (wf_kind _ _ _ (hk_wf _ _ _ _ Hok o Ho)) E; rewrite E; simpl.
  - by apply Hwalk, walk_object_cells with (cls := cls).
  - by apply Hwalk, walk_array_cells with (cls := cls).
  - apply Hnone. intros i. unfold field. by rewrite E.
  - apply Hnone. intros i. unfold field. rewrite E. simpl. by destruct (16 <=? i).
  - by apply Hwalk, walk_service_cells with (cls := cls).
  - by apply Hwalk, walk_atomvar_cells with (cls := cls).
  - apply Hnone. intros i. unfold field. by rewrite E.
  - apply Hnone. intros i. unfold field. by rewrite E.
  - apply Hwalk. eapply walk_cpustate_cells; [exact Hok|exact Hmem|exact E|apply (hk_dep _ _ _ _ Hok)].
Qed.

(** the cells of an object that has not been scanned are pending *)
Lemma unscanned s P1 o n P2 D x : inv s (P1 ++ (o, n) :: P2) D -> obj_cells o n x -> ~ scanned P1 x.
Proof using Hok.
  intros I (i & Hi & Hf & ->) Hs. set (P := P1 ++ (o, n) :: P2) in *.
  assert ((o, n) ∈ P) as Hin by (apply elem_of_app; right; left).
  pose proof (cell_copy roots s0 P o n i Hin Hi) as C. destruct (iv_aligned _ _ _ _ Hok _ _ _ _ _ I Hin) as [_ Hn].
  destruct Hs as [(r & Er & Hr)%list_elem_of_fmap|(o' & n' & Hin' & i' & Hi' & _ & Ei)].
  - destruct (cell_apart Hok I C (cell_root roots s0 P r Hr)) as [(_ & _ & _ & ?)|?]; lia.
  - assert ((o', n') ∈ P) as Hin2 by (apply elem_of_app; by left).
    destruct (cell_apart Hok I C (cell_copy roots s0 P o' n' i' Hin2 Hi')) as [(_ & _ & _ & <-)|?]; [|lia].
    destruct (laid_bounds _ _ _ (iv_laid I)) as (_ & _ & Hinj). rewrite <- (Hinj _ _ _ Hin Hin2) in Hin'.
    pose proof (iv_nodup I) as Hnd. unfold P in Hnd. rewrite fmap_app, fmap_cons in Hnd. apply NoDup_app in Hnd as (_ & Hx & _).
    apply (Hx o); [by eapply in_fst|left].
Qed.

Lemma scan_loop irqs fuel : forall P1 P2 s, inv s (P1 ++ P2) (scanned P1) -> (length H < fuel + length P1)%nat ->
  exists s' P', gc_walkContinuesBlock is_domainZero fuel (scan_handlers irqs) (heap2 s0 + 4 * wsum m0 P1.*1) heapTop2 s = Ok s' /\
    inv s' P' (scanned P').
Proof using Hok Hmem.
  induction fuel as [|fuel IH]; intros P1 P2 s I Hfuel; destruct (iv_fields I) as (_ & _ & Et & _).
  all: pose proof (NoDup_submseteq _ _ (iv_nodup I) (iv_sub I)) as Hlen; apply submseteq_length in Hlen; rewrite length_fmap, length_app in Hlen.
  { destruct P2; simpl in *; lia. }
  destruct P2 as [|[o n] P2].
  - rewrite app_nil_r in *. exists s, P1. split; [|exact I]. cbn [gc_walkContinuesBlock]. rewrite Et, (proj2 (Z.ltb_ge _ _)) by lia. done.
  - set (P := P1 ++ (o, n) :: P2) in *. assert ((o, n) ∈ P) as Hin by (apply elem_of_app; right; left).
    pose proof (h_old (iv_sub I) Hin) as Ho. pose proof (owords_pos m0 o) as Hw.
    pose proof (iv_laid I) as HL. apply laid_app in HL as [_ [En _]].
    assert (wsum m0 P.*1 = wsum m0 P1.*1 + owords m0 o + wsum m0 P2.*1) as Ew.
    { unfold P. rewrite fmap_app, wsum_app, wsum_olds. lia. }
    pose proof (wsum_nonneg m0 P2.*1). pose proof (wsum_nonneg m0 P1.*1).
    pose proof (h_room Hok P (iv_nodup I) (iv_sub I)) as Hroom. destruct (hk_geo _ _ _ _ Hok) as [_ G2 _ _ _ _].
    cbn [gc_walkContinuesBlock]. rewrite Et, (proj2 (Z.ltb_lt _ _)) by lia. cbn [negb].
    replace (ptr2ObjectDesc (heap2 s0 + 4 * wsum m0 P1.*1)) with n by (unfold ptr2ObjectDesc, XMOFF; lia).
    destruct (kind_flags _ (wf_kind _ _ _ (hk_wf _ _ _ _ Hok o Ho))) as [Hf1 Hf2].
    assert (walk_flags n s = okind m0 o) as Efl.
    { unfold walk_flags, getObjFlags, rd. rewrite (proj1 (iv_header I _ _ Hin)). by rewrite (proj2 (Z.eqb_neq _ _) Hf1). }
    rewrite Efl, (walk_object_sized _ _ _ o) by (done || by eapply copy_sized).
    destruct (scan_object irqs o n (okind m0 o) (owords m0 o) s P (scanned P1) I Hin) as (s1 & P' & E1 & I1 & Hp).
    { intros x Hx. by eapply unscanned. }
    rewrite E1. cbn [rbind]. rewrite u32_small by lia. destruct Hp as [Q ->].
    destruct (IH (P1 ++ [(o, n)]) (P2 ++ Q) s1) as (s2 & P2' & E2 & I2).
    + replace ((P1 ++ [(o, n)]) ++ P2 ++ Q) with (P ++ Q) by (unfold P; by rewrite <- !app_assoc).
      eapply inv_ext; [|exact I1]. intros x. unfold scanned. cbv beta. split.
      * intros [[?|(o' & n' & ? & ?)]|?]; [by left|right; exists o', n'|right; exists o, n]; (split; [|done]); apply elem_of_app; [by left|right; left].
      * intros [?|(o' & n' & [?|Hl%list_elem_of_singleton]%elem_of_app & ?)]; [by left; left|left; right; by exists o', n'|].
        injection Hl as -> ->. by right.
    + rewrite length_app. simpl. lia.
    + exists s2, P2'. split; [|exact I2]. rewrite <- E2. f_equal. rewrite fmap_app, wsum_app. simpl. rewrite wsum_cons.
      unfold wsum at 3. simpl. lia.
Qed.

(** ** Copying everything that is reachable *)

Lemma inv_start : inv s0 [] (fun _ => False).
Proof using Hok.
  destruct (hk_geo _ _ _ _ Hok) as [_ _ _ _ _ Ge].
  assert (forall s : st, heapTop2 s = heap2 s -> s = set_ram (ram s) (set_heapTop2 (heap2 s + 4 * 0) s)) as Hs.
  { intros [] Hx. cbn in *. unfold set_ram, set_heapTop2. cbn. by rewrite Z.add_0_r, <- Hx. }
  split.
  - by apply Hs.
  - constructor.
  - by intros ? ?%elem_of_nil.
  - exact I.
  - by intros.
  - by intros.
  - by intros ? ? ?%elem_of_nil.
  - intros a k v n [r Hr|o n' i Hin Hi]; [|by apply elem_of_nil in Hin].
    by destruct (root_kind r).
  - by intros.
  - by intros.
  - by intros.
  - by intros ? ?%elem_of_nil.
Qed.

Lemma copy_all fuel irqs : (length H < fuel)%nat ->
  exists s P, (let! s := walkRootSet move roots s0 in gc_new_walkHeap2 is_domainZero fuel (scan_handlers irqs) s) = Ok s /\
    inv s P (scanned P).
Proof using Hok Hmem.
  intros Hf. destruct (walkRootSet_finishes _ _ _ _ Hok Hmem roots s0 [] (fun _ => False) inv_start) as (s1 & P1 & E1 & I1 & _);
    [intros ? Hr; exact Hr|apply (hk_distinct _ _ _ _ Hok)|intros ? _ []|]. rewrite E1. cbn [rbind].
  destruct (scan_loop irqs fuel [] P1 s1) as (s2 & P & E2 & I2).
  - eapply inv_ext; [|exact I1]. intros x. unfold scanned. cbv beta. split.
    + intros [[]|?]. by left.
    + intros [?|(o & n & Hin & _)]; [by right|by apply elem_of_nil in Hin].
  - simpl. lia.
  - exists s2, P. split; [|exact I2]. unfold gc_new_walkHeap2. rewrite <- E2. f_equal.
    rewrite (iv_state I1). simpl. change (wsum m0 []) with 0. lia.
Qed.

(** everything reachable has been copied *)
Lemma copied_reach s P o : inv s P (scanned P) -> o ∈ P.*1 <-> reach o.
Proof.
  intros I. split; [apply (iv_reach I)|]. induction 1 as [r o Hr Hp Ho|o i o' _ IH Hi Hp Ho'].
  - eapply (iv_done I); [by apply cell_root| |exact Hp|exact Ho]. left. by apply list_elem_of_fmap_2.
  - apply list_elem_of_fmap in IH as ([x n] & Ex & Hin). simpl in Ex. subst x.
    eapply (iv_done I); [by apply cell_copy| |exact Hp|exact Ho']. right. exists o, n. split; [done|]. exists i. split; [done|].
    split; [|done]. by destruct (field m0 o i).
Qed.

(** ** Finalisers *)

(** [f] on the objects [l] in turn *)
Fixpoint each (f : Z -> A -> res A) (l : list Z) (x : A) : res A :=
  match l with
  | [] => Ok x
  | o :: l => let! x := f o x in each f l x
  end.

Section Finalise.
Context (s : st) (P : list (Z * Z)) (D : Z -> Prop) (I : inv s P D).
Context (hs : @handlers A) (f : Z -> A -> res A).
(** the handlers act on the other components like [f] *)
Context (Hf : forall o x, o ∈ H ->
  call_handler (handler_for hs (okind m0 o)) o (owords m0 o) (walk_flags o (set_services x s)) (set_services x s) =
  let! x := f o x in Ok (owords m0 o, set_services x s)).

Lemma old_flags o x : o ∈ H ->
  walk_flags o (set_services x s) = if bool_decide (o ∈ P.*1) then Z.lor (okind m0 o) GC_FORWARD else okind m0 o.
Proof using Hok I.
  intros Ho. unfold walk_flags, getObjFlags, rd. cbn [ram set_services]. rewrite (iv_flags I o Ho).
  destruct (fwd P o) as [n|] eqn:Ef.
  - apply fwd_Some in Ef as Hin; [|apply (iv_nodup I)]. rewrite bool_decide_eq_true_2 by (by eapply in_fst).
    destruct (iv_aligned _ _ _ _ Hok _ _ _ _ _ I Hin) as [Ha Hr]. rewrite (forward_flag n Ha), Z.eqb_refl, (forward_ptr n Ha) by lia.
    by rewrite (proj1 (iv_header I _ _ Hin)).
  - apply fwd_None in Ef. rewrite bool_decide_eq_false_2 by done.
    destruct (kind_flags _ (wf_kind _ _ _ (hk_wf _ _ _ _ Hok o Ho))) as [Hf1 _]. by rewrite (proj2 (Z.eqb_neq _ _) Hf1).
Qed.

Lemma lor_forward k : k ∈ kinds -> Z.land (Z.lor k GC_FORWARD) FLAGS_MASK = k /\ Z.land (Z.lor k GC_FORWARD) FORWARD_MASK = GC_FORWARD.
Proof. intros Hk. by_kind Hk E; subst; by vm_compute. Qed.

Lemma old_flags_kind o x : o ∈ H -> Z.land (walk_flags o (set_services x s)) FLAGS_MASK = okind m0 o.
Proof using Hok I.
  intros Ho. rewrite old_flags by done. pose proof (wf_kind _ _ _ (hk_wf _ _ _ _ Hok o Ho)) as Hk.
  case_bool_decide; [by apply lor_forward|by apply kind_flags].
Qed.

Lemma finalise_loop fuel : forall l a x, l ⊆ H -> blocks m0 a l (heapTop s0) -> heap s0 <= a -> (length l <= fuel)%nat ->
  gc_walkContinuesBlock is_domainZero fuel hs a heapTop (set_services x s) = let! x := each f l x in Ok (set_services x s).
Proof using Hok I Hf.
  induction fuel as [|fuel IH]; intros l a x Hl HB Ha Hfuel; cbn [gc_walkContinuesBlock];
    change (heapTop (set_services x s)) with (heapTop s); destruct (iv_fields I) as (_ & -> & _).
  all: destruct l as [|o l]; cbn [blocks each rbind] in *.
  - subst a. by rewrite Z.ltb_irrefl.
  - simpl in Hfuel. lia.
  - subst a. by rewrite Z.ltb_irrefl.
  - destruct HB as [-> HB]. assert (a + 8 ∈ H) as Ho by (apply Hl; left). destruct (h_block Hok _ Ho) as [Hb1 Hb2].
    pose proof (owords_pos m0 (a + 8)). destruct (hk_geo _ _ _ _ Hok) as [G1 _ _ G4 _ _].
    rewrite (proj2 (Z.ltb_lt _ _)) by lia. cbn [negb]. change (ptr2ObjectDesc a) with (a + 8).
    rewrite (walk_object_sized _ _ _ (a + 8)); [|done| |by apply old_flags_kind].
    2: { destruct (old_sized _ _ _ _ I Ho) as [S1 S2 S3]. by split. }
    rewrite Hf by done. destruct (f (a + 8) x) as [y|e]; [|done]. cbn [rbind]. rewrite u32_small by lia.
    apply IH; [intros z Hz; apply Hl; by right|done|lia|simpl in Hfuel; lia].
Qed.

Lemma finalise_heap fuel x : (length H <= fuel)%nat ->
  gc_new_walkHeap is_domainZero fuel hs (set_services x s) = let! x := each f H x in Ok (set_services x s).
Proof using Hok I Hf.
  intros Hl. unfold gc_new_walkHeap. destruct (iv_fields I) as (E & _). change (heap (set_services x s)) with (heap s). rewrite E.
  apply finalise_loop; [done|apply (hk_blocks _ _ _ _ Hok)|lia|done].
Qed.
End Finalise.

(** an object that is not among [live] is finalised *)
Definition memory_finaliser (live : list Z) (o : Z) (x : A) : res A :=
  if (okind m0 o =? OBJFLAGS_MEMORY) && negb (bool_decide (o ∈ live)) then memory_deleted_dz (load32 m0 (o + 12)) x else Ok x.
Definition portal_finaliser (live : list Z) (o : Z) (x : A) : res A :=
  let target := load32 m0 (o + 4) in
  if (okind m0 o =? OBJFLAGS_PORTAL) && negb (bool_decide (o ∈ live))
     && (negb (target =? 0) && (domain_id target x =? load32 m0 (o + 8)) && negb (target =? domain))
  then service_decRefcount target (load32 m0 (o + 12)) x else Ok x.

Lemma finalizeMemory_each s P D fuel x : inv s P D -> (length H <= fuel)%nat ->
  gc_new_finalizeMemory is_domainZero fuel (set_services x s) =
  let! x := each (memory_finaliser P.*1) H x in Ok (set_services x s).
Proof using Hok.
  intros I Hl. unfold gc_new_finalizeMemory. eapply finalise_heap; [exact I| |exact Hl]. clear x Hl. intros o x Ho.
  rewrite (old_flags _ _ _ I) by done. pose proof (wf_kind _ _ _ (hk_wf _ _ _ _ Hok o Ho)) as Hk. unfold memory_finaliser.
  destruct (Z.eqb_spec (okind m0 o) OBJFLAGS_MEMORY) as [E|E].
  2: { by_kind Hk E'; rewrite E' in *; done. }
  rewrite E. change (handler_for _ _) with (Some (@gc_new_finalizeMemoryCB A _)). cbn [call_handler]. unfold gc_new_finalizeMemoryCB. case_bool_decide as Hd; [done|].
  change (Z.land OBJFLAGS_MEMORY FORWARD_MASK =? GC_FORWARD) with false. cbv iota. cbn [andb negb].
  assert (owords m0 o = 8) as Ew by (unfold owords; by rewrite E).
  assert (ASSERTMEMORY o (set_services x s) = Ok tt) as ->.
  { unfold ASSERTMEMORY, ASSERTOBJECT, getObjMagic, assert_memory, getObjFlags, rd. cbn [ram set_services].
    rewrite (iv_flags I o Ho). apply fwd_None in Hd. rewrite Hd, E.
    assert (load32 (ram s) (o - 4) = MAGIC_OBJECT) as ->; [|by rewrite Z.eqb_refl, orb_true_r].
    rewrite <- (wf_magic _ _ _ (hk_wf _ _ _ _ Hok o Ho)). eapply old_word; [exact I|exact Ho|lia|lia]. }
  cbn [rbind]. change (rd (set_services x s) (o + 12)) with (rd s (o + 12)).
  rewrite (old_word s P D o (o + 12)) by (done || lia). change (services (set_services x s)) with x.
  by destruct (memory_deleted_dz _ x).
Qed.

Lemma finalizePortals_each s P D fuel x : inv s P D -> (length H <= fuel)%nat ->
  gc_new_finalizePortals domain is_domainZero fuel (set_services x s) =
  let! x := each (portal_finaliser P.*1) H x in Ok (set_services x s).
Proof using Hok.
  intros I Hl. unfold gc_new_finalizePortals. eapply finalise_heap; [exact I| |exact Hl]. clear x Hl. intros o x Ho.
  rewrite (old_flags _ _ _ I) by done. pose proof (wf_kind _ _ _ (hk_wf _ _ _ _ Hok o Ho)) as Hk. unfold portal_finaliser.
  destruct (Z.eqb_spec (okind m0 o) OBJFLAGS_PORTAL) as [E|E].
  2: { by_kind Hk E'; rewrite E' in *; done. }
  rewrite E. change (handler_for _ _) with (Some (@gc_new_finalizePortalsCB A _ domain)). cbn [call_handler]. unfold gc_new_finalizePortalsCB. case_bool_decide as Hd; [done|].
  change (Z.land OBJFLAGS_PORTAL FORWARD_MASK =? GC_FORWARD) with false. cbv iota zeta. cbn [andb negb].
  assert (owords m0 o = 6) as Ew by (unfold owords; by rewrite E).
  change (rd (set_services x s)) with (rd s). change (services (set_services x s)) with x.
  rewrite (old_word s P D o (o + 4)), (old_word s P D o (o + 8)), (old_word s P D o (o + 12)) by (done || lia).
  destruct (_ && _ && _); [|done]. by destruct (service_decRefcount _ _ x).
Qed.

(** ** The heap after a collection *)

Section After.
Context (s : st) (P : list (Z * Z)) (I : inv s P (scanned P)).

(** every cell holds its final value *)
Lemma final_word a k v n : cell P a k v n -> word_at P True k v n (load32 (ram s) a).
Proof using I.
  intros C. pose proof (iv_cells I _ _ _ _ C) as Hw. assert (updated k = true -> scanned P a) as Hs.
  { intros Hu. destruct C as [r Hr|o n i Hin Hi]; [left; by apply list_elem_of_fmap_2|right].
    exists o, n. split; [done|]. by exists i. }
  destruct k; try done; (split; [intros _; apply Hw, Hs; reflexivity|by intros []]).
Qed.

Lemma final_target a k v n : cell P a k v n -> moved_target H P k v.
Proof using I.
  intros C o Hp Ho. eapply (iv_done I); [exact C| |exact Hp|exact Ho].
  destruct C as [r Hr|o' n i Hin Hi]; [left; by apply list_elem_of_fmap_2|right].
  exists o', n. split; [done|]. exists i. split; [done|]. split; [|done]. by destruct (field m0 o' i).
Qed.

Lemma in_copies o n : (o, n) ∈ P -> n ∈ P.*2.
Proof. intros Hin. by apply (list_elem_of_fmap_2' snd P (o, n)). Qed.
Lemma trans_moved v : v ∈ P.*1 -> (v, trans P v) ∈ P.
Proof using I.
  intros (x & -> & Hin)%list_elem_of_fmap. destruct x as [v n]. simpl in *. unfold trans.
  by rewrite (proj2 (fwd_Some _ _ _ (iv_nodup I)) Hin).
Qed.

Lemma new_ref k v n : ref_ok cls m0 H k v -> moved_target H P k v -> ref_ok cls (ram s) P.*2 k (new_word P k v n).
Proof using Hok I.
  intros Hr Ht. destruct k; simpl in *; try done.
  - destruct (decide (v ∈ H)) as [Hv|Hv].
    + right; left. eapply in_copies, trans_moved, Ht; done.
    + unfold trans. rewrite fwd_none_outside with (H := H) by (done || apply (iv_sub I)). simpl.
      destruct Hr as [?|[?|[Hc Hk]]]; [by left|done|right; right]. split; [done|].
      replace (load32 (ram s) (v - 8)) with (load32 m0 (v - 8)); [done|]. symmetry. apply load32_ext.
      intros x Hx. by apply (iv_class Hok I), Hc.
  - unfold transT. destruct (Z.eqb_spec v 0) as [->|Hne]; [by left|right]. destruct Hr as [|[Hv Ek]]; [done|].
    assert ((v - 4, trans P (v - 4)) ∈ P) as Hin by (apply trans_moved, Ht; [simpl; lia|done]).
    replace (trans P (v - 4) + 4 - 4) with (trans P (v - 4)) by lia. split; [by eapply in_copies|].
    rewrite <- Ek. apply (iv_header I _ _ Hin).
Qed.

Lemma blocks_laid (Q : list (Z * Z)) a : (forall o n, (o, n) ∈ Q -> owords (ram s) n = owords m0 o) -> laid m0 a Q ->
  blocks (ram s) a Q.*2 (a + 4 * wsum m0 Q.*1).
Proof.
  revert a. induction Q as [|[o n] Q IH]; intros a Hw; cbn [laid].
  - intros _. change (wsum m0 [].*1) with 0. simpl. lia.
  - intros [-> HL]. rewrite wsum_olds. simpl. split; [done|]. rewrite (Hw o (a + 8)) by left.
    replace (a + 4 * (owords m0 o + wsum m0 Q.*1)) with (a + 4 * owords m0 o + 4 * wsum m0 Q.*1) by lia.
    apply IH; [|done]. intros o' n' Hin. apply Hw. by right.
Qed.

Lemma copy_shape o n : (o, n) ∈ P -> wf_obj cls (ram s) n /\ okind (ram s) n = okind m0 o /\ owords (ram s) n = owords m0 o /\
  (forall i, field (ram s) n i = field m0 o i).
Proof using Hok I.
  intros Hin. pose proof (h_old (iv_sub I) Hin) as Ho. pose proof (hk_wf _ _ _ _ Hok o Ho) as W.
  pose proof (shape_copy Hok I Hin) as Hs. destruct (iv_aligned _ _ _ _ Hok _ _ _ _ _ I Hin) as [Ha Hr].
  destruct (hk_geo _ _ _ _ Hok) as [_ G2 _ _ _ _]. pose proof (h_copy I Hin). pose proof (h_room Hok P (iv_nodup I) (iv_sub I)).
  split_and!; [|apply Hs|by eapply shape_words|by eapply shape_field].
  apply (shape_wf _ _ _ _ _ W Hs); [apply (iv_header I _ _ Hin)|lia|done|lia].
Qed.

Lemma body_of_copy o n i : (o, n) ∈ P -> in_body (ram s) n i -> in_body m0 o i.
Proof using Hok I. intros Hin. unfold in_body. by destruct (copy_shape o n Hin) as (_ & _ & -> & _). Qed.

Lemma word_ref a k v n : cell P a k v n -> ref_ok cls (ram s) P.*2 k (load32 (ram s) a).
Proof using Hok I.
  intros C. pose proof (final_word _ _ _ _ C) as Hw. pose proof (new_ref k v n (cell_ref Hok I C) (final_target _ _ _ _ C)) as Hr.
  destruct k; try done; destruct Hw as [Hw _]; by rewrite Hw.
Qed.

Lemma dep_after o n : (o, n) ∈ P -> dep_ok (ram s) P.*2 n.
Proof using Hok I.
  intros Hin Ek. destruct (copy_shape o n Hin) as (_ & Ek' & _ & Ef). rewrite Ek' in Ek.
  destruct (hk_dep _ _ _ _ Hok o (h_old (iv_sub I) Hin) Ek) as [Hv|[Hv Es]]; cbv zeta.
  all: assert (field m0 o (4 + t_processingDEP) = FRef) as Hf by (unfold field; by rewrite Ek).
  all: pose proof (thread_field roots s0 o n Ek t_processingDEP _ ltac:(done) Hf P Hin) as C.
  all: destruct (final_word _ _ _ _ C) as [Hw _]; rewrite Hw by done; simpl.
  - left. rewrite Hv. unfold trans. rewrite fwd_none_outside with (H := H); [done|apply (iv_sub I)|].
    intros Hz%(h_large _ _ _ _ Hok). lia.
  - right. pose proof (trans_moved _ (final_target _ _ _ _ C _ eq_refl Hv)) as Ht. split; [by eapply in_copies|].
    rewrite <- Es. apply (iv_header I _ _ Ht).
Qed.

Lemma heap_ok_after x : heap_ok cls roots (swap_heaps (set_services x s)) P.*2.
Proof using Hok I.
  pose proof (h_room Hok P (iv_nodup I) (iv_sub I)) as Hroom. pose proof (wsum_nonneg m0 P.*1) as Hw0.
  pose proof (wsum_sub m0 _ _ (iv_nodup I) (iv_sub I)) as Hws. pose proof (h_total _ _ _ _ Hok) as Htot.
  destruct (hk_geo _ _ _ _ Hok) as [G1 G2 G3 G4 G5 G6].
  assert (forall n, n ∈ P.*2 -> exists o, (o, n) ∈ P) as Hold.
  { intros n (p & -> & Hp)%list_elem_of_fmap. exists p.1. by destruct p. }
  assert (forall (Q : st -> Prop), Q (MkGC (ram s) (heap2 s0) (heapBorder2 s0) (heap2 s0 + 4 * wsum m0 P.*1) (heapSize s0)
    (heap s0) (heapBorder s0) (heap s0) x) -> Q (swap_heaps (set_services x s))) as Hstate.
  { intros Q HQ. rewrite (iv_state I). exact HQ. }
  apply Hstate. split.
  - split; cbn; lia.
  - apply blocks_laid; [|apply (iv_laid I)]. intros o n Hin. apply (copy_shape o n Hin).
  - intros n (o & Hin)%Hold. apply (copy_shape o n Hin).
  - intros n (o & Hin)%Hold. by apply (dep_after o).
  - intros n i (o & Hin)%Hold Hi. cbn [ram] in *. pose proof (body_of_copy o n i Hin Hi) as Hb.
    destruct (copy_shape o n Hin) as (_ & _ & _ & ->). eapply word_ref. by apply cell_copy.
  - intros r Hr. cbn [ram]. eapply word_ref. by apply cell_root.
  - intros a Ha%(hk_cls _ _ _ _ Hok). unfold elsewhere in *. cbn. tauto.
  - intros r y Hr Hy. destruct (hk_cells _ _ _ _ Hok r y Hr Hy). unfold elsewhere in *. cbn. tauto.
  - apply (hk_distinct _ _ _ _ Hok).
Qed.
End After.
End Collect.

(** ** What a collection promises *)

(** [s'] is the heap [s] with exactly the reachable objects, moved as [P] says. *)
Record collected {A} `{!GCServices A} (roots : list root) (s : gc_state A) (H : list Z) (P : list (Z * Z)) (s' : gc_state A) : Prop := {
  co_live : forall o, o ∈ P.*1 <-> reach roots s H o;
  co_once : NoDup P.*1 /\ NoDup P.*2;
  co_object : forall o n, (o, n) ∈ P -> okind (ram s') n = okind (ram s) o /\ owords (ram s') n = owords (ram s) o;
  co_words : forall o n i, (o, n) ∈ P -> in_body (ram s) o i ->
    word_at P True (field (ram s) o i) (load32 (ram s) (o + i)) n (load32 (ram s') (n + i));
  co_roots : forall r, r ∈ roots ->
    load32 (ram s') (root_addr r) = new_word P (root_kind r) (load32 (ram s) (root_addr r)) 0;
  co_elsewhere : forall a, elsewhere s a -> (forall r, r ∈ roots -> ~ root_addr r <= a < root_addr r + 4) ->
    load8 (ram s') a = load8 (ram s) a;
  co_space : heap s' = heap2 s /\ heapBorder s' = heapBorder2 s /\ heapTop s' = heap2 s + 4 * wsum (ram s) P.*1 /\
    heap2 s' = heap s /\ heapBorder2 s' = heapBorder s /\ heapTop2 s' = heap s;
}.

Section Promise.
Context {A : Type} `{!GCServices A}.
Abbreviation st := (gc_state A).
Context (domain : Z) (is_domainZero : bool) (irqs : list Z).
Context (cls : Z -> Prop) (roots : list root) (s : st) (H : list Z).
Context (Hok : heap_ok cls roots s H) (Hmem : memories_ok s H).

Lemma collected_after s1 P x : gc_inv roots s H s1 P (scanned roots s P) -> collected roots s H P (swap_heaps (set_services x s1)).
Proof using Hok.
  intros I. split.
  - intros o. by apply (copied_reach _ _ _ s1).
  - split; [apply (iv_nodup I)|]. pose proof (blocks_bounds _ _ _ _ (hk_blocks _ _ _ _ (heap_ok_after _ _ _ _ Hok _ _ I x))). tauto.
  - intros o n Hin. cbn. destruct (copy_shape _ _ _ _ Hok _ _ I o n Hin) as (_ & ? & ? & _). done.
  - intros o n i Hin Hi. cbn. by apply (final_word _ _ _ _ _ I), cell_copy.
  - intros r Hr. cbn. pose proof (final_word _ _ _ _ _ I _ _ _ _ (cell_root roots s P r Hr)) as Hw.
    destruct (root_kind r) eqn:E; try (by destruct r); by apply Hw.
  - intros a Ha Hr. cbn. by apply (iv_out I).
  - rewrite (iv_state I). cbn. split_and!; done.
Qed.

Lemma gc_new_gc_run fuel : (length H < fuel)%nat ->
  exists s1 P, gc_inv roots s H s1 P (scanned roots s P) /\
    gc_new_gc domain is_domainZero fuel irqs roots s =
      let! x := each (memory_finaliser s P.*1) H (services s) in
      let! x := each (portal_finaliser domain s P.*1) H x in Ok (swap_heaps (set_services x s1)).
Proof using Hok Hmem.
  intros Hf. destruct (copy_all is_domainZero _ _ _ _ Hok Hmem fuel irqs Hf) as (s1 & P & E & I). exists s1, P. split; [exact I|].
  unfold gc_new_gc. destruct (walkRootSet _ roots s) as [s2|e]; [|done]. cbn [rbind] in *. rewrite E. cbn [rbind].
  assert (forall t : st, set_services (services t) t = t) as Hset by (by intros []).
  replace s1 with (set_services (services s) s1) at 1.
  2: { rewrite <- (Hset s1) at 2. f_equal. symmetry. apply (iv_fields I). }
  erewrite finalizeMemory_each by (exact Hok || exact I || lia).
  destruct (each (memory_finaliser s P.*1) H (services s)) as [x|e]; [|done]. cbn [rbind].
  erewrite finalizePortals_each by (exact Hok || exact I || lia).
  by destruct (each (portal_finaliser domain s P.*1) H x).
Qed.

(** C1 A collection ends, and leaves exactly the objects that the roots reach:
    each is copied once, word by word, with its references, and those of the
    roots, redirected to the copies; memory outside the two semispaces is
    untouched; the memory objects and portals that died, and no others, are
    finalised, in heap order, and only a failing finaliser makes it fail. *)
Theorem gc_new_gc_correct fuel : (length H < fuel)%nat ->
  exists s' P, collected roots s H P s' /\
    gc_new_gc domain is_domainZero fuel irqs roots s =
      let! x := each (memory_finaliser s P.*1) H (services s) in
      let! x := each (portal_finaliser domain s P.*1) H x in Ok (set_services x s').
Proof using Hok Hmem.
  intros Hf. destruct (gc_new_gc_run fuel Hf) as (s1 & P & I & E).
  exists (swap_heaps (set_services (services s) s1)), P. split; [by apply collected_after|exact E].
Qed.

(** C2 The heap after a collection is again in order, ready for the next
    collection, and its objects need no more room than before. *)
Theorem gc_new_gc_keeps_heap_ok fuel s' : (length H < fuel)%nat ->
  gc_new_gc domain is_domainZero fuel irqs roots s = Ok s' ->
  exists P, collected roots s H P s' /\ heap_ok cls roots s' P.*2 /\ heapTop s' - heap s' <= heapTop s - heap s.
Proof using Hok Hmem.
  intros Hf E'. destruct (gc_new_gc_run fuel Hf) as (s1 & P & I & E). rewrite E in E'. res_inv E'. injection E' as <-.
  exists P. split; [by apply collected_after|]. split; [by eapply heap_ok_after|].
  pose proof (wsum_sub (ram s) _ _ (iv_nodup I) (iv_sub I)). pose proof (h_total _ _ _ _ Hok).
  rewrite (iv_state I). cbn. lia.
Qed.

(** Garbage is reclaimed: after a collection the free words are those of
    the new semispace less the words of the reachable objects. *)
Theorem gc_new_gc_frees fuel s' : (length H < fuel)%nat ->
  gc_new_gc domain is_domainZero fuel irqs roots s = Ok s' ->
  exists P, collected roots s H P s' /\
    gc_new_freeWords s' = (heapBorder2 s - heap2 s) / 4 - wsum (ram s) P.*1.
Proof using Hok Hmem.
  intros Hf E'. destruct (gc_new_gc_run fuel Hf) as (s1 & P & I & E). rewrite E in E'. res_inv E'. injection E' as <-.
  exists P. split; [by apply collected_after|].
  pose proof (h_room Hok P (iv_nodup I) (iv_sub I)). pose proof (wsum_nonneg (ram s) P.*1).
  destruct (hk_geo _ _ _ _ Hok) as [_ G2 _ _ _ _]. unfold gc_new_freeWords. rewrite (iv_state I). cbn.
  rewrite u32_small; Z.div_mod_to_equations; lia.
Qed.
End Promise.

(** ** A small heap

    An atomic variable that refers to a CAS, both reachable, and between them
    a memory object that is not. *)

#[local] Instance example_services : GCServices (list Z) := {
  dz_refcount_at _ _ := Ok 1;
  memory_deleted_dz dz l := Ok (dz :: l);
  domain_id _ _ := 0;
  service_decRefcount _ _ l := Ok l;
}.

Definition example_words : list (Z * Z) :=
  [(0x10000, OBJFLAGS_ATOMVAR); (0x10004, MAGIC_OBJECT); (0x10008, 0x8010); (0x1000c, 0x10040);
   (0x10018, OBJFLAGS_MEMORY); (0x1001c, MAGIC_OBJECT); (0x10020, 0x8010); (0x10024, 64); (0x1002c, 0x9000);
   (0x10038, OBJFLAGS_CAS); (0x1003c, MAGIC_OBJECT); (0x10040, 0x8010); (0x10044, 8);
   (0x800c, 0x8020); (0x5000, 0x10008)].
Definition example_heap : gc_state (list Z) :=
  MkGC (foldr (fun p m => store32 m p.1 p.2) (fun _ => 0) example_words)
    0x10000 0x10400 0x10048 0x800 0x20000 0x20400 0x20000 [].
Definition example_roots : list root := [RRef 0x5000; RTcb 0x5004].
Definition example_objects : list Z := [0x10008; 0x10020; 0x10040].
Definition example_class (a : Z) : Prop := 0x8000 <= a < 0x8100.

Lemma example_ok : heap_ok example_class example_roots example_heap example_objects.
Proof.
  assert (forall o, o ∈ example_objects -> o = 0x10008 \/ o = 0x10020 \/ o = 0x10040) as Hcases.
  { unfold example_objects. intros o Ho. rewrite !elem_of_cons, elem_of_nil in Ho. tauto. }
  assert (forall r, r ∈ example_roots -> r = RRef 0x5000 \/ r = RTcb 0x5004) as Hroots.
  { unfold example_roots. intros r Hr. rewrite !elem_of_cons, elem_of_nil in Hr. tauto. }
  split.
  - split; vm_compute; repeat split; try done; by left.
  - by vm_compute.
  - intros o [->|[->| ->]]%Hcases; (split; [apply (bool_decide_unpack _); by vm_compute|by vm_compute|by vm_compute|]).
    + exact I.
    + change (has_class example_class (ram example_heap) 0x10020 /\ load32 (ram example_heap) (0x10020 + 12) <> 0).
      assert (load32 (ram example_heap) 0x10020 = 0x8010) as Hv by (by vm_compute).
      split; [|by vm_compute]. unfold has_class. rewrite Hv. split; [done|]. intros y Hy. unfold example_class. lia.
    + exact I.
  - intros o [->|[->| ->]]%Hcases; by vm_compute.
  - intros o i [->|[->| ->]]%Hcases [Hi Hi4].
    + assert (4 * owords (ram example_heap) 0x10008 - 8 = 16) as Hw by (by vm_compute). rewrite Hw in Hi.
      assert (i = 0 \/ i = 4 \/ i = 8 \/ i = 12) as [->|[->|[->| ->]]]; [Z.div_mod_to_equations; lia|..].
      * exact I.
      * right; left. apply (bool_decide_unpack _). by vm_compute.
      * by left.
      * exact I.
    + assert (field (ram example_heap) 0x10020 i = FRaw \/ field (ram example_heap) 0x10020 i = FJunk) as [-> | ->]; [|exact I..].
      unfold field. change (okind (ram example_heap) 0x10020) with OBJFLAGS_MEMORY. simpl. destruct (16 <=? i); tauto.
    + assert (field (ram example_heap) 0x10040 i = FRaw) as ->; [|exact I].
      unfold field. by change (okind (ram example_heap) 0x10040) with OBJFLAGS_CAS.
  - intros r [->| ->]%Hroots.
    + right; left. apply (bool_decide_unpack _). by vm_compute.
    + by left.
  - unfold example_class, elsewhere. cbn. lia.
  - unfold example_class, elsewhere. intros r x [->| ->]%Hroots; cbn; lia.
  - split; [apply (bool_decide_unpack _); by vm_compute|]. intros r r' [->| ->]%Hroots [->| ->]%Hroots; cbn; lia.
Qed.

Lemma example_memories : memories_ok example_heap example_objects.
Proof. intros o _ _. by exists 1. Qed.

Lemma gc_new_gc_correct_witness :
  exists s' P, collected example_roots example_heap example_objects P s' /\
    gc_new_gc 1 false 4 [] example_roots example_heap =
      let! x := each (memory_finaliser example_heap P.*1) example_objects [] in
      let! x := each (portal_finaliser 1 example_heap P.*1) example_objects x in Ok (set_services x s').
Proof.
  apply (gc_new_gc_correct 1 false [] example_class example_roots example_heap example_objects example_ok example_memories 4).
  simpl. lia.
Defined.

(** the memory object of the example is finalised *)
Definition example_result : gc_state (list Z) :=
  match gc_new_gc 1 false 4 [] example_roots example_heap with Ok s => s | Err _ => example_heap end.
Lemma example_runs : gc_new_gc 1 false 4 [] example_roots example_heap = Ok example_result.
Proof.
  assert (match gc_new_gc 1 false 4 [] example_roots example_heap with Ok _ => True | Err _ => False end) as HO by (by vm_compute).
  unfold example_result. by destruct (gc_new_gc 1 false 4 [] example_roots example_heap).
Qed.
Example example_finalised : services example_result = [0x9000] /\ heapTop example_result = 0x20028.
Proof. by vm_compute. Qed.

Lemma gc_new_gc_keeps_heap_ok_witness :
  exists P, collected example_roots example_heap example_objects P example_result /\
    heap_ok example_class example_roots example_result P.*2 /\ heapTop example_result - heap example_result <= 0x48.
Proof.
  apply (gc_new_gc_keeps_heap_ok 1 false [] example_class example_roots example_heap example_objects example_ok example_memories 4).
  - simpl. lia.
  - exact example_runs.
Defined.

Lemma gc_new_gc_frees_witness :
  exists P, collected example_roots example_heap example_objects P example_result /\
    gc_new_freeWords example_result = 256 - wsum (ram example_heap) P.*1.
Proof.
  apply (gc_new_gc_frees 1 false [] example_class example_roots example_heap example_objects example_ok example_memories 4).
  - simpl. lia.
  - exact example_runs.
Defined.
