(* ===== verification/GCAlloc.v ===== *)
(** * Allocation in a collected heap (Memory/gc_new.c, gc_alloc.c, gc.c)

    [gc_new_allocDataInDomain] takes the next words of the semispace, clears
    them and sets the header; when the reserve would be touched it starts the
    collector of the domain and tries once more.  While an object is being
    built it is registered as a root.  [gc_new_init] and [gc_new_done] obtain
    and release the two semispaces. *)

From S2P Require Import Prelude Mem CString Malloc Alloc GCHeap GCTheory GCInv GCScan GCCollect.
#[local] Open Scope Z_scope.

(** ** State *)

Definition HEAP_RESERVE : Z := 10 * 1024.
Definition MAX_REGISTERED : Z := 50.
Definition c_vtable : Z := 40.
Definition c_proxyVtable : Z := 80.

(** The collector's part of a [DomainDesc]: the heap, the table of registered
    objects, the number of collections so far and the flags that allow one. *)
Record domain_gc (A : Type) := MkDomainGC {
  gcs : gc_state A;
  registeredObjects : Z;
  gc_epoch : Z;
  inhibitGCFlag : bool;
  has_gcThread : bool;
}.
Arguments MkDomainGC {A} _ _ _ _ _.
Arguments gcs {A} _.
Arguments registeredObjects {A} _.
Arguments gc_epoch {A} _.
Arguments inhibitGCFlag {A} _.
Arguments has_gcThread {A} _.

(** the entry [domain->services[index]] of the service table *)
Class ServiceTable (A : Type) := service_entry : Z -> Z -> A -> Z.

Section Allocation.
Context {A : Type} `{!GCServices A} `{!ServiceTable A}.
Abbreviation st := (gc_state A).
Abbreviation dom := (domain_gc A).

Definition with_gcs (f : st -> st) (d : dom) : dom :=
  MkDomainGC (f (gcs d)) (registeredObjects d) (gc_epoch d) (inhibitGCFlag d) (has_gcThread d).
Definition dwr (a v : Z) (d : dom) : dom := with_gcs (wr a v) d.
Definition drd (d : dom) (a : Z) : Z := rd (gcs d) a.

(** ** Registered objects (Memory/gc.c) *)

Fixpoint register_loop (n : nat) (i o : Z) (d : dom) : res (Z * dom) :=
  match n with
  | O => Err (EPanic "maximal number of registered objects reached for this domain")
  | S k =>
      let slot := registeredObjects d + 4 * i in
      if drd d slot =? 0 then Ok (slot, dwr slot o d) else register_loop k (i + 1) o d
  end.
Definition nonatomic_registerObject (o : Z) (d : dom) : res (Z * dom) := register_loop (Z.to_nat MAX_REGISTERED) 0 o d.
Definition nonatomic_unregisterObject (handle : Z) (d : dom) : res (Z * dom) :=
  if handle =? 0 then Err (EPanic "o==0") else Ok (drd d handle, dwr handle 0 d).

(** [gc_in]: the collection that the collector thread of the domain runs *)
Definition gc_in (domain : Z) (is_domainZero : bool) (fuel : nat) (irqs : list Z) (roots : list root) (d : dom) : res dom :=
  if inhibitGCFlag d then Err (EPanic "GC CURRENTLY INHIBITED IN DOMAIN %d") else
  let! s := gc_new_gc domain is_domainZero fuel irqs roots (gcs d) in
  Ok (MkDomainGC s (registeredObjects d) (u32 (gc_epoch d + 1)) (inhibitGCFlag d) (has_gcThread d)).

(** ** gc_new_allocDataInDomain *)

(** [collect]: what the collector thread does when it is started (Java code
    that calls [gc_in]); [in_irq]: the current thread handles an interrupt. *)
Context (collect : dom -> res dom) (in_irq : bool).

Definition do_alloc (objSize flags nextObj : Z) (d : dom) : res (Z * dom) :=
  let data := heapTop (gcs d) in
  let d := with_gcs (set_heapTop nextObj) d in
  let! _ := assert_ "data != NULL" (negb (data =? 0)) in
  let d := with_gcs (fun s => set_ram (memset (ram s) data 0 (u32 (objSize * 4))) s) d in
  let obj := ptr2ObjectDesc data in
  let d := with_gcs (fun s => setObjMagic obj MAGIC_OBJECT (setObjFlags obj flags s)) d in
  nonatomic_registerObject obj d.

(** One round from the label [try_alloc]; [again] is the next one. *)
Definition try_alloc (tried : bool) (again : dom -> res (Z * dom)) (objSize flags : Z) (d : dom) : res (Z * dom) :=
  let nextObj := u32 (heapTop (gcs d) + 4 * objSize) in
  if u32 (heapBorder (gcs d) - 4 * HEAP_RESERVE) <? nextObj then
    if in_irq then
      if heapBorder (gcs d) <? nextObj then Err (EPanic "no GC in interrupt handler possible!")
      else do_alloc objSize flags nextObj d
    else if tried then Err (EThrow "RuntimeException")
    else if negb (has_gcThread d) then Err (EPanic "GC but no GC thread availabke")
    else let! d := collect d in again d
  else do_alloc objSize flags nextObj d.

Definition gc_new_allocDataInDomain (objSize flags : Z) (d : dom) : res (Z * dom) :=
  try_alloc false (try_alloc true (fun _ => Err EFuel) objSize flags) objSize flags d.

(** ** The allocators (Memory/gc_alloc.c) *)

(** [obj = unregisterObject(domain, gc_allocDataInDomain(domain, objSize, flags))] *)
Definition alloc_object (objSize flags : Z) (d : dom) : res (Z * dom) :=
  let! '(handle, d) := gc_new_allocDataInDomain objSize flags d in nonatomic_unregisterObject handle d.

Definition service_incRefcount (p : Z) (d : dom) : dom := dwr (p + dep_refcount) (u32 (drd d (p + dep_refcount) + 1)) d.

Definition allocProxyInDomain (c targetDomain targetDomainID depIndex : Z) (d : dom) : res (Z * dom) :=
  let! '(proxy, d) := alloc_object OBJSIZE_PORTAL OBJFLAGS_PORTAL d in
  let d := dwr proxy (if c =? 0 then 0 else drd d (c + c_proxyVtable)) d in
  let d := dwr (proxy + 4) targetDomain d in
  let d := dwr (proxy + 8) targetDomainID d in
  let d := dwr (proxy + 12) depIndex d in
  let x := services (gcs d) in
  Ok (proxy, if negb (targetDomain =? 0) && (domain_id targetDomain x =? targetDomainID)
             then service_incRefcount (service_entry targetDomain depIndex x) d else d).

Definition allocAtomicVariableProxyInDomain (c : Z) (d : dom) : res (Z * dom) :=
  let! '(obj, d) := alloc_object OBJSIZE_ATOMVAR OBJFLAGS_ATOMVAR d in
  Ok (obj, dwr (obj + 12) 0 (dwr (obj + 8) 0 (dwr (obj + 4) 0 (dwr obj (drd d (c + c_vtable)) d)))).

Definition allocCASProxyInDomain (c index : Z) (d : dom) : res (Z * dom) :=
  let! '(obj, d) := alloc_object OBJSIZE_CAS OBJFLAGS_CAS d in
  Ok (obj, dwr (obj + 4) index (dwr obj (drd d (c + c_vtable)) d)).

Definition allocCredentialProxyInDomain (c signerDomainID : Z) (d : dom) : res (Z * dom) :=
  let! '(obj, d) := alloc_object OBJSIZE_CREDENTIAL OBJFLAGS_CREDENTIAL d in
  Ok (obj, dwr (obj + 8) signerDomainID (dwr (obj + 4) 0 (dwr obj (drd d (c + c_vtable)) d))).

(** [domainClass] is a global variable *)
Definition allocDomainProxyInDomain (domainClass domainValue domainID : Z) (d : dom) : res (Z * dom) :=
  let! '(obj, d) := alloc_object OBJSIZE_DOMAIN OBJFLAGS_DOMAIN d in
  Ok (obj, dwr (obj + 8) domainID (dwr (obj + 4) domainValue (dwr obj (drd d (domainClass + c_vtable)) d))).

Definition allocThreadDescProxyInDomain (c : Z) (d : dom) : res (Z * dom) :=
  let! '(obj, d) := alloc_object OBJSIZE_THREADDESCPROXY OBJFLAGS_CPUSTATE d in
  Ok (obj, dwr obj (if c =? 0 then 0 else drd d (c + c_vtable)) d).

Definition nonatomic_allocObjectInDomain (c : Z) (d : dom) : res (Z * dom) :=
  let! _ := assert_ "c != NULL" (negb (c =? 0)) in
  let! _ := ASSERTCLASSDESC c (gcs d) in
  let! '(obj, d) := alloc_object (OBJSIZE_OBJECT (instanceSize (gcs d) c)) OBJFLAGS_OBJECT d in
  Ok (obj, dwr obj (drd d (c + c_vtable)) d).

Definition MAGIC_DEP : Z := 0xbabeface.
(** the magic of the descriptor lies over the word of the vtable *)
Definition allocServiceDescInDomain (d : dom) : res (Z * dom) :=
  let! '(dep, d) := alloc_object OBJSIZE_SERVICEDESC OBJFLAGS_SERVICE d in
  let d := with_gcs (fun s => set_ram (memset (ram s) dep 0 sizeof_DEPDesc) s) d in
  Ok (dep, dwr dep MAGIC_DEP d).

(** [arrayClass] is the class found or cached for the element class; the
    length of an array is not bounded from above *)
Definition allocByteArray (arrayClass size : Z) (d : dom) : res (Z * dom) :=
  let! '(obj, d) := alloc_object (OBJSIZE_ARRAY_32BIT size) OBJFLAGS_ARRAY d in
  Ok (obj, dwr obj (drd d (arrayClass + c_vtable)) (dwr (obj + 8) size (dwr (obj + 4) arrayClass d))).
Definition specialAllocArray (arrayClass size : Z) (d : dom) : res (Z * dom) :=
  if size <? 0 then Err (EThrow "RuntimeException") else allocByteArray arrayClass size d.
End Allocation.

(** ** gc_new_init and gc_new_done *)

Section Spaces.
Context {A B : Type} `{!Allocator B}.

Definition gc_new_init (heap_bytes : Z) (s : gc_state A) (b : B) : res (gc_state A * B) :=
  if heap_bytes =? 0 then Err (EPanic "gc_new is not suitable for domain Zero") else
  if heap_bytes <=? HEAP_RESERVE + 1000 then Err (EPanic "heap too small. need at least %d bytes ") else
  let! '(h, b) := al_alloc heap_bytes b in
  let border := u32 (h + 4 * (heap_bytes / 4)) in
  if s32 (s32 (border - h) / 4 * 4) <? HEAP_RESERVE then Err (EPanic "HEAP TOO SMALL") else
  let! '(h2, b) := al_alloc heap_bytes b in
  Ok (MkGC (ram s) h border h heap_bytes h2 (u32 (h2 + 4 * (heap_bytes / 4))) h2 (services s), b).

Definition gc_new_done (s : gc_state A) (b : B) : res (gc_state A * B) :=
  let! b := al_free (heap s) (heapSize s) b in
  if heap2 s =? 0 then Ok (MkGC (ram s) 0 0 0 (heapSize s) (heap2 s) (heapBorder2 s) (heapTop2 s) (services s), b)
  else
    let! b := al_free (heap2 s) (heapSize s) b in
    Ok (MkGC (ram s) 0 0 0 (heapSize s) 0 0 0 (services s), b).
End Spaces.

#[local] Opaque store32 load32 memset.

(** ** A fresh block *)

(** [s'] is [s] with the next [n] words of the heap made into a cleared object
    of kind [flags]. *)
Record fresh_block {A} (s s' : gc_state A) (o n flags : Z) : Prop := {
  fb_addr : o = heapTop s + 8;
  fb_state : s' = set_ram (ram s') (set_heapTop (heapTop s + 4 * n) s);
  fb_header : load32 (ram s') (o - 8) = flags /\ load32 (ram s') (o - 4) = MAGIC_OBJECT;
  fb_clear : forall x, o <= x < o - 8 + 4 * n -> load8 (ram s') x = 0;
  fb_out : forall x, x < o - 8 \/ o - 8 + 4 * n <= x -> load8 (ram s') x = load8 (ram s) x;
}.

Section Fresh.
Context {A : Type} `{!GCServices A} `{!ServiceTable A}.
Abbreviation st := (gc_state A).
Abbreviation dom := (domain_gc A).
Context (collect : dom -> res dom) (in_irq : bool).

(** the table of registered objects has a free slot *)
Definition can_register (d : dom) : Prop :=
  0 < registeredObjects d /\ exists i, 0 <= i < MAX_REGISTERED /\ drd d (registeredObjects d + 4 * i) = 0.
Definition in_table (d : dom) (x : Z) : Prop := registeredObjects d <= x < registeredObjects d + 4 * MAX_REGISTERED.

Lemma register_loop_spec o (d : dom) n : forall i, 0 <= i ->
  (exists j, i <= j < i + Z.of_nat n /\ drd d (registeredObjects d + 4 * j) = 0) ->
  exists j, i <= j < i + Z.of_nat n /\ drd d (registeredObjects d + 4 * j) = 0 /\
    register_loop n i o d = Ok (registeredObjects d + 4 * j, dwr (registeredObjects d + 4 * j) o d).
Proof.
  induction n as [|n IH]; intros i Hi (j & Hj & Hz); [lia|]. cbn [register_loop].
  destruct (Z.eqb_spec (drd d (registeredObjects d + 4 * i)) 0) as [E|E].
  - exists i. split_and!; [lia|lia|exact E|reflexivity].
  - destruct (IH (i + 1)) as (j' & ? & ? & ?); [lia| |exists j'; split_and!; [lia|lia|done|done]].
    exists j. split; [|done]. destruct (decide (j = i)) as [->|]; [done|lia].
Qed.

Lemma register_spec o (d : dom) : can_register d ->
  exists slot, in_table d slot /\ in_table d (slot + 3) /\ slot <> 0 /\ drd d slot = 0 /\
    nonatomic_registerObject o d = Ok (slot, dwr slot o d).
Proof.
  intros (Hp & j & Hj & Hz). destruct (register_loop_spec o d (Z.to_nat MAX_REGISTERED) 0) as (i & Hi & Hz' & E).
  - done.
  - exists j. split; [|done]. rewrite Z2Nat.id; [lia|done].
  - exists (registeredObjects d + 4 * i). rewrite Z2Nat.id in Hi by done. unfold in_table, MAX_REGISTERED in *.
    split_and!; [lia..|done|exact E].
Qed.

Lemma memset0_load m a n x : 0 <= n < 4294967296 ->
  load8 (memset m a 0 n) x = if (a <=? x) && (x <? a + n) then 0 else load8 m x.
Proof. intros. rewrite memset_load by done. by rewrite (eq_refl : u8 (Z.land 0 255) = 0). Qed.

(** room for [n] more words without touching the reserve *)
Definition has_room (s : st) (n : Z) : Prop :=
  2 <= n /\ 0 < heapTop s /\ heapTop s + 4 * n + 4 * HEAP_RESERVE <= heapBorder s /\ heapBorder s < 4294967296.

(** the block, while the new object is still registered at [h] *)
Lemma alloc_data_fresh n flags (d : dom) : has_room (gcs d) n -> can_register d -> 0 <= flags < 4294967296 ->
  (forall x, in_table d x -> x < heapTop (gcs d) \/ heapBorder (gcs d) <= x) ->
  exists h d1, gc_new_allocDataInDomain collect in_irq n flags d = Ok (h, d1) /\
    (in_table d h /\ in_table d (h + 3) /\ h <> 0) /\ drd d1 h = heapTop (gcs d) + 8 /\
    fresh_block (gcs d) (gcs (dwr h 0 d1)) (heapTop (gcs d) + 8) n flags /\
    dwr h 0 d1 = with_gcs (fun _ => gcs (dwr h 0 d1)) d.
Proof.
  intros (Hn & Ht & Hroom & Hb) Hreg Hfl Htab. set (s := gcs d) in *. unfold HEAP_RESERVE in Hroom.
  unfold gc_new_allocDataInDomain, try_alloc. fold s.
  rewrite (u32_small (heapTop s + 4 * n)), (u32_small (heapBorder s - 4 * HEAP_RESERVE)) by (unfold HEAP_RESERVE; lia).
  rewrite (proj2 (Z.ltb_ge _ _)) by (unfold HEAP_RESERVE; lia). unfold do_alloc. fold s.
  change (gcs (with_gcs (set_heapTop (heapTop s + 4 * n)) d)) with (set_heapTop (heapTop s + 4 * n) s).
  rewrite (proj2 (Z.eqb_neq (heapTop s) 0)) by lia. cbn [rbind assert_ negb].
  set (d1 := with_gcs _ (with_gcs _ (with_gcs _ d))). set (o := ptr2ObjectDesc (heapTop s)).
  assert (o = heapTop s + 8) as Eo by (unfold o, ptr2ObjectDesc, XMOFF; lia).
  set (m1 := ram (gcs d1)).
  assert (m1 = store32 (store32 (memset (ram s) (heapTop s) 0 (u32 (n * 4))) (o - 8) flags) (o - 4) MAGIC_OBJECT) as Em1 by reflexivity.
  assert (forall x, load8 m1 x = if (o - 8 <=? x) && (x <? o) then load8 m1 x
    else if (o <=? x) && (x <? o - 8 + 4 * n) then 0 else load8 (ram s) x) as HL.
  { intros x. destruct ((o - 8 <=? x) && (x <? o)) eqn:E; [done|]. rewrite Em1.
    assert (x < o - 8 \/ o <= x) as Hx.
    { destruct (Z.leb_spec (o - 8) x), (Z.ltb_spec x o); try done; lia. }
    rewrite !load8_store32_ne by lia. rewrite memset0_load by apply u32_range. rewrite u32_small by lia.
    destruct (Z.leb_spec (heapTop s) x), (Z.ltb_spec x (heapTop s + n * 4)), (Z.leb_spec o x), (Z.ltb_spec x (o - 8 + 4 * n)); simpl; try done; lia. }
  assert (can_register d1) as Hreg1.
  { destruct Hreg as (Hp & i & Hi & Hz). split; [exact Hp|]. exists i. split; [exact Hi|]. rewrite <- Hz. unfold drd, rd. change (ram (gcs d1)) with m1.
    apply load32_ext. intros x Hx. rewrite HL. change (registeredObjects d1) with (registeredObjects d) in Hx.
    destruct (Htab x ltac:(unfold in_table, MAX_REGISTERED in *; lia)).
    - rewrite (proj2 (Z.leb_gt (o - 8) x)), (proj2 (Z.leb_gt o x)) by lia. done.
    - rewrite (proj2 (Z.ltb_ge x o)), (proj2 (Z.ltb_ge x (o - 8 + 4 * n))), !andb_false_r by lia. done. }
  destruct (register_spec o d1 Hreg1) as (slot & Hs1 & Hs2 & Hs0 & Hz & ->).
  assert (drd (dwr slot o d1) slot = o) as Erd.
  { unfold drd, rd, dwr, wr. cbn. rewrite load32_store32. apply u32_small. lia. }
  exists slot, (dwr slot o d1). rewrite <- Eo. split; [reflexivity|]. split; [by split_and!|]. split; [exact Erd|].
  set (d2 := dwr slot 0 (dwr slot o d1)).
  assert (forall x, load8 (ram (gcs d2)) x = load8 m1 x) as HL2.
  { assert (ram (gcs d2) = store32 (store32 m1 slot o) slot 0) as -> by reflexivity. intros x.
    destruct (decide (slot <= x < slot + 4)) as [Hx|Hx].
    - assert (forall y, slot <= y < slot + 4 -> load8 (store32 (store32 m1 slot o) slot 0) y = 0) as Hc.
      { apply load32_zero. rewrite load32_store32. done. }
      rewrite Hc by done. symmetry. apply (load32_zero m1 slot); [exact Hz|done].
    - by rewrite !load8_store32_ne by lia. }
  split; [split|reflexivity].
  - exact Eo.
  - reflexivity.
  - split; rewrite (load32_ext m1) by (intros; apply HL2); rewrite Em1.
    + rewrite load32_store32_ne, load32_store32 by lia. by apply u32_small.
    + by rewrite load32_store32.
  - intros x Hx. rewrite HL2, HL. rewrite (proj2 (Z.ltb_ge x o)), andb_false_r, (proj2 (Z.leb_le o x)), (proj2 (Z.ltb_lt x _)) by lia. done.
  - intros x Hx. rewrite HL2, HL. destruct Hx.
    + by rewrite (proj2 (Z.leb_gt (o - 8) x)), (proj2 (Z.leb_gt o x)) by lia.
    + by rewrite (proj2 (Z.ltb_ge x o)), (proj2 (Z.ltb_ge x (o - 8 + 4 * n))), !andb_false_r by lia.
Qed.

Lemma alloc_object_fresh n flags (d : dom) : has_room (gcs d) n -> can_register d -> 0 <= flags < 4294967296 ->
  (forall x, in_table d x -> x < heapTop (gcs d) \/ heapBorder (gcs d) <= x) ->
  exists o d', alloc_object collect in_irq n flags d = Ok (o, d') /\ fresh_block (gcs d) (gcs d') o n flags /\
    d' = with_gcs (fun _ => gcs d') d.
Proof.
  intros Hroom Hreg Hfl Htab. destruct (alloc_data_fresh n flags d Hroom Hreg Hfl Htab) as (h & d1 & E & (_ & _ & Hh) & Eo & Hf & Ed).
  exists (heapTop (gcs d) + 8), (dwr h 0 d1). split; [|done]. unfold alloc_object. rewrite E. cbn [rbind].
  unfold nonatomic_unregisterObject. rewrite (proj2 (Z.eqb_neq h 0) Hh). by rewrite Eo.
Qed.
End Fresh.

(** ** The heap grows by one object *)

Section Extend.
Context {A : Type} `{!GCServices A}.
Abbreviation st := (gc_state A).
Context (cls : Z -> Prop) (roots : list root) (s s' : st) (H : list Z) (o n : Z).
Context (Hok : heap_ok cls roots s H).
(** only the new block and the top of the heap differ *)
Context (Haddr : o = heapTop s + 8) (Hn : 2 <= n).
Context (Hstate : s' = set_ram (ram s') (set_heapTop (heapTop s + 4 * n) s)).
Context (Hout : forall x, x < o - 8 \/ o - 8 + 4 * n <= x -> load8 (ram s') x = load8 (ram s) x).
Context (Hroom : heapTop s + 4 * n + 12 <= heapBorder s /\ heapTop s + 4 * n - heap s + 12 <= heapBorder2 s - heap2 s).

Lemma grow_word a : a + 4 <= o - 8 \/ o - 8 + 4 * n <= a -> load32 (ram s') a = load32 (ram s) a.
Proof using Hout. intros Ha. apply load32_ext. intros x Hx. apply Hout. lia. Qed.
Lemma grow_elsewhere x : elsewhere s x -> load8 (ram s') x = load8 (ram s) x.
Proof using Hok Haddr Hout Hroom. intros [[?|?] _]; apply Hout; destruct (hk_geo _ _ _ _ Hok) as [_ _ _ G _ _]; lia. Qed.
Lemma grow_cls a : cls a -> load8 (ram s') a = load8 (ram s) a.
Proof using Hok Haddr Hout Hroom. intros Ha. by apply grow_elsewhere, (hk_cls _ _ _ _ Hok). Qed.
Lemma grow_cls32 a : cls32 cls a -> load32 (ram s') a = load32 (ram s) a.
Proof using Hok Haddr Hout Hroom. intros Ha. apply load32_ext. intros x Hx. by apply grow_cls, Ha. Qed.

Lemma grow_shape x : x ∈ H -> same_shape cls (ram s) x (ram s') x.
Proof using Hok Haddr Hout Hroom.
  intros Hx. destruct (h_block Hok x Hx) as [? ?]. split.
  - apply grow_word. pose proof (owords_pos (ram s) x). lia.
  - intros i Hi%in_body_end _. apply grow_word. lia.
  - apply grow_cls.
Qed.

Lemma grow_old x : x ∈ H -> wf_obj cls (ram s') x /\ okind (ram s') x = okind (ram s) x /\
  owords (ram s') x = owords (ram s) x /\ (forall i, field (ram s') x i = field (ram s) x i) /\
  (forall i, in_body (ram s) x i -> load32 (ram s') (x + i) = load32 (ram s) (x + i)).
Proof using Hok Haddr Hout Hroom.
  intros Hx. pose proof (hk_wf _ _ _ _ Hok x Hx) as W. pose proof (grow_shape x Hx) as Hs.
  destruct (h_block Hok x Hx) as [? ?]. pose proof (owords_pos (ram s) x).
  split_and!; [|apply Hs|by eapply shape_words|by eapply shape_field|].
  - apply (shape_wf _ _ _ _ _ W Hs); [|apply (wf_addr _ _ _ W)..]. rewrite <- (wf_magic _ _ _ W). apply grow_word. lia.
  - intros i Hi%in_body_end. apply grow_word. lia.
Qed.

Lemma grow_ref k v : ref_ok cls (ram s) H k v -> ref_ok cls (ram s') (H ++ [o]) k v.
Proof using Hok Haddr Hout Hroom.
  destruct k; simpl; try done.
  - intros [?|[?|[Hc Hk]]]; [by left|right; left; apply elem_of_app; by left|right; right]. by rewrite grow_cls32.
  - intros [?|[Hv Hk]]; [by left|right]. destruct (grow_old _ Hv) as (_ & Ek & _). split; [apply elem_of_app; by left|].
    by rewrite Ek.
Qed.

Lemma blocks_grow l : forall a, (forall x, x ∈ l -> owords (ram s') x = owords (ram s) x) ->
  blocks (ram s) a l (o - 8) -> owords (ram s') o = n -> blocks (ram s') a (l ++ [o]) (o - 8 + 4 * n).
Proof.
  induction l as [|x l IH]; intros a Hw; simpl.
  - intros -> ->. lia.
  - intros [-> HB] Ho. split; [done|]. rewrite (Hw (a + 8)) by left. apply IH; [|done|done].
    intros y Hy. apply Hw. by right.
Qed.

Lemma heap_ok_extend :
  wf_obj cls (ram s') o -> owords (ram s') o = n -> dep_ok (ram s') (H ++ [o]) o ->
  (forall i, in_body (ram s') o i -> ref_ok cls (ram s') (H ++ [o]) (field (ram s') o i) (load32 (ram s') (o + i))) ->
  heap_ok cls roots s' (H ++ [o]).
Proof using Hok Haddr Hout Hroom Hstate Hn.
  intros Hwf Hw Hdep Href. destruct (hk_geo _ _ _ _ Hok) as [G1 G2 G3 G4 G5 G6].
  assert (forall Q : st -> Prop, Q (set_ram (ram s') (set_heapTop (heapTop s + 4 * n) s)) -> Q s') as Hset.
  { intros Q. by rewrite <- Hstate. }
  apply Hset. split; cbn [ram set_ram].
  - split; cbn; lia.
  - change (heap _) with (heap s). change (heapTop (set_ram _ _)) with (heapTop s + 4 * n).
    replace (heapTop s + 4 * n) with (o - 8 + 4 * n) by lia. apply blocks_grow; [|replace (o - 8) with (heapTop s) by lia; apply Hok|done].
    intros x Hx. by apply grow_old.
  - intros x [Hx|Hx%list_elem_of_singleton]%elem_of_app; [by apply grow_old|by subst].
  - intros x [Hx|Hx%list_elem_of_singleton]%elem_of_app; [|by subst]. intros Ek.
    destruct (grow_old x Hx) as (_ & Ek' & _ & _ & Hb). rewrite Ek' in Ek. cbv zeta.
    assert (load32 (ram s') (x + 4 + t_processingDEP) = load32 (ram s) (x + 4 + t_processingDEP)) as ->.
    { rewrite <- !Z.add_assoc. apply Hb. unfold in_body, owords. by rewrite Ek. }
    destruct (hk_dep _ _ _ _ Hok x Hx Ek) as [?|[Hv Es]]; [by left|right]. split; [apply elem_of_app; by left|].
    by destruct (grow_old _ Hv) as (_ & -> & _).
  - intros x i [Hx|Hx%list_elem_of_singleton]%elem_of_app Hi; [|subst; by apply Href].
    destruct (grow_old x Hx) as (_ & _ & Ew & Ef & Hb). assert (in_body (ram s) x i) as Hi' by (unfold in_body in *; by rewrite <- Ew).
    rewrite Ef, Hb by done. by apply grow_ref, (hk_refs _ _ _ _ Hok).
  - intros r Hr. assert (load32 (ram s') (root_addr r) = load32 (ram s) (root_addr r)) as ->.
    { apply load32_ext. intros x Hx. by apply grow_elsewhere, (hk_cells _ _ _ _ Hok r x). }
    by apply grow_ref, (hk_roots _ _ _ _ Hok).
  - intros a Ha%(hk_cls _ _ _ _ Hok). exact Ha.
  - intros r x Hr Hx. exact (hk_cells _ _ _ _ Hok r x Hr Hx).
  - apply (hk_distinct _ _ _ _ Hok).
Qed.
End Extend.

(** ** Filling in the new object *)

(** store the words [l] (offset, value) of the object [o] *)
Fixpoint put (m : memory) (o : Z) (l : list (Z * Z)) : memory :=
  match l with
  | [] => m
  | (i, v) :: l => put (store32 m (o + i) v) o l
  end.

Definition word_of (l : list (Z * Z)) (i : Z) : Z := default 0 ((list_to_map l : gmap Z Z) !! i).

Definition fits (n : Z) (l : list (Z * Z)) : Prop :=
  NoDup l.*1 /\ Forall (fun p => 0 <= p.1 /\ p.1 mod 4 = 0 /\ p.1 + 4 <= 4 * n - 8 /\ 0 <= p.2 < 4294967296) l.

Lemma put_out n l : forall m o x, fits n l -> x < o \/ o + 4 * n - 8 <= x -> load8 (put m o l) x = load8 m x.
Proof.
  induction l as [|[i v] l IH]; intros m o x [Hd Hl] Hx; [done|]. apply Forall_cons in Hl as [Hi Hl]. simpl in Hi.
  apply NoDup_cons in Hd as [_ Hd]. simpl. rewrite IH by done. apply load8_store32_ne. lia.
Qed.

Lemma put_word n l : forall m o i, fits n l -> i mod 4 = 0 ->
  load32 (put m o l) (o + i) = match (list_to_map l : gmap Z Z) !! i with Some v => v | None => load32 m (o + i) end.
Proof.
  induction l as [|[j v] l IH]; intros m o i [Hd Hl] Hi; [done|]. apply Forall_cons in Hl as [Hj Hl]. simpl in Hj.
  apply NoDup_cons in Hd as [Hnj Hd]. simpl. rewrite IH by done. destruct (decide (i = j)) as [->|Hne].
  - rewrite lookup_insert_eq, (proj1 (not_elem_of_list_to_map l j) Hnj). rewrite load32_store32. apply u32_small. lia.
  - rewrite lookup_insert_ne by done. destruct (list_to_map l !! i); [done|]. apply load32_store32_ne. Z.div_mod_to_equations. lia.
Qed.

Section Build.
Context {A : Type}.
Abbreviation st := (gc_state A).
Context (s s1 : st) (o n flags : Z) (l : list (Z * Z)).
Context (Hfresh : fresh_block s s1 o n flags) (Hfit : fits n l).
Abbreviation s2 := (set_ram (put (ram s1) o l) s1).

Lemma build_state : s2 = set_ram (ram s2) (set_heapTop (heapTop s + 4 * n) s).
Proof using Hfresh. cbn [ram set_ram]. generalize (put (ram s1) o l). intros m. rewrite (fb_state _ _ _ _ _ Hfresh). done. Qed.
Lemma build_out x : x < o - 8 \/ o - 8 + 4 * n <= x -> load8 (ram s2) x = load8 (ram s) x.
Proof using Hfresh Hfit. intros Hx. cbn. rewrite (put_out n) by (done || lia). by apply (fb_out _ _ _ _ _ Hfresh). Qed.
Lemma build_header : okind (ram s2) o = flags /\ load32 (ram s2) (o - 4) = MAGIC_OBJECT.
Proof using Hfresh Hfit.
  destruct (fb_header _ _ _ _ _ Hfresh) as [<- <-]. unfold okind. cbn. split; apply load32_ext; intros x Hx; apply (put_out n); (done || lia).
Qed.
Lemma build_word i : 0 <= i -> i mod 4 = 0 -> i + 4 <= 4 * n - 8 -> load32 (ram s2) (o + i) = word_of l i.
Proof using Hfresh Hfit.
  intros H0 H4 Hi. cbn. rewrite (put_word n) by done. unfold word_of. destruct (list_to_map l !! i); [done|]. simpl.
  apply load32_clear. intros x Hx. apply (fb_clear _ _ _ _ _ Hfresh). lia.
Qed.
End Build.

(** ** Requests *)

Inductive request :=
| NewObject (c : Z)
| NewArray (arrayClass size : Z)
| NewAtomVar (c : Z)
| NewCAS (c index : Z)
| NewDomain (c value id : Z)
| NewThread (c : Z).

Definition allocate {A} `{!GCServices A} (collect : domain_gc A -> res (domain_gc A)) (in_irq : bool) (r : request) :=
  match r with
  | NewObject c => nonatomic_allocObjectInDomain collect in_irq c
  | NewArray c size => specialAllocArray collect in_irq c size
  | NewAtomVar c => allocAtomicVariableProxyInDomain collect in_irq c
  | NewCAS c i => allocCASProxyInDomain collect in_irq c i
  | NewDomain c v i => allocDomainProxyInDomain collect in_irq c v i
  | NewThread c => allocThreadDescProxyInDomain collect in_irq c
  end.

Definition request_words (m : memory) (r : request) : Z :=
  match r with
  | NewObject c => OBJSIZE_OBJECT (load32 m (c + c_instanceSize))
  | NewArray _ size => OBJSIZE_ARRAY_32BIT size
  | NewAtomVar _ => OBJSIZE_ATOMVAR
  | NewCAS _ _ => OBJSIZE_CAS
  | NewDomain _ _ _ => OBJSIZE_DOMAIN
  | NewThread _ => OBJSIZE_THREADDESCPROXY
  end.

(** a class descriptor, with its vtable *)
Definition class_ok (cls : Z -> Prop) (m : memory) (c : Z) : Prop :=
  let vt := load32 m (c + c_vtable) in
  c <> 0 /\ cls32 cls (c + c_vtable) /\ vt <> 0 /\ cls32 cls (vt - 4) /\ load32 m (vt - 4) = c /\
  cls32 cls c /\ load32 m c = MAGIC_CLASSDESC /\ cls32 cls (c + c_instanceSize) /\ cls32 cls (c + c_map) /\
  forall j, 0 <= j < load32 m (c + c_instanceSize) -> cls (load32 m (c + c_map) + j / 8).
Definition array_class_ok (cls : Z -> Prop) (m : memory) (c : Z) : Prop :=
  let vt := load32 m (c + c_vtable) in
  0 <= c < 4294967296 /\ cls32 cls (c + c_vtable) /\ vt <> 0 /\ cls32 cls (vt - 4) /\ cls32 cls (c + c_name) /\ cls (load32 m (c + c_name) + 1).

Definition request_ok (cls : Z -> Prop) (m : memory) (r : request) : Prop :=
  match r with
  | NewObject c => class_ok cls m c
  | NewArray c size => array_class_ok cls m c /\ 0 <= size
  | NewAtomVar c => True
  | NewCAS c i => 0 <= i < 4294967296
  | NewDomain c v i => 0 <= v < 4294967296 /\ 0 <= i < 4294967296
  | NewThread c => True
  end.

Section Allocate.
Context {A : Type} `{!GCServices A} `{!ServiceTable A}.
Abbreviation st := (gc_state A).
Abbreviation dom := (domain_gc A).
Context (cls : Z -> Prop) (roots : list root) (s : st) (H : list Z).
Context (Hok : heap_ok cls roots s H).
Context (Hequal : heapBorder2 s - heap2 s = heapBorder s - heap s).

Lemma built_heap_ok s1 o n k l :
  let s2 := set_ram (put (ram s1) o l) s1 in
  fresh_block s s1 o n k -> fits n l -> has_room s n -> k ∈ kinds ->
  owords (ram s2) o = n -> wf_body cls (ram s2) o ->
  (forall i, in_body (ram s2) o i -> field (ram s2) o i = FRef \/ field (ram s2) o i = FTcb -> word_of l i = 0) ->
  (k = OBJFLAGS_CPUSTATE -> word_of l (4 + t_processingDEP) = 0) ->
  heap_ok cls roots s2 (H ++ [o]).
Proof using Hok Hequal.
  intros s2 Hfr Hfit (Hn & Ht & Hroom & Hb) Hk Hw Hbody Hrefs Hdep. unfold HEAP_RESERVE in Hroom.
  destruct (hk_geo _ _ _ _ Hok) as [G1 G2 G3 G4 G5 G6]. pose proof (fb_addr _ _ _ _ _ Hfr) as Eo.
  pose proof (h_total _ _ _ _ Hok) as Htot. pose proof (wsum_nonneg (ram s) H).
  destruct (build_header s s1 o n k l Hfr Hfit) as [Ek Em]. fold s2 in Ek, Em.
  apply (heap_ok_extend cls roots s s2 H o n Hok Eo Hn).
  - exact (build_state s s1 o n k l Hfr).
  - exact (build_out s s1 o n k l Hfr Hfit).
  - lia.
  - split; [by rewrite Ek|done| |done]. rewrite Hw. split; [lia|]. split; [Z.div_mod_to_equations; lia|lia].
  - done.
  - intros E. left. rewrite <- Z.add_assoc. unfold s2. rewrite (build_word s s1 o n k l Hfr Hfit); [|done..|].
    + apply Hdep. by rewrite <- Ek.
    + rewrite <- Hw. unfold owords. rewrite E. by vm_compute.
  - intros i Hi. destruct (field (ram s2) o i) eqn:Ef; try done.
    all: pose proof (Hrefs i Hi) as Hz; rewrite Ef in Hz; unfold s2; pose proof (in_body_end _ _ _ Hi) as Hie; rewrite Hw in Hie;
      rewrite (build_word s s1 o n k l Hfr Hfit), Hz by (lia || apply Hi || tauto).
    + left. lia.
    + by left.
Qed.

(** the request for [r] finds room *)
Definition can_allocate (d : dom) (r : request) : Prop :=
  has_room (gcs d) (request_words (ram (gcs d)) r) /\ can_register d /\
  (forall x, in_table d x -> x < heapTop (gcs d) \/ heapBorder (gcs d) <= x).

(** a successful allocation: [d'] is [d] with one more object *)
Definition allocated (d d' : dom) (o n : Z) : Prop :=
  o = heapTop (gcs d) + 8 /\ (o ∉ H) /\ heapTop (gcs d') = heapTop (gcs d) + 4 * n /\ heap_ok cls roots (gcs d') (H ++ [o]) /\
  (forall x, x < o - 8 \/ o - 8 + 4 * n <= x -> load8 (ram (gcs d')) x = load8 (ram (gcs d)) x).

Lemma allocated_intro (d d1 : dom) o n k l : gcs d = s ->
  let s2 := set_ram (put (ram (gcs d1)) o l) (gcs d1) in
  fresh_block s (gcs d1) o n k -> fits n l -> has_room s n -> k ∈ kinds ->
  owords (ram s2) o = n -> wf_body cls (ram s2) o ->
  (forall i, in_body (ram s2) o i -> field (ram s2) o i = FRef \/ field (ram s2) o i = FTcb -> word_of l i = 0) ->
  (k = OBJFLAGS_CPUSTATE -> word_of l (4 + t_processingDEP) = 0) ->
  allocated d (with_gcs (fun _ => s2) d1) o n.
Proof using Hok Hequal.
  intros Es s2 Hfr Hfit Hroom Hk Hw Hbody Hrefs Hdep. pose proof (fb_addr _ _ _ _ _ Hfr) as Eo. unfold allocated. rewrite Es. cbn [gcs with_gcs].
  split_and!; [done| | | |].
  - intros Hin. destruct (h_block Hok _ Hin). pose proof (owords_pos (ram s) o). lia.
  - unfold s2. by rewrite (build_state s (gcs d1) o n k l Hfr).
  - by eapply built_heap_ok.
  - exact (build_out s (gcs d1) o n k l Hfr Hfit).
Qed.

Lemma fits_words n l : NoDup l.*1 -> (forall i v, (i, v) ∈ l -> 0 <= i /\ i mod 4 = 0 /\ i + 4 <= 4 * n - 8 /\ 0 <= v < 4294967296) -> fits n l.
Proof. intros Hd Hl. split; [done|]. apply Forall_forall. intros [i v] Hin. by apply Hl. Qed.

Context (collect : dom -> res dom) (in_irq : bool) (d : dom) (Es : gcs d = s).

Abbreviation alloc := (allocate collect in_irq).
Abbreviation built d1 o l := (set_ram (put (ram (gcs d1)) o l) (gcs d1)).

(** obtain the block for a request *)
Ltac get_block Hcan k Hroom o d1 Ea Hfr :=
  let Hreg := fresh in let Htab := fresh in let Ed := fresh in
  destruct Hcan as (Hroom & Hreg & Htab); cbn [request_words] in Hroom;
  destruct (alloc_object_fresh collect in_irq _ k d Hroom Hreg ltac:(by vm_compute) Htab) as (o & d1 & Ea & Hfr & Ed);
  rewrite Es in Hroom, Hfr; clear Hreg Htab Ed.
(** the list [l] of stores fits the object *)
Ltac list_cases Hin := rewrite !elem_of_cons, elem_of_nil in Hin; decompose [or] Hin; clear Hin; try done;
  match goal with E : (_, _) = (_, _) |- _ => injection E as -> -> end.
(** the object is built by the stores [l]; what remains is its well-formedness *)
Ltac build_object o d1 Hfr Hroom Hfit Ek k l n :=
  assert (fits n l) as Hfit;
  [apply fits_words; [apply (bool_decide_unpack _); by vm_compute|];
   let Hin := fresh in intros ? ? Hin; list_cases Hin; split_and!; (done || lia)|];
  let HA := fresh in
  destruct (build_header s (gcs d1) o n k l Hfr Hfit) as [Ek _];
  pose proof (allocated_intro d d1 o n k l Es Hfr Hfit Hroom) as HA; cbn [put] in HA, Ek; rewrite ?Z.add_0_r in HA, Ek;
  exists o; eexists; split; [reflexivity|];
  apply HA; [apply (bool_decide_unpack _); by vm_compute|unfold owords; by rewrite Ek| | |]; clear HA.

Lemma new_atomvar c : can_allocate d (NewAtomVar c) ->
  exists o d', alloc (NewAtomVar c) d = Ok (o, d') /\ allocated d d' o OBJSIZE_ATOMVAR.
Proof using Hok Hequal Es.
  intros Hcan. get_block Hcan OBJFLAGS_ATOMVAR Hroom o d1 Ea Hfr. unfold allocate, allocAtomicVariableProxyInDomain. rewrite Ea. cbn [rbind].
  pose proof (load32_range (ram (gcs d1)) (c + c_vtable) : 0 <= drd d1 (c + c_vtable) < _) as Hv.
  build_object o d1 Hfr Hroom Hfit Ek OBJFLAGS_ATOMVAR [(0, drd d1 (c + c_vtable)); (4, 0); (8, 0); (12, 0)] OBJSIZE_ATOMVAR.
  - unfold wf_body. by rewrite Ek.
  - intros i Hi. unfold field. rewrite Ek. simpl. destruct (Z.eqb_spec i 4) as [->|]; [done|]. destruct (Z.eqb_spec i 8) as [->|]; [done|].
    destruct (i =? 12); by intros [?|?].
  - done.
Qed.

Lemma new_cas c index : 0 <= index < 4294967296 -> can_allocate d (NewCAS c index) ->
  exists o d', alloc (NewCAS c index) d = Ok (o, d') /\ allocated d d' o OBJSIZE_CAS.
Proof using Hok Hequal Es.
  intros Hx Hcan. get_block Hcan OBJFLAGS_CAS Hroom o d1 Ea Hfr. unfold allocate, allocCASProxyInDomain. rewrite Ea. cbn [rbind].
  pose proof (load32_range (ram (gcs d1)) (c + c_vtable) : 0 <= drd d1 (c + c_vtable) < _) as Hv.
  build_object o d1 Hfr Hroom Hfit Ek OBJFLAGS_CAS [(0, drd d1 (c + c_vtable)); (4, index)] OBJSIZE_CAS.
  - unfold wf_body. by rewrite Ek.
  - intros i Hi. unfold field. rewrite Ek. by intros [?|?].
  - done.
Qed.

Lemma new_domain c value id : 0 <= value < 4294967296 /\ 0 <= id < 4294967296 -> can_allocate d (NewDomain c value id) ->
  exists o d', alloc (NewDomain c value id) d = Ok (o, d') /\ allocated d d' o OBJSIZE_DOMAIN.
Proof using Hok Hequal Es.
  intros [Hx Hy] Hcan. get_block Hcan OBJFLAGS_DOMAIN Hroom o d1 Ea Hfr. unfold allocate, allocDomainProxyInDomain. rewrite Ea. cbn [rbind].
  pose proof (load32_range (ram (gcs d1)) (c + c_vtable) : 0 <= drd d1 (c + c_vtable) < _) as Hv.
  build_object o d1 Hfr Hroom Hfit Ek OBJFLAGS_DOMAIN [(0, drd d1 (c + c_vtable)); (4, value); (8, id)] OBJSIZE_DOMAIN.
  - unfold wf_body. by rewrite Ek.
  - intros i Hi. unfold field. rewrite Ek. by intros [?|?].
  - done.
Qed.

Lemma new_thread c : can_allocate d (NewThread c) ->
  exists o d', alloc (NewThread c) d = Ok (o, d') /\ allocated d d' o OBJSIZE_THREADDESCPROXY.
Proof using Hok Hequal Es.
  intros Hcan. get_block Hcan OBJFLAGS_CPUSTATE Hroom o d1 Ea Hfr. unfold allocate, allocThreadDescProxyInDomain. rewrite Ea. cbn [rbind].
  assert (0 <= (if c =? 0 then 0 else drd d1 (c + c_vtable)) < 4294967296) as Hv.
  { destruct (c =? 0); [lia|]. apply load32_range. }
  set (vt := if c =? 0 then 0 else _) in *.
  build_object o d1 Hfr Hroom Hfit Ek OBJFLAGS_CPUSTATE [(0, vt)] OBJSIZE_THREADDESCPROXY.
  - unfold wf_body. rewrite Ek. simpl. unfold quiet_thread. rewrite <- !Z.add_assoc.
    pose proof (fun i => build_word s (gcs d1) o _ _ _ Hfr Hfit i) as HW. cbn [put] in HW. rewrite Z.add_0_r in HW.
    rewrite !HW by done. by vm_compute.
  - intros i Hi Hf. unfold word_of. simpl. destruct (decide (i = 0)) as [->|]; [|by rewrite lookup_insert_ne].
    destruct Hi as [Hi _]. revert Hf. unfold field. rewrite Ek. by intros [?|?].
  - done.
Qed.

(** the bytes of the classes are not touched *)
Lemma cls_kept s1 o n k l a : fresh_block s s1 o n k -> fits n l -> has_room s n -> cls32 cls a ->
  load32 (put (ram s1) o l) a = load32 (ram s) a.
Proof using Hok.
  intros Hfr Hfit (Hn & _ & Hroom & _) Ha. apply load32_ext. intros x Hx%Ha%(hk_cls _ _ _ _ Hok).
  apply (build_out s s1 o n k l Hfr Hfit). rewrite (fb_addr _ _ _ _ _ Hfr). unfold HEAP_RESERVE in Hroom.
  destruct Hx as [[?|?] _], (hk_geo _ _ _ _ Hok); lia.
Qed.

(** the instance and the array that the stores build are well-formed *)
Definition no_refs (m : memory) (o : Z) (l : list (Z * Z)) : Prop :=
  forall i, in_body m o i -> field m o i = FRef \/ field m o i = FTcb -> word_of l i = 0.

Lemma object_built s1 o c : let n := request_words (ram s) (NewObject c) in let vt := load32 (ram s) (c + c_vtable) in
  fresh_block s s1 o n OBJFLAGS_OBJECT -> has_room s n -> class_ok cls (ram s) c ->
  load32 (ram s1) (c + c_vtable) = vt /\
  let l := [(0, vt)] in fits n l /\ owords (put (ram s1) o l) o = n /\ wf_body cls (put (ram s1) o l) o /\ no_refs (put (ram s1) o l) o l.
Proof using Hok.
  intros n vt Hfr Hroom (Hc0 & Hcv & Hvt & Hvc & Evc & Hcc & Hmag & Hci & Hcm & Hmap).
  split; [refine (cls_kept _ o n _ [] _ Hfr _ Hroom Hcv); by split; [apply NoDup_nil|]|]. cbv zeta.
  assert (0 <= vt < 4294967296) as Hvr by apply load32_range.
  assert (fits n [(0, vt)]) as Hfit.
  { apply fits_words; [apply NoDup_singleton|]. intros i v Hin. list_cases Hin. pose proof (proj1 Hroom).
    pose proof (load32_range (ram s) (c + c_instanceSize)). unfold n, request_words, OBJSIZE_OBJECT, XMOFF. split_and!; done || lia. }
  destruct (build_header s s1 o n _ _ Hfr Hfit) as [Ek _]. cbn [ram set_ram] in Ek.
  pose proof (fun a => cls_kept _ o n _ _ a Hfr Hfit Hroom) as Hkept.
  assert (load32 (put (ram s1) o [(0, vt)]) o = vt) as Eo.
  { cbn [put]. rewrite Z.add_0_r, load32_store32. by apply u32_small. }
  assert (cdesc (put (ram s1) o [(0, vt)]) o = c) as Ec by (unfold cdesc; by rewrite Eo, Hkept).
  assert (isize (put (ram s1) o [(0, vt)]) o = load32 (ram s) (c + c_instanceSize)) as Ei by (unfold isize; by rewrite Ec, Hkept).
  split; [done|]. split; [unfold owords; by rewrite Ek, Ei|]. split.
  - unfold wf_body. rewrite Ek. cbv zeta. unfold has_class. change (OBJFLAGS_OBJECT =? OBJFLAGS_OBJECT) with true. cbv iota.
    rewrite Ec, Ei, Eo, !Hkept by done. split_and!; done.
  - intros i Hi Hf. unfold word_of. simpl. destruct (decide (i = 0)) as [->|]; [|by rewrite lookup_insert_ne].
    revert Hf. unfold field. rewrite Ek. by intros [?|?].
Qed.

Lemma array_built s1 o c size : let n := OBJSIZE_ARRAY_32BIT size in let vt := load32 (ram s) (c + c_vtable) in
  fresh_block s s1 o n OBJFLAGS_ARRAY -> has_room s n -> array_class_ok cls (ram s) c -> 0 <= size ->
  load32 (ram s1) (c + c_vtable) = vt /\
  let l := [(4, c); (8, size); (0, vt)] in
  fits n l /\ owords (put (ram s1) o l) o = n /\ wf_body cls (put (ram s1) o l) o /\ no_refs (put (ram s1) o l) o l.
Proof using Hok.
  intros n vt Hfr Hroom (Hcr & Hcv & Hvt & Hvc & Hcn & Hn1) Hsize.
  split; [refine (cls_kept _ o n _ [] _ Hfr _ Hroom Hcv); by split; [apply NoDup_nil|]|]. cbv zeta.
  assert (0 <= vt < 4294967296) as Hvr by apply load32_range. set (l := [(4, c); (8, size); (0, vt)]).
  assert (fits n l) as Hfit.
  { destruct Hroom as (_ & ? & Hr & ?). unfold n, HEAP_RESERVE, OBJSIZE_ARRAY_32BIT, XMOFF in *.
    apply fits_words; [apply (bool_decide_unpack _); by vm_compute|]. intros i v Hin. unfold l in Hin. list_cases Hin; split_and!; done || lia. }
  destruct (build_header s s1 o n _ _ Hfr Hfit) as [Ek _]. cbn [ram set_ram] in Ek.
  pose proof (fun a => cls_kept _ o n _ _ a Hfr Hfit Hroom) as Hkept.
  assert (forall i, (i, word_of l i) ∈ l -> load32 (put (ram s1) o l) (o + i) = word_of l i) as Hword.
  { intros i Hi. destruct Hfit as [? Hl]. pose proof (proj1 (Forall_forall _ _) Hl _ Hi) as (? & ? & ? & ?). simpl in *.
    by apply (build_word s s1 o n _ l Hfr). }
  pose proof (Hword 0 ltac:(by repeat constructor)) as W0. pose proof (Hword 4 ltac:(by repeat constructor)) as W4.
  pose proof (Hword 8 ltac:(by repeat constructor)) as W8. rewrite Z.add_0_r in W0.
  change (word_of l 0) with vt in W0. change (word_of l 4) with c in W4. change (word_of l 8) with size in W8.
  split; [done|]. split; [unfold owords; by rewrite Ek, W8|]. split.
  - unfold wf_body. rewrite Ek. unfold has_class. change (OBJFLAGS_ARRAY =? OBJFLAGS_OBJECT) with false.
    change (OBJFLAGS_ARRAY =? OBJFLAGS_ARRAY) with true. cbv iota. rewrite W0, W4, (Hkept _ Hcn). split_and!; done.
  - intros i Hi. unfold field. rewrite Ek. change (OBJFLAGS_ARRAY =? OBJFLAGS_OBJECT) with false.
    change (OBJFLAGS_ARRAY =? OBJFLAGS_ARRAY) with true. cbv iota. destruct (Z.leb_spec 12 i) as [Hge|]; [|by intros [?|?]].
    intros _. unfold word_of, l. simpl. by rewrite !lookup_insert_ne by lia.
Qed.

Lemma new_object c : class_ok cls (ram s) c -> can_allocate d (NewObject c) ->
  exists o d', alloc (NewObject c) d = Ok (o, d') /\ allocated d d' o (request_words (ram s) (NewObject c)).
Proof using Hok Hequal Es.
  intros Hclass Hcan. pose proof Hclass as (Hc0 & _ & _ & _ & _ & _ & Hmag & _).
  get_block Hcan OBJFLAGS_OBJECT Hroom o d1 Ea Hfr. rewrite Es in Ea.
  destruct (object_built (gcs d1) o c Hfr Hroom Hclass) as (Ev & Hfit & Hw & Hwf & Hno). cbn [request_words] in *.
  unfold allocate, nonatomic_allocObjectInDomain. rewrite (proj2 (Z.eqb_neq c 0) Hc0). cbn [assert_ negb rbind].
  unfold ASSERTCLASSDESC, rd at 1. rewrite Es, Hmag, Z.eqb_refl. cbn [assert_ rbind]. unfold instanceSize, rd at 1.
  rewrite Ea. cbn [rbind]. change (drd d1 (c + c_vtable)) with (load32 (ram (gcs d1)) (c + c_vtable)). rewrite Ev.
  pose proof (allocated_intro d d1 o _ _ _ Es Hfr Hfit Hroom) as HA. cbn [ram set_ram] in HA.
  eexists o, _. split; [reflexivity|]. cbn [put] in *. rewrite Z.add_0_r in *.
  apply HA; [apply (bool_decide_unpack _); by vm_compute|exact Hw|exact Hwf|exact Hno|done].
Qed.

Lemma new_array c size : array_class_ok cls (ram s) c /\ 0 <= size -> can_allocate d (NewArray c size) ->
  exists o d', alloc (NewArray c size) d = Ok (o, d') /\ allocated d d' o (OBJSIZE_ARRAY_32BIT size).
Proof using Hok Hequal Es.
  intros [Hclass Hsize] Hcan. get_block Hcan OBJFLAGS_ARRAY Hroom o d1 Ea Hfr.
  destruct (array_built (gcs d1) o c size Hfr Hroom Hclass Hsize) as (Ev & Hfit & Hw & Hwf & Hno).
  unfold allocate, specialAllocArray, allocByteArray. rewrite (proj2 (Z.ltb_ge size 0) Hsize). rewrite Ea. cbn [rbind].
  change (drd d1 (c + c_vtable)) with (load32 (ram (gcs d1)) (c + c_vtable)). rewrite Ev.
  pose proof (allocated_intro d d1 o _ _ _ Es Hfr Hfit Hroom) as HA. cbn [ram set_ram] in HA.
  eexists o, _. split; [reflexivity|]. cbn [put] in *. rewrite Z.add_0_r in *.
  apply HA; [apply (bool_decide_unpack _); by vm_compute|exact Hw|exact Hwf|exact Hno|done].
Qed.

Lemma allocate_finds_room r : request_ok cls (ram s) r -> can_allocate d r ->
  exists o d', alloc r d = Ok (o, d') /\ allocated d d' o (request_words (ram s) r).
Proof using Hok Hequal Es.
  destruct r; intros Hr Hcan.
  - by apply new_object.
  - by apply new_array.
  - by apply new_atomvar.
  - by apply new_cas.
  - by apply new_domain.
  - by apply new_thread.
Qed.

(** C4 A request that finds room in a well-formed heap succeeds, whatever the
    state of the collector: the new object is the next block of the heap, no
    byte outside it changes, and the heap with it is well-formed again. *)
Theorem allocate_extends_heap r : request_ok cls (ram s) r -> can_allocate d r ->
  exists o d', alloc r d = Ok (o, d') /\ allocated d d' o (request_words (ram s) r).
Proof using Hok Hequal Es. exact (allocate_finds_room r). Qed.
End Allocate.

(** ** Touching the reserve *)

Section Reserve.
Context {A : Type} `{!GCServices A} `{!ServiceTable A}.
Abbreviation st := (gc_state A).
Abbreviation dom := (domain_gc A).

(** [n] more words would reach into the reserve *)
Definition low (d : dom) (n : Z) : bool := u32 (heapBorder (gcs d) - 4 * HEAP_RESERVE) <? u32 (heapTop (gcs d) + 4 * n).

Lemma low_room (d : dom) n : has_room (gcs d) n -> low d n = false.
Proof.
  unfold low, has_room. intros (? & ? & ? & ?). rewrite !u32_small by (unfold HEAP_RESERVE in *; lia).
  apply Z.ltb_ge. lia.
Qed.

Lemma allocDataInDomain_low (collect : dom -> res dom) n flags (d : dom) :
  low d n = true -> has_gcThread d = true ->
  gc_new_allocDataInDomain collect false n flags d =
    let! d := collect d in
    if low d n then Err (EThrow "RuntimeException") else do_alloc n flags (u32 (heapTop (gcs d) + 4 * n)) d.
Proof.
  intros Hl Ht. unfold gc_new_allocDataInDomain, try_alloc. unfold low in Hl. rewrite Hl, Ht. cbn [negb].
  destruct (collect d) as [d1|e]; [|done]. cbn [rbind]. unfold low. by destruct (_ <? _).
Qed.

Lemma allocDataInDomain_free (collect : dom -> res dom) in_irq n flags (d : dom) :
  low d n = false ->
  gc_new_allocDataInDomain collect in_irq n flags d = do_alloc n flags (u32 (heapTop (gcs d) + 4 * n)) d.
Proof. unfold gc_new_allocDataInDomain, try_alloc, low. by intros ->. Qed.

Lemma alloc_object_retry (collect : dom -> res dom) n flags (d d1 : dom) :
  low d n = true -> has_gcThread d = true -> collect d = Ok d1 ->
  alloc_object collect false n flags d =
    if low d1 n then Err (EThrow "RuntimeException") else alloc_object collect false n flags d1.
Proof.
  intros Hl Ht E. unfold alloc_object. rewrite allocDataInDomain_low by done. rewrite E. cbn [rbind].
  destruct (low d1 n) eqn:Hl1; [done|]. by rewrite allocDataInDomain_free.
Qed.

(** what a request reads before it allocates lies in the classes *)
Lemma request_kept (cls : Z -> Prop) m m' r : (forall x, cls x -> load8 m' x = load8 m x) ->
  request_ok cls m r -> request_ok cls m' r /\ request_words m' r = request_words m r.
Proof.
  intros Hk. assert (forall a, cls32 cls a -> load32 m' a = load32 m a) as Hw.
  { intros a Ha. apply load32_ext. intros x Hx. by apply Hk, Ha. }
  destruct r; simpl; try done.
  - unfold class_ok. intros (? & Hcv & ? & Hvc & ? & Hcc & ? & Hci & Hcm & ?). by rewrite !Hw.
  - unfold array_class_ok. intros [(? & Hcv & ? & Hvc & Hcn & ?) ?]. by rewrite !Hw.
Qed.

Lemma allocate_retry (cls : Z -> Prop) (collect : dom -> res dom) r (d d1 : dom) :
  (forall x, cls x -> load8 (ram (gcs d1)) x = load8 (ram (gcs d)) x) ->
  request_ok cls (ram (gcs d)) r -> low d (request_words (ram (gcs d)) r) = true -> has_gcThread d = true ->
  collect d = Ok d1 ->
  allocate collect false r d =
    if low d1 (request_words (ram (gcs d)) r) then Err (EThrow "RuntimeException") else allocate collect false r d1.
Proof.
  intros Hk Hr Hl Ht E. destruct (request_kept cls _ _ r Hk Hr) as [Hr1 Ew].
  destruct r as [c|c size|c|c i|c v i|c]; cbn [allocate request_words] in *.
  - destruct Hr as (Hc & _ & _ & _ & _ & _ & Hm & _), Hr1 as (_ & _ & _ & _ & _ & _ & Hm1 & _).
    unfold nonatomic_allocObjectInDomain. rewrite (proj2 (Z.eqb_neq c 0) Hc). cbn [assert_ negb rbind].
    unfold ASSERTCLASSDESC, instanceSize, rd. rewrite Hm, Hm1, Z.eqb_refl. cbn [assert_ rbind].
    rewrite (alloc_object_retry _ _ _ d d1) by done. rewrite Ew. by destruct (low d1 _).
  - unfold specialAllocArray, allocByteArray. rewrite (proj2 (Z.ltb_ge size 0)) by apply Hr.
    rewrite (alloc_object_retry _ _ _ d d1) by done. by destruct (low d1 _).
  - unfold allocAtomicVariableProxyInDomain. rewrite (alloc_object_retry _ _ _ d d1) by done. by destruct (low d1 _).
  - unfold allocCASProxyInDomain. rewrite (alloc_object_retry _ _ _ d d1) by done. by destruct (low d1 _).
  - unfold allocDomainProxyInDomain. rewrite (alloc_object_retry _ _ _ d d1) by done. by destruct (low d1 _).
  - unfold allocThreadDescProxyInDomain. rewrite (alloc_object_retry _ _ _ d d1) by done. by destruct (low d1 _).
Qed.
End Reserve.

Section Collecting.
Context {A : Type} `{!GCServices A} `{!ServiceTable A}.
Abbreviation st := (gc_state A).
Abbreviation dom := (domain_gc A).
Context (domain : Z) (is_domainZero : bool) (irqs : list Z) (fuel : nat).
Context (cls : Z -> Prop) (roots : list root) (d : dom) (H : list Z).
Context (Hok : heap_ok cls roots (gcs d) H) (Hmem : memories_ok (gcs d) H).
Context (Hequal : heapBorder2 (gcs d) - heap2 (gcs d) = heapBorder (gcs d) - heap (gcs d)).
Context (Hthread : has_gcThread d = true) (Hfuel : (length H < fuel)%nat).
(** the collector thread runs one collection *)
Abbreviation collect := (gc_in domain is_domainZero fuel irqs roots).

(** C5 When a request would touch the reserve, exactly one collection runs; if
    it leaves enough room, the object is built in the heap of the survivors,
    and otherwise the request ends with a RuntimeException: it neither loops
    nor damages the heap. *)
Theorem allocate_collects_once r d1 : request_ok cls (ram (gcs d)) r ->
  low d (request_words (ram (gcs d)) r) = true -> collect d = Ok d1 ->
  exists P, collected roots (gcs d) H P (gcs d1) /\ heap_ok cls roots (gcs d1) P.*2 /\
    gc_epoch d1 = u32 (gc_epoch d + 1) /\
    if low d1 (request_words (ram (gcs d)) r) then allocate collect false r d = Err (EThrow "RuntimeException")
    else can_allocate d1 r -> exists o d2, allocate collect false r d = Ok (o, d2) /\
      allocated cls roots P.*2 d1 d2 o (request_words (ram (gcs d)) r).
Proof using Hok Hmem Hequal Hthread Hfuel.
  intros Hr Hlow E. pose proof E as E1. unfold gc_in in E1. destruct (inhibitGCFlag d); [done|].
  destruct (gc_new_gc_run domain is_domainZero irqs cls roots (gcs d) H Hok Hmem fuel Hfuel) as (s1 & P & I & Eg).
  apply rbind_ok in E1 as (s' & E2 & E1). injection E1 as Ed1.
  rewrite Eg in E2. apply rbind_ok in E2 as (x1 & _ & E2). apply rbind_ok in E2 as (x0 & _ & E2). injection E2 as <-.
  pose proof (collected_after cls roots (gcs d) H Hok s1 P x0 I) as HC.
  pose proof (heap_ok_after _ _ _ _ Hok _ _ I x0) as Hok1.
  assert (gcs d1 = swap_heaps (set_services x0 s1)) as Eg1 by (by rewrite <- Ed1). rewrite <- Eg1 in HC, Hok1.
  assert (forall x, cls x -> load8 (ram (gcs d1)) x = load8 (ram (gcs d)) x) as Hk.
  { intros x Hx. apply HC; [by apply (hk_cls _ _ _ _ Hok)|]. intros ro Hro Hin. by destruct (hk_cells _ _ _ _ Hok ro x Hro Hin). }
  exists P. split_and!; [done|done|by rewrite <- Ed1|]. rewrite (allocate_retry cls _ r d d1) by done.
  destruct (low d1 _); [done|]. intros Hcan. destruct (request_kept cls _ _ r Hk Hr) as [Hr1 Ew]. rewrite <- Ew.
  apply (allocate_finds_room cls roots (gcs d1) P.*2 Hok1); try done.
  destruct (co_space _ _ _ _ _ HC) as (-> & -> & _ & -> & -> & _). lia.
Qed.
End Collecting.

(** ** Heaps that are too small *)

Section Limits.
Context {A : Type} `{!GCServices A} `{!ServiceTable A}.
Abbreviation st := (gc_state A).
Abbreviation dom := (domain_gc A).

(** a semispace no larger than the reserve, which is [HEAP_RESERVE] words *)
Definition tiny (s : st) (n : Z) : Prop :=
  heapBorder s - heap s <= 4 * HEAP_RESERVE /\ 4 * HEAP_RESERVE <= heapBorder s < 4294967296 /\
  heap s <= heapTop s /\ 0 <= heapTop s + 4 * n < 4294967296.

(** The reserve counts words, while [gc_new_init] compares the size of the
    heap with the same number of bytes: in a domain whose heap it accepts but
    that has at most 40960 bytes, every allocation outside interrupt handlers
    ends with a RuntimeException, however little of the heap is used. *)
Theorem tiny_heap_never_allocates (collect : dom -> res dom) n flags (d d1 : dom) :
  0 < n -> has_gcThread d = true -> tiny (gcs d) n -> collect d = Ok d1 -> tiny (gcs d1) n ->
  gc_new_allocDataInDomain collect false n flags d = Err (EThrow "RuntimeException").
Proof.
  intros Hn Ht Hd E Hd1. assert (forall d : dom, tiny (gcs d) n -> low d n = true) as Hlow.
  { intros e (? & ? & ? & ?). unfold low. rewrite !u32_small by (unfold HEAP_RESERVE in *; lia). apply Z.ltb_lt. lia. }
  rewrite allocDataInDomain_low by auto. rewrite E. cbn [rbind]. by rewrite Hlow.
Qed.

(** ** The length of an array *)

(** The length of an array is not bounded: the words requested for
    2^30 - 1 elements wrap around to 16 bytes, the allocation succeeds, and
    the word that holds the length already lies behind the new object. *)
Theorem huge_array_fits (collect : dom -> res dom) in_irq c (d : dom) :
  has_room (gcs d) 4 -> can_register d ->
  (forall x, in_table d x -> x < heapTop (gcs d) \/ heapBorder (gcs d) <= x) ->
  exists o d', specialAllocArray collect in_irq c 1073741823 d = Ok (o, d') /\
    heapTop (gcs d') = heapTop (gcs d) + 16 /\ o + 8 = heapTop (gcs d') /\
    load32 (ram (gcs d')) (heapTop (gcs d')) = 1073741823.
Proof.
  intros Hroom Hreg Htab. unfold specialAllocArray, allocByteArray. change (1073741823 <? 0) with false. cbv iota.
  destruct (alloc_object_fresh collect in_irq 4 OBJFLAGS_ARRAY d Hroom Hreg ltac:(by vm_compute) Htab) as (o & d1 & Ea & Hfr & _).
  assert (alloc_object collect in_irq (OBJSIZE_ARRAY_32BIT 1073741823) OBJFLAGS_ARRAY d =
    alloc_object collect in_irq 4 OBJFLAGS_ARRAY d) as ->.
  { unfold alloc_object, gc_new_allocDataInDomain, try_alloc, do_alloc. change (OBJSIZE_ARRAY_32BIT 1073741823) with 1073741828.
    assert (forall t, u32 (t + 4 * 1073741828) = u32 (t + 4 * 4)) as Hu.
    { intros t. replace (t + 4 * 1073741828) with (t + 4 * 4 + 1 * 4294967296) by lia. apply Z_mod_plus_full. }
    change (u32 (1073741828 * 4)) with (u32 (4 * 4)). pose proof (low_room d 4 Hroom) as Hl. unfold low in Hl.
    rewrite Hu, Hl. done. }
  rewrite Ea. cbn [rbind]. eexists o, _. split; [reflexivity|].
  pose proof (fb_addr _ _ _ _ _ Hfr) as Eo. destruct Hroom as (_ & Ht & Hr & Hb). unfold HEAP_RESERVE in Hr.
  assert (heapTop (gcs d1) = heapTop (gcs d) + 16) as Et by (rewrite (fb_state _ _ _ _ _ Hfr); done).
  cbn. rewrite Et. split; [done|]. split; [lia|].
  replace (heapTop (gcs d) + 16) with (o + 8) by lia. rewrite load32_store32_ne by lia. by rewrite load32_store32.
Qed.

(** ** Registered objects *)

(** An object that is registered is found in the table until it is
    unregistered, which gives it back and restores the table; with no free
    slot the kernel panics. *)
Theorem register_unregister o (d : dom) : 0 <= o < 4294967296 -> 0 < registeredObjects d ->
  (exists i, 0 <= i < MAX_REGISTERED /\ drd d (registeredObjects d + 4 * i) = 0) ->
  exists slot d1 d2, nonatomic_registerObject o d = Ok (slot, d1) /\ in_table d slot /\ drd d1 slot = o /\
    nonatomic_unregisterObject slot d1 = Ok (o, d2) /\ forall x, load8 (ram (gcs d2)) x = load8 (ram (gcs d)) x.
Proof.
  intros Ho Hp Hfree. destruct (register_spec o d (conj Hp Hfree)) as (slot & Hs & _ & Hs0 & Hz & E).
  exists slot, (dwr slot o d), (dwr slot 0 (dwr slot o d)).
  assert (drd (dwr slot o d) slot = o) as Erd by (unfold drd, rd; cbn; rewrite load32_store32; by apply u32_small).
  split_and!; [done..| |].
  - unfold nonatomic_unregisterObject. rewrite (proj2 (Z.eqb_neq slot 0) Hs0). by rewrite Erd.
  - intros x. cbn. destruct (decide (slot <= x < slot + 4)) as [Hx|Hx]; [|by rewrite !load8_store32_ne by lia].
    rewrite (load32_zero (ram (gcs d)) slot Hz x Hx). apply (load32_zero _ slot); [|done]. by rewrite load32_store32.
Qed.
End Limits.

(** ** The semispaces come and go *)

Section Lifecycle.
Context {A B : Type} `{!Allocator B}.

Lemma gc_new_init_inv hb (s s' : gc_state A) (b b' : B) : gc_new_init hb s b = Ok (s', b') ->
  HEAP_RESERVE + 1000 < hb /\ exists h b1 h2, al_alloc hb b = Ok (h, b1) /\ al_alloc hb b1 = Ok (h2, b') /\
    s' = MkGC (ram s) h (u32 (h + 4 * (hb / 4))) h hb h2 (u32 (h2 + 4 * (hb / 4))) h2 (services s).
Proof.
  unfold gc_new_init. destruct (hb =? 0); [done|]. destruct (Z.leb_spec hb (HEAP_RESERVE + 1000)); [done|]. intros E.
  apply rbind_ok in E as ([h b1] & E1 & E). destruct (_ <? HEAP_RESERVE); [done|].
  apply rbind_ok in E as ([h2 b2] & E2 & E). injection E as <- <-. split; [done|]. by exists h, b1, h2.
Qed.

(** [gc_new_init] obtains two disjoint, empty semispaces of the requested
    size, and [gc_new_done] returns both: the allocator ends as it began. *)
Theorem gc_new_init_done hb (s s' : gc_state A) (b b' : B) : al_ok b -> hb + 1023 < 4294967296 ->
  gc_new_init hb s b = Ok (s', b') -> heap2 s' <> 0 ->
  (heapTop s' = heap s' /\ heapTop2 s' = heap2 s' /\
   heapBorder s' - heap s' = 4 * (hb / 4) /\ heapBorder2 s' - heap2 s' = 4 * (hb / 4) /\
   (heapBorder s' <= heap2 s' \/ heapBorder2 s' <= heap s')) /\
  exists s2 b2, gc_new_done s' b' = Ok (s2, b2) /\ heap s2 = 0 /\ heap2 s2 = 0 /\ al_ok b2 /\
    forall x, owned b2 x <-> owned b x.
Proof.
  intros Hb Hhb E Hnz. apply gc_new_init_inv in E as (Hmin & h & b1 & h2 & E1 & E2 & ->). cbn [heap2] in Hnz.
  unfold HEAP_RESERVE in Hmin. pose proof (al_span_le hb ltac:(lia)) as Hspan.
  destruct (al_alloc_spec hb b h b1 Hb ltac:(lia) Hhb E1) as (Hb1 & H0 & Htop & Hg & Hfree & Hown & _).
  destruct (al_alloc_spec hb b1 h2 b' Hb1 ltac:(lia) Hhb E2) as (Hb' & H02 & Htop2 & Hg2 & Hfree2 & Hown2 & Hkeep).
  assert (h + al_span hb <= h2 \/ h2 + al_span hb <= h) as Hap.
  { destruct (Z.le_gt_cases (h + al_span hb) h2) as [?|?]; [by left|right].
    destruct (Z.le_gt_cases (h2 + al_span hb) h) as [?|?]; [done|exfalso].
    apply (Hfree2 (Z.max h h2) ltac:(lia)). apply Hown. right. lia. }
  assert (4 * (hb / 4) <= hb) as Hq by (Z.div_mod_to_equations; lia). cbn.
  assert (0 <= hb / 4) by (apply Z.div_pos; lia). rewrite !u32_small by lia. split; [split_and!; lia|].
  destruct (al_free_spec hb b' h Hb' ltac:(lia) Hhb (Hkeep _ _ Hg)) as (b3 & E3 & Hb3 & Hown3 & Hkeep3).
  destruct (al_free_spec hb b3 h2 Hb3 ltac:(lia) Hhb (Hkeep3 _ _ Hg2 ltac:(lia))) as (b4 & E4 & Hb4 & Hown4 & _).
  unfold gc_new_done. cbn. rewrite E3. cbn [rbind]. rewrite (proj2 (Z.eqb_neq h2 0) Hnz), E4. cbn [rbind].
  eexists _, b4. split_and!; [reflexivity|done|done|done|]. intros x. rewrite Hown4, Hown3, Hown2, Hown.
  assert (owned b x -> ~ h <= x < h + al_span hb) as N1 by (intros ? ?; by eapply Hfree).
  assert (owned b1 x -> ~ h2 <= x < h2 + al_span hb) as N2 by (intros ? ?; by eapply Hfree2).
  rewrite Hown in N2. tauto.
Qed.
End Lifecycle.

(** ** A heap with one large dead array *)

#[local] Instance sample_services : GCServices unit := {
  dz_refcount_at _ _ := Ok 1;
  memory_deleted_dz _ x := Ok x;
  domain_id _ _ := 0;
  service_decRefcount _ _ x := Ok x;
}.
#[local] Instance sample_table : ServiceTable unit := fun _ _ _ => 0.

Definition sample_class (a : Z) : Prop := 0x8000 <= a < 0x8100.
Definition sample_roots : list root := [RRef 0x5000].
(** an [int] array of [size] elements; its class is at 0x8020, whose name is
    at 0x8040 *)
Definition sample_words (size : Z) : list (Z * Z) :=
  [(0x10010, size); (0x1000c, 0x8020); (0x10008, 0x8010); (0x10000, OBJFLAGS_ARRAY); (0x10004, MAGIC_OBJECT);
   (0x800c, 0x8020); (0x8020 + c_vtable, 0x8010); (0x8020 + c_name, 0x8090); (0x8090, 0x495b)].
Definition sample_heap (size : Z) : gc_state unit :=
  MkGC (foldr (fun p m => store32 m p.1 p.2) (fun _ => 0) (sample_words size))
    0x10000 0x20000 (0x10000 + 4 * (size + 5)) 0x10000 0x20000 0x30000 0x20000 tt.
Definition sample_domain (size : Z) : domain_gc unit := MkDomainGC (sample_heap size) 0x6000 7 false true.

Lemma sample_ok size : size = 3 \/ size = 6139 -> heap_ok sample_class sample_roots (sample_heap size) [0x10008].
Proof.
  intros Hs.
  assert (owords (ram (sample_heap size)) 0x10008 = size + 5) as Hw by (destruct Hs as [-> | ->]; by vm_compute).
  assert (okind (ram (sample_heap size)) 0x10008 = OBJFLAGS_ARRAY) as Hk by (destruct Hs as [-> | ->]; by vm_compute).
  assert (ref_array (ram (sample_heap size)) 0x10008 = false) as Hr by (destruct Hs as [-> | ->]; by vm_compute).
  split.
  - unfold sample_heap. destruct Hs as [-> | ->]; split; cbn; first [lia | split_and!; [lia|done|lia]].
  - cbn [blocks]. rewrite Hw. unfold sample_heap. cbn [heap heapTop]. lia.
  - intros o ->%list_elem_of_singleton. split.
    + rewrite Hk. apply (bool_decide_unpack _). by vm_compute.
    + destruct Hs as [-> | ->]; by vm_compute.
    + rewrite Hw. split_and!; [done|done|lia].
    + unfold wf_body. rewrite Hk. change (OBJFLAGS_ARRAY =? OBJFLAGS_OBJECT) with false.
      change (OBJFLAGS_ARRAY =? OBJFLAGS_ARRAY) with true. cbv iota. unfold has_class.
      assert (load32 (ram (sample_heap size)) 0x10008 = 0x8010) as -> by (destruct Hs as [-> | ->]; by vm_compute).
      assert (load32 (ram (sample_heap size)) (0x10008 + 4) = 0x8020) as -> by (destruct Hs as [-> | ->]; by vm_compute).
      assert (load32 (ram (sample_heap size)) (0x8020 + c_name) = 0x8090) as -> by (destruct Hs as [-> | ->]; by vm_compute).
      unfold cls32, sample_class, c_name. split_and!; intros; lia.
  - intros o ->%list_elem_of_singleton E. by rewrite Hk in E.
  - intros o i ->%list_elem_of_singleton _. unfold field. rewrite Hk, Hr. change (OBJFLAGS_ARRAY =? OBJFLAGS_OBJECT) with false.
    change (OBJFLAGS_ARRAY =? OBJFLAGS_ARRAY) with true. cbv iota. by rewrite andb_false_r.
  - intros r ->%list_elem_of_singleton. left. destruct Hs as [-> | ->]; by vm_compute.
  - unfold sample_class, elsewhere. cbn. lia.
  - unfold sample_class, elsewhere. intros r x ->%list_elem_of_singleton. cbn. lia.
  - split; [apply (bool_decide_unpack _); by vm_compute|]. intros r r' ->%list_elem_of_singleton ->%list_elem_of_singleton. lia.
Qed.

Lemma sample_memories size : memories_ok (sample_heap size) [0x10008].
Proof. intros o _ _. by exists 1. Qed.

Lemma sample_can_register size : can_register (sample_domain size).
Proof. split; [done|]. exists 0. split; [done|]. by vm_compute. Qed.
Lemma sample_table_apart size x : 0 <= size -> in_table (sample_domain size) x -> x < heapTop (sample_heap size) \/ heapBorder (sample_heap size) <= x.
Proof. unfold in_table, MAX_REGISTERED. cbn. lia. Qed.

Lemma allocate_extends_heap_witness :
  exists o d', allocate (fun d => Ok d) false (NewCAS 0x8020 8) (sample_domain 3) = Ok (o, d') /\
    allocated sample_class sample_roots [0x10008] (sample_domain 3) d' o OBJSIZE_CAS.
Proof.
  apply (allocate_extends_heap sample_class sample_roots (sample_heap 3) [0x10008] (sample_ok 3 (or_introl eq_refl)) eq_refl
    (fun d => Ok d) false (sample_domain 3) eq_refl (NewCAS 0x8020 8)).
  - simpl. lia.
  - split; [|split].
    + unfold has_room. cbn. unfold HEAP_RESERVE, OBJSIZE_CAS, XMOFF. lia.
    + apply sample_can_register.
    + intros x. by apply sample_table_apart.
Defined.

(** the state after the collection of the full heap *)
Definition sample_collected : domain_gc unit :=
  match gc_in 1 false 2 [] sample_roots (sample_domain 6139) with Ok d => d | Err _ => sample_domain 6139 end.
Lemma sample_collects : gc_in 1 false 2 [] sample_roots (sample_domain 6139) = Ok sample_collected.
Proof.
  assert (match gc_in 1 false 2 [] sample_roots (sample_domain 6139) with Ok _ => True | Err _ => False end) as HO by (by vm_compute).
  unfold sample_collected. by destruct (gc_in 1 false 2 [] sample_roots (sample_domain 6139)).
Qed.
Example sample_collected_empty : heapTop (gcs sample_collected) = 0x20000 /\ gc_epoch sample_collected = 8.
Proof. by vm_compute. Qed.

Lemma allocate_collects_once_witness :
  exists P o d2, collected sample_roots (sample_heap 6139) [0x10008] P (gcs sample_collected) /\
    allocate (gc_in 1 false 2 [] sample_roots) false (NewCAS 0x8020 8) (sample_domain 6139) = Ok (o, d2) /\
    allocated sample_class sample_roots P.*2 sample_collected d2 o OBJSIZE_CAS.
Proof.
  destruct (allocate_collects_once 1 false [] 2 sample_class sample_roots (sample_domain 6139) [0x10008]
    (sample_ok 6139 (or_intror eq_refl)) (sample_memories 6139) eq_refl eq_refl ltac:(simpl; lia)
    (NewCAS 0x8020 8) sample_collected) as (P & HP & _ & _ & Hlow).
  - simpl. lia.
  - by vm_compute.
  - exact sample_collects.
  - replace (low sample_collected _) with false in Hlow by (by vm_compute).
    destruct Hlow as (o & d2 & E & Ha); [|by exists P, o, d2].
    assert (heapTop (gcs sample_collected) = 0x20000) as Et by (by vm_compute).
    assert (heapBorder (gcs sample_collected) = 0x30000) as Eb by (by vm_compute).
    assert (registeredObjects sample_collected = 0x6000) as Er by (by vm_compute).
    split; [|split].
    + unfold has_room. rewrite Et, Eb. cbn [request_words]. unfold HEAP_RESERVE, OBJSIZE_CAS, XMOFF. lia.
    + split; [rewrite Er; lia|]. exists 0. split; [done|]. by vm_compute.
    + intros x. unfold in_table, MAX_REGISTERED. rewrite Er, Et. lia.
Defined.

Definition tiny_domain : domain_gc unit := MkDomainGC (MkGC (fun _ => 0) 0x10000 0x1a000 0x10000 0xa000 0x20000 0x2a000 0x20000 tt) 0x6000 0 false true.
Lemma tiny_heap_never_allocates_witness :
  gc_new_allocDataInDomain (fun d => Ok d) false 5 OBJFLAGS_CAS tiny_domain = Err (EThrow "RuntimeException").
Proof.
  assert (tiny (gcs tiny_domain) 5) as Ht by (unfold tiny, HEAP_RESERVE; cbn; lia).
  by apply (tiny_heap_never_allocates (fun d => Ok d) 5 OBJFLAGS_CAS tiny_domain tiny_domain).
Defined.

Lemma huge_array_fits_witness :
  exists o d', specialAllocArray (fun d => Ok d) false 0x8020 1073741823 (sample_domain 3) = Ok (o, d') /\
    o + 8 = heapTop (gcs d') /\ load32 (ram (gcs d')) (heapTop (gcs d')) = 1073741823.
Proof.
  destruct (huge_array_fits (fun d => Ok d) false 0x8020 (sample_domain 3)) as (o & d' & E & _ & Ho & Hl).
  - unfold has_room. cbn. unfold HEAP_RESERVE. lia.
  - apply sample_can_register.
  - intros x. by apply sample_table_apart.
  - by exists o, d'.
Defined.

Lemma register_unregister_witness :
  exists slot d1 d2, nonatomic_registerObject 0x10008 (sample_domain 3) = Ok (slot, d1) /\
    nonatomic_unregisterObject slot d1 = Ok (0x10008, d2).
Proof.
  destruct (register_unregister 0x10008 (sample_domain 3)) as (slot & d1 & d2 & E & _ & _ & E2 & _).
  - lia.
  - done.
  - exists 0. split; [done|]. by vm_compute.
  - by exists slot, d1, d2.
Defined.

(** 64 blocks at 1 MB, block 0 holds the bitmap *)
Definition st64 : malloc_state := MkMalloc 1048576 1114112 64 63 1 1048576 8 1 true (upd (fun _ => 0) 1048576 1).
Lemma st64_good : malloc_good st64.
Proof. split; [by constructor; vm_compute|done]. Qed.

Definition no_heap : gc_state unit := MkGC (fun _ => 0) 0 0 0 0 0 0 0 tt.
Lemma gc_new_init_done_witness :
  exists s' b' s2 b2, gc_new_init 12288 no_heap st64 = Ok (s', b') /\ gc_new_done s' b' = Ok (s2, b2) /\
    (forall x, malloc_owned b2 x <-> malloc_owned st64 x).
Proof.
  destruct (gc_new_init 12288 no_heap st64) as [[s' b']|e] eqn:E; [|by vm_compute in E].
  assert (heap2 s' <> 0) as Hnz.
  { assert (match gc_new_init 12288 no_heap st64 with Ok (s, _) => heap2 s <> 0 | Err _ => True end) as Hz by (by vm_compute).
    by rewrite E in Hz. }
  destruct (@gc_new_init_done unit _ malloc_allocator 12288 no_heap s' st64 b' st64_good ltac:(lia) E Hnz) as (_ & s2 & b2 & E2 & _ & _ & _ & Ho).
  exists s', b', s2, b2. exact (conj eq_refl (conj E2 Ho)).
Defined.
