(* ===== verification/Copy.v ===== *)
(** * Copying parameters between domains (core/portal.c)

    The references of a portal call are copied into the heap of the domain
    that receives them: [copy_reference] follows the object graph, enters each
    copy in a table of the thread, charges a quota, and gives up with
    [0xffffffff] when the heap it copies to was collected meanwhile.  Both
    heaps lie in the same memory; the state is the receiving domain, the table
    and the quota. *)

From S2P Require Import Prelude Mem CString GCHeap GCAlloc.
#[local] Open Scope Z_scope.

(** what the caller sees when it has to start again *)
Definition RESTART : Z := 0xffffffff.
Definition c_elementClass : Z := 124.
Definition c_arrayClass : Z := 88.
Definition t_name1_L : Z := 76.

(** What copying uses of the other components. *)
Class CopyServices (A : Type) := {
  implements_portal : Z -> A -> res bool;                        (* implements_interface(cl, portalInterface) *)
  portal_auto_promo : Z -> domain_gc A -> res (Z * domain_gc A); (* in the domain that sends *)
  receiver_has_class : Z -> A -> res bool;                       (* findClass(dst, cl->name) != NULL *)
  shared_array_class : Z -> A -> res (Z * A);                    (* findSharedArrayClassDescByElemClass *)
  dz_size_mem : Z -> A -> res (Z * Z);                           (* dz->size, dz->mem *)
  dz_incRefcount : Z -> A -> res A;                              (* dz->refcount++ *)
  domain_epoch : Z -> A -> Z;                                    (* domain->gc.epoch *)
}.

(** the receiving domain, [copied] of the current thread and the quota *)
Record copy_state (A : Type) := MkCopy { cp_dst : domain_gc A; copied : list (Z * Z); quota : Z }.
Arguments MkCopy {A} _ _ _.
Arguments cp_dst {A} _.
Arguments copied {A} _.
Arguments quota {A} _.

Section Copy.
Context {A : Type} `{!GCServices A} `{!ServiceTable A} `{!CopyServices A}.
Abbreviation dom := (domain_gc A).
Abbreviation cst := (copy_state A).
(** how the receiver's collector is run and whether an interrupt is handled *)
Context (collect : dom -> res dom) (in_irq : bool).
(** the two domains; the bounds of the heap of the sender *)
Context (src dst dst_id : Z) (src_heap src_heapTop : Z).
Context (max_copied : Z) (domainClass : Z).

Definition with_dst (f : dom -> dom) (c : cst) : cst := MkCopy (f (cp_dst c)) (copied c) (quota c).
Definition crd (c : cst) (a : Z) : Z := drd (cp_dst c) a.
Definition cwr (a v : Z) (c : cst) : cst := with_dst (dwr a v) c.
Definition with_services (f : A -> res A) (c : cst) : res cst :=
  let! a := f (services (gcs (cp_dst c))) in Ok (with_dst (with_gcs (set_services a)) c).

(** [if ( *quota < objsize) sys_panic(); *quota -= objsize;] *)
Definition charge (objsize : Z) (c : cst) : res cst :=
  if quota c <? objsize then Err (EPanic "") else Ok (MkCopy (cp_dst c) (copied c) (quota c - objsize)).
Definition addToRefTable (s d : Z) (c : cst) : res cst :=
  if Z.of_nat (length (copied c)) =? max_copied then Err (EPanic "too many objects copied")
  else Ok (MkCopy (cp_dst c) (copied c ++ [(s, d)]) (quota c)).
Fixpoint find_copied (ref : Z) (l : list (Z * Z)) : option Z :=
  match l with
  | [] => None
  | (s, d) :: l => if s =? ref then Some d else find_copied ref l
  end.

(** the allocation of a copy; [true] if the heap was collected by it *)
Definition alloc_copy (f : dom -> res (Z * dom)) (c : cst) : res (Z * bool * cst) :=
  let! '(o, d) := f (cp_dst c) in
  Ok (o, negb (gc_epoch (cp_dst c) =? gc_epoch d), MkCopy d (copied c) (quota c)).

(** Memory/gc_checkheap.c, for the heap from [lo] to [hi] *)
Definition gc_isValidHeapRef (lo hi ptr : Z) (c : cst) : res bool :=
  let s := gcs (cp_dst c) in
  if (ptr =? 0) || ((lo <=? ptr) && (ptr <? hi)) then Ok true else
  let flags := Z.land (getObjFlags s ptr) FLAGS_MASK in
  if (flags =? OBJFLAGS_EXTERNAL_CPUDESC) || (flags =? OBJFLAGS_EXTERNAL_STRING)
     || (flags =? OBJFLAGS_EXTERNAL_CLASS) || (flags =? OBJFLAGS_EXTERNAL_METHOD) then Ok true
  else let! _ := obj2ClassDesc ptr s in Err (EPanic "strange heap").

(** ** Objects without references *)

(** a portal to a service of the receiver becomes the service object *)
Definition copy_portal (obj : Z) (addRef : bool) (c : cst) : res (Z * cst) :=
  if obj =? 0 then Ok (0, c) else
  let targetDomain := crd c (obj + 4) in
  let targetDomainID := crd c (obj + 8) in
  let index := crd c (obj + 12) in
  if (targetDomainID =? dst_id) && negb ((targetDomainID =? 0) && (targetDomain =? 0) && (index =? 0))
  then Ok (crd c (service_entry dst index (services (gcs (cp_dst c))) + dep_obj), c) else
  let! _ := obj2ClassDesc obj (gcs (cp_dst c)) in
  let! c := charge OBJSIZE_PORTAL c in
  let! '(o, collected, c) := alloc_copy (allocProxyInDomain collect in_irq 0 targetDomain targetDomainID index) c in
  if collected then Ok (RESTART, c) else
  let! c := (if addRef then addToRefTable obj o c else Ok c) in
  Ok (o, cwr o (crd c obj) c).

Definition copy_domainproxy (obj : Z) (c : cst) : res (Z * cst) :=
  if obj =? 0 then Ok (0, c) else
  if src =? dst then Ok (obj, c) else
  let! c := charge OBJSIZE_DOMAIN c in
  let! '(o, collected, c) := alloc_copy (allocDomainProxyInDomain collect in_irq domainClass (crd c (obj + 4)) (crd c (obj + 8))) c in
  if collected then Ok (RESTART, c) else
  let! c := addToRefTable obj o c in
  Ok (o, cwr o (crd c obj) c).

(** Interface/zero_Memory_org.c; the handle is the slot of the new proxy in
    the table of registered objects *)
Definition internalallocMemoryProxyInDomain (cl dzm : Z) (d : dom) : res (Z * dom) :=
  let! '(h, d) := gc_new_allocDataInDomain collect in_irq OBJSIZE_MEMORY OBJFLAGS_MEMORY d in
  let d := dwr (drd d h) (drd d (cl + c_vtable)) d in
  let! '(size, mem) := dz_size_mem dzm (services (gcs d)) in
  let d := dwr (drd d h + 4) size d in
  let d := dwr (drd d h + 8) mem d in
  Ok (h, dwr (drd d h + 12) dzm d).
Definition allocMemoryProxyInDomainDZM (cl dzm : Z) (d : dom) : res (Z * dom) := internalallocMemoryProxyInDomain cl dzm d.

(** the only copy that does not look whether the heap was collected *)
Definition copy_memory (obj : Z) (c : cst) : res (Z * cst) :=
  let! cl := obj2ClassDesc obj (gcs (cp_dst c)) in
  if obj =? 0 then Ok (0, c) else
  if src =? dst then Ok (obj, c) else
  let! c := charge OBJSIZE_MEMORY c in
  let! _ := ASSERTMEMORY obj (gcs (cp_dst c)) in
  let! '(o, _, c) := alloc_copy (fun d =>
      let! '(h, d) := allocMemoryProxyInDomainDZM cl (drd d (obj + 12)) d in nonatomic_unregisterObject h d) c in
  let! c := addToRefTable obj o c in
  let c := cwr o (crd c obj) c in
  let c := cwr (o + 12) (crd c (obj + 12)) c in
  let! _ := assert_ "o->dz != NULL" (negb (crd c (o + 12) =? 0)) in
  let! c := with_services (dz_incRefcount (crd c (o + 12))) c in
  Ok (o, c).

(** [OBJFLAGS_FOREIGN_CPUSTATE]: domain, thread id, thread and epoch *)
Definition allocThreadDescForeignProxyInDomain (p : Z) (d : dom) : res (Z * dom) :=
  let! cl := obj2ClassDesc p (gcs d) in
  let! '(obj, d) := alloc_object collect in_irq OBJSIZE_FOREIGN_THREADDESC OBJFLAGS_FOREIGN_CPUSTATE d in
  let d := dwr obj (if cl =? 0 then 0 else drd d (cl + c_vtable)) d in
  let d := dwr (obj + 12) (p + 4) d in
  let d := dwr (obj + 8) (drd d (p + 4 + t_id)) d in
  let domain := drd d (p + 4 + t_domain) in
  let d := dwr (obj + 16) (domain_epoch domain (services (gcs d))) d in
  let! '(o, d) := allocDomainProxyInDomain collect in_irq domainClass domain (domain_id domain (services (gcs d))) d in
  Ok (obj, dwr (obj + 4) o d).
Definition copy_cpustate (obj : Z) (c : cst) : res (Z * cst) :=
  let! _ := obj2ClassDesc obj (gcs (cp_dst c)) in
  if obj =? 0 then Ok (0, c) else
  if src =? dst then Ok (obj, c) else
  let! c := charge OBJSIZE_FOREIGN_THREADDESC c in
  let! '(o, collected, c) := alloc_copy (allocThreadDescForeignProxyInDomain obj) c in
  if collected then Ok (RESTART, c) else
  let! c := addToRefTable obj o c in
  Ok (o, cwr o (crd c obj) c).
Definition copy_foreign_cpustate (obj : Z) (c : cst) : res (Z * cst) := Err (EPanic "copy foreign cpustate not yet implemented").

(** ** Objects and arrays *)

Section Content.
(** [copy_reference_internal] *)
Context (copy : Z -> cst -> res (Z * cst)).

(** the words of an instance; [b] holds what is left of a byte of the map;
    [true] to start again *)
Fixpoint copy_fields (n : nat) (k addr b obj targetObj : Z) (c : cst) : res (bool * cst) :=
  match n with
  | O => Ok (false, c)
  | S n =>
      let '(b, addr) := if k mod 8 =? 0 then (load8 (ram (gcs (cp_dst c))) addr, addr + 1) else (b, addr) in
      let slot := 4 + 4 * k in
      if Z.land b 1 =? 0
      then copy_fields n (k + 1) addr (Z.shiftr b 1) obj targetObj (cwr (targetObj + slot) (crd c (obj + slot)) c)
      else
        let! '(ref, c) := copy (crd c (obj + slot)) c in
        if ref =? RESTART then Ok (true, c)
        else copy_fields n (k + 1) addr (Z.shiftr b 1) obj targetObj (cwr (targetObj + slot) ref c)
  end.

Definition copy_object (obj : Z) (c : cst) : res (Z * cst) :=
  let! _ := ASSERTOBJECT obj (gcs (cp_dst c)) in
  let! cl := obj2ClassDesc obj (gcs (cp_dst c)) in
  let! service := implements_portal cl (services (gcs (cp_dst c))) in
  if (service : bool) then
    let! '(proxy, d) := portal_auto_promo obj (cp_dst c) in
    let! loaded := receiver_has_class cl (services (gcs d)) in
    if (loaded : bool) then Err (EThrow "RuntimeException") else copy_portal proxy true (with_dst (fun _ => d) c)
  else
    let! c := charge (u32 (OBJSIZE_OBJECT (instanceSize (gcs (cp_dst c)) cl))) c in
    let! '(targetObj, collected, c) := alloc_copy (nonatomic_allocObjectInDomain collect in_irq cl) c in
    if collected then Ok (RESTART, c) else
    let! c := addToRefTable obj targetObj c in
    let! '(again, c) := copy_fields (Z.to_nat (s32 (instanceSize (gcs (cp_dst c)) cl))) 0 (crd c (cl + c_map)) 0 obj targetObj c in
    Ok (if (again : bool) then RESTART else targetObj, c).

(** [for (i = 0; i < o->size; i++)]; [size] is the length of the array *)
Fixpoint copy_elements (n : nat) (i o ar : Z) (c : cst) : res (bool * cst) :=
  match n with
  | O => Ok (false, c)
  | S n =>
      let! '(ref, c) := copy (crd c (o + 12 + 4 * i)) c in
      if ref =? RESTART then Ok (true, c)
      else copy_elements n (i + 1) o ar (cwr (ar + 12 + 4 * i) ref c)
  end.
Fixpoint clear_elements (n : nat) (i ar : Z) (c : cst) : cst :=
  match n with
  | O => c
  | S n => clear_elements n (i + 1) ar (cwr (ar + 12 + 4 * i) 0 c)
  end.

(** [allocArrayInDomain] with the class of arrays of [elem] *)
Definition allocArrayInDomain (elem size : Z) (d : dom) : res (Z * dom) :=
  let! _ := ASSERTCLASSDESC elem (gcs d) in
  let! '(cl, d) := (if drd d (elem + c_arrayClass) =? 0
                    then let! '(cl, a) := shared_array_class elem (services (gcs d)) in Ok (cl, with_gcs (set_services a) d)
                    else Ok (drd d (elem + c_arrayClass), d)) in
  allocByteArray collect in_irq cl size d.

(** only the elements of classes whose name goes on with 'L' are references *)
Definition copy_array (obj : Z) (c : cst) : res (Z * cst) :=
  let! _ := assert_ "obj != NULL" (negb (obj =? 0)) in
  let o := obj in
  let cl := crd c (o + 4) in
  let! objsize := gc_objSize2 obj (getObjFlags (gcs (cp_dst c)) obj) (gcs (cp_dst c)) in
  let! c := (if quota c <? objsize then Err (EPanic "PER-CALL QUOTA REACHED: TOO MANY OBJECTS COPIED DURING PORTAL CALL")
             else charge objsize c) in
  let size := crd c (o + 8) in
  let! '(ar, collected, c) := alloc_copy (allocArrayInDomain (crd c (cl + c_elementClass)) size) c in
  if collected then Ok (RESTART, c) else
  let! c := addToRefTable obj ar c in
  if class_name1 (gcs (cp_dst c)) cl =? t_name1_L then
    let! '(again, c) := copy_elements (Z.to_nat size) 0 o ar c in
    if (again : bool) then Ok (RESTART, clear_elements (Z.to_nat size) 0 ar c) else Ok (ar, c)
  else Ok (ar, with_dst (with_gcs (fun s => set_ram (memcpy (ram s) (ar + 12) (o + 12) (u32 (size * 4))) s)) c).
End Content.

(** ** References *)

Fixpoint copy_reference_internal (fuel : nat) (ref : Z) (c : cst) : res (Z * cst) :=
  match fuel with
  | O => Err EFuel
  | S fuel =>
      if ref =? 0 then Ok (0, c) else
      if src =? dst then Ok (ref, c) else
      match find_copied ref (copied c) with
      | Some d => Ok (d, c)
      | None =>
          let! valid := gc_isValidHeapRef src_heap src_heapTop ref c in
          if negb valid then Err (EPanic "invalref") else
          let flags := Z.land (getObjFlags (gcs (cp_dst c)) ref) FLAGS_MASK in
          if flags =? OBJFLAGS_OBJECT then
            let! refcl := obj2ClassDesc ref (gcs (cp_dst c)) in
            let! _ := ASSERTCLASSDESC refcl (gcs (cp_dst c)) in
            copy_object (copy_reference_internal fuel) ref c
          else if flags =? OBJFLAGS_PORTAL then copy_portal ref true c
          else if flags =? OBJFLAGS_MEMORY then
            let! '(ret, c) := copy_memory ref c in
            let! valid := gc_isValidHeapRef (heap (gcs (cp_dst c))) (heapTop (gcs (cp_dst c))) ret c in
            let! _ := assert_ "gc_isValidHeapRef(dst, ret)" valid in
            Ok (ret, c)
          else if flags =? OBJFLAGS_DOMAIN then copy_domainproxy ref c
          else if flags =? OBJFLAGS_ARRAY then copy_array (copy_reference_internal fuel) ref c
          else if (flags =? OBJFLAGS_EXTERNAL_STRING) || (flags =? OBJFLAGS_EXTERNAL_CPUDESC) then Ok (ref, c)
          else if flags =? OBJFLAGS_CPUSTATE then copy_cpustate ref c
          else if flags =? OBJFLAGS_FOREIGN_CPUSTATE then copy_foreign_cpustate ref c
          else if flags =? OBJFLAGS_ATOMVAR then Err (EThrow "RuntimeException")
          else Err (EPanic "UNKNOWN OBJECT TYPE 0x%x for object %p")
      end
  end.
Definition copy_reference (fuel : nat) (ref : Z) (c : cst) : res (Z * cst) := copy_reference_internal fuel ref c.
End Copy.
