(* ===== verification/CopyInv.v ===== *)
(** * Heaps while a graph is copied into them (core/portal.c)

    Writing words of instances and arrays keeps a heap well-formed as long as
    references lead into it; the new objects of a copy are built like those of
    every allocation. *)

From S2P Require Import Prelude Mem CString GCHeap GCTheory GCInv GCScan GCCollect GCAlloc Copy.
#[local] Open Scope Z_scope.
#[local] Opaque store32 load32 memset memcpy.

(** ** The layout of instances and arrays *)

(** the words that determine it *)
Definition head_size (k : Z) : Z := if k =? OBJFLAGS_ARRAY then 12 else 4.
Definition plain_kind (k : Z) : Prop := k = OBJFLAGS_OBJECT \/ k = OBJFLAGS_ARRAY.

Lemma head_size_pos k : 4 <= head_size k.
Proof. unfold head_size. by destruct (k =? OBJFLAGS_ARRAY). Qed.

(** an object whose block and whose class are the same *)
Lemma block_same cls m m' o : (forall a, cls a -> load8 m' a = load8 m a) ->
  (forall b, o - 8 <= b < o - 8 + 4 * owords m o -> load8 m' b = load8 m b) -> same_shape cls m o m' o.
Proof.
  intros Hcls Hb. pose proof (owords_pos m o). split; [|intros i Hi _; pose proof (in_body_end _ _ _ Hi)|exact Hcls];
    apply load32_ext; intros x Hx; apply Hb; lia.
Qed.

Section Layout.
Context (cls : Z -> Prop) (m m' : memory) (o o' : Z).
Context (Hcls : forall a, cls a -> load8 m' a = load8 m a).

Lemma layout_cls32 a : cls32 cls a -> load32 m' a = load32 m a.
Proof using Hcls. intros Ha. apply load32_ext. intros x Hx. by apply Hcls, Ha. Qed.

Lemma head_layout : wf_obj cls m o -> plain_kind (okind m o) -> okind m' o' = okind m o ->
  (forall i, 0 <= i < head_size (okind m o) -> i mod 4 = 0 -> load32 m' (o' + i) = load32 m (o + i)) ->
  owords m' o' = owords m o /\ (forall i, field m' o' i = field m o i) /\ wf_body cls m' o'.
Proof using Hcls.
  intros W Hkd Ek Hh. pose proof (wf_class _ _ _ W) as B.
  assert (Ev : load32 m' o' = load32 m o).
  { rewrite <- (Z.add_0_r o'), <- (Z.add_0_r o). apply Hh; [|done]. pose proof (head_size_pos (okind m o)). lia. }
  destruct Hkd as [E|E].
  - pose proof (wf_body_at cls m o _ E B) as (Hc & H1 & H2 & H3 & H4 & H5). cbv zeta in *.
    assert (Ec : cdesc m' o' = cdesc m o) by (unfold cdesc; rewrite Ev; apply layout_cls32, Hc).
    assert (Ei : isize m' o' = isize m o) by (unfold isize; rewrite Ec; by apply layout_cls32).
    split_and!.
    + unfold owords. rewrite Ek, E. simpl. by rewrite Ei.
    + intros i. unfold field. rewrite Ek, E. simpl. rewrite Ec, Ei. set (j := (i - 4) / 4).
      destruct (Z.leb_spec 0 j); [|done]. destruct (Z.ltb_spec j (isize m o)); [|done]. simpl.
      unfold mapbit. rewrite (layout_cls32 _ H4), (Hcls _ (H5 j ltac:(lia))). done.
    + unfold wf_body. rewrite Ek, E. simpl. unfold has_class. rewrite Ec, Ev, Ei.
      rewrite (layout_cls32 _ H1), (layout_cls32 _ H4). split_and!; try done; apply Hc.
  - pose proof (wf_body_at cls m o _ E B) as (Hc & H1 & H2). simpl in Hc, H1, H2.
    assert (E4 : load32 m' (o' + 4) = load32 m (o + 4)) by (apply Hh; [rewrite E; done|done]).
    assert (E8 : load32 m' (o' + 8) = load32 m (o + 8)) by (apply Hh; [rewrite E; done|done]).
    assert (Er : ref_array m' o' = ref_array m o) by (unfold ref_array; rewrite E4, (layout_cls32 _ H1), (Hcls _ H2); done).
    split_and!.
    + unfold owords. rewrite Ek, E. simpl. by rewrite E8.
    + intros i. unfold field. rewrite Ek, E. simpl. by rewrite Er.
    + unfold wf_body. rewrite Ek, E. simpl. unfold has_class. rewrite Ev, E4, (layout_cls32 _ H1). done.
Qed.
End Layout.

(** ** Writing into a well-formed heap *)

Section Change.
Context {A : Type} `{!GCServices A}.
Abbreviation st := (gc_state A).
Context (cls : Z -> Prop) (roots : list root) (s : st) (H : list Z) (Hok : heap_ok cls roots s H).
Context (m' : memory).
Abbreviation m := (ram s).
Context (Hcls : forall a, cls a -> load8 m' a = load8 m a).
Context (Hroots : forall r, r ∈ roots -> load32 m' (root_addr r) = load32 m (root_addr r)).

(** the objects keep their layout, and their references lead into the heap *)
Definition object_kept (o : Z) : Prop :=
  wf_obj cls m' o /\ okind m' o = okind m o /\ owords m' o = owords m o /\ (forall i, field m' o i = field m o i) /\
  (okind m o = OBJFLAGS_CPUSTATE -> load32 m' (o + 4 + t_processingDEP) = load32 m (o + 4 + t_processingDEP)) /\
  forall i, in_body m o i -> ref_ok cls m H (field m o i) (load32 m' (o + i)).

Lemma blocks_kept l : forall a top, (forall o, o ∈ l -> owords m' o = owords m o) -> blocks m a l top -> blocks m' a l top.
Proof.
  induction l as [|o l IH]; intros a top Hw; [done|]. cbn [blocks]. intros [-> HB]. split; [done|].
  rewrite Hw by apply list_elem_of_here. apply IH; [|done]. intros x Hx. by apply Hw, list_elem_of_further.
Qed.

Lemma heap_ok_change : (forall o, o ∈ H -> object_kept o) -> heap_ok cls roots (set_ram m' s) H.
Proof using Hok Hcls Hroots.
  intros Hk. pose proof Hok as [G B W D R Ro C Ce Di].
  assert (Href : forall k v, ref_ok cls m H k v -> ref_ok cls m' H k v).
  { intros [] v; simpl; try done.
    - intros [?|[?|[Hc Hv]]]; [by left|by right; left|right; right]. by rewrite (layout_cls32 cls m m' Hcls).
    - intros [?|[Hv Hkd]]; [by left|right]. split; [done|]. destruct (Hk _ Hv) as (_ & -> & _). done. }
  split; cbn [ram set_ram].
  - by destruct G.
  - change (heap _) with (heap s). change (heapTop _) with (heapTop s). apply blocks_kept; [|done]. intros o Ho. by apply Hk.
  - intros o Ho. by apply Hk.
  - intros o Ho. destruct (Hk o Ho) as (_ & Ek & _ & _ & Hd & _). intros E. rewrite Ek in E. rewrite Hd by done.
    destruct (D o Ho E) as [?|[Hv Es]]; [by left|right]. split; [done|]. by destruct (Hk _ Hv) as (_ & -> & _).
  - intros o i Ho Hi. destruct (Hk o Ho) as (_ & _ & Ew & Ef & _ & Hr). rewrite Ef. apply Href, Hr. unfold in_body in *. by rewrite <- Ew.
  - intros r Hr. rewrite Hroots by done. by apply Href, Ro.
  - exact C.
  - exact Ce.
  - exact Di.
Qed.

(** an object whose words are the same *)
Lemma object_same o : o ∈ H -> load32 m' (o - 8) = load32 m (o - 8) -> load32 m' (o - 4) = load32 m (o - 4) ->
  (forall i, in_body m o i -> load32 m' (o + i) = load32 m (o + i)) -> object_kept o.
Proof using Hok Hcls.
  intros Ho Hk Hm Hb. pose proof (hk_wf _ _ _ _ Hok o Ho) as W.
  assert (Hs : same_shape cls m o m' o) by (split; [exact Hk|intros i Hi _; by apply Hb|exact Hcls]).
  assert (Hw : owords m' o = owords m o) by (by eapply shape_words).
  split_and!; [|exact Hk|exact Hw|by eapply shape_field| |].
  - apply (shape_wf _ _ _ _ _ W Hs); [|apply (wf_addr _ _ _ W)..]. rewrite Hm. apply (wf_magic _ _ _ W).
  - intros E. rewrite <- !Z.add_assoc. apply Hb. unfold in_body, owords. by rewrite E.
  - intros i Hi. rewrite Hb by done. by apply (hk_refs _ _ _ _ Hok).
Qed.

(** an instance or an array whose header and vtable, and whose class and
    length, are the same *)
Lemma object_head o : o ∈ H -> plain_kind (okind m o) ->
  load32 m' (o - 8) = load32 m (o - 8) -> load32 m' (o - 4) = load32 m (o - 4) ->
  (forall i, 0 <= i < head_size (okind m o) -> i mod 4 = 0 -> load32 m' (o + i) = load32 m (o + i)) ->
  (forall i, in_body m o i -> ref_ok cls m H (field m o i) (load32 m' (o + i))) -> object_kept o.
Proof using Hok Hcls.
  intros Ho Hkd Hk Hm Hh Hr. pose proof (hk_wf _ _ _ _ Hok o Ho) as W.
  destruct (head_layout cls m m' o o Hcls W Hkd Hk Hh) as (Ew & Ef & Hb).
  assert (Ek : okind m' o = okind m o) by exact Hk. split_and!; try done.
  - split; [rewrite Ek; apply W|rewrite Hm; apply W|rewrite Ew; apply W|done].
  - intros E'. rewrite E' in Hkd. by destruct Hkd.
Qed.
End Change.

(** only words outside the objects, the classes and the root cells differ *)
Lemma heap_ok_words {A} `{!GCServices A} cls roots (s : gc_state A) H m' :
  heap_ok cls roots s H -> (forall a, cls a -> load8 m' a = load8 (ram s) a) ->
  (forall r, r ∈ roots -> load32 m' (root_addr r) = load32 (ram s) (root_addr r)) ->
  (forall o, o ∈ H -> load32 m' (o - 8) = load32 (ram s) (o - 8) /\ load32 m' (o - 4) = load32 (ram s) (o - 4) /\
     forall i, in_body (ram s) o i -> load32 m' (o + i) = load32 (ram s) (o + i)) ->
  heap_ok cls roots (set_ram m' s) H.
Proof.
  intros Hok Hcls Hroots Hb. apply heap_ok_change; try done. intros o Ho. destruct (Hb o Ho) as (? & ? & ?). by apply (object_same cls roots).
Qed.

Section Store.
Context {A : Type} `{!GCServices A}.
Abbreviation st := (gc_state A).
Context (cls : Z -> Prop) (roots : list root) (s : st) (H : list Z) (Hok : heap_ok cls roots s H).

(** distinct objects lie apart *)
Lemma heap_apart o o' : o ∈ H -> o' ∈ H -> o <> o' ->
  o - 8 + 4 * owords (ram s) o <= o' - 8 \/ o' - 8 + 4 * owords (ram s) o' <= o - 8.
Proof using Hok.
  intros Ho Ho' Hne. destruct (blocks_bounds _ _ _ _ (hk_blocks _ _ _ _ Hok)) as (_ & _ & _ & Hd).
  destruct (Z.lt_ge_cases o o') as [Hlt|Hge]; [left|right].
  - pose proof (Hd o o' Ho Ho' Hlt). lia.
  - pose proof (Hd o' o Ho' Ho ltac:(lia)). lia.
Qed.

(** the contents of the object [o] are overwritten *)
Section Contents.
Context (o : Z) (m' : memory) (Ho : o ∈ H) (Hk : plain_kind (okind (ram s) o)).
Context (Hout : forall x, x < o + head_size (okind (ram s) o) \/ o - 8 + 4 * owords (ram s) o <= x -> load8 m' x = load8 (ram s) x).
Context (Hr : forall i, in_body (ram s) o i -> ref_ok cls (ram s) H (field (ram s) o i) (load32 m' (o + i))).

Lemma contents_outside x : elsewhere s x -> load8 m' x = load8 (ram s) x.
Proof using Hok Ho Hout.
  destruct (h_block Hok o Ho) as [Hb1 Hb2]. destruct (geo_used _ (hk_geo _ _ _ _ Hok)) as [G1 G2].
  pose proof (head_size_pos (okind (ram s) o)). intros [[?|?] _]; apply Hout; [left|right]; lia.
Qed.
Lemma contents_kept o' : o' ∈ H -> object_kept cls s H m' o'.
Proof using Hok Ho Hk Hout Hr.
  intros Ho'. pose proof (head_size_pos (okind (ram s) o)) as Hhs.
  assert (Hcls : forall a, cls a -> load8 m' a = load8 (ram s) a) by (intros a Ha; by apply contents_outside, (hk_cls _ _ _ _ Hok)).
  destruct (decide (o' = o)) as [->|Hne].
  - apply (object_head cls roots); try done.
    + apply load32_ext. intros x Hx. apply Hout. lia.
    + apply load32_ext. intros x Hx. apply Hout. lia.
    + intros i Hi Hi4. apply load32_ext. intros x Hx. apply Hout. left. unfold head_size in *.
      destruct (_ =? _); Z.div_mod_to_equations; lia.
  - assert (Hx : forall x, o' - 8 <= x < o' - 8 + 4 * owords (ram s) o' -> load8 m' x = load8 (ram s) x).
    { intros x Hx. apply Hout. destruct (heap_apart o o' Ho Ho') as [?|?]; [done|right|left]; lia. }
    pose proof (owords_pos (ram s) o'). apply (object_same cls roots); try done.
    + apply load32_ext. intros x ?. apply Hx. lia.
    + apply load32_ext. intros x ?. apply Hx. lia.
    + intros i Hi. pose proof (in_body_end _ _ _ Hi). apply load32_ext. intros x ?. apply Hx. lia.
Qed.
Lemma heap_ok_contents : heap_ok cls roots (set_ram m' s) H.
Proof using Hok Ho Hk Hout Hr.
  apply heap_ok_change; [done| | |apply contents_kept].
  - intros a Ha. by apply contents_outside, (hk_cls _ _ _ _ Hok).
  - intros r Hr'. apply load32_ext. intros x Hx. by apply contents_outside, (hk_cells _ _ _ _ Hok r x).
Qed.
End Contents.

Section Word.
Context (o i v : Z) (Ho : o ∈ H) (Hk : plain_kind (okind (ram s) o)) (Hi : in_body (ram s) o i).
Context (Hh : head_size (okind (ram s) o) <= i) (Hr : ref_ok cls (ram s) H (field (ram s) o i) (u32 v)).
Lemma store_word_out x : x < o + head_size (okind (ram s) o) \/ o - 8 + 4 * owords (ram s) o <= x ->
  load8 (store32 (ram s) (o + i) v) x = load8 (ram s) x.
Proof using Hi Hh. intros Hx. pose proof (in_body_end _ _ _ Hi). apply load8_store32_ne. lia. Qed.
Lemma store_word_refs j : in_body (ram s) o j -> ref_ok cls (ram s) H (field (ram s) o j) (load32 (store32 (ram s) (o + i) v) (o + j)).
Proof using Hok Ho Hi Hr.
  intros Hj. destruct (decide (j = i)) as [->|Hne]; [by rewrite load32_store32|].
  rewrite load32_store32_ne; [by apply (hk_refs _ _ _ _ Hok)|]. destruct Hi as [_ Hi4], Hj as [_ Hj4]. Z.div_mod_to_equations. lia.
Qed.
Lemma heap_ok_store : heap_ok cls roots (wr (o + i) v s) H.
Proof using Hok Ho Hk Hi Hh Hr. apply (heap_ok_contents o); [done|done|exact store_word_out|exact store_word_refs]. Qed.
Lemma store_kept o' : o' ∈ H -> object_kept cls s H (store32 (ram s) (o + i) v) o'.
Proof using Hok Ho Hk Hi Hh Hr. apply (contents_kept o); [done|done|exact store_word_out|exact store_word_refs]. Qed.
End Word.
End Store.

Lemma heap_ok_services {A} `{!GCServices A} cls roots (s : gc_state A) H a :
  heap_ok cls roots s H -> heap_ok cls roots (set_services a s) H.
Proof. intros [[] ? ? ? ? ? ? ? ?]. split; try done. Qed.

(** ** New copies *)

Section NewCopy.
Context {A : Type} `{!GCServices A} `{!ServiceTable A} `{!CopyServices A}.
Abbreviation dom := (domain_gc A).
Context (collect : dom -> res dom) (in_irq : bool).
Context (cls : Z -> Prop) (roots : list root) (d : dom) (H : list Z) (Hok : heap_ok cls roots (gcs d) H).
Context (Hequal : heapBorder2 (gcs d) - heap2 (gcs d) = heapBorder (gcs d) - heap (gcs d)).
(** bytes that creating a portal may change: reference counts of services *)
Context (rc : Z -> Prop).
Context (Hrc : forall x, rc x -> elsewhere (gcs d) x /\ ~ cls x /\ forall r, r ∈ roots -> ~ root_addr r <= x < root_addr r + 4).

Definition ready (n : Z) : Prop :=
  has_room (gcs d) n /\ can_register d /\ forall x, in_table d x -> x < heapTop (gcs d) \/ heapBorder (gcs d) <= x.

(** [d'] is [d] with one more object of kind [k], whose words are [l] *)
Record new_copy (d' : dom) (o n k : Z) (l : list (Z * Z)) : Prop := {
  nc_addr : o = heapTop (gcs d) + 8;
  nc_heap : heap_ok cls roots (gcs d') (H ++ [o]);
  nc_dom : d' = with_gcs (fun _ => gcs d') d;
  nc_state : gcs d' = set_services (services (gcs d')) (set_ram (ram (gcs d')) (set_heapTop (heapTop (gcs d) + 4 * n) (gcs d)));
  nc_kind : okind (ram (gcs d')) o = k;
  nc_size : owords (ram (gcs d')) o = n;
  nc_word : forall i, 0 <= i -> i mod 4 = 0 -> i + 4 <= 4 * n - 8 -> load32 (ram (gcs d')) (o + i) = word_of l i;
  nc_out : forall x, ~ rc x -> x < o - 8 \/ o - 8 + 4 * n <= x -> load8 (ram (gcs d')) x = load8 (ram (gcs d)) x;
}.

Lemma nc_intro (d1 : dom) m' a' o n k l :
  fresh_block (gcs d) (gcs d1) o n k -> d1 = with_gcs (fun _ => gcs d1) d -> fits n l -> has_room (gcs d) n -> k ∈ kinds ->
  owords (put (ram (gcs d1)) o l) o = n -> wf_body cls (put (ram (gcs d1)) o l) o -> no_refs (put (ram (gcs d1)) o l) o l ->
  (k = OBJFLAGS_CPUSTATE -> word_of l (4 + t_processingDEP) = 0) ->
  (forall i, -8 <= i -> i mod 4 = 0 -> i + 4 <= 4 * n - 8 -> load32 m' (o + i) = load32 (put (ram (gcs d1)) o l) (o + i)) ->
  (forall x, ~ rc x -> x < o - 8 \/ o - 8 + 4 * n <= x -> load8 m' x = load8 (ram (gcs d)) x) ->
  new_copy (with_gcs (fun s => set_services a' (set_ram m' s)) d1) o n k l.
Proof using GCServices0 Hok Hequal Hrc.
  intros Hfr Ed Hfit Hroom Hk Hw Hwf Hno Hdep Hword Hout.
  pose proof (built_heap_ok cls roots (gcs d) H Hok Hequal (gcs d1) o n k l Hfr Hfit Hroom Hk Hw Hwf Hno Hdep) as HB.
  pose proof (fb_addr _ _ _ _ _ Hfr) as Eo. pose proof (build_out _ _ o n k l Hfr Hfit) as Hbo.
  destruct (build_header _ _ o n k l Hfr Hfit) as [Ek Em]. cbn [ram set_ram] in Ek, Em, Hbo.
  pose proof Hroom as (Hn & _ & Hr & _). unfold HEAP_RESERVE in Hr.
  destruct (geo_used _ (hk_geo _ _ _ _ Hok)) as [G1 G2].
  assert (Hsame : forall x, ~ rc x -> x < o - 8 \/ o - 8 + 4 * n <= x -> load8 m' x = load8 (put (ram (gcs d1)) o l) x).
  { intros x Hx Hx2. by rewrite Hbo, Hout. }
  assert (Hfar : forall x, elsewhere (gcs d) x -> x < o - 8 \/ o - 8 + 4 * n <= x) by (intros x [[?|?] _]; lia).
  pose proof (Hword (-8) ltac:(lia) ltac:(done) ltac:(lia)) as Hm8. pose proof (Hword (-4) ltac:(lia) ltac:(done) ltac:(lia)) as Hm4.
  change (o + -8) with (o - 8) in Hm8. change (o + -4) with (o - 4) in Hm4.
  assert (Hw0 : forall i, in_body (put (ram (gcs d1)) o l) o i -> load32 m' (o + i) = load32 (put (ram (gcs d1)) o l) (o + i)).
  { intros i Hi. pose proof (in_body_end _ _ _ Hi). rewrite Hw in *. apply Hword; [lia|apply Hi|lia]. }
  assert (HB2 : heap_ok cls roots (set_ram m' (set_ram (put (ram (gcs d1)) o l) (gcs d1))) (H ++ [o])).
  { apply heap_ok_words; [exact HB| | |].
    - intros a Ha. apply Hsame; [intros Hx; by destruct (Hrc a Hx) as (_ & ? & _)|]. by apply Hfar, (hk_cls _ _ _ _ Hok).
    - intros r Hr'. apply load32_ext. intros x Hx. apply Hsame; [|by apply Hfar, (hk_cells _ _ _ _ Hok r x)].
      intros Hx'. destruct (Hrc x Hx') as (_ & _ & Hc). by apply (Hc r).
    - assert (Hblk : forall o', o' ∈ H -> forall x, o' - 8 <= x < o' - 8 + 4 * owords (ram (gcs d)) o' -> load8 m' x = load8 (put (ram (gcs d1)) o l) x).
      { intros o' Ho' x Hx. destruct (h_block Hok o' Ho'). apply Hsame; [|left; lia].
        intros Hx'. destruct (Hrc x Hx') as ([[?|?] _] & _); lia. }
      intros o' [Ho'|Ho'%list_elem_of_singleton]%elem_of_app; [|subst o'; done].
      pose proof (owords_pos (ram (gcs d)) o'). cbn [ram set_ram]. split_and!.
      + apply load32_ext. intros x Hx. apply (Hblk o'); [done|lia].
      + apply load32_ext. intros x Hx. apply (Hblk o'); [done|lia].
      + intros i Hi. assert (Ew : owords (put (ram (gcs d1)) o l) o' = owords (ram (gcs d)) o').
        { by apply (grow_old cls roots (gcs d) (set_ram (put (ram (gcs d1)) o l) (gcs d1)) H o n Hok Eo Hbo ltac:(lia)). }
        pose proof (in_body_end _ _ _ Hi) as Hie. rewrite Ew in Hie. apply load32_ext. intros x Hx. apply (Hblk o'); [done|lia]. }
  pose proof (heap_ok_services cls roots _ _ a' HB2) as HB3.
  assert (Es : gcs d1 = set_ram (ram (gcs d1)) (set_heapTop (heapTop (gcs d) + 4 * n) (gcs d))) by apply (fb_state _ _ _ _ _ Hfr).
  split; cbn [gcs with_gcs ram set_ram set_services services]; try done.
  - rewrite Ed. done.
  - rewrite Es. done.
  - unfold okind. rewrite Hm8. exact Ek.
  - rewrite <- Hw. assert (Hs : same_shape cls (put (ram (gcs d1)) o l) o m' o).
    { split; [unfold okind; exact Hm8|intros i Hi _; by apply Hw0|].
      intros a Ha. apply Hsame; [intros Hx; by destruct (Hrc a Hx) as (_ & ? & _)|]. by apply Hfar, (hk_cls _ _ _ _ Hok). }
    eapply shape_words; [|exact Hs]. apply (hk_wf _ _ _ _ HB). apply elem_of_app. right. apply list_elem_of_here.
  - intros i H0 H4 Hi. rewrite Hword by lia. by apply (build_word (gcs d) (gcs d1) o n k l Hfr Hfit).
Qed.

(** the stores of [l] and nothing else *)
Lemma nc_plain (d1 : dom) o n k l :
  fresh_block (gcs d) (gcs d1) o n k -> d1 = with_gcs (fun _ => gcs d1) d -> fits n l -> has_room (gcs d) n -> k ∈ kinds ->
  owords (put (ram (gcs d1)) o l) o = n -> wf_body cls (put (ram (gcs d1)) o l) o -> no_refs (put (ram (gcs d1)) o l) o l ->
  (k = OBJFLAGS_CPUSTATE -> word_of l (4 + t_processingDEP) = 0) ->
  new_copy (with_gcs (set_ram (put (ram (gcs d1)) o l)) d1) o n k l.
Proof using GCServices0 Hok Hequal Hrc.
  intros Hfr Ed Hfit. intros.
  refine (nc_intro d1 (put (ram (gcs d1)) o l) (services (gcs d1)) o n k l Hfr Ed Hfit _ _ _ _ _ _ _ _); try done.
  intros x _ Hx. exact (build_out _ _ o n k l Hfr Hfit x Hx).
Qed.

Lemma copy_new_object c : class_ok cls (ram (gcs d)) c -> ready (request_words (ram (gcs d)) (NewObject c)) ->
  exists o d', nonatomic_allocObjectInDomain collect in_irq c d = Ok (o, d') /\ services (gcs d') = services (gcs d) /\
    new_copy d' o (request_words (ram (gcs d)) (NewObject c)) OBJFLAGS_OBJECT [(0, load32 (ram (gcs d)) (c + c_vtable))].
Proof using GCServices0 ServiceTable0 Hok Hequal Hrc.
  intros Hclass (Hroom & Hreg & Htab). pose proof Hclass as (Hc0 & _ & _ & _ & _ & _ & Hmag & _).
  destruct (alloc_object_fresh collect in_irq _ OBJFLAGS_OBJECT d Hroom Hreg ltac:(by vm_compute) Htab) as (o & d1 & Ea & Hfr & Ed).
  destruct (object_built cls roots (gcs d) H Hok (gcs d1) o c Hfr Hroom Hclass) as (Ev & Hfit & Hw & Hwf & Hno). cbn [request_words] in *.
  unfold nonatomic_allocObjectInDomain. rewrite (proj2 (Z.eqb_neq c 0) Hc0). cbn [assert_ negb rbind].
  unfold ASSERTCLASSDESC, rd at 1. rewrite Hmag, Z.eqb_refl. cbn [assert_ rbind]. unfold instanceSize, rd at 1.
  rewrite Ea. cbn [rbind]. change (drd d1 (c + c_vtable)) with (load32 (ram (gcs d1)) (c + c_vtable)). rewrite Ev.
  pose proof (nc_plain d1 o _ _ _ Hfr Ed Hfit Hroom ltac:(apply (bool_decide_unpack _); by vm_compute) Hw Hwf Hno ltac:(done)) as HN.
  eexists o, _. split; [reflexivity|]. cbn [put] in HN. rewrite Z.add_0_r in HN. split; [|exact HN].
  cbn. by rewrite (fb_state _ _ _ _ _ Hfr).
Qed.

Lemma copy_new_array c size : array_class_ok cls (ram (gcs d)) c -> 0 <= size -> ready (OBJSIZE_ARRAY_32BIT size) ->
  exists o d', allocByteArray collect in_irq c size d = Ok (o, d') /\ services (gcs d') = services (gcs d) /\
    new_copy d' o (OBJSIZE_ARRAY_32BIT size) OBJFLAGS_ARRAY [(4, c); (8, size); (0, load32 (ram (gcs d)) (c + c_vtable))].
Proof using GCServices0 ServiceTable0 Hok Hequal Hrc.
  intros Hclass Hsize (Hroom & Hreg & Htab).
  destruct (alloc_object_fresh collect in_irq _ OBJFLAGS_ARRAY d Hroom Hreg ltac:(by vm_compute) Htab) as (o & d1 & Ea & Hfr & Ed).
  destruct (array_built cls roots (gcs d) H Hok (gcs d1) o c size Hfr Hroom Hclass Hsize) as (Ev & Hfit & Hw & Hwf & Hno).
  unfold allocByteArray. rewrite Ea. cbn [rbind]. change (drd d1 (c + c_vtable)) with (load32 (ram (gcs d1)) (c + c_vtable)). rewrite Ev.
  pose proof (nc_plain d1 o _ _ _ Hfr Ed Hfit Hroom ltac:(apply (bool_decide_unpack _); by vm_compute) Hw Hwf Hno ltac:(done)) as HN.
  eexists o, _. split; [reflexivity|]. cbn [put] in HN. rewrite Z.add_0_r in HN. split; [|exact HN].
  cbn. by rewrite (fb_state _ _ _ _ _ Hfr).
Qed.

(** proxies: four words, no references *)
Lemma fits_proxy n (l : list (Z * Z)) : l.*1 ⊆ [0; 4; 8; 12] -> NoDup l.*1 -> 6 <= n ->
  Forall (fun p => 0 <= p.2 < 4294967296) l -> fits n l.
Proof using.
  intros Hs Hn H6 Hl. apply fits_words; [done|]. intros i v Hin. rewrite Forall_forall in Hl. specialize (Hl _ Hin). cbn in Hl.
  assert (Hi : i ∈ [0; 4; 8; 12]) by (apply Hs, list_elem_of_fmap; by exists (i, v)).
  rewrite !elem_of_cons, elem_of_nil in Hi. decompose [or] Hi; subst; try done; split_and!; done || lia.
Qed.
Ltac proxy_fits := apply fits_proxy; [apply (bool_decide_unpack _); by vm_compute|apply (bool_decide_unpack _); by vm_compute|by vm_compute|];
  repeat (apply Forall_cons_2 || apply Forall_nil_2); cbn; auto with words; lia.

(** [e] is [d0] but for the memory *)
Definition ram_of (d0 e : dom) : Prop := e = with_gcs (set_ram (ram (gcs e))) d0.
Lemma ram_of_dwr d0 e a v : ram_of d0 e -> ram_of d0 (dwr a v e).
Proof using. unfold ram_of. intros ->. by destruct d0 as [[]]. Qed.
Lemma ram_of_self d0 a v : ram_of (dwr a v d0) d0.
Proof using. by destruct d0 as [[]]. Qed.
Lemma ram_of_services d0 e : ram_of d0 e -> e = with_gcs (fun s => set_services (services (gcs d0)) (set_ram (ram (gcs e)) s)) d0.
Proof using. unfold ram_of. intros E. rewrite E at 1. by destruct d0 as [[]]. Qed.

(** [o]'s words are read through the stores that follow its creation *)
Ltac read_words := repeat (rewrite load32_store32 || rewrite load32_store32_ne by lia); try reflexivity.

(** the vtable is set last, to that of the original *)
Lemma copy_new_domain c v i vt : 0 <= v < 4294967296 -> 0 <= i < 4294967296 -> 0 <= vt < 4294967296 -> ready OBJSIZE_DOMAIN ->
  exists o d', allocDomainProxyInDomain collect in_irq c v i d = Ok (o, d') /\ services (gcs d') = services (gcs d) /\
    gc_epoch d' = gc_epoch d /\ new_copy (dwr o vt d') o OBJSIZE_DOMAIN OBJFLAGS_DOMAIN [(0, vt); (4, v); (8, i)].
Proof using GCServices0 ServiceTable0 Hok Hequal Hrc.
  intros Hv Hi Hvt (Hroom & Hreg & Htab).
  destruct (alloc_object_fresh collect in_irq _ OBJFLAGS_DOMAIN d Hroom Hreg ltac:(by vm_compute) Htab) as (o & d1 & Ea & Hfr & Ed).
  unfold allocDomainProxyInDomain. rewrite Ea. cbn [rbind].
  assert (Hfit : fits OBJSIZE_DOMAIN [(0, vt); (4, v); (8, i)]).
  { apply fits_words; [apply (bool_decide_unpack _); by vm_compute|]. intros j w Hin.
    rewrite !elem_of_cons, elem_of_nil in Hin. decompose [or] Hin; simplify_eq; try done; split_and!; done || lia. }
  destruct (build_header _ _ o _ _ _ Hfr Hfit) as [Ek _]. cbn [ram set_ram] in Ek.
  eexists o, _. split; [reflexivity|]. split; [cbn; by rewrite (fb_state _ _ _ _ _ Hfr)|]. split; [by rewrite Ed|].
  refine (nc_intro d1 (store32 (ram (gcs (dwr (o + 8) i (dwr (o + 4) v (dwr o (drd d1 (c + c_vtable)) d1))))) o vt) (services (gcs d1)) o _ OBJFLAGS_DOMAIN _ Hfr Ed Hfit Hroom _ _ _ _ _ _ _).
  - apply (bool_decide_unpack _). by vm_compute.
  - unfold owords. by rewrite Ek.
  - unfold wf_body. by rewrite Ek.
  - intros j Hj. unfold field. rewrite Ek. by intros [?|?].
  - done.
  - change OBJSIZE_DOMAIN with 5. intros j Hj Hj4 Hj2. cbn [put].
    assert (j = -8 \/ j = -4 \/ j = 0 \/ j = 4 \/ j = 8) as Hc by (Z.div_mod_to_equations; lia).
    cbn. destruct Hc as [->|[->|[->|[->| ->]]]]; rewrite ?Z.add_0_r; read_words.
  - change OBJSIZE_DOMAIN with 5. intros x _ Hx. cbn. change OBJSIZE_DOMAIN with 5 in Hfr. rewrite !load8_store32_ne by lia.
    by apply (fb_out _ _ _ _ _ Hfr).
Qed.

Lemma copy_new_portal td tid idx vt :
  0 <= td < 4294967296 -> 0 <= tid < 4294967296 -> 0 <= idx < 4294967296 -> 0 < vt < 4294967296 -> cls32 cls (vt - 4) ->
  (td <> 0 -> domain_id td (services (gcs d)) = tid ->
   forall x, 0 <= x - (service_entry td idx (services (gcs d)) + dep_refcount) < 4 -> rc x) ->
  ready OBJSIZE_PORTAL ->
  exists o d', allocProxyInDomain collect in_irq 0 td tid idx d = Ok (o, d') /\ services (gcs d') = services (gcs d) /\
    gc_epoch d' = gc_epoch d /\ new_copy (dwr o vt d') o OBJSIZE_PORTAL OBJFLAGS_PORTAL [(4, td); (8, tid); (12, idx); (0, vt)].
Proof using GCServices0 ServiceTable0 Hok Hequal Hrc.
  intros Htd Htid Hidx Hvt Hcls Hsvc (Hroom & Hreg & Htab).
  destruct (alloc_object_fresh collect in_irq _ OBJFLAGS_PORTAL d Hroom Hreg ltac:(by vm_compute) Htab) as (o & d1 & Ea & Hfr & Ed).
  unfold allocProxyInDomain. rewrite Ea. cbn [rbind Z.eqb].
  assert (Hfit : fits OBJSIZE_PORTAL [(4, td); (8, tid); (12, idx); (0, vt)]) by proxy_fits.
  destruct (build_header _ _ o _ _ _ Hfr Hfit) as [Ek _]. cbn [ram set_ram] in Ek.
  assert (Es : services (gcs d1) = services (gcs d)) by (by rewrite (fb_state _ _ _ _ _ Hfr)).
  change (services (gcs (dwr (o + 12) idx _))) with (services (gcs d1)). rewrite Es.
  set (e := service_entry td idx (services (gcs d)) + dep_refcount) in *.
  set (d2 := dwr (o + 12) idx _). set (b := negb (td =? 0) && _).
  eexists o, _. split; [reflexivity|].
  assert (Hb : (exists v, (if b then service_incRefcount (service_entry td idx (services (gcs d))) d2 else d2) = dwr e v d2 /\ b = true) \/
    (if b then service_incRefcount (service_entry td idx (services (gcs d))) d2 else d2) = d2).
  { destruct b; [left|by right]. eexists. split; reflexivity. }
  assert (Hgrow : (if b then service_incRefcount (service_entry td idx (services (gcs d))) d2 else d2) =
    with_gcs (fun s => set_ram (ram (gcs (if b then service_incRefcount (service_entry td idx (services (gcs d))) d2 else d2))) s) d1).
  { destruct Hb as [(v & -> & _)| ->]; done. }
  set (d3 := if b then _ else d2) in *.
  assert (H3 : forall x, ~ rc x -> load8 (ram (gcs d3)) x = load8 (ram (gcs d2)) x).
  { intros x Hx. destruct Hb as [(v & -> & Hb)| ->]; [|done]. apply load8_store32_ne.
    apply andb_true_iff in Hb as [Hb1 Hb2]. apply Z.eqb_eq in Hb2. apply negb_true_iff, Z.eqb_neq in Hb1.
    destruct (Z.lt_ge_cases x e); [by left|right]. destruct (Z.le_gt_cases (e + 4) x); [done|]. exfalso. apply Hx, Hsvc; [done|done|lia]. }
  split; [rewrite Hgrow; cbn; exact Es|]. split; [rewrite Hgrow, Ed; done|].
  assert (Hrco : forall x, o - 8 <= x < o + 16 -> ~ rc x).
  { intros x Hx Hx'. destruct (Hrc x Hx') as ([He _] & _). pose proof (fb_addr _ _ _ _ _ Hfr). destruct Hroom as (_ & _ & Hr & _).
    destruct (geo_used _ (hk_geo _ _ _ _ Hok)). change OBJSIZE_PORTAL with 6 in Hr. unfold HEAP_RESERVE in Hr. lia. }
  rewrite Hgrow.
  refine (nc_intro d1 (store32 (ram (gcs d3)) o vt) (services (gcs d1)) o _ OBJFLAGS_PORTAL _ Hfr Ed Hfit Hroom _ _ _ _ _ _ _).
  - apply (bool_decide_unpack _). by vm_compute.
  - unfold owords. by rewrite Ek.
  - unfold wf_body. rewrite Ek. simpl. unfold has_class. rewrite !Z.add_0_r, load32_store32, u32_small by lia. split; [lia|exact Hcls].
  - intros j Hj. unfold field. rewrite Ek. by intros [?|?].
  - done.
  - change OBJSIZE_PORTAL with 6. intros j Hj Hj4 Hj2. cbn [put].
    assert (Hw3 : load32 (ram (gcs d3)) (o + j) = load32 (ram (gcs d2)) (o + j)).
    { apply load32_ext. intros x Hx. apply H3, Hrco. lia. }
    assert (j = -8 \/ j = -4 \/ j = 0 \/ j = 4 \/ j = 8 \/ j = 12) as Hc by (Z.div_mod_to_equations; lia).
    destruct (decide (j = 0)) as [->|Hne].
    + rewrite !Z.add_0_r. by rewrite !load32_store32.
    + rewrite load32_store32_ne by (Z.div_mod_to_equations; lia). rewrite Hw3. cbn.
      destruct Hc as [->|[->|[->|[->|[->| ->]]]]]; [| |by destruct Hne|..]; read_words.
  - change OBJSIZE_PORTAL with 6. intros x Hx Hx2. rewrite load8_store32_ne by lia. rewrite H3 by done. cbn.
    change OBJSIZE_PORTAL with 6 in Hfr. rewrite !load8_store32_ne by lia. by apply (fb_out _ _ _ _ _ Hfr).
Qed.

(** memory proxies are filled in while they are registered *)
Lemma copy_new_memory c dz size mem vt :
  dz_size_mem dz (services (gcs d)) = Ok (size, mem) -> 0 <= size < 4294967296 -> 0 <= mem < 4294967296 -> 0 < dz < 4294967296 ->
  0 < vt < 4294967296 -> cls32 cls (vt - 4) -> ready OBJSIZE_MEMORY ->
  exists o d', (let! '(h, d) := allocMemoryProxyInDomainDZM collect in_irq c dz d in nonatomic_unregisterObject h d) = Ok (o, d') /\
    services (gcs d') = services (gcs d) /\ gc_epoch d' = gc_epoch d /\
    new_copy (dwr (o + 12) dz (dwr o vt d')) o OBJSIZE_MEMORY OBJFLAGS_MEMORY [(0, vt); (4, size); (8, mem); (12, dz)].
Proof using GCServices0 ServiceTable0 CopyServices0 Hok Hequal Hrc.
  intros Hdz Hsz Hmm Hdzr Hvt Hcls (Hroom & Hreg & Htab).
  destruct (alloc_data_fresh collect in_irq _ OBJFLAGS_MEMORY d Hroom Hreg ltac:(by vm_compute) Htab) as (h & d1 & Ea & (Hh1 & Hh2 & Hh0) & Eo & Hfr & Ed).
  set (o := heapTop (gcs d) + 8) in *.
  assert (Hh : h + 4 <= o - 8 \/ o - 8 + 32 <= h).
  { pose proof (Htab h Hh1). pose proof (Htab (h + 3) Hh2). destruct Hroom as (_ & _ & Hr & _). change OBJSIZE_MEMORY with 8 in Hr.
    unfold HEAP_RESERVE in Hr. subst o. lia. }
  clearbody o. assert (Hfit : fits OBJSIZE_MEMORY [(0, vt); (4, size); (8, mem); (12, dz)]) by proxy_fits.
  destruct (build_header _ _ o _ _ _ Hfr Hfit) as [Ek _]. cbn [ram set_ram] in Ek.
  assert (Es : services (gcs d1) = services (gcs d)).
  { change (services (gcs d1)) with (services (gcs (dwr h 0 d1))). by rewrite (fb_state _ _ _ _ _ Hfr). }
  assert (Hslot : forall a v (e : dom), o <= a -> a + 4 <= o + 24 -> drd (dwr a v e) h = drd e h).
  { intros a v e Ha1 Ha2. unfold drd, rd, dwr. cbn. apply load32_store32_ne. lia. }
  unfold allocMemoryProxyInDomainDZM, internalallocMemoryProxyInDomain. rewrite Ea. cbn [rbind]. rewrite Eo.
  change (services (gcs (dwr o (drd d1 (c + c_vtable)) d1))) with (services (gcs d1)). rewrite Es, Hdz. cbn [rbind].
  set (vtc := drd d1 (c + c_vtable)). set (e1 := dwr o vtc d1). set (e2 := dwr (o + 4) size e1). set (e3 := dwr (o + 8) mem e2).
  assert (E1 : drd e1 h = o) by (unfold e1; by rewrite Hslot by lia). rewrite E1. fold e2.
  assert (E2 : drd e2 h = o) by (unfold e2; by rewrite Hslot by lia). rewrite E2. fold e3.
  assert (E3 : drd e3 h = o) by (unfold e3; by rewrite Hslot by lia). rewrite E3. cbn [rbind]. set (d2 := dwr (o + 12) dz e3).
  unfold nonatomic_unregisterObject. rewrite (proj2 (Z.eqb_neq h 0) Hh0).
  assert (E4 : drd d2 h = o) by (unfold d2; by rewrite Hslot by lia). rewrite E4.
  eexists o, _. split; [reflexivity|]. split; [exact Es|].
  assert (Ep : gc_epoch d1 = gc_epoch d) by (change (gc_epoch d1) with (gc_epoch (dwr h 0 d1)); by rewrite Ed). split; [exact Ep|].
  rewrite (ram_of_services (dwr h 0 d1) (dwr (o + 12) dz (dwr o vt (dwr h 0 d2)))) by (repeat apply ram_of_dwr; apply ram_of_self).
  apply (nc_intro (dwr h 0 d1) _ _ o _ OBJFLAGS_MEMORY _ Hfr Ed Hfit Hroom).
  - apply (bool_decide_unpack _). by vm_compute.
  - unfold owords. by rewrite Ek.
  - unfold wf_body. rewrite Ek. simpl. unfold has_class. rewrite !Z.add_0_r. read_words. rewrite !u32_small by lia. split_and!; [lia|exact Hcls|lia].
  - intros j Hj. unfold field. rewrite Ek. simpl. destruct (16 <=? j); by intros [?|?].
  - done.
  - change OBJSIZE_MEMORY with 8. intros j Hj Hj4 Hj2. cbn [put].
    cbn. destruct (Z.le_gt_cases 16 j) as [Hge|Hlt]; [read_words|].
    assert (j = -8 \/ j = -4 \/ j = 0 \/ j = 4 \/ j = 8 \/ j = 12) as Hc by (Z.div_mod_to_equations; lia).
    destruct Hc as [->|[->|[->|[->|[->| ->]]]]]; rewrite ?Z.add_0_r; read_words.
  - change OBJSIZE_MEMORY with 8. intros x _ Hx. change OBJSIZE_MEMORY with 8 in Hfr. rewrite <- (fb_out _ _ _ _ _ Hfr x Hx). cbn.
    rewrite !(load8_store32_ne _ _ x) by lia. destruct (decide (h <= x < h + 4)) as [Hin|Hout].
    + rewrite !(load32_zero _ h); try done; by rewrite load32_store32.
    + rewrite !load8_store32_ne by lia. done.
Qed.
End NewCopy.
