(* ===== verification/CopyGraph.v ===== *)
(** * Copying a graph of objects (core/portal.c)

    What [copy_reference] makes in the receiving domain is a copy of the graph
    that the reference spans: with shared objects copied once, cycles closed,
    and no reference into the heap of the sender. *)

From S2P Require Import Prelude Mem CString GCHeap GCTheory GCInv GCScan GCCollect GCAlloc Copy CopyInv.
#[local] Open Scope Z_scope.

Lemma load32_moved m a m' a' : (forall k, 0 <= k < 4 -> load8 m' (a' + k) = load8 m (a + k)) -> load32 m' a' = load32 m a.
Proof.
  intros H. pose proof (H 0 ltac:(lia)) as E. rewrite !Z.add_0_r in E. unfold load32, load16. rewrite <- !Z.add_assoc, E, !H by lia. done.
Qed.

#[local] Opaque store32 load32 memset memcpy.

Lemma find_copied_fwd ref l : find_copied ref l = fwd l ref.
Proof.
  unfold fwd. induction l as [|[s d] l IH]; [done|]. cbn [find_copied list_to_map foldr].
  destruct (Z.eqb_spec s ref) as [->|Hne]; [symmetry; apply lookup_insert_eq|].
  rewrite IH. symmetry. by apply lookup_insert_ne.
Qed.

Section Graph.
Context {A : Type} `{!GCServices A} `{!ServiceTable A} `{!CopyServices A}.
Abbreviation dom := (domain_gc A).
Abbreviation cst := (copy_state A).
Context (src dst dst_id src_heap src_heapTop max_copied : Z).
(** the receiver before the call, its objects and roots; the objects of the
    sender; the reference counts of services *)
Context (cls : Z -> Prop) (roots : list root) (d0 : dom) (H0 Hs : list Z) (rc : Z -> Prop) (svc : A -> Prop) (q0 : Z).
Abbreviation m0 := (ram (gcs d0)).
Abbreviation mem c := (ram (gcs (cp_dst c))).

(** ** What is copied *)

(** constants outside of every heap stay where they are *)
Definition external (v : Z) : Prop :=
  0 < v < RESTART /\ (v ∉ Hs) /\ cls32 cls (v - 8) /\
  (load32 m0 (v - 8) = OBJFLAGS_EXTERNAL_STRING \/ load32 m0 (v - 8) = OBJFLAGS_EXTERNAL_CPUDESC).
Definition source_ref (v : Z) : Prop := v = 0 \/ v ∈ Hs \/ external v.

(** [v] was dealt with; its image *)
Definition settled (T : list (Z * Z)) (v : Z) : Prop := v = 0 \/ v ∈ T.*1 \/ external v.
Definition image (T : list (Z * Z)) (x i : Z) : Z :=
  if decide (field m0 x i = FRef) then trans T (load32 m0 (x + i)) else load32 m0 (x + i).

(** a memory proxy takes size and address from the memory it stands for; the
    word after an instance is not used *)
Definition transferred (x i : Z) : Prop :=
  (okind m0 x = OBJFLAGS_MEMORY -> i = 0 \/ i = 12) /\ (okind m0 x = OBJFLAGS_OBJECT -> i < 4 + 4 * isize m0 x).

(** the words of [y] up to [pos] are those of [x] *)
Definition copied_to (m : memory) (T : list (Z * Z)) (x y pos : Z) : Prop :=
  okind m y = okind m0 x /\
  forall i, in_body m0 x i -> i < pos -> transferred x i ->
    load32 m (y + i) = image T x i /\ (field m0 x i = FRef -> settled T (load32 m0 (x + i))).
Definition copy_of (m : memory) (T : list (Z * Z)) (x y : Z) : Prop := copied_to m T x y (4 * owords m0 x - 8).

Definition object_source (x : Z) : Prop :=
  let c := cdesc m0 x in
  okind m0 x = OBJFLAGS_OBJECT /\ class_ok cls m0 c /\ load32 m0 (c + c_vtable) = load32 m0 x /\
  forall a, svc a -> implements_portal c a = Ok false.
(** an array of a class that is registered at its element class *)
Definition array_layout (x : Z) : Prop :=
  let c := load32 m0 (x + 4) in let e := load32 m0 (c + c_elementClass) in
  okind m0 x = OBJFLAGS_ARRAY /\ array_class_ok cls m0 c /\ load32 m0 (c + c_vtable) = load32 m0 x /\ c <> 0 /\
  cls32 cls (c + c_elementClass) /\ cls32 cls e /\ load32 m0 e = MAGIC_CLASSDESC /\
  cls32 cls (e + c_arrayClass) /\ load32 m0 (e + c_arrayClass) = c.
Definition array_name1 (x : Z) : Z := load8 m0 (load32 m0 (load32 m0 (x + 4) + c_name) + 1).
(** and not an array of arrays *)
Definition array_source (x : Z) : Prop := array_layout x /\ (ref_array m0 x = true -> array_name1 x = t_name1_L).
(** a portal to a service of a third domain *)
Definition portal_source (x : Z) : Prop :=
  let td := load32 m0 (x + 4) in let tid := load32 m0 (x + 8) in let idx := load32 m0 (x + 12) in
  okind m0 x = OBJFLAGS_PORTAL /\ (tid <> dst_id \/ tid = 0 /\ td = 0 /\ idx = 0) /\
  forall a, svc a -> td <> 0 -> domain_id td a = tid ->
    forall b, 0 <= b - (service_entry td idx a + dep_refcount) < 4 -> rc b.
Definition memory_source (x : Z) : Prop :=
  okind m0 x = OBJFLAGS_MEMORY /\ forall a, svc a -> exists size mem a',
    dz_size_mem (load32 m0 (x + 12)) a = Ok (size, mem) /\ 0 <= size < 4294967296 /\ 0 <= mem < 4294967296 /\
    dz_incRefcount (load32 m0 (x + 12)) a = Ok a' /\ svc a'.

Record source_object (x : Z) : Prop := {
  so_wf : wf_obj cls m0 x;
  so_range : src_heap <= x < src_heapTop;
  so_apart : forall b, x - 8 <= b < x - 8 + 4 * owords m0 x -> elsewhere (gcs d0) b /\ ~ rc b;
  so_refs : forall i, in_body m0 x i -> field m0 x i = FRef -> source_ref (load32 m0 (x + i));
}.
Definition copyable (x : Z) : Prop :=
  object_source x \/ array_source x \/ portal_source x \/ memory_source x \/ okind m0 x = OBJFLAGS_DOMAIN.

(** what a reference reaches *)
Inductive reaches : Z -> Z -> Prop :=
| reach_self x : reaches x x
| reach_field x i y : x ∈ Hs -> in_body m0 x i -> field m0 x i = FRef -> reaches (load32 m0 (x + i)) y -> reaches x y.

(** the two domains before the call, and enough of everything *)
Record copy_ready : Prop := {
  cr_heap : heap_ok cls roots (gcs d0) H0;
  cr_equal : heapBorder2 (gcs d0) - heap2 (gcs d0) = heapBorder (gcs d0) - heap (gcs d0);
  cr_source : forall x, x ∈ Hs -> source_object x;
  cr_rc : forall b, rc b -> elsewhere (gcs d0) b /\ ~ cls b /\ forall r, r ∈ roots -> ~ root_addr r <= b < root_addr r + 4;
  cr_svc : svc (services (gcs d0));
  cr_table : can_register d0 /\ forall b, in_table d0 b -> elsewhere (gcs d0) b /\ ~ rc b;
  cr_room : 0 < heapTop (gcs d0) /\ heapBorder (gcs d0) < 4294967296 /\
    heapTop (gcs d0) + 4 * wsum m0 Hs + 4 * HEAP_RESERVE <= heapBorder (gcs d0);
  cr_quota : wsum m0 Hs <= q0;
  cr_max : Z.of_nat (length Hs) <= max_copied;
  cr_nodup : NoDup Hs;
  cr_domains : src <> dst;
}.
Context (R : copy_ready).

(** ** While it is copied *)

Abbreviation top c := (heapTop (gcs (cp_dst c))).
Record copying (c : cst) : Prop := {
  ci_heap : heap_ok cls roots (gcs (cp_dst c)) (H0 ++ (copied c).*2);
  ci_dom : cp_dst c = with_gcs (fun _ => gcs (cp_dst c)) d0;
  ci_state : gcs (cp_dst c) = set_services (services (gcs (cp_dst c))) (set_ram (mem c)
    (set_heapTop (heapTop (gcs d0) + 4 * wsum m0 (copied c).*1) (gcs d0)));
  ci_quota : quota c = q0 - wsum m0 (copied c).*1;
  ci_nodup : NoDup (copied c).*1;
  ci_sub : forall x, x ∈ (copied c).*1 -> x ∈ Hs;
  ci_size : forall x y, (x, y) ∈ copied c -> owords (mem c) y = owords m0 x;
  ci_frame : forall b, elsewhere (gcs d0) b -> ~ rc b -> load8 (mem c) b = load8 m0 b;
  ci_svc : svc (services (gcs (cp_dst c)));
}.

Section State.
Context (c : cst) (I : copying c).

Lemma ci_top : top c = heapTop (gcs d0) + 4 * wsum m0 (copied c).*1.
Proof using I. by rewrite (ci_state c I). Qed.
Lemma ci_space : heap (gcs (cp_dst c)) = heap (gcs d0) /\ heapBorder (gcs (cp_dst c)) = heapBorder (gcs d0) /\
  heap2 (gcs (cp_dst c)) = heap2 (gcs d0) /\ heapBorder2 (gcs (cp_dst c)) = heapBorder2 (gcs d0).
Proof using I. by rewrite (ci_state c I). Qed.
Lemma ci_elsewhere b : elsewhere (gcs (cp_dst c)) b <-> elsewhere (gcs d0) b.
Proof using I. unfold elsewhere. by destruct ci_space as (-> & -> & -> & ->). Qed.

Lemma ci_cls b : cls b -> load8 (mem c) b = load8 m0 b.
Proof using I R.
  intros Hb. apply (ci_frame c I); [by apply (hk_cls _ _ _ _ (cr_heap R))|]. intros Hx. by destruct (cr_rc R b Hx) as (_ & ? & _).
Qed.
Lemma ci_cls32 a : cls32 cls a -> load32 (mem c) a = load32 m0 a.
Proof using I R. intros Ha. apply load32_ext. intros x Hx. by apply ci_cls, Ha. Qed.

(** the objects of the sender are as they were *)
Lemma ci_source_byte x b : x ∈ Hs -> x - 8 <= b < x - 8 + 4 * owords m0 x -> load8 (mem c) b = load8 m0 b.
Proof using I R. intros Hx Hb. destruct (so_apart x (cr_source R x Hx) b Hb). by apply (ci_frame c I). Qed.
Lemma ci_source_word x i : x ∈ Hs -> -8 <= i -> i + 4 <= 4 * owords m0 x - 8 -> load32 (mem c) (x + i) = load32 m0 (x + i).
Proof using I R. intros Hx Hi1 Hi2. apply load32_ext. intros b Hb. apply (ci_source_byte x); [done|lia]. Qed.

Lemma ci_source_wf x : x ∈ Hs -> wf_obj cls (mem c) x /\ owords (mem c) x = owords m0 x.
Proof using I R.
  intros Hx. pose proof (so_wf x (cr_source R x Hx)) as W. pose proof (owords_pos m0 x).
  assert (Hsh : same_shape cls m0 x (mem c) x) by (apply block_same; [apply ci_cls|intros b; by apply ci_source_byte]).
  split; [|by eapply shape_words]. apply (shape_wf _ _ _ _ _ W Hsh); [|apply (wf_addr _ _ _ W)..].
  rewrite <- (wf_magic _ _ _ W). apply (ci_source_word x (-4)); [done|lia..].
Qed.

Lemma ci_target x y : (x, y) ∈ copied c -> y ∈ H0 ++ (copied c).*2 /\ x ∈ Hs.
Proof using I.
  intros Hin. split; [apply elem_of_app; right; apply list_elem_of_fmap; by exists (x, y)|].
  apply (ci_sub c I), list_elem_of_fmap. by exists (x, y).
Qed.

Lemma source_addr x : x ∈ Hs -> 0xfff < x.
Proof using R. intros Hx. apply (wf_addr _ _ _ (so_wf x (cr_source R x Hx))). Qed.
Lemma trans_unmapped v : v = 0 \/ external v -> trans (copied c) v = v.
Proof using I R.
  intros Hv. unfold trans. assert (fwd (copied c) v = None) as ->; [|done]. apply fwd_None. intros Hin%(ci_sub c I).
  destruct Hv as [->|(_ & ? & _)]; [pose proof (source_addr 0 Hin); lia|done].
Qed.
Lemma trans_mapped v : v ∈ (copied c).*1 -> (v, trans (copied c) v) ∈ copied c.
Proof using I.
  intros Hin. apply list_elem_of_fmap in Hin as ([x y] & E & Hin). cbn in E. subst v. unfold trans.
  by rewrite (proj2 (fwd_Some (copied c) x y (ci_nodup c I)) Hin).
Qed.

(** what was dealt with may be stored in the heap of the receiver *)
Lemma settled_image v : settled (copied c) v ->
  ref_ok cls (mem c) (H0 ++ (copied c).*2) FRef (trans (copied c) v) /\ 0 <= trans (copied c) v < RESTART.
Proof using I R.
  intros Hv. assert (v = 0 \/ external v \/ v ∈ (copied c).*1) as [->|[Hx|Hm]] by (destruct Hv as [?|[?|?]]; tauto).
  - rewrite trans_unmapped by (by left). split; [left; lia|done].
  - rewrite trans_unmapped by (by right). destruct Hx as (? & _ & Hc & Hk). split; [right; right; split; [done|]|lia].
    rewrite ci_cls32 by done. destruct Hk as [-> | ->]; apply (bool_decide_unpack _); by vm_compute.
  - pose proof (ci_target v _ (trans_mapped v Hm)) as [Hy _]. split; [right; by left|].
    pose proof (wf_addr _ _ _ (hk_wf _ _ _ _ (ci_heap c I) _ Hy)) as (? & _ & ?). pose proof (owords_pos (mem c) (trans (copied c) v)).
    unfold RESTART. lia.
Qed.

Lemma ci_wsum x : x ∈ Hs -> x ∉ (copied c).*1 -> wsum m0 (copied c).*1 + owords m0 x <= wsum m0 Hs.
Proof using I.
  intros Hx Hn. pose proof (wsum_sub m0 (x :: (copied c).*1) Hs) as H. rewrite wsum_cons in H.
  rewrite Z.add_comm. apply H; [constructor; [done|apply I]|]. intros y [->|Hy]%elem_of_cons; [done|by apply (ci_sub c I)].
Qed.
Lemma ci_length x : x ∈ Hs -> x ∉ (copied c).*1 -> (length (copied c) < length Hs)%nat.
Proof using I.
  intros Hx Hn. pose proof (submseteq_length (x :: (copied c).*1) Hs) as H. cbn [length] in H. rewrite length_fmap in H.
  apply H, NoDup_submseteq; [constructor; [done|apply I]|]. intros y [->|Hy]%elem_of_cons; [done|by apply (ci_sub c I)].
Qed.
Lemma ci_ready x : x ∈ Hs -> x ∉ (copied c).*1 -> ready (cp_dst c) (owords m0 x).
Proof using I R.
  intros Hx Hn. pose proof (ci_wsum x Hx Hn). pose proof (owords_pos m0 x). destruct (cr_room R) as (? & ? & ?).
  pose proof (wsum_nonneg m0 (copied c).*1). destruct ci_space as (_ & E & _). destruct (cr_table R) as ((Hp & i & Hi & Hz) & Htab).
  assert (Er : registeredObjects (cp_dst c) = registeredObjects d0) by (by rewrite (ci_dom c I)).
  split; [split_and!; rewrite ?ci_top, ?E by done; lia|]. split.
  - split; [by rewrite Er|]. exists i. split; [done|]. rewrite Er, <- Hz. apply load32_ext. intros b Hb.
    destruct (Htab b) as [? ?]; [unfold in_table, MAX_REGISTERED in *; lia|]. by apply (ci_frame c I).
  - intros b Hb. unfold in_table in Hb. rewrite Er in Hb. destruct (Htab b Hb) as [[He _] _]. rewrite ci_top, E by done.
    destruct (geo_used _ (hk_geo _ _ _ _ (cr_heap R))). lia.
Qed.
End State.

(** outside of [hole] and of what is allocated meanwhile nothing changes *)
Definition kept (hole : Z -> Prop) (c c' : cst) : Prop :=
  forall b, ~ rc b -> ~ hole b -> b < top c \/ top c' <= b -> load8 (mem c') b = load8 (mem c) b.

Lemma copied_to_weaken m T x y p p' : p' <= p -> copied_to m T x y p -> copied_to m T x y p'.
Proof. intros Hp [Hk Hd]. split; [done|]. intros i Hi Hlt. apply Hd; [done|lia]. Qed.

(** the images of settled references stay as more objects are copied *)
Lemma settled_app T L v : settled T v -> settled (T ++ L) v.
Proof. intros [?|[?|?]]; [by left| |by right; right]. right. left. rewrite fmap_app. apply elem_of_app. by left. Qed.
Lemma trans_app c c' L v : copying c -> copying c' -> copied c' = copied c ++ L -> settled (copied c) v ->
  trans (copied c') v = trans (copied c) v.
Proof using R.
  intros I I' E Hv. assert (v = 0 \/ external v \/ v ∈ (copied c).*1) as [Hx|[Hx|Hm]] by (destruct Hv as [?|[?|?]]; tauto).
  - rewrite !trans_unmapped by (done || by left). done.
  - rewrite !trans_unmapped by (done || by right). done.
  - pose proof (trans_mapped c I v Hm) as Hin. unfold trans at 1.
    assert (fwd (copied c') v = Some (trans (copied c) v)) as ->; [|done].
    apply fwd_Some; [apply I'|]. rewrite E. apply elem_of_app. by left.
Qed.

Lemma image_fields x : x ∈ Hs -> plain_kind (okind m0 x) -> forall i, 0 <= i < head_size (okind m0 x) -> i mod 4 = 0 ->
  in_body m0 x i /\ field m0 x i = FRaw.
Proof using R.
  intros Hx Hk i Hi Hi4. pose proof (owords_pos m0 x) as Hp. destruct Hk as [E|E]; rewrite E in Hi; cbn in Hi.
  - assert (i = 0) as -> by (Z.div_mod_to_equations; lia). split; [split; [lia|done]|]. unfold field. by rewrite E.
  - split; [split; [|done]|].
    + unfold owords. rewrite E. simpl. pose proof (load32_range m0 (x + 8)). unfold OBJSIZE_ARRAY_32BIT, XMOFF. lia.
    + unfold field. rewrite E. simpl. by rewrite (proj2 (Z.leb_gt 12 i)) by lia.
Qed.

(** bytes of the receiver's objects are no reference counts *)
Lemma heap_byte c y b : copying c -> y ∈ H0 ++ (copied c).*2 -> y - 8 <= b < y - 8 + 4 * owords (mem c) y ->
  ~ rc b /\ ~ elsewhere (gcs d0) b /\ b < top c.
Proof using R.
  intros I Hy Hb. destruct (h_block (ci_heap c I) y Hy) as [H1 H2]. destruct (geo_used _ (hk_geo _ _ _ _ (ci_heap c I))) as [G1 G2].
  destruct (ci_space c I) as (E1 & E2 & _). rewrite E1, E2 in *.
  assert (~ elsewhere (gcs d0) b) by (intros [[?|?] _]; lia). split_and!; [|done|lia]. intros Hx. by destruct (cr_rc R b Hx).
Qed.

Lemma copied_kept hole c c' L x y pos : copying c -> copying c' -> copied c' = copied c ++ L -> kept hole c c' ->
  (x, y) ∈ copied c -> (forall b, y - 8 <= b < y + pos -> ~ hole b) -> 0 <= pos <= 4 * owords m0 x - 8 -> pos mod 4 = 0 ->
  copied_to (mem c) (copied c) x y pos -> copied_to (mem c') (copied c') x y pos.
Proof using R.
  intros I I' E Hk Hin Hh Hpos Hpos4 [Hkd Hd]. destruct (ci_target c I x y Hin) as [Hy Hx]. pose proof (ci_size c I x y Hin) as Hsz.
  assert (Hb : forall b, y - 8 <= b < y + pos -> load8 (mem c') b = load8 (mem c) b).
  { intros b Hb. destruct (heap_byte c y b I Hy) as (? & _ & ?); [lia|]. apply Hk; [done|by apply Hh|by left]. }
  split.
  - rewrite <- Hkd. apply load32_ext. intros b ?. apply Hb. lia.
  - intros i Hi Hlt Ht. destruct (Hd i Hi Hlt Ht) as [Hw Hs']. assert (Hl : load32 (mem c') (y + i) = load32 (mem c) (y + i)).
    { apply load32_ext. intros b ?. apply Hb. destruct Hi as [? Hi4]. Z.div_mod_to_equations. lia. }
    rewrite Hl, Hw. split; [|intros Hf; rewrite E; by apply settled_app, Hs'].
    unfold image. destruct (decide (field m0 x i = FRef)) as [Hf|]; [|done]. symmetry. by apply (trans_app c c' L), Hs'.
Qed.

(** ** One more object *)

Lemma ci_new c x d' o l : copying c -> x ∈ Hs -> x ∉ (copied c).*1 ->
  new_copy cls roots (cp_dst c) (H0 ++ (copied c).*2) rc d' o (owords m0 x) (okind m0 x) l -> svc (services (gcs d')) ->
  let c1 := MkCopy d' (copied c ++ [(x, o)]) (quota c - owords m0 x) in
  copying c1 /\ kept (fun _ => False) c c1 /\ top c1 = top c + 4 * owords m0 x /\ o = top c + 8 /\
  forall pos, (forall i, in_body m0 x i -> i < pos -> transferred x i -> field m0 x i = FRaw /\ word_of l i = load32 m0 (x + i)) ->
    copied_to (mem c1) (copied c1) x o pos.
Proof using R.
  intros I Hx Hn [Ha Hh Hd Hst Hk Hsz Hw Ho] Hsvc c1. pose proof (owords_pos m0 x) as Hp.
  assert (Htop : top c1 = top c + 4 * owords m0 x) by (cbn; by rewrite Hst).
  assert (Hkept : kept (fun _ => False) c c1).
  { intros b Hb _ Hout. apply Ho; [done|]. rewrite Htop in Hout. lia. }
  destruct (ci_space c I) as (S1 & S2 & S3 & S4). pose proof (geo_used _ (hk_geo _ _ _ _ (ci_heap c I))) as [G1 G2].
  assert (Htop' : heap (gcs d0) <= top c). { by rewrite <- S1. }
  pose proof (geo_used _ (hk_geo _ _ _ _ Hh)) as [_ G3]. cbn in Htop. rewrite Hst in G3. cbn in G3. rewrite S2 in G3.
  assert (Helse : forall b, elsewhere (gcs d0) b -> ~ rc b -> load8 (mem c1) b = load8 (mem c) b).
  { intros b Hb Hb2. apply Hkept; [done|by intros []|]. destruct Hb as [[?|?] _]; [left; lia|right]. cbn. rewrite Hst. cbn. lia. }
  assert (Hcls : forall a, cls a -> load8 (mem c1) a = load8 (mem c) a).
  { intros a Hc. apply Helse; [by apply (hk_cls _ _ _ _ (cr_heap R))|]. intros Hx'. by destruct (cr_rc R a Hx') as (_ & ? & _). }
  split; [|split; [done|]; split; [done|]; split; [done|]].
  - split; cbn [cp_dst copied quota c1].
    + rewrite fmap_app. cbn [fmap list_fmap fst snd]. by rewrite app_assoc.
    + rewrite Hd. by rewrite (ci_dom c I).
    + rewrite Hst at 1. rewrite (ci_state c I). rewrite fmap_app, wsum_app. cbn [fmap list_fmap fst snd]. rewrite wsum_cons.
      cbn. unfold set_services, set_ram, set_heapTop. cbn. f_equal. unfold wsum. cbn. lia.
    + rewrite (ci_quota c I), fmap_app, wsum_app. unfold wsum. cbn. lia.
    + rewrite fmap_app. apply NoDup_app. split_and!; [apply I| |apply NoDup_singleton]. cbn. intros y Hy ->%list_elem_of_singleton. done.
    + intros y. rewrite fmap_app, elem_of_app. cbn. intros [Hy| ->%list_elem_of_singleton]; [by apply (ci_sub c I)|done].
    + intros x' y [Hin|E%list_elem_of_singleton]%elem_of_app; [|by injection E as -> ->].
      destruct (ci_target c I x' y Hin) as [Hy _]. rewrite <- (ci_size c I x' y Hin).
      eapply shape_words; [exact (hk_wf _ _ _ _ (ci_heap c I) y Hy)|]. apply block_same; [exact Hcls|].
      intros b Hb. destruct (heap_byte c y b I Hy Hb) as (? & _ & ?). apply Hkept; [done|by intros []|by left].
    + intros b Hb Hb2. rewrite <- (ci_frame c I b Hb Hb2). by apply Helse.
    + done.
  - intros pos Hpos. split; [exact Hk|]. intros i Hi Hlt Ht. destruct (Hpos i Hi Hlt Ht) as [Hf Hv].
    pose proof (in_body_end _ _ _ Hi). cbn. rewrite Hw by (apply Hi || lia). unfold image. rewrite decide_False by (by rewrite Hf).
    split; [done|by rewrite Hf].
Qed.

(** ** One more word *)

(** the layout of a copy whose head is there *)
Lemma target_layout c x y pos : copying c -> x ∈ Hs -> plain_kind (okind m0 x) -> head_size (okind m0 x) <= pos ->
  copied_to (mem c) (copied c) x y pos -> okind (mem c) y = okind m0 x /\ forall i, field (mem c) y i = field m0 x i.
Proof using R.
  intros I Hx Hk Hp [Hkd Hd]. split; [done|]. eapply head_layout; [apply (ci_cls c I)|apply (so_wf x (cr_source R x Hx))|done|exact Hkd|].
  intros i Hi Hi4. destruct (image_fields x Hx Hk i Hi Hi4) as [Hb Hf]. destruct (Hd i Hb) as [-> _]; [lia| |].
  - split; intros E; rewrite E in Hk, Hi; [by destruct Hk|]. cbn in Hi. pose proof (load32_range m0 (cdesc m0 x + c_instanceSize)). unfold isize. lia.
  - unfold image. by rewrite decide_False by (by rewrite Hf).
Qed.

(** the words after the head of the copy [y] of [x] *)
Definition contents (x y b : Z) : Prop := y + head_size (okind m0 x) <= b < y - 8 + 4 * owords m0 x.

Lemma ci_contents c x y m' : copying c -> (x, y) ∈ copied c -> plain_kind (okind m0 x) ->
  copied_to (mem c) (copied c) x y (head_size (okind m0 x)) ->
  (forall b, ~ contents x y b -> load8 m' b = load8 (mem c) b) ->
  (forall i, in_body m0 x i -> ref_ok cls (mem c) (H0 ++ (copied c).*2) (field m0 x i) (load32 m' (y + i))) ->
  let c' := with_dst (with_gcs (set_ram m')) c in copying c' /\ kept (contents x y) c c'.
Proof using R.
  intros I Hin Hk Hc Hout Hr c'. destruct (ci_target c I x y Hin) as [Hy Hx].
  destruct (target_layout c x y _ I Hx Hk (Z.le_refl _) Hc) as [Hkd Hf]. pose proof (ci_size c I x y Hin) as Hsz.
  assert (Hkp : plain_kind (okind (mem c) y)) by (by rewrite Hkd).
  assert (Ho : forall b, b < y + head_size (okind (mem c) y) \/ y - 8 + 4 * owords (mem c) y <= b -> load8 m' b = load8 (mem c) b).
  { intros b Hb. apply Hout. unfold contents. rewrite <- Hkd, <- Hsz. lia. }
  assert (Hr' : forall i, in_body (mem c) y i -> ref_ok cls (mem c) (H0 ++ (copied c).*2) (field (mem c) y i) (load32 m' (y + i))).
  { intros i Hi. rewrite Hf. apply Hr. unfold in_body in *. by rewrite <- Hsz. }
  pose proof (heap_ok_contents cls roots (gcs (cp_dst c)) _ (ci_heap c I) y m' Hy Hkp Ho Hr') as HS.
  pose proof (contents_kept cls roots (gcs (cp_dst c)) _ (ci_heap c I) y m' Hy Hkp Ho Hr') as HK.
  assert (Hkept : kept (contents x y) c c') by (intros b _ Hb _; by apply Hout). split; [|done]. split; try exact HS; try apply I.
  - change (cp_dst c') with (with_gcs (set_ram m') (cp_dst c)). rewrite (ci_dom c I) at 1. done.
  - cbn. rewrite (ci_state c I) at 1. done.
  - intros x' y' Hin'. rewrite <- (ci_size c I x' y' Hin'). destruct (ci_target c I x' y' Hin') as [Hy' _].
    by destruct (HK y' Hy') as (_ & _ & Hw & _).
  - intros b Hb Hb2. rewrite <- (ci_frame c I b Hb Hb2). apply Hout. intros Hct. pose proof (head_size_pos (okind m0 x)).
    destruct (heap_byte c y b I Hy) as (_ & ? & _); [unfold contents in Hct; lia|done].
Qed.

(** the words of a copy that were not written yet are no references *)
Lemma target_word c x y i : copying c -> (x, y) ∈ copied c -> plain_kind (okind m0 x) ->
  copied_to (mem c) (copied c) x y (head_size (okind m0 x)) -> in_body m0 x i ->
  ref_ok cls (mem c) (H0 ++ (copied c).*2) (field m0 x i) (load32 (mem c) (y + i)).
Proof using R.
  intros I Hin Hk Hc Hi. destruct (ci_target c I x y Hin) as [Hy Hx].
  destruct (target_layout c x y _ I Hx Hk (Z.le_refl _) Hc) as [_ Hf]. rewrite <- Hf.
  apply (hk_refs _ _ _ _ (ci_heap c I)); [done|]. unfold in_body. by rewrite (ci_size c I x y Hin).
Qed.
Lemma raw_word x i m T v : plain_kind (okind m0 x) -> field m0 x i <> FRef -> ref_ok cls m T (field m0 x i) v.
Proof using. intros Hk. destruct Hk as [E|E]; unfold field; rewrite E; simpl; by destruct (_ && _). Qed.

Lemma ci_store c x y i v : copying c -> (x, y) ∈ copied c -> plain_kind (okind m0 x) -> in_body m0 x i ->
  head_size (okind m0 x) <= i -> copied_to (mem c) (copied c) x y i ->
  (field m0 x i = FRef -> settled (copied c) (load32 m0 (x + i))) -> v = image (copied c) x i ->
  let c' := cwr (y + i) v c in
  copying c' /\ kept (contents x y) c c' /\ copied_to (mem c') (copied c') x y (i + 4).
Proof using R.
  intros I Hin Hk Hi Hh Hc Hset Ev c'. pose proof (copied_to_weaken _ _ _ _ _ _ Hh Hc) as Hc0.
  assert (Hv : ref_ok cls (mem c) (H0 ++ (copied c).*2) (field m0 x i) (u32 v) /\ u32 v = v).
  { rewrite Ev. unfold image. destruct (decide (field m0 x i = FRef)) as [E|E].
    - rewrite E. destruct (settled_image c I _ (Hset E)) as [Hr Hb]. unfold RESTART in Hb. by rewrite u32_small by lia.
    - rewrite u32_small by apply load32_range. split; [by apply raw_word|done]. }
  pose proof (in_body_end _ _ _ Hi) as Hie.
  destruct (ci_contents c x y (store32 (mem c) (y + i) v) I Hin Hk Hc0) as [I' K'].
  - intros b Hb. apply load8_store32_ne. unfold contents in Hb. lia.
  - intros j Hj. destruct (decide (j = i)) as [->|Hne]; [rewrite load32_store32; apply Hv|].
    rewrite load32_store32_ne by (destruct Hi as [_ ?], Hj as [_ ?]; Z.div_mod_to_equations; lia). by apply target_word.
  - split; [exact I'|]. split; [exact K'|]. destruct Hc as [Hkd' Hd]. split; [rewrite <- Hkd'; apply load32_store32_ne; lia|].
    intros j Hj Hlt Ht. destruct (decide (j = i)) as [->|Hne].
    + cbn. rewrite load32_store32, (proj2 Hv). split; [exact Ev|exact Hset].
    + assert (j + 4 <= i) as Hji by (destruct Hj as [_ ?], Hi as [_ ?]; Z.div_mod_to_equations; lia).
      cbn. rewrite load32_store32_ne by lia. apply Hd; [done|lia|done].
Qed.

Lemma kept_refl hole c : kept hole c c.
Proof using. done. Qed.
Lemma kept_mono (h1 h2 : Z -> Prop) c c' : (forall b, h1 b -> h2 b) -> kept h1 c c' -> kept h2 c c'.
Proof using. intros H K b Hb Hh. apply K; [done|]. intros Hx. by apply Hh, H. Qed.
Lemma kept_trans hole c1 c2 c3 : top c1 <= top c2 <= top c3 -> kept hole c1 c2 -> kept hole c2 c3 -> kept hole c1 c3.
Proof using. intros Ht K1 K2 b Hb Hh Hout. rewrite K2, K1; (done || lia). Qed.
Lemma top_mono c c' L : copying c -> copying c' -> copied c' = copied c ++ L -> top c <= top c'.
Proof using R. intros I I' E. rewrite (ci_top c I), (ci_top c' I'), E, fmap_app, wsum_app. pose proof (wsum_nonneg m0 L.*1). lia. Qed.

(** [c'] is [c] with the objects [L] copied, which [v] reaches *)
Record grew (hole : Z -> Prop) (v : Z) (c c' : cst) (L : list (Z * Z)) : Prop := {
  gr_ok : copying c';
  gr_table : copied c' = copied c ++ L;
  gr_kept : kept hole c c';
  gr_addr : forall x y, (x, y) ∈ L -> top c <= y - 8;
  gr_done : forall x y, (x, y) ∈ L -> copy_of (mem c') (copied c') x y;
  gr_reach : forall x, x ∈ L.*1 -> reaches v x;
}.

Lemma grew_refl hole v c : copying c -> grew hole v c c [].
Proof using. intros I. split; try done; [by rewrite app_nil_r|by intros x y ?%not_elem_of_nil..|by intros x ?%not_elem_of_nil]. Qed.

(** [hole] lies in an object that was there before *)
Lemma grew_trans hole v c1 c2 c3 L1 L2 : copying c1 ->
  (forall b, hole b -> b < top c1) -> grew hole v c1 c2 L1 -> grew hole v c2 c3 L2 -> grew hole v c1 c3 (L1 ++ L2).
Proof using R.
  intros I1 Hh [A1 A2 A3 A4 A5 A6] [B1 B2 B3 B4 B5 B6].
  assert (Ht : top c1 <= top c2 <= top c3) by (split; eapply top_mono; done).
  split; [done|by rewrite B2, A2, app_assoc|by eapply kept_trans| | |].
  - intros x y [Hin|Hin]%elem_of_app; [by eapply A4|]. pose proof (B4 x y Hin). lia.
  - intros x y [Hin|Hin]%elem_of_app; [|by apply B5].
    assert (Hin2 : (x, y) ∈ copied c2) by (rewrite A2; apply elem_of_app; by right).
    pose proof (owords_pos m0 x). unfold copy_of. eapply (copied_kept hole c2 c3 L2); try done; [|lia|Z.div_mod_to_equations; lia|by apply A5].
    intros b Hb Hx. apply Hh in Hx. pose proof (A4 x y Hin). lia.
  - intros x. rewrite fmap_app, elem_of_app. intros [?|?]; auto.
Qed.
Lemma grew_mono (h1 h2 : Z -> Prop) v w c c' L : (forall b, h1 b -> h2 b) -> (forall x, reaches v x -> reaches w x) ->
  grew h1 v c c' L -> grew h2 w c c' L.
Proof using. intros Hh Hr [G1 G2 G3 G4 G5 G6]. split; try done; [by eapply kept_mono|]. intros x Hx. by apply Hr, G6. Qed.
Lemma grew_store hole v c c' : copying c' -> copied c' = copied c -> kept hole c c' -> grew hole v c c' [].
Proof using. intros I E K. split; try done; [by rewrite E, app_nil_r|by intros x y ?%not_elem_of_nil..|by intros x ?%not_elem_of_nil]. Qed.

(** ** The contents of a copy *)

(** since [c0] the copy [y] of [x] was filled up to [pos] *)
Record filled (c0 : cst) (x y pos : Z) (c : cst) : Prop := {
  fi_before : copying c0 /\ (x, y) ∈ copied c0;
  fi_kind : plain_kind (okind m0 x);
  fi_pos : head_size (okind m0 x) <= pos <= 4 * owords m0 x - 8 /\ pos mod 4 = 0;
  fi_grew : exists L, grew (contents x y) x c0 c L;
  fi_copied : copied_to (mem c) (copied c) x y pos;
}.

Lemma contents_old c x y b : copying c -> (x, y) ∈ copied c -> contents x y b -> b < top c.
Proof using R.
  intros I Hin Hb. destruct (ci_target c I x y Hin) as [Hy _]. pose proof (head_size_pos (okind m0 x)).
  apply (heap_byte c y b I Hy). rewrite (ci_size c I x y Hin). unfold contents in Hb. lia.
Qed.
Lemma filled_now c0 x y pos c : filled c0 x y pos c -> copying c /\ (x, y) ∈ copied c /\ x ∈ Hs.
Proof using.
  intros [[I0 Hin] _ _ [L [G1 G2 _ _ _ _]] _]. split; [done|]. split; [rewrite G2; apply elem_of_app; by left|].
  by destruct (ci_target c0 I0 x y Hin).
Qed.

(** more is copied, and a word of [y] written *)
Lemma filled_grow c0 x y pos pos' c c' L : filled c0 x y pos c -> grew (contents x y) x c c' L ->
  pos <= pos' <= 4 * owords m0 x - 8 -> pos' mod 4 = 0 -> copied_to (mem c') (copied c') x y pos' -> filled c0 x y pos' c'.
Proof using R.
  intros [[I0 Hin] Hk Hp [L0 G] _] G' Hp' H4 Hc. split; try done; [lia|]. exists (L0 ++ L).
  eapply grew_trans; [done| |exact G|exact G']. intros b. by apply contents_old.
Qed.
(** a word that is no reference *)
Lemma fill_raw c0 x y i c : filled c0 x y i c -> in_body m0 x i -> field m0 x i <> FRef ->
  filled c0 x y (i + 4) (cwr (y + i) (crd c (x + i)) c).
Proof using R.
  intros F Hi Hf. destruct (filled_now _ _ _ _ _ F) as (I & Hin & Hx). pose proof (in_body_end _ _ _ Hi) as Hie.
  destruct (ci_store c x y i (crd c (x + i)) I Hin (fi_kind _ _ _ _ _ F) Hi) as (I' & K & C).
  - apply F.
  - apply F.
  - done.
  - unfold image. rewrite decide_False by done. apply (ci_source_word c I x i Hx); lia.
  - eapply (filled_grow _ _ _ _ _ _ _ [] F); [by apply grew_store|lia| |exact C].
    destruct Hi. Z.div_mod_to_equations. lia.
Qed.

Section Content.
Context (copy : Z -> cst -> res (Z * cst)) (n_fuel : nat).
Definition fuelled (c : cst) : Prop := (length Hs < n_fuel + length (copied c))%nat.
(** [copy] copies what a reference spans *)
Definition copies : Prop := forall c v, copying c -> fuelled c -> source_ref v ->
  exists c' L, copy v c = Ok (trans (copied c') v, c') /\ grew (fun _ => False) v c c' L /\ settled (copied c') v.
Context (Hcopy : copies).

Lemma filled_fuelled c0 x y i c : filled c0 x y i c -> fuelled c0 -> fuelled c.
Proof using. intros [_ _ _ [L [_ G _ _ _ _]] _]. unfold fuelled. rewrite G, length_app. lia. Qed.

Lemma fill_ref c0 x y i c : filled c0 x y i c -> fuelled c0 -> in_body m0 x i -> field m0 x i = FRef ->
  exists r c1, copy (crd c (x + i)) c = Ok (r, c1) /\ r <> RESTART /\ filled c0 x y (i + 4) (cwr (y + i) r c1).
Proof using R Hcopy.
  intros F Hfu Hi Hf. destruct (filled_now _ _ _ _ _ F) as (I & Hin & Hx). pose proof (in_body_end _ _ _ Hi) as Hie.
  assert (E : crd c (x + i) = load32 m0 (x + i)) by (apply (ci_source_word c I x i Hx); lia). rewrite E.
  destruct (Hcopy c (load32 m0 (x + i)) I (filled_fuelled _ _ _ _ _ F Hfu)) as (c1 & L1 & Ec & G1 & Hset).
  { by apply (so_refs x (cr_source R x Hx)). }
  pose proof G1 as [I1 T1 K1 A1 D1 R1]. exists (trans (copied c1) (load32 m0 (x + i))), c1. split; [done|].
  split; [destruct (settled_image c1 I1 _ Hset) as [_ ?]; unfold RESTART in *; lia|].
  assert (Hin1 : (x, y) ∈ copied c1) by (rewrite T1; apply elem_of_app; by left).
  assert (C1 : copied_to (mem c1) (copied c1) x y i).
  { pose proof (fi_pos _ _ _ _ _ F). pose proof (head_size_pos (okind m0 x)).
    eapply (copied_kept (fun _ => False) c c1 L1); try done; [by intros b _ []|lia|apply Hi|apply F]. }
  destruct (ci_store c1 x y i (trans (copied c1) (load32 m0 (x + i))) I1 Hin1 (fi_kind _ _ _ _ _ F) Hi) as (I' & K & C); [apply F|done|done| |].
  { unfold image. by rewrite decide_True by done. }
  eapply (filled_grow _ _ _ _ _ _ _ (L1 ++ []) F); [|lia|destruct Hi; Z.div_mod_to_equations; lia|exact C].
  eapply (grew_trans _ _ _ c1); [exact I| | |by apply grew_store].
  - intros b. by apply contents_old.
  - eapply grew_mono; [| |exact G1]; [done|]. intros z. by apply (reach_field x i).
Qed.

(** the loop over the map of an instance *)
Lemma copy_fields_fills c0 x y n : okind m0 x = OBJFLAGS_OBJECT -> fuelled c0 ->
  forall k addr b c, 0 <= k -> k + Z.of_nat n = isize m0 x -> filled c0 x y (4 + 4 * k) c ->
  bits_at (gcs d0) (load32 m0 (cdesc m0 x + c_map)) k addr b ->
  exists c', copy_fields copy n k addr b x y c = Ok (false, c') /\ filled c0 x y (4 * owords m0 x - 8) c'.
Proof using R Hcopy.
  intros E Hfu. induction n as [|n IH]; intros k addr b c Hk0 Hkn F Hb.
  { exists c. split; [done|]. replace k with (isize m0 x) in F by lia. destruct F as [Fb Fk [Fp F4] Fg [Fc1 Fc2]].
    assert (Eo : 4 * owords m0 x - 8 = 8 + 4 * isize m0 x) by (unfold owords; rewrite E; simpl; unfold OBJSIZE_OBJECT, XMOFF; lia).
    split; try done; [rewrite Eo; split; [lia|Z.div_mod_to_equations; lia]|]. split; [exact Fc1|]. intros i Hi _ Ht.
    apply Fc2; [done|by apply Ht|done]. }
  destruct (filled_now _ _ _ _ _ F) as (I & Hin & Hx). set (mp := load32 m0 (cdesc m0 x + c_map)) in *. set (byte := load8 m0 (mp + k / 8)).
  assert (Eb : (if k mod 8 =? 0 then (load8 (mem c) addr, addr + 1) else (b, addr)) = (Z.shiftr byte (k mod 8), mp + k / 8 + 1)).
  { unfold bits_at in Hb. destruct (Z.eqb_spec (k mod 8) 0) as [E8|E8].
    - rewrite E8, Z.shiftr_0_r. subst addr. rewrite (ci_cls c I); [done|].
      destruct (wf_body_at _ _ _ _ E (wf_class _ _ _ (so_wf x (cr_source R x Hx)))) as (_ & _ & _ & _ & _ & H). apply H. lia.
    - by destruct Hb as [-> ->]. }
  pose proof (bits_next (gcs d0) mp k Hk0) as Hn. fold byte in Hn.
  assert (Hm8 : 0 <= k mod 8) by (Z.div_mod_to_equations; lia).
  assert (Hi : in_body m0 x (4 + 4 * k)).
  { split; [|Z.div_mod_to_equations; lia]. unfold owords. rewrite E. simpl. unfold OBJSIZE_OBJECT, XMOFF. lia. }
  assert (Hf : field m0 x (4 + 4 * k) = FRef <-> mapbit m0 (cdesc m0 x) k = true).
  { unfold field. rewrite E. simpl (OBJFLAGS_OBJECT =? OBJFLAGS_OBJECT). cbv iota zeta.
    replace ((4 + 4 * k - 4) / 4) with k by (Z.div_mod_to_equations; lia).
    rewrite (proj2 (Z.leb_le 0 k)), (proj2 (Z.ltb_lt k _)) by lia. cbn [andb]. by destruct (mapbit _ _ k). }
  cbn [copy_fields]. rewrite Eb. cbv iota. rewrite (land_1_testbit _ _ Hm8). change (Z.testbit byte (k mod 8)) with (mapbit m0 (cdesc m0 x) k).
  destruct (mapbit m0 (cdesc m0 x) k) eqn:Ek; cbn [negb].
  - destruct (fill_ref c0 x y _ c F Hfu Hi) as (r & c1 & -> & Hr & F1); [by apply Hf|]. cbn [rbind]. rewrite (proj2 (Z.eqb_neq _ _) Hr).
    apply IH; [lia|lia| |exact Hn]. by replace (4 + 4 * (k + 1)) with (4 + 4 * k + 4) by lia.
  - apply IH; [lia|lia| |exact Hn]. replace (4 + 4 * (k + 1)) with (4 + 4 * k + 4) by lia. apply fill_raw; [done|done|]. by rewrite Hf.
Qed.

(** the loop over the elements of an array of references *)
Lemma copy_elements_fills c0 x y n : okind m0 x = OBJFLAGS_ARRAY -> ref_array m0 x = true -> fuelled c0 ->
  forall i c, 0 <= i -> i + Z.of_nat n = load32 m0 (x + 8) -> filled c0 x y (12 + 4 * i) c ->
  exists c', copy_elements copy n i x y c = Ok (false, c') /\ filled c0 x y (4 * owords m0 x - 8) c'.
Proof using R Hcopy.
  intros E Er Hfu. assert (Eo : 4 * owords m0 x - 8 = 12 + 4 * load32 m0 (x + 8)).
  { unfold owords. rewrite E. simpl. unfold OBJSIZE_ARRAY_32BIT, XMOFF. lia. }
  induction n as [|n IH]; intros i c Hi0 Hin F.
  { exists c. split; [done|]. rewrite Eo. by replace (load32 m0 (x + 8)) with i by lia. }
  assert (Hi : in_body m0 x (12 + 4 * i)) by (split; [lia|Z.div_mod_to_equations; lia]).
  assert (Hf : field m0 x (12 + 4 * i) = FRef).
  { unfold field. rewrite E. simpl. rewrite Er. by rewrite (proj2 (Z.leb_le 12 _)) by lia. }
  cbn [copy_elements]. rewrite <- !Z.add_assoc.
  destruct (fill_ref c0 x y _ c F Hfu Hi Hf) as (r & c1 & -> & Hr & F1). cbn [rbind]. rewrite (proj2 (Z.eqb_neq _ _) Hr).
  apply IH; [lia|lia|]. by replace (12 + 4 * (i + 1)) with (12 + 4 * i + 4) by lia.
Qed.

Lemma source_apart c x y : copying c -> x ∈ Hs -> y ∈ H0 ++ (copied c).*2 ->
  x - 8 + 4 * owords m0 x <= y - 8 \/ y - 8 + 4 * owords (mem c) y <= x - 8.
Proof using R.
  intros I Hx Hy. pose proof (owords_pos m0 x). pose proof (owords_pos (mem c) y).
  destruct (Z.le_gt_cases (x - 8 + 4 * owords m0 x) (y - 8)) as [|Hlt1]; [by left|].
  destruct (Z.le_gt_cases (y - 8 + 4 * owords (mem c) y) (x - 8)) as [|Hlt2]; [by right|]. exfalso.
  destruct (heap_byte c y (Z.max (x - 8) (y - 8)) I Hy) as (_ & Hn & _); [lia|].
  by destruct (so_apart x (cr_source R x Hx) (Z.max (x - 8) (y - 8))); [lia|].
Qed.

(** [memcpy] of the words of an array *)
Lemma array_copied c x y : copying c -> (x, y) ∈ copied c -> okind m0 x = OBJFLAGS_ARRAY ->
  let m' := memcpy (mem c) (y + 12) (x + 12) (u32 (load32 m0 (x + 8) * 4)) in
  owords m0 x = load32 m0 (x + 8) + 5 /\ (forall b, ~ contents x y b -> load8 m' b = load8 (mem c) b) /\
  (forall j, 12 <= j -> j + 4 <= 12 + 4 * load32 m0 (x + 8) -> load32 m' (y + j) = load32 (mem c) (x + j)).
Proof using R.
  intros I Hin E m'. destruct (ci_target c I x y Hin) as [Hy Hx].
  pose proof (load32_range m0 (x + 8)) as Hsz. pose proof (wf_addr _ _ _ (so_wf x (cr_source R x Hx))) as (Ha & _ & Hb).
  assert (Eo : owords m0 x = load32 m0 (x + 8) + 5) by (unfold owords; rewrite E; simpl; unfold OBJSIZE_ARRAY_32BIT, XMOFF; lia).
  assert (HL : forall b, load8 m' b = if (y + 12 <=? b) && (b <? y + 12 + load32 m0 (x + 8) * 4) then load8 (mem c) (x + 12 + (b - (y + 12))) else load8 (mem c) b).
  { intros b. unfold m'. rewrite u32_small by lia. apply memcpy_load; [lia|].
    pose proof (source_apart c x y I Hx Hy) as Hd. rewrite (ci_size c I x y Hin) in Hd. lia. }
  split; [done|]. split.
  - intros b Hnb. rewrite HL. unfold contents in Hnb. rewrite E, Eo in Hnb. cbn in Hnb.
    destruct (Z.leb_spec (y + 12) b), (Z.ltb_spec b (y + 12 + load32 m0 (x + 8) * 4)); simpl; try done. lia.
  - intros j Hj1 Hj2. apply load32_moved. intros k Hk. rewrite HL.
    rewrite (proj2 (Z.leb_le (y + 12) _)), (proj2 (Z.ltb_lt _ (y + 12 + _))) by lia. cbn [andb]. f_equal. lia.
Qed.

(** the words of an array without references, all at once *)
Lemma copy_words_fills c0 x y c : okind m0 x = OBJFLAGS_ARRAY -> ref_array m0 x = false -> filled c0 x y 12 c ->
  filled c0 x y (4 * owords m0 x - 8)
    (with_dst (with_gcs (fun s => set_ram (memcpy (ram s) (y + 12) (x + 12) (u32 (load32 m0 (x + 8) * 4))) s)) c).
Proof using R.
  intros E Er F. destruct (filled_now _ _ _ _ _ F) as (I & Hin & Hx). destruct (array_copied c x y I Hin E) as (Eo & Hout & Hw).
  pose proof (load32_range m0 (x + 8)) as Hsz. set (m' := memcpy _ _ _ _) in *.
  assert (Eh : head_size (okind m0 x) = 12) by (by rewrite E).
  assert (Hf : forall i, field m0 x i = FRaw).
  { intros i. unfold field. rewrite E. simpl. rewrite Er. by rewrite andb_false_r. }
  destruct (ci_contents c x y m' I Hin (fi_kind _ _ _ _ _ F)) as [I' K].
  - rewrite Eh. apply F.
  - exact Hout.
  - intros i Hi. by rewrite Hf.
  - assert (W : forall i, in_body m0 x i -> load32 m' (y + i) = load32 m0 (x + i)).
    { intros i Hi. pose proof (in_body_end _ _ _ Hi). destruct (Z.lt_ge_cases i 12) as [Hlt|Hge].
      - destruct (proj2 (fi_copied _ _ _ _ _ F) i Hi Hlt) as [Hw0 _]; [by split; rewrite E|]. unfold image in Hw0.
        rewrite decide_False in Hw0 by (by rewrite Hf). rewrite <- Hw0. apply load32_ext. intros b Hb'. apply Hout.
        unfold contents. rewrite Eh. destruct Hi as [_ ?]. Z.div_mod_to_equations. lia.
      - rewrite <- (ci_source_word c I x i Hx) by lia. apply Hw; lia. }
    eapply (filled_grow _ _ _ _ _ _ _ [] F); [by apply grew_store|rewrite Eo; lia|rewrite Eo; Z.div_mod_to_equations; lia|].
    split.
    + rewrite <- (proj1 (fi_copied _ _ _ _ _ F)). apply load32_ext. intros b Hb'. apply Hout. unfold contents. rewrite Eh. lia.
    + intros i Hi _ _. unfold image. rewrite decide_False by (by rewrite Hf). split; [by apply W|by rewrite Hf].
Qed.

(** ** Each kind of object *)

(** [c1] is [c] with a new object for [x] *)
Record started (c : cst) (x o : Z) (c1 : cst) : Prop := {
  sd_ok : copying c1;
  sd_table : copied c1 = copied c ++ [(x, o)];
  sd_kept : kept (fun _ => False) c c1;
  sd_addr : o = top c + 8 /\ top c1 = top c + 4 * owords m0 x;
  sd_words : exists l, forall pos,
    (forall i, in_body m0 x i -> i < pos -> transferred x i -> field m0 x i = FRaw /\ word_of l i = load32 m0 (x + i)) ->
    copied_to (mem c1) (copied c1) x o pos;
}.

Definition done_with (c : cst) (x : Z) (r : res (Z * cst)) : Prop :=
  exists c' L, r = Ok (trans (copied c') x, c') /\ grew (fun _ => False) x c c' L /\ settled (copied c') x.

Lemma started_done c x o c1 c2 L : copying c -> x ∈ Hs -> x ∉ (copied c).*1 -> started c x o c1 ->
  grew (contents x o) x c1 c2 L -> copy_of (mem c2) (copied c2) x o -> done_with c x (Ok (o, c2)).
Proof using R.
  intros I Hx Hn [I1 T1 K1 [Eo Et] _] [I2 T2 K2 A2 D2 R2] Hc.
  assert (Hin : (x, o) ∈ copied c2) by (rewrite T2, T1; apply elem_of_app; left; apply elem_of_app; right; apply list_elem_of_here).
  pose proof (top_mono c1 c2 L I1 I2 T2) as Ht. pose proof (owords_pos m0 x). pose proof (head_size_pos (okind m0 x)).
  exists c2, ((x, o) :: L). split_and!.
  - f_equal. f_equal. unfold trans. by rewrite (proj2 (fwd_Some (copied c2) x o (ci_nodup c2 I2)) Hin).
  - split.
    + done.
    + by rewrite T2, T1, <- app_assoc.
    + intros b Hb _ Hout. rewrite K2, K1; try done; [by intros []|lia|unfold contents; lia|lia].
    + intros x' y [[= -> ->]|Hin']%elem_of_cons; [lia|]. pose proof (A2 _ _ Hin'). lia.
    + intros x' y [[= -> ->]|Hin']%elem_of_cons; [done|by apply D2].
    + intros z. cbn. intros [->|Hz]%elem_of_cons; [constructor|by apply R2].
  - right. left. apply list_elem_of_fmap. by exists (x, o).
Qed.

Lemma start_copy c x (d' : dom) o l : copying c -> x ∈ Hs -> x ∉ (copied c).*1 ->
  new_copy cls roots (cp_dst c) (H0 ++ (copied c).*2) rc d' o (owords m0 x) (okind m0 x) l ->
  services (gcs d') = services (gcs (cp_dst c)) ->
  started c x o (MkCopy d' (copied c ++ [(x, o)]) (quota c - owords m0 x)) /\
  forall pos, (forall i, in_body m0 x i -> i < pos -> transferred x i -> field m0 x i = FRaw /\ word_of l i = load32 m0 (x + i)) ->
    copied_to (ram (gcs d')) (copied c ++ [(x, o)]) x o pos.
Proof using R.
  intros I Hx Hn HN Hs'. destruct (ci_new c x d' o l I Hx Hn HN) as (I1 & K1 & Et & Eo & Hc); [rewrite Hs'; apply I|].
  split; [|exact Hc]. split; [done..|by exists l].
Qed.

Lemma charge_ok c x n : copying c -> x ∈ Hs -> x ∉ (copied c).*1 -> owords m0 x = n ->
  charge n c = Ok (MkCopy (cp_dst c) (copied c) (quota c - n)).
Proof using R.
  intros I Hx Hn <-. unfold charge. rewrite (ci_quota c I). pose proof (ci_wsum c I x Hx Hn). pose proof (cr_quota R).
  by rewrite (proj2 (Z.ltb_ge _ _)) by lia.
Qed.
Lemma addToRefTable_ok c x o (d : dom) q : copying c -> x ∈ Hs -> x ∉ (copied c).*1 ->
  addToRefTable max_copied x o (MkCopy d (copied c) q) = Ok (MkCopy d (copied c ++ [(x, o)]) q).
Proof using R.
  intros I Hx Hn. unfold addToRefTable. cbn [copied]. pose proof (ci_length c I x Hx Hn). pose proof (cr_max R).
  by rewrite (proj2 (Z.eqb_neq _ _)) by lia.
Qed.
Lemma alloc_copy_ok f (d : dom) o d' T q : f d = Ok (o, d') -> gc_epoch d' = gc_epoch d ->
  alloc_copy (A := A) f (MkCopy d T q) = Ok (o, false, MkCopy d' T q).
Proof using. intros E Ep. unfold alloc_copy. cbn [cp_dst copied quota]. rewrite E. cbn [rbind]. by rewrite Ep, Z.eqb_refl. Qed.

Lemma ci_equal c : copying c -> heapBorder2 (gcs (cp_dst c)) - heap2 (gcs (cp_dst c)) = heapBorder (gcs (cp_dst c)) - heap (gcs (cp_dst c)).
Proof using R. intros I. destruct (ci_space c I) as (-> & -> & -> & ->). apply (cr_equal R). Qed.
Lemma ci_rc c : copying c -> forall b, rc b -> elsewhere (gcs (cp_dst c)) b /\ ~ cls b /\ forall r, r ∈ roots -> ~ root_addr r <= b < root_addr r + 4.
Proof using R. intros I b Hb. rewrite (ci_elsewhere c I). by apply (cr_rc R). Qed.
Lemma new_epoch c (d' : dom) o n k l : new_copy cls roots (cp_dst c) (H0 ++ (copied c).*2) rc d' o n k l -> gc_epoch d' = gc_epoch (cp_dst c).
Proof using. intros HN. by rewrite (nc_dom _ _ _ _ _ _ _ _ _ _ HN). Qed.

(** the class of an object of the sender *)
Lemma source_class c x : copying c -> x ∈ Hs -> has_class cls m0 x -> obj2ClassDesc x (gcs (cp_dst c)) = Ok (cdesc m0 x).
Proof using R.
  intros I Hx [Hv Hc]. destruct (ci_source_wf c I x Hx) as [W _].
  assert (E : load32 (mem c) x = load32 m0 x) by (rewrite <- (Z.add_0_r x); pose proof (owords_pos m0 x); apply ci_source_word; done || lia).
  rewrite (obj2ClassDesc_ok cls); [|done|by split; rewrite E]. f_equal. unfold cdesc. rewrite E. by apply ci_cls32.
Qed.
Lemma source_kind c x : copying c -> x ∈ Hs -> getObjFlags (gcs (cp_dst c)) x = okind m0 x /\ Z.land (okind m0 x) FLAGS_MASK = okind m0 x.
Proof using R.
  intros I Hx. split; [|by apply kind_flags, (so_wf x (cr_source R x Hx))].
  pose proof (owords_pos m0 x). apply (ci_source_word c I x (-8)); done || lia.
Qed.

Context (collect : dom -> res dom) (in_irq : bool) (domainClass : Z).

(** enough fuel for the references in the contents *)
Definition starts (c : cst) : Prop := (length Hs < S n_fuel + length (copied c))%nat.

Lemma copy_object_done c x : copying c -> starts c -> x ∈ Hs -> x ∉ (copied c).*1 -> object_source x ->
  done_with c x (copy_object collect in_irq dst dst_id max_copied copy x c).
Proof using R Hcopy.
  intros I Hfu Hx Hn (E & Hclass & Hvt & Hsv). set (cl := cdesc m0 x) in *.
  pose proof (so_wf x (cr_source R x Hx)) as W. destruct (wf_body_at _ _ _ _ E (wf_class _ _ _ W)) as (Hhc & H1 & H2 & H3 & H4 & _). cbv zeta in *. fold cl in H1, H2, H3, H4.
  assert (Eo : owords m0 x = OBJSIZE_OBJECT (isize m0 x)) by (unfold owords; by rewrite E).
  assert (Ei : instanceSize (gcs (cp_dst c)) cl = isize m0 x) by (by apply (ci_cls32 c I)).
  pose proof (wf_addr _ _ _ W) as (Ha & _ & Hb). pose proof (load32_range m0 (cl + c_instanceSize)) as Hr. change (load32 m0 (cl + c_instanceSize)) with (isize m0 x) in Hr.
  unfold OBJSIZE_OBJECT, XMOFF in Eo.
  unfold copy_object. rewrite (assertobject_ok cls) by apply (ci_source_wf c I x Hx). cbn [rbind]. rewrite (source_class c x I Hx Hhc). cbn [rbind]. fold cl.
  rewrite (Hsv _ (ci_svc c I)). cbn [rbind]. rewrite Ei.
  replace (u32 (OBJSIZE_OBJECT (isize m0 x))) with (owords m0 x) by (unfold OBJSIZE_OBJECT, XMOFF; rewrite u32_small by lia; lia).
  rewrite (charge_ok c x _ I Hx Hn eq_refl). cbn [rbind].
  destruct (request_kept cls m0 (mem c) (NewObject cl) (ci_cls c I) Hclass) as [Hclass' Hw].
  assert (Ew : request_words (mem c) (NewObject cl) = owords m0 x) by (rewrite Hw; unfold owords; by rewrite E).
  destruct (copy_new_object collect in_irq cls roots (cp_dst c) _ (ci_heap c I) (ci_equal c I) rc (ci_rc c I) cl Hclass')
    as (o & d' & Ea & Es & HN); [rewrite Ew; by apply ci_ready|]. rewrite Ew in HN.
  rewrite (alloc_copy_ok _ _ _ _ _ _ Ea (new_epoch _ _ _ _ _ _ HN)). cbn [rbind].
  rewrite (addToRefTable_ok c x o d' _ I Hx Hn). cbn [rbind].
  rewrite <- E in HN. destruct (start_copy c x d' o _ I Hx Hn HN Es) as [S Hcp]. set (c1 := MkCopy d' _ _) in *.
  assert (F : filled c1 x o (4 + 4 * 0) c1).
  { split; [split; [apply S|]|by left| | |].
    - apply elem_of_app. right. apply list_elem_of_here.
    - rewrite E. cbn. split; [lia|done].
    - exists []. apply grew_refl, S.
    - apply Hcp. intros i [Hi1 Hi4] Hi2 _. assert (i = 0) as -> by (Z.div_mod_to_equations; lia).
      split; [unfold field; by rewrite E|]. change (load32 (mem c) (cl + c_vtable) = load32 m0 (x + 0)).
      rewrite Z.add_0_r, <- Hvt. apply ci_cls32; [done|]. apply Hclass. }
  assert (I1 : copying c1) by apply S.
  change (crd c1 (cl + c_map)) with (load32 (mem c1) (cl + c_map)). rewrite (ci_cls32 c1 I1 _ H4).
  rewrite (ci_cls32 c1 I1 _ H3 : instanceSize (gcs (cp_dst c1)) cl = isize m0 x). rewrite s32_small by lia.
  destruct (copy_fields_fills c1 x o (Z.to_nat (isize m0 x)) E) with (k := 0) (addr := load32 m0 (cl + c_map)) (b := 0) (c := c1) as (c2 & -> & F2).
  - unfold fuelled, starts in *. cbn. rewrite length_app. cbn. lia.
  - lia.
  - lia.
  - exact F.
  - unfold bits_at. change (0 mod 8 =? 0) with true. cbv iota. change (0 / 8) with 0. by rewrite Z.add_0_r.
  - cbn [rbind]. destruct (fi_grew _ _ _ _ _ F2) as [L G]. apply (started_done c x o c1 c2 L I Hx Hn S G). apply F2.
Qed.

(** what follows the head of an array *)
Definition rest_of_array (x o : Z) (c1 : cst) : res (Z * cst) :=
  if array_name1 x =? t_name1_L then
    let! '(again, c) := copy_elements copy (Z.to_nat (load32 m0 (x + 8))) 0 x o c1 in
    if (again : bool) then Ok (RESTART, clear_elements (Z.to_nat (load32 m0 (x + 8))) 0 o c) else Ok (o, c)
  else Ok (o, with_dst (with_gcs (fun s => set_ram (memcpy (ram s) (o + 12) (x + 12) (u32 (load32 m0 (x + 8) * 4))) s)) c1).

Lemma copy_array_starts c x : copying c -> x ∈ Hs -> x ∉ (copied c).*1 -> array_layout x ->
  exists o c1, started c x o c1 /\ filled c1 x o 12 c1 /\ copy_array collect in_irq max_copied copy x c = rest_of_array x o c1.
Proof using GCServices0 ServiceTable0 R.
  intros I Hx Hn HA. set (cl := load32 m0 (x + 4)). set (e := load32 m0 (cl + c_elementClass)). set (size := load32 m0 (x + 8)).
  destruct HA as (E & Hclass & Hvt & Hcl0 & H1 & H2 & H3 & H4 & H5). fold cl in Hclass, Hvt, Hcl0, H1, H2, H3, H4, H5. fold e in H2, H3, H4, H5.
  pose proof (so_wf x (cr_source R x Hx)) as W. destruct (wf_body_at _ _ _ _ E (wf_class _ _ _ W)) as (Hhc & Hn1 & Hn2).
  fold cl in Hn1, Hn2.
  assert (Eo : owords m0 x = OBJSIZE_ARRAY_32BIT size) by (unfold owords; by rewrite E).
  pose proof (wf_addr _ _ _ W) as (Ha & _ & Hb). pose proof (load32_range m0 (x + 8)) as Hr. fold size in Hr.
  assert (Eo5 : owords m0 x = size + 5) by (rewrite Eo; unfold OBJSIZE_ARRAY_32BIT, XMOFF; lia).
  assert (E4 : crd c (x + 4) = cl) by (apply (ci_source_word c I x 4 Hx); lia).
  assert (E8 : crd c (x + 8) = size) by (apply (ci_source_word c I x 8 Hx); lia).
  destruct (source_kind c x I Hx) as [Ek1 Ek2].
  assert (Esz : gc_objSize2 x (getObjFlags (gcs (cp_dst c)) x) (gcs (cp_dst c)) = Ok (owords m0 x)).
  { unfold gc_objSize2. rewrite (assertobject_ok cls) by apply (ci_source_wf c I x Hx). cbn [rbind]. rewrite Ek1, Ek2, E.
    change (OBJFLAGS_ARRAY =? OBJFLAGS_ARRAY) with true. cbv iota. change (rd (gcs (cp_dst c)) (x + 8)) with (crd c (x + 8)).
    rewrite E8, <- Eo. by rewrite u32_small by lia. }
  unfold copy_array. rewrite (proj2 (Z.eqb_neq x 0)) by lia. cbn [negb assert_ rbind]. rewrite E4, Esz. cbn [rbind].
  rewrite (charge_ok c x _ I Hx Hn eq_refl). rewrite (proj2 (Z.ltb_ge (quota c) _)).
  2: { rewrite (ci_quota c I). pose proof (ci_wsum c I x Hx Hn). pose proof (cr_quota R). lia. }
  cbn [rbind]. change (crd (MkCopy (cp_dst c) _ _) (cl + c_elementClass)) with (load32 (mem c) (cl + c_elementClass)).
  rewrite (ci_cls32 c I _ H1). fold e.
  change (crd (MkCopy (cp_dst c) (copied c) (quota c - owords m0 x)) (x + 8)) with (crd c (x + 8)). rewrite E8.
  destruct (request_kept cls m0 (mem c) (NewArray cl size) (ci_cls c I)) as [[Hclass' _] _]; [by split; [|lia]|].
  destruct (copy_new_array collect in_irq cls roots (cp_dst c) _ (ci_heap c I) (ci_equal c I) rc (ci_rc c I) cl size Hclass' ltac:(lia))
    as (o & d' & Ea & Es & HN); [rewrite <- Eo; by apply ci_ready|]. rewrite <- Eo in HN.
  assert (Eal : allocArrayInDomain collect in_irq e size (cp_dst c) = Ok (o, d')).
  { unfold allocArrayInDomain, ASSERTCLASSDESC. change (rd (gcs (cp_dst c)) e) with (load32 (mem c) e). rewrite (ci_cls32 c I _ H2), H3, Z.eqb_refl.
    cbn [assert_ rbind]. change (drd (cp_dst c) (e + c_arrayClass)) with (load32 (mem c) (e + c_arrayClass)). rewrite (ci_cls32 c I _ H4), H5.
    by rewrite (proj2 (Z.eqb_neq cl 0) Hcl0). }
  rewrite (alloc_copy_ok _ _ _ _ _ _ Eal (new_epoch _ _ _ _ _ _ HN)). cbn [rbind].
  rewrite (addToRefTable_ok c x o d' _ I Hx Hn). cbn [rbind].
  rewrite <- E in HN. destruct (start_copy c x d' o _ I Hx Hn HN Es) as [S Hcp]. set (c1 := MkCopy d' _ _) in *.
  assert (I1 : copying c1) by apply S.
  assert (F : filled c1 x o (12 + 4 * 0) c1).
  { split; [split; [done|]|by right| | |].
    - apply elem_of_app. right. apply list_elem_of_here.
    - rewrite E. cbn. split; [lia|done].
    - exists []. by apply grew_refl.
    - apply Hcp. intros i [Hi1 Hi4] Hi2 _. change (12 + 4 * 0) with 12 in Hi2.
      split; [unfold field; rewrite E; simpl; by rewrite (proj2 (Z.leb_gt 12 i)) by lia|].
      assert (i = 0 \/ i = 4 \/ i = 8) as [->|[->| ->]] by (Z.div_mod_to_equations; lia); [|done|done].
      change (load32 (mem c) (cl + c_vtable) = load32 m0 (x + 0)).
      rewrite Z.add_0_r, <- Hvt. apply ci_cls32; [done|]. apply Hclass. }
  assert (En : class_name1 (gcs (cp_dst c1)) cl = load8 m0 (load32 m0 (cl + c_name) + 1)).
  { unfold class_name1. change (rd (gcs (cp_dst c1)) (cl + c_name)) with (load32 (mem c1) (cl + c_name)).
    rewrite (ci_cls32 c1 I1 _ Hn1). by apply (ci_cls c1 I1). }
  exists o, c1. split; [exact S|]. split; [exact F|]. rewrite En. reflexivity.
Qed.

Lemma copy_array_done c x : copying c -> starts c -> x ∈ Hs -> x ∉ (copied c).*1 -> array_source x ->
  done_with c x (copy_array collect in_irq max_copied copy x c).
Proof using GCServices0 ServiceTable0 R Hcopy.
  intros I Hfu Hx Hn [HA Hname]. destruct (copy_array_starts c x I Hx Hn HA) as (o & c1 & S & F & ->). destruct HA as (E & _).
  unfold rest_of_array. destruct (Z.eqb_spec (array_name1 x) t_name1_L) as [EL|NL].
  - destruct (copy_elements_fills c1 x o (Z.to_nat (load32 m0 (x + 8))) E) with (i := 0) (c := c1) as (c2 & -> & F2).
    + unfold ref_array. unfold array_name1 in EL. by rewrite EL.
    + unfold fuelled, starts in *. rewrite (sd_table _ _ _ _ S), length_app. cbn. lia.
    + lia.
    + pose proof (load32_range m0 (x + 8)). lia.
    + exact F.
    + cbn [rbind]. destruct (fi_grew _ _ _ _ _ F2) as [L G]. apply (started_done c x o c1 c2 L I Hx Hn S G). apply F2.
  - assert (Hraw : ref_array m0 x = false) by (destruct (ref_array m0 x); [by destruct (NL (Hname eq_refl))|done]).
    pose proof (copy_words_fills c1 x o c1 E Hraw F) as F2. destruct (fi_grew _ _ _ _ _ F2) as [L G].
    exact (started_done c x o c1 _ L I Hx Hn S G (fi_copied _ _ _ _ _ F2)).
Qed.

(** C11 An array of arrays is not copied with its elements: [copy_array] takes
    only names that go on with 'L' for arrays of references, so that for
    [[\[\[...]] the words are copied as they are, and every element that the
    sender allocated is, in the receiver's heap, a reference into the heap of
    the sender, which the receiver's collector does not accept. *)
Theorem copy_array_of_arrays_leaks c x : copying c -> x ∈ Hs -> x ∉ (copied c).*1 -> array_layout x -> array_name1 x = 91 ->
  exists o c', copy_array collect in_irq max_copied copy x c = Ok (o, c') /\ o ∈ (copied c').*2 /\
    forall i v, 0 <= i < load32 m0 (x + 8) -> load32 m0 (x + (12 + 4 * i)) = v -> v ∈ Hs ->
      load32 (mem c') (o + (12 + 4 * i)) = v /\ ~ ref_ok cls (mem c') (H0 ++ (copied c').*2) FRef v.
Proof using GCServices0 ServiceTable0 R.
  intros I Hx Hn HA Hname. destruct (copy_array_starts c x I Hx Hn HA) as (o & c1 & S & F & ->). destruct HA as (E & _).
  unfold rest_of_array. rewrite Hname. change (91 =? t_name1_L) with false. cbv iota.
  destruct (filled_now _ _ _ _ _ F) as (I1 & Hin & _). destruct (ci_target c1 I1 x o Hin) as [Ho _].
  destruct (array_copied c1 x o I1 Hin E) as (Hlen & Hout & Hw). eexists o, _. split; [reflexivity|]. cbn [copied with_dst cp_dst].
  split; [apply list_elem_of_fmap; by exists (x, o)|]. intros i v Hi Ev Hv. split.
  - rewrite <- Ev. cbn. rewrite Hw by lia. apply (ci_source_word c1 I1 x); [done|lia|]. unfold owords. rewrite E. simpl. unfold OBJSIZE_ARRAY_32BIT, XMOFF. lia.
  - pose proof (owords_pos m0 v). pose proof (so_wf v (cr_source R v Hv)) as Wv. intros [?|[Hin'|[_ Hk]]].
    + pose proof (source_addr v Hv). lia.
    + destruct (heap_byte c1 v (v - 8) I1 Hin') as (_ & Hne & _); [pose proof (owords_pos (mem c1) v); lia|].
      apply Hne, (so_apart v (cr_source R v Hv)). lia.
    + assert (Ek : load32 (ram (gcs (cp_dst (with_dst (with_gcs (fun s => set_ram (memcpy (ram s) (o + 12) (x + 12) (u32 (load32 m0 (x + 8) * 4))) s)) c1)))) (v - 8) = okind m0 v).
      { transitivity (load32 (mem c1) (v - 8)); [|apply (ci_source_word c1 I1 v (-8) Hv); lia]. apply load32_ext. intros b Hb. apply Hout.
        pose proof (source_apart c1 v o I1 Hv Ho) as Hd. rewrite (ci_size c1 I1 x o Hin) in Hd. unfold contents. rewrite E. cbn. lia. }
      assert (Hk2 : okind m0 v ∈ fixed_kinds) by (rewrite <- Ek; exact Hk).
      pose proof (wf_kind _ _ _ Wv) as Hk'. by_kind Hk' Ekk; rewrite Ekk in Hk2; revert Hk2; apply (bool_decide_unpack _); by vm_compute.
Qed.

(** proxies: the vtable is written last *)
Lemma proxy_started c x o c1 i : started c x o c1 -> x ∈ Hs -> 0 <= i -> i + 4 <= 4 * owords m0 x - 8 ->
  load32 (mem c1) (x + i) = load32 m0 (x + i) /\ (x + i + 4 <= o - 8 \/ o - 8 + 4 * owords m0 x <= x + i).
Proof using R.
  intros S Hx H1 H2. assert (I1 : copying c1) by apply S. split; [apply ci_source_word; done || lia|].
  assert (Hin : (x, o) ∈ copied c1) by (rewrite (sd_table _ _ _ _ S); apply elem_of_app; right; apply list_elem_of_here).
  destruct (ci_target c1 I1 x o Hin) as [Ho _]. pose proof (source_apart c1 x o I1 Hx Ho) as Hd. rewrite (ci_size c1 I1 x o Hin) in Hd. lia.
Qed.
Lemma started_copied c x o c1 : copying c -> x ∈ Hs -> x ∉ (copied c).*1 -> started c x o c1 ->
  copy_of (mem c1) (copied c1) x o -> done_with c x (Ok (o, c1)).
Proof using R. intros I Hx Hn S Hc. eapply started_done; try done. apply grew_refl, S. Qed.
(** [d'] is the receiver before the vtable is written *)
Lemma proxy_done c x o (d' : dom) l : copying c -> x ∈ Hs -> x ∉ (copied c).*1 ->
  new_copy cls roots (cp_dst c) (H0 ++ (copied c).*2) rc (dwr o (load32 m0 x) d') o (owords m0 x) (okind m0 x) l ->
  services (gcs d') = services (gcs (cp_dst c)) ->
  (forall i, in_body m0 x i -> field m0 x i = FRaw /\ word_of l i = load32 m0 (x + i)) ->
  let c1 := MkCopy d' (copied c ++ [(x, o)]) (quota c - owords m0 x) in done_with c x (Ok (o, cwr o (crd c1 x) c1)).
Proof using R.
  intros I Hx Hn HN Es Hw c1. destruct (start_copy c x _ o _ I Hx Hn HN Es) as [S Hcp]. pose proof (owords_pos m0 x).
  assert (Ev : crd c1 x = load32 m0 x).
  { destruct (proxy_started c x o _ 0 S Hx ltac:(lia) ltac:(lia)) as [Hw0 Hap]. rewrite !Z.add_0_r in *. rewrite <- Hw0. cbn. symmetry. apply load32_store32_ne. lia. }
  rewrite Ev. refine (started_copied c x o _ I Hx Hn S _). apply Hcp. intros i Hi _ _. by apply Hw.
Qed.

Lemma copy_portal_done c x : copying c -> x ∈ Hs -> x ∉ (copied c).*1 -> portal_source x ->
  done_with c x (copy_portal collect in_irq dst dst_id max_copied x true c).
Proof using GCServices0 ServiceTable0 R.
  intros I Hx Hn (E & Hid & Hsv). set (td := load32 m0 (x + 4)) in *. set (tid := load32 m0 (x + 8)) in *. set (idx := load32 m0 (x + 12)) in *.
  pose proof (so_wf x (cr_source R x Hx)) as W. pose proof (wf_body_at _ _ _ _ E (wf_class _ _ _ W)) as Hhc. pose proof (wf_addr _ _ _ W) as (Ha & _ & _).
  assert (Eo : owords m0 x = OBJSIZE_PORTAL) by (unfold owords; by rewrite E). change OBJSIZE_PORTAL with 6 in Eo.
  assert (E4 : crd c (x + 4) = td) by (apply (ci_source_word c I x 4 Hx); lia).
  assert (E8 : crd c (x + 8) = tid) by (apply (ci_source_word c I x 8 Hx); lia).
  assert (E12 : crd c (x + 12) = idx) by (apply (ci_source_word c I x 12 Hx); lia).
  unfold copy_portal. rewrite (proj2 (Z.eqb_neq x 0)) by lia. rewrite E4, E8, E12.
  assert ((tid =? dst_id) && negb ((tid =? 0) && (td =? 0) && (idx =? 0)) = false) as ->.
  { destruct (Z.eqb_spec tid dst_id) as [Ed|]; [|done]. destruct Hid as [?|(-> & -> & ->)]; [done|]. done. }
  rewrite (source_class c x I Hx Hhc). cbn [rbind]. change OBJSIZE_PORTAL with 6. rewrite (charge_ok c x _ I Hx Hn Eo). cbn [rbind].
  destruct Hhc as [Hv Hvc]. pose proof (load32_range m0 x) as Hvr.
  destruct (copy_new_portal collect in_irq cls roots (cp_dst c) _ (ci_heap c I) (ci_equal c I) rc (ci_rc c I) td tid idx (load32 m0 x)
    (load32_range _ _) (load32_range _ _) (load32_range _ _) ltac:(lia) Hvc) as (o & d' & Ea & Es & Ep & HN).
  { intros. eapply (Hsv _ (ci_svc c I)); done. }
  { change OBJSIZE_PORTAL with 6. rewrite <- Eo. by apply ci_ready. }
  change OBJSIZE_PORTAL with 6 in *. rewrite <- Eo, <- E in HN.
  rewrite (alloc_copy_ok _ _ _ _ _ _ Ea Ep). cbn [rbind]. rewrite (addToRefTable_ok c x o d' _ I Hx Hn). cbn [rbind].
  rewrite <- Eo. refine (proxy_done c x o d' _ I Hx Hn HN Es _). intros i [Hi1 Hi4]. rewrite Eo in Hi1. split; [unfold field; by rewrite E|].
  assert (i = 0 \/ i = 4 \/ i = 8 \/ i = 12) as [->|[->|[->| ->]]] by (Z.div_mod_to_equations; lia); [|done..].
  by rewrite Z.add_0_r.
Qed.

Lemma copy_domainproxy_done c x : copying c -> x ∈ Hs -> x ∉ (copied c).*1 -> okind m0 x = OBJFLAGS_DOMAIN ->
  done_with c x (copy_domainproxy collect in_irq src dst max_copied domainClass x c).
Proof using GCServices0 ServiceTable0 R.
  intros I Hx Hn E. pose proof (so_wf x (cr_source R x Hx)) as W. pose proof (wf_addr _ _ _ W) as (Ha & _ & _).
  assert (Eo : owords m0 x = OBJSIZE_DOMAIN) by (unfold owords; by rewrite E). change OBJSIZE_DOMAIN with 5 in Eo.
  assert (E4 : load32 (mem c) (x + 4) = load32 m0 (x + 4)) by (apply (ci_source_word c I x 4 Hx); lia).
  assert (E8 : load32 (mem c) (x + 8) = load32 m0 (x + 8)) by (apply (ci_source_word c I x 8 Hx); lia).
  unfold copy_domainproxy. rewrite (proj2 (Z.eqb_neq x 0)) by lia. rewrite (proj2 (Z.eqb_neq _ _) (cr_domains R)).
  change OBJSIZE_DOMAIN with 5. rewrite (charge_ok c x _ I Hx Hn Eo). cbn [rbind].
  unfold crd at 1 2, drd at 1 2, rd at 1 2. cbn [cp_dst]. rewrite E4, E8.
  destruct (copy_new_domain collect in_irq cls roots (cp_dst c) _ (ci_heap c I) (ci_equal c I) rc (ci_rc c I) domainClass
    (load32 m0 (x + 4)) (load32 m0 (x + 8)) (load32 m0 x) (load32_range _ _) (load32_range _ _) (load32_range _ _)) as (o & d' & Ea & Es & Ep & HN).
  { change OBJSIZE_DOMAIN with 5. rewrite <- Eo. by apply ci_ready. }
  change OBJSIZE_DOMAIN with 5 in *. rewrite <- Eo, <- E in HN.
  rewrite (alloc_copy_ok _ _ _ _ _ _ Ea Ep). cbn [rbind]. rewrite (addToRefTable_ok c x o d' _ I Hx Hn). cbn [rbind].
  rewrite <- Eo. refine (proxy_done c x o d' _ I Hx Hn HN Es _). intros i [Hi1 Hi4]. rewrite Eo in Hi1. split; [unfold field; by rewrite E|].
  assert (i = 0 \/ i = 4 \/ i = 8) as [->|[->| ->]] by (Z.div_mod_to_equations; lia); [|done..].
  by rewrite Z.add_0_r.
Qed.

Lemma grew_services x c a : copying c -> svc a -> grew (fun _ => False) x c (with_dst (with_gcs (set_services a)) c) [].
Proof using GCServices0.
  intros I Ha. apply grew_store; [|done..]. split; try apply I; [|by cbn; rewrite (ci_dom c I)|by cbn; rewrite (ci_state c I)|exact Ha].
  apply heap_ok_services, I.
Qed.

(** the proxy refers to the same memory, whose count is one more *)
Lemma copy_memory_done c x : copying c -> x ∈ Hs -> x ∉ (copied c).*1 -> memory_source x ->
  done_with c x (copy_memory collect in_irq src dst max_copied x c).
Proof using GCServices0 ServiceTable0 R.
  intros I Hx Hn (E & Hsv). destruct (Hsv _ (ci_svc c I)) as (size & mm & a' & Edz & Hsz & Hmm & Einc & Ha').
  pose proof (so_wf x (cr_source R x Hx)) as W. destruct (wf_body_at _ _ _ _ E (wf_class _ _ _ W)) as [Hhc Hdz]. pose proof (wf_addr _ _ _ W) as (Ha & _ & _).
  set (dz := load32 m0 (x + 12)) in *. pose proof (load32_range m0 (x + 12)) as Hdzr. fold dz in Hdzr.
  assert (Eo : owords m0 x = OBJSIZE_MEMORY) by (unfold owords; by rewrite E). change OBJSIZE_MEMORY with 8 in Eo.
  assert (E12 : load32 (mem c) (x + 12) = dz) by (apply (ci_source_word c I x 12 Hx); lia).
  destruct (source_kind c x I Hx) as [Ek1 Ek2].
  unfold copy_memory. rewrite (source_class c x I Hx Hhc). cbn [rbind]. rewrite (proj2 (Z.eqb_neq x 0)) by lia. rewrite (proj2 (Z.eqb_neq _ _) (cr_domains R)).
  change OBJSIZE_MEMORY with 8. rewrite (charge_ok c x _ I Hx Hn Eo). cbn [rbind cp_dst].
  unfold ASSERTMEMORY, assert_memory. rewrite (assertobject_ok cls) by apply (ci_source_wf c I x Hx). cbn [rbind]. rewrite Ek1, E.
  change (Z.land OBJFLAGS_MEMORY FORWARD_MASK =? GC_FORWARD) with false. change (Z.land OBJFLAGS_MEMORY FLAGS_MASK =? OBJFLAGS_MEMORY) with true. cbn [negb rbind].
  destruct Hhc as [Hv Hvc]. pose proof (load32_range m0 x) as Hvr.
  destruct (copy_new_memory collect in_irq cls roots (cp_dst c) _ (ci_heap c I) (ci_equal c I) rc (ci_rc c I) (cdesc m0 x) dz size mm (load32 m0 x)
    Edz Hsz Hmm ltac:(lia) ltac:(lia) Hvc) as (o & d' & Ea & Es & Ep & HN).
  { change OBJSIZE_MEMORY with 8. rewrite <- Eo. by apply ci_ready. }
  set (l := [(0, _); _; _; _]) in HN. change OBJSIZE_MEMORY with 8 in *. rewrite <- Eo, <- E in HN. rewrite <- E12 in Ea.
  erewrite (alloc_copy_ok _ _ _ _ _ _ Ea Ep). cbn [rbind]. rewrite (addToRefTable_ok c x o d' _ I Hx Hn). cbn [rbind].
  destruct (start_copy c x _ o _ I Hx Hn HN Es) as [S Hcp]. set (c1 := MkCopy _ _ _) in S.
  assert (Hsrc : forall i, 0 <= i -> i + 4 <= 24 -> drd d' (x + i) = load32 m0 (x + i) /\ (x + i + 4 <= o - 8 \/ o - 8 + 32 <= x + i)).
  { intros i Hi1 Hi2. destruct (proxy_started c x o _ i S Hx ltac:(lia) ltac:(lia)) as [Hw Hap]. rewrite Eo in Hap. split; [|lia].
    rewrite <- Hw. symmetry. unfold c1. cbn. rewrite !load32_store32_ne by lia. done. }
  destruct (Hsrc 0) as [S0 A0]; [lia..|]. destruct (Hsrc 12) as [S12 A12]; [lia..|]. rewrite Z.add_0_r in *.
  set (c2 := MkCopy d' _ _). change (crd c2 x) with (drd d' x). rewrite S0.
  assert (Ev : crd (cwr o (load32 m0 x) c2) (x + 12) = dz).
  { transitivity (drd d' (x + 12)); [|done]. cbn. apply load32_store32_ne. lia. }
  rewrite Ev. assert (Ec : cwr (o + 12) dz (cwr o (load32 m0 x) c2) = c1) by (unfold c1; by rewrite Eo). rewrite Ec.
  assert (Ed : crd c1 (o + 12) = dz).
  { unfold c1, crd, drd, rd. cbn. rewrite load32_store32. by apply u32_small. }
  rewrite Ed, (proj2 (Z.eqb_neq _ _) Hdz). cbn [negb assert_ rbind]. unfold with_services.
  change (services (gcs (cp_dst c1))) with (services (gcs d')). rewrite Es, Einc. cbn [rbind].
  assert (I1 : copying c1) by apply S.
  eapply started_done; [done|done|done|exact S| |].
  - eapply grew_mono; [| |by apply grew_services]; [done|done].
  - apply Hcp. intros i [Hi1 Hi4] Hi2 [Ht _]. split; [|destruct (Ht E) as [->| ->]; [rewrite Z.add_0_r|]; reflexivity].
    unfold field. rewrite E. simpl. by destruct (Ht E) as [->| ->].
Qed.
End Content.

(** ** References *)

Lemma ref_transferred x i : i mod 4 = 0 -> field m0 x i = FRef -> transferred x i.
Proof using.
  intros Hi Hf. split; intros E; revert Hf; unfold field; rewrite E; simpl.
  - by destruct (16 <=? i).
  - destruct (Z.ltb_spec ((i - 4) / 4) (isize m0 x)) as [?|?]; [|by rewrite andb_false_r]. intros _. Z.div_mod_to_equations. lia.
Qed.

(** everything that is reached is settled once the copies are complete *)
Lemma reached_settled T m v x : (forall x y, (x, y) ∈ T -> copy_of m T x y) ->
  (forall x, x ∈ Hs -> ~ external x /\ x <> 0) -> reaches v x -> settled T v -> settled T x.
Proof using.
  intros HT Hne HR. induction HR as [x|x i y Hx Hi Hf _ IH]; [done|]. intros Hset. apply IH.
  destruct (Hne x Hx) as [Hne1 Hne2]. destruct Hset as [?|[Hin|?]]; [done| |done].
  apply list_elem_of_fmap in Hin as ([x' z] & E & Hin). cbn in E. subst x'. destruct (HT x z Hin) as [_ Hd].
  apply Hd; [done|by apply Hi|apply ref_transferred; [apply Hi|done]|done].
Qed.

Context (collect : dom -> res dom) (in_irq : bool) (domainClass : Z).

Lemma valid_source c v : copying c -> v ∈ Hs \/ external v -> gc_isValidHeapRef src_heap src_heapTop v c = Ok true.
Proof using R.
  intros I Hv. unfold gc_isValidHeapRef. destruct Hv as [Hx|(_ & _ & Hc & Hk)].
  - pose proof (so_range v (cr_source R v Hx)) as Hr. rewrite (proj2 (Z.leb_le src_heap v)), (proj2 (Z.ltb_lt v src_heapTop)) by lia. by rewrite orb_true_r.
  - unfold getObjFlags, rd. rewrite (ci_cls32 c I _ Hc). destruct (_ || _); [done|]. by destruct Hk as [-> | ->].
Qed.

Lemma unmapped_None c v : copying c -> v ∉ (copied c).*1 -> find_copied v (copied c) = None.
Proof using. intros I Hn. rewrite find_copied_fwd. by apply fwd_None. Qed.

Lemma done_self c v : copying c -> settled (copied c) v -> done_with c v (Ok (trans (copied c) v, c)).
Proof using. intros I Hv. exists c, []. split; [done|]. split; [by apply grew_refl|done]. Qed.
Lemma done_untabled c v : copying c -> v = 0 \/ external v -> done_with c v (Ok (v, c)).
Proof using R.
  intros I Hv. pose proof (done_self c v I) as HD. rewrite (trans_unmapped c I v Hv) in HD. apply HD. destruct Hv; [by left|by right; right].
Qed.

Abbreviation copy_from := (copy_reference_internal collect in_irq src dst dst_id src_heap src_heapTop max_copied domainClass).

(** the kinds of object *)
Lemma copy_source_done n c x : copyable x -> copies (copy_from n) n -> copying c -> starts n c -> x ∈ Hs -> x ∉ (copied c).*1 ->
  done_with c x (copy_from (S n) x c).
Proof using GCServices0 ServiceTable0 R.
  intros Hk HC I Hfu Hx Hn. pose proof (so_wf x (cr_source R x Hx)) as W. destruct (source_kind c x I Hx) as [Ek1 Ek2].
  assert (E0 : (x =? 0) = false) by (apply Z.eqb_neq; pose proof (source_addr x Hx); lia).
  cbn [copy_reference_internal]. rewrite E0, (proj2 (Z.eqb_neq _ _) (cr_domains R)), (unmapped_None c x I Hn).
  rewrite (valid_source c x I (or_introl Hx)). cbn [rbind negb]. rewrite Ek1, Ek2.
  destruct Hk as [Hk|[Hk|[Hk|[Hk|Hk]]]].
  - pose proof Hk as (E & Hclass & _). rewrite E. change (OBJFLAGS_OBJECT =? OBJFLAGS_OBJECT) with true. cbv iota.
    destruct (wf_body_at _ _ _ _ E (wf_class _ _ _ W)) as (Hhc & H1 & H2 & _). cbv zeta in *.
    rewrite (source_class c x I Hx Hhc). cbn [rbind]. unfold ASSERTCLASSDESC. change (rd (gcs (cp_dst c)) (cdesc m0 x)) with (load32 (mem c) (cdesc m0 x)).
    rewrite (ci_cls32 c I _ H1), H2, Z.eqb_refl. cbn [assert_ rbind]. by apply (copy_object_done (copy_from n) n).
  - rewrite (proj1 (proj1 Hk)). by apply (copy_array_done (copy_from n) n).
  - rewrite (proj1 Hk). by apply (copy_portal_done).
  - rewrite (proj1 Hk). destruct (copy_memory_done collect in_irq c x I Hx Hn Hk) as (c' & L & -> & G & Hset). cbn [rbind]. pose proof (gr_ok _ _ _ _ _ G) as I'.
    assert (Hin : x ∈ (copied c').*1) by (destruct Hset as [?|[?|(_ & ? & _)]]; [by apply Z.eqb_neq in E0|done|done]).
    destruct (ci_target c' I' _ _ (trans_mapped c' I' x Hin)) as [Ho _]. destruct (h_block (ci_heap c' I') _ Ho) as [Hb1 Hb2].
    pose proof (owords_pos (mem c') (trans (copied c') x)). unfold gc_isValidHeapRef.
    rewrite (proj2 (Z.leb_le _ (trans (copied c') x))), (proj2 (Z.ltb_lt (trans (copied c') x) _)), orb_true_r by lia. cbn [rbind assert_]. exists c', L.
    split; [done|]. split; [done|done].
  - rewrite Hk. by apply (copy_domainproxy_done).
Qed.

Lemma copy_reference_internal_copies n : (forall x, x ∈ Hs -> copyable x) -> copies (copy_from n) n.
Proof using GCServices0 ServiceTable0 R.
  intros Hcp. induction n as [|n IH]; intros c v I Hfu Hv.
  { exfalso. unfold fuelled in Hfu. pose proof (submseteq_length (copied c).*1 Hs) as Hl. rewrite length_fmap in Hl.
    assert ((length (copied c) <= length Hs)%nat); [|lia]. apply Hl, NoDup_submseteq; [apply I|]. intros x. apply (ci_sub c I). }
  assert (Hc : v = 0 \/ v ∈ (copied c).*1 \/ (v ∈ Hs /\ v ∉ (copied c).*1) \/ external v).
  { destruct Hv as [?|[?|?]]; [by left| |tauto]. destruct (decide (v ∈ (copied c).*1)); tauto. }
  destruct Hc as [->|[Hin|[[Hx Hn]|Hx]]].
  - apply done_untabled; [done|by left].
  - assert (E0 : (v =? 0) = false) by (apply Z.eqb_neq; pose proof (source_addr v (ci_sub c I v Hin)); lia).
    cbn [copy_reference_internal]. rewrite E0, (proj2 (Z.eqb_neq _ _) (cr_domains R)), find_copied_fwd.
    rewrite (proj2 (fwd_Some _ v _ (ci_nodup c I)) (trans_mapped c I v Hin)). apply done_self; [done|by right; left].
  - apply copy_source_done; auto.
  - pose proof Hx as ((Hv1 & Hv2) & Hns & Hcl & Hkd). assert (E0 : (v =? 0) = false) by (apply Z.eqb_neq; lia).
    cbn [copy_reference_internal]. rewrite E0, (proj2 (Z.eqb_neq _ _) (cr_domains R)).
    rewrite (unmapped_None c v I) by (intros Hin; by apply Hns, (ci_sub c I)). rewrite (valid_source c v I (or_intror Hx)). cbn [rbind negb].
    unfold getObjFlags, rd. rewrite (ci_cls32 c I _ Hcl).
    pose proof (done_untabled c v I (or_intror Hx)). by destruct Hkd as [-> | ->].
Qed.

(** ** The copied graph *)

Record copied_graph (v r : Z) (c : cst) : Prop := {
  cg_root : r = trans (copied c) v /\ r <> RESTART;
  cg_objects : forall x, x ∈ (copied c).*1 <-> x ∈ Hs /\ reaches v x;
  cg_copies : forall x y, (x, y) ∈ copied c -> copy_of (mem c) (copied c) x y /\ heapTop (gcs d0) < y;
  cg_fresh : NoDup (copied c).*1 /\ NoDup (H0 ++ (copied c).*2);
  cg_heap : heap_ok cls roots (gcs (cp_dst c)) (H0 ++ (copied c).*2);
  cg_state : cp_dst c = with_gcs (fun s => set_services (services (gcs (cp_dst c))) (set_ram (mem c)
    (set_heapTop (heapTop s + 4 * wsum m0 (copied c).*1) s))) d0;
  cg_frame : forall b, ~ rc b -> b < heapTop (gcs d0) \/ top c <= b -> load8 (mem c) b = load8 m0 b;
  cg_quota : quota c = q0 - wsum m0 (copied c).*1;
}.

Definition copy_start : cst := MkCopy d0 [] q0.
Lemma copying_start : copying copy_start.
Proof using R.
  split; cbn.
  - rewrite app_nil_r. apply (cr_heap R).
  - by destruct d0.
  - change (wsum m0 []) with 0. rewrite Z.add_0_r. by destruct (gcs d0).
  - change (wsum m0 []) with 0. lia.
  - constructor.
  - by intros x ?%not_elem_of_nil.
  - by intros x y ?%not_elem_of_nil.
  - done.
  - apply (cr_svc R).
Qed.

(** C3 A reference from the heap of the sender is copied with everything it
    spans: given quota, room and table space for the objects, the call
    succeeds with fuel for them; the table then holds exactly the objects
    reached, each once, each with a new object at the end of the receiver's
    heap that is its image (references mapped through the table, other words
    equal), so that sharing and cycles are kept and none of them leads back to
    the sender; the receiver's heap is well-formed with them, no other memory
    than service reference counts changes, and the quota pays their sizes.
    [copyable] leaves out arrays of arrays, threads, atomic variables,
    service objects and objects that are promoted to services on the way. *)
Theorem copy_reference_copies fuel v : (forall x, x ∈ Hs -> copyable x) -> (length Hs < fuel)%nat -> source_ref v ->
  exists r c, copy_reference collect in_irq src dst dst_id src_heap src_heapTop max_copied domainClass fuel v copy_start = Ok (r, c) /\
    copied_graph v r c.
Proof using GCServices0 ServiceTable0 R.
  intros Hcp Hfu Hv. destruct (copy_reference_internal_copies fuel Hcp copy_start v copying_start) as (c & L & E & [I T K A0 D Hre] & Hset);
    [unfold fuelled; cbn; lia|done|]. exists (trans (copied c) v), c. split; [exact E|]. cbn in T. subst L.
  assert (HD : forall x y, (x, y) ∈ copied c -> copy_of (mem c) (copied c) x y) by (intros x y; apply D).
  split.
  - split; [done|]. destruct (settled_image c I _ Hset) as [_ ?]. unfold RESTART in *. lia.
  - intros x. split; [intros Hx; by split; [apply (ci_sub c I)|apply Hre]|]. intros [Hx Hr].
    assert (Hne : forall x, x ∈ Hs -> ~ external x /\ x <> 0).
    { intros z Hz. split; [by intros (_ & ? & _)|]. pose proof (source_addr z Hz). lia. }
    destruct (reached_settled _ _ _ _ HD Hne Hr Hset) as [?|[?|?]]; [|done|]; by destruct (Hne x Hx).
  - intros x y Hin. split; [by apply HD|]. pose proof (A0 x y Hin) as Hy. cbn in Hy. lia.
  - split; [apply I|]. eapply h_nodup, (ci_heap c I).
  - apply I.
  - rewrite (ci_dom c I) at 1. unfold with_gcs. by rewrite (ci_state c I) at 1.
  - intros b Hb Hout. by apply (K b Hb); [intros []|].
  - apply I.
Qed.
End Graph.

(** ** Two objects and an array that refer to each other *)

#[local] Instance sample_copy_gc : GCServices unit := {
  dz_refcount_at _ _ := Ok 1;
  memory_deleted_dz _ x := Ok x;
  domain_id _ _ := 0;
  service_decRefcount _ _ x := Ok x;
}.
#[local] Instance sample_copy_table : ServiceTable unit := fun _ _ _ => 0.
#[local] Instance sample_copy_services : CopyServices unit := {
  implements_portal _ _ := Ok false;
  portal_auto_promo _ _ := Err (EPanic "");
  receiver_has_class _ _ := Ok true;
  shared_array_class _ _ := Err (EPanic "");
  dz_size_mem _ _ := Ok (0, 0);
  dz_incRefcount _ x := Ok x;
  domain_epoch _ _ := 0;
}.

Definition sample_copy_class (a : Z) : Prop := 0x8000 <= a < 0x8400.
Definition sample_copy_roots : list root := [RRef 0x5000].
(** the class at 0x8100 with two references, its class of arrays at 0x8280,
    whose name begins with [[\[L] or, if [nested], with [[\[\[] *)
Definition sample_copy_words (nested : bool) : list (Z * Z) :=
  [(0x8100, MAGIC_CLASSDESC); (0x8100 + c_vtable, 0x8204); (0x8200, 0x8100); (0x8100 + c_instanceSize, 2);
   (0x8100 + c_map, 0x8220); (0x8220, 3); (0x8100 + c_arrayClass, 0x8280);
   (0x8280 + c_vtable, 0x8214); (0x8210, 0x8280); (0x8280 + c_elementClass, 0x8100); (0x8280 + c_name, 0x8310); (0x8310, if nested then 0x5b5b else 0x4c5b);
   (0x40000, OBJFLAGS_OBJECT); (0x40004, MAGIC_OBJECT); (0x40008, 0x8204); (0x4000c, 0x40020); (0x40010, 0x40020);
   (0x40018, OBJFLAGS_OBJECT); (0x4001c, MAGIC_OBJECT); (0x40020, 0x8204); (0x40024, 0x40008); (0x40028, 0x40038);
   (0x40030, OBJFLAGS_ARRAY); (0x40034, MAGIC_OBJECT); (0x40038, 0x8214); (0x4003c, 0x8280); (0x40040, 1); (0x40044, 0x40008)].
Definition sample_receiver (nested : bool) : domain_gc unit :=
  MkDomainGC (MkGC (foldr (fun p m => store32 m p.1 p.2) (fun _ => 0) (sample_copy_words nested))
    0x10000 0x20000 0x10000 0x10000 0x20000 0x30000 0x20000 tt) 0x6000 7 false true.
Definition sample_sources : list Z := [0x40008; 0x40020; 0x40038].

Section Sample.
Context (nested : bool).
Abbreviation sample_ram := (ram (gcs (sample_receiver nested))).

(** the bytes of the sample classes *)
Ltac in_classes := unfold cls32, sample_copy_class, c_vtable, c_instanceSize, c_map, c_name, c_elementClass, c_arrayClass; intros; lia.

Lemma sample_receiver_ok : heap_ok sample_copy_class sample_copy_roots (gcs (sample_receiver nested)) [].
Proof.
  split; try by intros ? ?%not_elem_of_nil.
  - split; cbn; split_and?; done || lia.
  - done.
  - by intros o i ?%not_elem_of_nil.
  - intros r ->%list_elem_of_singleton. left. (destruct nested; by vm_compute).
  - unfold sample_copy_class, elsewhere. cbn. lia.
  - unfold sample_copy_class, elsewhere. intros r x ->%list_elem_of_singleton. cbn. lia.
  - split; [apply (bool_decide_unpack _); destruct nested; by vm_compute|]. intros r r' ->%list_elem_of_singleton ->%list_elem_of_singleton. lia.
Qed.

Lemma sample_instance x : x = 0x40008 \/ x = 0x40020 ->
  okind sample_ram x = OBJFLAGS_OBJECT /\ load32 sample_ram x = 0x8204 /\ cdesc sample_ram x = 0x8100 /\ owords sample_ram x = 6.
Proof. intros [->| ->]; destruct nested; by vm_compute. Qed.
Lemma sample_class_words : load32 sample_ram 0x8100 = MAGIC_CLASSDESC /\ load32 sample_ram (0x8100 + c_instanceSize) = 2 /\
  load32 sample_ram (0x8100 + c_map) = 0x8220 /\ load32 sample_ram (0x8100 + c_vtable) = 0x8204 /\ load32 sample_ram 0x8200 = 0x8100 /\
  load32 sample_ram (0x8100 + c_arrayClass) = 0x8280.
Proof. (destruct nested; by vm_compute). Qed.
Lemma sample_array : okind sample_ram 0x40038 = OBJFLAGS_ARRAY /\ load32 sample_ram 0x40038 = 0x8214 /\ load32 sample_ram 0x4003c = 0x8280 /\
  load32 sample_ram (0x8280 + c_name) = 0x8310 /\ owords sample_ram 0x40038 = 6.
Proof. (destruct nested; by vm_compute). Qed.
Lemma sample_array_class_words : load32 sample_ram (0x8280 + c_vtable) = 0x8214 /\ load32 sample_ram (0x8280 + c_elementClass) = 0x8100.
Proof. (destruct nested; by vm_compute). Qed.

Lemma sample_instance_wf x : x = 0x40008 \/ x = 0x40020 -> wf_obj sample_copy_class sample_ram x.
Proof.
  intros Hx. destruct (sample_instance x Hx) as (Ek & Ev & Ec & Ew). destruct sample_class_words as (E1 & E2 & E3 & _). split.
  - rewrite Ek. apply (bool_decide_unpack _). (destruct nested; by vm_compute).
  - destruct Hx as [->| ->]; destruct nested; by vm_compute.
  - rewrite Ew. destruct Hx as [->| ->]; (split_and!; [lia|done|lia]).
  - unfold wf_body. rewrite Ek. change (OBJFLAGS_OBJECT =? OBJFLAGS_OBJECT) with true. cbv iota zeta. unfold has_class, isize.
    rewrite Ec, Ev, E1, E2, E3. split_and!; first [in_classes|intros j Hj; unfold sample_copy_class; Z.div_mod_to_equations; lia|done].
Qed.
Lemma sample_array_wf : wf_obj sample_copy_class sample_ram 0x40038.
Proof.
  destruct sample_array as (Ek & Ev & Ec & En & Ew). split.
  - rewrite Ek. apply (bool_decide_unpack _). (destruct nested; by vm_compute).
  - (destruct nested; by vm_compute).
  - rewrite Ew. split_and!; [lia|done|lia].
  - unfold wf_body. rewrite Ek. change (OBJFLAGS_ARRAY =? OBJFLAGS_OBJECT) with false. change (OBJFLAGS_ARRAY =? OBJFLAGS_ARRAY) with true.
    cbv iota zeta. unfold has_class. change (0x40038 + 4) with 0x4003c. rewrite Ev, Ec, En. split_and!; in_classes || done.
Qed.

Lemma sample_class_ok : class_ok sample_copy_class sample_ram 0x8100.
Proof.
  destruct sample_class_words as (E1 & E2 & E3 & E4 & E5 & _). unfold class_ok. rewrite E1, E2, E3, E4. change (0x8204 - 4) with 0x8200. rewrite E5.
  split_and!; first [in_classes|intros j Hj; unfold sample_copy_class; Z.div_mod_to_equations; lia|done].
Qed.
Lemma sample_array_class_ok : array_class_ok sample_copy_class sample_ram 0x8280.
Proof.
  destruct sample_array_class_words as (E1 & _). destruct sample_array as (_ & _ & _ & E2 & _). unfold array_class_ok. rewrite E1, E2.
  split_and!; in_classes || done.
Qed.

(** every word of the objects is one of them, or no reference *)
Lemma sample_refs x i : x ∈ sample_sources -> in_body sample_ram x i -> field sample_ram x i = FRef -> load32 sample_ram (x + i) ∈ sample_sources.
Proof.
  intros Hx [Hi Hi4]. unfold sample_sources in Hx. rewrite !elem_of_cons, elem_of_nil in Hx.
  assert (Hc : owords sample_ram x = 6) by (destruct Hx as [->|[->|[->|[]]]]; destruct nested; by vm_compute). rewrite Hc in Hi.
  assert (i = 0 \/ i = 4 \/ i = 8 \/ i = 12) as Hi' by (Z.div_mod_to_equations; lia). clear Hc Hi Hi4.
  destruct Hx as [->|[->|[->|[]]]]; destruct Hi' as [->|[->|[->| ->]]]; intros Hf; apply (bool_decide_unpack _); revert Hf; destruct nested; by vm_compute.
Qed.

Lemma sample_source_object x : x ∈ sample_sources -> 
  source_object 0x40000 0x40048 sample_copy_class (sample_receiver nested) sample_sources (fun _ => False) x.
Proof.
  intros Hx. pose proof Hx as Hc. unfold sample_sources in Hc. rewrite !elem_of_cons, elem_of_nil in Hc. split.
  - destruct Hc as [->|[->|[->|[]]]]; [apply sample_instance_wf; by left|apply sample_instance_wf; by right|apply sample_array_wf].
  - destruct Hc as [->|[->|[->|[]]]]; lia.
  - assert (Hw : owords sample_ram x = 6) by (destruct Hc as [->|[->|[->|[]]]]; destruct nested; by vm_compute). rewrite Hw. unfold elsewhere. cbn.
    intros b Hb. split; [|by intros []]. destruct Hc as [->|[->|[->|[]]]]; lia.
  - intros i Hi Hf. right. left. by apply sample_refs.
Qed.
Lemma sample_array_layout : array_layout sample_copy_class (sample_receiver nested) 0x40038.
Proof.
  destruct sample_array as (Ek & Ev & Ec & En & _). destruct sample_array_class_words as (E1 & E2). destruct sample_class_words as (E3 & _ & _ & _ & _ & E6).
  unfold array_layout. change (0x40038 + 4) with 0x4003c. rewrite Ec, E1, E2, E3, E6, Ev.
  split; [done|]. split; [exact sample_array_class_ok|]. split_and!; [done|done|in_classes|in_classes|done|in_classes|done].
Qed.
Lemma sample_object_source x : x = 0x40008 \/ x = 0x40020 -> object_source sample_copy_class (sample_receiver nested) (fun _ => True) x.
Proof.
  intros Hi. destruct (sample_instance x Hi) as (Ek & Ev & Ec & _). destruct sample_class_words as (_ & _ & _ & E4 & _).
  unfold object_source. rewrite Ec, Ev, E4. split; [done|]. split; [exact sample_class_ok|]. split; [done|]. by intros [] _.
Qed.

Lemma sample_copy_ready : copy_ready 1 2 0x40000 0x40048 1000 sample_copy_class sample_copy_roots (sample_receiver nested) [] sample_sources
  (fun _ => False) (fun _ => True) 100.
Proof.
  split.
  - exact sample_receiver_ok.
  - done.
  - exact sample_source_object.
  - by intros b [].
  - done.
  - split.
    + split; [done|]. exists 0. split; [done|]. (destruct nested; by vm_compute).
    + intros b Hb. split; [|by intros []]. unfold in_table, MAX_REGISTERED in Hb. unfold elsewhere. cbn in *. lia.
  - assert (wsum sample_ram sample_sources = 18) as -> by (destruct nested; by vm_compute). unfold HEAP_RESERVE. cbn. lia.
  - (destruct nested; by vm_compute).
  - done.
  - apply (bool_decide_unpack _). (destruct nested; by vm_compute).
  - done.
Qed.

End Sample.

Lemma sample_copyable x : x ∈ sample_sources -> copyable 2 sample_copy_class (sample_receiver false) (fun _ => False) (fun _ => True) x.
Proof.
  intros Hx. unfold sample_sources in Hx. rewrite !elem_of_cons, elem_of_nil in Hx. destruct Hx as [->|[->|[->|[]]]].
  - left. apply sample_object_source. by left.
  - left. apply sample_object_source. by right.
  - right. left. split; [apply sample_array_layout|]. by vm_compute.
Qed.

Lemma copy_reference_copies_witness :
  exists r c, copy_reference (fun d => Ok d) false 1 2 2 0x40000 0x40048 1000 0x8100 4 0x40008 (copy_start (sample_receiver false) 100) = Ok (r, c) /\
    copied_graph sample_copy_class sample_copy_roots (sample_receiver false) [] sample_sources (fun _ => False) 100 0x40008 r c.
Proof.
  apply (copy_reference_copies 1 2 2 0x40000 0x40048 1000 _ _ _ _ _ _ _ _ (sample_copy_ready false)).
  - exact sample_copyable.
  - simpl. lia.
  - right. left. apply list_elem_of_here.
Defined.

Lemma copy_array_of_arrays_leaks_witness :
  exists o c', copy_array (fun d => Ok d) false 1000 (fun v c => Ok (v, c)) 0x40038 (copy_start (sample_receiver true) 100) = Ok (o, c') /\ o ∈ (copied c').*2 /\
    forall i v, 0 <= i < 1 -> load32 (ram (gcs (sample_receiver true))) (0x40038 + (12 + 4 * i)) = v -> v ∈ sample_sources ->
      load32 (ram (gcs (cp_dst c'))) (o + (12 + 4 * i)) = v /\ ~ ref_ok sample_copy_class (ram (gcs (cp_dst c'))) ([] ++ (copied c').*2) FRef v.
Proof.
  apply (copy_array_of_arrays_leaks 1 2 0x40000 0x40048 1000 _ sample_copy_roots (sample_receiver true) _ sample_sources _ _ _ (sample_copy_ready true)).
  - apply (copying_start 1 2 0x40000 0x40048 1000), (sample_copy_ready true).
  - apply (bool_decide_unpack _). by vm_compute.
  - apply not_elem_of_nil.
  - apply sample_array_layout.
  - by vm_compute.
Defined.
