(* ===== verification/DomainClasses.v ===== *)
(** * The classes of a domain (core/load.c)

    A library is read and linked once; every domain that uses it has its own
    [LibDesc] with one [Class] per class descriptor, which holds the address
    of the static fields in this domain.  This file models [load], [loadLib],
    the lookup of classes and methods in a domain, its array classes and the
    class constructors.  The state is that of one domain (not DomainZero)
    together with the shared classes. *)

From S2P Require Import Prelude Mem CString Malloc Alloc CodeMem Classes.
From S2P Require CodeFile.
#[local] Open Scope Z_scope.

Definition CLASS_READY : Z := 1.
Definition sizeof_Class : Z := 32.

(** [Class], [LibDesc] *)
Record ClassObj := MkClassObj { classDesc : Z; cl_superclass : Z; staticFields : Z; cl_state : Z }.
Record LibDesc := MkLibDesc {
  lib_numberOfClasses : Z; lib_allClasses : Z; lib_key : list Z; sharedLib : Z; initialized : Z
}.

(** the fields of [DomainDesc] for classes, with the shared state *)
Record dom_state (A : Type) := MkDomState {
  ds_cs : class_state A;
  ds_code : domain_code;           (* the code memory of the domain *)
  ds_mem : memory;
  maxNumberOfLibs : Z;
  libs : list Z;
  ndx_libs : list Z;               (* by [SharedLibDesc.ndx] *)
  sfields : list Z;
  arrayClasses : list Z;           (* linked by [nextInDomain] *)
  libDescs : gmap Z LibDesc;
  classObjs : gmap Z ClassObj;
}.
Arguments MkDomState {A} _ _ _ _ _ _ _ _ _ _.
Arguments ds_cs {A} _.
Arguments ds_code {A} _.
Arguments ds_mem {A} _.
Arguments maxNumberOfLibs {A} _.
Arguments libs {A} _.
Arguments ndx_libs {A} _.
Arguments sfields {A} _.
Arguments arrayClasses {A} _.
Arguments libDescs {A} _.
Arguments classObjs {A} _.

Section Domain.
Context {A : Type} `{!Allocator A}.
Abbreviation st := (dom_state A).
(** the kernel's classes and the sizes of C structures, as in [Classes] *)
Context (java_lang_Object java_lang_Object_class : Z) (class_prim : Z -> Z).
Context (sz_LibDesc sz_ArrayClassDesc : Z).

(** ** The store *)

Definition with_cs (c : class_state A) (s : st) : st :=
  MkDomState c (ds_code s) (ds_mem s) (maxNumberOfLibs s) (libs s) (ndx_libs s) (sfields s) (arrayClasses s) (libDescs s) (classObjs s).
(** an allocation changes the code memory of the domain and the allocator *)
Definition with_memory (d : domain_code) (a : A) (s : st) : st :=
  MkDomState (MkCS (classdescs (ds_cs s)) (slibs (ds_cs s)) (sharedLibs (ds_cs s)) (sharedArrayClasses (ds_cs s)) (dz_code (ds_cs s)) a)
    d (ds_mem s) (maxNumberOfLibs s) (libs s) (ndx_libs s) (sfields s) (arrayClasses s) (libDescs s) (classObjs s).
Definition with_mem (m : memory) (s : st) : st :=
  MkDomState (ds_cs s) (ds_code s) m (maxNumberOfLibs s) (libs s) (ndx_libs s) (sfields s) (arrayClasses s) (libDescs s) (classObjs s).
Definition set_libs (l n : list Z) (s : st) : st :=
  MkDomState (ds_cs s) (ds_code s) (ds_mem s) (maxNumberOfLibs s) l n (sfields s) (arrayClasses s) (libDescs s) (classObjs s).
Definition set_sfields (l : list Z) (s : st) : st :=
  MkDomState (ds_cs s) (ds_code s) (ds_mem s) (maxNumberOfLibs s) (libs s) (ndx_libs s) l (arrayClasses s) (libDescs s) (classObjs s).
Definition set_arrayClasses (l : list Z) (s : st) : st :=
  MkDomState (ds_cs s) (ds_code s) (ds_mem s) (maxNumberOfLibs s) (libs s) (ndx_libs s) (sfields s) l (libDescs s) (classObjs s).
Definition set_libDescs (g : gmap Z LibDesc) (s : st) : st :=
  MkDomState (ds_cs s) (ds_code s) (ds_mem s) (maxNumberOfLibs s) (libs s) (ndx_libs s) (sfields s) (arrayClasses s) g (classObjs s).
Definition set_classObjs (g : gmap Z ClassObj) (s : st) : st :=
  MkDomState (ds_cs s) (ds_code s) (ds_mem s) (maxNumberOfLibs s) (libs s) (ndx_libs s) (sfields s) (arrayClasses s) (libDescs s) g.

(** [ASSERTLIB], [ASSERTCLASS] read the magic word *)
Definition libd (l : Z) (s : st) : res LibDesc :=
  match libDescs s !! l with Some x => Ok x | None => Err (EAssert "x->magic==MAGIC_LIB") end.
Definition clsobj (c : Z) (s : st) : res ClassObj :=
  match classObjs s !! c with Some x => Ok x | None => Err EFault end.
Definition desc_of (c : Z) (s : st) : res ClassDesc :=
  let! o := clsobj c s in cls (classDesc o) (ds_cs s).
(** [&lib->allClasses[i]] *)
Definition class_of (l : LibDesc) (i : Z) : Z := lib_allClasses l + i * sizeof_Class.

Definition dom_malloc (f : domain_code -> A -> res (Z * domain_code * A)) (s : st) : res (Z * st) :=
  let! '(p, d, a) := f (ds_code s) (cs_alloc (ds_cs s)) in Ok (p, with_memory d a s).

(** [memset] to zero and the header; the fields the model keeps are zero *)
Fixpoint clear_classes (n : nat) (c : Z) (g : gmap Z ClassObj) : gmap Z ClassObj :=
  match n with
  | O => g
  | S n => clear_classes n (c + sizeof_Class) (<[c := MkClassObj NULL NULL NULL 0]> g)
  end.
Definition specialAllocClass (number : Z) (s : st) : res (Z * st) :=
  let! '(c, s) := dom_malloc (fun d a => malloc_classes sizeof_Class d number a) s in
  Ok (c, set_classObjs (clear_classes (Z.to_nat number) c (classObjs s)) s).

(** ** Lookup of a class *)

Fixpoint find_class_named (n : nat) (i : Z) (l : LibDesc) (name : cstring) (s : st) : res Z :=
  match n with
  | O => Ok NULL
  | S n =>
      let! d := desc_of (class_of l i) s in
      if strcmp_eq (c_nm d) name then Ok (class_of l i) else find_class_named n (i + 1) l name s
  end.
Definition findClassInLib (lib : Z) (name : cstring) (s : st) : res Z :=
  let! l := libd lib s in
  if strcmp_eq name name_Object then Ok java_lang_Object_class
  else find_class_named (Z.to_nat (lib_numberOfClasses l)) 0 l name s.

Fixpoint find_class_in_libs (l : list Z) (name : cstring) (s : st) : res Z :=
  match l with
  | [] => Ok NULL
  | lib :: rest =>
      let! x := libd lib s in
      if testHashKey name (lib_key x) LIB_HASHKEY_LEN then
        let! cl := findClassInLib lib name s in
        if negb (cl =? NULL) then Ok cl else find_class_in_libs rest name s
      else find_class_in_libs rest name s
  end.

Fixpoint find_domain_array (l : list Z) (name : cstring) (s : st) : res (option Z) :=
  match l with
  | [] => Ok None
  | c :: l =>
      let! d := desc_of c s in
      if strcmp_eq (c_nm d) name then Ok (Some c) else find_domain_array l name s
  end.

(** [char tmp[80]]; a longer name is written past its end.  [Lx;] is [x]. *)
Definition class_in_signature (name : cstring) : res cstring :=
  let n := Z.of_nat (length name) - 2 in
  if (n <? 0) || (80 <=? n) then Err EFault else Ok (take (Z.to_nat n) (drop 1 name)).

(** [find] is [findClass] of the domain *)
Definition findClassOrPrimitive (find : cstring -> st -> res (Z * st)) (name : cstring) (s : st) : res (Z * st) :=
  if char_at name 0 =? c_bracket then find name s
  else if negb (char_at name 0 =? c_L) then
    let! cl := findPrimitiveClass class_prim (char_at name 0) in
    if negb (cl =? NULL) then Ok (cl, s) else Err (EPanic "findClOrPrim error name=%s")
  else
    let! tmp := class_in_signature name in find tmp s.

(** the [Class] of a primitive type is [class_prim]'s; its descriptor is found
    through [prim_desc] *)
Context (prim_desc : Z -> option Z).
Definition desc_pointer (c : Z) (s : st) : res Z :=
  match prim_desc c with Some d => Ok d | None => let! o := clsobj c s in Ok (classDesc o) end.

Definition dom_jxmalloc (size : Z) (s : st) : res (Z * st) :=
  let! '(p, a) := al_alloc size (cs_alloc (ds_cs s)) in Ok (p, with_memory (ds_code s) a s).

Definition createArrayClass (find : cstring -> st -> res (Z * st)) (name : cstring) (s : st) : res (Z * st) :=
  let! '(c, s) := findClassOrPrimitive find (drop 1 name) s in
  let! '(arrayClass, s) := dom_jxmalloc sz_ArrayClassDesc s in
  let! '(_, s) := dom_jxmalloc (u32 (Z.of_nat (length name) + 1)) s in
  let! elem := desc_pointer c s in
  let s := with_cs (with_classes (insert arrayClass (array_desc name elem)) (ds_cs s)) s in
  let! '(cl, s) := specialAllocClass 1 s in
  let s := set_classObjs (alter (fun o => MkClassObj arrayClass (cl_superclass o) (staticFields o) (cl_state o)) cl (classObjs s)) s in
  Ok (cl, set_arrayClasses (cl :: arrayClasses s) s).

(** The recursion strips one bracket: [length name] is enough fuel. *)
Fixpoint findClass (fuel : nat) (name : cstring) (s : st) : res (Z * st) :=
  match fuel with
  | O => Err EFuel
  | S k =>
      if strcmp_eq name name_Object then Ok (java_lang_Object_class, s) else
      let! cl := find_class_in_libs (libs s) name s in
      if negb (cl =? NULL) then Ok (cl, s)
      else if char_at name 0 =? c_bracket then
        let! found := find_domain_array (arrayClasses s) name s in
        match found with
        | Some c => Ok (c, s)
        | None => createArrayClass (findClass k) name s
        end
      else Ok (NULL, s)
  end.

(** ** From shared to private *)

Definition read_index (l : list Z) (i : Z) : res Z :=
  if i <? 0 then Err EFault else match l !! Z.to_nat i with Some x => Ok x | None => Err EFault end.

Definition sharedLib2Lib (slib_ : Z) (s : st) : res Z :=
  if slib_ =? NULL then Ok NULL else
  let! sl := slib slib_ (ds_cs s) in
  let! lib := read_index (ndx_libs s) (ndx sl) in
  if lib =? NULL then Ok NULL else let! _ := libd lib s in Ok lib.

Definition classDesc2Class (c : Z) (s : st) : res (Z * st) :=
  let! d := cls c (ds_cs s) in
  if strcmp_eq (c_nm d) name_Object then Ok (java_lang_Object_class, s)
  else if char_at (c_nm d) 0 =? c_less then Ok (NULL, s)
  else if negb (char_at (c_nm d) 0 =? c_bracket) then
    let! lib := sharedLib2Lib (definingLib d) s in
    if lib =? NULL then Err (EPanic "Could not find class %s in domain %s!") else
    let! l := libd lib s in
    let! sl := slib (definingLib d) (ds_cs s) in
    Ok (class_of l (s32 ((c - allClasses sl) / sizeof_ClassDesc)), s)
  else
    let! found := find_domain_array (arrayClasses s) (c_nm d) s in
    match found with
    | Some c => Ok (c, s)
    | None => createArrayClass (findClass (length (c_nm d))) (c_nm d) s
    end.

(** ** Loading *)

(** [malloc_staticfields] *)
Definition specialAllocStaticFields (numberFields : Z) (s : st) : res (Z * st) :=
  dom_malloc (fun d a => malloc_staticfields d numberFields a) s.

(** one round of the loop over the classes; [sfield] and [static_offset] as in
    the code, [lib] is the [LibDesc] *)
Definition load_class (sharedLib_ lib sfield static_offset i : Z) (s : st) : res (Z * st) :=
  let! sl := slib sharedLib_ (ds_cs s) in
  let! l := libd lib s in
  let c := class_of l i in
  let cd := class_at sl i in
  let s := set_classObjs (alter (fun o => MkClassObj cd (cl_superclass o) (staticFields o) (cl_state o)) c (classObjs s)) s in
  let! d := cls cd (ds_cs s) in
  let ssize := staticFieldsSize d in
  let s := set_libDescs (alter (fun l => MkLibDesc (lib_numberOfClasses l) (lib_allClasses l)
             (addHashKey (c_nm d) (lib_key l) LIB_HASHKEY_LEN) (sharedLib l) (initialized l)) lib (libDescs s)) s in
  let! '(super, s) := (if superclass d =? NULL then Ok (NULL, s) else classDesc2Class (superclass d) s) in
  let s := set_classObjs (alter (fun o => MkClassObj (classDesc o) super (staticFields o) (cl_state o)) c (classObjs s)) s in
  if negb (ssize =? 0) then
    Ok (static_offset + ssize,
        set_classObjs (alter (fun o => MkClassObj (classDesc o) (cl_superclass o) (u32 (sfield + 4 * static_offset)) (cl_state o)) c (classObjs s)) s)
  else
    Ok (static_offset,
        with_cs (with_classes (alter (fun d => MkClass (classType d) (c_nm d) (superclass d) (ifname d) (interfaces d) (instanceSize d)
                  (objmap d) (fields d) (staticFieldsSize d) 0 (staticsMap d) (vtableSym d) (methods d) (definingLib d)
                  (elementClass d) (arrayClass d)) cd) (ds_cs s))
          (set_classObjs (alter (fun o => MkClassObj (classDesc o) (cl_superclass o) 0 (cl_state o)) c (classObjs s)) s)).

Fixpoint load_classes (n : nat) (sharedLib_ lib sfield static_offset i : Z) (s : st) : res st :=
  match n with
  | O => Ok s
  | S n =>
      let! '(static_offset, s) := load_class sharedLib_ lib sfield static_offset i s in
      load_classes n sharedLib_ lib sfield static_offset (i + 1) s
  end.

(** [for (i = 0; i < numberOfNeededLibs; i++) if (missing) loadLib(...)] *)
Fixpoint load_needed (load : Z -> st -> res (Z * st)) (l : list Z) (s : st) : res st :=
  match l with
  | [] => Ok s
  | x :: l =>
      let! lib := sharedLib2Lib x s in
      let! s := (if lib =? NULL then let! '(_, s) := load x s in Ok s else Ok s) in
      load_needed load l s
  end.

(** the static fields of the library, cleared; [sfield] stays [NULL] without any *)
Definition alloc_statics (sl : SharedLibDesc) (s : st) : res (Z * st) :=
  if memSizeStaticFields sl =? 0 then Ok (NULL, s) else
  let! '(sfield, s) := specialAllocStaticFields (memSizeStaticFields sl) s in
  let s := with_mem (memset (ds_mem s) sfield 0 (u32 (memSizeStaticFields sl * 4))) s in
  Ok (sfield, set_sfields (<[Z.to_nat (ndx sl) := sfield]> (sfields s)) s).

Fixpoint loadLib (fuel : nat) (sharedLib_ : Z) (s : st) : res (Z * st) :=
  match fuel with
  | O => Err EFuel
  | S k =>
      let! sl := slib sharedLib_ (ds_cs s) in
      let! s := load_needed (loadLib k) (neededLibs sl) s in
      if Z.of_nat (length (libs s)) =? maxNumberOfLibs s then Err (EPanic "max number of libs in domain %s reached!") else
      let! '(lib, s) := dom_malloc (fun d a => malloc_libdesc sz_LibDesc d a) s in
      let s := set_libDescs (<[lib := MkLibDesc 0 NULL (replicate LIB_HASHKEY_LEN 0) sharedLib_ 0]> (libDescs s)) s in
      let s := set_libs (libs s ++ [lib]) (ndx_libs s) s in
      if negb (ndx sl <? maxNumberOfLibs s) then Err (EPanic "max number of libs reached! %d") else
      if ndx sl <? 0 then Err EFault else
      let s := set_libs (libs s) (<[Z.to_nat (ndx sl) := lib]> (ndx_libs s)) s in
      let! '(c, s) := specialAllocClass (numberOfClasses sl) s in
      let s := set_libDescs (alter (fun l => MkLibDesc (numberOfClasses sl) c (lib_key l) (sharedLib l) (initialized l)) lib (libDescs s)) s in
      let! '(sfield, s) := alloc_statics sl s in
      let! s := load_classes (Z.to_nat (numberOfClasses sl)) sharedLib_ lib sfield 0 0 s in
      Ok (lib, s)
  end.

(** [read_and_link] is [loadSharedLibrary] and [linksharedlib] on a temporary
    arena: [CodeFile], [Linker] *)
Definition load (fuel : nat) (read_and_link : cstring -> st -> res (Z * st)) (filename : cstring) (s : st) : res (Z * st) :=
  let! found := findSharedLib filename (ds_cs s) in
  let! '(sl, s) := (if found =? NULL then
                      let! '(sl, s) := read_and_link filename s in
                      if sl =? NULL then Err (EPanic "could not load shared library %s") else Ok (sl, s)
                    else Ok (found, s)) in
  loadLib fuel sl s.

(** the static fields as compiled code finds them (core/vmsupport.c) *)
Definition vm_getStaticsAddr2 (c : Z) (s : st) : res Z :=
  let! d := cls c (ds_cs s) in
  let! l := slib (definingLib d) (ds_cs s) in
  read_index (sfields s) (ndx l).

(** ** Subclasses *)

Fixpoint sub_classes (n : nat) (i : Z) (l : LibDesc) (c : Z) (bufsize : Z) (s : st) : res (list Z) :=
  match n with
  | O => Ok []
  | S n =>
      let! o := clsobj (class_of l i) s in
      if cl_superclass o =? c then
        if bufsize =? 1 then Ok [class_of l i]
        else let! r := sub_classes n (i + 1) l c (bufsize - 1) s in Ok (class_of l i :: r)
      else sub_classes n (i + 1) l c bufsize s
  end.
(** the classes written to the buffer *)
Definition findSubClassesInLib (lib c bufsize : Z) (s : st) : res (list Z) :=
  if bufsize =? 0 then Ok [] else
  let! l := (match libDescs s !! lib with Some l => Ok l | None => Err EFault end) in
  sub_classes (Z.to_nat (lib_numberOfClasses l)) 0 l c bufsize s.
Fixpoint find_subclasses (l : list Z) (c bufsize : Z) (s : st) : res (list Z) :=
  match l with
  | [] => Ok []
  | lib :: l =>
      let! found := findSubClassesInLib lib c bufsize s in
      let! r := find_subclasses l c (bufsize - Z.of_nat (length found)) s in
      Ok (found ++ r)
  end.
Definition findSubClasses (c bufsize : Z) (s : st) : res (list Z) := find_subclasses (libs s) c bufsize s.

(** ** Methods *)

(** the method table of a class is at [methods_of c] *)
Context (methods_of : Z -> Z).
Definition method_of (c : Z) (j : nat) : Z := methods_of c + Z.of_nat j * CodeFile.sizeof_MethodDesc.

Fixpoint method_index (j : nat) (l : list MethodDesc) (methodname signature : cstring) : option nat :=
  match l with
  | [] => None
  | m :: l =>
      if strcmp_eq methodname (m_name m) && strcmp_eq signature (m_signature m) then Some j
      else method_index (S j) l methodname signature
  end.

(** [classFound] and [methodFound] *)
Fixpoint class_and_method (n : nat) (i : Z) (l : LibDesc) (classname methodname signature : cstring) (s : st) : res (Z * Z) :=
  match n with
  | O => Ok (NULL, NULL)
  | S n =>
      let! o := clsobj (class_of l i) s in
      let! d := cls (classDesc o) (ds_cs s) in
      match (if strcmp_eq classname (c_nm d) then method_index 0 (methods d) methodname signature else None) with
      | Some j => Ok (class_of l i, method_of (classDesc o) j)
      | None => class_and_method n (i + 1) l classname methodname signature s
      end
  end.
Definition findClassAndMethodInLib (lib : Z) (classname methodname signature : cstring) (s : st) : res (Z * Z) :=
  let! l := (match libDescs s !! lib with Some l => Ok l | None => Err EFault end) in
  class_and_method (Z.to_nat (lib_numberOfClasses l)) 0 l classname methodname signature s.

(** the libraries whose key does ([hit]) or does not cover the class name *)
Fixpoint class_and_method_in_libs (hit : bool) (l : list Z) (classname methodname signature : cstring) (s : st) : res (Z * Z) :=
  match l with
  | [] => Ok (NULL, NULL)
  | lib :: l =>
      let! x := libd lib s in
      if Bool.eqb (testHashKey classname (lib_key x) LIB_HASHKEY_LEN) hit then
        let! '(c, m) := findClassAndMethodInLib lib classname methodname signature s in
        if negb (c =? NULL) then Ok (c, m) else class_and_method_in_libs hit l classname methodname signature s
      else class_and_method_in_libs hit l classname methodname signature s
  end.
Definition findClassAndMethod (classname methodname signature : cstring) (s : st) : res (Z * Z) :=
  let! '(c, m) := class_and_method_in_libs true (libs s) classname methodname signature s in
  if negb (c =? NULL) then Ok (c, m) else class_and_method_in_libs false (libs s) classname methodname signature s.

Definition findMethodInLib (lib : Z) (classname methodname signature : cstring) (s : st) : res Z :=
  let! '(_, m) := findClassAndMethodInLib lib classname methodname signature s in Ok m.

Context (mcode : gmap Z Z).
Fixpoint find_method_hit (l : list Z) (classname methodname signature : cstring) (s : st) : res Z :=
  match l with
  | [] => Ok NULL
  | lib :: l =>
      let! x := libd lib s in
      if testHashKey classname (lib_key x) LIB_HASHKEY_LEN then
        let! m := findMethodInLib lib classname methodname signature s in
        if m =? NULL then find_method_hit l classname methodname signature s
        else let! _ := assert_ "m->code != NULL" (negb (default NULL (mcode !! m) =? NULL)) in Ok m
      else find_method_hit l classname methodname signature s
  end.
(** a second pass over the other libraries must find nothing (DEBUG) *)
Fixpoint find_method_miss (l : list Z) (classname methodname signature : cstring) (s : st) : res Z :=
  match l with
  | [] => Ok NULL
  | lib :: l =>
      let! x := libd lib s in
      if testHashKey classname (lib_key x) LIB_HASHKEY_LEN then find_method_miss l classname methodname signature s
      else
        let! m := findMethodInLib lib classname methodname signature s in
        if m =? NULL then find_method_miss l classname methodname signature s
        else Err (EPanic "warn: Bug in findMethod of testHashKey!")
  end.
Definition findMethod (classname methodname signature : cstring) (s : st) : res Z :=
  let! m := find_method_hit (libs s) classname methodname signature s in
  if negb (m =? NULL) then Ok m else find_method_miss (libs s) classname methodname signature s.

(** the index of a method in the vtable; an entry without class name is a hole *)
Fixpoint vtable_index (j : Z) (l : list (cstring * cstring * cstring)) (methodname signature : cstring) : option Z :=
  match l with
  | [] => None
  | (c, m, t) :: l =>
      if negb (strcmp_eq c []) && strcmp_eq m methodname && strcmp_eq t signature then Some j
      else vtable_index (j + 1) l methodname signature
  end.
Definition findDEPMethodIndex (className methodName signature : cstring) (s : st) : res (Z * st) :=
  let! '(c, s) := findClass (S (length className)) className s in
  let! o := clsobj c s in
  let! d := cls (classDesc o) (ds_cs s) in
  match vtable_index 0 (vtableSym d) methodName signature with
  | Some j => Ok (j, s)
  | None => Err (EPanic "Cannot find DEP method %s:: %s%s")
  end.
(** [vtable j]: the entry of the object's vtable *)
Definition findVirtualMethodCode (className methodName signature : cstring) (vtable : Z -> Z) (s : st) : res (Z * st) :=
  let! '(c, s) := findClass (S (length className)) className s in
  let! o := clsobj c s in
  if classDesc o =? NULL then Err (EPanic "Cannot find class %s") else
  let! d := cls (classDesc o) (ds_cs s) in
  match vtable_index 0 (vtableSym d) methodName signature with
  | Some j => Ok (vtable j, s)
  | None => Err (EPanic "Cannot find method %s::%s%s")
  end.

(** ** Class constructors *)

(** [run] executes compiled code *)
Context (run : Z -> st -> res st).

Fixpoint clinit_index (j : nat) (l : list MethodDesc) : option nat :=
  match l with
  | [] => None
  | m :: l => if strcmp_eq (str "<clinit>") (m_name m) then Some j else clinit_index (S j) l
  end.

Definition callClassConstructor (c : Z) (s : st) : res st :=
  let! o := clsobj c s in
  if cl_state o =? CLASS_READY then Ok s else
  let s := set_classObjs (alter (fun o => MkClassObj (classDesc o) (cl_superclass o) (staticFields o) CLASS_READY) c (classObjs s)) s in
  let! d := cls (classDesc o) (ds_cs s) in
  match clinit_index 0 (methods d) with
  | Some j => run (default NULL (mcode !! method_of (classDesc o) j)) s
  | None => Ok s
  end.

Fixpoint call_constructors (n : nat) (i : Z) (l : LibDesc) (s : st) : res st :=
  match n with
  | O => Ok s
  | S n => let! s := callClassConstructor (class_of l i) s in call_constructors n (i + 1) l s
  end.

Definition set_initialized (lib : Z) (s : st) : st :=
  set_libDescs (alter (fun l => MkLibDesc (lib_numberOfClasses l) (lib_allClasses l) (lib_key l) (sharedLib l) 1) lib (libDescs s)) s.
(** called by a thread of the domain *)
Definition callClassConstructors (lib : Z) (s : st) : res st :=
  let! l := libd lib s in
  if initialized l =? 1 then Ok s else
  let! s := call_constructors (Z.to_nat (lib_numberOfClasses l)) 0 l s in
  Ok (set_initialized lib s).
End Domain.
