(* ===== verification/DomClassInv.v ===== *)
(** * Loading a library into a domain (core/load.c)

    [dom_ok]: every library of the domain mirrors its shared library class by
    class, superclasses lead to classes of the domain, static fields lie where
    linked code expects them.  [loadLib] keeps it, loads what is needed first
    and leaves the libraries that were there alone; [findClass] finds the
    first class of that name. *)

From S2P Require Import Prelude Mem CString Malloc Alloc CodeMem Classes DomainClasses.
#[local] Open Scope Z_scope.

(** ** Failing allocations *)

Section Failing.
Context {A : Type} `{!Allocator A}.

(** the code memory of the domain has no free chunk left, the request does not
    fit into a chunk, or the block allocator refuses the chunk *)
Inductive no_memory : err -> Prop :=
  | no_chunk : no_memory (EPanic "NO MORE CODE")
  | chunk_too_small : no_memory (EPanic "can`t alloc %i byte")
  | chunk_refused size a e : al_ok a -> 0 < size -> al_alloc size a = Err e -> no_memory e.

Lemma new_chunk_fails (d : domain_code) c size (a : A) e : al_ok a -> 0 < size -> new_chunk d c size a = Err e -> no_memory e.
Proof.
  intros Ha Hs. unfold new_chunk. destruct (al_alloc size a) as [[p a']|e'] eqn:E; [done|]. intros [= ->]. by eapply chunk_refused.
Qed.

Lemma malloc_code_fails (d : domain_code) size (a : A) e : al_ok a -> code_ok d a -> malloc_code d size a = Err e -> no_memory e.
Proof.
  intros Ha Hd H. unfold malloc_code in H. pose proof (co_bytes _ _ Hd) as Hb. pose proof (co_cur _ _ Hd) as Hc.
  assert (Hpos : 0 < u32 (code_bytes d)) by (rewrite u32_small; lia).
  destruct (if cur_code d =? -1 then new_chunk d 0 (u32 (code_bytes d)) a else Ok (d, a)) as [[d1 a1]|e1] eqn:E1.
  2: { injection H as ->. destruct (_ =? _); [by eapply new_chunk_fails|done]. }
  cbn [rbind] in H. destruct (_ <? _); [|done].
  destruct (_ =? CODE_FRAGMENTS); [injection H as <-; apply no_chunk|].
  destruct (new_chunk d1 _ _ a1) as [[d2 a2]|e2] eqn:E2.
  - cbn [rbind] in H. destruct (_ <? _); [|done]. injection H as <-. apply chunk_too_small.
  - injection H as ->. eapply new_chunk_fails; [|exact Hpos|exact E2].
    destruct (Z.eqb_spec (cur_code d) (-1)) as [Eq|_]; [|by injection E1 as _ <-].
    apply new_chunk_ok in E1 as [? _]; try done; lia.
Qed.
End Failing.

(** ** The shared libraries *)

Section Inv.
Context {A : Type} `{!Allocator A}.
Abbreviation st := (dom_state A).
Context (java_lang_Object java_lang_Object_class : Z) (class_prim : Z -> Z) (sz_LibDesc sz_ArrayClassDesc : Z) (prim_desc : Z -> option Z).
(** libraries are read after the libraries they need *)
Context (rank : Z -> nat).

Definition static_size (cs : class_state A) (sl : SharedLibDesc) (i : nat) : Z :=
  default 0 (staticFieldsSize <$> classdescs cs !! class_at sl (Z.of_nat i)).
Fixpoint statics_before (cs : class_state A) (sl : SharedLibDesc) (n : nat) : Z :=
  match n with O => 0 | S k => statics_before cs sl k + static_size cs sl k end.
Definition n_classes (sl : SharedLibDesc) : nat := Z.to_nat (numberOfClasses sl).

Definition needs (cs : class_state A) (L L' : Z) : Prop := exists sl, slibs cs !! L = Some sl /\ L' ∈ neededLibs sl.

(** a superclass is [Object] or a class of this or of a needed library *)
Definition super_known (cs : class_state A) (L super : Z) : Prop :=
  super = NULL \/
  (exists o, classdescs cs !! super = Some o /\ c_nm o = name_Object) \/
  exists L' sl k, rtc (needs cs) L L' /\ slibs cs !! L' = Some sl /\ (k < n_classes sl)%nat /\ super = class_at sl (Z.of_nat k).

Record class_ok (cs : class_state A) (L : Z) (sl : SharedLibDesc) (i : nat) (d : ClassDesc) : Prop := {
  ck_lib : definingLib d = L;
  ck_name : c_nm d <> name_Object /\ char_at (c_nm d) 0 <> c_bracket /\ char_at (c_nm d) 0 <> c_less;
  ck_static : 0 <= staticFieldsSize d;
  ck_offset : staticFieldsSize d <> 0 -> sfield_offset d = statics_before cs sl i;
  ck_super : super_known cs L (superclass d);
}.

Record slib_ok (cs : class_state A) (L : Z) (sl : SharedLibDesc) : Prop := {
  sk_null : L <> NULL;
  sk_ndx : 0 <= ndx sl;
  sk_size : 0 <= numberOfClasses sl /\ numberOfClasses sl * sizeof_Class < 2147483648;
  sk_statics : memSizeStaticFields sl = statics_before cs sl (n_classes sl) /\ memSizeStaticFields sl * 4 < 2147483648;
  sk_class : forall i, (i < n_classes sl)%nat -> exists d, classdescs cs !! class_at sl (Z.of_nat i) = Some d /\ class_ok cs L sl i d;
  sk_needs : forall x, x ∈ neededLibs sl -> is_Some (slibs cs !! x) /\ (rank x < rank L)%nat;
}.

Record shared_ok (cs : class_state A) : Prop := {
  sh_lib : forall L sl, slibs cs !! L = Some sl -> slib_ok cs L sl;
  sh_ndx : forall L L' sl sl', slibs cs !! L = Some sl -> slibs cs !! L' = Some sl' -> ndx sl = ndx sl' -> L = L';
}.

(** the same descriptors, up to the offset of classes without static fields *)
Definition set_offset0 (d : ClassDesc) : ClassDesc :=
  MkClass (classType d) (c_nm d) (superclass d) (ifname d) (interfaces d) (instanceSize d)
    (objmap d) (fields d) (staticFieldsSize d) 0 (staticsMap d) (vtableSym d) (methods d) (definingLib d)
    (elementClass d) (arrayClass d).
Definition desc_same (d d' : ClassDesc) : Prop := d' = d \/ (staticFieldsSize d = 0 /\ d' = set_offset0 d).
Record shared_same (cs cs' : class_state A) : Prop := {
  ss_slibs : slibs cs' = slibs cs;
  ss_list : sharedLibs cs' = sharedLibs cs;
  ss_desc : forall c, match classdescs cs !! c, classdescs cs' !! c with
    | Some d, Some d' => desc_same d d' | None, None => True | _, _ => False end;
}.

Lemma desc_same_refl d : desc_same d d.
Proof. by left. Qed.
Lemma desc_same_trans d1 d2 d3 : desc_same d1 d2 -> desc_same d2 d3 -> desc_same d1 d3.
Proof. intros [->|[H1 ->]] [->|[H2 ->]]; [by left|by right|by right|right]. done. Qed.
Lemma desc_same_fields d d' : desc_same d d' ->
  c_nm d' = c_nm d /\ superclass d' = superclass d /\ staticFieldsSize d' = staticFieldsSize d /\ definingLib d' = definingLib d /\
  methods d' = methods d /\ staticsMap d' = staticsMap d /\ (staticFieldsSize d <> 0 -> sfield_offset d' = sfield_offset d).
Proof. intros [->|[H ->]]; split_and!; done. Qed.
Lemma shared_same_refl cs : shared_same cs cs.
Proof. split; [done|done|]. intros c. destruct (classdescs cs !! c); [apply desc_same_refl|done]. Qed.
Lemma shared_same_trans c1 c2 c3 : shared_same c1 c2 -> shared_same c2 c3 -> shared_same c1 c3.
Proof.
  intros [E1 F1 D1] [E2 F2 D2]. split; [congruence|congruence|]. intros c. specialize (D1 c). specialize (D2 c).
  destruct (classdescs c1 !! c), (classdescs c2 !! c), (classdescs c3 !! c); try done. by eapply desc_same_trans.
Qed.
Lemma shared_same_some cs cs' c d : shared_same cs cs' -> classdescs cs !! c = Some d ->
  exists d', classdescs cs' !! c = Some d' /\ desc_same d d'.
Proof. intros [_ _ D] E. specialize (D c). rewrite E in D. destruct (classdescs cs' !! c) as [d'|]; [by exists d'|done]. Qed.
Lemma shared_same_static cs cs' sl i : shared_same cs cs' -> static_size cs' sl i = static_size cs sl i.
Proof.
  intros [_ _ D]. unfold static_size. specialize (D (class_at sl (Z.of_nat i))).
  destruct (classdescs cs !! _), (classdescs cs' !! _); try done. cbn. by apply desc_same_fields.
Qed.
Lemma shared_same_before cs cs' sl n : shared_same cs cs' -> statics_before cs' sl n = statics_before cs sl n.
Proof. intros HS. induction n as [|n IH]; [done|]. cbn. by rewrite IH, (shared_same_static cs). Qed.
Lemma shared_same_needs cs cs' L L' : shared_same cs cs' -> rtc (needs cs) L L' -> rtc (needs cs') L L'.
Proof. intros [E _ _]. apply rtc_subrel. intros x y. unfold needs. by rewrite E. Qed.

Lemma shared_same_ok cs cs' : shared_same cs cs' -> shared_ok cs -> shared_ok cs'.
Proof.
  intros HS [HL HN]. pose proof HS as [E _ _]. split; [|by rewrite E].
  intros L sl. rewrite E. intros Hsl. destruct (HL L sl Hsl) as [H1 H2 H3 H4 H5 H6]. split; try done.
  - by rewrite (shared_same_before cs).
  - intros i Hi. destruct (H5 i Hi) as (d & Hd & [C1 C2 C3 C4 C5]).
    destruct (shared_same_some _ _ _ _ HS Hd) as (d' & Hd' & Hdd). exists d'. split; [done|].
    pose proof (desc_same_fields _ _ Hdd) as (F1 & F2 & F3 & F4 & _ & _ & F5). split; rewrite ?F1, ?F2, ?F3, ?F4; try done.
    + intros Hne. rewrite F5, (shared_same_before cs) by done. by apply C4.
    + destruct C5 as [->|[(o & Ho & En)|(L' & sl' & k & Hr & Hl & Hk & ->)]]; [by left| |].
      * right. left. destruct (shared_same_some _ _ _ _ HS Ho) as (o' & Ho' & Hoo). exists o'. split; [done|].
        destruct (desc_same_fields _ _ Hoo) as [-> _]. done.
      * right. right. exists L', sl', k. rewrite E. split_and!; try done. by apply (shared_same_needs cs).
  - by rewrite E.
Qed.

Lemma statics_nonneg cs L sl n : slib_ok cs L sl -> (n <= n_classes sl)%nat -> 0 <= statics_before cs sl n.
Proof.
  intros HL. induction n as [|n IH]; intros Hn; [done|]. cbn [statics_before]. specialize (IH ltac:(lia)).
  destruct (sk_class _ _ _ HL n ltac:(lia)) as (d & Hd & C). pose proof (ck_static _ _ _ _ _ C). unfold static_size. rewrite Hd. cbn. lia.
Qed.
Lemma statics_mono cs L sl i j : slib_ok cs L sl -> (i < j <= n_classes sl)%nat ->
  statics_before cs sl i + static_size cs sl i <= statics_before cs sl j.
Proof.
  intros HL [Hij Hj]. induction Hij as [|j Hij IH]; [cbn [statics_before]; lia|]. cbn [statics_before]. specialize (IH ltac:(lia)).
  destruct (sk_class _ _ _ HL j ltac:(lia)) as (d & Hd & C). pose proof (ck_static _ _ _ _ _ C).
  unfold static_size at 2. rewrite Hd. cbn. lia.
Qed.

(** ** The libraries of the domain *)

Definition libraries (s : st) := slibs (ds_cs s).
(** the current [LibDesc] of a shared library *)
Definition loaded (s : st) (L : Z) (lib : Z) (l : LibDesc) : Prop :=
  exists sl, libraries s !! L = Some sl /\ ndx_libs s !! Z.to_nat (ndx sl) = Some lib /\ lib <> NULL /\
    libDescs s !! lib = Some l /\ sharedLib l = L.

(** the [Class] that stands for the superclass *)
Definition super_obj (s : st) (super o : Z) : Prop :=
  (super = NULL /\ o = NULL) \/
  (exists d, classdescs (ds_cs s) !! super = Some d /\ c_nm d = name_Object /\ o = java_lang_Object_class) \/
  exists L lib l sl k, lib ∈ libs s /\ libDescs s !! lib = Some l /\ sharedLib l = L /\ libraries s !! L = Some sl /\
    (k < n_classes sl)%nat /\ super = class_at sl (Z.of_nat k) /\ o = class_of l (Z.of_nat k).

Definition static_address (cs : class_state A) (sl : SharedLibDesc) (base : Z) (i : nat) : Z :=
  if static_size cs sl i =? 0 then 0 else u32 (base + 4 * statics_before cs sl i).

(** class [i] of the library, as [loadLib] leaves it *)
Definition mirrors (s : st) (l : LibDesc) (sl : SharedLibDesc) (base : Z) (i : nat) : Prop :=
  exists o d, classObjs s !! class_of l (Z.of_nat i) = Some o /\ classdescs (ds_cs s) !! class_at sl (Z.of_nat i) = Some d /\
    classDesc o = class_at sl (Z.of_nat i) /\ super_obj s (superclass d) (cl_superclass o) /\
    staticFields o = static_address (ds_cs s) sl base i.

Definition class_names (cs : class_state A) (sl : SharedLibDesc) (n : nat) : list cstring :=
  map (fun i => default [] (c_nm <$> classdescs cs !! class_at sl (Z.of_nat i))) (seq 0 n).
Definition key_of (names : list cstring) : list Z :=
  foldl (fun k n => addHashKey n k LIB_HASHKEY_LEN) (replicate LIB_HASHKEY_LEN 0) names.

(** [base lib]: where the static fields of the library begin *)
Record lib_ok (s : st) (base : Z -> Z) (lib : Z) (l : LibDesc) : Prop := {
  lk_shared : exists sl, libraries s !! sharedLib l = Some sl /\ lib_numberOfClasses l = numberOfClasses sl /\
    lib_key l = key_of (class_names (ds_cs s) sl (n_classes sl)) /\
    (forall i, (i < n_classes sl)%nat -> mirrors s l sl (base lib) i) /\
    (ndx_libs s !! Z.to_nat (ndx sl) = Some lib -> memSizeStaticFields sl <> 0 -> sfields s !! Z.to_nat (ndx sl) = Some (base lib)) /\
    (forall x, base lib <= x < base lib + 4 * memSizeStaticFields sl -> in_use (ds_code s) x /\ 0 <= x < 2147483648);
  lk_use : in_use (ds_code s) lib /\ forall i, 0 <= i < lib_numberOfClasses l -> in_use (ds_code s) (class_of l i);
}.

Definition static_range (s : st) (base : Z -> Z) (lib x : Z) : Prop :=
  exists l sl, libDescs s !! lib = Some l /\ libraries s !! sharedLib l = Some sl /\
    base lib <= x < base lib + 4 * memSizeStaticFields sl.

Record dom_ok (s : st) (base : Z -> Z) : Prop := {
  dk_shared : shared_ok (ds_cs s);
  dk_alloc : al_ok (cs_alloc (ds_cs s)) /\ code_ok (ds_code s) (cs_alloc (ds_cs s)) /\ never_null (ds_code s) (cs_alloc (ds_cs s));
  dk_tables : 0 <= maxNumberOfLibs s /\ length (ndx_libs s) = Z.to_nat (maxNumberOfLibs s) /\ length (sfields s) = Z.to_nat (maxNumberOfLibs s);
  dk_index : forall L sl, libraries s !! L = Some sl -> ndx sl < maxNumberOfLibs s;
  dk_nodup : NoDup (libs s);
  dk_lib : forall lib, lib ∈ libs s -> exists l, libDescs s !! lib = Some l /\ lib_ok s base lib l;
  dk_ndx : forall L sl lib, libraries s !! L = Some sl -> ndx_libs s !! Z.to_nat (ndx sl) = Some lib -> lib <> NULL ->
    lib ∈ libs s /\ exists l, libDescs s !! lib = Some l /\ sharedLib l = L;
  dk_needs : forall lib l x, lib ∈ libs s -> libDescs s !! lib = Some l -> needs (ds_cs s) (sharedLib l) x -> exists lib' l', loaded s x lib' l';
  dk_apart : forall lib lib' x, lib ∈ libs s -> lib' ∈ libs s -> lib <> lib' -> static_range s base lib x -> ~ static_range s base lib' x;
  dk_bound : Z.of_nat (length (libs s)) <= maxNumberOfLibs s;
}.

(** what loading leaves alone *)
Record extends (s s' : st) : Prop := {
  ex_shared : shared_same (ds_cs s) (ds_cs s');
  ex_max : maxNumberOfLibs s' = maxNumberOfLibs s;
  ex_libs : exists new, libs s' = libs s ++ new;
  ex_desc : forall lib, lib ∈ libs s -> libDescs s' !! lib = libDescs s !! lib;
  ex_class : forall x, in_use (ds_code s) x -> classObjs s' !! x = classObjs s !! x;
  ex_use : forall x, in_use (ds_code s) x -> in_use (ds_code s') x;
  ex_loaded : forall L lib l, loaded s L lib l -> exists lib' l', loaded s' L lib' l';
  ex_arrays : arrayClasses s' = arrayClasses s;
}.

(** ** Classes of superclasses *)

(** [l'] is [l] up to its key *)
Definition keeps_libs (s s' : st) : Prop :=
  libs s ⊆ libs s' /\ forall lib l, lib ∈ libs s -> libDescs s !! lib = Some l ->
    exists l', libDescs s' !! lib = Some l' /\ sharedLib l' = sharedLib l /\ lib_allClasses l' = lib_allClasses l.

Lemma super_obj_mono s s' super o : shared_same (ds_cs s) (ds_cs s') -> keeps_libs s s' -> super_obj s super o -> super_obj s' super o.
Proof.
  intros HS [Hsub Hk] [[-> ->]|[(d & Hd & Hn & ->)|(L & lib & l & sl & k & Hin & Hl & <- & Hsl & Hkn & -> & ->)]]; [by left| |].
  - right. left. destruct (shared_same_some _ _ _ _ HS Hd) as (d' & Hd' & Hdd). exists d'. split; [done|].
    destruct (desc_same_fields _ _ Hdd) as [-> _]. done.
  - right. right. destruct (Hk lib l Hin Hl) as (l' & Hl' & El & Ec). exists (sharedLib l), lib, l', sl, k.
    unfold libraries. destruct HS as [-> _ _]. split_and!; try done; [by apply Hsub|]. unfold class_of. by rewrite Ec.
Qed.

Lemma read_index_some l i x : 0 <= i -> l !! Z.to_nat i = Some x -> read_index l i = Ok x.
Proof. intros Hi E. unfold read_index. rewrite (proj2 (Z.ltb_ge i 0)) by done. by rewrite E. Qed.

Lemma slib_some (cs : class_state A) L sl : slibs cs !! L = Some sl -> slib L cs = Ok sl.
Proof. intros E. unfold slib. by rewrite E. Qed.
Lemma cls_some (cs : class_state A) c d : classdescs cs !! c = Some d -> cls c cs = Ok d.
Proof. intros E. unfold cls. by rewrite E. Qed.

Lemma loaded_found s L lib l : shared_ok (ds_cs s) -> loaded s L lib l -> sharedLib2Lib L s = Ok lib.
Proof.
  intros [HL _] (sl & Hsl & Hn & Hnn & Hl & _). destruct (HL L sl Hsl) as [HLn Hx _ _ _ _]. unfold sharedLib2Lib.
  rewrite (proj2 (Z.eqb_neq L NULL)) by done. rewrite (slib_some _ _ _ Hsl). cbn [rbind].
  rewrite (read_index_some _ _ _ Hx Hn). cbn [rbind]. rewrite (proj2 (Z.eqb_neq lib NULL)) by done. unfold libd. by rewrite Hl.
Qed.

Lemma class_index sl k : (k < n_classes sl)%nat -> 0 <= numberOfClasses sl -> numberOfClasses sl * sizeof_Class < 2147483648 ->
  s32 ((class_at sl (Z.of_nat k) - allClasses sl) / sizeof_ClassDesc) = Z.of_nat k.
Proof.
  unfold n_classes, class_at, sizeof_Class, sizeof_ClassDesc. intros Hk H0 Hb.
  replace (allClasses sl + Z.of_nat k * 124 - allClasses sl) with (Z.of_nat k * 124) by lia.
  rewrite Z.div_mul by lia. apply s32_small. lia.
Qed.

Abbreviation class2 := (classDesc2Class java_lang_Object_class class_prim sz_ArrayClassDesc prim_desc).
Lemma classDesc2Class_known s L super : shared_ok (ds_cs s) -> super_known (ds_cs s) L super -> super <> NULL ->
  (forall L', rtc (needs (ds_cs s)) L L' -> exists lib l, loaded s L' lib l /\ lib ∈ libs s) ->
  exists o, class2 super s = Ok (o, s) /\ super_obj s super o.
Proof.
  intros HS HK Hnn HL. unfold classDesc2Class. destruct HK as [->|[(d & Hd & Hn)|(L' & sl & k & Hr & Hsl & Hk & ->)]]; [done| |].
  - rewrite (cls_some _ _ _ Hd). cbn [rbind]. rewrite Hn. unfold strcmp_eq. rewrite bool_decide_true by done. eexists. split; [done|].
    right. left. by exists d.
  - destruct (sh_lib _ HS L' sl Hsl) as [_ _ [S0 S1] _ Hc _]. destruct (Hc k Hk) as (d & Hd & [C1 (C2 & C3 & C4) _ _ _]).
    destruct (HL L' Hr) as (lib & l & Hl & Hin). pose proof Hl as (sl' & Hsl' & _ & Hln & Hld & Hsh).
    unfold libraries in Hsl'. rewrite Hsl in Hsl'. injection Hsl' as <-.
    rewrite (cls_some _ _ _ Hd). cbn [rbind]. unfold strcmp_eq. rewrite bool_decide_false by done.
    rewrite (proj2 (Z.eqb_neq _ _) C4), (proj2 (Z.eqb_neq _ _) C3). cbn [negb]. rewrite C1, (loaded_found _ _ _ _ HS Hl). cbn [rbind].
    rewrite (proj2 (Z.eqb_neq lib NULL)) by done. unfold libd. rewrite Hld. cbn [rbind]. rewrite (slib_some _ _ _ Hsl). cbn [rbind].
    rewrite class_index by done. eexists. split; [done|]. right. right. by exists L', lib, l, sl, k.
Qed.

(** ** The loop over the classes of a library *)

Section Loop.
Context (L lib : Z) (sl : SharedLibDesc) (n : nat) (c sf : Z) (s0 : st).
Context (Hsh : shared_ok (ds_cs s0)) (Hsl : libraries s0 !! L = Some sl) (Hn : n = n_classes sl) (Hin : lib ∈ libs s0).
Context (Hneeds : forall L', rtc (needs (ds_cs s0)) L L' -> exists lib l, loaded s0 L' lib l /\ lib ∈ libs s0).

Definition lib_record (key : list Z) : LibDesc := MkLibDesc (numberOfClasses sl) c key L 0.
Definition class_addr (i : nat) : Z := class_of (lib_record []) (Z.of_nat i).
Context (Hl0 : libDescs s0 !! lib = Some (lib_record (key_of []))).
Context (Hobj : forall i, (i < n)%nat -> is_Some (classObjs s0 !! class_addr i)).

(** after [i] rounds *)
Record looped (s : st) (i : nat) : Prop := {
  lo_frame : ds_code s = ds_code s0 /\ ds_mem s = ds_mem s0 /\ maxNumberOfLibs s = maxNumberOfLibs s0 /\ libs s = libs s0 /\
    ndx_libs s = ndx_libs s0 /\ sfields s = sfields s0 /\ arrayClasses s = arrayClasses s0 /\ cs_alloc (ds_cs s) = cs_alloc (ds_cs s0);
  lo_shared : shared_same (ds_cs s0) (ds_cs s);
  lo_desc : libDescs s = <[lib := lib_record (key_of (class_names (ds_cs s0) sl i))]> (libDescs s0);
  lo_other : forall x, (forall j, (j < n)%nat -> x <> class_addr j) -> classObjs s !! x = classObjs s0 !! x;
  lo_some : forall j, (j < n)%nat -> is_Some (classObjs s !! class_addr j);
  lo_done : forall j, (j < i)%nat -> mirrors s (lib_record []) sl sf j;
}.

Lemma looped_start : looped s0 0.
Proof.
  split; [by split_and!|apply shared_same_refl| |done|done|lia]. cbn. by rewrite insert_id.
Qed.

Lemma class_names_S cs i : class_names cs sl (S i) = class_names cs sl i ++ [default [] (c_nm <$> classdescs cs !! class_at sl (Z.of_nat i))].
Proof. unfold class_names. by rewrite seq_S, map_app. Qed.
Lemma key_of_snoc l x : key_of (l ++ [x]) = addHashKey x (key_of l) LIB_HASHKEY_LEN.
Proof. unfold key_of. by rewrite foldl_app. Qed.

Lemma looped_keeps s i : looped s i -> keeps_libs s0 s.
Proof.
  intros [(_ & _ & _ & E & _) _ Hd _ _ _]. split; [by rewrite E|]. intros lib' l' _ Hl'. rewrite Hd.
  destruct (decide (lib' = lib)) as [->|Hne]; [|rewrite lookup_insert_ne by done; by exists l'].
  rewrite lookup_insert_eq. eexists. split; [done|]. rewrite Hl0 in Hl'. injection Hl' as <-. done.
Qed.

Lemma mirrors_mono s s' l i base : shared_same (ds_cs s) (ds_cs s') -> keeps_libs s s' ->
  classObjs s' !! class_of l (Z.of_nat i) = classObjs s !! class_of l (Z.of_nat i) -> mirrors s l sl base i -> mirrors s' l sl base i.
Proof.
  intros HS HK E (o & d & Ho & Hd & E1 & E2 & E3). destruct (shared_same_some _ _ _ _ HS Hd) as (d' & Hd' & Hdd).
  pose proof (desc_same_fields _ _ Hdd) as (_ & F2 & _). exists o, d'. rewrite E, F2. split_and!; try done; [by apply (super_obj_mono s)|].
  rewrite E3. unfold static_address. by rewrite (shared_same_static _ _ _ _ HS), (shared_same_before _ _ _ _ HS).
Qed.

Abbreviation step := (load_class java_lang_Object_class class_prim sz_ArrayClassDesc prim_desc).
Lemma load_class_ok s i : looped s i -> (i < n)%nat ->
  exists s', step L lib sf (statics_before (ds_cs s0) sl i) (Z.of_nat i) s = Ok (statics_before (ds_cs s0) sl (S i), s') /\ looped s' (S i).
Proof.
  intros I Hi. pose proof I as [(F1 & F2 & F3 & F4 & F5 & F6 & F7 & F8) HS HD HO HX HM].
  assert (HSl : slibs (ds_cs s) !! L = Some sl) by (destruct HS as [E _ _]; by rewrite E).
  pose proof (shared_same_ok _ _ HS Hsh) as Hsh'. pose proof (sh_lib _ Hsh' L sl HSl) as [_ _ _ _ Hc _].
  destruct (Hc i ltac:(lia)) as (d & Hd & [C1 C2 C3 C4 C5]).
  assert (Hlib : libDescs s !! lib = Some (lib_record (key_of (class_names (ds_cs s0) sl i)))) by (rewrite HD; by rewrite lookup_insert_eq).
  destruct (HX i Hi) as [o0 Ho0]. pose proof (looped_keeps s i I) as HK.
  assert (Hsz : static_size (ds_cs s0) sl i = staticFieldsSize d).
  { rewrite <- (shared_same_static _ _ sl i HS). unfold static_size. by rewrite Hd. }
  assert (Hnm : default [] (c_nm <$> classdescs (ds_cs s0) !! class_at sl (Z.of_nat i)) = c_nm d).
  { destruct HS as [_ _ D]. specialize (D (class_at sl (Z.of_nat i))). rewrite Hd in D. destruct (classdescs (ds_cs s0) !! _) as [d0|]; [|done].
    cbn. destruct (desc_same_fields _ _ D) as [-> _]. done. }
  unfold load_class. rewrite (slib_some _ _ _ HSl). cbn [rbind]. unfold libd. rewrite Hlib. cbn [rbind].
  change (class_of (lib_record (key_of (class_names (ds_cs s0) sl i))) (Z.of_nat i)) with (class_addr i). cbn [ds_cs set_classObjs].
  rewrite (cls_some _ _ _ Hd). cbn [rbind]. cbv zeta.
  set (f1 := fun o => _ : ClassObj). set (g1 := fun l => _ : LibDesc).
  set (s1 := set_libDescs _ _).
  assert (HK1 : keeps_libs s0 s1 /\ libs s1 = libs s0).
  { split; [|exact F4]. destruct HK as [Hsub HK]. split; [exact Hsub|]. intros lib' l' Hin' Hl'. destruct (HK lib' l' Hin' Hl') as (l2 & Hl2 & E1 & E2).
    unfold s1. cbn [libDescs set_libDescs set_classObjs]. destruct (decide (lib' = lib)) as [->|Hne].
    - rewrite lookup_alter_eq, Hl2. eexists. split; [done|]. done.
    - rewrite lookup_alter_ne by done. by exists l2. }
  destruct HK1 as [HK1 HL1].
  assert (Hsup : exists o, (if superclass d =? NULL then Ok (NULL, s1) else class2 (superclass d) s1) = Ok (o, s1) /\ super_obj s1 (superclass d) o).
  { destruct (Z.eqb_spec (superclass d) NULL) as [Hz|Hz]; [exists NULL; split; [done|by left]|].
    apply (classDesc2Class_known s1 L); [exact Hsh'|exact C5|done|]. intros L' Hr.
    assert (Hr0 : rtc (needs (ds_cs s0)) L L').
    { revert Hr. apply rtc_subrel. intros x y. unfold needs. change (ds_cs s1) with (ds_cs s). by rewrite (ss_slibs _ _ HS). }
    destruct (Hneeds L' Hr0) as (lb & l & (sl' & Hs' & Hn' & Hnn & Hl' & Hsh1) & Hin'). destruct HK1 as [_ HK1].
    destruct (HK1 lb l Hin' Hl') as (l2 & Hl2 & E1 & _). exists lb, l2. split; [|by rewrite HL1].
    exists sl'. unfold libraries. change (ds_cs s1) with (ds_cs s). change (ndx_libs s1) with (ndx_libs s). rewrite (ss_slibs _ _ HS), F5. split_and!; try done. by rewrite E1. }
  destruct Hsup as (o & -> & Hso). cbn [rbind].
  assert (Hmir : forall s' b, shared_same (ds_cs s1) (ds_cs s') -> libDescs s' = libDescs s1 -> libs s' = libs s1 ->
    classObjs s' = <[class_addr i := MkClassObj (class_at sl (Z.of_nat i)) o (static_address (ds_cs s0) sl sf i) b]> (classObjs s) ->
    forall j, (j < S i)%nat -> mirrors s' (lib_record []) sl sf j).
  { intros s' b HS' E1 E2 E3 j Hj.
    assert (HSs : shared_same (ds_cs s) (ds_cs s')) by exact HS'.
    assert (HKs : keeps_libs s s').
    { split; [by rewrite E2|]. intros lib' l' _ Hl'. rewrite E1. unfold s1. cbn [libDescs set_libDescs set_classObjs].
      destruct (decide (lib' = lib)) as [->|Hne]; [|rewrite lookup_alter_ne by done; by exists l'].
      rewrite lookup_alter_eq, Hl'. eexists. split; [done|]. done. }
    destruct (decide (j = i)) as [->|Hji].
    - destruct (shared_same_some _ _ _ _ HSs Hd) as (d' & Hd' & Hdd). destruct (desc_same_fields _ _ Hdd) as (_ & G2 & _).
      eexists _, d'. split; [rewrite E3; apply lookup_insert_eq|]. split; [done|]. cbn [classDesc cl_superclass staticFields].
      split; [done|]. split.
      + rewrite G2. revert Hso. apply super_obj_mono; [exact HS'|]. rewrite <- E2 in HL1. split; [by rewrite E2|]. intros lib' l' _ Hl'. rewrite E1. by exists l'.
      + unfold static_address. rewrite <- (shared_same_static _ _ sl i HS), <- (shared_same_static _ _ sl i HSs).
        by rewrite <- (shared_same_before _ _ sl i HS), <- (shared_same_before _ _ sl i HSs).
    - apply (mirrors_mono s); [exact HSs|exact HKs| |apply HM; lia]. rewrite E3. apply lookup_insert_ne.
      unfold class_addr, class_of, sizeof_Class. cbn. lia. }
  assert (Hdesc : libDescs s1 = <[lib := lib_record (key_of (class_names (ds_cs s0) sl (S i)))]> (libDescs s0)).
  { unfold s1. cbn [libDescs set_libDescs set_classObjs]. rewrite HD, class_names_S, key_of_snoc, Hnm.
    apply map_eq. intros x. destruct (decide (x = lib)) as [->|Hne]; [by rewrite lookup_alter_eq, !lookup_insert_eq|].
    by rewrite lookup_alter_ne, !lookup_insert_ne by done. }
  assert (Hobjs : forall v h, (forall x, h x = MkClassObj (classDesc x) (cl_superclass x) v (cl_state x)) ->
    alter h (class_addr i) (alter (fun x => MkClassObj (classDesc x) o (staticFields x) (cl_state x)) (class_addr i) (classObjs s1)) =
    <[class_addr i := MkClassObj (class_at sl (Z.of_nat i)) o v (cl_state o0)]> (classObjs s)).
  { intros v h Hh. unfold s1. cbn [classObjs set_libDescs set_classObjs]. apply map_eq. intros x.
    destruct (decide (x = class_addr i)) as [->|Hne]; [|by rewrite !lookup_alter_ne, lookup_insert_ne by done].
    rewrite !lookup_alter_eq, Ho0, lookup_insert_eq. cbn. by rewrite Hh. }
  assert (Hother : forall (s' : st) v, classObjs s' = <[class_addr i := v]> (classObjs s) ->
    (forall x, (forall j, (j < n)%nat -> x <> class_addr j) -> classObjs s' !! x = classObjs s0 !! x) /\
    (forall j, (j < n)%nat -> is_Some (classObjs s' !! class_addr j))).
  { intros s' v E. split.
    - intros x Hx. rewrite E, lookup_insert_ne by (intros <-; by apply (Hx i)). by apply HO.
    - intros j Hj. rewrite E. destruct (decide (class_addr j = class_addr i)) as [->|Hne]; [by rewrite lookup_insert_eq|].
      rewrite lookup_insert_ne by done. by apply HX. }
  cbn [statics_before]. rewrite Hsz. destruct (Z.eqb_spec (staticFieldsSize d) 0) as [Hz|Hz]; cbn [negb].
  - eexists. split; [rewrite Hz, Z.add_0_r; reflexivity|].
    pose proof (Hobjs 0 _ (fun x => eq_refl)) as HE.
    match goal with |- looped ?X _ => set (s' := X) end.
    assert (Es' : classObjs s' = <[class_addr i := MkClassObj (class_at sl (Z.of_nat i)) o 0 (cl_state o0)]> (classObjs s)) by exact HE.
    assert (HS' : shared_same (ds_cs s1) (ds_cs s')).
    { split; [done|done|]. intros x. unfold s'. cbn. change (ds_cs s1) with (ds_cs s).
      destruct (decide (x = class_at sl (Z.of_nat i))) as [->|Hne].
      - rewrite lookup_alter_eq, Hd. cbn. by right.
      - rewrite lookup_alter_ne by done. destruct (classdescs (ds_cs s) !! x); [apply desc_same_refl|done]. }
    destruct (Hother s' _ Es') as [HA HB].
    split; [by split_and!|by eapply shared_same_trans; [exact HS|]|exact Hdesc|done|done|].
    apply (Hmir s' (cl_state o0)); try done. unfold static_address. by rewrite Hsz, Hz.
  - eexists. split; [reflexivity|].
    pose proof (Hobjs (u32 (sf + 4 * statics_before (ds_cs s0) sl i)) _ (fun x => eq_refl)) as HE.
    match goal with |- looped ?X _ => set (s' := X) end.
    match type of HE with _ = ?R => assert (Es' : classObjs s' = R) by exact HE end.
    destruct (Hother s' _ Es') as [HA HB].
    split; [by split_and!|exact HS|exact Hdesc|done|done|].
    apply (Hmir s' (cl_state o0)); try done; [apply shared_same_refl|]. unfold static_address. rewrite Hsz, (proj2 (Z.eqb_neq _ _) Hz). done.
Qed.

Lemma load_classes_ok k : forall i s, looped s i -> (i + k = n)%nat ->
  exists s', load_classes java_lang_Object_class class_prim sz_ArrayClassDesc prim_desc k L lib sf (statics_before (ds_cs s0) sl i) (Z.of_nat i) s = Ok s' /\
    looped s' n.
Proof.
  induction k as [|k IH]; intros i s I E; [replace n with i by lia; by exists s|]. cbn [load_classes].
  destruct (load_class_ok s i I ltac:(lia)) as (s1 & Es & I1).
  unfold load_class in *. rewrite Es. cbn [rbind]. replace (Z.of_nat i + 1) with (Z.of_nat (S i)) by lia. apply IH; [done|lia].
Qed.
End Loop.

(** ** The allocations of [loadLib] *)

Definition memory_ok (s : st) : Prop :=
  al_ok (cs_alloc (ds_cs s)) /\ code_ok (ds_code s) (cs_alloc (ds_cs s)) /\ never_null (ds_code s) (cs_alloc (ds_cs s)).

Lemma dom_malloc_ok size (s : st) : memory_ok s -> 0 <= size < 2147483648 ->
  match dom_malloc (fun d a => malloc_code d size a) s with
  | Ok (p, s') => exists d a, s' = with_memory d a s /\ memory_ok s' /\
      (forall x, p <= x < p + size -> ~ in_use (ds_code s) x) /\
      (forall x, in_use (ds_code s') x <-> in_use (ds_code s) x \/ p <= x < p + size) /\
      (0 < size -> p <> NULL /\ 0 <= p /\ p + size <= 2147483648)
  | Err e => no_memory e
  end.
Proof.
  intros (Ha & Hd & Hn) Hs. unfold dom_malloc. destruct (malloc_code (ds_code s) size (cs_alloc (ds_cs s))) as [[[p d] a]|e] eqn:E; cbn [rbind].
  - exists d, a. split; [done|]. pose proof (malloc_code_spec _ _ _ _ _ _ Ha Hd Hs E) as (Ha' & Hd' & Hf & Hu).
    destruct (malloc_code_null _ _ _ _ _ _ Ha Hd Hs Hn E) as [Hn' Hp]. split; [by split_and!|]. split; [intros x Hx; by apply Hf|]. split; [exact Hu|].
    intros Hpos. split; [by apply Hp|]. apply (malloc_code_bound (ds_code s) size (cs_alloc (ds_cs s)) p d a); [done|done|lia|done].
  - by eapply malloc_code_fails.
Qed.

Lemma clear_classes_other m : forall c g x, (forall i, 0 <= i < Z.of_nat m -> x <> c + i * sizeof_Class) -> clear_classes m c g !! x = g !! x.
Proof.
  induction m as [|m IH]; intros c g x Hx; cbn [clear_classes]; [done|].
  rewrite IH; [|intros i Hi; specialize (Hx (i + 1) ltac:(lia)); unfold sizeof_Class in *; lia].
  apply lookup_insert_ne. specialize (Hx 0 ltac:(lia)). lia.
Qed.
Lemma clear_classes_some m : forall c g i, 0 <= i < Z.of_nat m -> is_Some (clear_classes m c g !! (c + i * sizeof_Class)).
Proof.
  induction m as [|m IH]; intros c g i Hi; [lia|]. cbn [clear_classes]. destruct (decide (i = 0)) as [->|Hne].
  - rewrite clear_classes_other by (intros j Hj; unfold sizeof_Class; lia). replace (c + 0 * sizeof_Class) with c by lia. by rewrite lookup_insert_eq.
  - replace (c + i * sizeof_Class) with (c + sizeof_Class + (i - 1) * sizeof_Class) by lia. apply IH. lia.
Qed.

(** the state before the loop over the classes *)
Record prepared (s1 : st) (L : Z) (sl : SharedLibDesc) (lib c sf : Z) (s0 : st) : Prop := {
  pr_cs : shared_same (ds_cs s1) (ds_cs s0);
  pr_memory : memory_ok s0;
  pr_frame : maxNumberOfLibs s0 = maxNumberOfLibs s1 /\ arrayClasses s0 = arrayClasses s1;
  pr_libs : libs s0 = libs s1 ++ [lib];
  pr_room : Z.of_nat (length (libs s1)) <> maxNumberOfLibs s1;
  pr_ndx : ndx_libs s0 = <[Z.to_nat (ndx sl) := lib]> (ndx_libs s1);
  pr_sfields : sfields s0 = if memSizeStaticFields sl =? 0 then sfields s1 else <[Z.to_nat (ndx sl) := sf]> (sfields s1);
  pr_desc : libDescs s0 = <[lib := lib_record L sl c (key_of [])]> (libDescs s1);
  pr_obj : forall x, in_use (ds_code s1) x -> classObjs s0 !! x = classObjs s1 !! x;
  pr_new : forall i, (i < n_classes sl)%nat -> is_Some (classObjs s0 !! class_addr L sl c i);
  pr_use : forall x, in_use (ds_code s1) x -> in_use (ds_code s0) x;
  pr_lib : lib <> NULL /\ ~ in_use (ds_code s1) lib /\ in_use (ds_code s0) lib;
  pr_class : forall i, 0 <= i < numberOfClasses sl -> ~ in_use (ds_code s1) (c + i * sizeof_Class) /\ in_use (ds_code s0) (c + i * sizeof_Class);
  pr_statics : forall x, sf <= x < sf + 4 * memSizeStaticFields sl -> ~ in_use (ds_code s1) x /\ in_use (ds_code s0) x /\ 0 <= x < 2147483648;
}.

(** the part of [loadLib] between the needed libraries and the loop *)
Definition prepare (sharedLib_ : Z) (sl : SharedLibDesc) (s : st) : res (Z * Z * Z * st) :=
  if Z.of_nat (length (libs s)) =? maxNumberOfLibs s then Err (EPanic "max number of libs in domain %s reached!") else
  let! '(lib, s) := dom_malloc (fun d a => malloc_libdesc sz_LibDesc d a) s in
  let s := set_libDescs (<[lib := MkLibDesc 0 NULL (replicate LIB_HASHKEY_LEN 0) sharedLib_ 0]> (libDescs s)) s in
  let s := set_libs (libs s ++ [lib]) (ndx_libs s) s in
  if negb (ndx sl <? maxNumberOfLibs s) then Err (EPanic "max number of libs reached! %d") else
  if ndx sl <? 0 then Err EFault else
  let s := set_libs (libs s) (<[Z.to_nat (ndx sl) := lib]> (ndx_libs s)) s in
  let! '(c, s) := specialAllocClass (numberOfClasses sl) s in
  let s := set_libDescs (alter (fun l => MkLibDesc (numberOfClasses sl) c (lib_key l) (sharedLib l) (initialized l)) lib (libDescs s)) s in
  let! '(sfield, s) := alloc_statics sl s in
  Ok (lib, c, sfield, s).

Abbreviation load_loop := (load_classes java_lang_Object_class class_prim sz_ArrayClassDesc prim_desc).
Abbreviation loadLib_ := (loadLib java_lang_Object_class class_prim sz_LibDesc sz_ArrayClassDesc prim_desc).
Lemma loadLib_unfold k L s : loadLib_ (S k) L s =
  let! sl := slib L (ds_cs s) in
  let! s := load_needed (loadLib_ k) (neededLibs sl) s in
  let! '(lib, c, sfield, s) := prepare L sl s in
  let! s := load_loop (Z.to_nat (numberOfClasses sl)) L lib sfield 0 0 s in
  Ok (lib, s).
Proof.
  cbn [loadLib]. destruct (slib L (ds_cs s)) as [sl|]; [|done]. cbn [rbind]. destruct (load_needed _ _ _) as [s1|]; [|done]. cbn [rbind].
  unfold prepare. destruct (_ =? maxNumberOfLibs s1); [done|]. destruct (dom_malloc _ s1) as [[lib s2]|]; [|done]. cbn [rbind].
  destruct (negb _); [done|]. destruct (ndx sl <? 0); [done|]. destruct (specialAllocClass _ _) as [[c s3]|]; [|done]. cbn [rbind].
  by destruct (alloc_statics _ _) as [[sf s4]|].
Qed.

Context (Hsz : 0 < sz_LibDesc < 2147483648).

Lemma alloc_statics_ok sl (s : st) : memory_ok s -> 0 <= memSizeStaticFields sl -> memSizeStaticFields sl * 4 < 2147483648 ->
  match alloc_statics sl s with
  | Ok (sf, s') => exists d a m, s' = set_sfields (if memSizeStaticFields sl =? 0 then sfields s else <[Z.to_nat (ndx sl) := sf]> (sfields s)) (with_mem m (with_memory d a s)) /\
      memory_ok s' /\
      (forall x, in_use (ds_code s) x -> in_use d x) /\
      (forall x, sf <= x < sf + 4 * memSizeStaticFields sl -> ~ in_use (ds_code s) x /\ in_use d x /\ 0 <= x < 2147483648)
  | Err e => no_memory e
  end.
Proof.
  intros HM H0 Hb. unfold alloc_statics. destruct (Z.eqb_spec (memSizeStaticFields sl) 0) as [Hz|Hz].
  - exists (ds_code s), (cs_alloc (ds_cs s)), (ds_mem s). rewrite Hz. split; [by destruct s as [[]]|]. split; [done|]. split; [done|]. intros x Hx. unfold NULL in Hx. lia.
  - pose proof (dom_malloc_ok (u32 (memSizeStaticFields sl * 4)) s HM ltac:(rewrite u32_small; lia)) as HA.
    unfold specialAllocStaticFields, malloc_staticfields. destruct (dom_malloc _ s) as [[sf s']|e]; cbn [rbind]; [|exact HA].
    destruct HA as (d & a & -> & HM' & Hf & Hu & Hp). rewrite u32_small in * by lia. destruct (Hp ltac:(lia)) as (_ & Hp0 & Hp1).
    exists d, a, (memset (ds_mem s) sf 0 (memSizeStaticFields sl * 4)). split; [done|]. split; [exact HM'|]. cbn [ds_code with_memory] in Hu. split.
    + intros x Hx. apply Hu. by left.
    + intros x Hx. split; [apply Hf; lia|]. split; [apply Hu; right; lia|lia].
Qed.

(** the panic of a domain whose table of libraries is full *)
Definition table_full : err := EPanic "max number of libs in domain %s reached!".

Lemma prepare_ok s1 base L sl : dom_ok s1 base -> libraries s1 !! L = Some sl ->
  match prepare L sl s1 with
  | Ok (lib, c, sf, s0) => prepared s1 L sl lib c sf s0
  | Err e => no_memory e \/ (e = table_full /\ Z.of_nat (length (libs s1)) = maxNumberOfLibs s1)
  end.
Proof.
  intros D Hsl. pose proof (sh_lib _ (dk_shared _ _ D) L sl Hsl) as HL. pose proof HL as [_ Hx [Hn0 Hn] [Hm Hst] _ _].
  pose proof (dk_index _ _ D L sl Hsl) as Hix. pose proof (statics_nonneg _ _ _ _ HL (le_n _)) as Hm0. rewrite <- Hm in Hm0.
  unfold prepare. destruct (Z.eqb_spec (Z.of_nat (length (libs s1))) (maxNumberOfLibs s1)) as [Hfull|Hroom]; [by right|].
  pose proof (dom_malloc_ok sz_LibDesc s1 (dk_alloc _ _ D) ltac:(lia)) as HA. unfold malloc_libdesc.
  destruct (dom_malloc _ s1) as [[lib s2]|e]; cbn [rbind]; [|by left].
  destruct HA as (d2 & a2 & -> & HM2 & Hf2 & Hu2 & Hp2). destruct (Hp2 ltac:(lia)) as (Hnn & _ & _).
  cbn [maxNumberOfLibs set_libs set_libDescs with_memory]. rewrite (proj2 (Z.ltb_lt _ _) Hix), (proj2 (Z.ltb_ge _ _) Hx). cbn [negb].
  unfold specialAllocClass, malloc_classes. set (s3 := set_libs _ _ (set_libs _ _ _)).
  pose proof (dom_malloc_ok (u32 (sizeof_Class * numberOfClasses sl)) s3 HM2 ltac:(rewrite u32_small; unfold sizeof_Class in *; lia)) as HB.
  destruct (dom_malloc _ s3) as [[c s4]|e]; cbn [rbind]; [|by left].
  destruct HB as (d4 & a4 & -> & HM4 & Hf4 & Hu4 & _). rewrite u32_small in * by (unfold sizeof_Class in *; lia).
  cbn [ds_code with_memory] in Hf4, Hu4, Hu2. change (ds_code s3) with d2 in *. set (s5 := set_libDescs _ (set_classObjs _ _)).
  pose proof (alloc_statics_ok sl s5 HM4 Hm0 Hst) as HC. destruct (alloc_statics sl s5) as [[sf s6]|e]; cbn [rbind]; [|by left].
  destruct HC as (d6 & a6 & m6 & -> & HM6 & Hu6 & Hf6). change (ds_code s5) with d4 in *.
  assert (Hcl : forall i, 0 <= i < numberOfClasses sl -> c <= c + i * sizeof_Class < c + sizeof_Class * numberOfClasses sl) by (unfold sizeof_Class in *; lia).
  split; try done.
  - split; [done|done|]. intros x. cbn. destruct (classdescs (ds_cs s1) !! x); [apply desc_same_refl|done].
  - cbn. apply map_eq. intros x. destruct (decide (x = lib)) as [->|Hne]; [by rewrite lookup_alter_eq, !lookup_insert_eq|].
    by rewrite lookup_alter_ne, !lookup_insert_ne by done.
  - intros x Hxu. cbn. apply clear_classes_other. intros i Hi ->. apply (Hf4 (c + i * sizeof_Class)); [apply Hcl; lia|]. apply Hu2. by left.
  - intros i Hi. unfold class_addr, class_of. cbn. apply clear_classes_some. unfold n_classes in Hi. lia.
  - intros x Hxu. cbn. apply Hu6, Hu4. left. apply Hu2. by left.
  - split; [done|]. split; [apply Hf2; lia|]. cbn. apply Hu6, Hu4. left. apply Hu2. right. lia.
  - intros i Hi. split.
    + intros Hu. apply (Hf4 (c + i * sizeof_Class)); [by apply Hcl|]. apply Hu2. by left.
    + cbn. apply Hu6, Hu4. right. by apply Hcl.
  - intros x Hxs. destruct (Hf6 x Hxs) as (G1 & G2 & G3). split; [|done]. intros Hu. apply G1, Hu4. left. apply Hu2. by left.
Qed.

(** ** What is loaded stays loaded *)

Lemma loaded_member s base L lib l : dom_ok s base -> loaded s L lib l -> lib ∈ libs s.
Proof. intros D (sl & Hsl & Hn & Hnn & _). by destruct (dk_ndx _ _ D _ _ _ Hsl Hn Hnn) as [? _]. Qed.

Lemma needed_loaded s base x y : dom_ok s base -> rtc (needs (ds_cs s)) x y ->
  (exists lib l, loaded s x lib l) -> exists lib l, loaded s y lib l.
Proof.
  intros D. induction 1 as [x|x y z Hxy _ IH]; [done|]. intros (lib & l & HL). apply IH.
  pose proof (loaded_member _ _ _ _ _ D HL) as Hin. destruct HL as (sl & Hsl & Hn & Hnn & Hl & <-).
  by apply (dk_needs _ _ D lib l y Hin Hl).
Qed.

Section Finish.
Context (s1 : st) (base : Z -> Z) (L : Z) (sl : SharedLibDesc) (lib c sf : Z) (s0 s' : st).
Context (D : dom_ok s1 base) (Hsl : libraries s1 !! L = Some sl) (P : prepared s1 L sl lib c sf s0).
Context (I : looped L lib sl (n_classes sl) c sf s0 s' (n_classes sl)).
Context (Hneed : forall x, x ∈ neededLibs sl -> exists lb l, loaded s1 x lb l).

Lemma fresh_lib : lib ∉ libs s1.
Proof using D P. intros Hin. destruct (dk_lib _ _ D lib Hin) as (l & _ & [_ [Hu _]]). by destruct (pr_lib _ _ _ _ _ _ _ P) as (_ & ? & _). Qed.

Lemma fresh_ne lb : lb ∈ libs s1 -> lib <> lb.
Proof using D P. intros Hin E. apply fresh_lib. by rewrite E. Qed.

Lemma prepared_slibs : libraries s0 = libraries s1.
Proof using P. unfold libraries. apply (ss_slibs _ _ (pr_cs _ _ _ _ _ _ _ P)). Qed.

Lemma ndx_in_table L' sl' : libraries s1 !! L' = Some sl' -> (Z.to_nat (ndx sl') < length (ndx_libs s1))%nat /\ 0 <= ndx sl'.
Proof using D.
  intros H. destruct (dk_tables _ _ D) as (Hm & -> & _). pose proof (dk_index _ _ D L' sl' H).
  pose proof (sk_ndx _ _ _ (sh_lib _ (dk_shared _ _ D) L' sl' H)). lia.
Qed.

Lemma prepared_loaded x lb l : loaded s1 x lb l -> exists lb' l', loaded s0 x lb' l' /\ lb' ∈ libs s0.
Proof using D Hsl P.
  intros HL. pose proof (loaded_member _ _ _ _ _ D HL) as Hin. destruct HL as (slx & Hx & Hn & Hnn & Hl & Hs).
  destruct (ndx_in_table _ _ Hsl) as [Hlt H0]. destruct (ndx_in_table _ _ Hx) as [_ H1].
  destruct (decide (ndx slx = ndx sl)) as [E|E].
  - pose proof (sh_ndx _ (dk_shared _ _ D) x L slx sl Hx Hsl E) as ->. unfold libraries in *. rewrite Hsl in Hx. injection Hx as <-.
    exists lib, (lib_record L sl c (key_of [])). split; [|rewrite (pr_libs _ _ _ _ _ _ _ P); apply elem_of_app; right; apply list_elem_of_here].
    exists sl. rewrite prepared_slibs, (pr_ndx _ _ _ _ _ _ _ P), (pr_desc _ _ _ _ _ _ _ P). split_and!; [done| | |by rewrite lookup_insert_eq|done].
    + by apply list_lookup_insert_eq.
    + by destruct (pr_lib _ _ _ _ _ _ _ P).
  - exists lb, l. split; [|rewrite (pr_libs _ _ _ _ _ _ _ P); apply elem_of_app; by left].
    exists slx. rewrite prepared_slibs, (pr_ndx _ _ _ _ _ _ _ P), (pr_desc _ _ _ _ _ _ _ P). split_and!; [done| |done| |done].
    + rewrite list_lookup_insert_ne by lia. done.
    + rewrite lookup_insert_ne; [done|]. by apply fresh_ne.
Qed.

Lemma prepared_needs L' : rtc (needs (ds_cs s0)) L L' -> exists lb l, loaded s0 L' lb l /\ lb ∈ libs s0.
Proof using D Hsl P Hneed.
  intros Hr. assert (Hr1 : rtc (needs (ds_cs s1)) L L').
  { revert Hr. apply rtc_subrel. intros x y. unfold needs. by rewrite (ss_slibs _ _ (pr_cs _ _ _ _ _ _ _ P)). }
  apply rtc_inv in Hr1 as [<-|(x & (slx & Hx & Hxn) & Hr1)].
  - exists lib, (lib_record L sl c (key_of [])). destruct (ndx_in_table _ _ Hsl) as [Hlt H0].
    split; [|rewrite (pr_libs _ _ _ _ _ _ _ P); apply elem_of_app; right; apply list_elem_of_here].
    exists sl. rewrite prepared_slibs, (pr_ndx _ _ _ _ _ _ _ P), (pr_desc _ _ _ _ _ _ _ P). split_and!; [done| | |by rewrite lookup_insert_eq|done].
    + by apply list_lookup_insert_eq.
    + by destruct (pr_lib _ _ _ _ _ _ _ P).
  - unfold libraries in Hsl. rewrite Hsl in Hx. injection Hx as <-.
    destruct (needed_loaded s1 base x L' D Hr1 (Hneed x Hxn)) as (lb & l & HL). by apply (prepared_loaded L' lb l).
Qed.

(** *** After the loop *)

Definition base_ (x : Z) : Z := if x =? lib then sf else base x.
Lemma base_old x : x ∈ libs s1 -> base_ x = base x.
Proof using D P. intros Hx. unfold base_. destruct (Z.eqb_spec x lib) as [->|]; [|done]. by destruct fresh_lib. Qed.

Lemma final_shared : shared_same (ds_cs s1) (ds_cs s').
Proof using P I. eapply shared_same_trans; [exact (pr_cs _ _ _ _ _ _ _ P)|exact (lo_shared _ _ _ _ _ _ _ _ _ I)]. Qed.
Lemma final_slibs : libraries s' = libraries s1.
Proof using P I. apply (ss_slibs _ _ final_shared). Qed.
Lemma final_libs : libs s' = libs s1 ++ [lib].
Proof using P I. destruct (lo_frame _ _ _ _ _ _ _ _ _ I) as (_ & _ & _ & -> & _). apply (pr_libs _ _ _ _ _ _ _ P). Qed.
Lemma final_ndx : ndx_libs s' = <[Z.to_nat (ndx sl) := lib]> (ndx_libs s1).
Proof using P I. destruct (lo_frame _ _ _ _ _ _ _ _ _ I) as (_ & _ & _ & _ & -> & _). apply (pr_ndx _ _ _ _ _ _ _ P). Qed.
Lemma final_desc : libDescs s' = <[lib := lib_record L sl c (key_of (class_names (ds_cs s') sl (n_classes sl)))]> (libDescs s1).
Proof using P I.
  rewrite (lo_desc _ _ _ _ _ _ _ _ _ I), (pr_desc _ _ _ _ _ _ _ P). rewrite insert_insert_eq.
  enough (class_names (ds_cs s') sl (n_classes sl) = class_names (ds_cs s0) sl (n_classes sl)) as -> by done.
  unfold class_names. apply map_ext. intros i. pose proof (ss_desc _ _ (lo_shared _ _ _ _ _ _ _ _ _ I) (class_at sl (Z.of_nat i))) as H.
  destruct (classdescs (ds_cs s0) !! _), (classdescs (ds_cs s') !! _); try done. cbn. by destruct (desc_same_fields _ _ H) as [-> _].
Qed.
Lemma final_use x : in_use (ds_code s1) x -> in_use (ds_code s') x.
Proof using P I. destruct (lo_frame _ _ _ _ _ _ _ _ _ I) as (-> & _). apply (pr_use _ _ _ _ _ _ _ P). Qed.
Lemma final_old x : in_use (ds_code s1) x -> classObjs s' !! x = classObjs s1 !! x.
Proof using P I.
  intros Hx. rewrite (lo_other _ _ _ _ _ _ _ _ _ I); [by apply (pr_obj _ _ _ _ _ _ _ P)|]. intros j Hj ->.
  destruct (pr_class _ _ _ _ _ _ _ P (Z.of_nat j)) as [H _]; [unfold n_classes in Hj; lia|]. by apply H.
Qed.
Lemma final_keeps : keeps_libs s1 s'.
Proof using D P I.
  split; [intros x Hx; rewrite final_libs; apply elem_of_app; by left|]. intros lb l Hin Hl. exists l. split; [|done].
  rewrite final_desc, lookup_insert_ne; [done|]. by apply fresh_ne.
Qed.

Lemma class_names_same cs cs' x n : shared_same cs cs' -> class_names cs' x n = class_names cs x n.
Proof.
  intros HS. unfold class_names. apply map_ext. intros i. pose proof (ss_desc _ _ HS (class_at x (Z.of_nat i))) as H.
  destruct (classdescs cs !! _), (classdescs cs' !! _); try done. cbn. by destruct (desc_same_fields _ _ H) as [-> _].
Qed.

Lemma old_lib_ok lb l : lb ∈ libs s1 -> libDescs s1 !! lb = Some l -> lib_ok s1 base lb l -> lib_ok s' base_ lb l.
Proof using D Hsl P I.
  intros Hin Hl [(slx & Hx & E1 & E2 & E3 & E4 & E5) [U1 U2]]. rewrite <- (base_old lb Hin) in *. split.
  - exists slx. rewrite final_slibs, (class_names_same _ _ _ _ final_shared). split_and!; try done.
    + intros i Hi. apply (mirrors_mono slx s1 s' l i _ final_shared final_keeps); [|by apply E3]. apply final_old, U2.
      rewrite E1. unfold n_classes in Hi. lia.
    + rewrite final_ndx. destruct (ndx_in_table _ _ Hsl) as [Hlt H0]. destruct (ndx_in_table _ _ Hx) as [_ H1].
      destruct (decide (ndx slx = ndx sl)) as [E|E].
      * rewrite E, list_lookup_insert_eq by done. intros [= E']. by destruct (fresh_ne lb Hin).
      * rewrite list_lookup_insert_ne by lia. intros Hn Hm. destruct (lo_frame _ _ _ _ _ _ _ _ _ I) as (_ & _ & _ & _ & _ & -> & _).
        rewrite (pr_sfields _ _ _ _ _ _ _ P). destruct (_ =? 0); [by apply E4|]. rewrite list_lookup_insert_ne by lia. by apply E4.
    + intros x Hx'. destruct (E5 x Hx') as [? ?]. split; [by apply final_use|done].
  - split; [by apply final_use|]. intros i Hi. by apply final_use, U2.
Qed.

Lemma new_lib_ok : lib_ok s' base_ lib (lib_record L sl c (key_of (class_names (ds_cs s') sl (n_classes sl)))).
Proof using D Hsl P I.
  destruct (lo_frame _ _ _ _ _ _ _ _ _ I) as (Ec & _ & _ & _ & _ & Es & _). destruct (ndx_in_table _ _ Hsl) as [Hlt H0].
  assert (Hb : base_ lib = sf) by (unfold base_; by rewrite Z.eqb_refl). split.
  - exists sl. rewrite final_slibs, Hb. split_and!; try done.
    + apply (lo_done _ _ _ _ _ _ _ _ _ I).
    + intros _ Hm. rewrite Es, (pr_sfields _ _ _ _ _ _ _ P), (proj2 (Z.eqb_neq _ _) Hm). apply list_lookup_insert_eq.
      destruct (dk_tables _ _ D) as (_ & En & ->). by rewrite En in Hlt.
    + intros x Hx. rewrite Ec. by destruct (pr_statics _ _ _ _ _ _ _ P x Hx) as (_ & ? & ?).
  - rewrite Ec. split; [by destruct (pr_lib _ _ _ _ _ _ _ P) as (_ & _ & ?)|]. intros i Hi. by apply (pr_class _ _ _ _ _ _ _ P).
Qed.

Lemma final_loaded x lb l : loaded s0 x lb l -> exists l', loaded s' x lb l'.
Proof using P I.
  intros (slx & Hx & Hn & Hnn & Hl & Hs). destruct (lo_frame _ _ _ _ _ _ _ _ _ I) as (_ & _ & _ & _ & En & _).
  destruct (decide (lb = lib)) as [->|Hne].
  - eexists. exists slx. rewrite final_slibs, <- prepared_slibs, En. split_and!; [done|done|done|rewrite final_desc; apply lookup_insert_eq|].
    rewrite (pr_desc _ _ _ _ _ _ _ P), lookup_insert_eq in Hl. injection Hl as <-. exact Hs.
  - exists l, slx. rewrite final_slibs, <- prepared_slibs, En. split_and!; try done. rewrite final_desc, lookup_insert_ne by done.
    by rewrite (pr_desc _ _ _ _ _ _ _ P), lookup_insert_ne in Hl by done.
Qed.
Lemma loaded_after x lb l : loaded s1 x lb l -> exists lb' l', loaded s' x lb' l'.
Proof using D Hsl P I. intros H. destruct (prepared_loaded _ _ _ H) as (lb' & l' & H' & _). destruct (final_loaded _ _ _ H') as [l2 ?]. by exists lb', l2. Qed.

Lemma new_range x : static_range s' base_ lib x -> ~ in_use (ds_code s1) x.
Proof using P I Hsl.
  intros (l & slx & Hl & Hx & Hr). rewrite final_desc, lookup_insert_eq in Hl. injection Hl as <-. cbn [sharedLib lib_record] in Hx.
  rewrite final_slibs in Hx. unfold libraries in *. rewrite Hsl in Hx. injection Hx as <-.
  unfold base_ in Hr. rewrite Z.eqb_refl in Hr. by destruct (pr_statics _ _ _ _ _ _ _ P x Hr).
Qed.
Lemma old_range lb x : lb ∈ libs s1 -> static_range s' base_ lb x -> static_range s1 base lb x /\ in_use (ds_code s1) x.
Proof using D Hsl P I.
  intros Hin (l & slx & Hl & Hx & Hr). rewrite final_desc, lookup_insert_ne in Hl by (by apply fresh_ne).
  rewrite final_slibs in Hx. rewrite (base_old lb Hin) in Hr. split; [by exists l, slx|].
  destruct (dk_lib _ _ D lb Hin) as (l2 & Hl2 & [(sl2 & Hs2 & _ & _ & _ & _ & E5) _]). rewrite Hl in Hl2. injection Hl2 as <-.
  rewrite Hx in Hs2. injection Hs2 as <-. by apply E5.
Qed.

Lemma finish_ok : dom_ok s' base_.
Proof using D Hsl P I Hneed.
  destruct (lo_frame _ _ _ _ _ _ _ _ _ I) as (Ec & _ & Emax & _ & _ & Es & _ & Eal). destruct (pr_frame _ _ _ _ _ _ _ P) as [Em0 _].
  pose proof (pr_memory _ _ _ _ _ _ _ P) as (A1 & A2 & A3).
  split.
  - apply (shared_same_ok (ds_cs s1)); [exact final_shared|exact (dk_shared _ _ D)].
  - rewrite Ec, Eal. by split_and!.
  - rewrite Emax, Em0, final_ndx, length_insert, Es, (pr_sfields _ _ _ _ _ _ _ P). destruct (dk_tables _ _ D) as (T1 & T2 & T3).
    split_and!; [done|done|]. destruct (_ =? 0); [done|]. by rewrite length_insert.
  - intros L' sl'. rewrite final_slibs, Emax, Em0. apply (dk_index _ _ D).
  - rewrite final_libs. apply NoDup_app. split; [exact (dk_nodup _ _ D)|]. split; [|apply NoDup_singleton].
    intros x Hx E%list_elem_of_singleton. apply fresh_lib. by rewrite <- E.
  - intros lb. rewrite final_libs. intros [Hin| ->%list_elem_of_singleton]%elem_of_app.
    + destruct (dk_lib _ _ D lb Hin) as (l & Hl & Hok). exists l. split; [|by apply old_lib_ok].
      rewrite final_desc, lookup_insert_ne; [done|]. by apply fresh_ne.
    + eexists. split; [rewrite final_desc; apply lookup_insert_eq|apply new_lib_ok].
  - intros L' sl' lb Hs' Hn Hnn. rewrite final_slibs in Hs'. rewrite final_ndx in Hn. rewrite final_libs.
    destruct (ndx_in_table _ _ Hsl) as [Hlt H0]. destruct (ndx_in_table _ _ Hs') as [_ H1].
    destruct (decide (ndx sl' = ndx sl)) as [E|E].
    + rewrite E, list_lookup_insert_eq in Hn by done. injection Hn as <-. pose proof (sh_ndx _ (dk_shared _ _ D) L' L sl' sl Hs' Hsl E) as ->.
      split; [apply elem_of_app; right; apply list_elem_of_here|]. eexists. split; [rewrite final_desc; apply lookup_insert_eq|done].
    + rewrite list_lookup_insert_ne in Hn by lia. destruct (dk_ndx _ _ D L' sl' lb Hs' Hn Hnn) as (Hin & l & Hl & Hsh).
      split; [apply elem_of_app; by left|]. exists l. split; [|done]. rewrite final_desc, lookup_insert_ne; [done|]. by apply fresh_ne.
  - intros lb l x Hin Hl Hx. assert (Hx1 : needs (ds_cs s1) (sharedLib l) x) by (destruct Hx as (sx & Hsx & ?); exists sx; by rewrite <- (ss_slibs _ _ final_shared)).
    rewrite final_libs in Hin. apply elem_of_app in Hin as [Hin| ->%list_elem_of_singleton].
    + rewrite final_desc, lookup_insert_ne in Hl by (by apply fresh_ne).
      destruct (dk_needs _ _ D lb l x Hin Hl Hx1) as (lb' & l' & HL). by apply (loaded_after _ _ _ HL).
    + rewrite final_desc, lookup_insert_eq in Hl. injection Hl as <-. cbn [sharedLib lib_record] in Hx1.
      destruct Hx1 as (sx & Hsx & Hxn). unfold libraries in Hsl. rewrite Hsl in Hsx. injection Hsx as <-.
      destruct (Hneed x Hxn) as (lb' & l' & HL). by apply (loaded_after _ _ _ HL).
  - intros lb lb' x. rewrite final_libs. intros [H1| ->%list_elem_of_singleton]%elem_of_app [H2| ->%list_elem_of_singleton]%elem_of_app Hne R1 R2; [| | |done].
    + apply (dk_apart _ _ D lb lb' x H1 H2 Hne); [by apply old_range|by apply old_range].
    + apply (new_range x R2). by apply (old_range lb x H1).
    + apply (new_range x R1). by apply (old_range lb' x H2).
  - rewrite final_libs, length_app, Emax, Em0. cbn [length]. pose proof (dk_bound _ _ D). pose proof (pr_room _ _ _ _ _ _ _ P). lia.
Qed.

Lemma finish_extends : extends s1 s'.
Proof using D Hsl P I.
  destruct (lo_frame _ _ _ _ _ _ _ _ _ I) as (_ & _ & Em & _ & _ & _ & Ea & _). destruct (pr_frame _ _ _ _ _ _ _ P) as [Em0 Ea0].
  split.
  - exact final_shared.
  - by rewrite Em.
  - exists [lib]. exact final_libs.
  - intros lb Hin. rewrite final_desc, lookup_insert_ne; [done|]. by apply fresh_ne.
  - exact final_old.
  - exact final_use.
  - exact loaded_after.
  - by rewrite Ea.
Qed.

Lemma finish_loaded : loaded s' L lib (lib_record L sl c (key_of (class_names (ds_cs s') sl (n_classes sl)))).
Proof using D Hsl P I.
  destruct (ndx_in_table _ _ Hsl) as [Hlt _]. exists sl. rewrite final_slibs, final_ndx. split_and!; [done|by apply list_lookup_insert_eq| | |done].
  - by destruct (pr_lib _ _ _ _ _ _ _ P).
  - rewrite final_desc. apply lookup_insert_eq.
Qed.
End Finish.
End Inv.
