(* ===== verification/DomClassLoad.v ===== *)
(** * What loading and looking up classes in a domain guarantee (core/load.c)

    [loadLib] succeeds or runs out of memory, and keeps [dom_ok];
    [findClass] finds the first class of that name; static fields of different
    classes are apart and where linked code addresses them; loading a library a second time gives it new static fields. *)

From S2P Require Import Prelude Mem CString Malloc Alloc CodeMem Classes DomainClasses DomClassInv.
#[local] Open Scope Z_scope.

Section Load.
Context {A : Type} `{!Allocator A}.
Abbreviation st := (dom_state A).
Context (java_lang_Object java_lang_Object_class : Z) (class_prim : Z -> Z) (sz_LibDesc sz_ArrayClassDesc : Z) (prim_desc : Z -> option Z).
Context (rank : Z -> nat) (Hsz : 0 < sz_LibDesc < 2147483648).
Abbreviation dom_ok := (dom_ok java_lang_Object_class rank).
Abbreviation loadLib := (loadLib java_lang_Object_class class_prim sz_LibDesc sz_ArrayClassDesc prim_desc).

Lemma extends_refl (s : st) : extends s s.
Proof. split; try done; [apply shared_same_refl|exists []; by rewrite app_nil_r|]. intros L lib l H. by exists lib, l. Qed.
Lemma extends_trans (s1 s2 s3 : st) : extends s1 s2 -> extends s2 s3 -> extends s1 s3.
Proof.
  intros [A1 B1 [n1 C1] D1 E1 F1 G1 H1] [A2 B2 [n2 C2] D2 E2 F2 G2 H2]. split.
  - by eapply shared_same_trans.
  - congruence.
  - exists (n1 ++ n2). by rewrite C2, C1, app_assoc.
  - intros lib Hin. rewrite D2; [by apply D1|]. rewrite C1. apply elem_of_app. by left.
  - intros x Hx. rewrite E2 by (by apply F1). by apply E1.
  - intros x Hx. by apply F2, F1.
  - intros L lib l H. destruct (G1 _ _ _ H) as (lib' & l' & H'). by apply (G2 _ lib' l').
  - congruence.
Qed.
Lemma extends_slibs (s s' : st) : extends s s' -> libraries s' = libraries s.
Proof. intros E. apply (ss_slibs _ _ (ex_shared _ _ E)). Qed.

(** from [s] to [s']: the domain stays well formed, what it has stays, and the
    static fields of new libraries lie in code memory that was not in use *)
Record dom_grows (s : st) (base : Z -> Z) (s' : st) (base' : Z -> Z) : Prop := {
  gr_ok : dom_ok s' base';
  gr_extends : extends s s';
  gr_base : forall x, x ∈ libs s -> base' x = base x;
  gr_statics : forall lib x, lib ∈ libs s' -> lib ∉ libs s -> static_range s' base' lib x -> ~ in_use (ds_code s) x;
}.

Lemma dom_grows_refl (s : st) base : dom_ok s base -> dom_grows s base s base.
Proof. intros D. split; [done|apply extends_refl|done|]. by intros lib x H1 H2. Qed.
Lemma extends_in (s s' : st) lib : extends s s' -> lib ∈ libs s -> lib ∈ libs s'.
Proof. intros E H. destruct (ex_libs _ _ E) as [new ->]. apply elem_of_app. by left. Qed.
Lemma grows_range (s : st) base s' base' lib x : dom_grows s base s' base' -> lib ∈ libs s -> static_range s' base' lib x -> static_range s base lib x.
Proof.
  intros [_ E B _] Hin (l & sl & Hl & Hsl & Hr). exists l, sl. rewrite <- (ex_desc _ _ E lib Hin), <- (extends_slibs _ _ E), <- (B lib Hin). done.
Qed.
Lemma dom_grows_trans (s1 : st) b1 s2 b2 s3 b3 : dom_grows s1 b1 s2 b2 -> dom_grows s2 b2 s3 b3 -> dom_grows s1 b1 s3 b3.
Proof.
  intros G1 G2. pose proof G1 as [_ E1 B1 N1]. pose proof G2 as [D2 E2 B2 N2]. split; [done|by eapply extends_trans| |].
  - intros x Hx. rewrite B2 by (by apply (extends_in s1)). by apply B1.
  - intros lib x Hin Hnin Hr. destruct (decide (lib ∈ libs s2)) as [H2|H2].
    + apply (N1 lib x H2 Hnin). by apply (grows_range s2 b2 s3 b3).
    + intros Hu. apply (N2 lib x Hin H2 Hr). by apply (ex_use _ _ E1).
Qed.

(** loading stops for want of memory, or because the table of libraries is
    full with the libraries loaded up to then *)
Definition gives_up (s : st) (e : err) : Prop :=
  no_memory e \/ (e = table_full /\ exists (s1 : st) base1, dom_ok s1 base1 /\ extends s s1 /\ Z.of_nat (length (libs s1)) = maxNumberOfLibs s).
Lemma gives_up_extends (s s1 : st) e : extends s s1 -> gives_up s1 e -> gives_up s e.
Proof.
  intros E [H|(-> & s2 & b2 & D2 & E2 & H)]; [by left|right]. split; [done|]. exists s2, b2. rewrite <- (ex_max _ _ E).
  split_and!; [done|by eapply extends_trans|done].
Qed.

(** what [loadLib] promises for library [L] *)
Definition load_result (s : st) (base : Z -> Z) (L : Z) (r : res (Z * st)) : Prop :=
  match r with
  | Ok (lib, s') => (exists base' l, dom_grows s base s' base' /\ (lib ∉ libs s) /\ last (libs s') = Some lib /\ loaded s' L lib l)
  | Err e => gives_up s e
  end.

Lemma load_needed_ok k L (sl : SharedLibDesc) :
  (forall x (s : st) base, dom_ok s base -> is_Some (libraries s !! x) -> (rank x < k)%nat -> load_result s base x (loadLib k x s)) ->
  (rank L <= k)%nat -> forall (l : list Z) (s : st) base, dom_ok s base ->
  (forall x, x ∈ l -> is_Some (libraries s !! x) /\ (rank x < rank L)%nat) ->
  match load_needed (loadLib k) l s with
  | Ok s' => exists base', dom_grows s base s' base' /\ forall x, x ∈ l -> exists lib l', loaded s' x lib l'
  | Err e => gives_up s e
  end.
Proof.
  intros IH HL l. induction l as [|x l IHl]; intros s base D Hl; cbn [load_needed].
  { exists base. split; [by apply dom_grows_refl|]. by intros x ?%not_elem_of_nil. }
  destruct (Hl x ltac:(apply list_elem_of_here)) as [[slx Hx] Hrank].
  assert (Hfind : exists lib, sharedLib2Lib x s = Ok lib /\ (lib <> NULL -> exists l', loaded s x lib l')).
  { pose proof (sh_lib _ _ (dk_shared _ _ _ _ D) x slx Hx) as HX. pose proof (dk_tables _ _ _ _ D) as (Hm & Hlen & _).
    pose proof (dk_index _ _ _ _ D x slx Hx). pose proof (sk_ndx _ _ _ _ HX).
    destruct (lookup_lt_is_Some_2 (ndx_libs s) (Z.to_nat (ndx slx)) ltac:(lia)) as [lib Hn].
    destruct (decide (lib = NULL)) as [->|Hnn].
    - exists NULL. split; [|done]. unfold sharedLib2Lib. rewrite (proj2 (Z.eqb_neq x NULL)) by (by apply (sk_null _ _ _ _ HX)).
      rewrite (slib_some _ _ _ Hx). cbn [rbind]. by rewrite (read_index_some _ _ NULL).
    - destruct (dk_ndx _ _ _ _ D _ _ _ Hx Hn Hnn) as (_ & l' & Hl' & Hsh). assert (Hlo : loaded s x lib l') by (by exists slx).
      exists lib. split; [by apply (loaded_found rank s x lib l' (dk_shared _ _ _ _ D))|]. intros _. by exists l'. }
  destruct Hfind as (lib & -> & Hlib). cbn [rbind].
  assert (Hstep : match (if lib =? NULL then (let! '(_, s) := loadLib k x s in Ok s) else Ok s) with
    | Ok s1 => exists base1, dom_grows s base s1 base1 /\ exists lib l', loaded s1 x lib l'
    | Err e => gives_up s e end).
  { destruct (Z.eqb_spec lib NULL) as [->|Hnn].
    - pose proof (IH x s base D ltac:(by exists slx) ltac:(lia)) as HR. destruct (loadLib k x s) as [[lb s1]|e]; cbn [rbind]; [|exact HR].
      destruct HR as (base1 & l1 & G1 & _ & _ & HL1). exists base1. split; [done|]. by exists lb, l1.
    - exists base. split; [by apply dom_grows_refl|]. destruct (Hlib Hnn) as [l' ?]. by exists lib, l'. }
  destruct (if lib =? NULL then _ else _) as [s1|e]; cbn [rbind]; [|exact Hstep]. destruct Hstep as (base1 & G1 & lb & l1 & HL1).
  pose proof (gr_ok _ _ _ _ G1) as D1. pose proof (gr_extends _ _ _ _ G1) as E1.
  pose proof (IHl s1 base1 D1) as HR. rewrite (extends_slibs _ _ E1) in HR. specialize (HR (fun y Hy => Hl y ltac:(by apply list_elem_of_further))).
  destruct (load_needed (loadLib k) l s1) as [s2|e]; [|by apply (gives_up_extends _ _ _ E1)]. destruct HR as (base2 & G2 & HA).
  exists base2. split; [by eapply dom_grows_trans|].
  intros y [->|Hy]%elem_of_cons; [by apply (ex_loaded _ _ (gr_extends _ _ _ _ G2) _ lb l1)|by apply HA].
Qed.

Lemma loadLib_ok k : forall L (s : st) base, dom_ok s base -> is_Some (libraries s !! L) -> (rank L < k)%nat ->
  load_result s base L (loadLib k L s).
Proof using Hsz.
  induction k as [|k IH]; intros L s base D [sl Hsl] Hk; [lia|]. rewrite loadLib_unfold. rewrite (slib_some _ _ _ Hsl). cbn [rbind].
  pose proof (load_needed_ok k L sl (fun x s base D => IH x s base D) ltac:(lia) (neededLibs sl) s base D (sk_needs _ _ _ _ (sh_lib _ _ (dk_shared _ _ _ _ D) L sl Hsl))) as HN.
  destruct (load_needed _ _ s) as [s1|e]; cbn [rbind]; [|exact HN]. destruct HN as (base1 & G1 & HA).
  pose proof (gr_ok _ _ _ _ G1) as D1. pose proof (gr_extends _ _ _ _ G1) as E1.
  assert (Hsl1 : libraries s1 !! L = Some sl) by (by rewrite (extends_slibs _ _ E1)).
  pose proof (prepare_ok java_lang_Object_class sz_LibDesc rank Hsz s1 base1 L sl D1 Hsl1) as HP.
  destruct (prepare sz_LibDesc L sl s1) as [[[[lib c] sf] s0]|e]; cbn [rbind].
  2: { destruct HP as [HP|[-> HP]]; [by left|right]. split; [done|]. exists s1, base1. by rewrite <- (ex_max _ _ E1). }
  assert (Hsh0 : shared_ok rank (ds_cs s0)) by (apply (shared_same_ok _ (ds_cs s1)); [exact (pr_cs _ _ _ _ _ _ _ HP)|exact (dk_shared _ _ _ _ D1)]).
  assert (Hsl0 : libraries s0 !! L = Some sl) by (rewrite (prepared_slibs s1 L sl lib c sf s0 HP); done).
  assert (Hl0 : libDescs s0 !! lib = Some (lib_record L sl c (key_of []))) by (rewrite (pr_desc _ _ _ _ _ _ _ HP); apply lookup_insert_eq).
  pose proof (prepared_needs _ rank s1 base1 L sl lib c sf s0 D1 Hsl1 HP HA) as Hneeds.
  destruct (load_classes_ok java_lang_Object_class class_prim sz_ArrayClassDesc prim_desc rank L lib sl (n_classes sl) c sf s0 Hsh0 Hsl0 eq_refl Hneeds Hl0 (n_classes sl) 0%nat s0)
    as (s2 & Es & I); [apply looped_start; [done|done|exact (pr_new _ _ _ _ _ _ _ HP)]|done|].
  change (Z.to_nat (numberOfClasses sl)) with (n_classes sl). change (Z.of_nat 0) with 0 in Es. cbn [statics_before] in Es. rewrite Es. cbn [rbind].
  exists (base_ base1 lib sf), (lib_record L sl c (key_of (class_names (ds_cs s2) sl (n_classes sl)))). split_and!.
  - eapply dom_grows_trans; [exact G1|]. split; [by eapply finish_ok|by eapply finish_extends|by eapply base_old|].
    intros lb x Hin Hnin Hr. rewrite (final_libs _ _ _ _ _ _ _ _ _ HP I) in Hin. apply elem_of_app in Hin as [?| ->%list_elem_of_singleton]; [done|].
    by eapply new_range.
  - intros Hin. eapply (fresh_lib _ rank s1); [exact D1|exact HP|]. by apply (extends_in s).
  - rewrite (final_libs _ _ _ _ _ _ _ _ _ HP I). by rewrite last_snoc.
  - by eapply finish_loaded.
Qed.
End Load.

(** ** Lookup by name *)

Section Lookup.
Context {A : Type} `{!Allocator A}.
Abbreviation st := (dom_state A).
Context (java_lang_Object java_lang_Object_class : Z) (class_prim : Z -> Z) (sz_ArrayClassDesc : Z) (prim_desc : Z -> option Z).
Context (rank : Z -> nat).
Abbreviation dom_ok := (dom_ok java_lang_Object_class rank).

Definition class_name (s : st) (c : Z) : option cstring :=
  o ← classObjs s !! c; c_nm <$> classdescs (ds_cs s) !! classDesc o.
Definition lib_objs (l : LibDesc) : list Z := map (fun i => class_of l (Z.of_nat i)) (seq 0 (Z.to_nat (lib_numberOfClasses l))).
(** the classes of the domain, in the order in which its libraries were loaded *)
Definition domain_objs (s : st) : list Z :=
  concat (map (fun lib => match libDescs s !! lib with Some l => lib_objs l | None => [] end) (libs s)).
(** the reference: the first class of that name, without keys *)
Definition first_class (s : st) (name : cstring) (l : list Z) : Z :=
  default NULL (snd <$> list_find (fun c => class_name s c = Some name) l).

Lemma first_class_app s name l1 l2 : (forall c, c ∈ l1 -> c <> NULL) ->
  first_class s name (l1 ++ l2) = if first_class s name l1 =? NULL then first_class s name l2 else first_class s name l1.
Proof.
  intros Hnn. unfold first_class. induction l1 as [|c l1 IH]; [done|]. cbn [app list_find]. case_decide as E; simpl.
  - rewrite (proj2 (Z.eqb_neq c NULL)); [done|]. apply Hnn, list_elem_of_here.
  - specialize (IH (fun c' H => Hnn c' (list_elem_of_further _ _ _ H))).
    destruct (list_find _ (l1 ++ l2)) as [[? ?]|], (list_find _ l1) as [[? ?]|]; exact IH.
Qed.
Lemma first_class_none s name l : (forall c, c ∈ l -> class_name s c <> Some name) -> first_class s name l = NULL.
Proof.
  intros H. unfold first_class. destruct (list_find _ l) as [[i x]|] eqn:E; [|done].
  apply list_find_Some in E as (E & Hx & _). exfalso. eapply H; [by eapply list_elem_of_lookup_2|done].
Qed.

Lemma in_use_not_null (d : domain_code) (a : A) x : code_ok d a -> never_null d a -> in_use d x -> x <> NULL.
Proof. intros Hd [_ Hn] (k & Hk & Hx) ->. destruct (co_chunk _ _ Hd k Hk) as (_ & ? & _). specialize (Hn k Hk). unfold NULL in *. lia. Qed.

(** every class of a library of the domain has a name that the key covers *)
Lemma lib_obj_named s base lib l c : dom_ok s base -> lib ∈ libs s -> libDescs s !! lib = Some l -> c ∈ lib_objs l ->
  c <> NULL /\ exists o d, classObjs s !! c = Some o /\ classdescs (ds_cs s) !! classDesc o = Some d /\ testHashKey (c_nm d) (lib_key l) LIB_HASHKEY_LEN = true.
Proof.
  intros D Hin Hl Hc. destruct (dk_lib _ _ _ _ D lib Hin) as (l' & Hl' & [(sl & Hsl & En & Ek & Hm & _) [_ Hu]]). rewrite Hl in Hl'. injection Hl' as <-.
  unfold lib_objs in Hc. apply list_elem_of_fmap in Hc as (i & -> & Hi%elem_of_seq). rewrite En in Hi.
  destruct (dk_alloc _ _ _ _ D) as (_ & Hd & Hn). split; [apply (in_use_not_null _ _ _ Hd Hn), Hu; lia|].
  destruct (Hm i ltac:(unfold n_classes; lia)) as (o & d & Ho & Hdd & Hcd & _). exists o, d. rewrite Hcd. split_and!; [done|done|].
  rewrite Ek. apply testHashKey_all. unfold class_names. apply list_elem_of_fmap. exists i. rewrite Hdd. split; [done|]. apply elem_of_seq. unfold n_classes. lia.
Qed.

Lemma find_class_named_spec s l name n : forall i,
  (forall k, (i <= k < i + n)%nat -> exists o d, classObjs s !! class_of l (Z.of_nat k) = Some o /\ classdescs (ds_cs s) !! classDesc o = Some d) ->
  find_class_named n (Z.of_nat i) l name s = Ok (first_class s name (map (fun i => class_of l (Z.of_nat i)) (seq i n))).
Proof.
  unfold first_class. induction n as [|n IH]; intros i Hd; [done|]. cbn [find_class_named seq map list_find].
  destruct (Hd i ltac:(lia)) as (o & d & Eo & Ed). unfold desc_of, clsobj, cls. rewrite Eo. cbn [rbind]. rewrite Ed. cbn [rbind]. unfold strcmp_eq.
  assert (class_name s (class_of l (Z.of_nat i)) = Some (c_nm d)) as En by (unfold class_name; rewrite Eo; cbn; by rewrite Ed).
  case_bool_decide; case_decide; try congruence; try done.
  replace (Z.of_nat i + 1) with (Z.of_nat (S i)) by lia. rewrite IH by (intros; apply Hd; lia). by destruct (list_find _ _) as [[? ?]|].
Qed.

Lemma find_class_in_libs_ref s base name l : dom_ok s base -> name <> name_Object -> l ⊆ libs s ->
  find_class_in_libs java_lang_Object_class l name s =
  Ok (first_class s name (concat (map (fun lib => match libDescs s !! lib with Some l => lib_objs l | None => [] end) l))).
Proof.
  intros D Hn. induction l as [|lib l IH]; intros Hl; [done|]. cbn [find_class_in_libs map concat].
  assert (Hin : lib ∈ libs s) by (apply Hl, list_elem_of_here). destruct (dk_lib _ _ _ _ D lib Hin) as (x & Hx & _).
  unfold libd at 1. rewrite Hx. cbn [rbind]. specialize (IH (fun y H => Hl y (list_elem_of_further _ _ _ H))).
  rewrite first_class_app by (intros c Hc; by apply (lib_obj_named s base lib x c D Hin Hx)).
  destruct (testHashKey name (lib_key x) LIB_HASHKEY_LEN) eqn:Ek.
  - unfold findClassInLib, libd. rewrite Hx. cbn [rbind]. unfold strcmp_eq. rewrite bool_decide_false by done. change 0 with (Z.of_nat 0) at 1.
    rewrite find_class_named_spec.
    2: { intros k Hk. destruct (lib_obj_named s base lib x (class_of x (Z.of_nat k)) D Hin Hx) as (_ & o & d & ? & ? & _); [|by exists o, d].
         unfold lib_objs. apply list_elem_of_fmap. exists k. split; [done|]. apply elem_of_seq. lia. }
    cbn [rbind]. change (map _ (seq 0 _)) with (lib_objs x). by destruct (Z.eqb_spec (first_class s name (lib_objs x)) NULL).
  - rewrite (first_class_none s name (lib_objs x)); [done|]. intros c Hc.
    destruct (lib_obj_named s base lib x c D Hin Hx Hc) as (_ & o & d & Eo & Ed & Hk). unfold class_name. rewrite Eo. cbn. rewrite Ed. cbn. congruence.
Qed.

(** C35 Looking a class up in a domain through the hash keys of its libraries
    gives what a scan without keys gives: the kernel's [Object], otherwise the
    first class of that name in the order in which the libraries were loaded,
    NULL exactly when the domain has none.  Nothing is changed. *)
Theorem findClass_reference k s base name : dom_ok s base -> char_at name 0 <> c_bracket ->
  findClass java_lang_Object_class class_prim sz_ArrayClassDesc prim_desc (S k) name s =
  Ok (if bool_decide (name = name_Object) then java_lang_Object_class else first_class s name (domain_objs s), s).
Proof.
  intros D Hb. cbn [findClass]. unfold strcmp_eq. case_bool_decide as E; [done|].
  rewrite (find_class_in_libs_ref s base name (libs s) D E) by done. cbn [rbind]. change (concat _) with (domain_objs s).
  destruct (Z.eqb_spec (first_class s name (domain_objs s)) NULL) as [->|]; cbn [negb]; [|done].
  by rewrite (proj2 (Z.eqb_neq _ _) Hb).
Qed.

(** ** Static fields *)

(** word [f] of the static fields of class [i] of the library at [lib] *)
Definition static_word (s : st) (lib : Z) (i : nat) (f a : Z) : Prop :=
  exists l sl d o, lib ∈ libs s /\ libDescs s !! lib = Some l /\ libraries s !! sharedLib l = Some sl /\ (i < n_classes sl)%nat /\
    classdescs (ds_cs s) !! class_at sl (Z.of_nat i) = Some d /\ classObjs s !! class_of l (Z.of_nat i) = Some o /\
    0 <= f < staticFieldsSize d /\ a = staticFields o + 4 * f.

Lemma static_word_at s base lib i f a : dom_ok s base -> static_word s lib i f a ->
  exists l sl d, libDescs s !! lib = Some l /\ libraries s !! sharedLib l = Some sl /\ (i < n_classes sl)%nat /\
    classdescs (ds_cs s) !! class_at sl (Z.of_nat i) = Some d /\ definingLib d = sharedLib l /\
    0 <= f < static_size (ds_cs s) sl i /\ static_size (ds_cs s) sl i = staticFieldsSize d /\
    sfield_offset d = statics_before (ds_cs s) sl i /\ lib_ok java_lang_Object_class s base lib l /\
    a = base lib + 4 * (statics_before (ds_cs s) sl i + f) /\ statics_before (ds_cs s) sl i + static_size (ds_cs s) sl i <= memSizeStaticFields sl /\
    0 <= statics_before (ds_cs s) sl i.
Proof.
  intros D (l & sl & d & o & Hin & Hl & Hsl & Hi & Hd & Ho & Hf & ->).
  destruct (dk_lib _ _ _ _ D lib Hin) as (l' & Hl' & Hok). rewrite Hl in Hl'. injection Hl' as <-. pose proof Hok as [(sl' & Hsl' & _ & _ & Hm & _ & Hu) _].
  rewrite Hsl in Hsl'. injection Hsl' as <-. pose proof (sh_lib _ _ (dk_shared _ _ _ _ D) _ _ Hsl) as HL.
  destruct (sk_class _ _ _ _ HL i Hi) as (d' & Hd' & [C1 _ _ C4 _]). rewrite Hd in Hd'. injection Hd' as <-.
  destruct (Hm i Hi) as (o' & d' & Ho' & Hd' & _ & _ & Es). rewrite Ho in Ho'. injection Ho' as <-.
  assert (Hsz : static_size (ds_cs s) sl i = staticFieldsSize d) by (unfold static_size; by rewrite Hd).
  pose proof (sk_statics _ _ _ _ HL) as [Hms _]. pose proof (statics_mono _ _ _ _ i (n_classes sl) HL ltac:(lia)) as Hmo. rewrite <- Hms in Hmo.
  pose proof (statics_nonneg _ _ _ _ i HL ltac:(lia)) as H0.
  unfold static_address in Es. rewrite Hsz, (proj2 (Z.eqb_neq _ _)) in Es by lia.
  destruct (Hu (base lib + 4 * statics_before (ds_cs s) sl i)) as [_ Hr]; [lia|]. rewrite u32_small in Es by lia.
  exists l, sl, d. rewrite Es. split_and!; try done; lia.
Qed.

Lemma static_words_apart s base lib i f a lib' i' f' a' : dom_ok s base -> static_word s lib i f a -> static_word s lib' i' f' a' ->
  (lib, i, f) <> (lib', i', f') -> a + 4 <= a' \/ a' + 4 <= a.
Proof.
  intros D W W' Hne. pose proof W as (_ & _ & _ & _ & Hin & _). pose proof W' as (_ & _ & _ & _ & Hin' & _).
  destruct (static_word_at _ _ _ _ _ _ D W) as (l & sl & d & Hl & Hsl & Hi & Hd & Hdl & Hf & Hfs & Hoff & Hok & -> & Hmo & H0).
  destruct (static_word_at _ _ _ _ _ _ D W') as (l' & sl' & d' & Hl' & Hsl' & Hi' & _ & _ & Hf' & _ & _ & Hok' & -> & Hmo' & H0').
  destruct (decide (lib = lib')) as [<-|Hlib].
  - rewrite Hl in Hl'. injection Hl' as <-. rewrite Hsl in Hsl'. injection Hsl' as <-.
    pose proof (sh_lib _ _ (dk_shared _ _ _ _ D) _ _ Hsl) as HL.
    destruct (lt_eq_lt_dec i i') as [[Hlt| <-]|Hlt].
    + pose proof (statics_mono _ _ _ _ i i' HL ltac:(lia)). lia.
    + assert (f <> f') by congruence. lia.
    + pose proof (statics_mono _ _ _ _ i' i HL ltac:(lia)). lia.
  - set (a := base lib + _). set (a' := base lib' + _).
    assert (HR : forall x, a <= x < a + 4 -> static_range s base lib x) by (intros x Hx; exists l, sl; unfold a in Hx; split_and!; try done; lia).
    assert (HR' : forall x, a' <= x < a' + 4 -> static_range s base lib' x) by (intros x Hx; exists l', sl'; unfold a' in Hx; split_and!; try done; lia).
    destruct (Z.le_gt_cases (a + 4) a') as [|Hgt]; [by left|]. destruct (Z.le_gt_cases (a' + 4) a) as [|Hgt']; [by right|]. exfalso.
    apply (dk_apart _ _ _ _ D lib lib' (Z.max a a') Hin Hin' Hlib); [apply HR; lia|apply HR'; lia].
Qed.

(** where linked code finds the word: [sfields] and the offset that the linker
    patched in *)
Lemma static_word_current s base lib i f a sl l : dom_ok s base -> static_word s lib i f a -> libDescs s !! lib = Some l ->
  libraries s !! sharedLib l = Some sl -> ndx_libs s !! Z.to_nat (ndx sl) = Some lib ->
  exists b d, vm_getStaticsAddr2 (class_at sl (Z.of_nat i)) s = Ok b /\ classdescs (ds_cs s) !! class_at sl (Z.of_nat i) = Some d /\
    a = b + (sfield_offset d + f) * 4.
Proof.
  intros D W Hl2 Hs2 Hn.
  destruct (static_word_at _ _ _ _ _ _ D W) as (l' & sl' & d & Hl & Hsl & Hi & Hd & Hdl & Hf & Hfs & Hoff & Hok & -> & Hmo & H0).
  rewrite Hl in Hl2. injection Hl2 as ->. rewrite Hsl in Hs2. injection Hs2 as ->.
  destruct (lk_shared _ _ _ _ _ Hok) as (sl3 & Hs3 & _ & _ & _ & Hb & _). rewrite Hsl in Hs3. injection Hs3 as <-.
  exists (base lib), d. split; [|split; [done|lia]]. unfold vm_getStaticsAddr2. rewrite (cls_some _ _ _ Hd). cbn [rbind]. rewrite Hdl, (slib_some _ _ _ Hsl). cbn [rbind].
  apply read_index_some; [exact (sk_ndx _ _ _ _ (sh_lib _ _ (dk_shared _ _ _ _ D) _ _ Hsl))|]. apply Hb; [done|lia].
Qed.
Lemma static_word_range s base lib i f a : dom_ok s base -> static_word s lib i f a ->
  lib ∈ libs s /\ forall x, a <= x < a + 4 -> static_range s base lib x /\ in_use (ds_code s) x.
Proof.
  intros D W. pose proof W as (_ & _ & _ & _ & Hin & _). split; [done|]. intros x Hx.
  destruct (static_word_at _ _ _ _ _ _ D W) as (l & sl & d & Hl & Hsl & Hi & Hd & Hdl & Hf & Hfs & Hoff & Hok & -> & Hmo & H0).
  split; [exists l, sl; split_and!; try done; lia|].
  destruct (lk_shared _ _ _ _ _ Hok) as (sl2 & Hs2 & _ & _ & _ & _ & Hu). rewrite Hsl in Hs2. injection Hs2 as <-. apply Hu. lia.
Qed.
End Lookup.

(** ** The theorems on loading *)

Section Loading.
Context {A : Type} `{!Allocator A}.
Abbreviation st := (dom_state A).
Context (java_lang_Object java_lang_Object_class : Z) (class_prim : Z -> Z) (sz_LibDesc sz_ArrayClassDesc : Z) (prim_desc : Z -> option Z).
Context (rank : Z -> nat) (Hsz : 0 < sz_LibDesc < 2147483648).
Abbreviation dom_ok := (dom_ok java_lang_Object_class rank).
Abbreviation loadLib := (loadLib java_lang_Object_class class_prim sz_LibDesc sz_ArrayClassDesc prim_desc).


(** a domain that has no library yet *)
Record fresh_domain (s : st) : Prop := {
  fd_shared : shared_ok rank (ds_cs s);
  fd_memory : memory_ok s;
  fd_tables : 0 <= maxNumberOfLibs s /\ length (ndx_libs s) = Z.to_nat (maxNumberOfLibs s) /\ length (sfields s) = Z.to_nat (maxNumberOfLibs s);
  fd_index : forall L sl, libraries s !! L = Some sl -> ndx sl < maxNumberOfLibs s;
  fd_libs : libs s = [];
  fd_ndx : Forall (eq NULL) (ndx_libs s);
}.
Lemma fresh_ok s base : fresh_domain s -> dom_ok s base.
Proof.
  intros [HS HM HT HI HL HN]. split; rewrite ?HL; try done; try by (intros ? ?%not_elem_of_nil).
  - constructor.
  - intros L sl lib _ Hx Hnn. rewrite Forall_lookup in HN. by destruct Hnn, (HN _ _ Hx).
  - by intros ? ? ? ?%not_elem_of_nil.
  - by intros ? ? ? ?%not_elem_of_nil.
  - cbn. lia.
Qed.

(** the libraries of the list, one after the other *)
Fixpoint load_all (k : nat) (l : list Z) (s : st) : res st :=
  match l with
  | [] => Ok s
  | L :: l => let! '(_, s) := loadLib k L s in load_all k l s
  end.
Lemma load_all_ok k (l : list Z) : forall (s : st) base s', dom_ok s base -> (forall L, L ∈ l -> is_Some (libraries s !! L) /\ (rank L < k)%nat) ->
  load_all k l s = Ok s' -> exists base', dom_grows java_lang_Object_class rank s base s' base'.
Proof using Hsz.
  induction l as [|L l IH]; intros s base s' D Hl E; cbn [load_all] in E; [injection E as <-; exists base; by apply dom_grows_refl|].
  destruct (Hl L ltac:(apply list_elem_of_here)) as [HL Hk].
  pose proof (loadLib_ok java_lang_Object_class class_prim sz_LibDesc sz_ArrayClassDesc prim_desc rank Hsz k L s base D HL Hk) as HR.
  destruct (loadLib k L s) as [[lib s1]|e]; [|done]. cbn [rbind] in E. destruct HR as (base1 & l1 & G1 & _).
  destruct (IH s1 base1 s' (gr_ok _ _ _ _ _ _ G1)) as [base2 G2]; [|done|exists base2; by eapply dom_grows_trans].
  intros L' HL'. rewrite (extends_slibs _ _ (gr_extends _ _ _ _ _ _ G1)). by apply Hl, list_elem_of_further.
Qed.

(** C34 A domain starts without libraries and loads some, one after the other,
    each with the libraries it needs and possibly several times.  Then its
    static fields do not overlap: different fields of a class, fields of
    different classes and of different copies of a library are different
    words, in code memory that the domain was given for them and that was not
    in use before.  The field of a class of the current copy of its library
    is where linked code looks for it: at the offset from [sfields] that the
    linker patched in. *)
Theorem static_fields_apart k Ls (s s' : st) lib i f a lib' i' f' a' : fresh_domain s ->
  (forall L, L ∈ Ls -> is_Some (libraries s !! L) /\ (rank L < k)%nat) -> load_all k Ls s = Ok s' ->
  static_word s' lib i f a -> static_word s' lib' i' f' a' ->
  ((lib, i, f) <> (lib', i', f') -> a + 4 <= a' \/ a' + 4 <= a) /\
  (forall x, a <= x < a + 4 -> in_use (ds_code s') x /\ ~ in_use (ds_code s) x) /\
  (forall sl l, libDescs s' !! lib = Some l -> libraries s' !! sharedLib l = Some sl -> ndx_libs s' !! Z.to_nat (ndx sl) = Some lib ->
    exists b d, vm_getStaticsAddr2 (class_at sl (Z.of_nat i)) s' = Ok b /\ classdescs (ds_cs s') !! class_at sl (Z.of_nat i) = Some d /\
      a = b + (sfield_offset d + f) * 4).
Proof using Hsz.
  intros F HLs E W W'. destruct (load_all_ok k Ls s (fun _ => 0) s' (fresh_ok s _ F) HLs E) as [base G].
  pose proof (gr_ok _ _ _ _ _ _ G) as D. split; [|split].
  - intros Hne. by apply (static_words_apart java_lang_Object_class rank s' base lib i f a lib' i' f' a' D W W').
  - intros x Hx. destruct (static_word_range _ _ _ _ _ _ _ _ D W) as [Hin HR]. destruct (HR x Hx) as [Hr Hu]. split; [exact Hu|].
    apply (gr_statics _ _ _ _ _ _ G lib x Hin); [|exact Hr]. rewrite (fd_libs _ F). apply not_elem_of_nil.
  - intros sl l. by apply (static_word_current java_lang_Object_class rank s' base lib i f a sl l D W).
Qed.

Lemma lookup_extends (s s' : st) base name : dom_ok s base -> extends s s' ->
  first_class s name (domain_objs s) <> NULL -> first_class s' name (domain_objs s') = first_class s name (domain_objs s).
Proof.
  intros D E Hnn. destruct (ex_libs _ _ E) as [new En]. unfold domain_objs at 1. rewrite En, map_app, concat_app.
  assert (Hold : concat (map (fun lib => match libDescs s' !! lib with Some l => lib_objs l | None => [] end) (libs s)) = domain_objs s).
  { unfold domain_objs. f_equal. apply map_ext_in. intros lib Hin%list_elem_of_In. by rewrite (ex_desc _ _ E lib Hin). }
  rewrite Hold.
  assert (Hin : forall c, c ∈ domain_objs s -> exists lib l, lib ∈ libs s /\ libDescs s !! lib = Some l /\ c ∈ lib_objs l).
  { intros c Hc. unfold domain_objs in Hc. apply list_elem_of_In, in_concat in Hc as (x & Hx & Hc). apply in_map_iff in Hx as (lib & <- & Hlib%list_elem_of_In).
    destruct (dk_lib _ _ _ _ D lib Hlib) as (l & Hl & _). rewrite Hl in Hc. exists lib, l. split_and!; [done|done|by apply list_elem_of_In]. }
  assert (Hname : forall c, c ∈ domain_objs s -> class_name s' c = class_name s c).
  { intros c Hc. destruct (Hin c Hc) as (lib & l & Hlib & Hl & Hcl).
    destruct (lib_obj_named java_lang_Object_class rank s base lib l c D Hlib Hl Hcl) as (_ & o & d & Ho & Hd & _).
    destruct (dk_lib _ _ _ _ D lib Hlib) as (l2 & Hl2 & [_ [_ Hu]]). rewrite Hl in Hl2. injection Hl2 as <-.
    unfold lib_objs in Hcl. apply list_elem_of_fmap in Hcl as (i & -> & Hi%elem_of_seq).
    unfold class_name. rewrite (ex_class _ _ E) by (apply Hu; lia). rewrite Ho. cbn. rewrite Hd.
    destruct (shared_same_some _ _ _ _ (ex_shared _ _ E) Hd) as (d' & Hd' & Hs). rewrite Hd'. cbn. by destruct (desc_same_fields _ _ Hs) as [-> _]. }
  assert (Hfirst : first_class s' name (domain_objs s) = first_class s name (domain_objs s)).
  { clear Hnn Hold Hin. unfold first_class. induction (domain_objs s) as [|c l IH]; [done|]. cbn [list_find].
    rewrite (Hname c ltac:(apply list_elem_of_here)). case_decide; [done|].
    specialize (IH (fun x H => Hname x (list_elem_of_further _ _ _ H))). destruct (list_find _ l) as [[? ?]|], (list_find _ l) as [[? ?]|]; exact IH. }
  rewrite first_class_app; [by rewrite Hfirst, (proj2 (Z.eqb_neq _ _) Hnn)|]. intros c Hc.
  destruct (Hin c Hc) as (lib & l & Hlib & Hl & Hcl). by destruct (lib_obj_named java_lang_Object_class rank s base lib l c D Hlib Hl Hcl).
Qed.

(** [loadLib] does not ask whether the domain has the library already; [load]
    calls it for every library a domain is started with, also for one that
    came along as a needed library.  The second copy gets new static fields,
    and linked code finds those from then on, so that the values stored so
    far are lost; lookup by name still finds the classes of the first copy,
    whose objects lead to the old static fields. *)
Theorem reload_forgets_statics k L (s : st) base lib l sl lib' s' i : dom_ok s base -> loaded s L lib l -> libraries s !! L = Some sl ->
  memSizeStaticFields sl <> 0 -> (i < n_classes sl)%nat -> (rank L < k)%nat -> loadLib k L s = Ok (lib', s') ->
  exists b', vm_getStaticsAddr2 (class_at sl (Z.of_nat i)) s = Ok (base lib) /\ vm_getStaticsAddr2 (class_at sl (Z.of_nat i)) s' = Ok b' /\
    (forall x, base lib <= x < base lib + 4 * memSizeStaticFields sl -> ~ b' <= x < b' + 4 * memSizeStaticFields sl) /\
    classObjs s' !! class_of l (Z.of_nat i) = classObjs s !! class_of l (Z.of_nat i) /\
    forall name, first_class s name (domain_objs s) <> NULL -> first_class s' name (domain_objs s') = first_class s name (domain_objs s).
Proof using Hsz.
  intros D HL Hsl Hm Hi Hk HE. pose proof (loadLib_ok java_lang_Object_class class_prim sz_LibDesc sz_ArrayClassDesc prim_desc rank Hsz k L s base D ltac:(by exists sl) Hk) as HR.
  rewrite HE in HR. destruct HR as (base' & l' & [D' E HB _] & Hf & Hlast & Hl').
  pose proof (loaded_member _ _ _ _ _ _ _ D HL) as Hin. destruct HL as (sl1 & Hs1 & Hn & Hnn & Hld & Hsh). rewrite Hsl in Hs1. injection Hs1 as <-.
  assert (Hsl' : libraries s' !! L = Some sl) by (by rewrite (extends_slibs _ _ E)).
  pose proof (loaded_member _ _ _ _ _ _ _ D' Hl') as Hin'. destruct Hl' as (sl1 & Hs1 & Hn' & Hnn' & Hld' & Hsh'). rewrite Hsl' in Hs1. injection Hs1 as <-.
  pose proof (sh_lib _ _ (dk_shared _ _ _ _ D) L sl Hsl) as HS. destruct (sk_class _ _ _ _ HS i Hi) as (d & Hd & C). pose proof (ck_lib _ _ _ _ _ C) as Hdl.
  destruct (shared_same_some _ _ _ _ (ex_shared _ _ E) Hd) as (d' & Hd' & Hs). destruct (desc_same_fields _ _ Hs) as (_ & _ & _ & Hdl' & _).
  assert (Hout : forall (t : st) b lb x dd, DomClassInv.dom_ok java_lang_Object_class rank t b -> libraries t !! L = Some sl -> ndx_libs t !! Z.to_nat (ndx sl) = Some lb -> lb ∈ libs t ->
    libDescs t !! lb = Some x -> sharedLib x = L -> classdescs (ds_cs t) !! class_at sl (Z.of_nat i) = Some dd -> definingLib dd = L ->
    vm_getStaticsAddr2 (class_at sl (Z.of_nat i)) t = Ok (b lb)).
  { intros t b lb x dd Dt Hst Hnt Hit Hxt Hsx Hdt Hdd. unfold vm_getStaticsAddr2. rewrite (cls_some _ _ _ Hdt). cbn [rbind]. rewrite Hdd, (slib_some _ _ _ Hst). cbn [rbind].
    destruct (dk_lib _ _ _ _ Dt lb Hit) as (y & Hy & [(sy & Hsy & _ & _ & _ & Hbb & _) _]). rewrite Hxt in Hy. injection Hy as <-. rewrite Hsx, Hst in Hsy. injection Hsy as <-.
    apply read_index_some; [exact (sk_ndx _ _ _ _ HS)|by apply Hbb]. }
  exists (base' lib'). split; [by eapply Hout|]. split; [eapply Hout; try done; by rewrite Hdl'|]. split; [|split].
  - intros x Hx Hx'. assert (Hine : lib ∈ libs s') by (destruct (ex_libs _ _ E) as [new ->]; apply elem_of_app; by left).
    apply (dk_apart _ _ _ _ D' lib lib' x Hine Hin'); [by intros ->| |].
    + exists l, sl. rewrite (ex_desc _ _ E lib Hin), Hsh, (HB lib Hin). split_and!; try done; lia.
    + exists l', sl. rewrite Hsh'. split_and!; try done; lia.
  - apply (ex_class _ _ E). destruct (dk_lib _ _ _ _ D lib Hin) as (l2 & Hl2 & [(sl2 & Hs2 & En & _) [_ Hu]]). rewrite Hld in Hl2. injection Hl2 as <-.
    apply Hu. rewrite Hsh, Hsl in Hs2. injection Hs2 as <-. rewrite En. unfold n_classes in Hi. lia.
  - intros name Hnm. by apply (lookup_extends s s' base).
Qed.
End Loading.

(** ** A domain with two libraries

    Library A has the class [A] with two static fields, library B needs A and
    has the classes [B], a subclass of [A] with three static fields, and [C], a
    subclass of [B] without any. *)

(** a method of 16 code bytes, two local variables and one byte code, with a
    stack map for a call from 4 to 8 *)
Definition dl_method : MethodDesc :=
  MkMethod (str "run") (str "()V") 2 16 1 [1] 0 0 0 [MkSymbol 8 0 0 (SymStackMap 4 3 [5])] 0 [MkByteCode 5 0 16] [].
Definition dl_class (nm : cstring) (super lib statics offset : Z) : ClassDesc :=
  MkClass CLASSTYPE_CLASS nm super [] [] 0 [] [] statics offset [5] [] [dl_method] lib NULL NULL.
Definition dl_lib (nm : cstring) (id : Z) (needed : list Z) (classes n statics : Z) : SharedLibDesc :=
  MkSharedLib nm id id needed [] classes n [] statics 0 0 0 0.
Definition dl_A : SharedLibDesc := dl_lib (str "a.jll") 0 [] 1000 1 2.
Definition dl_B : SharedLibDesc := dl_lib (str "b.jll") 1 [50] 2000 2 3.
Definition dl_cs : class_state malloc_state :=
  MkCS {[ 100 := dl_class name_Object NULL NULL 0 0; 1000 := dl_class (str "A") 100 50 2 0;
          2000 := dl_class (str "B") 1000 60 3 0; 2124 := dl_class (str "C") 2000 60 0 3 ]}
    {[ 50 := dl_A; 60 := dl_B ]} [60; 50] [] code0 st16.
Definition dl_start : dom_state malloc_state := MkDomState dl_cs code0 (fun _ => 0) 8 [] (replicate 8 0) (replicate 8 0) [] ∅ ∅.
Definition dl_rank (L : Z) : nat := if L =? 60 then 1 else 0.
Abbreviation dl_load := (loadLib 40 (fun _ => 0) 48 132 (fun _ => None)).

Lemma dl_slibs L sl : slibs dl_cs !! L = Some sl -> L = 50 /\ sl = dl_A \/ L = 60 /\ sl = dl_B.
Proof.
  cbn [slibs dl_cs]. destruct (decide (L = 50)) as [->|H1]; [rewrite lookup_insert_eq; intros [= <-]; by left|].
  rewrite lookup_insert_ne by done. intros [<- <-]%lookup_singleton_Some. by right.
Qed.

Lemma dl_shared_ok : shared_ok dl_rank dl_cs.
Proof.
  split.
  - intros L sl [[-> ->]|[-> ->]]%dl_slibs; (split; [done|done|done|by vm_compute| |]).
    + intros [|i] Hi; [|change (n_classes dl_A) with 1%nat in Hi; lia]. exists (dl_class (str "A") 100 50 2 0). split; [done|].
      split; [done|by split_and!|done|done|]. right. left. by exists (dl_class name_Object NULL NULL 0 0).
    + by intros x ?%not_elem_of_nil.
    + intros [|[|i]] Hi; [| |change (n_classes dl_B) with 2%nat in Hi; lia].
      * exists (dl_class (str "B") 1000 60 3 0). split; [done|]. split; [done|by split_and!|done|done|].
        right. right. exists 50, dl_A, 0%nat. split_and!; try done; [|by vm_compute; lia]. apply rtc_once. exists dl_B. split; [done|apply list_elem_of_here].
      * exists (dl_class (str "C") 2000 60 0 3). split; [done|]. split; [done|by split_and!|done|done|].
        right. right. exists 60, dl_B, 0%nat. split_and!; try done; by vm_compute; lia.
    + intros x ->%list_elem_of_singleton. split; [by exists dl_A|]. vm_compute. lia.
  - intros L L' sl sl' [[-> ->]|[-> ->]]%dl_slibs [[-> ->]|[-> ->]]%dl_slibs; done.
Qed.

Lemma dl_start_fresh : fresh_domain dl_rank dl_start.
Proof.
  split.
  - exact dl_shared_ok.
  - split; [exact st16_good|]. split; [exact code0_ok|]. split; [left; by vm_compute|]. intros c Hc. exfalso. cbn in Hc. lia.
  - done.
  - by intros L sl [[-> ->]|[-> ->]]%dl_slibs.
  - done.
  - by repeat constructor.
Qed.
Lemma dl_start_ok : dom_ok 40 dl_rank dl_start (fun _ => 0).
Proof. by apply fresh_ok, dl_start_fresh. Qed.


(** the domain after it was started with library B *)
Definition dl_after : dom_state malloc_state := match dl_load 2 60 dl_start with Ok (_, s) => s | Err _ => dl_start end.
Definition dl_copy (L : Z) : Z := default NULL (ndx_libs dl_after !! Z.to_nat L).

Lemma dl_after_ok : exists base l, DomClassInv.dom_ok 40 dl_rank dl_after base /\ loaded dl_after 60 (dl_copy 1) l.
Proof.
  pose proof (@loadLib_ok _ malloc_allocator 40 (fun _ => 0) 48 132 (fun _ => None) dl_rank ltac:(lia) 2 60 dl_start (fun _ => 0) dl_start_ok
    ltac:(by exists dl_B) ltac:(vm_compute; lia)) as HR.
  assert (HO : is_ok (dl_load 2 60 dl_start) = true) by (by vm_compute).
  unfold load_result in HR. unfold dl_copy, dl_after. destruct (dl_load 2 60 dl_start) as [[lib s']|e] eqn:E; [|done]. clear HO.
  destruct HR as (base' & l & [D Ex _ _] & _ & _ & Hlo). exists base', l. split; [exact D|].
  destruct Hlo as (sl & Hsl & Hn & Hrest). assert (sl = dl_B) as ->.
  { rewrite (extends_slibs _ _ Ex) in Hsl. injection Hsl as <-. reflexivity. }
  change (Z.to_nat 1) with (Z.to_nat (ndx dl_B)). rewrite Hn. cbn [default]. exists dl_B. split; [|split; [exact Hn|exact Hrest]].
  rewrite (extends_slibs _ _ Ex). reflexivity.
Qed.

Lemma findClass_reference_witness : exists c,
  findClass 40 (fun _ => 0) 132 (fun _ => None) 1 (str "A") dl_after = Ok (c, dl_after) /\
  c = first_class dl_after (str "A") (domain_objs dl_after) /\ negb (c =? NULL) = true.
Proof.
  destruct dl_after_ok as (base & l & D & _).
  exists (first_class dl_after (str "A") (domain_objs dl_after)). split_and!; [|done|by vm_compute].
  exact (findClass_reference 40 (fun _ => 0) 132 (fun _ => None) dl_rank 0 dl_after base (str "A") D ltac:(by vm_compute)).
Defined.

(** the address of word [f] of class [i] of the copy at [lib], computed *)
Definition static_addr (s : dom_state malloc_state) (lib : Z) (i : nat) (f : Z) : option Z :=
  l ← libDescs s !! lib; sl ← libraries s !! sharedLib l; d ← classdescs (ds_cs s) !! class_at sl (Z.of_nat i);
  o ← classObjs s !! class_of l (Z.of_nat i);
  if bool_decide (lib ∈ libs s) && (i <? n_classes sl)%nat && (0 <=? f) && (f <? staticFieldsSize d) then Some (staticFields o + 4 * f) else None.
Lemma static_addr_word s lib i f a : static_addr s lib i f = Some a -> static_word s lib i f a.
Proof.
  unfold static_addr. intros (l & Hl & H)%bind_Some. apply bind_Some in H as (sl & Hsl & H). apply bind_Some in H as (d & Hd & H).
  apply bind_Some in H as (o & Ho & H). destruct (bool_decide _) eqn:E1; [|done]. destruct (_ <? _)%nat eqn:E2; [|done].
  destruct (0 <=? f) eqn:E3; [|done]. destruct (f <? _) eqn:E4; [|done]. injection H as <-.
  apply bool_decide_eq_true in E1. apply Nat.ltb_lt in E2. exists l, sl, d, o. split_and!; try done; lia.
Qed.

Abbreviation dl_load_all := (load_all 40 (fun _ => 0) 48 132 (fun _ => None)).
Lemma static_fields_apart_witness : exists a a',
  dl_load_all 2 [60] dl_start = Ok dl_after /\
  static_addr dl_after (dl_copy 0) 0 1 = Some a /\ static_addr dl_after (dl_copy 1) 0 2 = Some a' /\
  (a + 4 <= a' \/ a' + 4 <= a) /\ forall x, a <= x < a + 4 -> in_use (ds_code dl_after) x /\ ~ in_use (ds_code dl_start) x.
Proof.
  assert (H1 : is_Some (static_addr dl_after (dl_copy 0) 0 1)) by (apply (bool_decide_unpack _); vm_compute; exact I).
  assert (H2 : is_Some (static_addr dl_after (dl_copy 1) 0 2)) by (apply (bool_decide_unpack _); vm_compute; exact I).
  destruct H1 as [a H1], H2 as [a' H2]. exists a, a'.
  assert (E : dl_load_all 2 [60] dl_start = Ok dl_after).
  { assert (HO : is_ok (dl_load 2 60 dl_start) = true) by (vm_compute; reflexivity). cbn [load_all]. unfold dl_after.
    destruct (dl_load 2 60 dl_start) as [[lb s']|e]; [reflexivity|discriminate HO]. }
  split; [exact E|]. split; [exact H1|]. split; [exact H2|].
  destruct (@static_fields_apart _ malloc_allocator 40 (fun _ => 0) 48 132 (fun _ => None) dl_rank ltac:(lia) 2 [60] dl_start dl_after
    (dl_copy 0) 0 1 a (dl_copy 1) 0 2 a' dl_start_fresh) as (Ha & Hu & _); [|exact E|exact (static_addr_word _ _ _ _ _ H1)|exact (static_addr_word _ _ _ _ _ H2)|].
  - intros L ->%list_elem_of_singleton. split; [by exists dl_B|apply Nat.ltb_lt; reflexivity].
  - split; [|exact Hu]. apply Ha. intros Heq. apply (f_equal snd) in Heq. cbn [snd] in Heq. lia.
Defined.

Lemma reload_forgets_statics_witness : exists lib' s' b b',
  dl_load 2 60 dl_after = Ok (lib', s') /\ vm_getStaticsAddr2 2000 dl_after = Ok b /\ vm_getStaticsAddr2 2000 s' = Ok b' /\ b <> b'.
Proof.
  destruct dl_after_ok as (base & l & D & HL).
  assert (HO : is_ok (dl_load 2 60 dl_after) = true) by (vm_compute; reflexivity).
  destruct (dl_load 2 60 dl_after) as [[lib' s']|e] eqn:E; [|discriminate HO]. clear HO.
  assert (Hs : libraries dl_after !! 60 = Some dl_B) by (vm_compute; reflexivity).
  destruct (@reload_forgets_statics _ malloc_allocator 40 (fun _ => 0) 48 132 (fun _ => None) dl_rank ltac:(lia) 2 60 dl_after base (dl_copy 1) l dl_B lib' s' 0
    D HL Hs ltac:(discriminate) ltac:(apply Nat.ltb_lt; reflexivity) ltac:(apply Nat.ltb_lt; reflexivity) E) as (b' & H1 & H2 & H3 & _).
  exists lib', s', (base (dl_copy 1)), b'. change 2000 with (class_at dl_B (Z.of_nat 0)).
  split; [reflexivity|]. split; [exact H1|]. split; [exact H2|].
  intros Eb. apply (H3 b'); rewrite ?Eb; change (memSizeStaticFields dl_B) with 3; lia.
Defined.
