(* ===== verification/CodeLookup.v ===== *)
(** * From code addresses to methods and stack maps (core/domain.c, Memory/gc_stack.c)

    [findMethodAtAddrInDomain] finds the method whose code contains an address,
    and its position in byte code and source; [find_stackmap] finds the stack
    map for an address in a method: which slots of its frame hold references. *)

From S2P Require Import Prelude Mem CString Malloc Alloc CodeMem Classes DomainClasses.
#[local] Open Scope Z_scope.

Definition sizeof_stackmap : Z := 128.    (* jbyte stackmap[128] *)

(** ** Byte code and source positions *)

Fixpoint bytecode_at (l : list ByteCodeDesc) (offset : Z) : Z :=
  match l with
  | [] => -1
  | t :: l => if (bc_start t <=? offset) && (offset <=? bc_end t) then bytecodePos t else bytecode_at l offset
  end.
Definition findByteCodePosition (code : Z) (m : MethodDesc) (addr : Z) : Z :=
  bytecode_at (bytecodeTable m) (s32 (addr - code)).

(** the loop compares neighbours, and ends before the last entry *)
Fixpoint source_line (l : list SourceLineDesc) (pos : Z) : Z :=
  match l with
  | a :: ((b :: _) as l') =>
      if (startBytecode a <=? pos) && (pos <? startBytecode b) then lineNumber a else source_line l' pos
  | _ => -1
  end.

Record code_pos := MkCodePos {
  cp_method : Z;            (* the MethodDesc *)
  cp_desc : MethodDesc;     (* its contents *)
  cp_code : Z;
  cp_classInfo : Z;
  cp_bytecodePos : Z;
  cp_lineNumber : Z;
}.

Section Lookup.
Context {A : Type}.
Abbreviation st := (dom_state A).
(** as in [DomainClasses] *)
Context (methods_of : Z -> Z) (mcode : gmap Z Z).

Definition code_of (c : Z) (j : nat) : Z := default NULL (mcode !! method_of methods_of c j).

Fixpoint method_containing (j : nat) (l : list MethodDesc) (c addr : Z) : option (nat * MethodDesc) :=
  match l with
  | [] => None
  | m :: l =>
      if (code_of c j <=? addr) && (addr <? u32 (code_of c j + numberOfCodeBytes m)) then Some (j, m)
      else method_containing (S j) l c addr
  end.
Definition position (c : Z) (j : nat) (m : MethodDesc) (addr : Z) : code_pos :=
  let bc := findByteCodePosition (code_of c j) m addr in
  MkCodePos (method_of methods_of c j) m (code_of c j) c bc
    (if negb (bc =? -1) then source_line (sourceLineTable m) bc else -1).

Fixpoint position_in_classes (n : nat) (i : Z) (l : LibDesc) (addr : Z) (s : st) : res (option code_pos) :=
  match n with
  | O => Ok None
  | S n =>
      let! o := clsobj (class_of l i) s in
      let! d := cls (classDesc o) (ds_cs s) in
      match method_containing 0 (methods d) (classDesc o) addr with
      | Some (j, m) => Ok (Some (position (classDesc o) j m addr))
      | None => position_in_classes n (i + 1) l addr s
      end
  end.
Fixpoint position_in_libs (libs : list Z) (addr : Z) (s : st) : res (option code_pos) :=
  match libs with
  | [] => Ok None
  | lib :: libs =>
      let! l := (match libDescs s !! lib with Some l => Ok l | None => Err EFault end) in
      let! r := position_in_classes (Z.to_nat (lib_numberOfClasses l)) 0 l addr s in
      match r with Some p => Ok (Some p) | None => position_in_libs libs addr s end
  end.
(** [Some]: it returns 0, and the position through its arguments *)
Definition findMethodAtAddrInDomain (addr : Z) (s : st) : res (option code_pos) :=
  if addr =? NULL then Ok None else position_in_libs (libs s) addr s.

(** all domains that are not free *)
Definition DOMAIN_STATE_FREE : Z := 0.
Fixpoint findMethodAtAddr (addr : Z) (domains : list (Z * st)) : res (option code_pos) :=
  match domains with
  | [] => Ok None
  | (state, d) :: l =>
      if (addr =? NULL) || (state =? DOMAIN_STATE_FREE) then findMethodAtAddr addr l else
      let! r := findMethodAtAddrInDomain addr d in
      match r with Some p => Ok (Some p) | None => findMethodAtAddr addr l end
  end.
End Lookup.

(** ** Stack maps *)

(** Old stack maps (type 16) leave [immediateNCIndexPre] as it was allocated:
    [old_pre] is what symbol [j] of a method has there. *)
Section StackMaps.
Context (old_pre : Z -> nat -> Z).

(** the addresses of a stack map, its [n_bits] and its bytes *)
Definition stackmap_of (p : code_pos) (j : nat) (x : SymbolDesc) : option (Z * Z * Z * list Z) :=
  match sym x with
  | SymStackMapOld n l => Some (u32 (cp_code p + immediateNCIndex x), u32 (cp_code p + old_pre (cp_method p) j), n, l)
  | SymStackMap pre n l => Some (u32 (cp_code p + immediateNCIndex x), u32 (cp_code p + pre), n, l)
  | _ => None
  end.

(** [map] is the rest of the bytes, [b] the rest of the current one; nothing
    stops the loop at the last byte *)
Fixpoint unpack (n : nat) (k : Z) (map : list Z) (b : Z) (stackmap : list Z) : res (list Z) :=
  match n with
  | O => Ok stackmap
  | S n =>
      let! '(b, map) := (if k mod 8 =? 0 then match map with b :: map => Ok (b, map) | [] => Err EFault end
                         else Ok (b, map)) in
      unpack n (k + 1) map (Z.shiftr b 1) (<[Z.to_nat k := Z.land b 1]> stackmap)
  end.

(** the result is [numSlots] and the new contents of [stackmap] *)
Fixpoint stackmap_loop (p : code_pos) (j : nat) (l : list SymbolDesc) (eip maxslots : Z) (stackmap : list Z) : res (option (Z * list Z)) :=
  match l with
  | [] => Ok None
  | x :: l =>
      match stackmap_of p j x with
      | None => stackmap_loop p (S j) l eip maxslots stackmap
      | Some (symip, symippre, n_bits, map) =>
          if (symip =? eip) || (symippre =? eip) then
            if maxslots <? u32 n_bits then Err (EPanic "stack frame too large") else
            let! m := unpack (Z.to_nat n_bits) 0 map 0 stackmap in Ok (Some (n_bits, m))
          else stackmap_loop p (S j) l eip maxslots stackmap
      end
  end.
Definition find_stackmap (p : code_pos) (eip maxslots : Z) (stackmap : list Z) : res (option (Z * list Z)) :=
  stackmap_loop p 0 (symbols (cp_desc p)) eip maxslots stackmap.

(** ** Where a thread may be stopped (Memory/gc_thread.c)

    [None]: the position is left as it is; [Some a]: the thread is resumed
    until it reaches [a]. *)
Fixpoint advance_loop (p : code_pos) (j : nat) (l : list SymbolDesc) (eip : Z) : option Z :=
  match l with
  | [] => None
  | x :: l =>
      match stackmap_of p j x with
      | None => advance_loop p (S j) l eip
      | Some (symip, symippre, _, _) =>
          if symip =? eip then None
          else if eip <? symip then Some symippre
          else advance_loop p (S j) l eip
      end
  end.
(** [in_transfer]: the thread is in the code that enters Java *)
Definition check_thread_position (in_transfer : bool) (found : option code_pos) (eip : Z) : res (option Z) :=
  if in_transfer then Err (EPanic "what should I do?") else
  match found with
  | None => Ok None
  | Some p => Ok (advance_loop p 0 (symbols (cp_desc p)) eip)
  end.
(** the assertions of [continue_Thread_to_pos]; [Ok false]: nothing to do *)
Definition continue_Thread_to_pos (p : code_pos) (eip target : Z) : res bool :=
  if target =? eip then Ok false else
  let code_end := u32 (cp_code p + numberOfCodeBytes (cp_desc p)) in
  let! _ := assert_ "eip > method->code" (cp_code p <? target) in
  let! _ := assert_ "eip < end of code" (target <? code_end) in
  let! _ := assert_ "eip > thread eip" (eip <? target) in
  let! _ := assert_ "thread eip > method->code" (cp_code p <? eip) in
  let! _ := assert_ "thread eip < end of code" (eip <? code_end) in
  Ok true.
End StackMaps.
