(* ===== verification/CodeLookInv.v ===== *)
(** * What the search for methods and stack maps guarantees

    [findMethodAtAddrInDomain] decides which method of the domain contains an
    address; a thread that was made ready for a collection stands at a stack
    map. *)

From S2P Require Import Prelude Mem CString Malloc Alloc CodeMem Classes DomainClasses DomClassInv DomClassLoad CodeLookup.
#[local] Open Scope Z_scope.

(** ** Methods *)

Section Methods.
Context {A : Type} `{!Allocator A}.
Context (java_lang_Object_class : Z) (rank : Z -> nat) (methods_of : Z -> Z) (mcode : gmap Z Z).
Abbreviation dom_ok := (dom_ok java_lang_Object_class rank).
Abbreviation code_of := (code_of methods_of mcode).
Implicit Types s : dom_state A.

(** method [j] of the class descriptor [c], of a class of the domain *)
Definition domain_method s (c : Z) (j : nat) (x : MethodDesc) : Prop :=
  exists lib l i o d, lib ∈ libs s /\ libDescs s !! lib = Some l /\ (i < Z.to_nat (lib_numberOfClasses l))%nat /\
    classObjs s !! class_of l (Z.of_nat i) = Some o /\ classDesc o = c /\ classdescs (ds_cs s) !! c = Some d /\ methods d !! j = Some x.
Definition contains (c : Z) (j : nat) (x : MethodDesc) (addr : Z) : Prop :=
  code_of c j <= addr < u32 (code_of c j + numberOfCodeBytes x).

Lemma method_containing_spec l c addr : forall k,
  match method_containing methods_of mcode k l c addr with
  | Some (j, x) => (k <= j)%nat /\ l !! (j - k)%nat = Some x /\ contains c j x addr
  | None => forall j x, l !! j = Some x -> ~ contains c (k + j) x addr
  end.
Proof.
  induction l as [|x l IH]; intros k; cbn [method_containing]; [done|]. unfold contains in *.
  destruct (Z.leb_spec (code_of c k) addr) as [H1|H1]; cbn [andb].
  1: destruct (Z.ltb_spec addr (u32 (code_of c k + numberOfCodeBytes x))) as [H2|H2]; [by rewrite Nat.sub_diag|].
  all: specialize (IH (S k)); destruct (method_containing methods_of mcode (S k) l c addr) as [[j y]|].
  1, 3: destruct IH as (Hj & Hl & Hc); split; [lia|]; replace (j - k)%nat with (S (j - S k)) by lia; done.
  all: intros [|j] y Hy; [injection Hy as <-; rewrite Nat.add_0_r; lia|]; rewrite Nat.add_succ_r; by apply IH.
Qed.

Lemma position_in_classes_spec s l addr : forall n i,
  (forall k, (i <= k < i + n)%nat -> exists o d, classObjs s !! class_of l (Z.of_nat k) = Some o /\ classdescs (ds_cs s) !! classDesc o = Some d) ->
  exists r, position_in_classes methods_of mcode n (Z.of_nat i) l addr s = Ok r /\
  match r with
  | Some p => exists k o d j x, (i <= k < i + n)%nat /\ classObjs s !! class_of l (Z.of_nat k) = Some o /\ classdescs (ds_cs s) !! classDesc o = Some d /\
      methods d !! j = Some x /\ contains (classDesc o) j x addr /\ p = position methods_of mcode (classDesc o) j x addr
  | None => forall k o d j x, (i <= k < i + n)%nat -> classObjs s !! class_of l (Z.of_nat k) = Some o -> classdescs (ds_cs s) !! classDesc o = Some d ->
      methods d !! j = Some x -> ~ contains (classDesc o) j x addr
  end.
Proof.
  induction n as [|n IH]; intros i Hd; cbn [position_in_classes]; [exists None; split; [done|]; intros; lia|].
  destruct (Hd i ltac:(lia)) as (o & d & Ho & Hdd). unfold clsobj at 1. rewrite Ho. cbn [rbind]. rewrite (cls_some _ _ _ Hdd). cbn [rbind].
  pose proof (method_containing_spec (methods d) (classDesc o) addr 0) as HM. destruct (method_containing _ _ _ _ _ _) as [[j x]|].
  - destruct HM as (_ & Hx & Hc). rewrite Nat.sub_0_r in Hx. eexists. split; [done|]. exists i, o, d, j, x. split; [lia|done].
  - replace (Z.of_nat i + 1) with (Z.of_nat (S i)) by lia. destruct (IH (S i) ltac:(intros; apply Hd; lia)) as (r & E & HR). exists r. split; [exact E|].
    destruct r as [p|].
    + destruct HR as (k & o' & d' & j & x & Hk & HR). exists k, o', d', j, x. split; [lia|done].
    + intros k o' d' j x Hk Ho' Hd' Hx. destruct (decide (k = i)) as [->|Hne].
      * rewrite Ho in Ho'. injection Ho' as <-. rewrite Hdd in Hd'. injection Hd' as <-. exact (HM j x Hx).
      * apply (HR k o' d' j x ltac:(lia) Ho' Hd' Hx).
Qed.

Lemma class_readable s base lib l k : dom_ok s base -> lib ∈ libs s -> libDescs s !! lib = Some l -> (k < Z.to_nat (lib_numberOfClasses l))%nat ->
  exists o d, classObjs s !! class_of l (Z.of_nat k) = Some o /\ classdescs (ds_cs s) !! classDesc o = Some d.
Proof.
  intros D Hin Hl Hk. destruct (lib_obj_named java_lang_Object_class rank s base lib l (class_of l (Z.of_nat k)) D Hin Hl) as (_ & o & d & Ho & Hd & _); [|by exists o, d].
  unfold lib_objs. apply list_elem_of_fmap. exists k. split; [done|]. apply elem_of_seq. lia.
Qed.

Lemma position_in_libs_spec s base addr : dom_ok s base -> forall ls, ls ⊆ libs s ->
  exists r, position_in_libs methods_of mcode ls addr s = Ok r /\
  match r with
  | Some p => exists c j x, domain_method s c j x /\ contains c j x addr /\ p = position methods_of mcode c j x addr
  | None => forall lib l i o d j x, lib ∈ ls -> libDescs s !! lib = Some l -> (i < Z.to_nat (lib_numberOfClasses l))%nat ->
      classObjs s !! class_of l (Z.of_nat i) = Some o -> classdescs (ds_cs s) !! classDesc o = Some d -> methods d !! j = Some x ->
      ~ contains (classDesc o) j x addr
  end.
Proof.
  intros D. induction ls as [|lib ls IH]; intros Hls; cbn [position_in_libs]; [exists None; split; [done|]; by intros ? ? ? ? ? ? ? ?%not_elem_of_nil|].
  assert (Hin : lib ∈ libs s) by (apply Hls, list_elem_of_here). destruct (dk_lib _ _ _ _ D lib Hin) as (l & Hl & _). rewrite Hl. cbn [rbind].
  destruct (position_in_classes_spec s l addr (Z.to_nat (lib_numberOfClasses l)) 0) as (r & E & HR); [intros k Hk; eapply class_readable; [exact D|exact Hin|done|lia]|].
  change (Z.of_nat 0) with 0 in E. rewrite E. cbn [rbind]. destruct r as [p|].
  - eexists. split; [done|]. destruct HR as (k & o & d & j & x & Hk & Ho & Hd & Hx & Hc & ->). exists (classDesc o), j, x. split; [|done].
    exists lib, l, k, o, d. split_and!; try done; lia.
  - destruct (IH (fun y H => Hls y (list_elem_of_further _ _ _ H))) as (r & E2 & HR2). exists r. split; [exact E2|]. destruct r as [p|]; [exact HR2|].
    intros lib' l' i o d j x [->|Hin']%elem_of_cons Hl' Hi Ho Hd Hx; [|by eapply HR2].
    rewrite Hl in Hl'. injection Hl' as <-. eapply HR; [|exact Ho|exact Hd|exact Hx]. lia.
Qed.

(** Looking up the method at an address returns and is exact when the code of
    different methods of the domain does not overlap: it finds the method
    that contains the address, with its position, and nothing if there is
    none. *)
Theorem findMethodAtAddrInDomain_decides s base addr : dom_ok s base -> addr <> NULL ->
  (forall c j x c' j' x', domain_method s c j x -> domain_method s c' j' x' -> contains c j x addr -> contains c' j' x' addr -> c = c' /\ j = j') ->
  exists r, findMethodAtAddrInDomain methods_of mcode addr s = Ok r /\
    forall p, r = Some p <-> exists c j x, domain_method s c j x /\ contains c j x addr /\ p = position methods_of mcode c j x addr.
Proof.
  intros D Hn Hone. unfold findMethodAtAddrInDomain. rewrite (proj2 (Z.eqb_neq _ _) Hn).
  destruct (position_in_libs_spec s base addr D (libs s) ltac:(done)) as (r & E & HR). exists r. split; [exact E|]. intros p. split.
  - intros ->. exact HR.
  - intros (c & j & x & Hm & Hc & ->). destruct r as [p|].
    + destruct HR as (c' & j' & x' & Hm' & Hc' & ->). destruct (Hone _ _ _ _ _ _ Hm Hm' Hc Hc') as [-> ->]. do 2 f_equal.
      destruct Hm as (? & ? & ? & ? & d & _ & _ & _ & _ & _ & Hd & Hx), Hm' as (? & ? & ? & ? & d' & _ & _ & _ & _ & _ & Hd' & Hx').
      rewrite Hd in Hd'. injection Hd' as <-. congruence.
    + exfalso. destruct Hm as (lib & l & i & o & d & Hin & Hl & Hi & Ho & <- & Hd & Hx). by eapply HR.
Qed.
End Methods.

(** the source line of the last entry of a table is never found *)
Lemma source_line_last l a pos : Forall (fun b => startBytecode b <= pos) (l ++ [a]) -> source_line (l ++ [a]) pos = -1.
Proof.
  induction l as [|b l IH]; intros HF; [done|]. cbn [app] in *. apply Forall_cons in HF as [Hb HF]. specialize (IH HF).
  destruct l as [|c l]; cbn [app source_line] in *.
  - apply Forall_cons in HF as [Ha _]. rewrite (proj2 (Z.ltb_ge pos (startBytecode a))) by lia. by rewrite andb_false_r.
  - apply Forall_cons in HF as [Hc _]. rewrite (proj2 (Z.ltb_ge pos (startBytecode c))) by lia. rewrite andb_false_r. exact IH.
Qed.

(** ** Stack maps *)

Section Stopping.
Context (old_pre : Z -> nat -> Z).

(** symbol [i] is a stack map for the addresses [a] (after the call) and [b] *)
Definition map_at (p : code_pos) (i : nat) (a b : Z) : Prop :=
  exists x n l, symbols (cp_desc p) !! i = Some x /\ stackmap_of old_pre p i x = Some (a, b, n, l).

Lemma stackmap_loop_hit p eip maxslots stackmap l : forall j i x a b n r, l !! i = Some x -> stackmap_of old_pre p (j + i) x = Some (a, b, n, r) ->
  a = eip \/ b = eip -> stackmap_loop old_pre p j l eip maxslots stackmap <> Ok None.
Proof.
  induction l as [|y l IH]; intros j i x a b n r Hi Hx He; [done|]. cbn [stackmap_loop].
  assert (Hstop : forall n map, (if maxslots <? u32 n then Err (EPanic "stack frame too large")
      else let! m := unpack (Z.to_nat n) 0 map 0 stackmap in Ok (Some (n, m))) <> Ok None).
  { intros k map. destruct (maxslots <? u32 k); [done|]. by destruct (unpack _ _ _ _ _). }
  destruct i as [|i].
  - injection Hi as <-. rewrite Nat.add_0_r in Hx. rewrite Hx. destruct He as [->| ->]; rewrite Z.eqb_refl, ?orb_true_r; apply Hstop.
  - assert (HR : stackmap_loop old_pre p (S j) l eip maxslots stackmap <> Ok None).
    { eapply (IH (S j) i x a b n r Hi); [|done]. by replace (S j + i)%nat with (j + S i)%nat by lia. }
    destruct (stackmap_of old_pre p j y) as [[[[a' b'] n'] m']|]; [|exact HR]. destruct (_ || _); [apply Hstop|exact HR].
Qed.

Lemma advance_loop_spec p eip l : forall j,
  match advance_loop old_pre p j l eip with
  | Some t => exists i x a n r, l !! i = Some x /\ stackmap_of old_pre p (j + i) x = Some (a, t, n, r) /\ eip < a
  | None => (exists i x b n r, l !! i = Some x /\ stackmap_of old_pre p (j + i) x = Some (eip, b, n, r)) \/
      forall i x a b n r, l !! i = Some x -> stackmap_of old_pre p (j + i) x = Some (a, b, n, r) -> a < eip
  end.
Proof.
  induction l as [|y l IH]; intros j; cbn [advance_loop]; [by right|].
  assert (HR : (forall a b n r, stackmap_of old_pre p j y = Some (a, b, n, r) -> a < eip) ->
    match advance_loop old_pre p (S j) l eip with
    | Some t => exists i x a n r, (y :: l) !! i = Some x /\ stackmap_of old_pre p (j + i) x = Some (a, t, n, r) /\ eip < a
    | None => (exists i x b n r, (y :: l) !! i = Some x /\ stackmap_of old_pre p (j + i) x = Some (eip, b, n, r)) \/
        forall i x a b n r, (y :: l) !! i = Some x -> stackmap_of old_pre p (j + i) x = Some (a, b, n, r) -> a < eip
    end).
  { intros Hy. specialize (IH (S j)). destruct (advance_loop old_pre p (S j) l eip) as [t|].
    - destruct IH as (i & x & a & n & r & Hi & Hx & Ha). exists (S i), x, a, n, r. by replace (j + S i)%nat with (S j + i)%nat by lia.
    - destruct IH as [(i & x & b & n & r & Hi & Hx)|IH].
      + left. exists (S i), x, b, n, r. by replace (j + S i)%nat with (S j + i)%nat by lia.
      + right. intros [|i] x a b n r Hi Hx; [injection Hi as <-; rewrite Nat.add_0_r in Hx; by eapply Hy|].
        apply (IH i x a b n r Hi). by replace (S j + i)%nat with (j + S i)%nat by lia. }
  destruct (stackmap_of old_pre p j y) as [[[[a b] n] r]|] eqn:Ey; [|by apply HR].
  destruct (Z.eqb_spec a eip) as [->|Hne]; [left; exists 0%nat, y, b, n, r; by rewrite Nat.add_0_r|].
  destruct (Z.ltb_spec eip a) as [Hlt|Hge]; [exists 0%nat, y, a, n, r; by rewrite Nat.add_0_r|].
  apply HR. intros a' b' n' r' [= <- <- <- <-]. lia.
Qed.

(** C39 A thread in compiled code that has a stack map at or after its position
    gets to a stack map: [check_thread_position] leaves it where it stands, at
    one, or names the address in front of a call to which it is resumed, for
    which the walk over its stack then finds the map.  The assertions on the
    way fail when it stands inside the instructions of that call. *)
Theorem check_thread_position_finds_map p eip i a b stackmap : map_at p i a b -> eip <= a ->
  exists r, check_thread_position old_pre false (Some p) eip = Ok r /\
    find_stackmap old_pre p (default eip r) sizeof_stackmap stackmap <> Ok None /\
    forall target, r = Some target ->
      (exists k c, map_at p k c target /\ eip < c) /\
      (target < eip -> exists e, continue_Thread_to_pos p eip target = Err e) /\
      (cp_code p < eip < target -> target < u32 (cp_code p + numberOfCodeBytes (cp_desc p)) -> continue_Thread_to_pos p eip target = Ok true).
Proof.
  intros (x & n & l & Hi & Hx) Ha. unfold check_thread_position. eexists. split; [done|].
  pose proof (advance_loop_spec p eip (symbols (cp_desc p)) 0) as HS. destruct (advance_loop old_pre p 0 _ eip) as [t|]; cbn [default] in *.
  - destruct HS as (k & y & c & n' & r' & Hk & Hy & Hc). split; [eapply (stackmap_loop_hit p t _ _ _ 0 k); [exact Hk|exact Hy|by right]|].
    intros target [= <-]. split; [exists k, c; split; [|done]; by exists y, n', r'|]. unfold continue_Thread_to_pos. split.
    + intros Hlt. rewrite (proj2 (Z.eqb_neq t eip)) by lia. unfold assert_. destruct (cp_code p <? t); cbn [rbind]; [|by eexists].
      destruct (t <? _); cbn [rbind]; [|by eexists]. rewrite (proj2 (Z.ltb_ge eip t)) by lia. by eexists.
    + intros Hlt Hend. rewrite (proj2 (Z.eqb_neq t eip)) by lia.
      rewrite (proj2 (Z.ltb_lt (cp_code p) t)), (proj2 (Z.ltb_lt _ _) Hend), (proj2 (Z.ltb_lt eip t)), (proj2 (Z.ltb_lt (cp_code p) eip)) by lia. cbn [assert_ rbind].
      by rewrite (proj2 (Z.ltb_lt eip (u32 _))) by lia.
  - split; [|done]. destruct HS as [(k & y & c & n' & r' & Hk & Hy)|HS].
    + eapply (stackmap_loop_hit p eip _ _ _ 0 k); [exact Hk|exact Hy|by left].
    + specialize (HS _ _ _ _ _ _ Hi Hx). lia.
Qed.
End Stopping.

(** ** The domain of [DomClassLoad], with the code of one method *)

Definition demo_methods (c : Z) : Z := 1000 * c.
Definition demo_code : gmap Z Z := {[ 1000000 := 0x200000 ]}.
Definition demo_pos (addr : Z) : code_pos := position demo_methods demo_code 1000 0 dl_method addr.

Lemma demo_found : findMethodAtAddrInDomain demo_methods demo_code 0x200004 dl_after = Ok (Some (demo_pos 0x200004)).
Proof. vm_compute. reflexivity. Qed.
Lemma demo_one c j x addr : domain_method dl_after c j x -> contains demo_methods demo_code c j x addr -> 16 <= addr -> c = 1000 /\ j = 0%nat.
Proof.
  intros (_ & _ & _ & _ & d & _ & _ & _ & _ & _ & Hd & Hx) [H1 H2] Ha.
  assert (HA : map_Forall (fun _ d => (length (methods d) <= 1)%nat /\ Forall (fun x => numberOfCodeBytes x = 16) (methods d)) (classdescs (ds_cs dl_after)))
    by (apply (bool_decide_unpack _); vm_compute; exact I).
  destruct (HA c d Hd) as [Hl HF]. pose proof (lookup_lt_Some _ _ _ Hx). rewrite Forall_lookup in HF. rewrite (HF _ _ Hx) in H2.
  assert (j = 0%nat) as -> by lia. split; [|done]. unfold code_of, method_of, demo_methods, demo_code in *.
  destruct (decide (c = 1000)) as [|Hne]; [done|]. exfalso. change (Z.of_nat 0) with 0 in H2. rewrite Z.mul_0_l, Z.add_0_r in H2.
  rewrite lookup_singleton_ne in H2 by lia. change (addr < 16) in H2. lia.
Qed.

Lemma findMethodAtAddrInDomain_decides_witness : exists r, findMethodAtAddrInDomain demo_methods demo_code 0x200004 dl_after = Ok r /\
  forall p, r = Some p <-> exists c j x, domain_method dl_after c j x /\ contains demo_methods demo_code c j x 0x200004 /\
    p = position demo_methods demo_code c j x 0x200004.
Proof.
  destruct dl_after_ok as (base & l & D & _).
  apply (findMethodAtAddrInDomain_decides 40 dl_rank demo_methods demo_code dl_after base 0x200004 D ltac:(discriminate)).
  intros c j x c' j' x' H H' Hc Hc'. destruct (demo_one c j x _ H Hc ltac:(lia)) as [-> ->]. by destruct (demo_one c' j' x' _ H' Hc' ltac:(lia)) as [-> ->].
Defined.

Lemma check_thread_position_finds_map_witness : exists r,
  check_thread_position (fun _ _ => 0) false (Some (demo_pos 0x200002)) 0x200002 = Ok r /\
  find_stackmap (fun _ _ => 0) (demo_pos 0x200002) (default 0x200002 r) sizeof_stackmap (replicate 128 0) <> Ok None /\ r = Some 0x200004.
Proof.
  destruct (check_thread_position_finds_map (fun _ _ => 0) (demo_pos 0x200002) 0x200002 0 0x200008 0x200004 (replicate 128 0)) as (r & E & H & _).
  - exists (MkSymbol 8 0 0 (SymStackMap 4 3 [5])), 3, [5]. split; vm_compute; reflexivity.
  - discriminate.
  - exists r. split; [exact E|]. split; [exact H|]. vm_compute in E. injection E as <-. reflexivity.
Defined.
