(* ===== verification/Roots.v ===== *)
(** * Finding the roots of a collection (Memory/gc_stack.c, gc_impl.c, gc_common.c)

    The collector calls a handler for every cell outside the heap that refers
    into it: slots of the stacks of the domain's threads, static fields,
    services, registered objects, fields of the domain descriptor and
    interrupt handlers.  The handler changes memory while the walk goes on.

    A [walk] is what this code does, as a tree: it reads words and visits
    cells, and continues with what it read.  [run] executes it on the state of
    the collector; [GCHeap.visit] is the effect of one visit. *)

From S2P Require Import Prelude Mem CString Malloc Alloc CodeMem Classes DomainClasses CodeLookup.
From S2P Require Import GCHeap.
#[local] Open Scope Z_scope.

Inductive walk (X : Type) :=
| Ret (x : X)
| Stop (e : err)
| Read (a : Z) (k : Z -> walk X)
| Visit (r : root) (k : walk X).
Arguments Ret {X} _.
Arguments Stop {X} _.
Arguments Read {X} _ _.
Arguments Visit {X} _ _.

Fixpoint wbind {X Y : Type} (m : walk X) (f : X -> walk Y) : walk Y :=
  match m with
  | Ret x => f x
  | Stop e => Stop e
  | Read a k => Read a (fun v => wbind (k v) f)
  | Visit r k => Visit r (wbind k f)
  end.
Notation "'let%' x := m 'in' k" := (wbind m (fun x => k))
  (at level 10, x name, m at level 100, k at level 200) : Z_scope.
Definition word (a : Z) : walk Z := Read a Ret.
Definition visit_cell (r : root) : walk unit := Visit r (Ret tt).
Definition of_res {X} (r : res X) : walk X := match r with Ok x => Ret x | Err e => Stop e end.
(** [if (x) handler(domain, &x)], where [x] is at [a] *)
Definition visit_if_set (a : Z) : walk unit :=
  let% v := word a in if v =? 0 then Ret tt else visit_cell (RRef a).

Section Run.
Context {A : Type} `{!GCServices A} {X : Type}.
Fixpoint run (handler : Z -> gc_state A -> res (option Z * gc_state A)) (w : walk X) (s : gc_state A) : res (X * gc_state A) :=
  match w with
  | Ret x => Ok (x, s)
  | Stop e => Err e
  | Read a k => run handler (k (rd s a)) s
  | Visit r k => let! s := visit handler r s in run handler k s
  end.
End Run.

(** ** Layout *)

Definition PCB_EBP : Z := 6.
Definition PCB_ESP : Z := 7.
Definition PCB_EIP : Z := 12.
Definition t_stackTop : Z := 8.
Definition STATE_AVAILABLE : Z := 11.
Definition MAX_REGISTERED : Z := 50.
Definition MAX_SERVICES : Z := 1500.
Definition NUM_IRQs : Z := 16.
Definition SERVICE_ENTRY_FREE : Z := 0.
Definition SERVICE_ENTRY_CHANGING : Z := 0xffffffff.

(** the kernel's text: symbols of the linker *)
Record kernel_text := MkText {
  start_ : Z; end_ : Z;
  callnative_special : Z * Z;          (* with callnative_special_end *)
  callnative_static : Z * Z;
  callnative_special_portal : Z * Z;
  return_from_java : list Z;           (* return_from_java0, 1, 2 *)
  return_from_javaX_end : Z;
  never_return : Z * Z;
  thread_exit : Z * Z;                 (* to thread_exit + FKTSIZE_thread_exit *)
  irq_exit : Z * Z;
  receive_portalcall : Z * Z;
}.
Definition within (eip : Z) (r : Z * Z) : bool := (r.1 <=? eip) && (eip <=? r.2).

(** the fields of the domain descriptor and the variables with references, by address *)
Record domain_cells := MkCells {
  d_threads : Z; d_gcThread : Z;
  d_startClassName : Z; d_dcodeName : Z; d_libNames : Z; d_argv : Z; d_initialPortals : Z;
  d_initialNamingProxy : Z; d_naming : Z;
  d_firstThreadInRunQueue : Z; d_lastThreadInRunQueue : Z;
  d_services : Z; d_registeredObjects : Z;
  v_switchBackTo : Z; v_current : Z;
  v_ifirstlevel_object : Z; v_idomains : Z;
}.

Section Roots.
Context {B : Type}.
(** the domain, its classes and the code of their methods *)
Context (domain : Z) (cells : domain_cells) (text : kernel_text).
Context (classes : dom_state B) (methods_of : Z -> Z) (mcode : gmap Z Z) (old_pre : Z -> nat -> Z).
(** [domain->gc.isInHeap] *)
Context (isInHeap : Z -> bool).

(** ** Stacks *)

Definition eip_in_last_stackframe (eip : Z) : bool :=
  within eip (thread_exit text) || within eip (irq_exit text) || within eip (receive_portalcall text).
Definition leaves_java (eip : Z) : bool :=
  existsb (fun f => within eip (f, return_from_javaX_end text)) (return_from_java text) || within eip (never_return text).
(** C -> Java *)
Definition enters_java (eip : Z) : bool :=
  within eip (callnative_special text) || within eip (callnative_static text)
  || within eip (callnative_special_portal text) || leaves_java eip.

(** [isRef] on the map of a method *)
Fixpoint arg_is_ref (n : nat) (index : Z) (map : list Z) (bits num : Z) : res bool :=
  match n with
  | O => Ok false
  | S n =>
      let! '(bits, map) := (if index mod 8 =? 0 then match map with b :: map => Ok (u8 b, map) | [] => Err EFault end
                            else Ok (bits, map)) in
      if negb (Z.land bits 1 =? 0) && (index =? num) then Ok true
      else arg_is_ref n (index + 1) map (Z.shiftr bits 1) num
  end.

(** [for (i = 1; i < numberOfArgs + 1; i++) ... s++] *)
Fixpoint walk_args (n : nat) (i s : Z) (m : MethodDesc) : walk unit :=
  match n with
  | O => Ret tt
  | S n =>
      let% b := of_res (arg_is_ref (Z.to_nat (numberOfArgs m)) 0 (argTypeMap m) 0 (i - 1)) in
      let% _ := (if (b : bool) then visit_cell (RRef s) else Ret tt) in
      walk_args n (i + 1) (u32 (s + 4)) m
  end.
(** the parameters that C code passes to [m]; [callnative_static] has no object *)
Definition walk_parameters (m : MethodDesc) (eip sp : Z) : walk unit :=
  let s := u32 (sp + 8) in
  if within eip (callnative_static text) then walk_args (Z.to_nat (numberOfArgs m)) 1 s m
  else
    let% _ := visit_cell (RRef s) in
    walk_args (Z.to_nat (numberOfArgs m)) 1 (u32 (s + 4)) m.

(** [for (s = ebp - 1, k = 0; s > (sp + 1); s--, k++)]; the byte for a slot
    that the map does not cover is what an earlier frame left there, or none *)
Fixpoint walk_slots (n : nat) (k s : Z) (stackmap : list Z) : walk unit :=
  match n with
  | O => Ret tt
  | S n =>
      match stackmap !! Z.to_nat k with
      | None => Stop EFault
      | Some b =>
          let% _ := (if b =? 0 then Ret tt else
                       let% v := word s in if isInHeap v then visit_cell (RRef s) else Ret tt) in
          walk_slots n (k + 1) (u32 (s - 4)) stackmap
      end
  end.
Definition slots (sp ebp : Z) : nat := Z.to_nat ((u32 (ebp - 4) - u32 (sp + 4) + 3) / 4).

(** What the loop keeps: the method found last and the array [stackmap]. *)
Definition frame_state : Type := option code_pos * list Z.

(** one frame; the result says whether it is the last one *)
Definition walk_frame (sp ebp eip : Z) (f : frame_state) : walk (bool * frame_state) :=
  let '(method, stackmap) := f in
  if (start_ text <=? eip) && (eip <=? end_ text) then
    if eip_in_last_stackframe eip then
      let% before := word (eip - 4) in
      if before =? 0xfb then Stop (EPanic "FIXME: interrupted before call in callnative_special_portal")
      else Ret (true, f)
    else if enters_java eip then
      let% _ := (match method with Some p => walk_parameters (cp_desc p) eip sp | None => Ret tt end) in
      Ret (leaves_java eip, f)
    else Ret (false, f)
  else
    let% q := of_res (findMethodAtAddrInDomain methods_of mcode eip classes) in
    match q with
    | None => Ret (false, f)            (* strange eip: a warning *)
    | Some p =>
        let% m := of_res (find_stackmap old_pre p eip sizeof_stackmap stackmap) in
        match m with
        | None => Stop (EPanic "No stackmap for this frame!")
        | Some (_, stackmap) =>
            let% _ := walk_slots (slots sp ebp) 0 (u32 (ebp - 4)) stackmap in Ret (false, (Some p, stackmap))
        end
    end.

Fixpoint walk_frames (fuel : nat) (thread sp ebp eip : Z) (f : frame_state) : walk unit :=
  if sp =? NULL then Ret tt else
  let% top := word (thread + t_stackTop) in
  if negb (sp <? top) then Ret tt else
  match fuel with
  | O => Stop EFuel
  | S k =>
      let% r := walk_frame sp ebp eip f in
      let '(last, f) := r in
      if (last : bool) then Ret tt else
      let sp := ebp in
      if sp =? NULL then Ret tt else
      let% ebp := word sp in
      let% eip := word (sp + 4) in
      walk_frames k thread sp ebp eip f
  end.

(** [junk]: [method] and [stackmap] are not initialised *)
Definition walkStack (fuel : nat) (junk : frame_state) (thread : Z) : walk unit :=
  let% ebp := word (thread + t_context + 4 * PCB_EBP) in
  let% sp := word (thread + t_context + 4 * PCB_ESP) in
  let% eip := word (thread + t_context + 4 * PCB_EIP) in
  walk_frames fuel thread sp ebp eip junk.

(** [walkStacks] and [freezeThreads] leave out the collector's own thread,
    interrupt handlers and unused threads *)
Definition skip_thread (thread : Z) : walk bool :=
  let% gcThread := word (d_gcThread cells) in
  if thread =? gcThread then Ret true else
  let% isInterruptHandlerThread := word (thread + t_isInterruptHandlerThread) in
  if negb (isInterruptHandlerThread =? 0) then Ret true else
  let% state := word (thread + t_state) in
  Ret (state =? STATE_AVAILABLE).
Fixpoint threads_loop (fuel : nat) (body : Z -> walk unit) (thread : Z) : walk unit :=
  if thread =? NULL then Ret tt else
  match fuel with
  | O => Stop EFuel
  | S k =>
      let% skip := skip_thread thread in
      let% _ := (if (skip : bool) then Ret tt else body thread) in
      let% next := word (thread + t_nextInDomain) in
      threads_loop k body next
  end.
Definition walkStacks (fuel : nat) (junk : Z -> frame_state) : walk unit :=
  let% first := word (d_threads cells) in
  threads_loop fuel (fun t => walkStack fuel (junk t) t) first.

(** whether the threads stand where they may: those that do not are resumed,
    which is not modelled *)
Definition check_position (thread : Z) : walk unit :=
  let% eip := word (thread + t_context + 4 * PCB_EIP) in
  let% q := of_res (findMethodAtAddrInDomain methods_of mcode eip classes) in
  let% r := of_res (check_thread_position old_pre (enters_java eip) q eip) in
  match r, q with
  | Some target, Some p =>
      let% b := of_res (continue_Thread_to_pos p eip target) in
      if (b : bool) then Stop (EThrow "runs the thread") else Ret tt
  | _, _ => Ret tt
  end.
Definition freezeThreads (fuel : nat) : walk unit :=
  let% first := word (d_threads cells) in threads_loop fuel check_position first.

(** ** Static fields *)

(** FORBITMAP over the map of a class *)
Fixpoint for_bits (n : nat) (index : Z) (map : list Z) (bits : Z) (isset : Z -> walk unit) : walk unit :=
  match n with
  | O => Ret tt
  | S n =>
      let% r := of_res (if index mod 8 =? 0 then match map with b :: map => Ok (u8 b, map) | [] => Err EFault end
                        else Ok (bits, map)) in
      let '(bits, map) := r in
      let% _ := (if Z.land bits 1 =? 0 then Ret tt else isset index) in
      for_bits n (index + 1) map (Z.shiftr bits 1) isset
  end.
Definition walkClass (cl : Z) : walk unit :=
  let% o := of_res (clsobj cl classes) in
  let% c := of_res (cls (classDesc o) (ds_cs classes)) in
  for_bits (Z.to_nat (staticFieldsSize c)) 0 (staticsMap c) 0 (fun index => visit_cell (RRef (staticFields o + 4 * index))).
Fixpoint walk_classes (n : nat) (i : Z) (l : LibDesc) : walk unit :=
  match n with
  | O => Ret tt
  | S n => let% _ := walkClass (class_of l i) in walk_classes n (i + 1) l
  end.
Fixpoint walk_libs (libs : list Z) : walk unit :=
  match libs with
  | [] => Ret tt
  | lib :: libs =>
      let% l := of_res (match libDescs classes !! lib with Some l => Ok l | None => Err EFault end) in
      let% _ := walk_classes (Z.to_nat (lib_numberOfClasses l)) 0 l in walk_libs libs
  end.
Definition walkStatics : walk unit := walk_libs (libs classes).

(** ** Services, registered objects, interrupt handlers *)

Fixpoint for_cells (n : nat) (i : Z) (body : Z -> walk unit) : walk unit :=
  match n with
  | O => Ret tt
  | S n => let% _ := body i in for_cells n (i + 1) body
  end.
Definition walkPortals : walk unit :=
  for_cells (Z.to_nat MAX_SERVICES) 0 (fun i =>
    let% d := word (d_services cells + 4 * i) in
    if (d =? SERVICE_ENTRY_FREE) || (d =? SERVICE_ENTRY_CHANGING) then Ret tt else
    let% refcount := word (d + dep_refcount) in
    let% _ := of_res (assert_ "domain->services[i]->refcount > 1" (1 <? refcount)) in
    visit_cell (RRef (d_services cells + 4 * i))).
Definition walkRegistereds : walk unit :=
  for_cells (Z.to_nat MAX_REGISTERED) 0 (fun i => visit_if_set (d_registeredObjects cells + 4 * i)).
Definition walkInterrupHandlers : walk unit :=
  for_cells (Z.to_nat NUM_IRQs) 0 (fun j =>
    let% o := word (v_ifirstlevel_object cells + 4 * j) in
    if o =? 0 then Ret tt else
    let% d := word (v_idomains cells + 4 * j) in
    if d =? domain then visit_cell (RRef (v_ifirstlevel_object cells + 4 * j)) else Ret tt).

(** ** The domain descriptor *)

(** The current thread is moved without the test of [MOVETCB]: there is one. *)
Definition walkSpecials : walk unit :=
  let% _ := visit_if_set (d_startClassName cells) in
  let% _ := visit_if_set (d_dcodeName cells) in
  let% _ := visit_if_set (d_libNames cells) in
  let% _ := visit_if_set (d_argv cells) in
  let% _ := visit_if_set (d_initialPortals cells) in
  let% _ := visit_if_set (d_initialNamingProxy cells) in
  let% _ := visit_if_set (d_naming cells) in
  let% _ := visit_cell (RTcb (d_threads cells)) in
  let% _ := visit_cell (RTcb (d_firstThreadInRunQueue cells)) in
  let% _ := visit_cell (RTcb (d_lastThreadInRunQueue cells)) in
  let% _ := visit_cell (RTcb (d_gcThread cells)) in
  let% back := word (v_switchBackTo cells) in
  let% _ := (if back =? 0 then Ret tt else
               let% d := word (back + t_domain) in
               if d =? domain then visit_cell (RTcb (v_switchBackTo cells)) else Ret tt) in
  visit_cell (RTcb (v_current cells)).

(** ** All roots; the handlers are the same for all kinds of cells *)
Definition walk_root_set (fuel : nat) (junk : Z -> frame_state) : walk unit :=
  let% _ := walkStacks fuel junk in
  let% _ := walkStatics in
  let% _ := walkPortals in
  let% _ := walkRegistereds in
  let% _ := walkSpecials in
  walkInterrupHandlers.
End Roots.

(** ** A collection with its roots (Memory/gc_new.c) *)

Section Collection.
Context {A B : Type} `{!GCServices A}.
Context (domain : Z) (is_domainZero : bool) (cells : domain_cells) (text : kernel_text).
Context (classes : dom_state B) (methods_of : Z -> Z) (mcode : gmap Z Z) (old_pre : Z -> nat -> Z).
Abbreviation move := (@gc_common_move_reference A _).

(** [depth] bounds the threads and the frames of each stack *)
Definition domain_walk (depth : nat) (junk : Z -> frame_state) (s : gc_state A) : walk unit :=
  walk_root_set domain cells text classes methods_of mcode old_pre (fun v => gc_new_isInHeap v s) depth junk.
Definition gc_domain (fuel depth : nat) (irqs : list Z) (junk : Z -> frame_state) (s : gc_state A) : res (gc_state A) :=
  let! '(_, s) := run move (freezeThreads cells text classes methods_of mcode old_pre depth) s in
  let! '(_, s) := run move (domain_walk depth junk s) s in
  let! s := gc_new_walkHeap2 is_domainZero fuel (scan_handlers irqs) s in
  let! s := gc_new_finalizeMemory is_domainZero fuel s in
  let! s := gc_new_finalizePortals domain is_domainZero fuel s in
  Ok (swap_heaps s).
End Collection.
