(* ===== verification/RootsInv.v ===== *)
(** * The roots a collection starts from

    A walk that runs while the handler moves objects visits the cells that the
    same walk finds in the memory as it was ([run_trace]), provided that it
    reads no cell after visiting it.  So a collection that looks for its roots
    is [gc_new_gc] on the list of these roots. *)

From S2P Require Import Prelude Mem CString Malloc Alloc CodeMem Classes DomainClasses CodeLookup.
From S2P Require Import GCHeap GCTheory GCInv GCScan GCCollect Roots.
#[local] Open Scope Z_scope.

(** ** Walks over a memory that stays as it is *)

Inductive event := ERead (a : Z) | EVisit (r : root).

Fixpoint trace {X} (m : memory) (w : walk X) : list event * res X :=
  match w with
  | Ret x => ([], Ok x)
  | Stop e => ([], Err e)
  | Read a k => let t := trace m (k (load32 m a)) in (ERead a :: t.1, t.2)
  | Visit r k => let t := trace m k in (EVisit r :: t.1, t.2)
  end.
Definition visited (l : list event) : list root := omap (fun e => match e with EVisit r => Some r | ERead _ => None end) l.
(** the cells that the walk visits *)
Definition roots_found {X} (m : memory) (w : walk X) : list root := visited (trace m w).1.

Lemma visited_app l1 l2 : visited (l1 ++ l2) = visited l1 ++ visited l2.
Proof. unfold visited. by rewrite omap_app. Qed.

Lemma trace_bind {X Y} m (w : walk X) (f : X -> walk Y) :
  trace m (wbind w f) = match (trace m w).2 with
                        | Ok x => ((trace m w).1 ++ (trace m (f x)).1, (trace m (f x)).2)
                        | Err e => ((trace m w).1, Err e) end.
Proof.
  induction w as [x|e|a k IH|r k IH]; cbn [wbind trace fst snd app].
  - by destruct (trace m (f x)).
  - done.
  - rewrite IH. by destruct (trace m (k (load32 m a))) as [l [x|e]].
  - rewrite IH. by destruct (trace m k) as [l [x|e]].
Qed.

Section Run.
Context {A : Type} `{!GCServices A}.
Abbreviation st := (gc_state A).
Context (cls : Z -> Prop) (roots : list root) (s0 : st) (H : list Z).
Abbreviation m0 := (ram s0).
Abbreviation inv := (gc_inv roots s0 H).
Abbreviation move := (@gc_common_move_reference A _).

(** Words whose content a collection does not change before it is read: the
    body of an object, class data and kernel text, or a word outside the heap
    that was not visited so far. *)
Definition readable (D : list Z) (a : Z) : Prop :=
  (a mod 4 = 0 /\ (forall x, a <= x < a + 4 -> elsewhere s0 x) /\ a ∉ D) \/
  (exists o, o ∈ H /\ o - 4 <= a /\ a + 4 <= o - 8 + 4 * owords m0 o) \/
  cls32 cls a.
Fixpoint quiet (D : list Z) (l : list event) : Prop :=
  match l with
  | [] => True
  | ERead a :: l => readable D a /\ quiet D l
  | EVisit r :: l => quiet (root_addr r :: D) l
  end.

Context (Hok : heap_ok cls roots s0 H) (Hmem : memories_ok s0 H).
Context (Hal : forall r, r ∈ roots -> root_addr r mod 4 = 0).

Lemma read_same s P D Dl a : inv s P D -> (forall x, D x <-> x ∈ Dl) -> readable Dl a -> rd s a = load32 m0 a.
Proof using Hok Hal.
  intros I HD [(Ha & He & Hn)|[(o & Ho & H1 & H2)|Hc]].
  - destruct (decide (a ∈ root_addr <$> roots)) as [Hin|Hin].
    + apply list_elem_of_fmap in Hin as (r & -> & Hr). eapply cell_word; [exact I|exact (cell_root _ _ P r Hr)|by rewrite HD|by destruct r].
    + apply load32_ext. intros x Hx. apply (iv_out I); [by apply He|].
      intros r Hr Hrx. apply Hin, list_elem_of_fmap. exists r. split; [|done]. specialize (Hal r Hr). Z.div_mod_to_equations. lia.
  - apply load32_ext. intros x Hx. apply (iv_from I o); [done|lia].
  - apply load32_ext. intros x Hx. eapply iv_class; [exact Hok|exact I|]. by apply Hc.
Qed.

Lemma run_trace {X} (w : walk X) : forall s P D Dl, inv s P D -> (forall x, D x <-> x ∈ Dl) ->
  quiet Dl (trace m0 w).1 -> roots_found m0 w ⊆ roots -> NoDup (root_addr <$> roots_found m0 w) ->
  (forall r, r ∈ roots_found m0 w -> root_addr r ∉ Dl) ->
  run move w s = let! s' := walkRootSet move (roots_found m0 w) s in let! x := (trace m0 w).2 in Ok (x, s').
Proof using Hok Hmem Hal.
  unfold roots_found. induction w as [x|e|a k IH|r k IH]; intros s P D Dl I HD Hq Hs Hn Hd; cbn [run trace fst snd visited omap list_omap walkRootSet rbind] in *.
  - done.
  - done.
  - destruct Hq as [Hr Hq]. rewrite (read_same _ _ _ _ _ I HD Hr). by eapply IH.
  - assert (Hr : r ∈ roots) by (apply Hs, list_elem_of_here).
    rewrite fmap_cons in Hn. apply NoDup_cons in Hn as [Hnr Hn].
    assert (Hdr : ~ D (root_addr r)) by (rewrite HD; apply Hd, list_elem_of_here).
    assert (F : finishes roots s0 H (visit move r) (fun x => x = root_addr r) s P D).
    { pose proof (cell_root roots s0 P r Hr) as C. destruct r as [a|a]; [eapply handleReference_finishes|eapply MOVETCB_finishes]; done. }
    destruct F as (s1 & P1 & E & I1 & _). rewrite E. cbn [rbind].
    eapply (IH s1 P1 _ (root_addr r :: Dl)); [exact I1| | | | |].
    + intros x. rewrite elem_of_cons, <- HD. tauto.
    + exact Hq.
    + intros x Hx. apply Hs. by apply list_elem_of_further.
    + exact Hn.
    + intros r' Hr' [Hx|Hx]%elem_of_cons; [|by apply (Hd r' (list_elem_of_further _ _ _ Hr'))].
      apply Hnr. rewrite <- Hx. by apply list_elem_of_fmap_2.
Qed.
End Run.

(** ** What a walk finds *)

Definition finds {X} (m : memory) (w : walk X) (l : list root) (x : X) : Prop := roots_found m w = l /\ (trace m w).2 = Ok x.

Section Finds.
Context (m : memory).
Lemma finds_ret {X} (x : X) : finds m (Ret x) [] x.
Proof. done. Qed.
Lemma finds_read {X} a (k : Z -> walk X) l x : finds m (k (load32 m a)) l x -> finds m (Read a k) l x.
Proof. done. Qed.
Lemma finds_cell r : finds m (visit_cell r) [r] tt.
Proof. done. Qed.
Lemma finds_bind {X Y} (w : walk X) (f : X -> walk Y) l1 l2 x y : finds m w l1 x -> finds m (f x) l2 y -> finds m (wbind w f) (l1 ++ l2) y.
Proof.
  intros [E1 E2] [E3 E4]. unfold finds, roots_found in *. rewrite trace_bind, E2. cbn [fst snd]. by rewrite visited_app, E1, E3.
Qed.
Lemma finds_word {Y} a (f : Z -> walk Y) l y : finds m (f (load32 m a)) l y -> finds m (wbind (word a) f) l y.
Proof. done. Qed.
Lemma finds_res {X Y} (r : res X) (f : X -> walk Y) l x y : r = Ok x -> finds m (f x) l y -> finds m (wbind (of_res r) f) l y.
Proof. by intros ->. Qed.
Lemma finds_det {X} (w : walk X) l l' x x' : finds m w l x -> finds m w l' x' -> l = l' /\ x = x'.
Proof. intros [<- E1] [<- E2]. split; congruence. Qed.
End Finds.

(** a walk that only reads leaves the state as it is *)
Lemma run_only_reads {A} `{!GCServices A} {X} (w : walk X) (s : gc_state A) h l x : finds (ram s) w l x -> l = [] -> run h w s = Ok (x, s).
Proof.
  intros [El Ex] ->. revert El Ex. unfold roots_found. induction w as [y|e|a k IH|r k IH]; cbn [trace fst snd visited omap list_omap run]; try done.
  - intros _ [= ->]. done.
  - apply IH.
Qed.

(** ** A collection with its roots *)

Section Collection.
Context {A B : Type} `{!GCServices A}.
Context (domain : Z) (is_domainZero : bool) (cells : domain_cells) (text : kernel_text).
Context (classes : dom_state B) (methods_of : Z -> Z) (mcode : gmap Z Z) (old_pre : Z -> nat -> Z).
Abbreviation gc_domain := (gc_domain domain is_domainZero cells text classes methods_of mcode old_pre).
Abbreviation domain_walk := (domain_walk domain cells text classes methods_of mcode old_pre).
Abbreviation freeze := (freezeThreads cells text classes methods_of mcode old_pre).

(** C36 A collection that looks for its roots while it moves what they refer to
    does what [gc_new_gc] does with the roots found before: it ends, and leaves
    exactly the objects reachable from the stacks, the static fields, the
    services and the other cells of the domain.  The walk must read no word
    that it has changed, and all threads must stand at stack maps. *)
Theorem gc_domain_correct (cls : Z -> Prop) (s : gc_state A) (H : list Z) (irqs : list Z) fuel depth junk roots :
  finds (ram s) (freeze depth) [] tt -> finds (ram s) (domain_walk depth junk s) roots tt ->
  quiet cls s H [] (trace (ram s) (domain_walk depth junk s)).1 ->
  heap_ok cls roots s H -> memories_ok s H -> (forall r, r ∈ roots -> root_addr r mod 4 = 0) -> (length H < fuel)%nat ->
  gc_domain fuel depth irqs junk s = gc_new_gc domain is_domainZero fuel irqs roots s /\
  exists s' P, collected roots s H P s' /\
    gc_domain fuel depth irqs junk s =
      let! x := each (memory_finaliser s P.*1) H (services s) in
      let! x := each (portal_finaliser domain s P.*1) H x in Ok (set_services x s').
Proof.
  intros Hf [El Ex] Hq Hok Hm Hal Hn.
  assert (E : gc_domain fuel depth irqs junk s = gc_new_gc domain is_domainZero fuel irqs roots s).
  { unfold gc_domain, Roots.gc_domain. rewrite (run_only_reads _ _ _ _ _ Hf eq_refl). cbn [rbind].
    rewrite (run_trace cls roots s H Hok Hm Hal _ s [] (fun _ => False) []).
    - rewrite El, Ex. unfold gc_new_gc. by destruct (walkRootSet _ roots s).
    - eapply inv_start. exact Hok.
    - intros x. rewrite elem_of_nil. tauto.
    - exact Hq.
    - by rewrite El.
    - rewrite El. apply (hk_distinct _ _ _ _ Hok).
    - by intros ? _ ?%elem_of_nil. }
  split; [exact E|]. rewrite E.
  destruct (gc_new_gc_run domain is_domainZero irqs cls roots s H Hok Hm fuel Hn) as (s1 & P & I & Er).
  exists (swap_heaps (set_services (services s) s1)), P. split; [by eapply collected_after|exact Er].
Qed.
End Collection.

(** ** Deciding that a walk is not disturbed *)

Section Decide.
Context {A : Type} `{!GCServices A}.
Implicit Types s : gc_state A.

Definition apart_from (lo hi a : Z) : bool := (a + 4 <=? lo) || (hi <=? a).
(** a word outside the heap that was not visited *)
Definition readable_outside s (D : list Z) (a : Z) : bool :=
  (a mod 4 =? 0) && apart_from (heap s) (heapBorder s) a && apart_from (heap2 s) (heapBorder2 s) a && bool_decide (a ∉ D).
Fixpoint quiet_outside s (D : list Z) (l : list event) : bool :=
  match l with
  | [] => true
  | ERead a :: l => readable_outside s D a && quiet_outside s D l
  | EVisit r :: l => quiet_outside s (root_addr r :: D) l
  end.
Lemma quiet_outside_quiet cls s H l : forall D, quiet_outside s D l = true -> quiet cls s H D l.
Proof.
  induction l as [|[a|r] l IH]; intros D; cbn [quiet quiet_outside]; [done| |by apply IH].
  intros [Hr Hq]%andb_prop. split; [|by apply IH]. left. unfold readable_outside, apart_from in Hr.
  apply andb_prop in Hr as [Hr HD]. apply bool_decide_eq_true in HD. unfold elsewhere. split; [lia|]. split; [|done]. intros x Hx. lia.
Qed.

(** other roots for the same heap *)
Lemma heap_ok_roots cls roots roots' s H : heap_ok cls roots s H ->
  (forall r, r ∈ roots' -> ref_ok cls (ram s) H (root_kind r) (load32 (ram s) (root_addr r)) /\
    forall x, root_addr r <= x < root_addr r + 4 -> elsewhere s x /\ ~ cls x) ->
  NoDup (root_addr <$> roots') -> (forall r r', r ∈ roots' -> r' ∈ roots' -> root_addr r < root_addr r' -> root_addr r + 4 <= root_addr r') ->
  heap_ok cls roots' s H.
Proof. intros [H1 H2 H3 H4 H5 H6 H7 H8 H9] Hr Hn Hd. split; try done; [intros r Hin; by apply Hr|intros r x Hin Hx; by apply (Hr r Hin)]. Qed.
End Decide.

(** ** A domain without threads that has the heap of [GCCollect]

    Its descriptor is at 0x40000; its naming portal, at 0x5000, refers to the
    atomic variable. *)
#[local] Existing Instance example_services.
Definition demo_cells : domain_cells :=
  MkCells 0x43000 0x43004 0x43008 0x4300c 0x43010 0x43014 0x43018 0x4301c 0x5000 0x43020 0x43024 0x40000 0x42000 0x43028 0x4302c 0x44000 0x44100.
Definition demo_no_text : kernel_text := MkText 0 0 (1, 0) (1, 0) (1, 0) [] 0 (1, 0) (1, 0) (1, 0) (1, 0).
Definition demo_no_classes : dom_state unit := MkDomState (MkCS ∅ ∅ [] [] code0 tt) code0 (fun _ => 0) 0 [] [] [] [] ∅ ∅.
Definition demo_junk : Z -> frame_state := fun _ => (None, replicate 128 0).
Definition demo_roots : list root := [RRef 0x5000; RTcb 0x43000; RTcb 0x43020; RTcb 0x43024; RTcb 0x43004; RTcb 0x4302c].
Abbreviation demo_walk := (domain_walk 1 demo_cells demo_no_text demo_no_classes (fun c => c) ∅ (fun _ _ => 0) 1 demo_junk example_heap).

Lemma demo_finds : finds (ram example_heap) demo_walk demo_roots tt.
Proof. split; vm_compute; reflexivity. Qed.

Lemma demo_heap_ok : heap_ok example_class demo_roots example_heap example_objects.
Proof.
  apply (heap_ok_roots _ example_roots); [exact example_ok| | |].
  - intros r Hr. assert (r = RRef 0x5000 \/ exists a, r = RTcb a /\ load32 (ram example_heap) a = 0 /\ 0x43000 <= a < 0x44000) as [->|(a & -> & Ha & Hr')].
    { unfold demo_roots in Hr. rewrite elem_of_cons in Hr. destruct Hr as [->|Hr]; [by left|]. right.
      assert (HF : Forall (fun r => match r with RTcb a => load32 (ram example_heap) a = 0 /\ 0x43000 <= a < 0x44000 | _ => False end) (tail demo_roots)).
      { repeat constructor; vm_compute; (reflexivity || discriminate). }
      rewrite Forall_forall in HF. specialize (HF r Hr). destruct r as [|a]; [done|]. by exists a. }
    + split; [|unfold example_class, elsewhere; cbn; lia]. right; left. apply (bool_decide_unpack _). by vm_compute.
    + split; [cbn [root_kind root_addr ref_ok]; by left|]. unfold example_class, elsewhere. cbn. lia.
  - apply (bool_decide_unpack _). by vm_compute.
  - intros r r' Hr Hr'. unfold demo_roots in *. repeat (apply elem_of_cons in Hr as [->|Hr]); try (by apply elem_of_nil in Hr);
      repeat (apply elem_of_cons in Hr' as [->|Hr']); try (by apply elem_of_nil in Hr'); cbn [root_addr]; lia.
Qed.

Lemma gc_domain_correct_witness :
  exists s' P, collected demo_roots example_heap example_objects P s' /\
    gc_domain 1 false demo_cells demo_no_text demo_no_classes (fun c => c) ∅ (fun _ _ => 0) 4 1 [] demo_junk example_heap =
      let! x := each (memory_finaliser example_heap P.*1) example_objects [] in
      let! x := each (portal_finaliser 1 example_heap P.*1) example_objects x in Ok (set_services x s').
Proof.
  apply (gc_domain_correct 1 false demo_cells demo_no_text demo_no_classes (fun c => c) ∅ (fun _ _ => 0)
    example_class example_heap example_objects [] 4 1 demo_junk demo_roots).
  - split; vm_compute; reflexivity.
  - exact demo_finds.
  - apply quiet_outside_quiet. vm_compute. reflexivity.
  - exact demo_heap_ok.
  - exact example_memories.
  - intros r Hr. assert (HF : Forall (fun r => root_addr r mod 4 = 0) demo_roots) by (repeat constructor).
    rewrite Forall_forall in HF. by apply HF.
  - vm_compute. lia.
Defined.
