(* ===== verification/RootsFound.v ===== *)
(** * What the search for roots finds

    The stack walk visits the slots that the stack maps of the frames mark as
    references, whatever its uninitialised variables hold; the walk over the
    classes visits the reference fields of all classes of the domain. *)

From S2P Require Import Prelude Mem CString Malloc Alloc CodeMem Classes DomainClasses DomClassInv DomClassLoad CodeLookup.
From S2P Require Import GCHeap GCInv Roots RootsInv.
From S2P Require CodeLookInv.
#[local] Open Scope Z_scope.

(** ** Bit maps *)

(** bit [k] of a map of bytes *)
Definition map_bit (map : list Z) (k : Z) : bool := Z.testbit (default 0 (map !! Z.to_nat (k / 8))) (k mod 8).

(** [map] and [bits] are what is left before bit [k] of [full] *)
Definition bits_left (full : list Z) (k : Z) (map : list Z) (bits : Z) : Prop :=
  (k mod 8 = 0 /\ map = drop (Z.to_nat (k / 8)) full) \/
  (k mod 8 <> 0 /\ map = drop (S (Z.to_nat (k / 8))) full /\
   forall i, 0 <= i < 8 - k mod 8 -> Z.testbit bits i = Z.testbit (default 0 (full !! Z.to_nat (k / 8))) (k mod 8 + i)).

Lemma bits_start full : bits_left full 0 full 0.
Proof. by left. Qed.

Lemma testbit_u8 v i : 0 <= i < 8 -> Z.testbit (u8 v) i = Z.testbit v i.
Proof. intros H. unfold u8, uwrap. by rewrite Z.mod_pow2_bits_low by lia. Qed.

Lemma succ_byte k : 0 <= k -> (k mod 8 = 7 /\ (k + 1) mod 8 = 0 /\ (k + 1) / 8 = k / 8 + 1) \/
  (k mod 8 < 7 /\ (k + 1) mod 8 = k mod 8 + 1 /\ (k + 1) / 8 = k / 8).
Proof. intros H. Z.div_mod_to_equations. lia. Qed.

(** one round of the loops over a map; [f] is how they read a byte *)
Lemma next_bit (f : Z -> Z) full k map bits : (forall v i, 0 <= i < 8 -> Z.testbit (f v) i = Z.testbit v i) ->
  0 <= k < 8 * Z.of_nat (length full) -> bits_left full k map bits ->
  exists b map', (if k mod 8 =? 0 then match map with c :: l => Ok (f c, l) | [] => Err EFault end else Ok (bits, map)) = Ok (b, map') /\
    Z.land b 1 = Z.b2z (map_bit full k) /\ bits_left full (k + 1) map' (Z.shiftr b 1).
Proof.
  intros Hf Hk HB.
  assert (Hgo : forall b, (forall i, 0 <= i < 8 - k mod 8 -> Z.testbit b i = Z.testbit (default 0 (full !! Z.to_nat (k / 8))) (k mod 8 + i)) ->
    Z.land b 1 = Z.b2z (map_bit full k) /\ bits_left full (k + 1) (drop (S (Z.to_nat (k / 8))) full) (Z.shiftr b 1)).
  { intros b Hb. pose proof (Z.mod_pos_bound k 8 ltac:(lia)). split.
    - change 1 with (Z.ones 1) at 1. rewrite Z.land_ones by lia. change (2 ^ 1) with 2. rewrite <- Z.bit0_mod, Hb by lia.
      unfold map_bit. by rewrite Z.add_0_r.
    - destruct (succ_byte k ltac:(lia)) as [(H1 & H2 & H3)|(H1 & H2 & H3)].
      + left. split; [done|]. rewrite H3. f_equal. pose proof (Z.div_pos k 8 ltac:(lia) ltac:(lia)). lia.
      + right. rewrite H2, H3. split; [lia|]. split; [done|]. intros i Hi. rewrite Z.shiftr_spec by lia. rewrite Hb by lia. f_equal. lia. }
  destruct HB as [[H0 ->]|(H0 & -> & Hb)].
  - rewrite H0. cbn [Z.eqb]. destruct (lookup_lt_is_Some_2 full (Z.to_nat (k / 8))) as [c Hc]; [Z.div_mod_to_equations; lia|].
    rewrite (drop_S _ _ _ Hc). exists (f c), (drop (S (Z.to_nat (k / 8))) full). split; [done|]. apply Hgo.
    intros i Hi. rewrite Hc, Hf by lia. cbn. by rewrite H0.
  - rewrite (proj2 (Z.eqb_neq _ _) H0). exists bits, (drop (S (Z.to_nat (k / 8))) full). split; [done|]. by apply Hgo.
Qed.

(** ** Stack maps *)

Lemma unpack_spec full : forall n k map b stackmap, 0 <= k -> k + Z.of_nat n <= 8 * Z.of_nat (length full) ->
  k + Z.of_nat n <= Z.of_nat (length stackmap) -> bits_left full k map b ->
  exists out, unpack n k map b stackmap = Ok out /\ length out = length stackmap /\
    forall i, 0 <= i -> out !! Z.to_nat i = if (k <=? i) && (i <? k + Z.of_nat n) then Some (Z.b2z (map_bit full i)) else stackmap !! Z.to_nat i.
Proof.
  induction n as [|n IH]; intros k map b stackmap Hk Hn Hs HB; cbn [unpack].
  { exists stackmap. split; [done|]. split; [done|]. intros i Hi. by destruct (Z.leb_spec k i), (Z.ltb_spec i (k + Z.of_nat 0)); try lia. }
  destruct (next_bit (fun v => v) full k map b (fun _ _ _ => eq_refl) ltac:(lia) HB) as (b' & map' & -> & Hb & HB'). cbn [rbind].
  destruct (IH (k + 1) map' (Z.shiftr b' 1) (<[Z.to_nat k := Z.land b' 1]> stackmap)) as (out & E & Hl & Ho); [lia|lia|rewrite length_insert; lia|done|].
  exists out. split; [exact E|]. rewrite Hl, length_insert. split; [done|]. intros i Hi. rewrite Ho by done.
  destruct (decide (i = k)) as [->|Hne].
  - rewrite (proj2 (Z.leb_gt (k + 1) k)), (proj2 (Z.leb_le k k)), (proj2 (Z.ltb_lt k (k + Z.of_nat (S n)))) by lia. cbn [andb].
    rewrite list_lookup_insert_eq by lia. by rewrite Hb.
  - rewrite list_lookup_insert_ne by lia. destruct (Z.leb_spec k i), (Z.leb_spec (k + 1) i), (Z.ltb_spec i (k + 1 + Z.of_nat n)), (Z.ltb_spec i (k + Z.of_nat (S n))); try lia; done.
Qed.

(** the stack map that [find_stackmap] picks *)
Definition map_for (old_pre : Z -> nat -> Z) (p : code_pos) (eip n_bits : Z) (map : list Z) : Prop :=
  exists l1 x l2 a b, symbols (cp_desc p) = l1 ++ x :: l2 /\ stackmap_of old_pre p (length l1) x = Some (a, b, n_bits, map) /\
    (a = eip \/ b = eip) /\
    forall i y a' b' n' m', l1 !! i = Some y -> stackmap_of old_pre p i y = Some (a', b', n', m') -> a' <> eip /\ b' <> eip.

Lemma find_stackmap_spec old_pre p eip n_bits map stackmap : map_for old_pre p eip n_bits map ->
  0 <= n_bits <= sizeof_stackmap -> n_bits <= 8 * Z.of_nat (length map) -> length stackmap = 128%nat ->
  exists out, find_stackmap old_pre p eip sizeof_stackmap stackmap = Ok (Some (n_bits, out)) /\ length out = 128%nat /\
    forall i, 0 <= i < n_bits -> out !! Z.to_nat i = Some (Z.b2z (map_bit map i)).
Proof.
  intros (l1 & x & l2 & a & b & Es & Hx & Heq & Hbefore) Hn Hm Hlen. unfold find_stackmap. rewrite Es. clear Es.
  assert (Hgen : forall j, stackmap_of old_pre p (j + length l1) x = Some (a, b, n_bits, map) ->
    (forall i y a' b' n' m', l1 !! i = Some y -> stackmap_of old_pre p (j + i) y = Some (a', b', n', m') -> a' <> eip /\ b' <> eip) ->
    exists out, stackmap_loop old_pre p j (l1 ++ x :: l2) eip sizeof_stackmap stackmap = Ok (Some (n_bits, out)) /\ length out = 128%nat /\
    forall i, 0 <= i < n_bits -> out !! Z.to_nat i = Some (Z.b2z (map_bit map i))).
  { clear Hx Hbefore. induction l1 as [|y l1 IH]; intros j Hx Hbefore; cbn [app stackmap_loop].
    - rewrite Nat.add_0_r in Hx. rewrite Hx.
      replace ((a =? eip) || (b =? eip)) with true by (destruct Heq as [->| ->]; rewrite Z.eqb_refl; [done|by rewrite orb_true_r]).
      unfold sizeof_stackmap in *. rewrite u32_small by lia. rewrite (proj2 (Z.ltb_ge 128 n_bits)) by lia.
      destruct (unpack_spec map (Z.to_nat n_bits) 0 map 0 stackmap ltac:(lia) ltac:(lia) ltac:(lia) (bits_start map)) as (out & -> & Hl & Ho).
      cbn [rbind]. exists out. split; [done|]. split; [lia|]. intros i Hi. rewrite Ho by lia.
      by rewrite (proj2 (Z.leb_le 0 i)), (proj2 (Z.ltb_lt i _)) by lia.
    - assert (Hstep : exists out, stackmap_loop old_pre p (S j) (l1 ++ x :: l2) eip sizeof_stackmap stackmap = Ok (Some (n_bits, out)) /\ length out = 128%nat /\
        forall i, 0 <= i < n_bits -> out !! Z.to_nat i = Some (Z.b2z (map_bit map i))).
      { apply IH; [by replace (S j + length l1)%nat with (j + length (y :: l1))%nat by (simpl; lia)|].
        intros i z a' b' n' m' Hz Hs. apply (Hbefore (S i) z a' b' n' m' Hz). by replace (j + S i)%nat with (S j + i)%nat by lia. }
      destruct (stackmap_of old_pre p j y) as [[[[a' b'] n'] m']|] eqn:Ey; [|exact Hstep].
      destruct (Hbefore 0%nat y a' b' n' m' eq_refl) as [H1 H2]; [by rewrite Nat.add_0_r|].
      rewrite (proj2 (Z.eqb_neq _ _) H1), (proj2 (Z.eqb_neq _ _) H2). exact Hstep. }
  apply (Hgen 0%nat); [exact Hx|]. intros i y a' b' n' m' Hy Hs. exact (Hbefore i y a' b' n' m' Hy Hs).
Qed.

(** ** Stacks *)

Section Stack.
Context {B : Type}.
Context (text : kernel_text) (classes : dom_state B) (methods_of : Z -> Z) (mcode : gmap Z Z) (old_pre : Z -> nat -> Z).
Context (isInHeap : Z -> bool) (m : memory).

(** the reference slots of a Java frame, from its top *)
Definition slot_cells (map : list Z) (ebp : Z) (k n : nat) : list root :=
  omap (fun i => let a := u32 (ebp - 4 * (Z.of_nat i + 1)) in
    if map_bit map (Z.of_nat i) && isInHeap (load32 m a) then Some (RRef a) else None) (seq k n).
(** the reference parameters of method [d] from [base] on *)
Definition arg_cells (d : MethodDesc) (base : Z) (k n : nat) : list root :=
  omap (fun i => if map_bit (argTypeMap d) (Z.of_nat i) then Some (RRef (u32 (base + 4 * Z.of_nat i))) else None) (seq k n).
Definition parameter_cells (d : MethodDesc) (eip sp : Z) : list root :=
  if within eip (callnative_static text) then arg_cells d (sp + 8) 0 (Z.to_nat (numberOfArgs d))
  else RRef (u32 (sp + 8)) :: arg_cells d (sp + 12) 0 (Z.to_nat (numberOfArgs d)).
Definition in_text (eip : Z) : bool := (start_ text <=? eip) && (eip <=? end_ text).
Definition args_mapped (d : MethodDesc) : Prop := numberOfArgs d <= 8 * Z.of_nat (length (argTypeMap d)).

(** What a frame holds.  [known] is the Java method that was found last,
    [None] before any was looked for; [last] ends the walk. *)
Inductive frame_roots (sp ebp eip : Z) : forall (known known' : option (option code_pos)) (last : bool) (l : list root), Prop :=
| fr_last known : in_text eip = true -> eip_in_last_stackframe text eip = true -> load32 m (eip - 4) <> 0xfb ->
    frame_roots sp ebp eip known known true []
| fr_enter p : in_text eip = true -> eip_in_last_stackframe text eip = false -> enters_java text eip = true ->
    args_mapped (cp_desc p) ->
    frame_roots sp ebp eip (Some (Some p)) (Some (Some p)) (leaves_java text eip) (parameter_cells (cp_desc p) eip sp)
| fr_enter_none : in_text eip = true -> eip_in_last_stackframe text eip = false -> enters_java text eip = true ->
    frame_roots sp ebp eip (Some None) (Some None) (leaves_java text eip) []
| fr_core known : in_text eip = true -> eip_in_last_stackframe text eip = false -> enters_java text eip = false ->
    frame_roots sp ebp eip known known false []
| fr_java known p n_bits map : in_text eip = false ->
    findMethodAtAddrInDomain methods_of mcode eip classes = Ok (Some p) -> map_for old_pre p eip n_bits map ->
    Z.of_nat (slots sp ebp) <= n_bits <= sizeof_stackmap -> n_bits <= 8 * Z.of_nat (length map) ->
    frame_roots sp ebp eip known (Some (Some p)) false (slot_cells map ebp 0 (slots sp ebp))
| fr_strange known : in_text eip = false -> findMethodAtAddrInDomain methods_of mcode eip classes = Ok None ->
    frame_roots sp ebp eip known known false [].

(** a stack of at most [n] frames below [top] *)
Inductive stack_roots (top : Z) : forall (n : nat) (known : option (option code_pos)) (sp ebp eip : Z) (l : list root), Prop :=
| sr_end n known sp ebp eip : sp = NULL \/ top <= sp -> stack_roots top n known sp ebp eip []
| sr_last n known known' sp ebp eip l : sp <> NULL -> sp < top -> frame_roots sp ebp eip known known' true l ->
    stack_roots top (S n) known sp ebp eip l
| sr_bottom n known known' sp eip l : sp <> NULL -> sp < top -> frame_roots sp NULL eip known known' false l ->
    stack_roots top (S n) known sp NULL eip l
| sr_frame n known known' sp ebp eip l l' : sp <> NULL -> sp < top -> ebp <> NULL ->
    frame_roots sp ebp eip known known' false l ->
    stack_roots top n known' ebp (load32 m ebp) (load32 m (ebp + 4)) l' ->
    stack_roots top (S n) known sp ebp eip (l ++ l').

Lemma arg_is_ref_spec full num : forall n k map bits, 0 <= k -> k + Z.of_nat n <= 8 * Z.of_nat (length full) -> bits_left full k map bits ->
  arg_is_ref n k map bits num = Ok (map_bit full num && (k <=? num) && (num <? k + Z.of_nat n)).
Proof.
  induction n as [|n IH]; intros k map bits Hk Hn HB; cbn [arg_is_ref].
  { rewrite <- andb_assoc. destruct (Z.leb_spec k num), (Z.ltb_spec num (k + Z.of_nat 0)); (lia || by rewrite andb_false_r). }
  destruct (next_bit u8 full k map bits testbit_u8 ltac:(lia) HB) as (b & map' & -> & Hb & HB'). cbn [rbind]. rewrite Hb.
  rewrite (IH (k + 1) map' (Z.shiftr b 1)) by (done || lia).
  destruct (Z.eqb_spec k num) as [<-|Hne].
  - rewrite (proj2 (Z.leb_le k k)), (proj2 (Z.ltb_lt k (k + Z.of_nat (S n)))) by lia. rewrite (proj2 (Z.leb_gt (k + 1) k)) by lia.
    by destruct (map_bit full k).
  - rewrite andb_false_r. f_equal. rewrite <- !andb_assoc. f_equal.
    destruct (Z.leb_spec k num), (Z.leb_spec (k + 1) num), (Z.ltb_spec num (k + 1 + Z.of_nat n)), (Z.ltb_spec num (k + Z.of_nat (S n))); try lia; done.
Qed.

Lemma walk_args_finds d base : args_mapped d -> forall n k s, Z.of_nat k + Z.of_nat n = numberOfArgs d -> s = u32 (base + 4 * Z.of_nat k) ->
  finds m (walk_args n (Z.of_nat k + 1) s d) (arg_cells d base k n) tt.
Proof.
  intros Hm. unfold arg_cells. induction n as [|n IH]; intros k s Hk Hs; cbn [walk_args seq omap list_omap]; [done|].
  eapply finds_res; [apply (arg_is_ref_spec (argTypeMap d)); [lia|unfold args_mapped in Hm; lia|apply bits_start]|].
  replace (Z.of_nat k + 1 - 1) with (Z.of_nat k) by lia. rewrite (proj2 (Z.leb_le 0 (Z.of_nat k))), (proj2 (Z.ltb_lt (Z.of_nat k) (0 + _))) by lia.
  rewrite !andb_true_r. rewrite <- Hs.
  assert (HR : finds m (walk_args n (Z.of_nat k + 1 + 1) (u32 (s + 4)) d) (omap (fun i => if map_bit (argTypeMap d) (Z.of_nat i) then Some (RRef (u32 (base + 4 * Z.of_nat i))) else None) (seq (S k) n)) tt).
  { replace (Z.of_nat k + 1 + 1) with (Z.of_nat (S k) + 1) by lia. apply IH; [lia|].
    rewrite Hs. unfold u32. rewrite uwrap_add_idemp_l. f_equal. lia. }
  destruct (map_bit (argTypeMap d) (Z.of_nat k)); [apply (finds_bind m _ _ [RRef s] _ tt); [done|exact HR]|apply (finds_bind m _ _ [] _ tt); [done|exact HR]].
Qed.

Lemma walk_parameters_finds d eip sp : args_mapped d -> finds m (walk_parameters text d eip sp) (parameter_cells d eip sp) tt.
Proof.
  intros Hm. unfold walk_parameters, parameter_cells.
  destruct (Z.le_gt_cases 0 (numberOfArgs d)) as [Hn|Hn].
  - destruct (within eip (callnative_static text)).
    + apply (walk_args_finds d (sp + 8) Hm (Z.to_nat (numberOfArgs d)) 0); [lia|]. f_equal. lia.
    + apply (finds_bind m _ _ [RRef (u32 (sp + 8))] _ tt); [done|].
      apply (walk_args_finds d (sp + 12) Hm (Z.to_nat (numberOfArgs d)) 0); [lia|]. unfold u32. rewrite uwrap_add_idemp_l. f_equal. lia.
  - replace (Z.to_nat (numberOfArgs d)) with 0%nat by lia. by destruct (within eip (callnative_static text)).
Qed.

Lemma walk_slots_finds map ebp stackmap n_bits : n_bits <= 128 -> length stackmap = 128%nat ->
  (forall i, 0 <= i < n_bits -> stackmap !! Z.to_nat i = Some (Z.b2z (map_bit map i))) ->
  forall n k s, Z.of_nat (k + n) <= n_bits -> s = u32 (ebp - 4 * (Z.of_nat k + 1)) ->
  finds m (walk_slots isInHeap n (Z.of_nat k) s stackmap) (slot_cells map ebp k n) tt.
Proof.
  intros Hn Hl Hmap. unfold slot_cells. induction n as [|n IH]; intros k s Hk Hs; cbn [walk_slots seq omap list_omap]; [done|].
  rewrite Hmap by lia.
  assert (HR : finds m (walk_slots isInHeap n (Z.of_nat k + 1) (u32 (s - 4)) stackmap)
    (omap (fun i => let a := u32 (ebp - 4 * (Z.of_nat i + 1)) in if map_bit map (Z.of_nat i) && isInHeap (load32 m a) then Some (RRef a) else None) (seq (S k) n)) tt).
  { replace (Z.of_nat k + 1) with (Z.of_nat (S k)) by lia. apply IH; [lia|]. rewrite Hs. unfold u32, Z.sub. rewrite uwrap_add_idemp_l. f_equal. lia. }
  rewrite <- Hs. cbv zeta. destruct (map_bit map (Z.of_nat k)); cbn [Z.b2z Z.eqb andb].
  - destruct (isInHeap (load32 m s)) eqn:Eh.
    + apply (finds_bind m _ _ [RRef s] _ tt); [|exact HR]. apply finds_word. by rewrite Eh.
    + apply (finds_bind m _ _ [] _ tt); [|exact HR]. apply finds_word. by rewrite Eh.
  - apply (finds_bind m _ _ [] _ tt); [done|exact HR].
Qed.

(** the variables of the loop agree with what is known *)
Definition state_ok (known : option (option code_pos)) (f : frame_state) : Prop :=
  (forall q, known = Some q -> f.1 = q) /\ length f.2 = 128%nat.

Lemma walk_frame_finds sp ebp eip known known' last l f : frame_roots sp ebp eip known known' last l -> state_ok known f ->
  exists f', finds m (walk_frame text classes methods_of mcode old_pre isInHeap sp ebp eip f) l (last, f') /\ state_ok known' f'.
Proof.
  intros F [Hk Hl]. destruct f as [meth stackmap]. cbn [fst snd] in *. unfold walk_frame.
  destruct F as [known T E W|p T E N Hm|T E N|known T E N|known p n_bits map T Hp Hmap Hs Hb|known T Hp]; unfold in_text in T; rewrite T; cbn [andb].
  - exists (meth, stackmap). split; [|done]. rewrite E. apply finds_word. by rewrite (proj2 (Z.eqb_neq _ _) W).
  - exists (meth, stackmap). split; [|done]. rewrite E, N, (Hk _ eq_refl).
    rewrite <- (app_nil_r (parameter_cells _ _ _)). eapply finds_bind; [by apply walk_parameters_finds|done].
  - exists (meth, stackmap). split; [|done]. by rewrite E, N, (Hk _ eq_refl).
  - exists (meth, stackmap). split; [|done]. by rewrite E, N.
  - destruct (find_stackmap_spec old_pre p eip n_bits map stackmap Hmap) as (out & Ho & Hlen & Hbits); [lia|done|done|].
    exists (Some p, out). split; [|split; [by intros q [= <-]|done]]. eapply finds_res; [exact Hp|]. cbv beta iota. eapply finds_res; [exact Ho|]. cbv beta iota.
    rewrite <- (app_nil_r (slot_cells _ _ _ _)). eapply finds_bind; [|done].
    apply (walk_slots_finds map ebp out n_bits ltac:(unfold sizeof_stackmap in *; lia) Hlen Hbits (slots sp ebp) 0); [lia|]. f_equal.
  - exists (meth, stackmap). split; [|done]. eapply finds_res; [exact Hp|]. done.
Qed.

Lemma walk_frames_finds thread top n : forall known sp ebp eip l, load32 m (thread + t_stackTop) = top ->
  stack_roots top n known sp ebp eip l -> forall fuel f, (n <= fuel)%nat -> state_ok known f ->
  finds m (walk_frames text classes methods_of mcode old_pre isInHeap fuel thread sp ebp eip f) l tt.
Proof.
  intros known sp ebp eip l Ht HS. induction HS as [n known sp ebp eip Hend|n known known' sp ebp eip l H0 Hlt F|n known known' sp eip l H0 Hlt F|n known known' sp ebp eip l l' H0 Hlt He F HS IH];
    intros fuel f Hfuel Hf.
  - destruct fuel; cbn [walk_frames]; (destruct (Z.eqb_spec sp NULL) as [|Hnn]; [done|]); (destruct Hend as [|Hge]; [done|]);
      apply finds_word; rewrite Ht, (proj2 (Z.ltb_ge sp top)) by lia; done.
  - destruct fuel as [|fuel]; [lia|]. cbn [walk_frames]. rewrite (proj2 (Z.eqb_neq _ _) H0). apply finds_word. rewrite Ht, (proj2 (Z.ltb_lt _ _) Hlt). cbn [negb].
    destruct (walk_frame_finds _ _ _ _ _ _ _ f F Hf) as (f' & E & _). rewrite <- (app_nil_r l). eapply finds_bind; [exact E|]. done.
  - destruct fuel as [|fuel]; [lia|]. cbn [walk_frames]. rewrite (proj2 (Z.eqb_neq _ _) H0). apply finds_word. rewrite Ht, (proj2 (Z.ltb_lt _ _) Hlt). cbn [negb].
    destruct (walk_frame_finds _ _ _ _ _ _ _ f F Hf) as (f' & E & _). rewrite <- (app_nil_r l). eapply finds_bind; [exact E|]. done.
  - destruct fuel as [|fuel]; [lia|]. cbn [walk_frames]. rewrite (proj2 (Z.eqb_neq _ _) H0). apply finds_word. rewrite Ht, (proj2 (Z.ltb_lt _ _) Hlt). cbn [negb].
    destruct (walk_frame_finds _ _ _ _ _ _ _ f F Hf) as (f' & E & Hf'). eapply finds_bind; [exact E|]. cbv beta iota zeta. rewrite (proj2 (Z.eqb_neq _ _) He).
    apply finds_word, finds_word. apply IH; [lia|done].
Qed.
End Stack.

Section StackTheorem.
Context {B : Type}.
Context (text : kernel_text) (classes : dom_state B) (methods_of : Z -> Z) (mcode : gmap Z Z) (old_pre : Z -> nat -> Z).

(** C37 The stack walk returns and visits, in this order, exactly the reference
    slots of the frames of a thread: those their stack maps mark and that lead
    into the heap, and the parameters that C code passed to Java methods.
    Nothing depends on what its two uninitialised variables hold, provided
    that the maps cover the frames and the thread is not in a transfer to
    Java itself. *)
Theorem walkStack_visits isInHeap m thread n l junk fuel :
  stack_roots text classes methods_of mcode old_pre isInHeap m (load32 m (thread + t_stackTop)) n None
    (load32 m (thread + t_context + 4 * PCB_ESP)) (load32 m (thread + t_context + 4 * PCB_EBP)) (load32 m (thread + t_context + 4 * PCB_EIP)) l ->
  (n <= fuel)%nat -> length junk.2 = 128%nat ->
  finds m (walkStack text classes methods_of mcode old_pre isInHeap fuel junk thread) l tt.
Proof.
  intros HS Hn Hl. unfold walkStack. do 3 apply finds_word. eapply walk_frames_finds; [done|exact HS|done|]. by split.
Qed.
End StackTheorem.

(** ** Static fields *)

Section Statics.
Context {B : Type} `{!Allocator B}.
Context (java_lang_Object_class : Z) (rank : Z -> nat) (m : memory).
Abbreviation dom_ok := (dom_ok java_lang_Object_class rank).
Implicit Types s : dom_state B.

(** a word of static fields that the map of its class marks as a reference *)
Definition static_ref s (lib : Z) (i : nat) (f a : Z) : Prop :=
  static_word s lib i f a /\ exists l o d, libDescs s !! lib = Some l /\ classObjs s !! class_of l (Z.of_nat i) = Some o /\
    classdescs (ds_cs s) !! classDesc o = Some d /\ map_bit (staticsMap d) f = true.

Definition class_cells s (c : Z) : list root :=
  match classObjs s !! c with
  | Some o =>
      match classdescs (ds_cs s) !! classDesc o with
      | Some d => omap (fun f => if map_bit (staticsMap d) (Z.of_nat f) then Some (RRef (staticFields o + 4 * Z.of_nat f)) else None)
                    (seq 0 (Z.to_nat (staticFieldsSize d)))
      | None => []
      end
  | None => []
  end.
Definition lib_cells s (lib : Z) : list root :=
  match libDescs s !! lib with
  | Some l => seq 0 (Z.to_nat (lib_numberOfClasses l)) ≫= fun i => class_cells s (class_of l (Z.of_nat i))
  | None => []
  end.
Definition static_cells s : list root := libs s ≫= lib_cells s.

(** the maps are long enough for their classes *)
Definition maps_cover s : Prop := forall c d, classdescs (ds_cs s) !! c = Some d -> staticFieldsSize d <= 8 * Z.of_nat (length (staticsMap d)).

Lemma for_bits_finds full (base : Z) : forall n k map bits, Z.of_nat k + Z.of_nat n <= 8 * Z.of_nat (length full) ->
  bits_left full (Z.of_nat k) map bits ->
  finds m (for_bits n (Z.of_nat k) map bits (fun index => visit_cell (RRef (base + 4 * index))))
    (omap (fun f => if map_bit full (Z.of_nat f) then Some (RRef (base + 4 * Z.of_nat f)) else None) (seq k n)) tt.
Proof.
  induction n as [|n IH]; intros k map bits Hn HB; cbn [for_bits seq omap list_omap]; [done|].
  destruct (next_bit u8 full (Z.of_nat k) map bits testbit_u8 ltac:(lia) HB) as (b & map' & E & Hb & HB').
  eapply finds_res; [exact E|]. cbv beta iota zeta. rewrite Hb.
  assert (HR : finds m (for_bits n (Z.of_nat k + 1) map' (Z.shiftr b 1) (fun index => visit_cell (RRef (base + 4 * index))))
    (omap (fun f => if map_bit full (Z.of_nat f) then Some (RRef (base + 4 * Z.of_nat f)) else None) (seq (S k) n)) tt).
  { replace (Z.of_nat k + 1) with (Z.of_nat (S k)) by lia. apply IH; [lia|]. by replace (Z.of_nat (S k)) with (Z.of_nat k + 1) by lia. }
  destruct (map_bit full (Z.of_nat k)); cbn [Z.b2z Z.eqb].
  - apply (finds_bind m _ _ [RRef (base + 4 * Z.of_nat k)] _ tt); [done|exact HR].
  - apply (finds_bind m _ _ [] _ tt); [done|exact HR].
Qed.

(** what [dom_ok] says about a class object *)
Lemma class_known s base lib i : dom_ok s base -> lib ∈ libs s ->
  exists l, libDescs s !! lib = Some l /\
  ((i < Z.to_nat (lib_numberOfClasses l))%nat -> exists sl o d, libraries s !! sharedLib l = Some sl /\ (i < n_classes sl)%nat /\
    classObjs s !! class_of l (Z.of_nat i) = Some o /\ classDesc o = class_at sl (Z.of_nat i) /\
    classdescs (ds_cs s) !! classDesc o = Some d).
Proof.
  intros D Hin. destruct (dk_lib _ _ _ _ D lib Hin) as (l & Hl & Hok). exists l. split; [done|]. intros Hi.
  destruct (lk_shared _ _ _ _ _ Hok) as (sl & Hsl & Hn & _ & Hm & _). destruct (Hm i) as (o & d & Ho & Hd & Hc & _); [unfold n_classes; lia|].
  exists sl, o, d. split; [done|]. split; [unfold n_classes; lia|]. by rewrite Hc.
Qed.

Lemma walk_libs_finds s base : dom_ok s base -> maps_cover s -> forall l, l ⊆ libs s -> finds m (walk_libs s l) (l ≫= lib_cells s) tt.
Proof.
  intros D Hm. induction l as [|lib l IH]; intros Hl; cbn [walk_libs mbind list_bind]; [done|].
  assert (Hin : lib ∈ libs s) by (apply Hl, list_elem_of_here).
  destruct (dk_lib _ _ _ _ D lib Hin) as (ld & Hld & _). eapply finds_res; [by rewrite Hld|]. cbv beta.
  eapply finds_bind; [|apply IH; intros x Hx; apply Hl; by apply list_elem_of_further]. unfold lib_cells. rewrite Hld.
  assert (Hgen : forall n i, (i + n <= Z.to_nat (lib_numberOfClasses ld))%nat ->
    finds m (walk_classes s n (Z.of_nat i) ld) (seq i n ≫= fun i => class_cells s (class_of ld (Z.of_nat i))) tt); [|by apply (Hgen _ 0%nat)].
  induction n as [|n IHn]; intros i Hi; cbn [walk_classes seq mbind list_bind]; [done|].
  eapply finds_bind; [|replace (Z.of_nat i + 1) with (Z.of_nat (S i)) by lia; apply IHn; lia].
  destruct (class_known s base lib i D Hin) as (l2 & Hl2 & Hc). rewrite Hld in Hl2. injection Hl2 as <-.
  destruct (Hc ltac:(lia)) as (sl & o & d & _ & _ & Ho & _ & Hd).
  unfold walkClass, class_cells. eapply finds_res; [unfold clsobj; by rewrite Ho|]. eapply finds_res; [exact (cls_some _ _ _ Hd)|]. rewrite Ho, Hd.
  destruct (Z.le_gt_cases 0 (staticFieldsSize d)) as [Hs|Hs].
  - apply (for_bits_finds (staticsMap d) (staticFields o) _ 0 (staticsMap d) 0); [pose proof (Hm _ _ Hd); lia|apply bits_start].
  - by replace (Z.to_nat (staticFieldsSize d)) with 0%nat by lia.
Qed.

Lemma class_cells_ref s base lib l i r : dom_ok s base -> lib ∈ libs s -> libDescs s !! lib = Some l -> (i < Z.to_nat (lib_numberOfClasses l))%nat ->
  r ∈ class_cells s (class_of l (Z.of_nat i)) <-> exists f a, r = RRef a /\ static_ref s lib i f a.
Proof.
  intros D Hin Hl Hi. destruct (class_known s base lib i D Hin) as (l2 & Hl2 & Hc). rewrite Hl in Hl2. injection Hl2 as <-.
  destruct (Hc Hi) as (sl & o & d & Hsl & Hisl & Ho & Hco & Hd). unfold class_cells. rewrite Ho, Hd. rewrite list_elem_of_omap. split.
  - intros (f & Hf%elem_of_seq & Hr). destruct (map_bit (staticsMap d) (Z.of_nat f)) eqn:Eb; [|done]. injection Hr as <-.
    exists (Z.of_nat f), (staticFields o + 4 * Z.of_nat f). split; [done|]. split; [|by exists l, o, d].
    exists l, sl, d, o. rewrite <- Hco. split_and!; try done; lia.
  - intros (f & a & -> & (l2 & sl2 & d2 & o2 & _ & Hl2 & Hsl2 & _ & Hd2 & Ho2 & Hf & ->) & (l3 & o3 & d3 & Hl3 & Ho3 & Hd3 & Hb)).
    rewrite Hl in Hl2, Hl3. injection Hl2 as <-. injection Hl3 as <-. rewrite Ho in Ho2, Ho3. injection Ho2 as <-. injection Ho3 as <-.
    rewrite Hd in Hd3. injection Hd3 as <-. rewrite Hsl in Hsl2. injection Hsl2 as <-. rewrite <- Hco, Hd in Hd2. injection Hd2 as <-.
    exists (Z.to_nat f). rewrite Z2Nat.id by lia. rewrite Hb. split; [apply elem_of_seq; lia|done].
Qed.

Lemma lib_cells_ref s base lib r : dom_ok s base -> lib ∈ libs s -> r ∈ lib_cells s lib <-> exists i f a, r = RRef a /\ static_ref s lib i f a.
Proof.
  intros D Hin. destruct (dk_lib _ _ _ _ D lib Hin) as (l & Hl & _). unfold lib_cells. rewrite Hl, list_elem_of_bind. split.
  - intros (i & Hr & Hi%elem_of_seq). exists i. by apply (class_cells_ref s base lib l i r D Hin Hl ltac:(lia)).
  - intros (i & f & a & -> & Hs). assert (Hi : (i < Z.to_nat (lib_numberOfClasses l))%nat).
    { destruct Hs as [(l2 & sl & d & o & _ & Hl2 & Hsl & Hi & _) _]. rewrite Hl in Hl2. injection Hl2 as <-.
      destruct (dk_lib _ _ _ _ D lib Hin) as (l2 & Hl2 & Hok). rewrite Hl in Hl2. injection Hl2 as <-.
      destruct (lk_shared _ _ _ _ _ Hok) as (sl2 & Hsl2 & Hn & _). rewrite Hsl in Hsl2. injection Hsl2 as <-. rewrite Hn. exact Hi. }
    exists i. split; [|apply elem_of_seq; lia]. apply (class_cells_ref s base lib l i _ D Hin Hl Hi). by exists f, a.
Qed.

Lemma static_cells_ref s base r : dom_ok s base -> r ∈ static_cells s <-> exists lib i f a, r = RRef a /\ static_ref s lib i f a.
Proof.
  intros D. unfold static_cells. rewrite list_elem_of_bind. split.
  - intros (lib & Hr & Hin). exists lib. by apply (lib_cells_ref s base).
  - intros (lib & i & f & a & -> & Hs). assert (Hin : lib ∈ libs s) by (by destruct Hs as [(? & ? & ? & ? & ? & _) _]).
    exists lib. split; [|done]. apply (lib_cells_ref s base lib _ D Hin). by exists i, f, a.
Qed.

(** the same cell is the same field *)
Lemma static_ref_inj s base lib i f a lib' i' f' : dom_ok s base -> static_ref s lib i f a -> static_ref s lib' i' f' a -> lib = lib' /\ i = i' /\ f = f'.
Proof.
  intros D [W _] [W' _]. destruct (decide ((lib, i, f) = (lib', i', f'))) as [[= -> -> ->]|Hne]; [done|].
  destruct (static_words_apart _ _ _ _ _ _ _ _ _ _ _ _ D W W' Hne); lia.
Qed.

Lemma static_cells_nodup s base : dom_ok s base -> NoDup (static_cells s).
Proof.
  intros D. unfold static_cells. apply NoDup_bind; [| |exact (dk_nodup _ _ _ _ D)].
  - intros lib lib' r H1 H2 Hr Hr'. apply (lib_cells_ref s base) in Hr as (i & f & a & -> & Hs); [|done..].
    apply (lib_cells_ref s base) in Hr' as (i' & f' & a' & [= <-] & Hs'); [|done..]. by destruct (static_ref_inj _ _ _ _ _ _ _ _ _ D Hs Hs').
  - intros lib Hin. destruct (dk_lib _ _ _ _ D lib Hin) as (l & Hl & _). unfold lib_cells. rewrite Hl. apply NoDup_bind; [| |apply NoDup_seq].
    + intros i i' r Hi%elem_of_seq Hi'%elem_of_seq Hr Hr'. apply (class_cells_ref s base lib l) in Hr as (f & a & -> & Hs); [|done|done|done|lia].
      apply (class_cells_ref s base lib l) in Hr' as (f' & a' & [= <-] & Hs'); [|done|done|done|lia]. by destruct (static_ref_inj _ _ _ _ _ _ _ _ _ D Hs Hs') as (_ & ? & _).
    + intros i _. unfold class_cells. destruct (classObjs s !! _) as [o|]; [|constructor]. destruct (classdescs _ !! _) as [d|]; [|constructor].
      generalize 0%nat. induction (Z.to_nat (staticFieldsSize d)) as [|n IH]; intros k; cbn [seq omap list_omap]; [constructor|].
      destruct (map_bit (staticsMap d) (Z.of_nat k)); [|apply IH]. apply NoDup_cons. split; [|apply IH].
      intros (x & Hx%elem_of_seq & Hx2)%list_elem_of_omap. destruct (map_bit _ (Z.of_nat x)); [|done]. injection Hx2 as Hx2. lia.
Qed.

(** C38 The walk over the classes of a domain returns and visits exactly the
    static fields that hold references according to the maps of their
    classes: those of every class of every copy of a library, each once, in
    words that do not overlap. *)
Theorem walkStatics_visits s base : dom_ok s base -> maps_cover s ->
  finds m (walkStatics s) (static_cells s) tt /\
  (forall r, r ∈ static_cells s <-> exists lib i f a, r = RRef a /\ static_ref s lib i f a) /\
  NoDup (static_cells s) /\
  forall r r', r ∈ static_cells s -> r' ∈ static_cells s -> root_addr r < root_addr r' -> root_addr r + 4 <= root_addr r'.
Proof.
  intros D Hm. split; [by apply (walk_libs_finds s base)|]. split; [intros r; by apply (static_cells_ref s base)|].
  split; [by apply (static_cells_nodup s base)|]. intros r r' Hr Hr'.
  apply (static_cells_ref s base _ D) in Hr as (lib & i & f & a & -> & [W _]). apply (static_cells_ref s base _ D) in Hr' as (lib' & i' & f' & a' & -> & [W' _]).
  cbn [root_addr]. intros Hlt. destruct (decide ((lib, i, f) = (lib', i', f'))) as [[= -> -> ->]|Hne].
  - destruct (static_word_at _ _ _ _ _ _ _ _ D W) as (l & sl & d & Hl & Hsl & _ & _ & _ & _ & _ & _ & _ & Ha & _).
    destruct (static_word_at _ _ _ _ _ _ _ _ D W') as (l' & sl' & d' & Hl' & Hsl' & _ & _ & _ & _ & _ & _ & _ & Ha' & _).
    rewrite Hl in Hl'. injection Hl' as <-. rewrite Hsl in Hsl'. injection Hsl' as <-. lia.
  - destruct (static_words_apart _ _ _ _ _ _ _ _ _ _ _ _ D W W' Hne); lia.
Qed.
End Statics.

(** ** Examples: a thread in a method of the domain of [DomClassLoad]

    The frame at 0x60000 has three slots, of which the map marks the first and
    the last; the first leads into the heap.  C code called the method with
    one parameter. *)

Definition demo_text : kernel_text :=
  MkText 0x100000 0x110000 (0x101000, 0x101010) (0x102000, 0x102010) (0x103000, 0x103010) [0x104000] 0x104010 (0x105000, 0x105010)
    (0x106000, 0x106010) (0x107000, 0x107010) (0x108000, 0x108010).
Definition demo_memory : memory :=
  foldr (fun p m => store32 m p.1 p.2) (fun _ => 0)
    [(0x70008, 0x60030); (0x70000 + 28 + 24, 0x60014); (0x70000 + 28 + 28, 0x60000); (0x70000 + 28 + 48, 0x200008);
     (0x60010, 0x10008); (0x60008, 7); (0x60014, 0x60030); (0x60018, 0x102008); (0x6001c, 0x10008)].
Definition demo_in_heap (v : Z) : bool := (0x10000 <=? v) && (v <? 0x10400).

Lemma walkStack_visits_witness : exists l,
  finds demo_memory (walkStack demo_text dl_after CodeLookInv.demo_methods CodeLookInv.demo_code (fun _ _ => 0) demo_in_heap 2
    (None, replicate 128 1) 0x70000) l tt /\ l = [RRef 0x60010; RRef 0x6001c].
Proof.
  set (p := CodeLookInv.demo_pos 0x200008).
  exists (slot_cells demo_in_heap demo_memory [5] 0x60014 0 (slots 0x60000 0x60014) ++ parameter_cells demo_text (cp_desc p) 0x102008 0x60014 ++ []).
  split; [|vm_compute; reflexivity].
  apply (walkStack_visits demo_text dl_after CodeLookInv.demo_methods CodeLookInv.demo_code (fun _ _ => 0) demo_in_heap demo_memory 0x70000 2);
    [|apply le_n|reflexivity].
  change (load32 demo_memory (0x70000 + t_stackTop)) with 0x60030.
  change (load32 demo_memory (0x70000 + t_context + 4 * PCB_ESP)) with 0x60000.
  change (load32 demo_memory (0x70000 + t_context + 4 * PCB_EBP)) with 0x60014.
  change (load32 demo_memory (0x70000 + t_context + 4 * PCB_EIP)) with 0x200008.
  apply (sr_frame _ _ _ _ _ _ _ _ 1 None (Some (Some p))); [discriminate|reflexivity|discriminate| |].
  - apply (fr_java _ _ _ _ _ _ _ _ _ _ None p 3 [5]); [reflexivity|vm_compute; reflexivity| |vm_compute; split; discriminate|vm_compute; discriminate].
    exists [], (MkSymbol 8 0 0 (SymStackMap 4 3 [5])), [], 0x200008, 0x200004. split; [reflexivity|]. split; [vm_compute; reflexivity|].
    split; [by left|]. intros i y a' b' n' m' Hi. by rewrite lookup_nil in Hi.
  - change (load32 demo_memory 0x60014) with 0x60030. change (load32 demo_memory (0x60014 + 4)) with 0x102008.
    apply (sr_frame _ _ _ _ _ _ _ _ 0 (Some (Some p)) (Some (Some p))); [discriminate|reflexivity|discriminate| |].
    + change false with (leaves_java demo_text 0x102008).
      apply (fr_enter _ _ _ _ _ _ _ _ _ _ p); [reflexivity|reflexivity|reflexivity|vm_compute; discriminate].
    + apply sr_end. right. vm_compute. discriminate.
Defined.

Lemma walkStatics_visits_witness : finds demo_memory (walkStatics dl_after) (static_cells dl_after) tt /\
  NoDup (static_cells dl_after) /\ length (static_cells dl_after) = 3%nat.
Proof.
  destruct dl_after_ok as (base & l & D & _).
  assert (Hm : maps_cover dl_after).
  { assert (HA : map_Forall (fun _ d => staticFieldsSize d <= 8 * Z.of_nat (length (staticsMap d))) (classdescs (ds_cs dl_after)))
      by (apply (bool_decide_unpack _); vm_compute; exact I). exact HA. }
  destruct (walkStatics_visits 40 dl_rank demo_memory dl_after base D Hm) as (H & _ & Hn & _). split; [exact H|]. split; [exact Hn|]. vm_compute. reflexivity.
Defined.
