(* ===== verification/Exceptions.v ===== *)
(** * Java exceptions (core/exception_handler.c)

    Compiled code and the kernel raise an exception with [exceptionHandlerMsg];
    [throw_exception] then looks at the stack of the current thread, frame by
    frame, for a method whose exception table covers the position.  A frame of
    [receive_portalcall] ends the search: the exception goes to the caller of
    the portal, and the thread of the service starts again. *)

From S2P Require Import Prelude Mem CString Malloc Alloc CodeMem.
From S2P Require Import GCHeap Roots Linker.
From S2P Require Import JString Classes Types DomainClasses CodeLookup.
From S2P Require Import RunQueue Portal.
#[local] Open Scope Z_scope.

(** ** Exception codes (Headers/core/exception_handler.h) *)

Definition THROW (n : Z) : Z := u32 (- n).
Definition THROW_RuntimeException : Z := THROW 1.
Definition THROW_NullPointerException : Z := THROW 2.
Definition THROW_OutOfMemoryError : Z := THROW 3.
Definition THROW_MemoryIndexOutOfBounds : Z := THROW 4.
Definition THROW_StackOverflowError : Z := THROW 5.
Definition THROW_ArithmeticException : Z := THROW 6.
Definition THROW_MagicNumber : Z := THROW 7.
Definition THROW_ParanoidCheck : Z := THROW 8.
Definition THROW_StackJam : Z := THROW 9.
Definition THROW_ArrayIndexOutOfBounds : Z := THROW 10.
Definition THROW_UnsupportedByteCode : Z := THROW 11.
Definition THROW_InvalidMemory : Z := THROW 12.
Definition THROW_MemoryExhaustedException : Z := THROW 13.
Definition THROW_DomainTerminatedException : Z := THROW 14.

(** ** What the handler uses of the other components *)

(** [X] is the part of the state that holds the heaps and the stacks.
    [alloc_object] and [new_string] allocate in the heap of a domain;
    [call_java] is [callnative_special]: compiled code, with the object and
    the parameters, up to its return. *)
Class Runtime (X : Type) := {
  mem_of : X -> memory;
  set_mem : memory -> X -> X;
  alloc_object : Z -> Z -> X -> res (Z * X);
  new_string : Z -> cstring -> X -> res (Z * X);
  call_java : Z -> Z -> list Z -> X -> res X;
}.

(** where the thread goes on *)
Inductive caught :=
| Handler (ebp esp eip : Z)   (** [callnative_handler]: in compiled code *)
| Delivered                   (** the thread of a service starts again; another one runs *)
| Uncaught.                   (** [thread_exit] *)

Definition t_stack : Z := 4.
Definition PCB_EFLAGS : Z := 13.

Section Exceptions.
Context {X A : Type} `{!Copying X} `{!Runtime X}.
Context (text : kernel_text) (receive_portal_init : Z).
(** the classes of the current domain, its collector's thread, and what the linker knows of methods *)
Context (java_lang_Object : Z) (gcThread : Z).
Context (classes : dom_state A) (methods_of : Z -> Z) (mcode : gmap Z Z) (exceptionTable : gmap Z (list ExceptionDesc)).
(** bounds of [check_assign] and of the frames on a stack *)
Context (fuel depth : nat).
Abbreviation sys := (sys X).

Definition smem (s : sys) : memory := mem_of (heaps s).
Definition set_smem (m : memory) (s : sys) : sys := set_heaps (set_mem m (heaps s)) s.

(** [in_portalcall] of debug/symfind.c *)
Definition in_portalcall (eip : Z) : bool := within eip (receive_portalcall text).

(** ** The exception table of a method *)

(** the position and the bounds are compared as unsigned numbers *)
Definition covers (e : ExceptionDesc) (pos : Z) : bool := (u32 (ex_start e) <=? pos) && (pos <? u32 (ex_end e)).
Fixpoint find_handler (l : list ExceptionDesc) (pos exclass : Z) : res (option ExceptionDesc) :=
  match l with
  | [] => Ok None
  | e :: l =>
      if covers e pos then
        if ex_type e =? NULL then Ok (Some e) else
        let! b := check_assign java_lang_Object (ds_cs classes) fuel (ex_type e) exclass in
        if (b : bool) then Ok (Some e) else find_handler l pos exclass
      else find_handler l pos exclass
  end.
(** the handler in the frame that returns to [eip] *)
Definition frame_handler (eip exclass : Z) : res (option (code_pos * ExceptionDesc)) :=
  let! q := findMethodAtAddrInDomain methods_of mcode eip classes in
  match q with
  | None => Ok None
  | Some p =>
      let! h := find_handler (default [] (exceptionTable !! cp_method p)) (u32 (cp_bytecodePos p)) exclass in
      Ok (match h with Some e => Some (p, e) | None => None end)
  end.

(** ** Exceptions that leave a service *)

(** The thread is put back to the start of the receive loop; the code that
    takes it there is in its context and on its stack. *)
Definition reinit_service_thread (s : sys) : res sys :=
  let c := cur s in
  let! x := pthr s c in
  let! v := svc_ s (processingDEP x) in
  let m := smem s in
  let top := load32 m (c + t_stackTop) in
  let m := store32 m (top - 4) (processingDEP x) in
  let m := store32 m (top - 8) (thread_exit text).1 in
  let m := store32 m (c + t_context + 4 * PCB_ESP) (top - 8) in
  let m := store32 m (c + t_context + 4 * PCB_EBP) NULL in
  let m := store32 m (c + t_context + 4 * PCB_EIP) receive_portal_init in
  let m := store32 m (c + t_context + 4 * PCB_EFLAGS)
             (Z.ldiff (load32 m (c + t_context + 4 * PCB_EFLAGS)) 0x200) in
  let s := upd_pthr c (set_pc (PRecvLoop (svc_index v))) (set_smem m s) in
  lift (Sched_portal_destroy_handoff_to_sender (mostRecentlyCalledBy x)) s.

(** [portalReturn] of the caller becomes a copy of the exception, unless its
    domain has gone *)
Definition deliver (exception : Z) (s : sys) : res sys :=
  let c := cur s in
  let! x := pthr s c in
  let! d := pdom s (callerDomain x) in
  let! s := (if negb (callerDomainID x =? pd_id d) || negb (pd_state d =? DOMAIN_STATE_ACTIVE) then Ok s
             else
               let source := mostRecentlyCalledBy x in
               let! sd := thr (sch s) source in
               let! _ := pthr s source in
               let! cd := curdom (sch s) in
               let! '(r, _, h) := copy_reference cd (t_domain sd) exception RECEIVE_PORTAL_QUOTA (heaps s) in
               Ok (upd_pthr source (set_return r PORTAL_RETURN_TYPE_EXCEPTION) (set_heaps h s))) in
  reinit_service_thread s.

(** ** throw_exception *)

Fixpoint unwind (n : nat) (thread exception exclass sp : Z) (s : sys) : res (caught * sys) :=
  let m := smem s in
  if (load32 m (thread + t_stack) <? sp) && (sp <? load32 m (thread + t_stackTop)) then
    match n with
    | O => Err EFuel
    | S n =>
        let ebp := load32 m sp in
        let eip := load32 m (sp + 4) in
        if in_portalcall eip then let! s := deliver exception s in Ok (Delivered, s) else
        let! h := frame_handler eip exclass in
        match h with
        | Some (p, e) =>
            (* the operand stack holds the exception only *)
            let sp := u32 (ebp - 4 * sizeLocalVars (cp_desc p) - 4) in
            Ok (Handler ebp sp (u32 (ex_addr e + cp_code p)), set_smem (store32 m sp exception) s)
        | None => unwind n thread exception exclass ebp s
        end
    end
  else Ok (Uncaught, s).

(** [exclass] is the pointer in front of the vtable *)
Definition throw_exception (exception sp : Z) (s : sys) : res (caught * sys) :=
  let! exclass := obj2ClassDesc (smem s) exception in
  if negb (exclass =? NULL) then unwind depth (cur s) exception exclass sp s else Ok (Uncaught, s).

(** ** Creating exceptions *)

Fixpoint find_constructor (c : Z) (j : nat) (l : list MethodDesc) (signature : cstring) : option Z :=
  match l with
  | [] => None
  | m :: l =>
      if strcmp_eq (str "<init>") (m_name m) && strcmp_eq (m_signature m) signature then Some (code_of methods_of mcode c j)
      else find_constructor c (S j) l signature
  end.
(** the constructor, when the class has one *)
Definition construct (domain exclass self : Z) (d : ClassDesc) (details : option cstring) (x : X) : res X :=
  match details with
  | None =>
      match find_constructor exclass 0 (methods d) (str "()V") with
      | Some c => let! _ := assert_ "c != 0" (negb (c =? 0)) in call_java c self [] x
      | None => Ok x
      end
  | Some text =>
      match find_constructor exclass 0 (methods d) (str "(Ljava/lang/String;)V") with
      | Some c =>
          let! '(p, x) := new_string domain text x in
          let! _ := assert_ "c != 0" (negb (c =? 0)) in call_java c self [p] x
      | None => Ok x
      end
  end.
Definition createExceptionInDomain (domain : Z) (exception : cstring) (details : option cstring) (s : sys) : res (Z * sys) :=
  let! exclass := findClassDesc java_lang_Object exception (ds_cs classes) in
  if exclass =? NULL then Ok (NULL, s) else
  let! '(self, x) := alloc_object domain exclass (heaps s) in
  if self =? NULL then Ok (NULL, set_heaps x s) else
  let! d := cls exclass (ds_cs classes) in
  let! x := construct domain exclass self d details x in
  Ok (self, set_heaps x s).

(** ** exceptionHandler *)

(** [terminateDomain] refuses the domain of the current thread *)
Definition domain_panic_current : err := EAssert "curdom() != domain".

(** The chain of tests in [exceptionHandlerMsg], in its order; [None]: no
    exception is created for this code. *)
Definition exception_for (p : Z) (msg : cstring) : option (cstring * option cstring) :=
  if p =? THROW_RuntimeException then Some (str "java/lang/RuntimeException", Some msg)
  else if p =? THROW_NullPointerException then Some (str "java/lang/NullPointerException", None)
  else if p =? THROW_OutOfMemoryError then Some (str "java/lang/OutOfMemoryError", None)
  else if p =? THROW_MemoryIndexOutOfBounds then Some (str "java/lang/IndexOutOfBoundsException", Some (str "memory access out of range"))
  else if p =? THROW_StackOverflowError then Some (str "java/lang/StackOverflowError", None)
  else if p =? THROW_ArithmeticException then Some (str "java/lang/ArithmeticException", Some (str "divied by zero"))
  else if p =? THROW_ArrayIndexOutOfBounds then Some (str "java/lang/IndexOutOfBoundsException", Some (str "array index out of bounds"))
  else if p =? THROW_UnsupportedByteCode then Some (str "java/lang/RuntimeException", Some (str "unsupported bytecode (long/double/float)"))
  else if p =? THROW_InvalidMemory then Some (str "java/lang/RuntimeException", Some (str "memory invalid (revoked)"))
  else if p =? THROW_MemoryExhaustedException then Some (str "jx/zero/MemoryExhaustedException", None)
  else if p =? THROW_MemoryExhaustedException then Some (str "jx/zero/DomainTerminatedException", None)
  else None.
(** the codes that end in a message: [self] stays [NULL] *)
Definition reported_only (p : Z) : bool := (p =? THROW_ParanoidCheck) || (p =? THROW_StackJam) || (p =? NULL).

(** whether the collector of the domain is at work *)
Definition gc_running (s : sys) : res bool :=
  if gcThread =? NULL then Ok false else
  let! g := thr (sch s) gcThread in Ok (negb (t_state g =? STATE_AVAILABLE)).

(** [base]: the frame of this function on the stack *)
Definition exceptionHandlerMsg (p base : Z) (msg : cstring) (s : sys) : res (caught * sys) :=
  let! b := gc_running s in
  if (b : bool) then Err domain_panic_current else
  if p =? THROW_MagicNumber then Err domain_panic_current else
  let! cd := curdom (sch s) in
  let! '(self, s) :=
    (match exception_for p msg with
     | Some (cl, details) => createExceptionInDomain cd cl details s
     | None => Ok (if reported_only p then NULL else p, s)
     end) in
  if negb (self =? NULL) then throw_exception self base s else Ok (Uncaught, s).
Definition exceptionHandler (p base : Z) (s : sys) : res (caught * sys) := exceptionHandlerMsg p base (str "unknown") s.

(** the entries for single exceptions *)
Definition throw_new (exception : cstring) (details : option cstring) (base : Z) (s : sys) : res (caught * sys) :=
  let! cd := curdom (sch s) in
  let! '(self, s) := createExceptionInDomain cd exception details s in
  throw_exception self base s.
Definition throw_NullPointerException := throw_new (str "java/lang/NullPointerException") None.
Definition throw_IndexOutOfBounds := throw_new (str "java/lang/IndexOutOfBoundsException") (Some (str "memory access out of range")).
Definition throw_ArrayIndexOutOfBounds := throw_new (str "java/lang/IndexOutOfBoundsException") (Some (str "array index out of bounds")).
Definition throw_ArithmeticException := throw_new (str "java/lang/ArithmeticException") None.
Definition exceptionHandlerInternal (msg : cstring) := throw_new (str "java/lang/RuntimeException") (Some msg).
(** [thread_inc_current_stack]: stacks do not grow in this configuration *)
Definition throw_StackOverflowError : res (caught * sys) := Err (EPanic "").
End Exceptions.
