(* ===== verification/Unwinding.v ===== *)
(** * Where an exception ends up

    [throw_exception] is the search of the frames on the stack for the first
    one that handles the exception or belongs to a portal call; an exception
    that leaves a service reaches the caller. *)

From S2P Require Import Prelude Mem CString Malloc Alloc CodeMem.
From S2P Require Import GCHeap Roots Linker.
From S2P Require Import JString Classes Types DomainClasses DomClassInv DomClassLoad CodeLookup CodeLookInv.
From S2P Require Import RunQueue Portal PortalInv PortalCall Exceptions.
#[local] Open Scope Z_scope.

(** ** The search for a handler *)

Section Search.
Context {X A : Type} `{!Copying X} `{!Runtime X} `{!Allocator A}.
Context (text : kernel_text) (receive_portal_init : Z).
Context (java_lang_Object : Z) (gcThread : Z).
Context (classes : dom_state A) (methods_of : Z -> Z) (mcode : gmap Z Z) (exceptionTable : gmap Z (list ExceptionDesc)).
Context (fuel depth : nat).
Abbreviation sys := (sys X).
Abbreviation deliver := (deliver text receive_portal_init).
Abbreviation throw_exception := (throw_exception text receive_portal_init java_lang_Object classes methods_of mcode exceptionTable fuel depth).
Abbreviation unwind := (unwind text receive_portal_init java_lang_Object classes methods_of mcode exceptionTable fuel).

(** a frame: the frame pointer of the caller and the address to return to *)
Record stack_frame := MkFrame { sf_ebp : Z; sf_eip : Z }.

(** the frames of a stack between [lo] and [hi], from [sp] on *)
Fixpoint frames (m : memory) (lo hi sp : Z) (fs : list stack_frame) : Prop :=
  match fs with
  | [] => ~ lo < sp < hi
  | f :: fs => lo < sp < hi /\ load32 m sp = sf_ebp f /\ load32 m (sp + 4) = sf_eip f /\ frames m lo hi (sf_ebp f) fs
  end.

(** entry [e] handles exceptions of class [c] at [pos] *)
Definition handles (c pos : Z) (e : ExceptionDesc) : Prop :=
  u32 (ex_start e) <= pos < u32 (ex_end e) /\ (ex_type e = NULL \/ assignable java_lang_Object (ds_cs classes) (ex_type e) c).
(** the method that the frame returns to *)
Definition returns_to (f : stack_frame) (p : code_pos) : Prop :=
  findMethodAtAddrInDomain methods_of mcode (sf_eip f) classes = Ok (Some p).
Definition table_of (p : code_pos) : list ExceptionDesc := default [] (exceptionTable !! cp_method p).
(** the first entry of its table that handles the exception *)
Definition handled_by (c : Z) (f : stack_frame) (p : code_pos) (e : ExceptionDesc) : Prop :=
  returns_to f p /\ exists l1 l2, table_of p = l1 ++ e :: l2 /\ handles c (u32 (cp_bytecodePos p)) e /\
    forall e', e' ∈ l1 -> ~ handles c (u32 (cp_bytecodePos p)) e'.
Definition portal_frame (f : stack_frame) : Prop := in_portalcall text (sf_eip f) = true.

Inductive stop := AtHandler (f : stack_frame) (p : code_pos) (e : ExceptionDesc) | AtService | AtEnd.
Inductive search (c : Z) : list stack_frame -> stop -> Prop :=
| search_end : search c [] AtEnd
| search_service f fs : portal_frame f -> search c (f :: fs) AtService
| search_handler f fs p e : ~ portal_frame f -> handled_by c f p e -> search c (f :: fs) (AtHandler f p e)
| search_next f fs x : ~ portal_frame f -> (forall p e, ~ handled_by c f p e) -> search c fs x -> search c (f :: fs) x.

(** what happens where the search ends *)
Definition perform (exception : Z) (x : stop) (s : sys) : res (caught * sys) :=
  match x with
  | AtEnd => Ok (Uncaught, s)
  | AtService => let! s := deliver exception s in Ok (Delivered, s)
  | AtHandler f p e =>
      let sp := u32 (sf_ebp f - 4 * sizeLocalVars (cp_desc p) - 4) in
      Ok (Handler (sf_ebp f) sp (u32 (ex_addr e + cp_code p)), set_smem (store32 (smem s) sp exception) s)
  end.

(** the tables of the domain are in order: its classes, their hierarchy, and
    the types in the exception tables *)
Record tables_ok (rank : Z -> nat) : Prop := {
  tb_domain : exists java_lang_Object_class lib_rank base, dom_ok java_lang_Object_class lib_rank classes base;
  tb_hierarchy : hierarchy_ok (ds_cs classes) rank;
  tb_types : forall m l e, exceptionTable !! m = Some l -> e ∈ l -> ex_type e = NULL \/ is_Some (classdescs (ds_cs classes) !! ex_type e);
}.
(** [exception], an object of class [c], is raised with the frames [fs] above [sp] *)
Record raised (rank : Z -> nat) (s : sys) (exception c sp : Z) (fs : list stack_frame) : Prop := {
  ra_class : JString.obj2ClassDesc (smem s) exception = Ok c /\ c <> NULL /\ is_Some (classdescs (ds_cs classes) !! c);
  ra_frames : frames (smem s) (load32 (smem s) (cur s + t_stack)) (load32 (smem s) (cur s + t_stackTop)) sp fs;
  ra_fuel : (3 * rank c + 4 <= fuel)%nat /\ (length fs <= depth)%nat;
}.

Section Correct.
Context (rank : Z -> nat) (T : tables_ok rank).
Abbreviation valid := (fun c => is_Some (classdescs (ds_cs classes) !! c)) (only parsing).
Context (c : Z) (Hc : valid c) (Hf : (3 * rank c + 4 <= fuel)%nat).

Lemma find_total addr : exists r, findMethodAtAddrInDomain methods_of mcode addr classes = Ok r.
Proof using T.
  unfold findMethodAtAddrInDomain. destruct (addr =? NULL); [by eexists|].
  destruct (tb_domain _ T) as (oc & lr & base & D).
  destruct (position_in_libs_spec oc lr methods_of mcode classes base addr D (libs classes) ltac:(done)) as (r & E & _). by exists r.
Qed.

Abbreviation find_handler := (find_handler java_lang_Object classes fuel).
Lemma find_handler_spec pos l : (forall e, e ∈ l -> ex_type e = NULL \/ valid (ex_type e)) ->
  exists r, find_handler l pos c = Ok r /\
  match r with
  | Some e => exists l1 l2, l = l1 ++ e :: l2 /\ handles c pos e /\ forall e', e' ∈ l1 -> ~ handles c pos e'
  | None => forall e, e ∈ l -> ~ handles c pos e
  end.
Proof using T Hc Hf.
  induction l as [|e l IH]; intros Hl; cbn [Exceptions.find_handler]; [exists None; split; [done|]; by intros ? ?%not_elem_of_nil|].
  destruct (IH (fun x Hx => Hl x (list_elem_of_further _ _ _ Hx))) as (r & E & HR).
  assert (Hskip : ~ handles c pos e -> exists r, find_handler l pos c = Ok r /\
    match r with
    | Some e0 => exists l1 l2, e :: l = l1 ++ e0 :: l2 /\ handles c pos e0 /\ forall e', e' ∈ l1 -> ~ handles c pos e'
    | None => forall e0, e0 ∈ e :: l -> ~ handles c pos e0
    end).
  { intros Hn. exists r. split; [exact E|]. destruct r as [e0|].
    - destruct HR as (l1 & l2 & -> & Hh0 & H1). exists (e :: l1), l2. split; [done|]. split; [exact Hh0|]. intros e' [->|He']%elem_of_cons; [exact Hn|by apply H1].
    - intros e0 [->|He0]%elem_of_cons; [exact Hn|by apply HR]. }
  assert (Hhit : handles c pos e -> exists l1 l2, e :: l = l1 ++ e :: l2 /\ handles c pos e /\ forall e', e' ∈ l1 -> ~ handles c pos e')
    by (intros Hhe; exists [], l; split; [done|]; split; [exact Hhe|]; by intros ? ?%not_elem_of_nil).
  assert (Hcov : covers e pos = true <-> u32 (ex_start e) <= pos < u32 (ex_end e)) by (unfold covers; rewrite andb_true_iff, Z.leb_le, Z.ltb_lt; done).
  destruct (covers e pos) eqn:Ec; [|apply Hskip; intros [Hr _]; by apply Hcov in Hr]. destruct (proj1 Hcov eq_refl) as [Hr1 Hr2].
  destruct (Z.eqb_spec (ex_type e) NULL) as [En|En]; [exists (Some e); split; [done|apply Hhit; by split; [|left]]|].
  destruct (Hl e (list_elem_of_here _ _)) as [?|Hv]; [done|].
  destruct (check_assign_spec java_lang_Object (ds_cs classes) rank (tb_hierarchy _ T) fuel (ex_type e) c Hv Hc Hf) as (b & -> & Hb). cbn [rbind]. destruct b.
  - exists (Some e). split; [done|]. apply Hhit. split; [done|]. right. by apply Hb.
  - apply Hskip. intros [_ [?|Ha]]; [done|]. by apply Hb in Ha.
Qed.

Abbreviation frame_handler := (frame_handler java_lang_Object classes methods_of mcode exceptionTable fuel).
Lemma frame_handler_spec f : exists r, frame_handler (sf_eip f) c = Ok r /\
  match r with Some (p, e) => handled_by c f p e | None => forall p e, ~ handled_by c f p e end.
Proof using T Hc Hf.
  unfold Exceptions.frame_handler. destruct (find_total (sf_eip f)) as (q & Eq). rewrite Eq. cbn [rbind]. destruct q as [p|].
  - destruct (find_handler_spec (u32 (cp_bytecodePos p)) (table_of p)) as (r & E & HR).
    { unfold table_of. destruct (exceptionTable !! cp_method p) as [l|] eqn:El; [|by intros ? ?%not_elem_of_nil]. intros e He. by eapply (tb_types _ T). }
    change (default [] (exceptionTable !! cp_method p)) with (table_of p). rewrite E. cbn [rbind]. eexists. split; [done|]. destruct r as [e|].
    + split; [exact Eq|exact HR].
    + intros p' e (Hp & l1 & l2 & Hl & Hh' & _). unfold returns_to in Hp. rewrite Eq in Hp. injection Hp as <-.
      apply (HR e); [|exact Hh']. rewrite Hl. apply elem_of_app. right. apply list_elem_of_here.
  - exists None. split; [done|]. intros p e [Hp _]. unfold returns_to in Hp. congruence.
Qed.

Lemma unwind_search s exception thread lo hi : load32 (smem s) (thread + t_stack) = lo -> load32 (smem s) (thread + t_stackTop) = hi ->
  forall fs n sp, frames (smem s) lo hi sp fs -> (length fs <= n)%nat ->
  exists x, search c fs x /\ unwind n thread exception c sp s = perform exception x s.
Proof using T Hc Hf.
  intros Hlo Hhi. induction fs as [|f fs IH]; intros n sp HF Hn.
  - exists AtEnd. split; [constructor|]. destruct n as [|n]; cbn [Exceptions.unwind]; rewrite Hlo, Hhi; cbn [frames] in HF;
      (destruct (Z.ltb_spec lo sp), (Z.ltb_spec sp hi); cbn [andb]; try done; lia).
  - destruct n as [|n]; cbn [length] in Hn; [lia|]. destruct HF as ([H1 H2] & Hb & Hi & HF). cbn [Exceptions.unwind].
    rewrite Hlo, Hhi, (proj2 (Z.ltb_lt lo sp)), (proj2 (Z.ltb_lt sp hi)) by done. cbn [andb]. rewrite Hb, Hi.
    destruct (in_portalcall text (sf_eip f)) eqn:Ep; [exists AtService; split; [by constructor|done]|].
    assert (Hnp : ~ portal_frame f) by (unfold portal_frame; congruence).
    destruct (frame_handler_spec f) as (r & E & HR). rewrite E. cbn [rbind]. destruct r as [[p e]|].
    + exists (AtHandler f p e). split; [by apply search_handler|done].
    + destruct (IH n (sf_ebp f) HF ltac:(lia)) as (x & Hx & Eu). exists x. split; [by apply search_next|exact Eu].
Qed.
End Correct.

Lemma handled_once c f p e p' e' : handled_by c f p e -> handled_by c f p' e' -> p = p' /\ e = e'.
Proof.
  intros (Hp & l1 & l2 & Hl & Hh & Hb) (Hp' & l1' & l2' & Hl' & Hh' & Hb'). unfold returns_to in *. rewrite Hp in Hp'. injection Hp' as <-. split; [done|].
  rewrite Hl in Hl'. clear Hl. revert l1' Hb Hl' Hb'. induction l1 as [|x l1 IH]; intros [|y l1'] Hb Hl' Hb'; cbn [app] in Hl'; injection Hl' as E1 E2; subst.
  - done.
  - exfalso. exact (Hb' y (list_elem_of_here _ _) Hh).
  - exfalso. exact (Hb e' (list_elem_of_here _ _) Hh').
  - apply (IH l1' (fun z Hz => Hb z (list_elem_of_further _ _ _ Hz)) E2). intros z Hz. exact (Hb' z (list_elem_of_further _ _ _ Hz)).
Qed.
Lemma search_unique c fs x y : search c fs x -> search c fs y -> x = y.
Proof.
  intros H. revert y. induction H as [|f fs Hp|f fs p e Hp He|f fs x Hp He Hx IH]; intros y Hy; inversion Hy; subst; try done; try (exfalso; naive_solver).
  - match goal with H1 : handled_by _ _ _ _ |- _ => destruct (handled_once _ _ _ _ _ _ He H1) as [-> ->] end. done.
  - by apply IH.
Qed.

Lemma raised_search (s : sys) rank exception c sp fs : tables_ok rank -> raised rank s exception c sp fs ->
  exists x, search c fs x /\ throw_exception exception sp s = perform exception x s.
Proof.
  intros T [(Hcl & Hn & Hc) HF [Hf Hd]]. unfold Exceptions.throw_exception. rewrite Hcl. cbn [rbind]. rewrite (proj2 (Z.eqb_neq c NULL) Hn). cbn [negb].
  by apply (unwind_search rank T c Hc Hf s exception (cur s) _ _ eq_refl eq_refl).
Qed.

(** C14 An exception is searched for in the frames of the stack from the top on,
    and the search always ends: in the first frame whose method has a table
    entry that covers the position and catches the class, taking the first
    such entry, with the stack cut back to the local variables of that method
    and the exception on top; at a frame of a portal call, where it is
    delivered to the caller; or at the end of the stack, uncaught. *)
Theorem throw_exception_unwinds (s : sys) rank exception c sp fs : tables_ok rank -> raised rank s exception c sp fs ->
  (exists x, search c fs x) /\ forall x, search c fs x -> throw_exception exception sp s = perform exception x s.
Proof.
  intros T R. destruct (raised_search s rank exception c sp fs T R) as (x & Hx & E).
  split; [by exists x|]. intros y Hy. rewrite E. by rewrite (search_unique _ _ _ _ Hx Hy).
Qed.
End Search.

(** ** An exception that leaves a service *)

Lemma destroy_switch_same s s' : Sched_switch_to_nextThread s = Ok s' ->
  (let! cd := curdom s in Sched_destroy_switch_to_nextThread cd s) = Ok s'.
Proof.
  unfold Sched_switch_to_nextThread, Sched_destroy_switch_to_nextThread. destruct (curdom s) as [cd|]; cbn [rbind]; [|done].
  destruct (runqueue_removeFirstOrIdle cd s) as [[next s1]|]; cbn [rbind]; [|done].
  destruct (check_not_in_runq next s1); cbn [rbind]; [|done]. unfold switch_to.
  destruct (thr s1 next); cbn [rbind]; [|done]. by destruct (thr s1 (current s1)).
Qed.

(** the hand-over of a thread that starts again is that of one that keeps running *)
Lemma destroy_handoff_spec s q cd t T :
  sched_ok s q cd -> current s <> idle_thread s -> threads s !! t = Some T -> t_state T <> STATE_RUNNABLE ->
  exists s' cd', Sched_portal_destroy_handoff_to_sender t s = Ok s' /\
    sched_ok s' (snd (q_pick cd (q_ready cd (t_domain T) t (q_tpush cd (current s) q)))) cd' /\
    current s' = chosen s cd (q_ready cd (t_domain T) t (q_tpush cd (current s) q)) /\ idle_thread s' = idle_thread s /\
    forall y, tinfo s' y = if y =? t then Some (STATE_RUNNABLE, t_domain T) else tinfo s y.
Proof.
  intros Hok Hi ET Hst. destruct (handoff_sender_spec s q cd t T true Hok Hi ET Hst) as (s' & q' & cd' & E & Hok' & -> & Hc & Hid & Ht).
  exists s', cd'. split_and!; try done.
  - unfold Sched_portal_handoff_to_sender in E. unfold Sched_portal_destroy_handoff_to_sender.
    destruct (thr s (curthr s)) as [x|]; cbn [rbind] in *; [|done]. cbv iota zeta in E.
    pose proof (resume_id s cd (so_run _ _ _ Hok)) as Er. unfold Sched_block_resume in Er. rewrite Er in E.
    destruct (threadrunq_append (t_domain x) (curthr s) s) as [[b s1]|]; cbn [rbind] in *; [|done].
    destruct (threadunblock t s1) as [s2|]; cbn [rbind] in *; [|done]. by apply destroy_switch_same.
  - intros y. rewrite Ht. destruct (y =? t); [done|]. destruct (Z.eqb_spec y (current s)) as [->|]; [|done]. symmetry. exact (so_run _ _ _ Hok).
Qed.

Lemma pick_sender_quiet cd d r t q : quiet q -> cd <> d -> fst (q_pick cd (q_ready cd d t (q_tpush cd r q))) = t.
Proof.
  intros [Hd Ht] Hne. unfold q_ready, q_tpush, q_tset, q_dpush, q_pick. cbn [tq dq]. rewrite (proj2 (Z.eqb_neq d cd)) by congruence. rewrite (Ht d).
  rewrite bool_decide_true by done. rewrite (proj2 (Z.eqb_neq cd d) Hne). cbn [negb andb dq tq]. rewrite Hd. cbn [app]. by rewrite Z.eqb_refl.
Qed.

Section Crossing.
Context {X A : Type} `{!Copying X} `{!Runtime X} `{!Allocator A}.
Context (text : kernel_text) (receive_portal_init : Z).
Abbreviation sys := (sys X).
Abbreviation deliver := (deliver text receive_portal_init).

(** thread [r] of domain [D] serves a call of [t], a thread of [cd] *)
Record serving (s : sys) (q : queues) (D r t cd : Z) (y z : pthread) (v : service) : Prop := {
  sg_sched : sched_ok (sch s) q D;
  sg_cur : cur s = r /\ r <> idle_thread (sch s);
  sg_caller : tinfo (sch s) t = Some (STATE_PORTAL_WAIT_FOR_RET, cd) /\ pthreads s !! t = Some z;
  sg_thread : pthreads s !! r = Some y /\ mostRecentlyCalledBy y = t /\ svcs s !! processingDEP y = Some v;
  sg_active : exists pd, pdoms s !! callerDomain y = Some pd /\ callerDomainID y = pd_id pd /\ pd_state pd = DOMAIN_STATE_ACTIVE;
}.

Lemma deliver_spec (s : sys) q D r t cd y z v exception e' q' h :
  serving s q D r t cd y z v -> quiet q -> D <> cd -> copy_reference D cd exception RECEIVE_PORTAL_QUOTA (heaps s) = Ok (e', q', h) ->
  exists s' q1, deliver exception s = Ok s' /\ sched_ok (sch s') q1 cd /\ cur s' = t /\
    tinfo (sch s') r = Some (STATE_RUNNABLE, D) /\ pthreads s' !! r = Some (set_pc (PRecvLoop (svc_index v)) y) /\
    pthreads s' !! t = Some (set_return e' PORTAL_RETURN_TYPE_EXCEPTION z) /\ svcs s' = svcs s /\ pdoms s' = pdoms s.
Proof.
  intros [Hok [Hcur Hidle] [Ht Hz] (Hy & Hmr & Hv) (pd & Hpd & Hid & Hact)] Hq Hne HC.
  destruct (tinfo_some _ _ _ _ Ht) as (T & ET & HTs & HTd). pose proof (so_run _ _ _ Hok) as Hrun. change (current (sch s)) with (cur s) in Hrun. rewrite Hcur in Hrun.
  assert (Htr : t <> r) by (intros ->; rewrite Ht in Hrun; discriminate).
  unfold Exceptions.deliver. rewrite Hcur. unfold pthr at 1. rewrite Hy. cbn [rbind]. unfold pdom. rewrite Hpd. cbn [rbind]. rewrite Hid, Hact, !Z.eqb_refl. cbn [negb orb].
  rewrite Hmr. unfold thr at 1. rewrite ET. cbn [rbind]. unfold pthr at 1. rewrite Hz. cbn [rbind]. rewrite (curdom_mid _ _ _ (so_mid _ _ _ Hok)). cbn [rbind].
  rewrite HTd, HC. cbn [rbind]. set (s1 := upd_pthr t _ _). unfold reinit_service_thread. change (cur s1) with (cur s). rewrite Hcur.
  assert (H1 : pthreads s1 !! r = Some y) by (unfold s1; cbn; rewrite lookup_alter_ne by done; exact Hy).
  unfold pthr. rewrite H1. cbn [rbind]. unfold svc_. change (svcs s1) with (svcs s). rewrite Hv. cbn [rbind]. cbv zeta.
  match goal with |- context [lift _ ?x] => set (s2 := x) end. rewrite Hmr.
  destruct (destroy_handoff_spec (sch s) q D t T Hok) as (c & cd' & E & Hok' & Hc & Hi & Hti); [by change (cur s <> idle_thread (sch s)); congruence|exact ET|by rewrite HTs|].
  unfold lift. change (sch s2) with (sch s). rewrite E. cbn [rbind]. rewrite HTd in *.
  assert (Hct : current c = t).
  { rewrite Hc. unfold chosen. rewrite (pick_sender_quiet D cd _ t q Hq Hne). pose proof (nonnull_thread _ _ _ _ _ (sm_rep _ _ _ (so_mid _ _ _ Hok)) Ht) as Hn.
    by rewrite (proj2 (Z.eqb_neq t NULL) Hn). }
  assert (cd' = cd) as -> by (pose proof (so_run _ _ _ Hok') as HR; rewrite Hct, Hti, Z.eqb_refl in HR; by injection HR).
  eexists _, _. split; [reflexivity|]. split; [exact Hok'|]. split; [exact Hct|]. split; [|split; [|split; [|done]]].
  - cbn [sch set_sch]. rewrite Hti, (proj2 (Z.eqb_neq r t)) by congruence. exact Hrun.
  - unfold s2. cbn [pthreads set_sch upd_pthr set_smem set_heaps]. rewrite lookup_alter_eq. change (pthreads s1 !! r) with (pthreads s1 !! r). by rewrite H1.
  - unfold s2. cbn [pthreads set_sch upd_pthr set_smem set_heaps]. rewrite lookup_alter_ne by congruence. unfold s1. cbn. by rewrite lookup_alter_eq, Hz.
Qed.

(** the caller gets the exception *)
Lemma resume_throws e (s : sys) q cd z : sched_ok (sch s) q cd -> pthreads s !! cur s = Some z -> p_pc z = PSendHandoff ->
  portalReturn z = e -> portalReturnType z = PORTAL_RETURN_TYPE_EXCEPTION ->
  exists s' z', send_resume s = Ok (Thrown e, s') /\ sch s' = sch s /\ pthreads s' !! cur s = Some z' /\ p_pc z' = PUser /\ depParams z' = [].
Proof.
  intros Hok Hz Hpc Hret Hty. unfold send_resume, pthr at 1. rewrite Hz. cbn [rbind]. rewrite Hpc.
  destruct (thr_of_tinfo _ _ _ _ (so_run _ _ _ Hok)) as (T & ET & HTs & _). change (current (sch s)) with (cur s) in ET.
  rewrite ET. cbn [rbind]. rewrite HTs, Z.eqb_refl. cbn [assert_ rbind]. unfold send_finished. set (s1 := upd_pthr (cur s) (set_pc PUser) s).
  change (cur s1) with (cur s). unfold pthr, s1. cbn [pthreads upd_pthr]. rewrite lookup_alter_eq, Hz. cbn [fmap option_fmap option_map rbind].
  cbn [portalReturnType set_pc portalReturn]. rewrite Hty, Hret. cbn [Z.eqb PORTAL_RETURN_TYPE_EXCEPTION].
  eexists _, _. split; [reflexivity|]. split; [done|]. cbn [pthreads upd_pthr]. split; [alters; by rewrite Hz|]. done.
Qed.

Context (java_lang_Object : Z) (classes : dom_state A) (methods_of : Z -> Z) (mcode : gmap Z Z) (exceptionTable : gmap Z (list ExceptionDesc)).
Context (fuel depth : nat).
Abbreviation raised := (raised classes fuel depth).
Abbreviation search := (search text java_lang_Object classes methods_of mcode exceptionTable).
Abbreviation throw_exception := (throw_exception text receive_portal_init java_lang_Object classes methods_of mcode exceptionTable fuel depth).

(** C15 An exception that a service does not catch reaches its caller.  Let the
    receiver sleep with an empty queue and no other thread be runnable.  The
    caller's [direct_send_portal] switches to the receiver, which reaches the
    method.  Whatever the method did to the heaps, when it raises an exception
    whose search ends at the frame of the portal call, the exception is copied
    to the caller's domain and [direct_send_portal] throws the copy there; the
    thread of the service is runnable, at the head of its receive loop. *)
Theorem exception_crosses_portal fuel' px params mi (s : sys) q cd svc r v pd cpd m x rank :
  ready s q cd (targetDomain px) (px_index px) svc r v pd cpd ->
  pd_id pd = targetDomainID px -> pd_state pd = DOMAIN_STATE_ACTIVE ->
  pthreads s !! cur s = Some x -> portalParameter x = 0 ->
  method_of (svc_obj v) mi (heaps s) = Some m -> Forall (fun b => b = false) (argTypeMap m) ->
  tables_ok classes exceptionTable rank ->
  exists s1 y1 s2,
    direct_send_portal px params mi s = Ok (Switched, s1) /\ pthreads s1 !! r = Some y1 /\
    recv_continue fuel' (p_pc y1) s1 = Ok s2 /\ cur s2 = r /\
    forall h exception c sp fs e' quota h',
      let s2' := set_heaps h s2 in
      raised rank s2' exception c sp fs -> search c fs AtService ->
      copy_reference (targetDomain px) cd exception RECEIVE_PORTAL_QUOTA h = Ok (e', quota, h') ->
      exists s3 s4 z, throw_exception exception sp s2' = Ok (Delivered, s3) /\ cur s3 = cur s /\
        send_resume s3 = Ok (Thrown e', s4) /\ cur s4 = cur s /\
        tinfo (sch s4) r = Some (STATE_RUNNABLE, targetDomain px) /\
        pthreads s3 !! r = Some z /\ p_pc z = PRecvLoop (svc_index v).
Proof.
  intros [Hok Hq Hidle Hcall [Hfw Hl] Hr [Hval Hab] Hsl (y & Hy & Hpc) [Hcpd Hcact] Hne] Hid Hact Hx Hpp Hm Hmap T.
  destruct (states_sched s q cd Hok) as [Hrun Hc0]. unfold states in Hrun.
  assert (cur s <> r) as Hcr by (intros Heq; rewrite Heq, Hsl in Hrun; done).
  assert (r <> idle_thread (sch s)) as Hri.
  { intros ->. destruct (sm_idle _ _ _ (so_mid _ _ _ Hok)) as [dz Ez]. rewrite Hsl in Ez. done. }
  destruct (send_to_waiting px params mi s q cd x v svc pd r y) as (s1 & q1 & E1 & Hok1 & Hq1 & Hc1 & Hi1 & Ht1 & Hy1 & Hx1 & Hcall1 & Hpd1 & Hh1 & Hz1); try done.
  destruct (continue_accepts fuel' (px_index px) s1 q1 (targetDomain px) r (cur s) cd y
    (set_pc PSendHandoff (set_nextInDEPQueue NULL (set_dep params mi (set_blocked (targetDomain px) (pd_id pd) (px_index px) (blockedInServiceThread x) x))))
    svc (set_last (cur s) (set_first (cur s) v)) pd cpd m params 0 RECEIVE_PORTAL_QUOTA (heaps s1)
      (take (length (argTypeMap m)) (take (Z.to_nat (numberOfArgs m)) (tail params))) RECEIVE_PORTAL_QUOTA (heaps s1))
    as (s2 & y2 & E2 & Hok2 & Hc2 & Hi2 & Ht2 & Hy2 & Hpc2 & Hmr & Hproc & Hcd2 & Hcid2 & Hmp & _ & Hx2 & Hcall2 & Hpd2 & Hh2); try done.
  { rewrite Hh1. exact Hm. } { unfold credentials_copied. cbn. by rewrite Hpp. } { by apply parameters_numeric. } { by rewrite Hpd1. }
  exists s1, y, s2. split_and!; try done. intros h exception c sp fs e' quota h' s2' R HS HC.
  destruct (raised_search text receive_portal_init java_lang_Object classes methods_of mcode exceptionTable fuel depth s2' rank exception c sp fs T R) as (st & Hst & E).
  rewrite (search_unique _ _ _ _ _ _ _ _ _ _ Hst HS) in E. cbn [perform] in E.
  match type of Hx2 with _ = Some ?z => set (z2 := z) in Hx2 end.
  destruct (deliver_spec s2' q1 (targetDomain px) r (cur s) cd y2 z2 (set_last NULL (set_first NULL (set_last (cur s) (set_first (cur s) v)))) exception e' quota h')
    as (s3 & q3 & E3 & Hok3 & Hc3 & Ht3 & Hy3 & Hx3 & _ & _); [|exact Hq1|congruence|exact HC|].
  { split; [exact Hok2|by split; [|change (r <> idle_thread (sch s2)); congruence]|split; [exact Ht2|exact Hx2]| |].
    - split; [exact Hy2|]. split; [exact Hmr|]. rewrite Hproc. exact (cd_svc _ _ _ _ _ _ Hcall2).
    - exists cpd. split; [|split; [exact Hcid2|exact Hcact]]. change (pdoms s2 !! callerDomain y2 = Some cpd). rewrite Hcd2. congruence. }
  rewrite E3 in E. cbn [rbind] in E.
  destruct (resume_throws e' s3 q3 cd _ Hok3 ltac:(rewrite Hc3; exact Hx3) eq_refl eq_refl eq_refl) as (s4 & z4 & E4 & Hsch4 & _).
  exists s3, s4, (set_pc (PRecvLoop (svc_index v)) y2). split; [exact E|]. split; [exact Hc3|]. split; [exact E4|]. split_and!; try done.
  - unfold cur, curthr. rewrite Hsch4. exact Hc3.
  - rewrite Hsch4. exact Ht3.
Qed.
End Crossing.

(** ** What exceptionHandler makes of its argument *)

(** the numbers that [exceptionHandler] takes for a code *)
Definition is_code (v : Z) : bool :=
  bool_decide (is_Some (exception_for v (str "unknown"))) || reported_only v || (v =? THROW_MagicNumber).
Lemma is_code_false v : is_code v = false -> exception_for v (str "unknown") = None /\ reported_only v = false /\ v <> THROW_MagicNumber.
Proof. intros [[H1 H2]%orb_false_iff H3%Z.eqb_neq]%orb_false_iff. apply bool_decide_eq_false, eq_None_not_Some in H1. done. Qed.

Section Codes.
Context {X A : Type} `{!Copying X} `{!Runtime X}.
Context (text : kernel_text) (receive_portal_init java_lang_Object gcThread : Z).
Context (classes : dom_state A) (methods_of : Z -> Z) (mcode : gmap Z Z) (exceptionTable : gmap Z (list ExceptionDesc)) (fuel depth : nat).
Abbreviation sys := (sys X).
Abbreviation exceptionHandlerMsg := (exceptionHandlerMsg text receive_portal_init java_lang_Object gcThread classes methods_of mcode exceptionTable fuel depth).
Abbreviation exceptionHandler := (exceptionHandler text receive_portal_init java_lang_Object gcThread classes methods_of mcode exceptionTable fuel depth).
Abbreviation throw_exception := (throw_exception text receive_portal_init java_lang_Object classes methods_of mcode exceptionTable fuel depth).

(** a value for which no exception is created is taken for the object itself *)
Lemma exceptionHandlerMsg_object p base msg (s : sys) cd : gc_running gcThread s = Ok false -> curdom (sch s) = Ok cd ->
  exception_for p msg = None -> reported_only p = false -> p <> THROW_MagicNumber ->
  exceptionHandlerMsg p base msg s = throw_exception p base s.
Proof.
  intros Hg Hcd Hn Hr Hm. unfold Exceptions.exceptionHandlerMsg. rewrite Hg. cbn [rbind]. rewrite (proj2 (Z.eqb_neq _ _) Hm), Hcd. cbn [rbind].
  rewrite Hn, Hr. cbn [rbind]. unfold reported_only in Hr. apply orb_false_iff in Hr as [_ Hr]. apply Z.eqb_neq in Hr.
  by rewrite (proj2 (Z.eqb_neq p NULL) Hr).
Qed.
Lemma throw_no_object p base (s : sys) : load32 (smem s) (p - 4) <> MAGIC_OBJECT -> throw_exception p base s = Err (EPanic "").
Proof. intros H. unfold Exceptions.throw_exception, JString.obj2ClassDesc. by rewrite (proj2 (Z.eqb_neq _ _) H). Qed.

(** the second test of [THROW_MemoryExhaustedException] stands where the code
    of [DomainTerminatedException] should be tested *)
Lemma domain_terminated_lost base msg (s : sys) cd : gc_running gcThread s = Ok false -> curdom (sch s) = Ok cd ->
  (forall p details, exception_for p msg <> Some (str "jx/zero/DomainTerminatedException", details)) /\
  (load32 (smem s) (THROW_DomainTerminatedException - 4) <> MAGIC_OBJECT ->
   exceptionHandlerMsg THROW_DomainTerminatedException base msg s = Err (EPanic "")).
Proof.
  intros Hg Hcd. split.
  - intros p details H. unfold exception_for in H. by repeat match type of H with context [if ?b then _ else _] => destruct b; [discriminate H|] end.
  - intros Hm. rewrite (exceptionHandlerMsg_object _ base msg s cd Hg Hcd) by done. by apply throw_no_object.
Qed.

(** C40 A call to a domain that is gone or not active raises the result of the
    previous portal call of the thread.  Only the type of the result is set to
    exception, its value is still there: after a call that returned 0 the
    refused call ends the thread, after one that returned any other number
    that is no code the kernel panics. *)
Theorem refused_call_raises_previous_result (s0 s : sys) v px params mi td cd base :
  send_resume s0 = Ok (Returned v, s) -> pdoms s !! targetDomain px = Some td -> curdom (sch s) = Ok cd -> targetDomain px <> cd ->
  targetDomainID px <> pd_id td \/ pd_state td <> DOMAIN_STATE_ACTIVE -> gc_running gcThread s = Ok false ->
  exists s', direct_send_portal px params mi s = Ok (Raised v, s') /\ sch s' = sch s /\ heaps s' = heaps s /\
    (v = 0 -> exceptionHandler v base s' = Ok (Uncaught, s')) /\
    (is_code v = false -> load32 (smem s) (v - 4) <> MAGIC_OBJECT -> exceptionHandler v base s' = Err (EPanic "")).
Proof.
  intros E Htd Hcd Hne Hgone Hg.
  assert (exists x, pthreads s !! cur s = Some x /\ portalReturn x = v) as (x & Hx & Hv).
  { unfold send_resume in E. apply rbind_ok in E as (x0 & _ & E). apply rbind_ok in E as (s1 & _ & E). unfold send_finished in E.
    apply rbind_ok in E as (x1 & Hx1 & E). apply pthr_some in Hx1. destruct (portalReturnType x1 =? PORTAL_RETURN_TYPE_EXCEPTION); [done|]. injection E as <- <-.
    eexists. split; [cbn [pthreads upd_pthr]; rewrite !lookup_alter_eq; cbn [pthreads upd_pthr] in Hx1; rewrite Hx1; reflexivity|reflexivity]. }
  assert (Hsend : direct_send_portal px params mi s = send_refused s).
  { unfold direct_send_portal, pdom. rewrite Htd. cbn [rbind]. rewrite Hcd. cbn [rbind]. rewrite (proj2 (Z.eqb_neq _ _) Hne).
    destruct (Z.eqb_spec (targetDomainID px) (pd_id td)); cbn [negb]; [|done].
    destruct (Z.eqb_spec (pd_state td) DOMAIN_STATE_ACTIVE); cbn [negb]; [|done]. by destruct Hgone. }
  rewrite Hsend. unfold send_refused, pthr at 1. rewrite Hx. cbn [rbind]. unfold send_finished, pthr. set (s1 := upd_pthr (cur s) _ s).
  change (cur s1) with (cur s). unfold s1. cbn [pthreads upd_pthr]. rewrite lookup_alter_eq, Hx. cbn [fmap option_fmap option_map rbind portalReturnType set_return portalReturn].
  rewrite Z.eqb_refl. cbn [rbind]. rewrite Hv. eexists. split; [reflexivity|]. split; [done|]. split; [done|]. set (s' := upd_pthr _ _ _). split.
  - intros ->. unfold Exceptions.exceptionHandler, Exceptions.exceptionHandlerMsg. change (gc_running gcThread s') with (gc_running gcThread s). rewrite Hg. cbn [rbind].
    change (sch s') with (sch s). rewrite Hcd. done.
  - intros Hk Hm. apply is_code_false in Hk as (Hn & Hr & Hmg). unfold Exceptions.exceptionHandler. change (Exceptions.exceptionHandlerMsg text receive_portal_init java_lang_Object gcThread classes methods_of mcode exceptionTable fuel depth v base (str "unknown") s') with (exceptionHandlerMsg v base (str "unknown") s').
    rewrite (exceptionHandlerMsg_object v base _ s' cd Hg Hcd Hn Hr Hmg). by apply throw_no_object.
Qed.
End Codes.

(** ** A domain whose threads raise exceptions

    The domain of [DomClassLoad] with the code of one method of class [A]; its
    table catches the subclass [C] first and then [A].  An object of class [B]
    is at 0x3000; thread 3 has its stack from 0x1000 to 0x2000. *)

#[local] Instance copy_above : Copying memory := {
  method_of := fun _ i _ => if i =? 0 then Some (Portal.MkMethod 1 [false] 0 false) else None;
  copy_reference := fun _ _ r q x => Ok (r + 0x10000, q, x);
}.
#[local] Instance plain_runtime : Runtime memory := {
  mem_of := fun m => m; set_mem := fun m _ => m;
  alloc_object := fun _ _ m => Ok (NULL, m); new_string := fun _ _ m => Ok (NULL, m); call_java := fun _ _ _ m => Ok m;
}.
Definition demo_text : kernel_text :=
  MkText 0x100000 0x180000 (0, 0) (0, 0) (0, 0) [] 0 (0, 0) (0x100100, 0x100120) (0, 0) (0x100200, 0x100300).
Definition demo_memory : memory :=
  foldr (fun p m => store32 m p.1 p.2) (fun _ => 0)
    [(7, 0x1000); (11, 0x2000);
     (0x1100, 0x1200); (0x1104, 0x200004); (0x1200, 0); (0x1204, 0x100210);
     (0x2ffc, MAGIC_OBJECT); (0x3000, 0x3100); (0x30fc, 2000)].
Definition thrown_frames : list stack_frame := [MkFrame 0x1200 0x200004; MkFrame 0 0x100210].
Definition demo_entry (cl addr : Z) : ExceptionDesc := MkException cl 0 10 addr.
Definition demo_table : gmap Z (list ExceptionDesc) := {[ 1000000 := [demo_entry 2124 4; demo_entry 1000 8] ]}.
Definition class_rank (c : Z) : nat := if c =? 2124 then 3 else if c =? 2000 then 2 else if c =? 1000 then 1 else 0.

Lemma dl_hierarchy : hierarchy_ok (ds_cs dl_after) class_rank.
Proof.
  assert (H : map_Forall (fun c d =>
    (superclass d = NULL \/ is_Some (classdescs (ds_cs dl_after) !! superclass d) /\ (class_rank (superclass d) < class_rank c)%nat) /\
    interfaces d = [] /\ char_at (c_nm d) 0 <> c_bracket) (classdescs (ds_cs dl_after))) by (apply (bool_decide_unpack _); by vm_compute).
  split.
  - intros c p (d & Hd & [[<- Hn]|Hp]); destruct (H c d Hd) as (H1 & H2 & _).
    + destruct H1 as [E|H1]; [destruct (Hn E)|exact H1].
    + rewrite H2 in Hp. destruct (not_elem_of_nil _ Hp).
  - intros c e (d & Hd & Hb & _). destruct (H c d Hd) as (_ & _ & Hn). destruct (Hn Hb).
Qed.
Lemma demo_valid : is_Some (classdescs (ds_cs dl_after) !! 2000) /\ is_Some (classdescs (ds_cs dl_after) !! 2124).
Proof. split; apply (bool_decide_unpack _); by vm_compute. Qed.
Lemma demo_not_assignable : ~ assignable 100 (ds_cs dl_after) 2124 2000.
Proof.
  destruct (check_assign_spec 100 (ds_cs dl_after) class_rank dl_hierarchy 20 2124 2000) as (b & Eb & Hb); [apply demo_valid|apply demo_valid|vm_compute; lia|].
  intros Ha. apply Hb in Ha. subst b. vm_compute in Eb. discriminate Eb.
Qed.
Lemma demo_assignable : assignable 100 (ds_cs dl_after) 1000 2000.
Proof.
  destruct (check_assign_spec 100 (ds_cs dl_after) class_rank dl_hierarchy 20 1000 2000) as (b & Eb & Hb);
    [apply (bool_decide_unpack _); by vm_compute|apply demo_valid|vm_compute; lia|].
  apply Hb. assert (E : check_assign 100 (ds_cs dl_after) 20 1000 2000 = Ok true) by (by vm_compute). rewrite E in Eb. by injection Eb.
Qed.
Lemma demo_tables (t : gmap Z (list ExceptionDesc)) :
  map_Forall (fun _ l => Forall (fun e => ex_type e = NULL \/ is_Some (classdescs (ds_cs dl_after) !! ex_type e)) l) t -> tables_ok dl_after t class_rank.
Proof.
  intros Ht. split; [|exact dl_hierarchy|].
  - destruct dl_after_ok as (base & l & D & _). by exists 40, dl_rank, base.
  - intros m l e Hl He. exact (proj1 (Forall_forall _ _) (Ht m l Hl) e He).
Qed.

(** the system of [PortalInv] with this memory; thread 2 of domain 100 runs *)
Definition sleepy_mem : Portal.sys memory :=
  MkSys sleepy (pthreads sleepy_sys) (svcs sleepy_sys) (pdoms sleepy_sys) 100 demo_memory.
(** thread 3 runs *)
Definition thrower : Portal.sys memory := set_sch (set_current 3 sleepy) sleepy_mem.

Lemma demo_frames_ok : frames demo_memory 0x1000 0x2000 0x1100 thrown_frames.
Proof. cbn [frames thrown_frames]. split_and!; try (vm_compute; reflexivity). cbn. lia. Qed.
Lemma demo_raised s : smem s = demo_memory -> cur s = 3 -> raised dl_after 10 2 class_rank s 0x3000 2000 0x1100 thrown_frames.
Proof.
  intros Hm Hc. split.
  - rewrite Hm. split; [by vm_compute|]. split; [done|]. apply demo_valid.
  - rewrite Hm, Hc. change (load32 demo_memory (3 + t_stack)) with 0x1000. change (load32 demo_memory (3 + t_stackTop)) with 0x2000. exact demo_frames_ok.
  - split; vm_compute; lia.
Qed.
Lemma demo_returns : returns_to dl_after demo_methods demo_code (MkFrame 0x1200 0x200004) (demo_pos 0x200004).
Proof. exact demo_found. Qed.

Lemma throw_exception_unwinds_witness :
  throw_exception demo_text 0x100400 100 dl_after demo_methods demo_code demo_table 10 2 0x3000 0x1100 thrower =
    Ok (Handler 0x1200 0x11f4 0x200008, set_smem (store32 demo_memory 0x11f4 0x3000) thrower).
Proof.
  destruct (throw_exception_unwinds demo_text 0x100400 100 dl_after demo_methods demo_code demo_table 10 2 thrower class_rank 0x3000 2000 0x1100 thrown_frames) as [_ H].
  - apply demo_tables. apply (bool_decide_unpack _). by vm_compute.
  - by apply demo_raised.
  - rewrite (H (AtHandler (MkFrame 0x1200 0x200004) (demo_pos 0x200004) (demo_entry 1000 8))); [vm_compute; reflexivity|].
    apply search_handler; [by vm_compute|]. split; [exact demo_returns|]. exists [demo_entry 2124 4], []. split; [by vm_compute|]. split.
    + split; [vm_compute; done|right; exact demo_assignable].
    + intros e ->%list_elem_of_singleton [_ [He|Ha]]; [discriminate He|exact (demo_not_assignable Ha)].
Defined.

(** without entries in the table the exception leaves the service *)
Lemma exception_crosses_portal_witness :
  exists s2 s3 s4, cur s2 = 3 /\
    throw_exception demo_text 0x100400 100 dl_after demo_methods demo_code ∅ 10 2 0x3000 0x1100 s2 = Ok (Delivered, s3) /\
    cur s3 = 2 /\ send_resume s3 = Ok (Thrown 0x13000, s4).
Proof.
  destruct (exception_crosses_portal demo_text 0x100400 100 dl_after demo_methods demo_code ∅ 10 2 1 sleepy_proxy [8; 42] 0 sleepy_mem sleepy_q 100 7 3
    (MkService 200 9 1 true 0 false 0 0 3) (MkPDomain 6 DOMAIN_STATE_ACTIVE [0; 7]) (MkPDomain 5 DOMAIN_STATE_ACTIVE [])
    (Portal.MkMethod 1 [false] 0 false) (new_pthread PUser) class_rank) as (s1 & y1 & s2 & E1 & _ & E2 & Hc & H).
  - split; try done; [apply sleepy_ok|]. exists (new_pthread (PRecvBlocked 1)). split; [done|by left].
  - done.
  - done.
  - done.
  - done.
  - done.
  - by constructor.
  - apply demo_tables. apply map_Forall_empty.
  - destruct (H demo_memory 0x3000 2000 0x1100 thrown_frames 0x13000 100000 demo_memory) as (s3 & s4 & z & E3 & Hc3 & E4 & _).
    + by apply demo_raised.
    + apply search_next; [by vm_compute| |by apply search_service].
      intros p e (_ & l1 & l2 & Hl & _). unfold table_of in Hl. rewrite lookup_empty in Hl. by destruct l1.
    + done.
    + exists (set_heaps demo_memory s2), s3, s4. split_and!; [exact Hc|exact E3|exact Hc3|exact E4].
Defined.

(** the previous call of thread 2 returned 5; domain 200 is then shut down *)
Definition returned_five : Portal.sys memory :=
  upd_pthr 2 (fun x => set_return 5 PORTAL_RETURN_TYPE_NUMERIC (set_pc PSendHandoff x))
    (upd_pdom 200 (fun d => MkPDomain (pd_id d) 3 (services_of d)) sleepy_mem).
Definition after_five : Portal.sys memory := match send_resume returned_five with Ok (_, s) => s | Err _ => sleepy_mem end.

Lemma refused_call_raises_previous_result_witness : exists s',
  direct_send_portal sleepy_proxy [8; 42] 0 after_five = Ok (Raised 5, s') /\
  exceptionHandler demo_text 0x100400 100 0 dl_after demo_methods demo_code ∅ 10 2 5 0x1100 s' = Err (EPanic "").
Proof.
  assert (E : send_resume returned_five = Ok (Returned 5, after_five)) by (unfold after_five; vm_compute; reflexivity).
  destruct (refused_call_raises_previous_result demo_text 0x100400 100 0 dl_after demo_methods demo_code ∅ 10 2 returned_five after_five 5 sleepy_proxy [8; 42] 0
    (MkPDomain 6 3 [0; 7]) 100 0x1100 E) as (s' & H1 & _ & _ & _ & H2);
    [vm_compute; reflexivity|vm_compute; reflexivity|discriminate|right; discriminate|reflexivity|].
  exists s'. split; [exact H1|]. apply H2; vm_compute; done.
Defined.
