(* ===== verification/Threads.v ===== *)
(** * Threads and their stacks (core/thread.c)

    A thread control block is an object in the heap of its domain; its stack
    comes from the block allocator.  The threads of a domain are linked in both
    directions.  This file models the creation of threads, their end, and the
    search for a thread; giving up the CPU is in [RunQueue]. *)

From S2P Require Import Prelude Mem CString Malloc Alloc RunQueue.
#[local] Open Scope Z_scope.

Definition STACK_CHUNK_SIZE : Z := 8192.
Definition STACK_ALIGN : Z := 4.
Definition MYPARAMS_SIZE : Z := 1024.
Definition THREAD_NAME_MAXLEN : nat := 40.
Definition KERNEL_DS : Z := 0x18.

Definition PCB_EBP : nat := 6.
Definition PCB_ESP : nat := 7.
Definition PCB_EIP : nat := 12.
Definition PCB_EFLAGS : nat := 13.

(** ** State *)

(** the fields of [ThreadDesc] that thread management keeps; state, domain and
    [nextInRunQueue] are in [RunQueue.thread] *)
Record tcb := MkTcb {
  stack : Z;
  stackTop : Z;
  context : list Z;               (* 14 registers *)
  th_name : list Z;               (* char[40] *)
  th_entry : Z;
  portalParameter : Z;
  myparams : Z;
  schedInfo : Z;
  th_id : Z;
  nextInDomain : Z;
  prevInDomain : Z;
}.
(** a cleared block *)
Definition new_tcb : tcb := MkTcb 0 0 (replicate 14 0) (replicate THREAD_NAME_MAXLEN 0) 0 0 0 0 0 NULL NULL.

Definition set_links (next prev : Z) (x : tcb) : tcb :=
  MkTcb (stack x) (stackTop x) (context x) (th_name x) (th_entry x) (portalParameter x) (myparams x) (schedInfo x) (th_id x) next prev.
Definition set_next (v : Z) (x : tcb) : tcb := set_links v (prevInDomain x) x.
Definition set_prev (v : Z) (x : tcb) : tcb := set_links (nextInDomain x) v x.
Definition set_context (l : list Z) (x : tcb) : tcb :=
  MkTcb (stack x) (stackTop x) l (th_name x) (th_entry x) (portalParameter x) (myparams x) (schedInfo x) (th_id x) (nextInDomain x) (prevInDomain x).
Definition set_name (l : list Z) (x : tcb) : tcb :=
  MkTcb (stack x) (stackTop x) (context x) l (th_entry x) (portalParameter x) (myparams x) (schedInfo x) (th_id x) (nextInDomain x) (prevInDomain x).

(** the fields of [DomainDesc] for threads *)
Record thread_list := MkThreadList { tl_threads : Z; currentThreadID : Z }.

(** [H]: the heaps, from which control blocks come; [ts_mem]: the memory of the stacks *)
Record tsys (H : Type) := MkTSys {
  ts_sch : sched;
  tcbs : gmap Z tcb;
  tdoms : gmap Z thread_list;
  ts_alloc : malloc_state;
  ts_mem : memory;
  ts_heaps : H;
}.
Arguments MkTSys {H} _ _ _ _ _ _.
Arguments ts_sch {H} _.
Arguments tcbs {H} _.
Arguments tdoms {H} _.
Arguments ts_alloc {H} _.
Arguments ts_mem {H} _.
Arguments ts_heaps {H} _.

Section Threads.
Context {H : Type}.
Abbreviation st := (tsys H).
(** [allocThreadDescProxyInDomain]: a cleared control block *)
Context (alloc_tcb : Z -> H -> res (Z * H)).
(** the address of [thread_exit] *)
Context (thread_exit_addr : Z).

Definition gettcb (s : st) (t : Z) : res tcb := match tcbs s !! t with Some x => Ok x | None => Err EFault end.
Definition getlist (s : st) (d : Z) : res thread_list := match tdoms s !! d with Some x => Ok x | None => Err EFault end.
Definition set_sched (c : sched) (s : st) : st := MkTSys c (tcbs s) (tdoms s) (ts_alloc s) (ts_mem s) (ts_heaps s).
Definition set_alloc (a : malloc_state) (s : st) : st := MkTSys (ts_sch s) (tcbs s) (tdoms s) a (ts_mem s) (ts_heaps s).
Definition set_tmem (m : memory) (s : st) : st := MkTSys (ts_sch s) (tcbs s) (tdoms s) (ts_alloc s) m (ts_heaps s).
Definition upd_tcb (t : Z) (f : tcb -> tcb) (s : st) : st :=
  MkTSys (ts_sch s) (alter f t (tcbs s)) (tdoms s) (ts_alloc s) (ts_mem s) (ts_heaps s).
Definition set_list (d : Z) (l : thread_list) (s : st) : st :=
  MkTSys (ts_sch s) (tcbs s) (<[d := l]> (tdoms s)) (ts_alloc s) (ts_mem s) (ts_heaps s).

(** a new entry in the stores of control blocks *)
Definition add_sched_thread (t d : Z) (c : sched) : sched :=
  MkSched (<[t := MkThread 0 d NULL]> (threads c)) (domains c) (domain_table c) (rq_first c) (rq_last c) (current c) (idle_thread c).
Definition alloc_thread (d : Z) (s : st) : res (Z * st) :=
  let! '(t, h) := alloc_tcb d (ts_heaps s) in
  Ok (t, MkTSys (add_sched_thread t d (ts_sch s)) (<[t := new_tcb]> (tcbs s)) (tdoms s) (ts_alloc s) (ts_mem s) h).

(** ** Creation *)

Definition pcb_init : list Z := [KERNEL_DS; KERNEL_DS; KERNEL_DS; KERNEL_DS; 0; 0; 0; 0; 0; 0; 0; 0; 0; 0x212].
Definition start_context (start sp : Z) : list Z :=
  <[PCB_EFLAGS := 0x212]> (<[PCB_EBP := 0]> (<[PCB_ESP := sp]> (<[PCB_EIP := start]> pcb_init))).

(** in front of the other threads of the domain *)
Definition link_thread (domain t : Z) (s : st) : res st :=
  let! l := getlist s domain in
  let! s := (if tl_threads l =? NULL then Ok s
             else let! _ := gettcb s (tl_threads l) in Ok (upd_tcb (tl_threads l) (set_prev t) s)) in
  Ok (set_list domain (MkThreadList t (currentThreadID l)) (upd_tcb t (set_links (tl_threads l) NULL) s)).

(** [fuel] bounds the search of the allocator; the parameter [stackSize] is not used *)
Definition createThreadInMem (fuel : nat) (domain thread_start param entry state schedParam : Z) (s : st) : res (Z * st) :=
  let! '(t, s) := alloc_thread domain s in
  let! '(mem, a) := malloc_threadstack fuel STACK_CHUNK_SIZE STACK_ALIGN (ts_alloc s) in
  let s := set_alloc a s in
  let top := u32 (mem + STACK_CHUNK_SIZE) in
  let! l := getlist s domain in
  let id := u32 (currentThreadID l + 1) in
  let s := set_list domain (MkThreadList (tl_threads l) id) s in
  let s := upd_tcb t (fun x => MkTcb mem top (context x) (<[0%nat := 0]> (th_name x)) entry NULL NULL 0 id (nextInDomain x) (prevInDomain x)) s in
  let! s := link_thread domain t s in
  let m := store32 (ts_mem s) (top - 4) thread_exit_addr in
  let m := store32 m (top - 8) param in
  let m := store32 m (top - 12) thread_exit_addr in
  let s := upd_tcb t (set_context (start_context thread_start (top - 12))) (set_tmem m s) in
  let s := set_sched (set_t_state t state (ts_sch s)) s in
  let! c := Sched_created t schedParam (ts_sch s) in
  Ok (t, set_sched c s).

Definition createThread (fuel : nat) (domain thread_start param state schedParam : Z) : st -> res (Z * st) :=
  createThreadInMem fuel domain thread_start param NULL state schedParam.
Definition createInitialDomainThread (start_initial_thread : Z) (fuel : nat) (domain state schedParam : Z) : st -> res (Z * st) :=
  createThreadInMem fuel domain start_initial_thread NULL NULL state schedParam.

(** ** The end of a thread *)

Definition freeThreadMem (t : Z) (s : st) : res st :=
  let! x := gettcb s t in
  let! a := (if myparams x =? NULL then Ok (ts_alloc s) else jxfree (myparams x) MYPARAMS_SIZE (ts_alloc s)) in
  let! a := free_threadstack (stack x) STACK_CHUNK_SIZE a in
  Ok (set_alloc a s).

Definition unlink_thread (t : Z) (s : st) : res st :=
  let! x := gettcb s t in
  let! s := (if negb (prevInDomain x =? NULL) then
               let! _ := gettcb s (prevInDomain x) in Ok (upd_tcb (prevInDomain x) (set_next (nextInDomain x)) s)
             else
               let! y := thr (ts_sch s) t in
               let! l := getlist s (t_domain y) in
               Ok (set_list (t_domain y) (MkThreadList (nextInDomain x) (currentThreadID l)) s)) in
  if negb (nextInDomain x =? NULL) then
    let! _ := gettcb s (nextInDomain x) in Ok (upd_tcb (nextInDomain x) (set_prev (prevInDomain x)) s)
  else Ok s.

Definition terminateThread_internal (t : Z) (s : st) : res st :=
  let! s := unlink_thread t s in
  let! _ := Sched_destroyed t (ts_sch s) in
  freeThreadMem t s.
Definition terminateThread (t : Z) (s : st) : res st := terminateThread_internal t s.

(** the current thread; it is never switched to again *)
Definition destroyCurrentThread (s : st) : res st :=
  let! domain := curdom (ts_sch s) in
  let t := curthr (ts_sch s) in
  let s := set_sched (set_t_state t STATE_ZOMBIE (ts_sch s)) s in
  let! s := terminateThread_internal t s in
  let! c := Sched_destroy_switch_to_nextThread domain (ts_sch s) in
  Ok (set_sched c s).
Definition thread_exit (s : st) : res st := destroyCurrentThread s.

(** ** Search and names *)

Fixpoint find_id (fuel : nat) (t id : Z) (s : st) : res Z :=
  if t =? NULL then Ok NULL else
  match fuel with
  | O => Err EFuel
  | S k => let! x := gettcb s t in if th_id x =? id then Ok t else find_id k (nextInDomain x) id s
  end.
Definition findThreadByID (domain id : Z) (s : st) : res Z :=
  let! l := getlist s domain in find_id (size (tcbs s)) (tl_threads l) id s.

(** [strncpy] to position [i] of an array of characters *)
Fixpoint strncpy_at (name : list Z) (i n : nat) (l : list Z) : list Z :=
  match n with
  | O => name
  | S n =>
      match l with
      | [] => strncpy_at (<[i := 0]> name) (S i) n []
      | c :: l => strncpy_at (<[i := c]> name) (S i) n l
      end
  end.
Definition setThreadName (t : Z) (n1 : list Z) (n2 : option (list Z)) (s : st) : res st :=
  let l := length n1 in
  let! x := gettcb s t in
  let name := strncpy_at (th_name x) 0 THREAD_NAME_MAXLEN n1 in
  Ok (upd_tcb t (set_name
    (match n2 with
     | Some n2 => if (THREAD_NAME_MAXLEN <=? l)%nat then name else strncpy_at name l (THREAD_NAME_MAXLEN - l) n2
     | None => name
     end)) s).
End Threads.
