(* ===== verification/ThreadsInv.v ===== *)
(** * The threads of a domain

    Creation and termination keep the list of threads of every domain doubly
    linked, their numbers different and their stacks apart; a new thread
    starts in its start function and ends in [thread_exit]; what a terminated
    thread had goes back to the allocator. *)

From S2P Require Import Prelude Mem CString Malloc Alloc RunQueue Threads.
#[local] Open Scope Z_scope.

(** ** Stacks come from the allocator *)

(** with blocks of 1024 bytes an alignment of 4 asks for nothing *)
Lemma GETADDR_align st b : jxmem_start st mod BLOCKSIZE = 0 -> Z.land (GETADDR st b) 3 = 0.
Proof.
  intros Hs. unfold GETADDR, BLOCKSIZE in *. change 3 with (Z.ones 2). rewrite Z.land_ones by lia. change (2 ^ 2) with 4.
  apply Z.mod_divide in Hs as [k Hk]; [|lia]. unfold u32, uwrap. apply Z.mod_divide; [lia|].
  assert (Hd : forall z, (4 | z) -> (4 | z mod 2 ^ 32)).
  { intros z Hz. apply Z.mod_divide; [lia|]. rewrite Z.mod_mod_divide by (exists (2 ^ 30); reflexivity). by apply Z.mod_divide; [lia|]. }
  apply Hd, Z.divide_add_r; [exists (256 * k); lia|]. apply Hd. exists (256 * b). lia.
Qed.

Lemma loop_ext {S A} (f g : S -> res (S + A)) (P : S -> Prop) n s :
  (forall s, P s -> f s = g s) -> (forall s s', P s -> f s = Ok (inl s') -> P s') -> P s -> loop n f s = loop n g s.
Proof.
  intros He Hp. revert s. induction n as [|n IH]; intros s Hs; [done|]. cbn [loop]. rewrite <- He by done.
  destruct (f s) as [[s'|a]|e] eqn:E; try done. apply IH. by eapply Hp.
Qed.

Lemma jxmalloc_internal_align4 fuel n st : malloc_ok st -> jxmalloc_internal fuel n 4 st = jxmalloc_internal fuel n 1 st.
Proof.
  intros Hok. pose proof Hok as [HN Hc [_ Hs] _ _]. unfold jxmalloc_internal. change (u32 (4 - 1)) with 3. change (u32 (1 - 1)) with 0.
  apply (loop_ext _ _ (moved st)); [| |exists (current_block st); split; [done|by destruct st]].
  - intros s Hm. unfold alloc_body. destruct (isFree n s) as [[f s1]|] eqn:E; [|done]. cbn [rbind]. destruct f; [|done].
    apply (isFree_moved st) in E as (c & _ & ->); [|lia|done]. rewrite Z.land_0_r. rewrite GETADDR_align; [done|exact Hs].
  - intros s s' Hm H. unfold alloc_body in H. apply rbind_ok in H as ([f s1] & E & H). apply (isFree_moved st) in E; [|lia|done].
    destruct f; [|destruct (_ =? _); [done|]].
    + destruct (_ =? 0); [done|]. apply rbind_ok in H as (s2 & E2 & H). injection H as <-. eapply nextFree_moved; [|exact E|exact E2]; lia.
    + apply rbind_ok in H as (s2 & E2 & H). injection H as <-. eapply nextFree_moved; [|exact E|exact E2]; lia.
Qed.

Lemma malloc_threadstack_alloc st : malloc_good st ->
  malloc_threadstack (S (Z.to_nat (n_blocks st))) STACK_CHUNK_SIZE STACK_ALIGN st = al_alloc STACK_CHUNK_SIZE st.
Proof.
  intros [Hok _]. unfold malloc_threadstack, STACK_CHUNK_SIZE, STACK_ALIGN. cbn [negb Z.eqb]. change (8192 mod BLOCKSIZE =? 0) with true. cbn [negb].
  change (Z.shiftr 8192 BLOCKADDR_N_NULLBITS) with 8. unfold jxmalloc_align. rewrite jxmalloc_internal_align4 by done.
  change (al_alloc 8192 st) with (jxmalloc_ 8192 st). unfold jxmalloc_, jxmalloc.
  change (Z.shiftr (ALIGN_NEXT_BLOCK 8192) BLOCKADDR_N_NULLBITS) with 8.
  destruct (jxmalloc_internal _ 8 1 st) as [[a st']|] eqn:E; [|done]. cbn [rbind].
  apply jxmalloc_internal_sound in E as (b & _ & -> & _); [|done|lia]. pose proof Hok as [_ _ [_ Hs] _ _].
  assert (Ha : Z.land (jxmem_start st + b * BLOCKSIZE) (u32 (4 - 1)) = 0).
  { change (u32 (4 - 1)) with (Z.ones 2). rewrite Z.land_ones by lia. change (2 ^ 2) with 4. unfold BLOCKSIZE in *. apply Z.mod_divide; [lia|].
    apply Z.mod_divide in Hs as [k Hk]; [|lia]. exists (256 * k + 256 * b). lia. }
  by rewrite Ha.
Qed.

(** ** Doubly linked lists *)

(** [g x]: the predecessor and the successor of [x] *)
Definition linked (g : Z -> option (Z * Z)) (first : Z) (l : list Z) : Prop :=
  first = hd NULL l /\ (NULL ∉ l) /\ forall l1 x l2, l = l1 ++ x :: l2 -> g x = Some (default NULL (last l1), hd NULL l2).

Lemma linked_some g first l x : linked g first l -> x ∈ l -> is_Some (g x).
Proof. intros (_ & _ & H) (l1 & l2 & ->)%list_elem_of_split. rewrite (H l1 x l2 eq_refl). by eexists. Qed.
Lemma linked_ext g g' first l : (forall x, x ∈ l -> g' x = g x) -> linked g first l -> linked g' first l.
Proof.
  intros He (Hf & Hn & H). split_and!; [done|done|]. intros l1 x l2 ->. rewrite He by (apply elem_of_app; right; apply list_elem_of_here). by apply H.
Qed.

Lemma linked_push g g' first l t : linked g first l -> NoDup l -> t ∉ l -> t <> NULL ->
  g' t = Some (NULL, first) -> (forall x, x ∈ l -> g' x = if x =? first then ((fun p => (t, p.2)) <$> g x) else g x) -> linked g' t (t :: l).
Proof.
  intros (Hf & Hn & H) Hnd Ht Ht0 Hgt Hg. split_and!; [done|by apply not_elem_of_cons|].
  intros [|y l1] x l2 E; injection E as -> ->; [by rewrite Hgt, Hf|].
  assert (Hx : x ∈ l1 ++ x :: l2) by (apply elem_of_app; right; apply list_elem_of_here).
  rewrite (Hg x Hx), (H l1 x l2 eq_refl), Hf. destruct l1 as [|z l1].
  - cbn [app hd]. by rewrite Z.eqb_refl.
  - cbn [app hd]. destruct (Z.eqb_spec x z) as [->|]; [|by rewrite last_cons_cons].
    exfalso. cbn [app] in Hnd. apply NoDup_cons in Hnd as [Hnd _]. apply Hnd, elem_of_app. right. apply list_elem_of_here.
Qed.

Lemma hd_in (l : list Z) : l <> [] -> hd NULL l ∈ l.
Proof. destruct l; [done|]. intros _. apply list_elem_of_here. Qed.
Lemma last_in (l : list Z) : l <> [] -> default NULL (last l) ∈ l.
Proof. induction l as [|x [|y l] IH]; [done|intros _; apply list_elem_of_here|]. intros _. apply list_elem_of_further, IH. done. Qed.

(** taking out one element *)
Lemma linked_remove g g' first l1 t l2 : linked g first (l1 ++ t :: l2) -> NoDup (l1 ++ t :: l2) ->
  (forall x, x ∈ l1 ++ l2 -> g' x = let h := (if x =? default NULL (last l1) then (fun p => (p.1, hd NULL l2)) <$> g x else g x) in
     if x =? hd NULL l2 then (fun p => (default NULL (last l1), p.2)) <$> h else h) ->
  linked g' (if default NULL (last l1) =? NULL then hd NULL l2 else first) (l1 ++ l2).
Proof.
  intros (Hf & Hn & H) Hnd Hg. apply NoDup_app in Hnd as (Hnd1 & Hd & Hnd2). apply NoDup_cons in Hnd2 as [Ht2 Hnd2].
  apply not_elem_of_app in Hn as [Hn1 [_ Hn2]%not_elem_of_cons].
  assert (Hlast : l1 <> [] -> default NULL (last l1) <> NULL) by (intros Hl E; apply Hn1; rewrite <- E; by apply last_in).
  split_and!.
  - destruct l1 as [|y l1]; [done|]. rewrite (proj2 (Z.eqb_neq _ NULL)) by (by apply Hlast). by rewrite Hf.
  - by apply not_elem_of_app.
  - intros a x b E. assert (Hx : x ∈ l1 ++ l2) by (rewrite E; apply elem_of_app; right; apply list_elem_of_here). rewrite (Hg x Hx). clear Hg Hx.
    assert (Hapart : forall y z, y ∈ l1 -> z ∈ l2 -> y <> z) by (intros y z Hy Hz ->; eapply Hd; [exact Hy|by apply list_elem_of_further]).
    assert (Hin1 : forall c, l1 = a ++ x :: c -> b = c ++ l2 -> (let h := (if x =? default NULL (last l1) then (fun p => (p.1, hd NULL l2)) <$> g x else g x) in
      if x =? hd NULL l2 then (fun p => (default NULL (last l1), p.2)) <$> h else h) = Some (default NULL (last a), hd NULL b)).
    { intros c Hl1 ->. assert (Hxl : x ∈ l1) by (rewrite Hl1; apply elem_of_app; right; apply list_elem_of_here). cbv zeta.
      assert (Hxh : x <> hd NULL l2) by (destruct l2 as [|z l2]; [intros ->; by apply Hn1|intros E2; refine (Hapart x z Hxl _ E2); apply list_elem_of_here]).
      rewrite (proj2 (Z.eqb_neq _ _) Hxh). pose proof (H a x (c ++ t :: l2) ltac:(by rewrite Hl1, <- app_assoc)) as Ex. rewrite Ex. destruct c as [|z c].
      - rewrite Hl1, last_snoc. cbn [default id]. rewrite Z.eqb_refl. done.
      - assert (Hne : x <> default NULL (last l1)).
        { intros E2. rewrite Hl1 in Hnd1. apply NoDup_app in Hnd1 as (_ & _ & [Hnd1 _]%NoDup_cons). apply Hnd1.
          rewrite E2, Hl1. rewrite last_app_cons, last_cons_cons. by apply last_in. }
        by rewrite (proj2 (Z.eqb_neq _ _) Hne). }
    apply app_eq_inv in E as [(c & Hl1 & Hb)|(c & Ha & Hl2)].
    + destruct c as [|z c]; [|injection Hb as -> ->; by apply (Hin1 c)].
      rewrite app_nil_r in Hl1. subst a. cbn [app] in Hb. subst l2. cbv zeta. cbn [hd]. rewrite Z.eqb_refl.
      assert (Hne : x <> default NULL (last l1)).
      { destruct (decide (l1 = [])) as [->|Hl]; [intros ->; apply Hn2, list_elem_of_here|]. intros E2. apply (Hapart x x); [rewrite E2; by apply last_in|apply list_elem_of_here|done]. }
      rewrite (proj2 (Z.eqb_neq _ _) Hne). rewrite (H (l1 ++ [t]) x b) by (by rewrite <- app_assoc). done.
    + subst a. assert (Hxl : x ∈ l2) by (rewrite Hl2; apply elem_of_app; right; apply list_elem_of_here). cbv zeta.
      assert (Hne : x <> default NULL (last l1)).
      { destruct (decide (l1 = [])) as [->|Hl]; [intros ->; by apply Hn2|]. intros E2. apply (Hapart x x); [rewrite E2; by apply last_in|done|done]. }
      rewrite (proj2 (Z.eqb_neq _ _) Hne). rewrite (H (l1 ++ t :: c) x b) by (by rewrite <- app_assoc, Hl2). rewrite Hl2. destruct c as [|z c].
      * cbn [app hd]. rewrite Z.eqb_refl, app_nil_r. done.
      * cbn [app hd]. rewrite !last_app_cons, last_cons_cons. destruct (Z.eqb_spec x z) as [->|]; [|done].
        exfalso. rewrite Hl2 in Hnd2. cbn [app] in Hnd2. apply NoDup_cons in Hnd2 as [Hnd2 _]. apply Hnd2, elem_of_app. right. apply list_elem_of_here.
Qed.

(** ** The invariant *)

Section Invariant.
Context {H : Type}.
Abbreviation st := (tsys H).

Definition tlinks (s : st) (t : Z) : option (Z * Z) := (fun x => (prevInDomain x, nextInDomain x)) <$> tcbs s !! t.
Definition updL (L : Z -> list Z) (d : Z) (l : list Z) : Z -> list Z := fun e => if e =? d then l else L e.
(** the blocks that a thread has from the allocator *)
Definition block (x : tcb) (b : Z * Z) : Prop := b = (stack x, STACK_CHUNK_SIZE) \/ (myparams x <> NULL /\ b = (myparams x, MYPARAMS_SIZE)).
Definition inside (b : Z * Z) (z : Z) : Prop := b.1 <= z < b.1 + al_span b.2.

(** [L d]: the threads of domain [d] *)
Record threads_ok (s : st) (L : Z -> list Z) : Prop := {
  to_lists : forall d D, tdoms s !! d = Some D -> linked (tlinks s) (tl_threads D) (L d) /\ NoDup (L d);
  to_null : tcbs s !! NULL = None;
  to_none : forall d, tdoms s !! d = None -> L d = [];
  to_domain : forall d t, t ∈ L d -> exists T, threads (ts_sch s) !! t = Some T /\ t_domain T = d;
  to_ids : forall d D t x, tdoms s !! d = Some D -> t ∈ L d -> tcbs s !! t = Some x -> 0 <= th_id x <= currentThreadID D;
  to_same : forall d t t' x x', t ∈ L d -> t' ∈ L d -> tcbs s !! t = Some x -> tcbs s !! t' = Some x' -> th_id x = th_id x' -> t = t';
  to_alloc : al_ok (ts_alloc s);
  to_blocks : forall d t x b, t ∈ L d -> tcbs s !! t = Some x -> block x b -> grant (ts_alloc s) b.1 b.2;
  to_apart : forall d t x b d' t' x' b' z, t ∈ L d -> t' ∈ L d' -> tcbs s !! t = Some x -> tcbs s !! t' = Some x' -> block x b -> block x' b' ->
    inside b z -> inside b' z -> t = t' /\ b = b';
  to_top : forall d t x, t ∈ L d -> tcbs s !! t = Some x -> 0 <= stack x /\ stackTop x = stack x + STACK_CHUNK_SIZE /\ stackTop x <= 2147483648;
}.

Lemma thread_domain s L d d' t : threads_ok s L -> t ∈ L d -> t ∈ L d' -> d = d'.
Proof. intros I H1 H2. destruct (to_domain _ _ I d t H1) as (T & E & <-), (to_domain _ _ I d' t H2) as (T' & E' & <-). congruence. Qed.
Lemma thread_listed s L d t : threads_ok s L -> t ∈ L d -> exists D x, tdoms s !! d = Some D /\ tcbs s !! t = Some x /\ t <> NULL.
Proof.
  intros I Ht. destruct (tdoms s !! d) as [D|] eqn:ED; [|rewrite (to_none _ _ I d ED) in Ht; by apply elem_of_nil in Ht].
  destruct (to_lists _ _ I d D ED) as [HL _]. destruct (linked_some _ _ _ _ HL Ht) as [p Hp]. unfold tlinks in Hp.
  destruct (tcbs s !! t) as [x|] eqn:Ex; [|done]. exists D, x. split_and!; try done. intros ->. by destruct HL as (_ & Hn & _).
Qed.

(** ** The scheduler learns of a new thread *)

Lemma tinfo_add t d c y : tinfo (add_sched_thread t d c) y = if y =? t then Some (0, d) else tinfo c y.
Proof. unfold tinfo, add_sched_thread. cbn [threads]. destruct (Z.eqb_spec y t) as [->|]; [by rewrite lookup_insert_eq|by rewrite lookup_insert_ne]. Qed.

Lemma add_thread_mid c q cd t d : sched_mid c q cd -> threads c !! t = None -> t <> NULL -> is_Some (domains c !! d) ->
  sched_mid (add_sched_thread t d c) q cd.
Proof.
  intros [[Hdq Htq Hout Hmem Hdom [Hn1 Hn2]] [st0 Hc] Hb [dz Hi] Ho Htab] Hnew Ht0 Hd.
  assert (Hne : forall y x, tinfo c y = Some x -> y <> t) by (intros y x Hy ->; unfold tinfo in Hy; by rewrite Hnew in Hy).
  split; try done.
  - split; try done.
    + intros e D HD. eapply queue_ext; [|by apply Htq]. intros y Hy. unfold tnext, add_sched_thread. cbn [threads].
      by rewrite lookup_insert_ne by (apply not_eq_sym, (Hne y _ (Hmem e y Hy))).
    + intros e y Hy. rewrite tinfo_add, (proj2 (Z.eqb_neq y t)) by (by apply (Hne y _ (Hmem e y Hy))). by apply Hmem.
    + intros y T. unfold add_sched_thread. cbn [threads domains]. destruct (decide (y = t)) as [->|Hy]; [rewrite lookup_insert_eq; by intros [= <-]|].
      rewrite lookup_insert_ne by done. by apply Hdom.
    + split; [|done]. unfold add_sched_thread. cbn [threads]. by rewrite lookup_insert_ne.
  - exists st0. change (tinfo (add_sched_thread t d c) (current c) = Some (st0, cd)). by rewrite tinfo_add, (proj2 (Z.eqb_neq _ t)) by (by eapply Hne).
  - exists dz. change (tinfo (add_sched_thread t d c) (idle_thread c) = Some (STATE_RUNNABLE, dz)). by rewrite tinfo_add, (proj2 (Z.eqb_neq _ t)) by (by eapply Hne).
Qed.

(** the queues after a thread was created *)
Definition q_created (schedParam cd d t : Z) (q : queues) : queues :=
  if schedParam =? SCHED_CREATETHREAD_DEFAULT then q_ready cd d t q else q.

Lemma created_spec c q cd t d state schedParam :
  sched_ok c q cd -> threads c !! t = None -> t <> NULL -> is_Some (domains c !! d) ->
  state = STATE_RUNNABLE \/ schedParam <> SCHED_CREATETHREAD_DEFAULT ->
  exists c', Sched_created t schedParam (set_t_state t state (add_sched_thread t d c)) = Ok c' /\
    sched_ok c' (q_created schedParam cd d t q) cd /\ current c' = current c /\ idle_thread c' = idle_thread c /\
    forall y, tinfo c' y = if y =? t then Some (state, d) else tinfo c y.
Proof.
  intros [Hm Hrun Hout] Hnew Ht0 Hd Hst.
  assert (Hnq : ~ queued q t).
  { intros [e He]. pose proof (r_mem _ _ (sm_rep _ _ _ Hm) e t He) as Hr. unfold tinfo in Hr. by rewrite Hnew in Hr. }
  assert (Hni : t <> idle_thread c) by (intros ->; destruct (sm_idle _ _ _ Hm) as [dz Hi]; unfold tinfo in Hi; by rewrite Hnew in Hi).
  assert (Hnc : current c <> t) by (intros E; unfold tinfo in Hrun; by rewrite E, Hnew in Hrun).
  pose proof (add_thread_mid c q cd t d Hm Hnew Ht0 Hd) as Hm1. set (c1 := add_sched_thread t d c) in *.
  assert (Hm2 : sched_mid (set_t_state t state c1) q cd) by (apply sched_mid_set_state; [done|by right]). set (c2 := set_t_state t state c1) in *.
  assert (Ht2 : forall y, tinfo c2 y = if y =? t then Some (state, d) else tinfo c y).
  { intros y. unfold c2. rewrite tinfo_set_t_state. unfold c1. rewrite !tinfo_add, Z.eqb_refl. by destruct (y =? t). }
  unfold Sched_created, q_created. destruct (Z.eqb_spec schedParam SCHED_CREATETHREAD_DEFAULT) as [Hp|Hp].
  - assert (state = STATE_RUNNABLE) as -> by (by destruct Hst).
    destruct (Sched_unblocked_spec c2 q cd t d Hm2 ltac:(by rewrite Ht2, Z.eqb_refl) Hnq Hni) as (c3 & E & Hm3 & F).
    exists c3. split; [exact E|]. assert (Hc3 : current c3 = current c) by (apply (f_cur _ _ F)). split_and!; [|done|apply (f_idle _ _ F)|].
    + split; [done| |].
      * by rewrite Hc3, (f_info _ _ F), Ht2, (proj2 (Z.eqb_neq _ t)).
      * rewrite Hc3. intros [Hq|Hq]%queued_ready; done.
    + intros y. by rewrite (f_info _ _ F), Ht2.
  - exists c2. split_and!; try done. split; [done| |done]. change (current c2) with (current c). by rewrite Ht2, (proj2 (Z.eqb_neq _ t)).
Qed.
(** ** Creation *)

(** [t] is the new first thread of [d], with its stack at [a] *)
Record pushed (s s' : st) (d t a : Z) (D : thread_list) (x : tcb) : Prop := {
  pu_doms : tdoms s' = <[d := MkThreadList t (currentThreadID D + 1)]> (tdoms s);
  pu_tcbs : forall y, tcbs s' !! y = if y =? t then Some x else if y =? tl_threads D then set_prev t <$> tcbs s !! y else tcbs s !! y;
  pu_links : nextInDomain x = tl_threads D /\ prevInDomain x = NULL;
  pu_tcb : stack x = a /\ stackTop x = a + STACK_CHUNK_SIZE /\ myparams x = NULL /\ th_id x = currentThreadID D + 1;
}.

Lemma pushed_tcb s s' L d t a D x : threads_ok s L -> tdoms s !! d = Some D -> pushed s s' d t a D x ->
  forall y z, y <> t -> tcbs s' !! y = Some z -> exists z', tcbs s !! y = Some z' /\ th_id z = th_id z' /\ stack z = stack z' /\
    stackTop z = stackTop z' /\ (forall b, block z b <-> block z' b).
Proof.
  intros I HD P y z Hy Hz. rewrite (pu_tcbs _ _ _ _ _ _ _ P), (proj2 (Z.eqb_neq y t) Hy) in Hz.
  destruct (y =? tl_threads D); [|by exists z]. destruct (tcbs s !! y) as [z'|]; [|done]. injection Hz as <-. by exists z'.
Qed.

Lemma threads_ok_push s s' L d t a D x state :
  threads_ok s L -> tdoms s !! d = Some D -> 0 <= currentThreadID D -> (forall e, t ∉ L e) -> t <> NULL -> pushed s s' d t a D x ->
  (forall y, tinfo (ts_sch s') y = if y =? t then Some (state, d) else tinfo (ts_sch s) y) ->
  al_alloc STACK_CHUNK_SIZE (ts_alloc s) = Ok (a, ts_alloc s') -> threads_ok s' (updL L d (t :: L d)).
Proof.
  intros I HD Hid Ht Ht0 P Hinfo HA. pose proof (pushed_tcb s s' L d t a D x I HD P) as Hold.
  destruct (al_alloc_spec STACK_CHUNK_SIZE (ts_alloc s) a (ts_alloc s') (to_alloc _ _ I) ltac:(done) ltac:(done) HA) as (Hgood & Ha0 & Ha1 & Hgr & Hfresh & _ & Hkeep).
  assert (Hspan : al_span STACK_CHUNK_SIZE = STACK_CHUNK_SIZE) by (by vm_compute).
  assert (Hx : tcbs s' !! t = Some x) by (by rewrite (pu_tcbs _ _ _ _ _ _ _ P), Z.eqb_refl).
  assert (Hin : forall e y, y ∈ updL L d (t :: L d) e -> y = t /\ e = d \/ y <> t /\ y ∈ L e).
  { intros e y. unfold updL. destruct (Z.eqb_spec e d) as [->|].
    - intros [->|Hy]%elem_of_cons; [by left|]. right. split; [intros ->; by apply (Ht d)|done].
    - intros Hy. right. split; [intros ->; by apply (Ht e)|done]. }
  assert (Hblk : forall b, block x b <-> b = (a, STACK_CHUNK_SIZE)).
  { intros b. destruct (pu_tcb _ _ _ _ _ _ _ P) as (Es & _ & Em & _). unfold block. rewrite Es, Em. split; [intros [?|[? _]]; done|by left]. }
  assert (Hnew : forall e y z b w, y ∈ L e -> tcbs s !! y = Some z -> block z b -> inside b w -> ~ inside (a, STACK_CHUNK_SIZE) w).
  { intros e y z b w Hy Hz Hb Hw Hw'. apply (Hfresh w Hw'). eapply grant_owned; [by eapply (to_blocks _ _ I)|exact Hw]. }
  split.
  - intros e E. rewrite (pu_doms _ _ _ _ _ _ _ P). destruct (decide (e = d)) as [->|He].
    + rewrite lookup_insert_eq. intros [= <-]. cbn [tl_threads]. destruct (to_lists _ _ I d D HD) as [HL Hnd]. unfold updL. rewrite Z.eqb_refl.
      split; [|by apply NoDup_cons]. eapply linked_push; [exact HL|exact Hnd|apply Ht|exact Ht0| |].
      * unfold tlinks. rewrite Hx. cbn. by destruct (pu_links _ _ _ _ _ _ _ P) as [-> ->].
      * intros y Hy. unfold tlinks. rewrite (pu_tcbs _ _ _ _ _ _ _ P), (proj2 (Z.eqb_neq y t)) by (intros ->; by apply (Ht d)).
        destruct (y =? tl_threads D); [|done]. by destruct (tcbs s !! y).
    + rewrite lookup_insert_ne by done. intros HE. destruct (to_lists _ _ I e E HE) as [HL Hnd]. unfold updL. rewrite (proj2 (Z.eqb_neq e d) He).
      split; [|done]. eapply linked_ext; [|exact HL]. intros y Hy. unfold tlinks.
      rewrite (pu_tcbs _ _ _ _ _ _ _ P), (proj2 (Z.eqb_neq y t)) by (intros ->; by apply (Ht e)).
      destruct (Z.eqb_spec y (tl_threads D)) as [->|]; [|done]. exfalso. destruct (to_lists _ _ I d D HD) as [(Ef & _ & _) _].
      destruct (decide (L d = [])) as [El|El].
      * destruct HL as (_ & Hn & _). apply Hn. rewrite Ef, El in Hy. exact Hy.
      * apply He. eapply (thread_domain s L); [exact I|exact Hy|]. rewrite Ef. by apply hd_in.
  - rewrite (pu_tcbs _ _ _ _ _ _ _ P), (proj2 (Z.eqb_neq NULL t)), (to_null _ _ I) by done. by destruct (_ =? _).
  - intros e. rewrite (pu_doms _ _ _ _ _ _ _ P). unfold updL. destruct (Z.eqb_spec e d) as [->|He]; [by rewrite lookup_insert_eq|].
    rewrite lookup_insert_ne by done. apply (to_none _ _ I).
  - intros e y Hy. assert (Hi : exists st, tinfo (ts_sch s') y = Some (st, e)).
    { destruct (Hin e y Hy) as [[-> ->]|[Hn Hy']].
      - rewrite Hinfo, Z.eqb_refl. by eexists.
      - destruct (to_domain _ _ I e y Hy') as (T & ET & ETd). exists (t_state T). rewrite Hinfo, (proj2 (Z.eqb_neq y t) Hn), (tinfo_thr _ _ _ ET). by rewrite ETd. }
    destruct Hi as [st0 Hi]. apply tinfo_some in Hi as (T & ET & _ & Ed). by exists T.
  - intros e E y z HE Hy Hz. rewrite (pu_doms _ _ _ _ _ _ _ P) in HE. destruct (Hin e y Hy) as [[-> ->]|[Hn Hy']].
    + rewrite lookup_insert_eq in HE. injection HE as <-. rewrite Hx in Hz. injection Hz as <-. destruct (pu_tcb _ _ _ _ _ _ _ P) as (_ & _ & _ & ->). cbn. lia.
    + destruct (Hold y z Hn Hz) as (z' & Hz' & -> & _). destruct (decide (e = d)) as [->|He].
      * rewrite lookup_insert_eq in HE. injection HE as <-. cbn. pose proof (to_ids _ _ I d D y z' HD Hy' Hz'). lia.
      * rewrite lookup_insert_ne in HE by done. by eapply (to_ids _ _ I).
  - assert (Hlow : forall y z, y <> t -> y ∈ L d -> tcbs s' !! y = Some z -> th_id z <> th_id x).
    { intros y z Hn Hy Hz. destruct (Hold y z Hn Hz) as (w & Hw & -> & _). pose proof (to_ids _ _ I d D y w HD Hy Hw).
      destruct (pu_tcb _ _ _ _ _ _ _ P) as (_ & _ & _ & ->). lia. }
    intros e y y' z z' Hy Hy' Hz Hz' E. destruct (Hin e y Hy) as [[-> ->]|[Hn Hi]]; [destruct (Hin d y' Hy') as [[-> _]|[Hn' Hi']]|destruct (Hin e y' Hy') as [[-> ->]|[Hn' Hi']]].
    + done.
    + rewrite Hx in Hz. injection Hz as <-. by destruct (Hlow y' z').
    + rewrite Hx in Hz'. injection Hz' as <-. by destruct (Hlow y z).
    + destruct (Hold y z Hn Hz) as (w & Hw & Ew & _), (Hold y' z' Hn' Hz') as (w' & Hw' & Ew' & _). eapply (to_same _ _ I); [exact Hi|exact Hi'|exact Hw|exact Hw'|congruence].
  - exact Hgood.
  - intros e y z b Hy Hz Hb. destruct (Hin e y Hy) as [[-> ->]|[Hn Hi]].
    + rewrite Hx in Hz. injection Hz as <-. apply Hblk in Hb as ->. exact Hgr.
    + destruct (Hold y z Hn Hz) as (w & Hw & _ & _ & _ & Hb'). apply Hkeep. eapply (to_blocks _ _ I); [exact Hi|exact Hw|by apply Hb'].
  - intros e y z b e' y' z' b' w Hy Hy' Hz Hz' Hb Hb' Hw Hw'.
    destruct (Hin e y Hy) as [[-> ->]|[Hn Hi]], (Hin e' y' Hy') as [[-> ->]|[Hn' Hi']].
    + split; [done|]. rewrite Hx in Hz, Hz'. injection Hz as <-. injection Hz' as <-. apply Hblk in Hb as ->. by apply Hblk in Hb' as ->.
    + exfalso. rewrite Hx in Hz. injection Hz as <-. apply Hblk in Hb as ->. destruct (Hold y' z' Hn' Hz') as (v & Hv & _ & _ & _ & Hbv). by apply (Hnew e' y' v b' w Hi' Hv); [apply Hbv| |].
    + exfalso. rewrite Hx in Hz'. injection Hz' as <-. apply Hblk in Hb' as ->. destruct (Hold y z Hn Hz) as (v & Hv & _ & _ & _ & Hbv). by apply (Hnew e y v b w Hi Hv); [apply Hbv| |].
    + destruct (Hold y z Hn Hz) as (v & Hv & _ & _ & _ & Hbv), (Hold y' z' Hn' Hz') as (v' & Hv' & _ & _ & _ & Hbv').
      eapply (to_apart _ _ I); [exact Hi|exact Hi'|exact Hv|exact Hv'|by apply Hbv|by apply Hbv'|exact Hw|exact Hw'].
  - intros e y z Hy Hz. destruct (Hin e y Hy) as [[-> ->]|[Hn Hi]].
    + rewrite Hx in Hz. injection Hz as <-. destruct (pu_tcb _ _ _ _ _ _ _ P) as (-> & -> & _). rewrite Hspan in Ha1. split_and!; [done|done|lia].
    + destruct (Hold y z Hn Hz) as (v & Hv & _ & -> & -> & _). by eapply (to_top _ _ I).
Qed.

Section Creation.
Context (alloc_tcb : Z -> H -> res (Z * H)) (thread_exit_addr : Z).

(** what the new thread finds *)
Record starts (s s' : st) (d t a start param state id : Z) : Prop := {
  sa_info : forall y, tinfo (ts_sch s') y = if y =? t then Some (state, d) else tinfo (ts_sch s) y;
  sa_tcb : exists x, tcbs s' !! t = Some x /\ th_id x = id /\ stack x = a /\ stackTop x = a + STACK_CHUNK_SIZE /\
    context x !! PCB_EIP = Some start /\ context x !! PCB_ESP = Some (a + STACK_CHUNK_SIZE - 12);
  sa_stack : let sp := a + STACK_CHUNK_SIZE - 12 in
    load32 (ts_mem s') sp = u32 thread_exit_addr /\ load32 (ts_mem s') (sp + 4) = u32 param /\ load32 (ts_mem s') (sp + 8) = u32 thread_exit_addr;
  sa_mem : forall z, ~ a <= z < a + STACK_CHUNK_SIZE -> load8 (ts_mem s') z = load8 (ts_mem s) z;
}.

Lemma stack_words m a v1 v2 : let top := a + STACK_CHUNK_SIZE in
  let m' := store32 (store32 (store32 m (top - 4) v1) (top - 8) v2) (top - 12) v1 in
  (load32 m' (top - 12) = u32 v1 /\ load32 m' (top - 12 + 4) = u32 v2 /\ load32 m' (top - 12 + 8) = u32 v1) /\
  forall z, ~ a <= z < a + STACK_CHUNK_SIZE -> load8 m' z = load8 m z.
Proof.
  cbv zeta. unfold STACK_CHUNK_SIZE. split; [split_and!|].
  - by rewrite load32_store32.
  - rewrite load32_store32_ne by lia. replace (a + 8192 - 12 + 4) with (a + 8192 - 8) by lia. by rewrite load32_store32.
  - rewrite !load32_store32_ne by lia. replace (a + 8192 - 12 + 8) with (a + 8192 - 4) by lia. by rewrite load32_store32.
  - intros z Hz. by rewrite !load8_store32_ne by lia.
Qed.

Lemma link_thread_ok s L d t D : threads_ok s L -> tdoms s !! d = Some D -> (forall e, t ∉ L e) ->
  forall (s1 : st) D1, tdoms s1 !! d = Some D1 -> tl_threads D1 = tl_threads D -> (forall y, y <> t -> tcbs s1 !! y = tcbs s !! y) ->
  link_thread d t s1 = Ok (set_list d (MkThreadList t (currentThreadID D1)) (upd_tcb t (set_links (tl_threads D) NULL)
    (if tl_threads D =? NULL then s1 else upd_tcb (tl_threads D) (set_prev t) s1))).
Proof.
  intros I HD Ht s1 D1 H1 Hf Hy. unfold link_thread, getlist. rewrite H1. cbn [rbind]. rewrite Hf.
  destruct (Z.eqb_spec (tl_threads D) NULL) as [|Hn]; [done|]. destruct (to_lists _ _ I d D HD) as [(Ef & _ & _) _].
  assert (Hi : tl_threads D ∈ L d) by (rewrite Ef; apply hd_in; intros El; rewrite El in Ef; done).
  destruct (thread_listed s L d _ I Hi) as (_ & z & _ & Ez & _). unfold gettcb. rewrite Hy, Ez by (intros E; rewrite E in Hi; by apply (Ht d)). done.
Qed.

(** C16 A new thread.  When the heap yields a control block and the allocator a
    stack, [createThreadInMem] succeeds: the thread is the first of its
    domain's doubly linked list, its number is the next one and different from
    those of all other threads, and its stack overlaps no block of another
    thread.  Its context starts in [thread_start] with [param] as argument and
    [thread_exit] as the address to return to; no other memory changes.  With
    the default parameter it is queued as a runnable thread. *)
Theorem createThreadInMem_starts s L q cd d D t h a al' start param entry state schedParam :
  threads_ok s L -> sched_ok (ts_sch s) q cd -> tdoms s !! d = Some D -> is_Some (domains (ts_sch s) !! d) ->
  0 <= currentThreadID D < 4294967295 -> alloc_tcb d (ts_heaps s) = Ok (t, h) -> t <> NULL -> threads (ts_sch s) !! t = None ->
  al_alloc STACK_CHUNK_SIZE (ts_alloc s) = Ok (a, al') -> state = STATE_RUNNABLE \/ schedParam <> SCHED_CREATETHREAD_DEFAULT ->
  exists s', createThreadInMem alloc_tcb thread_exit_addr (S (Z.to_nat (n_blocks (ts_alloc s)))) d start param entry state schedParam s = Ok (t, s') /\
    threads_ok s' (updL L d (t :: L d)) /\ sched_ok (ts_sch s') (q_created schedParam cd d t q) cd /\ current (ts_sch s') = current (ts_sch s) /\
    starts s s' d t a start param state (currentThreadID D + 1).
Proof.
  intros I Hsch HD Hdom Hid Ha Ht0 Hnew HA Hst.
  assert (Ht : forall e, t ∉ L e) by (intros e He; destruct (to_domain _ _ I e t He) as (T & ET & _); by rewrite Hnew in ET).
  destruct (al_alloc_spec STACK_CHUNK_SIZE (ts_alloc s) a al' (to_alloc _ _ I) ltac:(done) ltac:(done) HA) as (_ & Ha0 & Ha1 & _).
  change (al_span STACK_CHUNK_SIZE) with STACK_CHUNK_SIZE in Ha1.
  assert (Htop : u32 (a + STACK_CHUNK_SIZE) = a + STACK_CHUNK_SIZE) by (unfold STACK_CHUNK_SIZE in *; apply u32_small; lia).
  destruct (created_spec _ q cd t d state schedParam Hsch Hnew Ht0 Hdom Hst) as (c' & Ec & Hc' & Hcur & _ & Hinfo).
  unfold createThreadInMem, alloc_thread. rewrite Ha. cbn [rbind ts_alloc]. rewrite malloc_threadstack_alloc by apply (to_alloc _ _ I). rewrite HA. cbn [rbind].
  rewrite Htop. unfold getlist at 1. cbn [tdoms set_alloc]. rewrite HD. cbn [rbind]. rewrite (u32_small (currentThreadID D + 1)) by lia.
  match goal with |- context [link_thread d t ?x] => set (s1 := x) end.
  assert (Hs1 : tdoms s1 !! d = Some (MkThreadList (tl_threads D) (currentThreadID D + 1))) by (unfold s1, set_list, upd_tcb; cbn [tdoms]; by rewrite lookup_insert_eq).
  rewrite (link_thread_ok s L d t D I HD Ht s1 _ Hs1) by (try done; intros y Hy; unfold s1, set_list, upd_tcb; cbn [tcbs set_alloc]; by rewrite lookup_alter_ne, lookup_insert_ne).
  cbn [rbind currentThreadID]. match goal with |- context [ts_mem ?x] => set (s2 := x) end.
  assert (Hs2 : ts_mem s2 = ts_mem s /\ ts_sch s2 = add_sched_thread t d (ts_sch s) /\ ts_alloc s2 = al' /\
    tdoms s2 = <[d := MkThreadList t (currentThreadID D + 1)]> (tdoms s1)) by (unfold s2; by destruct (tl_threads D =? NULL)).
  destruct Hs2 as (Em & Es & Eal & Ed). cbn [set_sched upd_tcb set_tmem ts_sch]. rewrite Es, Ec. cbn [rbind]. rewrite Em.
  eexists. split; [reflexivity|].
  set (x := MkTcb a (a + STACK_CHUNK_SIZE) (start_context start (a + STACK_CHUNK_SIZE - 12)) (<[0%nat := 0]> (th_name new_tcb)) entry NULL NULL 0
    (currentThreadID D + 1) (tl_threads D) NULL).
  match goal with |- threads_ok ?y _ /\ _ => set (s' := y) end.
  assert (Htcbs : forall y, tcbs s' !! y = if y =? t then Some x else if y =? tl_threads D then set_prev t <$> tcbs s !! y else tcbs s !! y).
  { intros y. unfold s', set_sched, upd_tcb, set_tmem. cbn [tcbs]. assert (Hft : tl_threads D <> t).
    { intros E. destruct (to_lists _ _ I d D HD) as [(Ef & _ & _) _]. apply (Ht d). rewrite <- E, Ef. apply hd_in. intros El. rewrite El in Ef. by rewrite Ef in E. }
    assert (E1 : forall z, tcbs s1 !! z = if z =? t then Some (set_links NULL NULL (set_context (context new_tcb) x)) else tcbs s !! z).
    { intros z. unfold s1, upd_tcb. cbn [tcbs set_list set_alloc]. destruct (Z.eqb_spec z t) as [->|]; [by rewrite lookup_alter_eq, lookup_insert_eq|].
      by rewrite lookup_alter_ne, lookup_insert_ne. }
    unfold s2, upd_tcb, set_list. cbn [tcbs]. destruct (Z.eqb_spec y t) as [->|Hy].
    - rewrite !lookup_alter_eq. destruct (tl_threads D =? NULL); cbn [tcbs]; [|rewrite lookup_alter_ne by done]; by rewrite E1, Z.eqb_refl.
    - rewrite !lookup_alter_ne by done. destruct (Z.eqb_spec (tl_threads D) NULL) as [En|En]; cbn [tcbs].
      + rewrite E1, (proj2 (Z.eqb_neq _ _) Hy). destruct (Z.eqb_spec y (tl_threads D)) as [->|]; [|done].
        rewrite En. by rewrite (to_null _ _ I).
      + destruct (Z.eqb_spec y (tl_threads D)) as [->|Hyf]; [rewrite lookup_alter_eq|rewrite lookup_alter_ne by done]; by rewrite E1, (proj2 (Z.eqb_neq _ _) Hy). }
  assert (P : pushed s s' d t a D x).
  { split; [|exact Htcbs|done|done]. change (tdoms s') with (tdoms s2). rewrite Ed. unfold s1. cbn [tdoms upd_tcb set_list set_alloc]. by rewrite insert_insert_eq. }
  split_and!; [|exact Hc'|exact Hcur|].
  - eapply (threads_ok_push s s' L d t a D x state); try done; [lia|]. change (ts_alloc s') with (ts_alloc s2). by rewrite Eal.
  - destruct (stack_words (ts_mem s) a thread_exit_addr param) as (Hw & Hm). split; [exact Hinfo| |exact Hw|exact Hm].
    exists x. split; [|split_and!; try done]. by rewrite Htcbs, Z.eqb_refl.
Qed.
End Creation.

(** ** Termination *)

Lemma upd_lookup (s : st) t f y : tcbs (upd_tcb t f s) !! y = if y =? t then f <$> tcbs s !! y else tcbs s !! y.
Proof. unfold upd_tcb. cbn [tcbs]. destruct (Z.eqb_spec y t) as [->|]; [by rewrite lookup_alter_eq|by rewrite lookup_alter_ne]. Qed.

Lemma unlink_thread_spec s L d D l1 t l2 : threads_ok s L -> tdoms s !! d = Some D -> L d = l1 ++ t :: l2 ->
  let prev := default NULL (last l1) in let next := hd NULL l2 in
  exists s', unlink_thread t s = Ok s' /\ ts_sch s' = ts_sch s /\ ts_alloc s' = ts_alloc s /\ ts_mem s' = ts_mem s /\
    tdoms s' = <[d := MkThreadList (if prev =? NULL then next else tl_threads D) (currentThreadID D)]> (tdoms s) /\
    forall y, tcbs s' !! y = let h := (if y =? prev then set_next next <$> tcbs s !! y else tcbs s !! y) in
      if y =? next then set_prev prev <$> h else h.
Proof.
  intros I HD HL prev next. destruct (to_lists _ _ I d D HD) as [(_ & _ & Hl) Hnd].
  assert (Hin : forall y, y ∈ l1 ++ t :: l2 -> exists z, tcbs s !! y = Some z) by (intros y Hy; rewrite <- HL in Hy; destruct (thread_listed s L d y I Hy) as (_ & z & _ & Ez & _); by exists z).
  assert (Ht : t ∈ L d) by (rewrite HL; apply elem_of_app; right; apply list_elem_of_here).
  destruct (thread_listed s L d t I Ht) as (_ & x & _ & Ex & _). pose proof (Hl l1 t l2 HL) as Hlx. unfold tlinks in Hlx. rewrite Ex in Hlx. injection Hlx as Hp Hn.
  destruct (to_domain _ _ I d t Ht) as (T & ET & ETd).
  assert (Hprev : prev <> NULL -> exists z, tcbs s !! prev = Some z) by (intros Hz; apply Hin, elem_of_app; left; unfold prev in *; destruct l1; [done|by apply last_in]).
  assert (Hnext : next <> NULL -> exists z, tcbs s !! next = Some z) by (intros Hz; apply Hin, elem_of_app; right; apply list_elem_of_further; unfold next in *; destruct l2; [done|apply list_elem_of_here]).
  assert (Hnull : forall y, y = NULL -> tcbs s !! y = None) by (intros y ->; apply (to_null _ _ I)).
  unfold unlink_thread, gettcb at 1. rewrite Ex. cbn [rbind]. rewrite Hp, Hn. fold prev next.
  assert (exists s1, (if negb (prev =? NULL) then let! _ := gettcb s prev in Ok (upd_tcb prev (set_next next) s)
      else let! y := thr (ts_sch s) t in let! l := getlist s (t_domain y) in Ok (set_list (t_domain y) (MkThreadList next (currentThreadID l)) s)) = Ok s1 /\
    ts_sch s1 = ts_sch s /\ ts_alloc s1 = ts_alloc s /\ ts_mem s1 = ts_mem s /\
    tdoms s1 = <[d := MkThreadList (if prev =? NULL then next else tl_threads D) (currentThreadID D)]> (tdoms s) /\
    forall y, tcbs s1 !! y = if y =? prev then set_next next <$> tcbs s !! y else tcbs s !! y) as (s1 & -> & E1 & E2 & E3 & E4 & E5).
  { destruct (Z.eqb_spec prev NULL) as [E|E]; cbn [negb].
    - unfold thr. rewrite ET. cbn [rbind]. unfold getlist. rewrite ETd, HD. cbn [rbind]. eexists. split_and!; try done.
      intros y. cbn [set_list tcbs]. destruct (Z.eqb_spec y prev) as [->|]; [|done]. by rewrite Hnull.
    - destruct (Hprev E) as [z Ez]. unfold gettcb. rewrite Ez. cbn [rbind]. eexists. split_and!; try done; [|intros y; apply upd_lookup].
      cbn [upd_tcb tdoms]. symmetry. apply insert_id. rewrite HD. by destruct D. }
  cbn [rbind]. destruct (Z.eqb_spec next NULL) as [E|E]; cbn [negb].
  - exists s1. split_and!; try done. intros y. rewrite E5. cbv zeta. destruct (Z.eqb_spec y next) as [->|]; [|done]. rewrite E, (to_null _ _ I). by destruct (_ =? _).
  - destruct (Hnext E) as [z Ez]. unfold gettcb. rewrite E5, Ez. eexists. destruct (next =? prev); cbn [fmap option_fmap option_map rbind];
      (split; [reflexivity|]; split_and!; try done; intros y; rewrite upd_lookup, E5; reflexivity).
Qed.

(** the invariant knows of the scheduler only the domain of each thread *)
Lemma threads_ok_sched (s : st) L c : threads_ok s L ->
  (forall y T, threads (ts_sch s) !! y = Some T -> exists T', threads c !! y = Some T' /\ t_domain T' = t_domain T) -> threads_ok (set_sched c s) L.
Proof.
  intros [? ? ? Hd ? ? ? ? ? ?] Hc. split; try done. intros d t Ht. destruct (Hd d t Ht) as (T & ET & <-). exact (Hc t T ET).
Qed.
Lemma tinfo_domains c c' : (forall y, is_Some (tinfo c y) -> exists v, tinfo c' y = Some (v, default 0 (snd <$> tinfo c y))) ->
  forall y T, threads c !! y = Some T -> exists T', threads c' !! y = Some T' /\ t_domain T' = t_domain T.
Proof.
  intros Hi y T ET. pose proof (tinfo_thr _ _ _ ET) as E. destruct (Hi y ltac:(rewrite E; by eexists)) as [v Ev]. rewrite E in Ev.
  apply tinfo_some in Ev as (T' & ET' & _ & Ed). exists T'. by rewrite Ed.
Qed.

Lemma threads_ok_remove s s' L d D l1 t l2 : threads_ok s L -> tdoms s !! d = Some D -> L d = l1 ++ t :: l2 ->
  let prev := default NULL (last l1) in let next := hd NULL l2 in
  ts_sch s' = ts_sch s -> tdoms s' = <[d := MkThreadList (if prev =? NULL then next else tl_threads D) (currentThreadID D)]> (tdoms s) ->
  (forall y, tcbs s' !! y = let h := (if y =? prev then set_next next <$> tcbs s !! y else tcbs s !! y) in if y =? next then set_prev prev <$> h else h) ->
  al_ok (ts_alloc s') ->
  (forall e y z b, y ∈ updL L d (l1 ++ l2) e -> tcbs s !! y = Some z -> block z b -> grant (ts_alloc s') b.1 b.2) ->
  threads_ok s' (updL L d (l1 ++ l2)).
Proof.
  intros I HD HL prev next Es Ed Et Hal Hgr. destruct (to_lists _ _ I d D HD) as [HLk Hnd]. rewrite HL in HLk, Hnd.
  assert (Hold : forall y z, tcbs s' !! y = Some z -> exists w, tcbs s !! y = Some w /\ th_id z = th_id w /\ stack z = stack w /\ stackTop z = stackTop w /\ (forall b, block z b <-> block w b)).
  { intros y z. rewrite Et. cbv zeta. destruct (y =? prev), (y =? next), (tcbs s !! y) as [w|]; cbn; intros [= <-]; by exists w. }
  assert (Hin : forall e y, y ∈ updL L d (l1 ++ l2) e -> y ∈ L e).
  { intros e y. unfold updL. destruct (Z.eqb_spec e d) as [->|]; [|done]. rewrite HL, !elem_of_app, elem_of_cons. tauto. }
  assert (Hnd' : NoDup (l1 ++ l2)) by (eapply (sublist_NoDup _ (l1 ++ t :: l2)); [done|]; apply sublist_app; [done|by apply sublist_cons]).
  split.
  - intros e E. rewrite Ed. unfold updL. destruct (Z.eqb_spec e d) as [->|He].
    + rewrite lookup_insert_eq. intros [= <-]. cbn [tl_threads]. split; [|exact Hnd']. eapply linked_remove; [exact HLk|exact Hnd|].
      intros y _. unfold tlinks. rewrite Et. cbv zeta. fold prev next. by destruct (y =? prev), (y =? next), (tcbs s !! y).
    + rewrite lookup_insert_ne by done. intros HE. destruct (to_lists _ _ I e E HE) as [HLe Hnde]. split; [|done]. eapply linked_ext; [|exact HLe].
      intros y Hy. assert (Hny : forall w, w ∈ l1 ++ t :: l2 -> y <> w) by (intros w Hw ->; rewrite <- HL in Hw; by apply He; eapply thread_domain).
      assert (Hy0 : y <> NULL) by (intros ->; by destruct HLe as (_ & Hn & _)). unfold tlinks. rewrite Et. cbv zeta.
      assert (Hyp : y <> prev) by (unfold prev; destruct (decide (l1 = [])) as [->|Hl]; [done|]; apply Hny, elem_of_app; left; by apply last_in).
      assert (Hyn : y <> next) by (unfold next; destruct (decide (l2 = [])) as [->|Hl]; [done|]; apply Hny, elem_of_app; right; apply list_elem_of_further; by apply hd_in).
      by rewrite (proj2 (Z.eqb_neq _ _) Hyp), (proj2 (Z.eqb_neq _ _) Hyn).
  - rewrite Et. cbv zeta. rewrite (to_null _ _ I). by destruct (_ =? _), (_ =? _).
  - intros e. rewrite Ed. unfold updL. destruct (Z.eqb_spec e d) as [->|He]; [by rewrite lookup_insert_eq|]. rewrite lookup_insert_ne by done. apply (to_none _ _ I).
  - intros e y Hy. rewrite Es. by apply (to_domain _ _ I), Hin.
  - intros e E y z HE Hy Hz. destruct (Hold y z Hz) as (w & Hw & -> & _). rewrite Ed in HE. pose proof (Hin e y Hy) as Hi. destruct (decide (e = d)) as [->|He].
    + rewrite lookup_insert_eq in HE. injection HE as <-. by apply (to_ids _ _ I d D y w).
    + rewrite lookup_insert_ne in HE by done. by eapply (to_ids _ _ I).
  - intros e y y' z z' Hy Hy' Hz Hz' E. destruct (Hold y z Hz) as (w & Hw & Ew & _), (Hold y' z' Hz') as (w' & Hw' & Ew' & _).
    eapply (to_same _ _ I e); [by apply Hin|by apply Hin|exact Hw|exact Hw'|congruence].
  - exact Hal.
  - intros e y z b Hy Hz Hb. destruct (Hold y z Hz) as (w & Hw & _ & _ & _ & Hb'). eapply Hgr; [exact Hy|exact Hw|by apply Hb'].
  - intros e y z b e' y' z' b' v Hy Hy' Hz Hz' Hb Hb' Hv Hv'. destruct (Hold y z Hz) as (w & Hw & _ & _ & _ & Hbw), (Hold y' z' Hz') as (w' & Hw' & _ & _ & _ & Hbw').
    eapply (to_apart _ _ I e y w b e' y' w' b' v); try done; [by apply Hin|by apply Hin|by apply Hbw|by apply Hbw'].
  - intros e y z Hy Hz. destruct (Hold y z Hz) as (w & Hw & _ & -> & -> & _). eapply (to_top _ _ I); [by apply Hin|exact Hw].
Qed.

Lemma span_pos size : 0 < size -> 0 < al_span size.
Proof. intros Hs. pose proof (al_span_le size). lia. Qed.
Lemma apart_ordered (b b' : Z * Z) : 0 < b.2 -> 0 < b'.2 -> (forall z, inside b z -> ~ inside b' z) ->
  b.1 + al_span b.2 <= b'.1 \/ b'.1 + al_span b'.2 <= b.1.
Proof.
  intros H1 H2 Hn. pose proof (span_pos _ H1). pose proof (span_pos _ H2). unfold inside in Hn.
  destruct (Z.le_gt_cases b.1 b'.1); [pose proof (Hn b'.1)|pose proof (Hn b.1)]; lia.
Qed.
Lemma block_size x b : block x b -> 0 < b.2 /\ b.2 + 1023 < 4294967296.
Proof. intros [->|[_ ->]]; done. Qed.

(** freeing the blocks [bs], in order *)
Fixpoint free_all (bs : list (Z * Z)) (a : malloc_state) : res malloc_state :=
  match bs with
  | [] => Ok a
  | b :: bs => let! a := al_free b.1 b.2 a in free_all bs a
  end.
Lemma free_all_spec bs : forall a, al_ok a -> (forall b, b ∈ bs -> grant a b.1 b.2 /\ 0 < b.2 /\ b.2 + 1023 < 4294967296) ->
  (forall l1 b l2 b', bs = l1 ++ b :: l2 -> b' ∈ l2 -> b'.1 + al_span b'.2 <= b.1 \/ b.1 + al_span b.2 <= b'.1) ->
  exists a', free_all bs a = Ok a' /\ al_ok a' /\ (forall z, owned a' z <-> owned a z /\ ~ exists b, b ∈ bs /\ inside b z) /\
    forall c, grant a c.1 c.2 -> (forall b, b ∈ bs -> c.1 + al_span c.2 <= b.1 \/ b.1 + al_span b.2 <= c.1) -> grant a' c.1 c.2.
Proof.
  induction bs as [|b bs IH]; intros a Hok Hg Hd; cbn [free_all].
  - exists a. split_and!; try done. intros z. split; [intros Hz; split; [done|]|by intros [Hz _]]. by intros (b & []%not_elem_of_nil & _).
  - destruct (Hg b (list_elem_of_here _ _)) as (Hb & Hb1 & Hb2). destruct (al_free_spec b.2 a b.1 Hok Hb1 Hb2 Hb) as (a1 & -> & Hok1 & Ho1 & Hk1). cbn [rbind].
    destruct (IH a1 Hok1) as (a2 & E2 & Hok2 & Ho2 & Hk2).
    + intros c Hc. destruct (Hg c (list_elem_of_further _ _ _ Hc)) as (Hgc & Hc1). split; [|done]. apply Hk1; [done|]. by apply (Hd [] b bs c).
    + intros l1 c l2 c' -> Hc'. by apply (Hd (b :: l1) c l2 c').
    + exists a2. split; [exact E2|]. split; [exact Hok2|]. split.
      * intros z. rewrite Ho2, Ho1. unfold inside. split.
        -- intros [[Hz Hnb] Hn]. split; [done|]. intros (c & [->|Hc]%elem_of_cons & Hin); [done|]. apply Hn. by exists c.
        -- intros [Hz Hn]. split; [split; [done|]|].
           ++ intros Hi. apply Hn. exists b. split; [apply list_elem_of_here|done].
           ++ intros (c & Hc & Hi). apply Hn. exists c. split; [by apply list_elem_of_further|done].
      * intros c Hc Hdis. apply Hk2; [apply Hk1; [done|apply Hdis, list_elem_of_here]|]. intros b' Hb'. apply Hdis. by apply list_elem_of_further.
Qed.

Definition blocks (x : tcb) : list (Z * Z) := (if myparams x =? NULL then [] else [(myparams x, MYPARAMS_SIZE)]) ++ [(stack x, STACK_CHUNK_SIZE)].
Lemma block_blocks x b : block x b <-> b ∈ blocks x.
Proof.
  unfold block, blocks. destruct (Z.eqb_spec (myparams x) NULL); cbn [app]; rewrite ?elem_of_cons, ?elem_of_nil; naive_solver.
Qed.
Lemma freeThreadMem_blocks (s : st) t x : tcbs s !! t = Some x ->
  freeThreadMem t s = let! a := free_all (blocks x) (ts_alloc s) in Ok (set_alloc a s).
Proof.
  intros E. unfold freeThreadMem, gettcb, blocks, free_threadstack. rewrite E. cbn [rbind].
  change (@al_free _ malloc_allocator) with jxfree. destruct (myparams x =? NULL); cbn [app free_all rbind fst snd].
  - change (al_free (stack x) STACK_CHUNK_SIZE (ts_alloc s)) with (jxfree (stack x) STACK_CHUNK_SIZE (ts_alloc s)). by destruct (jxfree _ _ _).
  - change (al_free (myparams x) MYPARAMS_SIZE (ts_alloc s)) with (jxfree (myparams x) MYPARAMS_SIZE (ts_alloc s)).
    destruct (jxfree _ _ (ts_alloc s)) as [a|]; [|done]. cbn [rbind].
    change (al_free (stack x) STACK_CHUNK_SIZE a) with (jxfree (stack x) STACK_CHUNK_SIZE a). by destruct (jxfree _ _ a).
Qed.

Lemma blocks_NoDup x : NoDup (blocks x).
Proof.
  unfold blocks. destruct (myparams x =? NULL); cbn [app]; [apply NoDup_singleton|]. apply NoDup_cons. split; [|apply NoDup_singleton].
  intros [=]%list_elem_of_singleton.
Qed.

(** what [terminateThread] releases *)
Lemma terminate_spec s L d D l1 t l2 x st0 : threads_ok s L -> tdoms s !! d = Some D -> L d = l1 ++ t :: l2 -> tcbs s !! t = Some x ->
  tinfo (ts_sch s) t = Some (st0, d) -> st0 <> STATE_RUNNABLE ->
  exists s', terminateThread_internal t s = Ok s' /\ threads_ok s' (updL L d (l1 ++ l2)) /\ ts_sch s' = ts_sch s /\ ts_mem s' = ts_mem s /\
    forall z, owned (ts_alloc s') z <-> owned (ts_alloc s) z /\ ~ exists b, block x b /\ inside b z.
Proof.
  intros I HD HL Ex Hinfo Hst. destruct (to_lists _ _ I d D HD) as [HLk Hnd]. rewrite HL in HLk, Hnd.
  destruct (unlink_thread_spec s L d D l1 t l2 I HD HL) as (s1 & E1 & Es & Ea & Em & Ed & Et).
  assert (Ht : t ∈ L d) by (rewrite HL; apply elem_of_app; right; apply list_elem_of_here).
  assert (Hnt : t ∉ l1 ++ l2).
  { apply NoDup_app in Hnd as (_ & Hd & [Hn _]%NoDup_cons). intros [Hi|Hi]%elem_of_app; [|done]. by apply (Hd t Hi), list_elem_of_here. }
  assert (Hap : forall b b', block x b -> block x b' -> b <> b' -> forall z, inside b z -> ~ inside b' z).
  { intros b b' Hb Hb' Hne z Hz Hz'. apply Hne. by apply (to_apart _ _ I d t x b d t x b' z). }
  unfold terminateThread_internal. rewrite E1. cbn [rbind]. rewrite Es. unfold Sched_destroyed, thr.
  apply tinfo_some in Hinfo as (T & ET & <- & _). rewrite ET. cbn [rbind]. rewrite (proj2 (Z.eqb_neq _ _) Hst). cbn [negb assert_ rbind].
  assert (Ex1 : exists x1, tcbs s1 !! t = Some x1 /\ blocks x1 = blocks x).
  { rewrite Et, Ex. cbv zeta. destruct (t =? _), (t =? _); by eexists. }
  destruct Ex1 as (x1 & Ex1 & Eb). rewrite (freeThreadMem_blocks s1 t x1 Ex1), Eb, Ea.
  destruct (free_all_spec (blocks x) (ts_alloc s) (to_alloc _ _ I)) as (a & E2 & Hok & Ho & Hk).
  { intros b Hb. apply block_blocks in Hb. split; [by apply (to_blocks _ _ I d t x)|by apply (block_size x)]. }
  { intros m1 b m2 b' Eq Hb'. assert (Hb : block x b) by (apply block_blocks; rewrite Eq; apply elem_of_app; right; apply list_elem_of_here).
    assert (Hb2 : block x b') by (apply block_blocks; rewrite Eq; apply elem_of_app; right; by apply list_elem_of_further).
    apply apart_ordered; [by apply (block_size x)|by apply (block_size x)|]. apply Hap; [done|done|]. intros ->.
    pose proof (blocks_NoDup x) as Hbn. rewrite Eq in Hbn. by apply NoDup_app in Hbn as (_ & _ & [Hn _]%NoDup_cons). }
  rewrite E2. cbn [rbind]. exists (set_alloc a s1). split; [done|]. split; [|split; [done|split; [done|]]].
  - apply (threads_ok_remove s (set_alloc a s1) L d D l1 t l2 I HD HL); [exact Es|exact Ed|exact Et|exact Hok|].
    intros e y z b Hy Hz Hb. cbn [set_alloc ts_alloc]. assert (Hy' : y ∈ L e /\ y <> t).
    { revert Hy. unfold updL. destruct (Z.eqb_spec e d) as [->|He].
      - intros Hy. split; [|by intros ->]. rewrite HL. apply elem_of_app in Hy as [Hy|Hy]; apply elem_of_app; [by left|right; by apply list_elem_of_further].
      - intros Hy. split; [done|]. intros ->. apply He. by eapply thread_domain. }
    destruct Hy' as [Hy1 Hyt]. apply Hk; [by apply (to_blocks _ _ I e y z)|]. intros c Hc%block_blocks.
    apply apart_ordered; [by apply (block_size z)|by apply (block_size x)|]. intros w Hw Hw'. apply Hyt. by eapply (to_apart _ _ I e y z b d t x c w).
  - intros z. cbn [set_alloc ts_alloc]. rewrite Ho. split; intros [H1 H2]; (split; [done|]); intros (b & Hb & Hz); apply H2; exists b; (split; [by apply block_blocks|done]).
Qed.

(** ** Giving up the CPU for good *)

Lemma destroy_switch_spec c q cd : sched_mid c q cd ->
  exists c' cd', Sched_destroy_switch_to_nextThread cd c = Ok c' /\ sched_ok c' (snd (q_pick cd q)) cd' /\ current c' = chosen c cd q /\
    forall y, tinfo c' y = tinfo c y.
Proof.
  intros Hm. destruct (removeFirstOrIdle_spec c q cd Hm) as (c' & cd' & E & _ & F & Hc & Hok).
  unfold Sched_destroy_switch_to_nextThread. rewrite E. cbn [rbind]. rewrite Hc. cbn [rbind]. exists (set_current (chosen c cd q) c'), cd'.
  split_and!; [done|exact Hok|done|apply (f_info _ _ F)].
Qed.

(** C17 The end of a thread.  [thread_exit] takes the current thread out of the
    list of its domain, so that the list stays doubly linked, and gives its
    stack and its parameter block, and nothing else, back to the allocator;
    the stacks of all other threads stay theirs.  The thread is a zombie in no
    queue, and the scheduler goes on with the thread that blocking would have
    chosen. *)
Theorem thread_exit_releases s L q cd D l1 l2 x : let t := current (ts_sch s) in
  threads_ok s L -> sched_ok (ts_sch s) q cd -> t <> idle_thread (ts_sch s) -> tdoms s !! cd = Some D -> L cd = l1 ++ t :: l2 -> tcbs s !! t = Some x ->
  exists s' cd', thread_exit s = Ok s' /\ threads_ok s' (updL L cd (l1 ++ l2)) /\ sched_ok (ts_sch s') (snd (q_pick cd q)) cd' /\
    current (ts_sch s') = chosen (ts_sch s) cd q /\ ~ queued (snd (q_pick cd q)) t /\
    (forall y, tinfo (ts_sch s') y = if y =? t then Some (STATE_ZOMBIE, cd) else tinfo (ts_sch s) y) /\
    forall z, owned (ts_alloc s') z <-> owned (ts_alloc s) z /\ ~ exists b, block x b /\ inside b z.
Proof.
  intros t I [Hm Hrun Hout] Hidle HD HL Ex. pose proof (sched_mid_set_state _ q cd t STATE_ZOMBIE Hm (or_intror (conj Hout Hidle))) as Hm1.
  set (c1 := set_t_state t STATE_ZOMBIE (ts_sch s)) in *.
  assert (Hi1 : forall y, tinfo c1 y = if y =? t then Some (STATE_ZOMBIE, cd) else tinfo (ts_sch s) y).
  { intros y. unfold c1. rewrite tinfo_set_t_state. destruct (Z.eqb_spec y t) as [->|]; [|done]. by unfold t; rewrite Hrun. }
  assert (I1 : threads_ok (set_sched c1 s) L).
  { apply threads_ok_sched; [exact I|]. apply tinfo_domains. intros y [[v w] Hy]. rewrite Hi1, Hy. destruct (Z.eqb_spec y t) as [->|]; [|by exists v].
    unfold t in Hy. rewrite Hrun in Hy. injection Hy as <- <-. by eexists. }
  destruct (terminate_spec (set_sched c1 s) L cd D l1 t l2 x STATE_ZOMBIE I1 HD HL Ex ltac:(by rewrite Hi1, Z.eqb_refl) ltac:(done)) as (s2 & E2 & I2 & Es & _ & Ho).
  destruct (destroy_switch_spec c1 q cd Hm1) as (c3 & cd' & E3 & Hok3 & Hc3 & Hi3).
  unfold thread_exit, destroyCurrentThread. rewrite (curdom_mid _ _ _ Hm). cbn [rbind]. fold t c1. change (curthr (ts_sch s)) with t. fold c1. rewrite E2. cbn [rbind].
  rewrite Es. cbn [ts_sch set_sched]. rewrite E3. cbn [rbind]. exists (set_sched c3 s2), cd'. split; [done|]. split_and!; [|exact Hok3|exact Hc3| | |exact Ho].
  - apply threads_ok_sched; [exact I2|]. rewrite Es. apply tinfo_domains. intros y [[v w] Hy]. exists v. cbn [ts_sch set_sched] in *. by rewrite Hi3, Hy.
  - intros Hq. apply Hout. destruct (q_pick cd q) as [n q'] eqn:E.
    destruct (pick_spec _ q cd n q' (sm_rep _ _ _ Hm) (sm_bal _ _ _ Hm) E) as [(_ & -> & _)|(d & _ & _ & _ & _ & Hsub & _)]; [done|by apply Hsub].
  - intros y. cbn [ts_sch set_sched]. by rewrite Hi3, Hi1.
Qed.

(** ** Search *)

Lemma threads_bounded s L d : threads_ok s L -> (length (L d) <= size (tcbs s))%nat.
Proof.
  intros I. destruct (tdoms s !! d) as [D|] eqn:HD; [|rewrite (to_none _ _ I d HD); cbn; lia].
  destruct (to_lists _ _ I d D HD) as [_ Hnd]. rewrite <- (size_list_to_set (C := gset Z) (L d) Hnd), <- size_dom. apply subseteq_size.
  intros t Ht%elem_of_list_to_set. destruct (thread_listed s L d t I Ht) as (_ & x & _ & Ex & _). apply elem_of_dom. by exists x.
Qed.

Lemma find_id_spec s L d D id : threads_ok s L -> tdoms s !! d = Some D -> forall l1 l2 n, L d = l1 ++ l2 -> (length l2 <= n)%nat ->
  exists r, find_id n (hd NULL l2) id s = Ok r /\
    ((exists x, r ∈ l2 /\ tcbs s !! r = Some x /\ th_id x = id) \/ r = NULL /\ forall t x, t ∈ l2 -> tcbs s !! t = Some x -> th_id x <> id).
Proof.
  intros I HD l1 l2. revert l1. induction l2 as [|t l2 IH]; intros l1 n HL Hn.
  - exists NULL. split; [by destruct n|]. right. split; [done|]. by intros t x []%not_elem_of_nil.
  - assert (Ht : t ∈ L d) by (rewrite HL; apply elem_of_app; right; apply list_elem_of_here).
    destruct (thread_listed s L d t I Ht) as (_ & x & _ & Ex & Ht0). destruct n as [|n]; cbn [length] in Hn; [lia|].
    destruct (to_lists _ _ I d D HD) as [(_ & _ & Hl) _]. pose proof (Hl l1 t l2 HL) as Hlx. unfold tlinks in Hlx. rewrite Ex in Hlx. injection Hlx as _ Hnx.
    cbn [find_id hd]. rewrite (proj2 (Z.eqb_neq _ _) Ht0). unfold gettcb. rewrite Ex. cbn [rbind]. destruct (Z.eqb_spec (th_id x) id) as [E|E].
    + exists t. split; [done|]. left. exists x. split; [apply list_elem_of_here|done].
    + rewrite Hnx. destruct (IH (l1 ++ [t]) n) as (r & Er & HR); [by rewrite <- app_assoc|lia|]. exists r. split; [exact Er|].
      destruct HR as [(y & Hr & Hy)|[-> HR]]; [left; exists y; split; [by apply list_elem_of_further|done]|].
      right. split; [done|]. intros t' x' [->|Ht']%elem_of_cons Ex'; [congruence|by eapply HR].
Qed.

(** [findThreadByID] returns for every domain, with the one thread of that
    number if there is one. *)
Theorem findThreadByID_exact s L d D id : threads_ok s L -> tdoms s !! d = Some D ->
  exists r, findThreadByID d id s = Ok r /\
    forall t x, t ∈ L d -> tcbs s !! t = Some x -> (th_id x = id <-> r = t).
Proof.
  intros I HD. unfold findThreadByID, getlist. rewrite HD. cbn [rbind]. destruct (to_lists _ _ I d D HD) as [(-> & Hn & _) _].
  destruct (find_id_spec s L d D id I HD [] (L d) (size (tcbs s)) eq_refl (threads_bounded s L d I)) as (r & Er & HR).
  exists r. split; [exact Er|]. intros t x Ht Ex. destruct HR as [(y & Hr & Ey & Hid)|[-> HR]]; split.
  - intros E. symmetry. eapply (to_same _ _ I d t r x y); try done. congruence.
  - intros ->. congruence.
  - intros E. by destruct (HR t x Ht Ex).
  - intros E. exfalso. apply Hn. by rewrite E.
Qed.
End Invariant.

(** a name of forty characters or more stays without its terminating zero *)
Lemma setThreadName_unterminated {H : Type} (s : tsys H) t n2 x : tcbs s !! t = Some x -> th_name x = replicate THREAD_NAME_MAXLEN 0 ->
  exists s' x', setThreadName t (replicate THREAD_NAME_MAXLEN 65) n2 s = Ok s' /\ tcbs s' !! t = Some x' /\ 0 ∉ th_name x'.
Proof.
  intros Ex En. unfold setThreadName, gettcb. rewrite Ex. cbn [rbind]. eexists _, _. split; [reflexivity|].
  split; [rewrite upd_lookup, Z.eqb_refl, Ex; cbn [fmap option_fmap option_map]; reflexivity|]. cbn [th_name set_name]. rewrite En.
  apply (bool_decide_unpack _). by destruct n2; vm_compute.
Qed.

(** ** A domain with one thread

    The scheduler is that of [RunQueue]: thread 2 of domain 100 runs.  It has
    its stack and its parameter block from an allocator of 64 blocks. *)

Definition pool : malloc_state := MkMalloc 1048576 1114112 64 63 1 1048576 8 1 true (upd (fun _ => 0) 1048576 1).
Definition pool_after (size : Z) (m : malloc_state) : malloc_state := match al_alloc size m with Ok (_, m) => m | Err _ => m end.
Definition pool1 : malloc_state := pool_after STACK_CHUNK_SIZE pool.
Definition pool2 : malloc_state := pool_after MYPARAMS_SIZE pool1.
Lemma pool_at size m a : match al_alloc size m with Ok (b, _) => b =? a | Err _ => false end = true -> al_alloc size m = Ok (a, pool_after size m).
Proof. unfold pool_after. by destruct (al_alloc size m) as [[b m']|]; [intros ->%Z.eqb_eq|]. Qed.
Definition tcb2 : tcb := MkTcb 1049600 1057792 pcb_init (th_name new_tcb) 0 0 1057792 0 1 NULL NULL.
Definition one_thread : tsys unit :=
  MkTSys demo {[ 2 := tcb2 ]} (list_to_map [(100, MkThreadList 2 1); (200, MkThreadList NULL 0); (300, MkThreadList NULL 0)]) pool2 (fun _ => 0) tt.
Definition one_list (d : Z) : list Z := if d =? 100 then [2] else [].

Lemma pool2_granted : al_ok pool2 /\ grant pool2 1049600 STACK_CHUNK_SIZE /\ grant pool2 1057792 MYPARAMS_SIZE.
Proof.
  assert (Hp : al_ok pool) by (change (malloc_good pool); split; [by constructor; vm_compute|done]).
  destruct (al_alloc_spec STACK_CHUNK_SIZE pool 1049600 pool1 Hp ltac:(done) ltac:(done) ltac:(apply pool_at; vm_compute; reflexivity)) as (H1 & _ & _ & G1 & _).
  destruct (al_alloc_spec MYPARAMS_SIZE pool1 1057792 pool2 H1 ltac:(done) ltac:(done) ltac:(apply pool_at; vm_compute; reflexivity)) as (H2 & _ & _ & G2 & _ & _ & Hk).
  split; [exact H2|]. split; [|exact G2]. by apply Hk.
Qed.
Lemma one_member d t : t ∈ one_list d -> t = 2 /\ d = 100.
Proof. unfold one_list. destruct (Z.eqb_spec d 100); [by intros ->%list_elem_of_singleton|by intros []%not_elem_of_nil]. Qed.
Lemma one_tcb t x : tcbs one_thread !! t = Some x -> t = 2 /\ x = tcb2.
Proof. cbn [one_thread tcbs]. by intros [<- <-]%lookup_singleton_Some. Qed.
Lemma one_thread_ok : threads_ok one_thread one_list.
Proof.
  destruct pool2_granted as (Hok & G1 & G2). split; try done.
  - apply (map_to_list_cases _ (fun d D => linked (tlinks one_thread) (tl_threads D) (one_list d) /\ NoDup (one_list d))).
    let l := eval vm_compute in (map_to_list (tdoms one_thread)) in change (map_to_list (tdoms one_thread)) with l.
    assert (He : forall g, linked g NULL []) by (intros g; split; [done|]; split; [apply not_elem_of_nil|]; intros [] ? ? [=]).
    repeat apply Forall_cons_2; try apply Forall_nil_2; cbn [fst snd tl_threads one_list Z.eqb Pos.eqb]; (split; [|apply (bool_decide_unpack _); by vm_compute]); try apply He.
    split; [done|]. split; [apply (bool_decide_unpack _); by vm_compute|]. intros [|? []] x l2 [=]; subst; done.
  - intros d Hd. unfold one_list. destruct (Z.eqb_spec d 100) as [->|]; [done|done].
  - intros d t [-> ->]%one_member. by eexists.
  - intros d D t x HD [-> ->]%one_member [_ ->]%one_tcb. vm_compute in HD. injection HD as <-. cbn. lia.
  - intros d t t' x x' [-> _]%one_member [-> _]%one_member. done.
  - intros d t x b [-> ->]%one_member [_ ->]%one_tcb [->|[_ ->]]; done.
  - intros d t x b d' t' x' b' z [-> ->]%one_member [-> ->]%one_member [_ ->]%one_tcb [_ ->]%one_tcb [->|[_ ->]] [->|[_ ->]] Hz Hz'; try done;
      exfalso; revert Hz Hz'; unfold inside; cbn [fst snd tcb2 stack myparams]; change (al_span STACK_CHUNK_SIZE) with 8192; change (al_span MYPARAMS_SIZE) with 1024; lia.
  - intros d t x [-> ->]%one_member [_ ->]%one_tcb. done.
Qed.

Lemma createThreadInMem_starts_witness : exists s',
  createThread (fun _ h => Ok (7, h)) 0x100400 65 200 0x200000 42 STATE_RUNNABLE SCHED_CREATETHREAD_DEFAULT one_thread = Ok (7, s') /\
  tl_threads <$> tdoms s' !! 200 = Some 7 /\ load32 (ts_mem s') (1058816 + 8192 - 8) = 42.
Proof.
  destruct (createThreadInMem_starts (fun _ h => Ok (7, h)) 0x100400 one_thread one_list demo_q 100 200 (MkThreadList NULL 0) 7 tt 1058816
    (pool_after STACK_CHUNK_SIZE pool2) 0x200000 42 NULL STATE_RUNNABLE SCHED_CREATETHREAD_DEFAULT
    one_thread_ok demo_ok) as (s' & E & I & _ & _ & S).
  - done.
  - by eexists.
  - cbn. lia.
  - done.
  - done.
  - done.
  - apply pool_at. vm_compute. reflexivity.
  - by left.
  - exists s'. split; [exact E|]. split; [|exact (proj1 (proj2 (sa_stack _ _ _ _ _ _ _ _ _ _ S)))].
    destruct (tdoms s' !! 200) as [D|] eqn:HD.
    + destruct (to_lists _ _ I 200 D HD) as [(Hf & _ & _) _]. cbn. by rewrite Hf.
    + pose proof (to_none _ _ I 200 HD) as Hn. discriminate Hn.
Defined.

Lemma thread_exit_releases_witness : exists s', thread_exit one_thread = Ok s' /\ current (ts_sch s') = 3 /\
  ~ owned (ts_alloc s') 1049600 /\ ~ owned (ts_alloc s') 1057792.
Proof.
  destruct (thread_exit_releases one_thread one_list demo_q 100 (MkThreadList 2 1) [] [] tcb2 one_thread_ok demo_ok) as (s' & cd' & E & _ & _ & Hc & _ & _ & Ho);
    [done|done|done|done|].
  exists s'. split; [exact E|]. split; [exact Hc|]. rewrite !Ho. split; intros [_ Hn]; apply Hn.
  - exists (1049600, STACK_CHUNK_SIZE). split; [left; reflexivity|]. unfold inside. cbn [fst snd]. change (al_span STACK_CHUNK_SIZE) with 8192. lia.
  - exists (1057792, MYPARAMS_SIZE). split; [right; split; [discriminate|reflexivity]|]. unfold inside. cbn [fst snd]. change (al_span MYPARAMS_SIZE) with 1024. lia.
Defined.
