(* ===== verification/Domains.v ===== *)
(** * The table of protection domains (core/domain.c)

    Domain descriptors live in one block of memory with a slot for each of
    [MAX_NUMBER_DOMAINS] domains; a cursor goes round the slots.  This file
    models the table, the search in it, and the creation of a domain with its
    scratch memory, its code memory and its heap. *)

From S2P Require Import Prelude Mem CString Malloc Alloc CodeMem.
From S2P Require Import GCHeap GCAlloc.
#[local] Open Scope Z_scope.

Definition MAX_NUMBER_DOMAINS : Z := 200.
Definition MAX_NUMBER_LIBS : Z := 100.
Definition CODE_BYTES : Z := 16 * 40 * 1024.
Definition DOMAIN_SCRATCHMEM_SIZE : Z := 4096 * 100.
Definition DOMAIN_STATE_FREE : Z := 0.
Definition DOMAIN_STATE_CREATING : Z := 1.
Definition DOMAIN_STATE_ACTIVE : Z := 2.
Definition SERVICE_ENTRY_CHANGING : Z := 0xffffffff.
Definition GC_IMPLEMENTATION_NEW : Z := 0.
Definition GC_IMPLEMENTATION_CHUNKED : Z := 3.

(** the words of [DomainDesc] that creation and search use *)
Record ddesc := MkDDesc {
  dd_maxNumberOfLibs : Z;
  dd_numberOfLibs : Z;
  dd_libs : Z;
  dd_ndx_libs : Z;
  dd_sfields : Z;
  dd_arrayClasses : Z;
  dd_code : domain_code;
  dd_domainName : Z;
  dd_registeredObjects : Z;
  dd_gc : gc_state unit;
  dd_threads : Z;
  dd_service0 : Z;
  dd_state : Z;
  dd_id : Z;
  dd_libMemSize : Z;
  dd_scratchMem : Z;
  dd_scratchMemSize : Z;
}.
Definition set_dd_state (v : Z) (d : ddesc) : ddesc :=
  MkDDesc (dd_maxNumberOfLibs d) (dd_numberOfLibs d) (dd_libs d) (dd_ndx_libs d) (dd_sfields d) (dd_arrayClasses d) (dd_code d) (dd_domainName d)
    (dd_registeredObjects d) (dd_gc d) (dd_threads d) (dd_service0 d) v (dd_id d) (dd_libMemSize d) (dd_scratchMem d) (dd_scratchMemSize d).
(** [memset(d, 0, sizeof(DomainDesc))], then state and number *)
Definition cleared_code : domain_code := MkCode (replicate 128 0) (replicate 128 0) (replicate 128 0) 0 0.
Definition no_gc : gc_state unit := MkGC (fun _ => 0) 0 0 0 0 0 0 0 tt.
Definition new_ddesc (id : Z) : ddesc :=
  MkDDesc 0 0 NULL NULL NULL NULL cleared_code NULL NULL no_gc NULL 0 DOMAIN_STATE_CREATING id 0 NULL 0.

(** The static variables of the file.  [descs a] is what the memory at [a]
    holds, read as a descriptor; before the first use of a slot that is
    whatever was there. *)
Record domsys (B : Type) := MkDomsys {
  domainMem : Z;
  domainMemBorder : Z;
  domainMemCurrent : Z;
  numberOfDomains : Z;
  currentDomainID : Z;
  domainsys_inited : bool;
  irqs : bool;                    (* interrupts enabled *)
  descs : Z -> ddesc;
  dmem : memory;
  blocks_ : B;
}.
Arguments MkDomsys {B} _ _ _ _ _ _ _ _ _ _.
Arguments domainMem {B} _.
Arguments domainMemBorder {B} _.
Arguments domainMemCurrent {B} _.
Arguments numberOfDomains {B} _.
Arguments currentDomainID {B} _.
Arguments domainsys_inited {B} _.
Arguments irqs {B} _.
Arguments descs {B} _ _.
Arguments dmem {B} _.
Arguments blocks_ {B} _.

Section Domains.
Context {B : Type} `{!Allocator B}.
Abbreviation st := (domsys B).
Context (sizeof_DomainDesc : Z).
(** the other collector that is compiled in *)
Context (gc_chunked_init : Z -> Z -> Z -> Z -> Z -> gc_state unit -> B -> res (gc_state unit * B)).

Definition OBJSIZE_DOMAINDESC : Z := 1 + Z.shiftr (sizeof_DomainDesc + 4) 2 + 1 + 1.
Definition DOMAINMEM_SIZEBYTES : Z := OBJSIZE_DOMAINDESC * 4.
Definition DOMAINMEM_TOTALBYTES : Z := DOMAINMEM_SIZEBYTES * MAX_NUMBER_DOMAINS.
Definition DOMAINDESC_OFFSETBYTES : Z := (2 + 1) * 4.

Definition set_irqs (b : bool) (s : st) : st :=
  MkDomsys (domainMem s) (domainMemBorder s) (domainMemCurrent s) (numberOfDomains s) (currentDomainID s) (domainsys_inited s) b (descs s) (dmem s) (blocks_ s).
Definition set_cursor (c : Z) (s : st) : st :=
  MkDomsys (domainMem s) (domainMemBorder s) c (numberOfDomains s) (currentDomainID s) (domainsys_inited s) (irqs s) (descs s) (dmem s) (blocks_ s).
Definition set_counts (n id : Z) (s : st) : st :=
  MkDomsys (domainMem s) (domainMemBorder s) (domainMemCurrent s) n id (domainsys_inited s) (irqs s) (descs s) (dmem s) (blocks_ s).
Definition set_dmem (m : memory) (s : st) : st :=
  MkDomsys (domainMem s) (domainMemBorder s) (domainMemCurrent s) (numberOfDomains s) (currentDomainID s) (domainsys_inited s) (irqs s) (descs s) m (blocks_ s).
Definition set_blocks (b : B) (s : st) : st :=
  MkDomsys (domainMem s) (domainMemBorder s) (domainMemCurrent s) (numberOfDomains s) (currentDomainID s) (domainsys_inited s) (irqs s) (descs s) (dmem s) b.
Definition put (d : Z) (x : ddesc) (s : st) : st :=
  MkDomsys (domainMem s) (domainMemBorder s) (domainMemCurrent s) (numberOfDomains s) (currentDomainID s) (domainsys_inited s) (irqs s)
    (fun a => if a =? d then x else descs s a) (dmem s) (blocks_ s).

(** ** init_domainsys, up to the creation of DomainZero *)

(** [domainMemStart] is a pointer to words: adding [DOMAINMEM_SIZEBYTES] moves
    it by four times as many bytes *)
Fixpoint mark_free (fuel : nat) (domainMemStart : Z) (s : st) : res st :=
  match fuel with
  | O => Err EFuel
  | S n =>
      if domainMemStart <? domainMemBorder s then
        let d := u32 (domainMemStart + DOMAINDESC_OFFSETBYTES) in
        mark_free n (u32 (domainMemStart + 4 * DOMAINMEM_SIZEBYTES)) (put d (set_dd_state DOMAIN_STATE_FREE (descs s d)) s)
      else Ok s
  end.
Definition init_domainsys (s : st) : res st :=
  let! '(mem, b) := al_alloc DOMAINMEM_TOTALBYTES (blocks_ s) in
  let s := MkDomsys mem (u32 (mem + DOMAINMEM_TOTALBYTES)) mem 0 (currentDomainID s) (domainsys_inited s) (irqs s) (descs s) (dmem s) b in
  let! s := mark_free (S (Z.to_nat MAX_NUMBER_DOMAINS)) mem s in
  Ok (MkDomsys (domainMem s) (domainMemBorder s) (domainMemCurrent s) (numberOfDomains s) (currentDomainID s) true (irqs s) (descs s) (dmem s) (blocks_ s)).

(** ** specialAllocDomainDesc *)

(** [LOCK_DOMAINS] disables interrupts, [UNLOCK_DOMAINS] restores them; both
    returns of [NULL] leave them disabled. *)
Fixpoint find_free (fuel : nat) (domainMemStart : Z) (s : st) : res (Z * st) :=
  match fuel with
  | O => Err EFuel
  | S n =>
      let d := u32 (domainMemCurrent s + DOMAINDESC_OFFSETBYTES) in
      let next := u32 (domainMemCurrent s + DOMAINMEM_SIZEBYTES) in
      let next := if domainMemBorder s <=? next then domainMem s else next in
      let s := set_cursor next s in
      if next =? domainMemStart then Ok (NULL, s)
      else if negb (dd_state (descs s d) =? DOMAIN_STATE_FREE) then find_free n domainMemStart s
      else Ok (d, s)
  end.
Definition specialAllocDomainDesc (s : st) : res (Z * st) :=
  let flags := irqs s in
  let s := set_irqs false s in
  if numberOfDomains s =? MAX_NUMBER_DOMAINS then Ok (NULL, s) else
  let! '(d, s) := find_free (Z.to_nat MAX_NUMBER_DOMAINS) (domainMemCurrent s) s in
  if d =? NULL then Ok (NULL, s) else
  let s := put d (new_ddesc (currentDomainID s)) s in
  let s := set_counts (u32 (numberOfDomains s + 1)) (u32 (currentDomainID s + 1)) s in
  Ok (d, set_irqs flags s).

(** ** Walks over the table *)

(** the descriptors from [mem] on *)
Fixpoint table_from (fuel : nat) (mem border : Z) : res (list Z) :=
  match fuel with
  | O => Err EFuel
  | S n =>
      if mem <? border then
        let! l := table_from n (u32 (mem + DOMAINMEM_SIZEBYTES)) border in
        Ok (u32 (mem + DOMAINDESC_OFFSETBYTES) :: l)
      else Ok []
  end.
Definition table (s : st) : res (list Z) := table_from (S (Z.to_nat MAX_NUMBER_DOMAINS)) (domainMem s) (domainMemBorder s).

Fixpoint first_domain (test : Z -> res bool) (l : list Z) (s : st) : res Z :=
  match l with
  | [] => Ok NULL
  | d :: l =>
      if dd_state (descs s d) =? DOMAIN_STATE_FREE then first_domain test l s else
      let! b := test d in
      if (b : bool) then Ok d else first_domain test l s
  end.
Definition findDomain (id : Z) (s : st) : res Z :=
  let! l := table s in first_domain (fun d => Ok (dd_id (descs s d) =? id)) l s.
(** [fuel] bounds the comparison of names *)
Definition findDomainByName (fuel : nat) (name : Z) (s : st) : res Z :=
  let! l := table s in
  first_domain (fun d =>
    let n := dd_domainName (descs s d) in
    if negb (n =? NULL) then let! c := strcmp fuel (dmem s) n name in Ok (c =? 0) else Ok false) l s.

(** [func] may change the domains that come later *)
Fixpoint for_active (func : Z -> st -> res st) (l : list Z) (s : st) : res st :=
  match l with
  | [] => Ok s
  | d :: l =>
      if negb (dd_state (descs s d) =? DOMAIN_STATE_ACTIVE) then for_active func l s
      else let! s := func d s in for_active func l s
  end.
Definition foreachDomain (func : Z -> st -> res st) (s : st) : res st :=
  if negb (domainsys_inited s) then Ok s else
  let flags := irqs s in
  let s := set_irqs false s in
  let! l := table s in
  let! s := for_active func l s in
  Ok (set_irqs flags s).
Definition getNumberOfDomains (s : st) : Z := numberOfDomains s.

(** ** createDomain *)

Definition gc_mem : Z := MAX_REGISTERED * 4.
Definition gc_init (d mem gcinfo0 gcinfo1 gcinfo2 gcinfo3 gcinfo4 gcImpl : Z) (s : st) : res st :=
  let s := set_dmem (memset (dmem s) mem 0 (MAX_REGISTERED * 4)) s in
  let x := descs s d in
  let! '(g, b) :=
    (if gcImpl =? GC_IMPLEMENTATION_NEW then gc_new_init gcinfo0 (dd_gc x) (blocks_ s)
     else if gcImpl =? GC_IMPLEMENTATION_CHUNKED then gc_chunked_init gcinfo0 gcinfo1 gcinfo2 gcinfo3 gcinfo4 (dd_gc x) (blocks_ s)
     else Err (EThrow "RuntimeException: unknown gc implementation")) in
  Ok (set_blocks b (put d (MkDDesc (dd_maxNumberOfLibs x) (dd_numberOfLibs x) (dd_libs x) (dd_ndx_libs x) (dd_sfields x) (dd_arrayClasses x) (dd_code x) (dd_domainName x)
    mem g (dd_threads x) (dd_service0 x) (dd_state x) (dd_id x) (dd_libMemSize x) (dd_scratchMem x) (dd_scratchMemSize x)) s)).

(** the tables of a domain, one behind the other *)
Record lib_layout := MkLayout { lo_libs : Z; lo_name : Z; lo_ndx : Z; lo_sfields : Z; lo_gc : Z }.
Definition layout (mem len : Z) : lib_layout :=
  let name := u32 (mem + 4 * MAX_NUMBER_LIBS) in
  let ndx := u32 (name + (len + 1)) in
  let sfields := u32 (ndx + 4 * MAX_NUMBER_LIBS) in
  MkLayout mem name ndx sfields (u32 (sfields + 4 * MAX_NUMBER_LIBS)).

Definition createDomain (fuel : nat) (domainName gcinfo0 gcinfo1 gcinfo2 gcinfo3 gcinfo4 code_bytes gcImpl : Z) (s : st) : res (Z * st) :=
  let! '(d, s) := specialAllocDomainDesc s in
  if d =? NULL then Ok (NULL, s) else
  let! '(scratch, b) := al_alloc DOMAIN_SCRATCHMEM_SIZE (blocks_ s) in
  let x := descs s d in
  let cb := s32 (if negb (code_bytes =? u32 (-1)) then code_bytes else CODE_BYTES) in
  let c := MkCode (codeBorder (dd_code x)) (code (dd_code x)) (codeTop (dd_code x)) (-1) cb in
  let! len := strlen fuel (dmem s) domainName in
  let size := u32 (4 * MAX_NUMBER_LIBS + len + 1 + 4 * MAX_NUMBER_LIBS + 4 * MAX_NUMBER_LIBS + gc_mem) in
  let! '(mem, c, b) := malloc_code c size b in
  let l := layout mem len in
  let m := memset (dmem s) (lo_ndx l) 0 (4 * MAX_NUMBER_LIBS) in
  let m := memset m (lo_sfields l) 0 (4 * MAX_NUMBER_LIBS) in
  let! m := strcpy fuel m (lo_name l) domainName in
  let x := MkDDesc MAX_NUMBER_LIBS 0 (lo_libs l) (lo_ndx l) (lo_sfields l) NULL c (lo_name l) (dd_registeredObjects x) (dd_gc x)
             NULL SERVICE_ENTRY_CHANGING (dd_state x) (dd_id x) size scratch DOMAIN_SCRATCHMEM_SIZE in
  let s := put d x (set_blocks b (set_dmem m s)) in
  let! s := gc_init d (lo_gc l) gcinfo0 gcinfo1 gcinfo2 gcinfo3 gcinfo4 gcImpl s in
  Ok (d, put d (set_dd_state DOMAIN_STATE_ACTIVE (descs s d)) s).
End Domains.
