(* ===== verification/DomainsInv.v ===== *)
(** * Allocation and search of domains

    The slots of the table are handed out in the order of the cursor; numbers
    are never given twice; the search finds a domain by its number; a new
    domain has its tables in one block of its own. *)

From S2P Require Import Prelude Mem CString Malloc Alloc CodeMem.
From S2P Require Import GCHeap GCAlloc Domains.
#[local] Open Scope Z_scope.

Section Table.
Context {B : Type} `{!Allocator B}.
Context (sizeof_DomainDesc : Z) (Hsizeof : 0 <= sizeof_DomainDesc < 1000000).
Abbreviation st := (domsys B).
Abbreviation SZ := (DOMAINMEM_SIZEBYTES sizeof_DomainDesc).
Abbreviation specialAllocDomainDesc := (specialAllocDomainDesc sizeof_DomainDesc).
Abbreviation find_free := (find_free sizeof_DomainDesc).

Definition pos (s : st) (i : Z) : Z := domainMem s + i * SZ.
Definition slot (s : st) (i : Z) : Z := pos s i + DOMAINDESC_OFFSETBYTES.
Definition used (s : st) (i : Z) : bool := negb (dd_state (descs s (slot s i)) =? DOMAIN_STATE_FREE).
Definition slots : list Z := seqZ 0 MAX_NUMBER_DOMAINS.

(** the memory of the table and its cursor *)
Record table_ok (s : st) (c : Z) : Prop := {
  tk_mem : 0 <= domainMem s /\ domainMem s + DOMAINMEM_TOTALBYTES sizeof_DomainDesc <= 2147483648;
  tk_border : domainMemBorder s = domainMem s + DOMAINMEM_TOTALBYTES sizeof_DomainDesc;
  tk_cursor : 0 <= c < MAX_NUMBER_DOMAINS /\ domainMemCurrent s = pos s c;
}.
Record domains_ok (s : st) (c : Z) : Prop := {
  dk_table : table_ok s c;
  dk_count : numberOfDomains s = Z.of_nat (length (filter (fun i => used s i = true) slots));
  dk_ids : forall i j, i ∈ slots -> j ∈ slots -> used s i = true -> used s j = true ->
    dd_id (descs s (slot s i)) = dd_id (descs s (slot s j)) -> i = j;
  dk_fresh : forall i, i ∈ slots -> used s i = true -> 0 <= dd_id (descs s (slot s i)) < currentDomainID s;
}.

Lemma SZ_pos : 12 <= SZ.
Proof using Hsizeof. unfold DOMAINMEM_SIZEBYTES, OBJSIZE_DOMAINDESC. pose proof (Z.shiftr_nonneg (sizeof_DomainDesc + 4) 2). lia. Qed.
Lemma in_slots i : i ∈ slots <-> 0 <= i < MAX_NUMBER_DOMAINS.
Proof. unfold slots. rewrite elem_of_seqZ. lia. Qed.
Lemma pos_range s c i : table_ok s c -> 0 <= i <= MAX_NUMBER_DOMAINS ->
  0 <= pos s i <= domainMemBorder s /\ domainMemBorder s <= 2147483648 /\ (i < MAX_NUMBER_DOMAINS -> pos s i + SZ <= domainMemBorder s).
Proof using Hsizeof.
  intros [Hm Hb _] Hi. pose proof SZ_pos. rewrite Hb. unfold pos, DOMAINMEM_TOTALBYTES, MAX_NUMBER_DOMAINS in *. nia.
Qed.
Lemma slot_inj s i j : slot s i = slot s j -> i = j.
Proof using Hsizeof. pose proof SZ_pos. unfold slot, pos. nia. Qed.
Lemma slot_small s c i : table_ok s c -> 0 <= i < MAX_NUMBER_DOMAINS ->
  u32 (pos s i + DOMAINDESC_OFFSETBYTES) = slot s i /\ slot s i <> NULL.
Proof using Hsizeof.
  intros T Hi. pose proof SZ_pos. destruct (pos_range s c i T ltac:(lia)) as (H1 & H2 & H3). unfold slot, DOMAINDESC_OFFSETBYTES, NULL in *.
  rewrite u32_small by lia. lia.
Qed.
(** the step of the cursor *)
Lemma next_pos s c i : table_ok s c -> 0 <= i < MAX_NUMBER_DOMAINS ->
  (if domainMemBorder s <=? u32 (pos s i + SZ) then domainMem s else u32 (pos s i + SZ)) = pos s ((i + 1) mod MAX_NUMBER_DOMAINS).
Proof using Hsizeof.
  intros T Hi. pose proof SZ_pos. destruct (pos_range s c i T ltac:(lia)) as (H1 & H2 & H3). rewrite u32_small by lia.
  pose proof (tk_border _ _ T) as Hb. unfold DOMAINMEM_TOTALBYTES, MAX_NUMBER_DOMAINS in *. destruct (decide (i = 199)) as [->|].
  - change ((199 + 1) mod 200) with 0. rewrite (proj2 (Z.leb_le _ _)); unfold pos; lia.
  - rewrite Z.mod_small by lia. unfold pos in *. destruct (Z.leb_spec (domainMemBorder s) (domainMem s + i * SZ + SZ)); nia.
Qed.

(** ** The search for a free slot *)

Lemma set_cursor_id (s : st) : set_cursor (domainMemCurrent s) s = s.
Proof. by destruct s. Qed.

Lemma find_free_spec (s : st) c : table_ok s c -> forall n k, Z.of_nat n + k = MAX_NUMBER_DOMAINS -> 0 <= k ->
  (forall k', 0 <= k' < k -> used s ((c + k') mod MAX_NUMBER_DOMAINS) = true) ->
  (exists k', k <= k' < MAX_NUMBER_DOMAINS - 1 /\ (forall i, 0 <= i < k' -> used s ((c + i) mod MAX_NUMBER_DOMAINS) = true) /\
    used s ((c + k') mod MAX_NUMBER_DOMAINS) = false /\
    find_free n (pos s c) (set_cursor (pos s ((c + k) mod MAX_NUMBER_DOMAINS)) s) =
      Ok (slot s ((c + k') mod MAX_NUMBER_DOMAINS), set_cursor (pos s ((c + k' + 1) mod MAX_NUMBER_DOMAINS)) s)) \/
  (n = O \/ (forall i, 0 <= i < MAX_NUMBER_DOMAINS - 1 -> used s ((c + i) mod MAX_NUMBER_DOMAINS) = true) /\
    find_free n (pos s c) (set_cursor (pos s ((c + k) mod MAX_NUMBER_DOMAINS)) s) = Ok (NULL, s)).
Proof using Hsizeof.
  intros T. pose proof SZ_pos as HSZ. destruct (tk_cursor _ _ T) as [Hc Hcur]. induction n as [|n IH]; intros k Hn Hk Hused; [right; by left|].
  set (i := (c + k) mod MAX_NUMBER_DOMAINS). assert (Hi : 0 <= i < MAX_NUMBER_DOMAINS) by (apply Z.mod_pos_bound; done).
  assert (Hsucc : (i + 1) mod MAX_NUMBER_DOMAINS = (c + k + 1) mod MAX_NUMBER_DOMAINS) by apply Zplus_mod_idemp_l.
  assert (Hwrap : (c + k + 1) mod MAX_NUMBER_DOMAINS = c <-> k = MAX_NUMBER_DOMAINS - 1).
  { unfold MAX_NUMBER_DOMAINS in *. split; intros E; Z.div_mod_to_equations; lia. }
  assert (Hfree : find_free (S n) (pos s c) (set_cursor (pos s i) s) =
    if pos s ((c + k + 1) mod MAX_NUMBER_DOMAINS) =? pos s c then Ok (NULL, set_cursor (pos s ((c + k + 1) mod MAX_NUMBER_DOMAINS)) s)
    else if used s i then find_free n (pos s c) (set_cursor (pos s ((c + (k + 1)) mod MAX_NUMBER_DOMAINS)) s)
    else Ok (slot s i, set_cursor (pos s ((c + k + 1) mod MAX_NUMBER_DOMAINS)) s)).
  { cbn [Domains.find_free]. change (domainMemCurrent (set_cursor (pos s i) s)) with (pos s i). change (domainMemBorder (set_cursor (pos s i) s)) with (domainMemBorder s).
    change (domainMem (set_cursor (pos s i) s)) with (domainMem s). rewrite (next_pos s c i T Hi), (proj1 (slot_small s c i T Hi)), Hsucc.
    destruct (_ =? pos s c); [done|]. unfold used. cbn [descs set_cursor]. replace (c + (k + 1)) with (c + k + 1) by lia. done. }
  rewrite Hfree. destruct (decide (k = MAX_NUMBER_DOMAINS - 1)) as [Ek|Ek].
  - right. right. rewrite (proj2 Hwrap Ek), Z.eqb_refl. split; [intros j Hj; apply Hused; lia|]. by rewrite <- Hcur, set_cursor_id.
  - rewrite (proj2 (Z.eqb_neq (pos s ((c + k + 1) mod MAX_NUMBER_DOMAINS)) (pos s c)))
      by (intros E; apply Ek, Hwrap, (slot_inj s); unfold slot; lia).
    destruct (used s i) eqn:Eu.
    + destruct (IH (k + 1)) as [(k' & Hk' & Hl & Hf & E)|[->|[Hall E]]]; [lia|lia| | | |].
      * intros k' Hk'. destruct (decide (k' = k)) as [->|]; [exact Eu|apply Hused; lia].
      * left. exists k'. split; [lia|]. by split.
      * unfold MAX_NUMBER_DOMAINS in *. lia.
      * right. right. by split.
    + left. exists k. split; [lia|]. by split; [|split].
Qed.

(** ** specialAllocDomainDesc *)

(** [d] is put into slot [j] *)
Lemma used_put (s : st) x j i n id cur fl : 
  used (set_irqs fl (set_counts n id (put (slot s j) x (set_cursor cur s)))) i = if i =? j then negb (dd_state x =? DOMAIN_STATE_FREE) else used s i.
Proof using Hsizeof.
  unfold used. cbn [descs set_irqs set_counts put set_cursor]. change (slot (set_irqs fl _) i) with (slot s i).
  destruct (Z.eqb_spec (slot s i) (slot s j)) as [E|E].
  - apply slot_inj in E as ->. by rewrite Z.eqb_refl.
  - destruct (Z.eqb_spec i j) as [->|]; done.
Qed.

Lemma filter_ext_in (f g : Z -> bool) (l : list Z) : (forall i, i ∈ l -> g i = f i) -> filter (fun i => g i = true) l = filter (fun i => f i = true) l.
Proof.
  induction l as [|a l IH]; intros He; [done|]. rewrite !filter_cons, (He a) by apply list_elem_of_here. rewrite IH by (intros i Hi; by apply He, list_elem_of_further). done.
Qed.
Lemma filter_change (f g : Z -> bool) (l : list Z) j : NoDup l -> j ∈ l -> f j = false -> g j = true -> (forall i, i <> j -> g i = f i) ->
  length (filter (fun i => g i = true) l) = S (length (filter (fun i => f i = true) l)).
Proof.
  intros Hnd Hj Hf Hg He. induction l as [|a l IH]; [by apply not_elem_of_nil in Hj|]. apply NoDup_cons in Hnd as [Ha Hnd]. rewrite !filter_cons.
  destruct (decide (a = j)) as [->|Hne].
  - rewrite decide_True, decide_False by (done || by rewrite Hf). cbn [length]. rewrite (filter_ext_in f g l); [done|]. intros i Hi. apply He. by intros ->.
  - rewrite (He a Hne). apply elem_of_cons in Hj as [->|Hj]; [done|]. specialize (IH Hnd Hj). destruct (decide (f a = true)); cbn [length]; by rewrite IH.
Qed.
Lemma all_used s : (forall i, i ∈ slots -> used s i = true) -> length (filter (fun i => used s i = true) slots) = Z.to_nat MAX_NUMBER_DOMAINS.
Proof.
  intros Hu. rewrite <- (length_seqZ 0 MAX_NUMBER_DOMAINS). fold slots. revert Hu. generalize slots as l. induction l as [|a l IH]; intros Hu; [done|].
  rewrite filter_cons, decide_True by (by apply Hu, list_elem_of_here). cbn [length]. f_equal. apply IH. intros i Hi. by apply Hu, list_elem_of_further.
Qed.
Lemma all_counted s : length (filter (fun i => used s i = true) slots) = Z.to_nat MAX_NUMBER_DOMAINS -> forall i, i ∈ slots -> used s i = true.
Proof.
  rewrite <- (length_seqZ 0 MAX_NUMBER_DOMAINS). fold slots. generalize slots as l. intros l.
  assert (Hle : forall l, (length (filter (fun i => used s i = true) l) <= length l)%nat) by (intros l'; apply length_filter).
  induction l as [|a l IH]; intros Hl i Hi; [by apply not_elem_of_nil in Hi|]. rewrite filter_cons in Hl. specialize (Hle l).
  destruct (decide (used s a = true)) as [Ha|Ha]; cbn [length] in Hl; [|lia]. apply elem_of_cons in Hi as [->|Hi]; [done|]. apply IH; [lia|done].
Qed.
Lemma nodup_slots : NoDup slots.
Proof. apply NoDup_seqZ. Qed.

(** *** The result *)

(** [s'] is [s] with a new descriptor in slot [j] *)
Record allocated (s s' : st) (j : Z) : Prop := {
  al_new : descs s' (slot s j) = new_ddesc (currentDomainID s);
  al_others : forall a, a <> slot s j -> descs s' a = descs s a;
  al_counts : numberOfDomains s' = numberOfDomains s + 1 /\ currentDomainID s' = currentDomainID s + 1;
  al_rest : irqs s' = irqs s /\ dmem s' = dmem s /\ blocks_ s' = blocks_ s /\ domainsys_inited s' = domainsys_inited s /\ domainMem s' = domainMem s;
}.

Lemma alloc_ok (s : st) c j : domains_ok s c -> 0 <= j < MAX_NUMBER_DOMAINS -> used s j = false -> 0 <= currentDomainID s < 4294967295 ->
  let s' := set_irqs (irqs s) (set_counts (u32 (numberOfDomains s + 1)) (u32 (currentDomainID s + 1))
    (put (slot s j) (new_ddesc (currentDomainID s)) (set_cursor (pos s ((j + 1) mod MAX_NUMBER_DOMAINS)) (set_irqs false s)))) in
  domains_ok s' ((j + 1) mod MAX_NUMBER_DOMAINS) /\ allocated s s' j.
Proof using Hsizeof.
  intros [T Hcount Hids Hfresh] Hj Hfree Hid s'. destruct T as [Hm Hb Hc].
  assert (Hn : 0 <= numberOfDomains s < 4294967295).
  { rewrite Hcount. pose proof (length_filter (fun i => used s i = true) slots) as Hl. unfold slots in Hl at 2. rewrite length_seqZ in Hl. unfold MAX_NUMBER_DOMAINS in *. lia. }
  assert (Hu : forall i, used s' i = if i =? j then true else used s i) by (intros i; exact (used_put (set_irqs false s) (new_ddesc (currentDomainID s)) j i _ _ _ _)).
  assert (Hd : forall i, descs s' (slot s' i) = if i =? j then new_ddesc (currentDomainID s) else descs s (slot s i)).
  { intros i. change (slot s' i) with (slot s i). unfold s'. cbn [descs set_irqs set_counts put set_cursor].
    destruct (Z.eqb_spec (slot s i) (slot s j)) as [E|E]; [apply slot_inj in E as ->; by rewrite Z.eqb_refl|]. destruct (Z.eqb_spec i j) as [->|]; done. }
  split; split.
  - split; [exact Hm|exact Hb|]. split; [by apply Z.mod_pos_bound|done].
  - change (numberOfDomains s') with (u32 (numberOfDomains s + 1)). rewrite u32_small by lia.
    rewrite (filter_change (used s) (used s') slots j nodup_slots); [lia|by apply in_slots|exact Hfree|by rewrite Hu, Z.eqb_refl|].
    intros i Hi. by rewrite Hu, (proj2 (Z.eqb_neq _ _) Hi).
  - intros i k Hi Hk. rewrite !Hu, !Hd. destruct (Z.eqb_spec i j) as [->|], (Z.eqb_spec k j) as [->|]; try done.
    + intros _ Uk E. pose proof (Hfresh k Hk Uk). cbn in E. lia.
    + intros Ui _ E. pose proof (Hfresh i Hi Ui). cbn in E. lia.
    + by apply Hids.
  - intros i Hi. rewrite Hu, Hd. change (currentDomainID s') with (u32 (currentDomainID s + 1)). rewrite u32_small by lia.
    destruct (i =? j); [cbn; lia|]. intros Ui. pose proof (Hfresh i Hi Ui). lia.
  - unfold s'. cbn. by rewrite Z.eqb_refl.
  - intros a Ha. unfold s'. cbn. by rewrite (proj2 (Z.eqb_neq _ _) Ha).
  - unfold s'. cbn. by rewrite !u32_small by lia.
  - done.
Qed.

Lemma alloc_cases (s : st) c : domains_ok s c -> 0 <= currentDomainID s < 4294967295 ->
  (exists k s', 0 <= k < MAX_NUMBER_DOMAINS - 1 /\ let j := (c + k) mod MAX_NUMBER_DOMAINS in
    (forall i, 0 <= i < k -> used s ((c + i) mod MAX_NUMBER_DOMAINS) = true) /\ used s j = false /\
    specialAllocDomainDesc s = Ok (slot s j, s') /\ domains_ok s' ((j + 1) mod MAX_NUMBER_DOMAINS) /\ allocated s s' j) \/
  ((forall i, 0 <= i < MAX_NUMBER_DOMAINS - 1 -> used s ((c + i) mod MAX_NUMBER_DOMAINS) = true) /\
    specialAllocDomainDesc s = Ok (NULL, set_irqs false s)).
Proof using Hsizeof.
  intros D Hid. pose proof D as [T Hcount _ _]. destruct (tk_cursor _ _ T) as [Hc Hcur]. unfold Domains.specialAllocDomainDesc.
  change (numberOfDomains (set_irqs false s)) with (numberOfDomains s). destruct (Z.eqb_spec (numberOfDomains s) MAX_NUMBER_DOMAINS) as [En|En].
  - right. split; [|done]. intros i Hi. apply all_counted; [|apply in_slots; by apply Z.mod_pos_bound]. rewrite <- En, Hcount. by rewrite Nat2Z.id.
  - assert (T' : table_ok (set_irqs false s) c) by (by destruct T).
    change (domainMemCurrent (set_irqs false s)) with (domainMemCurrent s). rewrite Hcur. change (pos s c) with (pos (set_irqs false s) c).
    assert (E0 : set_cursor (pos (set_irqs false s) ((c + 0) mod MAX_NUMBER_DOMAINS)) (set_irqs false s) = set_irqs false s).
    { rewrite Z.add_0_r, Z.mod_small by done. change (pos (set_irqs false s) c) with (pos s c). rewrite <- Hcur. apply (set_cursor_id (set_irqs false s)). }
    destruct (find_free_spec (set_irqs false s) c T' (Z.to_nat MAX_NUMBER_DOMAINS) 0 ltac:(done) ltac:(done) ltac:(lia)) as [(k & Hk & Hl & Hf & E)|[Ez|[Hall E]]]; [|done|].
    + rewrite E0 in E. left. exists k. set (j := (c + k) mod MAX_NUMBER_DOMAINS). assert (Hj : 0 <= j < MAX_NUMBER_DOMAINS) by (by apply Z.mod_pos_bound).
      destruct (alloc_ok s c j D Hj Hf Hid) as [HD HA]. eexists. split; [lia|]. split; [exact Hl|]. split; [exact Hf|]. split; [|split; [exact HD|exact HA]].
      rewrite E. cbn [rbind]. change (slot (set_irqs false s) ((c + k) mod MAX_NUMBER_DOMAINS)) with (slot s j).
      rewrite (proj2 (Z.eqb_neq _ _) (proj2 (slot_small s c j T Hj))). unfold j. by rewrite Zplus_mod_idemp_l.
    + rewrite E0 in E. right. split; [exact Hall|]. rewrite E. done.
Qed.

(** C19 Allocation of domains.  [specialAllocDomainDesc] takes the first free
    slot from the cursor on and puts the cursor behind it; the descriptor is
    cleared and gets a number that no domain has.  It looks at all slots but
    the one before the cursor: when the others are in use it returns [NULL],
    also when that one is free, and leaves interrupts disabled. *)
Theorem specialAllocDomainDesc_first_fit (s : st) c : domains_ok s c -> 0 <= currentDomainID s < 4294967295 ->
  (exists k s', 0 <= k < MAX_NUMBER_DOMAINS - 1 /\ let j := (c + k) mod MAX_NUMBER_DOMAINS in
    (forall i, 0 <= i < k -> used s ((c + i) mod MAX_NUMBER_DOMAINS) = true) /\ used s j = false /\
    specialAllocDomainDesc s = Ok (slot s j, s') /\ domains_ok s' ((j + 1) mod MAX_NUMBER_DOMAINS) /\ allocated s s' j) \/
  ((forall i, 0 <= i < MAX_NUMBER_DOMAINS - 1 -> used s ((c + i) mod MAX_NUMBER_DOMAINS) = true) /\
    specialAllocDomainDesc s = Ok (NULL, set_irqs false s)).
Proof using Hsizeof. apply alloc_cases. Qed.

(** ** Initialisation *)

(** what [mark_free] leaves in the slots from [k] on *)
Lemma mark_free_spec : forall n k (s : st) c, table_ok s c -> (50 - k < n)%nat -> (k <= 50)%nat ->
  exists s', mark_free sizeof_DomainDesc n (pos s (4 * Z.of_nat k)) s = Ok s' /\ table_ok s' c /\
    (numberOfDomains s', currentDomainID s', irqs s', dmem s', blocks_ s', domainMem s') = (numberOfDomains s, currentDomainID s, irqs s, dmem s, blocks_ s, domainMem s) /\
    forall i, 0 <= i < MAX_NUMBER_DOMAINS ->
      descs s' (slot s i) = if (4 * Z.of_nat k <=? i) && (i mod 4 =? 0) then set_dd_state DOMAIN_STATE_FREE (descs s (slot s i)) else descs s (slot s i).
Proof using Hsizeof.
  pose proof SZ_pos as HSZ. induction n as [|n IH]; intros k s c T Hn Hk; [lia|]. cbn [mark_free]. pose proof (tk_border _ _ T) as Hb. destruct (tk_mem _ _ T) as [Hm Hm'].
  destruct (decide (k = 50%nat)) as [->|Hk'].
  - rewrite (proj2 (Z.ltb_ge _ _)) by (rewrite Hb; unfold pos, DOMAINMEM_TOTALBYTES, MAX_NUMBER_DOMAINS; lia). exists s. split_and!; try done.
    intros i Hi. rewrite (proj2 (Z.leb_gt _ _)) by (unfold MAX_NUMBER_DOMAINS in *; lia). done.
  - assert (Hlt : 0 <= 4 * Z.of_nat k < MAX_NUMBER_DOMAINS) by (unfold MAX_NUMBER_DOMAINS; lia).
    destruct (pos_range s c (4 * Z.of_nat k) T ltac:(lia)) as (H1 & H2 & H3).
    rewrite (proj2 (Z.ltb_lt _ _)) by lia. rewrite (proj1 (slot_small s c _ T Hlt)).
    assert (Enext : u32 (pos s (4 * Z.of_nat k) + 4 * SZ) = pos s (4 * Z.of_nat (S k))).
    { rewrite u32_small; [unfold pos; lia|]. unfold pos, DOMAINMEM_TOTALBYTES, MAX_NUMBER_DOMAINS in *. split; [nia|]. assert (4 * Z.of_nat k + 4 <= 200) by lia. nia. }
    rewrite Enext. set (s1 := put _ _ s). assert (T1 : table_ok s1 c) by (by destruct T).
    destruct (IH (S k) s1 c T1 ltac:(lia) ltac:(lia)) as (s' & E & T' & Hrest & Hd). exists s'. split; [exact E|]. split; [exact T'|]. split; [exact Hrest|].
    intros i Hi. rewrite (Hd i Hi : descs s' (slot s i) = _). unfold s1. cbn [descs put].
    change (slot (put (slot s (4 * Z.of_nat k)) (set_dd_state DOMAIN_STATE_FREE (descs s (slot s (4 * Z.of_nat k)))) s) i) with (slot s i).
    destruct (Z.eqb_spec (slot s i) (slot s (4 * Z.of_nat k))) as [Ei|Ei].
    + apply slot_inj in Ei as ->. rewrite (proj2 (Z.leb_gt _ _)), (proj2 (Z.leb_le _ _)) by lia. rewrite (Z.mul_comm 4), Z.mod_mul by done. done.
    + assert (i <> 4 * Z.of_nat k) by (intros ->; done). destruct (Z.leb_spec (4 * Z.of_nat (S k)) i), (Z.leb_spec (4 * Z.of_nat k) i); try lia; try done.
      cbn [andb]. destruct (Z.eqb_spec (i mod 4) 0) as [E4|]; [|done]. exfalso. Z.div_mod_to_equations. lia.
Qed.

(** [init_domainsys] marks every fourth slot as free.  The other three of four
    keep the state that the memory of the table had. *)
Lemma init_domainsys_marks (s : st) mem b : al_ok (blocks_ s) -> al_alloc (DOMAINMEM_TOTALBYTES sizeof_DomainDesc) (blocks_ s) = Ok (mem, b) ->
  exists s', init_domainsys sizeof_DomainDesc s = Ok s' /\ table_ok s' 0 /\ domainsys_inited s' = true /\ numberOfDomains s' = 0 /\ al_ok (blocks_ s') /\
    forall i, 0 <= i < MAX_NUMBER_DOMAINS ->
      descs s' (slot s' i) = if i mod 4 =? 0 then set_dd_state DOMAIN_STATE_FREE (descs s (slot s' i)) else descs s (slot s' i).
Proof using Hsizeof.
  intros Hok E. pose proof SZ_pos as HSZ.
  assert (Htot : 0 < DOMAINMEM_TOTALBYTES sizeof_DomainDesc < 1000000000).
  { unfold DOMAINMEM_TOTALBYTES, MAX_NUMBER_DOMAINS in *. split; [lia|]. unfold DOMAINMEM_SIZEBYTES, OBJSIZE_DOMAINDESC. rewrite Z.shiftr_div_pow2 by lia.
    pose proof (Z.div_le_upper_bound (sizeof_DomainDesc + 4) (2 ^ 2) 300000 ltac:(lia) ltac:(lia)). lia. }
  destruct (al_alloc_spec _ _ _ _ Hok (proj1 Htot) ltac:(lia) E) as (Hok' & Hm & Hm' & _). pose proof (al_span_le (DOMAINMEM_TOTALBYTES sizeof_DomainDesc) ltac:(lia)).
  unfold init_domainsys. rewrite E. cbn [rbind]. rewrite u32_small by lia.
  set (s1 := MkDomsys mem _ mem 0 _ _ _ _ _ b).
  assert (T : table_ok s1 0) by (split; [split; [exact Hm|cbn; lia]|done|split; [done|unfold pos; cbn; lia]]).
  destruct (mark_free_spec (S (Z.to_nat MAX_NUMBER_DOMAINS)) 0 s1 0 T) as (s' & E' & [T1 T2 T3] & Hrest & Hd); [unfold MAX_NUMBER_DOMAINS; lia|lia|].
  replace (pos s1 (4 * Z.of_nat 0)) with mem in E' by (unfold pos; cbn; lia). rewrite E'. cbn [rbind]. injection Hrest as Hn _ _ _ Hbl Hmem.
  eexists. split; [reflexivity|]. split; [by split|]. split; [done|]. split; [exact Hn|]. split; [cbn; by rewrite Hbl|].
  intros i Hi. match goal with |- descs ?y (slot ?y i) = _ => assert (Es : slot y i = slot s1 i) by (unfold slot, pos; cbn; by rewrite Hmem) end.
  rewrite Es. cbn [descs]. rewrite Hd by done. rewrite (proj2 (Z.leb_le _ _)) by lia. done.
Qed.

(** ** Search *)

Lemma table_from_spec (s : st) c : table_ok s c -> forall n k, (200 - k < n)%nat -> (k <= 200)%nat ->
  table_from sizeof_DomainDesc n (pos s (Z.of_nat k)) (domainMemBorder s) = Ok (map (slot s) (seqZ (Z.of_nat k) (200 - Z.of_nat k))).
Proof using Hsizeof.
  pose proof SZ_pos as HSZ. intros T. induction n as [|n IH]; intros k Hn Hk; [lia|]. cbn [table_from].
  destruct (pos_range s c (Z.of_nat k) T ltac:(unfold MAX_NUMBER_DOMAINS; lia)) as (H1 & H2 & H3). unfold MAX_NUMBER_DOMAINS in *. destruct (decide (k = 200%nat)) as [->|].
  - rewrite (proj2 (Z.ltb_ge _ _)) by (pose proof (tk_border _ _ T); unfold pos, DOMAINMEM_TOTALBYTES, MAX_NUMBER_DOMAINS in *; lia). done.
  - rewrite (proj2 (Z.ltb_lt _ _)) by lia. rewrite (proj1 (slot_small s c (Z.of_nat k) T ltac:(unfold MAX_NUMBER_DOMAINS; lia))).
    replace (u32 (pos s (Z.of_nat k) + SZ)) with (pos s (Z.of_nat (S k))) by (rewrite u32_small by lia; unfold pos; lia).
    rewrite IH by lia. cbn [rbind]. rewrite (seqZ_cons (Z.of_nat k)) by lia. cbn [map]. repeat f_equal; lia.
Qed.
Lemma table_spec (s : st) c : table_ok s c -> table sizeof_DomainDesc s = Ok (map (slot s) slots).
Proof using Hsizeof.
  intros T. unfold table. replace (domainMem s) with (pos s (Z.of_nat 0)) by (unfold pos; lia). by rewrite (table_from_spec s c T) by (vm_compute; lia).
Qed.

Lemma first_domain_spec (f : Z -> bool) (s : st) l : exists r, first_domain (fun d => Ok (f d)) l s = Ok r /\
  ((r ∈ l /\ dd_state (descs s r) <> DOMAIN_STATE_FREE /\ f r = true) \/
   (r = NULL /\ forall d, d ∈ l -> dd_state (descs s d) <> DOMAIN_STATE_FREE -> f d = false)).
Proof.
  induction l as [|d l (r & E & HR)]; [exists NULL; split; [done|]; right; split; [done|]; by intros d []%not_elem_of_nil|]. cbn [first_domain].
  assert (Hskip : (dd_state (descs s d) <> DOMAIN_STATE_FREE -> f d = false) -> exists r, first_domain (fun d => Ok (f d)) l s = Ok r /\
    ((r ∈ d :: l /\ dd_state (descs s r) <> DOMAIN_STATE_FREE /\ f r = true) \/
     (r = NULL /\ forall d', d' ∈ d :: l -> dd_state (descs s d') <> DOMAIN_STATE_FREE -> f d' = false))).
  { intros Hd. exists r. split; [exact E|]. destruct HR as [(Hr & H1 & H2)|[-> Hl]]; [left; split; [by apply list_elem_of_further|done]|].
    right. split; [done|]. intros d' [->|Hd']%elem_of_cons; [exact Hd|by apply Hl]. }
  destruct (Z.eqb_spec (dd_state (descs s d)) DOMAIN_STATE_FREE) as [Ef|Ef]; [by apply Hskip|]. cbn [rbind]. destruct (f d) eqn:Efd; [|by apply Hskip].
  exists d. split; [done|]. left. split; [apply list_elem_of_here|done].
Qed.

(** [findDomain] finds the domain with a number, and only if there is one. *)
Theorem findDomain_exact (s : st) c id : domains_ok s c -> exists r, findDomain sizeof_DomainDesc id s = Ok r /\
  forall i, i ∈ slots -> used s i = true -> (dd_id (descs s (slot s i)) = id <-> r = slot s i).
Proof using Hsizeof.
  intros D. pose proof D as [T _ Hids _]. unfold findDomain. rewrite (table_spec s c T). cbn [rbind].
  destruct (first_domain_spec (fun d => dd_id (descs s d) =? id) s (map (slot s) slots)) as (r & E & HR). exists r. split; [exact E|].
  intros i Hi Hu. assert (Hns : slot s i <> NULL) by (apply (slot_small s c i T), in_slots, Hi).
  destruct HR as [(Hr & Hst & Hid)|[-> Hno]].
  - apply list_elem_of_In, in_map_iff in Hr as (j & <- & Hj%list_elem_of_In). apply Z.eqb_eq in Hid.
    assert (Huj : used s j = true) by (unfold used; by rewrite (proj2 (Z.eqb_neq _ _) Hst)). split.
    + intros Ei. f_equal. apply Hids; try done. congruence.
    + intros Ej. by rewrite <- Ej.
  - split; [|intros Ej; by destruct Hns]. intros Ei. exfalso. assert (Hm : slot s i ∈ map (slot s) slots) by (by apply list_elem_of_In, in_map, list_elem_of_In).
    assert (Hst : dd_state (descs s (slot s i)) <> DOMAIN_STATE_FREE) by (intros E0; unfold used in Hu; by rewrite E0 in Hu).
    specialize (Hno _ Hm Hst). apply Z.eqb_neq in Hno. done.
Qed.

(** ** createDomain *)

Lemma domains_ok_put (s : st) c j x : domains_ok s c -> used s j = true -> dd_state x <> DOMAIN_STATE_FREE -> dd_id x = dd_id (descs s (slot s j)) ->
  domains_ok (put (slot s j) x s) c.
Proof using Hsizeof.
  intros [[Hm Hb Hc] Hcount Hids Hfresh] Hj Hx Hid. set (s' := put _ _ s).
  assert (Hd : forall i, descs s' (slot s' i) = if i =? j then x else descs s (slot s i)).
  { intros i. change (slot s' i) with (slot s i). unfold s'. cbn [descs put]. destruct (Z.eqb_spec (slot s i) (slot s j)) as [E|E]; [apply slot_inj in E as ->; by rewrite Z.eqb_refl|].
    destruct (Z.eqb_spec i j) as [->|]; done. }
  assert (Hu : forall i, used s' i = used s i).
  { intros i. unfold used at 1. rewrite Hd. destruct (Z.eqb_spec i j) as [->|]; [|done]. by rewrite Hj, (proj2 (Z.eqb_neq _ _) Hx). }
  assert (Hi : forall i, dd_id (descs s' (slot s' i)) = dd_id (descs s (slot s i))) by (intros i; rewrite Hd; destruct (Z.eqb_spec i j) as [->|]; done).
  split; [by split| | |].
  - change (numberOfDomains s') with (numberOfDomains s). rewrite Hcount. by rewrite (filter_ext_in (used s) (used s')).
  - intros i k Hi1 Hk1. rewrite !Hu, !Hi. by apply Hids.
  - intros i Hi1. rewrite Hu, Hi. by apply Hfresh.
Qed.
Lemma domains_ok_mem (s : st) c m : domains_ok s c -> domains_ok (set_dmem m s) c.
Proof. intros [[? ? ?] ? ? ?]. by split. Qed.
Lemma domains_ok_blocks (s : st) c b : domains_ok s c -> domains_ok (set_blocks b s) c.
Proof. intros [[? ? ?] ? ? ?]. by split. Qed.
(** a live descriptor at [d] is replaced by one with the same number *)
Definition live (s : st) (c d id : Z) : Prop :=
  domains_ok s c /\ exists j, slot s j = d /\ used s j = true /\ dd_id (descs s d) = id.
Lemma live_put (s : st) c d id x : live s c d id -> dd_state x <> DOMAIN_STATE_FREE -> dd_id x = id -> live (put d x s) c d id.
Proof using Hsizeof.
  intros (D & j & <- & Hu & Hid) Hx Hxid. split; [apply domains_ok_put; congruence|]. exists j. split; [done|].
  unfold used. change (slot (put (slot s j) x s) j) with (slot s j). cbn [descs put]. rewrite (Z.eqb_refl (slot s j)), (proj2 (Z.eqb_neq _ _) Hx). done.
Qed.
Lemma live_mem (s : st) c d id m : live s c d id -> live (set_dmem m s) c d id.
Proof. intros [D (j & ? & ? & ?)]. split; [by apply domains_ok_mem|]. by exists j. Qed.
Lemma live_blocks (s : st) c d id b : live s c d id -> live (set_blocks b s) c d id.
Proof. intros [D (j & ? & ? & ?)]. split; [by apply domains_ok_blocks|]. by exists j. Qed.

(** the tables of a domain in the block at [mem], with a name of [len] characters *)
Definition tables_size (len : Z) : Z := 4 * MAX_NUMBER_LIBS + len + 1 + 4 * MAX_NUMBER_LIBS + 4 * MAX_NUMBER_LIBS + gc_mem.
Lemma layout_ok mem len : 0 <= mem -> 0 <= len -> mem + tables_size len <= 2147483648 ->
  layout mem len = MkLayout mem (mem + 400) (mem + 400 + (len + 1)) (mem + 800 + (len + 1)) (mem + 1200 + (len + 1)).
Proof.
  unfold tables_size, layout, gc_mem, MAX_NUMBER_LIBS, MAX_REGISTERED. intros H1 H2 H3. cbv zeta. rewrite !u32_small; rewrite ?u32_small; try lia. f_equal; lia.
Qed.

(** a domain with its tables at [mem] *)
Record created (s s' : st) (d mem id : Z) (g : gc_state unit) (cc : domain_code) (l : list Z) : Prop := {
  cr_state : dd_state (descs s' d) = DOMAIN_STATE_ACTIVE /\ dd_id (descs s' d) = id /\ dd_threads (descs s' d) = NULL /\ dd_numberOfLibs (descs s' d) = 0;
  cr_name : dd_domainName (descs s' d) = mem + 400 /\ cstr (dmem s') (mem + 400) l;
  cr_libs : dd_libs (descs s' d) = mem;
  cr_index : dd_ndx_libs (descs s' d) = mem + 401 + Z.of_nat (length l) /\ dd_sfields (descs s' d) = mem + 801 + Z.of_nat (length l) /\
    dd_registeredObjects (descs s' d) = mem + 1201 + Z.of_nat (length l);
  cr_clear : forall x, mem + 401 + Z.of_nat (length l) <= x < mem + tables_size (Z.of_nat (length l)) -> load8 (dmem s') x = 0;
  cr_memory : forall x, ~ mem <= x < mem + tables_size (Z.of_nat (length l)) -> load8 (dmem s') x = load8 (dmem s) x;
  cr_heap : dd_gc (descs s' d) = g;
  cr_code : dd_code (descs s' d) = cc /\ forall x, in_use cc x <-> mem <= x < mem + tables_size (Z.of_nat (length l));
}.

Lemma tables_memory m name l mem fuel : let len := Z.of_nat (length l) in
  cstr m name l -> (length l < fuel)%nat -> 0 <= mem -> mem + tables_size len <= 2147483648 ->
  (forall x, name <= x <= name + len -> ~ mem <= x < mem + tables_size len) ->
  exists m', strcpy fuel (memset (memset m (mem + 401 + len) 0 400) (mem + 801 + len) 0 400) (mem + 400) name = Ok m' /\
    let m' := memset m' (mem + 1201 + len) 0 200 in
    cstr m' (mem + 400) l /\ (forall x, mem + 401 + len <= x < mem + tables_size len -> load8 m' x = 0) /\
    forall x, ~ mem <= x < mem + tables_size len -> load8 m' x = load8 m x.
Proof.
  intros len Hn Hf Hm Hend Hapart. unfold tables_size, gc_mem, MAX_NUMBER_LIBS, MAX_REGISTERED in *. set (m1 := memset (memset m _ 0 400) _ 0 400).
  assert (Hm1 : forall x, load8 m1 x = if (mem + 401 + len <=? x) && (x <? mem + 1201 + len) then 0 else load8 m x).
  { intros x. unfold m1. rewrite !memset_load by lia. zbool. }
  assert (Hlen : 0 <= len) by (unfold len; lia).
  assert (Hn1 : cstr m1 name l).
  { eapply cstr_frame; [exact Hn|]. intros x Hx. fold len in Hx. rewrite Hm1. specialize (Hapart x Hx). zbool. }
  destruct (strcpy_cstr l fuel m1 (mem + 400) name Hn1 Hf) as (m2 & E & Hc & Ho).
  { pose proof (Hapart name ltac:(lia)). pose proof (Hapart (name + len) ltac:(lia)). fold len.
    destruct (Z.le_gt_cases (mem + 400) name); [destruct (Z.le_gt_cases (mem + (4 * 100 + len + 1 + 4 * 100 + 4 * 100 + 50 * 4)) name); lia|].
    destruct (Z.le_gt_cases mem (name + len)); [|lia]. pose proof (Hapart mem). lia. }
  exists m2. split; [exact E|]. fold len in Ho. cbv zeta. split; [|split].
  - eapply cstr_frame; [exact Hc|]. intros x Hx. fold len in Hx. rewrite memset_load by lia. zbool.
  - intros x Hx. rewrite memset_load by lia. destruct (Z.leb_spec (mem + 1201 + len) x), (Z.ltb_spec x (mem + 1201 + len + 200)); try lia; cbn [andb]; [done|].
    rewrite Ho by lia. rewrite Hm1. zbool.
  - intros x Hx. rewrite memset_load by lia. destruct (Z.leb_spec (mem + 1201 + len) x), (Z.ltb_spec x (mem + 1201 + len + 200)); cbn [andb]; try lia; rewrite Ho by lia; rewrite Hm1; zbool.
Qed.

(** C18 A new domain.  When there is a slot, and scratch memory, code memory
    and a heap, [createDomain] succeeds: the domain is active in the table with
    a number of its own, its tables and its name are one block of its own code
    memory, the name is a copy of the one given, the tables that are indexed by
    library and the one of registered objects are empty, and no byte outside of
    the block is written. *)
Theorem createDomain_active (s s1 : st) c d fuel name l gcinfo0 gcinfo1 gcinfo2 gcinfo3 gcinfo4 code_bytes scratch b1 mem cc b2 g b3 gc_chunked_init :
  domains_ok s c -> 0 <= currentDomainID s < 4294967295 -> al_ok (blocks_ s) ->
  specialAllocDomainDesc s = Ok (d, s1) -> d <> NULL ->
  cstr (dmem s) name l -> (length l < fuel)%nat -> Z.of_nat (length l) < 1000000 -> (forall x, name <= x <= name + Z.of_nat (length l) -> owned (blocks_ s) x) ->
  0 < code_bytes < 2147483648 -> al_alloc DOMAIN_SCRATCHMEM_SIZE (blocks_ s) = Ok (scratch, b1) ->
  malloc_code (MkCode (replicate 128 0) (replicate 128 0) (replicate 128 0) (-1) code_bytes) (tables_size (Z.of_nat (length l))) b1 = Ok (mem, cc, b2) ->
  gc_new_init gcinfo0 no_gc b2 = Ok (g, b3) ->
  exists s' c', createDomain sizeof_DomainDesc gc_chunked_init fuel name gcinfo0 gcinfo1 gcinfo2 gcinfo3 gcinfo4 code_bytes GC_IMPLEMENTATION_NEW s = Ok (d, s') /\
    domains_ok s' c' /\ irqs s' = irqs s /\ created s s' d mem (currentDomainID s) g cc l /\ forall a, a <> d -> descs s' a = descs s a.
Proof using Hsizeof.
  intros D Hid Hal Esp Hd0 Hn Hf Hl Hown Hcb Esc Ecode Egc. destruct (alloc_cases s c D Hid) as [(k & s1' & Hk & _ & Hfree & E & D1 & A)|[_ E]];
    rewrite E in Esp; [|injection Esp as <- _; by destruct Hd0]. injection Esp as <- <-. set (j := (c + k) mod MAX_NUMBER_DOMAINS) in *.
  pose proof A as [Hnew Hoth Hcnt (Hirq & Hdm & Hbl & _ & Hmem)]. set (len := Z.of_nat (length l)) in *. assert (Hlen : 0 <= len) by (unfold len; lia).
  set (c0 := MkCode _ _ _ (-1) code_bytes) in Ecode.
  assert (Hts : 0 < tables_size len < 2147483648) by (unfold tables_size, gc_mem, MAX_NUMBER_LIBS, MAX_REGISTERED; lia).
  destruct (al_alloc_spec DOMAIN_SCRATCHMEM_SIZE _ _ _ Hal ltac:(done) ltac:(done) Esc) as (Hal1 & _ & _ & _ & _ & Ho1 & _).
  assert (Hc0 : code_ok c0 b1) by (split; cbn; [done|unfold CODE_FRAGMENTS; lia|lia|intros; lia|intros; lia]).
  destruct (malloc_code_spec c0 (tables_size len) b1 mem cc b2 Hal1 Hc0 ltac:(lia) Ecode) as (_ & Hcc & _ & Hin). destruct (malloc_code_bound c0 (tables_size len) b1 mem cc b2 Hal1 Hc0 Hts Ecode) as [Hm0 Hm1].
  assert (Hnot : forall x, ~ in_use c0 x) by (intros x (i & Hi & _); cbn in Hi; lia).
  assert (Hin' : forall x, in_use cc x <-> mem <= x < mem + tables_size len) by (intros x; rewrite Hin; specialize (Hnot x); tauto).
  assert (Hapart : forall x, name <= x <= name + len -> ~ mem <= x < mem + tables_size len).
  { intros x Hx. rewrite <- Hin'. eapply foreign_not_in_use; [exact Hcc|]. eapply malloc_code_foreign; [exact Hal1|exact Hc0|exact Ecode|].
    split; [apply Ho1; left; by apply Hown|intros i Hi; cbn in Hi; lia]. }
  destruct (tables_memory (dmem s) name l mem fuel Hn Hf Hm0 Hm1 Hapart) as (m2 & Ecpy & Hname & Hclear & Hout). fold len in Ecpy, Hname, Hclear, Hout.
  unfold createDomain. rewrite E. cbn [rbind]. rewrite (proj2 (Z.eqb_neq _ _) Hd0), Hbl, Esc. cbn [rbind]. rewrite Hnew, Hdm.
  rewrite (strlen_cstr fuel (dmem s) name l Hn Hf). cbn [rbind dd_code new_ddesc cleared_code codeBorder code codeTop]. fold len.
  rewrite (proj2 (Z.eqb_neq code_bytes (u32 (-1)))) by (change (u32 (-1)) with 4294967295; lia). cbn [negb]. rewrite (s32_small code_bytes) by lia.
  change (4 * MAX_NUMBER_LIBS + len + 1 + 4 * MAX_NUMBER_LIBS + 4 * MAX_NUMBER_LIBS + gc_mem) with (tables_size len). rewrite (u32_small (tables_size len)) by lia.
  fold c0. rewrite Ecode. cbn [rbind]. rewrite (layout_ok mem len Hm0 Hlen Hm1). cbn [lo_ndx lo_sfields lo_name lo_libs lo_gc].
  replace (mem + 400 + (len + 1)) with (mem + 401 + len) by lia. replace (mem + 800 + (len + 1)) with (mem + 801 + len) by lia.
  replace (mem + 1200 + (len + 1)) with (mem + 1201 + len) by lia. change (4 * MAX_NUMBER_LIBS) with 400. rewrite Ecpy. cbn [rbind].
  unfold gc_init. cbn [descs put set_dmem set_blocks dmem blocks_]. rewrite (Z.eqb_refl (slot s j)), (Z.eqb_refl GC_IMPLEMENTATION_NEW). cbn [dd_gc new_ddesc]. rewrite Egc.
  cbn [rbind]. change (MAX_REGISTERED * 4) with 200. cbn [descs put set_dmem set_blocks]. rewrite (Z.eqb_refl (slot s j)).
  assert (HL : live s1' ((j + 1) mod MAX_NUMBER_DOMAINS) (slot s j) (currentDomainID s)).
  { assert (Hs : slot s1' j = slot s j) by (unfold slot, pos; by rewrite Hmem). split; [exact D1|]. exists j. split; [exact Hs|]. split; [unfold used; by rewrite Hs, Hnew|by rewrite Hnew]. }
  eexists _, _. split; [reflexivity|]. split; [|split; [exact Hirq|split]].
  - refine (proj1 (live_put _ _ _ (currentDomainID s) _ _ _ _)); [|done|done]. apply live_blocks. apply live_put; [|done|done]. apply live_mem.
    apply live_put; [|done|done]. apply live_blocks, live_mem, HL.
  - split; cbn [descs put set_dmem set_blocks dmem]; rewrite ?(Z.eqb_refl (slot s j)); cbn [dd_state dd_id dd_threads dd_numberOfLibs dd_domainName dd_libs dd_ndx_libs dd_sfields dd_registeredObjects dd_gc dd_code set_dd_state new_ddesc]; done.
  - intros a Ha. cbn [descs put set_dmem set_blocks]. rewrite (proj2 (Z.eqb_neq _ _) Ha). by apply Hoth.
Qed.
End Table.

(** ** A table with two domains

    The descriptors are at 1 MB, the blocks of the allocator at 2 MB; slots 0
    and 1 are in use, the cursor is at slot 1.  The name of the new domain is at
    0x100. *)

Definition sample_pool : malloc_state := MkMalloc 2097152 2621440 512 511 1 2097152 64 1 true (upd (fun _ => 0) 2097152 1).
Definition free_desc : ddesc := set_dd_state DOMAIN_STATE_FREE (new_ddesc 0).
Definition sample_slot (i : Z) : Z := 1048576 + i * DOMAINMEM_SIZEBYTES 1000 + 12.
Definition sample_domains : domsys malloc_state :=
  MkDomsys 1048576 (1048576 + DOMAINMEM_TOTALBYTES 1000) (1048576 + DOMAINMEM_SIZEBYTES 1000) 2 2 true true
    (fun a => if a =? sample_slot 0 then set_dd_state DOMAIN_STATE_ACTIVE (new_ddesc 0)
              else if a =? sample_slot 1 then set_dd_state DOMAIN_STATE_ACTIVE (new_ddesc 1) else free_desc)
    (upd (upd (fun _ => 0) 0x100 68) 0x101 49) sample_pool.

Lemma sample_slot_used i : used 1000 sample_domains i = (i =? 0) || (i =? 1).
Proof.
  unfold used. change (slot 1000 sample_domains i) with (sample_slot i). cbn [descs sample_domains].
  destruct (Z.eqb_spec i 0) as [->|H0]; [done|]. destruct (Z.eqb_spec i 1) as [->|H1]; [done|].
  assert (Hne : forall j, i <> j -> sample_slot i <> sample_slot j).
  { intros j Hj. unfold sample_slot. change (DOMAINMEM_SIZEBYTES 1000) with 1016. lia. }
  rewrite (proj2 (Z.eqb_neq _ _) (Hne 0 H0)), (proj2 (Z.eqb_neq _ _) (Hne 1 H1)). done.
Qed.
Lemma sample_table_ok : domains_ok 1000 sample_domains 1.
Proof.
  split.
  - split; [split; [done|by vm_compute]|done|done].
  - rewrite (filter_ext_in (fun i => (i =? 0) || (i =? 1)) (used 1000 sample_domains)) by (intros i _; apply sample_slot_used). by vm_compute.
  - intros i j _ _. rewrite !sample_slot_used. intros [H1|H1]%orb_true_iff [H2|H2]%orb_true_iff; apply Z.eqb_eq in H1, H2; subst i j; done.
  - intros i _. rewrite sample_slot_used. intros [H1|H1]%orb_true_iff; apply Z.eqb_eq in H1; subst i; done.
Qed.

Lemma specialAllocDomainDesc_first_fit_witness :
  exists s', specialAllocDomainDesc 1000 sample_domains = Ok (sample_slot 2, s') /\ numberOfDomains s' = 3 /\ dd_id (descs s' (sample_slot 2)) = 2.
Proof.
  destruct (specialAllocDomainDesc_first_fit 1000 ltac:(lia) sample_domains 1 sample_table_ok ltac:(vm_compute; split; congruence))
    as [(k & s' & Hk & Hl & Hf & E & _ & A)|[Hall _]].
  - assert (k = 1) as ->.
    { destruct (decide (k = 0)) as [->|]; [rewrite sample_slot_used in Hf; discriminate Hf|]. destruct (decide (k = 1)) as [->|]; [done|].
      exfalso. specialize (Hl 1 ltac:(lia)). rewrite sample_slot_used in Hl. discriminate Hl. }
    exists s'. split; [exact E|]. destruct A as [Hn _ [Hc _] _]. split; [exact Hc|].
    change (slot 1000 sample_domains ((1 + 1) mod MAX_NUMBER_DOMAINS)) with (sample_slot 2) in Hn. by rewrite Hn.
  - specialize (Hall 1 ltac:(unfold MAX_NUMBER_DOMAINS; lia)). rewrite sample_slot_used in Hall. discriminate Hall.
Defined.

Lemma createDomain_active_witness : exists d s', 
  createDomain 1000 (fun _ _ _ _ _ _ _ => Err EFault) 10 0x100 12288 (-1) (-1) NULL (-1) 4096 GC_IMPLEMENTATION_NEW sample_domains = Ok (d, s') /\
  dd_state (descs s' d) = DOMAIN_STATE_ACTIVE /\ cstr (dmem s') (dd_domainName (descs s' d)) [68; 49].
Proof.
  assert (H0 : match specialAllocDomainDesc 1000 sample_domains with Ok (d, _) => negb (d =? NULL) | Err _ => false end = true) by (vm_compute; reflexivity).
  assert (H1 : match al_alloc DOMAIN_SCRATCHMEM_SIZE sample_pool with
    | Ok (_, b1) => match malloc_code (MkCode (replicate 128 0) (replicate 128 0) (replicate 128 0) (-1) 4096) (tables_size 2) b1 with
        | Ok (_, b2) => match gc_new_init 12288 no_gc b2 with Ok _ => true | Err _ => false end
        | Err _ => false end
    | Err _ => false end = true) by (vm_compute; reflexivity).
  destruct (specialAllocDomainDesc 1000 sample_domains) as [[d s1]|] eqn:E0; [|discriminate H0]. apply negb_true_iff, Z.eqb_neq in H0.
  destruct (al_alloc DOMAIN_SCRATCHMEM_SIZE sample_pool) as [[scratch b1]|] eqn:E1; [|discriminate H1].
  destruct (malloc_code _ (tables_size 2) b1) as [[[mem cc] b2]|] eqn:E2; [|discriminate H1].
  destruct (gc_new_init 12288 no_gc b2) as [[g b3]|] eqn:E3; [|discriminate H1].
  assert (Hp : al_ok sample_pool) by (change (malloc_good sample_pool); split; [by constructor; vm_compute|done]).
  destruct (createDomain_active 1000 ltac:(lia) sample_domains s1 1 d 10 0x100 [68; 49] 12288 (-1) (-1) NULL (-1) 4096 scratch b1 mem cc b2 g b3
    (fun _ _ _ _ _ _ _ => Err EFault) sample_table_ok ltac:(vm_compute; split; congruence) Hp E0 H0) as (s' & c' & E & _ & _ & C & _).
  - split; [|by repeat constructor]. intros [|[|[|i]]] x [= <-]; reflexivity.
  - cbn. lia.
  - cbn. lia.
  - intros x Hx. left. cbn in *. lia.
  - lia.
  - exact E1.
  - exact E2.
  - exact E3.
  - exists d, s'. split; [exact E|]. split; [apply (cr_state _ _ _ _ _ _ _ _ C)|]. destruct (cr_name _ _ _ _ _ _ _ _ C) as [-> Hc]. exact Hc.
Defined.
